(* ===== verification/_CoqProject ===== *)
-Q . S2P
Prelude.v
StateMonad.v
Serialize.v
BusData.v
PlugAddress.v
AvcCommand.v
AvcCommands.v
AvcDefinitions.v
StreamFormat.v
ExtPlugInfo.v
FunctionBlock.v
Memory.v
MidiQueue.v
Ports.v
Cip.v
RingBuffer.v
RingBufferThreads.v
CycleTimer.v
MachineFloat.v
TimestampedBuffer.v
StreamProcessor.v
StreamWorld.v
Motu.v
MotuControls.v
MotuReceive.v
MotuTransmit.v
MotuMidi.v
MotuBlocks.v
MotuLink.v
Amdtp.v
AmdtpReceive.v
AmdtpTransmit.v
AmdtpLink.v
AmdtpStart.v
AmdtpSse.v
StreamManager.v
StreamPeriod.v
IsoHandler.v
IsoTask.v
IsoManager.v
IsoStream.v
Ieee1394Service.v
FcpTransaction.v
IsoChannels.v
BusRequests.v
Efc.v
EfcCommands.v
EfcSafety.v
EfcDevice.v
EfcFlash.v
FlashDevice.v
FlashMemory.v
SessionCrc.v
FireworksSession.v
MessageQueue.v
IpcRing.v
IpcCalls.v
IpcFifo.v
IpcWrites.v
