(* ===== verification/Prelude.v ===== *)
(** * FFADO: a verification development

    FFADO is a user-space driver for FireWire audio devices.  A client (the
    JACK server) hands it buffers with audio and MIDI every period; the library
    moves them to and from isochronous packets on the bus, keeps the streams of
    a device synchronised by their timestamps, and configures the devices with
    AV/C and vendor commands.  This library models src/libffado/src; file names
    below are relative to it.

    ** The parts and how they interact

    - Commands.  A command object is serialised into an FCP frame, sent, and
      parses the response (libavc, libutil/cmd_serialize).
    - Time.  Everything is stamped in ticks of 1/24576000 s that wrap after 128
      seconds (libieee1394/cycletimer.h); a packet carries the low bits only.
    - Streams.  The iso threads poll the handlers (libieee1394/IsoHandlerManager);
      a handler gives every packet to its stream processor (libstreaming/generic)
      or takes one; the processor's subclass (libstreaming/amdtp, motu) knows the
      packet format; the frames go through a timestamped buffer (libutil) that
      follows their timestamps with a delay locked loop.
    - Bus.  One service object per FireWire port (libieee1394/ieee1394service)
      sends the requests, collects the responses, allocates isochronous channels
      and tells its clients about bus resets.
    - A device: the FireWorks devices (fireworks) are controlled with EFC messages
      inside of vendor dependent AV/C commands; their settings, the session block,
      live in their flash memory.
    - Periods.  The manager (libstreaming/StreamProcessorManager) starts the
      processors in step, waits until each has a period of frames, and has the
      subclasses move it to or from the buffers of the ports.

    ** Files

    Foundations:
    - Prelude: machine integers ([wrapU], [wrapS], [u32] ...), their tactics
      ([width_lia], [div_lia]) and the shared lemmas on bits and lists.
    - StateMonad: state passing with failure, for components that call each
      other through a shared store, and the calculus [StKeeps] of preservation.
    - Memory: loops with their rules, ByteSwap.h, quadlets in bytes, the client's
      buffers.  MachineFloat: float and double, executable, rounding to even.

    AV/C commands, in the order of their dependencies:
    - Serialize: libutil/cmd_serialize (writers, readers, the bounded buffers).
    - BusData: the interface IBusData and its round-trip law.
    - PlugAddress: libavc/general/avc_extended_cmd_generic.
    - AvcCommand: libavc/general/avc_generic, with AVCCommand::fire.
    - AvcCommands: unit, subunit and plug info, signal format, vendor dependent,
      connect (libavc/general), signal source (libavc/ccm).
    - AvcDefinitions, StreamFormat, ExtPlugInfo, FunctionBlock: the files of
      libavc of these names.

    Streaming:
    - CycleTimer: libieee1394/cycletimer.h.  Cip: libstreaming/util/cip.
    - RingBuffer: libutil/ringbuffer.c; RingBufferThreads: the same with a reader
      and a writer whose memory accesses interleave.
    - TimestampedBuffer: libutil/TimestampedBuffer.
    - Ports: Port and PortManager of libstreaming/generic.
    - StreamProcessor: libstreaming/generic/StreamProcessor; a record of the
      object, one definition per method in a state monad, the class [SPChild] for
      the virtual functions, [SPEnv] for the managers, the service and the ports.
    - StreamWorld: what the subclasses share.  Amdtp, AmdtpReceive, AmdtpTransmit,
      AmdtpSse, AmdtpLink: libstreaming/amdtp (the last relates the two ends of a
      stream).  MidiQueue: the MIDI queue of the receivers.  Motu, MotuControls,
      MotuReceive, MotuTransmit, MotuMidi, MotuBlocks, MotuLink:
      libstreaming/motu, with the same division.
    - StreamManager, StreamPeriod: libstreaming/StreamProcessorManager.
    - IsoHandler, IsoTask, IsoManager: libieee1394/IsoHandlerManager; IsoStream:
      the handlers composed with the stream processors.

    The bus, libieee1394/ieee1394service:
    - Ieee1394Service: the object with its transaction block, the callbacks of
      libraw1394 (FCP responses, bus resets, ARM) and the single requests.
    - FcpTransaction: an FCP transaction from the request to the response or the
      timeout, and AV/C commands over it.
    - IsoChannels: the table of channels and the accounts of bandwidth.
    - BusRequests: split timeout, bus generation, bus reset storms, ARM ranges.

    FireWorks devices:
    - Efc: fireworks/efc/efc_cmd and efc_avc_cmd; EfcCommands: the commands in
      fireworks/efc/efc_cmds_*; EfcSafety: what a response can do to their parsers.
    - EfcDevice: fireworks/fireworks_device, from one EFC transaction to clock and
      flash memory; EfcFlash: the transactions with a device that answers.
    - FlashDevice: the promises of a flash memory, and an executable one.
      FlashMemory: reading, writing and erasing over them.
    - SessionCrc, FireworksSession: fireworks/fireworks_session_block.

    Between processes, libutil:
    - MessageQueue: PosixMessageQueue and the transfers of PosixSharedMemory over
      the calls of the operating system ([PosixMq]).
    - IpcRing: IpcRingBuffer; IpcCalls: what each of its calls does on a queue
      that keeps its promises.  IpcFifo: a sender and a receiver whose calls and
      byte accesses interleave; IpcWrites: the whole calls one after the other.

    ** How code is modelled

    A method is a function from the state of its object (a record with the
    members) to the new state and the result; objects that point at each other
    live in a store (gmap) by address.  [None] is undefined behaviour: an access
    outside of a block, a null pointer, an uninitialised member, a failing assert,
    an integer conversion out of range, an exception of the standard library, or
    a loop that has used up its fuel.  Integers wrap where the C++ types do.  The
    release build is modelled; blocks under DEBUG only print unless a definition
    has a [DEBUG] argument.

    Code that is not part of the library is an argument of the model, as a class
    of operations: the bus that answers AV/C frames ([fire]; FcpTransaction runs it
    on the service), [Raw1394] (libraw1394 below the service), [SPEnv], [SPMEnv]
    and [ManagedStream] (the manager's view of time and processors), [IsoEnv] and
    [IsoClient] (libraw1394, poll, the clients of a handler), [MotuEnv],
    [PacketSize], [EfcBus] (the bus under a FireWorks device), [PosixMq] and
    [IpcEnv] (message queues, shared memory and waiting). [EfcCmdClass] holds
    the virtual functions of an EFC command. The laws that a client relies on
    are separate classes ([SPChildLaws], [SeeLaws], [PeriodLaws],
    [IsoClientLaws]; [FcpDelivers], [FcpClock], [IrmLaws] and [CsrLaws] state
    what the standards of the bus document, [FlashDevice] what a NOR flash does,
    [PosixMqLaws] what POSIX promises of a queue, [EfcSafe] that a parser is
    safe); the instances for the modelled code prove them, so that the theorems
    compose: AmdtpReceive_SPChild and MotuTransmit_SPChild are subclasses of the
    stream processor, [processor_stream] makes a stream processor a stream of
    the manager, [stream_client] makes it a client of the iso handlers.

    ** Theorems

    - Commands: the buffers implement an abstract byte stream; every command
      survives serialisation and parsing; what a transaction returns.
    - Time: tick arithmetic is arithmetic modulo 128 s; a timestamp of 16 bits
      (SYT) or 25 bits (SPH) is expanded to the time that was meant.
    - Buffers: ring buffer and timestamped buffer are queues, also under every
      interleaving of two threads; block processing hands out consecutive regions.
    - Stream processor: its state machine, the invariants of every reachable
      state, when a stream starts and stops, what an xrun does.
    - Formats: a packet carries frames, times, samples and MIDI bytes from one end
      to the other (AMDTP and MOTU); the vector encoders equal the scalar ones;
      the CIP generator follows a closed schedule; MIDI bytes keep their order and
      pace; what a device can do to the parser of its controls.
    - Manager: a period moves exactly one period of frames; port lists are
      current; start, stop and alignment end with the results they document.
    - Handlers: the reported times and gaps are exact; registration is a bijection
      in every reachable state; the shadow map, the sizes, the failing paths; a
      gap on the bus stops the stream behind the handler.
    - Bus: an FCP request ends, with the response of the node that was asked and
      nothing else, or with a timeout; an AV/C command over it returns what the
      device answered; channels and bandwidth that were taken are given back and
      no channel is used twice; what a split timeout becomes in the registers.
    - FireWorks: a session that is saved to a device is the session that is loaded
      from it, through all layers down to the AV/C frames; no response makes a
      parser leave its memory; the checksum is the CRC-32; the paths of the flash
      code that cannot recover.
    - Between processes: the ring buffer is a queue under every interleaving when
      it has more blocks than the ping queue takes messages, and overwrites what
      nobody has read otherwise; what waitForRead waits for.

    ** Fuel and bounds

    Loops over counters are structural on [Z.to_nat] of the count.  Loops that
    wait have fuel, and theorems say how much is enough or are stated for every
    fuel: [power_of_two_loop] (32), [process_loop] (one step per byte of the
    region), [poll] and the waits of the manager (their own counters), [wait_until_ready]
    and [wait_for_clients] (the environment decides), [align_loop] (the tries),
    [round_up_loop] (the frames), [loop_iterate] (the packets that the bus has),
    [normalize_timespec] (the seconds), [wait_response] (more than 200000, one clock
    reading per microsecond of its timeout, when the clock advances), [read_blocks],
    [write_blocks] and [erase_loop] (one step per 256 bytes or per block and try;
    [flash_fuel] and [erase_read_fuel] are enough for a session); [read_tries] and
    [wait_tries] count down the source's own 10000 and 200; [clear_loop] and [ack_loop]
    (one step per message in the queue, which its capacity bounds); [waitForRead]
    and [waitForWrite] wait for the other process.

    ** Not modelled

    - Pure input and output: the debug module, the text and XML serialisers, the
      dumps, the wrappers of threads and mutexes of the operating system; of shared
      memory, how a segment is created and mapped; replacing the handler of a
      message queue.  Mutual exclusion is modelled by the atomicity of the
      operations; the only lock-free code, the ring buffers of libutil, has models of its own.
    - Of the IEEE 1394 service, what opens the handles of libraw1394 and starts the
      helper threads, and the estimate of the cycle timer (CycleTimerHelper); the
      configuration ROM and libieee1394/csr1212.c, which is third-party code.
    - The device drivers (bebob, dice, motu, rme, ...): sequences of register
      accesses and of the modelled commands for single models, and the subclasses
      for RME and Digidesign packets.  Of fireworks, the mixer controls, the lists
      of supported clocks and rates, the firmware update, the files of sessions.
    - AV/C units, plugs and descriptors (discovery), mixer controls, the option
      container: left to extensions. *)
From Stdlib Require Export ZArith Lia.
From stdpp Require Export base tactics list numbers option relations.

Declare Scope ffado_scope.
Delimit Scope ffado_scope with ffado.
#[global] Open Scope Z_scope.

(** ** Machine integers

    A C++ integer of width [w] is a [Z]; every place where the source can
    wrap around writes the wrap out with one of these. *)
Definition wrapU (w x : Z) : Z := x mod 2 ^ w.

Definition wrapS (w x : Z) : Z := (x + 2 ^ (w - 1)) mod 2 ^ w - 2 ^ (w - 1).

Abbreviation u8 := (wrapU 8).
Abbreviation u16 := (wrapU 16).
Abbreviation u32 := (wrapU 32).
Abbreviation u64 := (wrapU 64).
Abbreviation s32 := (wrapS 32).
Abbreviation s64 := (wrapS 64).

(** [uint w x]: [x] is representable as an unsigned [w]-bit integer. *)
Definition uint (w x : Z) : Prop := 0 <= x < 2 ^ w.

Definition sint (w x : Z) : Prop := - 2 ^ (w - 1) <= x < 2 ^ (w - 1).

Abbreviation is_u8 := (uint 8).
Abbreviation is_u16 := (uint 16).
Abbreviation is_u32 := (uint 32).
Abbreviation is_u64 := (uint 64).

#[export] Instance uint_dec w x : Decision (uint w x).
Proof. unfold uint. apply _. Defined.

#[export] Instance sint_dec w x : Decision (sint w x).
Proof. unfold sint. apply _. Defined.

Lemma wrapU_small w x : uint w x -> wrapU w x = x.
Proof. unfold uint, wrapU. intros. by apply Z.mod_small. Qed.

Lemma wrapU_uint w x : 0 <= w -> uint w (wrapU w x).
Proof. unfold uint, wrapU. intros. apply Z.mod_pos_bound. lia. Qed.

Lemma wrapS_small w x : 0 < w -> sint w x -> wrapS w x = x.
Proof.
  unfold sint, wrapS. intros Hw Hx.
  assert (2 ^ w = 2 * 2 ^ (w - 1)) by (rewrite <- Z.pow_succ_r by lia; f_equal; lia).
  rewrite Z.mod_small; lia.
Qed.

Lemma wrapS_sint w x : 0 < w -> sint w (wrapS w x).
Proof.
  unfold sint, wrapS. intros Hw.
  assert (2 ^ w = 2 * 2 ^ (w - 1)) by (rewrite <- Z.pow_succ_r by lia; f_equal; lia).
  assert (0 < 2 ^ (w - 1)) by lia.
  pose proof (Z.mod_pos_bound (x + 2 ^ (w - 1)) (2 ^ w)). lia.
Qed.

Create HintDb ffado.
#[export] Hint Resolve wrapU_small wrapU_uint : ffado.

(** [width_lia]: linear arithmetic once the width predicates are opened. *)
Ltac width_lia :=
  unfold uint, sint in *;
  repeat change (2 ^ 8) with 256 in *;
  repeat change (2 ^ 16) with 65536 in *;
  repeat change (2 ^ 32) with 4294967296 in *;
  repeat change (2 ^ 64) with 18446744073709551616 in *;
  repeat change (2 ^ (32 - 1)) with 2147483648 in *;
  repeat change (2 ^ (64 - 1)) with 9223372036854775808 in *;
  lia.

(** [div_lia]: the same with divisions and remainders by constants. *)
Ltac div_lia :=
  unfold uint, sint, wrapU, wrapS in *;
  repeat change (2 ^ 8) with 256 in *;
  repeat change (2 ^ 16) with 65536 in *;
  repeat change (2 ^ 32) with 4294967296 in *;
  repeat change (2 ^ 64) with 18446744073709551616 in *;
  repeat change (2 ^ (32 - 1)) with 2147483648 in *;
  repeat change (2 ^ (64 - 1)) with 9223372036854775808 in *;
  zify; Z.to_euclidean_division_equations; lia.

(** [len_lia]: the same for side conditions on list lengths. *)
Ltac len_lia :=
  repeat (progress (rewrite ?length_app, ?length_drop, ?length_take, ?length_replicate,
            ?length_insert, ?length_fmap, ?length_map in *; cbn [length] in *));
  width_lia.

(** ** Bit fields *)

Lemma lor_add a b n :
  0 <= n -> 0 <= b < 2 ^ n -> Z.lor (Z.shiftl a n) b = a * 2 ^ n + b.
Proof.
  intros Hn Hb.
  assert (E : Z.land (Z.shiftl a n) b = 0).
  { apply Z.bits_inj'. intros k Hk. rewrite Z.land_spec, Z.bits_0.
    destruct (decide (k < n)).
    - by rewrite Z.shiftl_spec_low.
    - rewrite <- (Z.mod_small b (2 ^ n)) by lia. rewrite Z.mod_pow2_bits_high by lia.
      apply andb_false_r. }
  rewrite <- Z.lxor_lor, <- Z.add_nocarry_lxor, Z.shiftl_mul_pow2 by done. done.
Qed.

Lemma lor_range w a b : 0 <= w -> 0 <= a < 2 ^ w -> 0 <= b < 2 ^ w -> 0 <= Z.lor a b < 2 ^ w.
Proof.
  intros Hw Ha Hb. rewrite <- (Z.mod_small a (2 ^ w)), <- (Z.mod_small b (2 ^ w)) by done.
  rewrite <- !Z.land_ones by done. rewrite <- Z.land_lor_distr_l, Z.land_ones by done.
  apply Z.mod_pos_bound. lia.
Qed.

Lemma land_mod x n : 0 <= n -> Z.land x (2 ^ n - 1) = x mod 2 ^ n.
Proof. intros. rewrite Z.sub_1_r, <- Z.ones_equiv. by apply Z.land_ones. Qed.

Lemma land_0x7 x : Z.land x 0x7 = x mod 8.
Proof. exact (land_mod x 3 ltac:(lia)). Qed.
Lemma land_0xf x : Z.land x 0xf = x mod 16.
Proof. exact (land_mod x 4 ltac:(lia)). Qed.
Lemma land_0x3f x : Z.land x 0x3f = x mod 64.
Proof. exact (land_mod x 6 ltac:(lia)). Qed.
Lemma land_0xff x : Z.land x 0xff = x mod 256.
Proof. exact (land_mod x 8 ltac:(lia)). Qed.

Lemma shiftr_div x n : 0 <= n -> Z.shiftr x n = x / 2 ^ n.
Proof. apply Z.shiftr_div_pow2. Qed.

(** Fields packed into an integer: masks and shifts become remainders,
    quotients and sums. *)
Ltac bits_lia :=
  rewrite ?land_0x7, ?land_0xf, ?land_0x3f, ?land_0xff in *;
  rewrite ?shiftr_div in * by lia;
  repeat rewrite lor_add in * by (unfold wrapU; lia || div_lia);
  rewrite ?Z.lor_0_l, ?Z.lor_0_r, ?Z.shiftl_mul_pow2 in * by lia;
  div_lia.

(** ** Exhaustive checks

    A statement on every value of a bounded range is decided by running the
    test on each one of them; the kernel evaluates the test. *)
Definition for_range (lo : Z) (n : nat) (f : Z -> bool) : bool :=
  forallb (fun i => f (lo + Z.of_nat i)) (seq 0 n).

Lemma for_range_spec lo n f :
  for_range lo n f = true -> forall x, lo <= x < lo + Z.of_nat n -> f x = true.
Proof.
  unfold for_range. rewrite forallb_forall. intros H x Hx.
  replace x with (lo + Z.of_nat (Z.to_nat (x - lo))) by lia.
  apply H, in_seq. lia.
Qed.

Lemma for_u8 f : for_range 0 256 f = true -> forall x, is_u8 x -> f x = true.
Proof. intros H x Hx. apply (for_range_spec _ _ _ H). width_lia. Qed.

(** ** Erasing an element

    [for (it ...) if ( *it == a ) { erase(it); ... }]: the first occurrence goes. *)
Fixpoint remove_first (a : Z) (l : list Z) : list Z :=
  match l with
  | [] => []
  | b :: l' => if b =? a then l' else b :: remove_first a l'
  end.

Lemma remove_first_spec a l : a ∈ l -> l ≡ₚ a :: remove_first a l.
Proof.
  induction l as [|b l IH]; [by intros ?%elem_of_nil|]. cbn [remove_first]. destruct (Z.eqb_spec b a) as [->|Hne]; [done|].
  intros [->|Hin]%elem_of_cons; [done|]. rewrite (IH Hin) at 1. by constructor.
Qed.

Lemma remove_first_elem a b l : b ∈ remove_first a l -> b ∈ l.
Proof.
  induction l as [|c l IH]; [done|]. cbn [remove_first]. destruct (c =? a); [by right|].
  intros [->|Hin]%elem_of_cons; [by left|right; auto].
Qed.

Lemma remove_first_not a l : a ∉ l -> remove_first a l = l.
Proof.
  induction l as [|b l IH]; [done|]. intros [Hne Hl]%not_elem_of_cons. cbn [remove_first].
  destruct (Z.eqb_spec b a) as [->|_]; [done|]. by rewrite IH.
Qed.

#[export] Instance remove_first_proper a : Proper ((≡ₚ) ==> (≡ₚ)) (remove_first a).
Proof.
  intros l1 l2 Hl. destruct (decide (a ∈ l1)) as [Hin|Hout].
  - apply (Permutation_cons_inv (a := a)). rewrite <- !remove_first_spec; [done| |done]. by rewrite <- Hl.
  - rewrite !remove_first_not; [done| |done]. by rewrite <- Hl.
Qed.

Lemma remove_first_app_l a l1 l2 : a ∈ l1 -> remove_first a (l1 ++ l2) = remove_first a l1 ++ l2.
Proof.
  induction l1 as [|b l1 IH]; [by intros ?%elem_of_nil|]. cbn. destruct (Z.eqb_spec b a) as [->|Hne]; [done|].
  intros [->|Hin]%elem_of_cons; [done|]. cbn. by rewrite IH.
Qed.

Lemma remove_first_app_r a l1 l2 : a ∉ l1 -> remove_first a (l1 ++ l2) = l1 ++ remove_first a l2.
Proof.
  induction l1 as [|b l1 IH]; [done|]. intros [Hne Hl]%not_elem_of_cons. cbn.
  destruct (Z.eqb_spec b a) as [->|_]; [done|]. by rewrite IH.
Qed.
