(* ===== verification/StateMonad.v ===== *)
(** * StateMonad: state passing with failure

    The components that call each other through a shared store are written in
    this monad: a computation takes the state and gives a result and the new
    state, or [None] where the source has undefined behaviour, a failing
    [assert], an exception of the standard library, or a loop that has used up
    its fuel.  [StKeeps R m] states what a computation preserves; its instances
    carry a relation through the loops, so that it is proved per operation. *)
From S2P Require Import Prelude.

Definition StM (S A : Type) : Type := S -> option (A * S).

#[export] Instance StM_ret S : MRet (StM S) := fun A x s => Some (x, s).
#[export] Instance StM_bind S : MBind (StM S) :=
  fun A B f m s => match m s with Some (x, s1) => f x s1 | None => None end.

Section monad.
Context {S : Type}.

Abbreviation M := (StM S).

Definition st_fail {A} : M A := fun _ => None.
Definition st_gets {A} (f : S -> A) : M A := fun s => Some (f s, s).
Definition st_mod (f : S -> S) : M () := fun s => Some ((), f s).
Definition st_option {A} (x : option A) : M A := match x with Some a => mret a | None => st_fail end.
Definition st_assert (b : bool) : M () := if b then mret () else st_fail.

(** a call that works on a part of the state and never fails *)
Definition st_run {A} (f : S -> A * S) : M A := fun s => Some (f s).

Section loops.
Context {X : Type}.

(** [for (it ...) if (!f( *it )) return false;] *)
Fixpoint each (f : X -> M bool) (l : list X) : M bool :=
  match l with
  | [] => mret true
  | a :: l' => ok ← f a; if ok : bool then each f l' else mret false
  end.

(** [for (it ...) result &= f( *it );] *)
Fixpoint all_of (f : X -> M bool) (l : list X) : M bool :=
  match l with
  | [] => mret true
  | a :: l' => ok ← f a; rest ← all_of f l'; mret (ok && rest)
  end.

(** [for (it ...) f( *it );] *)
Fixpoint each_do (f : X -> M ()) (l : list X) : M () :=
  match l with
  | [] => mret ()
  | a :: l' => f a;; each_do f l'
  end.

(** the maximum, from a start value *)
Fixpoint max_over (f : X -> M Z) (m : Z) (l : list X) : M Z :=
  match l with
  | [] => mret m
  | a :: l' => x ← f a; max_over f (if m <? x then x else m) l'
  end.

(** [for (it ...) if (test( *it )) return *it;] *)
Fixpoint find_first (test : X -> M bool) (l : list X) : M (option X) :=
  match l with
  | [] => mret None
  | a :: l' => found ← test a; if found : bool then mret (Some a) else find_first test l'
  end.
End loops.

Lemma st_bind_inv {A B} (m : M A) (f : A -> M B) s x s1 :
  (m ≫= f) s = Some (x, s1) -> exists y s0, m s = Some (y, s0) /\ f y s0 = Some (x, s1).
Proof. unfold mbind, StM_bind. destruct (m s) as [[y s0]|]; [eauto|done]. Qed.

Lemma st_bind_eq {A B} (m : M A) (f : A -> M B) s y s0 : m s = Some (y, s0) -> (m ≫= f) s = f y s0.
Proof. intros Hm. unfold mbind, StM_bind. by rewrite Hm. Qed.

(** [StKeeps R m]: the states before and after [m] are related. *)
Class StKeeps {A} (R : S -> S -> Prop) (m : M A) : Prop :=
  st_keeps : forall s x s1, m s = Some (x, s1) -> R s s1.

Section keeps.
Context (R : S -> S -> Prop) `{!PreOrder R}.

#[export] Instance st_keeps_ret {A} (x : A) : StKeeps R (mret x : M A).
Proof. intros s y s1 [= _ <-]. reflexivity. Qed.

#[export] Instance st_keeps_bind {A B} (m : M A) (f : A -> M B) :
  StKeeps R m -> (forall x, StKeeps R (f x)) -> StKeeps R (m ≫= f).
Proof. intros Hm Hf s x s1 (y & s0 & H1 & H2)%st_bind_inv. etransitivity; [by eapply Hm|by eapply Hf]. Qed.

#[export] Instance st_keeps_gets {A} (f : S -> A) : StKeeps R (st_gets f).
Proof. intros s y s1 [= _ <-]. reflexivity. Qed.

#[export] Instance st_keeps_fail {A} : StKeeps R (st_fail : M A).
Proof. by intros s y s1. Qed.

#[export] Instance st_keeps_option {A} (o : option A) : StKeeps R (st_option o).
Proof. destruct o; apply _. Qed.

#[export] Instance st_keeps_if {A} (b : bool) (m1 m2 : M A) : StKeeps R m1 -> StKeeps R m2 -> StKeeps R (if b then m1 else m2).
Proof. by destruct b. Qed.

Section loops.
Context {X : Type}.
Implicit Types l : list X.

#[export] Instance st_keeps_each f l : (forall a, StKeeps R (f a)) -> StKeeps R (each f l).
Proof. intros Hf. induction l; cbn; apply _. Qed.

#[export] Instance st_keeps_all_of f l : (forall a, StKeeps R (f a)) -> StKeeps R (all_of f l).
Proof. intros Hf. induction l; cbn; apply _. Qed.

#[export] Instance st_keeps_each_do f l : (forall a, StKeeps R (f a)) -> StKeeps R (each_do f l).
Proof. intros Hf. induction l; cbn; apply _. Qed.

#[export] Instance st_keeps_find_first f l : (forall a, StKeeps R (f a)) -> StKeeps R (find_first f l).
Proof. intros Hf. induction l; cbn; apply _. Qed.
End loops.
End keeps.
End monad.
