(* ===== verification/Serialize.v ===== *)
(** * Serialize: libutil/cmd_serialize

    The byte-stream interfaces [IOSSerialize] and [IISDeserialize] of
    [libutil/cmd_serialize.h], through which every AV/C and EFC message is
    written and parsed, and their implementations over a memory buffer.

    A [serialize( IOSSerialize& )] method is polymorphic in the stream, so it
    is a program of write requests ([writer]); a [deserialize] method is a
    program of read requests ([reader]).  The C++ virtual calls are the
    constructors; a class instance interprets them.  [None] is undefined
    behaviour: an access outside the buffer or the use of a variable that was
    never assigned.  The [name] argument of the writes only reaches the debug
    serialisers ([CoutSerializer], [StringSerializer]) and is left out. *)
From S2P Require Import Prelude.

(** ** Programs over the two interfaces *)

Inductive writer (A : Type) : Type :=
| w_ret (a : A)
| w_undef
| w_byte (v : Z) (k : bool -> writer A)
| w_u16 (v : Z) (k : bool -> writer A)
| w_quadlet (v : Z) (k : bool -> writer A)
| w_chars (v : list Z) (k : bool -> writer A).
Arguments w_ret {A} a.
Arguments w_undef {A}.
Arguments w_byte {A} v k.
Arguments w_u16 {A} v k.
Arguments w_quadlet {A} v k.
Arguments w_chars {A} v k.

(** The continuation of a read receives [None] when the call returns [false]
    and leaves [*value] alone.  [r_chars] hands out the pointer stored in
    [*value] (an offset into the buffer), [r_cstring] copies the C string a
    pointer points to ([std::string::operator=]). *)
Inductive reader (A : Type) : Type :=
| r_ret (a : A)
| r_undef
| r_byte (k : option Z -> reader A)
| r_u16 (k : option Z -> reader A)
| r_quadlet (k : option Z -> reader A)
| r_chars (len : Z) (k : bool * option Z -> reader A)
| r_cstring (p : Z) (k : list Z -> reader A)
| r_peek (k : option Z -> reader A)
| r_peek16 (off : Z) (k : option Z -> reader A)
| r_skip (len : Z) (k : bool -> reader A).
Arguments r_ret {A} a.
Arguments r_undef {A}.
Arguments r_byte {A} k.
Arguments r_u16 {A} k.
Arguments r_quadlet {A} k.
Arguments r_chars {A} len k.
Arguments r_cstring {A} p k.
Arguments r_peek {A} k.
Arguments r_peek16 {A} off k.
Arguments r_skip {A} len k.

#[export] Instance writer_ret : MRet writer := @w_ret.

#[export] Instance writer_bind : MBind writer := fun A B f =>
  fix go m :=
    match m with
    | w_ret a => f a
    | w_undef => w_undef
    | w_byte v k => w_byte v (fun b => go (k b))
    | w_u16 v k => w_u16 v (fun b => go (k b))
    | w_quadlet v k => w_quadlet v (fun b => go (k b))
    | w_chars v k => w_chars v (fun b => go (k b))
    end.

#[export] Instance reader_ret : MRet reader := @r_ret.

#[export] Instance reader_bind : MBind reader := fun A B f =>
  fix go m :=
    match m with
    | r_ret a => f a
    | r_undef => r_undef
    | r_byte k => r_byte (fun o => go (k o))
    | r_u16 k => r_u16 (fun o => go (k o))
    | r_quadlet k => r_quadlet (fun o => go (k o))
    | r_chars n k => r_chars n (fun o => go (k o))
    | r_cstring p k => r_cstring p (fun o => go (k o))
    | r_peek k => r_peek (fun o => go (k o))
    | r_peek16 n k => r_peek16 n (fun o => go (k o))
    | r_skip n k => r_skip n (fun o => go (k o))
    end.

(** [se.write( v )] *)
Definition write_byte (v : Z) : writer bool := w_byte v w_ret.
Definition write_u16 (v : Z) : writer bool := w_u16 v w_ret.
Definition write_quadlet (v : Z) : writer bool := w_quadlet v w_ret.
Definition write_chars (v : list Z) : writer bool := w_chars v w_ret.

(** [de.read( &x )] where [x] holds [old] *)
Definition keep_old (old : Z) (o : option Z) : bool * Z :=
  match o with Some v => (true, v) | None => (false, old) end.
Definition read_byte (old : Z) : reader (bool * Z) := r_byte (fun o => r_ret (keep_old old o)).
Definition read_u16 (old : Z) : reader (bool * Z) := r_u16 (fun o => r_ret (keep_old old o)).
Definition read_quadlet (old : Z) : reader (bool * Z) := r_quadlet (fun o => r_ret (keep_old old o)).

(** [byte_t x; de.read( &x );] for a local without an initialiser: [None] is
    its indeterminate value, and [used] is an expression that uses it. *)
Definition is_assigned (o : option Z) : bool := match o with Some _ => true | None => false end.
Definition read_local : reader (bool * option Z) := r_byte (fun o => r_ret (is_assigned o, o)).
Definition reread_local (old : option Z) : reader (bool * option Z) :=
  r_byte (fun o => r_ret (is_assigned o, match o with Some v => Some v | None => old end)).
Definition peek_local (old : option Z) : reader (bool * option Z) :=
  r_peek (fun o => r_ret (is_assigned o, match o with Some v => Some v | None => old end)).
Definition used (o : option Z) : reader Z := match o with Some v => r_ret v | None => r_undef end.

(** ** The interfaces *)

Class IOSSerialize (S : Type) := {
  se_write_byte : Z -> S -> option (bool * S);
  se_write_u16 : Z -> S -> option (bool * S);
  se_write_quadlet : Z -> S -> option (bool * S);
  se_write_chars : list Z -> S -> option (bool * S) }.

Class IISDeserialize (D : Type) := {
  de_read_byte : D -> option (option Z * D);
  de_read_u16 : D -> option (option Z * D);
  de_read_quadlet : D -> option (option Z * D);
  de_read_chars : Z -> D -> option ((bool * option Z) * D);
  de_cstring : Z -> D -> option (list Z * D);
  de_peek : D -> option (option Z * D);
  de_peek16 : Z -> D -> option (option Z * D);
  de_skip : Z -> D -> option (bool * D) }.

Fixpoint run_writer {S} `{IOSSerialize S} {A} (m : writer A) (s : S) : option (A * S) :=
  match m with
  | w_ret a => Some (a, s)
  | w_undef => None
  | w_byte v k => '(b, s') ← se_write_byte v s; run_writer (k b) s'
  | w_u16 v k => '(b, s') ← se_write_u16 v s; run_writer (k b) s'
  | w_quadlet v k => '(b, s') ← se_write_quadlet v s; run_writer (k b) s'
  | w_chars v k => '(b, s') ← se_write_chars v s; run_writer (k b) s'
  end.

Fixpoint run_reader {D} `{IISDeserialize D} {A} (m : reader A) (d : D) : option (A * D) :=
  match m with
  | r_ret a => Some (a, d)
  | r_undef => None
  | r_byte k => '(o, d') ← de_read_byte d; run_reader (k o) d'
  | r_u16 k => '(o, d') ← de_read_u16 d; run_reader (k o) d'
  | r_quadlet k => '(o, d') ← de_read_quadlet d; run_reader (k o) d'
  | r_chars n k => '(o, d') ← de_read_chars n d; run_reader (k o) d'
  | r_cstring p k => '(o, d') ← de_cstring p d; run_reader (k o) d'
  | r_peek k => '(o, d') ← de_peek d; run_reader (k o) d'
  | r_peek16 n k => '(o, d') ← de_peek16 n d; run_reader (k o) d'
  | r_skip n k => '(o, d') ← de_skip n d; run_reader (k o) d'
  end.

(** ** BufferSerialize and BufferDeserialize

    A pointer into the buffer is its offset from the start, modulo [2^64]
    (the pointer width); the [size_t] comparison of [isCurPosValid] is the
    unsigned one.  The host is little-endian, which fixes the memory order of
    a [quadlet_t]. *)
Definition ptr_add (p n : Z) : Z := u64 (p + n).

Definition store (buf : list Z) (p v : Z) : option (list Z) :=
  if decide (0 <= p < Z.of_nat (length buf)) then Some (<[Z.to_nat p := v]> buf) else None.

Fixpoint store_all (buf : list Z) (p : Z) (vs : list Z) : option (list Z) :=
  match vs with
  | [] => Some buf
  | v :: vs' => buf' ← store buf p v; store_all buf' (p + 1) vs'
  end.

Definition load (buf : list Z) (p : Z) : option Z :=
  if decide (0 <= p < Z.of_nat (length buf)) then buf !! Z.to_nat p else None.

Definition quadlet_bytes (v : Z) : list Z :=
  [u8 v; u8 (Z.shiftr v 8); u8 (Z.shiftr v 16); u8 (Z.shiftr v 24)].

Definition quadlet_of_bytes (b0 b1 b2 b3 : Z) : Z :=
  Z.lor b0 (Z.lor (Z.shiftl b1 8) (Z.lor (Z.shiftl b2 16) (Z.shiftl b3 24))).

Definition u16_hi (v : Z) : Z := u8 (Z.shiftr (Z.land v 0xFF00) 8).
Definition u16_lo (v : Z) : Z := u8 (Z.land v 0xFF).
Definition u16_of_bytes (hi lo : Z) : Z := Z.lor (Z.shiftl hi 8) lo.

Record BufferSerialize := mkBufferSerialize {
  se_buffer : list Z;
  se_curPos : Z;
  se_length : Z }.

Definition BufferSerialize_create (buffer : list Z) (length : Z) : BufferSerialize :=
  mkBufferSerialize buffer 0 length.

Definition BufferSerialize_isCurPosValid (s : BufferSerialize) : bool :=
  negb (se_length s <=? u64 (se_curPos s)).

Definition BufferSerialize_advance (n : Z) (s : BufferSerialize) : BufferSerialize :=
  mkBufferSerialize (se_buffer s) (ptr_add (se_curPos s) n) (se_length s).

(** [*m_curPos = value; m_curPos += sizeof( byte_t );] *)
Definition BufferSerialize_poke (v : Z) (s : BufferSerialize) : option BufferSerialize :=
  buf ← store (se_buffer s) (se_curPos s) v;
  Some (BufferSerialize_advance 1 (mkBufferSerialize buf (se_curPos s) (se_length s))).

Definition BufferSerialize_write_byte (value : Z) (s : BufferSerialize) : option (bool * BufferSerialize) :=
  if BufferSerialize_isCurPosValid s then s1 ← BufferSerialize_poke value s; Some (true, s1) else Some (false, s).

Definition BufferSerialize_write_u16 (value : Z) (s : BufferSerialize) : option (bool * BufferSerialize) :=
  let hi := u16_hi value in
  let lo := u16_lo value in
  if BufferSerialize_isCurPosValid s then
    s1 ← BufferSerialize_poke hi s;
    if BufferSerialize_isCurPosValid s1 then s2 ← BufferSerialize_poke lo s1; Some (true, s2) else Some (false, s1)
  else Some (false, s).

Definition BufferSerialize_write_quadlet (value : Z) (s : BufferSerialize) : option (bool * BufferSerialize) :=
  if BufferSerialize_isCurPosValid s then
    buf ← store_all (se_buffer s) (se_curPos s) (quadlet_bytes value);
    Some (true, BufferSerialize_advance 4 (mkBufferSerialize buf (se_curPos s) (se_length s)))
  else Some (false, s).

Definition BufferSerialize_write_chars (v : list Z) (s : BufferSerialize) : option (bool * BufferSerialize) :=
  let len := Z.of_nat (length v) in
  if BufferSerialize_isCurPosValid s then
    let s1 := BufferSerialize_advance len s in
    if BufferSerialize_isCurPosValid s1 then
      let s2 := BufferSerialize_advance (- len) s1 in
      buf ← store_all (se_buffer s2) (se_curPos s2) v;
      Some (true, BufferSerialize_advance len (mkBufferSerialize buf (se_curPos s2) (se_length s2)))
    else Some (false, s1)
  else Some (false, s).

Definition BufferSerialize_getNrOfProducesBytes (s : BufferSerialize) : Z := s32 (se_curPos s).

Record BufferDeserialize := mkBufferDeserialize {
  de_buffer : list Z;
  de_curPos : Z;
  de_length : Z }.

Definition BufferDeserialize_create (buffer : list Z) (length : Z) : BufferDeserialize :=
  mkBufferDeserialize buffer 0 length.

Definition BufferDeserialize_isCurPosValid (d : BufferDeserialize) : bool :=
  negb (de_length d <=? u64 (de_curPos d)).

Definition BufferDeserialize_advance (n : Z) (d : BufferDeserialize) : BufferDeserialize :=
  mkBufferDeserialize (de_buffer d) (ptr_add (de_curPos d) n) (de_length d).

Definition BufferDeserialize_cur (d : BufferDeserialize) : option Z := load (de_buffer d) (de_curPos d).

Definition BufferDeserialize_read_byte (d : BufferDeserialize) : option (option Z * BufferDeserialize) :=
  if BufferDeserialize_isCurPosValid d then v ← BufferDeserialize_cur d; Some (Some v, BufferDeserialize_advance 1 d) else Some (None, d).

Definition BufferDeserialize_read_u16 (d : BufferDeserialize) : option (option Z * BufferDeserialize) :=
  if BufferDeserialize_isCurPosValid d then
    hi ← BufferDeserialize_cur d;
    let d1 := BufferDeserialize_advance 1 d in
    if BufferDeserialize_isCurPosValid d1 then
      lo ← BufferDeserialize_cur d1;
      Some (Some (u16_of_bytes hi lo), BufferDeserialize_advance 1 d1)
    else Some (None, d1)
  else Some (None, d).

Definition BufferDeserialize_read_quadlet (d : BufferDeserialize) : option (option Z * BufferDeserialize) :=
  if BufferDeserialize_isCurPosValid d then
    b0 ← BufferDeserialize_cur d;
    b1 ← load (de_buffer d) (de_curPos d + 1);
    b2 ← load (de_buffer d) (de_curPos d + 2);
    b3 ← load (de_buffer d) (de_curPos d + 3);
    Some (Some (quadlet_of_bytes b0 b1 b2 b3), BufferDeserialize_advance 4 d)
  else Some (None, d).

(** [m_curPos += length-1] with [length] a [size_t] *)
Definition BufferDeserialize_read_chars (length : Z) (d : BufferDeserialize)
  : option ((bool * option Z) * BufferDeserialize) :=
  if BufferDeserialize_isCurPosValid d then
    let value := Some (de_curPos d) in
    let d1 := BufferDeserialize_advance (u64 (length - 1)) d in
    if negb (BufferDeserialize_isCurPosValid d1) then Some ((false, value), d1)
    else Some ((true, value), BufferDeserialize_advance 1 d1)
  else Some ((false, None), d).

Fixpoint BufferDeserialize_cstring_from (l : list Z) : option (list Z) :=
  match l with
  | [] => None
  | c :: l' => if c =? 0 then Some [] else s ← BufferDeserialize_cstring_from l'; Some (c :: s)
  end.

(** copies up to the first NUL; without one inside the buffer the copy
    leaves the buffer *)
Definition BufferDeserialize_cstring (p : Z) (d : BufferDeserialize) : option (list Z * BufferDeserialize) :=
  s ← BufferDeserialize_cstring_from (drop (Z.to_nat p) (de_buffer d)); Some (s, d).

Definition BufferDeserialize_peek (d : BufferDeserialize) : option (option Z * BufferDeserialize) :=
  if BufferDeserialize_isCurPosValid d then v ← BufferDeserialize_cur d; Some (Some v, d) else Some (None, d).

Definition BufferDeserialize_peek16 (offset : Z) (d : BufferDeserialize) : option (option Z * BufferDeserialize) :=
  let d0 := BufferDeserialize_advance offset d in
  if BufferDeserialize_isCurPosValid d0 then
    hi ← BufferDeserialize_cur d0;
    let d1 := BufferDeserialize_advance 1 d0 in
    if BufferDeserialize_isCurPosValid d1 then
      lo ← BufferDeserialize_cur d1;
      Some (Some (u16_of_bytes hi lo), BufferDeserialize_advance (- offset) (BufferDeserialize_advance (- 1) d1))
    else Some (None, BufferDeserialize_advance (- offset) (BufferDeserialize_advance (- 1) d1))
  else Some (None, BufferDeserialize_advance (- offset) d0).

Definition BufferDeserialize_skip (length : Z) (d : BufferDeserialize) : option (bool * BufferDeserialize) :=
  Some (true, BufferDeserialize_advance length d).

Definition BufferDeserialize_getNrOfConsumedBytes (d : BufferDeserialize) : Z := s32 (de_curPos d).

#[export] Instance BufferSerialize_IOSSerialize : IOSSerialize BufferSerialize := {
  se_write_byte := BufferSerialize_write_byte;
  se_write_u16 := BufferSerialize_write_u16;
  se_write_quadlet := BufferSerialize_write_quadlet;
  se_write_chars := BufferSerialize_write_chars }.

#[export] Instance BufferDeserialize_IISDeserialize : IISDeserialize BufferDeserialize := {
  de_read_byte := BufferDeserialize_read_byte;
  de_read_u16 := BufferDeserialize_read_u16;
  de_read_quadlet := BufferDeserialize_read_quadlet;
  de_read_chars := BufferDeserialize_read_chars;
  de_cstring := BufferDeserialize_cstring;
  de_peek := BufferDeserialize_peek;
  de_peek16 := BufferDeserialize_peek16;
  de_skip := BufferDeserialize_skip }.

(** ** The specification: an unbounded stream

    [emit m] is what [m] writes to a stream that never refuses a write. *)
Fixpoint emit {A} (m : writer A) : option (A * list Z) :=
  match m with
  | w_ret a => Some (a, [])
  | w_undef => None
  | w_byte v k => '(a, l) ← emit (k true); Some (a, v :: l)
  | w_u16 v k => '(a, l) ← emit (k true); Some (a, u16_hi v :: u16_lo v :: l)
  | w_quadlet v k => '(a, l) ← emit (k true); Some (a, quadlet_bytes v ++ l)
  | w_chars v k => '(a, l) ← emit (k true); Some (a, v ++ l)
  end.

(** The stream position between what was consumed and what is left. *)
Definition at_ (pre rest : list Z) : BufferDeserialize :=
  mkBufferDeserialize (pre ++ rest) (Z.of_nat (length pre)) (Z.of_nat (length (pre ++ rest))).

(** [reads m bs a]: wherever the bytes [bs] lie in a buffer, [m] started at
    them consumes exactly them and returns [a]. *)
Definition reads {A} (m : reader A) (bs : list Z) (a : A) : Prop :=
  forall pre rest, Z.of_nat (length (pre ++ bs ++ rest)) < 2 ^ 64 ->
    run_reader m (at_ pre (bs ++ rest)) = Some (a, at_ (pre ++ bs) rest).

(** ** Lemmas on programs *)

Lemma run_writer_bind {S} `{IOSSerialize S} {A B} (m : writer A) (f : A -> writer B) s :
  run_writer (m ≫= f) s = '(a, s') ← run_writer m s; run_writer (f a) s'.
Proof.
  revert s. induction m; intros s; cbn; [done|done|..];
    match goal with |- context [?e ≫= _] => destruct e as [[b s']|]; cbn; auto end.
Qed.

Lemma run_reader_bind {D} `{IISDeserialize D} {A B} (m : reader A) (f : A -> reader B) d :
  run_reader (m ≫= f) d = '(a, d') ← run_reader m d; run_reader (f a) d'.
Proof.
  revert d. induction m; intros d; cbn; [done|done|..];
    match goal with |- context [?e ≫= _] => destruct e as [[b d']|]; cbn; auto end.
Qed.

Lemma emit_bind {A B} (m : writer A) (f : A -> writer B) :
  emit (m ≫= f) = '(a, l) ← emit m; '(b, l') ← emit (f a); Some (b, l ++ l').
Proof.
  induction m as [a| |v k IH|v k IH|v k IH|v k IH]; cbn; [|done|..].
  { by destruct (emit (f a)) as [[]|]. }
  all: unfold mbind in IH |- *; rewrite (IH true); cbn;
    destruct (emit (k true)) as [[a l]|]; cbn; [|done];
    destruct (emit (f a)) as [[]|]; cbn; [|done]; by rewrite ?(assoc_L (++)).
Qed.

(** ** The stream position *)

Lemma valid_at pre b rest :
  Z.of_nat (length (pre ++ b :: rest)) < 2 ^ 64 ->
  BufferDeserialize_isCurPosValid (at_ pre (b :: rest)) = true.
Proof.
  unfold BufferDeserialize_isCurPosValid, at_; cbn [de_curPos de_length]. rewrite length_app; cbn [length].
  intros. rewrite wrapU_small by width_lia.
  apply negb_true_iff, Z.leb_gt. lia.
Qed.

Lemma valid_at_end pre :
  Z.of_nat (length pre) < 2 ^ 64 -> BufferDeserialize_isCurPosValid (at_ pre []) = false.
Proof.
  unfold BufferDeserialize_isCurPosValid, at_; cbn [de_curPos de_length]. rewrite app_nil_r.
  intros. rewrite wrapU_small by width_lia. rewrite Z.leb_refl. done.
Qed.

Lemma load_at pre l k b rest :
  0 <= k -> l !! Z.to_nat k = Some b ->
  load (de_buffer (at_ pre (l ++ rest))) (de_curPos (at_ pre (l ++ rest)) + k) = Some b.
Proof.
  intros Hk Hl. unfold load, at_; cbn [de_buffer de_curPos].
  apply lookup_lt_Some in Hl as Hn.
  rewrite decide_True by (rewrite !length_app; lia).
  replace (Z.to_nat _) with (length pre + Z.to_nat k)%nat by lia.
  rewrite lookup_app_r by lia. rewrite lookup_app_l by lia.
  rewrite <- Hl. f_equal. lia.
Qed.

Lemma cur_at pre b rest : BufferDeserialize_cur (at_ pre (b :: rest)) = Some b.
Proof.
  unfold BufferDeserialize_cur. rewrite <- (load_at pre [b] 0 b rest) by done. by rewrite Z.add_0_r.
Qed.

Lemma advance_at pre bs rest :
  Z.of_nat (length (pre ++ bs ++ rest)) < 2 ^ 64 ->
  BufferDeserialize_advance (Z.of_nat (length bs)) (at_ pre (bs ++ rest)) = at_ (pre ++ bs) rest.
Proof.
  unfold BufferDeserialize_advance, at_, ptr_add; cbn [de_buffer de_curPos de_length].
  intros H. rewrite !length_app in H |- *.
  rewrite wrapU_small by width_lia. rewrite <- (assoc_L (++)). f_equal; rewrite ?length_app; lia.
Qed.

Lemma advance1_at pre b rest :
  Z.of_nat (length (pre ++ b :: rest)) < 2 ^ 64 ->
  BufferDeserialize_advance 1 (at_ pre (b :: rest)) = at_ (pre ++ [b]) rest.
Proof. apply (advance_at pre [b] rest). Qed.

(** ** The logic of [reads] *)

Lemma reads_ret {A} (a : A) : reads (r_ret a) [] a.
Proof. intros pre rest _. cbn. by rewrite app_nil_r. Qed.

Lemma reads_mret {A} (a : A) : reads (mret a) [] a.
Proof. apply reads_ret. Qed.

Lemma reads_bind {A B} (m : reader A) (f : A -> reader B) l1 l2 a b :
  reads m l1 a -> reads (f a) l2 b -> reads (m ≫= f) (l1 ++ l2) b.
Proof.
  intros Hm Hf pre rest Hlen. rewrite run_reader_bind. rewrite <- (assoc_L (++)) in Hlen |- *.
  rewrite Hm by done. cbn. rewrite Hf by (by rewrite <- (assoc_L (++))).
  by rewrite <- (assoc_L (++)).
Qed.

Lemma reads_r_byte {A} (k : option Z -> reader A) b l a :
  reads (k (Some b)) l a -> reads (r_byte k) (b :: l) a.
Proof.
  intros H pre rest Hlen. cbn [run_reader de_read_byte BufferDeserialize_IISDeserialize].
  unfold BufferDeserialize_read_byte. rewrite <- app_comm_cons in Hlen |- *.
  rewrite valid_at by done. rewrite cur_at. cbn.
  rewrite advance1_at by done. rewrite H by (by rewrite <- (assoc_L (++))).
  by rewrite <- (assoc_L (++)).
Qed.

Lemma reads_r_peek {A} (k : option Z -> reader A) b l a :
  reads (k (Some b)) (b :: l) a -> reads (r_peek k) (b :: l) a.
Proof.
  intros H pre rest Hlen. cbn [run_reader de_peek BufferDeserialize_IISDeserialize].
  unfold BufferDeserialize_peek. rewrite <- app_comm_cons in Hlen |- *.
  rewrite valid_at by done. rewrite cur_at. cbn.
  by apply (H pre rest).
Qed.

Lemma reads_r_u16 {A} (k : option Z -> reader A) hi lo l a :
  reads (k (Some (u16_of_bytes hi lo))) l a -> reads (r_u16 k) (hi :: lo :: l) a.
Proof.
  intros H pre rest Hlen. cbn [run_reader de_read_u16 BufferDeserialize_IISDeserialize].
  unfold BufferDeserialize_read_u16. rewrite <- !app_comm_cons in Hlen |- *.
  rewrite valid_at by done. rewrite cur_at. cbn.
  rewrite advance1_at by done.
  assert (Hlen2 : Z.of_nat (length ((pre ++ [hi]) ++ lo :: l ++ rest)) < 2 ^ 64)
    by (by rewrite <- (assoc_L (++))).
  rewrite valid_at by done. rewrite cur_at. cbn.
  rewrite advance1_at by done.
  rewrite H by (by rewrite <- !(assoc_L (++))). by rewrite <- !(assoc_L (++)).
Qed.

Lemma reads_r_quadlet {A} (k : option Z -> reader A) b0 b1 b2 b3 l a :
  reads (k (Some (quadlet_of_bytes b0 b1 b2 b3))) l a ->
  reads (r_quadlet k) (b0 :: b1 :: b2 :: b3 :: l) a.
Proof.
  intros H pre rest Hlen. cbn [run_reader de_read_quadlet BufferDeserialize_IISDeserialize].
  unfold BufferDeserialize_read_quadlet.
  rewrite <- !app_comm_cons in Hlen |- *. rewrite valid_at by done. rewrite cur_at.
  change (b0 :: b1 :: b2 :: b3 :: l ++ rest) with ([b0; b1; b2; b3] ++ l ++ rest) in Hlen |- *.
  rewrite (load_at pre [b0; b1; b2; b3] 1 b1), (load_at pre [b0; b1; b2; b3] 2 b2),
    (load_at pre [b0; b1; b2; b3] 3 b3) by done. cbn [mbind option_bind].
  change 4 with (Z.of_nat (length [b0; b1; b2; b3])). rewrite advance_at by done.
  rewrite H by (by rewrite <- (assoc_L (++))). by rewrite <- (assoc_L (++)).
Qed.

(** ** BufferSerialize refines the unbounded stream *)

(** The serialiser that has written [pre] and has the cells [free] left. *)
Definition se_at (pre free : list Z) : BufferSerialize :=
  mkBufferSerialize (pre ++ free) (Z.of_nat (length pre)) (Z.of_nat (length (pre ++ free))).

Lemma store_at pre c free v :
  store (pre ++ c :: free) (Z.of_nat (length pre)) v = Some ((pre ++ [v]) ++ free).
Proof.
  unfold store. rewrite decide_True by (rewrite length_app; cbn; lia).
  rewrite Nat2Z.id. f_equal.
  replace (length pre) with (length pre + 0)%nat by lia.
  rewrite insert_app_r. cbn. by rewrite <- (assoc_L (++)).
Qed.

Lemma store_all_at vs : forall pre free,
  (length vs <= length free)%nat ->
  store_all (pre ++ free) (Z.of_nat (length pre)) vs = Some (pre ++ vs ++ drop (length vs) free).
Proof.
  induction vs as [|v vs IH]; intros pre free Hle; [done|].
  destruct free as [|c free]; [cbn in Hle; lia|].
  cbn [store_all]. rewrite store_at. cbn [mbind option_bind].
  replace (Z.of_nat (length pre) + 1) with (Z.of_nat (length (pre ++ [v])))
    by (rewrite length_app; cbn; lia).
  rewrite IH by (cbn in Hle; lia). by rewrite <- (assoc_L (++)).
Qed.

Lemma store_all_short vs : forall pre free,
  (length free < length vs)%nat -> store_all (pre ++ free) (Z.of_nat (length pre)) vs = None.
Proof.
  induction vs as [|v vs IH]; intros pre free Hlt; [cbn in Hlt; lia|].
  destruct free as [|c free].
  - cbn [store_all]. unfold store. rewrite decide_False by (rewrite length_app; cbn; lia). done.
  - cbn [store_all]. rewrite store_at. cbn [mbind option_bind].
    replace (Z.of_nat (length pre) + 1) with (Z.of_nat (length (pre ++ [v])))
      by (rewrite length_app; cbn; lia).
    apply IH. cbn in Hlt. lia.
Qed.

Lemma se_valid_at pre free :
  Z.of_nat (length (pre ++ free)) < 2 ^ 64 ->
  BufferSerialize_isCurPosValid (se_at pre free) = negb (bool_decide (free = [])).
Proof.
  unfold BufferSerialize_isCurPosValid, se_at; cbn [se_curPos se_length]. rewrite length_app. intros H.
  rewrite wrapU_small by width_lia. f_equal.
  destruct free as [|c free]; cbn [length].
  - rewrite bool_decide_true by done. apply Z.leb_le. lia.
  - rewrite bool_decide_false by done. apply Z.leb_gt. lia.
Qed.

Lemma se_advance_at (pre vs free : list Z) n :
  (length vs <= length free)%nat -> n = Z.of_nat (length vs) ->
  Z.of_nat (length (pre ++ free)) < 2 ^ 64 ->
  BufferSerialize_advance n (mkBufferSerialize (pre ++ vs ++ drop (length vs) free)
                  (Z.of_nat (length pre)) (Z.of_nat (length (pre ++ free))))
  = se_at (pre ++ vs) (drop (length vs) free).
Proof.
  intros Hle -> Hlen. unfold BufferSerialize_advance, se_at, ptr_add; cbn [se_buffer se_curPos se_length].
  rewrite !length_app in Hlen |- *.
  rewrite wrapU_small by width_lia. rewrite <- (assoc_L (++)).
  f_equal; rewrite ?length_app, ?length_drop; lia.
Qed.

Lemma poke_at pre c free v :
  Z.of_nat (length (pre ++ c :: free)) < 2 ^ 64 ->
  BufferSerialize_poke v (se_at pre (c :: free)) = Some (se_at (pre ++ [v]) free).
Proof.
  intros H. unfold BufferSerialize_poke. cbn [se_at se_buffer se_curPos se_length].
  rewrite store_at. cbn [mbind option_bind]. f_equal. rewrite <- (assoc_L (++)).
  apply (se_advance_at pre [v] (c :: free) 1); [cbn; lia|done|done].
Qed.

Lemma se_at_length (pre vs free : list Z) :
  (length vs <= length free)%nat ->
  length ((pre ++ vs) ++ drop (length vs) free) = length (pre ++ free).
Proof. intros. rewrite !length_app, length_drop. lia. Qed.

Lemma drop_neq_nil {A} n (l : list A) : (n < length l)%nat -> drop n l <> [].
Proof. intros H E. apply (f_equal length) in E. rewrite length_drop in E. cbn in E. lia. Qed.

Section refinement.
Context (pre free : list Z).
Hypothesis Hlen : Z.of_nat (length (pre ++ free)) < 2 ^ 64.

Lemma se_byte_at v :
  free <> [] -> BufferSerialize_write_byte v (se_at pre free) = Some (true, se_at (pre ++ [v]) (drop 1 free)).
Proof.
  intros Hf. unfold BufferSerialize_write_byte. rewrite se_valid_at, bool_decide_false by done. cbn [negb].
  destruct free as [|c f]; [done|]. by rewrite poke_at.
Qed.

Lemma se_u16_at v :
  (2 <= length free)%nat ->
  BufferSerialize_write_u16 v (se_at pre free) = Some (true, se_at (pre ++ [u16_hi v; u16_lo v]) (drop 2 free)).
Proof.
  intros Hf. unfold BufferSerialize_write_u16.
  destruct free as [|c1 [|c2 f]]; [cbn in Hf; lia..|].
  rewrite se_valid_at, bool_decide_false by done. cbn [negb]. rewrite poke_at by done.
  cbn [mbind option_bind].
  rewrite se_valid_at, bool_decide_false by first [done | len_lia].
  cbn [negb]. rewrite poke_at by len_lia. cbn [mbind option_bind].
  by rewrite <- (assoc_L (++)).
Qed.

Lemma se_quadlet_at v :
  (4 <= length free)%nat ->
  BufferSerialize_write_quadlet v (se_at pre free) = Some (true, se_at (pre ++ quadlet_bytes v) (drop 4 free)).
Proof.
  intros Hf. unfold BufferSerialize_write_quadlet.
  rewrite se_valid_at, bool_decide_false by (destruct free; cbn in Hf; [lia|done]). cbn [negb].
  cbn [se_at se_buffer se_curPos se_length].
  rewrite store_all_at by done. cbn [mbind option_bind]. do 2 f_equal.
  by apply (se_advance_at pre (quadlet_bytes v) free 4).
Qed.

Lemma se_chars_at (v : list Z) :
  (length v < length free)%nat ->
  BufferSerialize_write_chars v (se_at pre free) = Some (true, se_at (pre ++ v) (drop (length v) free)).
Proof.
  intros Hf. unfold BufferSerialize_write_chars.
  rewrite se_valid_at, bool_decide_false by (destruct free; cbn in Hf; [lia|done]). cbn [negb].
  assert (Hpos : u64 (Z.of_nat (length pre) + Z.of_nat (length v))
                 = Z.of_nat (length pre) + Z.of_nat (length v))
    by (rewrite length_app in Hlen; apply wrapU_small; width_lia).
  assert (Hval : BufferSerialize_isCurPosValid (BufferSerialize_advance (Z.of_nat (length v)) (se_at pre free)) = true).
  { unfold BufferSerialize_isCurPosValid, BufferSerialize_advance, ptr_add, se_at; cbn [se_curPos se_length].
    rewrite !Hpos, length_app. apply negb_true_iff, Z.leb_gt. lia. }
  rewrite Hval.
  assert (Hback : BufferSerialize_advance (- Z.of_nat (length v))
                    (BufferSerialize_advance (Z.of_nat (length v)) (se_at pre free)) = se_at pre free).
  { unfold BufferSerialize_advance, ptr_add, se_at; cbn [se_buffer se_curPos se_length]. f_equal.
    rewrite Hpos, length_app in *. rewrite wrapU_small; width_lia. }
  rewrite Hback. cbn [se_at se_buffer se_curPos se_length].
  rewrite store_all_at by lia. cbn [mbind option_bind]. do 2 f_equal.
  by apply se_advance_at; [lia|..].
Qed.
End refinement.

(** Any message shorter than the free space reaches the buffer as the
    unbounded stream has it, and the serialiser reports what it reports. *)
Lemma BufferSerialize_refines_emit {A} (m : writer A) : forall a bs pre free,
  emit m = Some (a, bs) ->
  Z.of_nat (length (pre ++ free)) < 2 ^ 64 -> (length bs < length free)%nat ->
  run_writer m (se_at pre free) = Some (a, se_at (pre ++ bs) (drop (length bs) free)).
Proof.
  induction m as [a0| |v k IH|v k IH|v k IH|v k IH]; intros a bs pre free He Hlen Hlt; cbn in He.
  { simplify_eq. cbn. by rewrite app_nil_r, drop_0. }
  { done. }
  all: destruct (emit (k true)) as [[a' l]|] eqn:E; [|done]; cbn in He; simplify_eq;
    cbn [run_writer se_write_byte se_write_u16 se_write_quadlet se_write_chars
         BufferSerialize_IOSSerialize]; rewrite ?length_app in Hlt; cbn [length] in Hlt.
  - rewrite se_byte_at by (try done; by destruct free; [cbn in Hlt; lia|]). cbn [mbind option_bind].
    rewrite (IH true a l) by (try done; rewrite ?length_drop, ?(se_at_length pre [v]); try done; cbn; lia).
    rewrite <- (assoc_L (++)), drop_drop. done.
  - rewrite se_u16_at by (try done; lia). cbn [mbind option_bind].
    rewrite (IH true a l) by (try done; rewrite ?length_drop, ?(se_at_length pre [_; _]); try done; cbn; lia).
    rewrite <- (assoc_L (++)), drop_drop. done.
  - cbn [quadlet_bytes length] in Hlt. rewrite se_quadlet_at by (try done; lia). cbn [mbind option_bind].
    rewrite (IH true a l) by (try done; rewrite ?length_drop, ?(se_at_length pre (quadlet_bytes v)); try done; cbn; lia).
    rewrite <- (assoc_L (++)), drop_drop. done.
  - rewrite se_chars_at by (try done; lia). cbn [mbind option_bind].
    rewrite (IH true a l) by (try done; rewrite ?length_drop, ?se_at_length; try done; lia).
    rewrite <- (assoc_L (++)), drop_drop, length_app. done.
Qed.

(** ** Memory safety *)

(** Programs that only write bytes and [uint16_t]s and never use an
    unassigned variable. *)
Inductive bytes_only {A} : writer A -> Prop :=
| bo_ret a : bytes_only (w_ret a)
| bo_byte v k : (forall b, bytes_only (k b)) -> bytes_only (w_byte v k)
| bo_u16 v k : (forall b, bytes_only (k b)) -> bytes_only (w_u16 v k).

Lemma bytes_only_bind {A B} (m : writer A) (f : A -> writer B) :
  bytes_only m -> (forall a, bytes_only (f a)) -> bytes_only (m ≫= f).
Proof. intros Hm Hf. induction Hm; cbn; [done|by constructor..]. Qed.

(** The serialiser's length does not exceed its memory. *)
Definition se_wf (s : BufferSerialize) : Prop :=
  0 <= se_length s <= Z.of_nat (length (se_buffer s)) /\ is_u64 (se_curPos s).

Lemma poke_safe v s :
  se_wf s -> BufferSerialize_isCurPosValid s = true ->
  exists s', BufferSerialize_poke v s = Some s' /\ se_wf s' /\ length (se_buffer s') = length (se_buffer s) /\
    se_length s' = se_length s.
Proof.
  unfold se_wf, BufferSerialize_isCurPosValid, BufferSerialize_poke, store. intros [Hl Hp] Hv.
  apply negb_true_iff, Z.leb_gt in Hv. rewrite wrapU_small in Hv by done.
  rewrite decide_True by width_lia. eexists; split; [done|].
  cbn [se_buffer se_curPos se_length BufferSerialize_advance]. rewrite length_insert.
  split; [split; [lia|apply wrapU_uint; lia]|done].
Qed.

Lemma write_byte_safe v s :
  se_wf s -> exists b s', BufferSerialize_write_byte v s = Some (b, s') /\ se_wf s' /\
    length (se_buffer s') = length (se_buffer s) /\ se_length s' = se_length s.
Proof.
  intros Hwf. unfold BufferSerialize_write_byte. destruct (BufferSerialize_isCurPosValid s) eqn:Hv; [|eauto 10].
  destruct (poke_safe v s Hwf Hv) as (s' & -> & ?). cbn. eauto.
Qed.

Lemma write_u16_safe v s :
  se_wf s -> exists b s', BufferSerialize_write_u16 v s = Some (b, s') /\ se_wf s' /\
    length (se_buffer s') = length (se_buffer s) /\ se_length s' = se_length s.
Proof.
  intros Hwf. unfold BufferSerialize_write_u16. destruct (BufferSerialize_isCurPosValid s) eqn:Hv; [|eauto 10].
  destruct (poke_safe (u16_hi v) s Hwf Hv) as (s1 & -> & Hwf1 & Hlen1 & Hl1). cbn.
  destruct (BufferSerialize_isCurPosValid s1) eqn:Hv1; [|eauto 10].
  destruct (poke_safe (u16_lo v) s1 Hwf1 Hv1) as (s2 & -> & Hwf2 & Hlen2 & Hl2). cbn.
  do 2 eexists. split; [done|]. split; [done|]. split; congruence.
Qed.

Lemma bytes_only_safe {A} (m : writer A) :
  bytes_only m -> forall s, se_wf s ->
  exists a s', run_writer m s = Some (a, s') /\ se_wf s' /\
    length (se_buffer s') = length (se_buffer s) /\ se_length s' = se_length s.
Proof.
  induction 1 as [a|v k Hk IH|v k Hk IH]; intros s Hwf; cbn; [eauto 10|..].
  - destruct (write_byte_safe v s Hwf) as (b & s1 & -> & Hwf1 & Hlen1 & Hl1). cbn.
    destruct (IH b s1 Hwf1) as (a & s2 & -> & ? & ? & ?). eauto 10 with congruence.
  - destruct (write_u16_safe v s Hwf) as (b & s1 & -> & Hwf1 & Hlen1 & Hl1). cbn.
    destruct (IH b s1 Hwf1) as (a & s2 & -> & ? & ? & ?). eauto 10 with congruence.
Qed.

(** ** Properties *)

(** C36: whatever a [serialize] method writes, the buffer receives exactly the
    bytes an unbounded stream would receive, in front of the untouched rest,
    and every write reports success, as long as the message is shorter than
    the free space of the buffer. *)
Theorem BufferSerialize_refines_stream {A} (m : writer A) (a : A) (bs pre free : list Z) :
  emit m = Some (a, bs) ->
  Z.of_nat (length (pre ++ free)) < 2 ^ 64 -> (length bs < length free)%nat ->
  run_writer m (mkBufferSerialize (pre ++ free) (Z.of_nat (length pre)) (Z.of_nat (length (pre ++ free))))
  = Some (a, mkBufferSerialize ((pre ++ bs) ++ drop (length bs) free) (Z.of_nat (length (pre ++ bs)))
                (Z.of_nat (length ((pre ++ bs) ++ drop (length bs) free)))).
Proof. apply BufferSerialize_refines_emit. Qed.

Lemma BufferSerialize_refines_stream_witness :
  run_writer (_ ← write_byte 1; _ ← write_u16 0x203; write_quadlet 0x07060504)
    (BufferSerialize_create (replicate 8 0) 8)
  = Some (true, mkBufferSerialize [1; 2; 3; 4; 5; 6; 7; 0] 7 8).
Proof.
  apply (BufferSerialize_refines_stream (_ ← write_byte 1; _ ← write_u16 0x203; write_quadlet 0x07060504)
    true [1; 2; 3; 4; 5; 6; 7] [] (replicate 8 0)); [reflexivity|vm_compute; reflexivity|cbn; lia].
Defined.

(** A [serialize] method that writes bytes and 16-bit values never touches
    memory outside its buffer and returns, however small the buffer is. *)
Lemma bytes_only_memory_safe {A} (m : writer A) (buffer : list Z) (length_ : Z) :
  bytes_only m -> 0 <= length_ <= Z.of_nat (length buffer) ->
  exists a s, run_writer m (BufferSerialize_create buffer length_) = Some (a, s) /\
    length (se_buffer s) = length buffer.
Proof.
  intros Hm Hl. destruct (bytes_only_safe m Hm (BufferSerialize_create buffer length_)) as (a & s & Hr & _ & Hlen & _).
  - split; [exact Hl|]. cbn. width_lia.
  - by exists a, s.
Qed.

Lemma bytes_only_memory_safe_witness :
  exists a s, run_writer (_ ← write_byte 1; _ ← write_u16 0x203; mret true)
      (BufferSerialize_create [0; 0] 2) = Some (a, s) /\ length (se_buffer s) = 2%nat.
Proof.
  apply (bytes_only_memory_safe (_ ← write_byte 1; _ ← write_u16 0x203; mret true) [0; 0] 2).
  - constructor. intros ?. constructor. intros ?. constructor.
  - cbn. lia.
Defined.

(** the bounds test of [write( quadlet_t )] looks at the first byte only: a
    serialiser with one to three bytes left accepts a quadlet and writes
    behind its memory. *)
Lemma write_quadlet_overflow (pre free : list Z) (v : Z) :
  (0 < length free < 4)%nat -> Z.of_nat (length (pre ++ free)) < 2 ^ 64 ->
  BufferSerialize_isCurPosValid (se_at pre free) = true /\
  BufferSerialize_write_quadlet v (se_at pre free) = None.
Proof.
  intros Hf Hlen. assert (Hv : BufferSerialize_isCurPosValid (se_at pre free) = true).
  { rewrite se_valid_at by done. rewrite bool_decide_false; [done|]. intros ->. cbn in Hf. lia. }
  split; [done|]. unfold BufferSerialize_write_quadlet. rewrite Hv. cbn [se_at se_buffer se_curPos].
  rewrite store_all_short; [done|]. cbn. lia.
Qed.

Lemma write_quadlet_overflow_witness :
  BufferSerialize_isCurPosValid (se_at [1; 2] [0; 0]) = true /\
  BufferSerialize_write_quadlet 7 (se_at [1; 2] [0; 0]) = None.
Proof. apply (write_quadlet_overflow [1; 2] [0; 0] 7); cbn; lia. Defined.
