(* ===== verification/BusData.v ===== *)
(** * BusData: the IBusData interface

    [class IBusData] of [libavc/general/avc_generic.h]: what every AV/C
    message part promises to the message that contains it (serialize,
    deserialize, clone; a clone may be undefined), the round-trip law the parts are proved against, and
    the passage from that law to the buffers [AVCCommand::fire] works on. *)
From S2P Require Import Prelude Serialize.

Class IBusData (T : Type) := {
  bd_serialize : T -> writer bool;
  bd_deserialize : T -> reader (bool * T);
  bd_clone : T -> option T }.

(** [roundtrips o0 o]: an object in state [o0] that parses the bytes written
    by [o] succeeds and is then equal to [o]. *)
Definition roundtrips {T} `{IBusData T} (o0 o : T) : Prop :=
  exists bs, emit (bd_serialize o) = Some (true, bs) /\ reads (bd_deserialize o0) bs (true, o).

(** A [serialize] that does not touch memory outside the buffer, whatever
    room the buffer has. *)
Definition serialize_safe {T} `{IBusData T} (o : T) : Prop := bytes_only (bd_serialize o).

Lemma reads_ret_eq {A} (a b : A) : a = b -> reads (r_ret a) [] b.
Proof. intros <-. apply reads_ret. Qed.

(** Evaluation of a reader with a fixed layout, one request at a time. *)
Ltac reads_eval_step :=
  lazymatch goal with
  | |- reads ?m ?l ?a =>
      let m' := eval hnf in m in
      change (reads m' l a);
      first [ apply reads_r_byte | apply reads_r_u16 | apply reads_r_quadlet
            | apply reads_r_peek | apply reads_ret_eq; reflexivity ]
  end.

(** The same steps on the monadic form, for containers whose parts have
    round-trip lemmas of their own. *)
Section steps.
Context {A B : Type}.

Lemma reads_read_byte (f : bool * Z -> reader B) old b l a :
  reads (f (true, b)) l a -> reads (read_byte old ≫= f) (b :: l) a.
Proof. apply (reads_r_byte (fun o => f (keep_old old o))). Qed.

Lemma reads_read_u16 (f : bool * Z -> reader B) old hi lo l a :
  reads (f (true, u16_of_bytes hi lo)) l a -> reads (read_u16 old ≫= f) (hi :: lo :: l) a.
Proof. apply (reads_r_u16 (fun o => f (keep_old old o))). Qed.

Lemma reads_read_quadlet (f : bool * Z -> reader B) old b0 b1 b2 b3 l a :
  reads (f (true, quadlet_of_bytes b0 b1 b2 b3)) l a ->
  reads (read_quadlet old ≫= f) (b0 :: b1 :: b2 :: b3 :: l) a.
Proof. apply (reads_r_quadlet (fun o => f (keep_old old o))). Qed.

Lemma reads_read_local (f : bool * option Z -> reader B) b l a :
  reads (f (true, Some b)) l a -> reads (read_local ≫= f) (b :: l) a.
Proof. apply (reads_r_byte (fun o => f (is_assigned o, o))). Qed.

Lemma reads_reread_local (f : bool * option Z -> reader B) old b l a :
  reads (f (true, Some b)) l a -> reads (reread_local old ≫= f) (b :: l) a.
Proof.
  apply (reads_r_byte (fun o => f (is_assigned o, match o with Some v => Some v | None => old end))).
Qed.

Lemma reads_peek_local (f : bool * option Z -> reader B) old b l a :
  reads (f (true, Some b)) (b :: l) a -> reads (peek_local old ≫= f) (b :: l) a.
Proof.
  apply (reads_r_peek (fun o => f (is_assigned o, match o with Some v => Some v | None => old end))).
Qed.

Lemma reads_used (f : Z -> reader B) v l a : reads (f v) l a -> reads (used (Some v) ≫= f) l a.
Proof. done. Qed.

Lemma reads_ret_bind (f : A -> reader B) v l a : reads (f v) l a -> reads (mret v ≫= f) l a.
Proof. done. Qed.

Lemma reads_mret_eq (a b : A) : a = b -> reads (mret a) [] b.
Proof. intros <-. apply reads_ret. Qed.
End steps.

Lemma reads_assoc {A B C} (m : reader A) (g : A -> reader B) (f : B -> reader C) l c :
  reads (m ≫= (fun x => g x ≫= f)) l c -> reads ((m ≫= g) ≫= f) l c.
Proof.
  intros H pre rest Hlen. rewrite <- (H pre rest Hlen), !run_reader_bind.
  destruct (run_reader m _) as [[x d]|]; cbn; [|done]. by rewrite run_reader_bind.
Qed.

Ltac reads_step :=
  lazymatch goal with
  | |- reads (mbind _ (mbind _ _)) _ _ => apply reads_assoc
  | |- reads (mbind _ (read_byte _)) _ _ => apply reads_read_byte
  | |- reads (mbind _ (read_u16 _)) _ _ => apply reads_read_u16
  | |- reads (mbind _ (read_quadlet _)) _ _ => apply reads_read_quadlet
  | |- reads (mbind _ read_local) _ _ => apply reads_read_local
  | |- reads (mbind _ (reread_local _)) _ _ => apply reads_reread_local
  | |- reads (mbind _ (peek_local _)) _ _ => apply reads_peek_local
  | |- reads (mbind _ (used _)) _ _ => apply reads_used
  | |- reads (mbind _ (mret _)) _ _ => apply reads_ret_bind
  | |- reads (mret _) _ _ => apply reads_mret_eq; reflexivity
  end;
  cbv beta iota.

(** Round trip of a message part with a fixed layout. *)
Ltac solve_roundtrip :=
  intros; eexists; split; [cbn; reflexivity | repeat reads_eval_step].

Ltac solve_bytes_only :=
  repeat match goal with
  | |- bytes_only ?m =>
      let m' := eval hnf in m in
      change (bytes_only m');
      first [ apply bo_ret | apply bo_byte; intros ? | apply bo_u16; intros ? ]
  end.

Lemma reads_weaken {A} (m : reader A) l l' a a' :
  reads m l a -> l = l' -> a = a' -> reads m l' a'.
Proof. by intros ? <- <-. Qed.

(** Reading after a prefix parsed by [m]: the form in which a container uses
    the round trip of a part. *)
Lemma reads_bind_eq {A B} (m : reader A) (f : A -> reader B) l1 l2 l a b :
  reads m l1 a -> l = l1 ++ l2 -> reads (f a) l2 b -> reads (m ≫= f) l b.
Proof. intros ? -> ?. by eapply reads_bind. Qed.

(** The size of an FCP frame ([avc_generic.h]). *)
Definition fcpFrameMaxLength : Z := 512.

(** [parses m bs a]: the same in a buffer of at most one frame, except that
    bytes of [bs] may be left and bytes after them may be consumed. *)
Definition parses {A} (m : reader A) (bs : list Z) (a : A) : Prop :=
  forall pre rest, Z.of_nat (length (pre ++ bs ++ rest)) <= fcpFrameMaxLength ->
    exists d, run_reader m (at_ pre (bs ++ rest)) = Some (a, d).

Lemma reads_parses {A} (m : reader A) bs a : reads m bs a -> parses m bs a.
Proof. intros H pre rest Hlen. eexists. apply H. unfold fcpFrameMaxLength in Hlen. width_lia. Qed.

Lemma parses_app {A} (m : reader A) bs l a : parses m bs a -> parses m (bs ++ l) a.
Proof.
  intros H pre rest Hlen. rewrite <- (assoc_L (++)) in Hlen |- *. by apply H.
Qed.

Lemma parses_mret {A} (a : A) l : parses (mret a) l a.
Proof. intros pre rest _. by eexists. Qed.

Lemma parses_bind {A B} (m : reader A) (f : A -> reader B) l1 l2 l a b :
  reads m l1 a -> l = l1 ++ l2 -> parses (f a) l2 b -> parses (m ≫= f) l b.
Proof.
  intros Hm -> Hf pre rest Hlen. rewrite run_reader_bind. rewrite <- (assoc_L (++)) in Hlen |- *.
  rewrite Hm by (unfold fcpFrameMaxLength in Hlen; width_lia). cbn. apply Hf. by rewrite <- (assoc_L (++)).
Qed.

Lemma parses_read_byte {B} (f : bool * Z -> reader B) old b l a :
  parses (f (true, b)) l a -> parses (read_byte old ≫= f) (b :: l) a.
Proof. apply (parses_bind _ _ [b] l (b :: l)); [apply reads_r_byte, reads_ret|done]. Qed.

Lemma parses_last {A B} (m : reader A) (f : A -> reader B) l a b :
  parses m l a -> f a = mret b -> parses (m ≫= f) l b.
Proof.
  intros Hm Hf pre rest Hlen. destruct (Hm pre rest Hlen) as [d Hd]. exists d.
  rewrite run_reader_bind, Hd. cbn. by rewrite Hf.
Qed.

Lemma parses_assoc {A B C} (m : reader A) (g : A -> reader B) (f : B -> reader C) l c :
  parses (m ≫= (fun x => g x ≫= f)) l c -> parses ((m ≫= g) ≫= f) l c.
Proof.
  intros H pre rest Hlen. destruct (H pre rest Hlen) as [d Hd]. exists d.
  rewrite <- Hd, !run_reader_bind.
  destruct (run_reader m _) as [[x d']|]; cbn; [|done]. by rewrite run_reader_bind.
Qed.

Lemma parses_peek_local {B} (f : bool * option Z -> reader B) old b l a :
  parses (f (true, Some b)) (b :: l) a -> parses (peek_local old ≫= f) (b :: l) a.
Proof.
  intros H pre rest Hlen. destruct (H pre rest Hlen) as [d Hd]. exists d. rewrite <- Hd.
  unfold peek_local. cbn [mbind reader_bind run_reader de_peek BufferDeserialize_IISDeserialize].
  rewrite <- app_comm_cons in Hlen |- *. unfold BufferDeserialize_peek.
  rewrite valid_at by (unfold fcpFrameMaxLength in Hlen; width_lia). by rewrite cur_at.
Qed.

(** ** From streams to frames *)

Lemma parses_run {A} (m : reader A) bs rest a :
  Z.of_nat (length (bs ++ rest)) <= fcpFrameMaxLength -> parses m bs a ->
  exists d, run_reader m (BufferDeserialize_create (bs ++ rest) (Z.of_nat (length (bs ++ rest)))) = Some (a, d).
Proof. intros Hlen H. exact (H [] rest Hlen). Qed.


Lemma reads_run {A} (m : reader A) bs rest a :
  Z.of_nat (length (bs ++ rest)) < 2 ^ 64 -> reads m bs a ->
  run_reader m (BufferDeserialize_create (bs ++ rest) (Z.of_nat (length (bs ++ rest))))
  = Some (a, mkBufferDeserialize (bs ++ rest) (Z.of_nat (length bs)) (Z.of_nat (length (bs ++ rest)))).
Proof. intros Hlen H. exact (H [] rest Hlen). Qed.

Lemma emit_run {A} (m : writer A) a bs frame :
  emit m = Some (a, bs) -> (length bs < length frame)%nat -> Z.of_nat (length frame) < 2 ^ 64 ->
  run_writer m (BufferSerialize_create frame (Z.of_nat (length frame)))
  = Some (a, se_at bs (drop (length bs) frame)).
Proof. intros He Hlt Hlen. exact (BufferSerialize_refines_emit m a bs [] frame He Hlen Hlt). Qed.

(** What is written into a frame with [serialize] is read back from it with
    [deserialize]. *)
Lemma roundtrips_frame {T} `{IBusData T} (o0 o : T) frame :
  roundtrips o0 o -> Z.of_nat (length frame) < 2 ^ 64 ->
  (exists bs, emit (bd_serialize o) = Some (true, bs) /\ (length bs < length frame)%nat) ->
  exists s d,
    run_writer (bd_serialize o) (BufferSerialize_create frame (Z.of_nat (length frame)))
      = Some (true, s) /\
    run_reader (bd_deserialize o0)
      (BufferDeserialize_create (se_buffer s) (Z.of_nat (length (se_buffer s))))
      = Some ((true, o), d) /\
    de_curPos d = se_curPos s.
Proof.
  intros (bs & He & Hr) Hlen (bs' & He' & Hlt).
  assert (bs' = bs) as -> by congruence.
  eexists _, _. split; [exact (emit_run _ _ _ _ He Hlt Hlen)|].
  cbn [se_at se_buffer]. split; [apply reads_run; [len_lia|exact Hr]|done].
Qed.
