(* ===== verification/PlugAddress.v ===== *)
(** * PlugAddress: libavc/general/avc_extended_cmd_generic

    The plug addresses carried by the BridgeCo extended commands.  The
    abstract [PlugAddressData] and its subclasses become one inductive type
    per address family; [PlugAddress] keeps the dynamic type of its data when
    it parses, [PlugAddressSpecificData] picks it from the address mode. *)
From S2P Require Import Prelude Serialize BusData.

(** Address modes and directions (enums of both address classes) *)
Definition ePD_Input : Z := 0x00.
Definition ePD_Output : Z := 0x01.
Definition ePD_Undefined : Z := 0xff.
Definition ePAM_Unit : Z := 0x00.
Definition ePAM_Subunit : Z := 0x01.
Definition ePAM_FunctionBlock : Z := 0x02.
Definition ePAM_Undefined : Z := 0xff.
Definition ePT_PCR : Z := 0x00.
Definition ePT_ExternalPlug : Z := 0x01.
Definition ePT_AsynchronousPlug : Z := 0x02.
Definition eST_Reserved : Z := 0x1D.

(** ** Three-byte addresses *)

Record UnitPlugAddress := mkUnitPlugAddress {
  upa_plugType : Z; upa_plugId : Z; upa_reserved : Z }.

Definition UnitPlugAddress_new (plugType plugId : Z) : UnitPlugAddress :=
  mkUnitPlugAddress plugType plugId 0xff.

Definition UnitPlugAddress_serialize (o : UnitPlugAddress) : writer bool :=
  _ ← write_byte (upa_plugType o);
  _ ← write_byte (upa_plugId o);
  _ ← write_byte (upa_reserved o);
  mret true.

Definition UnitPlugAddress_deserialize (o : UnitPlugAddress) : reader (bool * UnitPlugAddress) :=
  '(_, plugType) ← read_byte (upa_plugType o);
  '(_, plugId) ← read_byte (upa_plugId o);
  '(_, reserved) ← read_byte (upa_reserved o);
  mret (true, mkUnitPlugAddress plugType plugId reserved).

#[export] Instance UnitPlugAddress_IBusData : IBusData UnitPlugAddress := {
  bd_serialize := UnitPlugAddress_serialize;
  bd_deserialize := UnitPlugAddress_deserialize;
  bd_clone o := Some o }.

Lemma UnitPlugAddress_roundtrip (o0 o : UnitPlugAddress) : roundtrips o0 o.
Proof. destruct o; solve_roundtrip. Qed.

Record SubunitPlugAddress := mkSubunitPlugAddress {
  spa_plugId : Z; spa_reserved0 : Z; spa_reserved1 : Z }.

Definition SubunitPlugAddress_new (plugId : Z) : SubunitPlugAddress :=
  mkSubunitPlugAddress plugId 0xff 0xff.

Definition SubunitPlugAddress_serialize (o : SubunitPlugAddress) : writer bool :=
  _ ← write_byte (spa_plugId o);
  _ ← write_byte (spa_reserved0 o);
  _ ← write_byte (spa_reserved1 o);
  mret true.

Definition SubunitPlugAddress_deserialize (o : SubunitPlugAddress)
  : reader (bool * SubunitPlugAddress) :=
  '(_, plugId) ← read_byte (spa_plugId o);
  '(_, reserved0) ← read_byte (spa_reserved0 o);
  '(_, reserved1) ← read_byte (spa_reserved1 o);
  mret (true, mkSubunitPlugAddress plugId reserved0 reserved1).

#[export] Instance SubunitPlugAddress_IBusData : IBusData SubunitPlugAddress := {
  bd_serialize := SubunitPlugAddress_serialize;
  bd_deserialize := SubunitPlugAddress_deserialize;
  bd_clone o := Some o }.

Lemma SubunitPlugAddress_roundtrip (o0 o : SubunitPlugAddress) : roundtrips o0 o.
Proof. destruct o; solve_roundtrip. Qed.

Record FunctionBlockPlugAddress := mkFunctionBlockPlugAddress {
  fpa_functionBlockType : Z; fpa_functionBlockId : Z; fpa_plugId : Z }.

Definition FunctionBlockPlugAddress_new (functionBlockType functionBlockId plugId : Z) : FunctionBlockPlugAddress :=
  mkFunctionBlockPlugAddress functionBlockType functionBlockId plugId.

Definition FunctionBlockPlugAddress_serialize (o : FunctionBlockPlugAddress) : writer bool :=
  _ ← write_byte (fpa_functionBlockType o);
  _ ← write_byte (fpa_functionBlockId o);
  _ ← write_byte (fpa_plugId o);
  mret true.

Definition FunctionBlockPlugAddress_deserialize (o : FunctionBlockPlugAddress)
  : reader (bool * FunctionBlockPlugAddress) :=
  '(_, functionBlockType) ← read_byte (fpa_functionBlockType o);
  '(_, functionBlockId) ← read_byte (fpa_functionBlockId o);
  '(_, plugId) ← read_byte (fpa_plugId o);
  mret (true, mkFunctionBlockPlugAddress functionBlockType functionBlockId plugId).

#[export] Instance FunctionBlockPlugAddress_IBusData : IBusData FunctionBlockPlugAddress := {
  bd_serialize := FunctionBlockPlugAddress_serialize;
  bd_deserialize := FunctionBlockPlugAddress_deserialize;
  bd_clone o := Some o }.

Lemma FunctionBlockPlugAddress_roundtrip (o0 o : FunctionBlockPlugAddress) : roundtrips o0 o.
Proof. destruct o; solve_roundtrip. Qed.

Record UndefinedPlugAddress := mkUndefinedPlugAddress {
  xpa_reserved0 : Z; xpa_reserved1 : Z; xpa_reserved2 : Z }.

Definition UndefinedPlugAddress_new : UndefinedPlugAddress :=
  mkUndefinedPlugAddress 0xff 0xff 0xff.

Definition UndefinedPlugAddress_serialize (o : UndefinedPlugAddress) : writer bool :=
  _ ← write_byte (xpa_reserved0 o);
  _ ← write_byte (xpa_reserved1 o);
  _ ← write_byte (xpa_reserved2 o);
  mret true.

Definition UndefinedPlugAddress_deserialize (o : UndefinedPlugAddress)
  : reader (bool * UndefinedPlugAddress) :=
  '(_, reserved0) ← read_byte (xpa_reserved0 o);
  '(_, reserved1) ← read_byte (xpa_reserved1 o);
  '(_, reserved2) ← read_byte (xpa_reserved2 o);
  mret (true, mkUndefinedPlugAddress reserved0 reserved1 reserved2).

#[export] Instance UndefinedPlugAddress_IBusData : IBusData UndefinedPlugAddress := {
  bd_serialize := UndefinedPlugAddress_serialize;
  bd_deserialize := UndefinedPlugAddress_deserialize;
  bd_clone o := Some o }.

Lemma UndefinedPlugAddress_roundtrip (o0 o : UndefinedPlugAddress) : roundtrips o0 o.
Proof. destruct o; solve_roundtrip. Qed.

(** ** Five-byte addresses *)

Record UnitPlugSpecificDataPlugAddress := mkUnitPlugSpecificDataPlugAddress {
  ups_plugType : Z; ups_plugId : Z; ups_reserved0 : Z; ups_reserved1 : Z; ups_reserved2 : Z }.

Definition UnitPlugSpecificDataPlugAddress_new (plugType plugId : Z) : UnitPlugSpecificDataPlugAddress :=
  mkUnitPlugSpecificDataPlugAddress plugType plugId 0xff 0xff 0xff.

Definition UnitPlugSpecificDataPlugAddress_serialize (o : UnitPlugSpecificDataPlugAddress) : writer bool :=
  _ ← write_byte (ups_plugType o);
  _ ← write_byte (ups_plugId o);
  _ ← write_byte (ups_reserved0 o);
  _ ← write_byte (ups_reserved1 o);
  _ ← write_byte (ups_reserved2 o);
  mret true.

Definition UnitPlugSpecificDataPlugAddress_deserialize (o : UnitPlugSpecificDataPlugAddress)
  : reader (bool * UnitPlugSpecificDataPlugAddress) :=
  '(_, plugType) ← read_byte (ups_plugType o);
  '(_, plugId) ← read_byte (ups_plugId o);
  '(_, reserved0) ← read_byte (ups_reserved0 o);
  '(_, reserved1) ← read_byte (ups_reserved1 o);
  '(_, reserved2) ← read_byte (ups_reserved2 o);
  mret (true, mkUnitPlugSpecificDataPlugAddress plugType plugId reserved0 reserved1 reserved2).

#[export] Instance UnitPlugSpecificDataPlugAddress_IBusData : IBusData UnitPlugSpecificDataPlugAddress := {
  bd_serialize := UnitPlugSpecificDataPlugAddress_serialize;
  bd_deserialize := UnitPlugSpecificDataPlugAddress_deserialize;
  bd_clone o := Some o }.

Lemma UnitPlugSpecificDataPlugAddress_roundtrip (o0 o : UnitPlugSpecificDataPlugAddress) : roundtrips o0 o.
Proof. destruct o; solve_roundtrip. Qed.

Record SubunitPlugSpecificDataPlugAddress := mkSubunitPlugSpecificDataPlugAddress {
  sps_subunitType : Z; sps_subunitId : Z; sps_plugId : Z; sps_reserved0 : Z; sps_reserved1 : Z }.

Definition SubunitPlugSpecificDataPlugAddress_new (subunitType subunitId plugId : Z) : SubunitPlugSpecificDataPlugAddress :=
  mkSubunitPlugSpecificDataPlugAddress subunitType subunitId plugId 0xff 0xff.

Definition SubunitPlugSpecificDataPlugAddress_serialize (o : SubunitPlugSpecificDataPlugAddress) : writer bool :=
  _ ← write_byte (sps_subunitType o);
  _ ← write_byte (sps_subunitId o);
  _ ← write_byte (sps_plugId o);
  _ ← write_byte (sps_reserved0 o);
  _ ← write_byte (sps_reserved1 o);
  mret true.

Definition SubunitPlugSpecificDataPlugAddress_deserialize (o : SubunitPlugSpecificDataPlugAddress)
  : reader (bool * SubunitPlugSpecificDataPlugAddress) :=
  '(_, subunitType) ← read_byte (sps_subunitType o);
  '(_, subunitId) ← read_byte (sps_subunitId o);
  '(_, plugId) ← read_byte (sps_plugId o);
  '(_, reserved0) ← read_byte (sps_reserved0 o);
  '(_, reserved1) ← read_byte (sps_reserved1 o);
  mret (true, mkSubunitPlugSpecificDataPlugAddress subunitType subunitId plugId reserved0 reserved1).

#[export] Instance SubunitPlugSpecificDataPlugAddress_IBusData : IBusData SubunitPlugSpecificDataPlugAddress := {
  bd_serialize := SubunitPlugSpecificDataPlugAddress_serialize;
  bd_deserialize := SubunitPlugSpecificDataPlugAddress_deserialize;
  bd_clone o := Some o }.

Lemma SubunitPlugSpecificDataPlugAddress_roundtrip (o0 o : SubunitPlugSpecificDataPlugAddress) : roundtrips o0 o.
Proof. destruct o; solve_roundtrip. Qed.

Record FunctionBlockPlugSpecificDataPlugAddress := mkFunctionBlockPlugSpecificDataPlugAddress {
  fps_subunitType : Z; fps_subunitId : Z; fps_functionBlockType : Z; fps_functionBlockId : Z; fps_plugId : Z }.

Definition FunctionBlockPlugSpecificDataPlugAddress_new (subunitType subunitId functionBlockType functionBlockId plugId : Z) : FunctionBlockPlugSpecificDataPlugAddress :=
  mkFunctionBlockPlugSpecificDataPlugAddress subunitType subunitId functionBlockType functionBlockId plugId.

Definition FunctionBlockPlugSpecificDataPlugAddress_serialize (o : FunctionBlockPlugSpecificDataPlugAddress) : writer bool :=
  _ ← write_byte (fps_subunitType o);
  _ ← write_byte (fps_subunitId o);
  _ ← write_byte (fps_functionBlockType o);
  _ ← write_byte (fps_functionBlockId o);
  _ ← write_byte (fps_plugId o);
  mret true.

Definition FunctionBlockPlugSpecificDataPlugAddress_deserialize (o : FunctionBlockPlugSpecificDataPlugAddress)
  : reader (bool * FunctionBlockPlugSpecificDataPlugAddress) :=
  '(_, subunitType) ← read_byte (fps_subunitType o);
  '(_, subunitId) ← read_byte (fps_subunitId o);
  '(_, functionBlockType) ← read_byte (fps_functionBlockType o);
  '(_, functionBlockId) ← read_byte (fps_functionBlockId o);
  '(_, plugId) ← read_byte (fps_plugId o);
  mret (true, mkFunctionBlockPlugSpecificDataPlugAddress subunitType subunitId functionBlockType functionBlockId plugId).

#[export] Instance FunctionBlockPlugSpecificDataPlugAddress_IBusData : IBusData FunctionBlockPlugSpecificDataPlugAddress := {
  bd_serialize := FunctionBlockPlugSpecificDataPlugAddress_serialize;
  bd_deserialize := FunctionBlockPlugSpecificDataPlugAddress_deserialize;
  bd_clone o := Some o }.

Lemma FunctionBlockPlugSpecificDataPlugAddress_roundtrip (o0 o : FunctionBlockPlugSpecificDataPlugAddress) : roundtrips o0 o.
Proof. destruct o; solve_roundtrip. Qed.

Record UndefinedPlugSpecificDataPlugAddress := mkUndefinedPlugSpecificDataPlugAddress {
  xps_reserved0 : Z; xps_reserved1 : Z; xps_reserved2 : Z; xps_reserved3 : Z; xps_reserved4 : Z }.

Definition UndefinedPlugSpecificDataPlugAddress_new : UndefinedPlugSpecificDataPlugAddress :=
  mkUndefinedPlugSpecificDataPlugAddress 0xff 0xff 0xff 0xff 0xff.

Definition UndefinedPlugSpecificDataPlugAddress_serialize (o : UndefinedPlugSpecificDataPlugAddress) : writer bool :=
  _ ← write_byte (xps_reserved0 o);
  _ ← write_byte (xps_reserved1 o);
  _ ← write_byte (xps_reserved2 o);
  _ ← write_byte (xps_reserved3 o);
  _ ← write_byte (xps_reserved4 o);
  mret true.

Definition UndefinedPlugSpecificDataPlugAddress_deserialize (o : UndefinedPlugSpecificDataPlugAddress)
  : reader (bool * UndefinedPlugSpecificDataPlugAddress) :=
  '(_, reserved0) ← read_byte (xps_reserved0 o);
  '(_, reserved1) ← read_byte (xps_reserved1 o);
  '(_, reserved2) ← read_byte (xps_reserved2 o);
  '(_, reserved3) ← read_byte (xps_reserved3 o);
  '(_, reserved4) ← read_byte (xps_reserved4 o);
  mret (true, mkUndefinedPlugSpecificDataPlugAddress reserved0 reserved1 reserved2 reserved3 reserved4).

#[export] Instance UndefinedPlugSpecificDataPlugAddress_IBusData : IBusData UndefinedPlugSpecificDataPlugAddress := {
  bd_serialize := UndefinedPlugSpecificDataPlugAddress_serialize;
  bd_deserialize := UndefinedPlugSpecificDataPlugAddress_deserialize;
  bd_clone o := Some o }.

Lemma UndefinedPlugSpecificDataPlugAddress_roundtrip (o0 o : UndefinedPlugSpecificDataPlugAddress) : roundtrips o0 o.
Proof. destruct o; solve_roundtrip. Qed.

(** ** PlugAddress *)

(** The classes derived from [PlugAddressData] that a [PlugAddress] owns. *)
Inductive PlugAddressData :=
| PAD_Unit (d : UnitPlugAddress)
| PAD_Subunit (d : SubunitPlugAddress)
| PAD_FunctionBlock (d : FunctionBlockPlugAddress)
| PAD_Undefined (d : UndefinedPlugAddress).

(** the virtual calls [m_plugAddressData->serialize], [->deserialize] *)
Definition PlugAddressData_serialize (o : PlugAddressData) : writer bool :=
  match o with
  | PAD_Unit d => bd_serialize d
  | PAD_Subunit d => bd_serialize d
  | PAD_FunctionBlock d => bd_serialize d
  | PAD_Undefined d => bd_serialize d
  end.

Definition PlugAddressData_deserialize (o : PlugAddressData) : reader (bool * PlugAddressData) :=
  match o with
  | PAD_Unit d => '(b, d') ← bd_deserialize d; mret (b, PAD_Unit d')
  | PAD_Subunit d => '(b, d') ← bd_deserialize d; mret (b, PAD_Subunit d')
  | PAD_FunctionBlock d => '(b, d') ← bd_deserialize d; mret (b, PAD_FunctionBlock d')
  | PAD_Undefined d => '(b, d') ← bd_deserialize d; mret (b, PAD_Undefined d')
  end.

#[export] Instance PlugAddressData_IBusData : IBusData PlugAddressData := {
  bd_serialize := PlugAddressData_serialize;
  bd_deserialize := PlugAddressData_deserialize;
  bd_clone o := Some o }.

Record PlugAddress := mkPlugAddress {
  pa_plugDirection : Z; pa_addressMode : Z; pa_plugAddressData : PlugAddressData }.

Definition PlugAddress_new (plugDirection plugAddressMode : Z) (d : PlugAddressData) : PlugAddress :=
  mkPlugAddress plugDirection plugAddressMode d.

Definition PlugAddress_new_undefined : PlugAddress :=
  mkPlugAddress ePD_Undefined ePAM_Undefined (PAD_Undefined UndefinedPlugAddress_new).

Definition PlugAddress_serialize (o : PlugAddress) : writer bool :=
  _ ← write_byte (pa_plugDirection o);
  _ ← write_byte (pa_addressMode o);
  bd_serialize (pa_plugAddressData o).

Definition PlugAddress_deserialize (o : PlugAddress) : reader (bool * PlugAddress) :=
  '(_, plugDirection) ← read_byte (pa_plugDirection o);
  '(_, addressMode) ← read_byte (pa_addressMode o);
  '(b, d) ← bd_deserialize (pa_plugAddressData o);
  mret (b, mkPlugAddress plugDirection addressMode d).

#[export] Instance PlugAddress_IBusData : IBusData PlugAddress := {
  bd_serialize := PlugAddress_serialize;
  bd_deserialize := PlugAddress_deserialize;
  bd_clone o := Some o }.

(** The dynamic types agree. *)
Definition same_class (d0 d : PlugAddressData) : Prop :=
  match d0, d with
  | PAD_Unit _, PAD_Unit _ | PAD_Subunit _, PAD_Subunit _
  | PAD_FunctionBlock _, PAD_FunctionBlock _ | PAD_Undefined _, PAD_Undefined _ => True
  | _, _ => False
  end.

Lemma PlugAddress_roundtrip_same (o0 o : PlugAddress) :
  same_class (pa_plugAddressData o0) (pa_plugAddressData o) -> roundtrips o0 o.
Proof.
  destruct o0 as [? ? d0], o as [? ? d]; cbn.
  destruct d0, d; try done; intros _; match goal with d : _ |- roundtrips _ (mkPlugAddress _ _ (_ ?d)) => destruct d end;
    solve_roundtrip.
Qed.

(** ** PlugAddressSpecificData *)

Inductive PlugSpecificData :=
| PSD_Unit (d : UnitPlugSpecificDataPlugAddress)
| PSD_Subunit (d : SubunitPlugSpecificDataPlugAddress)
| PSD_FunctionBlock (d : FunctionBlockPlugSpecificDataPlugAddress)
| PSD_Undefined (d : UndefinedPlugSpecificDataPlugAddress).

Definition PlugSpecificData_serialize (o : PlugSpecificData) : writer bool :=
  match o with
  | PSD_Unit d => bd_serialize d
  | PSD_Subunit d => bd_serialize d
  | PSD_FunctionBlock d => bd_serialize d
  | PSD_Undefined d => bd_serialize d
  end.

Definition PlugSpecificData_deserialize (o : PlugSpecificData) : reader (bool * PlugSpecificData) :=
  match o with
  | PSD_Unit d => '(b, d') ← bd_deserialize d; mret (b, PSD_Unit d')
  | PSD_Subunit d => '(b, d') ← bd_deserialize d; mret (b, PSD_Subunit d')
  | PSD_FunctionBlock d => '(b, d') ← bd_deserialize d; mret (b, PSD_FunctionBlock d')
  | PSD_Undefined d => '(b, d') ← bd_deserialize d; mret (b, PSD_Undefined d')
  end.

#[export] Instance PlugSpecificData_IBusData : IBusData PlugSpecificData := {
  bd_serialize := PlugSpecificData_serialize;
  bd_deserialize := PlugSpecificData_deserialize;
  bd_clone o := Some o }.

Record PlugAddressSpecificData := mkPlugAddressSpecificData {
  pas_plugDirection : Z; pas_addressMode : Z; pas_plugAddressData : PlugSpecificData }.

Definition PlugAddressSpecificData_new (plugDirection plugAddressMode : Z) (d : PlugSpecificData)
  : PlugAddressSpecificData := mkPlugAddressSpecificData plugDirection plugAddressMode d.

Definition PlugAddressSpecificData_serialize (o : PlugAddressSpecificData) : writer bool :=
  _ ← write_byte (pas_plugDirection o);
  _ ← write_byte (pas_addressMode o);
  bd_serialize (pas_plugAddressData o).

(** the [switch ( m_addressMode )] that allocates the new address data *)
Definition PlugAddressSpecificData_fresh (addressMode : Z) : PlugSpecificData :=
  if addressMode =? ePAM_Unit then PSD_Unit (UnitPlugSpecificDataPlugAddress_new ePT_PCR 0xff)
  else if addressMode =? ePAM_Subunit then
    PSD_Subunit (SubunitPlugSpecificDataPlugAddress_new eST_Reserved 0xff 0xff)
  else if addressMode =? ePAM_FunctionBlock then
    PSD_FunctionBlock (FunctionBlockPlugSpecificDataPlugAddress_new eST_Reserved 0xff 0xff 0xff 0xff)
  else PSD_Undefined UndefinedPlugSpecificDataPlugAddress_new.

Definition PlugAddressSpecificData_deserialize (o : PlugAddressSpecificData)
  : reader (bool * PlugAddressSpecificData) :=
  '(_, plugDirection) ← read_byte (pas_plugDirection o);
  '(_, addressMode) ← read_byte (pas_addressMode o);
  '(b, d) ← bd_deserialize (PlugAddressSpecificData_fresh addressMode);
  mret (b, mkPlugAddressSpecificData plugDirection addressMode d).

#[export] Instance PlugAddressSpecificData_IBusData : IBusData PlugAddressSpecificData := {
  bd_serialize := PlugAddressSpecificData_serialize;
  bd_deserialize := PlugAddressSpecificData_deserialize;
  bd_clone o := Some o }.

(** The address data is of the class its address mode announces. *)
Definition pas_wf (o : PlugAddressSpecificData) : Prop :=
  match pas_plugAddressData o, PlugAddressSpecificData_fresh (pas_addressMode o) with
  | PSD_Unit _, PSD_Unit _ | PSD_Subunit _, PSD_Subunit _
  | PSD_FunctionBlock _, PSD_FunctionBlock _ | PSD_Undefined _, PSD_Undefined _ => True
  | _, _ => False
  end.

Lemma PlugSpecificData_roundtrip_same (d0 d : PlugSpecificData) :
  match d, d0 with
  | PSD_Unit _, PSD_Unit _ | PSD_Subunit _, PSD_Subunit _
  | PSD_FunctionBlock _, PSD_FunctionBlock _ | PSD_Undefined _, PSD_Undefined _ => True
  | _, _ => False
  end -> roundtrips d0 d.
Proof. destruct d as [d|d|d|d], d0; try done; intros _; destruct d; solve_roundtrip. Qed.

(** Whatever address the parser held before, it rebuilds the one written. *)
Lemma PlugAddressSpecificData_roundtrip_wf (o0 o : PlugAddressSpecificData) :
  pas_wf o -> roundtrips o0 o.
Proof.
  intros Hwf. destruct (PlugSpecificData_roundtrip_same _ _ Hwf) as (bs & He & Hr).
  destruct o as [dir mode d]. exists (dir :: mode :: bs). split.
  - cbn in *. by rewrite He.
  - change (bd_deserialize o0) with (PlugAddressSpecificData_deserialize o0).
    unfold PlugAddressSpecificData_deserialize. do 2 reads_step.
    eapply reads_bind_eq; [exact Hr|by rewrite app_nil_r|apply reads_ret].
Qed.

(** ** Property *)

(** The plug address inside extended plug information is self-describing:
    an object that held an address of any class parses the address that was
    written, class included, if the class matches the address mode. *)
Lemma PlugAddressSpecificData_roundtrip (o0 o : PlugAddressSpecificData) :
  pas_wf o -> roundtrips o0 o.
Proof. apply PlugAddressSpecificData_roundtrip_wf. Qed.

Lemma PlugAddressSpecificData_roundtrip_witness :
  roundtrips
    (PlugAddressSpecificData_new ePD_Undefined ePAM_Undefined (PSD_Undefined UndefinedPlugSpecificDataPlugAddress_new))
    (PlugAddressSpecificData_new ePD_Output ePAM_FunctionBlock
       (PSD_FunctionBlock (FunctionBlockPlugSpecificDataPlugAddress_new 0x01 0 0x81 2 1))).
Proof. apply PlugAddressSpecificData_roundtrip. vm_compute. exact I. Defined.
