(* ===== verification/AvcCommand.v ===== *)
(** * AvcCommand: libavc/general/avc_generic

    The base class of the AV/C commands: the FCP frame header, the subunit
    addressing bits, and [AVCCommand::fire], which serialises a command into
    the 512-byte FCP frame, hands it to the bus and parses the response. *)
From stdpp Require Import strings.
From S2P Require Import Prelude Serialize BusData.

(** ECommandType *)
Definition eCT_Control : Z := 0x00.
Definition eCT_Status : Z := 0x01.
Definition eCT_SpecificInquiry : Z := 0x02.
Definition eCT_Notify : Z := 0x03.
Definition eCT_GeneralInquiry : Z := 0x04.
Definition eCT_Unknown : Z := 0xff.

(** EResponse *)
Definition eR_Unknown : Z := 0xff.
Definition eR_NotImplemented : Z := 0x08.
Definition eR_Accepted : Z := 0x09.
Definition eR_Rejected : Z := 0x0A.
Definition eR_InTransition : Z := 0x0B.
Definition eR_Implemented : Z := 0x0C.
Definition eR_Changed : Z := 0x0D.
Definition eR_Interim : Z := 0x0F.

(** ESubunitType (the values the commands test) *)
Definition eST_Audio : Z := 0x01.
Definition eST_Music : Z := 0x0C.
Definition eST_Unit : Z := 0x1F.

(** ** Names for the debug output *)

(** The array has fifteen entries: the comma after ["changed"] is missing, so
    that two literals are one string. *)
Definition responseToStrings : list string :=
  ["control"; "status"; "specific inquiry"; "notify"; "general inquiry";
   "reserved for future specification"; "reserved for future specification";
   "reserved for future specification"; "not implemented"; "accepted"; "rejected";
   "in transition"; "implemented/stable"; "changedreserved for future specification";
   "interim"]%string.

(** an index one past the array passes the test; [None] is that access *)
Definition responseToString (eResponse : Z) : option string :=
  if Z.of_nat (length responseToStrings) <? eResponse then Some "unknown"%string
  else responseToStrings !! Z.to_nat eResponse.

Definition subunitTypeStrings : list string :=
  ["Monitor"; "Audio"; "Printer"; "Disc recorder"; "Tape recorder/VCR"; "Tuner"; "CA";
   "Video camera"; "unknown"; "Panel"; "Bulletin board"; "Camera storage"; "Music"]%string.

Definition subunitTypeToString (subunitType : Z) : option string :=
  if subunitType =? eST_Unit then Some "Unit"%string
  else if Z.of_nat (length subunitTypeStrings) <? subunitType then Some "unknown"%string
  else subunitTypeStrings !! Z.to_nat subunitType.

(** ** AVCCommand *)

(** [m_commandType] has no initialiser. *)
Record AVCCommand := mkAVCCommand {
  m_nodeId : Z;
  m_fcpFrame : list Z;
  m_ctype : Z;
  m_subunit : Z;
  m_opcode : Z;
  m_eResponse : Z;
  m_commandType : option Z }.

Definition AVCCommand_new (opcode : Z) : AVCCommand :=
  mkAVCCommand 0 (replicate (Z.to_nat fcpFrameMaxLength) 0) eCT_Unknown 0xff opcode eR_Unknown None.

Definition AVCCommand_setCommandType (commandType : Z) (c : AVCCommand) : AVCCommand :=
  mkAVCCommand (m_nodeId c) (m_fcpFrame c) (u8 commandType) (m_subunit c) (m_opcode c)
    (m_eResponse c) (Some commandType).

Definition AVCCommand_getCommandType (c : AVCCommand) : option Z := m_commandType c.

Definition AVCCommand_getResponse (c : AVCCommand) : Z := m_eResponse c.

Definition AVCCommand_with_subunit (s : Z) (c : AVCCommand) : AVCCommand :=
  mkAVCCommand (m_nodeId c) (m_fcpFrame c) (m_ctype c) s (m_opcode c) (m_eResponse c) (m_commandType c).

Definition AVCCommand_setSubunitType (subunitType : Z) (c : AVCCommand) : AVCCommand :=
  let subT := u8 subunitType in
  AVCCommand_with_subunit (u8 (Z.lor (Z.shiftl subT 3) (Z.land (m_subunit c) 0x7))) c.

Definition AVCCommand_setNodeId (nodeId : Z) (c : AVCCommand) : AVCCommand :=
  mkAVCCommand nodeId (m_fcpFrame c) (m_ctype c) (m_subunit c) (m_opcode c) (m_eResponse c) (m_commandType c).

Definition AVCCommand_setSubunitId (subunitId : Z) (c : AVCCommand) : AVCCommand :=
  AVCCommand_with_subunit (u8 (Z.lor (Z.land subunitId 0x7) (Z.land (m_subunit c) 0xf8))) c.

Definition AVCCommand_getSubunitType (c : AVCCommand) : Z := Z.shiftr (m_subunit c) 3.

Definition AVCCommand_getSubunitId (c : AVCCommand) : Z := Z.land (m_subunit c) 0x7.

(** the debug strings are built before the writes, whatever the stream is *)
Definition AVCCommand_serialize (c : AVCCommand) : writer bool :=
  match responseToString (m_ctype c) with
  | None => w_undef
  | Some _ =>
      _ ← write_byte (m_ctype c);
      _ ← write_byte (m_subunit c);
      _ ← write_byte (m_opcode c);
      mret true
  end.

Definition AVCCommand_with_header (ctype subunit opcode : Z) (c : AVCCommand) : AVCCommand :=
  mkAVCCommand (m_nodeId c) (m_fcpFrame c) ctype subunit opcode (m_eResponse c) (m_commandType c).

Definition AVCCommand_deserialize (c : AVCCommand) : reader (bool * AVCCommand) :=
  '(_, ctype) ← read_byte (m_ctype c);
  '(_, subunit) ← read_byte (m_subunit c);
  '(_, opcode) ← read_byte (m_opcode c);
  mret (true, AVCCommand_with_header ctype subunit opcode c).

Definition AVCCommand_with_frame (frame : list Z) (c : AVCCommand) : AVCCommand :=
  mkAVCCommand (m_nodeId c) frame (m_ctype c) (m_subunit c) (m_opcode c) (m_eResponse c) (m_commandType c).

Definition AVCCommand_with_response (r : Z) (c : AVCCommand) : AVCCommand :=
  mkAVCCommand (m_nodeId c) (m_fcpFrame c) (m_ctype c) (m_subunit c) (m_opcode c) r (m_commandType c).

(** ** The commands derived from AVCCommand

    The object of a derived class contains its [AVCCommand] part; [serialize]
    and [deserialize] are the overridden virtual methods ([serialize] may
    update the object). *)
Class AVCCommandClass (C : Type) := {
  cmd_base : C -> AVCCommand;
  cmd_set_base : AVCCommand -> C -> C;
  cmd_serialize : C -> writer (bool * C);
  cmd_deserialize : C -> reader (bool * C) }.

Definition with_object {C} (c : C) (m : writer bool) : writer (bool * C) :=
  b ← m; mret (b, c).

Section fire.
Context {C : Type} `{AVCCommandClass C}.

(** [Ieee1394Service::transactionBlock( m_nodeId, frame, len, &resp_len )]
    runs an FCP transaction through libavc1394: the bytes of the request
    quadlets to the response bytes (four per quadlet), or no response. *)
Variable transactionBlock : Z -> list Z -> option (list Z).

Definition fire_expected (r : Z) : bool :=
  (r =? eR_Accepted) || (r =? eR_Implemented) || (r =? eR_Rejected) || (r =? eR_NotImplemented).

(** The part after [transactionBlock] returned [buf]. *)
Definition fire_response (buf : list Z) (c : C) : option (bool * C) :=
  r ← load buf 0;
  let c1 := cmd_set_base (AVCCommand_with_response r (cmd_base c)) c in
  let de := BufferDeserialize_create buf (Z.of_nat (length buf)) in
  if fire_expected r then
    '((result, c2), _) ← run_reader (cmd_deserialize c1) de;
    (* the StringSerializer of the debug output accepts every write *)
    '((_, c3), _) ← emit (cmd_serialize c2);
    Some (result, c3)
  else
    '((_, c2), _) ← run_reader (cmd_deserialize c1) de;
    Some (false, c2).

Definition fire (c : C) : option (bool * C) :=
  let frame0 := replicate (Z.to_nat fcpFrameMaxLength) 0 in
  '((ok, c1), se) ← run_writer (cmd_serialize c) (BufferSerialize_create frame0 fcpFrameMaxLength);
  let c2 := cmd_set_base (AVCCommand_with_frame (se_buffer se) (cmd_base c1)) c1 in
  if negb ok then Some (false, c2)
  else
    let fcpFrameSize := u16 (BufferSerialize_getNrOfProducesBytes se) in
    let quadlets := (fcpFrameSize + 3) `quot` 4 in
    match transactionBlock (m_nodeId (cmd_base c2)) (take (Z.to_nat (4 * quadlets)) (se_buffer se)) with
    | None => Some (false, c2)
    | Some buf => fire_response buf c2
    end.
End fire.

(** [fire] on a bus whose state the transaction changes *)
Section fire_on.
Context {C W : Type} `{AVCCommandClass C}.
Variable transactionBlock : Z -> list Z -> W -> option (list Z) * W.

Definition fire_on (c : C) (w : W) : option ((bool * C) * W) :=
  let frame0 := replicate (Z.to_nat fcpFrameMaxLength) 0 in
  '((ok, c1), se) ← run_writer (cmd_serialize c) (BufferSerialize_create frame0 fcpFrameMaxLength);
  let c2 := cmd_set_base (AVCCommand_with_frame (se_buffer se) (cmd_base c1)) c1 in
  if negb ok then Some ((false, c2), w)
  else
    let fcpFrameSize := u16 (BufferSerialize_getNrOfProducesBytes se) in
    let quadlets := (fcpFrameSize + 3) `quot` 4 in
    match transactionBlock (m_nodeId (cmd_base c2)) (take (Z.to_nat (4 * quadlets)) (se_buffer se)) w with
    | (None, w1) => Some ((false, c2), w1)
    | (Some buf, w1) => r ← fire_response buf c2; Some (r, w1)
    end.

Lemma fire_on_fire c w :
  fst <$> fire_on c w = fire (fun nodeId frame => fst (transactionBlock nodeId frame w)) c.
Proof.
  unfold fire_on, fire. destruct (run_writer _ _) as [[[ok c1] se]|]; [|done]. cbn [mbind option_bind].
  destruct (negb ok); [done|]. destruct (transactionBlock _ _ w) as [[buf|] w1]; [|done]. cbn [fst].
  by destruct (fire_response buf _).
Qed.
End fire_on.

(** ** The frame header *)

Lemma emit_bind_eq {A B} (m : writer A) (f : A -> writer B) l1 l2 l a b :
  emit m = Some (a, l1) -> emit (f a) = Some (b, l2) -> l = l1 ++ l2 ->
  emit (m ≫= f) = Some (b, l).
Proof. intros H1 H2 ->. rewrite emit_bind, H1. cbn. by rewrite H2. Qed.

(** The command type has a name: every value but [eR_Interim]. *)
Definition ctype_named (b : AVCCommand) : Prop := is_Some (responseToString (m_ctype b)).

#[export] Instance ctype_named_dec b : Decision (ctype_named b).
Proof. unfold ctype_named. apply _. Defined.

Lemma ctype_named_iff ctype :
  is_u8 ctype -> is_Some (responseToString ctype) <-> ctype <> eR_Interim.
Proof.
  intros H. revert ctype H. set (f c := bool_decide (is_Some (responseToString c)) || (c =? eR_Interim)).
  set (g c := negb (bool_decide (is_Some (responseToString c)) && (c =? eR_Interim))).
  assert (Hf : for_range 0 256 f = true) by (vm_compute; reflexivity).
  assert (Hg : for_range 0 256 g = true) by (vm_compute; reflexivity).
  intros c Hc. pose proof (for_u8 f Hf c Hc) as H1. pose proof (for_u8 g Hg c Hc) as H2.
  unfold f, g in *. rewrite ?orb_true_iff, ?negb_true_iff, ?andb_false_iff in *.
  rewrite ?bool_decide_eq_true, ?bool_decide_eq_false, ?Z.eqb_eq, ?Z.eqb_neq in *. tauto.
Qed.

Definition AVCCommand_header (b : AVCCommand) : list Z := [m_ctype b; m_subunit b; m_opcode b].

Lemma emit_AVCCommand_serialize b :
  ctype_named b -> emit (AVCCommand_serialize b) = Some (true, AVCCommand_header b).
Proof. intros [s Hs]. unfold AVCCommand_serialize. by rewrite Hs. Qed.

Lemma emit_header {A} (f : bool -> writer A) b a l :
  ctype_named b -> emit (f true) = Some (a, l) ->
  emit (AVCCommand_serialize b ≫= f) = Some (a, AVCCommand_header b ++ l).
Proof. intros Hb Hf. by eapply emit_bind_eq; [apply emit_AVCCommand_serialize| |]. Qed.

Lemma reads_header {A} (f : bool * AVCCommand -> reader A) b0 ctype subunit opcode l a :
  reads (f (true, AVCCommand_with_header ctype subunit opcode b0)) l a ->
  reads (AVCCommand_deserialize b0 ≫= f) (ctype :: subunit :: opcode :: l) a.
Proof. intros H. cbn. by repeat apply reads_r_byte. Qed.

(** What a parsed command takes from the frame, and what it keeps. *)
Definition AVCCommand_merge (b0 b : AVCCommand) : AVCCommand :=
  AVCCommand_with_header (m_ctype b) (m_subunit b) (m_opcode b) b0.

Lemma reads_header_of {A} (f : bool * AVCCommand -> reader A) b0 b l a :
  reads (f (true, AVCCommand_merge b0 b)) l a ->
  reads (AVCCommand_deserialize b0 ≫= f) (AVCCommand_header b ++ l) a.
Proof. apply reads_header. Qed.

Lemma AVCCommand_reads b0 b :
  reads (AVCCommand_deserialize b0) (AVCCommand_header b) (true, AVCCommand_merge b0 b).
Proof. cbn. repeat apply reads_r_byte. apply reads_ret. Qed.

(** The round-trip law of a command: the object in state [c0] that parses the
    frame of [c] becomes [c], up to what a frame does not carry. *)
Definition cmd_roundtrips {C} `{AVCCommandClass C} (c0 c : C) : Prop :=
  exists bs, emit (cmd_serialize c) = Some ((true, c), bs) /\
    reads (cmd_deserialize c0) bs
      (true, cmd_set_base (AVCCommand_merge (cmd_base c0) (cmd_base c)) c).

Lemma emit_with_object {C} (c : C) (m : writer bool) b bs :
  emit m = Some (b, bs) -> emit (with_object c m) = Some ((b, c), bs).
Proof. intros H. unfold with_object. rewrite emit_bind, H. cbn. by rewrite app_nil_r. Qed.

(** A command whose operands have a fixed layout: [Hb] says that its command
    type has a name. What is left is the equality of the parsed operands. *)
Ltac solve_cmd_emit Hb :=
  eexists; split; [apply emit_with_object, emit_header; [exact Hb|cbn; reflexivity]|].

Ltac solve_cmd_reads :=
  apply reads_header_of; repeat reads_eval_step.

(** ** Subunit addressing *)

(** The subunit byte is a five-bit type and a three-bit id. *)
Lemma subunit_bits_check s t i :
  is_u8 s -> 0 <= t < 32 -> 0 <= i < 8 ->
  let s1 := u8 (Z.lor (Z.shiftl t 3) (Z.land s 0x7)) in
  let s2 := u8 (Z.lor (Z.land i 0x7) (Z.land s1 0xf8)) in
  s2 = 8 * t + i /\ Z.shiftr s1 3 = t /\ Z.land s1 0x7 = Z.land s 0x7.
Proof.
  intros Hs Ht Hi.
  set (chk s t i :=
    let s1 := u8 (Z.lor (Z.shiftl t 3) (Z.land s 0x7)) in
    let s2 := u8 (Z.lor (Z.land i 0x7) (Z.land s1 0xf8)) in
    (s2 =? 8 * t + i) && (Z.shiftr s1 3 =? t) && (Z.land s1 0x7 =? Z.land s 0x7)).
  assert (H : for_range 0 256 (fun s => for_range 0 32 (fun t => for_range 0 8 (chk s t))) = true)
    by (vm_compute; reflexivity).
  apply (for_range_spec _ _ _ (for_range_spec _ _ _ (for_u8 _ H s Hs) t Ht)) in Hi.
  unfold chk in Hi. cbv zeta in *. rewrite !andb_true_iff, !Z.eqb_eq in Hi. tauto.
Qed.

(** ** AVCCommand::fire *)

Lemma fire_expected_elem r :
  fire_expected r = bool_decide (r ∈ [eR_Accepted; eR_Implemented; eR_Rejected; eR_NotImplemented]).
Proof.
  apply eq_true_iff_eq. rewrite bool_decide_eq_true. unfold fire_expected.
  rewrite !orb_true_iff, !Z.eqb_eq, !elem_of_cons, elem_of_nil. tauto.
Qed.

Section fire_spec.
Context {C : Type} `{AVCCommandClass C}.

(** The bytes of a message, filled up to whole quadlets. *)
Definition quadlet_padded (bs : list Z) : list Z :=
  bs ++ replicate (4 * ((length bs + 3) / 4) - length bs) 0.

Lemma quadlet_padded_length bs :
  Z.of_nat (length (quadlet_padded bs)) = 4 * ((Z.of_nat (length bs) + 3) `quot` 4).
Proof.
  unfold quadlet_padded. rewrite length_app, length_replicate.
  pose proof (Nat2Z.inj_div (length bs + 3) 4) as E. rewrite Nat2Z.inj_add in E. rewrite Z.quot_div_nonneg by lia. div_lia.
Qed.

Lemma quadlet_padded_bound bs :
  (length bs < 512)%nat -> Z.of_nat (length (quadlet_padded bs)) <= fcpFrameMaxLength.
Proof.
  intros Hbs. rewrite quadlet_padded_length, Z.quot_div_nonneg by lia. unfold fcpFrameMaxLength. div_lia.
Qed.

Lemma take_frame bs :
  (length bs < 512)%nat ->
  take (Z.to_nat (4 * ((u16 (s32 (Z.of_nat (length bs))) + 3) `quot` 4)))
    (bs ++ drop (length bs) (replicate 512 0)) = quadlet_padded bs.
Proof.
  intros Hlt. rewrite wrapS_small, wrapU_small by width_lia.
  rewrite <- quadlet_padded_length, Nat2Z.id.
  unfold quadlet_padded. rewrite length_app, length_replicate, drop_replicate.
  rewrite take_app_ge by lia. f_equal.
  replace (_ + _ - _)%nat with (4 * ((length bs + 3) / 4) - length bs)%nat by lia.
  rewrite take_replicate. f_equal.
  pose proof (Nat2Z.inj_div (length bs + 3) 4) as E. rewrite Nat2Z.inj_add in E. div_lia.
Qed.

(** The object once its frame is built. *)
Definition framed (c : C) (bs : list Z) : C :=
  cmd_set_base (AVCCommand_with_frame (bs ++ replicate (512 - length bs) 0) (cmd_base c)) c.

(** A request goes to the bus filled up to whole quadlets. *)
Lemma fire_on_serialized {W} (bus : Z -> list Z -> W -> option (list Z) * W) (c c1 : C) bs w :
  emit (cmd_serialize c) = Some ((true, c1), bs) -> (length bs < 512)%nat ->
  fire_on bus c w
  = match bus (m_nodeId (cmd_base (framed c1 bs))) (quadlet_padded bs) w with
    | (None, w1) => Some ((false, framed c1 bs), w1)
    | (Some buf, w1) => r ← fire_response buf (framed c1 bs); Some (r, w1)
    end.
Proof.
  intros He Hlt. unfold fire_on.
  set (frame0 := replicate (Z.to_nat fcpFrameMaxLength) 0).
  assert (Hl : length frame0 = 512%nat) by (vm_compute; reflexivity).
  replace (BufferSerialize_create frame0 fcpFrameMaxLength)
    with (BufferSerialize_create frame0 (Z.of_nat (length frame0))) by (by rewrite Hl).
  rewrite (emit_run _ _ bs frame0 He) by (rewrite Hl; [exact Hlt || done]).
  unfold frame0.
  cbn [mbind option_bind negb]. unfold BufferSerialize_getNrOfProducesBytes.
  cbn [se_at se_buffer se_curPos]. change (Z.to_nat fcpFrameMaxLength) with 512%nat.
  rewrite take_frame by done. by rewrite drop_replicate.
Qed.

Variable transactionBlock : Z -> list Z -> option (list Z).

Lemma fire_serialized (c c1 : C) bs :
  emit (cmd_serialize c) = Some ((true, c1), bs) -> (length bs < 512)%nat ->
  fire transactionBlock c
  = match transactionBlock (m_nodeId (cmd_base (framed c1 bs))) (quadlet_padded bs) with
    | None => Some (false, framed c1 bs)
    | Some buf => fire_response buf (framed c1 bs)
    end.
Proof.
  intros He Hlt. set (bus := fun n f (u : ()) => (transactionBlock n f, u)).
  transitivity (fst <$> fire_on bus c ()); [symmetry; exact (fire_on_fire bus c ())|].
  rewrite (fire_on_serialized bus c c1 bs () He Hlt). unfold bus.
  destruct (transactionBlock _ _) as [buf|]; [|done]. by destruct (fire_response buf _).
Qed.

(** The response is parsed as it was sent; bytes at its end may be left. *)
Lemma fire_response_reads (c c2 : C) r bs rest res :
  let c1 := cmd_set_base (AVCCommand_with_response r (cmd_base c)) c in
  hd_error bs = Some r -> fire_expected r = true -> Z.of_nat (length (bs ++ rest)) < 2 ^ 64 ->
  reads (cmd_deserialize c1) bs (res, c2) ->
  fire_response (bs ++ rest) c = '((_, c3), _) ← emit (cmd_serialize c2); Some (res, c3).
Proof.
  intros c1 Hhd Hex Hlen Hr. unfold fire_response. destruct bs as [|b bs]; [done|]. injection Hhd as ->.
  unfold load. rewrite decide_True by (cbn [length app]; lia).
  change (((r :: bs) ++ rest) !! Z.to_nat 0) with (Some r). cbn [mbind option_bind]. rewrite Hex. fold c1.
  by rewrite (reads_run _ (r :: bs) rest _ Hlen Hr).
Qed.

(** [cmd_answers c0 r r']: the frame of [r], filled up to whole quadlets,
    makes the object in state [c0] become [r']. *)
Definition cmd_answers (c0 r r' : C) : Prop :=
  exists bs, emit (cmd_serialize r) = Some ((true, r), bs) /\
    hd_error bs = Some (m_ctype (cmd_base r)) /\ (length bs < 512)%nat /\
    parses (cmd_deserialize c0) (quadlet_padded bs) (true, r').

(** The response of a target that sends the frame of [r]. *)
Lemma fire_response_parsed (c r r' : C) bs :
  let c1 := cmd_set_base (AVCCommand_with_response (m_ctype (cmd_base r)) (cmd_base c)) c in
  hd_error bs = Some (m_ctype (cmd_base r)) -> (length bs < 512)%nat ->
  parses (cmd_deserialize c1) (quadlet_padded bs) (true, r') ->
  fire_response (quadlet_padded bs) c
  = if fire_expected (m_ctype (cmd_base r)) then
      '((_, r2), _) ← emit (cmd_serialize r'); Some (true, r2)
    else Some (false, r').
Proof.
  intros c1 Hhd Hlt Hr. unfold fire_response.
  destruct bs as [|b bs]; [done|]. injection Hhd as ->.
  assert (Hload : load (quadlet_padded (m_ctype (cmd_base r) :: bs)) 0 = Some (m_ctype (cmd_base r))).
  { unfold load. rewrite decide_True; [done|]. unfold quadlet_padded. cbn [length app]. lia. }
  rewrite Hload. cbn [mbind option_bind]. fold c1.
  destruct (parses_run (cmd_deserialize c1) (quadlet_padded (m_ctype (cmd_base r) :: bs)) [] (true, r')) as [d Hd];
    [rewrite app_nil_r; by apply quadlet_padded_bound|exact Hr|].
  rewrite app_nil_r in Hd. rewrite Hd. cbn [mbind option_bind]. by destruct (fire_expected _).
Qed.
(** A whole transaction: the target receives the frame of [c], answers with
    the frame of [r], and the command object becomes what it parsed. *)
Lemma fire_answered (c c1 r r' : C) bs :
  emit (cmd_serialize c) = Some ((true, c1), bs) -> (length bs < 512)%nat ->
  let c2 := framed c1 bs in
  let c3 := cmd_set_base (AVCCommand_with_response (m_ctype (cmd_base r)) (cmd_base c2)) c2 in
  cmd_answers c3 r r' ->
  (forall rbs, emit (cmd_serialize r) = Some ((true, r), rbs) ->
     transactionBlock (m_nodeId (cmd_base c2)) (quadlet_padded bs) = Some (quadlet_padded rbs)) ->
  fire transactionBlock c
  = if fire_expected (m_ctype (cmd_base r)) then
      '((_, r2), _) ← emit (cmd_serialize r'); Some (true, r2)
    else Some (false, r').
Proof.
  intros He Hlt c2 c3 (rbs & Hre & Hhd & Hrlt & Hrp) Ht.
  rewrite (fire_serialized c c1 bs He Hlt). fold c2. rewrite (Ht rbs Hre).
  by apply fire_response_parsed.
Qed.

Lemma roundtrips_answers (c0 r : C) :
  cmd_roundtrips c0 r ->
  (forall bs, emit (cmd_serialize r) = Some ((true, r), bs) ->
     hd_error bs = Some (m_ctype (cmd_base r)) /\ (length bs < 512)%nat) ->
  cmd_answers c0 r (cmd_set_base (AVCCommand_merge (cmd_base c0) (cmd_base r)) r).
Proof.
  intros (bs & He & Hr) Hb. destruct (Hb bs He) as [Hhd Hlt].
  exists bs. split_and!; [done..|]. by apply parses_app, reads_parses.
Qed.
End fire_spec.
