(* ===== verification/AvcCommands.v ===== *)
(** * AvcCommands: the fixed-format commands of libavc/general and libavc/ccm

    UNIT INFO, SUBUNIT INFO (plain and extended), PLUG INFO, INPUT/OUTPUT
    PLUG SIGNAL FORMAT, VENDOR DEPENDENT, CONNECT and SIGNAL SOURCE: their
    operands, [serialize] and [deserialize], and the round trip of each. *)
From S2P Require Import Prelude Serialize BusData PlugAddress AvcCommand.

Definition AVC1394_CMD_VENDOR_DEPENDENT : Z := 0x00.
Definition AVC1394_CMD_PLUG_INFO : Z := 0x02.
Definition AVC1394_CMD_OUTPUT_PLUG_SIGNAL_FORMAT : Z := 0x18.
Definition AVC1394_CMD_INPUT_PLUG_SIGNAL_FORMAT : Z := 0x19.
Definition AVC1394_CMD_SIGNAL_SOURCE : Z := 0x1A.
Definition AVC1394_CMD_CONNECT : Z := 0x24.
Definition AVC1394_CMD_UNIT_INFO : Z := 0x30.
Definition AVC1394_CMD_SUBUNIT_INFO : Z := 0x31.

(** A byte that packs a five-bit and a three-bit field. *)
Definition pack53 (t i : Z) : Z := u8 (Z.lor (Z.shiftl t 3) (Z.land i 0x7)).

(** ** UNIT INFO *)

Record UnitInfoCmd := mkUnitInfoCmd {
  ui_base : AVCCommand;
  ui_reserved : Z;
  ui_unit_type : Z;
  ui_unit : Z;
  ui_company_id : Z }.

Definition UnitInfoCmd_new : UnitInfoCmd :=
  mkUnitInfoCmd (AVCCommand_new AVC1394_CMD_UNIT_INFO) 0xff 0xff 0xff 0xffffffff.

Definition UnitInfoCmd_serialize (o : UnitInfoCmd) : writer bool :=
  _ ← AVCCommand_serialize (ui_base o);
  _ ← write_byte (ui_reserved o);
  _ ← write_byte (pack53 (ui_unit_type o) (ui_unit o));
  _ ← write_byte (Z.land (Z.shiftr (ui_company_id o) 16) 0xff);
  _ ← write_byte (Z.land (Z.shiftr (ui_company_id o) 8) 0xff);
  _ ← write_byte (Z.land (Z.shiftr (ui_company_id o) 0) 0xff);
  mret true.

Definition UnitInfoCmd_deserialize (o : UnitInfoCmd) : reader (bool * UnitInfoCmd) :=
  '(_, base) ← AVCCommand_deserialize (ui_base o);
  '(_, reserved) ← read_byte (ui_reserved o);
  '(_, operand) ← read_local;
  v ← used operand;
  let unit_type := Z.shiftr v 3 in
  let unit := Z.land v 0x7 in
  '(_, operand) ← reread_local operand;
  v2 ← used operand;
  let company_id := Z.lor 0 (Z.shiftl v2 16) in
  '(_, operand) ← reread_local operand;
  v1 ← used operand;
  let company_id := Z.lor company_id (Z.shiftl v1 8) in
  '(_, operand) ← reread_local operand;
  v0 ← used operand;
  let company_id := Z.lor company_id v0 in
  mret (true, mkUnitInfoCmd base reserved unit_type unit company_id).

#[export] Instance UnitInfoCmd_AVCCommandClass : AVCCommandClass UnitInfoCmd := {
  cmd_base := ui_base;
  cmd_set_base b o := mkUnitInfoCmd b (ui_reserved o) (ui_unit_type o) (ui_unit o) (ui_company_id o);
  cmd_serialize o := with_object o (UnitInfoCmd_serialize o);
  cmd_deserialize := UnitInfoCmd_deserialize }.

(** ** SUBUNIT INFO *)

Definition eMaxSubunitsPerPage : nat := 4.

Record TableEntry := mkTableEntry { te_subunit_type : Z; te_max_subunit_id : Z }.

Record SubUnitInfoCmd := mkSubUnitInfoCmd {
  si_base : AVCCommand;
  si_page : Z;
  si_extension_code : Z;
  si_table : list TableEntry;
  si_nrOfValidEntries : Z }.

Definition SubUnitInfoCmd_clear (o : SubUnitInfoCmd) : SubUnitInfoCmd :=
  mkSubUnitInfoCmd (si_base o) 0xff 0x7 (replicate eMaxSubunitsPerPage (mkTableEntry 0xff 0xff)) 0.

(** the constructor leaves everything to [clear] *)
Definition SubUnitInfoCmd_new : SubUnitInfoCmd :=
  SubUnitInfoCmd_clear (mkSubUnitInfoCmd (AVCCommand_new AVC1394_CMD_SUBUNIT_INFO) 0 0 [] 0).

Fixpoint SubUnitInfoCmd_write_table (t : list TableEntry) : writer unit :=
  match t with
  | [] => mret tt
  | e :: t' =>
      _ ← write_byte (pack53 (te_subunit_type e) (te_max_subunit_id e));
      SubUnitInfoCmd_write_table t'
  end.

Definition SubUnitInfoCmd_serialize (o : SubUnitInfoCmd) : writer bool :=
  _ ← AVCCommand_serialize (si_base o);
  _ ← write_byte (u8 (Z.lor (Z.shiftl (Z.land (si_page o) 0x7) 4) (Z.land (si_extension_code o) 0x7)));
  _ ← SubUnitInfoCmd_write_table (si_table o);
  mret true.

(** [n] is what is left of the loop over the table. *)
Fixpoint SubUnitInfoCmd_read_table (n : nat) (operand : option Z) (nrOfValidEntries : Z)
  : reader (list TableEntry * Z) :=
  match n with
  | O => mret ([], nrOfValidEntries)
  | S n' =>
      '(_, operand) ← reread_local operand;
      v ← used operand;
      '(t, nr) ← SubUnitInfoCmd_read_table n' operand
                   (if v =? 0xff then nrOfValidEntries else nrOfValidEntries + 1);
      mret (mkTableEntry (Z.shiftr v 3) (Z.land v 0x7) :: t, nr)
  end.

Definition SubUnitInfoCmd_deserialize (o : SubUnitInfoCmd) : reader (bool * SubUnitInfoCmd) :=
  '(_, base) ← AVCCommand_deserialize (si_base o);
  '(_, operand) ← read_local;
  v ← used operand;
  '(t, nr) ← SubUnitInfoCmd_read_table eMaxSubunitsPerPage operand 0;
  mret (true, mkSubUnitInfoCmd base (Z.land (Z.shiftr v 4) 0x7) (Z.land v 0x7) t nr).

#[export] Instance SubUnitInfoCmd_AVCCommandClass : AVCCommandClass SubUnitInfoCmd := {
  cmd_base := si_base;
  cmd_set_base b o :=
    mkSubUnitInfoCmd b (si_page o) (si_extension_code o) (si_table o) (si_nrOfValidEntries o);
  cmd_serialize o := with_object o (SubUnitInfoCmd_serialize o);
  cmd_deserialize := SubUnitInfoCmd_deserialize }.

(** ** PLUG INFO *)

Definition eSF_SerialBusIsochronousAndExternalPlug : Z := 0x00.
Definition eSF_SerialBusAsynchonousPlug : Z := 0x01.

Record PlugInfoCmd := mkPlugInfoCmd {
  pi_base : AVCCommand;
  pi_serialBusIsochronousInputPlugs : Z;
  pi_serialBusIsochronousOutputPlugs : Z;
  pi_externalInputPlugs : Z;
  pi_externalOutputPlugs : Z;
  pi_serialBusAsynchronousInputPlugs : Z;
  pi_serialBusAsynchronousOuputPlugs : Z;
  pi_destinationPlugs : Z;
  pi_sourcePlugs : Z;
  pi_subFunction : Z }.

Definition PlugInfoCmd_new (eSubFunction : Z) : PlugInfoCmd :=
  mkPlugInfoCmd (AVCCommand_new AVC1394_CMD_PLUG_INFO) 0xff 0xff 0xff 0xff 0xff 0xff 0xff 0xff
    (u8 eSubFunction).

Definition PlugInfoCmd_clear (o : PlugInfoCmd) : PlugInfoCmd :=
  mkPlugInfoCmd (pi_base o) 0xff 0xff 0xff 0xff 0xff 0xff 0xff 0xff (pi_subFunction o).

Definition PlugInfoCmd_setSubFunction (subFunction : Z) (o : PlugInfoCmd) : PlugInfoCmd :=
  mkPlugInfoCmd (pi_base o) (pi_serialBusIsochronousInputPlugs o)
    (pi_serialBusIsochronousOutputPlugs o) (pi_externalInputPlugs o) (pi_externalOutputPlugs o)
    (pi_serialBusAsynchronousInputPlugs o) (pi_serialBusAsynchronousOuputPlugs o)
    (pi_destinationPlugs o) (pi_sourcePlugs o) (u8 subFunction).

Definition PlugInfoCmd_serialize (o : PlugInfoCmd) : writer bool :=
  _ ← AVCCommand_serialize (pi_base o);
  _ ← write_byte (pi_subFunction o);
  if AVCCommand_getSubunitType (pi_base o) =? eST_Unit then
    if pi_subFunction o =? eSF_SerialBusIsochronousAndExternalPlug then
      _ ← write_byte (pi_serialBusIsochronousInputPlugs o);
      _ ← write_byte (pi_serialBusIsochronousOutputPlugs o);
      _ ← write_byte (pi_externalInputPlugs o);
      _ ← write_byte (pi_externalOutputPlugs o);
      mret true
    else if pi_subFunction o =? eSF_SerialBusAsynchonousPlug then
      _ ← write_byte (pi_serialBusAsynchronousInputPlugs o);
      _ ← write_byte (pi_serialBusAsynchronousOuputPlugs o);
      _ ← write_byte 0xff;
      _ ← write_byte 0xff;
      mret true
    else mret false
  else
    _ ← write_byte (pi_destinationPlugs o);
    _ ← write_byte (pi_sourcePlugs o);
    _ ← write_byte 0xff;
    _ ← write_byte 0xff;
    mret true.

Definition PlugInfoCmd_deserialize (o : PlugInfoCmd) : reader (bool * PlugInfoCmd) :=
  '(_, base) ← AVCCommand_deserialize (pi_base o);
  '(_, sf) ← read_byte (pi_subFunction o);
  if AVCCommand_getSubunitType base =? eST_Unit then
    if sf =? eSF_SerialBusIsochronousAndExternalPlug then
      '(_, ii) ← read_byte (pi_serialBusIsochronousInputPlugs o);
      '(_, io) ← read_byte (pi_serialBusIsochronousOutputPlugs o);
      '(_, ei) ← read_byte (pi_externalInputPlugs o);
      '(_, eo) ← read_byte (pi_externalOutputPlugs o);
      mret (true, mkPlugInfoCmd base ii io ei eo (pi_serialBusAsynchronousInputPlugs o)
        (pi_serialBusAsynchronousOuputPlugs o) (pi_destinationPlugs o) (pi_sourcePlugs o) sf)
    else if sf =? eSF_SerialBusAsynchonousPlug then
      '(_, ai) ← read_byte (pi_serialBusAsynchronousInputPlugs o);
      '(_, ao) ← read_byte (pi_serialBusAsynchronousOuputPlugs o);
      '(_, reserved) ← read_local;
      '(_, _) ← reread_local reserved;
      mret (true, mkPlugInfoCmd base (pi_serialBusIsochronousInputPlugs o)
        (pi_serialBusIsochronousOutputPlugs o) (pi_externalInputPlugs o) (pi_externalOutputPlugs o)
        ai ao (pi_destinationPlugs o) (pi_sourcePlugs o) sf)
    else
      mret (false, mkPlugInfoCmd base (pi_serialBusIsochronousInputPlugs o)
        (pi_serialBusIsochronousOutputPlugs o) (pi_externalInputPlugs o) (pi_externalOutputPlugs o)
        (pi_serialBusAsynchronousInputPlugs o) (pi_serialBusAsynchronousOuputPlugs o)
        (pi_destinationPlugs o) (pi_sourcePlugs o) sf)
  else
    '(_, d) ← read_byte (pi_destinationPlugs o);
    '(_, s) ← read_byte (pi_sourcePlugs o);
    '(_, reserved) ← read_local;
    '(_, _) ← reread_local reserved;
    mret (true, mkPlugInfoCmd base (pi_serialBusIsochronousInputPlugs o)
      (pi_serialBusIsochronousOutputPlugs o) (pi_externalInputPlugs o) (pi_externalOutputPlugs o)
      (pi_serialBusAsynchronousInputPlugs o) (pi_serialBusAsynchronousOuputPlugs o) d s sf).

#[export] Instance PlugInfoCmd_AVCCommandClass : AVCCommandClass PlugInfoCmd := {
  cmd_base := pi_base;
  cmd_set_base b o :=
    mkPlugInfoCmd b (pi_serialBusIsochronousInputPlugs o) (pi_serialBusIsochronousOutputPlugs o)
      (pi_externalInputPlugs o) (pi_externalOutputPlugs o) (pi_serialBusAsynchronousInputPlugs o)
      (pi_serialBusAsynchronousOuputPlugs o) (pi_destinationPlugs o) (pi_sourcePlugs o)
      (pi_subFunction o);
  cmd_serialize o := with_object o (PlugInfoCmd_serialize o);
  cmd_deserialize := PlugInfoCmd_deserialize }.

(** ** INPUT / OUTPUT PLUG SIGNAL FORMAT *)

Record OutputPlugSignalFormatCmd := mkOutputPlugSignalFormatCmd {
  os_base : AVCCommand;
  os_plug : Z; os_eoh : Z; os_form : Z; os_fmt : Z;
  os_fdf0 : Z; os_fdf1 : Z; os_fdf2 : Z }.

Definition OutputPlugSignalFormatCmd_new : OutputPlugSignalFormatCmd :=
  mkOutputPlugSignalFormatCmd (AVCCommand_new AVC1394_CMD_OUTPUT_PLUG_SIGNAL_FORMAT)
    0 1 0 0 0xff 0xff 0xff.

Definition OutputPlugSignalFormatCmd_serialize (o : OutputPlugSignalFormatCmd) : writer bool :=
  r0 ← AVCCommand_serialize (os_base o);
  r1 ← write_byte (os_plug o);
  let tmp := u8 (Z.shiftl (Z.land (os_eoh o) 0x01) 7) in
  let tmp := Z.lor tmp (Z.shiftl (Z.land (os_form o) 0x01) 6) in
  let tmp := Z.lor tmp (Z.land (os_fmt o) 0x3f) in
  r2 ← write_byte tmp;
  r3 ← write_byte (os_fdf0 o);
  r4 ← write_byte (os_fdf1 o);
  r5 ← write_byte (os_fdf2 o);
  mret (r0 && r1 && r2 && r3 && r4 && r5).

Definition OutputPlugSignalFormatCmd_deserialize (o : OutputPlugSignalFormatCmd)
  : reader (bool * OutputPlugSignalFormatCmd) :=
  '(r0, base) ← AVCCommand_deserialize (os_base o);
  '(r1, plug) ← read_byte (os_plug o);
  '(r2, tmp) ← read_local;
  v ← used tmp;
  let eoh := Z.shiftr (Z.land v 0x80) 7 in
  let form := Z.shiftr (Z.land v 0x40) 6 in
  let fmt := Z.land v 0x3f in
  '(r3, fdf0) ← read_byte (os_fdf0 o);
  '(r4, fdf1) ← read_byte (os_fdf1 o);
  '(r5, fdf2) ← read_byte (os_fdf2 o);
  mret (r0 && r1 && r2 && r3 && r4 && r5,
        mkOutputPlugSignalFormatCmd base plug eoh form fmt fdf0 fdf1 fdf2).

#[export] Instance OutputPlugSignalFormatCmd_AVCCommandClass : AVCCommandClass OutputPlugSignalFormatCmd := {
  cmd_base := os_base;
  cmd_set_base b o :=
    mkOutputPlugSignalFormatCmd b (os_plug o) (os_eoh o) (os_form o) (os_fmt o)
      (os_fdf0 o) (os_fdf1 o) (os_fdf2 o);
  cmd_serialize o := with_object o (OutputPlugSignalFormatCmd_serialize o);
  cmd_deserialize := OutputPlugSignalFormatCmd_deserialize }.

Record InputPlugSignalFormatCmd := mkInputPlugSignalFormatCmd {
  is_base : AVCCommand;
  is_plug : Z; is_eoh : Z; is_form : Z; is_fmt : Z;
  is_fdf0 : Z; is_fdf1 : Z; is_fdf2 : Z }.

Definition InputPlugSignalFormatCmd_new : InputPlugSignalFormatCmd :=
  mkInputPlugSignalFormatCmd (AVCCommand_new AVC1394_CMD_INPUT_PLUG_SIGNAL_FORMAT)
    0 1 0 0 0xff 0xff 0xff.

Definition InputPlugSignalFormatCmd_serialize (o : InputPlugSignalFormatCmd) : writer bool :=
  r0 ← AVCCommand_serialize (is_base o);
  r1 ← write_byte (is_plug o);
  let tmp := u8 (Z.shiftl (Z.land (is_eoh o) 0x01) 7) in
  let tmp := Z.lor tmp (Z.shiftl (Z.land (is_form o) 0x01) 6) in
  let tmp := Z.lor tmp (Z.land (is_fmt o) 0x3f) in
  r2 ← write_byte tmp;
  r3 ← write_byte (is_fdf0 o);
  r4 ← write_byte (is_fdf1 o);
  r5 ← write_byte (is_fdf2 o);
  mret (r0 && r1 && r2 && r3 && r4 && r5).

Definition InputPlugSignalFormatCmd_deserialize (o : InputPlugSignalFormatCmd)
  : reader (bool * InputPlugSignalFormatCmd) :=
  '(r0, base) ← AVCCommand_deserialize (is_base o);
  '(r1, plug) ← read_byte (is_plug o);
  '(r2, tmp) ← read_local;
  v ← used tmp;
  let eoh := Z.shiftr (Z.land v 0x80) 7 in
  let form := Z.shiftr (Z.land v 0x40) 6 in
  let fmt := Z.land v 0x3f in
  '(r3, fdf0) ← read_byte (is_fdf0 o);
  '(r4, fdf1) ← read_byte (is_fdf1 o);
  '(r5, fdf2) ← read_byte (is_fdf2 o);
  mret (r0 && r1 && r2 && r3 && r4 && r5,
        mkInputPlugSignalFormatCmd base plug eoh form fmt fdf0 fdf1 fdf2).

#[export] Instance InputPlugSignalFormatCmd_AVCCommandClass : AVCCommandClass InputPlugSignalFormatCmd := {
  cmd_base := is_base;
  cmd_set_base b o :=
    mkInputPlugSignalFormatCmd b (is_plug o) (is_eoh o) (is_form o) (is_fmt o)
      (is_fdf0 o) (is_fdf1 o) (is_fdf2 o);
  cmd_serialize o := with_object o (InputPlugSignalFormatCmd_serialize o);
  cmd_deserialize := InputPlugSignalFormatCmd_deserialize }.

(** ** Extended SUBUNIT INFO *)

Record ExtendedSubunitInfoPageData := mkExtendedSubunitInfoPageData {
  ep_functionBlockType : Z;
  ep_functionBlockId : Z;
  ep_functionBlockSpecialPupose : Z;
  ep_noOfInputPlugs : Z;
  ep_noOfOutputPlugs : Z }.

Definition ExtendedSubunitInfoPageData_new : ExtendedSubunitInfoPageData :=
  mkExtendedSubunitInfoPageData 0xff 0xff 0xff 0xff 0xff.

Definition ExtendedSubunitInfoPageData_serialize (o : ExtendedSubunitInfoPageData) : writer bool :=
  _ ← write_byte (ep_functionBlockType o);
  _ ← write_byte (ep_functionBlockId o);
  _ ← write_byte (ep_functionBlockSpecialPupose o);
  _ ← write_byte (ep_noOfInputPlugs o);
  _ ← write_byte (ep_noOfOutputPlugs o);
  mret true.

Definition ExtendedSubunitInfoPageData_deserialize (o : ExtendedSubunitInfoPageData)
  : reader (bool * ExtendedSubunitInfoPageData) :=
  '(_, t) ← read_byte (ep_functionBlockType o);
  '(_, i) ← read_byte (ep_functionBlockId o);
  '(_, p) ← read_byte (ep_functionBlockSpecialPupose o);
  '(_, ni) ← read_byte (ep_noOfInputPlugs o);
  '(_, no) ← read_byte (ep_noOfOutputPlugs o);
  mret (true, mkExtendedSubunitInfoPageData t i p ni no).

#[export] Instance ExtendedSubunitInfoPageData_IBusData : IBusData ExtendedSubunitInfoPageData := {
  bd_serialize := ExtendedSubunitInfoPageData_serialize;
  bd_deserialize := ExtendedSubunitInfoPageData_deserialize;
  bd_clone o := Some o }.

Definition eFBT_AllFunctinBlockType : Z := 0xff.
Definition NR_OF_PAGE_DATA : nat := 5.
Definition SIZE_OF_PAGE_ENTRY : nat := 5.

Record ExtendedSubunitInfoCmd := mkExtendedSubunitInfoCmd {
  es_base : AVCCommand;
  es_page : Z;
  es_fbType : Z;
  es_infoPageDatas : list ExtendedSubunitInfoPageData }.

Definition ExtendedSubunitInfoCmd_new : ExtendedSubunitInfoCmd :=
  mkExtendedSubunitInfoCmd (AVCCommand_new AVC1394_CMD_SUBUNIT_INFO) 0xff eFBT_AllFunctinBlockType [].

Fixpoint ExtendedSubunitInfoCmd_write_pages (status : bool) (l : list ExtendedSubunitInfoPageData)
  : writer bool :=
  match l with
  | [] => mret status
  | p :: l' => b ← bd_serialize p; ExtendedSubunitInfoCmd_write_pages (status && b) l'
  end.

Fixpoint ExtendedSubunitInfoCmd_space_fill (n : nat) : writer unit :=
  match n with
  | O => mret tt
  | S n' => _ ← write_byte 0xff; ExtendedSubunitInfoCmd_space_fill n'
  end.

Definition ExtendedSubunitInfoCmd_serialize (o : ExtendedSubunitInfoCmd) : writer bool :=
  status ← AVCCommand_serialize (es_base o);
  r1 ← write_byte (es_page o);
  r2 ← write_byte (es_fbType o);
  status ← ExtendedSubunitInfoCmd_write_pages (status && r1 && r2) (es_infoPageDatas o);
  let startIndex := (length (es_infoPageDatas o) * SIZE_OF_PAGE_ENTRY)%nat in
  let endIndex := (SIZE_OF_PAGE_ENTRY * NR_OF_PAGE_DATA)%nat in
  _ ← ExtendedSubunitInfoCmd_space_fill (endIndex - startIndex);
  mret status.

(** [n] is what is left of the loop over five page entries; the page data
    already pushed back are [l]. *)
Fixpoint ExtendedSubunitInfoCmd_read_pages (n : nat) (status : bool) (l : list ExtendedSubunitInfoPageData)
  : reader (bool * list ExtendedSubunitInfoPageData) :=
  match n with
  | O => mret (status, l)
  | S n' =>
      '(_, next) ← peek_local None;
      v ← used next;
      if negb (v =? 0xff) then
        '(b, p) ← bd_deserialize ExtendedSubunitInfoPageData_new;
        if negb b then mret (false, l)
        else ExtendedSubunitInfoCmd_read_pages n' status (l ++ [p])
      else mret (status, l)
  end.

Definition ExtendedSubunitInfoCmd_deserialize (o : ExtendedSubunitInfoCmd)
  : reader (bool * ExtendedSubunitInfoCmd) :=
  '(status, base) ← AVCCommand_deserialize (es_base o);
  '(r1, page) ← read_byte (es_page o);
  '(r2, fbType) ← read_byte (es_fbType o);
  '(status, l) ← ExtendedSubunitInfoCmd_read_pages 5 (status && r1 && r2) (es_infoPageDatas o);
  mret (status, mkExtendedSubunitInfoCmd base page fbType l).

#[export] Instance ExtendedSubunitInfoCmd_AVCCommandClass : AVCCommandClass ExtendedSubunitInfoCmd := {
  cmd_base := es_base;
  cmd_set_base b o := mkExtendedSubunitInfoCmd b (es_page o) (es_fbType o) (es_infoPageDatas o);
  cmd_serialize o := with_object o (ExtendedSubunitInfoCmd_serialize o);
  cmd_deserialize := ExtendedSubunitInfoCmd_deserialize }.

(** ** VENDOR DEPENDENT and CONNECT *)

(** [m_companyId] has no initialiser. *)
Record VendorDependentCmd := mkVendorDependentCmd {
  vd_base : AVCCommand;
  vd_companyId : option Z }.

Definition VendorDependentCmd_new : VendorDependentCmd :=
  mkVendorDependentCmd (AVCCommand_new AVC1394_CMD_VENDOR_DEPENDENT) None.

Definition VendorDependentCmd_serialize (o : VendorDependentCmd) : writer bool :=
  r0 ← AVCCommand_serialize (vd_base o);
  match vd_companyId o with
  | None => w_undef
  | Some companyId =>
      r1 ← write_byte (Z.land (Z.shiftr companyId 16) 0xff);
      r2 ← write_byte (Z.land (Z.shiftr companyId 8) 0xff);
      r3 ← write_byte (Z.land companyId 0xff);
      mret (r0 && r1 && r2 && r3)
  end.

Definition VendorDependentCmd_deserialize (o : VendorDependentCmd) : reader (bool * VendorDependentCmd) :=
  '(r0, base) ← AVCCommand_deserialize (vd_base o);
  '(r1, tmp2) ← read_local;
  '(r2, tmp1) ← read_local;
  '(r3, tmp0) ← read_local;
  v2 ← used tmp2;
  v1 ← used tmp1;
  v0 ← used tmp0;
  mret (r0 && r1 && r2 && r3,
        mkVendorDependentCmd base (Some (Z.lor (Z.lor (Z.shiftl v2 16) (Z.shiftl v1 8)) v0))).

#[export] Instance VendorDependentCmd_AVCCommandClass : AVCCommandClass VendorDependentCmd := {
  cmd_base := vd_base;
  cmd_set_base b o := mkVendorDependentCmd b (vd_companyId o);
  cmd_serialize o := with_object o (VendorDependentCmd_serialize o);
  cmd_deserialize := VendorDependentCmd_deserialize }.

Record ConnectCmd := mkConnectCmd { cc_base : AVCCommand }.

Definition ConnectCmd_new : ConnectCmd := mkConnectCmd (AVCCommand_new AVC1394_CMD_CONNECT).

Definition ConnectCmd_serialize (o : ConnectCmd) : writer bool :=
  r0 ← AVCCommand_serialize (cc_base o); mret r0.

Definition ConnectCmd_deserialize (o : ConnectCmd) : reader (bool * ConnectCmd) :=
  '(r0, base) ← AVCCommand_deserialize (cc_base o); mret (r0, mkConnectCmd base).

#[export] Instance ConnectCmd_AVCCommandClass : AVCCommandClass ConnectCmd := {
  cmd_base := cc_base;
  cmd_set_base b _ := mkConnectCmd b;
  cmd_serialize o := with_object o (ConnectCmd_serialize o);
  cmd_deserialize := ConnectCmd_deserialize }.

(** ** SIGNAL SOURCE *)

Definition ePI_Invalid : Z := 0xfe.
Definition AVC1394_SUBUNIT_ID_RESERVED : Z := 0x06.

(** the classes derived from [SignalAddress] *)
Inductive SignalAddress :=
| SignalUnitAddress (plugId : Z)
| SignalSubunitAddress (subunitType subunitId plugId : Z).

Definition SignalUnitAddress_new : SignalAddress := SignalUnitAddress ePI_Invalid.
Definition SignalSubunitAddress_new : SignalAddress :=
  SignalSubunitAddress eST_Reserved AVC1394_SUBUNIT_ID_RESERVED ePI_Invalid.

Definition SignalAddress_serialize (o : SignalAddress) : writer bool :=
  match o with
  | SignalUnitAddress plugId =>
      _ ← write_byte 0xff;
      _ ← write_byte plugId;
      mret true
  | SignalSubunitAddress subunitType subunitId plugId =>
      _ ← write_byte (pack53 subunitType subunitId);
      _ ← write_byte plugId;
      mret true
  end.

Definition SignalAddress_deserialize (o : SignalAddress) : reader (bool * SignalAddress) :=
  match o with
  | SignalUnitAddress plugId =>
      '(_, _) ← read_local;
      '(_, plugId) ← read_byte plugId;
      mret (true, SignalUnitAddress plugId)
  | SignalSubunitAddress _ _ plugId =>
      '(_, operand) ← read_local;
      v ← used operand;
      '(_, plugId) ← read_byte plugId;
      mret (true, SignalSubunitAddress (Z.shiftr v 3) (Z.land v 0x7) plugId)
  end.

#[export] Instance SignalAddress_IBusData : IBusData SignalAddress := {
  bd_serialize := SignalAddress_serialize;
  bd_deserialize := SignalAddress_deserialize;
  bd_clone o := Some o }.

Record SignalSourceCmd := mkSignalSourceCmd {
  ss_base : AVCCommand;
  ss_resultStatus : Z;
  ss_outputStatus : Z;
  ss_conv : Z;
  ss_signalStatus : Z;
  ss_signalSource : option SignalAddress;
  ss_signalDestination : option SignalAddress }.

Definition SignalSourceCmd_new : SignalSourceCmd :=
  mkSignalSourceCmd (AVCCommand_new AVC1394_CMD_SIGNAL_SOURCE) 0xff 0xff 0xff 0xff None None.

Definition SignalSourceCmd_setSignalSource (a : SignalAddress) (o : SignalSourceCmd) : option (bool * SignalSourceCmd) :=
  a' ← bd_clone a;
  Some (true, mkSignalSourceCmd (ss_base o) (ss_resultStatus o) (ss_outputStatus o) (ss_conv o)
    (ss_signalStatus o) (Some a') (ss_signalDestination o)).

Definition SignalSourceCmd_setSignalDestination (a : SignalAddress) (o : SignalSourceCmd) : option (bool * SignalSourceCmd) :=
  a' ← bd_clone a;
  Some (true, mkSignalSourceCmd (ss_base o) (ss_resultStatus o) (ss_outputStatus o) (ss_conv o)
    (ss_signalStatus o) (ss_signalSource o) (Some a')).

(** an address, or two reserved bytes where there is none *)
Definition SignalSourceCmd_write_address (a : option SignalAddress) : writer bool :=
  match a with
  | Some a => bd_serialize a
  | None => _ ← write_byte 0xff; _ ← write_byte 0xff; mret true
  end.

Definition SignalSourceCmd_subunit_handled (b : AVCCommand) : bool :=
  (AVCCommand_getSubunitType b =? eST_Unit) || (AVCCommand_getSubunitType b =? eST_Audio)
  || (AVCCommand_getSubunitType b =? eST_Music).

Definition SignalSourceCmd_write_addresses (o : SignalSourceCmd) : writer bool :=
  if SignalSourceCmd_subunit_handled (ss_base o) then
    _ ← SignalSourceCmd_write_address (ss_signalSource o);
    _ ← SignalSourceCmd_write_address (ss_signalDestination o);
    mret true
  else mret false.

Definition SignalSourceCmd_serialize (o : SignalSourceCmd) : writer bool :=
  _ ← AVCCommand_serialize (ss_base o);
  match AVCCommand_getCommandType (ss_base o) with
  | None => w_undef
  | Some ct =>
      if ct =? eCT_Status then
        _ ← write_byte (u8 (Z.lor (Z.lor (Z.shiftl (ss_outputStatus o) 5)
                                         (Z.shiftl (Z.land (ss_conv o) 0x1) 4))
                                  (Z.land (ss_signalStatus o) 0xf)));
        SignalSourceCmd_write_addresses o
      else if (ct =? eCT_Control) || (ct =? eCT_SpecificInquiry) then
        _ ← write_byte (Z.land (ss_resultStatus o) 0xf);
        SignalSourceCmd_write_addresses o
      else mret false
  end.

(** the address class is chosen by peeking at the next byte; the local
    [operand] is shared by the two addresses *)
Definition SignalSourceCmd_read_address (operand : option Z) : reader (option Z * SignalAddress) :=
  '(_, operand) ← peek_local operand;
  v ← used operand;
  '(_, a) ← bd_deserialize (if v =? 0xff then SignalUnitAddress_new else SignalSubunitAddress_new);
  mret (operand, a).

Definition SignalSourceCmd_read_addresses (o : SignalSourceCmd) : reader (bool * SignalSourceCmd) :=
  if SignalSourceCmd_subunit_handled (ss_base o) then
    '(operand, src) ← SignalSourceCmd_read_address None;
    '(_, dst) ← SignalSourceCmd_read_address operand;
    mret (true, mkSignalSourceCmd (ss_base o) (ss_resultStatus o) (ss_outputStatus o) (ss_conv o)
      (ss_signalStatus o) (Some src) (Some dst))
  else mret (false, o).

Definition SignalSourceCmd_deserialize (o : SignalSourceCmd) : reader (bool * SignalSourceCmd) :=
  '(_, base) ← AVCCommand_deserialize (ss_base o);
  match AVCCommand_getCommandType base with
  | None => r_undef
  | Some ct =>
      if ct =? eCT_Status then
        '(_, operand) ← read_local;
        v ← used operand;
        SignalSourceCmd_read_addresses
          (mkSignalSourceCmd base (ss_resultStatus o) (Z.shiftr v 5) (Z.shiftr (Z.land v 0x10) 4)
            (Z.land v 0xf) None None)
      else if (ct =? eCT_Control) || (ct =? eCT_SpecificInquiry) then
        '(_, operand) ← read_local;
        v ← used operand;
        SignalSourceCmd_read_addresses
          (mkSignalSourceCmd base (Z.land v 0xf) (ss_outputStatus o) (ss_conv o) (ss_signalStatus o)
            None None)
      else
        mret (false, mkSignalSourceCmd base (ss_resultStatus o) (ss_outputStatus o) (ss_conv o)
          (ss_signalStatus o) None None)
  end.

#[export] Instance SignalSourceCmd_AVCCommandClass : AVCCommandClass SignalSourceCmd := {
  cmd_base := ss_base;
  cmd_set_base b o :=
    mkSignalSourceCmd b (ss_resultStatus o) (ss_outputStatus o) (ss_conv o) (ss_signalStatus o)
      (ss_signalSource o) (ss_signalDestination o);
  cmd_serialize o := with_object o (SignalSourceCmd_serialize o);
  cmd_deserialize := SignalSourceCmd_deserialize }.

(** ** Round trips *)

Lemma pack53_fields t i :
  0 <= t < 32 -> 0 <= i < 8 -> Z.shiftr (pack53 t i) 3 = t /\ Z.land (pack53 t i) 0x7 = i.
Proof. intros Ht Hi. unfold pack53. split; bits_lia. Qed.

Lemma pack53_eq t i : 0 <= t < 32 -> 0 <= i < 8 -> pack53 t i = 8 * t + i.
Proof. intros Ht Hi. unfold pack53. bits_lia. Qed.

Lemma bytes3_assemble v :
  0 <= v < 2 ^ 24 ->
  Z.lor (Z.lor (Z.shiftl (Z.land (Z.shiftr v 16) 0xff) 16)
               (Z.shiftl (Z.land (Z.shiftr v 8) 0xff) 8))
        (Z.land v 0xff) = v.
Proof.
  intros Hv. rewrite <- (Z.lor_assoc _ _ _).
  change (2 ^ 24) with 16777216 in Hv.
  rewrite (lor_add _ (Z.land v 0xff) 8) by (rewrite ?land_0xff; div_lia).
  rewrite lor_add by (rewrite ?land_0xff, ?shiftr_div by lia; div_lia).
  rewrite ?land_0xff, ?shiftr_div by lia. div_lia.
Qed.

Definition UnitInfoCmd_wf (o : UnitInfoCmd) : Prop :=
  0 <= ui_unit_type o < 32 /\ 0 <= ui_unit o < 8 /\ 0 <= ui_company_id o < 2 ^ 24.

Lemma UnitInfoCmd_rt (o0 o : UnitInfoCmd) :
  ctype_named (ui_base o) -> UnitInfoCmd_wf o -> cmd_roundtrips o0 o.
Proof.
  intros Hb (Ht & Hu & Hc). destruct o as [b r t u c]; cbn in *.
  solve_cmd_emit Hb. solve_cmd_reads. apply reads_ret_eq.
  rewrite Z.lor_0_l, Z.shiftr_0_r.
  destruct (pack53_fields t u) as [-> ->]; [done..|]. by rewrite bytes3_assemble.
Qed.

(** *** SUBUNIT INFO *)

Definition te_wf (e : TableEntry) : Prop :=
  0 <= te_subunit_type e < 32 /\ 0 <= te_max_subunit_id e < 8.

(** The entries that are not the filler byte [0xff]. *)
Definition te_valid (e : TableEntry) : bool :=
  negb (pack53 (te_subunit_type e) (te_max_subunit_id e) =? 0xff).

Definition te_count (t : list TableEntry) : Z := Z.of_nat (length (List.filter te_valid t)).

Definition te_byte (e : TableEntry) : Z := pack53 (te_subunit_type e) (te_max_subunit_id e).

Lemma emit_write_table t :
  emit (SubUnitInfoCmd_write_table t) = Some (tt, map te_byte t).
Proof. induction t as [|e t IH]; cbn; [done|]. by rewrite IH. Qed.

Lemma te_count_cons e t :
  te_count (e :: t) = (if pack53 (te_subunit_type e) (te_max_subunit_id e) =? 0xff then 0 else 1) + te_count t.
Proof.
  unfold te_count. cbn [List.filter]. unfold te_valid at 1.
  destruct (pack53 _ _ =? 0xff); cbn [negb length]; lia.
Qed.

Lemma reads_table t : forall operand nr,
  Forall te_wf t ->
  reads (SubUnitInfoCmd_read_table (length t) operand nr) (map te_byte t) (t, nr + te_count t).
Proof.
  induction t as [|e t IH]; intros operand nr Hwf.
  - apply reads_ret_eq. f_equal. unfold te_count; cbn. lia.
  - inversion_clear Hwf as [|? ? [He1 He2] Ht].
    destruct e as [ty id]; unfold te_byte at 1; cbn [length map te_subunit_type te_max_subunit_id] in *.
    cbn [SubUnitInfoCmd_read_table]. do 2 reads_step.
    eapply reads_bind_eq; [by apply IH|by rewrite app_nil_r|].
    apply reads_ret_eq. destruct (pack53_fields ty id) as [-> ->]; [done..|].
    rewrite te_count_cons. cbn [te_subunit_type te_max_subunit_id].
    destruct (pack53 ty id =? 0xff); f_equal; lia.
Qed.

Definition SubUnitInfoCmd_wf (o : SubUnitInfoCmd) : Prop :=
  0 <= si_page o < 8 /\ 0 <= si_extension_code o < 8 /\
  length (si_table o) = eMaxSubunitsPerPage /\ Forall te_wf (si_table o) /\
  si_nrOfValidEntries o = te_count (si_table o).

Lemma SubUnitInfoCmd_rt (o0 o : SubUnitInfoCmd) :
  ctype_named (si_base o) -> SubUnitInfoCmd_wf o -> cmd_roundtrips o0 o.
Proof.
  intros Hb (Hp & He & Hl & Ht & Hn). destruct o as [b p e t n]; cbn in *.
  set (pe := u8 (Z.lor (Z.shiftl (Z.land p 7) 4) (Z.land e 7))).
  exists (AVCCommand_header b ++ pe :: map te_byte t). split.
  - apply emit_with_object, emit_header; [exact Hb|].
    cbn [mbind writer_bind]. eapply (emit_bind_eq (write_byte pe) _ [pe]); [done| |done].
    eapply emit_bind_eq; [apply emit_write_table|done|by rewrite app_nil_r].
  - apply reads_header_of. cbv beta iota. apply reads_read_local. cbv beta iota.
    apply reads_used. cbv beta iota. rewrite <- Hl.
    eapply reads_bind_eq; [by apply reads_table|by rewrite app_nil_r|].
    apply reads_ret_eq. cbn. rewrite Z.add_0_l, <- Hn.
    assert (Z.land (Z.shiftr pe 4) 7 = p /\ Z.land pe 7 = e) as [-> ->]; [|done].
    subst pe. split; bits_lia.
Qed.

(** *** PLUG INFO *)

(** The plug counts that the frame of [o] does not carry. *)
Definition PlugInfoCmd_rest_agrees (o0 o : PlugInfoCmd) : Prop :=
  let unit := AVCCommand_getSubunitType (pi_base o) = eST_Unit in
  (unit /\ pi_subFunction o = eSF_SerialBusIsochronousAndExternalPlug \/
   pi_serialBusIsochronousInputPlugs o = pi_serialBusIsochronousInputPlugs o0 /\
   pi_serialBusIsochronousOutputPlugs o = pi_serialBusIsochronousOutputPlugs o0 /\
   pi_externalInputPlugs o = pi_externalInputPlugs o0 /\
   pi_externalOutputPlugs o = pi_externalOutputPlugs o0) /\
  (unit /\ pi_subFunction o = eSF_SerialBusAsynchonousPlug \/
   pi_serialBusAsynchronousInputPlugs o = pi_serialBusAsynchronousInputPlugs o0 /\
   pi_serialBusAsynchronousOuputPlugs o = pi_serialBusAsynchronousOuputPlugs o0) /\
  (~ unit \/
   pi_destinationPlugs o = pi_destinationPlugs o0 /\ pi_sourcePlugs o = pi_sourcePlugs o0).

Definition PlugInfoCmd_supported (o : PlugInfoCmd) : Prop :=
  AVCCommand_getSubunitType (pi_base o) <> eST_Unit \/
  pi_subFunction o = eSF_SerialBusIsochronousAndExternalPlug \/
  pi_subFunction o = eSF_SerialBusAsynchonousPlug.

Ltac plug_fields o0 Ha :=
  unfold eSF_SerialBusAsynchonousPlug, eSF_SerialBusIsochronousAndExternalPlug in *;
  destruct o0; cbn -[AVCCommand_getSubunitType] in *;
  destruct Ha as ([[? ?]|(? & ? & ? & ?)] & [[? ?]|[? ?]] & [?|[? ?]]); congruence.

Lemma PlugInfoCmd_rt (o0 o : PlugInfoCmd) :
  ctype_named (pi_base o) -> PlugInfoCmd_supported o -> PlugInfoCmd_rest_agrees o0 o ->
  cmd_roundtrips o0 o.
Proof.
  intros Hb Hs Ha. destruct o as [b ii io ei eo ai ao d s sf]; unfold PlugInfoCmd_supported in Hs.
  unfold PlugInfoCmd_rest_agrees in Ha. cbn -[AVCCommand_getSubunitType] in *.
  destruct (Z.eqb_spec (AVCCommand_getSubunitType b) eST_Unit) as [Hu|Hu].
  - destruct Hs as [?|[-> | ->]]; [done|..].
    + exists (AVCCommand_header b ++ [eSF_SerialBusIsochronousAndExternalPlug; ii; io; ei; eo]). split.
      * apply emit_with_object, emit_header; [exact Hb|]. cbn -[AVCCommand_getSubunitType].
        by rewrite Hu.
      * apply reads_header_of. cbn beta iota. reads_step.
        change (AVCCommand_getSubunitType (AVCCommand_merge _ b)) with (AVCCommand_getSubunitType b).
        rewrite Hu. cbn [Z.eqb eST_Unit Pos.eqb eSF_SerialBusIsochronousAndExternalPlug].
        repeat reads_eval_step. apply reads_ret_eq. plug_fields o0 Ha.
    + exists (AVCCommand_header b ++ [eSF_SerialBusAsynchonousPlug; ai; ao; 0xff; 0xff]). split.
      * apply emit_with_object, emit_header; [exact Hb|]. cbn -[AVCCommand_getSubunitType].
        by rewrite Hu.
      * apply reads_header_of. cbn beta iota. reads_step.
        change (AVCCommand_getSubunitType (AVCCommand_merge _ b)) with (AVCCommand_getSubunitType b).
        rewrite Hu. cbn [Z.eqb eST_Unit Pos.eqb eSF_SerialBusIsochronousAndExternalPlug eSF_SerialBusAsynchonousPlug].
        repeat reads_eval_step. apply reads_ret_eq. plug_fields o0 Ha.
  - exists (AVCCommand_header b ++ [sf; d; s; 0xff; 0xff]). split.
    + apply emit_with_object, emit_header; [exact Hb|]. cbn -[AVCCommand_getSubunitType Z.eqb].
      by rewrite (proj2 (Z.eqb_neq _ _) Hu).
    + apply reads_header_of. cbn beta iota. reads_step.
      change (AVCCommand_getSubunitType (AVCCommand_merge _ b)) with (AVCCommand_getSubunitType b).
      rewrite (proj2 (Z.eqb_neq _ _) Hu). repeat reads_eval_step. apply reads_ret_eq. plug_fields o0 Ha.
Qed.

(** *** PLUG SIGNAL FORMAT *)

Definition signal_format_byte (eoh form fmt : Z) : Z :=
  Z.lor (Z.lor (u8 (Z.shiftl (Z.land eoh 0x01) 7)) (Z.shiftl (Z.land form 0x01) 6)) (Z.land fmt 0x3f).

Lemma signal_format_fields eoh form fmt :
  0 <= eoh < 2 -> 0 <= form < 2 -> 0 <= fmt < 64 ->
  let v := signal_format_byte eoh form fmt in
  Z.shiftr (Z.land v 0x80) 7 = eoh /\ Z.shiftr (Z.land v 0x40) 6 = form /\ Z.land v 0x3f = fmt.
Proof.
  intros He Hf Hm.
  set (chk e f m := let v := signal_format_byte e f m in
    (Z.shiftr (Z.land v 0x80) 7 =? e) && (Z.shiftr (Z.land v 0x40) 6 =? f) && (Z.land v 0x3f =? m)).
  assert (H : for_range 0 2 (fun e => for_range 0 2 (fun f => for_range 0 64 (chk e f))) = true)
    by (vm_compute; reflexivity).
  apply (for_range_spec _ _ _ (for_range_spec _ _ _ (for_range_spec _ _ _ H eoh He) form Hf)) in Hm.
  unfold chk in Hm. cbv zeta in *. rewrite !andb_true_iff, !Z.eqb_eq in Hm. tauto.
Qed.

Definition OutputPlugSignalFormatCmd_wf (o : OutputPlugSignalFormatCmd) : Prop :=
  0 <= os_eoh o < 2 /\ 0 <= os_form o < 2 /\ 0 <= os_fmt o < 64.

Lemma OutputPlugSignalFormatCmd_rt (o0 o : OutputPlugSignalFormatCmd) :
  ctype_named (os_base o) -> OutputPlugSignalFormatCmd_wf o -> cmd_roundtrips o0 o.
Proof.
  intros Hb (He & Hf & Hm). destruct o as [b p e f m f0 f1 f2]; cbn in *.
  solve_cmd_emit Hb. solve_cmd_reads. apply reads_ret_eq.
  fold (signal_format_byte e f m).
  by destruct (signal_format_fields e f m He Hf Hm) as (-> & -> & ->).
Qed.

Definition InputPlugSignalFormatCmd_wf (o : InputPlugSignalFormatCmd) : Prop :=
  0 <= is_eoh o < 2 /\ 0 <= is_form o < 2 /\ 0 <= is_fmt o < 64.

Lemma InputPlugSignalFormatCmd_rt (o0 o : InputPlugSignalFormatCmd) :
  ctype_named (is_base o) -> InputPlugSignalFormatCmd_wf o -> cmd_roundtrips o0 o.
Proof.
  intros Hb (He & Hf & Hm). destruct o as [b p e f m f0 f1 f2]; cbn in *.
  solve_cmd_emit Hb. solve_cmd_reads. apply reads_ret_eq.
  fold (signal_format_byte e f m).
  by destruct (signal_format_fields e f m He Hf Hm) as (-> & -> & ->).
Qed.

(** *** VENDOR DEPENDENT and CONNECT *)

Lemma VendorDependentCmd_rt (o0 o : VendorDependentCmd) v :
  ctype_named (vd_base o) -> vd_companyId o = Some v -> 0 <= v < 2 ^ 24 -> cmd_roundtrips o0 o.
Proof.
  intros Hb Hv Hr. destruct o as [b c]; cbn in *. subst c.
  solve_cmd_emit Hb. solve_cmd_reads. apply reads_ret_eq. by rewrite bytes3_assemble.
Qed.

Lemma ConnectCmd_rt (o0 o : ConnectCmd) : ctype_named (cc_base o) -> cmd_roundtrips o0 o.
Proof. intros Hb. destruct o as [b]; cbn in *. solve_cmd_emit Hb. by solve_cmd_reads. Qed.

(** *** SIGNAL SOURCE *)

(** A subunit address whose first byte is not the marker of unit addresses. *)
Definition SignalAddress_wf (a : SignalAddress) : Prop :=
  match a with
  | SignalUnitAddress _ => True
  | SignalSubunitAddress t i _ => 0 <= t < 32 /\ 0 <= i < 8 /\ pack53 t i <> 0xff
  end.

Definition SignalAddress_bytes (a : SignalAddress) : list Z :=
  match a with
  | SignalUnitAddress p => [0xff; p]
  | SignalSubunitAddress t i p => [pack53 t i; p]
  end.

Lemma emit_SignalAddress a : emit (bd_serialize a) = Some (true, SignalAddress_bytes a).
Proof. by destruct a. Qed.

Lemma reads_SignalAddress a operand :
  SignalAddress_wf a ->
  exists operand', reads (SignalSourceCmd_read_address operand) (SignalAddress_bytes a) (operand', a).
Proof.
  destruct a as [p|t i p]; cbn [SignalAddress_bytes SignalAddress_wf]; intros Hwf; eexists;
    unfold SignalSourceCmd_read_address.
  - repeat reads_eval_step.
  - destruct Hwf as (Ht & Hi & Hne). reads_step. reads_step.
    rewrite (proj2 (Z.eqb_neq _ _) Hne). repeat reads_eval_step. apply reads_ret_eq.
    by destruct (pack53_fields t i Ht Hi) as [-> ->].
Qed.

Definition SignalSourceCmd_wf (o0 o : SignalSourceCmd) (ct : Z) (src dst : SignalAddress) : Prop :=
  m_commandType (ss_base o) = Some ct /\ m_commandType (ss_base o0) = Some ct /\
  SignalSourceCmd_subunit_handled (ss_base o) = true /\
  ss_signalSource o = Some src /\ ss_signalDestination o = Some dst /\
  SignalAddress_wf src /\ SignalAddress_wf dst /\
  (ct = eCT_Status /\ 0 <= ss_outputStatus o < 8 /\ 0 <= ss_conv o < 2 /\ 0 <= ss_signalStatus o < 16 /\
     ss_resultStatus o = ss_resultStatus o0 \/
   (ct = eCT_Control \/ ct = eCT_SpecificInquiry) /\ 0 <= ss_resultStatus o < 16 /\
     ss_outputStatus o = ss_outputStatus o0 /\ ss_conv o = ss_conv o0 /\ ss_signalStatus o = ss_signalStatus o0).

Lemma signal_status_fields os cv st :
  0 <= os < 8 -> 0 <= cv < 2 -> 0 <= st < 16 ->
  let v := u8 (Z.lor (Z.lor (Z.shiftl os 5) (Z.shiftl (Z.land cv 0x1) 4)) (Z.land st 0xf)) in
  Z.shiftr v 5 = os /\ Z.shiftr (Z.land v 0x10) 4 = cv /\ Z.land v 0xf = st.
Proof.
  intros Ho Hc Hs.
  set (chk o c s := let v := u8 (Z.lor (Z.lor (Z.shiftl o 5) (Z.shiftl (Z.land c 0x1) 4)) (Z.land s 0xf)) in
    (Z.shiftr v 5 =? o) && (Z.shiftr (Z.land v 0x10) 4 =? c) && (Z.land v 0xf =? s)).
  assert (H : for_range 0 8 (fun o => for_range 0 2 (fun c => for_range 0 16 (chk o c))) = true)
    by (vm_compute; reflexivity).
  apply (for_range_spec _ _ _ (for_range_spec _ _ _ (for_range_spec _ _ _ H os Ho) cv Hc)) in Hs.
  unfold chk in Hs. cbv zeta in *. rewrite !andb_true_iff, !Z.eqb_eq in Hs. tauto.
Qed.

Lemma emit_addresses (o : SignalSourceCmd) src dst :
  SignalSourceCmd_subunit_handled (ss_base o) = true ->
  ss_signalSource o = Some src -> ss_signalDestination o = Some dst ->
  emit (SignalSourceCmd_write_addresses o) = Some (true, SignalAddress_bytes src ++ SignalAddress_bytes dst).
Proof.
  intros Hh Hs Hd. unfold SignalSourceCmd_write_addresses. rewrite Hh, Hs, Hd.
  eapply emit_bind_eq; [apply emit_SignalAddress| |done].
  eapply emit_bind_eq; [apply emit_SignalAddress|done|by rewrite app_nil_r].
Qed.

Lemma reads_addresses (o : SignalSourceCmd) src dst :
  SignalSourceCmd_subunit_handled (ss_base o) = true -> SignalAddress_wf src -> SignalAddress_wf dst ->
  reads (SignalSourceCmd_read_addresses o) (SignalAddress_bytes src ++ SignalAddress_bytes dst)
    (true, mkSignalSourceCmd (ss_base o) (ss_resultStatus o) (ss_outputStatus o) (ss_conv o)
             (ss_signalStatus o) (Some src) (Some dst)).
Proof.
  intros Hh Hs Hd. unfold SignalSourceCmd_read_addresses. rewrite Hh.
  destruct (reads_SignalAddress src None Hs) as [op1 H1].
  eapply reads_bind_eq; [exact H1|done|]. cbv beta iota.
  destruct (reads_SignalAddress dst op1 Hd) as [op2 H2].
  eapply reads_bind_eq; [exact H2|by rewrite app_nil_r|]. apply reads_ret.
Qed.

Lemma SignalSourceCmd_rt (o0 o : SignalSourceCmd) ct src dst :
  ctype_named (ss_base o) -> SignalSourceCmd_wf o0 o ct src dst -> cmd_roundtrips o0 o.
Proof.
  intros Hb (Hct & Hct0 & Hh & Hs & Hd & Hws & Hwd & Hf).
  set (first := if ct =? eCT_Status
    then u8 (Z.lor (Z.lor (Z.shiftl (ss_outputStatus o) 5) (Z.shiftl (Z.land (ss_conv o) 0x1) 4)) (Z.land (ss_signalStatus o) 0xf))
    else Z.land (ss_resultStatus o) 0xf).
  exists (AVCCommand_header (ss_base o) ++ [first] ++ SignalAddress_bytes src ++ SignalAddress_bytes dst). split.
  - apply emit_with_object, emit_header; [exact Hb|].
    unfold AVCCommand_getCommandType. rewrite Hct. subst first.
    assert (Hw := emit_addresses o src dst Hh Hs Hd).
    destruct Hf as [(-> & _)|[[-> | ->] _]];
      (eapply (emit_bind_eq (write_byte _) _ [_]); [reflexivity|exact Hw|reflexivity]).
  - apply reads_header_of. cbv beta iota.
    unfold AVCCommand_getCommandType. cbn [m_commandType AVCCommand_merge AVCCommand_with_header].
    rewrite Hct0. subst first.
    destruct o as [b rs os cv st s d]; cbn [ss_base ss_resultStatus ss_outputStatus ss_conv ss_signalStatus
      ss_signalSource ss_signalDestination] in *. subst s d.
    destruct Hf as [(-> & Ho & Hc & Hst & Hr)|[[-> | ->] (Hr & Ho & Hc & Hst)]];
      cbv beta iota; apply reads_read_local; apply reads_used;
      (eapply reads_weaken; [apply reads_addresses; [exact Hh|exact Hws|exact Hwd]|done|]); cbn [cmd_set_base SignalSourceCmd_AVCCommandClass
        cmd_base ss_base ss_resultStatus ss_outputStatus ss_conv ss_signalStatus];
      cbn [Z.eqb Pos.eqb eCT_Status eCT_Control eCT_SpecificInquiry].
    + destruct (signal_status_fields os cv st Ho Hc Hst) as (-> & -> & ->). by rewrite Hr.
    + assert (Z.land (Z.land rs 15) 15 = rs) as -> by bits_lia. by rewrite Ho, Hc, Hst.
    + assert (Z.land (Z.land rs 15) 15 = rs) as -> by bits_lia. by rewrite Ho, Hc, Hst.
Qed.

(** *** Extended SUBUNIT INFO *)

Definition page_bytes (p : ExtendedSubunitInfoPageData) : list Z :=
  [ep_functionBlockType p; ep_functionBlockId p; ep_functionBlockSpecialPupose p;
   ep_noOfInputPlugs p; ep_noOfOutputPlugs p].

Lemma ExtendedSubunitInfoPageData_reads p0 p :
  reads (ExtendedSubunitInfoPageData_deserialize p0) (page_bytes p) (true, p).
Proof. destruct p. repeat reads_eval_step. Qed.

Lemma emit_write_pages l : forall status,
  emit (ExtendedSubunitInfoCmd_write_pages status l) = Some (status, concat (map page_bytes l)).
Proof.
  induction l as [|p l IH]; intros status; [done|]. cbn [ExtendedSubunitInfoCmd_write_pages map concat].
  eapply (emit_bind_eq _ _ (page_bytes p)); [done| |done]. rewrite IH. by rewrite andb_true_r.
Qed.

Lemma emit_space_fill n : emit (ExtendedSubunitInfoCmd_space_fill n) = Some (tt, replicate n 0xff).
Proof. induction n as [|n IH]; [done|]. cbn. by rewrite IH. Qed.

(** The page data that the parser can tell from the filler. *)
Definition page_wf (p : ExtendedSubunitInfoPageData) : Prop := ep_functionBlockType p <> 0xff.

Lemma parses_pages l : forall n l0 fill,
  Forall page_wf l -> (length l + length fill = n)%nat -> Forall (eq 0xff) (concat fill) ->
  Forall (fun f => f <> []) fill ->
  parses (ExtendedSubunitInfoCmd_read_pages n true l0) (concat (map page_bytes l) ++ concat fill)
    (true, l0 ++ l).
Proof.
  induction l as [|p l IH]; intros n l0 fill Hwf Hn Hff Hne; cbn [map concat app length] in *.
  - rewrite app_nil_r. destruct n as [|n]; [by apply parses_mret|].
    destruct fill as [|[|b f] fill]; [done|by inversion_clear Hne|].
    cbn [concat app] in *. inversion Hff as [|? ? Hb]; subst.
    cbn [ExtendedSubunitInfoCmd_read_pages]. apply parses_peek_local. cbv beta iota. apply parses_mret.
  - inversion_clear Hwf as [|? ? Hp Hl]. destruct n as [|n]; [lia|].
    cbn [ExtendedSubunitInfoCmd_read_pages].
    assert (Hpeek : page_bytes p = ep_functionBlockType p :: tl (page_bytes p)) by done.
    rewrite <- (assoc_L (++)), Hpeek. cbn [app]. apply parses_peek_local. cbv beta iota.
    cbn [used mbind reader_bind]. rewrite (proj2 (Z.eqb_neq _ _) Hp). cbn [negb].
    eapply parses_bind; [apply ExtendedSubunitInfoPageData_reads|done|]. cbv beta iota. cbn [negb].
    replace (l0 ++ p :: l) with ((l0 ++ [p]) ++ l) by (by rewrite <- (assoc_L (++))).
    apply IH; [done|lia|done|done].
Qed.

(** The page data that arrive are appended to the ones the object had. *)
Lemma ExtendedSubunitInfoCmd_parses (o0 o : ExtendedSubunitInfoCmd) :
  ctype_named (es_base o) -> (length (es_infoPageDatas o) <= NR_OF_PAGE_DATA)%nat ->
  Forall page_wf (es_infoPageDatas o) ->
  exists bs, emit (cmd_serialize o) = Some ((true, o), bs) /\ length bs = 30%nat /\
    parses (cmd_deserialize o0) bs
      (true, mkExtendedSubunitInfoCmd (AVCCommand_merge (es_base o0) (es_base o)) (es_page o) (es_fbType o)
               (es_infoPageDatas o0 ++ es_infoPageDatas o)).
Proof.
  intros Hb Hl Hwf. destruct o as [b pg ft l]; cbn [es_base es_page es_fbType es_infoPageDatas] in *.
  set (fill := replicate (5 - length l) (replicate 5 0xff)).
  assert (Hfill : concat fill = replicate (SIZE_OF_PAGE_ENTRY * NR_OF_PAGE_DATA - length l * SIZE_OF_PAGE_ENTRY) 0xff).
  { unfold fill, NR_OF_PAGE_DATA in *. do 6 (destruct l as [|? l]; [vm_compute; reflexivity|]). cbn in Hl. lia. }
  exists (AVCCommand_header b ++ [pg; ft] ++ concat (map page_bytes l) ++ concat fill). split_and!.
  - apply emit_with_object, emit_header; [exact Hb|].
    eapply (emit_bind_eq _ _ [pg]); [done| |done]. eapply (emit_bind_eq _ _ [ft]); [done| |done].
    eapply emit_bind_eq; [apply emit_write_pages| |done]. rewrite Hfill.
    eapply emit_bind_eq; [apply emit_space_fill|done|by rewrite app_nil_r].
  - unfold fill, NR_OF_PAGE_DATA in *. do 6 (destruct l as [|? l]; [vm_compute; reflexivity|]). cbn in Hl. lia.
  - eapply (parses_bind _ _ (AVCCommand_header b)); [apply AVCCommand_reads|done|]. cbv beta iota.
    eapply (parses_bind _ _ [pg]); [apply reads_r_byte, reads_ret|done|]. cbv beta iota.
    eapply (parses_bind _ _ [ft]); [apply reads_r_byte, reads_ret|done|]. cbv beta iota. cbn [andb keep_old].
    apply (parses_last _ _ _ (true, es_infoPageDatas o0 ++ l)); [|reflexivity].
    apply parses_pages; [exact Hwf| | |].
    + unfold fill. rewrite length_replicate. unfold NR_OF_PAGE_DATA in Hl. lia.
    + rewrite Hfill. by apply Forall_replicate.
    + by apply Forall_replicate.
Qed.

(** ** Properties: transactions *)

(** A UNIT INFO status request and the answer of a target, as witnesses. *)
Definition unit_info_request : UnitInfoCmd :=
  mkUnitInfoCmd (AVCCommand_setCommandType eCT_Status (ui_base UnitInfoCmd_new)) 0xff 0xff 0xff 0xffffffff.

Definition unit_info_answer : UnitInfoCmd :=
  mkUnitInfoCmd (AVCCommand_with_header eR_Implemented 0xff AVC1394_CMD_UNIT_INFO (ui_base UnitInfoCmd_new))
    0x07 0x0C 1 0x000a92.

Definition unit_info_target (nodeId : Z) (request : list Z) : option (list Z) :=
  if bool_decide (request = [0x01; 0xff; 0x30; 0xff; 0xff; 0xff; 0xff; 0xff])
  then Some [0x0C; 0xff; 0x30; 0x07; 0x61; 0x00; 0x0a; 0x92] else None.

(** a transaction without a response, and one with a response: [fire]
    sends the serialised frame filled up to whole quadlets to the node; without
    a response it returns [false] and keeps the frame; otherwise the result is
    the one of parsing the response. *)
Lemma AVCCommand_fire_request {C} `{AVCCommandClass C} (transactionBlock : Z -> list Z -> option (list Z))
  (c c1 : C) bs :
  emit (cmd_serialize c) = Some ((true, c1), bs) -> (length bs < 512)%nat ->
  fire transactionBlock c
  = match transactionBlock (m_nodeId (cmd_base (framed c1 bs)))
            (bs ++ replicate (4 * ((length bs + 3) / 4) - length bs) 0) with
    | None => Some (false, framed c1 bs)
    | Some buf => fire_response buf (framed c1 bs)
    end.
Proof. apply fire_serialized. Qed.

Lemma AVCCommand_fire_request_witness :
  fire (fun _ _ => None) unit_info_request
  = Some (false, framed unit_info_request [0x01; 0xff; 0x30; 0xff; 0xff; 0xff; 0xff; 0xff]).
Proof.
  apply (AVCCommand_fire_request (fun _ _ => None) unit_info_request unit_info_request
    [0x01; 0xff; 0x30; 0xff; 0xff; 0xff; 0xff; 0xff]); [vm_compute; reflexivity|cbn; lia].
Defined.

(** A whole transaction: when the node answers the request with the frame
    of a command [r] that the object can parse, [fire] returns [true] exactly
    for the response codes accepted, implemented, rejected and not
    implemented, and the object becomes what it parsed from the response. *)
Lemma AVCCommand_fire_answered {C} `{AVCCommandClass C} (transactionBlock : Z -> list Z -> option (list Z))
  (c c1 r r' : C) bs :
  emit (cmd_serialize c) = Some ((true, c1), bs) -> (length bs < 512)%nat ->
  let c2 := framed c1 bs in
  cmd_answers (cmd_set_base (AVCCommand_with_response (m_ctype (cmd_base r)) (cmd_base c2)) c2) r r' ->
  (forall rbs, emit (cmd_serialize r) = Some ((true, r), rbs) ->
     transactionBlock (m_nodeId (cmd_base c2)) (quadlet_padded bs) = Some (quadlet_padded rbs)) ->
  fire transactionBlock c
  = if bool_decide (m_ctype (cmd_base r) ∈ [eR_Accepted; eR_Implemented; eR_Rejected; eR_NotImplemented]) then
      '((_, r2), _) ← emit (cmd_serialize r'); Some (true, r2)
    else Some (false, r').
Proof. intros He Hl c2 Ha Ht. rewrite <- fire_expected_elem. by apply (fire_answered _ c c1 r r' bs). Qed.

Lemma AVCCommand_fire_answered_witness :
  exists o, fire unit_info_target unit_info_request = Some (true, o) /\
    ui_unit_type o = 0x0C /\ ui_unit o = 1 /\ ui_company_id o = 0x000a92 /\
    m_eResponse (ui_base o) = eR_Implemented.
Proof.
  eexists. split; [etransitivity|].
  - eapply (AVCCommand_fire_answered unit_info_target unit_info_request unit_info_request unit_info_answer _
      [0x01; 0xff; 0x30; 0xff; 0xff; 0xff; 0xff; 0xff]); [vm_compute; reflexivity|cbn; lia| |].
    + apply roundtrips_answers.
      * apply UnitInfoCmd_rt; [apply (bool_decide_eq_true_1 (ctype_named (ui_base unit_info_answer))); vm_compute; reflexivity|].
        split_and!; cbn; lia.
      * intros bs [= <-]. split; [reflexivity|cbn; lia].
    + intros rbs [= <-]. vm_compute. reflexivity.
  - vm_compute. reflexivity.
  - vm_compute. done.
Defined.

(** [setSubunitType] and [setSubunitId] set the two fields of the subunit
    byte independently, and the getters return them. *)
Lemma AVCCommand_subunit_addressing (c : AVCCommand) (t i : Z) :
  is_u8 (m_subunit c) -> 0 <= t < 32 -> 0 <= i < 8 ->
  let c1 := AVCCommand_setSubunitType t c in
  let c2 := AVCCommand_setSubunitId i c1 in
  AVCCommand_getSubunitType c1 = t /\ AVCCommand_getSubunitId c1 = AVCCommand_getSubunitId c /\
  AVCCommand_getSubunitType c2 = t /\ AVCCommand_getSubunitId c2 = i /\ m_subunit c2 = 8 * t + i.
Proof.
  intros Hs Ht Hi. unfold AVCCommand_setSubunitType, AVCCommand_setSubunitId, AVCCommand_getSubunitType,
    AVCCommand_getSubunitId, AVCCommand_with_subunit. cbn [m_subunit].
  rewrite (wrapU_small 8 t) by width_lia.
  destruct (subunit_bits_check _ t i Hs Ht Hi) as (E & H1 & H2). rewrite E, H1, H2.
  split_and!; [done..|bits_lia|bits_lia|done].
Qed.

Lemma AVCCommand_subunit_addressing_witness :
  m_subunit (AVCCommand_setSubunitId 5 (AVCCommand_setSubunitType eST_Music (AVCCommand_new 0x30))) = 0x65.
Proof.
  apply (AVCCommand_subunit_addressing (AVCCommand_new 0x30) eST_Music 5);
    [vm_compute; split; congruence|vm_compute; split; congruence|lia].
Defined.

(** ** Properties: the operands of the discovery commands *)

(** UNIT INFO, the two SIGNAL FORMAT commands, VENDOR DEPENDENT and CONNECT
    carry their operands without loss: an object in any state that parses the
    frame of another one takes over every operand, as long as bit fields are
    in their ranges. *)
Lemma fixed_layout_commands_roundtrip :
  (forall o0 o : UnitInfoCmd, ctype_named (ui_base o) ->
     0 <= ui_unit_type o < 32 -> 0 <= ui_unit o < 8 -> 0 <= ui_company_id o < 2 ^ 24 -> cmd_roundtrips o0 o) /\
  (forall o0 o : OutputPlugSignalFormatCmd, ctype_named (os_base o) ->
     0 <= os_eoh o < 2 -> 0 <= os_form o < 2 -> 0 <= os_fmt o < 64 -> cmd_roundtrips o0 o) /\
  (forall o0 o : InputPlugSignalFormatCmd, ctype_named (is_base o) ->
     0 <= is_eoh o < 2 -> 0 <= is_form o < 2 -> 0 <= is_fmt o < 64 -> cmd_roundtrips o0 o) /\
  (forall (o0 o : VendorDependentCmd) v, ctype_named (vd_base o) ->
     vd_companyId o = Some v -> 0 <= v < 2 ^ 24 -> cmd_roundtrips o0 o) /\
  (forall o0 o : ConnectCmd, ctype_named (cc_base o) -> cmd_roundtrips o0 o).
Proof.
  split_and!; intros.
  - by apply UnitInfoCmd_rt.
  - by apply OutputPlugSignalFormatCmd_rt.
  - by apply InputPlugSignalFormatCmd_rt.
  - by eapply VendorDependentCmd_rt.
  - by apply ConnectCmd_rt.
Qed.

Lemma fixed_layout_commands_roundtrip_witness :
  cmd_roundtrips UnitInfoCmd_new unit_info_answer.
Proof.
  apply (proj1 fixed_layout_commands_roundtrip); [eexists; vm_compute; reflexivity|cbn; lia..].
Defined.

(** SUBUNIT INFO carries its page, its extension code and the four table
    entries; the number of valid entries the receiver computes is the number
    of entries that are not the filler byte. *)
Lemma SubUnitInfoCmd_roundtrip (o0 o : SubUnitInfoCmd) :
  ctype_named (si_base o) -> 0 <= si_page o < 8 -> 0 <= si_extension_code o < 8 ->
  length (si_table o) = eMaxSubunitsPerPage -> Forall te_wf (si_table o) ->
  si_nrOfValidEntries o = te_count (si_table o) ->
  cmd_roundtrips o0 o.
Proof. intros. apply SubUnitInfoCmd_rt; [done|]. do 4 (split; [done|]). done. Qed.

Definition two_subunits : SubUnitInfoCmd :=
  mkSubUnitInfoCmd (AVCCommand_with_header eR_Implemented 0xff AVC1394_CMD_SUBUNIT_INFO (si_base SubUnitInfoCmd_new))
    0 7 [mkTableEntry eST_Audio 0; mkTableEntry eST_Music 0; mkTableEntry 31 7; mkTableEntry 31 7] 2.

Lemma SubUnitInfoCmd_roundtrip_witness : cmd_roundtrips SubUnitInfoCmd_new two_subunits.
Proof.
  apply (SubUnitInfoCmd_roundtrip SubUnitInfoCmd_new two_subunits);
    [eexists; vm_compute; reflexivity|cbn; lia..|reflexivity| |vm_compute; reflexivity].
  change (si_table two_subunits) with
    [mkTableEntry eST_Audio 0; mkTableEntry eST_Music 0; mkTableEntry 31 7; mkTableEntry 31 7].
  repeat apply Forall_cons_2; [..|apply Forall_nil_2]; split; cbn; unfold eST_Audio, eST_Music; lia.
Defined.

(** PLUG INFO carries the plug counts that its sub-function selects (the
    isochronous and external counts, the asynchronous ones, or the ones of a
    subunit) and leaves the other counts of the parsing object alone. *)
Lemma PlugInfoCmd_roundtrip (o0 o : PlugInfoCmd) :
  ctype_named (pi_base o) -> PlugInfoCmd_supported o -> PlugInfoCmd_rest_agrees o0 o ->
  cmd_roundtrips o0 o.
Proof. apply PlugInfoCmd_rt. Qed.

Definition iso_plugs : PlugInfoCmd :=
  mkPlugInfoCmd (AVCCommand_with_header eR_Implemented 0xff AVC1394_CMD_PLUG_INFO (pi_base (PlugInfoCmd_new 0)))
    2 3 4 5 0xff 0xff 0xff 0xff eSF_SerialBusIsochronousAndExternalPlug.

Lemma PlugInfoCmd_roundtrip_witness : cmd_roundtrips (PlugInfoCmd_new 0) iso_plugs.
Proof.
  apply (PlugInfoCmd_roundtrip (PlugInfoCmd_new 0) iso_plugs); [eexists; vm_compute; reflexivity|by right; left|].
  split_and!; [by left|by right|by right].
Defined.

(** SIGNAL SOURCE carries both addresses, and the three status fields of a
    status command or the result status of a control command; a subunit
    address must not begin with the byte 0xff, which marks a unit address. *)
Lemma SignalSourceCmd_roundtrip (o0 o : SignalSourceCmd) ct src dst :
  ctype_named (ss_base o) -> SignalSourceCmd_wf o0 o ct src dst -> cmd_roundtrips o0 o.
Proof. apply SignalSourceCmd_rt. Qed.

Definition signal_source_base : AVCCommand :=
  AVCCommand_with_header 0x0C 0xff AVC1394_CMD_SIGNAL_SOURCE
    (AVCCommand_setCommandType eCT_Status (ss_base SignalSourceCmd_new)).

Lemma SignalSourceCmd_roundtrip_witness :
  let o0 := mkSignalSourceCmd signal_source_base 0xff 0xff 0xff 0xff None None in
  cmd_roundtrips o0
    (mkSignalSourceCmd signal_source_base 0xff 3 1 0 (Some (SignalSubunitAddress eST_Music 0 5)) (Some (SignalUnitAddress 0))).
Proof.
  intros o0.
  eapply (SignalSourceCmd_roundtrip o0 _ eCT_Status (SignalSubunitAddress eST_Music 0 5) (SignalUnitAddress 0));
    [eexists; vm_compute; reflexivity|].
  unfold SignalSourceCmd_wf. split_and!; [reflexivity..|by vm_compute|by vm_compute|by vm_compute| |].
  - done.
  - left. cbn. unfold eCT_Status. lia.
Defined.

(** the extended SUBUNIT INFO frame has 30 bytes; the page data before the
    first filler byte are appended to the page data the parsing object already
    had. *)
Lemma ExtendedSubunitInfoCmd_accumulates (o0 o : ExtendedSubunitInfoCmd) :
  ctype_named (es_base o) -> (length (es_infoPageDatas o) <= NR_OF_PAGE_DATA)%nat ->
  Forall page_wf (es_infoPageDatas o) ->
  exists bs, emit (cmd_serialize o) = Some ((true, o), bs) /\ length bs = 30%nat /\
    parses (cmd_deserialize o0) bs
      (true, mkExtendedSubunitInfoCmd (AVCCommand_merge (es_base o0) (es_base o)) (es_page o) (es_fbType o)
               (es_infoPageDatas o0 ++ es_infoPageDatas o)).
Proof. apply ExtendedSubunitInfoCmd_parses. Qed.

Lemma ExtendedSubunitInfoCmd_accumulates_witness :
  let p := mkExtendedSubunitInfoPageData 0x81 1 0xff 2 2 in
  let b := AVCCommand_with_header eR_Implemented 0x08 AVC1394_CMD_SUBUNIT_INFO (es_base ExtendedSubunitInfoCmd_new) in
  exists bs,
    emit (cmd_serialize (mkExtendedSubunitInfoCmd b 0 0xff [p])) = Some ((true, mkExtendedSubunitInfoCmd b 0 0xff [p]), bs) /\
    length bs = 30%nat /\
    parses (cmd_deserialize ExtendedSubunitInfoCmd_new) bs
      (true, mkExtendedSubunitInfoCmd (AVCCommand_merge (es_base ExtendedSubunitInfoCmd_new) b) 0 0xff [p]).
Proof.
  intros p b.
  apply (ExtendedSubunitInfoCmd_accumulates ExtendedSubunitInfoCmd_new (mkExtendedSubunitInfoCmd b 0 0xff [p]));
    [eexists; vm_compute; reflexivity|cbn; unfold NR_OF_PAGE_DATA; lia|].
  repeat constructor. by vm_compute.
Defined.
