(* ===== verification/AvcDefinitions.v ===== *)
(** * AvcDefinitions: libavc/avc_definitions

    The codes of the AV/C specifications shared by the commands and the
    conversions between sample rates and their codes. *)
From stdpp Require Import strings.
From S2P Require Import Prelude.

(** ESamplingFrequency *)
Definition eSF_22050Hz : Z := 0x00.
Definition eSF_24000Hz : Z := 0x01.
Definition eSF_32000Hz : Z := 0x02.
Definition eSF_44100Hz : Z := 0x03.
Definition eSF_48000Hz : Z := 0x04.
Definition eSF_96000Hz : Z := 0x05.
Definition eSF_176400Hz : Z := 0x06.
Definition eSF_192000Hz : Z := 0x07.
Definition eSF_88200Hz : Z := 0x0A.
Definition eSF_AnyLow : Z := 0x0B.
Definition eSF_AnyMid : Z := 0x0C.
Definition eSF_AnyHigh : Z := 0x0D.
Definition eSF_None : Z := 0x0E.
Definition eSF_DontCare : Z := 0x0F.

(** A C++ [switch] on integer labels: the first row with the label of the
    scrutinee ([case] labels are pairwise distinct). *)
Fixpoint switch {A} (rows : list (Z * A)) (default : A) (x : Z) : A :=
  match rows with
  | [] => default
  | (l, a) :: rows' => if x =? l then a else switch rows' default x
  end.

Lemma switch_zip {A} (ls : list Z) (xs : list A) d i l a :
  NoDup ls -> ls !! i = Some l -> xs !! i = Some a -> switch (zip ls xs) d l = a.
Proof.
  intros Hnd. revert xs i. induction Hnd as [|l0 ls Hl0 Hnd IH]; intros xs i Hl Ha; [done|].
  destruct xs as [|x xs]; [by destruct i|]. destruct i as [|i]; cbn in *.
  - simplify_eq. by rewrite Z.eqb_refl.
  - destruct (Z.eqb_spec l l0) as [-> |_]; [|by eapply IH].
    destruct Hl0. by eapply list_elem_of_lookup_2.
Qed.

Definition convertESamplingFrequency : Z -> Z :=
  switch [(eSF_22050Hz, 22050); (eSF_24000Hz, 24000); (eSF_32000Hz, 32000); (eSF_44100Hz, 44100);
          (eSF_48000Hz, 48000); (eSF_88200Hz, 88200); (eSF_96000Hz, 96000); (eSF_176400Hz, 176400);
          (eSF_192000Hz, 192000); (eSF_AnyLow, 48000); (eSF_AnyMid, 96000); (eSF_AnyHigh, 192000)] 0.

Definition parseSampleRate : Z -> Z :=
  switch [(22050, eSF_22050Hz); (24000, eSF_24000Hz); (32000, eSF_32000Hz); (44100, eSF_44100Hz);
          (48000, eSF_48000Hz); (88200, eSF_88200Hz); (96000, eSF_96000Hz); (176400, eSF_176400Hz);
          (192000, eSF_192000Hz)] eSF_DontCare.

(** [operator<<( std::ostream&, ESamplingFrequency )] *)
Definition ESamplingFrequency_str : Z -> string :=
  switch [(eSF_22050Hz, "22050"); (eSF_24000Hz, "24000"); (eSF_32000Hz, "32000"); (eSF_44100Hz, "44100");
          (eSF_48000Hz, "48000"); (eSF_88200Hz, "88200"); (eSF_96000Hz, "96000"); (eSF_176400Hz, "176400");
          (eSF_192000Hz, "192000")]%string "unknown"%string.

(** ESubunitType: [eST_Unit] for every byte that is not a label. *)
Definition byteToSubunitType : Z -> Z :=
  switch [(0x00, 0x00); (0x01, 0x01); (0x02, 0x02); (0x03, 0x03); (0x04, 0x04); (0x05, 0x05);
          (0x06, 0x06); (0x07, 0x07); (0x09, 0x09); (0x0A, 0x0A); (0x0B, 0x0B); (0x0C, 0x0C);
          (0x1C, 0x1C); (0x1D, 0x1D); (0x1E, 0x1E)] 0x1F.

(** ** The SFC field of a CIP header

    The codes [IEC61883_FDF_SFC_*] come from libiec61883; they label the cases
    of the two switches. *)
Record fdf_sfc_codes := {
  SFC_32KHZ : Z; SFC_44K1HZ : Z; SFC_48KHZ : Z; SFC_88K2HZ : Z; SFC_96KHZ : Z;
  SFC_176K4HZ : Z; SFC_192KHZ : Z }.

Section sfc.
Variable iec : fdf_sfc_codes.

Definition fdfSfcToSampleRate (fdf : Z) : Z :=
  switch [(SFC_32KHZ iec, 32000); (SFC_44K1HZ iec, 44100); (SFC_48KHZ iec, 48000); (SFC_88K2HZ iec, 88200);
          (SFC_96KHZ iec, 96000); (SFC_176K4HZ iec, 176400); (SFC_192KHZ iec, 192000)] 0 (Z.land fdf 0x07).

Definition sampleRateToFdfSfc (rate : Z) : Z :=
  switch [(32000, SFC_32KHZ iec); (44100, SFC_44K1HZ iec); (48000, SFC_48KHZ iec); (88200, SFC_88K2HZ iec);
          (96000, SFC_96KHZ iec); (176400, SFC_176K4HZ iec); (192000, SFC_192KHZ iec)] 0x07 rate.

Definition sfc_list : list Z :=
  [SFC_32KHZ iec; SFC_44K1HZ iec; SFC_48KHZ iec; SFC_88K2HZ iec; SFC_96KHZ iec; SFC_176K4HZ iec; SFC_192KHZ iec].

Definition sfc_rates : list Z := [32000; 44100; 48000; 88200; 96000; 176400; 192000].

(** The codes are distinct three-bit values: then the two conversions are
    inverse to each other on the standard rates. *)
Lemma sfc_roundtrip rate :
  NoDup sfc_list -> Forall (fun c => 0 <= c < 8) sfc_list -> rate ∈ sfc_rates ->
  fdfSfcToSampleRate (sampleRateToFdfSfc rate) = rate.
Proof.
  intros Hnd Hr Hin. apply list_elem_of_lookup in Hin as [i Hi].
  destruct (lookup_lt_is_Some_2 sfc_list i) as [c Hc]; [exact (lookup_lt_Some sfc_rates i rate Hi)|].
  assert (Hs : sampleRateToFdfSfc rate = c).
  { apply (switch_zip sfc_rates sfc_list 0x07 i); [|done..].
    apply (bool_decide_eq_true_1 (NoDup sfc_rates)). vm_compute. reflexivity. }
  rewrite Hs. unfold fdfSfcToSampleRate.
  rewrite Forall_lookup in Hr. specialize (Hr i c Hc).
  rewrite land_0x7, Z.mod_small by lia.
  by apply (switch_zip sfc_list sfc_rates 0 i).
Qed.
End sfc.

(** ** Sampling frequency codes *)

Definition sampling_frequencies : list Z :=
  [eSF_22050Hz; eSF_24000Hz; eSF_32000Hz; eSF_44100Hz; eSF_48000Hz; eSF_88200Hz; eSF_96000Hz;
   eSF_176400Hz; eSF_192000Hz].

Lemma parseSampleRate_convert f :
  f ∈ sampling_frequencies -> parseSampleRate (convertESamplingFrequency f) = f.
Proof.
  intros H. assert (Hb : forallb (fun f => parseSampleRate (convertESamplingFrequency f) =? f) sampling_frequencies = true)
    by (vm_compute; reflexivity).
  rewrite forallb_forall in Hb. apply Z.eqb_eq, Hb. by apply list_elem_of_In.
Qed.

(** ** Property *)

(** the conversions between sample rates and codes are inverse to each
    other: [parseSampleRate] inverts [convertESamplingFrequency] on the nine
    concrete codes, and on the seven rates of the FDF field
    [fdfSfcToSampleRate] inverts [sampleRateToFdfSfc], whatever distinct
    three-bit codes libiec61883 defines. *)
Lemma sample_rate_codes_roundtrip (iec : fdf_sfc_codes) (f rate : Z) :
  f ∈ sampling_frequencies ->
  NoDup (sfc_list iec) -> Forall (fun c => 0 <= c < 8) (sfc_list iec) -> rate ∈ sfc_rates ->
  parseSampleRate (convertESamplingFrequency f) = f /\
  fdfSfcToSampleRate iec (sampleRateToFdfSfc iec rate) = rate.
Proof. intros. split; [by apply parseSampleRate_convert|by apply sfc_roundtrip]. Qed.

Lemma sample_rate_codes_roundtrip_witness :
  let iec := {| SFC_32KHZ := 0; SFC_44K1HZ := 1; SFC_48KHZ := 2; SFC_88K2HZ := 3; SFC_96KHZ := 4;
                SFC_176K4HZ := 5; SFC_192KHZ := 6 |} in
  parseSampleRate (convertESamplingFrequency eSF_88200Hz) = eSF_88200Hz /\
  fdfSfcToSampleRate iec (sampleRateToFdfSfc iec 44100) = 44100.
Proof.
  intros iec. apply (sample_rate_codes_roundtrip iec eSF_88200Hz 44100).
  - apply (bool_decide_eq_true_1 (eSF_88200Hz ∈ sampling_frequencies)). vm_compute. reflexivity.
  - apply (bool_decide_eq_true_1 (NoDup (sfc_list iec))). vm_compute. reflexivity.
  - repeat apply Forall_cons_2; [..|apply Forall_nil_2]; cbn; lia.
  - apply (bool_decide_eq_true_1 (44100 ∈ sfc_rates)). vm_compute. reflexivity.
Defined.
