(* ===== verification/StreamFormat.v ===== *)
(** * StreamFormat: libavc/streamformat/avc_extended_stream_format

    The extended stream format information of BeBoB devices: the format
    hierarchy, sync and compound streams, and the command that carries them.

    [StreamFormatInfo] has no initialiser for its two bytes: they are
    [option]s, and writing one that was never read is undefined. *)
From S2P Require Import Prelude Serialize BusData AvcDefinitions PlugAddress AvcCommand.

Definition eRC_Supported : Z := 0x00.
Definition eRC_DontCare : Z := 0x01.

(** [se.write( x )] for a variable that may not have been initialised *)
Definition write_local (x : option Z) : writer bool :=
  match x with Some v => write_byte v | None => w_undef end.

(** ** StreamFormatInfo *)

Record StreamFormatInfo := mkStreamFormatInfo {
  sfi_numberOfChannels : option Z;
  sfi_streamFormat : option Z }.

Definition StreamFormatInfo_new : StreamFormatInfo := mkStreamFormatInfo None None.

Definition StreamFormatInfo_serialize (o : StreamFormatInfo) : writer bool :=
  _ ← write_local (sfi_numberOfChannels o);
  _ ← write_local (sfi_streamFormat o);
  mret true.

Definition StreamFormatInfo_deserialize (o : StreamFormatInfo) : reader (bool * StreamFormatInfo) :=
  '(_, n) ← reread_local (sfi_numberOfChannels o);
  '(_, f) ← reread_local (sfi_streamFormat o);
  mret (true, mkStreamFormatInfo n f).

#[export] Instance StreamFormatInfo_IBusData : IBusData StreamFormatInfo := {
  bd_serialize := StreamFormatInfo_serialize;
  bd_deserialize := StreamFormatInfo_deserialize;
  bd_clone o := Some o }.

(** ** FormatInformationStreamsSync *)

Record FormatInformationStreamsSync := mkFormatInformationStreamsSync {
  fss_reserved0 : Z;
  fss_samplingFrequency : Z;
  fss_rateControl : Z;
  fss_reserved1 : Z }.

Definition FormatInformationStreamsSync_new : FormatInformationStreamsSync :=
  mkFormatInformationStreamsSync 0xff eSF_DontCare eRC_DontCare 0xff.

Definition FormatInformationStreamsSync_operand (o : FormatInformationStreamsSync) : Z :=
  let operand := u8 (Z.lor (Z.shiftl (fss_samplingFrequency o) 4) 0x0e) in
  if fss_rateControl o =? eRC_DontCare then Z.lor operand 0x1 else operand.

Definition FormatInformationStreamsSync_serialize (o : FormatInformationStreamsSync) : writer bool :=
  _ ← write_byte (fss_reserved0 o);
  _ ← write_byte (FormatInformationStreamsSync_operand o);
  _ ← write_byte (fss_reserved1 o);
  mret true.

Definition FormatInformationStreamsSync_deserialize (o : FormatInformationStreamsSync)
  : reader (bool * FormatInformationStreamsSync) :=
  '(_, reserved0) ← read_byte (fss_reserved0 o);
  '(_, operand) ← read_local;
  v ← used operand;
  '(_, reserved1) ← read_byte (fss_reserved1 o);
  mret (true, mkFormatInformationStreamsSync reserved0 (Z.shiftr v 4) (Z.land v 0x01) reserved1).

#[export] Instance FormatInformationStreamsSync_IBusData : IBusData FormatInformationStreamsSync := {
  bd_serialize := FormatInformationStreamsSync_serialize;
  bd_deserialize := FormatInformationStreamsSync_deserialize;
  bd_clone o := Some o }.

(** ** FormatInformationStreamsCompound *)

Record FormatInformationStreamsCompound := mkFormatInformationStreamsCompound {
  fsc_samplingFrequency : Z;
  fsc_rateControl : Z;
  fsc_numberOfStreamFormatInfos : Z;
  fsc_streamFormatInfos : list StreamFormatInfo }.

Definition FormatInformationStreamsCompound_new : FormatInformationStreamsCompound :=
  mkFormatInformationStreamsCompound eSF_DontCare eRC_DontCare 0 [].

Fixpoint FormatInformationStreamsCompound_write_infos (l : list StreamFormatInfo) : writer unit :=
  match l with
  | [] => mret tt
  | i :: l' => _ ← bd_serialize i; FormatInformationStreamsCompound_write_infos l'
  end.

Definition FormatInformationStreamsCompound_serialize (o : FormatInformationStreamsCompound) : writer bool :=
  _ ← write_byte (fsc_samplingFrequency o);
  _ ← write_byte (fsc_rateControl o);
  _ ← write_byte (fsc_numberOfStreamFormatInfos o);
  _ ← FormatInformationStreamsCompound_write_infos (fsc_streamFormatInfos o);
  mret true.

(** [n] is what is left of the loop; [l] is the vector so far *)
Fixpoint FormatInformationStreamsCompound_read_infos (n : nat) (l : list StreamFormatInfo)
  : reader (bool * list StreamFormatInfo) :=
  match n with
  | O => mret (true, l)
  | S n' =>
      '(b, i) ← bd_deserialize StreamFormatInfo_new;
      if negb b then mret (false, l)
      else FormatInformationStreamsCompound_read_infos n' (l ++ [i])
  end.

Definition FormatInformationStreamsCompound_deserialize (o : FormatInformationStreamsCompound)
  : reader (bool * FormatInformationStreamsCompound) :=
  '(_, sf) ← read_byte (fsc_samplingFrequency o);
  '(_, rc) ← read_byte (fsc_rateControl o);
  '(_, n) ← read_byte (fsc_numberOfStreamFormatInfos o);
  '(b, l) ← FormatInformationStreamsCompound_read_infos (Z.to_nat n) (fsc_streamFormatInfos o);
  mret (b, mkFormatInformationStreamsCompound sf rc n l).

(** [clone] copies the vector of pointers, so that the copy shares its
    elements; the values it shows are the same. *)
#[export] Instance FormatInformationStreamsCompound_IBusData : IBusData FormatInformationStreamsCompound := {
  bd_serialize := FormatInformationStreamsCompound_serialize;
  bd_deserialize := FormatInformationStreamsCompound_deserialize;
  bd_clone o := Some o }.

(** ** FormatInformation *)

Definition eFHR_AudioMusic : Z := 0x90.
Definition eFHR_Invalid : Z := 0xFF.
Definition eFHL1_AUDIOMUSIC_AM824 : Z := 0x00.
Definition eFHL1_AUDIOMUSIC_AM824_COMPOUND : Z := 0x40.
Definition eFHL1_AUDIOMUSIC_DONT_CARE : Z := 0xFF.
Definition eFHL2_AM824_SYNC_STREAM : Z := 0x40.
Definition eFHL2_AM824_DONT_CARE : Z := 0xFF.

(** the classes derived from [FormatInformationStreams] *)
Inductive FormatInformationStreams :=
| FIS_Sync (s : FormatInformationStreamsSync)
| FIS_Compound (s : FormatInformationStreamsCompound).

Definition FormatInformationStreams_serialize (o : FormatInformationStreams) : writer bool :=
  match o with FIS_Sync s => bd_serialize s | FIS_Compound s => bd_serialize s end.

Record FormatInformation := mkFormatInformation {
  fi_root : Z;
  fi_level1 : Z;
  fi_level2 : Z;
  fi_streams : option FormatInformationStreams }.

Definition FormatInformation_new : FormatInformation :=
  mkFormatInformation eFHR_Invalid eFHL1_AUDIOMUSIC_DONT_CARE eFHL2_AM824_DONT_CARE None.

Definition FormatInformation_serialize (o : FormatInformation) : writer bool :=
  _ ← (if negb (fi_root o =? eFHR_Invalid) then
         _ ← write_byte (fi_root o);
         if negb (fi_level1 o =? eFHL1_AUDIOMUSIC_DONT_CARE) then
           _ ← write_byte (fi_level1 o);
           if negb (fi_level2 o =? eFHL2_AM824_DONT_CARE) then
             _ ← write_byte (fi_level2 o); mret tt
           else mret tt
         else mret tt
       else mret tt);
  match fi_streams o with
  | Some s => FormatInformationStreams_serialize s
  | None => mret true
  end.

Definition FormatInformation_deserialize (o : FormatInformation) : reader (bool * FormatInformation) :=
  '(_, root) ← read_byte (fi_root o);
  if root =? eFHR_AudioMusic then
    '(_, level1) ← read_byte (fi_level1 o);
    if level1 =? eFHL1_AUDIOMUSIC_AM824 then
      '(_, level2) ← read_byte (fi_level2 o);
      if level2 =? eFHL2_AM824_SYNC_STREAM then
        '(result, s) ← bd_deserialize FormatInformationStreamsSync_new;
        mret (result, mkFormatInformation root level1 level2 (Some (FIS_Sync s)))
      else mret (false, mkFormatInformation root level1 level2 None)
    else if level1 =? eFHL1_AUDIOMUSIC_AM824_COMPOUND then
      '(result, s) ← bd_deserialize FormatInformationStreamsCompound_new;
      mret (result, mkFormatInformation root level1 (fi_level2 o) (Some (FIS_Compound s)))
    else mret (false, mkFormatInformation root level1 (fi_level2 o) None)
  else mret (false, mkFormatInformation root (fi_level1 o) (fi_level2 o) None).

#[export] Instance FormatInformation_IBusData : IBusData FormatInformation := {
  bd_serialize := FormatInformation_serialize;
  bd_deserialize := FormatInformation_deserialize;
  bd_clone o := Some o }.

(** ** ExtendedStreamFormatCmd *)

Definition AVC1394_STREAM_FORMAT_SUPPORT : Z := 0x2F.
Definition eSF_ExtendedStreamFormatInformationCommand : Z := 0xC0.
Definition eSF_ExtendedStreamFormatInformationCommandList : Z := 0xC1.
Definition eS_NotUsed : Z := 0xff.

Record ExtendedStreamFormatCmd := mkExtendedStreamFormatCmd {
  esf_base : AVCCommand;
  esf_subFunction : Z;
  esf_plugAddress : PlugAddress;
  esf_status : Z;
  esf_indexInStreamFormat : Z;
  esf_formatInformation : FormatInformation }.

Definition ExtendedStreamFormatCmd_new (eSubFunction : Z) : ExtendedStreamFormatCmd :=
  mkExtendedStreamFormatCmd (AVCCommand_new AVC1394_STREAM_FORMAT_SUPPORT) (u8 eSubFunction)
    (PlugAddress_new ePD_Output ePAM_Unit (PAD_Unit (UnitPlugAddress_new ePT_PCR 0x00)))
    eS_NotUsed 0 FormatInformation_new.

Definition ExtendedStreamFormatCmd_setPlugAddress (a : PlugAddress) (o : ExtendedStreamFormatCmd)
  : option ExtendedStreamFormatCmd :=
  a' ← bd_clone a;
  Some (mkExtendedStreamFormatCmd (esf_base o) (esf_subFunction o) a' (esf_status o)
    (esf_indexInStreamFormat o) (esf_formatInformation o)).

Definition ExtendedStreamFormatCmd_setIndexInStreamFormat (index : Z) (o : ExtendedStreamFormatCmd) : ExtendedStreamFormatCmd :=
  mkExtendedStreamFormatCmd (esf_base o) (esf_subFunction o) (esf_plugAddress o) (esf_status o)
    (u8 index) (esf_formatInformation o).

Definition ExtendedStreamFormatCmd_setSubFunction (subFunction : Z) (o : ExtendedStreamFormatCmd) : ExtendedStreamFormatCmd :=
  mkExtendedStreamFormatCmd (esf_base o) (u8 subFunction) (esf_plugAddress o) (esf_status o)
    (esf_indexInStreamFormat o) (esf_formatInformation o).

Definition ExtendedStreamFormatCmd_serialize (o : ExtendedStreamFormatCmd) : writer bool :=
  _ ← AVCCommand_serialize (esf_base o);
  _ ← write_byte (esf_subFunction o);
  _ ← bd_serialize (esf_plugAddress o);
  _ ← write_byte (esf_status o);
  _ ← (if esf_subFunction o =? eSF_ExtendedStreamFormatInformationCommandList
       then _ ← write_byte (esf_indexInStreamFormat o); mret tt
       else mret tt);
  _ ← bd_serialize (esf_formatInformation o);
  mret true.

Definition ExtendedStreamFormatCmd_deserialize (o : ExtendedStreamFormatCmd) : reader (bool * ExtendedStreamFormatCmd) :=
  '(_, base) ← AVCCommand_deserialize (esf_base o);
  '(_, sf) ← read_byte (esf_subFunction o);
  '(_, pa) ← bd_deserialize (esf_plugAddress o);
  '(_, st) ← read_byte (esf_status o);
  '(_, idx) ← (if sf =? eSF_ExtendedStreamFormatInformationCommandList
               then read_byte (esf_indexInStreamFormat o)
               else mret (false, esf_indexInStreamFormat o));
  '(_, fi) ← bd_deserialize (esf_formatInformation o);
  mret (true, mkExtendedStreamFormatCmd base sf pa st idx fi).

#[export] Instance ExtendedStreamFormatCmd_AVCCommandClass : AVCCommandClass ExtendedStreamFormatCmd := {
  cmd_base := esf_base;
  cmd_set_base b o := mkExtendedStreamFormatCmd b (esf_subFunction o) (esf_plugAddress o) (esf_status o)
    (esf_indexInStreamFormat o) (esf_formatInformation o);
  cmd_serialize o := with_object o (ExtendedStreamFormatCmd_serialize o);
  cmd_deserialize := ExtendedStreamFormatCmd_deserialize }.

(** ** Round trips *)

Definition sfi_wf (i : StreamFormatInfo) : Prop :=
  is_Some (sfi_numberOfChannels i) /\ is_Some (sfi_streamFormat i).

Definition sfi_bytes (i : StreamFormatInfo) : list Z :=
  [default 0 (sfi_numberOfChannels i); default 0 (sfi_streamFormat i)].

Lemma StreamFormatInfo_rt i0 i :
  sfi_wf i -> emit (bd_serialize i) = Some (true, sfi_bytes i) /\ reads (bd_deserialize i0) (sfi_bytes i) (true, i).
Proof. destruct i as [n f]; intros [[? [= ->]] [? [= ->]]]. split; [done|]. repeat reads_eval_step. Qed.

Lemma emit_write_infos l :
  Forall sfi_wf l -> emit (FormatInformationStreamsCompound_write_infos l) = Some (tt, concat (map sfi_bytes l)).
Proof.
  induction 1 as [|i l Hi Hl IH]; [done|]. cbn [FormatInformationStreamsCompound_write_infos map concat].
  eapply emit_bind_eq; [apply (StreamFormatInfo_rt i i Hi)|exact IH|done].
Qed.

Lemma reads_infos l : forall l0,
  Forall sfi_wf l ->
  reads (FormatInformationStreamsCompound_read_infos (length l) l0) (concat (map sfi_bytes l)) (true, l0 ++ l).
Proof.
  induction l as [|i l IH]; intros l0 Hwf; cbn [length map concat FormatInformationStreamsCompound_read_infos].
  - rewrite app_nil_r. apply reads_ret.
  - inversion_clear Hwf as [|? ? Hi Hl].
    eapply reads_bind; [by apply StreamFormatInfo_rt|]. cbv beta iota. cbn [negb].
    replace (l0 ++ i :: l) with ((l0 ++ [i]) ++ l) by (by rewrite <- (assoc_L (++))). by apply IH.
Qed.

Definition sync_wf (s : FormatInformationStreamsSync) : Prop :=
  0 <= fss_samplingFrequency s < 16 /\ (fss_rateControl s = eRC_Supported \/ fss_rateControl s = eRC_DontCare).

Lemma FormatInformationStreamsSync_rt s0 s : sync_wf s -> roundtrips s0 s.
Proof.
  intros [Hf Hr]. destruct s as [r0 f c r1]; cbn in Hf, Hr.
  eexists; split; [cbn; reflexivity|]. repeat reads_eval_step. apply reads_ret_eq.
  assert (Hf' : forall c, (c =? 0) || (c =? 1) = true ->
    let v := FormatInformationStreamsSync_operand (mkFormatInformationStreamsSync r0 f c r1) in
    Z.shiftr v 4 = f /\ Z.land v 1 = c).
  { set (chk c f := let v := FormatInformationStreamsSync_operand (mkFormatInformationStreamsSync 0 f c 0) in
      (Z.shiftr v 4 =? f) && (Z.land v 1 =? c)).
    assert (H : for_range 0 2 (fun c => for_range 0 16 (chk c)) = true) by (vm_compute; reflexivity).
    intros c' Hc'. assert (Hc2 : 0 <= c' < 0 + Z.of_nat 2)
      by (rewrite orb_true_iff, !Z.eqb_eq in Hc'; lia).
    pose proof (for_range_spec _ _ _ (for_range_spec _ _ _ H c' Hc2) f Hf) as Hchk.
    unfold chk in Hchk. cbv zeta in *. rewrite andb_true_iff, !Z.eqb_eq in Hchk. exact Hchk. }
  destruct (Hf' c) as [E1 E2]; [by destruct Hr as [-> | ->]|].
  unfold FormatInformationStreamsSync_operand in *. cbn [fss_samplingFrequency fss_rateControl] in *.
  cbv zeta in *. by rewrite E1, E2.
Qed.

Definition compound_wf (s : FormatInformationStreamsCompound) : Prop :=
  fsc_numberOfStreamFormatInfos s = Z.of_nat (length (fsc_streamFormatInfos s)) /\
  Forall sfi_wf (fsc_streamFormatInfos s).

Lemma FormatInformationStreamsCompound_rt s :
  compound_wf s -> roundtrips FormatInformationStreamsCompound_new s.
Proof.
  intros [Hn Hwf]. destruct s as [sf rc n l]; cbn [fsc_numberOfStreamFormatInfos fsc_streamFormatInfos] in *.
  exists ([sf; rc; n] ++ concat (map sfi_bytes l)). split.
  - do 3 (eapply (emit_bind_eq (write_byte _) _ [_]); [reflexivity| |reflexivity]).
    eapply emit_bind_eq; [by apply emit_write_infos|done|by rewrite app_nil_r].
  - change (bd_deserialize FormatInformationStreamsCompound_new)
      with (FormatInformationStreamsCompound_deserialize FormatInformationStreamsCompound_new).
    unfold FormatInformationStreamsCompound_deserialize. cbn [app]. do 3 reads_step.
    rewrite Hn, Nat2Z.id. eapply reads_bind_eq; [by apply reads_infos|by rewrite app_nil_r|].
    by apply reads_ret_eq.
Qed.

(** The formats the parser recognises.  [level2] is what the parsing object
    held before: a compound format keeps it. *)
Definition FormatInformation_wf (level2 : Z) (o : FormatInformation) : Prop :=
  fi_root o = eFHR_AudioMusic /\
  match fi_streams o with
  | Some (FIS_Sync s) => fi_level1 o = eFHL1_AUDIOMUSIC_AM824 /\ fi_level2 o = eFHL2_AM824_SYNC_STREAM /\ sync_wf s
  | Some (FIS_Compound s) =>
      fi_level1 o = eFHL1_AUDIOMUSIC_AM824_COMPOUND /\ fi_level2 o = eFHL2_AM824_DONT_CARE /\
      level2 = eFHL2_AM824_DONT_CARE /\ compound_wf s
  | None => False
  end.

Lemma FormatInformation_rt o0 o : FormatInformation_wf (fi_level2 o0) o -> roundtrips o0 o.
Proof.
  intros [Hr H]. destruct o as [r l1 l2 st]; cbn [fi_root fi_level1 fi_level2 fi_streams] in *. subst r.
  destruct st as [[s|s]|]; [| |done].
  - destruct H as (-> & -> & Hs).
    destruct (FormatInformationStreamsSync_rt FormatInformationStreamsSync_new s Hs) as (bs & He & Hb).
    exists ([eFHR_AudioMusic; eFHL1_AUDIOMUSIC_AM824; eFHL2_AM824_SYNC_STREAM] ++ bs). split.
    + eapply (emit_bind_eq _ _ [_; _; _]); [reflexivity|exact He|done].
    + cbn [app]. apply reads_read_byte. cbv beta iota. cbn [Z.eqb Pos.eqb eFHR_AudioMusic].
      apply reads_read_byte. cbv beta iota. cbn [Z.eqb eFHL1_AUDIOMUSIC_AM824].
      apply reads_read_byte. cbv beta iota. cbn [Z.eqb Pos.eqb eFHL2_AM824_SYNC_STREAM].
      eapply reads_bind_eq; [exact Hb|by rewrite app_nil_r|apply reads_ret].
  - destruct H as (-> & -> & Hl & Hs).
    destruct (FormatInformationStreamsCompound_rt s Hs) as (bs & He & Hb).
    exists ([eFHR_AudioMusic; eFHL1_AUDIOMUSIC_AM824_COMPOUND] ++ bs). split.
    + eapply (emit_bind_eq _ _ [_; _]); [reflexivity|exact He|done].
    + cbn [app]. apply reads_read_byte. cbv beta iota. cbn [Z.eqb Pos.eqb eFHR_AudioMusic].
      apply reads_read_byte. cbv beta iota.
      cbn [Z.eqb Pos.eqb eFHL1_AUDIOMUSIC_AM824 eFHL1_AUDIOMUSIC_AM824_COMPOUND].
      eapply reads_bind_eq; [exact Hb|by rewrite app_nil_r|]. rewrite Hl. apply reads_ret.
Qed.

Lemma ExtendedStreamFormatCmd_rt (o0 o : ExtendedStreamFormatCmd) :
  ctype_named (esf_base o) ->
  same_class (pa_plugAddressData (esf_plugAddress o0)) (pa_plugAddressData (esf_plugAddress o)) ->
  FormatInformation_wf (fi_level2 (esf_formatInformation o0)) (esf_formatInformation o) ->
  (esf_subFunction o = eSF_ExtendedStreamFormatInformationCommandList \/
   esf_indexInStreamFormat o = esf_indexInStreamFormat o0) ->
  cmd_roundtrips o0 o.
Proof.
  intros Hb Hp Hf Hi.
  destruct (PlugAddress_roundtrip_same _ _ Hp) as (pbs & Hpe & Hpr).
  destruct (FormatInformation_rt _ _ Hf) as (fbs & Hfe & Hfr).
  destruct o as [b sf pa st idx fi]; cbn [esf_base esf_subFunction esf_plugAddress esf_status
    esf_indexInStreamFormat esf_formatInformation] in *.
  set (islist := sf =? eSF_ExtendedStreamFormatInformationCommandList) in *.
  exists (AVCCommand_header b ++ [sf] ++ pbs ++ [st] ++ (if islist then [idx] else []) ++ fbs). split.
  - apply emit_with_object, emit_header; [exact Hb|].
    eapply emit_bind_eq; [reflexivity| |reflexivity]. eapply emit_bind_eq; [exact Hpe| |reflexivity].
    eapply emit_bind_eq; [reflexivity| |reflexivity].
    eapply (emit_bind_eq _ _ (if islist then [idx] else [])); [| |reflexivity].
    { cbn [esf_subFunction]. fold islist. by destruct islist. }
    eapply emit_bind_eq; [exact Hfe|reflexivity|by rewrite app_nil_r].
  - apply reads_header_of. cbv beta iota. cbn [app]. apply reads_read_byte. cbv beta iota.
    eapply reads_bind; [exact Hpr|]. cbv beta iota. apply reads_read_byte. cbv beta iota.
    fold islist. apply (reads_bind _ _ (if islist then [idx] else []) fbs (islist, idx)).
    + destruct (Z.eqb_spec sf eSF_ExtendedStreamFormatInformationCommandList) as [E|E]; subst islist.
      * apply reads_r_byte, reads_ret.
      * destruct Hi as [Hi|Hi]; [done|]. rewrite Hi. apply reads_ret.
    + cbv beta iota. eapply reads_bind_eq; [exact Hfr|by rewrite app_nil_r|apply reads_ret].
Qed.

(** ** Property *)

(** The extended stream format command (single and list sub-functions)
    carries the plug address, the status, the index of the list form, and the
    format with all its stream entries. *)
Lemma ExtendedStreamFormatCmd_roundtrip (o0 o : ExtendedStreamFormatCmd) :
  ctype_named (esf_base o) ->
  same_class (pa_plugAddressData (esf_plugAddress o0)) (pa_plugAddressData (esf_plugAddress o)) ->
  FormatInformation_wf (fi_level2 (esf_formatInformation o0)) (esf_formatInformation o) ->
  (esf_subFunction o = eSF_ExtendedStreamFormatInformationCommandList \/
   esf_indexInStreamFormat o = esf_indexInStreamFormat o0) ->
  cmd_roundtrips o0 o.
Proof. apply ExtendedStreamFormatCmd_rt. Qed.

(** A compound format with two stream entries at 48 kHz. *)
Definition compound_format : FormatInformation :=
  mkFormatInformation eFHR_AudioMusic eFHL1_AUDIOMUSIC_AM824_COMPOUND eFHL2_AM824_DONT_CARE
    (Some (FIS_Compound (mkFormatInformationStreamsCompound eSF_48000Hz eRC_Supported 2
      [mkStreamFormatInfo (Some 8) (Some 0x06); mkStreamFormatInfo (Some 1) (Some 0x0D)]))).

Lemma ExtendedStreamFormatCmd_roundtrip_witness :
  let o0 := ExtendedStreamFormatCmd_new eSF_ExtendedStreamFormatInformationCommandList in
  let base := AVCCommand_with_header eR_Implemented 0xff AVC1394_STREAM_FORMAT_SUPPORT (esf_base o0) in
  cmd_roundtrips o0
    (mkExtendedStreamFormatCmd base eSF_ExtendedStreamFormatInformationCommandList
       (esf_plugAddress o0) 0 3 compound_format).
Proof.
  intros o0 base. apply (ExtendedStreamFormatCmd_roundtrip o0).
  - eexists. vm_compute. reflexivity.
  - vm_compute. exact I.
  - do 4 (split; [reflexivity|]). split; [reflexivity|].
    repeat apply Forall_cons_2; [..|apply Forall_nil_2]; split; eexists; reflexivity.
  - left. reflexivity.
Defined.
