(* ===== verification/ExtPlugInfo.v ===== *)
(** * ExtPlugInfo: libavc/general/avc_extended_plug_info

    The extended plug information of BeBoB devices: eight kinds of specific
    data, the info type that owns one of them, and the command.

    A [std::string] is the list of its bytes.  Struct members without an
    initialiser are [option]s. *)
From stdpp Require Import strings.
From S2P Require Import Prelude Serialize BusData PlugAddress AvcCommand AvcCommands StreamFormat.

(** ** C strings *)

(** the bytes before the first NUL: [std::string s = p] for an array that
    holds one *)
Fixpoint c_str (l : list Z) : list Z :=
  match l with
  | [] => []
  | c :: l' => if c =? 0 then [] else c :: c_str l'
  end.

Fixpoint write_string (l : list Z) : writer unit :=
  match l with
  | [] => mret tt
  | c :: l' => _ ← write_byte c; write_string l'
  end.

(** [byte_t c; de.read( &c ); if ( c == '&' ) c = '+'; name[i] = c;] *)
Fixpoint read_string (n : nat) : reader (list Z) :=
  match n with
  | O => mret []
  | S n' =>
      '(_, c) ← read_local;
      v ← used c;
      l ← read_string n';
      mret ((if v =? 38 then 43 else v) :: l)
  end.

(** ** Plug type *)

Record ExtendedPlugInfoPlugTypeSpecificData := mkExtendedPlugInfoPlugTypeSpecificData {
  ept_plugType : Z }.

Definition eEPIPT_Unknown : Z := 0xff.

Definition ExtendedPlugInfoPlugTypeSpecificData_new : ExtendedPlugInfoPlugTypeSpecificData :=
  mkExtendedPlugInfoPlugTypeSpecificData eEPIPT_Unknown.

Definition ExtendedPlugInfoPlugTypeSpecificData_serialize (o : ExtendedPlugInfoPlugTypeSpecificData) : writer bool :=
  _ ← write_byte (ept_plugType o); mret true.

Definition ExtendedPlugInfoPlugTypeSpecificData_deserialize (o : ExtendedPlugInfoPlugTypeSpecificData)
  : reader (bool * ExtendedPlugInfoPlugTypeSpecificData) :=
  '(_, t) ← read_byte (ept_plugType o);
  mret (true, mkExtendedPlugInfoPlugTypeSpecificData t).

#[export] Instance ExtendedPlugInfoPlugTypeSpecificData_IBusData : IBusData ExtendedPlugInfoPlugTypeSpecificData := {
  bd_serialize := ExtendedPlugInfoPlugTypeSpecificData_serialize;
  bd_deserialize := ExtendedPlugInfoPlugTypeSpecificData_deserialize;
  bd_clone o := Some o }.

Definition extendedPlugInfoPlugTypeStrings : list string :=
  ["IsoStream"; "AsyncStream"; "Midi"; "Sync"; "Analog"; "Digital"; "Unknown"]%string.

(** compares with the size of the array in bytes (pointers of eight bytes);
    [None] is an access outside the array *)
Definition extendedPlugInfoPlugTypeToString (plugType : Z) : option string :=
  if 8 * Z.of_nat (length extendedPlugInfoPlugTypeStrings) <? plugType then Some "Unknown"%string
  else extendedPlugInfoPlugTypeStrings !! Z.to_nat plugType.

(** ** Plug name *)

Record ExtendedPlugInfoPlugNameSpecificData := mkExtendedPlugInfoPlugNameSpecificData {
  epn_name : list Z }.

Definition ExtendedPlugInfoPlugNameSpecificData_new : ExtendedPlugInfoPlugNameSpecificData :=
  mkExtendedPlugInfoPlugNameSpecificData [].

Definition ExtendedPlugInfoPlugNameSpecificData_serialize (o : ExtendedPlugInfoPlugNameSpecificData) : writer bool :=
  let len := u8 (Z.of_nat (length (c_str (epn_name o)))) in
  _ ← write_byte len;
  _ ← write_string (take (Z.to_nat len) (epn_name o));
  mret true.

(** the status of the second read is not tested *)
Definition ExtendedPlugInfoPlugNameSpecificData_deserialize (o : ExtendedPlugInfoPlugNameSpecificData)
  : reader (bool * ExtendedPlugInfoPlugNameSpecificData) :=
  '(_, len) ← read_local;
  n ← used len;
  '(_, name) ← r_chars n r_ret;
  p ← used name;
  s ← r_cstring p r_ret;
  mret (true, mkExtendedPlugInfoPlugNameSpecificData s).

#[export] Instance ExtendedPlugInfoPlugNameSpecificData_IBusData : IBusData ExtendedPlugInfoPlugNameSpecificData := {
  bd_serialize := ExtendedPlugInfoPlugNameSpecificData_serialize;
  bd_deserialize := ExtendedPlugInfoPlugNameSpecificData_deserialize;
  bd_clone o := Some o }.

(** ** Number of channels *)

Record ExtendedPlugInfoPlugNumberOfChannelsSpecificData := mkExtendedPlugInfoPlugNumberOfChannelsSpecificData {
  epc_nrOfChannels : Z }.

Definition ExtendedPlugInfoPlugNumberOfChannelsSpecificData_new : ExtendedPlugInfoPlugNumberOfChannelsSpecificData :=
  mkExtendedPlugInfoPlugNumberOfChannelsSpecificData 0.

Definition ExtendedPlugInfoPlugNumberOfChannelsSpecificData_serialize
  (o : ExtendedPlugInfoPlugNumberOfChannelsSpecificData) : writer bool :=
  _ ← write_byte (epc_nrOfChannels o); mret true.

Definition ExtendedPlugInfoPlugNumberOfChannelsSpecificData_deserialize
  (o : ExtendedPlugInfoPlugNumberOfChannelsSpecificData)
  : reader (bool * ExtendedPlugInfoPlugNumberOfChannelsSpecificData) :=
  '(_, n) ← read_byte (epc_nrOfChannels o);
  mret (true, mkExtendedPlugInfoPlugNumberOfChannelsSpecificData n).

#[export] Instance ExtendedPlugInfoPlugNumberOfChannelsSpecificData_IBusData
  : IBusData ExtendedPlugInfoPlugNumberOfChannelsSpecificData := {
  bd_serialize := ExtendedPlugInfoPlugNumberOfChannelsSpecificData_serialize;
  bd_deserialize := ExtendedPlugInfoPlugNumberOfChannelsSpecificData_deserialize;
  bd_clone o := Some o }.

(** ** Channel positions *)

Record ChannelInfo := mkChannelInfo { ci_streamPosition : option Z; ci_location : option Z }.

Record ClusterInfo := mkClusterInfo { cl_nrOfChannels : Z; cl_channelInfos : list ChannelInfo }.

Record ExtendedPlugInfoPlugChannelPositionSpecificData := mkExtendedPlugInfoPlugChannelPositionSpecificData {
  ecp_nrOfClusters : Z;
  ecp_clusterInfos : list ClusterInfo }.

Definition ExtendedPlugInfoPlugChannelPositionSpecificData_new : ExtendedPlugInfoPlugChannelPositionSpecificData :=
  mkExtendedPlugInfoPlugChannelPositionSpecificData 0 [].

Fixpoint ChannelPosition_write_channels (l : list ChannelInfo) : writer unit :=
  match l with
  | [] => mret tt
  | i :: l' =>
      _ ← write_local (ci_streamPosition i);
      _ ← write_local (ci_location i);
      ChannelPosition_write_channels l'
  end.

Fixpoint ChannelPosition_write_clusters (l : list ClusterInfo) : writer unit :=
  match l with
  | [] => mret tt
  | c :: l' =>
      _ ← write_byte (cl_nrOfChannels c);
      _ ← ChannelPosition_write_channels (cl_channelInfos c);
      ChannelPosition_write_clusters l'
  end.

Definition ExtendedPlugInfoPlugChannelPositionSpecificData_serialize
  (o : ExtendedPlugInfoPlugChannelPositionSpecificData) : writer bool :=
  _ ← write_byte (ecp_nrOfClusters o);
  _ ← ChannelPosition_write_clusters (ecp_clusterInfos o);
  mret true.

Fixpoint ChannelPosition_read_channels (n : nat) : reader (list ChannelInfo) :=
  match n with
  | O => mret []
  | S n' =>
      '(_, p) ← read_local;
      '(_, loc) ← read_local;
      l ← ChannelPosition_read_channels n';
      mret (mkChannelInfo p loc :: l)
  end.

Fixpoint ChannelPosition_read_clusters (n : nat) : reader (list ClusterInfo) :=
  match n with
  | O => mret []
  | S n' =>
      '(_, nr) ← read_local;
      v ← used nr;
      chs ← ChannelPosition_read_channels (Z.to_nat v);
      l ← ChannelPosition_read_clusters n';
      mret (mkClusterInfo v chs :: l)
  end.

Definition ExtendedPlugInfoPlugChannelPositionSpecificData_deserialize
  (o : ExtendedPlugInfoPlugChannelPositionSpecificData)
  : reader (bool * ExtendedPlugInfoPlugChannelPositionSpecificData) :=
  '(_, n) ← read_byte (ecp_nrOfClusters o);
  l ← ChannelPosition_read_clusters (Z.to_nat n);
  mret (true, mkExtendedPlugInfoPlugChannelPositionSpecificData n l).

#[export] Instance ExtendedPlugInfoPlugChannelPositionSpecificData_IBusData
  : IBusData ExtendedPlugInfoPlugChannelPositionSpecificData := {
  bd_serialize := ExtendedPlugInfoPlugChannelPositionSpecificData_serialize;
  bd_deserialize := ExtendedPlugInfoPlugChannelPositionSpecificData_deserialize;
  bd_clone o := Some o }.

(** ** Channel name *)

Record ExtendedPlugInfoPlugChannelNameSpecificData := mkExtendedPlugInfoPlugChannelNameSpecificData {
  ecn_streamPosition : Z;
  ecn_stringLength : Z;
  ecn_plugChannelName : list Z }.

Definition ExtendedPlugInfoPlugChannelNameSpecificData_new : ExtendedPlugInfoPlugChannelNameSpecificData :=
  mkExtendedPlugInfoPlugChannelNameSpecificData 0 0xff [].

Definition ExtendedPlugInfoPlugChannelNameSpecificData_serialize
  (o : ExtendedPlugInfoPlugChannelNameSpecificData) : writer bool :=
  _ ← write_byte (ecn_streamPosition o);
  _ ← write_byte (ecn_stringLength o);
  _ ← write_string (ecn_plugChannelName o);
  mret true.

Definition ExtendedPlugInfoPlugChannelNameSpecificData_deserialize
  (o : ExtendedPlugInfoPlugChannelNameSpecificData)
  : reader (bool * ExtendedPlugInfoPlugChannelNameSpecificData) :=
  '(_, p) ← read_byte (ecn_streamPosition o);
  '(_, n) ← read_byte (ecn_stringLength o);
  name ← read_string (Z.to_nat n);
  mret (true, mkExtendedPlugInfoPlugChannelNameSpecificData p n (c_str name)).

#[export] Instance ExtendedPlugInfoPlugChannelNameSpecificData_IBusData
  : IBusData ExtendedPlugInfoPlugChannelNameSpecificData := {
  bd_serialize := ExtendedPlugInfoPlugChannelNameSpecificData_serialize;
  bd_deserialize := ExtendedPlugInfoPlugChannelNameSpecificData_deserialize;
  bd_clone o := Some o }.

(** ** Plug input and output *)

(** the address both start from *)
Definition PlugAddressSpecificData_default : PlugAddressSpecificData :=
  PlugAddressSpecificData_new ePD_Output ePAM_Unit
    (PSD_Unit (UnitPlugSpecificDataPlugAddress_new ePT_PCR 0x00)).

Record ExtendedPlugInfoPlugInputSpecificData := mkExtendedPlugInfoPlugInputSpecificData {
  epi_plugAddress : PlugAddressSpecificData }.

Definition ExtendedPlugInfoPlugInputSpecificData_new : ExtendedPlugInfoPlugInputSpecificData :=
  mkExtendedPlugInfoPlugInputSpecificData PlugAddressSpecificData_default.

Definition ExtendedPlugInfoPlugInputSpecificData_serialize
  (o : ExtendedPlugInfoPlugInputSpecificData) : writer bool := bd_serialize (epi_plugAddress o).

Definition ExtendedPlugInfoPlugInputSpecificData_deserialize
  (o : ExtendedPlugInfoPlugInputSpecificData) : reader (bool * ExtendedPlugInfoPlugInputSpecificData) :=
  '(b, a) ← bd_deserialize (epi_plugAddress o);
  mret (b, mkExtendedPlugInfoPlugInputSpecificData a).

#[export] Instance ExtendedPlugInfoPlugInputSpecificData_IBusData : IBusData ExtendedPlugInfoPlugInputSpecificData := {
  bd_serialize := ExtendedPlugInfoPlugInputSpecificData_serialize;
  bd_deserialize := ExtendedPlugInfoPlugInputSpecificData_deserialize;
  bd_clone o := Some o }.

Record ExtendedPlugInfoPlugOutputSpecificData := mkExtendedPlugInfoPlugOutputSpecificData {
  epo_nrOfOutputPlugs : Z;
  epo_outputPlugAddresses : list PlugAddressSpecificData }.

Definition ExtendedPlugInfoPlugOutputSpecificData_new : ExtendedPlugInfoPlugOutputSpecificData :=
  mkExtendedPlugInfoPlugOutputSpecificData 0 [].

Fixpoint PlugOutput_write_addresses (l : list PlugAddressSpecificData) : writer unit :=
  match l with
  | [] => mret tt
  | a :: l' => _ ← bd_serialize a; PlugOutput_write_addresses l'
  end.

Definition ExtendedPlugInfoPlugOutputSpecificData_serialize
  (o : ExtendedPlugInfoPlugOutputSpecificData) : writer bool :=
  _ ← write_byte (epo_nrOfOutputPlugs o);
  _ ← PlugOutput_write_addresses (epo_outputPlugAddresses o);
  mret true.

Fixpoint PlugOutput_read_addresses (n : nat) (l : list PlugAddressSpecificData)
  : reader (bool * list PlugAddressSpecificData) :=
  match n with
  | O => mret (true, l)
  | S n' =>
      '(b, a) ← bd_deserialize PlugAddressSpecificData_default;
      if negb b then mret (false, l)
      else PlugOutput_read_addresses n' (l ++ [a])
  end.

(** the addresses are appended to the ones the object has *)
Definition ExtendedPlugInfoPlugOutputSpecificData_deserialize
  (o : ExtendedPlugInfoPlugOutputSpecificData) : reader (bool * ExtendedPlugInfoPlugOutputSpecificData) :=
  '(_, n) ← read_byte (epo_nrOfOutputPlugs o);
  '(b, l) ← PlugOutput_read_addresses (Z.to_nat n) (epo_outputPlugAddresses o);
  mret (b, mkExtendedPlugInfoPlugOutputSpecificData n l).

#[export] Instance ExtendedPlugInfoPlugOutputSpecificData_IBusData : IBusData ExtendedPlugInfoPlugOutputSpecificData := {
  bd_serialize := ExtendedPlugInfoPlugOutputSpecificData_serialize;
  bd_deserialize := ExtendedPlugInfoPlugOutputSpecificData_deserialize;
  bd_clone o := Some o }.

(** ** Cluster info *)

Definition ePT_NoType : Z := 0xff.

Record ExtendedPlugInfoClusterInfoSpecificData := mkExtendedPlugInfoClusterInfoSpecificData {
  eci_clusterIndex : Z;
  eci_portType : Z;
  eci_stringLength : Z;
  eci_clusterName : list Z }.

Definition ExtendedPlugInfoClusterInfoSpecificData_new : ExtendedPlugInfoClusterInfoSpecificData :=
  mkExtendedPlugInfoClusterInfoSpecificData 0 ePT_NoType 0xff [].

Definition ExtendedPlugInfoClusterInfoSpecificData_serialize
  (o : ExtendedPlugInfoClusterInfoSpecificData) : writer bool :=
  _ ← write_byte (eci_clusterIndex o);
  _ ← write_byte (eci_portType o);
  _ ← write_byte (eci_stringLength o);
  _ ← write_string (eci_clusterName o);
  mret true.

Definition ExtendedPlugInfoClusterInfoSpecificData_deserialize
  (o : ExtendedPlugInfoClusterInfoSpecificData) : reader (bool * ExtendedPlugInfoClusterInfoSpecificData) :=
  '(_, i) ← read_byte (eci_clusterIndex o);
  '(_, t) ← read_byte (eci_portType o);
  '(_, n) ← read_byte (eci_stringLength o);
  name ← read_string (Z.to_nat n);
  mret (true, mkExtendedPlugInfoClusterInfoSpecificData i t n (c_str name)).

#[export] Instance ExtendedPlugInfoClusterInfoSpecificData_IBusData : IBusData ExtendedPlugInfoClusterInfoSpecificData := {
  bd_serialize := ExtendedPlugInfoClusterInfoSpecificData_serialize;
  bd_deserialize := ExtendedPlugInfoClusterInfoSpecificData_deserialize;
  bd_clone o := Some o }.

Definition extendedPlugInfoPortTypeStrings : list string :=
  ["Speaker"; "Headphone"; "Microphone"; "Line"; "SPDIF"; "ADAT"; "TDIF"; "MADI"; "Analog"; "Digital"; "MIDI"]%string.

Definition extendedPlugInfoClusterInfoPortTypeToString (portType : Z) : option string :=
  if Z.of_nat (length extendedPlugInfoPortTypeStrings) <? portType then Some "Unknown"%string
  else extendedPlugInfoPortTypeStrings !! Z.to_nat portType.

(** ** ExtendedPlugInfoInfoType *)

Definition eIT_PlugType : Z := 0x00.
Definition eIT_PlugName : Z := 0x01.
Definition eIT_NoOfChannels : Z := 0x02.
Definition eIT_ChannelPosition : Z := 0x03.
Definition eIT_ChannelName : Z := 0x04.
Definition eIT_PlugInput : Z := 0x05.
Definition eIT_PlugOutput : Z := 0x06.
Definition eIT_ClusterInfo : Z := 0x07.

(** the pointers are 0 or own their object *)
Record ExtendedPlugInfoInfoType := mkExtendedPlugInfoInfoType {
  iit_infoType : Z;
  iit_plugType : option ExtendedPlugInfoPlugTypeSpecificData;
  iit_plugName : option ExtendedPlugInfoPlugNameSpecificData;
  iit_plugNrOfChns : option ExtendedPlugInfoPlugNumberOfChannelsSpecificData;
  iit_plugChannelPosition : option ExtendedPlugInfoPlugChannelPositionSpecificData;
  iit_plugChannelName : option ExtendedPlugInfoPlugChannelNameSpecificData;
  iit_plugInput : option ExtendedPlugInfoPlugInputSpecificData;
  iit_plugOutput : option ExtendedPlugInfoPlugOutputSpecificData;
  iit_plugClusterInfo : option ExtendedPlugInfoClusterInfoSpecificData }.

Definition ExtendedPlugInfoInfoType_new (eInfoType : Z) : ExtendedPlugInfoInfoType :=
  mkExtendedPlugInfoInfoType (u8 eInfoType) None None None None None None None None.

(** the member that an info type selects, and the assignment to it *)
Inductive SpecificData :=
| SD_PlugType (d : ExtendedPlugInfoPlugTypeSpecificData)
| SD_PlugName (d : ExtendedPlugInfoPlugNameSpecificData)
| SD_NoOfChannels (d : ExtendedPlugInfoPlugNumberOfChannelsSpecificData)
| SD_ChannelPosition (d : ExtendedPlugInfoPlugChannelPositionSpecificData)
| SD_ChannelName (d : ExtendedPlugInfoPlugChannelNameSpecificData)
| SD_PlugInput (d : ExtendedPlugInfoPlugInputSpecificData)
| SD_PlugOutput (d : ExtendedPlugInfoPlugOutputSpecificData)
| SD_ClusterInfo (d : ExtendedPlugInfoClusterInfoSpecificData).

(** [m_x = d;] with the old [m_infoType] *)
Definition iit_put (d : SpecificData) (o : ExtendedPlugInfoInfoType) : ExtendedPlugInfoInfoType :=
  let '(mkExtendedPlugInfoInfoType it pt pn pc pp cn pi po ci) := o in
  match d with
  | SD_PlugType d => mkExtendedPlugInfoInfoType it (Some d) pn pc pp cn pi po ci
  | SD_PlugName d => mkExtendedPlugInfoInfoType it pt (Some d) pc pp cn pi po ci
  | SD_NoOfChannels d => mkExtendedPlugInfoInfoType it pt pn (Some d) pp cn pi po ci
  | SD_ChannelPosition d => mkExtendedPlugInfoInfoType it pt pn pc (Some d) cn pi po ci
  | SD_ChannelName d => mkExtendedPlugInfoInfoType it pt pn pc pp (Some d) pi po ci
  | SD_PlugInput d => mkExtendedPlugInfoInfoType it pt pn pc pp cn (Some d) po ci
  | SD_PlugOutput d => mkExtendedPlugInfoInfoType it pt pn pc pp cn pi (Some d) ci
  | SD_ClusterInfo d => mkExtendedPlugInfoInfoType it pt pn pc pp cn pi po (Some d)
  end.

Definition iit_with_infoType (it : Z) (o : ExtendedPlugInfoInfoType) : ExtendedPlugInfoInfoType :=
  mkExtendedPlugInfoInfoType it (iit_plugType o) (iit_plugName o) (iit_plugNrOfChns o)
    (iit_plugChannelPosition o) (iit_plugChannelName o) (iit_plugInput o) (iit_plugOutput o)
    (iit_plugClusterInfo o).

(** The copy constructor dereferences the selected pointer of [rhs]. *)
Definition ExtendedPlugInfoInfoType_copy (rhs : ExtendedPlugInfoInfoType) : option ExtendedPlugInfoInfoType :=
  let o := ExtendedPlugInfoInfoType_new (iit_infoType rhs) in
  let it := iit_infoType rhs in
  if it =? eIT_PlugType then d ← iit_plugType rhs; Some (iit_put (SD_PlugType d) o)
  else if it =? eIT_PlugName then d ← iit_plugName rhs; Some (iit_put (SD_PlugName d) o)
  else if it =? eIT_NoOfChannels then d ← iit_plugNrOfChns rhs; Some (iit_put (SD_NoOfChannels d) o)
  else if it =? eIT_ChannelPosition then d ← iit_plugChannelPosition rhs; Some (iit_put (SD_ChannelPosition d) o)
  else if it =? eIT_ChannelName then d ← iit_plugChannelName rhs; Some (iit_put (SD_ChannelName d) o)
  else if it =? eIT_PlugInput then d ← iit_plugInput rhs; Some (iit_put (SD_PlugInput d) o)
  else if it =? eIT_PlugOutput then d ← iit_plugOutput rhs; Some (iit_put (SD_PlugOutput d) o)
  else if it =? eIT_ClusterInfo then d ← iit_plugClusterInfo rhs; Some (iit_put (SD_ClusterInfo d) o)
  else Some o.

(** a new specific datum for an info type *)
Definition SpecificData_new (it : Z) : option SpecificData :=
  if it =? eIT_PlugType then Some (SD_PlugType ExtendedPlugInfoPlugTypeSpecificData_new)
  else if it =? eIT_PlugName then Some (SD_PlugName ExtendedPlugInfoPlugNameSpecificData_new)
  else if it =? eIT_NoOfChannels then Some (SD_NoOfChannels ExtendedPlugInfoPlugNumberOfChannelsSpecificData_new)
  else if it =? eIT_ChannelPosition then Some (SD_ChannelPosition ExtendedPlugInfoPlugChannelPositionSpecificData_new)
  else if it =? eIT_ChannelName then Some (SD_ChannelName ExtendedPlugInfoPlugChannelNameSpecificData_new)
  else if it =? eIT_PlugInput then Some (SD_PlugInput ExtendedPlugInfoPlugInputSpecificData_new)
  else if it =? eIT_PlugOutput then Some (SD_PlugOutput ExtendedPlugInfoPlugOutputSpecificData_new)
  else if it =? eIT_ClusterInfo then Some (SD_ClusterInfo ExtendedPlugInfoClusterInfoSpecificData_new)
  else None.

Definition ExtendedPlugInfoInfoType_initialize (o : ExtendedPlugInfoInfoType) : bool * ExtendedPlugInfoInfoType :=
  match SpecificData_new (iit_infoType o) with
  | Some d => (true, iit_put d o)
  | None => (false, o)
  end.

Definition ExtendedPlugInfoInfoType_clone (o : ExtendedPlugInfoInfoType) : option ExtendedPlugInfoInfoType :=
  c ← ExtendedPlugInfoInfoType_copy o;
  Some (snd (ExtendedPlugInfoInfoType_initialize c)).

Definition extendedPlugInfoInfoTypeStrings : list string :=
  ["PlugType"; "PlugName"; "NoOfChannels"; "ChannelPosition"; "ChannelName"; "PlugInput"; "PlugOutput"; "ClusterInfo"]%string.

Definition extendedPlugInfoInfoTypeToString (infoType : Z) : option string :=
  if Z.of_nat (length extendedPlugInfoInfoTypeStrings) <? infoType then Some "Unknown"%string
  else extendedPlugInfoInfoTypeStrings !! Z.to_nat infoType.

(** [if ( m_x ) { m_x->serialize( se ); }] *)
Definition serialize_if {T} `{IBusData T} (o : option T) : writer bool :=
  match o with
  | Some d => _ ← bd_serialize d; mret true
  | None => mret true
  end.

Definition ExtendedPlugInfoInfoType_serialize (o : ExtendedPlugInfoInfoType) : writer bool :=
  let it := iit_infoType o in
  match extendedPlugInfoInfoTypeToString it with
  | None => w_undef
  | Some _ =>
      _ ← write_byte it;
      if it =? eIT_PlugType then serialize_if (iit_plugType o)
      else if it =? eIT_PlugName then serialize_if (iit_plugName o)
      else if it =? eIT_NoOfChannels then serialize_if (iit_plugNrOfChns o)
      else if it =? eIT_ChannelPosition then serialize_if (iit_plugChannelPosition o)
      else if it =? eIT_ChannelName then serialize_if (iit_plugChannelName o)
      else if it =? eIT_PlugInput then serialize_if (iit_plugInput o)
      else if it =? eIT_PlugOutput then serialize_if (iit_plugOutput o)
      else if it =? eIT_ClusterInfo then serialize_if (iit_plugClusterInfo o)
      else mret false
  end.

(** [if ( !m_x ) { m_x = new X; } status = m_x->deserialize( de );] *)
Definition deserialize_or_new {T} `{IBusData T} (new : T) (o : option T) : reader (bool * T) :=
  bd_deserialize (default new o).

Definition ExtendedPlugInfoInfoType_deserialize (o : ExtendedPlugInfoInfoType)
  : reader (bool * ExtendedPlugInfoInfoType) :=
  '(_, it) ← read_byte (iit_infoType o);
  let o := iit_with_infoType it o in
  if it =? eIT_PlugType then
    '(b, d) ← deserialize_or_new ExtendedPlugInfoPlugTypeSpecificData_new (iit_plugType o);
    mret (b, iit_put (SD_PlugType d) o)
  else if it =? eIT_PlugName then
    '(b, d) ← deserialize_or_new ExtendedPlugInfoPlugNameSpecificData_new (iit_plugName o);
    mret (b, iit_put (SD_PlugName d) o)
  else if it =? eIT_NoOfChannels then
    '(b, d) ← deserialize_or_new ExtendedPlugInfoPlugNumberOfChannelsSpecificData_new (iit_plugNrOfChns o);
    mret (b, iit_put (SD_NoOfChannels d) o)
  else if it =? eIT_ChannelPosition then
    '(b, d) ← deserialize_or_new ExtendedPlugInfoPlugChannelPositionSpecificData_new (iit_plugChannelPosition o);
    mret (b, iit_put (SD_ChannelPosition d) o)
  else if it =? eIT_ChannelName then
    '(b, d) ← deserialize_or_new ExtendedPlugInfoPlugChannelNameSpecificData_new (iit_plugChannelName o);
    mret (b, iit_put (SD_ChannelName d) o)
  else if it =? eIT_PlugInput then
    '(b, d) ← deserialize_or_new ExtendedPlugInfoPlugInputSpecificData_new (iit_plugInput o);
    mret (b, iit_put (SD_PlugInput d) o)
  else if it =? eIT_PlugOutput then
    '(b, d) ← deserialize_or_new ExtendedPlugInfoPlugOutputSpecificData_new (iit_plugOutput o);
    mret (b, iit_put (SD_PlugOutput d) o)
  else if it =? eIT_ClusterInfo then
    '(b, d) ← deserialize_or_new ExtendedPlugInfoClusterInfoSpecificData_new (iit_plugClusterInfo o);
    mret (b, iit_put (SD_ClusterInfo d) o)
  else mret (false, o).

#[export] Instance ExtendedPlugInfoInfoType_IBusData : IBusData ExtendedPlugInfoInfoType := {
  bd_serialize := ExtendedPlugInfoInfoType_serialize;
  bd_deserialize := ExtendedPlugInfoInfoType_deserialize;
  bd_clone := ExtendedPlugInfoInfoType_clone }.

(** ** ExtendedPlugInfoCmd *)

Definition eSF_ExtendedPlugInfoCmd : Z := 0xC0.

Record ExtendedPlugInfoCmd := mkExtendedPlugInfoCmd {
  epx_base : AVCCommand;
  epx_subFunction : Z;
  epx_plugAddress : PlugAddress;
  epx_infoType : ExtendedPlugInfoInfoType }.

Definition ExtendedPlugInfoCmd_new (eSubFunction : Z) : ExtendedPlugInfoCmd :=
  mkExtendedPlugInfoCmd (AVCCommand_new AVC1394_CMD_PLUG_INFO) (u8 eSubFunction)
    (PlugAddress_new ePD_Output ePAM_Unit (PAD_Unit (UnitPlugAddress_new ePT_PCR 0x00)))
    (snd (ExtendedPlugInfoInfoType_initialize (ExtendedPlugInfoInfoType_new eIT_PlugType))).

Definition ExtendedPlugInfoCmd_copy (rhs : ExtendedPlugInfoCmd) : option ExtendedPlugInfoCmd :=
  it ← ExtendedPlugInfoInfoType_copy (epx_infoType rhs);
  Some (mkExtendedPlugInfoCmd (epx_base rhs) (epx_subFunction rhs) (epx_plugAddress rhs) it).

Definition ExtendedPlugInfoCmd_setPlugAddress (a : PlugAddress) (o : ExtendedPlugInfoCmd) : option ExtendedPlugInfoCmd :=
  a' ← bd_clone a;
  Some (mkExtendedPlugInfoCmd (epx_base o) (epx_subFunction o) a' (epx_infoType o)).

Definition ExtendedPlugInfoCmd_setSubFunction (subFunction : Z) (o : ExtendedPlugInfoCmd) : ExtendedPlugInfoCmd :=
  mkExtendedPlugInfoCmd (epx_base o) (u8 subFunction) (epx_plugAddress o) (epx_infoType o).

Definition ExtendedPlugInfoCmd_setInfoType (it : ExtendedPlugInfoInfoType) (o : ExtendedPlugInfoCmd)
  : option ExtendedPlugInfoCmd :=
  it' ← bd_clone it;
  Some (mkExtendedPlugInfoCmd (epx_base o) (epx_subFunction o) (epx_plugAddress o) it').

Definition ExtendedPlugInfoCmd_serialize (o : ExtendedPlugInfoCmd) : writer bool :=
  _ ← AVCCommand_serialize (epx_base o);
  _ ← write_byte (epx_subFunction o);
  s1 ← bd_serialize (epx_plugAddress o);
  s2 ← bd_serialize (epx_infoType o);
  mret (s1 && s2).

Definition ExtendedPlugInfoCmd_deserialize (o : ExtendedPlugInfoCmd) : reader (bool * ExtendedPlugInfoCmd) :=
  '(_, base) ← AVCCommand_deserialize (epx_base o);
  '(_, sf) ← read_byte (epx_subFunction o);
  '(s1, pa) ← bd_deserialize (epx_plugAddress o);
  '(s2, it) ← bd_deserialize (epx_infoType o);
  mret (s1 && s2, mkExtendedPlugInfoCmd base sf pa it).

#[export] Instance ExtendedPlugInfoCmd_AVCCommandClass : AVCCommandClass ExtendedPlugInfoCmd := {
  cmd_base := epx_base;
  cmd_set_base b o := mkExtendedPlugInfoCmd b (epx_subFunction o) (epx_plugAddress o) (epx_infoType o);
  cmd_serialize o := with_object o (ExtendedPlugInfoCmd_serialize o);
  cmd_deserialize := ExtendedPlugInfoCmd_deserialize }.

(** ** Round trips of the specific data *)

Lemma emit_write_string l : emit (write_string l) = Some (tt, l).
Proof. induction l as [|c l IH]; [done|]. cbn. by rewrite IH. Qed.

(** Characters that survive [read_string] and the C string. *)
Definition char_wf (c : Z) : Prop := c <> 0 /\ c <> 38.

Lemma reads_string l : Forall char_wf l -> reads (read_string (length l)) l l.
Proof.
  induction 1 as [|c l [_ Hc] Hl IH]; [apply reads_ret|]. cbn [length read_string].
  apply reads_read_local. cbv beta iota. apply reads_used. cbv beta iota.
  eapply reads_bind_eq; [exact IH|by rewrite app_nil_r|].
  apply reads_ret_eq. by rewrite (proj2 (Z.eqb_neq _ _) Hc).
Qed.

Lemma c_str_wf l : Forall (fun c => c <> 0) l -> c_str l = l.
Proof. induction 1 as [|c l Hc Hl IH]; [done|]. cbn. by rewrite (proj2 (Z.eqb_neq _ _) Hc), IH. Qed.

Lemma c_str_char_wf l : Forall char_wf l -> c_str l = l.
Proof. intros H. apply c_str_wf. eapply Forall_impl; [exact H|]. by intros ? []. Qed.

Definition channel_info_wf (i : ChannelInfo) : Prop := is_Some (ci_streamPosition i) /\ is_Some (ci_location i).

Definition cluster_info_wf (c : ClusterInfo) : Prop :=
  cl_nrOfChannels c = Z.of_nat (length (cl_channelInfos c)) /\ Forall channel_info_wf (cl_channelInfos c).

Definition channel_bytes (i : ChannelInfo) : list Z :=
  [default 0 (ci_streamPosition i); default 0 (ci_location i)].

Definition cluster_bytes (c : ClusterInfo) : list Z :=
  cl_nrOfChannels c :: concat (map channel_bytes (cl_channelInfos c)).

Lemma channels_rt l :
  Forall channel_info_wf l ->
  emit (ChannelPosition_write_channels l) = Some (tt, concat (map channel_bytes l)) /\
  reads (ChannelPosition_read_channels (length l)) (concat (map channel_bytes l)) l.
Proof.
  induction 1 as [|i l Hi Hl [IHe IHr]]; [split; [done|apply reads_ret]|].
  destruct i as [p loc]; destruct Hi as [[p' [= ->]] [loc' [= ->]]]. split.
  - cbn in *. by rewrite IHe.
  - cbn [length map concat channel_bytes ci_streamPosition ci_location ChannelPosition_read_channels default app].
    apply reads_read_local. cbv beta iota. apply reads_read_local. cbv beta iota.
    eapply reads_bind_eq; [exact IHr|by rewrite app_nil_r|apply reads_ret].
Qed.

Lemma clusters_rt l :
  Forall cluster_info_wf l ->
  emit (ChannelPosition_write_clusters l) = Some (tt, concat (map cluster_bytes l)) /\
  reads (ChannelPosition_read_clusters (length l)) (concat (map cluster_bytes l)) l.
Proof.
  induction 1 as [|c l [Hn Hc] Hl [IHe IHr]]; [split; [done|apply reads_ret]|].
  destruct c as [n cs]; cbn [cl_nrOfChannels cl_channelInfos] in *. destruct (channels_rt cs Hc) as [Ce Cr].
  cbn [length map concat ChannelPosition_read_clusters ChannelPosition_write_clusters
       cl_nrOfChannels cl_channelInfos].
  change (cluster_bytes (mkClusterInfo n cs)) with ([n] ++ concat (map channel_bytes cs)).
  rewrite <- (assoc_L (++)). split.
  - eapply (emit_bind_eq _ _ [n]); [done| |done].
    eapply emit_bind_eq; [exact Ce|exact IHe|done].
  - apply reads_read_local. cbv beta iota. apply reads_used. cbv beta iota.
    rewrite Hn, Nat2Z.id. eapply reads_bind; [exact Cr|]. cbv beta iota.
    eapply reads_bind_eq; [exact IHr|by rewrite app_nil_r|apply reads_ret].
Qed.

Lemma ChannelPosition_rt d0 d :
  ecp_nrOfClusters d = Z.of_nat (length (ecp_clusterInfos d)) -> Forall cluster_info_wf (ecp_clusterInfos d) ->
  @roundtrips _ ExtendedPlugInfoPlugChannelPositionSpecificData_IBusData d0 d.
Proof.
  intros Hn Hc. destruct d as [n l]; cbn [ecp_nrOfClusters ecp_clusterInfos] in *.
  destruct (clusters_rt l Hc) as [Le Lr]. exists (n :: concat (map cluster_bytes l)). split.
  - eapply (emit_bind_eq _ _ [n]); [done| |done]. eapply emit_bind_eq; [exact Le|done|by rewrite app_nil_r].
  - apply reads_read_byte. cbv beta iota. rewrite Hn, Nat2Z.id.
    eapply reads_bind_eq; [exact Lr|by rewrite app_nil_r|apply reads_ret].
Qed.

Lemma ChannelName_rt d0 d :
  ecn_stringLength d = Z.of_nat (length (ecn_plugChannelName d)) -> Forall char_wf (ecn_plugChannelName d) ->
  @roundtrips _ ExtendedPlugInfoPlugChannelNameSpecificData_IBusData d0 d.
Proof.
  intros Hn Hc. destruct d as [p n l]; cbn [ecn_stringLength ecn_plugChannelName] in *.
  exists (p :: n :: l). split.
  - eapply (emit_bind_eq _ _ [p]); [done| |done]. eapply (emit_bind_eq _ _ [n]); [done| |done].
    eapply emit_bind_eq; [apply emit_write_string|done|by rewrite app_nil_r].
  - apply reads_read_byte. cbv beta iota. apply reads_read_byte. cbv beta iota. rewrite Hn, Nat2Z.id.
    eapply reads_bind_eq; [by apply reads_string|by rewrite app_nil_r|].
    apply reads_ret_eq. by rewrite c_str_char_wf.
Qed.

Lemma ClusterInfo_rt d0 d :
  eci_stringLength d = Z.of_nat (length (eci_clusterName d)) -> Forall char_wf (eci_clusterName d) ->
  @roundtrips _ ExtendedPlugInfoClusterInfoSpecificData_IBusData d0 d.
Proof.
  intros Hn Hc. destruct d as [i t n l]; cbn [eci_stringLength eci_clusterName] in *.
  exists (i :: t :: n :: l). split.
  - eapply (emit_bind_eq _ _ [i]); [done| |done]. eapply (emit_bind_eq _ _ [t]); [done| |done].
    eapply (emit_bind_eq _ _ [n]); [done| |done].
    eapply emit_bind_eq; [apply emit_write_string|done|by rewrite app_nil_r].
  - do 3 (apply reads_read_byte; cbv beta iota). rewrite Hn, Nat2Z.id.
    eapply reads_bind_eq; [by apply reads_string|by rewrite app_nil_r|].
    apply reads_ret_eq. by rewrite c_str_char_wf.
Qed.

Lemma PlugInput_rt d0 d :
  pas_wf (epi_plugAddress d) -> @roundtrips _ ExtendedPlugInfoPlugInputSpecificData_IBusData d0 d.
Proof.
  intros H. destruct (PlugAddressSpecificData_roundtrip_wf (epi_plugAddress d0) _ H) as (bs & He & Hr).
  destruct d as [a]. exists bs. split; [exact He|].
  eapply reads_bind_eq; [exact Hr|by rewrite app_nil_r|apply reads_ret].
Qed.

Lemma addresses_rt l :
  Forall pas_wf l ->
  exists bs, emit (PlugOutput_write_addresses l) = Some (tt, bs) /\
    forall l0, reads (PlugOutput_read_addresses (length l) l0) bs (true, l0 ++ l).
Proof.
  induction 1 as [|a l Ha Hl (bs & IHe & IHr)].
  - exists []. split; [done|]. intros l0. rewrite app_nil_r. apply reads_ret.
  - destruct (PlugAddressSpecificData_roundtrip_wf PlugAddressSpecificData_default a Ha) as (abs & Ae & Ar).
    exists (abs ++ bs). split.
    + cbn [PlugOutput_write_addresses]. eapply emit_bind_eq; [exact Ae|exact IHe|done].
    + intros l0. cbn [length PlugOutput_read_addresses].
      eapply reads_bind; [exact Ar|]. cbv beta iota. cbn [negb].
      replace (l0 ++ a :: l) with ((l0 ++ [a]) ++ l) by (by rewrite <- (assoc_L (++))). apply IHr.
Qed.

Lemma PlugOutput_rt d0 d :
  epo_outputPlugAddresses d0 = [] -> epo_nrOfOutputPlugs d = Z.of_nat (length (epo_outputPlugAddresses d)) ->
  Forall pas_wf (epo_outputPlugAddresses d) ->
  @roundtrips _ ExtendedPlugInfoPlugOutputSpecificData_IBusData d0 d.
Proof.
  intros H0 Hn Hwf. destruct d as [n l]; cbn [epo_nrOfOutputPlugs epo_outputPlugAddresses] in *.
  destruct (addresses_rt l Hwf) as (bs & He & Hr). exists (n :: bs). split.
  - eapply (emit_bind_eq _ _ [n]); [done| |done]. eapply emit_bind_eq; [exact He|done|by rewrite app_nil_r].
  - apply reads_read_byte. cbv beta iota. rewrite H0, Hn, Nat2Z.id.
    eapply reads_bind_eq; [apply Hr|by rewrite app_nil_r|apply reads_ret].
Qed.

(** ** The info type *)

Definition sd_infoType (d : SpecificData) : Z :=
  match d with
  | SD_PlugType _ => eIT_PlugType | SD_PlugName _ => eIT_PlugName
  | SD_NoOfChannels _ => eIT_NoOfChannels | SD_ChannelPosition _ => eIT_ChannelPosition
  | SD_ChannelName _ => eIT_ChannelName | SD_PlugInput _ => eIT_PlugInput
  | SD_PlugOutput _ => eIT_PlugOutput | SD_ClusterInfo _ => eIT_ClusterInfo
  end.

(** The specific data that an info type reads back: counts that match the
    vectors, addresses of the announced class, plain names.  Plug names are
    not among them, see [PlugName_reads_rest]. *)
Definition sd_wf (d : SpecificData) : Prop :=
  match d with
  | SD_PlugType _ | SD_NoOfChannels _ => True
  | SD_PlugName _ => False
  | SD_ChannelPosition d =>
      ecp_nrOfClusters d = Z.of_nat (length (ecp_clusterInfos d)) /\ Forall cluster_info_wf (ecp_clusterInfos d)
  | SD_ChannelName d =>
      ecn_stringLength d = Z.of_nat (length (ecn_plugChannelName d)) /\ Forall char_wf (ecn_plugChannelName d)
  | SD_PlugInput d => pas_wf (epi_plugAddress d)
  | SD_PlugOutput d =>
      epo_nrOfOutputPlugs d = Z.of_nat (length (epo_outputPlugAddresses d)) /\ Forall pas_wf (epo_outputPlugAddresses d)
  | SD_ClusterInfo d =>
      eci_stringLength d = Z.of_nat (length (eci_clusterName d)) /\ Forall char_wf (eci_clusterName d)
  end.

(** The parsing object has no output plug addresses yet. *)
Definition iit_no_outputs (o : ExtendedPlugInfoInfoType) : Prop :=
  match iit_plugOutput o with Some d => epo_outputPlugAddresses d = [] | None => True end.

Lemma part_rt {T} `{IBusData T} (d0 d : T) (F : T -> ExtendedPlugInfoInfoType) it (k : reader (bool * ExtendedPlugInfoInfoType)) :
  roundtrips d0 d -> k = ('(b, d) ← bd_deserialize d0; mret (b, F d)) ->
  exists bs, emit (_ ← write_byte it; serialize_if (Some d)) = Some (true, it :: bs) /\ reads k bs (true, F d).
Proof.
  intros (bs & He & Hr) ->. exists bs. split.
  - eapply (emit_bind_eq _ _ [it]); [done| |done]. cbn [serialize_if].
    eapply emit_bind_eq; [exact He|done|by rewrite app_nil_r].
  - eapply reads_bind_eq; [exact Hr|by rewrite app_nil_r|apply reads_ret].
Qed.

(** Whatever the info type held before, it becomes one with the data that
    were sent. *)
Lemma InfoType_rt (o0 : ExtendedPlugInfoInfoType) (d : SpecificData) :
  sd_wf d -> iit_no_outputs o0 ->
  roundtrips o0 (iit_put d (iit_with_infoType (sd_infoType d) o0)).
Proof.
  intros Hwf Hno. destruct o0 as [it pt pn pc pp cn pi po ci].
  assert (Hgen : forall {T} `{IBusData T} (d0 x : T) (F : T -> ExtendedPlugInfoInfoType) k,
    roundtrips d0 x ->
    ExtendedPlugInfoInfoType_serialize (F x) = (_ ← write_byte (sd_infoType d); serialize_if (Some x)) ->
    ExtendedPlugInfoInfoType_deserialize (mkExtendedPlugInfoInfoType it pt pn pc pp cn pi po ci)
      = ('(_, it) ← read_byte it; k it) ->
    k (sd_infoType d) = ('(b, x) ← bd_deserialize d0; mret (b, F x)) ->
    roundtrips (mkExtendedPlugInfoInfoType it pt pn pc pp cn pi po ci) (F x)).
  { intros T HT d0 x F k Hrt Hs Hk Hd.
    destruct (part_rt d0 x F (sd_infoType d) (k (sd_infoType d)) Hrt Hd) as (bs & He & Hr).
    exists (sd_infoType d :: bs). split.
    - change (bd_serialize (F x)) with (ExtendedPlugInfoInfoType_serialize (F x)). by rewrite Hs.
    - change (bd_deserialize ?o) with (ExtendedPlugInfoInfoType_deserialize o).
      rewrite Hk. by apply reads_read_byte. }
  destruct d as [x|x|x|x|x|x|x|x]; cbn [sd_wf] in Hwf; [..|].
  - eapply (Hgen _ _ _ x (fun x => iit_put (SD_PlugType x) (iit_with_infoType _ _)));
      [|reflexivity..]. destruct x; solve_roundtrip.
  - done.
  - eapply (Hgen _ _ _ x (fun x => iit_put (SD_NoOfChannels x) (iit_with_infoType _ _)));
      [|reflexivity..]. destruct x; solve_roundtrip.
  - destruct Hwf. eapply (Hgen _ _ _ x (fun x => iit_put (SD_ChannelPosition x) (iit_with_infoType _ _)));
      [|reflexivity..]. by apply ChannelPosition_rt.
  - destruct Hwf. eapply (Hgen _ _ _ x (fun x => iit_put (SD_ChannelName x) (iit_with_infoType _ _)));
      [|reflexivity..]. by apply ChannelName_rt.
  - eapply (Hgen _ _ _ x (fun x => iit_put (SD_PlugInput x) (iit_with_infoType _ _)));
      [|reflexivity..]. by apply PlugInput_rt.
  - destruct Hwf. eapply (Hgen _ _ _ x (fun x => iit_put (SD_PlugOutput x) (iit_with_infoType _ _)));
      [|reflexivity..]. apply PlugOutput_rt; [|done..]. unfold iit_no_outputs in Hno. cbn in Hno. by destruct po.
  - destruct Hwf. eapply (Hgen _ _ _ x (fun x => iit_put (SD_ClusterInfo x) (iit_with_infoType _ _)));
      [|reflexivity..]. by apply ClusterInfo_rt.
Qed.

(** ** Plug names *)

Lemma cstring_from_spec l :
  BufferDeserialize_cstring_from l = if decide (0 ∈ l) then Some (c_str l) else None.
Proof.
  induction l as [|c l IH]; [done|]. cbn [BufferDeserialize_cstring_from c_str].
  destruct (Z.eqb_spec c 0) as [-> |Hc].
  - rewrite decide_True; [done|]. apply list_elem_of_here.
  - rewrite IH. destruct (decide (0 ∈ l)) as [H|H]; cbn.
    + rewrite decide_True; [done|]. by apply list_elem_of_further.
    + rewrite decide_False; [done|]. rewrite elem_of_cons. intros [?|?]; [lia|done].
Qed.

Lemma c_str_app l1 l2 : Forall (fun c => c <> 0) l1 -> c_str (l1 ++ l2) = l1 ++ c_str l2.
Proof. induction 1 as [|c l Hc Hl IH]; [done|]. cbn. by rewrite (proj2 (Z.eqb_neq _ _) Hc), IH. Qed.

Lemma read_chars_at pre (l rest : list Z) :
  l <> [] -> Z.of_nat (length (pre ++ l ++ rest)) < 2 ^ 64 ->
  BufferDeserialize_read_chars (Z.of_nat (length l)) (at_ pre (l ++ rest))
  = Some ((true, Some (Z.of_nat (length pre))), at_ (pre ++ l) rest).
Proof.
  intros Hne Hlen. unfold BufferDeserialize_read_chars.
  destruct (exists_last Hne) as (l1 & b & ->).
  assert (Hv : BufferDeserialize_isCurPosValid (at_ pre ((l1 ++ [b]) ++ rest)) = true).
  { destruct l1 as [|c l1]; cbn [app] in *; by apply valid_at. }
  rewrite Hv. rewrite <- (assoc_L (++)) in *.
  assert (Hadv : BufferDeserialize_advance (u64 (Z.of_nat (length (l1 ++ [b])) - 1)) (at_ pre (l1 ++ [b] ++ rest))
                 = at_ (pre ++ l1) ([b] ++ rest)).
  { rewrite <- (advance_at pre l1) by done. f_equal.
    rewrite length_app; cbn [length]. rewrite wrapU_small; [lia|].
    rewrite !length_app in Hlen. cbn [length] in Hlen. width_lia. }
  rewrite Hadv. cbn [app] in *. rewrite (assoc_L (++)) in Hlen.
  rewrite valid_at by done. cbn [negb]. rewrite advance1_at by done.
  cbn [at_ de_curPos]. by rewrite <- (assoc_L (++)).
Qed.

(** The name that is parsed is the one sent, and everything after it up to
    the next NUL byte of the buffer; without one the copy leaves the buffer. *)
Lemma PlugName_reads_rest (o0 : ExtendedPlugInfoPlugNameSpecificData) pre name rest :
  name <> [] -> Forall (fun c => c <> 0) name ->
  Z.of_nat (length (pre ++ Z.of_nat (length name) :: name ++ rest)) < 2 ^ 64 ->
  run_reader (bd_deserialize o0) (at_ pre (Z.of_nat (length name) :: name ++ rest))
  = if decide (0 ∈ rest) then
      Some ((true, mkExtendedPlugInfoPlugNameSpecificData (name ++ c_str rest)),
            at_ (pre ++ Z.of_nat (length name) :: name) rest)
    else None.
Proof.
  intros Hne Hnz Hlen.
  change (bd_deserialize o0) with (ExtendedPlugInfoPlugNameSpecificData_deserialize o0).
  unfold ExtendedPlugInfoPlugNameSpecificData_deserialize.
  rewrite run_reader_bind. unfold read_local.
  cbn [run_reader de_read_byte BufferDeserialize_IISDeserialize]. unfold BufferDeserialize_read_byte.
  rewrite valid_at, cur_at by done. cbn [mbind option_bind]. rewrite advance1_at by done. cbn [run_reader].
  cbn [used is_assigned mbind reader_bind run_reader de_read_chars BufferDeserialize_IISDeserialize].
  rewrite read_chars_at; [|done|by rewrite <- (assoc_L (++))].
  cbn [used is_assigned mbind option_bind reader_bind run_reader de_cstring BufferDeserialize_IISDeserialize].
  unfold BufferDeserialize_cstring. rewrite Nat2Z.id.
  assert (Hbuf : drop (length (pre ++ [Z.of_nat (length name)]))
     (de_buffer (at_ ((pre ++ [Z.of_nat (length name)]) ++ name) rest)) = name ++ rest).
  { unfold at_; cbn [de_buffer]. rewrite <- (assoc_L (++)). apply drop_app_length. }
  rewrite Hbuf, cstring_from_spec.
  assert (Hdec : 0 ∈ name ++ rest <-> 0 ∈ rest).
  { rewrite elem_of_app. split; [|by right]. intros [H|H]; [|done].
    rewrite Forall_forall in Hnz. by destruct (Hnz 0 H). }
  destruct (decide (0 ∈ rest)) as [H|H].
  - rewrite decide_True by tauto. cbn. rewrite c_str_app by done. by rewrite <- (assoc_L (++)).
  - rewrite decide_False by tauto. done.
Qed.

(** ** Cloning an info type *)

Lemma InfoType_copy_put (o0 : ExtendedPlugInfoInfoType) d :
  ExtendedPlugInfoInfoType_copy (iit_put d (iit_with_infoType (sd_infoType d) o0))
  = Some (iit_put d (ExtendedPlugInfoInfoType_new (sd_infoType d))).
Proof. by destruct o0, d. Qed.

(** [clone] initialises the copy again: the data are the initial ones. *)
Lemma InfoType_clone_put (o0 : ExtendedPlugInfoInfoType) d :
  ExtendedPlugInfoInfoType_clone (iit_put d (iit_with_infoType (sd_infoType d) o0))
  = Some (snd (ExtendedPlugInfoInfoType_initialize (ExtendedPlugInfoInfoType_new (sd_infoType d)))).
Proof. unfold ExtendedPlugInfoInfoType_clone. rewrite InfoType_copy_put. by destruct d. Qed.

(** ** The command *)

Lemma ExtendedPlugInfoCmd_rt (o0 o : ExtendedPlugInfoCmd) (d : SpecificData) :
  ctype_named (epx_base o) ->
  same_class (pa_plugAddressData (epx_plugAddress o0)) (pa_plugAddressData (epx_plugAddress o)) ->
  sd_wf d -> iit_no_outputs (epx_infoType o0) ->
  epx_infoType o = iit_put d (iit_with_infoType (sd_infoType d) (epx_infoType o0)) ->
  cmd_roundtrips o0 o.
Proof.
  intros Hb Hp Hwf Hno Hit.
  destruct (PlugAddress_roundtrip_same _ _ Hp) as (pbs & Hpe & Hpr).
  destruct (InfoType_rt _ _ Hwf Hno) as (ibs & Hie & Hir). rewrite <- Hit in Hie, Hir.
  destruct o as [b sf pa it]; cbn [epx_base epx_subFunction epx_plugAddress epx_infoType] in *.
  exists (AVCCommand_header b ++ [sf] ++ pbs ++ ibs). split.
  - apply emit_with_object, emit_header; [exact Hb|].
    eapply emit_bind_eq; [reflexivity| |reflexivity]. eapply emit_bind_eq; [exact Hpe| |reflexivity].
    eapply emit_bind_eq; [exact Hie|reflexivity|by rewrite app_nil_r].
  - apply reads_header_of. cbv beta iota. cbn [app]. apply reads_read_byte. cbv beta iota.
    eapply reads_bind; [exact Hpr|]. cbv beta iota.
    eapply reads_bind_eq; [exact Hir|by rewrite app_nil_r|]. by apply reads_ret_eq.
Qed.

(** ** Properties *)

(** The extended plug information command carries every kind of specific
    data except plug names: whatever the parsing object held, it ends with the
    plug address, the info type and the data that were sent. *)
Lemma ExtendedPlugInfoCmd_roundtrip (o0 o : ExtendedPlugInfoCmd) (d : SpecificData) :
  ctype_named (epx_base o) ->
  same_class (pa_plugAddressData (epx_plugAddress o0)) (pa_plugAddressData (epx_plugAddress o)) ->
  sd_wf d -> iit_no_outputs (epx_infoType o0) ->
  epx_infoType o = iit_put d (iit_with_infoType (sd_infoType d) (epx_infoType o0)) ->
  cmd_roundtrips o0 o.
Proof. apply ExtendedPlugInfoCmd_rt. Qed.

Lemma ExtendedPlugInfoCmd_roundtrip_witness :
  let o0 := ExtendedPlugInfoCmd_new eSF_ExtendedPlugInfoCmd in
  let d := SD_ClusterInfo (mkExtendedPlugInfoClusterInfoSpecificData 1 0 4 [76; 105; 110; 101]) in
  cmd_roundtrips o0
    (mkExtendedPlugInfoCmd (AVCCommand_with_header eR_Implemented 0xff AVC1394_CMD_PLUG_INFO (epx_base o0))
       eSF_ExtendedPlugInfoCmd (epx_plugAddress o0)
       (iit_put d (iit_with_infoType (sd_infoType d) (epx_infoType o0)))).
Proof.
  intros o0 d. apply (ExtendedPlugInfoCmd_roundtrip o0 _ d).
  - eexists. vm_compute. reflexivity.
  - vm_compute. exact I.
  - split; [reflexivity|]. repeat apply Forall_cons_2; [..|apply Forall_nil_2]; split; lia.
  - vm_compute. exact I.
  - reflexivity.
Defined.

(** A plug name is not read by its length: the parsed name is the one sent
    and everything after it up to the next NUL byte of the frame buffer;
    without such a byte the copy runs out of the buffer. *)
Lemma PlugName_deserialize_overreads (o0 : ExtendedPlugInfoPlugNameSpecificData) pre name rest :
  name <> [] -> Forall (fun c => c <> 0) name ->
  Z.of_nat (length (pre ++ Z.of_nat (length name) :: name ++ rest)) < 2 ^ 64 ->
  run_reader (bd_deserialize o0) (at_ pre (Z.of_nat (length name) :: name ++ rest))
  = if decide (0 ∈ rest) then
      Some ((true, mkExtendedPlugInfoPlugNameSpecificData (name ++ c_str rest)),
            at_ (pre ++ Z.of_nat (length name) :: name) rest)
    else None.
Proof. apply PlugName_reads_rest. Qed.

Lemma PlugName_deserialize_overreads_witness :
  run_reader (bd_deserialize ExtendedPlugInfoPlugNameSpecificData_new) (at_ [] [3; 77; 105; 99; 33; 0])
  = Some ((true, mkExtendedPlugInfoPlugNameSpecificData [77; 105; 99; 33]), at_ [3; 77; 105; 99] [33; 0]).
Proof.
  apply (PlugName_deserialize_overreads ExtendedPlugInfoPlugNameSpecificData_new [] [77; 105; 99] [33; 0]);
    [discriminate| |vm_compute; reflexivity].
  repeat apply Forall_cons_2; [..|apply Forall_nil_2]; lia.
Defined.

(** the copy constructor of an info type keeps the selected data, but
    [clone], which initialises the copy again, replaces them by initial ones. *)
Lemma ExtendedPlugInfoInfoType_clone_resets (o0 : ExtendedPlugInfoInfoType) (d : SpecificData) :
  let o := iit_put d (iit_with_infoType (sd_infoType d) o0) in
  ExtendedPlugInfoInfoType_copy o = Some (iit_put d (ExtendedPlugInfoInfoType_new (sd_infoType d))) /\
  ExtendedPlugInfoInfoType_clone o
  = Some (snd (ExtendedPlugInfoInfoType_initialize (ExtendedPlugInfoInfoType_new (sd_infoType d)))).
Proof. split; [apply InfoType_copy_put|apply InfoType_clone_put]. Qed.
