(* ===== verification/FunctionBlock.v ===== *)
(** * FunctionBlock: libavc/audiosubunit/avc_function_block

    The FUNCTION BLOCK command of the audio subunit: feature blocks (volume,
    balance), processing blocks (mixer, enhanced mixer), selectors and codecs.

    [FunctionBlockProcessingEnhancedMixer::serialize] assigns to the object,
    so the serialize methods on the way to it return the new object. *)
From S2P Require Import Prelude Serialize BusData AvcCommand.

(** ** Volume and balance *)

Record FunctionBlockFeatureVolume := mkFunctionBlockFeatureVolume {
  fv_controlDataLength : Z;
  fv_volume : Z }.

Definition FunctionBlockFeatureVolume_new : FunctionBlockFeatureVolume := mkFunctionBlockFeatureVolume 2 0.

Definition FunctionBlockFeatureVolume_serialize (o : FunctionBlockFeatureVolume) : writer bool :=
  s0 ← write_byte (fv_controlDataLength o);
  s1 ← write_byte (u8 (Z.shiftr (fv_volume o) 8));
  s2 ← write_byte (Z.land (fv_volume o) 0xff);
  mret (s0 && s1 && s2).

Definition FunctionBlockFeatureVolume_deserialize (o : FunctionBlockFeatureVolume)
  : reader (bool * FunctionBlockFeatureVolume) :=
  '(s0, len) ← read_byte (fv_controlDataLength o);
  '(s1, val) ← read_local;
  hi ← used val;
  '(s2, val) ← reread_local val;
  lo ← used val;
  mret (s0 && s1 && s2, mkFunctionBlockFeatureVolume len (Z.lor (u16 (Z.shiftl hi 8)) lo)).

#[export] Instance FunctionBlockFeatureVolume_IBusData : IBusData FunctionBlockFeatureVolume := {
  bd_serialize := FunctionBlockFeatureVolume_serialize;
  bd_deserialize := FunctionBlockFeatureVolume_deserialize;
  bd_clone o := Some o }.

Record FunctionBlockFeatureLRBalance := mkFunctionBlockFeatureLRBalance {
  fl_controlDataLength : Z;
  fl_lrBalance : Z }.

Definition FunctionBlockFeatureLRBalance_new : FunctionBlockFeatureLRBalance := mkFunctionBlockFeatureLRBalance 2 0.

Definition FunctionBlockFeatureLRBalance_serialize (o : FunctionBlockFeatureLRBalance) : writer bool :=
  s0 ← write_byte (fl_controlDataLength o);
  s1 ← write_byte (u8 (Z.shiftr (fl_lrBalance o) 8));
  s2 ← write_byte (Z.land (fl_lrBalance o) 0xff);
  mret (s0 && s1 && s2).

Definition FunctionBlockFeatureLRBalance_deserialize (o : FunctionBlockFeatureLRBalance)
  : reader (bool * FunctionBlockFeatureLRBalance) :=
  '(s0, len) ← read_byte (fl_controlDataLength o);
  '(s1, val) ← read_local;
  hi ← used val;
  '(s2, val) ← reread_local val;
  lo ← used val;
  mret (s0 && s1 && s2, mkFunctionBlockFeatureLRBalance len (Z.lor (u16 (Z.shiftl hi 8)) lo)).

#[export] Instance FunctionBlockFeatureLRBalance_IBusData : IBusData FunctionBlockFeatureLRBalance := {
  bd_serialize := FunctionBlockFeatureLRBalance_serialize;
  bd_deserialize := FunctionBlockFeatureLRBalance_deserialize;
  bd_clone o := Some o }.

(** ** Mixer *)

Definition eCSE_Processing_Unknown : Z := 0x00.
Definition eCSE_Processing_Enable : Z := 0x01.
Definition eCSE_Processing_Mode : Z := 0x02.
Definition eCSE_Processing_Mixer : Z := 0x03.
Definition eCSE_Processing_EnhancedMixer : Z := 0xf1.

Record FunctionBlockProcessingMixer := mkFunctionBlockProcessingMixer {
  pm_controlSelector : Z;
  pm_controlDataLength : Z;
  pm_mixerSetting : Z }.

Definition FunctionBlockProcessingMixer_new : FunctionBlockProcessingMixer :=
  mkFunctionBlockProcessingMixer eCSE_Processing_Mixer 0x02 0x0000.

(** the copy constructor keeps only the control selector *)
Definition FunctionBlockProcessingMixer_copy (rhs : FunctionBlockProcessingMixer) : FunctionBlockProcessingMixer :=
  mkFunctionBlockProcessingMixer (pm_controlSelector rhs) 0x02 0x00.

Definition FunctionBlockProcessingMixer_serialize (o : FunctionBlockProcessingMixer) : writer bool :=
  s0 ← write_byte (pm_controlSelector o);
  s1 ← write_byte (pm_controlDataLength o);
  s2 ← write_u16 (pm_mixerSetting o);
  mret (s0 && s1 && s2).

Definition FunctionBlockProcessingMixer_deserialize (o : FunctionBlockProcessingMixer)
  : reader (bool * FunctionBlockProcessingMixer) :=
  '(s0, cs) ← read_byte (pm_controlSelector o);
  '(s1, len) ← read_byte (pm_controlDataLength o);
  '(s2, setting) ← read_u16 (pm_mixerSetting o);
  '(s3, padding) ← read_local;
  '(s4, _) ← reread_local padding;
  mret (s0 && s1 && s2 && s3 && s4, mkFunctionBlockProcessingMixer cs len setting).

#[export] Instance FunctionBlockProcessingMixer_IBusData : IBusData FunctionBlockProcessingMixer := {
  bd_serialize := FunctionBlockProcessingMixer_serialize;
  bd_deserialize := FunctionBlockProcessingMixer_deserialize;
  bd_clone o := Some (FunctionBlockProcessingMixer_copy o) }.

(** ** Enhanced mixer *)

Definition eSS_ProgramableState : Z := 0x00.
Definition eSS_Level : Z := 0x01.

(** the copy constructor leaves [m_controlDataLength] without a value *)
Record FunctionBlockProcessingEnhancedMixer := mkFunctionBlockProcessingEnhancedMixer {
  em_controlSelector : Z;
  em_statusSelector : Z;
  em_controlDataLength : option Z;
  em_ProgramableStateData : list Z;
  em_LevelData : list Z }.

Definition FunctionBlockProcessingEnhancedMixer_new : FunctionBlockProcessingEnhancedMixer :=
  mkFunctionBlockProcessingEnhancedMixer eCSE_Processing_EnhancedMixer eSS_Level (Some 0) [] [].

(** the copy constructor does not copy the data *)
Definition FunctionBlockProcessingEnhancedMixer_clone (rhs : FunctionBlockProcessingEnhancedMixer)
  : FunctionBlockProcessingEnhancedMixer :=
  mkFunctionBlockProcessingEnhancedMixer (em_controlSelector rhs) (em_statusSelector rhs) None [] [].

Definition em_with_length (len : Z) (o : FunctionBlockProcessingEnhancedMixer) : FunctionBlockProcessingEnhancedMixer :=
  mkFunctionBlockProcessingEnhancedMixer (em_controlSelector o) (em_statusSelector o) (Some len)
    (em_ProgramableStateData o) (em_LevelData o).

(** the inner loop: eight entries make a byte, the first one the most
    significant; [None] is the exception of [at] *)
Definition EnhancedMixer_state_byte (data : list Z) (i : nat) : option Z :=
  foldl (fun value j =>
           v ← value;
           bit_value ← data !! (i * 8 + j)%nat;
           Some (u8 (Z.lor v (Z.shiftl bit_value (7 - Z.of_nat j))))) (Some 0) (seq 0 8).

Fixpoint EnhancedMixer_write_states (data : list Z) (n i : nat) : writer bool :=
  match n with
  | O => mret true
  | S n' =>
      match EnhancedMixer_state_byte data i with
      | None => w_undef
      | Some value =>
          s ← write_byte value;
          s' ← EnhancedMixer_write_states data n' (S i);
          mret (s && s')
      end
  end.

Fixpoint EnhancedMixer_write_levels (data : list Z) (n i : nat) : writer bool :=
  match n with
  | O => mret true
  | S n' =>
      match data !! i with
      | None => w_undef
      | Some value =>
          s1 ← write_byte (u8 (Z.shiftr value 8));
          s2 ← write_byte (Z.land value 0xff);
          s' ← EnhancedMixer_write_levels data n' (S i);
          mret (s1 && s2 && s')
      end
  end.

Definition EnhancedMixer_write_length (len : Z) : writer bool :=
  s1 ← write_byte (u8 (Z.shiftr len 8));
  s2 ← write_byte (Z.land len 0xff);
  mret (s1 && s2).

Definition FunctionBlockProcessingEnhancedMixer_serialize (o : FunctionBlockProcessingEnhancedMixer)
  : writer (bool * FunctionBlockProcessingEnhancedMixer) :=
  s0 ← write_byte (em_controlSelector o);
  s1 ← write_byte (em_statusSelector o);
  if em_statusSelector o =? eSS_ProgramableState then
    let len := u16 (Z.of_nat (length (em_ProgramableStateData o)) / 8) in
    s2 ← EnhancedMixer_write_length len;
    s3 ← EnhancedMixer_write_states (em_ProgramableStateData o) (Z.to_nat len) 0;
    mret (s0 && s1 && s2 && s3, em_with_length len o)
  else if em_statusSelector o =? eSS_Level then
    let len := u16 (Z.of_nat (length (em_LevelData o)) * 2) in
    s2 ← EnhancedMixer_write_length len;
    s3 ← EnhancedMixer_write_levels (em_LevelData o) (Z.to_nat (len / 2)) 0;
    mret (s0 && s1 && s2 && s3, em_with_length len o)
  else mret (s0 && s1, o).

(** the bits of a byte, from the most significant *)
Definition EnhancedMixer_bits (value : Z) : list Z :=
  map (fun j => if Z.land (Z.shiftl 1 (Z.of_nat j)) value =? 0 then 0 else 1) (rev (seq 0 8)).

Fixpoint EnhancedMixer_read_states (n : nat) : reader (bool * list Z) :=
  match n with
  | O => mret (true, [])
  | S n' =>
      '(s, value) ← read_local;
      v ← used value;
      '(s', l) ← EnhancedMixer_read_states n';
      mret (s && s', EnhancedMixer_bits v ++ l)
  end.

Fixpoint EnhancedMixer_read_levels (n : nat) : reader (bool * list Z) :=
  match n with
  | O => mret (true, [])
  | S n' =>
      '(s1, hi) ← read_byte 0;
      '(s2, lo) ← read_byte 0;
      '(s', l) ← EnhancedMixer_read_levels n';
      mret (s1 && s2 && s', u16 (Z.shiftl hi 8 + lo) :: l)
  end.

(** both selectors of the response are overwritten *)
Definition FunctionBlockProcessingEnhancedMixer_deserialize (o : FunctionBlockProcessingEnhancedMixer)
  : reader (bool * FunctionBlockProcessingEnhancedMixer) :=
  '(s0, _) ← read_byte (em_controlSelector o);
  let cs := eCSE_Processing_EnhancedMixer in
  '(s1, _) ← read_byte (em_statusSelector o);
  let ss := eSS_Level in
  '(s2, data_length_hi) ← read_local;
  '(s3, data_length_lo) ← read_local;
  hi ← used data_length_hi;
  lo ← used data_length_lo;
  let len := u16 (Z.shiftl hi 8 + lo) in
  if ss =? eSS_ProgramableState then
    '(s4, l) ← EnhancedMixer_read_states (Z.to_nat len);
    mret (s0 && s1 && s2 && s3 && s4, mkFunctionBlockProcessingEnhancedMixer cs ss (Some len) l (em_LevelData o))
  else if ss =? eSS_Level then
    '(s4, l) ← EnhancedMixer_read_levels (Z.to_nat (len / 2));
    mret (s0 && s1 && s2 && s3 && s4,
          mkFunctionBlockProcessingEnhancedMixer cs ss (Some len) (em_ProgramableStateData o) l)
  else
    mret (s0 && s1 && s2 && s3,
          mkFunctionBlockProcessingEnhancedMixer cs ss (Some len) (em_ProgramableStateData o) (em_LevelData o)).

(** ** Selector *)

Definition eCSE_Selector_Selector : Z := 0x01.

Record FunctionBlockSelector := mkFunctionBlockSelector {
  fs_selectorLength : Z;
  fs_inputFbPlugNumber : Z;
  fs_controlSelector : Z }.

Definition FunctionBlockSelector_new : FunctionBlockSelector :=
  mkFunctionBlockSelector 0x02 0x00 eCSE_Selector_Selector.

Definition FunctionBlockSelector_serialize (o : FunctionBlockSelector) : writer bool :=
  s0 ← write_byte (fs_selectorLength o);
  s1 ← write_byte (fs_inputFbPlugNumber o);
  s2 ← write_byte (fs_controlSelector o);
  mret (s0 && s1 && s2).

Definition FunctionBlockSelector_deserialize (o : FunctionBlockSelector) : reader (bool * FunctionBlockSelector) :=
  '(s0, l) ← read_byte (fs_selectorLength o);
  '(s1, i) ← read_byte (fs_inputFbPlugNumber o);
  '(s2, c) ← read_byte (fs_controlSelector o);
  mret (s0 && s1 && s2, mkFunctionBlockSelector l i c).

#[export] Instance FunctionBlockSelector_IBusData : IBusData FunctionBlockSelector := {
  bd_serialize := FunctionBlockSelector_serialize;
  bd_deserialize := FunctionBlockSelector_deserialize;
  bd_clone o := Some o }.

(** ** Feature *)

Definition eCSE_Feature_Unknown : Z := 0x00.
Definition eCSE_Feature_Volume : Z := 0x02.
Definition eCSE_Feature_LRBalance : Z := 0x03.

Record FunctionBlockFeature := mkFunctionBlockFeature {
  ff_selectorLength : Z;
  ff_audioChannelNumber : Z;
  ff_controlSelector : Z;
  ff_pVolume : option FunctionBlockFeatureVolume;
  ff_pLRBalance : option FunctionBlockFeatureLRBalance }.

Definition FunctionBlockFeature_new : FunctionBlockFeature :=
  mkFunctionBlockFeature 0x02 0x00 eCSE_Feature_Unknown None None.

(** [m_pVolume->serialize( se )] through a pointer that may be 0 *)
Definition serialize_ptr {T} `{IBusData T} (p : option T) : writer bool :=
  match p with Some d => bd_serialize d | None => w_undef end.

Definition deserialize_ptr {T} `{IBusData T} (p : option T) : reader (bool * option T) :=
  match p with
  | Some d => '(b, d') ← bd_deserialize d; mret (b, Some d')
  | None => r_undef
  end.

Definition FunctionBlockFeature_serialize (o : FunctionBlockFeature) : writer bool :=
  s0 ← write_byte (ff_selectorLength o);
  s1 ← write_byte (ff_audioChannelNumber o);
  s2 ← write_byte (ff_controlSelector o);
  if ff_controlSelector o =? eCSE_Feature_Volume then
    s3 ← serialize_ptr (ff_pVolume o); mret (s0 && s1 && s2 && s3)
  else if ff_controlSelector o =? eCSE_Feature_LRBalance then
    s3 ← serialize_ptr (ff_pLRBalance o); mret (s0 && s1 && s2 && s3)
  else mret false.

Definition FunctionBlockFeature_deserialize (o : FunctionBlockFeature) : reader (bool * FunctionBlockFeature) :=
  '(s0, sl) ← read_byte (ff_selectorLength o);
  '(s1, ch) ← read_byte (ff_audioChannelNumber o);
  '(s2, cs) ← read_byte (ff_controlSelector o);
  if cs =? eCSE_Feature_Volume then
    '(s3, v) ← deserialize_ptr (ff_pVolume o);
    mret (s0 && s1 && s2 && s3, mkFunctionBlockFeature sl ch cs v (ff_pLRBalance o))
  else if cs =? eCSE_Feature_LRBalance then
    '(s3, b) ← deserialize_ptr (ff_pLRBalance o);
    mret (s0 && s1 && s2 && s3, mkFunctionBlockFeature sl ch cs (ff_pVolume o) b)
  else mret (false, mkFunctionBlockFeature sl ch cs (ff_pVolume o) (ff_pLRBalance o)).

(** ** Processing *)

Record FunctionBlockProcessing := mkFunctionBlockProcessing {
  fp_selectorLength : Z;
  fp_fbInputPlugNumber : Z;
  fp_inputAudioChannelNumber : Z;
  fp_outputAudioChannelNumber : Z;
  fp_pMixer : option FunctionBlockProcessingMixer;
  fp_pEnhancedMixer : option FunctionBlockProcessingEnhancedMixer }.

Definition FunctionBlockProcessing_new : FunctionBlockProcessing :=
  mkFunctionBlockProcessing 0x04 0x00 0x00 0x00 None None.

Definition fp_with_mixers (m : option FunctionBlockProcessingMixer)
  (e : option FunctionBlockProcessingEnhancedMixer) (o : FunctionBlockProcessing) : FunctionBlockProcessing :=
  mkFunctionBlockProcessing (fp_selectorLength o) (fp_fbInputPlugNumber o) (fp_inputAudioChannelNumber o)
    (fp_outputAudioChannelNumber o) m e.

Definition FunctionBlockProcessing_serialize (o : FunctionBlockProcessing) : writer (bool * FunctionBlockProcessing) :=
  s0 ← write_byte (fp_selectorLength o);
  s1 ← write_byte (fp_fbInputPlugNumber o);
  s2 ← write_byte (fp_inputAudioChannelNumber o);
  s3 ← write_byte (fp_outputAudioChannelNumber o);
  match fp_pMixer o, fp_pEnhancedMixer o with
  | Some m, _ => s4 ← bd_serialize m; mret (s0 && s1 && s2 && s3 && s4, o)
  | None, Some e =>
      '(s4, e') ← FunctionBlockProcessingEnhancedMixer_serialize e;
      mret (s0 && s1 && s2 && s3 && s4, fp_with_mixers None (Some e') o)
  | None, None => mret (false, o)
  end.

(** [byte_t tmp; if ( de.peek( &tmp ) ) { while ( de.read( &tmp ) ) {} }]: a
    frame has at most [fcpFrameMaxLength] bytes, so that the loop ends within
    the fuel (the last read fails). *)
Fixpoint FunctionBlockProcessing_drain (fuel : nat) : reader unit :=
  match fuel with
  | O => r_undef
  | S fuel' =>
      '(ok, _) ← read_local;
      if (ok : bool) then FunctionBlockProcessing_drain fuel' else mret tt
  end.

Definition FunctionBlockProcessing_rest : reader unit :=
  '(ok, _) ← peek_local None;
  if (ok : bool) then FunctionBlockProcessing_drain (Z.to_nat fcpFrameMaxLength + 1) else mret tt.

(** The response handler is chosen by what was sent, not by the response. *)
Definition FunctionBlockProcessing_deserialize (o : FunctionBlockProcessing)
  : reader (bool * FunctionBlockProcessing) :=
  let controlSelector :=
    match fp_pMixer o, fp_pEnhancedMixer o with
    | Some _, _ => eCSE_Processing_Mixer
    | None, Some _ => eCSE_Processing_EnhancedMixer
    | None, None => eCSE_Processing_Unknown
    end in
  '(s0, sl) ← read_byte (fp_selectorLength o);
  '(s1, ip) ← read_byte (fp_fbInputPlugNumber o);
  '(s2, ic) ← read_byte (fp_inputAudioChannelNumber o);
  '(s3, oc) ← read_byte (fp_outputAudioChannelNumber o);
  '(s4, _) ← peek_local None;
  let s := s0 && s1 && s2 && s3 && s4 in
  '(b, o') ← (if controlSelector =? eCSE_Processing_Mixer then
                '(s5, m) ← bd_deserialize (default FunctionBlockProcessingMixer_new (fp_pMixer o));
                mret (s && s5, mkFunctionBlockProcessing sl ip ic oc (Some m) (fp_pEnhancedMixer o))
              else if controlSelector =? eCSE_Processing_EnhancedMixer then
                '(s5, e) ← FunctionBlockProcessingEnhancedMixer_deserialize
                             (default FunctionBlockProcessingEnhancedMixer_new (fp_pEnhancedMixer o));
                mret (s && s5, mkFunctionBlockProcessing sl ip ic oc (fp_pMixer o) (Some e))
              else
                mret (false, mkFunctionBlockProcessing sl ip ic oc (fp_pMixer o) (fp_pEnhancedMixer o)));
  _ ← FunctionBlockProcessing_rest;
  mret (b, o').

(** ** Codec *)

Record FunctionBlockCodec := mkFunctionBlockCodec {}.

Definition FunctionBlockCodec_serialize (o : FunctionBlockCodec) : writer bool := mret false.
Definition FunctionBlockCodec_deserialize (o : FunctionBlockCodec) : reader (bool * FunctionBlockCodec) := mret (false, o).

#[export] Instance FunctionBlockCodec_IBusData : IBusData FunctionBlockCodec := {
  bd_serialize := FunctionBlockCodec_serialize;
  bd_deserialize := FunctionBlockCodec_deserialize;
  bd_clone o := Some o }.

(** ** FunctionBlockCmd *)

Definition AVC1394_FUNCTION_BLOCK_CMD : Z := 0xB8.
Definition eFBT_Selector : Z := 0x80.
Definition eFBT_Feature : Z := 0x81.
Definition eFBT_Processing : Z := 0x82.
Definition eFBT_Codec : Z := 0x83.

Record FunctionBlockCmd := mkFunctionBlockCmd {
  fb_base : AVCCommand;
  fb_functionBlockType : Z;
  fb_functionBlockId : Z;
  fb_controlAttribute : Z;
  fb_pFBSelector : option FunctionBlockSelector;
  fb_pFBFeature : option FunctionBlockFeature;
  fb_pFBProcessing : option FunctionBlockProcessing;
  fb_pFBCodec : option FunctionBlockCodec }.

Definition FunctionBlockCmd_new (eType id eCtrlAttrib : Z) : FunctionBlockCmd :=
  mkFunctionBlockCmd (AVCCommand_setSubunitType eST_Audio (AVCCommand_new AVC1394_FUNCTION_BLOCK_CMD))
    (u8 eType) id (u8 eCtrlAttrib)
    (if u8 eType =? eFBT_Selector then Some FunctionBlockSelector_new else None)
    (if u8 eType =? eFBT_Feature then Some FunctionBlockFeature_new else None)
    (if u8 eType =? eFBT_Processing then Some FunctionBlockProcessing_new else None)
    (if u8 eType =? eFBT_Codec then Some (mkFunctionBlockCodec) else None).

Definition FunctionBlockCmd_serialize (o : FunctionBlockCmd) : writer (bool * FunctionBlockCmd) :=
  s0 ← AVCCommand_serialize (fb_base o);
  s1 ← write_byte (fb_functionBlockType o);
  s2 ← write_byte (fb_functionBlockId o);
  s3 ← write_byte (fb_controlAttribute o);
  let s := s0 && s1 && s2 && s3 in
  if fb_functionBlockType o =? eFBT_Selector then
    match fb_pFBSelector o with
    | Some d => b ← bd_serialize d; mret (s && b, o)
    | None => mret (false, o)
    end
  else if fb_functionBlockType o =? eFBT_Feature then
    match fb_pFBFeature o with
    | Some d => b ← FunctionBlockFeature_serialize d; mret (s && b, o)
    | None => mret (false, o)
    end
  else if fb_functionBlockType o =? eFBT_Processing then
    match fb_pFBProcessing o with
    | Some d =>
        '(b, d') ← FunctionBlockProcessing_serialize d;
        mret (s && b, mkFunctionBlockCmd (fb_base o) (fb_functionBlockType o) (fb_functionBlockId o)
          (fb_controlAttribute o) (fb_pFBSelector o) (fb_pFBFeature o) (Some d') (fb_pFBCodec o))
    | None => mret (false, o)
    end
  else if fb_functionBlockType o =? eFBT_Codec then
    match fb_pFBCodec o with
    | Some d => b ← bd_serialize d; mret (s && b, o)
    | None => mret (false, o)
    end
  else mret (false, o).

Definition FunctionBlockCmd_deserialize (o : FunctionBlockCmd) : reader (bool * FunctionBlockCmd) :=
  '(s0, base) ← AVCCommand_deserialize (fb_base o);
  '(s1, ty) ← read_byte (fb_functionBlockType o);
  '(s2, id) ← read_byte (fb_functionBlockId o);
  '(s3, ca) ← read_byte (fb_controlAttribute o);
  let s := s0 && s1 && s2 && s3 in
  if ty =? eFBT_Selector then
    '(b, d) ← bd_deserialize (default FunctionBlockSelector_new (fb_pFBSelector o));
    mret (s && b, mkFunctionBlockCmd base ty id ca (Some d) (fb_pFBFeature o) (fb_pFBProcessing o) (fb_pFBCodec o))
  else if ty =? eFBT_Feature then
    '(b, d) ← FunctionBlockFeature_deserialize (default FunctionBlockFeature_new (fb_pFBFeature o));
    mret (s && b, mkFunctionBlockCmd base ty id ca (fb_pFBSelector o) (Some d) (fb_pFBProcessing o) (fb_pFBCodec o))
  else if ty =? eFBT_Processing then
    '(b, d) ← FunctionBlockProcessing_deserialize (default FunctionBlockProcessing_new (fb_pFBProcessing o));
    mret (s && b, mkFunctionBlockCmd base ty id ca (fb_pFBSelector o) (fb_pFBFeature o) (Some d) (fb_pFBCodec o))
  else if ty =? eFBT_Codec then
    '(b, d) ← bd_deserialize (default mkFunctionBlockCodec (fb_pFBCodec o));
    mret (s && b, mkFunctionBlockCmd base ty id ca (fb_pFBSelector o) (fb_pFBFeature o) (fb_pFBProcessing o) (Some d))
  else
    mret (false, mkFunctionBlockCmd base ty id ca (fb_pFBSelector o) (fb_pFBFeature o) (fb_pFBProcessing o) (fb_pFBCodec o)).

#[export] Instance FunctionBlockCmd_AVCCommandClass : AVCCommandClass FunctionBlockCmd := {
  cmd_base := fb_base;
  cmd_set_base b o := mkFunctionBlockCmd b (fb_functionBlockType o) (fb_functionBlockId o) (fb_controlAttribute o)
    (fb_pFBSelector o) (fb_pFBFeature o) (fb_pFBProcessing o) (fb_pFBCodec o);
  cmd_serialize := FunctionBlockCmd_serialize;
  cmd_deserialize := FunctionBlockCmd_deserialize }.

(** The copy constructor dereferences all four pointers. *)
Definition FunctionBlockCmd_copy_defined (rhs : FunctionBlockCmd) : bool :=
  match fb_pFBSelector rhs, fb_pFBFeature rhs, fb_pFBProcessing rhs, fb_pFBCodec rhs with
  | Some _, Some _, Some _, Some _ => true
  | _, _, _, _ => false
  end.

(** ** Round trips *)

Lemma u16_split v : is_u16 v -> Z.lor (u16 (Z.shiftl (u8 (Z.shiftr v 8)) 8)) (Z.land v 0xff) = v.
Proof.
  intros H. assert (E : u8 (Z.shiftr v 8) = v / 256).
  { rewrite shiftr_div by lia. apply wrapU_small. div_lia. }
  rewrite E. rewrite wrapU_small by (rewrite Z.shiftl_mul_pow2 by lia; div_lia).
  rewrite lor_add by (rewrite ?land_0xff; div_lia). rewrite land_0xff. div_lia.
Qed.

Lemma u16_split_add v : is_u16 v -> u16 (Z.shiftl (u8 (Z.shiftr v 8)) 8 + Z.land v 0xff) = v.
Proof.
  intros H. assert (E : u8 (Z.shiftr v 8) = v / 256).
  { rewrite shiftr_div by lia. apply wrapU_small. div_lia. }
  rewrite E, land_0xff, Z.shiftl_mul_pow2 by lia. div_lia.
Qed.

Lemma u16_bytes_split v : is_u16 v -> u16_of_bytes (u16_hi v) (u16_lo v) = v.
Proof.
  intros H. unfold u16_of_bytes, u16_hi, u16_lo.
  assert (E : u8 (Z.shiftr (Z.land v 0xFF00) 8) = v / 256).
  { rewrite Z.shiftr_land. change (Z.shiftr 0xFF00 8) with 0xff. rewrite land_0xff, shiftr_div by lia. div_lia. }
  rewrite E. rewrite land_0xff. rewrite lor_add by (unfold wrapU; div_lia). div_lia.
Qed.

Lemma FunctionBlockFeatureVolume_rt (o0 o : FunctionBlockFeatureVolume) :
  is_u16 (fv_volume o) -> roundtrips o0 o.
Proof.
  intros H. destruct o as [len v]; cbn in H. eexists; split; [cbn; reflexivity|].
  repeat reads_eval_step. apply reads_ret_eq. by rewrite u16_split.
Qed.

Lemma FunctionBlockFeatureLRBalance_rt (o0 o : FunctionBlockFeatureLRBalance) :
  is_u16 (fl_lrBalance o) -> roundtrips o0 o.
Proof.
  intros H. destruct o as [len v]; cbn in H. eexists; split; [cbn; reflexivity|].
  repeat reads_eval_step. apply reads_ret_eq. by rewrite u16_split.
Qed.

Lemma FunctionBlockSelector_rt (o0 o : FunctionBlockSelector) : roundtrips o0 o.
Proof. destruct o; solve_roundtrip. Qed.

(** The parser also takes two bytes of padding. *)
Lemma FunctionBlockProcessingMixer_rt (o0 o : FunctionBlockProcessingMixer) p1 p2 :
  is_u16 (pm_mixerSetting o) ->
  exists bs, emit (bd_serialize o) = Some (true, bs) /\ length bs = 4%nat /\
    reads (bd_deserialize o0) (bs ++ [p1; p2]) (true, o).
Proof.
  intros H. destruct o as [cs len v]; cbn in H. eexists; split; [cbn; reflexivity|].
  split; [done|]. cbn [app]. repeat reads_eval_step. apply reads_ret_eq. by rewrite u16_bytes_split.
Qed.

Lemma write_levels_rt data : forall l i,
  drop i data = l -> Forall is_u16 l ->
  exists bs, emit (EnhancedMixer_write_levels data (length l) i) = Some (true, bs) /\
    length bs = (2 * length l)%nat /\ reads (EnhancedMixer_read_levels (length l)) bs (true, l).
Proof.
  induction l as [|v l IH]; intros i Hd Hf.
  - exists []. split_and!; [done..|apply reads_ret].
  - inversion_clear Hf as [|? ? Hv Hl].
    assert (Hi : data !! i = Some v).
    { rewrite <- (Nat.add_0_r i), <- lookup_drop, Hd. done. }
    destruct (IH (S i)) as (bs & He & Hlen & Hr); [|done|].
    { rewrite <- Nat.add_1_r, <- drop_drop, Hd. done. }
    exists (u8 (Z.shiftr v 8) :: Z.land v 0xff :: bs). split_and!.
    + cbn [length EnhancedMixer_write_levels]. rewrite Hi.
      eapply (emit_bind_eq _ _ [_]); [reflexivity| |reflexivity].
      eapply (emit_bind_eq _ _ [_]); [reflexivity| |reflexivity].
      eapply emit_bind_eq; [exact He|reflexivity|by rewrite app_nil_r].
    + cbn. lia.
    + cbn [length EnhancedMixer_read_levels]. apply reads_read_byte. cbv beta iota.
      apply reads_read_byte. cbv beta iota.
      eapply reads_bind_eq; [exact Hr|by rewrite app_nil_r|].
      apply reads_ret_eq. by rewrite u16_split_add.
Qed.

(** The levels of an enhanced mixer; the programmable state is never parsed. *)
Definition em_levels_wf (o : FunctionBlockProcessingEnhancedMixer) : Prop :=
  em_controlSelector o = eCSE_Processing_EnhancedMixer /\ em_statusSelector o = eSS_Level /\
  Forall is_u16 (em_LevelData o) /\ Z.of_nat (length (em_LevelData o)) < 2 ^ 15 /\
  em_controlDataLength o = Some (2 * Z.of_nat (length (em_LevelData o))).

Lemma FunctionBlockProcessingEnhancedMixer_rt (o0 o : FunctionBlockProcessingEnhancedMixer) :
  em_levels_wf o -> em_ProgramableStateData o = em_ProgramableStateData o0 ->
  exists bs, emit (FunctionBlockProcessingEnhancedMixer_serialize o) = Some ((true, o), bs) /\
    length bs = (4 + 2 * length (em_LevelData o))%nat /\
    reads (FunctionBlockProcessingEnhancedMixer_deserialize o0) bs (true, o).
Proof.
  intros (Hcs & Hss & Hl & Hlen & Hcl) Hps. destruct o as [cs ss len ps l].
  cbn [em_controlSelector em_statusSelector em_controlDataLength em_ProgramableStateData em_LevelData] in *.
  subst cs ss len. change (2 ^ 15) with 32768 in Hlen.
  destruct (write_levels_rt l l 0) as (bs & He & Hbl & Hr); [done..|].
  assert (Hn : u16 (Z.of_nat (length l) * 2) = 2 * Z.of_nat (length l)) by div_lia.
  assert (Hn2 : Z.to_nat (2 * Z.of_nat (length l) / 2) = length l) by div_lia.
  set (n := 2 * Z.of_nat (length l)) in *.
  exists ([eCSE_Processing_EnhancedMixer; eSS_Level] ++ [u8 (Z.shiftr n 8); Z.land n 0xff] ++ bs). split_and!.
  - unfold FunctionBlockProcessingEnhancedMixer_serialize.
    cbn [em_controlSelector em_statusSelector em_LevelData].
    eapply (emit_bind_eq _ _ [_]); [reflexivity| |reflexivity].
    eapply (emit_bind_eq _ _ [_]); [reflexivity| |reflexivity].
    cbn [Z.eqb Pos.eqb eSS_Level eSS_ProgramableState]. rewrite Hn, Hn2.
    eapply (emit_bind_eq _ _ [_; _]); [reflexivity| |reflexivity].
    eapply emit_bind_eq; [exact He|reflexivity|by rewrite app_nil_r].
  - cbn. lia.
  - unfold FunctionBlockProcessingEnhancedMixer_deserialize. cbn [app].
    apply reads_read_byte. cbv beta iota. apply reads_read_byte. cbv beta iota.
    apply reads_read_local. cbv beta iota. apply reads_read_local. cbv beta iota.
    apply reads_used. cbv beta iota. apply reads_used. cbv beta iota.
    cbn [Z.eqb Pos.eqb eSS_Level eSS_ProgramableState].
    assert (Hsum : u16 (Z.shiftl (u8 (Z.shiftr n 8)) 8 + Z.land n 0xff) = n)
      by (apply u16_split_add; subst n; width_lia).
    rewrite Hsum, Hn2.
    eapply reads_bind_eq; [exact Hr|by rewrite app_nil_r|].
    apply reads_ret_eq. by rewrite Hps.
Qed.

(** ** The remaining bytes of a response *)

Lemma drain_consumes rest : forall fuel pre,
  (length rest < fuel)%nat -> Z.of_nat (length (pre ++ rest)) < 2 ^ 64 ->
  run_reader (FunctionBlockProcessing_drain fuel) (at_ pre rest) = Some (tt, at_ (pre ++ rest) []).
Proof.
  induction rest as [|b rest IH]; intros [|fuel] pre Hf Hlen; cbn [length] in Hf; try lia;
    cbn [FunctionBlockProcessing_drain]; rewrite run_reader_bind; unfold read_local;
    cbn [run_reader de_read_byte BufferDeserialize_IISDeserialize]; unfold BufferDeserialize_read_byte.
  - rewrite app_nil_r in *. rewrite valid_at_end by done. done.
  - rewrite valid_at, cur_at by done. cbn [mbind option_bind is_assigned run_reader].
    rewrite advance1_at by done. rewrite IH; [by rewrite <- (assoc_L (++))|lia|by rewrite <- (assoc_L (++))].
Qed.

Lemma rest_consumed pre rest :
  Z.of_nat (length (pre ++ rest)) <= fcpFrameMaxLength ->
  run_reader FunctionBlockProcessing_rest (at_ pre rest) = Some (tt, at_ (pre ++ rest) []).
Proof.
  unfold fcpFrameMaxLength. intros Hlen. unfold FunctionBlockProcessing_rest.
  rewrite run_reader_bind. unfold peek_local.
  cbn [run_reader de_peek BufferDeserialize_IISDeserialize]. unfold BufferDeserialize_peek.
  destruct rest as [|b rest].
  - rewrite app_nil_r in *. rewrite valid_at_end by width_lia. done.
  - rewrite valid_at, cur_at by width_lia. cbn [mbind option_bind is_assigned run_reader].
    apply drain_consumes; [|width_lia]. rewrite length_app in Hlen. unfold fcpFrameMaxLength. lia.
Qed.

Lemma parses_rest {A} (a : A) l : parses (_ ← FunctionBlockProcessing_rest; mret a) l a.
Proof.
  intros pre rest Hlen. rewrite run_reader_bind, rest_consumed by done. by eexists.
Qed.

(** ** Processing blocks *)

Lemma FunctionBlockProcessing_mixer_parses (o0 o : FunctionBlockProcessing) m0 m p1 p2 :
  fp_pMixer o0 = Some m0 -> fp_pMixer o = Some m -> is_u16 (pm_mixerSetting m) ->
  fp_pEnhancedMixer o = fp_pEnhancedMixer o0 ->
  exists bs, emit (FunctionBlockProcessing_serialize o) = Some ((true, o), bs) /\ length bs = 8%nat /\
    parses (FunctionBlockProcessing_deserialize o0) (bs ++ [p1; p2]) (true, o).
Proof.
  intros H0 Hm Hv He. destruct (FunctionBlockProcessingMixer_rt m0 m p1 p2 Hv) as (bs & Hme & Hml & Hmr).
  destruct o as [sl ip ic oc om oe]; cbn [fp_pMixer fp_pEnhancedMixer] in *. subst om oe.
  exists ([sl; ip; ic; oc] ++ bs). split_and!.
  - do 4 (eapply (emit_bind_eq _ _ [_]); [reflexivity| |reflexivity]).
    cbn [fp_pMixer]. eapply emit_bind_eq; [exact Hme|reflexivity|by rewrite app_nil_r].
  - cbn. by rewrite Hml.
  - unfold FunctionBlockProcessing_deserialize. rewrite H0. cbn [app].
    do 4 (apply parses_read_byte; cbv beta iota).
    destruct bs as [|b bs]; [done|]. cbn [app]. apply parses_peek_local. cbv beta iota.
    cbn [Z.eqb Pos.eqb eCSE_Processing_Mixer]. apply parses_assoc.
    eapply parses_bind; [exact Hmr|by rewrite app_nil_r|]. cbv beta iota. apply parses_rest.
Qed.

Lemma FunctionBlockProcessing_enhanced_parses (o0 o : FunctionBlockProcessing) e0 e pad :
  fp_pMixer o0 = None -> fp_pEnhancedMixer o0 = Some e0 ->
  fp_pMixer o = None -> fp_pEnhancedMixer o = Some e ->
  em_levels_wf e -> em_ProgramableStateData e = em_ProgramableStateData e0 ->
  exists bs, emit (FunctionBlockProcessing_serialize o) = Some ((true, o), bs) /\
    length bs = (8 + 2 * length (em_LevelData e))%nat /\
    parses (FunctionBlockProcessing_deserialize o0) (bs ++ pad) (true, o).
Proof.
  intros H0 He0 Hm He Hwf Hps.
  destruct (FunctionBlockProcessingEnhancedMixer_rt e0 e Hwf Hps) as (bs & Hee & Hel & Her).
  destruct o as [sl ip ic oc om oe]; cbn [fp_pMixer fp_pEnhancedMixer] in *. subst om oe.
  exists ([sl; ip; ic; oc] ++ bs). split_and!.
  - do 4 (eapply (emit_bind_eq _ _ [_]); [reflexivity| |reflexivity]).
    cbn [fp_pMixer fp_pEnhancedMixer]. eapply emit_bind_eq; [exact Hee|reflexivity|by rewrite app_nil_r].
  - cbn. rewrite Hel. lia.
  - unfold FunctionBlockProcessing_deserialize. rewrite H0, He0. cbn [app].
    do 4 (apply parses_read_byte; cbv beta iota).
    destruct bs as [|b bs]; [done|]. cbn [app]. apply parses_peek_local. cbv beta iota.
    cbn [Z.eqb Pos.eqb eCSE_Processing_Mixer eCSE_Processing_EnhancedMixer]. apply parses_assoc.
    eapply (parses_bind _ _ (b :: bs) pad); [exact Her|done|]. cbv beta iota. apply parses_rest.
Qed.

(** ** The command *)

Lemma FunctionBlockCmd_volume_rt (c0 c : FunctionBlockCmd) f0 v0 f v :
  ctype_named (fb_base c) ->
  fb_functionBlockType c = eFBT_Feature -> fb_pFBFeature c = Some f -> ff_controlSelector f = eCSE_Feature_Volume ->
  ff_pVolume f = Some v -> is_u16 (fv_volume v) ->
  fb_pFBFeature c0 = Some f0 -> ff_pVolume f0 = Some v0 -> ff_pLRBalance f0 = ff_pLRBalance f ->
  fb_pFBSelector c = fb_pFBSelector c0 -> fb_pFBProcessing c = fb_pFBProcessing c0 -> fb_pFBCodec c = fb_pFBCodec c0 ->
  cmd_roundtrips c0 c.
Proof.
  intros Hb Hty Hf Hcs Hv Hu Hf0 Hv0 Hlr Hsel Hpr Hco.
  destruct (FunctionBlockFeatureVolume_rt v0 v Hu) as (bs & Hve & Hvr).
  destruct c as [b ty id ca sel ft pr co]; cbn [fb_base fb_functionBlockType fb_pFBFeature fb_pFBSelector
    fb_pFBProcessing fb_pFBCodec] in *. subst ty ft sel pr co.
  destruct f as [sl ch cs fv fl]; cbn [ff_controlSelector ff_pVolume ff_pLRBalance] in *. subst cs fv.
  exists (AVCCommand_header b ++ [eFBT_Feature; id; ca; sl; ch; eCSE_Feature_Volume] ++ bs). split.
  - apply emit_header; [exact Hb|].
    do 3 (eapply (emit_bind_eq _ _ [_]); [reflexivity| |reflexivity]).
    cbn [fb_functionBlockType Z.eqb Pos.eqb eFBT_Feature eFBT_Selector fb_pFBFeature].
    eapply (emit_bind_eq _ _ (_ :: _ :: _ :: bs)); [|reflexivity|by rewrite app_nil_r].
    do 3 (eapply (emit_bind_eq _ _ [_]); [reflexivity| |reflexivity]).
    cbn [ff_controlSelector Z.eqb Pos.eqb eCSE_Feature_Volume ff_pVolume serialize_ptr].
    eapply emit_bind_eq; [exact Hve|reflexivity|by rewrite app_nil_r].
  - apply reads_header_of. cbv beta iota. cbn [app].
    do 3 (apply reads_read_byte; cbv beta iota).
    cbn [Z.eqb Pos.eqb eFBT_Feature eFBT_Selector]. rewrite Hf0. cbn [from_option Datatypes.id].
    eapply (reads_bind_eq _ _ (_ :: _ :: _ :: bs) [] _
      (true, mkFunctionBlockFeature sl ch eCSE_Feature_Volume (Some v) fl)); [|by rewrite app_nil_r|apply reads_ret].
    do 3 (apply reads_read_byte; cbv beta iota).
    cbn [Z.eqb Pos.eqb eCSE_Feature_Volume]. rewrite Hv0. cbn [deserialize_ptr].
    apply reads_assoc. eapply reads_bind_eq; [exact Hvr|by rewrite app_nil_r|].
    apply reads_ret_eq. by rewrite Hlr.
Qed.

(** A processing block with a mixer: the frame has 14 bytes, and the padding
    of the last quadlet is the padding the parser expects. *)
Lemma FunctionBlockCmd_mixer_answers (c0 c : FunctionBlockCmd) p0 m0 p m :
  ctype_named (fb_base c) ->
  fb_functionBlockType c = eFBT_Processing -> fb_pFBProcessing c = Some p -> fp_pMixer p = Some m ->
  is_u16 (pm_mixerSetting m) ->
  fb_pFBProcessing c0 = Some p0 -> fp_pMixer p0 = Some m0 -> fp_pEnhancedMixer p = fp_pEnhancedMixer p0 ->
  fb_pFBSelector c = fb_pFBSelector c0 -> fb_pFBFeature c = fb_pFBFeature c0 -> fb_pFBCodec c = fb_pFBCodec c0 ->
  cmd_answers c0 c (cmd_set_base (AVCCommand_merge (cmd_base c0) (cmd_base c)) c).
Proof.
  intros Hb Hty Hp Hm Hu Hp0 Hm0 He Hsel Hft Hco.
  destruct (FunctionBlockProcessing_mixer_parses p0 p m0 m 0 0 Hm0 Hm Hu He) as (bs & Hpe & Hpl & Hpp).
  destruct c as [b ty id ca sel ft pr co]; cbn [fb_base fb_functionBlockType fb_pFBFeature fb_pFBSelector
    fb_pFBProcessing fb_pFBCodec] in *. subst ty ft sel pr co.
  exists (AVCCommand_header b ++ [eFBT_Processing; id; ca] ++ bs).
  assert (Hlen : length (AVCCommand_header b ++ [eFBT_Processing; id; ca] ++ bs) = 14%nat) by (cbn; by rewrite Hpl).
  split_and!.
  - apply emit_header; [exact Hb|].
    do 3 (eapply (emit_bind_eq _ _ [_]); [reflexivity| |reflexivity]).
    cbn [fb_functionBlockType Z.eqb Pos.eqb eFBT_Processing eFBT_Feature eFBT_Selector fb_pFBProcessing].
    eapply emit_bind_eq; [exact Hpe|reflexivity|by rewrite app_nil_r].
  - done.
  - lia.
  - unfold quadlet_padded. rewrite Hlen. change (replicate (4 * ((14 + 3) / 4) - 14) 0) with [0; 0].
    rewrite <- !(assoc_L (++)). eapply parses_bind; [apply AVCCommand_reads|done|]. cbv beta iota. cbn [app].
    do 3 (apply parses_read_byte; cbv beta iota).
    cbn [Z.eqb Pos.eqb eFBT_Processing eFBT_Feature eFBT_Selector]. rewrite Hp0. cbn [from_option Datatypes.id].
    eapply parses_last; [exact Hpp|reflexivity].
Qed.

(** ** Properties *)

(** a FUNCTION BLOCK command for the volume of a feature block carries the
    16-bit volume (and the control data length, the channel, the block id and
    the control attribute) unchanged. *)
Lemma FunctionBlockCmd_volume_roundtrip (c0 c : FunctionBlockCmd) f0 v0 f v :
  ctype_named (fb_base c) ->
  fb_functionBlockType c = eFBT_Feature -> fb_pFBFeature c = Some f -> ff_controlSelector f = eCSE_Feature_Volume ->
  ff_pVolume f = Some v -> is_u16 (fv_volume v) ->
  fb_pFBFeature c0 = Some f0 -> ff_pVolume f0 = Some v0 -> ff_pLRBalance f0 = ff_pLRBalance f ->
  fb_pFBSelector c = fb_pFBSelector c0 -> fb_pFBProcessing c = fb_pFBProcessing c0 -> fb_pFBCodec c = fb_pFBCodec c0 ->
  cmd_roundtrips c0 c.
Proof. apply FunctionBlockCmd_volume_rt. Qed.

Definition feature_cmd (base : AVCCommand) (volume : Z) : FunctionBlockCmd :=
  mkFunctionBlockCmd base eFBT_Feature 1 0x10 None
    (Some (mkFunctionBlockFeature 2 1 eCSE_Feature_Volume (Some (mkFunctionBlockFeatureVolume 2 volume)) None)) None None.

Lemma FunctionBlockCmd_volume_roundtrip_witness :
  let b0 := AVCCommand_new AVC1394_FUNCTION_BLOCK_CMD in
  let b := AVCCommand_with_header eR_Accepted 0x08 AVC1394_FUNCTION_BLOCK_CMD b0 in
  cmd_roundtrips (feature_cmd b0 0) (feature_cmd b 0xC800).
Proof.
  intros b0 b. eapply (FunctionBlockCmd_volume_roundtrip (feature_cmd b0 0) (feature_cmd b 0xC800));
    try reflexivity; [eexists; vm_compute; reflexivity|].
  split; vm_compute; congruence.
Defined.

(** A FUNCTION BLOCK command for the mixer of a processing block: the
    16-byte frame that [fire] sends for the 14 bytes of the command is parsed
    back without loss, the padding being what the parser skips. *)
Lemma FunctionBlockCmd_mixer_answered (c0 c : FunctionBlockCmd) p0 m0 p m :
  ctype_named (fb_base c) ->
  fb_functionBlockType c = eFBT_Processing -> fb_pFBProcessing c = Some p -> fp_pMixer p = Some m ->
  is_u16 (pm_mixerSetting m) ->
  fb_pFBProcessing c0 = Some p0 -> fp_pMixer p0 = Some m0 -> fp_pEnhancedMixer p = fp_pEnhancedMixer p0 ->
  fb_pFBSelector c = fb_pFBSelector c0 -> fb_pFBFeature c = fb_pFBFeature c0 -> fb_pFBCodec c = fb_pFBCodec c0 ->
  cmd_answers c0 c (cmd_set_base (AVCCommand_merge (cmd_base c0) (cmd_base c)) c).
Proof. apply FunctionBlockCmd_mixer_answers. Qed.

Definition mixer_cmd (base : AVCCommand) (setting : Z) : FunctionBlockCmd :=
  mkFunctionBlockCmd base eFBT_Processing 1 0x10 None None
    (Some (mkFunctionBlockProcessing 4 0 1 2
       (Some (mkFunctionBlockProcessingMixer eCSE_Processing_Mixer 2 setting)) None)) None.

Lemma FunctionBlockCmd_mixer_answered_witness :
  let b0 := AVCCommand_new AVC1394_FUNCTION_BLOCK_CMD in
  let b := AVCCommand_with_header eR_Accepted 0x08 AVC1394_FUNCTION_BLOCK_CMD b0 in
  cmd_answers (mixer_cmd b0 0) (mixer_cmd b 0x1234)
    (mixer_cmd (AVCCommand_merge b0 b) 0x1234).
Proof.
  intros b0 b.
  eapply (FunctionBlockCmd_mixer_answered (mixer_cmd b0 0) (mixer_cmd b 0x1234));
    try reflexivity; [eexists; vm_compute; reflexivity|].
  split; vm_compute; congruence.
Defined.
