(* ===== verification/Memory.v ===== *)
(** * Memory: loops, byte order and memory blocks

    What the encoders and decoders of the stream processors share: counted
    loops, libutil/ByteSwap.h on a little endian host, quadlets in a block of
    bytes, and the sample buffers of the client.  [None] is an access outside
    of a block or through a null pointer. *)
From stdpp Require Import gmap.
From S2P Require Import Prelude Serialize.

(** ** Loops *)

(** [for (i = start; i < start + n; i++) body], with the state explicit *)
Fixpoint loop_from {S} (body : Z -> S -> option S) (i : Z) (n : nat) (s : S) : option S :=
  match n with
  | O => Some s
  | Datatypes.S n' => s1 ← body i s; loop_from body (i + 1) n' s1
  end.

Definition for_loop {S} (n : Z) (body : Z -> S -> option S) (s : S) : option S := loop_from body 0 (Z.to_nat n) s.

(** The rule for total loops: an invariant that every iteration establishes
    for the next index. *)
Lemma loop_from_rule {S} (P : Z -> S -> Prop) (body : Z -> S -> option S) n i s :
  P i s ->
  (forall k t, i <= k < i + Z.of_nat n -> P k t -> exists t1, body k t = Some t1 /\ P (k + 1) t1) ->
  exists s1, loop_from body i n s = Some s1 /\ P (i + Z.of_nat n) s1.
Proof.
  revert i s. induction n as [|n IH]; intros i s Hs Hb; cbn [loop_from].
  - exists s. split; [done|]. by replace (i + Z.of_nat 0) with i by lia.
  - destruct (Hb i s) as (s1 & -> & H1); [lia|done|]. cbn [mbind option_bind].
    destruct (IH (i + 1) s1 H1) as (s2 & Hs2 & H2).
    { intros k t Hk. apply Hb. lia. }
    exists s2. split; [done|]. by replace (i + Z.of_nat (Datatypes.S n)) with (i + 1 + Z.of_nat n) by lia.
Qed.

Lemma for_loop_rule {S} (P : Z -> S -> Prop) (body : Z -> S -> option S) n s :
  0 <= n -> P 0 s ->
  (forall k t, 0 <= k < n -> P k t -> exists t1, body k t = Some t1 /\ P (k + 1) t1) ->
  exists s1, for_loop n body s = Some s1 /\ P n s1.
Proof.
  intros Hn H0 Hb. unfold for_loop. destruct (loop_from_rule P body (Z.to_nat n) 0 s H0) as (s1 & -> & H1).
  - intros k t Hk. apply Hb. lia.
  - exists s1. split; [done|]. by replace n with (0 + Z.of_nat (Z.to_nat n)) by lia.
Qed.

(** The rule for partial correctness. *)
Lemma loop_from_inv {S} (P : Z -> S -> Prop) (body : Z -> S -> option S) n i s s1 :
  P i s ->
  (forall k t t1, i <= k < i + Z.of_nat n -> P k t -> body k t = Some t1 -> P (k + 1) t1) ->
  loop_from body i n s = Some s1 -> P (i + Z.of_nat n) s1.
Proof.
  revert i s. induction n as [|n IH]; intros i s Hs Hb; cbn [loop_from].
  - intros [= <-]. by replace (i + Z.of_nat 0) with i by lia.
  - destruct (body i s) as [s2|] eqn:H2; [|done]. cbn [mbind option_bind]. intros Hl.
    replace (i + Z.of_nat (Datatypes.S n)) with (i + 1 + Z.of_nat n) by lia.
    apply (IH (i + 1) s2); [apply (Hb i s); [lia|done..]| |done].
    intros k t t1 Hk. apply Hb. lia.
Qed.

Lemma for_loop_inv {S} (P : Z -> S -> Prop) (body : Z -> S -> option S) n s s1 :
  0 <= n -> P 0 s ->
  (forall k t t1, 0 <= k < n -> P k t -> body k t = Some t1 -> P (k + 1) t1) ->
  for_loop n body s = Some s1 -> P n s1.
Proof.
  intros Hn H0 Hb Hl. replace n with (0 + Z.of_nat (Z.to_nat n)) by lia.
  apply (loop_from_inv P body (Z.to_nat n) 0 s); [done| |done]. intros k t t1 Hk. apply Hb. lia.
Qed.

Lemma loop_from_ext {S} (f g : Z -> S -> option S) n i s :
  (forall k t, i <= k < i + Z.of_nat n -> f k t = g k t) -> loop_from f i n s = loop_from g i n s.
Proof.
  revert i s. induction n as [|n IH]; intros i s He; cbn [loop_from]; [done|].
  rewrite He by lia. destruct (g i s) as [s1|]; [|done]. cbn. apply IH. intros k t Hk. apply He. lia.
Qed.

(** ** Byte order *)

Definition ByteSwap32 (d : Z) : Z :=
  Z.lor (Z.lor (Z.shiftl (Z.land d 0x000000FF) 24) (Z.shiftl (Z.land d 0x0000FF00) 8))
        (Z.lor (Z.shiftr (Z.land d 0x00FF0000) 8) (Z.shiftr (Z.land d 0xFF000000) 24)).

Definition ByteSwap16 (d : Z) : Z :=
  Z.lor (Z.shiftl (Z.land d 0xFF) 8) (Z.shiftr (Z.land d 0xFF00) 8).

Definition CondSwapToBus32 (d : Z) : Z := ByteSwap32 d.
Definition CondSwapFromBus32 (d : Z) : Z := ByteSwap32 d.
Definition CondSwapToBus16 (d : Z) : Z := ByteSwap16 d.
Definition CondSwapFromBus16 (d : Z) : Z := ByteSwap16 d.

Lemma land_shiftl x m n : 0 <= n -> Z.land x (Z.shiftl m n) = Z.shiftl (Z.land (Z.shiftr x n) m) n.
Proof.
  intros Hn. apply Z.bits_inj'. intros k Hk. rewrite Z.land_spec, !Z.shiftl_spec, Z.land_spec by done.
  destruct (decide (k < n)).
  - rewrite (Z.testbit_neg_r m), (Z.testbit_neg_r _ (k - n)) by lia. by rewrite andb_false_r.
  - rewrite Z.shiftr_spec by lia. by replace (k - n + n) with k by lia.
Qed.

(** The bytes of a word, the least significant one first. *)
Definition word_of (b0 b1 b2 b3 : Z) : Z := b0 + 2 ^ 8 * b1 + 2 ^ 16 * b2 + 2 ^ 24 * b3.

Lemma word_of_byte b0 b1 b2 b3 :
  is_u8 b0 -> is_u8 b1 -> is_u8 b2 -> is_u8 b3 ->
  let x := word_of b0 b1 b2 b3 in
  x mod 2 ^ 8 = b0 /\ (x / 2 ^ 8) mod 2 ^ 8 = b1 /\ (x / 2 ^ 16) mod 2 ^ 8 = b2 /\ (x / 2 ^ 24) mod 2 ^ 8 = b3.
Proof.
  intros H0 H1 H2 H3 x. unfold x, word_of.
  change (2 ^ 8) with 256; change (2 ^ 16) with 65536; change (2 ^ 24) with 16777216.
  split; [|split; [|split]]; div_lia.
Qed.

Lemma word_of_bytes x :
  is_u32 x -> x = word_of (x mod 2 ^ 8) ((x / 2 ^ 8) mod 2 ^ 8) ((x / 2 ^ 16) mod 2 ^ 8) ((x / 2 ^ 24) mod 2 ^ 8).
Proof.
  intros Hx. unfold word_of. change (2 ^ 8) with 256; change (2 ^ 16) with 65536; change (2 ^ 24) with 16777216. div_lia.
Qed.

Lemma word_of_u32 b0 b1 b2 b3 :
  is_u8 b0 -> is_u8 b1 -> is_u8 b2 -> is_u8 b3 -> is_u32 (word_of b0 b1 b2 b3).
Proof.
  unfold word_of. change (2 ^ 8) with 256; change (2 ^ 16) with 65536; change (2 ^ 24) with 16777216. width_lia.
Qed.

Lemma ByteSwap32_word b0 b1 b2 b3 :
  is_u8 b0 -> is_u8 b1 -> is_u8 b2 -> is_u8 b3 -> ByteSwap32 (word_of b0 b1 b2 b3) = word_of b3 b2 b1 b0.
Proof.
  intros H0 H1 H2 H3. destruct (word_of_byte b0 b1 b2 b3 H0 H1 H2 H3) as (E0 & E1 & E2 & E3).
  set (x := word_of b0 b1 b2 b3) in *. unfold ByteSwap32.
  change 0x0000FF00 with (Z.shiftl 0xff 8); change 0x00FF0000 with (Z.shiftl 0xff 16);
    change 0xFF000000 with (Z.shiftl 0xff 24).
  rewrite !land_shiftl, !land_0xff by lia. rewrite Z.shiftl_shiftl, !Z.shiftr_shiftl_l by lia.
  rewrite !Z.shiftr_div_pow2 by lia. change 256 with (2 ^ 8). rewrite E0, E1, E2, E3.
  change (24 - 24) with 0. rewrite Z.shiftl_0_r.
  rewrite (lor_add b2 b3) by width_lia. rewrite (lor_add b0) by (rewrite ?Z.shiftl_mul_pow2 by lia; width_lia).
  replace (b0 * 2 ^ 24 + Z.shiftl b1 (8 + 8)) with (Z.shiftl (b0 * 2 ^ 8 + b1) 16)
    by (rewrite !Z.shiftl_mul_pow2 by lia; lia).
  rewrite lor_add by width_lia. unfold word_of. lia.
Qed.

Lemma ByteSwap32_u32 x : is_u32 x -> is_u32 (ByteSwap32 x).
Proof.
  intros Hx. rewrite (word_of_bytes x Hx). rewrite ByteSwap32_word by (apply wrapU_uint; lia).
  apply word_of_u32; apply wrapU_uint; lia.
Qed.

Lemma ByteSwap32_involutive x : is_u32 x -> ByteSwap32 (ByteSwap32 x) = x.
Proof.
  intros Hx. rewrite (word_of_bytes x Hx) at 1. rewrite !ByteSwap32_word by (apply wrapU_uint; lia).
  by rewrite <- word_of_bytes.
Qed.

Lemma ByteSwap16_bytes lo hi : is_u8 lo -> is_u8 hi -> ByteSwap16 (lo + 2 ^ 8 * hi) = hi + 2 ^ 8 * lo.
Proof.
  intros Hl Hh. unfold ByteSwap16. change 0xFF00 with (Z.shiftl 0xff 8).
  rewrite !land_shiftl, !land_0xff by lia. rewrite Z.shiftr_shiftl_l, Z.shiftr_div_pow2 by lia.
  change (8 - 8) with 0. rewrite Z.shiftl_0_r.
  replace ((lo + 2 ^ 8 * hi) mod 256) with lo by (change (2 ^ 8) with 256; div_lia).
  replace (((lo + 2 ^ 8 * hi) / 2 ^ 8) mod 256) with hi by (change (2 ^ 8) with 256; div_lia).
  rewrite lor_add by width_lia. lia.
Qed.

Lemma ByteSwap16_involutive x : is_u16 x -> ByteSwap16 (ByteSwap16 x) = x.
Proof.
  intros Hx. replace x with (x mod 256 + 2 ^ 8 * (x / 256)) by (change (2 ^ 8) with 256; div_lia).
  by rewrite !ByteSwap16_bytes by div_lia.
Qed.

Lemma ByteSwap16_u16 x : is_u16 x -> is_u16 (ByteSwap16 x).
Proof.
  intros Hx. replace x with (x mod 256 + 2 ^ 8 * (x / 256)) by (change (2 ^ 8) with 256; div_lia).
  rewrite !ByteSwap16_bytes by div_lia. change (2 ^ 8) with 256. div_lia.
Qed.

(** ** Quadlets in a block of bytes *)

(** [((quadlet_t * )data)[k]] *)
Definition load_quadlet (data : list Z) (k : Z) : option Z :=
  if decide (0 <= k) then
    let i := Z.to_nat (4 * k) in
    b0 ← data !! i; b1 ← data !! (i + 1)%nat; b2 ← data !! (i + 2)%nat; b3 ← data !! (i + 3)%nat;
    Some (word_of b0 b1 b2 b3)
  else None.

Definition store_quadlet (k v : Z) (data : list Z) : option (list Z) :=
  if decide (0 <= k /\ 4 * k + 4 <= Z.of_nat (length data)) then
    Some (list_inserts (Z.to_nat (4 * k)) (quadlet_bytes v) data)
  else None.

(** a [uint16_t] at a byte address *)
Definition load_u16 (data : list Z) (i : Z) : option Z :=
  b0 ← load data i; b1 ← load data (i + 1); Some (b0 + 2 ^ 8 * b1).

Definition store_u16 (i v : Z) (data : list Z) : option (list Z) :=
  data1 ← store data i (u8 v); store data1 (i + 1) (u8 (Z.shiftr v 8)).

Definition bytes (data : list Z) : Prop := Forall is_u8 data.

Lemma quadlet_bytes_word v : u32 v = word_of (u8 v) (u8 (Z.shiftr v 8)) (u8 (Z.shiftr v 16)) (u8 (Z.shiftr v 24)).
Proof.
  rewrite !Z.shiftr_div_pow2 by lia. unfold word_of.
  change (2 ^ 8) with 256; change (2 ^ 16) with 65536; change (2 ^ 24) with 16777216. div_lia.
Qed.

Lemma load_quadlet_some data k :
  0 <= k -> 4 * k + 4 <= Z.of_nat (length data) -> exists v, load_quadlet data k = Some v.
Proof.
  intros Hk Hl. unfold load_quadlet. rewrite decide_True by done. cbv zeta.
  destruct (lookup_lt_is_Some_2 data (Z.to_nat (4 * k))) as [b0 ->]; [lia|].
  destruct (lookup_lt_is_Some_2 data (Z.to_nat (4 * k) + 1)) as [b1 ->]; [lia|].
  destruct (lookup_lt_is_Some_2 data (Z.to_nat (4 * k) + 2)) as [b2 ->]; [lia|].
  destruct (lookup_lt_is_Some_2 data (Z.to_nat (4 * k) + 3)) as [b3 ->]; [lia|].
  by eexists.
Qed.

Lemma load_quadlet_u32 data k v : bytes data -> load_quadlet data k = Some v -> is_u32 v.
Proof.
  intros Hb. unfold load_quadlet. case_decide; [|done]. cbv zeta.
  intros (b0 & H0 & (b1 & H1 & (b2 & H2 & (b3 & H3 & [= <-])%bind_Some)%bind_Some)%bind_Some)%bind_Some.
  unfold bytes in Hb. rewrite Forall_lookup in Hb. by apply word_of_u32; eapply Hb.
Qed.

Lemma store_quadlet_inv k v data data1 :
  store_quadlet k v data = Some data1 ->
  length data1 = length data /\ load_quadlet data1 k = Some (u32 v) /\
  (forall j, j <> k -> load_quadlet data1 j = load_quadlet data j) /\ (bytes data -> bytes data1).
Proof.
  unfold store_quadlet. case_decide as Hk; [|done]. intros Heq. apply (inj Some) in Heq as <-.
  set (d1 := list_inserts (Z.to_nat (4 * k)) (quadlet_bytes v) data). assert (Hl : length d1 = length data) by apply length_inserts.
  assert (Hin : forall i, (i < 4)%nat -> d1 !! (Z.to_nat (4 * k) + i)%nat = quadlet_bytes v !! i).
  { intros i Hi. transitivity (quadlet_bytes v !! (Z.to_nat (4 * k) + i - Z.to_nat (4 * k))%nat); [|f_equal; lia].
    apply list_lookup_inserts; cbn [quadlet_bytes length]; lia. }
  assert (Hout : forall i, (i < Z.to_nat (4 * k) \/ Z.to_nat (4 * k) + 4 <= i)%nat -> d1 !! i = data !! i).
  { intros i [Hi|Hi]; [by apply list_lookup_inserts_lt|apply list_lookup_inserts_ge; cbn [quadlet_bytes length]; lia]. }
  clearbody d1. split; [done|]. split; [|split].
  - unfold load_quadlet. rewrite decide_True by lia. cbv zeta.
    rewrite <- (Nat.add_0_r (Z.to_nat (4 * k))) at 1. rewrite !Hin by lia. cbn. by rewrite quadlet_bytes_word.
  - intros j Hj. unfold load_quadlet. case_decide; [|done]. cbv zeta. by rewrite !Hout by lia.
  - unfold bytes. rewrite !Forall_lookup. intros Hb i b Hi.
    destruct (decide (Z.to_nat (4 * k) <= i < Z.to_nat (4 * k) + 4)%nat) as [Hr|Hr].
    + replace i with (Z.to_nat (4 * k) + (i - Z.to_nat (4 * k)))%nat in Hi by lia. rewrite Hin in Hi by lia.
      assert (Hq : bytes (quadlet_bytes v)) by (repeat constructor; apply wrapU_uint; lia).
      unfold bytes in Hq. rewrite Forall_lookup in Hq. by eapply Hq.
    + rewrite Hout in Hi by lia. by eapply Hb.
Qed.

Lemma store_quadlet_some k v data :
  0 <= k -> 4 * k + 4 <= Z.of_nat (length data) -> exists data1, store_quadlet k v data = Some data1.
Proof. intros Hk Hl. unfold store_quadlet. rewrite decide_True by done. by eexists. Qed.

(** the bytes of the block after a store *)
Lemma store_quadlet_load k v data data1 :
  store_quadlet k v data = Some data1 ->
  length data1 = length data /\ (forall r, 0 <= r < 4 -> load data1 (4 * k + r) = load (quadlet_bytes v) r) /\
  (forall x, ~ (4 * k <= x < 4 * k + 4) -> load data1 x = load data x).
Proof.
  unfold store_quadlet. case_decide as Hk; [|done]. intros Heq. apply (inj Some) in Heq as <-.
  assert (Hl : length (list_inserts (Z.to_nat (4 * k)) (quadlet_bytes v) data) = length data) by apply length_inserts.
  split; [done|]. unfold load. rewrite Hl. split.
  - intros r Hr. rewrite !decide_True by (cbn [quadlet_bytes length]; lia).
    rewrite list_lookup_inserts by (cbn [quadlet_bytes length]; lia). f_equal. lia.
  - intros x Hx. case_decide; [|done].
    destruct (decide (x < 4 * k)); [apply list_lookup_inserts_lt|apply list_lookup_inserts_ge; cbn [quadlet_bytes length]]; lia.
Qed.

Lemma load_some data x : 0 <= x < Z.of_nat (length data) -> exists v, load data x = Some v.
Proof. intros Hx. unfold load. rewrite decide_True by done. apply lookup_lt_is_Some_2. lia. Qed.

(** ** Client buffers

    The buffers that the client hands to the ports: blocks of 32-bit words,
    addressed by the pointer that [setBufferAddress] was given. *)
Abbreviation memory := (gmap Z (list Z)).

(** [((quadlet_t * )p)[i]]; [None] for [p] is the null pointer *)
Definition mem_load (m : memory) (p : option Z) (i : Z) : option Z :=
  a ← p; blk ← m !! a; load blk i.

Definition mem_store (p : option Z) (i v : Z) (m : memory) : option memory :=
  a ← p; blk ← m !! a; blk1 ← store blk i v; Some (<[a := blk1]> m).

(** [memset] of [n] words *)
Definition mem_clear (p : option Z) (i n : Z) (m : memory) : option memory :=
  for_loop n (fun j m => mem_store p (i + j) 0 m) m.

Lemma store_inv blk i v blk1 :
  store blk i v = Some blk1 ->
  length blk1 = length blk /\ load blk1 i = Some v /\ (forall j, j <> i -> load blk1 j = load blk j).
Proof.
  unfold store. case_decide as Hi; [|done]. intros [= <-]. split; [by rewrite length_insert|]. split.
  - unfold load. rewrite decide_True by (rewrite length_insert; lia). apply list_lookup_insert_eq. lia.
  - intros j Hj. unfold load. rewrite length_insert. case_decide; [|done].
    apply list_lookup_insert_ne. lia.
Qed.

Lemma store_some blk i v : 0 <= i < Z.of_nat (length blk) -> exists blk1, store blk i v = Some blk1.
Proof. intros Hi. unfold store. rewrite decide_True by done. by eexists. Qed.

(** [mem_has m p n]: the pointer is to a buffer of at least [n] words *)
Definition mem_has (m : memory) (p : option Z) (n : Z) : Prop :=
  exists a blk, p = Some a /\ m !! a = Some blk /\ n <= Z.of_nat (length blk).

Lemma mem_store_some p i v m n :
  mem_has m p n -> 0 <= i < n -> exists m1, mem_store p i v m = Some m1.
Proof.
  intros (a & blk & -> & Hm & Hn) Hi. unfold mem_store. cbn [mbind option_bind]. rewrite Hm. cbn [mbind option_bind].
  destruct (store_some blk i v) as [blk1 ->]; [lia|]. by eexists.
Qed.

Lemma mem_store_inv p i v m m1 :
  mem_store p i v m = Some m1 ->
  mem_load m1 p i = Some v /\
  (forall q j, (q <> p \/ j <> i) -> mem_load m1 q j = mem_load m q j) /\
  (forall q n, mem_has m q n -> mem_has m1 q n).
Proof.
  unfold mem_store. destruct p as [a|]; [|done]. cbn [mbind option_bind].
  destruct (m !! a) as [blk|] eqn:Hm; [|done]. cbn [mbind option_bind].
  destruct (store blk i v) as [blk1|] eqn:Hs; [|done]. cbn [mbind option_bind]. intros Heq. apply (inj Some) in Heq as <-.
  destruct (store_inv _ _ _ _ Hs) as (Hl & Hv & Ho). unfold mem_load, mem_has. split; [|split].
  - cbn [mbind option_bind]. by rewrite lookup_insert_eq.
  - intros [b|] j Hq; [|done]. cbn [mbind option_bind]. destruct (decide (a = b)) as [->|Hne].
    + rewrite lookup_insert_eq, Hm. cbn [mbind option_bind]. apply Ho. by destruct Hq.
    + by rewrite lookup_insert_ne.
  - intros q n (b & blk2 & -> & Hb & Hn). exists b. destruct (decide (a = b)) as [->|Hne].
    + rewrite lookup_insert_eq. exists blk1. split; [done|]. split; [done|]. rewrite Hl. congruence.
    + rewrite lookup_insert_ne by done. by exists blk2.
Qed.

Lemma mem_clear_spec p offset n m :
  0 <= offset -> 0 <= n -> mem_has m p (offset + n) ->
  exists m1, mem_clear p offset n m = Some m1 /\
    (forall k, 0 <= k < n -> mem_load m1 p (offset + k) = Some 0) /\
    (forall b k, ~ (b = p /\ offset <= k < offset + n) -> mem_load m1 b k = mem_load m b k) /\
    (forall b l, mem_has m b l -> mem_has m1 b l).
Proof.
  intros Ho Hn Hm. unfold mem_clear.
  destruct (for_loop_rule (fun n m1 =>
    (forall k, 0 <= k < n -> mem_load m1 p (offset + k) = Some 0) /\
    (forall b k, ~ (b = p /\ offset <= k < offset + n) -> mem_load m1 b k = mem_load m b k) /\
    (forall b l, mem_has m b l -> mem_has m1 b l))
    (fun j m => mem_store p (offset + j) 0 m) n m) as (m1 & -> & H1); [done| | |by exists m1].
  - split; [intros; lia|by split].
  - intros j m1 Hj (Hz & Hf & Hh). destruct (mem_store_some p (offset + j) 0 m1 (offset + n)) as [m2 Hs]; [by apply Hh|lia|].
    exists m2. split; [done|]. destruct (mem_store_inv _ _ _ _ _ Hs) as (Hv & Ho2 & Hh2). split; [|split].
    + intros k Hk. destruct (Z.eq_dec k j) as [->|]; [done|]. rewrite Ho2 by (right; lia). apply Hz. lia.
    + intros b k Hnot. rewrite Ho2.
      * apply Hf. intros [Hb Hk]. apply Hnot. split; [done|lia].
      * destruct (decide (b = p)) as [->|]; [right|by left]. intros ->. apply Hnot. split; [done|lia].
    + intros b l Hb. by apply Hh2, Hh.
Qed.
