(* ===== verification/MidiQueue.v ===== *)
(** * MidiQueue: the queue between MIDI events and the buffer of a port

    The receive stream processors pass MIDI bytes through a small circular
    buffer, since the client takes a byte from every eighth slot of the buffer
    of a port only.  The AMDTP and the MOTU receivers have the same code. *)
From stdpp Require Import gmap.
From S2P Require Import Prelude Serialize Memory.

Definition RX_MIDIBUFFER_SIZE : Z := 64.

(** The MIDI queue, the pointer into the buffer of the port, and the memory. *)
Record midi_state := mkMidi { md_buf : list Z; md_head : Z; md_tail : Z; md_pos : Z; md_mem : memory }.

(** a byte is queued; when the queue is full the oldest byte is dropped *)
Definition midi_put (v : Z) (t : midi_state) : option midi_state :=
  buf ← store (md_buf t) (md_head t) v;
  let head := Z.land (u32 (md_head t + 1)) (RX_MIDIBUFFER_SIZE - 1) in
  let tail := if head =? md_tail t then Z.land (u32 (md_tail t + 1)) (RX_MIDIBUFFER_SIZE - 1) else md_tail t in
  Some (mkMidi buf head tail (md_pos t) (md_mem t)).

(** at every eighth event a byte goes to the buffer of the port *)
Definition midi_get (j : Z) (buffer : option Z) (t : midi_state) : option midi_state :=
  if j mod 8 =? 0 then
    if md_head t =? md_tail t then Some (mkMidi (md_buf t) (md_head t) (md_tail t) (md_pos t + 8) (md_mem t))
    else
      v ← load (md_buf t) (md_tail t);
      m ← mem_store buffer (md_pos t) v (md_mem t);
      Some (mkMidi (md_buf t) (md_head t) (Z.land (u32 (md_tail t + 1)) (RX_MIDIBUFFER_SIZE - 1)) (md_pos t + 8) m)
  else Some t.

(** one event: a byte that arrives or none, and the output slot *)
Definition midi_event (ev : option Z) (j : Z) (buffer : option Z) (t : midi_state) : option midi_state :=
  t1 ← (match ev with Some v => midi_put v t | None => Some t end); midi_get j buffer t1.

(** ** The words of a circular buffer *)

(** [n] words from index [a] on, around the end of the buffer *)
Definition ring_words (size : Z) (buf : list Z) (a : Z) (n : nat) : list Z :=
  (fun k => default 0 (buf !! Z.to_nat ((a + Z.of_nat k) mod size))) <$> seq 0 n.

Lemma ring_words_snoc size buf a n h v :
  Z.of_nat (length buf) = size -> Z.of_nat n < size -> h = (a + Z.of_nat n) mod size ->
  ring_words size (<[Z.to_nat h := v]> buf) a (S n) = ring_words size buf a n ++ [v].
Proof.
  intros Hl Hn ->. unfold ring_words. rewrite seq_S, fmap_app. cbn [fmap list_fmap]. rewrite Nat.add_0_l.
  pose proof (Z.mod_pos_bound (a + Z.of_nat n) size ltac:(lia)) as Hb. rewrite list_lookup_insert_eq by lia. f_equal.
  apply list_fmap_ext. intros i k Hk. apply lookup_seq in Hk as [-> Hk]. rewrite list_lookup_insert_ne; [done|].
  pose proof (Z.mod_pos_bound (a + Z.of_nat (0 + i)) size ltac:(lia)). intros He. apply Z2Nat.inj in He; [|lia..].
  pose proof (Z.div_mod (a + Z.of_nat n) size ltac:(lia)). pose proof (Z.div_mod (a + Z.of_nat (0 + i)) size ltac:(lia)).
  set (q := (a + Z.of_nat n) / size) in *. set (q' := (a + Z.of_nat (0 + i)) / size) in *. assert (q = q') by nia. lia.
Qed.

Lemma ring_words_tail size buf a n : tail (ring_words size buf a (S n)) = ring_words size buf ((a + 1) mod size) n.
Proof.
  unfold ring_words. cbn [seq fmap list_fmap tail]. rewrite <- fmap_S_seq, <- list_fmap_compose.
  apply list_fmap_ext. intros i k _. cbn. do 3 f_equal. rewrite Zplus_mod_idemp_l. f_equal. lia.
Qed.

Lemma ring_words_length size buf a n : length (ring_words size buf a n) = n.
Proof. unfold ring_words. by rewrite length_fmap, length_seq. Qed.

(** ** Queues

    A circular buffer of [size] cells with a head and a tail is a queue of at
    most [size - 1] values; a value that is put in a full queue pushes out the
    oldest. *)
Definition ring_queue (size : Z) (buf : list Z) (head tail : Z) : list Z :=
  ring_words size buf tail (Z.to_nat ((head - tail) mod size)).

Definition bounded_put (room : nat) (v : Z) (q : list Z) : list Z := if decide (length q = room) then tail q ++ [v] else q ++ [v].

Lemma ring_distance size h t : 0 <= h < size -> 0 <= t < size -> (h - t) mod size = if t <=? h then h - t else h - t + size.
Proof.
  intros Hh Ht. destruct (Z.leb_spec t h); [apply Z.mod_small; lia|].
  rewrite <- (Z_mod_plus_full (h - t) 1 size). rewrite Z.mod_small; lia.
Qed.

Lemma ring_next size h : 0 <= h < size -> (h + 1) mod size = if h + 1 =? size then 0 else h + 1.
Proof. intros Hh. destruct (Z.eqb_spec (h + 1) size) as [->|]; [apply Z_mod_same_full|apply Z.mod_small; lia]. Qed.

Lemma ring_queue_length size buf h t :
  0 <= h < size -> 0 <= t < size -> Z.of_nat (length (ring_queue size buf h t)) = (h - t) mod size.
Proof. intros Hh Ht. unfold ring_queue. rewrite ring_words_length, Z2Nat.id; [done|]. apply Z.mod_pos_bound. lia. Qed.

Lemma ring_queue_put size buf h t v :
  Z.of_nat (length buf) = size -> 1 < size -> 0 <= h < size -> 0 <= t < size ->
  let h1 := (h + 1) mod size in
  ring_queue size (<[Z.to_nat h := v]> buf) h1 (if h1 =? t then (t + 1) mod size else t)
  = bounded_put (Z.to_nat (size - 1)) v (ring_queue size buf h t).
Proof.
  intros Hl Hs Hh Ht h1. pose proof (ring_queue_length size buf h t Hh Ht) as Hn. rewrite ring_distance in Hn by done.
  set (n := length (ring_queue size buf h t)) in *. unfold bounded_put. fold n.
  assert (Hq : ring_queue size buf h t = ring_words size buf t n) by (unfold ring_queue; f_equal; rewrite ring_distance by done; lia).
  assert (Hsn : ring_words size (<[Z.to_nat h := v]> buf) t (S n) = ring_queue size buf h t ++ [v]).
  { rewrite Hq. apply ring_words_snoc; [done|case_match; lia|]. rewrite Hn. destruct (Z.leb_spec t h).
    - replace (t + (h - t)) with h by lia. by rewrite Z.mod_small.
    - replace (t + (h - t + size)) with (h + 1 * size) by lia. by rewrite Z_mod_plus_full, Z.mod_small. }
  pose proof (ring_next size h Hh) as Hh1. fold h1 in Hh1. pose proof (ring_next size t Ht) as Ht1.
  assert (Hr : 0 <= h1 < size) by (apply Z.mod_pos_bound; lia). assert (Hr1 : 0 <= (t + 1) mod size < size) by (apply Z.mod_pos_bound; lia).
  destruct (Z.eqb_spec h1 t) as [He|He].
  - rewrite decide_True by (destruct (Z.leb_spec t h), (Z.eqb_spec (h + 1) size); lia). unfold ring_queue at 1. rewrite ring_distance by done.
    replace (Z.to_nat (if _ <=? _ then _ else _)) with n by (destruct (Z.leb_spec t h), (Z.eqb_spec (h + 1) size), (Z.eqb_spec (t + 1) size), (Z.leb_spec ((t + 1) mod size) h1); lia).
    rewrite <- ring_words_tail, Hsn. destruct (ring_queue size buf h t) eqn:E; [|done]. subst n. cbn in Hn.
    destruct (Z.leb_spec t h), (Z.eqb_spec (h + 1) size); lia.
  - rewrite decide_False by (destruct (Z.leb_spec t h), (Z.eqb_spec (h + 1) size); lia). unfold ring_queue at 1. rewrite ring_distance by done.
    replace (Z.to_nat (if _ <=? _ then _ else _)) with (S n) by (destruct (Z.leb_spec t h), (Z.eqb_spec (h + 1) size), (Z.leb_spec t h1); lia). exact Hsn.
Qed.

Lemma ring_queue_get size buf h t :
  Z.of_nat (length buf) = size -> 0 <= h < size -> 0 <= t < size -> h <> t ->
  exists v, load buf t = Some v /\ ring_queue size buf h t = v :: ring_queue size buf h ((t + 1) mod size).
Proof.
  intros Hl Hh Ht Hne. destruct (lookup_lt_is_Some_2 buf (Z.to_nat t)) as [v Hv]; [lia|]. exists v.
  unfold load. rewrite decide_True by lia. split; [done|]. unfold ring_queue.
  assert (Hr1 : 0 <= (t + 1) mod size < size) by (apply Z.mod_pos_bound; lia). pose proof (ring_next size t Ht) as Ht1.
  rewrite !ring_distance by done.
  set (k := Z.to_nat (if (t + 1) mod size <=? h then _ else _)).
  replace (Z.to_nat (if t <=? h then _ else _)) with (S k)
    by (subst k; destruct (Z.leb_spec t h), (Z.eqb_spec (t + 1) size), (Z.leb_spec ((t + 1) mod size) h); lia).
  rewrite <- ring_words_tail. unfold ring_words at 1. cbn [seq fmap list_fmap]. rewrite Z.add_0_r, Z.mod_small by done. by rewrite Hv.
Qed.

Lemma ring_queue_nil size buf h : ring_queue size buf h h = [].
Proof. unfold ring_queue. rewrite Z.sub_diag. by destruct size. Qed.

(** ** The MIDI queue

    The circular buffer of 64 words is a queue of at most 63 bytes: a byte
    that arrives when it is full pushes out the oldest. *)
Section midi.
Implicit Types t : midi_state.

Definition midi_ok t : Prop := length (md_buf t) = 64%nat /\ 0 <= md_head t < 64 /\ 0 <= md_tail t < 64.

Definition midi_queue t : list Z := ring_queue 64 (md_buf t) (md_head t) (md_tail t).

(** appending to a full queue drops its head *)
Definition queue_put : Z -> list Z -> list Z := bounded_put 63.

Lemma mask_64 x : 0 <= x < 2 ^ 32 - 1 -> Z.land (u32 (x + 1)) (RX_MIDIBUFFER_SIZE - 1) = (x + 1) mod 64.
Proof. intros Hx. change (RX_MIDIBUFFER_SIZE - 1) with 0x3f. rewrite land_0x3f, wrapU_small by width_lia. done. Qed.

Lemma midi_put_spec v t :
  midi_ok t -> exists t1, midi_put v t = Some t1 /\ midi_ok t1 /\ midi_queue t1 = queue_put v (midi_queue t) /\
    md_pos t1 = md_pos t /\ md_mem t1 = md_mem t.
Proof.
  intros (Hl & Hh & Ht). unfold midi_put. destruct (store_some (md_buf t) (md_head t) v) as [buf Hs]; [lia|].
  rewrite Hs. cbn [mbind option_bind]. rewrite !mask_64 by lia.
  unfold store in Hs. rewrite decide_True in Hs by lia. apply (inj Some) in Hs as <-.
  eexists. split; [done|]. unfold midi_ok. cbn [md_buf md_head md_tail md_pos md_mem]. rewrite length_insert.
  split; [split; [done|]; split; [div_lia|case_match; div_lia]|]. split; [|done].
  apply (ring_queue_put 64); lia.
Qed.

(** At an event whose index is a multiple of eight a queued byte goes to the
    next slot of the port's buffer. *)
Lemma midi_get_spec j buffer n t :
  midi_ok t -> mem_has (md_mem t) buffer n -> (j mod 8 = 0 -> 0 <= md_pos t < n) ->
  exists t1, midi_get j buffer t = Some t1 /\ midi_ok t1 /\
    if j mod 8 =? 0 then
      md_pos t1 = md_pos t + 8 /\ midi_queue t1 = tail (midi_queue t) /\
      match midi_queue t with
      | [] => md_mem t1 = md_mem t
      | v :: _ => mem_store buffer (md_pos t) v (md_mem t) = Some (md_mem t1)
      end
    else t1 = t.
Proof.
  intros Hok Hm Hp. pose proof Hok as (Hl & Hh & Ht). unfold midi_get.
  destruct (Z.eqb_spec (j mod 8) 0) as [Hj|Hj]; [|by exists t]. specialize (Hp Hj).
  destruct (Z.eqb_spec (md_head t) (md_tail t)) as [He|He].
  - eexists. split; [done|]. split; [done|]. cbn [md_pos md_mem]. split; [done|].
    assert (Hq : midi_queue t = []) by (unfold midi_queue; rewrite He; apply ring_queue_nil). rewrite Hq. by split.
  - destruct (ring_queue_get 64 (md_buf t) (md_head t) (md_tail t)) as (v & -> & Hq); [lia..|]. cbn [mbind option_bind].
    destruct (mem_store_some buffer (md_pos t) v (md_mem t) n Hm Hp) as [m1 Hs]. rewrite Hs. cbn [mbind option_bind].
    rewrite !mask_64 by lia. eexists. split; [done|].
    split; [split; [done|]; cbn [md_head md_tail]; div_lia|]. cbn [md_pos md_mem]. split; [done|].
    unfold midi_queue. rewrite Hq. by split.
Qed.
End midi.

(** ** A block of events

    The reference: an event either brings a byte for the queue or nothing, and
    every eighth slot of the output takes a byte from it; the other slots and
    those that find the queue empty are zero. *)
Definition midi_step (st : list Z * list Z) (ev : option Z) : list Z * list Z :=
  let '(outs, q) := st in
  let q1 := match ev with Some b => queue_put b q | None => q end in
  if Z.of_nat (length outs) mod 8 =? 0 then (outs ++ [hd 0 q1], tail q1) else (outs ++ [0], q1).

Definition midi_reference (evs : list (option Z)) (q : list Z) : list Z * list Z := fold_left midi_step evs ([], q).

Lemma midi_reference_snoc evs ev q : midi_reference (evs ++ [ev]) q = midi_step (midi_reference evs q) ev.
Proof. unfold midi_reference. by rewrite fold_left_app. Qed.

Lemma midi_reference_length evs q : length (fst (midi_reference evs q)) = length evs.
Proof.
  induction evs as [|ev evs IH] using rev_ind; [done|]. rewrite midi_reference_snoc, length_app. unfold midi_step.
  destruct (midi_reference evs q) as [outs q1]. cbn [fst] in IH. case_match; cbn [fst]; rewrite length_app; cbn; lia.
Qed.

(** the state after [j] events *)
Record midi_progress (buffer : option Z) (offset nevents : Z) (evs : list (option Z)) (q : list Z) (m : memory)
  (j : Z) (t : midi_state) : Prop := {
  mp_ok : midi_ok t;
  mp_queue : midi_queue t = snd (midi_reference (take (Z.to_nat j) evs) q);
  mp_pos : md_pos t = offset + 8 * ((j + 7) / 8);
  mp_done k : 0 <= k < j ->
    mem_load (md_mem t) buffer (offset + k) = fst (midi_reference (take (Z.to_nat j) evs) q) !! Z.to_nat k;
  mp_rest k : j <= k < nevents -> mem_load (md_mem t) buffer (offset + k) = Some 0;
  mp_frame b k : ~ (b = buffer /\ offset <= k < offset + nevents) -> mem_load (md_mem t) b k = mem_load m b k;
  mp_has b l : mem_has m b l -> mem_has (md_mem t) b l }.

(** the part of an event before the output *)
Lemma midi_arrival ev t :
  midi_ok t -> exists t1,
    (match ev with Some v => midi_put v t | None => Some t end) = Some t1 /\ midi_ok t1 /\ md_pos t1 = md_pos t /\
    md_mem t1 = md_mem t /\ midi_queue t1 = match ev with Some b => queue_put b (midi_queue t) | None => midi_queue t end.
Proof.
  intros Hok. destruct ev as [v|]; [|by exists t].
  destruct (midi_put_spec v t Hok) as (t1 & H1 & H2 & H3 & H4 & H5). by exists t1.
Qed.

Lemma midi_event_progress buffer offset nevents evs ev q m j t :
  0 <= offset -> Z.of_nat (length evs) = nevents -> mem_has m buffer (offset + nevents) -> 0 <= j < nevents ->
  evs !! Z.to_nat j = Some ev ->
  midi_progress buffer offset nevents evs q m j t ->
  exists t1, midi_event ev j buffer t = Some t1 /\ midi_progress buffer offset nevents evs q m (j + 1) t1.
Proof.
  intros Ho Hl Hm Hj Hevj [Hok Hq Hpos Hdone Hrest Hframe Hhas].
  destruct (midi_arrival ev t Hok) as (t1 & Hput & Hok1 & Hp1 & Hm1 & Hq1). unfold midi_event. rewrite Hput. cbn [mbind option_bind].
  rewrite Hq in Hq1.
  destruct (midi_get_spec j buffer (offset + nevents) t1) as (t2 & -> & Hok2 & Hg);
    [done|rewrite Hm1; by apply Hhas|intros Hj0; rewrite Hp1, Hpos; div_lia|].
  exists t2. split; [done|].
  assert (Ht : take (Z.to_nat (j + 1)) evs = take (Z.to_nat j) evs ++ [ev]).
  { replace (Z.to_nat (j + 1)) with (S (Z.to_nat j)) by lia. by apply take_S_r. }
  pose proof (midi_reference_length (take (Z.to_nat j) evs) q) as Hlen. rewrite length_take in Hlen.
  destruct (midi_reference (take (Z.to_nat j) evs) q) as [outs q1] eqn:Href. cbn [fst snd] in *.
  assert (Hlo : Z.of_nat (length outs) = j) by lia.
  assert (Hr' : midi_reference (take (Z.to_nat (j + 1)) evs) q = midi_step (outs, q1) ev) by (by rewrite Ht, midi_reference_snoc, Href).
  unfold midi_step in Hr'. rewrite Hlo, <- Hq1 in Hr'.
  assert (Hold : forall o k, 0 <= k < j -> (outs ++ [o]) !! Z.to_nat k = outs !! Z.to_nat k) by (intros o k Hk; apply lookup_app_l; lia).
  assert (Hnew : forall o, (outs ++ [o]) !! Z.to_nat j = Some o) by (intros o; rewrite lookup_app_r by lia; by replace (Z.to_nat j - length outs)%nat with 0%nat by lia).
  destruct (Z.eqb_spec (j mod 8) 0) as [Hj0|Hj0].
  - destruct Hg as (Hp2 & Hq2 & Hm2).
    assert (Hst : (md_mem t2 = md_mem t /\ hd 0 (midi_queue t1) = 0) \/
      mem_store buffer (offset + j) (hd 0 (midi_queue t1)) (md_mem t) = Some (md_mem t2)).
    { rewrite Hm1 in Hm2. destruct (midi_queue t1); [left; by split|right]. rewrite <- Hm2. f_equal. rewrite Hp1, Hpos. div_lia. }
    assert (Hload : mem_load (md_mem t2) buffer (offset + j) = Some (hd 0 (midi_queue t1)) /\
      (forall b k, ~ (b = buffer /\ k = offset + j) -> mem_load (md_mem t2) b k = mem_load (md_mem t) b k) /\
      (forall b l, mem_has (md_mem t) b l -> mem_has (md_mem t2) b l)).
    { destruct Hst as [[-> ->]|Hs]; [split; [apply Hrest; lia|by split]|].
      destruct (mem_store_inv _ _ _ _ _ Hs) as (? & Hoth & ?). split; [done|]. split; [|done].
      intros b k Hnot. apply Hoth. destruct (decide (b = buffer)) as [->|]; [right|by left]. intros ->. by apply Hnot. }
    destruct Hload as (Hv & Hoth & Hh2). split; rewrite ?Hr'; cbn [fst snd]; try done.
    + rewrite Hp2, Hp1, Hpos. div_lia.
    + intros k Hk. destruct (Z.eq_dec k j) as [->|Hne]; [by rewrite Hnew|].
      rewrite Hold, Hoth by lia. apply Hdone. lia.
    + intros k Hk. rewrite Hoth by lia. apply Hrest. lia.
    + intros b k Hnot. rewrite Hoth; [by apply Hframe|]. intros [-> ->]. apply Hnot. split; [done|lia].
    + intros b l Hb. by apply Hh2, Hhas.
  - subst t2. split; rewrite ?Hr', ?Hm1; cbn [fst snd]; try done.
    + rewrite Hp1, Hpos. div_lia.
    + intros k Hk. destruct (Z.eq_dec k j) as [->|Hne]; [rewrite Hnew; apply Hrest; lia|].
      rewrite Hold by lia. apply Hdone. lia.
    + intros k Hk. apply Hrest. lia.
Qed.

(** The whole block, for any loop whose iterations are [midi_event]s: the port's
    buffer becomes the output of the reference, and nothing else changes. *)
Lemma midi_block_refines (body : Z -> midi_state -> option midi_state) buffer offset nevents (evs : list (option Z)) (t : midi_state) :
  0 <= offset -> Z.of_nat (length evs) = nevents -> midi_ok t -> mem_has (md_mem t) buffer (offset + nevents) ->
  (forall k ev u, evs !! k = Some ev -> body (Z.of_nat k) u = midi_event ev (Z.of_nat k) buffer u) ->
  let '(outs, q) := midi_reference evs (midi_queue t) in
  exists t1,
    (m ← mem_clear buffer offset nevents (md_mem t);
     for_loop nevents body (mkMidi (md_buf t) (md_head t) (md_tail t) offset m)) = Some t1 /\
    midi_ok t1 /\ midi_queue t1 = q /\
    (forall k, 0 <= k < nevents -> mem_load (md_mem t1) buffer (offset + k) = outs !! Z.to_nat k) /\
    (forall b k, ~ (b = buffer /\ offset <= k < offset + nevents) -> mem_load (md_mem t1) b k = mem_load (md_mem t) b k) /\
    (forall b l, mem_has (md_mem t) b l -> mem_has (md_mem t1) b l).
Proof.
  intros Ho Hl Hok Hm Hbody.
  destruct (mem_clear_spec buffer offset nevents (md_mem t)) as (m1 & -> & Hz & Hf & Hh); [done|lia|done|].
  cbn [mbind option_bind].
  destruct (for_loop_rule (midi_progress buffer offset nevents evs (midi_queue t) (md_mem t)) body nevents
    (mkMidi (md_buf t) (md_head t) (md_tail t) offset m1)) as (t1 & Ht1 & Hp1).
  - lia.
  - split; cbn [md_pos md_mem].
    + exact Hok.
    + reflexivity.
    + change ((0 + 7) / 8) with 0. lia.
    + intros k Hk. lia.
    + exact Hz.
    + intros b k Hnot. by apply Hf.
    + intros b l Hb. by apply Hh.
  - intros j t2 Hj Hp2. destruct (lookup_lt_is_Some_2 evs (Z.to_nat j)) as [ev Hev]; [lia|].
    pose proof (Hbody (Z.to_nat j) ev t2 Hev) as Hb. rewrite Z2Nat.id in Hb by lia. rewrite Hb.
    by eapply midi_event_progress.
  - destruct Hp1 as [Hok1 Hq1 _ Hd1 _ Hf1 Hh1]. rewrite take_ge in Hq1, Hd1 by lia.
    destruct (midi_reference evs (midi_queue t)) as [outs q]. by exists t1.
Qed.
