(* ===== verification/Ports.v ===== *)
(** * Ports: libstreaming/generic/Port.cpp, PortManager.cpp, and the port
    loops of StreamProcessor.cpp

    A port is one channel of a stream, with a buffer that the client sets; a
    port manager (every stream processor is one) keeps the ports of a device
    in their order and under different names.  [I] is what a subclass adds to
    a port. *)
From stdpp Require Import gmap strings pretty.
From S2P Require Import Prelude Serialize Memory.

Inductive E_PortType := E_Audio | E_Midi | E_Control.
Inductive E_Direction := E_Playback | E_Capture.
Inductive EStates := E_Created | E_Initialized | E_Running | E_Error.

#[export] Instance E_PortType_dec : EqDecision E_PortType.
Proof. solve_decision. Defined.
#[export] Instance EStates_dec : EqDecision EStates.
Proof. solve_decision. Defined.

(** [pt_address] is the address of the object. *)
Record Port (I : Type) := mkPort {
  pt_address : Z;
  pt_Name : string;
  pt_disabled : bool;
  pt_buffersize : Z;
  pt_PortType : E_PortType;
  pt_Direction : E_Direction;
  pt_buffer : option Z;
  pt_State : EStates;
  pt_info : I }.
#[global] Arguments mkPort {I}.
#[global] Arguments pt_address {I}.
#[global] Arguments pt_Name {I}.
#[global] Arguments pt_disabled {I}.
#[global] Arguments pt_buffersize {I}.
#[global] Arguments pt_PortType {I}.
#[global] Arguments pt_Direction {I}.
#[global] Arguments pt_buffer {I}.
#[global] Arguments pt_State {I}.
#[global] Arguments pt_info {I}.

Section Port.
Context {I : Type}.
Abbreviation Port := (Port I).
Implicit Types p : Port.

(** *** A port *)

(** the constructor, without the registration *)
Definition Port_new (address : Z) (name : string) (porttype : E_PortType) (direction : E_Direction) (info : I) : Port :=
  mkPort address name true 0 porttype direction None E_Created info.

Definition Port_with_Name (name : string) p : Port :=
  mkPort (pt_address p) name (pt_disabled p) (pt_buffersize p) (pt_PortType p) (pt_Direction p) (pt_buffer p) (pt_State p) (pt_info p).
Definition Port_with_State (s : EStates) p : Port :=
  mkPort (pt_address p) (pt_Name p) (pt_disabled p) (pt_buffersize p) (pt_PortType p) (pt_Direction p) (pt_buffer p) s (pt_info p).
Definition Port_with_buffer (disabled : bool) (size : Z) (buffer : option Z) p : Port :=
  mkPort (pt_address p) (pt_Name p) disabled size (pt_PortType p) (pt_Direction p) buffer (pt_State p) (pt_info p).

Definition Port_init p : bool * Port :=
  if bool_decide (pt_State p <> E_Created) then (false, p)
  else if pt_buffersize p =? 0 then (false, p)
  else (true, Port_with_State E_Initialized p).

Definition Port_reset p : bool := true.

Definition Port_prepare p : bool := true.

Definition Port_setName (name : string) p : bool * Port :=
  if bool_decide (pt_State p <> E_Created) then (false, p) else (true, Port_with_Name name p).

Definition Port_setBufferSize (newsize : Z) p : bool * Port :=
  if bool_decide (pt_State p <> E_Created) && negb (pt_disabled p) then (false, p)
  else (true, Port_with_buffer (pt_disabled p) newsize (pt_buffer p) p).

Definition Port_getEventSize p : Z := 4.

Definition Port_getBufferAddress p : option Z := pt_buffer p.

Definition Port_setBufferAddress (buff : option Z) p : Port := Port_with_buffer (pt_disabled p) (pt_buffersize p) buff p.

Definition Port_enable p : Port := Port_with_buffer false (pt_buffersize p) (pt_buffer p) p.

Definition Port_disable p : Port := Port_with_buffer true (pt_buffersize p) (pt_buffer p) p.

Definition Port_isDisabled p : bool := pt_disabled p.

(** *** The manager *)

(** The update handlers are functors of other objects; [call_handler] runs one
    of them on the world [W]. *)
Record PortManager := mkPortManager { pm_Ports : list Port; pm_UpdateHandlers : list Z }.

Section handlers.
Context {W : Type}.
Variable call_handler : Z -> W -> W.

Definition callUpdateHandlers (m : PortManager) (w : W) : W := fold_left (fun w h => call_handler h w) (pm_UpdateHandlers m) w.

(** [it->getName() == port->getName()] for one of the ports *)
Definition name_taken (ports : list Port) (name : string) : bool :=
  existsb (fun q => bool_decide (pt_Name q = name)) ports.

(** [while(!done && idx < 10000)], [n] is [10000 - idx]; the result is [idx]
    and the port *)
Fixpoint makeNameUnique_loop (portname_orig : string) (ports : list Port) (n : nat) (idx : Z) (port : Port) : Z * Port :=
  match n with
  | O => (idx, port)
  | S n' =>
      if name_taken ports (pt_Name port) then
        makeNameUnique_loop portname_orig ports n' (idx + 1) (snd (Port_setName (portname_orig +:+ pretty idx) port))
      else (idx, port)
  end.

Definition makeNameUnique (port : Port) (m : PortManager) : bool * Port :=
  let '(idx, port1) := makeNameUnique_loop (pt_Name port) (pm_Ports m) (Z.to_nat 10000) 0 port in
  (idx <? 10000, port1).

Definition registerPort (port : Port) (m : PortManager) (w : W) : bool * Port * PortManager * W :=
  let '(unique, port1) := makeNameUnique port m in
  if unique then
    let m1 := mkPortManager (pm_Ports m ++ [port1]) (pm_UpdateHandlers m) in
    (true, port1, m1, callUpdateHandlers m1 w)
  else (false, port1, m, w).

(** [m_Ports.erase(it)] for the first entry with the address *)
Fixpoint erase_port (address : Z) (ports : list Port) : option (list Port) :=
  match ports with
  | [] => None
  | p :: ports' =>
      if pt_address p =? address then Some ports' else ps ← erase_port address ports'; Some (p :: ps)
  end.

Definition unregisterPort (address : Z) (m : PortManager) (w : W) : bool * PortManager * W :=
  match erase_port address (pm_Ports m) with
  | Some ports => let m1 := mkPortManager ports (pm_UpdateHandlers m) in (true, m1, callUpdateHandlers m1 w)
  | None => (false, m, w)
  end.
End handlers.

Definition getPortCount_type (type : E_PortType) (m : PortManager) : Z :=
  Z.of_nat (length (filter (fun p => pt_PortType p = type) (pm_Ports m))).

Definition getPortCount (m : PortManager) : Z := Z.of_nat (length (pm_Ports m)).

(** [at] throws outside of the vector *)
Definition getPortAtIdx (index : Z) (m : PortManager) : option Port :=
  if decide (0 <= index) then pm_Ports m !! Z.to_nat index else None.

(** A loop over the ports that stops at the first failure. *)
Fixpoint ports_until_failure (op : Port -> bool * Port) (ports : list Port) : bool * list Port :=
  match ports with
  | [] => (true, [])
  | p :: ports' =>
      let '(ok, p1) := op p in
      if ok then let '(r, ps) := ports_until_failure op ports' in (r, p1 :: ps) else (false, p1 :: ports')
  end.

Definition resetPorts : list Port -> bool * list Port := ports_until_failure (fun p => (Port_reset p, p)).

Definition initPorts : list Port -> bool * list Port := ports_until_failure Port_init.

Definition preparePorts : list Port -> bool * list Port := ports_until_failure (fun p => (Port_prepare p, p)).

(** the loop of [StreamProcessor::periodSizeChanged] *)
Definition setBufferSizes (size : Z) : list Port -> bool * list Port := ports_until_failure (Port_setBufferSize size).

Definition addPortManagerUpdateHandler (functor : Z) (m : PortManager) : bool * PortManager :=
  (true, mkPortManager (pm_Ports m) (pm_UpdateHandlers m ++ [functor])).

(** the first entry that is the functor is erased *)
Fixpoint erase_handler (functor : Z) (hs : list Z) : option (list Z) :=
  match hs with
  | [] => None
  | h :: hs' => if h =? functor then Some hs' else l ← erase_handler functor hs'; Some (h :: l)
  end.

Definition remPortManagerUpdateHandler (functor : Z) (m : PortManager) : bool * PortManager :=
  match erase_handler functor (pm_UpdateHandlers m) with
  | Some hs => (true, mkPortManager (pm_Ports m) hs)
  | None => (false, m)
  end.

(** *** Silence

    Integer and floating point zeros are the same words. *)
Definition provideSilenceToPort (p : Port) (offset nevents : Z) (m : memory) : option memory :=
  if u32 (nevents + offset) <=? pt_buffersize p then mem_clear (pt_buffer p) offset nevents m else None.

(** no port fails: all three types are handled *)
Fixpoint provideSilenceBlock (nevents offset : Z) (ports : list Port) (m : memory) : option (bool * memory) :=
  match ports with
  | [] => Some (true, m)
  | p :: ports' =>
      if pt_disabled p then provideSilenceBlock nevents offset ports' m
      else m1 ← provideSilenceToPort p offset nevents m; provideSilenceBlock nevents offset ports' m1
  end.
End Port.

(** ** Theorems *)

Section theorems.
Context {I : Type}.
Implicit Types (p q : Port I) (m : PortManager (I:=I)).

Lemma name_taken_spec (ports : list (Port I)) name : name_taken ports name = true <-> name ∈ pt_Name <$> ports.
Proof.
  unfold name_taken. rewrite existsb_exists, list_elem_of_fmap. split.
  - intros (q & Hq & <-%bool_decide_eq_true). exists q. by rewrite list_elem_of_In.
  - intros (q & -> & Hq). exists q. split; [by rewrite <- list_elem_of_In|by apply bool_decide_eq_true].
Qed.

(** The names that the loop tries, from the present one of the port on. *)
Definition candidates (orig : string) (idx : Z) (n : nat) (name : string) : list string :=
  name :: ((fun k => orig +:+ pretty (idx + Z.of_nat k)) <$> seq 0 n).

Lemma candidates_cons orig idx n name :
  candidates orig idx (S n) name = name :: candidates orig (idx + 1) n (orig +:+ pretty idx).
Proof.
  unfold candidates. cbn [seq fmap list_fmap]. rewrite Z.add_0_r. do 2 f_equal.
  rewrite <- fmap_S_seq, <- list_fmap_compose. apply list_fmap_ext. intros _ k _. cbn. do 2 f_equal. lia.
Qed.

(** The loop ends at the first candidate that is free; when it has tried them
    all, the port has the name after the last of them. *)
Lemma makeNameUnique_loop_find orig (ports : list (Port I)) n idx p :
  pt_State p = E_Created ->
  makeNameUnique_loop orig ports (S n) idx p =
    match list_find (fun name => name ∉ pt_Name <$> ports) (candidates orig idx n (pt_Name p)) with
    | Some (i, name) => (idx + Z.of_nat i, Port_with_Name name p)
    | None => (idx + Z.of_nat (S n), Port_with_Name (orig +:+ pretty (idx + Z.of_nat n)) p)
    end.
Proof.
  assert (Hset : forall name q, pt_State q = E_Created -> snd (Port_setName name q) = Port_with_Name name q).
  { intros name q Hq. unfold Port_setName. by rewrite bool_decide_false by (intros Hx; by apply Hx). }
  revert idx p. induction n as [|n IH]; intros idx p Hc.
  - cbn [makeNameUnique_loop candidates seq fmap list_fmap list_find]. destruct (name_taken ports (pt_Name p)) eqn:Ht.
    + apply name_taken_spec in Ht. rewrite decide_False by (intros Hx; by apply Hx). cbn. rewrite Hset by done. by rewrite Z.add_0_r.
    + rewrite decide_True by (rewrite <- name_taken_spec; by rewrite Ht). cbn. f_equal; [lia|by destruct p].
  - remember (S n) as n' eqn:Hn'. cbn [makeNameUnique_loop]. subst n'. rewrite candidates_cons. cbn [list_find].
    destruct (name_taken ports (pt_Name p)) eqn:Ht.
    + apply name_taken_spec in Ht. rewrite decide_False by (intros Hx; by apply Hx). rewrite Hset, IH by done. cbn [pt_Name Port_with_Name].
      destruct (list_find _ _) as [[i name]|]; cbn [fmap option_fmap option_map prod_map fst snd id].
      * f_equal. lia.
      * replace (idx + 1 + Z.of_nat n) with (idx + Z.of_nat (S n)) by lia. f_equal. lia.
    + rewrite decide_True by (rewrite <- name_taken_spec; by rewrite Ht). cbn. f_equal; [lia|by destruct p].
Qed.

Lemma pretty_Z_nonempty (z : Z) : pretty z <> "".
Proof.
  assert (Hn : forall n : N, pretty n <> "").
  { intros n He. destruct (decide (n = 0%N)) as [->|Hne]; [done|].
    assert (Hz : pretty n = pretty_N_go n "") by (by unfold pretty, pretty_N; rewrite decide_False).
    rewrite Hz, pretty_N_go_step in He by lia. clear Hz.
    assert (Hgo : forall k s, s <> "" -> pretty_N_go k s <> "").
    { intros k. induction (N.lt_wf_0 k) as [k _ IH]. intros s Hs.
      destruct (decide (k = 0%N)) as [->|Hk]; [by rewrite pretty_N_go_0|].
      rewrite pretty_N_go_step by lia. apply IH; [apply N.div_lt; lia|done]. }
    by apply Hgo in He. }
  destruct z; [done|apply Hn|done].
Qed.

Lemma candidates_NoDup orig n : NoDup (candidates orig 0 n orig).
Proof.
  unfold candidates. constructor.
  - intros (k & He & _)%list_elem_of_fmap. apply (pretty_Z_nonempty (0 + Z.of_nat k)).
    apply (inj (String.app orig)). rewrite <- He. clear. induction orig as [|a s IH]; [done|]. by apply (f_equal (String a)).
  - apply NoDup_fmap_2_strong; [|apply NoDup_seq].
    intros j k _ _ He. apply (inj (String.app orig)), (inj pretty) in He. lia.
Qed.

(** Fewer ports than candidates: one of them is free. *)
Lemma candidates_free orig (ports : list (Port I)) n :
  (length ports <= n)%nat -> list_find (fun name => name ∉ pt_Name <$> ports) (candidates orig 0 n orig) <> None.
Proof.
  intros Hl Hf. apply list_find_None in Hf. assert (Hs : candidates orig 0 n orig ⊆+ pt_Name <$> ports).
  { apply NoDup_submseteq; [apply candidates_NoDup|]. intros x Hx. rewrite Forall_forall in Hf. apply dec_stable. by apply Hf. }
  apply submseteq_length in Hs. unfold candidates in Hs. cbn [length] in Hs. rewrite !length_fmap, length_seq in Hs. lia.
Qed.
End theorems.

Section registration.
Context {I W : Type} (call_handler : Z -> W -> W).

(** C37: a port manager keeps its ports under different names.  The names that
    are tried for a new port (one that is not initialised yet) are its own one
    and this with the numbers 0 to 9998 appended, in this order.  The first of
    them that no registered port has becomes the name of the port; the port comes
    last, all names stay different, and every update handler runs once.  If all
    of them are taken the port is refused, renamed with the number 9999, and
    nothing else happens - never with fewer than 10000 ports registered.
    Removing a port keeps the names different. *)
Theorem registerPort_unique (port : Port I) (m : PortManager) (w : W) :
  NoDup (pt_Name <$> pm_Ports m) -> pt_State port = E_Created ->
  let orig := pt_Name port in
  let first_free := list_find (fun name => name ∉ pt_Name <$> pm_Ports m)
                      (orig :: ((fun k => orig +:+ pretty (Z.of_nat k)) <$> seq 0 (Z.to_nat 9999))) in
  match first_free with
  | Some (_, name) =>
    let port1 := Port_with_Name name port in
    registerPort call_handler port m w
      = (true, port1, mkPortManager (pm_Ports m ++ [port1]) (pm_UpdateHandlers m),
         fold_left (fun w h => call_handler h w) (pm_UpdateHandlers m) w) /\
    NoDup (pt_Name <$> (pm_Ports m ++ [port1]))
  | None => registerPort call_handler port m w = (false, Port_with_Name (orig +:+ pretty 9999) port, m, w)
  end /\
  (getPortCount m < 10000 -> first_free <> None) /\
  (forall address m1 w1, unregisterPort call_handler address m w = (true, m1, w1) -> NoDup (pt_Name <$> pm_Ports m1)).
Proof.
  intros Hnd Hs orig first_free. change first_free with (list_find (fun name => name ∉ pt_Name <$> pm_Ports m) (candidates orig 0 (Z.to_nat 9999) orig)). split; [|split].
  - unfold registerPort, makeNameUnique. replace (Z.to_nat 10000) with (S (Z.to_nat 9999)) by lia. rewrite makeNameUnique_loop_find by done. fold orig.
    destruct (list_find _ _) as [[i name]|] eqn:Hf.
    + apply list_find_Some in Hf as (Hi & Hfree & _). apply lookup_lt_Some in Hi. unfold candidates in Hi. cbn [length] in Hi. rewrite length_fmap, length_seq in Hi.
      rewrite (proj2 (Z.ltb_lt (0 + Z.of_nat i) 10000)) by lia. split; [done|]. rewrite fmap_app. apply NoDup_app. split; [done|]. split; [|apply NoDup_singleton].
      intros x Hx ->%list_elem_of_singleton. done.
    + rewrite (Z2Nat.id 9999) by lia. by rewrite (proj2 (Z.ltb_ge (0 + Z.of_nat (S (Z.to_nat 9999))) 10000)) by lia.
  - intros Hc. unfold getPortCount in Hc. apply candidates_free. lia.
  - intros address m1 w1. unfold unregisterPort. destruct (erase_port address (pm_Ports m)) as [ps|] eqn:He; [|done].
    intros [= <- _]. cbn [pm_Ports].
    assert (Hsub : sublist (pt_Name <$> ps) (pt_Name <$> pm_Ports m)).
    { revert ps He. clear. induction (pm_Ports m) as [|q qs IH]; intros ps; cbn [erase_port]; [done|].
      case_match; [intros [= <-]; cbn; by apply sublist_cons|].
      intros (qs1 & Hq & [= <-])%bind_Some. cbn. apply sublist_skip. by apply IH. }
    by eapply sublist_NoDup.
Qed.

End registration.

Definition three_names : PortManager :=
  mkPortManager [Port_new 1 "cap1" E_Audio E_Capture (); Port_new 2 "cap10" E_Midi E_Capture ()] [5; 7].

Lemma registerPort_unique_witness :
  let port := Port_new 3 "cap1" E_Audio E_Capture () in
  let port1 := Port_new 3 "cap11" E_Audio E_Capture () in
  registerPort (fun h w => w + h) port three_names 0
    = (true, port1, mkPortManager (pm_Ports three_names ++ [port1]) [5; 7], 12) /\
  NoDup (pt_Name <$> (pm_Ports three_names ++ [port1])).
Proof.
  intros port port1.
  assert (Hnd : NoDup (pt_Name <$> pm_Ports three_names)) by (apply (bool_decide_eq_true_1 (NoDup _)); vm_compute; reflexivity).
  pose proof (proj1 (registerPort_unique (fun h w => w + h) port three_names 0 Hnd eq_refl)) as H. cbv zeta in H.
  exact H.
Defined.
