(* ===== verification/Cip.v ===== *)
(** * Cip: libstreaming/util/cip.c, cip.h

    The common isochronous packet header of IEC 61883 and the generator of
    its timestamps and data block counters.  The generator works with integer
    fractions: a stream of 44100 samples a second sends 5 41/80 samples per
    bus cycle.  [int] is written with the wrap-around of 32 bits. *)
From S2P Require Import Prelude Serialize Memory.

Definition IEC61883_FMT_AMDTP : Z := 0x10.
Definition CIP_TRANSFER_DELAY : Z := 9000.
Definition IEC61883_TAG_WITH_CIP : Z := 1.
Definition IEC61883_FDF_NODATA : Z := 0xFF.

(** the modes, constants of libiec61883 *)
Inductive cip_mode := IEC61883_MODE_BLOCKING_EMPTY | IEC61883_MODE_BLOCKING_NODATA | IEC61883_MODE_NON_BLOCKING.

#[export] Instance cip_mode_dec : EqDecision cip_mode.
Proof. solve_decision. Defined.

(** *** The header *)

(** [pk_syt] is the number in the memory of the host *)
Record iec61883_packet := mkCipPacket {
  pk_eoh0 : Z; pk_sid : Z; pk_dbs : Z; pk_fn : Z; pk_qpc : Z; pk_sph : Z; pk_reserved : Z; pk_dbc : Z;
  pk_eoh1 : Z; pk_fmt : Z; pk_fdf : Z; pk_syt : Z }.

(** The bit fields on a little endian host; every field keeps its low bits. *)
Definition cip_bytes (p : iec61883_packet) : list Z :=
  [ wrapU 6 (pk_sid p) + 64 * wrapU 2 (pk_eoh0 p);
    u8 (pk_dbs p);
    wrapU 2 (pk_reserved p) + 4 * wrapU 1 (pk_sph p) + 8 * wrapU 3 (pk_qpc p) + 64 * wrapU 2 (pk_fn p);
    u8 (pk_dbc p);
    wrapU 6 (pk_fmt p) + 64 * wrapU 2 (pk_eoh1 p);
    u8 (pk_fdf p);
    u16 (pk_syt p) mod 2 ^ 8;
    u16 (pk_syt p) / 2 ^ 8 ].

Definition cip_of_bytes (data : list Z) : option iec61883_packet :=
  match data with
  | b0 :: b1 :: b2 :: b3 :: b4 :: b5 :: b6 :: b7 :: _ =>
      Some (mkCipPacket (b0 / 64) (b0 mod 64) b1 (b2 / 64) ((b2 / 8) mod 8) ((b2 / 4) mod 2) (b2 mod 4) b3
              (b4 / 64) (b4 mod 64) b5 (b6 + 2 ^ 8 * b7))
  | _ => None
  end.

(** a header written to the start of a packet *)
Definition write_cip (p : iec61883_packet) (data : list Z) : option (list Z) :=
  if decide (8 <= length data)%nat then Some (cip_bytes p ++ drop 8 data) else None.

(** *** Fractions *)

Record iec61883_fraction := mkFraction { fr_integer : Z; fr_numerator : Z; fr_denominator : Z }.

Definition fraction_init (numerator denominator : Z) : iec61883_fraction :=
  mkFraction (numerator `quot` denominator) (numerator `rem` denominator) denominator.

Definition fraction_add (src1 src2 : iec61883_fraction) : iec61883_fraction :=
  let sum := s32 (fr_numerator src1 + fr_numerator src2) in
  let denom := fr_denominator src1 in
  mkFraction (s32 (s32 (fr_integer src1 + fr_integer src2) + sum `quot` denom)) (sum `rem` denom) denom.

Definition fraction_sub_int (src : iec61883_fraction) (integer : Z) : iec61883_fraction :=
  mkFraction (s32 (fr_integer src - integer)) (fr_numerator src) (fr_denominator src).

Definition fraction_floor (frac : iec61883_fraction) : Z := fr_integer frac.

Definition fraction_ceil (frac : iec61883_fraction) : Z :=
  s32 (fr_integer frac + if 0 <? fr_numerator frac then 1 else 0).

(** *** The generator *)

Record iec61883_cip := mkCip {
  cip_cycle_offset : iec61883_fraction;
  cip_ticks_per_syt_offset : iec61883_fraction;
  cip_ready_samples : iec61883_fraction;
  cip_samples_per_cycle : iec61883_fraction;
  cip_dbc : Z; cip_dbs : Z;
  cip_cycle_count : Z; cip_cycle_count2 : Z;
  cip_mode_ : cip_mode;
  cip_syt_interval : Z;
  cip_rate : Z; cip_fdf : Z; cip_format : Z }.

Definition iec61883_cip_init (format fdf rate dbs syt_interval : Z) : iec61883_cip :=
  let transfer_delay := CIP_TRANSFER_DELAY in
  mkCip (fraction_init (s32 (transfer_delay `rem` 3072 * rate)) rate)
    (fraction_init (s32 (24576000 * syt_interval)) rate)
    (fraction_init 0 8000)
    (fraction_init rate 8000)
    0 dbs (transfer_delay `quot` 3072) 0 IEC61883_MODE_BLOCKING_EMPTY syt_interval rate fdf format.

Definition iec61883_cip_set_transmission_mode (mode : cip_mode) (ptz : iec61883_cip) : iec61883_cip :=
  mkCip (cip_cycle_offset ptz) (cip_ticks_per_syt_offset ptz) (cip_ready_samples ptz) (cip_samples_per_cycle ptz)
    (cip_dbc ptz) (cip_dbs ptz) (cip_cycle_count ptz) (cip_cycle_count2 ptz) mode (cip_syt_interval ptz)
    (cip_rate ptz) (cip_fdf ptz) (cip_format ptz).

Definition cip_blocking (ptz : iec61883_cip) : bool :=
  bool_decide (cip_mode_ ptz = IEC61883_MODE_BLOCKING_EMPTY) || bool_decide (cip_mode_ ptz = IEC61883_MODE_BLOCKING_NODATA).

Definition iec61883_cip_get_max_packet_size (ptz : iec61883_cip) : Z :=
  let max_nevents := if cip_blocking ptz then cip_syt_interval ptz else fraction_ceil (cip_samples_per_cycle ptz) in
  s32 (s32 (s32 (max_nevents * cip_dbs ptz) * 4) + 8).

(** the number of events, the state and the header *)
Definition iec61883_cip_fill_header (node_id : Z) (ptz : iec61883_cip) : Z * iec61883_cip * iec61883_packet :=
  let next := fraction_add (cip_ready_samples ptz) (cip_samples_per_cycle ptz) in
  let nevents :=
    if cip_blocking ptz then
      if cip_syt_interval ptz <=? fraction_floor next then cip_syt_interval ptz else 0
    else fraction_floor next in
  let nevents_dbc :=
    if bool_decide (cip_mode_ ptz = IEC61883_MODE_BLOCKING_NODATA) then cip_syt_interval ptz else nevents in
  let ready_samples := fraction_sub_int next nevents in
  let syt_index := Z.land (s32 (cip_syt_interval ptz - cip_dbc ptz)) (s32 (cip_syt_interval ptz - 1)) in
  let '(syt, cycle_offset, cycle_count) :=
    if syt_index <? nevents then
      let syt := Z.land (Z.lor (s32 (Z.shiftl (cip_cycle_count ptz) 12)) (fraction_floor (cip_cycle_offset ptz))) 0xffff in
      let offset := fraction_add (cip_cycle_offset ptz) (cip_ticks_per_syt_offset ptz) in
      (syt, mkFraction (fr_integer offset `rem` 3072) (fr_numerator offset) (fr_denominator offset),
       s32 (cip_cycle_count ptz + fr_integer offset `quot` 3072))
    else (0xffff, cip_cycle_offset ptz, cip_cycle_count ptz) in
  let fdf :=
    if (nevents =? 0) && bool_decide (cip_mode_ ptz = IEC61883_MODE_BLOCKING_NODATA) then IEC61883_FDF_NODATA
    else cip_fdf ptz in
  (nevents,
   mkCip cycle_offset (cip_ticks_per_syt_offset ptz) ready_samples (cip_samples_per_cycle ptz)
     (s32 (cip_dbc ptz + nevents_dbc)) (cip_dbs ptz) cycle_count (cip_cycle_count2 ptz) (cip_mode_ ptz)
     (cip_syt_interval ptz) (cip_rate ptz) (cip_fdf ptz) (cip_format ptz),
   mkCipPacket 0 (Z.land node_id 0x3f) (cip_dbs ptz) 0 0 0 0 (cip_dbc ptz) 2 (cip_format ptz) fdf (ByteSwap16 syt)).

Definition iec61883_cip_fill_header_nodata (node_id : Z) (ptz : iec61883_cip) : Z * iec61883_cip * iec61883_packet :=
  (0,
   mkCip (cip_cycle_offset ptz) (cip_ticks_per_syt_offset ptz) (cip_ready_samples ptz) (cip_samples_per_cycle ptz)
     (s32 (cip_dbc ptz + cip_syt_interval ptz)) (cip_dbs ptz) (cip_cycle_count ptz) (cip_cycle_count2 ptz)
     (cip_mode_ ptz) (cip_syt_interval ptz) (cip_rate ptz) (cip_fdf ptz) (cip_format ptz),
   mkCipPacket 0 (Z.land node_id 0x3f) (cip_dbs ptz) 0 0 0 0 (cip_dbc ptz) 2 (cip_format ptz) IEC61883_FDF_NODATA 0xffff).

(** [n] packets; the last one is returned *)
Fixpoint cip_run (node_id : Z) (n : nat) (ptz : iec61883_cip) : iec61883_cip :=
  match n with
  | O => ptz
  | S n' => let '(_, ptz1, _) := iec61883_cip_fill_header node_id (cip_run node_id n' ptz) in ptz1
  end.

(** ** The schedule

    The reference: [rate] samples a second are sent as they become ready, in
    whole blocks of [si] in the blocking modes; the samples whose number is a
    multiple of [si] have their time in the SYT of the packet that carries them,
    [si / rate] seconds apart. *)

Definition blocking (mode : cip_mode) : bool := if mode is IEC61883_MODE_NON_BLOCKING then false else true.

(** the samples in the packets of the first [n] cycles *)
Definition events_before (mode : cip_mode) (rate si n : Z) : Z :=
  if blocking mode then si * (n * rate / (8000 * si)) else n * rate / 8000.

(** the data block counter of cycle [n], which counts the packets without data
    as well when they are marked *)
Definition dbc_before (mode : cip_mode) (rate si n : Z) : Z :=
  if mode is IEC61883_MODE_BLOCKING_NODATA then si * n else events_before mode rate si n.

(** how many multiples of [si] are below [e] *)
Definition stamps_before (si e : Z) : Z := (e + si - 1) / si.

(** the time of sample [si * k] in ticks *)
Definition block_time (rate si k : Z) : Z := CIP_TRANSFER_DELAY + k * (24576000 * si) / rate.

(** the SYT field of a time: four bits of the cycle, and the offset in it *)
Definition syt_field (t : Z) : Z := (t / 3072) mod 16 * 4096 + t mod 3072.

Definition rate_ok (rate si : Z) : Prop := 0 < rate <= 8000 * si /\ exists k, 0 <= k <= 5 /\ si = 2 ^ k.

(** What the generator knows after [n] cycles. *)
Definition cip_at (mode : cip_mode) (format fdf rate dbs si n : Z) (c : iec61883_cip) : Prop :=
  let e := events_before mode rate si n in
  let k := stamps_before si e in
  let ready := cip_ready_samples c in
  let off := cip_cycle_offset c in
  cip_samples_per_cycle c = mkFraction (rate / 8000) (rate mod 8000) 8000 /\
  cip_ticks_per_syt_offset c = mkFraction (24576000 * si / rate) ((24576000 * si) mod rate) rate /\
  (fr_denominator ready = 8000 /\ 0 <= fr_numerator ready < 8000 /\
     fr_integer ready * 8000 + fr_numerator ready = n * rate - 8000 * e) /\
  (fr_denominator off = rate /\ 0 <= fr_numerator off < rate /\ 0 <= fr_integer off < 3072 /\
     (cip_cycle_count c * 3072 + fr_integer off) * rate + fr_numerator off
       = CIP_TRANSFER_DELAY * rate + k * (24576000 * si)) /\
  cip_dbc c = dbc_before mode rate si n /\ cip_mode_ c = mode /\ cip_syt_interval c = si /\
  cip_dbs c = dbs /\ cip_fdf c = fdf /\ cip_format c = format.

Lemma si_range rate si : rate_ok rate si -> 1 <= si <= 32.
Proof. intros [_ (k & Hk & ->)]. split; [lia|]. apply (Z.pow_le_mono_r 2 k 5); lia. Qed.

(** how many samples are sent in a cycle: [r] are left over in 8000ths *)
Lemma events_step mode rate si n :
  rate_ok rate si -> 0 <= n ->
  let e := events_before mode rate si n in
  let r := n * rate - 8000 * e in
  let sent := if blocking mode then (if 8000 * si <=? r + rate then si else 0) else (r + rate) / 8000 in
  0 <= e /\ 0 <= r < 8000 * si /\ 0 <= sent <= si /\ events_before mode rate si (n + 1) = e + sent.
Proof.
  intros Hok Hn. pose proof (si_range _ _ Hok) as Hsi. destruct Hok as [Hr _]. unfold events_before. destruct (blocking mode); cbv zeta.
  - set (j := n * rate / (8000 * si)). pose proof (Z.div_mod (n * rate) (8000 * si)) as Hd. pose proof (Z.mod_pos_bound (n * rate) (8000 * si)) as Hm.
    fold j in Hd. assert (0 <= j) by (apply Z.div_pos; nia). split; [nia|]. split; [lia|].
    set (r := n * rate - 8000 * (si * j)). assert (Hrr : r = (n * rate) mod (8000 * si)) by lia.
    assert (Hs : (n + 1) * rate = 8000 * si * j + (r + rate)) by lia.
    destruct (Z.leb_spec (8000 * si) (r + rate)); (split; [lia|]).
    + replace ((n + 1) * rate / (8000 * si)) with (j + 1) by (eapply Z.div_unique; [left|]; [|rewrite Hs; instantiate (1 := r + rate - 8000 * si); lia]; lia). lia.
    + replace ((n + 1) * rate / (8000 * si)) with j by (eapply Z.div_unique; [left|exact Hs]; lia). lia.
  - pose proof (Z.div_mod (n * rate) 8000). pose proof (Z.mod_pos_bound (n * rate) 8000).
    set (e := n * rate / 8000) in *. assert (0 <= e) by (apply Z.div_pos; nia). set (r := n * rate - 8000 * e).
    split; [done|]. split; [lia|]. split; [split; [apply Z.div_pos; lia|apply Z.lt_succ_r, Z.div_lt_upper_bound; lia]|].
    replace ((n + 1) * rate) with (r + rate + e * 8000) by lia. rewrite Z.div_add by lia. lia.
Qed.

(** the next stamped sample, and when it has been sent *)
Lemma stamps_step si e sent :
  1 <= si -> 0 <= e -> 0 <= sent <= si ->
  let k := stamps_before si e in
  0 <= k /\ 0 <= si * k - e < si /\ stamps_before si (e + sent) = k + if si * k <? e + sent then 1 else 0.
Proof.
  intros Hsi He Hs k. unfold k, stamps_before. pose proof (Z.div_mod (e + si - 1) si) as Hd. pose proof (Z.mod_pos_bound (e + si - 1) si) as Hm.
  set (q := (e + si - 1) / si) in *. assert (0 <= q) by (apply Z.div_pos; lia). split; [done|]. split; [lia|].
  destruct (Z.ltb_spec (si * q) (e + sent)); symmetry; (eapply Z.div_unique; [left|]).
  - instantiate (1 := e + sent - 1 - si * q). lia.
  - lia.
  - instantiate (1 := e + sent + si - 1 - si * q). lia.
  - lia.
Qed.

Lemma s32_id x : - 2 ^ 31 <= x < 2 ^ 31 -> s32 x = x.
Proof. intros Hx. apply wrapS_small; [lia|exact Hx]. Qed.

Lemma quot_rem_nonneg a b : 0 <= a -> 0 < b -> a `quot` b = a / b /\ a `rem` b = a mod b.
Proof. intros Ha Hb. split; [apply Z.quot_div_nonneg|apply Z.rem_mod_nonneg]; lia. Qed.

Lemma fraction_add_spec a b d :
  0 < d -> fr_denominator a = d -> 0 <= fr_numerator a < d -> 0 <= fr_numerator b < d -> d < 2 ^ 30 ->
  0 <= fr_integer a -> 0 <= fr_integer b -> fr_integer a + fr_integer b < 2 ^ 31 - 1 ->
  let c := fraction_add a b in
  fr_denominator c = d /\ 0 <= fr_numerator c < d /\ 0 <= fr_integer c /\
  fr_integer c * d + fr_numerator c = (fr_integer a * d + fr_numerator a) + (fr_integer b * d + fr_numerator b).
Proof.
  intros Hd Hda Ha Hb Hd2 Hia Hib Hi c. unfold c, fraction_add. rewrite Hda.
  rewrite (s32_id (fr_numerator a + fr_numerator b)) by lia.
  rewrite (s32_id (fr_integer a + fr_integer b)) by lia.
  destruct (quot_rem_nonneg (fr_numerator a + fr_numerator b) d) as [-> ->]; [lia..|]. cbn [fr_integer fr_numerator fr_denominator].
  pose proof (Z.div_mod (fr_numerator a + fr_numerator b) d). pose proof (Z.mod_pos_bound (fr_numerator a + fr_numerator b) d).
  assert (0 <= (fr_numerator a + fr_numerator b) / d <= 1).
  { split; [apply Z.div_pos; lia|]. enough ((fr_numerator a + fr_numerator b) / d < 2) by lia. apply Z.div_lt_upper_bound; lia. }
  rewrite s32_id by lia. split; [done|]. split; [lia|]. split; [lia|]. lia.
Qed.

(** the low 16 bits of a shifted cycle counter *)
Lemma syt_bits c o : 0 <= o < 4096 -> Z.land (Z.lor (s32 (Z.shiftl c 12)) o) 0xffff = (c mod 16) * 4096 + o.
Proof.
  intros Ho. rewrite Z.land_lor_distr_l. change 0xffff with (2 ^ 16 - 1). rewrite !land_mod by lia.
  rewrite (Z.mod_small o) by lia. rewrite Z.shiftl_mul_pow2 by lia.
  replace (s32 (c * 2 ^ 12) mod 2 ^ 16) with (Z.shiftl (c mod 16) 12).
  - rewrite lor_add by lia. lia.
  - rewrite Z.shiftl_mul_pow2 by lia. change (2 ^ 12) with 4096. change (2 ^ 16) with 65536. div_lia.
Qed.

(** block intervals are powers of two: the mask takes the distance to the next
    multiple *)
Lemma syt_index_distance si e d :
  (exists k, 0 <= k <= 5 /\ si = 2 ^ k) -> 0 <= e -> 0 <= d < 2 ^ 31 -> (exists q, d = e + si * q) ->
  Z.land (s32 (si - d)) (s32 (si - 1)) = si * stamps_before si e - e.
Proof.
  intros (k & Hk & ->) He Hd (q & Hq). assert (0 < 2 ^ k) by lia. assert (2 ^ k <= 2 ^ 5) by (apply Z.pow_le_mono_r; lia).
  destruct (stamps_step (2 ^ k) e 0) as (_ & Hr & _); [lia..|]. set (n := stamps_before _ _) in *.
  rewrite !s32_id by lia. rewrite land_mod by lia. symmetry. eapply Z.mod_unique; [left; exact Hr|]. instantiate (1 := 1 - q - n). lia.
Qed.

(** the projections of a state that is written out *)
Ltac cip_fields :=
  cbn [cip_samples_per_cycle cip_ticks_per_syt_offset cip_ready_samples cip_cycle_offset cip_cycle_count cip_dbc
    cip_mode_ cip_syt_interval cip_dbs cip_fdf cip_format fraction_sub_int fr_integer fr_numerator fr_denominator].

(** the state after a change of the mode *)
Lemma cip_at_init mode format fdf rate dbs si :
  rate_ok rate si -> cip_at mode format fdf rate dbs si 0 (iec61883_cip_set_transmission_mode mode (iec61883_cip_init format fdf rate dbs si)).
Proof.
  intros Hok. pose proof (si_range _ _ Hok) as Hsi. destruct Hok as [Hr _].
  assert (He : events_before mode rate si 0 = 0) by (unfold events_before; rewrite Z.mul_0_l, !Z.div_0_l by lia; by destruct (blocking mode); lia).
  unfold cip_at, dbc_before. rewrite He.
  assert (Hk : stamps_before si 0 = 0) by (unfold stamps_before; apply Z.div_small; lia). rewrite Hk.
  unfold iec61883_cip_set_transmission_mode, iec61883_cip_init, fraction_init, CIP_TRANSFER_DELAY.
  change (9000 `rem` 3072) with 2856; change (9000 `quot` 3072) with 2.
  cip_fields. rewrite !s32_id by lia.
  destruct (quot_rem_nonneg rate 8000) as [-> ->]; [lia..|].
  destruct (quot_rem_nonneg (24576000 * si) rate) as [-> ->]; [lia..|].
  destruct (quot_rem_nonneg (2856 * rate) rate) as [-> ->]; [lia..|].
  rewrite Z.div_mul, Z.mod_mul by lia. change (0 `quot` 8000) with 0; change (0 `rem` 8000) with 0.
  do 4 (split; [first [done|lia]|]). split; [destruct mode; lia|done].
Qed.

(** the counters stay in the range of [int] for [2 ^ 25] cycles, more than an
    hour *)
Lemma cip_at_bounds mode format fdf rate dbs si n c :
  rate_ok rate si -> 0 <= n < 2 ^ 25 -> cip_at mode format fdf rate dbs si n c ->
  events_before mode rate si n <= 2 ^ 30 /\ 0 <= cip_dbc c <= 2 ^ 30 /\ 0 <= cip_cycle_count c <= n + 2 ^ 18 + 3.
Proof.
  intros Hok Hn (_ & _ & _ & (_ & Hnum & Hoff & Ht) & Hdbc & _).
  destruct (events_step mode rate si n Hok) as (He & Hr & _); [lia|]. pose proof (si_range _ _ Hok) as Hsi. destruct Hok as [Hrate _].
  set (e := events_before mode rate si n) in *. destruct (stamps_step si e 0) as (Hk & Hke & _); [lia..|]. set (k := stamps_before si e) in *.
  assert (Hen : 8000 * e <= n * rate) by lia. assert (He30 : e <= 2 ^ 30) by nia. split; [done|]. split.
  { rewrite Hdbc. unfold dbc_before. fold e. destruct mode; nia. }
  unfold CIP_TRANSFER_DELAY in Ht. assert (Hkt : k * (24576000 * si) <= 3072 * (n * rate) + 24576000 * si) by nia.
  set (x := k * (24576000 * si)) in *. assert (0 <= x) by (unfold x; nia). set (y := fr_integer _) in *. set (z := fr_numerator _) in *. set (cc := cip_cycle_count c) in *.
  assert (Hcc : cc * 3072 * rate <= 9000 * rate + (3072 * n * rate + 24576000 * 32)) by nia.
  clearbody x y z cc. split; [nia|]. nia.
Qed.

(** the header of cycle [n] *)
Definition scheduled_packet (mode : cip_mode) (node_id format fdf rate dbs si n : Z) : Z * iec61883_packet :=
  let first := events_before mode rate si n in
  let next := events_before mode rate si (n + 1) in
  let k := stamps_before si first in
  (next - first,
   mkCipPacket 0 (Z.land node_id 0x3f) dbs 0 0 0 0 (dbc_before mode rate si n) 2 format
     (if (next =? first) && bool_decide (mode = IEC61883_MODE_BLOCKING_NODATA) then IEC61883_FDF_NODATA else fdf)
     (ByteSwap16 (if si * k <? next then syt_field (block_time rate si k) else 0xffff))).

(** the clock part of the state *)
Lemma cip_clock_step mode format fdf rate dbs si n c :
  rate_ok rate si -> 0 <= n < 2 ^ 25 -> cip_at mode format fdf rate dbs si n c ->
  let offset := fraction_add (cip_cycle_offset c) (cip_ticks_per_syt_offset c) in
  let off := mkFraction (fr_integer offset `rem` 3072) (fr_numerator offset) (fr_denominator offset) in
  let count := s32 (cip_cycle_count c + fr_integer offset `quot` 3072) in
  fr_denominator off = rate /\ 0 <= fr_numerator off < rate /\ 0 <= fr_integer off < 3072 /\
  (count * 3072 + fr_integer off) * rate + fr_numerator off
    = CIP_TRANSFER_DELAY * rate + (stamps_before si (events_before mode rate si n) + 1) * (24576000 * si).
Proof.
  intros Hok Hn Hc offset off count. destruct (cip_at_bounds _ _ _ _ _ _ _ _ Hok Hn Hc) as (_ & _ & Hcc).
  destruct Hc as (_ & Htp & _ & (Hd & Hnum & Hint & Ht) & _). pose proof (si_range _ _ Hok) as Hsi. destruct Hok as [Hr _].
  assert (Hq : 0 <= 24576000 * si / rate < 2 ^ 30) by (split; [apply Z.div_pos; lia|apply Z.div_lt_upper_bound; nia]).
  pose proof (Z.mod_pos_bound (24576000 * si) rate). pose proof (Z.div_mod (24576000 * si) rate).
  destruct (fraction_add_spec (cip_cycle_offset c) (cip_ticks_per_syt_offset c) rate) as (Hd' & Hn' & Hi' & He);
    rewrite ?Htp; cbn [fr_integer fr_numerator fr_denominator]; [lia..|].
  fold offset in Hd', Hn', Hi', He. rewrite Htp in He. cbn [fr_integer fr_numerator] in He.
  unfold off, count. cbn [fr_integer fr_numerator fr_denominator].
  destruct (quot_rem_nonneg (fr_integer offset) 3072) as [-> ->]; [lia..|].
  pose proof (Z.div_mod (fr_integer offset) 3072). pose proof (Z.mod_pos_bound (fr_integer offset) 3072).
  assert (Hio : fr_integer offset < 2 ^ 30 + 3074) by nia.
  assert (0 <= fr_integer offset / 3072 < 2 ^ 20) by (split; [apply Z.div_pos; lia|apply Z.div_lt_upper_bound; lia]).
  rewrite s32_id by lia. split; [done|]. split; [done|]. split; [lia|]. nia.
Qed.

(** the SYT is the time of the next stamped sample *)
Lemma syt_of_clock rate si j count off num :
  0 < rate -> 0 <= num < rate -> 0 <= off < 3072 ->
  (count * 3072 + off) * rate + num = CIP_TRANSFER_DELAY * rate + j * (24576000 * si) ->
  syt_field (block_time rate si j) = count mod 16 * 4096 + off.
Proof.
  intros Hr Hn Ho He. unfold block_time.
  replace (j * (24576000 * si) / rate) with (count * 3072 + off - CIP_TRANSFER_DELAY).
  - unfold syt_field. replace (CIP_TRANSFER_DELAY + (count * 3072 + off - CIP_TRANSFER_DELAY)) with (off + count * 3072) by lia.
    rewrite Z.div_add, Z.mod_add, (Z.div_small off), (Z.mod_small off) by lia. done.
  - eapply Z.div_unique; [left; exact Hn|lia].
Qed.

Lemma cip_blocking_mode c : cip_blocking c = blocking (cip_mode_ c).
Proof. unfold cip_blocking. by destruct (cip_mode_ c). Qed.

(** the events of a packet, from the fraction *)
Lemma events_of_fraction mode si r next :
  1 <= si -> fr_integer next * 8000 + fr_numerator next = r -> 0 <= fr_numerator next < 8000 ->
  (if blocking mode then if si <=? fraction_floor next then si else 0 else fraction_floor next) =
  (if blocking mode then if 8000 * si <=? r then si else 0 else r / 8000).
Proof.
  intros Hsi Hr Hn. unfold fraction_floor. destruct (blocking mode); [|eapply Z.div_unique; [left; exact Hn|lia]].
  replace (8000 * si <=? r) with (si <=? fr_integer next); [done|]. apply eq_true_iff_eq. rewrite !Z.leb_le. lia.
Qed.

(** the counter differs from the events by whole intervals *)
Lemma dbc_events mode rate si n :
  rate_ok rate si -> 0 <= n ->
  (exists q, dbc_before mode rate si n = events_before mode rate si n + si * q) /\
  dbc_before mode rate si (n + 1) = dbc_before mode rate si n +
    if bool_decide (mode = IEC61883_MODE_BLOCKING_NODATA) then si else events_before mode rate si (n + 1) - events_before mode rate si n.
Proof.
  intros Hok Hn. unfold dbc_before. destruct mode; try (split; [exists 0; lia|rewrite bool_decide_false by done; lia]).
  split; [|rewrite bool_decide_true by done; lia]. unfold events_before. cbn [blocking]. exists (n - n * rate / (8000 * si)). lia.
Qed.

Lemma cip_step mode node_id format fdf rate dbs si n c :
  rate_ok rate si -> 0 <= n < 2 ^ 25 -> cip_at mode format fdf rate dbs si n c ->
  exists c1, iec61883_cip_fill_header node_id c
    = (fst (scheduled_packet mode node_id format fdf rate dbs si n), c1, snd (scheduled_packet mode node_id format fdf rate dbs si n)) /\
    cip_at mode format fdf rate dbs si (n + 1) c1.
Proof.
  intros Hok Hn Hc. pose proof (cip_at_bounds _ _ _ _ _ _ _ _ Hok Hn Hc) as (Heb & Hdb & Hcc).
  pose proof (cip_clock_step _ _ _ _ _ _ _ _ Hok Hn Hc) as Hclk. cbv zeta in Hclk. pose proof (si_range _ _ Hok) as Hsi.
  destruct (events_step mode rate si n Hok) as (He & Hr & Hsent & Hnext); [lia|].
  destruct (dbc_events mode rate si n Hok) as (Hq & Hdbc1); [lia|].
  destruct Hc as (Hsp & Htp & (Hrd & Hrn & Hre) & (Hod & Hon & Hoi & Ht) & Hdbc & Hm & Hsi' & Hdbs & Hfdf & Hfmt).
  assert (Hqr : 0 <= rate / 8000 <= si) by (destruct Hok; split; [apply Z.div_pos; lia|apply Z.div_le_upper_bound; lia]).
  pose proof (Z.mod_pos_bound rate 8000). pose proof (Z.div_mod rate 8000).
  destruct (fraction_add_spec (cip_ready_samples c) (cip_samples_per_cycle c) 8000) as (Hd' & Hn' & Hi' & Hadd);
    rewrite ?Hsp; cbn [fr_integer fr_numerator]; [done || lia..|].
  set (next := fraction_add (cip_ready_samples c) (cip_samples_per_cycle c)) in *.
  rewrite Hsp in Hadd. cbn [fr_integer fr_numerator] in Hadd.
  set (e := events_before mode rate si n) in *. set (r := n * rate - 8000 * e) in *.
  pose proof (events_of_fraction mode si (r + rate) next ltac:(lia) ltac:(lia) Hn') as Hev.
  set (sent := if blocking mode then _ else _) in Hsent, Hnext, Hev. clearbody sent.
  destruct (stamps_step si e sent ltac:(lia) He Hsent) as (Hk0 & Hkd & Hk1).
  assert (Hidx : Z.land (s32 (si - dbc_before mode rate si n)) (s32 (si - 1)) = si * stamps_before si e - e)
    by (apply syt_index_distance; [apply Hok|done|rewrite <- Hdbc; lia|exact Hq]).
  set (k := stamps_before si e) in *. rewrite <- Hdbc in Hidx.
  unfold iec61883_cip_fill_header, scheduled_packet. fold next. rewrite cip_blocking_mode, Hm, Hsi', Hdbs, Hfdf, Hfmt, Hev, Hidx. cbv zeta.
  fold e k. rewrite Hnext, <- Hdbc. replace (si * k - e <? sent) with (si * k <? e + sent) by (apply eq_true_iff_eq; rewrite !Z.ltb_lt; lia).
  replace (e + sent - e) with sent by lia. replace (e + sent =? e) with (sent =? 0) by (apply eq_true_iff_eq; rewrite !Z.eqb_eq; lia).
  rewrite Hnext in Hdbc1. replace (e + sent - e) with sent in Hdbc1 by lia.
  assert (Hready : s32 (fr_integer next - sent) = fr_integer next - sent) by (apply s32_id; lia).
  assert (Hnd : s32 (cip_dbc c + if bool_decide (mode = IEC61883_MODE_BLOCKING_NODATA) then si else sent) = dbc_before mode rate si (n + 1))
    by (rewrite Hdbc1, <- Hdbc; apply s32_id; case_bool_decide; lia).
  destruct (si * k <? e + sent).
  - unfold fraction_floor at 1. cbn [fst snd]. rewrite syt_bits by lia. rewrite (syt_of_clock rate si k (cip_cycle_count c) _ _ (proj1 (proj1 Hok)) Hon Hoi Ht).
    eexists. split; [reflexivity|]. unfold cip_at. rewrite Hnext, Hk1. cip_fields. rewrite Hready.
    do 2 (split; [done|]). split; [split; [done|]; split; [done|]; lia|]. split; [exact Hclk|]. split; [exact Hnd|done].
  - cbn [fst snd]. eexists. split; [reflexivity|]. unfold cip_at. rewrite Hnext, Hk1. cip_fields. rewrite Hready.
    do 2 (split; [done|]). split; [split; [done|]; split; [done|]; lia|]. rewrite Z.add_0_r. split; [done|]. split; [exact Hnd|done].
Qed.

Lemma cip_run_at mode node_id format fdf rate dbs si n :
  rate_ok rate si -> Z.of_nat n <= 2 ^ 25 ->
  cip_at mode format fdf rate dbs si (Z.of_nat n)
    (cip_run node_id n (iec61883_cip_set_transmission_mode mode (iec61883_cip_init format fdf rate dbs si))).
Proof.
  intros Hok. induction n as [|n IH]; intros Hn; [by apply cip_at_init|]. cbn [cip_run].
  destruct (cip_step mode node_id format fdf rate dbs si (Z.of_nat n) _ Hok ltac:(lia) (IH ltac:(lia))) as (c1 & -> & Hc1).
  by replace (Z.of_nat (S n)) with (Z.of_nat n + 1) by lia.
Qed.

(** C28: the generator of CIP headers computes the exact schedule in each of its
    three modes.  After [iec61883_cip_init] with a rate of at most 8000 blocks a
    second and an interval that is a power of two up to 32, and after the mode is
    set, the packet of each of the first [2 ^ 25] cycles (more than an hour)
    carries the samples that the closed form gives to it, at most an interval of
    them: whole blocks in the blocking modes, all that are ready otherwise.  Its
    data block counter is the number of samples sent before, or of the packets
    times the interval when packets without data are marked; the mark is set
    exactly in those; and its SYT is the exact time of the sample in the packet
    whose number is a multiple of the interval, rounded down to a tick, or 0xffff
    when there is none.  The fractions neither drift nor overflow. *)
Theorem cip_schedule (mode : cip_mode) (node_id format fdf rate dbs syt_interval : Z) (n : nat) :
  rate_ok rate syt_interval -> Z.of_nat n < 2 ^ 25 ->
  let c := cip_run node_id n (iec61883_cip_set_transmission_mode mode (iec61883_cip_init format fdf rate dbs syt_interval)) in
  exists c1, iec61883_cip_fill_header node_id c
    = (fst (scheduled_packet mode node_id format fdf rate dbs syt_interval (Z.of_nat n)), c1,
       snd (scheduled_packet mode node_id format fdf rate dbs syt_interval (Z.of_nat n))) /\
    cip_dbc c1 = dbc_before mode rate syt_interval (Z.of_nat n + 1) /\
    events_before mode rate syt_interval (Z.of_nat n) <= events_before mode rate syt_interval (Z.of_nat n + 1)
      <= events_before mode rate syt_interval (Z.of_nat n) + syt_interval.
Proof.
  intros Hok Hn c. destruct (cip_step mode node_id format fdf rate dbs syt_interval (Z.of_nat n) c Hok) as (c1 & Hc & Hat);
    [lia|apply cip_run_at; [done|lia]|].
  exists c1. split; [done|]. split; [apply Hat|].
  destruct (events_step mode rate syt_interval (Z.of_nat n) Hok) as (_ & _ & Hs & ->); lia.
Qed.

(** a packet without data of a stream that marks them, at 44100 Hz *)
Lemma cip_schedule_witness :
  let c := cip_run 1 80 (iec61883_cip_set_transmission_mode IEC61883_MODE_BLOCKING_NODATA (iec61883_cip_init IEC61883_FMT_AMDTP 1 44100 2 8)) in
  exists c1, iec61883_cip_fill_header 1 c
    = (0, c1, mkCipPacket 0 1 2 0 0 0 0 640 2 0x10 IEC61883_FDF_NODATA (ByteSwap16 0xffff)) /\ cip_dbc c1 = 648 /\
    440 <= 440 <= 440 + 8.
Proof.
  apply (cip_schedule IEC61883_MODE_BLOCKING_NODATA 1 IEC61883_FMT_AMDTP 1 44100 2 8 80); [|lia].
  split; [lia|]. exists 3. split; [lia|reflexivity].
Defined.

(** the packet that follows, and one of a stream that sends every sample *)
Example blocking_and_not :
  scheduled_packet IEC61883_MODE_BLOCKING_EMPTY 1 IEC61883_FMT_AMDTP 1 44100 2 8 81 =
    (8, mkCipPacket 0 1 2 0 0 0 0 440 2 0x10 1 (ByteSwap16 (2 * 4096 + 2298))) /\
  scheduled_packet IEC61883_MODE_NON_BLOCKING 1 IEC61883_FMT_AMDTP 1 44100 2 8 81 =
    (6, mkCipPacket 0 1 2 0 0 0 0 446 2 0x10 1 (ByteSwap16 (syt_field (block_time 44100 8 56)))).
Proof. vm_compute. done. Qed.

Lemma cip_bytes_roundtrip p data :
  0 <= pk_eoh0 p < 4 -> 0 <= pk_sid p < 64 -> is_u8 (pk_dbs p) -> 0 <= pk_fn p < 4 -> 0 <= pk_qpc p < 8 ->
  0 <= pk_sph p < 2 -> 0 <= pk_reserved p < 4 -> is_u8 (pk_dbc p) -> 0 <= pk_eoh1 p < 4 -> 0 <= pk_fmt p < 64 ->
  is_u8 (pk_fdf p) -> is_u16 (pk_syt p) -> cip_of_bytes (cip_bytes p ++ data) = Some p.
Proof.
  intros. destruct p as [a b c d e f g h i j k l]. cbn [pk_eoh0 pk_sid pk_dbs pk_fn pk_qpc pk_sph pk_reserved pk_dbc
    pk_eoh1 pk_fmt pk_fdf pk_syt] in *. unfold cip_bytes. cbn [app cip_of_bytes pk_eoh0 pk_sid pk_dbs pk_fn pk_qpc pk_sph
    pk_reserved pk_dbc pk_eoh1 pk_fmt pk_fdf pk_syt].
  rewrite (wrapU_small 16 l) by done. f_equal.
  rewrite !wrapU_small by (unfold uint; change (2 ^ 6) with 64; change (2 ^ 2) with 4; change (2 ^ 1) with 2;
    change (2 ^ 3) with 8; width_lia).
  f_equal; try done; change (2 ^ 8) with 256; div_lia.
Qed.

(** A header in memory: every field has kept its low bits. *)
Definition cip_norm (p : iec61883_packet) : iec61883_packet :=
  mkCipPacket (wrapU 2 (pk_eoh0 p)) (wrapU 6 (pk_sid p)) (u8 (pk_dbs p)) (wrapU 2 (pk_fn p)) (wrapU 3 (pk_qpc p))
    (wrapU 1 (pk_sph p)) (wrapU 2 (pk_reserved p)) (u8 (pk_dbc p)) (wrapU 2 (pk_eoh1 p)) (wrapU 6 (pk_fmt p))
    (u8 (pk_fdf p)) (u16 (pk_syt p)).

Lemma wrapU_idemp w x : 0 <= w -> wrapU w (wrapU w x) = wrapU w x.
Proof. intros Hw. unfold wrapU. apply Z.mod_mod. lia. Qed.

Lemma cip_of_cip_bytes p data : cip_of_bytes (cip_bytes p ++ data) = Some (cip_norm p).
Proof.
  rewrite <- (cip_bytes_roundtrip (cip_norm p) data); [|by (apply wrapU_uint; lia)..].
  unfold cip_bytes, cip_norm. cbn [pk_eoh0 pk_sid pk_dbs pk_fn pk_qpc pk_sph pk_reserved pk_dbc pk_eoh1 pk_fmt pk_fdf pk_syt].
  by rewrite !wrapU_idemp by lia.
Qed.

Lemma cip_bytes_length p : length (cip_bytes p) = 8%nat.
Proof. done. Qed.
