(* ===== verification/RingBuffer.v ===== *)
(** * RingBuffer: libutil/ringbuffer.c

    The lock-free byte queue between the isochronous thread and the client:
    one reader, one writer, one cell always unused.  The memory block is a
    list; [memcpy] outside of it is undefined ([None]).  The queue of bytes a
    ring buffer holds is [rb_content], and every operation is related to it.
    RingBufferThreads.v lets the accesses of the two threads interleave. *)
From S2P Require Import Prelude.

Section ringbuffer.
Context {A : Type}.

(** [ffado_ringbuffer_t]; [buf] points to a block of [size] cells *)
Record ringbuffer := mkRingbuffer {
  rb_buf : list A;
  rb_write_ptr : Z;
  rb_read_ptr : Z;
  rb_size : Z;
  rb_size_mask : Z;
  rb_mlocked : Z }.

Definition rb_with_read_ptr (r : Z) (rb : ringbuffer) : ringbuffer :=
  mkRingbuffer (rb_buf rb) (rb_write_ptr rb) r (rb_size rb) (rb_size_mask rb) (rb_mlocked rb).

Definition rb_with_write (buf : list A) (w : Z) (rb : ringbuffer) : ringbuffer :=
  mkRingbuffer buf w (rb_read_ptr rb) (rb_size rb) (rb_size_mask rb) (rb_mlocked rb).

(** *** Memory blocks *)

Definition memcpy_from (buf : list A) (i n : Z) : option (list A) :=
  if decide (0 <= i /\ 0 <= n /\ i + n <= Z.of_nat (length buf))
  then Some (take (Z.to_nat n) (drop (Z.to_nat i) buf)) else None.

Definition memcpy_to (buf : list A) (i : Z) (l : list A) : option (list A) :=
  if decide (0 <= i /\ i + Z.of_nat (length l) <= Z.of_nat (length buf))
  then Some (take (Z.to_nat i) buf ++ l ++ drop (Z.to_nat i + length l) buf) else None.

(** *** Creation *)

(** [for (power_of_two = 1; 1 << power_of_two < sz; power_of_two++);] in [int]:
    a shift that does not fit is undefined. *)
Fixpoint power_of_two_loop (fuel : nat) (power_of_two : Z) (sz : Z) : option Z :=
  match fuel with
  | O => None
  | S fuel' =>
      if Z.shiftl 1 power_of_two <? sz then power_of_two_loop fuel' (power_of_two + 1) sz
      else Some power_of_two
  end.

(** [block] is the memory [malloc] returns for the buffer. *)
Definition ffado_ringbuffer_create (block : Z -> list A) (sz : Z) : option ringbuffer :=
  power_of_two ← power_of_two_loop 30 1 sz;
  let size := Z.shiftl 1 power_of_two in
  Some (mkRingbuffer (block size) 0 0 size (u64 (size - 1)) 0).

Definition ffado_ringbuffer_mlock (rb : ringbuffer) : Z * ringbuffer :=
  (0, mkRingbuffer (rb_buf rb) (rb_write_ptr rb) (rb_read_ptr rb) (rb_size rb) (rb_size_mask rb) 1).

Definition ffado_ringbuffer_reset (rb : ringbuffer) : ringbuffer :=
  mkRingbuffer (rb_buf rb) 0 0 (rb_size rb) (rb_size_mask rb) (rb_mlocked rb).

(** *** Space *)

Definition ffado_ringbuffer_read_space (rb : ringbuffer) : Z :=
  let w := rb_write_ptr rb in
  let r := rb_read_ptr rb in
  if r <? w then u64 (w - r) else Z.land (u64 (w - r + rb_size rb)) (rb_size_mask rb).

Definition ffado_ringbuffer_write_space (rb : ringbuffer) : Z :=
  let w := rb_write_ptr rb in
  let r := rb_read_ptr rb in
  if r <? w then u64 (Z.land (u64 (r - w + rb_size rb)) (rb_size_mask rb) - 1)
  else if w <? r then u64 (r - w - 1)
  else u64 (rb_size rb - 1).

(** *** Copying reads and writes

    The parts [n1] and [n2] of a transfer of [n] bytes at position [p]. *)
Definition rb_split (rb : ringbuffer) (p n : Z) : Z * Z :=
  let cnt2 := u64 (p + n) in
  if rb_size rb <? cnt2 then (u64 (rb_size rb - p), Z.land cnt2 (rb_size_mask rb)) else (n, 0).

Definition ffado_ringbuffer_read_advance (cnt : Z) (rb : ringbuffer) : ringbuffer :=
  rb_with_read_ptr (Z.land (u64 (rb_read_ptr rb + cnt)) (rb_size_mask rb)) rb.

Definition ffado_ringbuffer_write_advance (cnt : Z) (rb : ringbuffer) : ringbuffer :=
  rb_with_write (rb_buf rb) (Z.land (u64 (rb_write_ptr rb + cnt)) (rb_size_mask rb)) rb.

(** one [memcpy] out of the buffer and the update of the read pointer *)
Definition rb_read_part (n : Z) (rb : ringbuffer) : option (list A * ringbuffer) :=
  data ← memcpy_from (rb_buf rb) (rb_read_ptr rb) n;
  Some (data, ffado_ringbuffer_read_advance n rb).

Definition rb_write_part (data : list A) (rb : ringbuffer) : option ringbuffer :=
  buf ← memcpy_to (rb_buf rb) (rb_write_ptr rb) data;
  Some (ffado_ringbuffer_write_advance (Z.of_nat (length data)) (rb_with_write buf (rb_write_ptr rb) rb)).

(** The result is the number of bytes and the bytes written to [dest]. *)
Definition ffado_ringbuffer_read (cnt : Z) (rb : ringbuffer) : option (Z * list A * ringbuffer) :=
  let free_cnt := ffado_ringbuffer_read_space rb in
  if free_cnt =? 0 then Some (0, [], rb)
  else
    let to_read := if free_cnt <? cnt then free_cnt else cnt in
    let '(n1, n2) := rb_split rb (rb_read_ptr rb) to_read in
    '(d1, rb1) ← rb_read_part n1 rb;
    if n2 =? 0 then Some (to_read, d1, rb1)
    else '(d2, rb2) ← rb_read_part n2 rb1; Some (to_read, d1 ++ d2, rb2).

Definition ffado_ringbuffer_peek (cnt : Z) (rb : ringbuffer) : option (Z * list A) :=
  let free_cnt := ffado_ringbuffer_read_space rb in
  if free_cnt =? 0 then Some (0, [])
  else
    let to_read := if free_cnt <? cnt then free_cnt else cnt in
    let '(n1, n2) := rb_split rb (rb_read_ptr rb) to_read in
    d1 ← memcpy_from (rb_buf rb) (rb_read_ptr rb) n1;
    let tmp_read_ptr := Z.land (u64 (rb_read_ptr rb + n1)) (rb_size_mask rb) in
    if n2 =? 0 then Some (to_read, d1)
    else d2 ← memcpy_from (rb_buf rb) tmp_read_ptr n2; Some (to_read, d1 ++ d2).

(** [src] has at least [cnt] bytes: reading past it is undefined. *)
Definition ffado_ringbuffer_write (src : list A) (cnt : Z) (rb : ringbuffer) : option (Z * ringbuffer) :=
  let free_cnt := ffado_ringbuffer_write_space rb in
  if free_cnt =? 0 then Some (0, rb)
  else
    let to_write := if free_cnt <? cnt then free_cnt else cnt in
    let '(n1, n2) := rb_split rb (rb_write_ptr rb) to_write in
    d1 ← memcpy_from src 0 n1;
    rb1 ← rb_write_part d1 rb;
    if n2 =? 0 then Some (to_write, rb1)
    else
      d2 ← memcpy_from src n1 n2;
      rb2 ← rb_write_part d2 rb1;
      Some (to_write, rb2).

(** *** Vectors: position and length of the two segments *)

Definition rb_vector (rb : ringbuffer) (p free_cnt : Z) : (Z * Z) * (Z * Z) :=
  let cnt2 := u64 (p + free_cnt) in
  if rb_size rb <? cnt2
  then ((p, u64 (rb_size rb - p)), (0, Z.land cnt2 (rb_size_mask rb)))
  else ((p, free_cnt), (0, 0)).

Definition ffado_ringbuffer_get_read_vector (rb : ringbuffer) : (Z * Z) * (Z * Z) :=
  rb_vector rb (rb_read_ptr rb) (ffado_ringbuffer_read_space rb).

Definition ffado_ringbuffer_get_write_vector (rb : ringbuffer) : (Z * Z) * (Z * Z) :=
  rb_vector rb (rb_write_ptr rb) (ffado_ringbuffer_write_space rb).

(** ** The queue a ring buffer holds *)

Definition rb_wf (rb : ringbuffer) : Prop :=
  (exists k, 1 <= k < 31 /\ rb_size rb = 2 ^ k) /\ rb_size_mask rb = rb_size rb - 1 /\
  Z.of_nat (length (rb_buf rb)) = rb_size rb /\
  0 <= rb_write_ptr rb < rb_size rb /\ 0 <= rb_read_ptr rb < rb_size rb.

Definition rb_content (rb : ringbuffer) : list A :=
  let w := Z.to_nat (rb_write_ptr rb) in
  let r := Z.to_nat (rb_read_ptr rb) in
  if rb_read_ptr rb <=? rb_write_ptr rb then take (w - r) (drop r (rb_buf rb))
  else drop r (rb_buf rb) ++ take w (rb_buf rb).

(** the number of bytes that fit: one cell stays free *)
Definition rb_capacity (rb : ringbuffer) : Z := rb_size rb - 1.

Definition rb_fill (rb : ringbuffer) : Z := Z.of_nat (length (rb_content rb)).

(** *** Arithmetic of the pointers *)

Lemma rb_mask_mod (rb : ringbuffer) x : rb_wf rb -> Z.land x (rb_size_mask rb) = x mod rb_size rb.
Proof. intros ([k [Hk Hs]] & Hm & _). rewrite Hm, Hs. apply land_mod. lia. Qed.

Lemma rb_size_bound (rb : ringbuffer) : rb_wf rb -> 2 <= rb_size rb < 2 ^ 31.
Proof.
  intros ([k [Hk ->]] & _). split.
  - change 2 with (2 ^ 1) at 1. apply Z.pow_le_mono_r; lia.
  - apply Z.pow_lt_mono_r; lia.
Qed.

Lemma rb_u64_small x : 0 <= x < 2 ^ 33 -> u64 x = x.
Proof. intros. apply wrapU_small. width_lia. Qed.

Lemma rb_wrap_add size x : 0 < size -> 0 <= x < 2 * size ->
  x mod size = if x <? size then x else x - size.
Proof.
  intros Hs Hx. destruct (Z.ltb_spec x size).
  - apply Z.mod_small. lia.
  - symmetry. apply (Z.mod_unique _ _ 1); lia.
Qed.

Lemma rb_fill_eq (rb : ringbuffer) :
  rb_wf rb ->
  rb_fill rb = if rb_read_ptr rb <=? rb_write_ptr rb then rb_write_ptr rb - rb_read_ptr rb
               else rb_write_ptr rb - rb_read_ptr rb + rb_size rb.
Proof.
  intros (_ & _ & Hl & Hw & Hr). unfold rb_fill, rb_content.
  destruct (Z.leb_spec (rb_read_ptr rb) (rb_write_ptr rb));
    rewrite ?length_app, length_take, length_drop; lia.
Qed.

Lemma read_space_fill (rb : ringbuffer) : rb_wf rb -> ffado_ringbuffer_read_space rb = rb_fill rb.
Proof.
  intros Hwf. rewrite rb_fill_eq by done. pose proof (rb_size_bound rb Hwf) as Hs.
  unfold ffado_ringbuffer_read_space. rewrite rb_mask_mod by done.
  destruct Hwf as (_ & _ & _ & Hw & Hr).
  destruct (Z.ltb_spec (rb_read_ptr rb) (rb_write_ptr rb)), (Z.leb_spec (rb_read_ptr rb) (rb_write_ptr rb)); try lia;
    rewrite rb_u64_small by lia; [done|..]; rewrite rb_wrap_add by lia; case_match; lia.
Qed.

Lemma write_space_fill (rb : ringbuffer) :
  rb_wf rb -> ffado_ringbuffer_write_space rb = rb_capacity rb - rb_fill rb.
Proof.
  intros Hwf. rewrite rb_fill_eq by done. pose proof (rb_size_bound rb Hwf) as Hs.
  unfold ffado_ringbuffer_write_space, rb_capacity. rewrite rb_mask_mod by done.
  destruct Hwf as (_ & _ & _ & Hw & Hr).
  destruct (Z.ltb_spec (rb_read_ptr rb) (rb_write_ptr rb)), (Z.leb_spec (rb_read_ptr rb) (rb_write_ptr rb)); try lia.
  - rewrite (rb_u64_small (_ - _ + _)) by lia. rewrite rb_wrap_add by lia.
    case_match; rewrite rb_u64_small by lia; lia.
  - destruct (Z.ltb_spec (rb_write_ptr rb) (rb_read_ptr rb)); rewrite rb_u64_small by lia; lia.
  - destruct (Z.ltb_spec (rb_write_ptr rb) (rb_read_ptr rb)); [|lia]. rewrite rb_u64_small by lia. lia.
Qed.

Lemma rb_fill_bound (rb : ringbuffer) : rb_wf rb -> 0 <= rb_fill rb <= rb_capacity rb.
Proof.
  intros Hwf. rewrite rb_fill_eq by done. unfold rb_capacity.
  destruct Hwf as (_ & _ & _ & Hw & Hr). case_match; lia.
Qed.

(** the split cuts a transfer at the end of the buffer *)
Lemma rb_split_spec (rb : ringbuffer) p n :
  rb_wf rb -> 0 <= p < rb_size rb -> 0 <= n < rb_size rb ->
  rb_split rb p n = if p + n <=? rb_size rb then (n, 0) else (rb_size rb - p, p + n - rb_size rb).
Proof.
  intros Hwf Hp Hn. pose proof (rb_size_bound rb Hwf). unfold rb_split.
  rewrite rb_mask_mod, rb_u64_small by (done || lia).
  destruct (Z.ltb_spec (rb_size rb) (p + n)), (Z.leb_spec (p + n) (rb_size rb)); try lia; [|done].
  rewrite rb_u64_small, rb_wrap_add by lia. case_match; f_equal; lia.
Qed.

(** *** The parts of a transfer *)

(** a pointer moved by at most one round *)
Definition rb_moved (rb : ringbuffer) (p n : Z) : Z :=
  if p + n <? rb_size rb then p + n else p + n - rb_size rb.

Lemma rb_moved_bound (rb : ringbuffer) p n :
  rb_wf rb -> 0 <= p < rb_size rb -> 0 <= n <= rb_size rb -> 0 <= rb_moved rb p n < rb_size rb.
Proof. intros Hwf ? ?. unfold rb_moved. case_match; lia. Qed.

Lemma take_app_exact (l1 l2 : list A) n : n = length l1 -> take n (l1 ++ l2) = l1.
Proof. intros ->. apply take_app_length. Qed.

Lemma read_advance_eq (rb : ringbuffer) n :
  rb_wf rb -> 0 <= n <= rb_size rb ->
  ffado_ringbuffer_read_advance n rb = rb_with_read_ptr (rb_moved rb (rb_read_ptr rb) n) rb.
Proof.
  intros Hwf Hn. pose proof (rb_size_bound rb Hwf). pose proof Hwf as (_ & _ & _ & _ & Hr).
  unfold ffado_ringbuffer_read_advance. rewrite rb_u64_small by lia.
  by rewrite rb_mask_mod, rb_wrap_add by (done || lia).
Qed.

Lemma write_advance_eq (rb : ringbuffer) n :
  rb_wf rb -> 0 <= n <= rb_size rb ->
  ffado_ringbuffer_write_advance n rb = rb_with_write (rb_buf rb) (rb_moved rb (rb_write_ptr rb) n) rb.
Proof.
  intros Hwf Hn. pose proof (rb_size_bound rb Hwf). pose proof Hwf as (_ & _ & _ & Hw & _).
  unfold ffado_ringbuffer_write_advance. rewrite rb_u64_small by lia.
  by rewrite rb_mask_mod, rb_wrap_add by (done || lia).
Qed.

Lemma rb_wf_read_ptr (rb : ringbuffer) r :
  rb_wf rb -> 0 <= r < rb_size rb -> rb_wf (rb_with_read_ptr r rb).
Proof. intros (Hk & Hm & Hl & Hw & Hr) H. exact (conj Hk (conj Hm (conj Hl (conj Hw H)))). Qed.

Lemma rb_wf_write (rb : ringbuffer) buf w :
  rb_wf rb -> 0 <= w < rb_size rb -> length buf = length (rb_buf rb) -> rb_wf (rb_with_write buf w rb).
Proof.
  intros (Hk & Hm & Hl & Hw & Hr) Hw' Hlen. rewrite <- Hlen in Hl.
  exact (conj Hk (conj Hm (conj Hl (conj Hw' Hr)))).
Qed.

(** Moving the read pointer removes bytes from the front. *)
Lemma content_read_ptr (rb : ringbuffer) n :
  rb_wf rb -> 0 <= n <= rb_fill rb ->
  rb_content (rb_with_read_ptr (rb_moved rb (rb_read_ptr rb) n) rb) = drop (Z.to_nat n) (rb_content rb).
Proof.
  intros Hwf Hn. rewrite rb_fill_eq in Hn by done. destruct Hwf as (_ & _ & Hl & Hw & Hr).
  unfold rb_content, rb_moved. cbn [rb_with_read_ptr rb_read_ptr rb_write_ptr rb_buf].
  destruct (Z.ltb_spec (rb_read_ptr rb + n) (rb_size rb)) as [Hlt|Hge].
  - destruct (Z.leb_spec (rb_read_ptr rb) (rb_write_ptr rb)) as [Hle|Hgt].
    + destruct (Z.leb_spec (rb_read_ptr rb + n) (rb_write_ptr rb)); [|lia].
      rewrite skipn_firstn_comm, drop_drop. f_equal; [|f_equal]; lia.
    + destruct (Z.leb_spec (rb_read_ptr rb + n) (rb_write_ptr rb)); [lia|].
      rewrite drop_app_le, drop_drop by (rewrite length_drop; lia). do 2 f_equal. lia.
  - destruct (Z.leb_spec (rb_read_ptr rb) (rb_write_ptr rb)) as [Hle|Hgt]; [lia|].
    destruct (Z.leb_spec (rb_read_ptr rb + n - rb_size rb) (rb_write_ptr rb)); [|lia].
    rewrite drop_app_ge by (rewrite length_drop; lia). rewrite length_drop.
    rewrite skipn_firstn_comm. do 2 f_equal; lia.
Qed.

(** Within one segment, the bytes at the read pointer are the front. *)
Lemma read_segment (rb : ringbuffer) n :
  rb_wf rb -> 0 <= n <= rb_fill rb -> rb_read_ptr rb + n <= rb_size rb ->
  memcpy_from (rb_buf rb) (rb_read_ptr rb) n = Some (take (Z.to_nat n) (rb_content rb)).
Proof.
  intros Hwf Hn Hp. rewrite rb_fill_eq in Hn by done. destruct Hwf as (_ & _ & Hl & Hw & Hr).
  unfold memcpy_from. rewrite decide_True by lia. f_equal. unfold rb_content.
  destruct (Z.leb_spec (rb_read_ptr rb) (rb_write_ptr rb)).
  - rewrite take_take. f_equal. lia.
  - rewrite take_app_le; [done|]. rewrite length_drop. lia.
Qed.

Lemma rb_read_part_spec (rb : ringbuffer) n :
  rb_wf rb -> 0 <= n <= rb_fill rb -> rb_read_ptr rb + n <= rb_size rb ->
  exists rb', rb_read_part n rb = Some (take (Z.to_nat n) (rb_content rb), rb') /\
    rb_wf rb' /\ rb_content rb' = drop (Z.to_nat n) (rb_content rb) /\ rb_size rb' = rb_size rb /\
    rb_read_ptr rb' = rb_moved rb (rb_read_ptr rb) n.
Proof.
  intros Hwf Hn Hp. pose proof (rb_fill_bound rb Hwf) as Hf. unfold rb_capacity in Hf.
  pose proof Hwf as (_ & _ & _ & _ & Hr).
  unfold rb_read_part. rewrite read_segment by done. cbn [mbind option_bind].
  rewrite read_advance_eq by (done || lia). eexists. split_and!; [done| | |done|done].
  - apply rb_wf_read_ptr, rb_moved_bound; (done || lia).
  - by apply content_read_ptr.
Qed.

(** Storing bytes in the free cells and moving the write pointer appends
    them. *)
Lemma content_write (rb : ringbuffer) l buf :
  rb_wf rb -> Z.of_nat (length l) + rb_fill rb <= rb_capacity rb ->
  memcpy_to (rb_buf rb) (rb_write_ptr rb) l = Some buf ->
  length buf = length (rb_buf rb) /\
  rb_content (rb_with_write buf (rb_moved rb (rb_write_ptr rb) (Z.of_nat (length l))) rb) = rb_content rb ++ l.
Proof.
  intros Hwf Hn Hc. rewrite rb_fill_eq in Hn by done. unfold rb_capacity in Hn.
  destruct Hwf as (_ & _ & Hl & Hw & Hr).
  unfold memcpy_to in Hc. case_decide as Hd; [|done]. injection Hc as <-.
  split; [rewrite !length_app, length_take, length_drop; lia|].
  set (w := Z.to_nat (rb_write_ptr rb)). assert (Hlt : length (take w (rb_buf rb)) = w) by (rewrite length_take; lia).
  unfold rb_content, rb_moved. cbn [rb_with_write rb_read_ptr rb_write_ptr rb_buf]. fold w.
  destruct (Z.leb_spec (rb_read_ptr rb) (rb_write_ptr rb)) as [Hle|Hgt].
  - rewrite drop_app_le by lia.
    assert (Hdt : drop (Z.to_nat (rb_read_ptr rb)) (take w (rb_buf rb))
                  = take (w - Z.to_nat (rb_read_ptr rb)) (drop (Z.to_nat (rb_read_ptr rb)) (rb_buf rb))).
    { by rewrite skipn_firstn_comm. }
    rewrite Hdt, (assoc_L (++)).
    destruct (Z.ltb_spec (rb_write_ptr rb + Z.of_nat (length l)) (rb_size rb)).
    + destruct (Z.leb_spec (rb_read_ptr rb) (rb_write_ptr rb + Z.of_nat (length l))); [|lia].
      apply take_app_exact. rewrite length_app, length_take, length_drop. lia.
    + destruct (Z.leb_spec (rb_read_ptr rb) (rb_write_ptr rb + Z.of_nat (length l) - rb_size rb)); [lia|].
      rewrite (drop_ge (rb_buf rb) (w + length l)) by lia. rewrite app_nil_r.
      replace (Z.to_nat (rb_write_ptr rb + Z.of_nat (length l) - rb_size rb)) with 0%nat by lia.
      by rewrite take_0, app_nil_r.
  - destruct (Z.ltb_spec (rb_write_ptr rb + Z.of_nat (length l)) (rb_size rb)); [|lia].
    destruct (Z.leb_spec (rb_read_ptr rb) (rb_write_ptr rb + Z.of_nat (length l))); [lia|].
    rewrite (assoc_L (++) (take w _) l), <- (assoc_L (++) (drop _ (rb_buf rb))). f_equal.
    + rewrite drop_app_ge, drop_drop by (rewrite length_app; lia). f_equal. rewrite length_app. lia.
    + apply take_app_exact. rewrite length_app. lia.
Qed.

Lemma rb_write_part_spec (rb : ringbuffer) l :
  rb_wf rb -> Z.of_nat (length l) + rb_fill rb <= rb_capacity rb ->
  rb_write_ptr rb + Z.of_nat (length l) <= rb_size rb ->
  exists rb', rb_write_part l rb = Some rb' /\ rb_wf rb' /\ rb_content rb' = rb_content rb ++ l /\
    rb_size rb' = rb_size rb /\ rb_write_ptr rb' = rb_moved rb (rb_write_ptr rb) (Z.of_nat (length l)).
Proof.
  intros Hwf Hn Hp. pose proof (rb_fill_bound rb Hwf) as Hf. pose proof Hwf as (_ & _ & Hl & Hw & _).
  unfold rb_capacity in *.
  assert (exists buf, memcpy_to (rb_buf rb) (rb_write_ptr rb) l = Some buf) as [buf Hc].
  { unfold memcpy_to. rewrite decide_True by lia. by eexists. }
  destruct (content_write rb l buf Hwf Hn Hc) as [Hlen Hct].
  unfold rb_write_part. rewrite Hc. cbn [mbind option_bind].
  assert (Hwf1 : rb_wf (rb_with_write buf (rb_write_ptr rb) rb)) by (by apply rb_wf_write).
  rewrite write_advance_eq by (done || (cbn; lia)).
  eexists. split_and!; [done| |exact Hct|done|done].
  apply rb_wf_write; [done| |done]. apply (rb_moved_bound rb (rb_write_ptr rb) _ Hwf Hw). lia.
Qed.

(** *** Whole operations *)

Definition rb_amount (free_cnt cnt : Z) : Z := if free_cnt <? cnt then free_cnt else cnt.

Lemma ringbuffer_peek_spec (rb : ringbuffer) cnt :
  rb_wf rb -> 0 <= cnt ->
  ffado_ringbuffer_peek cnt rb
  = Some (rb_amount (rb_fill rb) cnt, take (Z.to_nat cnt) (rb_content rb)).
Proof.
  intros Hwf Hc. pose proof (rb_fill_bound rb Hwf) as Hf. unfold rb_capacity in Hf.
  pose proof Hwf as (_ & _ & _ & _ & Hr). pose proof (rb_size_bound rb Hwf).
  unfold ffado_ringbuffer_peek. rewrite read_space_fill by done.
  change (if rb_fill rb <? cnt then rb_fill rb else cnt) with (rb_amount (rb_fill rb) cnt).
  destruct (Z.eqb_spec (rb_fill rb) 0) as [H0|Hn0].
  { assert (rb_content rb = []) as -> by (apply length_zero_iff_nil; unfold rb_fill in H0; lia).
    rewrite take_nil. unfold rb_amount. case_match; do 3 f_equal; lia. }
  assert (Ha : 0 <= rb_amount (rb_fill rb) cnt <= rb_fill rb) by (unfold rb_amount; case_match; lia).
  assert (Ht : take (Z.to_nat cnt) (rb_content rb) = take (Z.to_nat (rb_amount (rb_fill rb) cnt)) (rb_content rb)).
  { unfold rb_amount. case_match; [|done]. unfold rb_fill in *. rewrite !take_ge by lia. done. }
  rewrite Ht. set (n := rb_amount (rb_fill rb) cnt) in *.
  rewrite rb_split_spec by (done || lia). destruct (Z.leb_spec (rb_read_ptr rb + n) (rb_size rb)).
  - rewrite read_segment by (done || lia). done.
  - rewrite read_segment by (done || lia). cbn [mbind option_bind].
    destruct (Z.eqb_spec (rb_read_ptr rb + n - rb_size rb) 0); [lia|].
    assert (Hm : Z.land (u64 (rb_read_ptr rb + (rb_size rb - rb_read_ptr rb))) (rb_size_mask rb)
      = rb_moved rb (rb_read_ptr rb) (rb_size rb - rb_read_ptr rb)).
    { rewrite rb_u64_small, rb_mask_mod, rb_wrap_add by (done || lia). done. }
    rewrite Hm. set (rb1 := rb_with_read_ptr (rb_moved rb (rb_read_ptr rb) (rb_size rb - rb_read_ptr rb)) rb).
    assert (Hc1 : rb_content rb1 = drop (Z.to_nat (rb_size rb - rb_read_ptr rb)) (rb_content rb))
      by (apply content_read_ptr; (done || lia)).
    assert (Hwf1 : rb_wf rb1) by (apply rb_wf_read_ptr, rb_moved_bound; (done || lia)).
    assert (Hf1 : rb_fill rb1 = rb_fill rb - (rb_size rb - rb_read_ptr rb))
      by (unfold rb_fill; rewrite Hc1, length_drop; unfold rb_fill in *; lia).
    assert (Hr1 : rb_read_ptr rb1 = 0) by (subst rb1; cbn; unfold rb_moved; case_match; lia).
    pose proof (read_segment rb1 (rb_read_ptr rb + n - rb_size rb) Hwf1) as Hseg.
    rewrite Hf1, Hr1 in Hseg. change (rb_buf rb1) with (rb_buf rb) in Hseg.
    change (rb_size rb1) with (rb_size rb) in Hseg.
    assert (rb_moved rb (rb_read_ptr rb) (rb_size rb - rb_read_ptr rb) = 0) as -> by exact Hr1.
    rewrite Hseg by lia. cbn [mbind option_bind]. rewrite Hc1.
    do 2 f_equal. rewrite take_take_drop. f_equal. lia.
Qed.


Lemma ringbuffer_read_spec (rb : ringbuffer) cnt :
  rb_wf rb -> 0 <= cnt ->
  exists rb', ffado_ringbuffer_read cnt rb
    = Some (rb_amount (rb_fill rb) cnt, take (Z.to_nat cnt) (rb_content rb), rb') /\
    rb_wf rb' /\ rb_content rb' = drop (Z.to_nat cnt) (rb_content rb) /\ rb_size rb' = rb_size rb.
Proof.
  intros Hwf Hc. pose proof (rb_fill_bound rb Hwf) as Hf. unfold rb_capacity in Hf.
  pose proof Hwf as (_ & _ & _ & _ & Hr).
  unfold ffado_ringbuffer_read. rewrite read_space_fill by done.
  change (if rb_fill rb <? cnt then rb_fill rb else cnt) with (rb_amount (rb_fill rb) cnt).
  destruct (Z.eqb_spec (rb_fill rb) 0) as [H0|Hn0].
  { assert (He : rb_content rb = []) by (apply length_zero_iff_nil; unfold rb_fill in H0; lia).
    exists rb. rewrite He, take_nil, drop_nil. split_and!; [|done..].
    unfold rb_amount. case_match; do 4 f_equal; lia. }
  assert (Ha : 0 <= rb_amount (rb_fill rb) cnt <= rb_fill rb) by (unfold rb_amount; case_match; lia).
  assert (take (Z.to_nat cnt) (rb_content rb) = take (Z.to_nat (rb_amount (rb_fill rb) cnt)) (rb_content rb) /\
    drop (Z.to_nat cnt) (rb_content rb) = drop (Z.to_nat (rb_amount (rb_fill rb) cnt)) (rb_content rb)) as [-> ->].
  { unfold rb_amount. case_match; [|done]. unfold rb_fill in *. rewrite !take_ge, !drop_ge by lia. done. }
  set (n := rb_amount (rb_fill rb) cnt) in *.
  rewrite rb_split_spec by (done || lia). destruct (Z.leb_spec (rb_read_ptr rb + n) (rb_size rb)).
  - destruct (rb_read_part_spec rb n) as (rb1 & -> & Hwf1 & Hc1 & Hs1 & _); [done|lia|lia|].
    cbn [mbind option_bind Z.eqb]. by exists rb1.
  - destruct (rb_read_part_spec rb (rb_size rb - rb_read_ptr rb)) as (rb1 & -> & Hwf1 & Hc1 & Hs1 & Hr1); [done|lia|lia|].
    cbn [mbind option_bind]. destruct (Z.eqb_spec (rb_read_ptr rb + n - rb_size rb) 0); [lia|].
    assert (Hf1 : rb_fill rb1 = rb_fill rb - (rb_size rb - rb_read_ptr rb))
      by (unfold rb_fill; rewrite Hc1, length_drop; unfold rb_fill in *; lia).
    unfold rb_moved in Hr1. destruct (Z.ltb_spec (rb_read_ptr rb + (rb_size rb - rb_read_ptr rb)) (rb_size rb)); [lia|].
    destruct (rb_read_part_spec rb1 (rb_read_ptr rb + n - rb_size rb)) as (rb2 & -> & Hwf2 & Hc2 & Hs2 & _); [done|lia|lia|].
    cbn [mbind option_bind]. exists rb2. rewrite Hc2, Hc1, drop_drop. split_and!.
    + do 3 f_equal. rewrite take_take_drop. f_equal. lia.
    + done.
    + f_equal. lia.
    + lia.
Qed.

Lemma ringbuffer_write_spec (rb : ringbuffer) src cnt :
  rb_wf rb -> 0 <= cnt -> Z.of_nat (length src) = cnt ->
  let n := rb_amount (rb_capacity rb - rb_fill rb) cnt in
  exists rb', ffado_ringbuffer_write src cnt rb = Some (n, rb') /\
    rb_wf rb' /\ rb_content rb' = rb_content rb ++ take (Z.to_nat n) src /\ rb_size rb' = rb_size rb.
Proof.
  intros Hwf Hc Hsrc n. pose proof (rb_fill_bound rb Hwf) as Hf.
  pose proof Hwf as (_ & _ & _ & Hw & _).
  unfold ffado_ringbuffer_write. rewrite write_space_fill by done. fold (rb_amount (rb_capacity rb - rb_fill rb) cnt).
  fold n. destruct (Z.eqb_spec (rb_capacity rb - rb_fill rb) 0) as [H0|Hn0].
  { assert (Hn : n = 0) by (unfold n, rb_amount; case_match; lia). exists rb. rewrite Hn, take_0, app_nil_r. done. }
  assert (Hn : 0 <= n <= rb_capacity rb - rb_fill rb /\ n <= cnt) by (unfold n, rb_amount; case_match; lia).
  unfold rb_capacity in Hn. rewrite rb_split_spec by (done || lia).
  destruct (Z.leb_spec (rb_write_ptr rb + n) (rb_size rb)).
  - unfold memcpy_from. rewrite !decide_True by lia. cbn [mbind option_bind]. rewrite drop_0.
    destruct (rb_write_part_spec rb (take (Z.to_nat n) src)) as (rb1 & -> & Hwf1 & Hc1 & Hs1 & _);
      [done|unfold rb_capacity; rewrite length_take; lia|rewrite length_take; lia|].
    cbn [mbind option_bind Z.eqb]. by exists rb1.
  - set (n1 := rb_size rb - rb_write_ptr rb) in *.
    unfold memcpy_from. rewrite !decide_True by lia. cbn [mbind option_bind]. rewrite drop_0.
    destruct (rb_write_part_spec rb (take (Z.to_nat n1) src)) as (rb1 & -> & Hwf1 & Hc1 & Hs1 & Hw1);
      [done|unfold rb_capacity; rewrite length_take; lia|rewrite length_take; lia|].
    cbn [mbind option_bind]. destruct (Z.eqb_spec (rb_write_ptr rb + n - rb_size rb) 0); [lia|].
    assert (Hf1 : rb_fill rb1 = rb_fill rb + n1)
      by (unfold rb_fill; rewrite Hc1, length_app, length_take; unfold rb_fill in *; lia).
    unfold rb_moved in Hw1. rewrite length_take in Hw1.
    destruct (Z.ltb_spec (rb_write_ptr rb + Z.of_nat (Z.to_nat n1 `min` length src)) (rb_size rb)); [lia|].
    destruct (rb_write_part_spec rb1 (take (Z.to_nat (rb_write_ptr rb + n - rb_size rb)) (drop (Z.to_nat n1) src)))
      as (rb2 & -> & Hwf2 & Hc2 & Hs2 & _);
      [done|unfold rb_capacity; rewrite length_take, length_drop; lia|rewrite length_take, length_drop; lia|].
    cbn [mbind option_bind]. exists rb2. rewrite Hc2, Hc1, <- (assoc_L (++)). split_and!; [done..| |lia].
    f_equal. rewrite take_take_drop. f_equal. lia.
Qed.

(** *** Creation *)

Lemma power_of_two_loop_spec fuel : forall p sz,
  0 <= p -> sz <= 2 ^ (p + Z.of_nat fuel - 1) -> (0 < fuel)%nat ->
  exists k, power_of_two_loop fuel p sz = Some k /\ p <= k < p + Z.of_nat fuel /\
    sz <= 2 ^ k /\ (k = p \/ 2 ^ (k - 1) < sz).
Proof.
  induction fuel as [|fuel IH]; intros p sz Hp Hsz Hf; [lia|]. cbn [power_of_two_loop].
  rewrite Z.shiftl_1_l. destruct (Z.ltb_spec (2 ^ p) sz) as [Hlt|Hge].
  - destruct fuel as [|fuel].
    { replace (p + Z.of_nat 1 - 1) with p in Hsz by lia. lia. }
    destruct (IH (p + 1) sz) as (k & -> & Hk & Hs & Hd); [lia| |lia|].
    { replace (p + 1 + Z.of_nat (S fuel) - 1) with (p + Z.of_nat (S (S fuel)) - 1) by lia. done. }
    exists k. split_and!; [done|lia..|done|]. right.
    destruct Hd as [-> |Hd]; [by replace (p + 1 - 1) with p by lia|done].
  - exists p. split_and!; [done|lia..|by left].
Qed.

Lemma ringbuffer_create_spec (block : Z -> list A) sz :
  (forall n, 0 <= n -> Z.of_nat (length (block n)) = n) -> 0 <= sz <= 2 ^ 30 ->
  exists rb, ffado_ringbuffer_create block sz = Some rb /\ rb_wf rb /\ rb_content rb = [] /\
    sz <= rb_size rb /\ (rb_size rb = 2 \/ rb_size rb < 2 * sz).
Proof.
  intros Hb Hsz. destruct (power_of_two_loop_spec 30 1 sz) as (k & Hk & Hr & Hs & Hd); [lia|exact (proj2 Hsz)|lia|].
  unfold ffado_ringbuffer_create. rewrite Hk. cbn [mbind option_bind]. rewrite Z.shiftl_1_l.
  assert (2 ^ 1 <= 2 ^ k < 2 ^ 31) as Hpow by (split; [apply Z.pow_le_mono_r|apply Z.pow_lt_mono_r]; lia).
  change (2 ^ 1) with 2 in Hpow.
  eexists. split; [done|]. split.
  { split; [by exists k|]. cbn [rb_size rb_size_mask rb_buf rb_write_ptr rb_read_ptr].
    split; [apply rb_u64_small; lia|]. split; [apply Hb; lia|]. lia. }
  split; [done|]. cbn [rb_size]. split; [done|].
  destruct Hd as [-> |Hd]; [by left|]. right.
  replace (2 ^ k) with (2 * 2 ^ (k - 1)); [lia|]. rewrite <- Z.pow_succ_r by lia. f_equal. lia.
Qed.

(** *** Advances and vectors *)

Lemma ringbuffer_read_advance_spec (rb : ringbuffer) n :
  rb_wf rb -> 0 <= n <= rb_fill rb ->
  rb_wf (ffado_ringbuffer_read_advance n rb) /\
  rb_content (ffado_ringbuffer_read_advance n rb) = drop (Z.to_nat n) (rb_content rb).
Proof.
  intros Hwf Hn. pose proof (rb_fill_bound rb Hwf) as Hf. unfold rb_capacity in Hf.
  pose proof Hwf as (_ & _ & _ & _ & Hr).
  rewrite read_advance_eq by (done || lia). split; [|by apply content_read_ptr].
  apply rb_wf_read_ptr, rb_moved_bound; (done || lia).
Qed.

Lemma ringbuffer_read_vector_spec (rb : ringbuffer) :
  rb_wf rb ->
  let '((p0, n0), (p1, n1)) := ffado_ringbuffer_get_read_vector rb in
  n0 + n1 = rb_fill rb /\ 0 <= n0 /\ 0 <= n1 /\
  memcpy_from (rb_buf rb) p0 n0 = Some (take (Z.to_nat n0) (rb_content rb)) /\
  memcpy_from (rb_buf rb) p1 n1 = Some (drop (Z.to_nat n0) (rb_content rb)).
Proof.
  intros Hwf. pose proof (rb_fill_bound rb Hwf) as Hf. unfold rb_capacity in Hf.
  pose proof (rb_size_bound rb Hwf). pose proof Hwf as (_ & _ & Hl & Hw & Hr).
  unfold ffado_ringbuffer_get_read_vector, rb_vector. rewrite read_space_fill by done.
  rewrite rb_mask_mod, rb_u64_small, rb_wrap_add by (done || lia).
  destruct (Z.ltb_spec (rb_size rb) (rb_read_ptr rb + rb_fill rb)) as [Hlt|Hge].
  - destruct (Z.ltb_spec (rb_read_ptr rb + rb_fill rb) (rb_size rb)); [lia|].
    rewrite rb_u64_small by lia. split_and!; [lia..| |].
    + apply read_segment; (done || lia).
    + pose proof (content_read_ptr rb (rb_size rb - rb_read_ptr rb) Hwf) as Hc.
      unfold rb_moved in Hc. destruct (Z.ltb_spec (rb_read_ptr rb + (rb_size rb - rb_read_ptr rb)) (rb_size rb)); [lia|].
      rewrite <- Hc by lia. replace (rb_read_ptr rb + (rb_size rb - rb_read_ptr rb) - rb_size rb) with 0 by lia.
      rewrite rb_fill_eq in * by done. unfold memcpy_from. rewrite decide_True by (case_match; lia). f_equal.
      unfold rb_content. cbn [rb_with_read_ptr rb_read_ptr rb_write_ptr rb_buf].
      destruct (Z.leb_spec 0 (rb_write_ptr rb)); [|lia]. f_equal. case_match; lia.
  - split_and!; [lia..| |].
    + apply read_segment; (done || lia).
    + unfold memcpy_from. rewrite decide_True by lia. f_equal. cbn. unfold rb_fill in *.
      by rewrite take_0, drop_ge by lia.
Qed.

Lemma ringbuffer_write_vector_spec (rb : ringbuffer) :
  rb_wf rb ->
  let '((p0, n0), (p1, n1)) := ffado_ringbuffer_get_write_vector rb in
  n0 + n1 = rb_capacity rb - rb_fill rb /\ 0 <= n0 /\ 0 <= n1 /\ p0 = rb_write_ptr rb /\
  (n1 = 0 \/ p0 + n0 = rb_size rb) /\ p0 + n0 <= rb_size rb /\ p1 = 0.
Proof.
  intros Hwf. pose proof (rb_fill_bound rb Hwf) as Hf. unfold rb_capacity in *.
  pose proof (rb_size_bound rb Hwf). pose proof Hwf as (_ & _ & Hl & Hw & Hr).
  unfold ffado_ringbuffer_get_write_vector, rb_vector. rewrite write_space_fill by done. unfold rb_capacity.
  rewrite rb_mask_mod, rb_u64_small, rb_wrap_add by (done || lia).
  destruct (Z.ltb_spec (rb_size rb) (rb_write_ptr rb + (rb_size rb - 1 - rb_fill rb))) as [Hlt|Hge].
  - destruct (Z.ltb_spec (rb_write_ptr rb + (rb_size rb - 1 - rb_fill rb)) (rb_size rb)); [lia|].
    rewrite rb_u64_small by lia. split_and!; lia.
  - split_and!; lia.
Qed.

(** Data stored at the first write segment become part of the queue with
    [write_advance]. *)
Lemma ringbuffer_write_advance_spec (rb : ringbuffer) l :
  rb_wf rb -> Z.of_nat (length l) + rb_fill rb <= rb_capacity rb ->
  rb_write_ptr rb + Z.of_nat (length l) <= rb_size rb ->
  exists buf, memcpy_to (rb_buf rb) (rb_write_ptr rb) l = Some buf /\
    let rb' := ffado_ringbuffer_write_advance (Z.of_nat (length l)) (rb_with_write buf (rb_write_ptr rb) rb) in
    rb_wf rb' /\ rb_content rb' = rb_content rb ++ l /\ rb_size rb' = rb_size rb.
Proof.
  intros Hwf Hn Hp. destruct (rb_write_part_spec rb l Hwf Hn Hp) as (rb' & He & Hwf' & Hc & Hs & _).
  unfold rb_write_part in He. destruct (memcpy_to _ _ _) as [buf|]; [|done].
  exists buf. split; [done|]. injection He as <-. done.
Qed.

End ringbuffer.
Arguments ringbuffer : clear implicits.

(** ** Properties *)

(** C23: a ring buffer is a bounded queue: [peek] and [read] return the first
    bytes of the queue, as many as there are at most, [read] removes them,
    [write] appends as many bytes as fit, [reset] empties the queue; no
    operation leaves the memory block. *)
Theorem ringbuffer_refines_queue {A} (rb : ringbuffer A) (src : list A) (cnt : Z) :
  rb_wf rb -> 0 <= cnt ->
  ffado_ringbuffer_read_space rb = Z.of_nat (length (rb_content rb)) /\
  ffado_ringbuffer_write_space rb = rb_capacity rb - Z.of_nat (length (rb_content rb)) /\
  ffado_ringbuffer_peek cnt rb = Some (Z.min cnt (Z.of_nat (length (rb_content rb))), take (Z.to_nat cnt) (rb_content rb)) /\
  (exists rb', ffado_ringbuffer_read cnt rb
     = Some (Z.min cnt (Z.of_nat (length (rb_content rb))), take (Z.to_nat cnt) (rb_content rb), rb') /\
     rb_wf rb' /\ rb_content rb' = drop (Z.to_nat cnt) (rb_content rb) /\ rb_capacity rb' = rb_capacity rb) /\
  (exists rb', ffado_ringbuffer_write src (Z.of_nat (length src)) rb
     = Some (Z.min (Z.of_nat (length src)) (rb_capacity rb - Z.of_nat (length (rb_content rb))), rb') /\
     rb_wf rb' /\ rb_capacity rb' = rb_capacity rb /\
     rb_content rb' = rb_content rb ++ take (Z.to_nat (rb_capacity rb - Z.of_nat (length (rb_content rb)))) src) /\
  rb_content (ffado_ringbuffer_reset rb) = [].
Proof.
  intros Hwf Hc. fold (rb_fill rb).
  assert (Hmin : forall a b, rb_amount a b = Z.min b a) by (intros a b; unfold rb_amount; case_match; lia).
  split; [by apply read_space_fill|]. split; [by apply write_space_fill|].
  split; [rewrite ringbuffer_peek_spec by done; by rewrite Hmin|]. split; [|split; [|done]].
  - destruct (ringbuffer_read_spec rb cnt Hwf Hc) as (rb' & -> & Hwf' & Hcn & Hs). rewrite Hmin.
    exists rb'. unfold rb_capacity. by rewrite Hs.
  - destruct (ringbuffer_write_spec rb src (Z.of_nat (length src)) Hwf) as (rb' & -> & Hwf' & Hcn & Hs); [lia|done|].
    rewrite Hmin in *. exists rb'. unfold rb_capacity at 3. rewrite Hs. do 3 (split; [done|]). rewrite Hcn. f_equal.
    destruct (Z.min_spec (Z.of_nat (length src)) (rb_capacity rb - rb_fill rb)) as [[? ->]|[? ->]]; [|done].
    rewrite !take_ge by lia. done.
Qed.

Definition small_ring : ringbuffer Z := mkRingbuffer [10; 11; 12; 13] 1 3 4 3 0.

Lemma ringbuffer_refines_queue_witness :
  rb_content small_ring = [13; 10] /\
  exists rb', ffado_ringbuffer_write [7; 8] 2 small_ring = Some (1, rb') /\ rb_content rb' = [13; 10; 7].
Proof.
  split; [reflexivity|].
  destruct (ringbuffer_refines_queue small_ring [7; 8] 1) as (_ & _ & _ & _ & (rb' & Hw & _ & _ & Hc) & _).
  - split; [by exists 2|]. cbn. lia.
  - lia.
  - exists rb'. split; [exact Hw|exact Hc].
Defined.

(** A new ring buffer is empty and large enough for all sizes except
    powers of two: its block is the smallest power of two that is at least the
    requested size, and one cell of it is never used. *)
Lemma ringbuffer_create_capacity {A} (block : Z -> list A) (sz : Z) :
  (forall n, 0 <= n -> Z.of_nat (length (block n)) = n) -> 2 <= sz <= 2 ^ 30 ->
  exists rb, ffado_ringbuffer_create block sz = Some rb /\ rb_wf rb /\ rb_content rb = [] /\
    sz - 1 <= rb_capacity rb < 2 * sz - 1 /\
    (rb_capacity rb < sz <-> exists k, 0 <= k /\ sz = 2 ^ k).
Proof.
  intros Hb Hsz. destruct (ringbuffer_create_spec block sz Hb) as (rb & He & Hwf & Hc & Hs & Hd); [lia|].
  exists rb. unfold rb_capacity. do 3 (split; [done|]). split; [lia|].
  pose proof Hwf as ([k [Hk Hp]] & _). split.
  - intros Hlt. exists k. split; [lia|]. lia.
  - intros [j [Hj Hjs]]. destruct (Z.eq_dec (rb_size rb) sz) as [|Hne]; [lia|exfalso].
    assert (Hjk : j < k). { apply Z.nle_gt. intros Hle. apply (Z.pow_le_mono_r 2) in Hle; lia. }
    assert (2 ^ (j + 1) <= 2 ^ k) by (apply Z.pow_le_mono_r; lia).
    rewrite Z.pow_add_r in H by lia. lia.
Qed.

Lemma ringbuffer_create_capacity_witness :
  exists rb, ffado_ringbuffer_create (fun n => replicate (Z.to_nat n) 0) 96 = Some rb /\ rb_wf rb /\
    rb_content rb = [] /\ 96 - 1 <= rb_capacity rb < 2 * 96 - 1 /\
    (rb_capacity rb < 96 <-> exists k, 0 <= k /\ 96 = 2 ^ k).
Proof.
  apply (ringbuffer_create_capacity (fun n => replicate (Z.to_nat n) 0) 96); [|lia].
  intros n Hn. rewrite length_replicate. lia.
Defined.
