(* ===== verification/RingBufferThreads.v ===== *)
(** * RingBufferThreads: one reader and one writer on a ring buffer

    [ffado_ringbuffer_read] and [ffado_ringbuffer_write] (libutil/ringbuffer.c)
    executed by two threads without a lock: every access to a shared pointer
    and every byte that is copied is a step of its own, and the steps of the
    two threads interleave (sequential consistency). *)
From S2P Require Import Prelude RingBuffer.

Section threads.
Context {A : Type}.

(** The reader between two accesses: it copies [n] bytes in the current part,
    [cur] are copied, and a second part of [n2] bytes follows. *)
Inductive reader_state :=
| R_idle
| R_copy (cur : list A) (n n2 : Z).

(** The writer: [cur] is stored in the current part, [rest] is to be stored,
    and [l2] is the second part. *)
Inductive writer_state :=
| W_idle
| W_copy (cur rest l2 : list A).

(** [th_sent]: the bytes the writer has made visible, [th_got]: the bytes the
    reader has copied and released, both from the beginning of time. *)
Record threads := mkThreads {
  th_rb : ringbuffer A;
  th_reader : reader_state;
  th_writer : writer_state;
  th_sent : list A;
  th_got : list A }.

Definition next_reader (n2 : Z) : reader_state := if n2 =? 0 then R_idle else R_copy [] n2 0.

Definition next_writer (l2 : list A) : writer_state := if l2 is [] then W_idle else W_copy [] l2 [].

Inductive threads_step : threads -> threads -> Prop :=
| S_read_start rb w s g cnt n1 n2 :
    (* the pointers are loaded; the other thread may move on afterwards *)
    0 <= cnt -> ffado_ringbuffer_read_space rb <> 0 ->
    rb_split rb (rb_read_ptr rb) (rb_amount (ffado_ringbuffer_read_space rb) cnt) = (n1, n2) ->
    threads_step (mkThreads rb R_idle w s g) (mkThreads rb (R_copy [] n1 n2) w s g)
| S_read_byte rb w s g cur n n2 b :
    Z.of_nat (length cur) < n ->
    rb_buf rb !! (Z.to_nat (rb_read_ptr rb) + length cur)%nat = Some b ->
    threads_step (mkThreads rb (R_copy cur n n2) w s g) (mkThreads rb (R_copy (cur ++ [b]) n n2) w s g)
| S_read_ptr rb w s g cur n n2 :
    Z.of_nat (length cur) = n ->
    threads_step (mkThreads rb (R_copy cur n n2) w s g)
      (mkThreads (ffado_ringbuffer_read_advance n rb) (next_reader n2) w s (g ++ cur))
| S_write_start rb r s g src n1 n2 :
    ffado_ringbuffer_write_space rb <> 0 ->
    rb_split rb (rb_write_ptr rb) (rb_amount (ffado_ringbuffer_write_space rb) (Z.of_nat (length src))) = (n1, n2) ->
    threads_step (mkThreads rb r W_idle s g)
      (mkThreads rb r (W_copy [] (take (Z.to_nat n1) src) (take (Z.to_nat n2) (drop (Z.to_nat n1) src))) s g)
| S_write_byte rb r s g cur b rest l2 :
    threads_step (mkThreads rb r (W_copy cur (b :: rest) l2) s g)
      (mkThreads (rb_with_write (<[(Z.to_nat (rb_write_ptr rb) + length cur)%nat := b]> (rb_buf rb)) (rb_write_ptr rb) rb)
         r (W_copy (cur ++ [b]) rest l2) s g)
| S_write_ptr rb r s g cur l2 :
    threads_step (mkThreads rb r (W_copy cur [] l2) s g)
      (mkThreads (ffado_ringbuffer_write_advance (Z.of_nat (length cur)) rb) r (next_writer l2) (s ++ cur) g).

Definition threads_init (rb : ringbuffer A) : threads := mkThreads rb R_idle W_idle [] [].

(** ** The invariant *)

Definition reader_ok (rb : ringbuffer A) (r : reader_state) : Prop :=
  match r with
  | R_idle => True
  | R_copy cur n n2 =>
      Z.of_nat (length cur) <= n /\ 0 <= n2 /\ n + n2 <= rb_fill rb /\ rb_read_ptr rb + n <= rb_size rb /\
      (n2 = 0 \/ rb_read_ptr rb + n = rb_size rb) /\ cur `prefix_of` rb_content rb
  end.

Definition writer_ok (rb : ringbuffer A) (w : writer_state) : Prop :=
  match w with
  | W_idle => True
  | W_copy cur rest l2 =>
      let n := Z.of_nat (length cur + length rest) in
      n + Z.of_nat (length l2) <= rb_capacity rb - rb_fill rb /\ rb_write_ptr rb + n <= rb_size rb /\
      (l2 = [] \/ rb_write_ptr rb + n = rb_size rb) /\
      memcpy_from (rb_buf rb) (rb_write_ptr rb) (Z.of_nat (length cur)) = Some cur
  end.

Definition threads_inv (t : threads) : Prop :=
  rb_wf (th_rb t) /\ th_sent t = th_got t ++ rb_content (th_rb t) /\
  reader_ok (th_rb t) (th_reader t) /\ writer_ok (th_rb t) (th_writer t).

(** ** Accesses to single cells *)

Lemma content_lookup (rb : ringbuffer A) k :
  rb_wf rb -> Z.of_nat k < rb_fill rb -> rb_read_ptr rb + Z.of_nat k < rb_size rb ->
  rb_buf rb !! (Z.to_nat (rb_read_ptr rb) + k)%nat = rb_content rb !! k.
Proof.
  intros Hwf Hk Hr. rewrite rb_fill_eq in Hk by done. destruct Hwf as (_ & _ & Hl & Hw & Hrp).
  unfold rb_content. destruct (Z.leb_spec (rb_read_ptr rb) (rb_write_ptr rb)).
  - rewrite lookup_take_lt, lookup_drop by lia. done.
  - rewrite lookup_app_l, lookup_drop by (rewrite length_drop; lia). done.
Qed.

Lemma content_insert_free (rb : ringbuffer A) k b :
  rb_wf rb -> Z.of_nat k < rb_capacity rb - rb_fill rb -> rb_write_ptr rb + Z.of_nat k < rb_size rb ->
  let rb' := rb_with_write (<[(Z.to_nat (rb_write_ptr rb) + k)%nat := b]> (rb_buf rb)) (rb_write_ptr rb) rb in
  rb_wf rb' /\ rb_content rb' = rb_content rb.
Proof.
  intros Hwf Hk Hw rb'. split.
  { apply rb_wf_write; [done|by destruct Hwf as (_ & _ & _ & ? & _)|by rewrite length_insert]. }
  rewrite rb_fill_eq in Hk by done. unfold rb_capacity in Hk. destruct Hwf as (_ & _ & Hl & Hwp & Hrp).
  unfold rb_content, rb'. cbn [rb_with_write rb_read_ptr rb_write_ptr rb_buf].
  destruct (Z.leb_spec (rb_read_ptr rb) (rb_write_ptr rb)).
  - rewrite drop_insert_ge by lia. rewrite take_insert_ge by lia. done.
  - rewrite drop_insert_lt by lia. rewrite take_insert_ge by lia. done.
Qed.

(** Storing once more what is stored already changes nothing. *)
Lemma memcpy_to_same (buf : list A) i l :
  memcpy_from buf i (Z.of_nat (length l)) = Some l -> memcpy_to buf i l = Some buf.
Proof.
  unfold memcpy_from, memcpy_to. case_decide as Hd; [|done]. intros [= Hl]. rewrite decide_True by lia. f_equal.
  rewrite Nat2Z.id in Hl. rewrite <- Hl at 1.
  rewrite (assoc_L (++)), take_take_drop. apply take_drop.
Qed.

Lemma memcpy_from_snoc (buf : list A) i l b :
  memcpy_from buf i (Z.of_nat (length l)) = Some l -> i + Z.of_nat (length l) < Z.of_nat (length buf) ->
  memcpy_from (<[(Z.to_nat i + length l)%nat := b]> buf) i (Z.of_nat (length (l ++ [b]))) = Some (l ++ [b]).
Proof.
  unfold memcpy_from. case_decide as Hd; [|done]. rewrite Nat2Z.id. intros [= Hl] Hlt.
  rewrite decide_True by (rewrite length_insert, length_app; cbn; lia). f_equal. rewrite Nat2Z.id, length_app.
  cbn [length]. rewrite Nat.add_1_r. rewrite drop_insert_ge by lia.
  replace (Z.to_nat i + length l - Z.to_nat i)%nat with (length l) by lia.
  erewrite take_S_r; [|apply list_lookup_insert_eq; rewrite length_drop; lia].
  rewrite take_insert_ge by lia. by rewrite Hl.
Qed.

(** ** Steps preserve the invariant *)

Lemma rb_fill_content (rb rb' : ringbuffer A) l : rb_content rb' = rb_content rb ++ l ->
  rb_fill rb' = rb_fill rb + Z.of_nat (length l).
Proof. intros H. unfold rb_fill. rewrite H, length_app. lia. Qed.

Lemma reader_ok_free (rb : ringbuffer A) r buf :
  let rb' := rb_with_write buf (rb_write_ptr rb) rb in
  rb_content rb' = rb_content rb -> reader_ok rb r -> reader_ok rb' r.
Proof. intros rb' Hc. destruct r; [done|]. unfold reader_ok, rb_fill. rewrite Hc. done. Qed.

Lemma split_parts (rb : ringbuffer A) p n n1 n2 :
  rb_wf rb -> 0 <= p < rb_size rb -> 0 <= n < rb_size rb -> rb_split rb p n = (n1, n2) ->
  0 <= n1 /\ 0 <= n2 /\ n1 + n2 = n /\ p + n1 <= rb_size rb /\ (n2 = 0 \/ p + n1 = rb_size rb).
Proof.
  intros Hwf Hp Hn. rewrite rb_split_spec by done. case_match eqn:E; intros [= <- <-]; lia.
Qed.

Lemma inv_read_start (rb : ringbuffer A) cnt n1 n2 :
  rb_wf rb -> 0 <= cnt ->
  rb_split rb (rb_read_ptr rb) (rb_amount (ffado_ringbuffer_read_space rb) cnt) = (n1, n2) ->
  reader_ok rb (R_copy [] n1 n2).
Proof.
  intros Hwf Hc Hs. pose proof (rb_fill_bound rb Hwf) as Hf. unfold rb_capacity in Hf.
  rewrite read_space_fill in Hs by done.
  assert (Ha : 0 <= rb_amount (rb_fill rb) cnt <= rb_fill rb) by (unfold rb_amount; case_match; lia).
  apply split_parts in Hs; [|done|by destruct Hwf as (_ & _ & _ & _ & ?)|lia].
  cbn. split_and!; try lia. apply prefix_nil.
Qed.

Lemma inv_read_byte (rb : ringbuffer A) cur n n2 b :
  rb_wf rb -> reader_ok rb (R_copy cur n n2) -> Z.of_nat (length cur) < n ->
  rb_buf rb !! (Z.to_nat (rb_read_ptr rb) + length cur)%nat = Some b ->
  reader_ok rb (R_copy (cur ++ [b]) n n2).
Proof.
  intros Hwf (Hl & Hn2 & Hf & Hr & Hd & Hp) Hlt Hb.
  rewrite content_lookup in Hb by (done || lia).
  unfold reader_ok. rewrite length_app. cbn [length]. split_and!; [lia..|done| |].
  - done.
  - destruct Hp as [k Hk]. rewrite Hk in Hb |- *. rewrite lookup_app_r, Nat.sub_diag in Hb by lia.
    destruct k as [|c k]; [done|]. injection Hb as ->. exists k. by rewrite <- (assoc_L (++)).
Qed.

Lemma inv_read_ptr (rb : ringbuffer A) w cur n n2 :
  rb_wf rb -> reader_ok rb (R_copy cur n n2) -> writer_ok rb w -> Z.of_nat (length cur) = n ->
  let rb' := ffado_ringbuffer_read_advance n rb in
  rb_wf rb' /\ rb_content rb = cur ++ rb_content rb' /\ reader_ok rb' (next_reader n2) /\ writer_ok rb' w.
Proof.
  intros Hwf (Hl & Hn2 & Hf & Hr & Hd & Hp) Hw Hn rb'.
  pose proof (rb_fill_bound rb Hwf) as Hfb. unfold rb_capacity in Hfb.
  pose proof Hwf as (_ & _ & _ & _ & Hrp).
  destruct (ringbuffer_read_advance_spec rb n Hwf) as [Hwf' Hc']; [lia|]. fold rb' in Hwf', Hc'.
  destruct Hp as [k Hk].
  assert (Hc : rb_content rb = cur ++ rb_content rb').
  { rewrite Hc', Hk, drop_app_length'; [done|lia]. }
  assert (Hfill : rb_fill rb' = rb_fill rb - n) by (unfold rb_fill; rewrite Hc, length_app; lia).
  assert (He : rb' = rb_with_read_ptr (rb_moved rb (rb_read_ptr rb) n) rb) by (apply read_advance_eq; (done || lia)).
  split_and!; [done..| |].
  - unfold next_reader. case_match eqn:E; [done|]. apply Z.eqb_neq in E. destruct Hd as [?|Hd]; [lia|].
    unfold reader_ok. rewrite Hfill. rewrite He. cbn [rb_with_read_ptr rb_read_ptr rb_size length].
    unfold rb_moved. destruct (Z.ltb_spec (rb_read_ptr rb + n) (rb_size rb)); [lia|].
    split_and!; try lia. apply prefix_nil.
  - destruct w as [|c rest l2]; [done|]. unfold writer_ok in *. rewrite Hfill, He.
    cbn [rb_with_read_ptr rb_write_ptr rb_size rb_buf]. unfold rb_capacity in *.
    cbn [rb_with_read_ptr rb_size]. destruct Hw as (H1 & H2 & H3 & H4). split_and!; [lia|done..].
Qed.

Lemma inv_write_start (rb : ringbuffer A) src n1 n2 :
  rb_wf rb ->
  rb_split rb (rb_write_ptr rb) (rb_amount (ffado_ringbuffer_write_space rb) (Z.of_nat (length src))) = (n1, n2) ->
  writer_ok rb (W_copy [] (take (Z.to_nat n1) src) (take (Z.to_nat n2) (drop (Z.to_nat n1) src))).
Proof.
  intros Hwf Hs. pose proof (rb_fill_bound rb Hwf) as Hf. unfold rb_capacity in Hf.
  pose proof Hwf as (_ & _ & Hl & Hwp & _).
  rewrite write_space_fill in Hs by done. unfold rb_capacity in Hs.
  assert (Ha : 0 <= rb_amount (rb_size rb - 1 - rb_fill rb) (Z.of_nat (length src)) <= rb_size rb - 1 - rb_fill rb
     /\ rb_amount (rb_size rb - 1 - rb_fill rb) (Z.of_nat (length src)) <= Z.of_nat (length src))
    by (unfold rb_amount; case_match; lia).
  apply split_parts in Hs; [|done..|lia].
  unfold writer_ok, rb_capacity. cbn [length]. rewrite !length_take, length_drop. split_and!; [lia..| |].
  - destruct Hs as (? & ? & ? & ? & [-> | Hs]); [left; by rewrite take_0|right; lia].
  - unfold memcpy_from. rewrite decide_True by lia. done.
Qed.

Lemma inv_write_byte (rb : ringbuffer A) r cur b rest l2 :
  rb_wf rb -> reader_ok rb r -> writer_ok rb (W_copy cur (b :: rest) l2) ->
  let rb' := rb_with_write (<[(Z.to_nat (rb_write_ptr rb) + length cur)%nat := b]> (rb_buf rb)) (rb_write_ptr rb) rb in
  rb_wf rb' /\ rb_content rb' = rb_content rb /\ reader_ok rb' r /\ writer_ok rb' (W_copy (cur ++ [b]) rest l2).
Proof.
  intros Hwf Hr (Hn & Hw & Hd & Hm) rb'. cbn [length] in *.
  destruct (content_insert_free rb (length cur) b Hwf) as [Hwf' Hc]; [lia..|]. fold rb' in Hwf', Hc.
  pose proof Hwf as (_ & _ & Hl & Hwp & _).
  split_and!; [done..|by apply reader_ok_free|].
  unfold writer_ok. rewrite length_app. cbn [length].
  change (rb_capacity rb') with (rb_capacity rb). change (rb_size rb') with (rb_size rb).
  change (rb_write_ptr rb') with (rb_write_ptr rb). unfold rb_fill in *. rewrite Hc.
  split_and!; [lia|lia|destruct Hd; [by left|right; lia]|].
  replace (length cur + 1)%nat with (length (cur ++ [b])) by (by rewrite length_app).
  apply memcpy_from_snoc; [done|lia].
Qed.

Lemma inv_write_ptr (rb : ringbuffer A) r cur l2 :
  rb_wf rb -> reader_ok rb r -> writer_ok rb (W_copy cur [] l2) ->
  let rb' := ffado_ringbuffer_write_advance (Z.of_nat (length cur)) rb in
  rb_wf rb' /\ rb_content rb' = rb_content rb ++ cur /\ reader_ok rb' r /\ writer_ok rb' (next_writer l2).
Proof.
  intros Hwf Hr (Hn & Hw & Hd & Hm) rb'. cbn [length] in *. rewrite Nat.add_0_r in *.
  pose proof (rb_fill_bound rb Hwf) as Hfb. unfold rb_capacity in *. pose proof Hwf as (_ & _ & Hl & Hwp & _).
  pose proof (content_write rb cur (rb_buf rb) Hwf) as [_ Hc]; [unfold rb_capacity; lia|by apply memcpy_to_same|].
  assert (He : rb' = rb_with_write (rb_buf rb) (rb_moved rb (rb_write_ptr rb) (Z.of_nat (length cur))) rb)
    by (apply write_advance_eq; (done || lia)).
  rewrite <- He in Hc.
  assert (Hwf' : rb_wf rb') by (rewrite He; apply rb_wf_write; [done|apply rb_moved_bound; (done || lia)|done]).
  pose proof (rb_fill_content rb rb' cur Hc) as Hfill.
  assert (Hsz : rb_size rb' = rb_size rb) by (by rewrite He).
  split_and!; [done..| |].
  - destruct r as [|c n n2]; [done|]. unfold reader_ok in *. rewrite Hc, Hfill, Hsz.
    assert (rb_read_ptr rb' = rb_read_ptr rb) as -> by (by rewrite He).
    destruct Hr as (? & ? & ? & ? & ? & Hp). split_and!; [lia..|done|]. by apply prefix_app_r.
  - unfold next_writer. destruct l2 as [|b l2]; [done|]. destruct Hd as [?|Hd]; [done|].
    unfold writer_ok, rb_capacity. cbn [length]. rewrite Hfill, Hsz, He.
    cbn [rb_with_write rb_write_ptr rb_buf]. unfold rb_moved.
    destruct (Z.ltb_spec (rb_write_ptr rb + Z.of_nat (length cur)) (rb_size rb)); [lia|].
    cbn [length] in Hn. split_and!; [lia|lia|by left|]. unfold memcpy_from. rewrite decide_True by lia. done.
Qed.

Lemma threads_step_inv t t' : threads_inv t -> threads_step t t' -> threads_inv t'.
Proof.
  intros (Hwf & Hs & Hr & Hw) Hst. destruct Hst as [rb w s g cnt n1 n2 Hc Hne Hsp|rb w s g cur n n2 b Hlt Hb
    |rb w s g cur n n2 Hn|rb r s g src n1 n2 Hne Hsp|rb r s g cur b rest l2|rb r s g cur l2];
    cbn [th_rb th_sent th_got th_reader th_writer] in *; unfold threads_inv; cbn [th_rb th_sent th_got th_reader th_writer].
  - split_and!; [done..| |done]. by eapply inv_read_start.
  - split_and!; [done..| |done]. by eapply inv_read_byte.
  - destruct (inv_read_ptr rb w cur n n2 Hwf Hr Hw Hn) as (Hwf' & Hcn & Hr' & Hw').
    split_and!; [done| |done..]. by rewrite Hs, Hcn, (assoc_L (++)).
  - split_and!; [done..|]. by eapply inv_write_start.
  - destruct (inv_write_byte rb r cur b rest l2 Hwf Hr Hw) as (Hwf' & Hcn & Hr' & Hw').
    split_and!; [done| |done..]. by rewrite Hcn.
  - destruct (inv_write_ptr rb r cur l2 Hwf Hr Hw) as (Hwf' & Hcn & Hr' & Hw').
    split_and!; [done| |done..]. by rewrite Hcn, Hs, (assoc_L (++)).
Qed.

Lemma threads_reachable_inv rb t :
  rb_wf rb -> rb_content rb = [] -> rtc threads_step (threads_init rb) t -> threads_inv t.
Proof.
  intros Hwf Hc Hrt. assert (Hi : threads_inv (threads_init rb)) 
    by (split; [done|]; split; [cbn; by rewrite Hc|done]).
  clear Hc Hwf. induction Hrt as [|t1 t2 t3 Hst Hrt IH]; [done|]. apply IH. by eapply threads_step_inv.
Qed.

End threads.
Arguments threads : clear implicits.

(** ** Property *)

(** C24: whatever the interleaving of a reading and a writing thread, the bytes
    the reader got followed by the bytes in the buffer are the bytes the
    writer sent: nothing is lost, duplicated, reordered or torn, and the
    buffer never holds more than its capacity.  The cell that the reader
    copies next and the cell that the writer stores next are both inside the
    block and never the same. *)
Theorem ringbuffer_threads_fifo {A} (rb : ringbuffer A) (t : threads A) :
  rb_wf rb -> rb_content rb = [] -> rtc threads_step (threads_init rb) t ->
  th_sent t = th_got t ++ rb_content (th_rb t) /\
  Z.of_nat (length (rb_content (th_rb t))) <= rb_capacity (th_rb t) /\
  (forall cur n n2, th_reader t = R_copy cur n n2 -> Z.of_nat (length cur) < n ->
     let i := (Z.to_nat (rb_read_ptr (th_rb t)) + length cur)%nat in
     is_Some (rb_buf (th_rb t) !! i) /\
     forall cur' b rest l2, th_writer t = W_copy cur' (b :: rest) l2 ->
       let j := (Z.to_nat (rb_write_ptr (th_rb t)) + length cur')%nat in
       is_Some (rb_buf (th_rb t) !! j) /\ i <> j).
Proof.
  intros Hwf Hc Hrt. destruct (threads_reachable_inv rb t Hwf Hc Hrt) as (Hwft & Hs & Hr & Hw).
  pose proof (rb_fill_bound (th_rb t) Hwft) as Hf. split; [done|]. split; [apply Hf|].
  intros cur n n2 Hrd Hlt i. rewrite Hrd in Hr. destruct Hr as (_ & Hn2 & Hfl & Hrp & _).
  pose proof (rb_fill_eq (th_rb t) Hwft) as Hfe. pose proof Hwft as (_ & _ & Hl & Hwp & Hrpb). unfold rb_capacity in Hf.
  split; [apply lookup_lt_is_Some; lia|].
  intros cur' b rest l2 Hwr j. rewrite Hwr in Hw. destruct Hw as (Hn & Hwl & _). cbn [length] in *.
  unfold rb_capacity in Hn. split; [apply lookup_lt_is_Some; lia|].
  intros Hij. subst i j. case_match eqn:E; rewrite ?Z.leb_le, ?Z.leb_gt in E; lia.
Qed.

(** A writer sends two bytes while a reader has copied the first one. *)
Lemma ringbuffer_threads_fifo_witness :
  let rb0 := mkRingbuffer [0; 0; 0; 0] 0 0 4 3 0 in
  let t := mkThreads (mkRingbuffer [5; 6; 0; 0] 1 0 4 3 0) (R_copy [5] 1 0) (W_copy [6] [] []) [5] [] in
  th_sent t = th_got t ++ rb_content (th_rb t).
Proof.
  intros rb0 t. apply (ringbuffer_threads_fifo rb0 t).
  - split; [by exists 2|]. cbn. lia.
  - reflexivity.
  - eapply rtc_l; [apply (S_write_start _ _ _ _ [5] 1 0); [vm_compute; discriminate|reflexivity]|].
    eapply rtc_l; [apply (S_write_byte _ _ _ _ [] 5)|].
    eapply rtc_l; [apply S_write_ptr|].
    eapply rtc_l; [apply (S_read_start _ _ _ _ 2 1 0); [lia|vm_compute; discriminate|reflexivity]|].
    eapply rtc_l; [apply (S_write_start _ _ _ _ [6] 1 0); [vm_compute; discriminate|reflexivity]|].
    eapply rtc_l; [apply (S_read_byte _ _ _ _ [] 1 0 5); [vm_compute; reflexivity|reflexivity]|].
    eapply rtc_l; [apply (S_write_byte _ _ _ _ [] 6)|]. apply rtc_refl.
Defined.
