(* ===== verification/CycleTimer.v ===== *)
(** * CycleTimer: libieee1394/cycletimer.h

    The 32-bit cycle timer register (7 bits of seconds, 13 of cycles, 12 of
    offset), times in ticks of 1/24576000 s that wrap after 128 s, and the
    reconstruction of a full time from the 16-bit SYT field of a packet.

    The model is the release build: the [DEBUG] blocks only print warnings. *)
From S2P Require Import Prelude.

Definition CYCLES_PER_SECOND : Z := 8000.
Definition TICKS_PER_CYCLE : Z := 3072.
Definition TICKS_PER_SECOND : Z := 24576000.

Definition CYCLE_TIMER_GET_SECS (x : Z) : Z := Z.shiftr (Z.land x 0xFE000000) 25.
Definition CYCLE_TIMER_GET_CYCLES (x : Z) : Z := Z.shiftr (Z.land x 0x01FFF000) 12.
Definition CYCLE_TIMER_GET_OFFSET (x : Z) : Z := Z.land x 0x00000FFF.

(** The complement of an unsigned 64-bit mask. *)
Definition not64 (m : Z) : Z := Z.lxor m 0xFFFFFFFFFFFFFFFF.

Definition CYCLE_TIMER_SET_SECS (v x : Z) : Z :=
  Z.lor (Z.land v (not64 0xFE000000)) (Z.shiftl (Z.land x 0x7F) 25).
Definition CYCLE_TIMER_SET_CYCLES (v x : Z) : Z :=
  Z.lor (Z.land v (not64 0x01FFF000)) (Z.shiftl (Z.land x 0x1FFF) 12).
Definition CYCLE_TIMER_SET_OFFSET (v x : Z) : Z := Z.lor (Z.land v (not64 0x00000FFF)) (Z.land x 0xFFF).

Definition CYCLE_TIMER_TO_TICKS (x : Z) : Z :=
  u64 (CYCLE_TIMER_GET_SECS x * TICKS_PER_SECOND + CYCLE_TIMER_GET_CYCLES x * TICKS_PER_CYCLE
       + CYCLE_TIMER_GET_OFFSET x).

Definition TICKS_TO_SECS (x : Z) : Z := x / TICKS_PER_SECOND.
Definition TICKS_TO_CYCLES (x : Z) : Z := (x / TICKS_PER_CYCLE) mod CYCLES_PER_SECOND.
Definition TICKS_TO_OFFSET (x : Z) : Z := x mod TICKS_PER_CYCLE.

Definition TICKS_TO_CYCLE_TIMER (x : Z) : Z :=
  Z.lor (Z.lor (Z.shiftl (Z.land (TICKS_TO_SECS x) 0x7F) 25) (Z.shiftl (Z.land (TICKS_TO_CYCLES x) 0x1FFF) 12))
        (Z.land (TICKS_TO_OFFSET x) 0xFFF).

Definition TICKS_TO_SYT (x : Z) : Z :=
  Z.lor (Z.shiftl (Z.land (TICKS_TO_CYCLES x) 0xF) 12) (Z.land (TICKS_TO_OFFSET x) 0xFFF).

(** [TICKS_PER_SECOND * 128L] *)
Definition MAX_TICKS : Z := TICKS_PER_SECOND * 128.

Definition wrapAtMaxTicks (x : Z) : Z := if MAX_TICKS <=? x then u64 (x - MAX_TICKS) else x.

Definition wrapAtMinTicks (x : Z) : Z := if x <? 0 then s64 (x + MAX_TICKS) else x.

Definition wrapAtMinMaxTicks (x : Z) : Z :=
  if x <? 0 then s64 (x + MAX_TICKS)
  else if MAX_TICKS <=? x then s64 (x - MAX_TICKS)
  else x.

Definition addCycles (x y : Z) : Z :=
  let sum := u32 (x + y) in
  if CYCLES_PER_SECOND <? sum then u32 (sum - CYCLES_PER_SECOND) else sum.

Definition diffCycles (x y : Z) : Z :=
  let diff := s32 (s32 x - s32 y) in
  let max := CYCLES_PER_SECOND / 2 in
  if max <? diff then s32 (diff - CYCLES_PER_SECOND)
  else if diff <? - max then s32 (diff + CYCLES_PER_SECOND)
  else diff.

Definition diffTicks (x y : Z) : Z :=
  let diff := s64 (x - y) in
  let wrapvalue := TICKS_PER_SECOND * 128 in
  let max := wrapvalue `quot` 2 in
  if max <? diff then s64 (diff - wrapvalue)
  else if diff <? - max then s64 (diff + wrapvalue)
  else diff.

Definition addTicks (x y : Z) : Z := wrapAtMaxTicks (u64 (x + y)).

(** the result is converted to [uint64_t] *)
Definition substractTicks (x y : Z) : Z := u64 (wrapAtMinTicks (s64 (x - y))).

(** The reconstruction shared by the three conversions: the cycle [base] is
    moved forward to the next one whose low four bits are those of the SYT,
    and the seconds are added. *)
Definition syt_to_ticks (syt_timestamp base cc_seconds : Z) : Z :=
  let cycle_masked := Z.land base 0xF in
  let syt_cycle := CYCLE_TIMER_GET_CYCLES syt_timestamp in
  let syt_cycle := if syt_cycle <? cycle_masked then u64 (syt_cycle + 0x10) else syt_cycle in
  let delta_cycles := u64 (syt_cycle - cycle_masked) in
  let new_cycles := u64 (base + delta_cycles) in
  let timestamp :=
    if new_cycles <? 8000 then u64 (new_cycles * TICKS_PER_CYCLE)
    else u64 (u64 (u64 (new_cycles - 8000) * TICKS_PER_CYCLE) + TICKS_PER_SECOND) in
  let timestamp := u64 (timestamp + CYCLE_TIMER_GET_OFFSET syt_timestamp) in
  addTicks timestamp (u64 (cc_seconds * TICKS_PER_SECOND)).

Definition sytRecvToFullTicks (syt_timestamp rcv_cycle ctr_now : Z) : Z :=
  let cc_cycles := CYCLE_TIMER_GET_CYCLES ctr_now in
  let cc_seconds := CYCLE_TIMER_GET_SECS ctr_now in
  let diff_cycles := diffCycles cc_cycles rcv_cycle in
  let cc_seconds :=
    if (cc_cycles <? rcv_cycle) && (0 <=? diff_cycles) then
      if negb (cc_seconds =? 0) then cc_seconds - 1 else 127
    else cc_seconds in
  syt_to_ticks syt_timestamp rcv_cycle cc_seconds.

(** [unsigned int] arithmetic, whose values stay small *)
Definition sytRecvToFullTicks2 (syt_timestamp rcv_ctr : Z) : Z :=
  let rcv_cycle := CYCLE_TIMER_GET_CYCLES rcv_ctr in
  let rcv_cycle_masked := Z.land rcv_cycle 0xF in
  let syt_cycle := u32 (CYCLE_TIMER_GET_CYCLES syt_timestamp) in
  let syt_cycle := if syt_cycle <? rcv_cycle_masked then u32 (syt_cycle + 0x10) else syt_cycle in
  let delta_cycles := u32 (syt_cycle - rcv_cycle_masked) in
  let rcv_cycle := u32 (rcv_cycle + delta_cycles) in
  let timestamp :=
    if rcv_cycle <? 8000 then u32 (rcv_cycle * TICKS_PER_CYCLE)
    else u64 (u32 (u32 (rcv_cycle - 8000) * TICKS_PER_CYCLE) + TICKS_PER_SECOND) in
  let timestamp := u64 (timestamp + CYCLE_TIMER_GET_OFFSET syt_timestamp) in
  addTicks timestamp (u64 (CYCLE_TIMER_GET_SECS rcv_ctr * TICKS_PER_SECOND)).

Definition sytXmitToFullTicks (syt_timestamp xmt_cycle ctr_now : Z) : Z :=
  let cc_cycles := CYCLE_TIMER_GET_CYCLES ctr_now in
  let cc_seconds := CYCLE_TIMER_GET_SECS ctr_now in
  let diff_cycles := diffCycles xmt_cycle cc_cycles in
  let cc_seconds :=
    if (xmt_cycle <? cc_cycles) && (0 <=? diff_cycles) then
      if negb (cc_seconds =? 0) then cc_seconds - 1 else 127
    else cc_seconds in
  syt_to_ticks syt_timestamp xmt_cycle cc_seconds.

(** ** The fields of the register *)

(** The register for given fields. *)
Definition ctr_of (secs cycles offset : Z) : Z := secs * 2 ^ 25 + cycles * 2 ^ 12 + offset.

Lemma GET_OFFSET_mod x : CYCLE_TIMER_GET_OFFSET x = x mod 4096.
Proof. exact (land_mod x 12 ltac:(lia)). Qed.

Lemma GET_CYCLES_mod x : CYCLE_TIMER_GET_CYCLES x = (x / 4096) mod 8192.
Proof.
  unfold CYCLE_TIMER_GET_CYCLES. rewrite Z.shiftr_land. change (Z.shiftr 0x01FFF000 12) with (2 ^ 13 - 1).
  rewrite land_mod, shiftr_div by lia. done.
Qed.

Lemma GET_SECS_mod x : CYCLE_TIMER_GET_SECS x = (x / 33554432) mod 128.
Proof.
  unfold CYCLE_TIMER_GET_SECS. rewrite Z.shiftr_land. change (Z.shiftr 0xFE000000 25) with (2 ^ 7 - 1).
  rewrite land_mod, shiftr_div by lia. done.
Qed.

(** Fields in their ranges. *)
Definition ctr_fields (secs cycles offset : Z) : Prop :=
  0 <= secs < 128 /\ 0 <= cycles < CYCLES_PER_SECOND /\ 0 <= offset < TICKS_PER_CYCLE.

Lemma ctr_of_get s c o :
  ctr_fields s c o ->
  CYCLE_TIMER_GET_SECS (ctr_of s c o) = s /\ CYCLE_TIMER_GET_CYCLES (ctr_of s c o) = c /\
  CYCLE_TIMER_GET_OFFSET (ctr_of s c o) = o.
Proof.
  unfold ctr_fields, CYCLES_PER_SECOND, TICKS_PER_CYCLE, ctr_of. intros (? & ? & ?).
  rewrite GET_SECS_mod, GET_CYCLES_mod, GET_OFFSET_mod.
  change (2 ^ 25) with 33554432. change (2 ^ 12) with 4096. split_and!; div_lia.
Qed.

Lemma CYCLE_TIMER_TO_TICKS_of s c o :
  ctr_fields s c o -> CYCLE_TIMER_TO_TICKS (ctr_of s c o) = s * 24576000 + c * 3072 + o.
Proof.
  intros H. unfold CYCLE_TIMER_TO_TICKS. destruct (ctr_of_get _ _ _ H) as (-> & -> & ->).
  unfold ctr_fields, CYCLES_PER_SECOND, TICKS_PER_CYCLE, TICKS_PER_SECOND in *. div_lia.
Qed.

Lemma TICKS_TO_CYCLE_TIMER_of s c o :
  ctr_fields s c o -> TICKS_TO_CYCLE_TIMER (s * 24576000 + c * 3072 + o) = ctr_of s c o.
Proof.
  unfold ctr_fields, CYCLES_PER_SECOND, TICKS_PER_CYCLE. intros (Hs & Hc & Ho).
  set (t := s * 24576000 + c * 3072 + o).
  assert (E1 : TICKS_TO_SECS t = s) by (unfold TICKS_TO_SECS, TICKS_PER_SECOND; subst t; div_lia).
  assert (E2 : TICKS_TO_CYCLES t = c)
    by (unfold TICKS_TO_CYCLES, TICKS_PER_CYCLE, CYCLES_PER_SECOND; subst t; div_lia).
  assert (E3 : TICKS_TO_OFFSET t = o) by (unfold TICKS_TO_OFFSET, TICKS_PER_CYCLE; subst t; div_lia).
  unfold TICKS_TO_CYCLE_TIMER, ctr_of. rewrite E1, E2, E3.
  change 0x7F with (2 ^ 7 - 1). change 0x1FFF with (2 ^ 13 - 1). change 0xFFF with (2 ^ 12 - 1).
  rewrite !land_mod by lia. rewrite !Z.mod_small by lia.
  rewrite <- Z.lor_assoc, (lor_add c o 12), (lor_add s _ 25) by lia. lia.
Qed.

(** ** Arithmetic on wrapped times *)

Definition ticks_valid (x : Z) : Prop := 0 <= x < MAX_TICKS.
Definition cycles_valid (x : Z) : Prop := 0 <= x < CYCLES_PER_SECOND.

Ltac tick_lia :=
  unfold ticks_valid, cycles_valid, ctr_fields, MAX_TICKS, TICKS_PER_SECOND, TICKS_PER_CYCLE, CYCLES_PER_SECOND in *;
  change (24576000 * 128) with 3145728000 in *;
  width_lia.

Lemma s64_small x : - 2 ^ 63 <= x < 2 ^ 63 -> s64 x = x.
Proof. intros. apply wrapS_small; [lia|done]. Qed.

Lemma s32_small x : - 2 ^ 31 <= x < 2 ^ 31 -> s32 x = x.
Proof. intros. apply wrapS_small; [lia|done]. Qed.

Lemma u64_small x : 0 <= x < 2 ^ 64 -> u64 x = x.
Proof. intros. by apply wrapU_small. Qed.

Lemma u32_small x : 0 <= x < 2 ^ 32 -> u32 x = x.
Proof. intros. by apply wrapU_small. Qed.

Lemma addTicks_mod x y :
  ticks_valid x -> ticks_valid y -> addTicks x y = (x + y) mod MAX_TICKS.
Proof.
  intros Hx Hy. unfold addTicks, wrapAtMaxTicks.
  rewrite u64_small by tick_lia. destruct (Z.leb_spec MAX_TICKS (x + y)).
  - rewrite u64_small by tick_lia. apply (Z.mod_unique _ _ 1); tick_lia.
  - symmetry. apply Z.mod_small. tick_lia.
Qed.

Lemma substractTicks_mod x y :
  ticks_valid x -> ticks_valid y -> substractTicks x y = (x - y) mod MAX_TICKS.
Proof.
  intros Hx Hy. unfold substractTicks, wrapAtMinTicks.
  rewrite s64_small by tick_lia. destruct (Z.ltb_spec (x - y) 0).
  - rewrite s64_small by tick_lia. rewrite u64_small by tick_lia.
    apply (Z.mod_unique _ _ (-1)); tick_lia.
  - rewrite u64_small by tick_lia. symmetry. apply Z.mod_small. tick_lia.
Qed.

Lemma diffTicks_spec x y :
  ticks_valid x -> ticks_valid y ->
  exists k, diffTicks x y = x - y + k * MAX_TICKS /\ - (MAX_TICKS / 2) <= diffTicks x y <= MAX_TICKS / 2.
Proof.
  intros Hx Hy. unfold diffTicks. cbv zeta.
  change (TICKS_PER_SECOND * 128) with 3145728000. change (3145728000 `quot` 2) with 1572864000.
  change (MAX_TICKS / 2) with 1572864000.
  rewrite (s64_small (x - y)) by tick_lia.
  destruct (Z.ltb_spec 1572864000 (x - y)).
  - exists (-1). rewrite s64_small by tick_lia. split; tick_lia.
  - destruct (Z.ltb_spec (x - y) (Z.opp 1572864000)).
    + exists 1. rewrite s64_small by tick_lia. split; tick_lia.
    + exists 0. split; tick_lia.
Qed.

Lemma diffCycles_spec x y :
  cycles_valid x -> cycles_valid y ->
  exists k, diffCycles x y = x - y + k * 8000 /\ - 4000 <= diffCycles x y <= 4000.
Proof.
  intros Hx Hy. unfold diffCycles. cbv zeta. change (CYCLES_PER_SECOND / 2) with 4000.
  rewrite (s32_small x), (s32_small y) by tick_lia. rewrite (s32_small (x - y)) by tick_lia.
  destruct (Z.ltb_spec 4000 (x - y)).
  - exists (-1). rewrite s32_small by tick_lia. split; tick_lia.
  - destruct (Z.ltb_spec (x - y) (Z.opp 4000)).
    + exists 1. rewrite s32_small by tick_lia. split; tick_lia.
    + exists 0. split; tick_lia.
Qed.

(** a cycle has been reached when the next one comes, also over the second *)
Lemma diffCycles_next c :
  0 <= c < CYCLES_PER_SECOND -> 0 <= diffCycles ((c + 1) mod CYCLES_PER_SECOND) (c + 1).
Proof.
  unfold diffCycles, CYCLES_PER_SECOND. intros Hc. destruct (Z.eq_dec c 7999) as [->|Hne]; [by vm_compute|].
  rewrite Z.mod_small, Z.sub_diag by lia. by vm_compute.
Qed.

Lemma Zmod_eq_shift a b k : a = b + k * MAX_TICKS -> a mod MAX_TICKS = b mod MAX_TICKS.
Proof. intros ->. by apply Z.mod_add. Qed.

(** ** Reconstruction from a SYT *)

(** The 16-bit SYT of a presentation time. *)
Definition syt_of (cycle offset : Z) : Z := (cycle mod 16) * 4096 + offset.

(** [base] is the low end of a window of sixteen cycles; the reconstruction
    returns the time in it that the SYT abbreviates. *)
Lemma syt_to_ticks_spec base secs d off :
  cycles_valid base -> 0 <= secs < 128 -> 0 <= d < 16 -> 0 <= off < TICKS_PER_CYCLE ->
  syt_to_ticks (syt_of (base + d) off) base secs
  = (secs * TICKS_PER_SECOND + (base + d) * TICKS_PER_CYCLE + off) mod MAX_TICKS.
Proof.
  intros Hb Hs Hd Ho. unfold syt_to_ticks. cbv zeta. rewrite land_0xf.
  assert (Hc : CYCLE_TIMER_GET_CYCLES (syt_of (base + d) off) = (base + d) mod 16)
    by (rewrite GET_CYCLES_mod; unfold syt_of, cycles_valid, TICKS_PER_CYCLE in *; div_lia).
  assert (Hoff : CYCLE_TIMER_GET_OFFSET (syt_of (base + d) off) = off)
    by (rewrite GET_OFFSET_mod; unfold syt_of, cycles_valid, TICKS_PER_CYCLE in *; div_lia).
  rewrite Hc, Hoff.
  assert (Hdelta : (if (base + d) mod 16 <? base mod 16 then u64 ((base + d) mod 16 + 16) else (base + d) mod 16)
                   - base mod 16 = d).
  { destruct (Z.ltb_spec ((base + d) mod 16) (base mod 16)); rewrite ?u64_small; div_lia. }
  rewrite Hdelta. rewrite (u64_small d) by lia. rewrite (u64_small (base + d)) by tick_lia.
  rewrite (u64_small (secs * _)) by tick_lia.
  destruct (Z.ltb_spec (base + d) 8000).
  - rewrite (u64_small ((base + d) * _)), (u64_small (_ + off)) by tick_lia.
    rewrite addTicks_mod by tick_lia. f_equal. lia.
  - rewrite (u64_small (base + d - 8000)), (u64_small ((base + d - 8000) * _)) by tick_lia.
    rewrite (u64_small (_ + TICKS_PER_SECOND)), (u64_small (_ + off)) by tick_lia.
    rewrite addTicks_mod by tick_lia. f_equal.
    unfold TICKS_PER_SECOND, TICKS_PER_CYCLE. lia.
Qed.

Lemma sytRecvToFullTicks2_eq syt s c o :
  ctr_fields s c o -> 0 <= syt < 65536 ->
  sytRecvToFullTicks2 syt (ctr_of s c o) = syt_to_ticks syt c s.
Proof.
  intros H Hsyt. unfold sytRecvToFullTicks2, syt_to_ticks. cbv zeta.
  destruct (ctr_of_get _ _ _ H) as (-> & -> & _). rewrite land_0xf.
  assert (Hc : 0 <= CYCLE_TIMER_GET_CYCLES syt < 16) by (rewrite GET_CYCLES_mod; div_lia).
  assert (Hm : 0 <= c mod 16 < 16) by (apply Z.mod_pos_bound; lia).
  set (k := CYCLE_TIMER_GET_CYCLES syt) in *. rewrite (u32_small k) by lia.
  assert (Hd : exists d, 0 <= d < 16 /\
    (if k <? c mod 16 then u32 (k + 16) else k) - c mod 16 = d /\
    (if k <? c mod 16 then u64 (k + 16) else k) - c mod 16 = d).
  { exists (if k <? c mod 16 then k + 16 - c mod 16 else k - c mod 16).
    destruct (Z.ltb_spec k (c mod 16)); rewrite ?u32_small, ?u64_small by lia; lia. }
  destruct Hd as (d & Hd & -> & ->). rewrite (u32_small d), (u64_small d) by lia.
  rewrite (u32_small (c + d)), (u64_small (c + d)) by tick_lia.
  destruct (Z.ltb_spec (c + d) 8000).
  - by rewrite (u32_small ((c + d) * _)), (u64_small ((c + d) * _)) by tick_lia.
  - rewrite (u32_small (c + d - 8000)), (u64_small (c + d - 8000)) by tick_lia.
    by rewrite (u32_small ((c + d - 8000) * _)), (u64_small ((c + d - 8000) * _)) by tick_lia.
Qed.

(** The second of the receive cycle, from the second of a later cycle. *)
Lemma sytRecvToFullTicks_eq syt rcv now o :
  0 <= rcv < 128 * 8000 -> rcv <= now < rcv + 4000 -> 0 <= o < TICKS_PER_CYCLE ->
  sytRecvToFullTicks syt (rcv mod 8000) (ctr_of (now / 8000 mod 128) (now mod 8000) o)
  = syt_to_ticks syt (rcv mod 8000) (rcv / 8000).
Proof.
  intros Hr Hn Ho. unfold sytRecvToFullTicks. cbv zeta.
  assert (Hf : ctr_fields (now / 8000 mod 128) (now mod 8000) o).
  { split_and!; try (apply Z.mod_pos_bound; unfold CYCLES_PER_SECOND; lia); tick_lia. }
  destruct (ctr_of_get _ _ _ Hf) as (-> & -> & _). f_equal.
  destruct (diffCycles_spec (now mod 8000) (rcv mod 8000)) as (k & Hk & Hb);
    [apply Z.mod_pos_bound; done..|].
  assert (Hdiff : diffCycles (now mod 8000) (rcv mod 8000) = now - rcv) by div_lia.
  rewrite Hdiff. destruct (Z.ltb_spec (now mod 8000) (rcv mod 8000)); cbn [andb].
  - rewrite (proj2 (Z.leb_le 0 (now - rcv))) by lia.
    destruct (Z.eqb_spec (now / 8000 mod 128) 0); cbn [negb]; div_lia.
  - div_lia.
Qed.

(** The second that [sytXmitToFullTicks] uses for a cycle ahead of now. *)
Lemma sytXmitToFullTicks_eq syt now xmt o :
  0 <= now < 128 * 8000 -> now <= xmt < now + 4000 -> 0 <= o < TICKS_PER_CYCLE ->
  sytXmitToFullTicks syt (xmt mod 8000) (ctr_of (now / 8000) (now mod 8000) o)
  = syt_to_ticks syt (xmt mod 8000)
      (if xmt / 8000 =? now / 8000 then now / 8000 else if now / 8000 =? 0 then 127 else now / 8000 - 1).
Proof.
  intros Hn Hx Ho. unfold sytXmitToFullTicks. cbv zeta.
  assert (Hf : ctr_fields (now / 8000) (now mod 8000) o).
  { split_and!; try (apply Z.mod_pos_bound; done); try tick_lia; div_lia. }
  destruct (ctr_of_get _ _ _ Hf) as (-> & -> & _). f_equal.
  destruct (diffCycles_spec (xmt mod 8000) (now mod 8000)) as (k & Hk & Hb);
    [apply Z.mod_pos_bound; done..|].
  assert (Hdiff : diffCycles (xmt mod 8000) (now mod 8000) = xmt - now) by div_lia.
  rewrite Hdiff. rewrite (proj2 (Z.leb_le 0 (xmt - now))) by lia.
  destruct (Z.ltb_spec (xmt mod 8000) (now mod 8000)); cbn [andb];
    destruct (Z.eqb_spec (xmt / 8000) (now / 8000)); try div_lia.
  by destruct (now / 8000 =? 0).
Qed.

(** ** Properties *)

(** The register and the tick count are two encodings of the same fields:
    each conversion is the inverse of the other on registers with fields in
    range. *)
Lemma cycle_timer_ticks_roundtrip (s c o : Z) :
  ctr_fields s c o ->
  CYCLE_TIMER_TO_TICKS (ctr_of s c o) = (s * CYCLES_PER_SECOND + c) * TICKS_PER_CYCLE + o /\
  TICKS_TO_CYCLE_TIMER (CYCLE_TIMER_TO_TICKS (ctr_of s c o)) = ctr_of s c o.
Proof.
  intros H. rewrite CYCLE_TIMER_TO_TICKS_of by done. split.
  - unfold CYCLES_PER_SECOND, TICKS_PER_CYCLE. lia.
  - by apply TICKS_TO_CYCLE_TIMER_of.
Qed.

Lemma cycle_timer_ticks_roundtrip_witness :
  TICKS_TO_CYCLE_TIMER (CYCLE_TIMER_TO_TICKS (ctr_of 127 7999 3071)) = ctr_of 127 7999 3071.
Proof. apply (cycle_timer_ticks_roundtrip 127 7999 3071). unfold ctr_fields; vm_compute; intuition congruence. Defined.

(** ** Times near each other *)

Lemma diffCycles_near n m : - 4000 < n - m < 4000 -> diffCycles (n mod CYCLES_PER_SECOND) (m mod CYCLES_PER_SECOND) = n - m.
Proof.
  intros Hd. pose proof (Z.mod_pos_bound n CYCLES_PER_SECOND ltac:(done)) as Hn.
  pose proof (Z.mod_pos_bound m CYCLES_PER_SECOND ltac:(done)) as Hm.
  destruct (diffCycles_spec (n mod CYCLES_PER_SECOND) (m mod CYCLES_PER_SECOND)) as (k & Hk & Hb); [done|done|].
  pose proof (Z.div_mod n CYCLES_PER_SECOND ltac:(done)). pose proof (Z.div_mod m CYCLES_PER_SECOND ltac:(done)).
  unfold CYCLES_PER_SECOND in *. lia.
Qed.

(** the cycle timer at the offset [o] in the cycle [n], counted from a second 0 *)
Definition ctr_at (n o : Z) : Z := ctr_of (n / CYCLES_PER_SECOND mod 128) (n mod CYCLES_PER_SECOND) o.

Lemma ctr_at_fields n o : 0 <= o < TICKS_PER_CYCLE -> ctr_fields (n / CYCLES_PER_SECOND mod 128) (n mod CYCLES_PER_SECOND) o.
Proof. intros Ho. split; [apply Z.mod_pos_bound; lia|]. split; [by apply Z.mod_pos_bound|done]. Qed.

Lemma ctr_at_ticks n o :
  0 <= o < TICKS_PER_CYCLE -> CYCLE_TIMER_TO_TICKS (ctr_at n o) = n mod 1024000 * TICKS_PER_CYCLE + o.
Proof.
  intros Ho. unfold ctr_at. rewrite CYCLE_TIMER_TO_TICKS_of by by apply ctr_at_fields.
  unfold CYCLES_PER_SECOND, TICKS_PER_CYCLE. Z.to_euclidean_division_equations. lia.
Qed.

(** C38: times form the integers modulo 128 seconds: sums and differences of
    wrapped times are wrapped, subtraction undoes addition, and [diffTicks] is
    the signed difference of smallest size. *)
Theorem ticks_arithmetic (x y : Z) :
  ticks_valid x -> ticks_valid y ->
  addTicks x y = (x + y) mod MAX_TICKS /\
  substractTicks x y = (x - y) mod MAX_TICKS /\
  substractTicks (addTicks x y) y = x /\ addTicks (substractTicks x y) y = x /\
  diffTicks x y mod MAX_TICKS = substractTicks x y /\
  - (MAX_TICKS / 2) <= diffTicks x y <= MAX_TICKS / 2.
Proof.
  intros Hx Hy. pose proof (Z.mod_pos_bound (x + y) MAX_TICKS eq_refl) as Ha.
  pose proof (Z.mod_pos_bound (x - y) MAX_TICKS eq_refl) as Hs.
  destruct (diffTicks_spec x y Hx Hy) as (k & Hk & Hb).
  rewrite addTicks_mod, substractTicks_mod by done.
  rewrite substractTicks_mod, addTicks_mod by done.
  rewrite Zminus_mod_idemp_l, Zplus_mod_idemp_l.
  split_and!; try done; try lia.
  - rewrite Z.add_simpl_r. by apply Z.mod_small.
  - rewrite Z.sub_simpl_r. by apply Z.mod_small.
  - rewrite Hk. apply Z.mod_add. done.
Qed.

Lemma ticks_arithmetic_witness :
  addTicks 3145727999 5 = 4 /\ substractTicks (addTicks 3145727999 5) 5 = 3145727999.
Proof.
  assert (Hx : ticks_valid 3145727999) by (vm_compute; intuition congruence).
  assert (Hy : ticks_valid 5) by (vm_compute; intuition congruence).
  split; [exact (proj1 (ticks_arithmetic 3145727999 5 Hx Hy))|].
  apply (ticks_arithmetic 3145727999 5 Hx Hy).
Defined.

(** C39: a received SYT is the presentation time: for a packet received in
    cycle [rcv] (counted from the start of the timer) with a presentation time
    less than sixteen cycles later, [sytRecvToFullTicks] finds that time from
    the SYT, the receive cycle modulo 8000 and any later register value less
    than half a second away, across the wraps of the cycle and of the seconds;
    [sytRecvToFullTicks2] finds it from the register of the receive cycle. *)
Theorem sytRecv_presentation_time (rcv now d off o : Z) :
  0 <= rcv < 128 * CYCLES_PER_SECOND -> rcv <= now < rcv + 4000 ->
  0 <= d < 16 -> 0 <= off < TICKS_PER_CYCLE -> 0 <= o < TICKS_PER_CYCLE ->
  let presentation := ((rcv + d) * TICKS_PER_CYCLE + off) mod MAX_TICKS in
  sytRecvToFullTicks (syt_of (rcv + d) off) (rcv mod 8000)
    (ctr_of (now / 8000 mod 128) (now mod 8000) o) = presentation /\
  sytRecvToFullTicks2 (syt_of (rcv + d) off) (ctr_of (rcv / 8000) (rcv mod 8000) o) = presentation.
Proof.
  intros Hr Hn Hd Hoff Ho presentation. unfold CYCLES_PER_SECOND in *.
  assert (Hsyt : syt_of (rcv + d) off = syt_of (rcv mod 8000 + d) off) by (unfold syt_of; div_lia).
  assert (Hc : cycles_valid (rcv mod 8000)) by (apply Z.mod_pos_bound; done).
  assert (Hs : 0 <= rcv / 8000 < 128) by div_lia.
  assert (Hp : syt_to_ticks (syt_of (rcv + d) off) (rcv mod 8000) (rcv / 8000) = presentation).
  { rewrite Hsyt, syt_to_ticks_spec by done. subst presentation. f_equal.
    unfold TICKS_PER_SECOND, TICKS_PER_CYCLE. div_lia. }
  split.
  - rewrite sytRecvToFullTicks_eq by done. exact Hp.
  - rewrite sytRecvToFullTicks2_eq; [exact Hp| |].
    + split_and!; [lia..|apply Hc|apply Hc|lia|lia].
    + unfold syt_of, TICKS_PER_CYCLE in *. div_lia.
Qed.

Lemma sytRecv_presentation_time_witness :
  sytRecvToFullTicks (syt_of 1024005 100) 7999 (ctr_of 0 12 7) = 6 * 3072 - 3072 + 100.
Proof.
  apply (sytRecv_presentation_time 1023999 1024012 6 100 7); first [tick_lia | vm_compute; intuition congruence].
Defined.

(** [sytXmitToFullTicks] is right while the transmit cycle lies in the
    current second, and two seconds early when it lies in the next one. *)
Lemma sytXmit_next_second (now xmt d off o : Z) :
  0 <= now < 128 * CYCLES_PER_SECOND -> now <= xmt < now + 4000 ->
  0 <= d < 16 -> 0 <= off < TICKS_PER_CYCLE -> 0 <= o < TICKS_PER_CYCLE ->
  let presentation := (xmt + d) * TICKS_PER_CYCLE + off in
  sytXmitToFullTicks (syt_of (xmt + d) off) (xmt mod 8000) (ctr_of (now / 8000) (now mod 8000) o)
  = if xmt / 8000 =? now / 8000 then presentation mod MAX_TICKS
    else (presentation - 2 * TICKS_PER_SECOND) mod MAX_TICKS.
Proof.
  intros Hn Hx Hd Hoff Ho presentation. unfold CYCLES_PER_SECOND in *.
  assert (Hsyt : syt_of (xmt + d) off = syt_of (xmt mod 8000 + d) off) by (unfold syt_of; div_lia).
  assert (Hc : cycles_valid (xmt mod 8000)) by (apply Z.mod_pos_bound; done).
  rewrite sytXmitToFullTicks_eq by done. rewrite Hsyt.
  assert (Hnext : xmt / 8000 = now / 8000 \/ xmt / 8000 = now / 8000 + 1) by div_lia.
  destruct (Z.eqb_spec (xmt / 8000) (now / 8000)) as [E|E].
  - rewrite syt_to_ticks_spec by (first [done | div_lia]). subst presentation. f_equal.
    unfold TICKS_PER_SECOND, TICKS_PER_CYCLE. div_lia.
  - rewrite syt_to_ticks_spec by (try done; destruct (Z.eqb_spec (now / 8000) 0); div_lia).
    subst presentation. unfold TICKS_PER_SECOND, TICKS_PER_CYCLE, MAX_TICKS.
    destruct (Z.eqb_spec (now / 8000) 0) as [E0|E0].
    + apply (Zmod_eq_shift _ _ 1). unfold MAX_TICKS, TICKS_PER_SECOND. div_lia.
    + apply (Zmod_eq_shift _ _ 0). unfold MAX_TICKS, TICKS_PER_SECOND. div_lia.
Qed.

Lemma sytXmit_next_second_witness :
  sytXmitToFullTicks (syt_of 8005 0) 5 (ctr_of 0 7990 0) = 8005 * 3072 - 2 * 24576000 + MAX_TICKS.
Proof. apply (sytXmit_next_second 7990 8005 0 0 0); first [tick_lia | vm_compute; intuition congruence]. Defined.
