(* ===== verification/MachineFloat.v ===== *)
(** * MachineFloat: float and double

    The IEEE 754 binary formats of the C++ types [float] and [double], with
    rounding to nearest even, on the Standard Library's [SpecFloat]: every
    operation is executable and no axiom is involved.  An expression is taken
    to be rounded to its type at every operation (no excess precision). *)
From Stdlib Require Export SpecFloat.
From S2P Require Import Prelude.

Abbreviation f32_prec := 24.
Abbreviation f32_emax := 128.
Abbreviation f64_prec := 53.
Abbreviation f64_emax := 1024.

(** A floating point value of either format. *)
Abbreviation float := spec_float.

Definition f32_of_Z (x : Z) : float := binary_normalize f32_prec f32_emax x 0 false.

Definition f64_of_Z (x : Z) : float := binary_normalize f64_prec f64_emax x 0 false.

Definition convert (prec emax : Z) (x : float) : float :=
  match x with
  | S754_finite s m e => binary_normalize prec emax (cond_Zopp s (Zpos m)) e s
  | _ => x
  end.

Definition f64_of_f32 : float -> float := convert f64_prec f64_emax.

Definition f32_of_f64 : float -> float := convert f32_prec f32_emax.

Definition f32_mul := SFmul f32_prec f32_emax.
Definition f32_div := SFdiv f32_prec f32_emax.
Definition f32_sub := SFsub f32_prec f32_emax.
Definition f64_mul := SFmul f64_prec f64_emax.
Definition f64_div := SFdiv f64_prec f64_emax.
Definition f64_add := SFadd f64_prec f64_emax.
Definition f64_sub := SFsub f64_prec f64_emax.

(** The value of a decimal literal [n / d], correctly rounded: the quotient is
    computed with 200 bits after the point and a sticky bit. *)
Definition literal (prec emax n d : Z) : float :=
  let q := Z.shiftl n 200 / d in
  let sticky := if Z.shiftl n 200 mod d =? 0 then 0 else 1 in
  binary_normalize prec emax (2 * q + sticky) (-201) false.

Definition f64_literal : Z -> Z -> float := literal f64_prec f64_emax.

Definition f32_literal : Z -> Z -> float := literal f32_prec f32_emax.

(** Conversion to an integer type: towards zero; undefined for NaN, for an
    infinity and for a value outside the type. *)
Definition float_to_Z (x : float) : option Z :=
  match x with
  | S754_zero _ => Some 0
  | S754_finite s m e => Some (cond_Zopp s (if 0 <=? e then Zpos m * 2 ^ e else Zpos m / 2 ^ (- e)))
  | _ => None
  end.

Definition to_int (w : Z) (x : float) : option Z :=
  z ← float_to_Z x; if decide (sint w z) then Some z else None.

Definition to_uint (w : Z) (x : float) : option Z :=
  z ← float_to_Z x; if decide (uint w z) then Some z else None.

(** The nearest integer, the even one of two: [lrintf] and [lrint] in the
    default rounding mode.  The result of a value outside of [long] is
    unspecified. *)
Definition nearest_even (x : float) : option Z :=
  match x with
  | S754_zero _ => Some 0
  | S754_finite s m e =>
      if 0 <=? e then Some (cond_Zopp s (Zpos m * 2 ^ e))
      else
        let d := 2 ^ (- e) in
        let q := Zpos m / d in
        let r := Zpos m mod d in
        Some (cond_Zopp s (if (d <? 2 * r) || ((2 * r =? d) && Z.odd q) then q + 1 else q))
  | _ => None
  end.

Definition lrintf (x : float) : option Z := z ← nearest_even x; if decide (sint 64 z) then Some z else None.

(** [ceil] of a finite value, as an integer *)
Definition ceil_Z (x : float) : option Z :=
  match x with
  | S754_zero _ => Some 0
  | S754_finite s m e => Some (if 0 <=? e then cond_Zopp s (Zpos m * 2 ^ e) else - ((- cond_Zopp s (Zpos m)) / 2 ^ (- e)))
  | _ => None
  end.

(** *** The words of a [float] in memory *)

Definition f32_of_bits (w : Z) : float :=
  let s := Z.testbit w 31 in
  let e := (w / 2 ^ 23) mod 256 in
  let m := w mod 2 ^ 23 in
  if e =? 255 then if m =? 0 then S754_infinity s else S754_nan
  else if e =? 0 then match m with Zpos p => S754_finite s p (-149) | _ => S754_zero s end
  else match m + 2 ^ 23 with Zpos p => S754_finite s p (e - 150) | _ => S754_nan end.

Definition bits_of_f32 (x : float) : Z :=
  let sign (s : bool) := if s then 2 ^ 31 else 0 in
  match x with
  | S754_zero s => sign s
  | S754_infinity s => sign s + 255 * 2 ^ 23
  | S754_nan => 0x7FC00000
  | S754_finite s m e =>
      if Zpos m <? 2 ^ 23 then sign s + Zpos m else sign s + (e + 150) * 2 ^ 23 + (Zpos m - 2 ^ 23)
  end.

Example f32_bits : map bits_of_f32 [f32_of_Z 1; f32_of_Z (-2); f32_div (f32_of_Z 1) (f32_of_Z 3); S754_zero true]
  = [0x3F800000; 0xC0000000; 0x3EAAAAAB; 0x80000000].
Proof. vm_compute. reflexivity. Qed.

Example f64_literal_pi : f64_literal 3141592653589793238 1000000000000000000 = S754_finite false 7074237752028440 (-51).
Proof. vm_compute. reflexivity. Qed.

Example f32_third : f32_div (f32_of_Z 24576000) (f32_of_Z 44100) = S754_finite false 9130458 (-14).
Proof. vm_compute. reflexivity. Qed.

Example lrintf_ties : map lrintf [f32_div (f32_of_Z 5) (f32_of_Z 2); f32_div (f32_of_Z (-7)) (f32_of_Z 2); f32_of_Z 12; f32_div (f32_of_Z 8) (f32_of_Z 3)]
  = [Some 2; Some (-4); Some 12; Some 3].
Proof. vm_compute. reflexivity. Qed.

Example ceil_rates : map (fun rate => ceil_Z (f32_div (f32_of_Z rate) (f32_of_Z 3125))) [44100; 48000; 192000; 3125] = [Some 15; Some 16; Some 62; Some 1].
Proof. vm_compute. reflexivity. Qed.

(** ** Facts *)

Lemma to_uint_range w x z : to_uint w x = Some z -> uint w z.
Proof. unfold to_uint. destruct (float_to_Z x) as [y|]; [|done]. cbn. case_decide; congruence. Qed.
(** ** Small integers are exact, and keep their order *)

Lemma digits2_bounds p : 2 ^ (Zpos (digits2_pos p) - 1) <= Zpos p < 2 ^ Zpos (digits2_pos p).
Proof.
  induction p as [p IH|p IH|]; cbn [digits2_pos]; [..|by vm_compute]; rewrite Pos2Z.inj_succ, Z.pow_succ_r by lia;
    replace (Z.succ (Zpos (digits2_pos p)) - 1) with (Z.succ (Zpos (digits2_pos p) - 1)) by lia; rewrite Z.pow_succ_r by lia; lia.
Qed.

Lemma digits2_iter p k : digits2_pos (Pos.iter xO p k) = (digits2_pos p + k)%positive.
Proof. induction k as [|k IH] using Pos.peano_ind; [cbn; lia|]. rewrite Pos.iter_succ. cbn [digits2_pos]. rewrite IH. lia. Qed.

Lemma iter_xO p k : Zpos (Pos.iter xO p k) = Zpos p * 2 ^ Zpos k.
Proof. induction k as [|k IH] using Pos.peano_ind; [cbn; lia|]. rewrite Pos.iter_succ, Pos2Z.inj_succ, Z.pow_succ_r by lia. lia. Qed.

Lemma f64_of_pos p : Zpos p < 2 ^ 52 ->
  exists m, f64_of_Z (Zpos p) = S754_finite false m (Zpos (digits2_pos p) - 53) /\ Zpos m = Zpos p * 2 ^ (53 - Zpos (digits2_pos p)).
Proof.
  intros Hp. pose proof (digits2_bounds p) as [Hl _]. set (d := Zpos (digits2_pos p)) in *.
  assert (Hd : 0 < d <= 52).
  { split; [done|]. destruct (Z.le_gt_cases d 52); [done|]. assert (2 ^ 52 <= 2 ^ (d - 1)) by (apply Z.pow_le_mono_r; lia). lia. }
  destruct (53 - d) as [|k|k] eqn:Hk; [lia| |lia]. exists (Pos.iter xO p k). split; [|by rewrite iter_xO].
  unfold f64_of_Z, binary_normalize, binary_round. fold d. unfold fexp, emin. rewrite Z.max_l by lia.
  unfold shl_align. replace (d + 0 - 53 - 0) with (Z.neg k) by lia. unfold binary_round_aux, shr_fexp.
  cbn [shr_record_of_loc Zdigits2]. rewrite digits2_iter, Pos2Z.inj_add. fold d.
  replace (fexp 53 1024 (d + Zpos k + (d + 0 - 53)) - (d + 0 - 53)) with 0 by (unfold fexp, emin; lia).
  cbn [shr shr_m loc_of_shr_record round_nearest_even Zdigits2]. rewrite digits2_iter, Pos2Z.inj_add. fold d.
  replace (fexp 53 1024 (d + Zpos k + (d + 0 - 53)) - (d + 0 - 53)) with 0 by (unfold fexp, emin; lia).
  cbn [shr shr_m shr_record_of_loc]. replace (d + 0 - 53 <=? 1024 - 53) with true by (symmetry; apply Z.leb_le; lia). f_equal; lia.
Qed.

Lemma f64_of_Z_ltb a b : 0 <= a < b -> b < 2 ^ 52 -> SFltb (f64_of_Z a) (f64_of_Z b) = true.
Proof.
  intros Ha Hb. destruct b as [|q|]; [lia| |lia]. destruct (f64_of_pos q Hb) as (m2 & -> & Hm2).
  destruct a as [|p|]; [done| |lia]. destruct (f64_of_pos p ltac:(lia)) as (m1 & -> & Hm1).
  pose proof (digits2_bounds p) as Hp. pose proof (digits2_bounds q) as Hq.
  set (d1 := Zpos (digits2_pos p)) in *. set (d2 := Zpos (digits2_pos q)) in *.
  unfold SFltb, SFcompare. destruct (Z.compare_spec (d1 - 53) (d2 - 53)) as [He|He|He]; [|done|].
  - change (Pos.compare_cont Eq m1 m2) with (m1 ?= m2)%positive.
    assert (Zpos m1 < Zpos m2). { rewrite Hm1, Hm2. replace (53 - d2) with (53 - d1) by lia. apply Z.mul_lt_mono_pos_r; [|lia].
      assert (d1 <= 53) by (destruct (Z.le_gt_cases d1 53); [done|]; assert (2 ^ 52 <= 2 ^ (d1 - 1)) by (apply Z.pow_le_mono_r; lia); lia).
      apply Z.pow_pos_nonneg; lia. }
    rewrite (proj2 (Pos.compare_lt_iff m1 m2)); [done|lia].
  - assert (2 ^ d2 <= 2 ^ (d1 - 1)) by (apply Z.pow_le_mono_r; lia). lia.
Qed.

Lemma f64_of_Z_nonneg a : 0 <= a < 2 ^ 52 -> SFleb (f64_of_Z 0) (f64_of_Z a) = true.
Proof. intros Ha. destruct a as [|p|]; [done| |lia]. by destruct (f64_of_pos p ltac:(lia)) as (m & -> & _). Qed.
