(* ===== verification/TimestampedBuffer.v ===== *)
(** * TimestampedBuffer: libutil/TimestampedBuffer

    The frame buffer between the isochronous stream and the client: a ring
    buffer of bytes, a frame counter, and a delay locked loop that follows the
    timestamps of the frames.  A failing [assert] and a null event buffer are
    [None].  The DEBUG checks only print. *)
From S2P Require Import Prelude MachineFloat RingBuffer.

Definition FRAMES_PER_PROCESS_BLOCK : Z := 8.

Definition DLL_PI : float := f64_literal 3141592653589793238 (10 ^ 18).
Definition DLL_SQRT2 : float := f64_literal 1414213562373095049 (10 ^ 18).
Definition DLL_2PI : float := f64_mul (f64_of_Z 2) DLL_PI.
Definition DLL_OMEGA : float := f64_mul DLL_2PI (f64_literal 1 100).
Definition DLL_COEFF_B : float := f64_mul DLL_SQRT2 DLL_OMEGA.
Definition DLL_COEFF_C : float := f64_mul DLL_OMEGA DLL_OMEGA.

(** [ffado_timestamp_t] is [double] *)
Definition TIMESTAMP_MAX : float := f64_of_Z 3145728000.
Definition TIMESTAMP_UNSET : float := f64_add TIMESTAMP_MAX (f64_of_Z 1).

(** ** State *)

(** the sizes *)
Record buffer_format := mkFormat {
  bf_cluster_size : Z;
  bf_process_block_size : Z;
  bf_event_size : Z;
  bf_events_per_frame : Z;
  bf_buffer_size : Z;
  bf_bytes_per_frame : Z;
  bf_bytes_per_buffer : Z }.

(** the timestamps and the delay locked loop *)
Record buffer_clock := mkClock {
  bc_wrap_at : float;
  bc_buffer_tail_timestamp : float;
  bc_buffer_next_tail_timestamp : float;
  bc_dll_e2 : float;
  bc_dll_b : float;
  bc_dll_c : float;
  bc_nominal_rate : float;
  bc_current_rate : float;
  bc_update_period : Z }.

Record TimestampedBuffer := mkTimestampedBuffer {
  tb_event_buffer : option (ringbuffer Z);
  tb_process_buffer : option (list Z);
  tb_format : buffer_format;
  tb_enabled : bool;
  tb_transparent : bool;
  tb_clock : buffer_clock;
  tb_framecounter : Z;
  tb_max_abs_diff : Z }.

Definition tb_with_event_buffer (rb : ringbuffer Z) (b : TimestampedBuffer) : TimestampedBuffer :=
  mkTimestampedBuffer (Some rb) (tb_process_buffer b) (tb_format b) (tb_enabled b) (tb_transparent b)
    (tb_clock b) (tb_framecounter b) (tb_max_abs_diff b).

Definition tb_with_process_buffer (p : list Z) (b : TimestampedBuffer) : TimestampedBuffer :=
  mkTimestampedBuffer (tb_event_buffer b) (Some p) (tb_format b) (tb_enabled b) (tb_transparent b)
    (tb_clock b) (tb_framecounter b) (tb_max_abs_diff b).

Definition tb_with_format (f : buffer_format) (b : TimestampedBuffer) : TimestampedBuffer :=
  mkTimestampedBuffer (tb_event_buffer b) (tb_process_buffer b) f (tb_enabled b) (tb_transparent b)
    (tb_clock b) (tb_framecounter b) (tb_max_abs_diff b).

Definition tb_with_clock (c : buffer_clock) (b : TimestampedBuffer) : TimestampedBuffer :=
  mkTimestampedBuffer (tb_event_buffer b) (tb_process_buffer b) (tb_format b) (tb_enabled b) (tb_transparent b)
    c (tb_framecounter b) (tb_max_abs_diff b).

Definition tb_with_framecounter (fc : Z) (b : TimestampedBuffer) : TimestampedBuffer :=
  mkTimestampedBuffer (tb_event_buffer b) (tb_process_buffer b) (tb_format b) (tb_enabled b) (tb_transparent b)
    (tb_clock b) fc (tb_max_abs_diff b).

Definition bc_with_rates (e2 b c nominal current : float) (k : buffer_clock) : buffer_clock :=
  mkClock (bc_wrap_at k) (bc_buffer_tail_timestamp k) (bc_buffer_next_tail_timestamp k) e2 b c nominal current
    (bc_update_period k).

Definition bc_with_timestamps (tail next e2 : float) (k : buffer_clock) : buffer_clock :=
  mkClock (bc_wrap_at k) tail next e2 (bc_dll_b k) (bc_dll_c k) (bc_nominal_rate k) (bc_current_rate k)
    (bc_update_period k).

Definition bc_with_current_rate (r : float) (k : buffer_clock) : buffer_clock :=
  bc_with_rates (bc_dll_e2 k) (bc_dll_b k) (bc_dll_c k) (bc_nominal_rate k) r k.

Definition TimestampedBuffer_new : TimestampedBuffer :=
  mkTimestampedBuffer None None (mkFormat 0 0 0 0 0 0 0) false true
    (mkClock (f64_of_Z 0xFFFFFFFFFFFFFFFF) TIMESTAMP_UNSET TIMESTAMP_UNSET (f64_of_Z 0)
       (f32_of_f64 DLL_COEFF_B) (f32_of_f64 DLL_COEFF_C) (f32_of_Z 0) (f32_of_Z 0) 0)
    0 1536.

Definition setMaxAbsDiff (n : Z) (b : TimestampedBuffer) : TimestampedBuffer :=
  mkTimestampedBuffer (tb_event_buffer b) (tb_process_buffer b) (tb_format b) (tb_enabled b) (tb_transparent b)
    (tb_clock b) (tb_framecounter b) n.

Definition enable (b : TimestampedBuffer) : TimestampedBuffer :=
  mkTimestampedBuffer (tb_event_buffer b) (tb_process_buffer b) (tb_format b) true (tb_transparent b)
    (tb_clock b) (tb_framecounter b) (tb_max_abs_diff b).

Definition disable (b : TimestampedBuffer) : TimestampedBuffer :=
  mkTimestampedBuffer (tb_event_buffer b) (tb_process_buffer b) (tb_format b) false (tb_transparent b)
    (tb_clock b) (tb_framecounter b) (tb_max_abs_diff b).

Definition setTransparent (v : bool) (b : TimestampedBuffer) : TimestampedBuffer :=
  mkTimestampedBuffer (tb_event_buffer b) (tb_process_buffer b) (tb_format b) (tb_enabled b) v
    (tb_clock b) (tb_framecounter b) (tb_max_abs_diff b).

Definition isTransparent (b : TimestampedBuffer) : bool := tb_transparent b.

(** ** Parameters *)

Definition f32_update_period (k : buffer_clock) : float := f32_of_Z (bc_update_period k).

(** [double tupdate = m_nominal_rate * (float)m_update_period]: the product is
    a [float]. *)
Definition tupdate (k : buffer_clock) : float :=
  f64_of_f32 (f32_mul (bc_nominal_rate k) (f32_update_period k)).

Definition getBandwidth (b : TimestampedBuffer) : float :=
  let k := tb_clock b in
  f64_div (f64_of_f32 (bc_dll_b k)) (f64_mul (f64_mul DLL_SQRT2 DLL_2PI) (tupdate k)).

Definition setBandwidth (bw : float) (b : TimestampedBuffer) : bool * TimestampedBuffer :=
  let k := tb_clock b in
  let bw_rel := f64_mul bw (tupdate k) in
  if SFleb (f64_literal 5 10) bw_rel then (false, b)
  else
    let dll_b := f32_of_f64 (f64_mul bw_rel (f64_mul DLL_SQRT2 DLL_2PI)) in
    let dll_c := f32_of_f64 (f64_mul (f64_mul (f64_mul bw_rel bw_rel) DLL_2PI) DLL_2PI) in
    (true, tb_with_clock (bc_with_rates (bc_dll_e2 k) dll_b dll_c (bc_nominal_rate k) (bc_current_rate k) k) b).

Definition setNominalRate (r : float) (b : TimestampedBuffer) : bool * TimestampedBuffer :=
  let k := tb_clock b in
  (true, tb_with_clock (bc_with_rates (bc_dll_e2 k) (bc_dll_b k) (bc_dll_c k) r (bc_current_rate k) k) b).

Definition setUpdatePeriod (n : Z) (b : TimestampedBuffer) : bool * TimestampedBuffer :=
  let k := tb_clock b in
  (true, tb_with_clock (mkClock (bc_wrap_at k) (bc_buffer_tail_timestamp k) (bc_buffer_next_tail_timestamp k)
     (bc_dll_e2 k) (bc_dll_b k) (bc_dll_c k) (bc_nominal_rate k) (bc_current_rate k) n) b).

Definition getUpdatePeriod (b : TimestampedBuffer) : Z := bc_update_period (tb_clock b).

Definition setWrapValue (w : float) (b : TimestampedBuffer) : bool * TimestampedBuffer :=
  let k := tb_clock b in
  (true, tb_with_clock (mkClock w (bc_buffer_tail_timestamp k) (bc_buffer_next_tail_timestamp k)
     (bc_dll_e2 k) (bc_dll_b k) (bc_dll_c k) (bc_nominal_rate k) (bc_current_rate k) (bc_update_period k)) b).

Definition getRate (b : TimestampedBuffer) : float := bc_current_rate (tb_clock b).

Definition setRate (rate : float) (b : TimestampedBuffer) : TimestampedBuffer :=
  let k := tb_clock b in
  let e2 := f64_of_f32 (f32_mul (f32_update_period k) rate) in
  tb_with_clock (bc_with_timestamps (bc_buffer_tail_timestamp k) (f64_add (bc_buffer_tail_timestamp k) e2) e2
    (bc_with_current_rate rate k)) b.

(** [fabsf(m_nominal_rate - rate) > (m_nominal_rate*0.1)]: a [float] against a
    [double]. *)
Definition rate_off_nominal (nominal rate : float) : bool :=
  SFltb (f64_mul (f64_of_f32 nominal) (f64_literal 1 10)) (f64_of_f32 (SFabs (f32_sub nominal rate))).

Definition calculateRate (k : buffer_clock) : float :=
  let diff := f64_sub (bc_buffer_next_tail_timestamp k) (bc_buffer_tail_timestamp k) in
  let max := f64_div (bc_wrap_at k) (f64_of_Z 2) in
  let diff :=
    if SFltb max diff then f64_sub diff (bc_wrap_at k)
    else if SFltb diff (SFopp max) then f64_add diff (bc_wrap_at k) else diff in
  let rate := f32_div (f32_of_f64 diff) (f32_update_period k) in
  if rate_off_nominal (bc_nominal_rate k) rate then bc_nominal_rate k else rate.

(** the two products that every size setter recomputes, in [unsigned int] *)
Definition bf_recompute (event_size events_per_frame buffer_size : Z) (f : buffer_format) : buffer_format :=
  let bytes_per_frame := u32 (event_size * events_per_frame) in
  mkFormat (bf_cluster_size f) (bf_process_block_size f) event_size events_per_frame buffer_size
    bytes_per_frame (u32 (bytes_per_frame * buffer_size)).

Definition setEventSize (s : Z) (b : TimestampedBuffer) : bool * TimestampedBuffer :=
  let f := tb_format b in
  (true, tb_with_format (bf_recompute s (bf_events_per_frame f) (bf_buffer_size f) f) b).

Definition setEventsPerFrame (n : Z) (b : TimestampedBuffer) : bool * TimestampedBuffer :=
  let f := tb_format b in
  (true, tb_with_format (bf_recompute (bf_event_size f) n (bf_buffer_size f) f) b).

Definition setBufferSize (n : Z) (b : TimestampedBuffer) : bool * TimestampedBuffer :=
  let f := tb_format b in
  (true, tb_with_format (bf_recompute (bf_event_size f) (bf_events_per_frame f) n f) b).

Definition getBufferSize (b : TimestampedBuffer) : Z := bf_buffer_size (tb_format b).

Definition getBytesPerFrame (b : TimestampedBuffer) : Z := bf_bytes_per_frame (tb_format b).

Definition getFrameCounter (b : TimestampedBuffer) : Z := tb_framecounter b.

(** the counter as [unsigned int] *)
Definition getBufferFill (b : TimestampedBuffer) : Z := u32 (tb_framecounter b).

Definition getBufferSpace (b : TimestampedBuffer) : Z := u32 (getBufferSize b - u32 (tb_framecounter b)).

(** ** The frame counter and the timestamps *)

Definition resetFrameCounter (b : TimestampedBuffer) : TimestampedBuffer := tb_with_framecounter 0 b.

Definition decrementFrameCounter (nbframes : Z) (b : TimestampedBuffer) : TimestampedBuffer :=
  tb_with_framecounter (s32 (tb_framecounter b - nbframes)) b.

(** one addition or subtraction of the wrap value *)
Definition wrap_timestamp (wrap_at ts : float) : float :=
  if SFleb wrap_at ts then f64_sub ts wrap_at
  else if SFltb ts (f64_of_Z 0) then f64_add ts wrap_at else ts.

(** the update of [m_dll_e2] and of the next timestamp when the tail is set *)
Definition bc_set_tail (ts : float) (k : buffer_clock) : buffer_clock :=
  let e2 := f64_mul (f64_of_Z (bc_update_period k)) (f64_of_f32 (bc_current_rate k)) in
  bc_with_timestamps ts (f64_add ts e2) e2 k.

Definition setBufferTailTimestamp (new_timestamp : float) (b : TimestampedBuffer) : TimestampedBuffer :=
  let k := tb_clock b in
  tb_with_clock (bc_set_tail (wrap_timestamp (bc_wrap_at k) new_timestamp) k) b.

Definition setBufferHeadTimestamp (new_timestamp : float) (b : TimestampedBuffer) : TimestampedBuffer :=
  let k := tb_clock b in
  let ts := f64_add new_timestamp
    (f64_of_f32 (f32_mul (bc_current_rate k) (f32_of_Z (tb_framecounter b)))) in
  tb_with_clock (bc_set_tail (wrap_timestamp (bc_wrap_at k) ts) k) b.

Definition getTimestampFromTail (nframes : Z) (b : TimestampedBuffer) : float :=
  let k := tb_clock b in
  wrap_timestamp (bc_wrap_at k)
    (f64_sub (bc_buffer_tail_timestamp k) (f64_of_f32 (f32_mul (f32_of_Z nframes) (bc_current_rate k)))).

Definition getTimestampFromHead (nframes : Z) (b : TimestampedBuffer) : float :=
  getTimestampFromTail (s32 (tb_framecounter b - nframes)) b.

Definition getBufferHeadTimestamp (b : TimestampedBuffer) : float * Z :=
  (getTimestampFromTail (tb_framecounter b) b, tb_framecounter b).

Definition getBufferTailTimestamp (b : TimestampedBuffer) : float * Z :=
  (getTimestampFromTail 0 b, tb_framecounter b).

(** The error of the loop: the distance of the timestamp from the predicted
    one, corrected when only one of the two has wrapped. *)
Definition dll_error (k : buffer_clock) (new_timestamp : float) : float :=
  let diff := f64_sub new_timestamp (bc_buffer_next_tail_timestamp k) in
  let half := f64_div (bc_wrap_at k) (f64_of_Z 2) in
  if SFltb half diff then f64_sub (bc_wrap_at k) diff
  else if SFltb diff (f64_div (SFopp (bc_wrap_at k)) (f64_of_Z 2)) then f64_add (bc_wrap_at k) diff
  else diff.

(** the second order loop *)
Definition dll_update (new_timestamp : float) (k : buffer_clock) : buffer_clock :=
  let err := dll_error k new_timestamp in
  let tail := bc_buffer_next_tail_timestamp k in
  let next := f64_add (bc_buffer_next_tail_timestamp k)
    (f64_add (f64_mul (f64_of_f32 (bc_dll_b k)) err) (bc_dll_e2 k)) in
  let e2 := f64_add (bc_dll_e2 k) (f64_mul (f64_of_f32 (bc_dll_c k)) err) in
  let next := if SFleb (bc_wrap_at k) next then f64_sub next (bc_wrap_at k) else next in
  let k' := bc_with_timestamps tail next e2 k in
  bc_with_current_rate (calculateRate k') k'.

(** the three assertions at the beginning of [incrementFrameCounter] *)
Definition increment_allowed (nbframes : Z) (new_timestamp : float) (k : buffer_clock) : bool :=
  SFltb new_timestamp (bc_wrap_at k) && SFleb (f64_of_Z 0) new_timestamp && (nbframes =? bc_update_period k).

Definition incrementFrameCounter (nbframes : Z) (new_timestamp : float) (b : TimestampedBuffer) : option TimestampedBuffer :=
  if negb (increment_allowed nbframes new_timestamp (tb_clock b)) then None
  else
    let b1 := tb_with_framecounter (s32 (tb_framecounter b + nbframes)) b in
    Some (tb_with_clock (dll_update new_timestamp (tb_clock b1)) b1).

(** ** Allocation and clearing *)

(** [m_current_rate = m_nominal_rate; m_dll_e2 = m_current_rate * (float)m_update_period;] *)
Definition bc_reset_rate (k : buffer_clock) : buffer_clock :=
  bc_with_rates (f64_of_f32 (f32_mul (bc_nominal_rate k) (f32_update_period k)))
    (bc_dll_b k) (bc_dll_c k) (bc_nominal_rate k) (bc_nominal_rate k) k.

Definition clearBuffer (b : TimestampedBuffer) : option (bool * TimestampedBuffer) :=
  rb ← tb_event_buffer b;
  let b1 := resetFrameCounter (tb_with_event_buffer (ffado_ringbuffer_reset rb) b) in
  Some (true, tb_with_clock (bc_reset_rate (tb_clock b1)) b1).

Section allocation.
(** The memory that [malloc] returns for a ring buffer. *)
Variable block : Z -> list Z.

Definition resizeBuffer (new_size : Z) (b : TimestampedBuffer) : option (bool * TimestampedBuffer) :=
  let f := tb_format b in
  if (new_size =? 0) || (bf_events_per_frame f =? 0) || (bf_event_size f =? 0) then None
  else
    rb ← ffado_ringbuffer_create block (u32 (u32 (bf_events_per_frame f * new_size) * bf_event_size f));
    let b1 := resetFrameCounter (tb_with_event_buffer rb b) in
    let b2 := tb_with_clock (bc_reset_rate (tb_clock b1)) b1 in
    Some (true, tb_with_format (mkFormat (bf_cluster_size f) (bf_process_block_size f) (bf_event_size f)
      (bf_events_per_frame f) new_size (bf_bytes_per_frame f) (bf_bytes_per_buffer f)) b2).

Definition prepare (b : TimestampedBuffer) : option (bool * TimestampedBuffer) :=
  let f := tb_format b in
  let k := tb_clock b in
  if (bf_buffer_size f =? 0) || (bf_events_per_frame f =? 0) || (bf_event_size f =? 0)
     || SFeqb (bc_nominal_rate k) (f64_of_Z 0) || (bc_update_period k =? 0) then None
  else
    '(ok, b1) ← resizeBuffer (bf_buffer_size f) (tb_with_clock (bc_with_current_rate (bc_nominal_rate k) k) b);
    if negb ok then Some (false, b1)
    else
      let cluster_size := u32 (bf_events_per_frame f * bf_event_size f) in
      let process_block_size := u32 (cluster_size * FRAMES_PER_PROCESS_BLOCK) in
      let f1 := tb_format b1 in
      let b2 := tb_with_process_buffer (replicate (Z.to_nat process_block_size) 0)
        (tb_with_format (mkFormat cluster_size process_block_size (bf_event_size f1) (bf_events_per_frame f1)
           (bf_buffer_size f1) (bf_bytes_per_frame f1) (bf_bytes_per_buffer f1)) b1) in
      let k2 := tb_clock b2 in
      Some (true, tb_with_clock (bc_with_timestamps TIMESTAMP_UNSET TIMESTAMP_UNSET
        (f64_of_f32 (f32_mul (bc_nominal_rate k2) (f32_update_period k2))) k2) b2).
End allocation.

(** ** Copying frames *)

Definition tb_bytes (nframes : Z) (b : TimestampedBuffer) : Z :=
  u32 (u32 (nframes * bf_event_size (tb_format b)) * bf_events_per_frame (tb_format b)).

(** the ring buffer write of a block of frames; [false] when it does not fit *)
Definition tb_write (nframes : Z) (data : list Z) (b : TimestampedBuffer) : option (bool * TimestampedBuffer) :=
  rb ← tb_event_buffer b;
  '(written, rb') ← ffado_ringbuffer_write data (tb_bytes nframes b) rb;
  Some (negb (written <? tb_bytes nframes b), tb_with_event_buffer rb' b).

Definition writeDummyFrame (b : TimestampedBuffer) : option (bool * TimestampedBuffer) :=
  let write_size := u32 (bf_event_size (tb_format b) * bf_events_per_frame (tb_format b)) in
  rb ← tb_event_buffer b;
  '(written, rb') ← ffado_ringbuffer_write (replicate (Z.to_nat write_size) 0) write_size rb;
  let b1 := tb_with_event_buffer rb' b in
  if written <? write_size then Some (false, b1)
  else Some (true, tb_with_framecounter (s32 (tb_framecounter b1 + 1)) b1).

(** both timestamps have been set *)
Definition timestamps_set (k : buffer_clock) : bool :=
  SFltb (bc_buffer_tail_timestamp k) TIMESTAMP_MAX && SFltb (bc_buffer_next_tail_timestamp k) TIMESTAMP_MAX.

Definition writeFrames (nframes : Z) (data : list Z) (ts : float) (b : TimestampedBuffer)
  : option (bool * TimestampedBuffer) :=
  if tb_transparent b then
    b1 ← (if timestamps_set (tb_clock b)
          then b' ← incrementFrameCounter nframes ts b; Some (decrementFrameCounter nframes b')
          else Some b);
    Some (true, setBufferTailTimestamp ts b1)
  else
    '(ok, b1) ← tb_write nframes data b;
    if negb ok then Some (false, b1)
    else b2 ← incrementFrameCounter nframes ts b1; Some (true, b2).

Definition preloadFrames (nframes : Z) (data : list Z) (keep_head_ts : bool) (b : TimestampedBuffer)
  : option (bool * TimestampedBuffer) :=
  '(ok, b1) ← tb_write nframes data b;
  if negb ok then Some (false, b1)
  else
    let ts := if keep_head_ts then fst (getBufferHeadTimestamp b1) else fst (getBufferTailTimestamp b1) in
    let b2 := tb_with_framecounter (s32 (tb_framecounter b1 + nframes)) b1 in
    Some (true, if keep_head_ts then setBufferHeadTimestamp ts b2 else setBufferTailTimestamp ts b2).

Definition dropFrames (nframes : Z) (b : TimestampedBuffer) : option (bool * TimestampedBuffer) :=
  rb ← tb_event_buffer b;
  Some (true, decrementFrameCounter nframes
    (tb_with_event_buffer (ffado_ringbuffer_read_advance (tb_bytes nframes b) rb) b)).

(** The result carries the bytes that were written to [data]: none in
    transparent mode. *)
Definition readFrames (nframes : Z) (b : TimestampedBuffer) : option (bool * list Z * TimestampedBuffer) :=
  if tb_transparent b then Some (true, [], b)
  else
    rb ← tb_event_buffer b;
    '(n, data, rb') ← ffado_ringbuffer_read (tb_bytes nframes b) rb;
    let b1 := tb_with_event_buffer rb' b in
    if n <? tb_bytes nframes b then Some (false, data, b1)
    else Some (true, data, decrementFrameCounter nframes b1).

(** ** Block processing

    The client is called on blocks of frames, directly on the memory of the
    ring buffer where that is possible.  Its results are [bool]s, and the
    tests [xrun < 0] on them are never true. *)
Section block_processing.
Context {E : Type}.

(** [processWriteBlock]: the old content of the region, the number of frames,
    their offset; the result is the new content. *)
Variable processWriteBlock : list Z -> Z -> Z -> E -> option (bool * list Z * E).
Variable processReadBlock : list Z -> Z -> Z -> E -> option (bool * E).

(** the frames that are done, of [nbframes], with [bytes] left *)
Definition block_offset (nbframes bytes : Z) (b : TimestampedBuffer) : Z :=
  u32 (u32 (nbframes * bf_cluster_size (tb_format b)) - bytes) / bf_cluster_size (tb_format b).

(** the size of a direct access: all of it, or whole process blocks *)
Definition block_bytes (bytes len : Z) (b : TimestampedBuffer) : Z :=
  if len <? bytes then s32 (len - len mod bf_process_block_size (tb_format b)) else s32 bytes.

Definition processWrite_step (nbframes bytes2write : Z) (b : TimestampedBuffer) (e : E)
  : option (option Z * TimestampedBuffer * E) :=
  let f := tb_format b in
  let offset := block_offset nbframes bytes2write b in
  rb ← tb_event_buffer b;
  let '((p0, n0), (_, n1)) := ffado_ringbuffer_get_write_vector rb in
  if u64 (n0 + n1) <? bf_process_block_size f then Some (None, b, e)
  else if n0 <? bf_process_block_size f then
    process_buffer ← tb_process_buffer b;
    '(_, data, e1) ← processWriteBlock process_buffer FRAMES_PER_PROCESS_BLOCK offset e;
    '(_, rb1) ← ffado_ringbuffer_write data (bf_process_block_size f) rb;
    Some (Some (u32 (bytes2write - bf_process_block_size f)),
          tb_with_event_buffer rb1 (tb_with_process_buffer data b), e1)
  else
    let byteswritten := block_bytes bytes2write n0 b in
    region ← memcpy_from (rb_buf rb) p0 byteswritten;
    '(_, data, e1) ← processWriteBlock region (byteswritten / bf_cluster_size f) offset e;
    buf ← memcpy_to (rb_buf rb) p0 data;
    let rb1 := ffado_ringbuffer_write_advance byteswritten (rb_with_write buf (rb_write_ptr rb) rb) in
    Some (Some (u32 (bytes2write - byteswritten)), tb_with_event_buffer rb1 b, e1).

Definition processRead_step (nbframes bytes2read : Z) (b : TimestampedBuffer) (e : E)
  : option (option Z * TimestampedBuffer * E) :=
  let f := tb_format b in
  let offset := block_offset nbframes bytes2read b in
  rb ← tb_event_buffer b;
  let '((p0, n0), (_, n1)) := ffado_ringbuffer_get_read_vector rb in
  if u64 (n0 + n1) <? bf_process_block_size f then Some (None, b, e)
  else if n0 <? bf_process_block_size f then
    '(_, data, rb1) ← ffado_ringbuffer_read (bf_process_block_size f) rb;
    process_buffer ← tb_process_buffer b;
    process_buffer1 ← memcpy_to process_buffer 0 data;
    '(_, e1) ← processReadBlock process_buffer1 FRAMES_PER_PROCESS_BLOCK offset e;
    Some (Some (u32 (bytes2read - bf_process_block_size f)),
          tb_with_event_buffer rb1 (tb_with_process_buffer process_buffer1 b), e1)
  else
    let bytesread := block_bytes bytes2read n0 b in
    data ← memcpy_from (rb_buf rb) p0 bytesread;
    '(_, e1) ← processReadBlock data (bytesread / bf_cluster_size f) offset e;
    Some (Some (u32 (bytes2read - bytesread)), tb_with_event_buffer (ffado_ringbuffer_read_advance bytesread rb) b, e1).

(** The loop around a step; the assertion at its end; a division by a zero
    size is undefined. *)
Fixpoint process_loop (step : Z -> TimestampedBuffer -> E -> option (option Z * TimestampedBuffer * E))
  (fuel : nat) (bytes : Z) (b : TimestampedBuffer) (e : E) : option (bool * TimestampedBuffer * E) :=
  match fuel with
  | O => None
  | S fuel' =>
      if bytes <=? 0 then Some (true, b, e)
      else if (bf_cluster_size (tb_format b) =? 0) || (bf_process_block_size (tb_format b) =? 0) then None
      else
        '(remaining, b1, e1) ← step bytes b e;
        match remaining with
        | None => Some (false, b1, e1)
        | Some bytes' =>
            if negb (bytes' mod bf_process_block_size (tb_format b1) =? 0) then None
            else process_loop step fuel' bytes' b1 e1
        end
  end.

Definition block_total (nbframes : Z) (b : TimestampedBuffer) : Z :=
  u32 (u32 (nbframes * bf_events_per_frame (tb_format b)) * bf_event_size (tb_format b)).

Definition blockProcessWriteFrames (nbframes : Z) (ts : float) (b : TimestampedBuffer) (e : E)
  : option (bool * TimestampedBuffer * E) :=
  let total := block_total nbframes b in
  '(ok, b1, e1) ← process_loop (processWrite_step nbframes) (S (Z.to_nat total)) total b e;
  if negb ok then Some (false, b1, e1)
  else b2 ← incrementFrameCounter nbframes ts b1; Some (true, b2, e1).

Definition blockProcessReadFrames (nbframes : Z) (b : TimestampedBuffer) (e : E)
  : option (bool * TimestampedBuffer * E) :=
  let total := block_total nbframes b in
  '(ok, b1, e1) ← process_loop (processRead_step nbframes) (S (Z.to_nat total)) total b e;
  if negb ok then Some (false, b1, e1)
  else Some (true, decrementFrameCounter nbframes b1, e1).

End block_processing.

(** ** Well-formed buffers

    The state after [prepare]: sizes that do not overflow, both memory blocks
    allocated, and a ring buffer that holds whole frames, as many as the
    counter says. *)
Definition tb_cluster (b : TimestampedBuffer) : Z := bf_cluster_size (tb_format b).

Record tb_ok (b : TimestampedBuffer) (rb : ringbuffer Z) : Prop := {
  ok_event_buffer : tb_event_buffer b = Some rb;
  ok_rb : rb_wf rb;
  ok_event_size : 0 < bf_event_size (tb_format b);
  ok_events_per_frame : 0 < bf_events_per_frame (tb_format b);
  ok_cluster : tb_cluster b = bf_events_per_frame (tb_format b) * bf_event_size (tb_format b);
  ok_block : bf_process_block_size (tb_format b) = 8 * tb_cluster b;
  ok_block_small : 8 * tb_cluster b < 2 ^ 31;
  ok_process_buffer : exists p, tb_process_buffer b = Some p /\ Z.of_nat (length p) = 8 * tb_cluster b }.

Definition tb_wf (b : TimestampedBuffer) (rb : ringbuffer Z) : Prop :=
  tb_ok b rb /\ 0 <= tb_framecounter b < 2 ^ 31 /\ rb_fill rb = tb_framecounter b * tb_cluster b.

(** The two states differ in the contents of the memory blocks only. *)
Definition tb_same (b b1 : TimestampedBuffer) : Prop :=
  tb_format b1 = tb_format b /\ tb_clock b1 = tb_clock b /\ tb_framecounter b1 = tb_framecounter b /\
  tb_transparent b1 = tb_transparent b /\ tb_enabled b1 = tb_enabled b.

Lemma ok_cluster_pos b rb : tb_ok b rb -> 0 < tb_cluster b.
Proof. intros H. rewrite (ok_cluster _ _ H). pose proof (ok_event_size _ _ H). pose proof (ok_events_per_frame _ _ H). nia. Qed.

(** Amounts of frames that fit do not overflow. *)
Lemma ok_bytes b rb n :
  tb_ok b rb -> 0 <= n -> n * tb_cluster b < 2 ^ 31 ->
  tb_bytes n b = n * tb_cluster b /\ block_total n b = n * tb_cluster b.
Proof.
  intros H Hn Hs. pose proof (ok_event_size _ _ H) as He. pose proof (ok_events_per_frame _ _ H) as Hf.
  pose proof (ok_cluster _ _ H) as Hc. rewrite Hc in *. unfold tb_bytes, block_total.
  assert (n * bf_event_size (tb_format b) < 2 ^ 31) by nia.
  assert (n * bf_events_per_frame (tb_format b) < 2 ^ 31) by nia.
  assert (0 <= n * bf_event_size (tb_format b)) by nia.
  assert (0 <= n * bf_events_per_frame (tb_format b)) by nia.
  assert (0 <= n * (bf_events_per_frame (tb_format b) * bf_event_size (tb_format b))) by nia.
  rewrite (wrapU_small 32 (n * bf_event_size _)), (wrapU_small 32 (n * bf_events_per_frame _)) by width_lia.
  assert (forall x, x = n * (bf_events_per_frame (tb_format b) * bf_event_size (tb_format b)) -> u32 x = x) as Hw
    by (intros x ->; apply wrapU_small; width_lia).
  split; rewrite Hw; ring.
Qed.

Lemma block_offset_eq b rb nb j :
  tb_ok b rb -> 0 <= j <= nb -> nb * tb_cluster b < 2 ^ 31 ->
  block_offset nb (j * tb_cluster b) b = nb - j.
Proof.
  intros H Hj Hs. pose proof (ok_cluster_pos _ _ H) as Hc. unfold block_offset. fold (tb_cluster b).
  assert (0 <= (nb - j) * tb_cluster b <= nb * tb_cluster b) by nia.
  rewrite (wrapU_small 32 (nb * _)) by width_lia.
  replace (nb * tb_cluster b - j * tb_cluster b) with ((nb - j) * tb_cluster b) by ring.
  rewrite wrapU_small by width_lia. apply Z.div_mul. lia.
Qed.

(** a direct access covers whole process blocks, at least one and at most all *)
Lemma block_bytes_eq b rb j len :
  tb_ok b rb -> 1 <= j -> 0 <= len < 2 ^ 31 -> 8 * tb_cluster b <= len -> j * (8 * tb_cluster b) < 2 ^ 31 ->
  exists m, 1 <= m <= j /\ block_bytes (j * (8 * tb_cluster b)) len b = m * (8 * tb_cluster b) /\
    m * (8 * tb_cluster b) <= len.
Proof.
  intros H Hj Hl Hb Hs. pose proof (ok_cluster_pos _ _ H) as Hc. unfold block_bytes.
  rewrite (ok_block _ _ H). set (bs := 8 * tb_cluster b) in *. destruct (Z.ltb_spec len (j * bs)).
  - pose proof (Z.div_mod len bs) as Hd. pose proof (Z.mod_pos_bound len bs) as Hm.
    exists (len / bs). rewrite wrapS_small by width_lia. split; [|lia].
    split; [apply Z.div_le_lower_bound; lia|]. apply Z.lt_succ_r, Z.div_lt_upper_bound; lia.
  - exists j. rewrite wrapS_small by width_lia. lia.
Qed.

Lemma rb_capacity_small (rb : ringbuffer Z) : rb_wf rb -> rb_capacity rb < 2 ^ 31.
Proof. intros H. pose proof (rb_size_bound rb H). unfold rb_capacity. lia. Qed.

Lemma tb_ok_with b rb rb1 p :
  tb_ok b rb -> rb_wf rb1 -> Z.of_nat (length p) = 8 * tb_cluster b ->
  tb_ok (tb_with_event_buffer rb1 b) rb1 /\
  tb_ok (tb_with_event_buffer rb1 (tb_with_process_buffer p b)) rb1.
Proof. intros [] Hwf Hp. split; (split; [done..|]); [done|by exists p]. Qed.

(** ** Block writes *)

Section block_spec.
Context {E : Type}.
Variable processWriteBlock : list Z -> Z -> Z -> E -> option (bool * list Z * E).
Variable processReadBlock : list Z -> Z -> Z -> E -> option (bool * E).

(** The client returns, and stays in its region. *)
Hypothesis write_client : forall region n off e,
  exists ok data e1, processWriteBlock region n off e = Some (ok, data, e1) /\ length data = length region.
Hypothesis read_client : forall data n off e, exists ok e1, processReadBlock data n off e = Some (ok, e1).

(** [write_calls c off e data end e1]: the client is called on consecutive
    blocks of a multiple of eight frames (of [c] bytes each) from frame [off]
    to frame [end]; [data] is what it wrote, in order. *)
Inductive write_calls (c : Z) : Z -> E -> list Z -> Z -> E -> Prop :=
| write_done off e : write_calls c off e [] off e
| write_call off e m region ok data e1 rest end_ e2 :
    0 < m -> Z.of_nat (length region) = 8 * m * c ->
    processWriteBlock region (8 * m) off e = Some (ok, data, e1) ->
    write_calls c (off + 8 * m) e1 rest end_ e2 ->
    write_calls c off e (data ++ rest) end_ e2.

Inductive read_calls (c : Z) : Z -> E -> list Z -> Z -> E -> Prop :=
| read_done off e : read_calls c off e [] off e
| read_call off e m ok data e1 rest end_ e2 :
    0 < m -> Z.of_nat (length data) = 8 * m * c ->
    processReadBlock data (8 * m) off e = Some (ok, e1) ->
    read_calls c (off + 8 * m) e1 rest end_ e2 ->
    read_calls c off e (data ++ rest) end_ e2.

Lemma processWrite_step_spec nb b rb e j :
  tb_ok b rb -> 1 <= j -> 8 * j <= nb -> nb * tb_cluster b < 2 ^ 31 ->
  rb_fill rb + j * (8 * tb_cluster b) <= rb_capacity rb ->
  exists m region ok data e1 b1 rb1,
    1 <= m <= j /\ Z.of_nat (length region) = 8 * m * tb_cluster b /\
    processWriteBlock region (8 * m) (nb - 8 * j) e = Some (ok, data, e1) /\
    processWrite_step processWriteBlock nb (j * (8 * tb_cluster b)) b e
      = Some (Some ((j - m) * (8 * tb_cluster b)), b1, e1) /\
    tb_ok b1 rb1 /\ tb_same b b1 /\ rb_content rb1 = rb_content rb ++ data /\
    rb_capacity rb1 = rb_capacity rb /\ length data = length region.
Proof.
  intros H Hj Hnb Hs Hfit. pose proof (ok_cluster_pos _ _ H) as Hc. pose proof (ok_rb _ _ H) as Hwf.
  pose proof (rb_capacity_small rb Hwf) as Hcap. pose proof (rb_fill_bound rb Hwf) as Hfb.
  assert (Hbs : 8 * tb_cluster b <= j * (8 * tb_cluster b)) by nia.
  unfold processWrite_step. rewrite (ok_event_buffer _ _ H). cbn [mbind option_bind].
  replace (block_offset nb (j * (8 * tb_cluster b)) b) with (nb - 8 * j)
    by (rewrite <- (block_offset_eq b rb nb (8 * j)) by (done || lia); f_equal; ring).
  pose proof (ringbuffer_write_vector_spec rb Hwf) as Hv.
  destruct (ffado_ringbuffer_get_write_vector rb) as [[p0 n0] [p1 n1]].
  destruct Hv as (Hsum & Hn0 & Hn1 & -> & Hone & Hend & _).
  rewrite (ok_block _ _ H), rb_u64_small by lia.
  destruct (Z.ltb_spec (n0 + n1) (8 * tb_cluster b)); [lia|].
  destruct (Z.ltb_spec n0 (8 * tb_cluster b)) as [Hlt|Hge].
  - destruct (ok_process_buffer _ _ H) as (p & Hp & Hpl). rewrite Hp. cbn [mbind option_bind].
    destruct (write_client p FRAMES_PER_PROCESS_BLOCK (nb - 8 * j) e) as (ok & data & e1 & Hcall & Hdl).
    rewrite Hcall. cbn [mbind option_bind].
    destruct (ringbuffer_write_spec rb data (8 * tb_cluster b) Hwf) as (rb1 & Hwr & Hwf1 & Hc1 & Hs1); [lia|lia|].
    rewrite Hwr. cbn [mbind option_bind].
    assert (Ham : rb_amount (rb_capacity rb - rb_fill rb) (8 * tb_cluster b) = 8 * tb_cluster b)
      by (unfold rb_amount; case_match; lia).
    rewrite Ham, take_ge in Hc1 by lia.
    destruct (tb_ok_with b rb rb1 data H Hwf1) as [_ Hok1]; [lia|].
    exists 1, p, ok, data, e1. eexists _, rb1. rewrite wrapU_small by width_lia.
    split; [lia|]. split; [lia|]. split; [done|]. split; [do 4 f_equal; ring|].
    split; [done|]. split; [done|]. split; [done|]. split; [unfold rb_capacity; lia|done].
  - destruct (block_bytes_eq b rb j n0 H) as (m & Hm & -> & Hmn); [lia..|].
    assert (Hbuf : Z.of_nat (length (rb_buf rb)) = rb_size rb) by (by destruct Hwf as (_ & _ & ? & _)).
    assert (Hwp : 0 <= rb_write_ptr rb) by (by destruct Hwf as (_ & _ & _ & [? _] & _)).
    unfold memcpy_from. rewrite decide_True by nia. cbn [mbind option_bind].
    set (region := take (Z.to_nat (m * (8 * tb_cluster b))) (drop (Z.to_nat (rb_write_ptr rb)) (rb_buf rb))).
    assert (Hrl : Z.of_nat (length region) = m * (8 * tb_cluster b))
      by (unfold region; rewrite length_take, length_drop; nia).
    fold (tb_cluster b). replace (m * (8 * tb_cluster b) / tb_cluster b) with (8 * m)
      by (rewrite Z.mul_assoc, Z.div_mul by lia; ring).
    destruct (write_client region (8 * m) (nb - 8 * j) e) as (ok & data & e1 & Hcall & Hdl).
    rewrite Hcall. cbn [mbind option_bind].
    destruct (ringbuffer_write_advance_spec rb data Hwf) as (buf & Hmc & Hadv); [nia..|].
    rewrite Hmc. cbn [mbind option_bind]. rewrite Hdl, Hrl in Hadv. destruct Hadv as (Hwf1 & Hc1 & Hs1).
    destruct (ok_process_buffer _ _ H) as (p & Hp & Hpl).
    destruct (tb_ok_with b rb _ p H Hwf1 Hpl) as [Hok1 _].
    exists m, region, ok, data, e1. eexists _, _.
    split; [lia|]. split; [lia|]. split; [done|]. split.
    { rewrite wrapU_small by (split; nia). do 4 f_equal. ring. }
    split; [exact Hok1|]. split; [done|]. split; [done|]. split; [unfold rb_capacity; lia|done].
Qed.

Lemma processRead_step_spec nb b rb e j :
  tb_ok b rb -> 1 <= j -> 8 * j <= nb -> nb * tb_cluster b < 2 ^ 31 ->
  j * (8 * tb_cluster b) <= rb_fill rb ->
  exists m ok data e1 b1 rb1,
    1 <= m <= j /\ Z.of_nat (length data) = 8 * m * tb_cluster b /\
    processReadBlock data (8 * m) (nb - 8 * j) e = Some (ok, e1) /\
    processRead_step processReadBlock nb (j * (8 * tb_cluster b)) b e
      = Some (Some ((j - m) * (8 * tb_cluster b)), b1, e1) /\
    tb_ok b1 rb1 /\ tb_same b b1 /\ rb_content rb = data ++ rb_content rb1.
Proof.
  intros H Hj Hnb Hs Hfit. pose proof (ok_cluster_pos _ _ H) as Hc. pose proof (ok_rb _ _ H) as Hwf.
  pose proof (rb_capacity_small rb Hwf) as Hcap. pose proof (rb_fill_bound rb Hwf) as Hfb.
  assert (Hbs : 8 * tb_cluster b <= j * (8 * tb_cluster b)) by nia.
  unfold processRead_step. rewrite (ok_event_buffer _ _ H). cbn [mbind option_bind].
  replace (block_offset nb (j * (8 * tb_cluster b)) b) with (nb - 8 * j)
    by (rewrite <- (block_offset_eq b rb nb (8 * j)) by (done || lia); f_equal; ring).
  pose proof (ringbuffer_read_vector_spec rb Hwf) as Hv.
  assert (Hp0 : fst (fst (ffado_ringbuffer_get_read_vector rb)) = rb_read_ptr rb)
    by (unfold ffado_ringbuffer_get_read_vector, rb_vector; cbv zeta; by destruct (_ <? _)).
  destruct (ffado_ringbuffer_get_read_vector rb) as [[p0 n0] [p1 n1]]. cbn [fst] in Hp0. subst p0.
  destruct Hv as (Hsum & Hn0 & Hn1 & Hm0 & Hm1).
  destruct (ok_process_buffer _ _ H) as (p & Hp & Hpl).
  assert (Hlc : Z.of_nat (length (rb_content rb)) = rb_fill rb) by done.
  rewrite (ok_block _ _ H), rb_u64_small by lia.
  destruct (Z.ltb_spec (n0 + n1) (8 * tb_cluster b)); [lia|].
  destruct (Z.ltb_spec n0 (8 * tb_cluster b)) as [Hlt|Hge].
  - destruct (ringbuffer_read_spec rb (8 * tb_cluster b) Hwf) as (rb1 & Hrd & Hwf1 & Hc1 & Hs1); [lia|].
    rewrite Hrd. cbn [mbind option_bind]. set (data := take (Z.to_nat (8 * tb_cluster b)) (rb_content rb)).
    rewrite Hp. cbn [mbind option_bind].
    assert (Hdl : Z.of_nat (length data) = 8 * tb_cluster b) by (unfold data; rewrite length_take; lia).
    assert (Hmc : memcpy_to p 0 data = Some data).
    { unfold memcpy_to. rewrite decide_True by lia. cbn [Z.to_nat take app]. f_equal.
      rewrite drop_ge by lia. apply app_nil_r. }
    rewrite Hmc. cbn [mbind option_bind].
    destruct (read_client data FRAMES_PER_PROCESS_BLOCK (nb - 8 * j) e) as (ok & e1 & Hcall).
    rewrite Hcall. cbn [mbind option_bind].
    destruct (tb_ok_with b rb rb1 data H Hwf1 Hdl) as [_ Hok1].
    exists 1, ok, data, e1. eexists _, rb1. rewrite wrapU_small by width_lia.
    split; [lia|]. split; [lia|]. split; [done|]. split; [do 4 f_equal; ring|].
    split; [done|]. split; [done|]. rewrite Hc1. unfold data. by rewrite take_drop.
  - destruct (block_bytes_eq b rb j n0 H) as (m & Hm & -> & Hmn); [lia..|].
    assert (Hrp : rb_read_ptr rb + n0 <= rb_size rb).
    { unfold memcpy_from in Hm0. case_decide; [|done]. destruct Hwf as (_ & _ & ? & _). lia. }
    rewrite read_segment by (done || nia). cbn [mbind option_bind].
    set (data := take (Z.to_nat (m * (8 * tb_cluster b))) (rb_content rb)).
    assert (Hdl : Z.of_nat (length data) = m * (8 * tb_cluster b)) by (unfold data; rewrite length_take; nia).
    fold (tb_cluster b). replace (m * (8 * tb_cluster b) / tb_cluster b) with (8 * m)
      by (rewrite Z.mul_assoc, Z.div_mul by lia; ring).
    destruct (read_client data (8 * m) (nb - 8 * j) e) as (ok & e1 & Hcall).
    rewrite Hcall. cbn [mbind option_bind].
    destruct (ringbuffer_read_advance_spec rb (m * (8 * tb_cluster b)) Hwf) as [Hwf1 Hc1]; [nia|].
    destruct (tb_ok_with b rb _ p H Hwf1 Hpl) as [Hok1 _].
    exists m, ok, data, e1. eexists _, _. split; [lia|]. split; [lia|]. split; [done|]. split.
    { rewrite wrapU_small by (split; nia). do 4 f_equal. ring. }
    split; [exact Hok1|]. split; [done|]. rewrite Hc1. unfold data. by rewrite take_drop.
Qed.

(** The loop: it runs at most once per process block. *)
Lemma process_write_loop nb fuel : forall b rb e j,
  tb_ok b rb -> 0 <= j -> 8 * j <= nb -> nb * tb_cluster b < 2 ^ 31 ->
  rb_fill rb + j * (8 * tb_cluster b) <= rb_capacity rb -> j < Z.of_nat fuel ->
  exists b1 rb1 data e1,
    process_loop (processWrite_step processWriteBlock nb) fuel (j * (8 * tb_cluster b)) b e = Some (true, b1, e1) /\
    tb_ok b1 rb1 /\ tb_same b b1 /\ rb_content rb1 = rb_content rb ++ data /\ rb_capacity rb1 = rb_capacity rb /\
    Z.of_nat (length data) = j * (8 * tb_cluster b) /\
    write_calls (tb_cluster b) (nb - 8 * j) e data nb e1.
Proof.
  induction fuel as [|fuel IH]; intros b rb e j H Hj Hnb Hs Hfit Hfuel; [lia|].
  pose proof (ok_cluster_pos _ _ H) as Hc. cbn [process_loop].
  destruct (Z.leb_spec (j * (8 * tb_cluster b)) 0) as [Hz|Hz].
  - assert (j = 0) as -> by nia. exists b, rb, [], e. rewrite app_nil_r, Z.sub_0_r. do 6 (split; [done|]). constructor.
  - fold (tb_cluster b). rewrite (proj2 (Z.eqb_neq (tb_cluster b) 0)) by lia.
    rewrite (ok_block _ _ H), (proj2 (Z.eqb_neq (8 * tb_cluster b) 0)) by lia. cbn [orb].
    destruct (processWrite_step_spec nb b rb e j H) as
      (m & region & ok & data & e1 & b1 & rb1 & Hm & Hrl & Hcall & Hst & Hok1 & Hsame & Hc1 & Hcap & Hdl); [nia|done..|].
    rewrite Hst. cbn [mbind option_bind]. destruct Hsame as (Hf & Hk & Hfc & Ht & Hen).
    rewrite Hf, (ok_block _ _ H), Z.mod_mul by lia. cbn [Z.eqb negb].
    assert (Hcl : tb_cluster b1 = tb_cluster b) by (unfold tb_cluster; by rewrite Hf).
    assert (Hfill : rb_fill rb1 = rb_fill rb + m * (8 * tb_cluster b))
      by (unfold rb_fill; rewrite Hc1, length_app; nia).
    destruct (IH b1 rb1 e1 (j - m) Hok1) as (b2 & rb2 & data2 & e2 & Hl & Hok2 & Hsame2 & Hc2 & Hcap2 & Hl2 & Hw2);
      rewrite ?Hcl; [lia|lia|done|lia|lia|]. rewrite Hcl in *.
    exists b2, rb2, (data ++ data2), e2. split; [done|]. split; [done|].
    split. { destruct Hsame2 as (Ha1 & Ha2 & Ha3 & Ha4 & Ha5). by split_and!; congruence. }
    split; [by rewrite Hc2, Hc1, (assoc_L (++))|]. split; [congruence|].
    split; [rewrite length_app; lia|]. eapply (write_call _ _ _ m); [lia|exact Hrl|exact Hcall|].
    by replace (nb - 8 * j + 8 * m) with (nb - 8 * (j - m)) by lia.
Qed.

Lemma process_read_loop nb fuel : forall b rb e j,
  tb_ok b rb -> 0 <= j -> 8 * j <= nb -> nb * tb_cluster b < 2 ^ 31 ->
  j * (8 * tb_cluster b) <= rb_fill rb -> j < Z.of_nat fuel ->
  exists b1 rb1 data e1,
    process_loop (processRead_step processReadBlock nb) fuel (j * (8 * tb_cluster b)) b e = Some (true, b1, e1) /\
    tb_ok b1 rb1 /\ tb_same b b1 /\ rb_content rb = data ++ rb_content rb1 /\
    Z.of_nat (length data) = j * (8 * tb_cluster b) /\
    read_calls (tb_cluster b) (nb - 8 * j) e data nb e1.
Proof.
  induction fuel as [|fuel IH]; intros b rb e j H Hj Hnb Hs Hfit Hfuel; [lia|].
  pose proof (ok_cluster_pos _ _ H) as Hc. cbn [process_loop].
  destruct (Z.leb_spec (j * (8 * tb_cluster b)) 0) as [Hz|Hz].
  - assert (j = 0) as -> by nia. exists b, rb, [], e. rewrite Z.sub_0_r. do 5 (split; [done|]). constructor.
  - fold (tb_cluster b). rewrite (proj2 (Z.eqb_neq (tb_cluster b) 0)) by lia.
    rewrite (ok_block _ _ H), (proj2 (Z.eqb_neq (8 * tb_cluster b) 0)) by lia. cbn [orb].
    destruct (processRead_step_spec nb b rb e j H) as
      (m & ok & data & e1 & b1 & rb1 & Hm & Hdl & Hcall & Hst & Hok1 & Hsame & Hc1); [nia|done..|].
    rewrite Hst. cbn [mbind option_bind]. destruct Hsame as (Hf & Hk & Hfc & Ht & Hen).
    rewrite Hf, (ok_block _ _ H), Z.mod_mul by lia. cbn [Z.eqb negb].
    assert (Hcl : tb_cluster b1 = tb_cluster b) by (unfold tb_cluster; by rewrite Hf).
    assert (Hfill : rb_fill rb = rb_fill rb1 + m * (8 * tb_cluster b))
      by (unfold rb_fill; rewrite Hc1, length_app; nia).
    destruct (IH b1 rb1 e1 (j - m) Hok1) as (b2 & rb2 & data2 & e2 & Hl & Hok2 & Hsame2 & Hc2 & Hl2 & Hw2);
      rewrite ?Hcl; [lia|lia|done|lia|lia|]. rewrite Hcl in *.
    exists b2, rb2, (data ++ data2), e2. split; [done|]. split; [done|].
    split. { destruct Hsame2 as (Ha1 & Ha2 & Ha3 & Ha4 & Ha5). by split_and!; congruence. }
    split; [by rewrite Hc1, Hc2, (assoc_L (++))|].
    split; [rewrite length_app; lia|]. eapply (read_call _ _ _ m); [lia|exact Hdl|exact Hcall|].
    by replace (nb - 8 * j + 8 * m) with (nb - 8 * (j - m)) by lia.
Qed.

Lemma blockProcessWriteFrames_spec b rb n ts e :
  tb_wf b rb -> 0 <= n -> n mod 8 = 0 -> rb_fill rb + n * tb_cluster b <= rb_capacity rb ->
  increment_allowed n ts (tb_clock b) = true ->
  exists b1 rb1 data e1,
    blockProcessWriteFrames processWriteBlock n ts b e = Some (true, b1, e1) /\
    tb_wf b1 rb1 /\ rb_content rb1 = rb_content rb ++ data /\ write_calls (tb_cluster b) 0 e data n e1 /\
    tb_framecounter b1 = tb_framecounter b + n /\ tb_clock b1 = dll_update ts (tb_clock b) /\
    tb_cluster b1 = tb_cluster b /\ rb_capacity rb1 = rb_capacity rb /\ tb_transparent b1 = tb_transparent b.
Proof.
  intros (H & Hfc & Hfill) Hn Hmod Hfit Hts. pose proof (ok_cluster_pos _ _ H) as Hc.
  pose proof (rb_capacity_small rb (ok_rb _ _ H)) as Hcap. pose proof (rb_fill_bound rb (ok_rb _ _ H)) as Hfb.
  assert (Hj : n = 8 * (n / 8)) by (pose proof (Z.div_mod n 8); lia). set (j := n / 8) in *.
  unfold blockProcessWriteFrames. destruct (ok_bytes b rb n H) as [_ ->]; [lia..|].
  assert (Ht : n * tb_cluster b = j * (8 * tb_cluster b)) by (rewrite Hj; ring).
  destruct (process_write_loop n (S (Z.to_nat (n * tb_cluster b))) b rb e j H) as
    (b1 & rb1 & data & e1 & Hl & Hok1 & (Hf & Hk & Hc0 & Htr & Hen) & Hc1 & Hcp & Hdl & Hw); [nia..|].
  rewrite <- Ht in Hl. rewrite Hl. cbn [mbind option_bind negb].
  unfold incrementFrameCounter. rewrite Hk, Hts. cbn [negb mbind option_bind].
  assert (Hcl : tb_cluster b1 = tb_cluster b) by (unfold tb_cluster; by rewrite Hf).
  rewrite Hc0, wrapS_small by (change (2 ^ 31) with 2147483648 in *; split; nia).
  eexists _, rb1, data, e1. split; [done|]. split.
  - split; [by destruct Hok1; split|]. split; [cbn; nia|]. cbn [tb_framecounter tb_with_clock tb_with_framecounter].
    change (tb_cluster (tb_with_clock _ (tb_with_framecounter _ b1))) with (tb_cluster b1).
    unfold rb_fill in *. rewrite Hc1, length_app, Hcl. nia.
  - split; [done|]. split; [by replace 0 with (n - 8 * j) by lia|]. split; [done|]. split; [cbn; by rewrite Hk|].
    split; [exact Hcl|]. split; done.
Qed.

Lemma blockProcessReadFrames_spec b rb n e :
  tb_wf b rb -> 0 <= n <= tb_framecounter b -> n mod 8 = 0 ->
  exists b1 rb1 data e1,
    blockProcessReadFrames processReadBlock n b e = Some (true, b1, e1) /\
    tb_wf b1 rb1 /\ rb_content rb = data ++ rb_content rb1 /\ read_calls (tb_cluster b) 0 e data n e1 /\
    tb_framecounter b1 = tb_framecounter b - n /\ tb_clock b1 = tb_clock b /\ tb_transparent b1 = tb_transparent b.
Proof.
  intros (H & Hfc & Hfill) Hn Hmod. pose proof (ok_cluster_pos _ _ H) as Hc.
  pose proof (rb_capacity_small rb (ok_rb _ _ H)) as Hcap. pose proof (rb_fill_bound rb (ok_rb _ _ H)) as Hfb.
  assert (Hj : n = 8 * (n / 8)) by (pose proof (Z.div_mod n 8); lia). set (j := n / 8) in *.
  unfold blockProcessReadFrames. destruct (ok_bytes b rb n H) as [_ ->]; [nia..|].
  assert (Ht : n * tb_cluster b = j * (8 * tb_cluster b)) by (rewrite Hj; ring).
  destruct (process_read_loop n (S (Z.to_nat (n * tb_cluster b))) b rb e j H) as
    (b1 & rb1 & data & e1 & Hl & Hok1 & (Hf & Hk & Hc0 & Htr & Hen) & Hc1 & Hdl & Hw); [nia..|].
  rewrite <- Ht in Hl. rewrite Hl. cbn [mbind option_bind negb].
  assert (Hcl : tb_cluster b1 = tb_cluster b) by (unfold tb_cluster; by rewrite Hf).
  unfold decrementFrameCounter. rewrite Hc0, wrapS_small by width_lia.
  eexists _, rb1, data, e1. split; [done|]. split.
  - split; [by destruct Hok1; split|]. split; [cbn; lia|]. cbn [tb_framecounter tb_with_framecounter].
    change (tb_cluster (tb_with_framecounter _ b1)) with (tb_cluster b1).
    unfold rb_fill in *. rewrite Hc1, length_app in Hfill. rewrite Hcl. nia.
  - split; [done|]. split; [by replace 0 with (n - 8 * j) by lia|]. split_and!; done.
Qed.

End block_spec.

(** ** Copies *)

Lemma tb_write_spec b rb n data :
  tb_ok b rb -> 0 <= n -> n * tb_cluster b < 2 ^ 31 -> Z.of_nat (length data) = n * tb_cluster b ->
  exists rb1, rb_wf rb1 /\ rb_capacity rb1 = rb_capacity rb /\
    rb_content rb1 = rb_content rb ++ take (Z.to_nat (rb_capacity rb - rb_fill rb)) data /\
    tb_write n data b
    = Some (bool_decide (n * tb_cluster b <= rb_capacity rb - rb_fill rb), tb_with_event_buffer rb1 b).
Proof.
  intros H Hn Hs Hd. pose proof (ok_rb _ _ H) as Hwf. pose proof (rb_fill_bound rb Hwf) as Hfb.
  unfold tb_write. rewrite (ok_event_buffer _ _ H). cbn [mbind option_bind].
  destruct (ok_bytes b rb n H) as [-> _]; [done..|].
  assert (0 <= n * tb_cluster b) by (pose proof (ok_cluster_pos _ _ H); nia).
  destruct (ringbuffer_write_spec rb data (n * tb_cluster b) Hwf) as (rb1 & -> & Hwf1 & Hc1 & Hs1); [done..|].
  cbn [mbind option_bind]. exists rb1. split; [done|]. split; [unfold rb_capacity; lia|].
  unfold rb_amount in *. destruct (Z.ltb_spec (rb_capacity rb - rb_fill rb) (n * tb_cluster b)).
  - split; [done|]. do 2 f_equal. rewrite bool_decide_false by lia.
    by destruct (Z.ltb_spec (rb_capacity rb - rb_fill rb) (n * tb_cluster b)); [|lia].
  - split; [by rewrite !take_ge in * by lia|]. do 2 f_equal. rewrite bool_decide_true by lia.
    by rewrite Z.ltb_irrefl.
Qed.

Lemma tb_wf_counter b rb rb1 n :
  tb_wf b rb -> rb_wf rb1 -> rb_fill rb1 = (tb_framecounter b + n) * tb_cluster b ->
  rb_fill rb1 <= rb_capacity rb1 -> 0 <= tb_framecounter b + n ->
  tb_wf (tb_with_framecounter (s32 (tb_framecounter b + n)) (tb_with_event_buffer rb1 b)) rb1 /\
  s32 (tb_framecounter b + n) = tb_framecounter b + n.
Proof.
  intros (H & Hfc & Hfill) Hwf1 Hf1 Hcap Hn. pose proof (ok_cluster_pos _ _ H) as Hc.
  pose proof (rb_capacity_small rb1 Hwf1).
  assert (Hlt : tb_framecounter b + n < 2 ^ 31) by nia.
  rewrite wrapS_small by (change (2 ^ 31) with 2147483648 in *; split; lia).
  split; [|done]. split; [by destruct H; split|]. split; [cbn; lia|done].
Qed.

Lemma writeFrames_opaque_spec b rb n data ts :
  tb_wf b rb -> tb_transparent b = false -> 0 <= n -> Z.of_nat (length data) = n * tb_cluster b ->
  rb_fill rb + n * tb_cluster b <= rb_capacity rb -> increment_allowed n ts (tb_clock b) = true ->
  exists b1 rb1, writeFrames n data ts b = Some (true, b1) /\ tb_wf b1 rb1 /\
    rb_content rb1 = rb_content rb ++ data /\ tb_framecounter b1 = tb_framecounter b + n /\
    tb_clock b1 = dll_update ts (tb_clock b) /\ rb_capacity rb1 = rb_capacity rb.
Proof.
  intros Hw Ht Hn Hd Hfit Hts. pose proof Hw as (H & Hfc & Hfill). pose proof (rb_capacity_small rb (ok_rb _ _ H)).
  pose proof (rb_fill_bound rb (ok_rb _ _ H)) as Hfb.
  unfold writeFrames. rewrite Ht.
  destruct (tb_write_spec b rb n data H) as (rb1 & Hwf1 & Hcap1 & Hc1 & ->); [lia..|].
  rewrite bool_decide_true by lia. cbn [mbind option_bind negb]. rewrite take_ge in Hc1 by lia.
  unfold incrementFrameCounter. change (tb_clock (tb_with_event_buffer rb1 b)) with (tb_clock b).
  rewrite Hts. cbn [negb mbind option_bind].
  assert (Hf1 : rb_fill rb1 = rb_fill rb + n * tb_cluster b) by (unfold rb_fill; rewrite Hc1, length_app; lia).
  destruct (tb_wf_counter b rb rb1 n Hw Hwf1) as [Hw1 He]; [lia..|].
  eexists _, rb1. split; [done|]. split; [|split; [done|]; split; [exact He|split; [done|exact Hcap1]]].
  destruct Hw1 as (Hk & Hr). split; [by destruct Hk; split|exact Hr].
Qed.

Lemma writeFrames_overflow_spec b rb n data ts :
  tb_wf b rb -> tb_transparent b = false -> 0 <= n -> n * tb_cluster b < 2 ^ 31 ->
  Z.of_nat (length data) = n * tb_cluster b -> rb_capacity rb < rb_fill rb + n * tb_cluster b ->
  exists b1 rb1, writeFrames n data ts b = Some (false, b1) /\ tb_event_buffer b1 = Some rb1 /\
    tb_framecounter b1 = tb_framecounter b /\
    rb_content rb1 = rb_content rb ++ take (Z.to_nat (rb_capacity rb - rb_fill rb)) data /\
    rb_fill rb1 = rb_capacity rb.
Proof.
  intros (H & Hfc & Hfill) Ht Hn Hs Hd Hfit. pose proof (rb_fill_bound rb (ok_rb _ _ H)) as Hfb.
  unfold writeFrames. rewrite Ht.
  destruct (tb_write_spec b rb n data H) as (rb1 & Hwf1 & Hcap1 & Hc1 & ->); [lia..|].
  rewrite bool_decide_false by lia. cbn [mbind option_bind negb].
  eexists _, rb1. split; [done|]. do 2 (split; [done|]). split; [done|].
  unfold rb_fill in *. rewrite Hc1, length_app, length_take. lia.
Qed.

Lemma readFrames_opaque_spec b rb n :
  tb_wf b rb -> tb_transparent b = false -> 0 <= n <= tb_framecounter b ->
  exists b1 rb1 data, readFrames n b = Some (true, data, b1) /\ tb_wf b1 rb1 /\
    rb_content rb = data ++ rb_content rb1 /\ Z.of_nat (length data) = n * tb_cluster b /\
    tb_framecounter b1 = tb_framecounter b - n /\ tb_clock b1 = tb_clock b /\ rb_capacity rb1 = rb_capacity rb.
Proof.
  intros Hw Ht Hn. pose proof Hw as (H & Hfc & Hfill). pose proof (ok_cluster_pos _ _ H) as Hc.
  pose proof (rb_capacity_small rb (ok_rb _ _ H)). pose proof (rb_fill_bound rb (ok_rb _ _ H)) as Hfb.
  unfold readFrames. rewrite Ht, (ok_event_buffer _ _ H). cbn [mbind option_bind].
  destruct (ok_bytes b rb n H) as [-> _]; [nia..|].
  destruct (ringbuffer_read_spec rb (n * tb_cluster b) (ok_rb _ _ H)) as (rb1 & -> & Hwf1 & Hc1 & Hs1); [nia|].
  cbn [mbind option_bind]. unfold rb_amount. destruct (Z.ltb_spec (rb_fill rb) (n * tb_cluster b)); [nia|].
  rewrite Z.ltb_irrefl. unfold decrementFrameCounter.
  change (tb_framecounter (tb_with_event_buffer rb1 b) - n) with (tb_framecounter b + - n).
  assert (Hf1 : rb_fill rb1 = rb_fill rb - n * tb_cluster b)
    by (unfold rb_fill in *; rewrite Hc1, length_drop; lia).
  destruct (tb_wf_counter b rb rb1 (- n) Hw Hwf1) as [Hw1 He]; [lia|rewrite Hf1; unfold rb_capacity in *; lia|lia|].
  eexists _, rb1, _. split; [done|]. split; [exact Hw1|]. rewrite Hc1, take_drop. split; [done|].
  split; [unfold rb_fill in *; rewrite length_take; lia|]. split; [cbn; rewrite He; lia|]. split; [done|].
  unfold rb_capacity. lia.
Qed.

(** In transparent mode a write changes the timestamps only. *)
Lemma writeFrames_transparent_spec b rb n data ts :
  tb_wf b rb -> tb_transparent b = true -> 0 <= n < 2 ^ 31 ->
  (timestamps_set (tb_clock b) = true -> increment_allowed n ts (tb_clock b) = true) ->
  exists b1, writeFrames n data ts b = Some (true, b1) /\ tb_wf b1 rb /\
    tb_framecounter b1 = tb_framecounter b /\ tb_transparent b1 = true /\
    bc_buffer_tail_timestamp (tb_clock b1) = wrap_timestamp (bc_wrap_at (tb_clock b)) ts.
Proof.
  intros (H & Hfc & Hfill) Ht Hn Hts. unfold writeFrames. rewrite Ht.
  destruct (timestamps_set (tb_clock b)).
  - unfold incrementFrameCounter. rewrite Hts by done. cbn [negb mbind option_bind].
    assert (Hs : s32 (s32 (tb_framecounter b + n) - n) = tb_framecounter b).
    { unfold wrapS. change (2 ^ (32 - 1)) with 2147483648. change (2 ^ 32) with 4294967296.
      pose proof (Z.mod_small (tb_framecounter b + 2147483648) 4294967296) as Hm.
      assert (E : (((tb_framecounter b + n + 2147483648) mod 4294967296 - 2147483648 - n + 2147483648)) mod 4294967296
                  = (tb_framecounter b + 2147483648) mod 4294967296).
      { replace (_ - 2147483648 - n + 2147483648)
          with ((tb_framecounter b + n + 2147483648) mod 4294967296 - n) by lia.
        rewrite Zminus_mod_idemp_l. f_equal. lia. }
      rewrite E, Hm by lia. lia. }
    eexists. split; [done|]. split; [|split; [exact Hs|done]].
    split; [by destruct H; split|]. cbn. rewrite Hs. split; [done|exact Hfill].
  - cbn [mbind option_bind]. eexists. split; [done|]. split; [|done]. split; [by destruct H; split|done].
Qed.

Lemma preloadFrames_spec b rb n data keep :
  tb_wf b rb -> 0 <= n -> Z.of_nat (length data) = n * tb_cluster b ->
  rb_fill rb + n * tb_cluster b <= rb_capacity rb ->
  exists b1 rb1, preloadFrames n data keep b = Some (true, b1) /\ tb_wf b1 rb1 /\
    rb_content rb1 = rb_content rb ++ data /\ tb_framecounter b1 = tb_framecounter b + n /\
    rb_capacity rb1 = rb_capacity rb.
Proof.
  intros Hw Hn Hd Hfit. pose proof Hw as (H & Hfc & Hfill). pose proof (rb_capacity_small rb (ok_rb _ _ H)).
  pose proof (rb_fill_bound rb (ok_rb _ _ H)) as Hfb.
  unfold preloadFrames. destruct (tb_write_spec b rb n data H) as (rb1 & Hwf1 & Hcap1 & Hc1 & ->); [lia..|].
  rewrite bool_decide_true by lia. cbn [mbind option_bind negb]. rewrite take_ge in Hc1 by lia.
  assert (Hf1 : rb_fill rb1 = rb_fill rb + n * tb_cluster b) by (unfold rb_fill; rewrite Hc1, length_app; lia).
  destruct (tb_wf_counter b rb rb1 n Hw Hwf1) as [(Hk & Hr) He]; [lia..|].
  eexists _, rb1. split; [done|]. split; [|split; [done|]; split; [destruct keep; exact He|done]].
  destruct keep; (split; [by destruct Hk; split|exact Hr]).
Qed.

Lemma dropFrames_spec b rb n :
  tb_wf b rb -> 0 <= n <= tb_framecounter b ->
  exists b1 rb1, dropFrames n b = Some (true, b1) /\ tb_wf b1 rb1 /\
    rb_content rb1 = drop (Z.to_nat (n * tb_cluster b)) (rb_content rb) /\
    tb_framecounter b1 = tb_framecounter b - n /\ rb_capacity rb1 = rb_capacity rb.
Proof.
  intros Hw Hn. pose proof Hw as (H & Hfc & Hfill). pose proof (ok_cluster_pos _ _ H) as Hc.
  pose proof (rb_capacity_small rb (ok_rb _ _ H)). pose proof (rb_fill_bound rb (ok_rb _ _ H)) as Hfb.
  unfold dropFrames. rewrite (ok_event_buffer _ _ H). cbn [mbind option_bind].
  destruct (ok_bytes b rb n H) as [-> _]; [nia..|].
  destruct (ringbuffer_read_advance_spec rb (n * tb_cluster b) (ok_rb _ _ H)) as [Hwf1 Hc1]; [nia|].
  set (rb1 := ffado_ringbuffer_read_advance (n * tb_cluster b) rb) in *.
  assert (Hf1 : rb_fill rb1 = rb_fill rb - n * tb_cluster b)
    by (unfold rb_fill in *; rewrite Hc1, length_drop; nia).
  assert (Hsz : rb_capacity rb1 = rb_capacity rb) by done.
  unfold decrementFrameCounter. change (tb_framecounter (tb_with_event_buffer rb1 b) - n) with (tb_framecounter b + - n).
  destruct (tb_wf_counter b rb rb1 (- n) Hw Hwf1) as [Hw1 He]; [lia|nia|lia|].
  eexists _, rb1. split; [done|]. split; [exact Hw1|]. split; [done|].
  split; [cbn; rewrite He; lia|done].
Qed.

Lemma clearBuffer_spec b rb :
  tb_wf b rb ->
  exists b1 rb1, clearBuffer b = Some (true, b1) /\ tb_wf b1 rb1 /\ rb_content rb1 = [] /\
    tb_framecounter b1 = 0 /\ rb_capacity rb1 = rb_capacity rb /\ tb_transparent b1 = tb_transparent b.
Proof.
  intros (H & Hfc & Hfill). unfold clearBuffer. rewrite (ok_event_buffer _ _ H). cbn [mbind option_bind].
  eexists _, (ffado_ringbuffer_reset rb). split; [done|].
  assert (Hwf1 : rb_wf (ffado_ringbuffer_reset rb)).
  { destruct (ok_rb _ _ H) as (Hk & Hm & Hl & Hw & Hr). split; [done|]. split; [done|]. split; [done|].
    split; cbn; lia. }
  split; [|done]. split; [by destruct H; split|]. split; [cbn; lia|]. done.
Qed.

(** ** Preparation *)

Lemma rb_fill_nil (rb : ringbuffer Z) : rb_content rb = [] -> rb_fill rb = 0.
Proof. intros H. unfold rb_fill. by rewrite H. Qed.

Lemma resizeBuffer_spec block b n :
  (forall k, 0 <= k -> Z.of_nat (length (block k)) = k) ->
  let f := tb_format b in
  0 < n -> 0 < bf_events_per_frame f -> 0 < bf_event_size f ->
  n * (bf_events_per_frame f * bf_event_size f) <= 2 ^ 30 ->
  exists b1 rb1, resizeBuffer block n b = Some (true, b1) /\
    tb_event_buffer b1 = Some rb1 /\ rb_wf rb1 /\ rb_content rb1 = [] /\
    n * (bf_events_per_frame f * bf_event_size f) - 1 <= rb_capacity rb1 /\
    tb_framecounter b1 = 0 /\ tb_transparent b1 = tb_transparent b /\ tb_process_buffer b1 = tb_process_buffer b /\
    getBufferSize b1 = n /\ bf_event_size (tb_format b1) = bf_event_size f /\
    bf_events_per_frame (tb_format b1) = bf_events_per_frame f /\
    bf_cluster_size (tb_format b1) = bf_cluster_size f /\
    bf_process_block_size (tb_format b1) = bf_process_block_size f.
Proof.
  intros Hb f Hn He Hs Hbig. unfold resizeBuffer. fold f.
  rewrite !(proj2 (Z.eqb_neq _ _)) by lia. cbn [orb].
  assert (0 <= bf_events_per_frame f * n <= 2 ^ 30 /\ 0 <= bf_events_per_frame f * n * bf_event_size f <= 2 ^ 30) as [? ?] by nia.
  rewrite (wrapU_small 32 (bf_events_per_frame f * n)) by width_lia. rewrite wrapU_small by width_lia.
  destruct (ringbuffer_create_spec block (bf_events_per_frame f * n * bf_event_size f) Hb) as (rb1 & -> & Hwf & Hc & Hsz & _); [done|].
  cbn [mbind option_bind]. eexists _, rb1. split; [done|]. do 3 (split; [done|]).
  split; [unfold rb_capacity; lia|]. by split_and!.
Qed.

Lemma prepare_spec block b :
  (forall k, 0 <= k -> Z.of_nat (length (block k)) = k) ->
  let f := tb_format b in
  let c := bf_events_per_frame f * bf_event_size f in
  0 < bf_buffer_size f -> 0 < bf_events_per_frame f -> 0 < bf_event_size f ->
  bf_buffer_size f * c <= 2 ^ 30 -> 8 * c < 2 ^ 31 ->
  SFeqb (bc_nominal_rate (tb_clock b)) (f64_of_Z 0) = false -> bc_update_period (tb_clock b) <> 0 ->
  exists b1 rb1, prepare block b = Some (true, b1) /\ tb_wf b1 rb1 /\ rb_content rb1 = [] /\
    tb_framecounter b1 = 0 /\ tb_cluster b1 = c /\ bf_buffer_size f * c - 1 <= rb_capacity rb1 /\
    timestamps_set (tb_clock b1) = false.
Proof.
  intros Hb f c Hn He Hs Hbig Hc8 Hr Hu. unfold prepare. fold f. rewrite Hr.
  rewrite !(proj2 (Z.eqb_neq _ _)) by (done || lia). cbn [orb].
  destruct (resizeBuffer_spec block (tb_with_clock (bc_with_current_rate (bc_nominal_rate (tb_clock b)) (tb_clock b)) b)
    (bf_buffer_size f) Hb) as (b1 & rb1 & -> & Hrb & Hwf & Hct & Hcap & Hfc & _ & _ & Hbs & Hes & Hef & _); [done..|].
  cbn [mbind option_bind negb]. change (tb_format (tb_with_clock _ b)) with f in *.
  assert (0 < c) by (unfold c; nia). fold c in Hcap.
  assert (Hcl : u32 (bf_events_per_frame f * bf_event_size f) = c) by (apply wrapU_small; fold c; width_lia).
  rewrite Hcl. assert (Hpb : u32 (c * FRAMES_PER_PROCESS_BLOCK) = 8 * c).
  { unfold FRAMES_PER_PROCESS_BLOCK. rewrite wrapU_small by width_lia. lia. }
  rewrite Hpb. eexists _, rb1. split; [done|]. split; [|split_and!; done].
  split; [|split; [cbn; lia|]].
  - split; cbn; try done; try lia.
    eexists. split; [done|]. rewrite length_replicate. lia.
  - rewrite rb_fill_nil by done. cbn. by rewrite Hfc.
Qed.

(** ** The delay locked loop *)

(** a finite value that is not zero *)
Definition is_finite (x : float) : Prop := match x with S754_finite _ _ _ => True | _ => False end.

Lemma SFsub_self prec emax x : is_finite x -> SFsub prec emax x x = S754_zero false.
Proof.
  destruct x as [| | |s m e]; try done. intros _. unfold SFsub.
  rewrite Z.min_id. unfold shl_align. rewrite Z.sub_diag. cbn [fst].
  by rewrite ?Z.sub_diag.
Qed.

Lemma SFadd_zero_l prec emax x s : is_finite x -> SFadd prec emax (S754_zero s) x = x.
Proof. by destruct x. Qed.

Lemma SFadd_zero_r prec emax x s : is_finite x -> SFadd prec emax x (S754_zero s) = x.
Proof. by destruct x. Qed.

Lemma SFmul_zero_r prec emax x s : is_finite x -> exists s', SFmul prec emax x (S754_zero s) = S754_zero s'.
Proof. destruct x as [| | |sx m e]; try done. intros _. by exists (xorb sx s). Qed.

(** A timestamp on the prediction leaves the loop where it is: the error is
    zero, the prediction becomes the tail, the period estimate is kept and the
    next prediction is one period further. *)
Lemma dll_update_locked k :
  bc_wrap_at k = f64_of_Z 3145728000 ->
  is_finite (bc_buffer_next_tail_timestamp k) -> is_finite (bc_dll_e2 k) ->
  is_finite (f64_of_f32 (bc_dll_b k)) -> is_finite (f64_of_f32 (bc_dll_c k)) ->
  let k1 := dll_update (bc_buffer_next_tail_timestamp k) k in
  let next := f64_add (bc_buffer_next_tail_timestamp k) (bc_dll_e2 k) in
  bc_buffer_tail_timestamp k1 = bc_buffer_next_tail_timestamp k /\
  bc_dll_e2 k1 = bc_dll_e2 k /\
  bc_buffer_next_tail_timestamp k1 = if SFleb (bc_wrap_at k) next then f64_sub next (bc_wrap_at k) else next.
Proof.
  intros Hw Hn He Hb Hc. assert (Herr : dll_error k (bc_buffer_next_tail_timestamp k) = S754_zero false).
  { unfold dll_error, f64_sub. rewrite SFsub_self, Hw by done. by vm_compute. }
  cbv zeta. unfold dll_update. rewrite Herr. unfold f64_mul, f64_add in *.
  destruct (SFmul_zero_r 53 1024 _ false Hb) as [sb ->]. destruct (SFmul_zero_r 53 1024 _ false Hc) as [sc ->].
  rewrite SFadd_zero_l, SFadd_zero_r by done. by split_and!.
Qed.

(** ** The queue of frames

    What the client and the stream see of an opaque buffer: a queue of bytes
    that is written and read by whole frames.  [buffer_op] lists the
    operations that change the contents, [queue_step] what they do to the
    queue, and with which results. *)
Inductive buffer_op :=
| OpWrite (nframes : Z) (data : list Z) (ts : float)
| OpPreload (nframes : Z) (data : list Z) (keep_head_ts : bool)
| OpRead (nframes : Z)
| OpDrop (nframes : Z)
| OpClear.

Definition buffer_step (op : buffer_op) (b : TimestampedBuffer) : option (bool * list Z * TimestampedBuffer) :=
  match op with
  | OpWrite n data ts => '(ok, b1) ← writeFrames n data ts b; Some (ok, [], b1)
  | OpPreload n data keep => '(ok, b1) ← preloadFrames n data keep b; Some (ok, [], b1)
  | OpRead n => readFrames n b
  | OpDrop n => '(ok, b1) ← dropFrames n b; Some (ok, [], b1)
  | OpClear => '(ok, b1) ← clearBuffer b; Some (ok, [], b1)
  end.

Fixpoint buffer_run (ops : list buffer_op) (b : TimestampedBuffer) : option (list (list Z) * TimestampedBuffer) :=
  match ops with
  | [] => Some ([], b)
  | op :: ops' =>
      '(ok, out, b1) ← buffer_step op b;
      if ok : bool then '(outs, b2) ← buffer_run ops' b1; Some (out :: outs, b2) else None
  end.

Section queue.
(** The bytes of a frame, the capacity, and what [incrementFrameCounter]
    asserts of a write. *)
Variables (c cap : Z) (valid : Z -> float -> bool).

(** [data] are [n] whole frames that fit *)
Definition queue_fits (n : Z) (data q : list Z) : bool :=
  bool_decide (0 <= n /\ Z.of_nat (length data) = n * c /\ Z.of_nat (length q) + n * c <= cap).

Definition queue_holds (n : Z) (q : list Z) : bool := bool_decide (0 <= n /\ n * c <= Z.of_nat (length q)).

Definition queue_step (op : buffer_op) (q : list Z) : option (list Z * list Z) :=
  match op with
  | OpWrite n data ts => if queue_fits n data q && valid n ts then Some ([], q ++ data) else None
  | OpPreload n data _ => if queue_fits n data q then Some ([], q ++ data) else None
  | OpRead n => if queue_holds n q then Some (take (Z.to_nat (n * c)) q, drop (Z.to_nat (n * c)) q) else None
  | OpDrop n => if queue_holds n q then Some ([], drop (Z.to_nat (n * c)) q) else None
  | OpClear => Some ([], [])
  end.

Fixpoint queue_run (ops : list buffer_op) (q : list Z) : option (list (list Z) * list Z) :=
  match ops with
  | [] => Some ([], q)
  | op :: ops' => '(out, q1) ← queue_step op q; '(outs, q2) ← queue_run ops' q1; Some (out :: outs, q2)
  end.
End queue.

(** What no operation changes: the frame size, the mode, and the parameters of
    the clock that a write checks. *)
Definition tb_keeps (b b1 : TimestampedBuffer) : Prop :=
  tb_format b1 = tb_format b /\ tb_transparent b1 = tb_transparent b /\
  bc_wrap_at (tb_clock b1) = bc_wrap_at (tb_clock b) /\
  bc_update_period (tb_clock b1) = bc_update_period (tb_clock b).

Lemma buffer_step_keeps op b ok out b1 : buffer_step op b = Some (ok, out, b1) -> tb_keeps b b1.
Proof.
  destruct op as [n data ts|n data keep|n|n|]; cbn [buffer_step];
    unfold writeFrames, preloadFrames, readFrames, dropFrames, clearBuffer, tb_write, incrementFrameCounter;
    intros H; repeat (case_match || simplify_option_eq); done.
Qed.

Lemma buffer_step_refines op b rb q1 out :
  tb_wf b rb -> tb_transparent b = false ->
  queue_step (tb_cluster b) (rb_capacity rb) (fun n ts => increment_allowed n ts (tb_clock b)) op (rb_content rb)
    = Some (out, q1) ->
  exists b1 rb1, buffer_step op b = Some (true, out, b1) /\ tb_wf b1 rb1 /\ rb_content rb1 = q1 /\
    rb_capacity rb1 = rb_capacity rb.
Proof.
  intros Hw Ht. pose proof Hw as (Hok & Hfc & Hfill). pose proof (ok_cluster_pos _ _ Hok) as Hc.
  assert (Hhold : forall n, queue_holds (tb_cluster b) n (rb_content rb) = true -> 0 <= n <= tb_framecounter b).
  { intros n Hq%bool_decide_eq_true. fold (rb_fill rb) in Hq. rewrite Hfill in Hq. nia. }
  assert (Hfit : forall n data, queue_fits (tb_cluster b) (rb_capacity rb) n data (rb_content rb) = true ->
    0 <= n /\ Z.of_nat (length data) = n * tb_cluster b /\ rb_fill rb + n * tb_cluster b <= rb_capacity rb)
    by (intros n data Hq%bool_decide_eq_true; exact Hq).
  destruct op as [n data ts|n data keep|n|n|]; cbn [queue_step buffer_step].
  - destruct (queue_fits _ _ _ _ _) eqn:Hq; cbn [andb]; [|done]. destruct (increment_allowed _ _ _) eqn:Hts; [|done].
    intros [= <- <-]. destruct (Hfit _ _ Hq) as (? & ? & ?).
    destruct (writeFrames_opaque_spec b rb n data ts) as (b1 & rb1 & -> & Hw1 & Hc1 & _ & _ & Hcap); [done..|].
    by exists b1, rb1.
  - destruct (queue_fits _ _ _ _ _) eqn:Hq; [|done]. intros [= <- <-]. destruct (Hfit _ _ Hq) as (? & ? & ?).
    destruct (preloadFrames_spec b rb n data keep) as (b1 & rb1 & -> & Hw1 & Hc1 & _ & Hcap); [done..|].
    by exists b1, rb1.
  - destruct (queue_holds _ _ _) eqn:Hq; [|done]. intros [= <- <-]. apply Hhold in Hq.
    destruct (readFrames_opaque_spec b rb n) as (b1 & rb1 & data & -> & Hw1 & Hc1 & Hl & _ & _ & Hcap); [done..|].
    exists b1, rb1. rewrite Hc1, take_app_length', drop_app_length' by lia. done.
  - destruct (queue_holds _ _ _) eqn:Hq; [|done]. intros [= <- <-]. apply Hhold in Hq.
    destruct (dropFrames_spec b rb n) as (b1 & rb1 & -> & Hw1 & Hc1 & _ & Hcap); [done..|]. by exists b1, rb1.
  - intros [= <- <-]. destruct (clearBuffer_spec b rb Hw) as (b1 & rb1 & -> & Hw1 & Hc1 & _ & Hcap & _).
    by exists b1, rb1.
Qed.

(** ** The transparent mode is changed by [setTransparent] only *)

Lemma setBandwidth_transparent bw b : tb_transparent (snd (setBandwidth bw b)) = tb_transparent b.
Proof. unfold setBandwidth. by destruct (SFleb _ _). Qed.

Lemma setBandwidth_keeps bw b :
  let b1 := snd (setBandwidth bw b) in
  tb_event_buffer b1 = tb_event_buffer b /\ tb_format b1 = tb_format b /\
  bc_current_rate (tb_clock b1) = bc_current_rate (tb_clock b) /\
  bc_nominal_rate (tb_clock b1) = bc_nominal_rate (tb_clock b).
Proof. unfold setBandwidth. by destruct (SFleb _ _). Qed.

Lemma resizeBuffer_transparent block n b r b1 :
  resizeBuffer block n b = Some (r, b1) -> tb_transparent b1 = tb_transparent b.
Proof. unfold resizeBuffer. intros H. by repeat (case_match || simplify_option_eq). Qed.

Lemma prepare_transparent block b r b1 : prepare block b = Some (r, b1) -> tb_transparent b1 = tb_transparent b.
Proof.
  unfold prepare. intros H. case_match; [done|].
  destruct (resizeBuffer _ _ _) as [[ok b']|] eqn:Hr; [|done]. apply resizeBuffer_transparent in Hr.
  by destruct ok; simplify_option_eq.
Qed.

Lemma buffer_step_transparent op b r out b1 :
  buffer_step op b = Some (r, out, b1) -> tb_transparent b1 = tb_transparent b.
Proof. by intros (_ & Ht & _)%buffer_step_keeps. Qed.

Lemma writeFrames_transparent n data ts b r b1 : writeFrames n data ts b = Some (r, b1) -> tb_transparent b1 = tb_transparent b.
Proof. intros H. apply (buffer_step_transparent (OpWrite n data ts) b r []). cbn. by rewrite H. Qed.

Lemma readFrames_transparent n b r data b1 : readFrames n b = Some (r, data, b1) -> tb_transparent b1 = tb_transparent b.
Proof.
  unfold readFrames. destruct (tb_transparent b) eqn:Ht; [by intros [= _ _ <-]|].
  destruct (tb_event_buffer b) as [rb|]; [|done]. cbn [mbind option_bind].
  destruct (ffado_ringbuffer_read _ _) as [[[k d] rb1]|]; [|done]. cbn [mbind option_bind].
  case_match; by intros [= _ _ <-].
Qed.

Lemma preloadFrames_transparent n data keep b r b1 :
  preloadFrames n data keep b = Some (r, b1) -> tb_transparent b1 = tb_transparent b.
Proof. intros H. apply (buffer_step_transparent (OpPreload n data keep) b r []). cbn. by rewrite H. Qed.

Lemma dropFrames_transparent n b r b1 : dropFrames n b = Some (r, b1) -> tb_transparent b1 = tb_transparent b.
Proof. intros H. apply (buffer_step_transparent (OpDrop n) b r []). cbn. by rewrite H. Qed.

Lemma clearBuffer_transparent b r b1 : clearBuffer b = Some (r, b1) -> tb_transparent b1 = tb_transparent b.
Proof. intros H. apply (buffer_step_transparent OpClear b r []). cbn. by rewrite H. Qed.

Lemma process_loop_transparent {E} (step : Z -> TimestampedBuffer -> E -> option (option Z * TimestampedBuffer * E)) :
  (forall n b e r b1 e1, step n b e = Some (r, b1, e1) -> tb_transparent b1 = tb_transparent b) ->
  forall fuel n b e r b1 e1, process_loop step fuel n b e = Some (r, b1, e1) -> tb_transparent b1 = tb_transparent b.
Proof.
  intros Hs. induction fuel as [|fuel IH]; [done|]. intros n b e r b1 e1. cbn.
  case_match; [congruence|]. case_match; [done|].
  destruct (step n b e) as [[[rem b2] e2]|] eqn:Hst; [|done]. cbn. apply Hs in Hst.
  destruct rem; [|congruence]. case_match; [done|]. intros H2%IH. congruence.
Qed.

Lemma blockProcessWriteFrames_transparent {E} (client : list Z -> Z -> Z -> E -> option (bool * list Z * E)) n ts b e r b1 e1 :
  blockProcessWriteFrames client n ts b e = Some (r, b1, e1) -> tb_transparent b1 = tb_transparent b.
Proof.
  unfold blockProcessWriteFrames. intros H.
  destruct (process_loop _ _ _ _ _) as [[[ok b2] e2]|] eqn:Hl; [|done].
  apply process_loop_transparent in Hl.
  - unfold incrementFrameCounter in H. repeat (case_match || simplify_option_eq); congruence.
  - intros k b' e' r' b2' e2' Hs. unfold processWrite_step in Hs. by repeat (case_match || simplify_option_eq).
Qed.

Lemma blockProcessReadFrames_transparent {E} (client : list Z -> Z -> Z -> E -> option (bool * E)) n b e r b1 e1 :
  blockProcessReadFrames client n b e = Some (r, b1, e1) -> tb_transparent b1 = tb_transparent b.
Proof.
  unfold blockProcessReadFrames. intros H.
  destruct (process_loop _ _ _ _ _) as [[[ok b2] e2]|] eqn:Hl; [|done].
  apply process_loop_transparent in Hl.
  - repeat (case_match || simplify_option_eq); congruence.
  - intros k b' e' r' b2' e2' Hs. unfold processRead_step in Hs. by repeat (case_match || simplify_option_eq).
Qed.

(** ** Properties *)

(** C22: an opaque buffer is a queue of frames: whatever sequence of writes,
    preloads, reads, drops and clears the queue admits (writes of whole frames
    that fit, with a timestamp that passes the assertions; reads of frames that
    are there), the buffer performs it without an error, hands out the bytes of
    the queue in their order, and ends well-formed, with the frame counter
    equal to the number of frames in the ring buffer. *)
Theorem TimestampedBuffer_refines_queue ops b rb outs q :
  tb_wf b rb -> tb_transparent b = false ->
  queue_run (tb_cluster b) (rb_capacity rb) (fun n ts => increment_allowed n ts (tb_clock b)) ops (rb_content rb)
    = Some (outs, q) ->
  exists b1 rb1, buffer_run ops b = Some (outs, b1) /\ tb_wf b1 rb1 /\ rb_content rb1 = q /\
    Z.of_nat (length q) = tb_framecounter b1 * tb_cluster b.
Proof.
  revert b rb outs. induction ops as [|op ops IH]; intros b rb outs Hw Ht; cbn [queue_run buffer_run].
  - intros [= <- <-]. exists b, rb. split; [done|]. split; [done|]. split; [done|]. by destruct Hw as (_ & _ & H).
  - destruct (queue_step _ _ _ op _) as [[out q1]|] eqn:Hq; [|done]. cbn [mbind option_bind].
    destruct (queue_run _ _ _ ops q1) as [[outs2 q2]|] eqn:Hr; [|done]. intros [= <- <-].
    destruct (buffer_step_refines op b rb q1 out Hw Ht Hq) as (b1 & rb1 & Hs & Hw1 & <- & Hcap).
    destruct (buffer_step_keeps _ _ _ _ _ Hs) as (Hf & Ht1 & Hwr & Hup). rewrite Hs. cbn [mbind option_bind].
    assert (Hcl : tb_cluster b1 = tb_cluster b) by (unfold tb_cluster; by rewrite Hf).
    destruct (IH b1 rb1 outs2 Hw1) as (b2 & rb2 & -> & Hw2 & Hc2 & Hn2); [congruence| |].
    + rewrite Hcl, Hcap. unfold increment_allowed in *. by rewrite Hwr, Hup.
    + exists b2, rb2. by rewrite <- Hcl.
Qed.

(** a buffer of 16 frames of 2 events of 2 bytes, 8 frames per period *)
Definition small_buffer : TimestampedBuffer :=
  mkTimestampedBuffer (Some (mkRingbuffer (replicate 64 0) 62 62 64 63 0)) (Some (replicate 32 0))
    (mkFormat 4 32 2 2 16 4 64) true false
    (mkClock (f64_of_Z 3145728000) (f64_of_Z 10000) (f64_of_Z 14096) (f64_of_Z 4096)
       (f32_literal 1 10) (f32_literal 1 100) (f32_of_Z 512) (f32_of_Z 512) 8)
    0 1536.

Definition small_buffer_ring : ringbuffer Z := mkRingbuffer (replicate 64 0) 62 62 64 63 0.

Lemma small_buffer_wf : tb_wf small_buffer small_buffer_ring.
Proof.
  split; [split; try (vm_compute; reflexivity)|split; [cbn; lia|reflexivity]].
  - split; [by exists 6|]. cbn. lia.
  - by exists (replicate 32 0).
Qed.

Definition frames8 (x : Z) : list Z := replicate 32 x.

Lemma TimestampedBuffer_refines_queue_witness :
  exists b1 rb1,
    buffer_run [OpWrite 8 (frames8 1) (f64_of_Z 14100); OpPreload 2 (replicate 8 2) true; OpRead 3;
                OpDrop 5; OpRead 1] small_buffer
    = Some ([[]; []; replicate 12 1; []; replicate 4 2], b1) /\
    tb_wf b1 rb1 /\ rb_content rb1 = replicate 4 2 /\ Z.of_nat (length (replicate 4 2)) = tb_framecounter b1 * 4.
Proof.
  apply (TimestampedBuffer_refines_queue _ small_buffer small_buffer_ring _ _ small_buffer_wf eq_refl).
  vm_compute. reflexivity.
Defined.

(** A block write hands the client consecutive regions of whole process
    blocks, in order, from the first to the last of the [n] frames, and what
    the client writes there is appended to the ring buffer in that order,
    however the free space wraps around; then the counter and the delay locked
    loop advance.  The loop ends. *)
Lemma blockProcessWriteFrames_appends {E} (client : list Z -> Z -> Z -> E -> option (bool * list Z * E)) b rb n ts e :
  (forall region k off e, exists ok data e1, client region k off e = Some (ok, data, e1) /\ length data = length region) ->
  tb_wf b rb -> 0 <= n -> n mod 8 = 0 -> rb_fill rb + n * tb_cluster b <= rb_capacity rb ->
  increment_allowed n ts (tb_clock b) = true ->
  exists b1 rb1 data e1,
    blockProcessWriteFrames client n ts b e = Some (true, b1, e1) /\
    tb_wf b1 rb1 /\ rb_content rb1 = rb_content rb ++ data /\
    write_calls client (tb_cluster b) 0 e data n e1 /\
    tb_framecounter b1 = tb_framecounter b + n /\ tb_clock b1 = dll_update ts (tb_clock b).
Proof.
  intros Hcl Hw Hn Hm Hfit Hts.
  destruct (blockProcessWriteFrames_spec client Hcl b rb n ts e) as (b1 & rb1 & data & e1 & H1 & H2 & H3 & H4 & H5 & H6 & _);
    [done..|]. by exists b1, rb1, data, e1.
Qed.

(** fills its region with a counter *)
Definition counting_writer (region : list Z) (n off : Z) (e : Z) : option (bool * list Z * Z) :=
  Some (true, map (fun _ => e) region, e + 1).

Lemma blockProcessWriteFrames_appends_witness :
  exists b1 rb1 data e1,
    blockProcessWriteFrames counting_writer 8 (f64_of_Z 14096) small_buffer 5 = Some (true, b1, e1) /\
    tb_wf b1 rb1 /\ rb_content rb1 = [] ++ data /\ write_calls counting_writer 4 0 5 data 8 e1 /\
    tb_framecounter b1 = 8 /\ tb_clock b1 = dll_update (f64_of_Z 14096) (tb_clock small_buffer).
Proof.
  apply (blockProcessWriteFrames_appends counting_writer small_buffer small_buffer_ring 8 (f64_of_Z 14096) 5).
  - intros region k off e. exists true, (map (fun _ => e) region), (e + 1). split; [reflexivity|]. apply length_map.
  - exact small_buffer_wf.
  - lia.
  - reflexivity.
  - vm_compute. discriminate.
  - vm_compute. reflexivity.
Defined.

(** A block read hands the client the first [n] frames of the ring buffer,
    in consecutive blocks and in order, and removes exactly those.  The loop
    ends. *)
Lemma blockProcessReadFrames_consumes {E} (client : list Z -> Z -> Z -> E -> option (bool * E)) b rb n e :
  (forall data k off e, exists ok e1, client data k off e = Some (ok, e1)) ->
  tb_wf b rb -> 0 <= n <= tb_framecounter b -> n mod 8 = 0 ->
  exists b1 rb1 data e1,
    blockProcessReadFrames client n b e = Some (true, b1, e1) /\
    tb_wf b1 rb1 /\ rb_content rb = data ++ rb_content rb1 /\
    read_calls client (tb_cluster b) 0 e data n e1 /\
    tb_framecounter b1 = tb_framecounter b - n /\ tb_clock b1 = tb_clock b.
Proof.
  intros Hcl Hw Hn Hm.
  destruct (blockProcessReadFrames_spec client Hcl b rb n e) as (b1 & rb1 & data & e1 & H1 & H2 & H3 & H4 & H5 & H6 & _);
    [done..|]. by exists b1, rb1, data, e1.
Qed.

(** nine frames, the third byte is the last of the memory block *)
Definition wrapped_ring : ringbuffer Z := mkRingbuffer (map Z.of_nat (seq 0 64)) 34 62 64 63 0.

Definition wrapped_buffer : TimestampedBuffer :=
  tb_with_framecounter 9 (tb_with_event_buffer wrapped_ring small_buffer).

Definition collect (data : list Z) (n off : Z) (e : list (Z * Z * list Z)) : option (bool * list (Z * Z * list Z)) :=
  Some (true, e ++ [(off, n, data)]).

Lemma blockProcessReadFrames_consumes_witness :
  exists b1 rb1 data e1,
    blockProcessReadFrames collect 8 wrapped_buffer [] = Some (true, b1, e1) /\
    tb_wf b1 rb1 /\ rb_content wrapped_ring = data ++ rb_content rb1 /\
    read_calls collect 4 0 [] data 8 e1 /\ tb_framecounter b1 = 9 - 8 /\ tb_clock b1 = tb_clock small_buffer.
Proof.
  apply (blockProcessReadFrames_consumes collect wrapped_buffer wrapped_ring 8 []).
  - intros data k off e. exists true, (e ++ [(off, k, data)]). reflexivity.
  - split; [split; try (vm_compute; reflexivity)|split; [cbn; lia|reflexivity]].
    + split; [by exists 6|]. cbn. lia.
    + by exists (replicate 32 0).
  - cbn. lia.
  - reflexivity.
Defined.

(** C31: [prepare] establishes the invariant: with positive sizes whose
    products do not overflow, a nominal rate and an update period, it returns
    [true] with an empty, well-formed buffer and unset timestamps.  The ring
    buffer takes the requested number of frames, less one when their bytes
    fill a power of two. *)
Lemma prepare_establishes block b :
  (forall k, 0 <= k -> Z.of_nat (length (block k)) = k) ->
  let f := tb_format b in
  let c := bf_events_per_frame f * bf_event_size f in
  0 < bf_buffer_size f -> 0 < bf_events_per_frame f -> 0 < bf_event_size f ->
  bf_buffer_size f * c <= 2 ^ 30 -> 8 * c < 2 ^ 31 ->
  SFeqb (bc_nominal_rate (tb_clock b)) (f64_of_Z 0) = false -> bc_update_period (tb_clock b) <> 0 ->
  exists b1 rb1, prepare block b = Some (true, b1) /\ tb_wf b1 rb1 /\ rb_content rb1 = [] /\
    tb_framecounter b1 = 0 /\ tb_cluster b1 = c /\ (bf_buffer_size f - 1) * c <= rb_capacity rb1 /\
    timestamps_set (tb_clock b1) = false.
Proof.
  intros Hb f c Hn He Hs Hbig Hc8 Hr Hu.
  destruct (prepare_spec block b Hb) as (b1 & rb1 & H1 & H2 & H3 & H4 & H5 & H6 & H7); [done..|].
  exists b1, rb1. split; [done|]. do 4 (split; [done|]). split; [|done].
  assert (0 < c) by (unfold c; nia). fold f c in H6. rewrite Z.mul_sub_distr_r. lia.
Qed.

Definition configured_buffer : TimestampedBuffer :=
  snd (setUpdatePeriod 8 (snd (setNominalRate (f32_of_Z 512) (snd (setBufferSize 16
    (snd (setEventsPerFrame 2 (snd (setEventSize 2 TimestampedBuffer_new))))))))).

Lemma prepare_establishes_witness :
  exists b1 rb1, prepare (fun k => replicate (Z.to_nat k) 0) configured_buffer = Some (true, b1) /\ tb_wf b1 rb1 /\
    rb_content rb1 = [] /\ tb_framecounter b1 = 0 /\ tb_cluster b1 = 2 * 2 /\ (16 - 1) * (2 * 2) <= rb_capacity rb1 /\
    timestamps_set (tb_clock b1) = false.
Proof.
  apply (prepare_establishes (fun k => replicate (Z.to_nat k) 0) configured_buffer);
    [intros k Hk; rewrite length_replicate; lia|vm_compute; (reflexivity || discriminate)..].
Defined.

(** a write of more frames than fit returns [false], but it has filled the
    ring buffer with the beginning of the data and has left the frame counter
    unchanged: unless nothing was added, the counter and the contents no longer
    agree. *)
Lemma writeFrames_partial b rb n data ts :
  tb_wf b rb -> tb_transparent b = false -> 0 <= n -> n * tb_cluster b < 2 ^ 31 ->
  Z.of_nat (length data) = n * tb_cluster b -> rb_capacity rb < rb_fill rb + n * tb_cluster b ->
  exists b1 rb1, writeFrames n data ts b = Some (false, b1) /\ tb_event_buffer b1 = Some rb1 /\
    rb_content rb1 = rb_content rb ++ take (Z.to_nat (rb_capacity rb - rb_fill rb)) data /\
    tb_framecounter b1 = tb_framecounter b /\
    (rb_fill rb < rb_capacity rb -> ~ tb_wf b1 rb1).
Proof.
  intros Hw Ht Hn Hs Hd Hfit.
  destruct (writeFrames_overflow_spec b rb n data ts Hw Ht Hn Hs Hd Hfit) as (b1 & rb1 & H1 & H2 & H3 & H4 & H5).
  exists b1, rb1. do 4 (split; [done|]). intros Hlt (_ & _ & Hf).
  destruct (buffer_step_keeps (OpWrite n data ts) b false [] b1) as (Hk & _); [cbn; by rewrite H1|].
  destruct Hw as (_ & _ & Hf0). unfold tb_cluster in *. rewrite Hk, H3, H5 in Hf. lia.
Qed.

Lemma writeFrames_partial_witness :
  exists b1 rb1, writeFrames 8 (frames8 1) (f64_of_Z 14096) wrapped_buffer = Some (false, b1) /\
    tb_event_buffer b1 = Some rb1 /\
    rb_content rb1 = rb_content wrapped_ring ++ replicate 27 1 /\
    tb_framecounter b1 = 9 /\ (36 < 63 -> ~ tb_wf b1 rb1).
Proof.
  apply (writeFrames_partial wrapped_buffer wrapped_ring 8 (frames8 1) (f64_of_Z 14096)); try reflexivity; [|lia].
  split; [split; try (vm_compute; reflexivity)|split; [cbn; lia|reflexivity]].
  - split; [by exists 6|]. cbn. lia.
  - by exists (replicate 32 0).
Defined.

(** The delay locked loop keeps its lock: a write of a period whose
    timestamp is the predicted one makes the prediction the timestamp of the
    tail, keeps the estimate of the period, and predicts the next timestamp
    one period later, modulo the wrap value of 128 seconds of ticks. *)
Lemma incrementFrameCounter_locked b n :
  let k := tb_clock b in
  let ts := bc_buffer_next_tail_timestamp k in
  let next := f64_add ts (bc_dll_e2 k) in
  bc_wrap_at k = f64_of_Z 3145728000 -> is_finite ts -> is_finite (bc_dll_e2 k) ->
  is_finite (f64_of_f32 (bc_dll_b k)) -> is_finite (f64_of_f32 (bc_dll_c k)) ->
  increment_allowed n ts k = true ->
  exists b1, incrementFrameCounter n ts b = Some b1 /\
    tb_framecounter b1 = s32 (tb_framecounter b + n) /\
    bc_buffer_tail_timestamp (tb_clock b1) = ts /\ bc_dll_e2 (tb_clock b1) = bc_dll_e2 k /\
    bc_buffer_next_tail_timestamp (tb_clock b1)
    = if SFleb (f64_of_Z 3145728000) next then f64_sub next (f64_of_Z 3145728000) else next.
Proof.
  intros k ts next Hw Hn He Hb Hc Hts. unfold incrementFrameCounter. fold k. rewrite Hts. cbn [negb].
  destruct (dll_update_locked k Hw Hn He Hb Hc) as (H1 & H2 & H3). rewrite Hw in H3.
  eexists. split; [done|]. by split_and!.
Qed.

Lemma incrementFrameCounter_locked_witness :
  exists b1, incrementFrameCounter 8 (f64_of_Z 14096) small_buffer = Some b1 /\ tb_framecounter b1 = s32 (0 + 8) /\
    bc_buffer_tail_timestamp (tb_clock b1) = f64_of_Z 14096 /\ bc_dll_e2 (tb_clock b1) = f64_of_Z 4096 /\
    bc_buffer_next_tail_timestamp (tb_clock b1)
    = if SFleb (f64_of_Z 3145728000) (f64_add (f64_of_Z 14096) (f64_of_Z 4096))
      then f64_sub (f64_add (f64_of_Z 14096) (f64_of_Z 4096)) (f64_of_Z 3145728000)
      else f64_add (f64_of_Z 14096) (f64_of_Z 4096).
Proof.
  apply (incrementFrameCounter_locked small_buffer 8); try (vm_compute; reflexivity); vm_compute; exact I.
Defined.
