(* ===== verification/StreamProcessor.v ===== *)
(** * StreamProcessor: libstreaming/generic/StreamProcessor

    A stream processor takes the packets of one isochronous stream (or
    produces them), moves the frames through its [TimestampedBuffer], and runs
    the state machine that starts and stops the stream in step with the bus
    cycles.  The device specific part is a subclass ([SPChild]); the managers,
    the 1394 service and the ports are its environment ([SPEnv]).

    The operations are the handlers that the iso thread, the client and the
    manager call; a handler is one step on the state.  [None] is a failing
    [assert] or an access outside of a memory block.  [DEBUG] is the build
    option: in a debug build [putPacket] repairs some timestamps. *)
From S2P Require Import Prelude CycleTimer MachineFloat RingBuffer TimestampedBuffer.

Inductive eProcessorType := ePT_Receive | ePT_Transmit.

Inductive eProcessorState :=
| ePS_Invalid | ePS_Created | ePS_Stopped | ePS_WaitingForStream | ePS_DryRunning
| ePS_WaitingForStreamEnable | ePS_Running | ePS_WaitingForStreamDisable | ePS_Error.

Inductive eChildReturnValue :=
| eCRV_OK | eCRV_Invalid | eCRV_Packet | eCRV_EmptyPacket | eCRV_XRun | eCRV_Again | eCRV_Defer | eCRV_Error.

(** the results of the libraw1394 callbacks that the source names *)
Inductive raw1394_iso_disposition := RAW1394_ISO_OK | RAW1394_ISO_DEFER | RAW1394_ISO_ERROR | RAW1394_ISO_AGAIN.

#[export] Instance eProcessorType_dec : EqDecision eProcessorType.
Proof. solve_decision. Defined.
#[export] Instance eProcessorState_dec : EqDecision eProcessorState.
Proof. solve_decision. Defined.
#[export] Instance eChildReturnValue_dec : EqDecision eChildReturnValue.
Proof. solve_decision. Defined.
#[export] Instance raw1394_iso_disposition_dec : EqDecision raw1394_iso_disposition.
Proof. solve_decision. Defined.

Definition STREAMPROCESSOR_DLL_FAST_BW_HZ : float := f64_of_Z 5.
Definition STREAMPROCESSOR_DLL_BW_HZ : float := f64_literal 1 10.

(** ** State *)

(** the private fields *)
Record sp_core := mkCore {
  sp_processor_type : eProcessorType;
  sp_state : eProcessorState;
  sp_next_state : eProcessorState;
  sp_cycle_to_switch_state : Z;
  sp_last_timestamp2 : Z;
  sp_in_xrun : bool }.

(** the fields that the subclass can change, and everything outside *)
Record sp_shared (E : Type) := mkShared {
  sh_last_timestamp : Z;
  sh_correct_last_timestamp : bool;
  sh_data_buffer : TimestampedBuffer;
  sh_scratch_buffer : option (list Z);
  sh_ticks_per_frame : float;
  sh_dll_bandwidth_hz : float;
  sh_extra_buffer_frames : Z;
  sh_max_diff_ticks : Z;
  sh_local_node_id : Z;
  sh_env : E }.
#[global] Arguments mkShared {E}.
#[global] Arguments sh_last_timestamp {E}.
#[global] Arguments sh_correct_last_timestamp {E}.
#[global] Arguments sh_data_buffer {E}.
#[global] Arguments sh_scratch_buffer {E}.
#[global] Arguments sh_ticks_per_frame {E}.
#[global] Arguments sh_dll_bandwidth_hz {E}.
#[global] Arguments sh_extra_buffer_frames {E}.
#[global] Arguments sh_max_diff_ticks {E}.
#[global] Arguments sh_local_node_id {E}.
#[global] Arguments sh_env {E}.

Record StreamProcessor (E : Type) := mkSP { sp_private : sp_core; sp_protected : sp_shared E }.
#[global] Arguments mkSP {E}.
#[global] Arguments sp_private {E}.
#[global] Arguments sp_protected {E}.

(** a packet: its data and the three results of the generators *)
Record iso_packet := mkPacket { pkt_data : list Z; pkt_length : Z; pkt_tag : Z; pkt_sy : Z }.

Definition core_with_state (s : eProcessorState) (c : sp_core) : sp_core :=
  mkCore (sp_processor_type c) s (sp_next_state c) (sp_cycle_to_switch_state c) (sp_last_timestamp2 c) (sp_in_xrun c).
Definition core_with_next_state (s : eProcessorState) (c : sp_core) : sp_core :=
  mkCore (sp_processor_type c) (sp_state c) s (sp_cycle_to_switch_state c) (sp_last_timestamp2 c) (sp_in_xrun c).
Definition core_with_cycle (z : Z) (c : sp_core) : sp_core :=
  mkCore (sp_processor_type c) (sp_state c) (sp_next_state c) z (sp_last_timestamp2 c) (sp_in_xrun c).
Definition core_with_last_timestamp2 (z : Z) (c : sp_core) : sp_core :=
  mkCore (sp_processor_type c) (sp_state c) (sp_next_state c) (sp_cycle_to_switch_state c) z (sp_in_xrun c).
Definition core_with_in_xrun (x : bool) (c : sp_core) : sp_core :=
  mkCore (sp_processor_type c) (sp_state c) (sp_next_state c) (sp_cycle_to_switch_state c) (sp_last_timestamp2 c) x.

Section shared_updates.
Context {E : Type}.
Implicit Types s : sp_shared E.

Definition sh_with_timestamp (ts : Z) (correct : bool) s : sp_shared E :=
  mkShared ts correct (sh_data_buffer s) (sh_scratch_buffer s) (sh_ticks_per_frame s) (sh_dll_bandwidth_hz s)
    (sh_extra_buffer_frames s) (sh_max_diff_ticks s) (sh_local_node_id s) (sh_env s).
Definition sh_with_data_buffer (b : TimestampedBuffer) s : sp_shared E :=
  mkShared (sh_last_timestamp s) (sh_correct_last_timestamp s) b (sh_scratch_buffer s) (sh_ticks_per_frame s)
    (sh_dll_bandwidth_hz s) (sh_extra_buffer_frames s) (sh_max_diff_ticks s) (sh_local_node_id s) (sh_env s).
Definition sh_with_scratch (m : option (list Z)) s : sp_shared E :=
  mkShared (sh_last_timestamp s) (sh_correct_last_timestamp s) (sh_data_buffer s) m (sh_ticks_per_frame s)
    (sh_dll_bandwidth_hz s) (sh_extra_buffer_frames s) (sh_max_diff_ticks s) (sh_local_node_id s) (sh_env s).
Definition sh_with_settings (tpf bw : float) (extra : Z) s : sp_shared E :=
  mkShared (sh_last_timestamp s) (sh_correct_last_timestamp s) (sh_data_buffer s) (sh_scratch_buffer s) tpf bw
    extra (sh_max_diff_ticks s) (sh_local_node_id s) (sh_env s).
Definition sh_with_local_node_id (n : Z) s : sp_shared E :=
  mkShared (sh_last_timestamp s) (sh_correct_last_timestamp s) (sh_data_buffer s) (sh_scratch_buffer s)
    (sh_ticks_per_frame s) (sh_dll_bandwidth_hz s) (sh_extra_buffer_frames s) (sh_max_diff_ticks s) n (sh_env s).
Definition sh_with_env (e : E) s : sp_shared E :=
  mkShared (sh_last_timestamp s) (sh_correct_last_timestamp s) (sh_data_buffer s) (sh_scratch_buffer s)
    (sh_ticks_per_frame s) (sh_dll_bandwidth_hz s) (sh_extra_buffer_frames s) (sh_max_diff_ticks s)
    (sh_local_node_id s) e.
End shared_updates.

(** ** Interfaces *)

(** The stream processor manager, the iso handler manager, the 1394 service
    and the ports.  An operation with a result that can fail returns it with
    the new environment. *)
Class SPEnv (E : Type) := {
  signalActivity : E -> E;
  signalActivityTransmit : E -> E;
  signalActivityReceive : E -> E;
  spm_getNominalRate : E -> Z;
  spm_getPeriodSize : E -> Z;
  spm_getNbBuffers : E -> Z;
  spm_syncSource_getTicksPerFrame : E -> float;
  spm_registerProcessor : E -> bool * E;
  ihm_registerStream : E -> bool * E;
  ihm_startHandlerForStream : Z -> E -> bool * E;
  ihm_stopHandlerForStream : E -> bool * E;
  ihm_getPacketLatencyForStream : E -> Z;
  service_getCycleTimerTicks : E -> Z * E;
  service_getLocalNodeId : E -> Z;
  ports_setBufferSize : Z -> E -> bool * E;
  ports_initPorts : E -> bool * E;
  ports_preparePorts : E -> bool * E;
  ports_provideSilenceBlock : Z -> Z -> E -> option (bool * E) }.

(** The virtual functions of a subclass. *)
Class SPChild (E : Type) := {
  getEventsPerFrame : E -> Z;
  getEventSize : E -> Z;
  getNominalFramesPerPacket : E -> Z;
  prepareChild : sp_shared E -> option (bool * sp_shared E);
  processPacketHeader : list Z -> Z -> Z -> Z -> Z -> sp_shared E -> option (eChildReturnValue * sp_shared E);
  processPacketData : list Z -> Z -> sp_shared E -> option (eChildReturnValue * sp_shared E);
  generatePacketHeader : iso_packet -> Z -> sp_shared E -> option (eChildReturnValue * iso_packet * sp_shared E);
  generatePacketData : iso_packet -> sp_shared E -> option (eChildReturnValue * iso_packet * sp_shared E);
  generateEmptyPacketHeader : iso_packet -> Z -> sp_shared E -> option (eChildReturnValue * iso_packet * sp_shared E);
  generateEmptyPacketData : iso_packet -> sp_shared E -> option (eChildReturnValue * iso_packet * sp_shared E);
  generateSilentPacketHeader : iso_packet -> Z -> sp_shared E -> option (eChildReturnValue * iso_packet * sp_shared E);
  generateSilentPacketData : iso_packet -> sp_shared E -> option (eChildReturnValue * iso_packet * sp_shared E);
  processReadBlock : list Z -> Z -> Z -> E -> option (bool * E);
  processWriteBlock : list Z -> Z -> Z -> E -> option (bool * list Z * E);
  transmitSilenceBlock : list Z -> Z -> Z -> E -> option (bool * list Z * E) }.

(** ** The monad of the handlers *)

Definition SPM (E A : Type) : Type := StreamProcessor E -> option (A * StreamProcessor E).

#[export] Instance SPM_ret E : MRet (SPM E) := fun A x sp => Some (x, sp).
#[export] Instance SPM_bind E : MBind (SPM E) :=
  fun A B f m sp => match m sp with Some (x, sp1) => f x sp1 | None => None end.

Definition SPM_fail {E A} : SPM E A := fun _ => None.

Definition gets_core {E A} (f : sp_core -> A) : SPM E A := fun sp => Some (f (sp_private sp), sp).
Definition gets {E A} (f : sp_shared E -> A) : SPM E A := fun sp => Some (f (sp_protected sp), sp).
Definition mod_core {E} (f : sp_core -> sp_core) : SPM E () :=
  fun sp => Some ((), mkSP (f (sp_private sp)) (sp_protected sp)).
Definition mod_shared {E} (f : sp_shared E -> sp_shared E) : SPM E () :=
  fun sp => Some ((), mkSP (sp_private sp) (f (sp_protected sp))).

(** a call of the subclass, of the buffer, of the environment *)
Definition on_child {E A} (f : sp_shared E -> option (A * sp_shared E)) : SPM E A :=
  fun sp => '(x, s) ← f (sp_protected sp); Some (x, mkSP (sp_private sp) s).
Definition on_buffer {E A} (f : TimestampedBuffer -> option (A * TimestampedBuffer)) : SPM E A :=
  on_child (fun s => '(x, b) ← f (sh_data_buffer s); Some (x, sh_with_data_buffer b s)).
Definition on_env {E A} (f : E -> A * E) : SPM E A :=
  on_child (fun s => let '(x, e) := f (sh_env s) in Some (x, sh_with_env e s)).
Definition gets_env {E A} (f : E -> A) : SPM E A := gets (fun s => f (sh_env s)).

(** a void function of the buffer *)
Definition mod_buffer {E} (f : TimestampedBuffer -> TimestampedBuffer) : SPM E () :=
  on_buffer (fun b => Some ((), f b)).

Definition in_state {E} (s : eProcessorState) : SPM E bool := gets_core (fun c => bool_decide (sp_state c = s)).
Definition is_type {E} (t : eProcessorType) : SPM E bool := gets_core (fun c => bool_decide (sp_processor_type c = t)).
Definition set_state {E} (s : eProcessorState) : SPM E () := mod_core (core_with_state s).
Definition set_next_state {E} (s : eProcessorState) : SPM E () := mod_core (core_with_next_state s).

Section StreamProcessor.
Context {E : Type} `{SPEnv E} `{SPChild E}.

(** The debug build, and the memory that an allocation returns. *)
Variable DEBUG : bool.
Variable block : Z -> list Z.

Abbreviation M := (SPM E).

Definition SIGNAL_ACTIVITY_ALL : M () :=
  mod_shared (fun s => sh_with_env (signalActivityReceive (signalActivityTransmit (signalActivity (sh_env s)))) s).
Definition SIGNAL_ACTIVITY_ISO_XMIT : M () :=
  mod_shared (fun s => sh_with_env (signalActivityTransmit (sh_env s)) s).
Definition SIGNAL_ACTIVITY_ISO_RECV : M () :=
  mod_shared (fun s => sh_with_env (signalActivityReceive (sh_env s)) s).

(** ** Buffer management *)

Definition getNominalPacketsNeeded (nominal_frames_per_second nframes : Z) : Z :=
  let nominal_ticks_per_frame := TICKS_PER_SECOND / nominal_frames_per_second in
  let nominal_ticks := u64 (nominal_ticks_per_frame * nframes) in
  u32 (u64 (u64 (nominal_ticks + TICKS_PER_CYCLE) - 1) / TICKS_PER_CYCLE).

Definition getPacketsPerPeriod : M Z :=
  rate ← gets_env spm_getNominalRate; period ← gets_env spm_getPeriodSize;
  mret (getNominalPacketsNeeded rate period).

Definition getNbPacketsIsoXmitBuffer : M Z :=
  per_period ← getPacketsPerPeriod; nb ← gets_env spm_getNbBuffers;
  mret (u32 (u32 (per_period * nb) + 10)).

Definition getMaxFrameLatency : M Z :=
  n ← gets_env ihm_getPacketLatencyForStream; mret (s32 (u64 (n * TICKS_PER_CYCLE))).

(** [getNbBuffers() * getPeriodSize()], and the extra frames *)
Definition ringbuffer_size_frames : M Z :=
  nb ← gets_env spm_getNbBuffers; period ← gets_env spm_getPeriodSize; extra ← gets sh_extra_buffer_frames;
  mret (u32 (u32 (nb * period) + extra)).

Definition set_correct_last_timestamp (x : bool) : M () :=
  mod_shared (fun s => sh_with_timestamp (sh_last_timestamp s) x s).

Definition setupDataBuffer : M bool :=
  size ← ringbuffer_size_frames;
  set_correct_last_timestamp false;;
  r1 ← on_buffer (fun b => Some (setBufferSize (u32 (size + 1)) b));
  event_size ← gets_env getEventSize;
  r2 ← on_buffer (fun b => Some (setEventSize event_size b));
  events_per_frame ← gets_env getEventsPerFrame;
  r3 ← on_buffer (fun b => Some (setEventsPerFrame events_per_frame b));
  receive ← is_type ePT_Receive;
  update_period ← (if receive : bool then gets_env getNominalFramesPerPacket else gets_env spm_getPeriodSize);
  r4 ← on_buffer (fun b => Some (setUpdatePeriod update_period b));
  tpf ← gets sh_ticks_per_frame;
  if SFltb (f32_of_Z 0) tpf then
    r5 ← on_buffer (fun b => Some (setNominalRate tpf b));
    r6 ← on_buffer (fun b => Some (setWrapValue (f64_of_Z (128 * TICKS_PER_SECOND)) b));
    r7 ← on_buffer (fun b => Some (setBandwidth (f64_div STREAMPROCESSOR_DLL_FAST_BW_HZ (f64_of_Z TICKS_PER_SECOND)) b));
    r8 ← on_buffer (TimestampedBuffer.prepare block);
    mret (r1 && r2 && r3 && r4 && r5 && r6 && r7 && r8)
  else mret (r1 && r2 && r3 && r4).

Definition getTimeAtPeriod : M (option Z) :=
  receive ← is_type ePT_Receive; period ← gets_env spm_getPeriodSize; nb ← gets_env spm_getNbBuffers;
  gets (fun s =>
    to_uint 64 (if receive : bool then getTimestampFromHead (s32 period) (sh_data_buffer s)
                else getTimestampFromTail (s32 (u32 (u32 (nb - 1) * period))) (sh_data_buffer s))).

Definition getTicksPerFrame (s : sp_shared E) : float := getRate (sh_data_buffer s).

Definition setTicksPerFrame (tpf : float) : M () := mod_buffer (setRate tpf).

Definition setDllBandwidth (bw : float) : M bool :=
  mod_shared (fun s => sh_with_settings (sh_ticks_per_frame s) bw (sh_extra_buffer_frames s) s);; mret true.

Definition setExtraBufferFrames (frames : Z) : M () :=
  mod_shared (fun s => sh_with_settings (sh_ticks_per_frame s) (sh_dll_bandwidth_hz s) frames s).

Definition canClientTransferFrames (nbframes : Z) : M bool :=
  receive ← is_type ePT_Receive;
  gets (fun s =>
    let b := sh_data_buffer s in
    let fc := u32 (getFrameCounter b) in
    if receive : bool then nbframes <=? fc else (nbframes <? u32 (getBufferSize b - fc)) || isTransparent b).

(** ** State changes *)

(** The end of a state change. *)
Definition enter_state (s : eProcessorState) (result : bool) : M bool :=
  set_state s;; SIGNAL_ACTIVITY_ALL;; mret result.

Definition update_local_node_id : M () :=
  id ← gets_env service_getLocalNodeId; mod_shared (sh_with_local_node_id (Z.land id 0x3f)).

(** [(TICKS_PER_SECOND*1.0) / ((float)rate)], assigned to a [float] *)
Definition nominal_ticks_per_frame (rate : Z) : float :=
  f32_of_f64 (f64_div (f64_of_Z TICKS_PER_SECOND) (f64_of_f32 (f32_of_Z rate))).

Definition doStop : M bool :=
  state ← gets_core sp_state;
  entry ← (match state with
    | ePS_Created =>
        rate ← gets_env spm_getNominalRate;
        mod_shared (fun s => sh_with_settings (nominal_ticks_per_frame rate) (sh_dll_bandwidth_hz s)
          (sh_extra_buffer_frames s) s);;
        update_local_node_id;;
        set_correct_last_timestamp false;;
        r ← setupDataBuffer; mret (Some r)
    | ePS_DryRunning =>
        ok ← on_env ihm_stopHandlerForStream; mret (if ok : bool then Some true else None)
    | _ => mret None
    end : M (option bool));
  match entry with
  | None => mret false
  | Some r1 =>
      r2 ← on_buffer clearBuffer;
      mod_buffer (setTransparent true);;
      r3 ← on_env ports_preparePorts;
      enter_state ePS_Stopped (r1 && r2 && r3)
  end.

Definition doWaitForRunningStream : M bool :=
  state ← gets_core sp_state;
  match state with
  | ePS_Stopped => enter_state ePS_WaitingForStream true
  | _ => mret false
  end.

Definition doDryRunning : M bool :=
  state ← gets_core sp_state;
  match state with
  | ePS_WaitingForStream =>
      update_local_node_id;;
      receive ← is_type ePT_Receive;
      (if receive : bool then
         ts ← gets sh_last_timestamp; mod_buffer (setBufferTailTimestamp (f64_of_Z ts))
       else mret ());;
      enter_state ePS_DryRunning true
  | ePS_WaitingForStreamEnable =>
      r ← on_buffer clearBuffer;
      mod_buffer (setTransparent true);;
      enter_state ePS_DryRunning r
  | ePS_WaitingForStreamDisable =>
      r ← on_buffer clearBuffer;
      mod_buffer (setTransparent true);;
      mod_core (core_with_last_timestamp2 0);;
      mod_shared (fun s => sh_with_timestamp 0 (sh_correct_last_timestamp s) s);;
      enter_state ePS_DryRunning r
  | _ => mret false
  end.

(** [calloc(getEventSize(), nframes * getEventsPerFrame())] *)
Definition transferSilence (nframes : Z) : M bool :=
  event_size ← gets_env getEventSize; events_per_frame ← gets_env getEventsPerFrame;
  let size := u64 (event_size * u32 (nframes * events_per_frame)) in
  '(_, dummybuffer) ← on_child (fun s =>
    '(r, data, e) ← transmitSilenceBlock (replicate (Z.to_nat size) 0) nframes 0 (sh_env s);
    Some ((r, data), sh_with_env e s));
  on_buffer (preloadFrames nframes dummybuffer true).

Definition doWaitForStreamEnable : M bool :=
  size ← ringbuffer_size_frames;
  state ← gets_core sp_state;
  match state with
  | ePS_DryRunning =>
      resized ← on_buffer (resizeBuffer block (u32 (size + 1)));
      if negb resized then mret false
      else
        transmit ← is_type ePT_Transmit;
        filled ← (if transmit : bool then size ← ringbuffer_size_frames; transferSilence size else mret true);
        if negb filled then mret false else enter_state ePS_WaitingForStreamEnable true
  | _ => mret false
  end.

Definition doRunning : M bool :=
  state ← gets_core sp_state;
  match state with
  | ePS_WaitingForStreamEnable =>
      mod_core (core_with_in_xrun false);;
      update_local_node_id;;
      bw ← gets sh_dll_bandwidth_hz;
      r ← on_buffer (fun b => Some (setBandwidth (f64_div (f64_of_f32 bw) (f64_of_Z TICKS_PER_SECOND)) b));
      mod_buffer (setTransparent false);;
      mod_core (core_with_last_timestamp2 0);;
      enter_state ePS_Running r
  | _ => mret false
  end.

Definition doWaitForStreamDisable : M bool :=
  state ← gets_core sp_state;
  match state with
  | ePS_Running => enter_state ePS_WaitingForStreamDisable true
  | _ => mret false
  end.

(** both error exits: the failed transition is reported *)
Definition updateState_exit_with_error : M bool := SIGNAL_ACTIVITY_ALL;; mret false.

Definition updateState_attempt (do_it : M bool) : M bool :=
  result ← do_it;
  if result : bool then mret true else updateState_exit_with_error.

Definition updateState : M bool :=
  next_state ← gets_core sp_next_state;
  state ← gets_core sp_state;
  if bool_decide (state = next_state) then mret true
  else match state with
  | ePS_Created =>
      if bool_decide (next_state <> ePS_Stopped) then updateState_exit_with_error
      else updateState_attempt doStop
  | ePS_Stopped =>
      if bool_decide (next_state <> ePS_WaitingForStream) then updateState_exit_with_error
      else updateState_attempt doWaitForRunningStream
  | ePS_WaitingForStream =>
      if bool_decide (next_state <> ePS_DryRunning) then updateState_exit_with_error
      else updateState_attempt doDryRunning
  | ePS_DryRunning =>
      if bool_decide (next_state <> ePS_Stopped) && bool_decide (next_state <> ePS_WaitingForStreamEnable)
      then updateState_exit_with_error
      else if bool_decide (next_state = ePS_Stopped) then updateState_attempt doStop
      else updateState_attempt doWaitForStreamEnable
  | ePS_WaitingForStreamEnable =>
      if bool_decide (next_state <> ePS_DryRunning) && bool_decide (next_state <> ePS_Running)
      then updateState_exit_with_error
      else if bool_decide (next_state = ePS_DryRunning) then updateState_attempt doDryRunning
      else updateState_attempt doRunning
  | ePS_Running =>
      if bool_decide (next_state <> ePS_WaitingForStreamDisable) then updateState_exit_with_error
      else updateState_attempt doWaitForStreamDisable
  | ePS_WaitingForStreamDisable =>
      if bool_decide (next_state <> ePS_DryRunning) then updateState_exit_with_error
      else updateState_attempt doDryRunning
  | ePS_Invalid | ePS_Error => updateState_exit_with_error
  end.

(** ** Initialisation *)

Definition init : M bool :=
  ok ← on_env ihm_registerStream;
  if negb ok then mret false
  else
    ok ← on_env spm_registerProcessor;
    if negb ok then mret false else set_next_state ePS_Created;; mret true.

Definition periodSizeChanged (new_periodsize : Z) : M bool :=
  state ← gets_core sp_state;
  if bool_decide (state <> ePS_Stopped) && bool_decide (state <> ePS_Created) then mret false
  else
    events_per_frame ← gets_env getEventsPerFrame; event_size ← gets_env getEventSize;
    let bytes := u32 (u32 (new_periodsize * events_per_frame) * event_size) in
    mod_shared (sh_with_scratch (Some (block bytes)));;
    period ← gets_env spm_getPeriodSize;
    ok ← on_env (ports_setBufferSize period);
    if negb ok then mret false
    else
      ok ← setupDataBuffer;
      if negb ok then mret false else updateState.

Definition prepare : M bool :=
  period ← gets_env spm_getPeriodSize;
  ok ← periodSizeChanged period;
  if negb ok then mret false
  else
    ok ← on_env ports_initPorts;
    if negb ok then mret false
    else
      ok ← on_child prepareChild;
      if negb ok then mret false else set_next_state ePS_Stopped;; updateState.

(** ** Requests *)

Definition scheduleStateTransition (state : eProcessorState) (time_instant : Z) : M bool :=
  mod_core (core_with_cycle (u32 (TICKS_TO_CYCLES time_instant)));;
  set_next_state state;;
  SIGNAL_ACTIVITY_ALL;;
  mret true.

(** [t], or [cycles] from now for a negative [t] *)
Definition switch_time (t cycles : Z) : M Z :=
  if t <? 0 then
    now ← on_env service_getCycleTimerTicks; mret (addTicks now (cycles * TICKS_PER_CYCLE))
  else mret t.

(** a debug build also reads the cycle timer to print it *)
Definition debug_now : M () :=
  if DEBUG then (_ ← on_env service_getCycleTimerTicks; mret ()) else mret ().

Definition scheduleStartDryRunning (t : Z) : M bool :=
  tx ← switch_time t 200;
  let start_handler_ticks := substractTicks tx (100 * TICKS_PER_CYCLE) in
  debug_now;;
  state ← gets_core sp_state;
  match state with
  | ePS_Stopped =>
      ok ← on_env (ihm_startHandlerForStream (TICKS_TO_CYCLES start_handler_ticks));
      if negb ok then mret false else scheduleStateTransition ePS_WaitingForStream tx
  | ePS_Running => scheduleStateTransition ePS_WaitingForStreamDisable tx
  | ePS_DryRunning => mret true
  | ePS_WaitingForStreamEnable => scheduleStateTransition ePS_DryRunning tx
  | ePS_WaitingForStreamDisable => mret true
  | _ => mret false
  end.

Definition scheduleStartRunning (t : Z) : M bool :=
  tx ← switch_time t 200; debug_now;; scheduleStateTransition ePS_WaitingForStreamEnable tx.

Definition scheduleStopDryRunning (t : Z) : M bool :=
  tx ← switch_time t 2000; debug_now;; scheduleStateTransition ePS_Stopped tx.

Definition scheduleStopRunning (t : Z) : M bool :=
  tx ← switch_time t 2000; debug_now;; scheduleStateTransition ePS_WaitingForStreamDisable tx.

(** What the other threads do while [waitForState] sleeps for a millisecond. *)
Section waiting.
Variable others : StreamProcessor E -> option (StreamProcessor E).

(** [cnt] is the counter of the loop *)
Fixpoint waitForState (state : eProcessorState) (cnt : nat) : M bool :=
  fun sp =>
    match cnt with
    | O => Some (false, sp)
    | S cnt' =>
        if bool_decide (sp_state (sp_private sp) = state) then Some (true, sp)
        else sp1 ← others sp; waitForState state cnt' sp1
    end.

(** the four blocking requests *)
Definition request_and_wait (state : eProcessorState) (schedule : M bool) : M bool :=
  already ← in_state state;
  if already : bool then mret true
  else ok ← schedule; if negb ok then mret false else waitForState state 2000.

Definition startDryRunning (t : Z) : M bool := request_and_wait ePS_DryRunning (scheduleStartDryRunning t).
Definition startRunning (t : Z) : M bool := request_and_wait ePS_Running (scheduleStartRunning t).
Definition stopDryRunning (t : Z) : M bool := request_and_wait ePS_Stopped (scheduleStopDryRunning t).
Definition stopRunning (t : Z) : M bool := request_and_wait ePS_DryRunning (scheduleStopRunning t).
End waiting.

(** ** Events *)

(** [handleBusReset] is this between the lock and the unlock of the wait loop *)
Definition handleBusResetDo : M bool :=
  set_state ePS_Error;; mod_core (core_with_in_xrun true);; SIGNAL_ACTIVITY_ALL;; mret true.

Definition handlerDied : M () :=
  set_state ePS_Stopped;; mod_core (core_with_in_xrun true);; SIGNAL_ACTIVITY_ALL.

Definition packetsStopped : M () := set_state ePS_Stopped;; set_next_state ePS_Stopped.

(** ** Packets *)

(** the cycle of a packet has reached the scheduled one *)
Definition cycle_reached (pkt_ctr : Z) : M bool :=
  gets_core (fun c => 0 <=? diffCycles (CYCLE_TIMER_GET_CYCLES pkt_ctr) (sp_cycle_to_switch_state c)).

(** a change of state that the packet loop makes itself *)
Definition switch_to (s : eProcessorState) : M bool := set_next_state s;; updateState.

(** an xrun: stop in the next cycle *)
Definition switch_to_disable (pkt_ctr : Z) : M bool :=
  mod_core (core_with_cycle (u32 (CYCLE_TIMER_GET_CYCLES pkt_ctr + 1)));;
  switch_to ePS_WaitingForStreamDisable.

Definition set_in_xrun : M () := mod_core (core_with_in_xrun true).

Definition disposition (ok : bool) (d : raw1394_iso_disposition) : raw1394_iso_disposition :=
  if ok then d else RAW1394_ISO_ERROR.

(** A pending request is executed. *)
Definition pending_change : M bool :=
  state ← gets_core sp_state; next_state ← gets_core sp_next_state;
  if bool_decide (state <> next_state) then updateState else mret true.

(** The repair in debug builds: two timestamps that are more than
    [m_max_diff_ticks] away from the period of a packet, where one second more
    or less brings them within 50 ticks.  The conversion of the period to
    [int] is undefined when it does not fit. *)
Definition debug_fix_timestamp : M () :=
  if negb DEBUG then mret ()
  else
    ts2 ← gets_core sp_last_timestamp2;
    on_child (fun s =>
      let ts := sh_last_timestamp s in
      if (0 <? ts) && (0 <? ts2) then
        ticks_per_packet ← to_int 32 (f32_mul (getTicksPerFrame s) (f32_of_Z (getNominalFramesPerPacket (sh_env s))));
        let off fixed := s32 (s32 (diffTicks fixed ts2) - ticks_per_packet) in
        let near fixed := (off fixed <? 50) && (-50 <? off fixed) in
        let set fixed := sh_with_timestamp fixed (sh_correct_last_timestamp s) s in
        if (sh_max_diff_ticks s <? off ts) || (off ts <? - sh_max_diff_ticks s) then
          let plus := addTicks ts TICKS_PER_SECOND in
          let minus := substractTicks ts TICKS_PER_SECOND in
          if near plus then Some ((), set plus)
          else if near minus then Some ((), set minus)
          else Some ((), s)
        else Some ((), s)
      else Some ((), s)).

(** After dropped cycles the tail timestamp is set from the packet. *)
Definition correct_tail_timestamp : M () :=
  correct ← gets sh_correct_last_timestamp;
  if negb correct then mret ()
  else
    s ← gets id;
    match to_uint 64 (f32_mul (f32_of_Z (getNominalFramesPerPacket (sh_env s))) (getTicksPerFrame s)) with
    | None => SPM_fail
    | Some ticks =>
        mod_buffer (setBufferTailTimestamp (f64_of_Z (substractTicks (sh_last_timestamp s) ticks)));;
        set_correct_last_timestamp false
    end.

(** [putPacket] from the call of [processPacketData] on *)
Definition putPacket_data (data : list Z) (length pkt_ctr : Z) : M raw1394_iso_disposition :=
  result2 ← on_child (processPacketData data length);
  match result2 with
  | eCRV_XRun =>
      set_in_xrun;;
      ok ← switch_to_disable pkt_ctr; mret (disposition ok RAW1394_ISO_DEFER)
  | eCRV_OK => mret RAW1394_ISO_OK
  | _ => mret RAW1394_ISO_ERROR
  end.

(** a packet with a good header: the state of the stream decides *)
Definition putPacket_dispatch (data : list Z) (length pkt_ctr : Z) : M raw1394_iso_disposition :=
  waiting ← in_state ePS_WaitingForStream;
  if waiting : bool then
    reached ← cycle_reached pkt_ctr;
    if reached : bool then ok ← switch_to ePS_DryRunning; mret (disposition ok RAW1394_ISO_OK)
    else mret RAW1394_ISO_OK
  else
    ok ← pending_change;
    if negb ok then mret RAW1394_ISO_ERROR
    else
      waiting ← in_state ePS_WaitingForStream;
      if waiting : bool then mret RAW1394_ISO_OK else putPacket_data data length pkt_ctr.

(** [putPacket] for a packet with a good header *)
Definition putPacket_good (data : list Z) (length pkt_ctr : Z) : M raw1394_iso_disposition :=
  debug_fix_timestamp;;
  correct_tail_timestamp;;
  putPacket_dispatch data length pkt_ctr.

(** the treatment of dropped cycles *)
Definition putPacket_dropped (dropped_cycles pkt_ctr : Z) : M bool :=
  if dropped_cycles =? 0 then mret true
  else
    set_correct_last_timestamp true;;
    running ← in_state ePS_Running;
    if running : bool then set_in_xrun;; switch_to_disable pkt_ctr else mret true.

(** the header and what follows it *)
Definition putPacket_header (data : list Z) (length tag sy pkt_ctr dropped_cycles : Z) : M raw1394_iso_disposition :=
  result ← on_child (processPacketHeader data length tag sy pkt_ctr);
  ok ← putPacket_dropped dropped_cycles pkt_ctr;
  if negb ok then mret RAW1394_ISO_ERROR
  else match result with
  | eCRV_OK => putPacket_good data length pkt_ctr
  | eCRV_Invalid => mret RAW1394_ISO_OK
  | _ => mret RAW1394_ISO_ERROR
  end.

Definition putPacket (data : list Z) (length tag sy pkt_ctr dropped_cycles : Z) : M raw1394_iso_disposition :=
  state ← gets_core sp_state;
  next_state ← gets_core sp_next_state;
  if DEBUG && bool_decide (state = ePS_Invalid) then mret RAW1394_ISO_ERROR
  else if bool_decide (state = ePS_Created) then mret RAW1394_ISO_DEFER
  else if bool_decide (state = ePS_Error) then mret RAW1394_ISO_OK
  else
    ts ← gets sh_last_timestamp;
    mod_core (core_with_last_timestamp2 ts);;
    if bool_decide (state = ePS_WaitingForStreamDisable) then
      reached ← cycle_reached pkt_ctr;
      ok ← (if reached : bool then switch_to ePS_DryRunning else mret true);
      mret (disposition ok RAW1394_ISO_OK)
    else if bool_decide (state = ePS_WaitingForStreamEnable) && bool_decide (next_state = ePS_WaitingForStreamEnable) then
      reached ← cycle_reached pkt_ctr;
      ok ← (if reached : bool then switch_to ePS_Running else mret true);
      if negb ok then mret RAW1394_ISO_ERROR
      else putPacket_header data length tag sy pkt_ctr dropped_cycles
    else putPacket_header data length tag sy pkt_ctr dropped_cycles.

(** a generator of the subclass *)
Definition generate {A} (f : sp_shared E -> option (A * iso_packet * sp_shared E)) : M (A * iso_packet) :=
  on_child (fun s => '(x, p, s') ← f s; Some ((x, p), s')).

Definition generate_empty (p : iso_packet) (pkt_ctr : Z) : M iso_packet :=
  '(_, p1) ← generate (generateEmptyPacketHeader p pkt_ctr);
  '(_, p2) ← generate (generateEmptyPacketData p1);
  mret p2.

(** [send_empty_packet:] *)
Definition send_empty_packet (p : iso_packet) (pkt_ctr : Z) : M (raw1394_iso_disposition * iso_packet) :=
  ok ← pending_change;
  if negb ok then mret (RAW1394_ISO_ERROR, p)
  else p1 ← generate_empty p pkt_ctr; mret (RAW1394_ISO_OK, p1).

(** A change of state, then the empty packet. *)
Definition switch_and_send_empty (change : M bool) (p : iso_packet) (pkt_ctr : Z)
  : M (raw1394_iso_disposition * iso_packet) :=
  ok ← change;
  if negb ok then mret (RAW1394_ISO_ERROR, p) else send_empty_packet p pkt_ctr.

(** waiting for the stream to be disabled *)
Definition getPacket_disabling (p : iso_packet) (pkt_ctr : Z) : M (raw1394_iso_disposition * iso_packet) :=
  reached ← cycle_reached pkt_ctr;
  ok ← (if reached : bool then switch_to ePS_DryRunning else mret true);
  if negb ok then mret (RAW1394_ISO_ERROR, p)
  else
    '(result, p1) ← generate (generateSilentPacketHeader p pkt_ctr);
    match result with
    | eCRV_Packet => '(_, p2) ← generate (generateSilentPacketData p1); mret (RAW1394_ISO_OK, p2)
    | eCRV_EmptyPacket => send_empty_packet p1 pkt_ctr
    | _ => mret (RAW1394_ISO_ERROR, p1)
    end.

(** running; [prev_timestamp] is the timestamp of the previous packet *)
Definition getPacket_running (prev_timestamp : Z) (p : iso_packet) (pkt_ctr : Z)
  : M (raw1394_iso_disposition * iso_packet) :=
  '(result, p1) ← generate (generatePacketHeader p pkt_ctr);
  match result with
  | eCRV_Packet | eCRV_Defer =>
      mod_core (core_with_last_timestamp2 prev_timestamp);;
      ok ← pending_change;
      if negb ok then mret (RAW1394_ISO_ERROR, p1)
      else
        '(result2, p2) ← generate (generatePacketData p1);
        if bool_decide (result2 = eCRV_XRun) then
          set_in_xrun;; switch_and_send_empty (switch_to_disable pkt_ctr) p2 pkt_ctr
        else if bool_decide (result2 = eCRV_Defer) || bool_decide (result = eCRV_Defer) then
          mret (RAW1394_ISO_DEFER, p2)
        else mret (RAW1394_ISO_OK, p2)
  | eCRV_XRun => set_in_xrun;; switch_and_send_empty (switch_to_disable pkt_ctr) p1 pkt_ctr
  | eCRV_EmptyPacket => switch_and_send_empty pending_change p1 pkt_ctr
  | eCRV_Again =>
      ok ← pending_change;
      if negb ok then mret (RAW1394_ISO_ERROR, p1)
      else p2 ← generate_empty p1 pkt_ctr; mret (RAW1394_ISO_DEFER, p2)
  | _ => mret (RAW1394_ISO_ERROR, p1)
  end.

(** [getPacket] after the checks of the state and of the dropped cycles *)
Definition getPacket_normal (p : iso_packet) (pkt_ctr : Z) : M (raw1394_iso_disposition * iso_packet) :=
  prev_timestamp ← gets sh_last_timestamp;
  state ← gets_core sp_state;
  next_state ← gets_core sp_next_state;
  if bool_decide (state = ePS_WaitingForStreamDisable) then getPacket_disabling p pkt_ctr
  else if bool_decide (state = ePS_WaitingForStreamEnable) && bool_decide (next_state = ePS_WaitingForStreamEnable) then
    reached ← cycle_reached pkt_ctr;
    switch_and_send_empty (if reached : bool then switch_to ePS_Running else mret true) p pkt_ctr
  else if bool_decide (state = ePS_WaitingForStream) then
    reached ← cycle_reached pkt_ctr;
    switch_and_send_empty (if reached : bool then switch_to ePS_DryRunning else mret true) p pkt_ctr
  else if bool_decide (state = ePS_Running) then getPacket_running prev_timestamp p pkt_ctr
  else send_empty_packet p pkt_ctr.

Definition getPacket (data : list Z) (length tag sy pkt_ctr dropped_cycles : Z)
  : M (raw1394_iso_disposition * iso_packet) :=
  let p := mkPacket data length tag sy in
  if pkt_ctr =? 0xFFFFFFFF then mret (RAW1394_ISO_OK, mkPacket data 0 0 0)
  else
    state ← gets_core sp_state;
    if bool_decide (state = ePS_Error) then mret (RAW1394_ISO_OK, p)
    else
      let normal : M (raw1394_iso_disposition * iso_packet) :=
        if DEBUG && bool_decide (state = ePS_Invalid) then mret (RAW1394_ISO_ERROR, p)
        else if bool_decide (state = ePS_Created) then mret (RAW1394_ISO_DEFER, mkPacket data 0 0 0)
        else getPacket_normal p pkt_ctr in
      if 0 <? dropped_cycles then
        set_in_xrun;;
        if bool_decide (state = ePS_Running) then switch_and_send_empty (switch_to_disable pkt_ctr) p pkt_ctr
        else normal
      else normal.

(** ** Frames *)

Definition blockRead (nbframes : Z) : M bool :=
  on_child (fun s =>
    '(r, b, e) ← blockProcessReadFrames processReadBlock nbframes (sh_data_buffer s) (sh_env s);
    Some (r, sh_with_env e (sh_with_data_buffer b s))).

Definition blockWrite (nbframes : Z) (ts : float) : M bool :=
  on_child (fun s =>
    '(r, b, e) ← blockProcessWriteFrames processWriteBlock nbframes ts (sh_data_buffer s) (sh_env s);
    Some (r, sh_with_env e (sh_with_data_buffer b s))).

(** a debug build asserts that the rate of the sync source is not zero *)
Definition getFramesWet (nbframes ts : Z) : M bool :=
  srate ← gets_env spm_syncSource_getTicksPerFrame;
  if DEBUG && SFeqb srate (f32_of_Z 0) then SPM_fail
  else _ ← blockRead nbframes; mret true.

Definition getFramesDry (nbframes ts : Z) : M bool :=
  on_child (fun s =>
    '(r, e) ← ports_provideSilenceBlock nbframes 0 (sh_env s); Some (r, sh_with_env e s)).

Definition getFrames (nbframes ts : Z) : M bool :=
  receive ← is_type ePT_Receive;
  if negb receive then SPM_fail
  else
    dry ← in_state ePS_DryRunning;
    result ← (if dry : bool then getFramesDry nbframes ts else getFramesWet nbframes ts);
    SIGNAL_ACTIVITY_ISO_RECV;; mret result.

Definition dropFrames (nbframes ts : Z) : M bool :=
  result ← on_buffer (TimestampedBuffer.dropFrames nbframes);
  SIGNAL_ACTIVITY_ISO_RECV;; mret result.

(** the timestamp is converted to the type of the buffer *)
Definition putFramesWet (nbframes ts : Z) : M bool := _ ← blockWrite nbframes (f64_of_Z ts); mret true.

Definition putFramesDry (nbframes ts : Z) : M bool := mret true.

Definition putFrames (nbframes ts : Z) : M bool :=
  transmit ← is_type ePT_Transmit;
  if negb transmit then SPM_fail
  else
    dry ← in_state ePS_DryRunning;
    result ← (if dry : bool then putFramesDry nbframes ts else putFramesWet nbframes ts);
    SIGNAL_ACTIVITY_ISO_XMIT;; mret result.

(** a division by zero and a missing scratch buffer are undefined *)
Definition putSilenceFrames (nbframes ts : Z) : M bool :=
  s ← gets id;
  let bytes_per_frame := u32 (getEventSize (sh_env s) * getEventsPerFrame (sh_env s)) in
  if bytes_per_frame =? 0 then SPM_fail
  else match sh_scratch_buffer s with
  | None => SPM_fail
  | Some scratch =>
      ok ← on_child (fun s =>
        '(r, data, e) ← transmitSilenceBlock scratch nbframes 0 (sh_env s);
        Some (r, sh_with_env e (sh_with_scratch (Some data) s)));
      if negb ok then mret false
      else
        data ← gets sh_scratch_buffer;
        ok ← on_buffer (writeFrames nbframes (default [] data) (f64_of_Z ts));
        if negb ok then mret false else SIGNAL_ACTIVITY_ISO_XMIT;; mret true
  end.

(** frames are dropped, never added: [return false] comes before the loop *)
Definition shiftStream (nbframes : Z) : M bool :=
  if nbframes =? 0 then mret true
  else if 0 <? nbframes then
    result ← on_buffer (TimestampedBuffer.dropFrames nbframes);
    SIGNAL_ACTIVITY_ALL;; mret result
  else mret false.

Definition canProduce (nframes : Z) : M bool :=
  c ← gets_core id;
  if sp_in_xrun c then mret true
  else if bool_decide (sp_state c = ePS_Running) && bool_decide (sp_next_state c = ePS_Running) then
    gets (fun s => nframes <=? getBufferSpace (sh_data_buffer s))
  else mret (negb (bool_decide (sp_processor_type c = ePT_Transmit))).

Definition canConsume (nframes : Z) : M bool :=
  c ← gets_core id;
  if sp_in_xrun c then mret true
  else if bool_decide (sp_state c = ePS_Running) && bool_decide (sp_next_state c = ePS_Running) then
    gets (fun s => nframes <=? getBufferFill (sh_data_buffer s))
  else mret (bool_decide (sp_processor_type c = ePT_Transmit)).

Definition canProducePacket : M bool := n ← gets_env getNominalFramesPerPacket; canProduce n.
Definition canProducePeriod : M bool := n ← gets_env spm_getPeriodSize; canProduce n.
Definition canConsumePacket : M bool := n ← gets_env getNominalFramesPerPacket; canConsume n.
Definition canConsumePeriod : M bool := n ← gets_env spm_getPeriodSize; canConsume n.

(** ** What an operation keeps

    [Keeps I m]: a property of the state is preserved.  The instances below
    carry it through the monad, so that it is proved per operation. *)

Class Keeps {A} (I : StreamProcessor E -> StreamProcessor E -> Prop) (m : M A) : Prop :=
  keeps : forall sp x sp1, m sp = Some (x, sp1) -> I sp sp1.

Lemma bind_inv {A B} (m : M A) (f : A -> M B) sp y sp2 :
  (m ≫= f) sp = Some (y, sp2) -> exists x sp1, m sp = Some (x, sp1) /\ f x sp1 = Some (y, sp2).
Proof. unfold mbind, SPM_bind. destruct (m sp) as [[x sp1]|]; [|done]. intros. by exists x, sp1. Qed.

#[local] Instance keeps_bind {A B} I (m : M A) (f : A -> M B) :
  Transitive I -> Keeps I m -> (forall x, Keeps I (f x)) -> Keeps I (m ≫= f).
Proof. intros HT Hm Hf sp y sp2 (x & sp1 & H1 & H2)%bind_inv. etransitivity; [by eapply Hm|by eapply Hf]. Qed.

#[local] Instance keeps_ret {A} I (x : A) : Reflexive I -> Keeps I (mret x : M A).
Proof. intros HR sp y sp1 [= <- <-]. done. Qed.

#[local] Instance keeps_fail {A} I : Keeps I (@SPM_fail E A).
Proof. intros sp y sp1 [=]. Qed.

#[local] Instance keeps_gets {A} I (f : sp_shared E -> A) : Reflexive I -> Keeps I (gets f).
Proof. intros HR sp y sp1 [= <- <-]. done. Qed.

#[local] Instance keeps_gets_env {A} I (f : E -> A) : Reflexive I -> Keeps I (gets_env f).
Proof. intros HR sp y sp1 [= <- <-]. done. Qed.

#[local] Instance keeps_gets_core {A} I (f : sp_core -> A) : Reflexive I -> Keeps I (gets_core f).
Proof. intros HR sp y sp1 [= <- <-]. done. Qed.

#[local] Instance keeps_if {A} I (b : bool) (m n : M A) : Keeps I m -> Keeps I n -> Keeps I (if b then m else n).
Proof. by destruct b. Qed.

(** *** The private fields *)

Definition same_core (sp sp1 : StreamProcessor E) : Prop := sp_private sp1 = sp_private sp.

#[local] Instance same_core_preorder : PreOrder same_core.
Proof. split; [done|]. intros x y z. unfold same_core. congruence. Qed.

#[local] Instance keeps_core_on_child {A} (f : sp_shared E -> option (A * sp_shared E)) : Keeps same_core (on_child f).
Proof. intros sp x sp1. unfold on_child. destruct (f _) as [[y s]|]; [|done]. by intros [= <- <-]. Qed.

#[local] Instance keeps_core_mod_shared (f : sp_shared E -> sp_shared E) : Keeps same_core (mod_shared f).
Proof. intros sp x sp1 [= <- <-]. done. Qed.

(** *** The mode of the buffer *)

Definition transparent (sp : StreamProcessor E) : bool := isTransparent (sh_data_buffer (sp_protected sp)).

(** the state and the mode of the buffer are unchanged *)
Definition same_mode (sp sp1 : StreamProcessor E) : Prop :=
  sp_state (sp_private sp1) = sp_state (sp_private sp) /\ transparent sp1 = transparent sp.

#[local] Instance same_mode_preorder : PreOrder same_mode.
Proof. split; [done|]. intros x y z [] []. split; congruence. Qed.

(** a call that does not switch the mode of the buffer *)
Class KeepsTransparent {A} (f : sp_shared E -> option (A * sp_shared E)) : Prop :=
  keeps_transparent : forall s x s1, f s = Some (x, s1) ->
    isTransparent (sh_data_buffer s1) = isTransparent (sh_data_buffer s).

(** What the subclass promises: it leaves the mode of the buffer alone. *)
Class SPChildLaws : Prop := {
  law_prepareChild :: KeepsTransparent prepareChild;
  law_processPacketHeader data n tag sy ctr :: KeepsTransparent (processPacketHeader data n tag sy ctr);
  law_processPacketData data n :: KeepsTransparent (processPacketData data n);
  law_generatePacketHeader p ctr :: KeepsTransparent (generatePacketHeader p ctr);
  law_generatePacketData p :: KeepsTransparent (generatePacketData p);
  law_generateEmptyPacketHeader p ctr :: KeepsTransparent (generateEmptyPacketHeader p ctr);
  law_generateEmptyPacketData p :: KeepsTransparent (generateEmptyPacketData p);
  law_generateSilentPacketHeader p ctr :: KeepsTransparent (generateSilentPacketHeader p ctr);
  law_generateSilentPacketData p :: KeepsTransparent (generateSilentPacketData p) }.

#[local] Instance keeps_mode_on_child {A} (f : sp_shared E -> option (A * sp_shared E)) :
  KeepsTransparent f -> Keeps same_mode (on_child f).
Proof.
  intros Hf sp x sp1. unfold on_child. destruct (f _) as [[y s]|] eqn:Hs; [|done].
  intros [= <- <-]. split; [done|]. by apply Hf in Hs.
Qed.

#[local] Instance keeps_mode_generate {A} (f : sp_shared E -> option (A * iso_packet * sp_shared E)) :
  KeepsTransparent f -> Keeps same_mode (generate f).
Proof.
  intros Hf. apply keeps_mode_on_child. intros s x s1 Hs.
  destruct (f s) as [[[y p] s2]|] eqn:Hf'; [|done]. cbn in Hs. injection Hs as <- <-. by apply Hf in Hf'.
Qed.

Lemma keeps_mode_on_buffer {A} (f : TimestampedBuffer -> option (A * TimestampedBuffer)) :
  (forall b x b1, f b = Some (x, b1) -> tb_transparent b1 = tb_transparent b) -> Keeps same_mode (on_buffer f).
Proof.
  intros Hf. apply keeps_mode_on_child. intros s x s1 Hs.
  destruct (f (sh_data_buffer s)) as [[y b]|] eqn:Hb; [|done]. cbn in Hs. injection Hs as <- <-. by apply Hf in Hb.
Qed.

Lemma keeps_mode_on_buffer_total {A} (f : TimestampedBuffer -> A * TimestampedBuffer) :
  (forall b, tb_transparent (snd (f b)) = tb_transparent b) -> Keeps same_mode (on_buffer (fun b => Some (f b))).
Proof.
  intros Hf. apply keeps_mode_on_buffer. intros b x b1 Hb. specialize (Hf b). injection Hb as Hb. by rewrite Hb in Hf.
Qed.

#[local] Instance keeps_mode_on_env {A} (f : E -> A * E) : Keeps same_mode (on_env f).
Proof. apply keeps_mode_on_child. intros s x s1. destruct (f (sh_env s)). by intros [= <- <-]. Qed.

Lemma keeps_mode_mod_shared (f : sp_shared E -> sp_shared E) :
  (forall s, isTransparent (sh_data_buffer (f s)) = isTransparent (sh_data_buffer s)) -> Keeps same_mode (mod_shared f).
Proof. intros Hf sp x sp1 [= <- <-]. split; [done|apply Hf]. Qed.

Lemma keeps_mode_mod_core (f : sp_core -> sp_core) :
  (forall c, sp_state (f c) = sp_state c) -> Keeps same_mode (mod_core f).
Proof. intros Hf sp x sp1 [= <- <-]. split; [apply Hf|done]. Qed.

(** [keeps_tac]: the structure of an operation; what is left are the calls
    that are not covered by an instance. *)
Ltac keeps_tac :=
  repeat (cbv beta zeta;
    match goal with
      | |- Keeps _ (mbind _ _) => apply keeps_bind; [exact _| |intro]
      | |- Keeps _ (if _ then _ else _) => apply keeps_if
      | |- Keeps _ (mret _) => apply keeps_ret; exact _
      | |- Keeps _ (gets_env _) => apply keeps_gets_env; exact _
      | |- Keeps _ (gets _) => apply keeps_gets; exact _
      | |- Keeps _ (gets_core _) => apply keeps_gets_core; exact _
      | |- Keeps _ SPM_fail => apply keeps_fail
      | |- Keeps same_mode (on_env _) => apply keeps_mode_on_env
      | |- Keeps same_mode (mod_shared _) => apply keeps_mode_mod_shared; intros; reflexivity
      | |- Keeps same_mode (mod_core _) => apply keeps_mode_mod_core; intros; reflexivity
      | |- Keeps same_mode (generate _) => apply keeps_mode_generate; exact _
      | |- Keeps same_mode (on_child _) => apply keeps_mode_on_child; exact _
      | |- Keeps _ (match ?x with _ => _ end) => destruct x
      | |- Keeps _ _ => assumption
    end).

(** a call of the buffer, by its lemma of TimestampedBuffer *)
Ltac keeps_buffer :=
  first
    [ apply keeps_mode_on_buffer_total; intros; (apply setBandwidth_transparent || reflexivity)
    | apply keeps_mode_on_buffer; intros ? ? ?;
      (apply prepare_transparent || apply resizeBuffer_transparent || apply clearBuffer_transparent
        || apply preloadFrames_transparent || apply dropFrames_transparent || apply writeFrames_transparent) ].

#[local] Instance keeps_mode_setupDataBuffer : Keeps same_mode setupDataBuffer.
Proof. unfold setupDataBuffer, ringbuffer_size_frames, set_correct_last_timestamp, is_type. keeps_tac; keeps_buffer. Qed.

#[local] Instance keeps_mode_transferSilence n : Keeps same_mode (transferSilence n).
Proof.
  unfold transferSilence. keeps_tac; [|keeps_buffer]. apply keeps_mode_on_child. intros s y s1.
  destruct (transmitSilenceBlock _ _ _ _) as [[[r d] e]|]; [|done]. by intros [= <- <-].
Qed.

(** No call of the buffer, the subclass or the environment touches the state
    machine. *)
Lemma on_child_core {A} (f : sp_shared E -> option (A * sp_shared E)) sp x sp1 :
  on_child f sp = Some (x, sp1) -> sp_private sp1 = sp_private sp.
Proof. apply keeps_core_on_child. Qed.

(** [sp_inv]: a successful run of an operation, taken apart at its binds; a
    call of the subclass, the buffer or the environment leaves the equation of
    its private fields. *)
Ltac sp_inv :=
  repeat match goal with
    | H : (_ ≫= _) _ = Some _ |- _ => apply bind_inv in H as (? & ? & ? & H); cbv beta in H
    | H : mret _ _ = Some _ |- _ => injection H as <- <-
    | H : gets_core _ _ = Some _ |- _ => injection H as <- <-
    | H : is_type _ _ = Some _ |- _ => injection H as <- <-
    | H : in_state _ _ = Some _ |- _ => injection H as <- <-
    | H : gets _ _ = Some _ |- _ => injection H as <- <-
    | H : gets_env _ _ = Some _ |- _ => injection H as <- <-
    | H : mod_core _ _ = Some _ |- _ => injection H as <- <-
    | H : mod_shared _ _ = Some _ |- _ => injection H as <- <-
    | H : SPM_fail _ = Some _ |- _ => discriminate H
    end.

Lemma enter_state_run s r sp r1 sp1 :
  enter_state s r sp = Some (r1, sp1) ->
  r1 = r /\ sp_private sp1 = core_with_state s (sp_private sp) /\ transparent sp1 = transparent sp.
Proof. unfold enter_state, set_state, SIGNAL_ACTIVITY_ALL. intros Hr. sp_inv. done. Qed.

Lemma setTransparent_run v sp x sp1 :
  mod_buffer (setTransparent v) sp = Some (x, sp1) -> sp_private sp1 = sp_private sp /\ transparent sp1 = v.
Proof. by intros [= <- <-]. Qed.

(** what entering a state does to the private fields, besides the state *)
Definition entered (s : eProcessorState) (c : sp_core) : sp_core :=
  match s, sp_state c with
  | ePS_DryRunning, ePS_WaitingForStreamDisable => core_with_state s (core_with_last_timestamp2 0 c)
  | ePS_Running, _ => core_with_state s (core_with_last_timestamp2 0 (core_with_in_xrun false c))
  | _, _ => core_with_state s c
  end.

(** The mode of the buffer in a state; none in the states that are entered
    from outside. *)
Definition mode_of (s : eProcessorState) : bool :=
  match s with ePS_Running | ePS_WaitingForStreamDisable => false | _ => true end.

(** The state machine: the changes that [updateState] makes. *)
Definition edge (s t : eProcessorState) : bool :=
  match s, t with
  | ePS_Created, ePS_Stopped
  | ePS_Stopped, ePS_WaitingForStream
  | ePS_WaitingForStream, ePS_DryRunning
  | ePS_DryRunning, ePS_Stopped
  | ePS_DryRunning, ePS_WaitingForStreamEnable
  | ePS_WaitingForStreamEnable, ePS_DryRunning
  | ePS_WaitingForStreamEnable, ePS_Running
  | ePS_Running, ePS_WaitingForStreamDisable
  | ePS_WaitingForStreamDisable, ePS_DryRunning => true
  | _, _ => false
  end.

(** The change to [t] was made (also when its result is an error), or it was
    refused and nothing private has changed; of the changes of the graph only
    two can be refused. *)
Definition changes_to (t : eProcessorState) (sp : StreamProcessor E) (r : bool) (sp1 : StreamProcessor E) : Prop :=
  (sp_private sp1 = entered t (sp_private sp) /\
    (transparent sp = mode_of (sp_state (sp_private sp)) \/ t = ePS_Running -> transparent sp1 = mode_of t)) \/
  (r = false /\ same_core sp sp1 /\ transparent sp1 = transparent sp /\
    (edge (sp_state (sp_private sp)) t = true -> t = ePS_Stopped \/ t = ePS_WaitingForStreamEnable)).

Lemma keeps_mode_update_local_node_id : Keeps same_mode update_local_node_id.
Proof. unfold update_local_node_id. keeps_tac. Qed.

Lemma update_local_node_id_run sp x sp1 :
  update_local_node_id sp = Some (x, sp1) -> sp_private sp1 = sp_private sp /\ transparent sp1 = transparent sp.
Proof. intros Hr. split; [|by apply keeps_mode_update_local_node_id in Hr as []]. unfold update_local_node_id in Hr. by sp_inv. Qed.

Lemma clearBuffer_run sp x sp1 :
  on_buffer clearBuffer sp = Some (x, sp1) -> sp_private sp1 = sp_private sp /\ transparent sp1 = transparent sp.
Proof.
  intros Hr. split; [exact (on_child_core _ _ _ _ Hr)|].
  assert (Hk : Keeps same_mode (on_buffer (E:=E) clearBuffer)) by keeps_buffer. by apply Hk in Hr as [].
Qed.

Lemma setupDataBuffer_core : Keeps same_core setupDataBuffer.
Proof.
  unfold setupDataBuffer, ringbuffer_size_frames, set_correct_last_timestamp, is_type.
  keeps_tac; (apply keeps_core_on_child || apply keeps_core_mod_shared).
Qed.

Lemma doStop_run sp r sp1 : doStop sp = Some (r, sp1) -> changes_to ePS_Stopped sp r sp1.
Proof.
  unfold doStop. intros Hr. apply bind_inv in Hr as (st & sp0 & [= <- <-] & Hr).
  apply bind_inv in Hr as (entry & sp2 & Hen & Hr).
  assert (Hen' : match entry with
    | None => sp_private sp2 = sp_private sp /\ transparent sp2 = transparent sp
    | Some _ => sp_private sp2 = sp_private sp
    end).
  { destruct (sp_state (sp_private sp)); sp_inv; try done.
    - apply update_local_node_id_run in H3 as [H3 _]. unfold set_correct_last_timestamp in H4. sp_inv.
      apply setupDataBuffer_core in H5. unfold same_core in H5. cbn in *. congruence.
    - pose proof (on_child_core _ _ _ _ H1). assert (Hk : Keeps same_mode (on_env (E:=E) ihm_stopHandlerForStream)) by exact _.
      apply Hk in H1 as []. by destruct x. }
  destruct entry as [r1|]; [|sp_inv; destruct Hen'; right; by auto]. left.
  sp_inv. apply clearBuffer_run in H1 as [Hc _]. apply setTransparent_run in H2 as [Hc2 Ht].
  pose proof (on_child_core _ _ _ _ H3) as Hc3.
  assert (Hk : Keeps same_mode (on_env (E:=E) ports_preparePorts)) by exact _. apply Hk in H3 as [_ Ht3].
  apply enter_state_run in Hr as (_ & Hp & Ht4). rewrite Hp, Hc3, Hc2, Hc, Hen', Ht4, Ht3, Ht. by split.
Qed.

Lemma doWaitForRunningStream_run sp r sp1 :
  doWaitForRunningStream sp = Some (r, sp1) -> changes_to ePS_WaitingForStream sp r sp1.
Proof.
  unfold doWaitForRunningStream. intros Hr. apply bind_inv in Hr as (st & sp0 & [= <- <-] & Hr).
  destruct (sp_state (sp_private sp)) eqn:Hs; sp_inv; try (right; rewrite Hs; done).
  apply enter_state_run in Hr as (_ & Hp & Ht). left. unfold changes_to, entered. rewrite Hs, Ht. split; [done|]. by intros [?|?].
Qed.

Lemma doDryRunning_run sp r sp1 : doDryRunning sp = Some (r, sp1) -> changes_to ePS_DryRunning sp r sp1.
Proof.
  unfold doDryRunning. intros Hr. apply bind_inv in Hr as (st & sp0 & [= <- <-] & Hr).
  destruct (sp_state (sp_private sp)) eqn:Hs; sp_inv; try (right; rewrite Hs; done); left; unfold entered; rewrite Hs.
  - apply update_local_node_id_run in H1 as [Hp Ht].
    assert (Hb : sp_private x4 = sp_private x0 /\ transparent x4 = transparent x0).
    { destruct (bool_decide _); sp_inv; [by injection H3 as <- <-|done]. }
    destruct Hb as [Hp3 Ht3]. apply enter_state_run in Hr as (_ & Hp4 & Ht4).
    rewrite Hp4, Hp3, Hp, Ht4, Ht3, Ht. split; [done|]. by intros [?|?].
  - apply clearBuffer_run in H1 as [Hc _]. apply setTransparent_run in H2 as [Hc2 Ht].
    apply enter_state_run in Hr as (_ & Hp & Ht4). rewrite Hp, Hc2, Hc, Ht4, Ht. by split.
  - apply clearBuffer_run in H1 as [Hc _]. apply setTransparent_run in H2 as [Hc2 Ht].
    apply enter_state_run in Hr as (_ & Hp & Ht4). rewrite Hp, Ht4. cbn. rewrite Hc2, Hc. by split.
Qed.

Lemma doWaitForStreamEnable_run sp r sp1 :
  doWaitForStreamEnable sp = Some (r, sp1) -> changes_to ePS_WaitingForStreamEnable sp r sp1.
Proof.
  unfold doWaitForStreamEnable. intros Hr. apply bind_inv in Hr as (size & sp0 & Hsz & Hr).
  assert (sp0 = sp) as -> by (unfold ringbuffer_size_frames in Hsz; by sp_inv).
  apply bind_inv in Hr as (st & sp0 & [= <- <-] & Hr).
  destruct (sp_state (sp_private sp)) eqn:Hs; sp_inv; try (right; rewrite Hs; done).
  assert (Hk : Keeps same_mode (on_buffer (E:=E) (resizeBuffer block (u32 (size + 1))))) by keeps_buffer.
  pose proof (on_child_core _ _ _ _ H1) as Hc1. apply Hk in H1 as [_ Ht1].
  destruct x; cbn [negb] in Hr; sp_inv; [|right; by auto].
  assert (Hf : sp_private x3 = sp_private x0 /\ transparent x3 = transparent x0).
  { destruct (bool_decide _); [|by sp_inv]. apply bind_inv in H2 as (n & sp2 & Hn & H2).
    assert (sp2 = x0) as -> by (unfold ringbuffer_size_frames in Hn; by sp_inv).
    assert (Hks : Keeps same_mode (transferSilence n)) by exact _.
    assert (Hkc : Keeps same_core (transferSilence n)) by (unfold transferSilence; keeps_tac; apply keeps_core_on_child).
    pose proof (Hks _ _ _ H2) as []. by pose proof (Hkc _ _ _ H2). }
  destruct Hf as [Hc3 Ht3]. destruct x2; cbn [negb] in Hr; sp_inv.
  - apply enter_state_run in Hr as (_ & Hp & Ht). left. unfold entered. rewrite Hs, Hp, Hc3, Hc1, Ht, Ht3, Ht1. split; [done|]. by intros [?|?].
  - right. split; [done|]. unfold same_core. split; [congruence|]. split; [congruence|]. by auto.
Qed.

Lemma doRunning_run sp r sp1 : doRunning sp = Some (r, sp1) -> changes_to ePS_Running sp r sp1.
Proof.
  unfold doRunning. intros Hr. apply bind_inv in Hr as (st & sp0 & [= <- <-] & Hr).
  destruct (sp_state (sp_private sp)) eqn:Hs; sp_inv; try (right; rewrite Hs; done).
  apply update_local_node_id_run in H2 as [Hp2 _]. pose proof (on_child_core _ _ _ _ H4) as Hp4.
  apply setTransparent_run in H5 as [Hp5 Ht5]. apply enter_state_run in Hr as (_ & Hp & Ht).
  left. split; [rewrite Hp; cbn; by rewrite Hp5, Hp4, Hp2|]. intros _. rewrite Ht. exact Ht5.
Qed.

Lemma doWaitForStreamDisable_run sp r sp1 :
  doWaitForStreamDisable sp = Some (r, sp1) -> changes_to ePS_WaitingForStreamDisable sp r sp1.
Proof.
  unfold doWaitForStreamDisable. intros Hr. apply bind_inv in Hr as (st & sp0 & [= <- <-] & Hr).
  destruct (sp_state (sp_private sp)) eqn:Hs; sp_inv; try (right; rewrite Hs; done).
  apply enter_state_run in Hr as (_ & Hp & Ht). left. rewrite Hs, Ht. split; [done|]. by intros [?|?].
Qed.

(** A refused change. *)
Lemma exit_with_error_run sp r sp1 :
  updateState_exit_with_error sp = Some (r, sp1) -> r = false /\ same_core sp sp1 /\ transparent sp1 = transparent sp.
Proof. unfold updateState_exit_with_error, SIGNAL_ACTIVITY_ALL. intros Hr. by sp_inv. Qed.

Lemma updateState_attempt_run t (m : M bool) sp r sp1 :
  (forall r sp1, m sp = Some (r, sp1) -> changes_to t sp r sp1) ->
  updateState_attempt m sp = Some (r, sp1) -> changes_to t sp r sp1.
Proof.
  unfold updateState_attempt. intros Hm Hr. apply bind_inv in Hr as (ok & sp2 & Hm2 & Hr). apply Hm in Hm2.
  destruct ok; sp_inv; [done|]. apply exit_with_error_run in Hr as (-> & Hc & Ht). unfold changes_to, same_core in *.
  rewrite Hc, Ht. destruct Hm2 as [?|(_ & ? & ? & ?)]; [by left|by right].
Qed.

(** [updateState] makes the change that is requested when the graph has it, and
    refuses it otherwise. *)
Lemma updateState_run sp r sp1 :
  let c := sp_private sp in
  updateState sp = Some (r, sp1) ->
  (sp_state c = sp_next_state c /\ r = true /\ sp1 = sp) \/
  (sp_state c <> sp_next_state c /\ edge (sp_state c) (sp_next_state c) = false /\
     r = false /\ same_core sp sp1 /\ transparent sp1 = transparent sp) \/
  (edge (sp_state c) (sp_next_state c) = true /\ changes_to (sp_next_state c) sp r sp1).
Proof.
  intros c Hr. unfold updateState in Hr. do 2 apply bind_inv in Hr as (? & ? & [= <- <-] & Hr). fold c in Hr.
  case_bool_decide as Heq; [sp_inv; by left|]. right.
  destruct (sp_state c) eqn:Hs, (sp_next_state c) eqn:Hn; try done; cbn [edge bool_decide decide_rel] in *;
    repeat (case_bool_decide; try done); cbn [andb] in Hr;
    first [ left; apply exit_with_error_run in Hr as (? & ? & ?); by split_and!
          | right; split; [done|]; revert Hr; apply updateState_attempt_run; intros ? ?;
            (apply doStop_run || apply doWaitForRunningStream_run || apply doDryRunning_run
              || apply doWaitForStreamEnable_run || apply doRunning_run || apply doWaitForStreamDisable_run) ].
Qed.

(** ** The mode invariant *)

Section mode.
(** whether the handler of the stream stops only in order, see below *)
Context (in_order : bool).

(** The invalid state is not entered, and the buffer is opaque when the stream
    runs or is about to stop; only then, if the handler stops in order. *)
Definition mode_ok (sp : StreamProcessor E) : Prop :=
  let s := sp_state (sp_private sp) in
  s <> ePS_Invalid /\ (mode_of s = false -> transparent sp = false) /\
  (in_order = true -> s <> ePS_Error -> transparent sp = mode_of s).

Definition keeps_mode_ok (sp sp1 : StreamProcessor E) : Prop := mode_ok sp -> mode_ok sp1.

#[local] Instance keeps_mode_ok_preorder : PreOrder keeps_mode_ok.
Proof. split; [intros x ?; done|]. intros x y z Hxy Hyz Hx. by apply Hyz, Hxy. Qed.

Lemma keeps_of_mode {A} (m : M A) : Keeps same_mode m -> Keeps keeps_mode_ok m.
Proof. intros Hm sp x sp1 [Hs Ht]%Hm. unfold keeps_mode_ok, mode_ok. by rewrite Hs, Ht. Qed.

#[local] Instance keeps_mode_ok_updateState : Keeps keeps_mode_ok updateState.
Proof.
  intros sp r sp1 Hr (Hi & Ho & Hm). destruct (updateState_run sp r sp1 Hr) as [(_ & _ & ->)|[(_ & _ & _ & Hc & Ht)|[He Hch]]].
  - by split.
  - unfold mode_ok, same_core in *. by rewrite Hc, Ht.
  - unfold changes_to in Hch. set (c := sp_private sp) in *.
    assert (Hst : forall t, sp_state (entered t c) = t) by (intros t; unfold entered; by repeat case_match).
    destruct Hch as [[Hp Ht]|(_ & Hc & Ht & _)].
    + split; rewrite Hp, Hst; [by intros Hn; rewrite Hn in He; destruct (sp_state c)|]. split.
      * intros Hf. rewrite Ht; [done|]. destruct (sp_state c), (sp_next_state c); try done; [by right|]. left. by apply Ho.
      * intros Hio _. apply Ht. left. apply Hm; [done|]. intros Hn. by rewrite Hn in He.
    + unfold mode_ok, same_core in *. fold c in Hc. by rewrite Hc, Ht.
Qed.

(** [mode_tac]: an operation made of changes of state and of parts that keep
    the mode. *)
Ltac mode_tac :=
  repeat (cbv beta zeta;
    match goal with
      | |- Keeps _ (mbind _ _) => apply keeps_bind; [exact _| |intro]
      | |- Keeps _ (if _ then _ else _) => apply keeps_if
      | |- Keeps _ (mret _) => apply keeps_ret; exact _
      | |- Keeps _ (gets_env _) => apply keeps_gets_env; exact _
      | |- Keeps _ (gets _) => apply keeps_gets; exact _
      | |- Keeps _ (gets_core _) => apply keeps_gets_core; exact _
      | |- Keeps _ SPM_fail => apply keeps_fail
      | |- Keeps _ updateState => exact keeps_mode_ok_updateState
      | |- Keeps keeps_mode_ok (on_env _) => apply keeps_of_mode
      | |- Keeps keeps_mode_ok (mod_shared _) => apply keeps_of_mode
      | |- Keeps keeps_mode_ok (mod_core _) => apply keeps_of_mode
      | |- Keeps keeps_mode_ok (generate _) => apply keeps_of_mode
      | |- Keeps keeps_mode_ok (on_child _) => apply keeps_of_mode
      | |- Keeps keeps_mode_ok (on_buffer _) => apply keeps_of_mode
      | |- Keeps keeps_mode_ok (mod_buffer _) => apply keeps_of_mode; unfold mod_buffer
      | |- Keeps same_mode (on_env _) => apply keeps_mode_on_env
      | |- Keeps same_mode (mod_shared _) => apply keeps_mode_mod_shared; intros; reflexivity
      | |- Keeps same_mode (mod_core _) => apply keeps_mode_mod_core; intros; reflexivity
      | |- Keeps same_mode (generate _) => apply keeps_mode_generate; exact _
      | |- Keeps same_mode (on_child _) => apply keeps_mode_on_child; exact _
      | |- Keeps same_mode (on_buffer _) => keeps_buffer
      | |- Keeps _ (match ?x with _ => _ end) => destruct x
      | |- Keeps _ _ => assumption
    end).

#[local] Instance keeps_mode_ok_switch_to s : Keeps keeps_mode_ok (switch_to s).
Proof. unfold switch_to, set_next_state. mode_tac. Qed.

#[local] Instance keeps_mode_ok_switch_to_disable ctr : Keeps keeps_mode_ok (switch_to_disable ctr).
Proof. unfold switch_to_disable. mode_tac. exact _. Qed.

#[local] Instance keeps_mode_ok_pending : Keeps keeps_mode_ok pending_change.
Proof. unfold pending_change. mode_tac. Qed.

#[local] Instance keeps_mode_ok_schedule s t : Keeps keeps_mode_ok (scheduleStateTransition s t).
Proof. unfold scheduleStateTransition, set_next_state, SIGNAL_ACTIVITY_ALL. mode_tac. Qed.

#[local] Instance keeps_mode_ok_setupDataBuffer : Keeps keeps_mode_ok setupDataBuffer.
Proof. apply keeps_of_mode. exact _. Qed.

Section with_laws.
Context `{!SPChildLaws}.

#[local] Instance keeps_mode_ok_generate_empty p ctr : Keeps keeps_mode_ok (generate_empty p ctr).
Proof. unfold generate_empty. mode_tac. Qed.

#[local] Instance keeps_mode_ok_send_empty p ctr : Keeps keeps_mode_ok (send_empty_packet p ctr).
Proof. unfold send_empty_packet. mode_tac; exact _. Qed.

#[local] Instance keeps_mode_ok_switch_and_send m p ctr :
  Keeps keeps_mode_ok m -> Keeps keeps_mode_ok (switch_and_send_empty m p ctr).
Proof. intros Hm. unfold switch_and_send_empty. mode_tac; exact _. Qed.

#[local] Instance keeps_mode_ok_debug_fix : Keeps keeps_mode_ok debug_fix_timestamp.
Proof.
  unfold debug_fix_timestamp. mode_tac. apply keeps_mode_on_child. intros s y s1.
  case_match; [|by intros [= <- <-]]. destruct (to_int _ _); [|done]. cbn [mbind option_bind].
  repeat case_match; by intros [= <- <-].
Qed.

#[local] Instance keeps_mode_ok_correct_tail : Keeps keeps_mode_ok correct_tail_timestamp.
Proof. unfold correct_tail_timestamp, set_correct_last_timestamp. mode_tac. Qed.

#[local] Instance keeps_mode_ok_cycle_reached ctr : Keeps keeps_mode_ok (cycle_reached ctr).
Proof. unfold cycle_reached. mode_tac. Qed.

#[local] Instance keeps_mode_ok_putPacket_header data n tag sy ctr dropped :
  Keeps keeps_mode_ok (putPacket_header data n tag sy ctr dropped).
Proof.
  unfold putPacket_header, putPacket_dropped, putPacket_good, putPacket_dispatch, putPacket_data, set_in_xrun,
    set_correct_last_timestamp,
    in_state. mode_tac; exact _.
Qed.

#[local] Instance keeps_mode_ok_putPacket data n tag sy ctr dropped :
  Keeps keeps_mode_ok (putPacket data n tag sy ctr dropped).
Proof. unfold putPacket. mode_tac; exact _. Qed.

#[local] Instance keeps_mode_ok_getPacket data n tag sy ctr dropped :
  Keeps keeps_mode_ok (getPacket data n tag sy ctr dropped).
Proof.
  unfold getPacket, getPacket_normal, getPacket_disabling, getPacket_running, set_in_xrun. mode_tac; exact _.
Qed.

#[local] Instance keeps_mode_ok_periodSizeChanged n : Keeps keeps_mode_ok (periodSizeChanged n).
Proof. unfold periodSizeChanged. mode_tac; exact _. Qed.

#[local] Instance keeps_mode_ok_prepare : Keeps keeps_mode_ok prepare.
Proof. unfold prepare, set_next_state. mode_tac; exact _. Qed.

#[local] Instance keeps_mode_ok_init : Keeps keeps_mode_ok init.
Proof. unfold init, set_next_state. mode_tac. Qed.

#[local] Instance keeps_mode_ok_switch_time t n : Keeps keeps_mode_ok (switch_time t n).
Proof. unfold switch_time. mode_tac. Qed.

#[local] Instance keeps_mode_ok_debug_now : Keeps keeps_mode_ok debug_now.
Proof. unfold debug_now. mode_tac. Qed.

#[local] Instance keeps_mode_ok_scheduleStartDryRunning t : Keeps keeps_mode_ok (scheduleStartDryRunning t).
Proof. unfold scheduleStartDryRunning. mode_tac; exact _. Qed.

#[local] Instance keeps_mode_ok_blockRead n : Keeps keeps_mode_ok (blockRead n).
Proof.
  apply keeps_of_mode, keeps_mode_on_child. intros s x s1.
  destruct (blockProcessReadFrames _ _ _ _) as [[[r b] e]|] eqn:Hb; [|done]. intros [= <- <-].
  by apply blockProcessReadFrames_transparent in Hb.
Qed.

#[local] Instance keeps_mode_ok_blockWrite n ts : Keeps keeps_mode_ok (blockWrite n ts).
Proof.
  apply keeps_of_mode, keeps_mode_on_child. intros s x s1.
  destruct (blockProcessWriteFrames _ _ _ _ _) as [[[r b] e]|] eqn:Hb; [|done]. intros [= <- <-].
  by apply blockProcessWriteFrames_transparent in Hb.
Qed.

#[local] Instance keeps_mode_ok_getFrames n ts : Keeps keeps_mode_ok (getFrames n ts).
Proof.
  unfold getFrames, getFramesDry, getFramesWet, is_type, in_state, SIGNAL_ACTIVITY_ISO_RECV. mode_tac; try exact _.
  apply keeps_mode_on_child. intros s x1 s1. destruct (ports_provideSilenceBlock _ _ _) as [[r e]|]; [|done].
  by intros [= <- <-].
Qed.

#[local] Instance keeps_mode_ok_putFrames n ts : Keeps keeps_mode_ok (putFrames n ts).
Proof.
  unfold putFrames, putFramesDry, putFramesWet, is_type, in_state, SIGNAL_ACTIVITY_ISO_XMIT. mode_tac; exact _.
Qed.

#[local] Instance keeps_mode_ok_putSilenceFrames n ts : Keeps keeps_mode_ok (putSilenceFrames n ts).
Proof.
  unfold putSilenceFrames, SIGNAL_ACTIVITY_ISO_XMIT. mode_tac.
  apply keeps_mode_on_child. intros s x1 s1. destruct (transmitSilenceBlock _ _ _ _) as [[[r d] e]|]; [|done].
  by intros [= <- <-].
Qed.

#[local] Instance keeps_mode_ok_dropFrames n ts : Keeps keeps_mode_ok (dropFrames n ts).
Proof. unfold dropFrames, SIGNAL_ACTIVITY_ISO_RECV. mode_tac. Qed.

#[local] Instance keeps_mode_ok_shiftStream n : Keeps keeps_mode_ok (shiftStream n).
Proof. unfold shiftStream, SIGNAL_ACTIVITY_ALL. mode_tac. Qed.

(** ** Runs *)

(** What the managers, the iso threads and the client call. *)
Inductive sp_event :=
| EvInit
| EvPrepare
| EvPeriodSizeChanged (new_periodsize : Z)
| EvScheduleStartDryRunning (t : Z)
| EvScheduleStartRunning (t : Z)
| EvScheduleStopDryRunning (t : Z)
| EvScheduleStopRunning (t : Z)
| EvPutPacket (data : list Z) (length tag sy pkt_ctr dropped_cycles : Z)
| EvGetPacket (data : list Z) (length tag sy pkt_ctr dropped_cycles : Z)
| EvGetFrames (nbframes ts : Z)
| EvPutFrames (nbframes ts : Z)
| EvDropFrames (nbframes ts : Z)
| EvPutSilenceFrames (nbframes ts : Z)
| EvShiftStream (nbframes : Z)
| EvSetDllBandwidth (bw : float)
| EvSetExtraBufferFrames (frames : Z)
| EvSetTicksPerFrame (tpf : float)
| EvBusReset
| EvPacketsStopped
| EvHandlerDied.

Definition ignore {A} (m : M A) : M () := _ ← m; mret ().

Definition handle (ev : sp_event) : M () :=
  match ev with
  | EvInit => ignore init
  | EvPrepare => ignore prepare
  | EvPeriodSizeChanged n => ignore (periodSizeChanged n)
  | EvScheduleStartDryRunning t => ignore (scheduleStartDryRunning t)
  | EvScheduleStartRunning t => ignore (scheduleStartRunning t)
  | EvScheduleStopDryRunning t => ignore (scheduleStopDryRunning t)
  | EvScheduleStopRunning t => ignore (scheduleStopRunning t)
  | EvPutPacket data length tag sy pkt_ctr dropped => ignore (putPacket data length tag sy pkt_ctr dropped)
  | EvGetPacket data length tag sy pkt_ctr dropped => ignore (getPacket data length tag sy pkt_ctr dropped)
  | EvGetFrames n ts => ignore (getFrames n ts)
  | EvPutFrames n ts => ignore (putFrames n ts)
  | EvDropFrames n ts => ignore (dropFrames n ts)
  | EvPutSilenceFrames n ts => ignore (putSilenceFrames n ts)
  | EvShiftStream n => ignore (shiftStream n)
  | EvSetDllBandwidth bw => ignore (setDllBandwidth bw)
  | EvSetExtraBufferFrames n => setExtraBufferFrames n
  | EvSetTicksPerFrame tpf => setTicksPerFrame tpf
  | EvBusReset => ignore handleBusResetDo
  | EvPacketsStopped => packetsStopped
  | EvHandlerDied => handlerDied
  end.

Lemma bind_some {A B} (m : M A) (f : A -> M B) sp x sp1 : m sp = Some (x, sp1) -> (m ≫= f) sp = f x sp1.
Proof. intros Hm. unfold mbind, SPM_bind. by rewrite Hm. Qed.

Lemma ignore_some {A} (m : M A) sp x sp1 : m sp = Some (x, sp1) -> ignore m sp = Some ((), sp1).
Proof. intros Hm. unfold ignore. by rewrite (bind_some _ _ _ _ _ Hm). Qed.

(** the object that the constructor makes *)
Definition StreamProcessor_new (type : eProcessorType) (e : E) : StreamProcessor E :=
  mkSP (mkCore type ePS_Created ePS_Invalid 0 0 false)
    (mkShared 0 false TimestampedBuffer_new None (f32_of_Z 0) (f32_of_f64 STREAMPROCESSOR_DLL_BW_HZ) 0 50 0 e).

(** The iso handler stops, or dies, when the stream does not run. *)
Definition stops_in_order (ev : sp_event) (sp : StreamProcessor E) : Prop :=
  match ev with
  | EvPacketsStopped | EvHandlerDied => mode_of (sp_state (sp_private sp)) = true /\ sp_state (sp_private sp) <> ePS_Error
  | _ => True
  end.

(** The states of a stream processor: any events, in any order. *)
Inductive reachable : StreamProcessor E -> Prop :=
| reachable_new type e : reachable (StreamProcessor_new type e)
| reachable_step sp ev x sp1 :
    reachable sp -> (in_order = true -> stops_in_order ev sp) -> handle ev sp = Some (x, sp1) -> reachable sp1.

Lemma handle_keeps_mode_ok ev sp x sp1 :
  (in_order = true -> stops_in_order ev sp) -> handle ev sp = Some (x, sp1) -> mode_ok sp -> mode_ok sp1.
Proof.
  intros Ho. assert (Hk : (ev = EvBusReset \/ ev = EvPacketsStopped \/ ev = EvHandlerDied) \/ Keeps keeps_mode_ok (handle ev)).
  { destruct ev; try (left; tauto); right; unfold handle, ignore, scheduleStartRunning, scheduleStopDryRunning,
      scheduleStopRunning, setDllBandwidth, setExtraBufferFrames, setTicksPerFrame; mode_tac; exact _. }
  destruct Hk as [[->|[->| ->]]|Hk]; [..|by apply Hk];
    unfold handle, ignore, handleBusResetDo, packetsStopped, handlerDied, set_state, set_next_state, SIGNAL_ACTIVITY_ALL;
    intros Hr (Hi & Hf & Hm); sp_inv; unfold mode_ok; cbn in *; (split; [done|]); (split; [done|]); try done.
  - intros Hio _. destruct (Ho Hio) as [Hst He]. rewrite <- Hst. by apply Hm.
  - intros Hio _. destruct (Ho Hio) as [Hst He]. rewrite <- Hst. by apply Hm.
Qed.

End with_laws.
End mode.

(** ** Packets and the state machine *)

Lemma entered_state t c : sp_state (entered t c) = t.
Proof. unfold entered. by repeat case_match. Qed.

Lemma entered_next_state t c : sp_next_state (entered t c) = sp_next_state c.
Proof. unfold entered. by repeat case_match. Qed.

(** A change that the packet loop makes, and that cannot be refused. *)
Lemma switch_to_run t sp r sp1 :
  switch_to t sp = Some (r, sp1) -> edge (sp_state (sp_private sp)) t = true ->
  t <> ePS_Stopped -> t <> ePS_WaitingForStreamEnable ->
  sp_private sp1 = entered t (core_with_next_state t (sp_private sp)).
Proof.
  unfold switch_to, set_next_state. intros Hr He Hs Hw. sp_inv.
  destruct (updateState_run _ _ _ Hr) as [(Heq & _)|[(_ & He' & _)|[_ [[Hp _]|(_ & _ & _ & Hn)]]]]; cbn in *.
  - rewrite Heq in He. by destruct t.
  - congruence.
  - done.
  - by destruct (Hn He).
Qed.

(** A change that the graph does not have. *)
Lemma switch_to_refused t sp r sp1 :
  switch_to t sp = Some (r, sp1) -> edge (sp_state (sp_private sp)) t = false ->
  sp_private sp1 = core_with_next_state t (sp_private sp).
Proof.
  unfold switch_to, set_next_state. intros Hr He. sp_inv.
  destruct (updateState_run _ _ _ Hr) as [(_ & _ & ->)|[(_ & _ & _ & Hc & _)|[He' _]]]; [done|exact Hc|]. cbn in He'. congruence.
Qed.

(** an xrun while the stream runs, or while it is already being stopped *)
Lemma switch_to_disable_run ctr sp r sp1 :
  switch_to_disable ctr sp = Some (r, sp1) ->
  sp_state (sp_private sp) = ePS_Running \/ sp_state (sp_private sp) = ePS_WaitingForStreamDisable ->
  sp_private sp1 = core_with_state ePS_WaitingForStreamDisable (core_with_next_state ePS_WaitingForStreamDisable
    (core_with_cycle (u32 (CYCLE_TIMER_GET_CYCLES ctr + 1)) (sp_private sp))).
Proof.
  unfold switch_to_disable. intros Hr Hs. sp_inv. destruct Hs as [Hs|Hs].
  - apply switch_to_run in Hr; cbn; rewrite ?Hs; try done.
  - apply switch_to_refused in Hr; cbn in *; rewrite ?Hs; try done. rewrite Hr. unfold core_with_state. cbn. by rewrite <- Hs.
Qed.

(** When nothing is requested, nothing is changed. *)
Lemma pending_change_none sp r sp1 :
  pending_change sp = Some (r, sp1) -> sp_next_state (sp_private sp) = sp_state (sp_private sp) -> r = true /\ sp1 = sp.
Proof. unfold pending_change. intros Hr Hn. sp_inv. rewrite Hn, bool_decide_false in Hr by tauto. by sp_inv. Qed.

Lemma generate_core {A} (f : sp_shared E -> option (A * iso_packet * sp_shared E)) sp x sp1 :
  generate f sp = Some (x, sp1) -> sp_private sp1 = sp_private sp.
Proof. apply keeps_core_on_child. Qed.

Lemma generate_empty_core p ctr sp x sp1 : generate_empty p ctr sp = Some (x, sp1) -> sp_private sp1 = sp_private sp.
Proof.
  unfold generate_empty. intros Hr. apply bind_inv in Hr as ([? ?] & ? & H1%generate_core & Hr).
  apply bind_inv in Hr as ([? ?] & ? & H2%generate_core & Hr). sp_inv. congruence.
Qed.

Lemma send_empty_core p ctr sp x sp1 :
  send_empty_packet p ctr sp = Some (x, sp1) -> sp_next_state (sp_private sp) = sp_state (sp_private sp) ->
  sp_private sp1 = sp_private sp.
Proof.
  unfold send_empty_packet. intros Hr Hn. apply bind_inv in Hr as (ok & sp2 & Hp & Hr).
  apply pending_change_none in Hp as [-> ->]; [|done]. cbn [negb] in Hr.
  apply bind_inv in Hr as (? & ? & He%generate_empty_core & Hr). by sp_inv.
Qed.

(** A change, then the empty packet: the state is the one that was entered. *)
Lemma switch_and_send_core (m : M bool) p ctr sp x sp1 (c : sp_core) :
  (forall r sp2, m sp = Some (r, sp2) -> sp_private sp2 = c) -> sp_next_state c = sp_state c ->
  switch_and_send_empty m p ctr sp = Some (x, sp1) -> sp_private sp1 = c.
Proof.
  unfold switch_and_send_empty. intros Hm Hn Hr. apply bind_inv in Hr as (ok & sp2 & Hm2%Hm & Hr).
  destruct ok; cbn [negb] in Hr; [|by sp_inv]. apply send_empty_core in Hr; congruence.
Qed.

Lemma keeps_core_debug_fix : Keeps same_core debug_fix_timestamp.
Proof. unfold debug_fix_timestamp. keeps_tac. apply keeps_core_on_child. Qed.

Lemma keeps_core_correct_tail : Keeps same_core correct_tail_timestamp.
Proof.
  unfold correct_tail_timestamp, set_correct_last_timestamp. keeps_tac; (apply keeps_core_on_child || apply keeps_core_mod_shared).
Qed.

(** The two steps before the state is looked at in [putPacket_good]. *)
Lemma putPacket_good_start data n ctr sp x sp1 :
  putPacket_good data n ctr sp = Some (x, sp1) ->
  exists sp0, sp_private sp0 = sp_private sp /\
    putPacket_dispatch data n ctr sp0 = Some (x, sp1).
Proof.
  unfold putPacket_good. intros Hr. apply bind_inv in Hr as (? & sp2 & H2 & Hr). apply bind_inv in Hr as (? & sp3 & H3 & Hr).
  apply keeps_core_debug_fix in H2. apply keeps_core_correct_tail in H3. exists sp3. split; [|exact Hr].
  unfold same_core in *. congruence.
Qed.

(** the cases of [putPacket_dispatch] *)
Lemma dispatch_waiting data n ctr sp :
  sp_state (sp_private sp) = ePS_WaitingForStream ->
  putPacket_dispatch data n ctr sp
  = if 0 <=? diffCycles (CYCLE_TIMER_GET_CYCLES ctr) (sp_cycle_to_switch_state (sp_private sp))
    then match switch_to ePS_DryRunning sp with Some (ok, sp1) => Some (disposition ok RAW1394_ISO_OK, sp1) | None => None end
    else Some (RAW1394_ISO_OK, sp).
Proof.
  intros Hs. unfold putPacket_dispatch, in_state, cycle_reached, gets_core, mbind, SPM_bind. cbv beta iota.
  rewrite Hs. rewrite bool_decide_true by done. by destruct (0 <=? _).
Qed.

Lemma dispatch_running data n ctr sp :
  sp_state (sp_private sp) <> ePS_WaitingForStream -> sp_next_state (sp_private sp) = sp_state (sp_private sp) ->
  putPacket_dispatch data n ctr sp = putPacket_data data n ctr sp.
Proof.
  intros Hs Hn. unfold putPacket_dispatch, in_state, gets_core, mbind, SPM_bind. cbv beta iota.
  rewrite bool_decide_false by done. unfold pending_change, gets_core, mbind, SPM_bind. cbv beta iota.
  rewrite Hn, bool_decide_false by tauto. cbn. by rewrite bool_decide_false by done.
Qed.

Lemma dispatch_pending data n ctr sp :
  sp_state (sp_private sp) <> ePS_WaitingForStream -> sp_next_state (sp_private sp) <> sp_state (sp_private sp) ->
  putPacket_dispatch data n ctr sp
  = match updateState sp with
    | Some (true, sp1) =>
        if bool_decide (sp_state (sp_private sp1) = ePS_WaitingForStream) then Some (RAW1394_ISO_OK, sp1)
        else putPacket_data data n ctr sp1
    | Some (false, sp1) => Some (RAW1394_ISO_ERROR, sp1)
    | None => None
    end.
Proof.
  intros Hs Hn. unfold putPacket_dispatch, in_state, gets_core, mbind, SPM_bind. cbv beta iota.
  rewrite bool_decide_false by done. unfold pending_change, gets_core, mbind, SPM_bind. cbv beta iota.
  rewrite bool_decide_true by done. destruct (updateState sp) as [[[|] sp1]|]; cbn; [|done..]. by case_bool_decide.
Qed.

(** *** The scheduled cycle *)

(** decides the tests of known states *)
Ltac states H :=
  repeat match type of H with
    | context [bool_decide (@eq eProcessorState ?a ?b)] =>
        first [ change (bool_decide (@eq eProcessorState a b)) with true in H
              | change (bool_decide (@eq eProcessorState a b)) with false in H ]
    end; cbn [andb] in H.

(** the state that follows a waiting state *)
Definition after_wait (s : eProcessorState) : eProcessorState :=
  match s with
  | ePS_WaitingForStream | ePS_WaitingForStreamDisable => ePS_DryRunning
  | ePS_WaitingForStreamEnable => ePS_Running
  | _ => s
  end.

(** the stream waits for its cycle, and nothing else is requested *)
Definition waiting_in (s : eProcessorState) (sp : StreamProcessor E) : Prop :=
  (s = ePS_WaitingForStream \/ s = ePS_WaitingForStreamEnable \/ s = ePS_WaitingForStreamDisable) /\
  sp_state (sp_private sp) = s /\ sp_next_state (sp_private sp) = s.

Definition is_reached (ctr : Z) (sp : StreamProcessor E) : bool :=
  0 <=? diffCycles (CYCLE_TIMER_GET_CYCLES ctr) (sp_cycle_to_switch_state (sp_private sp)).

(** the header of the packet is good *)
Definition good_header (data : list Z) (n tag sy ctr : Z) : Prop :=
  forall s r s1, processPacketHeader data n tag sy ctr s = Some (r, s1) -> r = eCRV_OK.

Lemma putPacket_data_run data n ctr sp x sp1 :
  putPacket_data data n ctr sp = Some (x, sp1) ->
  sp_private sp1 = sp_private sp \/
  exists sp2 r, sp_private sp2 = core_with_in_xrun true (sp_private sp) /\ switch_to_disable ctr sp2 = Some (r, sp1) /\
    x = disposition r RAW1394_ISO_DEFER.
Proof.
  unfold putPacket_data. intros Hr. apply bind_inv in Hr as (res & sp2 & H2%on_child_core & Hr).
  destruct res; sp_inv; try by left. right. unfold set_in_xrun in *. sp_inv. eexists _, _. split; [|by split].
  cbn. by rewrite H2.
Qed.

(** Outside of the running state dropped cycles do not change the state
    machine. *)
Lemma putPacket_dropped_core dropped ctr sp x sp1 :
  putPacket_dropped dropped ctr sp = Some (x, sp1) -> sp_state (sp_private sp) <> ePS_Running ->
  x = true /\ sp_private sp1 = sp_private sp.
Proof.
  unfold putPacket_dropped, set_correct_last_timestamp. intros Hr Hs. case_match; [by sp_inv|].
  sp_inv. cbn in Hr. rewrite bool_decide_false in Hr by done. by sp_inv.
Qed.

(** a packet for a stream that waits to be enabled, in the same state *)
Lemma putPacket_header_enable data n tag sy ctr dropped sp x sp1 :
  putPacket_header data n tag sy ctr dropped sp = Some (x, sp1) ->
  sp_state (sp_private sp) = ePS_WaitingForStreamEnable -> sp_next_state (sp_private sp) = ePS_WaitingForStreamEnable ->
  sp_state (sp_private sp1) = ePS_WaitingForStreamEnable.
Proof.
  unfold putPacket_header. intros Hr Hs Hn. apply bind_inv in Hr as (res & sp2 & H2%on_child_core & Hr).
  apply bind_inv in Hr as (ok & sp3 & H3 & Hr). apply putPacket_dropped_core in H3 as [-> H3]; [|by rewrite H2, Hs].
  cbn [negb] in Hr. destruct res; sp_inv; try congruence.
  apply putPacket_good_start in Hr as (sp4 & H4 & Hr). assert (Hp : sp_private sp4 = sp_private sp) by congruence.
  rewrite dispatch_running in Hr by (rewrite Hp, ?Hs, ?Hn; done).
  apply putPacket_data_run in Hr as [Hd|(sp6 & r & H6 & Hd & _)]; [congruence|].
  unfold switch_to_disable in Hd. sp_inv. apply switch_to_refused in Hd; [rewrite Hd|]; cbn; rewrite H6, Hp; cbn; rewrite ?Hs; done.
Qed.

(** a packet for a running stream: an xrun, or no change *)
Lemma putPacket_header_running data n tag sy ctr dropped sp x sp1 :
  putPacket_header data n tag sy ctr dropped sp = Some (x, sp1) ->
  sp_state (sp_private sp) = ePS_Running -> sp_next_state (sp_private sp) = ePS_Running ->
  sp_private sp1 = sp_private sp /\ (dropped = 0) \/
  sp_private sp1 = core_with_state ePS_WaitingForStreamDisable (core_with_next_state ePS_WaitingForStreamDisable
    (core_with_cycle (u32 (CYCLE_TIMER_GET_CYCLES ctr + 1)) (core_with_in_xrun true (sp_private sp)))).
Proof.
  unfold putPacket_header. intros Hr Hs Hn. apply bind_inv in Hr as (res & sp2 & H2%on_child_core & Hr).
  apply bind_inv in Hr as (ok & sp3 & H3 & Hr).
  set (stopped := core_with_state ePS_WaitingForStreamDisable _).
  assert (H3' : sp_private sp3 = sp_private sp /\ dropped = 0 /\ ok = true \/ sp_private sp3 = stopped).
  { unfold putPacket_dropped, set_correct_last_timestamp, set_in_xrun in H3. destruct (Z.eqb_spec dropped 0); sp_inv.
    - left. by rewrite H2.
    - cbn in H3. rewrite H2, bool_decide_true in H3 by done. sp_inv.
      apply switch_to_disable_run in H3; [|by left]. by right. }
  assert (Hend : sp_private sp3 = sp_private sp1 -> sp_private sp1 = sp_private sp /\ dropped = 0 \/ sp_private sp1 = stopped).
  { intros <-. destruct H3' as [(? & ? & ?)|?]; [left|right]; done. }
  destruct ok; cbn [negb] in Hr; [|sp_inv; by apply Hend]. destruct res; sp_inv; try by apply Hend.
  apply putPacket_good_start in Hr as (sp4 & H4 & Hr). rewrite <- H4 in Hend, H3'. clear H3.
  assert (Hst : sp_state (sp_private sp4) = sp_next_state (sp_private sp4) /\
    (sp_state (sp_private sp4) = ePS_Running \/ sp_state (sp_private sp4) = ePS_WaitingForStreamDisable)).
  { destruct H3' as [(-> & _)| ->]; cbn; split; auto; congruence. }
  destruct Hst as [Hsn Hst].
  rewrite dispatch_running in Hr by (done || (intros Hx; rewrite Hx in Hst; by destruct Hst)).
  apply putPacket_data_run in Hr as [Hd|(sp6 & r & H6 & Hd & _)]; [by apply Hend|]. right.
  apply switch_to_disable_run in Hd; [|by rewrite H6]. rewrite Hd, H6. by destruct H3' as [(-> & _)| ->].
Qed.

(** [putPacket] for a stream that waits. *)
Lemma putPacket_waiting data n tag sy ctr dropped s sp x sp1 :
  waiting_in s sp -> putPacket data n tag sy ctr dropped sp = Some (x, sp1) ->
  if is_reached ctr sp then
    match s with
    | ePS_WaitingForStreamEnable =>
        sp_state (sp_private sp1) = ePS_Running \/
        sp_state (sp_private sp1) = ePS_WaitingForStreamDisable /\ sp_in_xrun (sp_private sp1) = true
    | ePS_WaitingForStream => good_header data n tag sy ctr -> sp_state (sp_private sp1) = ePS_DryRunning
    | _ => sp_state (sp_private sp1) = ePS_DryRunning
    end
  else sp_state (sp_private sp1) = s.
Proof.
  intros (Hs & Hst & Hn) Hr. unfold putPacket in Hr. sp_inv. rewrite Hst, Hn in Hr.
  rewrite (bool_decide_false (s = ePS_Invalid)), (bool_decide_false (s = ePS_Created)),
    (bool_decide_false (s = ePS_Error)), andb_false_r in Hr by (by destruct Hs as [->|[->| ->]]).
  apply bind_inv in Hr as (ts & ? & [= <- <-] & Hr). apply bind_inv in Hr as (? & sp0 & H0' & Hr).
  assert (Hc0 : sp_private sp0 = core_with_last_timestamp2 (sh_last_timestamp (sp_protected sp)) (sp_private sp))
    by (by sp_inv).
  assert (Hre : is_reached ctr sp = is_reached ctr sp0) by (unfold is_reached; by rewrite Hc0). rewrite Hre.
  assert (Hs0 : sp_state (sp_private sp0) = s) by (by rewrite Hc0).
  assert (Hn0 : sp_next_state (sp_private sp0) = s) by (by rewrite Hc0). clear Hre Hst Hn Hc0 H0'.
  destruct Hs as [->|[->| ->]]; states Hr.
  - unfold putPacket_header in Hr. apply bind_inv in Hr as (res & sp2 & H2 & Hr).
    pose proof (on_child_core _ _ _ _ H2) as Hc2. apply bind_inv in Hr as (ok & sp3 & H3 & Hr).
    apply putPacket_dropped_core in H3 as [-> H3]; [|by rewrite Hc2, Hs0]. cbn [negb] in Hr.
    assert (Hc3 : sp_private sp3 = sp_private sp0) by congruence.
    destruct (decide (res = eCRV_OK)) as [->|Hres].
    + apply putPacket_good_start in Hr as (sp4 & H4 & Hr). rewrite dispatch_waiting in Hr by (by rewrite H4, Hc3).
      assert (Hre : is_reached ctr sp0 = is_reached ctr sp4) by (unfold is_reached; by rewrite H4, Hc3). rewrite Hre.
      fold (is_reached ctr sp4) in Hr. destruct (is_reached ctr sp4); [|injection Hr as <- <-; congruence]. intros _.
      destruct (switch_to ePS_DryRunning sp4) as [[ok sp5]|] eqn:H1; [|done]. injection Hr as <- <-.
      apply switch_to_run in H1; rewrite ?H1, ?entered_state, ?H4, ?Hc3, ?Hs0; done.
    + assert (Hf : sp_state (sp_private sp1) = ePS_WaitingForStream) by (destruct res; sp_inv; congruence).
      destruct (is_reached ctr sp0); [|done]. intros Hg. destruct Hres. unfold on_child in H2.
      destruct (processPacketHeader _ _ _ _ _ _) as [[r s1]|] eqn:Hh; [|done]. apply Hg in Hh as ->. by injection H2 as <- _.
  - apply bind_inv in Hr as (reached & ? & [= <- <-] & Hr). fold (is_reached ctr sp0) in Hr.
    apply bind_inv in Hr as (ok & sp3 & H3 & Hr).
    destruct (is_reached ctr sp0).
    + apply switch_to_run in H3; rewrite ?Hs0; try done.
      destruct ok; cbn [negb] in Hr; [|sp_inv; left; by rewrite H3, entered_state].
      apply putPacket_header_running in Hr as [[Hr _]|Hr];
        rewrite ?Hr, ?H3, ?entered_state, ?entered_next_state; [by left|by right|done..].
    + injection H3 as <- <-. cbn [negb] in Hr. by apply putPacket_header_enable in Hr.
  - apply bind_inv in Hr as (reached & ? & [= <- <-] & Hr). fold (is_reached ctr sp0) in Hr.
    apply bind_inv in Hr as (ok & sp3 & H3 & Hr). destruct (is_reached ctr sp0); [|by sp_inv].
    sp_inv. apply switch_to_run in H3; rewrite ?H3, ?entered_state, ?Hs0; done.
Qed.

(** [getPacket] for a stream that waits. *)
Lemma getPacket_waiting data n tag sy ctr dropped s sp x sp1 :
  waiting_in s sp -> ctr <> 0xFFFFFFFF -> getPacket data n tag sy ctr dropped sp = Some (x, sp1) ->
  sp_state (sp_private sp1) = if is_reached ctr sp then after_wait s else s.
Proof.
  intros (Hs & Hst & Hn) Hctr Hr. unfold getPacket in Hr. rewrite (proj2 (Z.eqb_neq _ _)) in Hr by done.
  apply bind_inv in Hr as (st & ? & [= <- <-] & Hr). rewrite Hst in Hr.
  rewrite (bool_decide_false (s = ePS_Invalid)), (bool_decide_false (s = ePS_Created)),
    (bool_decide_false (s = ePS_Error)), (bool_decide_false (s = ePS_Running)), andb_false_r in Hr
    by (by destruct Hs as [->|[->| ->]]).
  assert (Hr' : exists sp0, getPacket_normal (mkPacket data n tag sy) ctr sp0 = Some (x, sp1) /\
    is_reached ctr sp = is_reached ctr sp0 /\ sp_state (sp_private sp0) = s /\ sp_next_state (sp_private sp0) = s).
  { destruct (0 <? dropped); [|by exists sp]. unfold set_in_xrun in Hr. sp_inv. by eexists. }
  clear Hr Hst Hn. destruct Hr' as (sp0 & Hr & -> & Hst & Hn). unfold getPacket_normal in Hr.
  do 3 apply bind_inv in Hr as (? & ? & [= <- <-] & Hr). rewrite Hst, Hn in Hr.
  destruct Hs as [->|[->| ->]]; states Hr; apply bind_inv in Hr as (reached & ? & [= <- <-] & Hr);
    fold (is_reached ctr sp0) in Hr.
  - eapply (switch_and_send_core _ _ _ _ _ _
      (if is_reached ctr sp0 then entered ePS_DryRunning (core_with_next_state ePS_DryRunning (sp_private sp0))
       else sp_private sp0)) in Hr;
      [| |destruct (is_reached ctr sp0); rewrite ?entered_state, ?entered_next_state; [done|congruence]].
    + rewrite Hr. by destruct (is_reached ctr sp0); rewrite ?entered_state.
    + intros r sp2. destruct (is_reached ctr sp0); [|by intros [= <- <-]].
      intros H1. apply switch_to_run in H1; rewrite ?Hst; done.
  - eapply (switch_and_send_core _ _ _ _ _ _
      (if is_reached ctr sp0 then entered ePS_Running (core_with_next_state ePS_Running (sp_private sp0))
       else sp_private sp0)) in Hr;
      [| |destruct (is_reached ctr sp0); rewrite ?entered_state, ?entered_next_state; [done|congruence]].
    + rewrite Hr. by destruct (is_reached ctr sp0); rewrite ?entered_state.
    + intros r sp2. destruct (is_reached ctr sp0); [|by intros [= <- <-]].
      intros H1. apply switch_to_run in H1; rewrite ?Hst; done.
  - apply bind_inv in Hr as (ok & sp2 & H2 & Hr).
    assert (Hc2 : sp_state (sp_private sp2) = (if is_reached ctr sp0 then ePS_DryRunning else ePS_WaitingForStreamDisable) /\
      sp_next_state (sp_private sp2) = sp_state (sp_private sp2)).
    { destruct (is_reached ctr sp0); [|by injection H2 as <- <-; rewrite Hn, Hst].
      apply switch_to_run in H2; rewrite ?Hst; try done. rewrite H2, entered_state, entered_next_state. done. }
    destruct Hc2 as [Hc2 Hn2]. destruct ok; cbn [negb] in Hr; [|sp_inv; by destruct (is_reached ctr sp0)].
    apply bind_inv in Hr as ([res p1] & sp3 & H3%generate_core & Hr).
    assert (Hc3 : sp_private sp1 = sp_private sp3).
    { destruct res; try by sp_inv.
      - apply bind_inv in Hr as ([? ?] & sp4 & H4%generate_core & Hr). by sp_inv.
      - apply send_empty_core in Hr; congruence. }
    rewrite Hc3, H3, Hc2. by destruct (is_reached ctr sp0).
Qed.

(** the private fields after an xrun in cycle [cycle] *)
Definition xrun_stop (ctr : Z) (c : sp_core) : sp_core :=
  core_with_state ePS_WaitingForStreamDisable (core_with_next_state ePS_WaitingForStreamDisable
    (core_with_cycle (u32 (CYCLE_TIMER_GET_CYCLES ctr + 1)) (core_with_in_xrun true c))).

Lemma getPacket_dropped data n tag sy ctr dropped sp x sp1 :
  sp_state (sp_private sp) = ePS_Running -> ctr <> 0xFFFFFFFF -> 0 < dropped ->
  getPacket data n tag sy ctr dropped sp = Some (x, sp1) -> sp_private sp1 = xrun_stop ctr (sp_private sp).
Proof.
  intros Hs Hctr Hd Hr. unfold getPacket in Hr. rewrite (proj2 (Z.eqb_neq _ _)) in Hr by done.
  apply bind_inv in Hr as (st & ? & [= <- <-] & Hr). rewrite Hs in Hr. states Hr.
  rewrite (proj2 (Z.ltb_lt _ _)) in Hr by done. unfold set_in_xrun in Hr. apply bind_inv in Hr as (? & sp0 & H0' & Hr). sp_inv.
  eapply switch_and_send_core in Hr; [exact Hr| |done].
  intros r sp2 H2%switch_to_disable_run; [exact H2|by left].
Qed.

(** [putPacket] for a running stream is the treatment of the packet. *)
Lemma putPacket_running data n tag sy ctr dropped sp x sp1 :
  sp_state (sp_private sp) = ePS_Running ->
  putPacket data n tag sy ctr dropped sp = Some (x, sp1) ->
  exists sp0, putPacket_header data n tag sy ctr dropped sp0 = Some (x, sp1) /\
    mod_core (core_with_last_timestamp2 (sh_last_timestamp (sp_protected sp))) sp = Some ((), sp0) /\
    sp_private sp0 = core_with_last_timestamp2 (sh_last_timestamp (sp_protected sp)) (sp_private sp).
Proof.
  intros Hs Hr. unfold putPacket in Hr. do 2 apply bind_inv in Hr as (? & ? & [= <- <-] & Hr). rewrite Hs in Hr. states Hr.
  rewrite andb_false_r in Hr.
  apply bind_inv in Hr as (ts & ? & [= <- <-] & Hr). apply bind_inv in Hr as ([] & sp0 & Hm & Hr).
  exists sp0. split; [done|]. split; [done|]. by injection Hm as <-.
Qed.

(** What the subclass says of a packet: of its header, and, when that is good,
    of its data in the state that the header and the repairs of the timestamps
    have left. *)
Definition header_then_data (data : list Z) (n tag sy ctr : Z) : M (eChildReturnValue * option eChildReturnValue) :=
  result ← on_child (processPacketHeader data n tag sy ctr);
  match result with
  | eCRV_OK => debug_fix_timestamp;; correct_tail_timestamp;; result2 ← on_child (processPacketData data n); mret (result, Some result2)
  | _ => mret (result, None)
  end.

Definition packet_results (data : list Z) (n tag sy ctr : Z) : M (eChildReturnValue * option eChildReturnValue) :=
  ts ← gets sh_last_timestamp;
  mod_core (core_with_last_timestamp2 ts);;
  header_then_data data n tag sy ctr.

(** a good packet whose data do not fit *)
Lemma putPacket_header_xrun data n tag sy ctr sp sp2 x sp1 :
  header_then_data data n tag sy ctr sp = Some ((eCRV_OK, Some eCRV_XRun), sp2) ->
  sp_state (sp_private sp) = ePS_Running -> sp_next_state (sp_private sp) = ePS_Running ->
  putPacket_header data n tag sy ctr 0 sp = Some (x, sp1) -> sp_private sp1 = xrun_stop ctr (sp_private sp).
Proof.
  intros Hc Hs Hn Hr. unfold header_then_data in Hc. apply bind_inv in Hc as (res & spa & Ha & Hc). destruct res; sp_inv; try done.
  injection Hc as -> <-. rename x3 into spc.
  unfold putPacket_header in Hr. rewrite (bind_some _ _ _ _ _ Ha), (bind_some _ _ spa true spa) in Hr by done. cbn [negb] in Hr.
  unfold putPacket_good in Hr. rewrite (bind_some _ _ _ _ _ H1), (bind_some _ _ _ _ _ H2) in Hr.
  assert (Hp : sp_private spc = sp_private sp).
  { apply keeps_core_debug_fix in H1. apply keeps_core_correct_tail in H2. apply on_child_core in Ha. unfold same_core in *. congruence. }
  rewrite dispatch_running in Hr by (rewrite Hp, ?Hs, ?Hn; done).
  unfold putPacket_data in Hr. rewrite (bind_some _ _ _ _ _ H3) in Hr. apply on_child_core in H3 as Hc6.
  unfold set_in_xrun in Hr. apply bind_inv in Hr as (? & sp7 & [= <- <-] & Hr).
  apply bind_inv in Hr as (ok & sp8 & H8 & Hr). injection Hr as <- <-.
  apply switch_to_disable_run in H8; [|left; cbn; by rewrite Hc6, Hp]. rewrite H8. cbn. by rewrite Hc6, Hp.
Qed.

(** ** Starting

    What it takes to start a receive stream: the buffer has been prepared for
    frames of [cluster] bytes and times below [wrap], a packet has [period]
    frames, fewer than the buffer gets for the current settings, and no
    timestamp correction is pending.  [mode] is the mode of the buffer, [fresh]
    says that it is empty and has its full size, and [timed] that the time of
    the last packet is one of the buffer. *)

Definition nominal_size (s : sp_shared E) : Z :=
  u32 (u32 (u32 (spm_getNbBuffers (sh_env s) * spm_getPeriodSize (sh_env s)) + sh_extra_buffer_frames s) + 1).

(** the settings that the environment announces *)
Definition env_settings (e : E) : Z * Z := (spm_getNbBuffers e, spm_getPeriodSize e).

Section starting.
Context (cluster period : Z) (wrap : float).

Definition time_ok (s : sp_shared E) : Prop :=
  SFltb (f64_of_Z (sh_last_timestamp s)) wrap = true /\ SFleb (f64_of_Z 0) (f64_of_Z (sh_last_timestamp s)) = true.

Record ready (mode fresh timed : bool) (s : sp_shared E) : Prop := {
  rd_mode : tb_transparent (sh_data_buffer s) = mode;
  rd_buffer : exists rb, tb_ok (sh_data_buffer s) rb /\
    (fresh = true -> tb_framecounter (sh_data_buffer s) = 0 /\ rb_content rb = [] /\ nominal_size s * cluster - 1 <= rb_capacity rb);
  rd_cluster : tb_cluster (sh_data_buffer s) = cluster;
  rd_period : bc_update_period (tb_clock (sh_data_buffer s)) = period;
  rd_wrap : bc_wrap_at (tb_clock (sh_data_buffer s)) = wrap;
  rd_size : 0 < period < nominal_size s /\ nominal_size s * cluster <= 2 ^ 30;
  rd_timestamp : sh_correct_last_timestamp s = false;
  rd_time : timed = true -> time_ok s }.

Lemma ready_env mode fresh timed s e : env_settings e = env_settings (sh_env s) -> ready mode fresh timed s -> ready mode fresh timed (sh_with_env e s).
Proof.
  intros He Hr. unfold env_settings in He. injection He as H1 H2.
  destruct Hr. split; unfold nominal_size in *; cbn; by rewrite ?H1, ?H2.
Qed.

Lemma ready_weaken mode fresh timed s : ready mode fresh timed s -> ready mode false false s.
Proof. intros [? (rb & ? & _)]. split; [done| |done..]. by exists rb. Qed.

Lemma ready_untimed mode fresh timed s : ready mode fresh timed s -> ready mode fresh false s.
Proof. intros []. by split. Qed.

(** the buffer with another clock of the same period *)
Lemma ready_buffer mode fresh timed mode1 s b :
  ready mode fresh timed s -> tb_transparent b = mode1 -> tb_event_buffer b = tb_event_buffer (sh_data_buffer s) ->
  tb_process_buffer b = tb_process_buffer (sh_data_buffer s) -> tb_format b = tb_format (sh_data_buffer s) ->
  tb_framecounter b = tb_framecounter (sh_data_buffer s) ->
  bc_update_period (tb_clock b) = bc_update_period (tb_clock (sh_data_buffer s)) ->
  bc_wrap_at (tb_clock b) = bc_wrap_at (tb_clock (sh_data_buffer s)) ->
  ready mode1 fresh timed (sh_with_data_buffer b s).
Proof.
  intros [Hm (rb & Hok & Hf) Hc Hp Hw Hs Ht Htm] H1 H2 H3 H4 H5 H6 H7. split; unfold nominal_size, tb_cluster in *; cbn; [done| |by rewrite ?H4, ?H6, ?H7..].
  exists rb. split; [|by rewrite H5]. destruct Hok. split; unfold tb_cluster in *; by rewrite ?H2, ?H3, ?H4.
Qed.

(** What is assumed: the build is a release build, what is outside does not
    change the settings, the handler of the stream starts, and [malloc] returns
    memory. *)
Hypothesis release : DEBUG = false.
Hypothesis env_signals : forall e, env_settings (signalActivity e) = env_settings e /\
  env_settings (signalActivityTransmit e) = env_settings e /\ env_settings (signalActivityReceive e) = env_settings e.
Hypothesis env_starts : forall cycle e,
  fst (ihm_startHandlerForStream cycle e) = true /\ env_settings (snd (ihm_startHandlerForStream cycle e)) = env_settings e.
Hypothesis block_length : forall k, 0 <= k -> Z.of_nat (length (block k)) = k.

Lemma SIGNAL_ACTIVITY_ALL_live mode fresh timed sp :
  ready mode fresh timed (sp_protected sp) -> exists sp1, SIGNAL_ACTIVITY_ALL sp = Some ((), sp1) /\ ready mode fresh timed (sp_protected sp1) /\
    sp_private sp1 = sp_private sp.
Proof.
  intros Hr. eexists. split; [reflexivity|]. split; [|done]. cbn. apply ready_env; [|done].
  destruct (env_signals (signalActivityTransmit (signalActivity (sh_env (sp_protected sp))))) as (_ & _ & ->).
  destruct (env_signals (signalActivity (sh_env (sp_protected sp)))) as (_ & -> & _). apply env_signals.
Qed.

Lemma enter_after mode fresh timed s r sp :
  ready mode fresh timed (sp_protected sp) -> exists r1 sp1, enter_state s r sp = Some (r1, sp1) /\ ready mode fresh timed (sp_protected sp1) /\
    sp_private sp1 = core_with_state s (sp_private sp) /\ r1 = r.
Proof.
  intros Hr. destruct (SIGNAL_ACTIVITY_ALL_live mode fresh timed (mkSP (core_with_state s (sp_private sp)) (sp_protected sp)) Hr)
    as (sp1 & Hs & Hr1 & _). assert (He : enter_state s r sp = Some (r, sp1)) by (unfold enter_state, set_state, mod_core, mbind, SPM_bind; by rewrite Hs).
  exists r, sp1. split; [done|]. split; [done|]. split; [|done]. by apply enter_state_run in He as (_ & ? & _).
Qed.

Lemma schedule_live mode fresh timed s t sp :
  ready mode fresh timed (sp_protected sp) -> exists sp1, scheduleStateTransition s t sp = Some (true, sp1) /\ ready mode fresh timed (sp_protected sp1) /\
    sp_private sp1 = core_with_next_state s (core_with_cycle (u32 (TICKS_TO_CYCLES t)) (sp_private sp)).
Proof.
  intros Hr. set (sp0 := mkSP (core_with_next_state s (core_with_cycle (u32 (TICKS_TO_CYCLES t)) (sp_private sp))) (sp_protected sp)).
  destruct (SIGNAL_ACTIVITY_ALL_live mode fresh timed sp0 Hr) as (sp1 & Hs & Hr1 & Hc). exists sp1. split; [|done].
  change (scheduleStateTransition s t sp)
    with (match SIGNAL_ACTIVITY_ALL sp0 with Some (_, sp2) => Some (true, sp2) | None => None end). by rewrite Hs.
Qed.

Lemma debug_now_release sp : debug_now sp = Some ((), sp).
Proof. unfold debug_now. by rewrite release. Qed.

(** the request to start, for an instant *)
Lemma scheduleStartDryRunning_live mode fresh timed t sp :
  0 <= t -> sp_state (sp_private sp) = ePS_Stopped -> ready mode fresh timed (sp_protected sp) ->
  exists sp1, scheduleStartDryRunning t sp = Some (true, sp1) /\ ready mode fresh timed (sp_protected sp1) /\
    sp_private sp1 = core_with_next_state ePS_WaitingForStream (core_with_cycle (u32 (TICKS_TO_CYCLES t)) (sp_private sp)).
Proof.
  intros Ht Hs Hr. unfold scheduleStartDryRunning, switch_time. destruct (Z.ltb_spec t 0); [lia|].
  unfold mbind, SPM_bind. cbn [mret SPM_ret]. rewrite debug_now_release.
  unfold gets_core. rewrite Hs. unfold on_env, on_child.
  destruct (env_starts (TICKS_TO_CYCLES (substractTicks t (100 * TICKS_PER_CYCLE))) (sh_env (sp_protected sp))) as [Ho He].
  destruct (ihm_startHandlerForStream _ _) as [ok e]. cbn in Ho, He. subst ok. cbn [mbind option_bind negb].
  destruct (schedule_live mode fresh timed ePS_WaitingForStream t (mkSP (sp_private sp) (sh_with_env e (sp_protected sp))))
    as (sp2 & Hq & Hr2 & Hc2); [by apply ready_env|].
  exists sp2. rewrite Hq. split; [done|]. split; [done|]. by rewrite Hc2.
Qed.

Lemma scheduleStartRunning_live mode fresh timed t sp :
  0 <= t -> ready mode fresh timed (sp_protected sp) ->
  exists sp1, scheduleStartRunning t sp = Some (true, sp1) /\ ready mode fresh timed (sp_protected sp1) /\
    sp_private sp1 = core_with_next_state ePS_WaitingForStreamEnable (core_with_cycle (u32 (TICKS_TO_CYCLES t)) (sp_private sp)).
Proof.
  intros Ht Hr. unfold scheduleStartRunning, switch_time. destruct (Z.ltb_spec t 0); [lia|].
  unfold mbind, SPM_bind. cbn [mret SPM_ret]. rewrite debug_now_release.
  destruct (schedule_live mode fresh timed ePS_WaitingForStreamEnable t sp Hr) as (sp2 & Hq & Hr2 & Hc2).
  exists sp2. rewrite Hq. by split.
Qed.

(** *** The changes of state on the way *)

Lemma doWaitForRunningStream_live mode fresh timed sp :
  sp_state (sp_private sp) = ePS_Stopped -> ready mode fresh timed (sp_protected sp) ->
  exists sp1, doWaitForRunningStream sp = Some (true, sp1) /\ ready mode fresh timed (sp_protected sp1).
Proof.
  intros Hs Hr. unfold doWaitForRunningStream, mbind, SPM_bind, gets_core. rewrite Hs.
  destruct (enter_after mode fresh timed ePS_WaitingForStream true sp Hr) as (r & sp1 & He & Hr1 & _ & ->). by exists sp1.
Qed.

Lemma doDryRunning_live mode fresh timed sp :
  sp_state (sp_private sp) = ePS_WaitingForStream -> ready mode fresh timed (sp_protected sp) ->
  exists sp1, doDryRunning sp = Some (true, sp1) /\ ready mode fresh timed (sp_protected sp1).
Proof.
  intros Hs Hr. unfold doDryRunning, mbind, SPM_bind, gets_core. rewrite Hs.
  unfold update_local_node_id, is_type, gets_core, gets_env, gets, mod_shared, mbind, SPM_bind. cbv beta iota.
  set (s0 := sh_with_local_node_id _ _). assert (Hr0 : ready mode fresh timed s0) by (by destruct Hr; split).
  cbn [sp_private sp_protected]. destruct (bool_decide _).
  - unfold mod_buffer, on_buffer, on_child. cbn [mbind option_bind sp_protected sp_private].
    destruct (enter_after mode fresh timed ePS_DryRunning true (mkSP (sp_private sp)
      (sh_with_data_buffer (setBufferTailTimestamp (f64_of_Z (sh_last_timestamp s0)) (sh_data_buffer s0)) s0)))
      as (r & sp1 & He & Hr1 & _ & ->); [apply (ready_buffer mode); [done|apply Hr0|done..]|]. by exists sp1.
  - destruct (enter_after mode fresh timed ePS_DryRunning true (mkSP (sp_private sp) s0)) as (r & sp1 & He & Hr1 & _ & ->); [done|]. by exists sp1.
Qed.

(** the buffer gets its full size and is empty *)
Lemma doWaitForStreamEnable_live mode fresh timed sp :
  sp_state (sp_private sp) = ePS_DryRunning -> sp_processor_type (sp_private sp) = ePT_Receive -> ready mode fresh timed (sp_protected sp) ->
  exists sp1, doWaitForStreamEnable sp = Some (true, sp1) /\ ready mode true timed (sp_protected sp1).
Proof.
  intros Hs Ht Hr. destruct Hr as [Hm (rb & Hok & _) Hc Hp Hw [Hsz Hbig] Hco Htm].
  pose proof (ok_cluster _ _ Hok) as Hcl. rewrite Hc in Hcl.
  unfold doWaitForStreamEnable, ringbuffer_size_frames, gets_env, gets, gets_core, is_type, gets_core, mbind, SPM_bind.
  cbv beta iota. cbn [mret SPM_ret]. rewrite Hs. unfold on_buffer, on_child.
  fold (nominal_size (sp_protected sp)).
  destruct (resizeBuffer_spec block (sh_data_buffer (sp_protected sp)) (nominal_size (sp_protected sp)) block_length)
    as (b1 & rb1 & Hrb & Heb1 & Hwf & Hnil & Hcap & Hfc & Htr & Hpb & _ & Hes1 & Hep1 & Hcs & Hpbs);
    [lia|apply (ok_events_per_frame _ _ Hok)|apply (ok_event_size _ _ Hok)|by rewrite <- Hcl|].
  rewrite Hrb. cbn [mbind option_bind negb sp_private].
  rewrite Ht. states Hs. rewrite (bool_decide_false (ePT_Receive = ePT_Transmit)) by done. cbn [mret SPM_ret negb].
  destruct (enter_after mode true timed ePS_WaitingForStreamEnable true (mkSP (sp_private sp) (sh_with_data_buffer b1 (sp_protected sp))))
    as (r & sp1 & He & Hr2 & _ & ->); [|by exists sp1].
  assert (Hclk : bc_update_period (tb_clock b1) = bc_update_period (tb_clock (sh_data_buffer (sp_protected sp))) /\
      bc_wrap_at (tb_clock b1) = bc_wrap_at (tb_clock (sh_data_buffer (sp_protected sp)))).
  { unfold resizeBuffer in Hrb. case_match; [done|]. destruct (ffado_ringbuffer_create _ _); [|done]. by injection Hrb as <-. }
  destruct Hclk as [Hc1 Hn1]. rewrite <- Hcl in Hcap.
  split; cbn [sp_protected sh_with_data_buffer sh_data_buffer sh_correct_last_timestamp]; [congruence| |unfold tb_cluster in *; congruence|congruence|congruence|done..].
  exists rb1. split; [|by intros _]. destruct Hok as [K1 K2 K3 K4 K5 K6 K7 K8].
  split; unfold tb_cluster in *; rewrite ?Heb1, ?Hes1, ?Hep1, ?Hcs, ?Hpbs, ?Hpb; done.
Qed.

(** the buffer becomes opaque *)
Lemma doRunning_live mode fresh timed sp :
  sp_state (sp_private sp) = ePS_WaitingForStreamEnable -> ready mode fresh timed (sp_protected sp) ->
  exists r sp1, doRunning sp = Some (r, sp1) /\ ready false fresh timed (sp_protected sp1).
Proof.
  intros Hs Hr. unfold doRunning, mbind, SPM_bind. cbn [gets_core]. rewrite Hs.
  unfold update_local_node_id, mod_core, mod_buffer, on_buffer, on_child, gets_env, gets, mod_shared, mbind, SPM_bind. cbv beta iota.
  cbn [sp_private sp_protected mbind option_bind].
  set (s0 := sh_with_local_node_id _ _). assert (Hr0 : ready mode fresh timed s0) by (by destruct Hr; split).
  set (bw := f64_div _ _). clearbody bw. destruct (setBandwidth bw (sh_data_buffer s0)) as [r b] eqn:Hb.
  cbn [mbind option_bind sp_private sp_protected].
  eapply (ex_intro _ r). destruct (enter_after false fresh timed ePS_Running r (mkSP
    (core_with_last_timestamp2 0 (core_with_in_xrun false (sp_private sp)))
    (sh_with_data_buffer (setTransparent false b) (sh_with_data_buffer b s0)))) as (r1 & sp1 & He & Hr2 & _ & ->).
  - change (ready false fresh timed (sh_with_data_buffer (setTransparent false b) s0)). assert (Hk : exists k, b = tb_with_clock k (sh_data_buffer s0) /\
      bc_update_period k = bc_update_period (tb_clock (sh_data_buffer s0)) /\ bc_wrap_at k = bc_wrap_at (tb_clock (sh_data_buffer s0))).
    { apply (f_equal snd) in Hb. cbn [snd] in Hb. rewrite <- Hb. unfold setBandwidth. destruct (SFleb _ _); [exists (tb_clock (sh_data_buffer s0)); by destruct (sh_data_buffer s0)|].
      eexists. split; [reflexivity|]. split; reflexivity. }
    destruct Hk as (k & -> & Hk1 & Hk2). by apply (ready_buffer mode).
  - by exists sp1.
Qed.

(** [start_edge s t]: a change on the way from stopped to running; [opens t]
    and [fills t]: the mode, and whether the buffer is fresh, when it is made *)
Definition start_edge (s t : eProcessorState) : Prop :=
  (s = ePS_Stopped /\ t = ePS_WaitingForStream) \/ (s = ePS_WaitingForStream /\ t = ePS_DryRunning) \/
  (s = ePS_DryRunning /\ t = ePS_WaitingForStreamEnable) \/ (s = ePS_WaitingForStreamEnable /\ t = ePS_Running).

Definition opens (t : eProcessorState) : bool := match t with ePS_Running => false | _ => true end.
Definition fills (t : eProcessorState) : bool := match t with ePS_WaitingForStreamEnable | ePS_Running => true | _ => false end.

Lemma attempt_live mode fresh timed (m : M bool) r sp sp1 :
  m sp = Some (r, sp1) -> ready mode fresh timed (sp_protected sp1) ->
  exists sp2, updateState_attempt m sp = Some (r, sp2) /\ ready mode fresh timed (sp_protected sp2).
Proof.
  intros Hm Hr. unfold updateState_attempt, mbind, SPM_bind. rewrite Hm. destruct r; [by exists sp1|].
  destruct (SIGNAL_ACTIVITY_ALL_live mode fresh timed sp1 Hr) as (sp2 & Hs & Hr2 & _).
  exists sp2. split; [|done]. unfold updateState_exit_with_error, mbind, SPM_bind. by rewrite Hs.
Qed.

Lemma updateState_live timed sp :
  start_edge (sp_state (sp_private sp)) (sp_next_state (sp_private sp)) -> sp_processor_type (sp_private sp) = ePT_Receive ->
  ready (opens (sp_state (sp_private sp))) (fills (sp_state (sp_private sp))) timed (sp_protected sp) ->
  exists r sp1, updateState sp = Some (r, sp1) /\
    ready (opens (sp_next_state (sp_private sp))) (fills (sp_next_state (sp_private sp))) timed (sp_protected sp1) /\
    sp_private sp1 = entered (sp_next_state (sp_private sp)) (sp_private sp) /\
    (sp_next_state (sp_private sp) <> ePS_Running -> r = true).
Proof.
  intros He Ht Hr. assert (Hu : exists r sp1, updateState sp = Some (r, sp1) /\
    ready (opens (sp_next_state (sp_private sp))) (fills (sp_next_state (sp_private sp))) timed (sp_protected sp1) /\
    (sp_next_state (sp_private sp) <> ePS_Running -> r = true)).
  { unfold updateState, gets_core, mbind, SPM_bind. cbv beta iota.
    destruct He as [[Hs Hn]|[[Hs Hn]|[[Hs Hn]|[Hs Hn]]]]; rewrite Hs, Hn; rewrite Hs in Hr; cbn [opens fills] in *.
    - destruct (doWaitForRunningStream_live _ _ _ sp Hs Hr) as (sp1 & H1 & Hr1).
      destruct (attempt_live _ _ _ _ _ _ _ H1 Hr1) as (sp2 & H2 & Hr2). by exists true, sp2.
    - destruct (doDryRunning_live _ _ _ sp Hs Hr) as (sp1 & H1 & Hr1).
      destruct (attempt_live _ _ _ _ _ _ _ H1 Hr1) as (sp2 & H2 & Hr2). by exists true, sp2.
    - destruct (doWaitForStreamEnable_live _ _ _ sp Hs Ht Hr) as (sp1 & H1 & Hr1).
      destruct (attempt_live _ _ _ _ _ _ _ H1 Hr1) as (sp2 & H2 & Hr2). by exists true, sp2.
    - destruct (doRunning_live _ _ _ sp Hs Hr) as (r & sp1 & H1 & Hr1).
      destruct (attempt_live _ _ _ _ _ _ _ H1 Hr1) as (sp2 & H2 & Hr2). by exists r, sp2. }
  destruct Hu as (r & sp1 & Hu & Hr1 & Hrt). exists r, sp1. split; [done|]. split; [done|]. split; [|done].
  destruct (updateState_run _ _ _ Hu) as [(Heq & _)|[(_ & Hed & _)|[_ [[Hp _]|(Hf & _ & _ & Ho)]]]]; [..|done|].
  - destruct He as [[Hs Hn]|[[Hs Hn]|[[Hs Hn]|[Hs Hn]]]]; congruence.
  - destruct He as [[Hs Hn]|[[Hs Hn]|[[Hs Hn]|[Hs Hn]]]]; by rewrite Hs, Hn in Hed.
  - destruct He as [[Hs Hn]|[[Hs Hn]|[[Hs Hn]|[Hs Hn]]]]; rewrite Hs, Hn in *; try (by destruct (Ho eq_refl));
      by rewrite Hrt in Hf.
Qed.

(** ** Good packets

    What a subclass has to show of the packets that are [good]: it takes the
    header, which gives a time of the buffer, and then, with that time, the data
    if the buffer is fresh - a transparent buffer stays fresh. *)
Variable good : list Z -> Z -> Z -> Z -> Z -> Prop.

Class PacketLaws : Prop := {
  header_taken mode fresh timed data n tag sy ctr s : good data n tag sy ctr -> ready mode fresh timed s ->
    exists s1, processPacketHeader data n tag sy ctr s = Some (eCRV_OK, s1) /\ ready mode fresh true s1;
  data_taken mode data n tag sy ctr s : good data n tag sy ctr -> ready mode true true s ->
    exists s1, processPacketData data n s = Some (eCRV_OK, s1) /\ ready mode mode false s1 }.

Context {packet_laws : PacketLaws}.

Lemma putPacket_header_live mode fresh timed data n tag sy ctr sp :
  good data n tag sy ctr -> ready mode fresh timed (sp_protected sp) ->
  exists sp1, sp_private sp1 = sp_private sp /\ ready mode fresh true (sp_protected sp1) /\
    putPacket_header data n tag sy ctr 0 sp
    = putPacket_dispatch data n ctr sp1.
Proof.
  intros Hg Hr. destruct (header_taken mode fresh timed data n tag sy ctr (sp_protected sp) Hg Hr) as (s1 & Hh & Hr1).
  exists (mkSP (sp_private sp) s1). do 2 (split; [done|]).
  unfold putPacket_header, putPacket_dropped, putPacket_good, on_child, mbind, SPM_bind. rewrite Hh. cbn [mbind option_bind].
  cbn [Z.eqb mret SPM_ret negb]. unfold debug_fix_timestamp. rewrite release. cbn [negb mret SPM_ret].
  unfold correct_tail_timestamp, gets, mbind, SPM_bind. cbn [sp_protected]. by rewrite (rd_timestamp _ _ _ _ Hr1).
Qed.

(** the packet that executes a request, or reaches the scheduled cycle *)
Definition packet_advances (ctr : Z) (s t : eProcessorState) (sp : StreamProcessor E) : Prop :=
  sp_processor_type (sp_private sp) = ePT_Receive /\ sp_state (sp_private sp) = s /\
  ((s = ePS_Stopped /\ sp_next_state (sp_private sp) = t /\ t = ePS_WaitingForStream) \/
   (s = ePS_WaitingForStream /\ sp_next_state (sp_private sp) = s /\ is_reached ctr sp = true /\ t = ePS_DryRunning) \/
   (s = ePS_DryRunning /\ sp_next_state (sp_private sp) = t /\ t = ePS_WaitingForStreamEnable) \/
   (s = ePS_WaitingForStreamEnable /\ sp_next_state (sp_private sp) = s /\ is_reached ctr sp = true /\ t = ePS_Running)).

(** the fields that matter on the way; a buffer that has become opaque has got
    the data of a packet, unless the change had no success *)
Definition started (t : eProcessorState) (sp sp1 : StreamProcessor E) : Prop :=
  ready (opens t) (opens t && fills t) false (sp_protected sp1) /\ sp_state (sp_private sp1) = t /\ sp_next_state (sp_private sp1) = t /\
  sp_processor_type (sp_private sp1) = sp_processor_type (sp_private sp) /\
  sp_cycle_to_switch_state (sp_private sp1) = sp_cycle_to_switch_state (sp_private sp).

Lemma entered_started s t c :
  sp_next_state c = t -> t <> s -> sp_state (entered t c) = t /\ sp_next_state (entered t c) = t /\
  sp_processor_type (entered t c) = sp_processor_type c /\ sp_cycle_to_switch_state (entered t c) = sp_cycle_to_switch_state c.
Proof. intros Hn _. rewrite entered_state, entered_next_state. unfold entered. by repeat case_match. Qed.

Lemma putPacket_start data n tag sy ctr sp s :
  sp_state (sp_private sp) = s -> s <> ePS_Invalid -> s <> ePS_Created -> s <> ePS_Error ->
  putPacket data n tag sy ctr 0 sp
  = (let sp0 := mkSP (core_with_last_timestamp2 (sh_last_timestamp (sp_protected sp)) (sp_private sp)) (sp_protected sp) in
     if bool_decide (s = ePS_WaitingForStreamDisable) then
       (reached ← cycle_reached ctr;
        ok ← (if reached : bool then switch_to ePS_DryRunning else mret true);
        mret (disposition ok RAW1394_ISO_OK)) sp0
     else if bool_decide (s = ePS_WaitingForStreamEnable)
             && bool_decide (sp_next_state (sp_private sp) = ePS_WaitingForStreamEnable) then
       (reached ← cycle_reached ctr;
        ok ← (if reached : bool then switch_to ePS_Running else mret true);
        if negb ok then mret RAW1394_ISO_ERROR
        else putPacket_header data n tag sy ctr 0) sp0
     else putPacket_header data n tag sy ctr 0 sp0).
Proof.
  intros Hs H1 H2 H3. unfold putPacket, mbind, SPM_bind, gets_core. cbv beta iota. rewrite Hs.
  rewrite (bool_decide_false (s = ePS_Invalid)), (bool_decide_false (s = ePS_Created)),
    (bool_decide_false (s = ePS_Error)), andb_false_r by done. cbv zeta.
  unfold gets, mod_core. by destruct (bool_decide (s = ePS_WaitingForStreamDisable)),
    (bool_decide (s = ePS_WaitingForStreamEnable) && bool_decide (sp_next_state (sp_private sp) = ePS_WaitingForStreamEnable)).
Qed.

Lemma switch_to_live timed t sp :
  start_edge (sp_state (sp_private sp)) t -> sp_processor_type (sp_private sp) = ePT_Receive ->
  ready (opens (sp_state (sp_private sp))) (fills (sp_state (sp_private sp))) timed (sp_protected sp) ->
  exists r sp1, switch_to t sp = Some (r, sp1) /\ ready (opens t) (fills t) timed (sp_protected sp1) /\
    sp_state (sp_private sp1) = t /\ sp_next_state (sp_private sp1) = t /\
    sp_processor_type (sp_private sp1) = sp_processor_type (sp_private sp) /\
    sp_cycle_to_switch_state (sp_private sp1) = sp_cycle_to_switch_state (sp_private sp) /\ (t <> ePS_Running -> r = true).
Proof.
  intros He Ht Hr. set (sp0 := mkSP (core_with_next_state t (sp_private sp)) (sp_protected sp)).
  destruct (updateState_live timed sp0) as (r & sp1 & Hu & Hr1 & Hp & Hrt); [done..|].
  exists r, sp1. split; [exact Hu|]. split; [done|]. rewrite Hp. cbn [sp_private sp0].
  destruct (entered_started (sp_state (sp_private sp)) t (core_with_next_state t (sp_private sp))) as (E1 & E2 & E3 & E4); [done| |].
  - destruct He as [[-> ->]|[[-> ->]|[[-> ->]|[-> ->]]]]; done.
  - by split_and!.
Qed.

(** the data of a packet after a change to a state with a fresh buffer *)
Lemma putPacket_data_live data n tag sy ctr t sp sp0 :
  good data n tag sy ctr -> fills t = true -> ready (opens t) true true (sp_protected sp0) ->
  sp_state (sp_private sp0) = t -> sp_next_state (sp_private sp0) = t ->
  sp_processor_type (sp_private sp0) = sp_processor_type (sp_private sp) ->
  sp_cycle_to_switch_state (sp_private sp0) = sp_cycle_to_switch_state (sp_private sp) ->
  exists d sp1, putPacket_data data n ctr sp0 = Some (d, sp1) /\ started t sp sp1.
Proof.
  intros Hg Hf Hr H1 H2 H3 H4. destruct (data_taken (opens t) data n tag sy ctr _ Hg Hr) as (s1 & Hd & Hr1).
  eexists _, _. split; [unfold putPacket_data, on_child, mbind, SPM_bind; rewrite Hd; reflexivity|].
  split; [|by split_and!]. by rewrite Hf, andb_true_r.
Qed.

Lemma putPacket_advances data n tag sy ctr s t sp :
  good data n tag sy ctr -> packet_advances ctr s t sp -> ready (opens s) (opens s && fills s) false (sp_protected sp) ->
  exists d sp1, putPacket data n tag sy ctr 0 sp = Some (d, sp1) /\ started t sp sp1.
Proof.
  intros Hg (Hty & Hs & Hcase) Hr.
  rewrite (putPacket_start _ _ _ _ _ _ s Hs) by (by destruct Hcase as [(-> & _)|[(-> & _)|[(-> & _)|(-> & _)]]]). cbv zeta.
  set (sp0 := mkSP _ (sp_protected sp)).
  assert (H0' : ready (opens s) (opens s && fills s) false (sp_protected sp0) /\ sp_state (sp_private sp0) = s /\
    sp_processor_type (sp_private sp0) = ePT_Receive /\
    sp_next_state (sp_private sp0) = sp_next_state (sp_private sp) /\ is_reached ctr sp0 = is_reached ctr sp) by done.
  assert (Hst0 : forall sp1, started t sp0 sp1 -> started t sp sp1) by done. clearbody sp0.
  destruct H0' as (Hr0 & Hs0 & Hty0 & Hn0 & Hre0). clear Hs Hty Hr.
  destruct Hcase as [(-> & Hn & ->)|[(-> & Hn & Hre & ->)|[(-> & Hn & ->)|(-> & Hn & Hre & ->)]]]; cbn [opens fills andb] in Hr0.
  1-3: destruct (putPacket_header_live _ _ _ data n tag sy ctr sp0 Hg Hr0) as (sp1 & Hp1 & Hr1 & Hh).
  - rewrite !(bool_decide_false (ePS_Stopped = _)) by done. cbn [andb].
    rewrite Hh, dispatch_pending by (rewrite Hp1, ?Hn0, ?Hs0, ?Hn; done).
    destruct (updateState_live true sp1) as (r & sp2 & Hu & Hr2 & Hp2 & Ho); rewrite ?Hp1, ?Hs0, ?Hn0, ?Hn; [by left|done..|].
    rewrite Hp1, Hn0, Hn in Ho, Hp2, Hr2. rewrite Hu, (Ho ltac:(done)).
    destruct (entered_started ePS_Stopped ePS_WaitingForStream (sp_private sp0)) as (E1 & E2 & E3 & E4); [congruence|done|].
    rewrite Hp2, E1, bool_decide_true by done. eexists _, sp2. split; [done|]. apply Hst0. split; [by eapply ready_untimed|by rewrite Hp2].
  - rewrite !(bool_decide_false (ePS_WaitingForStream = _)) by done. cbn [andb].
    rewrite Hh, dispatch_waiting by (by rewrite Hp1). rewrite Hp1. fold (is_reached ctr sp0). rewrite Hre0, Hre.
    destruct (switch_to_live true ePS_DryRunning sp1) as (r & sp2 & Hu & Hr2 & E1 & E2 & E3 & E4 & Ho); rewrite ?Hp1, ?Hs0; [by right; left|done..|].
    rewrite Hu. eexists _, sp2. split; [done|]. apply Hst0. rewrite Hp1 in E3, E4. split; [by eapply ready_untimed|done].
  - rewrite !(bool_decide_false (ePS_DryRunning = _)) by done. cbn [andb].
    rewrite Hh, dispatch_pending by (rewrite Hp1, ?Hn0, ?Hs0, ?Hn; done).
    destruct (updateState_live true sp1) as (r & sp2 & Hu & Hr2 & Hp2 & Ho); rewrite ?Hp1, ?Hs0, ?Hn0, ?Hn;
      [by right; right; left|done..|].
    rewrite Hp1, Hn0, Hn in Ho, Hp2, Hr2. rewrite Hu, (Ho ltac:(done)).
    destruct (entered_started ePS_DryRunning ePS_WaitingForStreamEnable (sp_private sp0)) as (E1 & E2 & E3 & E4); [congruence|done|].
    rewrite Hp2, E1, bool_decide_false by done.
    destruct (putPacket_data_live data n tag sy ctr ePS_WaitingForStreamEnable sp0 sp2) as (d & sp3 & Hd & Hst);
      [done..|by rewrite Hp2|by rewrite Hp2|by rewrite Hp2|by rewrite Hp2|].
    exists d, sp3. split; [exact Hd|by apply Hst0].
  - rewrite (bool_decide_false (ePS_WaitingForStreamEnable = ePS_WaitingForStreamDisable)) by done.
    rewrite Hn, (bool_decide_true (ePS_WaitingForStreamEnable = ePS_WaitingForStreamEnable)) by done. cbn [andb].
    unfold cycle_reached, gets_core, mbind, SPM_bind. cbv beta iota. fold (is_reached ctr sp0). rewrite Hre0, Hre.
    destruct (switch_to_live false ePS_Running sp0) as (r & sp2 & Hu & Hr2 & E1 & E2 & E3 & E4 & _); rewrite ?Hs0; [by right; right; right|done..|].
    rewrite Hu. destruct r; cbn [negb].
    2:{ eexists _, sp2. split; [reflexivity|]. apply Hst0. split; [by eapply ready_weaken|done]. }
    destruct (putPacket_header_live _ _ _ data n tag sy ctr sp2 Hg Hr2) as (sp3 & Hp3 & Hr3 & Hh3).
    rewrite Hh3, dispatch_running by (rewrite Hp3, ?E2, E1; done).
    destruct (putPacket_data_live data n tag sy ctr ePS_Running sp0 sp3) as (d & sp4 & Hd & Hst4); [done..|by rewrite Hp3|by rewrite Hp3|by rewrite Hp3|by rewrite Hp3|].
    exists d, sp4. split; [exact Hd|by apply Hst0].
Qed.

(** the calls that start a receive stream: a request, two packets, a request,
    two packets *)
Definition start_sequence (t0 t1 : Z) (p : Z -> list Z * Z * Z * Z) (c0 c1 c2 c3 : Z) : M () :=
  let put ctr := let '(data, n, tag, sy) := p ctr in ignore (putPacket data n tag sy ctr 0) in
  ignore (scheduleStartDryRunning t0);; put c0;; put c1;; ignore (scheduleStartRunning t1);; put c2;; put c3.

(** From the stopped state, with a prepared buffer, two requests and four good
    packets start a receive stream, if the second packet of each pair is in a
    cycle that has reached the requested one. *)
Lemma packets_start_stream t0 t1 p c0 c1 c2 c3 sp :
  (forall c, c ∈ [c0; c1; c2; c3] -> let '(data, n, tag, sy) := p c in good data n tag sy c) ->
  sp_processor_type (sp_private sp) = ePT_Receive -> sp_state (sp_private sp) = ePS_Stopped ->
  ready true false false (sp_protected sp) -> 0 <= t0 -> 0 <= t1 ->
  0 <= diffCycles (CYCLE_TIMER_GET_CYCLES c1) (u32 (TICKS_TO_CYCLES t0)) ->
  0 <= diffCycles (CYCLE_TIMER_GET_CYCLES c3) (u32 (TICKS_TO_CYCLES t1)) ->
  exists sp1, start_sequence t0 t1 p c0 c1 c2 c3 sp = Some ((), sp1) /\ sp_state (sp_private sp1) = ePS_Running /\
    ready false false false (sp_protected sp1).
Proof.
  intros Hg Hty Hs Hr Ht0 Ht1 Hc1 Hc3.
  assert (Hput : forall ctr s t sp, ctr ∈ [c0; c1; c2; c3] -> packet_advances ctr s t sp -> ready (opens s) (opens s && fills s) false (sp_protected sp) ->
    exists sp1, (let '(data, n, tag, sy) := p ctr in ignore (putPacket data n tag sy ctr 0)) sp = Some ((), sp1) /\ started t sp sp1).
  { intros ctr s t sp0 Hin Ha Hr0. specialize (Hg ctr Hin). destruct (p ctr) as [[[data n] tag] sy].
    destruct (putPacket_advances data n tag sy ctr s t sp0 Hg Ha Hr0) as (d & sp1 & Hp & Hst).
    exists sp1. split; [|done]. unfold ignore, mbind, SPM_bind. by rewrite Hp. }
  destruct (scheduleStartDryRunning_live _ _ _ t0 sp Ht0 Hs Hr) as (sp1 & H1 & Hr1 & Hp1).
  destruct (Hput c0 ePS_Stopped ePS_WaitingForStream sp1) as (sp2 & H2 & Hst2);
    [set_solver|split; [by rewrite Hp1|]; split; [by rewrite Hp1|]; left; by rewrite Hp1|done|].
  destruct Hst2 as (Hr2 & Hs2 & Hn2 & Hty2 & Hcy2).
  destruct (Hput c1 ePS_WaitingForStream ePS_DryRunning sp2) as (sp3 & H3 & Hst3); [set_solver| |done|].
  { split; [by rewrite Hty2, Hp1|]. split; [done|]. right; left. split; [done|]. split; [done|]. split; [|done].
    unfold is_reached. rewrite Hcy2, Hp1. by apply Z.leb_le. }
  destruct Hst3 as (Hr3 & Hs3 & Hn3 & Hty3 & Hcy3).
  destruct (scheduleStartRunning_live _ _ _ t1 sp3 Ht1 Hr3) as (sp4 & H4 & Hr4 & Hp4).
  destruct (Hput c2 ePS_DryRunning ePS_WaitingForStreamEnable sp4) as (sp5 & H5 & Hst5); [set_solver| |done|].
  { split; [rewrite Hp4; cbn; by rewrite Hty3, Hty2, Hp1|]. split; [by rewrite Hp4|].
    right; right; left. by rewrite Hp4. }
  destruct Hst5 as (Hr5 & Hs5 & Hn5 & Hty5 & Hcy5).
  destruct (Hput c3 ePS_WaitingForStreamEnable ePS_Running sp5) as (sp6 & H6 & Hst6); [set_solver| |done|].
  { split; [rewrite Hty5, Hp4; cbn; by rewrite Hty3, Hty2, Hp1|]. split; [done|]. right; right; right. split; [done|].
    split; [done|]. split; [|done]. unfold is_reached. rewrite Hcy5, Hp4. by apply Z.leb_le. }
  exists sp6. split; [|split; [by destruct Hst6 as (_ & ? & _)|by destruct Hst6]].
  unfold start_sequence.
  rewrite (bind_some _ _ _ _ _ (ignore_some _ _ _ _ H1)), (bind_some _ _ _ _ _ H2), (bind_some _ _ _ _ _ H3).
  by rewrite (bind_some _ _ _ _ _ (ignore_some _ _ _ _ H4)), (bind_some _ _ _ _ _ H5).
Qed.

End starting.

(** *** A stop that is not in order *)

(** Going from stopped to dry running does not look at the mode. *)
Lemma restart_keeps_mode sp r2 sp2 r3 sp3 :
  sp_state (sp_private sp) = ePS_Stopped ->
  switch_to ePS_WaitingForStream sp = Some (r2, sp2) -> switch_to ePS_DryRunning sp2 = Some (r3, sp3) ->
  sp_state (sp_private sp3) = ePS_DryRunning /\ transparent sp3 = transparent sp.
Proof.
  intros Hs H2 H3. pose proof (switch_to_run _ _ _ _ H2) as Hp2. rewrite Hs in Hp2. specialize (Hp2 eq_refl).
  pose proof (switch_to_run _ _ _ _ H3) as Hp3. rewrite Hp2, entered_state in Hp3 by done.
  assert (Hs2 : sp_state (sp_private sp2) = ePS_WaitingForStream) by (by rewrite Hp2, entered_state).
  split; [by rewrite Hp3, entered_state|]. clear Hp3.
  assert (Ht2 : transparent sp2 = transparent sp).
  { unfold switch_to, set_next_state in H2. apply bind_inv in H2 as (? & sp0 & [= <- <-] & H2).
    unfold updateState in H2. do 2 apply bind_inv in H2 as (? & ? & [= <- <-] & H2). cbn in H2. rewrite Hs in H2. states H2.
    unfold updateState_attempt, doWaitForRunningStream in H2.
    apply bind_inv in H2 as (ok & sp4 & H4 & H2). apply bind_inv in H4 as (? & ? & [= <- <-] & H4). cbn in H4. rewrite Hs in H4.
    apply enter_state_run in H4 as (-> & _ & Ht). by injection H2 as <- <-. }
  rewrite <- Ht2. unfold switch_to, set_next_state in H3. apply bind_inv in H3 as (? & sp0 & [= <- <-] & H3).
  unfold updateState in H3. do 2 apply bind_inv in H3 as (? & ? & [= <- <-] & H3). cbn in H3. rewrite Hs2 in H3. states H3.
  unfold updateState_attempt, doDryRunning in H3.
  apply bind_inv in H3 as (ok & sp4 & H4 & H3). apply bind_inv in H4 as (? & ? & [= <- <-] & H4). cbn in H4. rewrite Hs2 in H4.
  apply bind_inv in H4 as (? & sp5 & H5 & H4). apply update_local_node_id_run in H5 as [_ Ht5].
  apply bind_inv in H4 as (rc & ? & [= <- <-] & H4). apply bind_inv in H4 as (? & sp6 & H6 & H4).
  assert (Ht6 : transparent sp6 = transparent sp5).
  { destruct (bool_decide _); sp_inv; [by injection H6 as <- <-|done]. }
  apply enter_state_run in H4 as (-> & _ & Ht). injection H3 as <- <-. by rewrite Ht, Ht6, Ht5.
Qed.

(** *** Transfers of the client *)

Lemma canConsume_run n sp sp1 :
  sp_in_xrun (sp_private sp) = false -> sp_state (sp_private sp) = ePS_Running ->
  sp_next_state (sp_private sp) = ePS_Running -> canConsume n sp = Some (true, sp1) ->
  sp1 = sp /\ n <= getBufferFill (sh_data_buffer (sp_protected sp)).
Proof.
  intros Hx Hs Hn Hr. unfold canConsume in Hr. apply bind_inv in Hr as (c & ? & [= <- <-] & Hr). unfold id in Hr.
  rewrite Hx, Hs, Hn in Hr. states Hr. injection Hr as Hle <-. split; [done|]. by apply Z.leb_le.
Qed.

Lemma canProduce_run n sp sp1 :
  sp_in_xrun (sp_private sp) = false -> sp_state (sp_private sp) = ePS_Running ->
  sp_next_state (sp_private sp) = ePS_Running -> canProduce n sp = Some (true, sp1) ->
  sp1 = sp /\ n <= getBufferSpace (sh_data_buffer (sp_protected sp)).
Proof.
  intros Hx Hs Hn Hr. unfold canProduce in Hr. apply bind_inv in Hr as (c & ? & [= <- <-] & Hr). unfold id in Hr.
  rewrite Hx, Hs, Hn in Hr. states Hr. injection Hr as Hle <-. split; [done|]. by apply Z.leb_le.
Qed.

(** What the client of a running stream can rely on. *)
Definition running_ok (type : eProcessorType) (rb : ringbuffer Z) (sp : StreamProcessor E) : Prop :=
  let c := sp_private sp in
  sp_processor_type c = type /\ sp_state c = ePS_Running /\ sp_next_state c = ePS_Running /\ sp_in_xrun c = false /\
  tb_wf (sh_data_buffer (sp_protected sp)) rb.

Lemma getFrames_consumes n ts sp sp1 rb :
  running_ok ePT_Receive rb sp -> 0 <= n -> n mod 8 = 0 ->
  (forall data k off e, exists ok e1, processReadBlock data k off e = Some (ok, e1)) ->
  DEBUG && SFeqb (spm_syncSource_getTicksPerFrame (sh_env (sp_protected sp))) (f32_of_Z 0) = false ->
  canConsume n sp = Some (true, sp1) ->
  exists sp2 rb1 data e1,
    getFrames n ts sp = Some (true, sp2) /\ tb_wf (sh_data_buffer (sp_protected sp2)) rb1 /\
    rb_content rb = data ++ rb_content rb1 /\
    read_calls processReadBlock (tb_cluster (sh_data_buffer (sp_protected sp))) 0 (sh_env (sp_protected sp)) data n e1 /\
    tb_framecounter (sh_data_buffer (sp_protected sp2)) = tb_framecounter (sh_data_buffer (sp_protected sp)) - n /\
    tb_clock (sh_data_buffer (sp_protected sp2)) = tb_clock (sh_data_buffer (sp_protected sp)).
Proof.
  intros (Hty & Hs & Hn & Hx & Hw) Hn0 Hm Hcl Hd Hc. apply canConsume_run in Hc as [_ Hc]; [|done..].
  assert (Hfill : getBufferFill (sh_data_buffer (sp_protected sp)) = tb_framecounter (sh_data_buffer (sp_protected sp))).
  { destruct Hw as (_ & Hfc & _). unfold getBufferFill. apply wrapU_small. unfold uint. lia. }
  rewrite Hfill in Hc.
  destruct (blockProcessReadFrames_spec processReadBlock Hcl (sh_data_buffer (sp_protected sp)) rb n (sh_env (sp_protected sp)))
    as (b1 & rb1 & data & e1 & Hb & Hw1 & Hcont & Hcalls & Hfc & Hclk & _); [done|lia|done|].
  eexists _, rb1, data, e1. split.
  - unfold getFrames, is_type, in_state, gets_core, mbind, SPM_bind. cbv beta iota. rewrite Hty.
    rewrite bool_decide_true by done. cbn [negb]. rewrite Hs, bool_decide_false by done.
    unfold getFramesWet, gets_env, gets, mbind, SPM_bind. cbv beta iota. rewrite Hd.
    unfold blockRead, on_child. rewrite Hb. reflexivity.
  - cbn. done.
Qed.

Lemma putFrames_appends n ts sp sp1 rb :
  running_ok ePT_Transmit rb sp -> 0 <= n -> n mod 8 = 0 ->
  (forall region k off e, exists ok data e1, processWriteBlock region k off e = Some (ok, data, e1) /\ length data = length region) ->
  let b := sh_data_buffer (sp_protected sp) in
  getBufferSize b * tb_cluster b <= rb_capacity rb -> tb_framecounter b <= getBufferSize b < 2 ^ 32 ->
  increment_allowed n (f64_of_Z ts) (tb_clock b) = true ->
  canProduce n sp = Some (true, sp1) ->
  exists sp2 rb1 data e1,
    putFrames n ts sp = Some (true, sp2) /\ tb_wf (sh_data_buffer (sp_protected sp2)) rb1 /\
    rb_content rb1 = rb_content rb ++ data /\
    write_calls processWriteBlock (tb_cluster b) 0 (sh_env (sp_protected sp)) data n e1 /\
    tb_framecounter (sh_data_buffer (sp_protected sp2)) = tb_framecounter b + n.
Proof.
  intros (Hty & Hs & Hn & Hx & Hw) Hn0 Hm Hcl b Hcap Hsize Hts Hc. apply canProduce_run in Hc as [_ Hc]; [|done..].
  fold b in Hc, Hw. pose proof Hw as (Hok & Hfc & Hfill). pose proof (ok_cluster_pos _ _ Hok) as Hcl0.
  assert (Hsp : getBufferSpace b = getBufferSize b - tb_framecounter b).
  { unfold getBufferSpace. rewrite (wrapU_small 32 (tb_framecounter b)) by (unfold uint; lia). apply wrapU_small. unfold uint. lia. }
  rewrite Hsp in Hc.
  destruct (blockProcessWriteFrames_spec processWriteBlock Hcl b rb n (f64_of_Z ts) (sh_env (sp_protected sp)))
    as (b1 & rb1 & data & e1 & Hb & Hw1 & Hcont & Hcalls & Hfc1 & _); [done|done|done|nia|done|].
  eexists _, rb1, data, e1. split.
  - unfold putFrames, is_type, in_state, gets_core, mbind, SPM_bind. cbv beta iota. rewrite Hty.
    rewrite bool_decide_true by done. cbn [negb]. rewrite Hs, bool_decide_false by done.
    unfold putFramesWet, mbind, SPM_bind. unfold blockWrite, on_child. fold b. rewrite Hb. reflexivity.
  - cbn. done.
Qed.

(** ** Properties *)

(** C15: [updateState] runs the state machine of the graph [edge]: asked for
    the state it is in it does nothing and returns [true]; asked for a change
    that the graph does not have it returns [false] and leaves the private
    fields; a change of the graph is made, possibly with a result of [false],
    and only the changes to stopped and to waiting-for-enable can be refused.
    The result [true] means that the requested state was entered. *)
Theorem updateState_transitions sp r sp1 :
  updateState sp = Some (r, sp1) ->
  let c := sp_private sp in
  let t := sp_next_state c in
  (sp_state c = t -> r = true /\ sp1 = sp) /\
  (sp_state c <> t -> edge (sp_state c) t = false -> r = false /\ sp_private sp1 = c) /\
  (edge (sp_state c) t = true ->
     sp_private sp1 = entered t c \/
     r = false /\ sp_private sp1 = c /\ (t = ePS_Stopped \/ t = ePS_WaitingForStreamEnable)) /\
  (r = true -> sp_state (sp_private sp1) = t).
Proof.
  intros Hr. cbv zeta. pose proof (updateState_run sp r sp1 Hr) as Hu. cbv zeta in Hu.
  assert (Hirr : forall u, edge u u = false) by (by intros []).
  destruct Hu as [(Heq & -> & ->)|[(Hne & He & -> & Hc & _)|[He [[Hp _]|(-> & Hc & _ & Ho)]]]].
  - rewrite <- Heq, Hirr. done.
  - split; [done|]. split; [done|]. split; [congruence|done].
  - split; [intros Heq; by rewrite <- Heq, Hirr in He|]. split; [congruence|]. split; [by left|].
    intros _. by rewrite Hp, entered_state.
  - split; [intros Heq; by rewrite <- Heq, Hirr in He|]. split; [congruence|].
    split; [right; split; [done|]; split; [exact Hc|by apply Ho]|done].
Qed.

(** C14: in every state that a stream processor reaches, whatever calls are made
    in whatever order, as long as its subclass leaves the mode of the buffer
    alone: the state is never the invalid one, and while the stream runs or is
    about to stop the buffer is opaque.  The buffer is opaque only then, and
    transparent in every other state, if in addition the handler of the stream
    stops or dies only in order (not while the stream runs, is about to stop, or
    is in the error state), and the state is not the error state, in which a bus
    reset leaves the buffer as it was. *)
Theorem reachable_buffer_mode `{!SPChildLaws} in_order sp :
  reachable in_order sp ->
  sp_state (sp_private sp) <> ePS_Invalid /\
  (sp_state (sp_private sp) = ePS_Running \/ sp_state (sp_private sp) = ePS_WaitingForStreamDisable ->
     isTransparent (sh_data_buffer (sp_protected sp)) = false) /\
  (in_order = true -> sp_state (sp_private sp) <> ePS_Error ->
     isTransparent (sh_data_buffer (sp_protected sp)) = false ->
     sp_state (sp_private sp) = ePS_Running \/ sp_state (sp_private sp) = ePS_WaitingForStreamDisable).
Proof.
  intros Hr. assert (Hm : mode_ok in_order sp).
  { induction Hr as [type e|sp ev x sp1 _ IH Ho Hh]; [by split|]. by apply (handle_keeps_mode_ok in_order ev sp x). }
  destruct Hm as (Hi & Hf & Hm). split; [done|]. split; [by intros [Hs|Hs]; apply Hf; rewrite Hs|].
  intros Hio He Ht. specialize (Hm Hio He). unfold transparent in Hm. rewrite Ht in Hm.
  destruct (sp_state (sp_private sp)); try done; [by left|by right].
Qed.

(** C21: state changes are synchronised with the bus cycles.  A stream that
    waits (to start, to be enabled, to be disabled) leaves its state with the
    first packet whose cycle has reached the scheduled one, within half a
    second, and with no earlier packet, in both directions; a received packet
    that starts the stream must have a good header, and a stream that is
    enabled and xruns in the same packet is being disabled again. *)
Theorem synchronized_switching data n tag sy ctr dropped s sp :
  waiting_in s sp ->
  (forall x sp1, ctr <> 0xFFFFFFFF -> getPacket data n tag sy ctr dropped sp = Some (x, sp1) ->
     sp_state (sp_private sp1) = if is_reached ctr sp then after_wait s else s) /\
  (forall x sp1, putPacket data n tag sy ctr dropped sp = Some (x, sp1) ->
     if is_reached ctr sp then
       (s = ePS_WaitingForStreamEnable ->
          sp_state (sp_private sp1) = ePS_Running \/
          sp_state (sp_private sp1) = ePS_WaitingForStreamDisable /\ sp_in_xrun (sp_private sp1) = true) /\
       (s = ePS_WaitingForStream -> good_header data n tag sy ctr -> sp_state (sp_private sp1) = ePS_DryRunning) /\
       (s = ePS_WaitingForStreamDisable -> sp_state (sp_private sp1) = ePS_DryRunning)
     else sp_state (sp_private sp1) = s).
Proof.
  intros Hw. split.
  - intros x sp1 Hc Hr. by eapply getPacket_waiting.
  - intros x sp1 Hr. pose proof (putPacket_waiting _ _ _ _ _ _ _ _ _ _ Hw Hr) as Hp.
    destruct (is_reached ctr sp); [|done]. split; [|split]; intros ->; exact Hp.
Qed.

(** the stream is being stopped because of an xrun in the cycle of [ctr] *)
Definition xrun_stopped (ctr : Z) (sp : StreamProcessor E) : Prop :=
  sp_state (sp_private sp) = ePS_WaitingForStreamDisable /\ sp_next_state (sp_private sp) = ePS_WaitingForStreamDisable /\
  sp_in_xrun (sp_private sp) = true /\
  sp_cycle_to_switch_state (sp_private sp) = CYCLE_TIMER_GET_CYCLES ctr + 1.

Lemma xrun_stop_stopped ctr sp c : 0 <= ctr -> sp_private sp = xrun_stop ctr c -> xrun_stopped ctr sp.
Proof.
  intros Hctr Hp. unfold xrun_stopped. rewrite Hp. split; [done|]. split; [done|]. split; [done|]. cbn.
  apply wrapU_small. rewrite GET_CYCLES_mod. pose proof (Z.mod_pos_bound (ctr / 4096) 8192). width_lia.
Qed.

(** C29: an xrun stops a running stream in the next cycle.  Dropped cycles, in
    either direction, and a received packet with a good header whose data the
    subclass refuses as an xrun, in the state that this header has left (a full
    buffer), set the xrun flag and make the stream wait for the cycle after the
    one of the packet; a packet of that cycle takes a receive stream back to dry
    running. *)
Theorem xrun_stops_stream data n tag sy ctr dropped sp x sp1 :
  sp_state (sp_private sp) = ePS_Running -> sp_next_state (sp_private sp) = ePS_Running -> 0 <= ctr ->
  (putPacket data n tag sy ctr dropped sp = Some (x, sp1) -> dropped <> 0 -> xrun_stopped ctr sp1) /\
  (forall sp2, packet_results data n tag sy ctr sp = Some ((eCRV_OK, Some eCRV_XRun), sp2) ->
     putPacket data n tag sy ctr 0 sp = Some (x, sp1) -> xrun_stopped ctr sp1) /\
  (forall y, getPacket data n tag sy ctr dropped sp = Some (y, sp1) -> ctr <> 0xFFFFFFFF -> 0 < dropped ->
     xrun_stopped ctr sp1) /\
  (xrun_stopped ctr sp1 -> forall data2 n2 tag2 sy2 ctr2 dropped2 y sp2,
     CYCLE_TIMER_GET_CYCLES ctr < CYCLES_PER_SECOND ->
     CYCLE_TIMER_GET_CYCLES ctr2 = (CYCLE_TIMER_GET_CYCLES ctr + 1) mod CYCLES_PER_SECOND ->
     putPacket data2 n2 tag2 sy2 ctr2 dropped2 sp1 = Some (y, sp2) ->
     sp_state (sp_private sp2) = ePS_DryRunning).
Proof.
  intros Hs Hn Hctr. split; [|split; [|split]].
  - intros (sp0 & Hr & _ & Hp0)%putPacket_running Hd; [|done].
    apply putPacket_header_running in Hr as [[_ Hz]|Hr]; [done| |by rewrite Hp0..].
    by eapply xrun_stop_stopped.
  - intros sp2 Hd Hr. unfold packet_results in Hd. apply bind_inv in Hd as (ts & ? & [= <- <-] & Hd).
    apply putPacket_running in Hr as (sp0 & Hr & Hm & Hp0); [|done]. rewrite (bind_some _ _ _ _ _ Hm) in Hd.
    eapply putPacket_header_xrun in Hr; [|exact Hd|by rewrite Hp0..]. by eapply xrun_stop_stopped.
  - intros y Hr Hc Hd. apply getPacket_dropped in Hr; [|done..]. by eapply xrun_stop_stopped.
  - intros (Hs1 & Hn1 & _ & Hcy) data2 n2 tag2 sy2 ctr2 dropped2 y sp2 Hlt Hc2 Hr.
    assert (Hw : waiting_in ePS_WaitingForStreamDisable sp1) by (split; [by right; right|done]).
    apply (putPacket_waiting _ _ _ _ _ _ _ _ _ _ Hw) in Hr.
    assert (Hre : is_reached ctr2 sp1 = true); [|by rewrite Hre in Hr].
    unfold is_reached. rewrite Hc2, Hcy. apply Z.leb_le, diffCycles_next. split; [|done].
    rewrite GET_CYCLES_mod. apply Z.mod_pos_bound. lia.
Qed.

(** The client of a running stream.  When [canConsume] says that a receive
    stream has [n] frames, [getFrames] hands the subclass the first [n] frames
    of the buffer in order and removes them; when [canProduce] says that a
    transmit stream has room for [n], [putFrames] appends what the subclass
    writes, provided the timestamp passes the assertions of the buffer and the
    ring buffer is as large as the nominal size. *)
Lemma client_transfer type n ts rb sp sp1 :
  running_ok type rb sp -> 0 <= n -> n mod 8 = 0 ->
  let b := sh_data_buffer (sp_protected sp) in
  let e := sh_env (sp_protected sp) in
  (type = ePT_Receive -> canConsume n sp = Some (true, sp1) ->
   (forall data k off e, exists ok e1, processReadBlock data k off e = Some (ok, e1)) ->
   DEBUG && SFeqb (spm_syncSource_getTicksPerFrame e) (f32_of_Z 0) = false ->
   exists sp2 rb1 data e1,
     getFrames n ts sp = Some (true, sp2) /\ tb_wf (sh_data_buffer (sp_protected sp2)) rb1 /\
     rb_content rb = data ++ rb_content rb1 /\ read_calls processReadBlock (tb_cluster b) 0 e data n e1 /\
     tb_framecounter (sh_data_buffer (sp_protected sp2)) = tb_framecounter b - n) /\
  (type = ePT_Transmit -> canProduce n sp = Some (true, sp1) ->
   (forall region k off e, exists ok data e1,
      processWriteBlock region k off e = Some (ok, data, e1) /\ length data = length region) ->
   getBufferSize b * tb_cluster b <= rb_capacity rb -> tb_framecounter b <= getBufferSize b < 2 ^ 32 ->
   increment_allowed n (f64_of_Z ts) (tb_clock b) = true ->
   exists sp2 rb1 data e1,
     putFrames n ts sp = Some (true, sp2) /\ tb_wf (sh_data_buffer (sp_protected sp2)) rb1 /\
     rb_content rb1 = rb_content rb ++ data /\ write_calls processWriteBlock (tb_cluster b) 0 e data n e1 /\
     tb_framecounter (sh_data_buffer (sp_protected sp2)) = tb_framecounter b + n).
Proof.
  intros Hr Hn Hm b e. split.
  - intros -> Hc Hcl Hd. destruct (getFrames_consumes n ts sp sp1 rb) as (sp2 & rb1 & data & e1 & H1 & H2 & H3 & H4 & H5 & _); [done..|].
    by exists sp2, rb1, data, e1.
  - intros -> Hc Hcl Hcap Hsz Hts. by apply (putFrames_appends n ts sp sp1 rb).
Qed.

(** An iso handler that stops a running stream ([packetsStopped]), or dies
    ([handlerDied]), puts the state to stopped and nothing else: the buffer
    keeps its frames and stays opaque, although the stopped state promises a
    transparent and empty buffer; and it is still opaque when the stream has
    been started again up to dry running. *)
Lemma packetsStopped_keeps_opaque (died : bool) sp x sp1 :
  sp_state (sp_private sp) = ePS_Running -> isTransparent (sh_data_buffer (sp_protected sp)) = false ->
  (if died then handlerDied else packetsStopped) sp = Some (x, sp1) ->
  sp_state (sp_private sp1) = ePS_Stopped /\ sh_data_buffer (sp_protected sp1) = sh_data_buffer (sp_protected sp) /\
  forall r2 sp2 r3 sp3,
    switch_to ePS_WaitingForStream sp1 = Some (r2, sp2) -> switch_to ePS_DryRunning sp2 = Some (r3, sp3) ->
    sp_state (sp_private sp3) = ePS_DryRunning /\ isTransparent (sh_data_buffer (sp_protected sp3)) = false.
Proof.
  intros Hs Ht Hr. assert (Hsp : sp_state (sp_private sp1) = ePS_Stopped /\
    sh_data_buffer (sp_protected sp1) = sh_data_buffer (sp_protected sp)).
  { destruct died; unfold handlerDied, packetsStopped, set_state, set_next_state, SIGNAL_ACTIVITY_ALL in Hr; by sp_inv. }
  destruct Hsp as [Hs1 Hb1]. split; [done|]. split; [done|]. intros r2 sp2 r3 sp3 H2 H3.
  destruct (restart_keeps_mode _ _ _ _ _ Hs1 H2 H3) as [Hd Htr]. split; [done|].
  unfold transparent in Htr. by rewrite Htr, Hb1.
Qed.

End StreamProcessor.

(** The number of packets for [nframes] frames is their nominal duration in
    cycles, rounded up, when the sample rate divides the ticks of a second.
    For the rates of the 44.1 kHz family the ticks per frame are truncated
    first, and the ceiling is not a proper one: 4096 frames at 44.1 kHz need
    744 packets, and the result is 743. *)
Lemma getNominalPacketsNeeded_ceiling rate nframes :
  0 < rate -> TICKS_PER_SECOND mod rate = 0 -> 0 <= nframes < 2 ^ 32 ->
  let packets := getNominalPacketsNeeded rate nframes in
  (TICKS_PER_SECOND / rate * nframes < 2 ^ 43 ->
   (packets - 1) * rate < nframes * CYCLES_PER_SECOND <= packets * rate) /\
  getNominalPacketsNeeded 44100 4096 * 44100 < 4096 * CYCLES_PER_SECOND.
Proof.
  intros Hr Hd Hn packets. split; [|by vm_compute]. intros Ht.
  set (tpf := TICKS_PER_SECOND / rate) in *.
  assert (Htpf : TICKS_PER_SECOND = tpf * rate) by (pose proof (Z.div_mod TICKS_PER_SECOND rate); unfold tpf; lia).
  assert (0 <= tpf) by (apply Z.div_pos; [by vm_compute|lia]).
  unfold packets, getNominalPacketsNeeded. fold tpf. assert (0 <= tpf * nframes) by nia.
  unfold TICKS_PER_CYCLE in *. unfold CYCLES_PER_SECOND.
  rewrite (wrapU_small 64 (tpf * nframes)) by width_lia. rewrite (wrapU_small 64 (_ + 3072)) by width_lia.
  rewrite (wrapU_small 64) by width_lia.
  pose proof (Z.div_mod (tpf * nframes + 3072 - 1) 3072). pose proof (Z.mod_pos_bound (tpf * nframes + 3072 - 1) 3072).
  set (q := (tpf * nframes + 3072 - 1) / 3072) in *.
  assert (Hq : 3072 * (q - 1) < tpf * nframes <= 3072 * q) by lia.
  rewrite wrapU_small by (change (2 ^ 43) with 8796093022208 in *; width_lia).
  assert (Hs : 3072 * 8000 = tpf * rate) by (rewrite <- Htpf; reflexivity).
  split; nia.
Qed.

Lemma getNominalPacketsNeeded_ceiling_witness :
  (TICKS_PER_SECOND / 48000 * 1024 < 2 ^ 43 ->
   (getNominalPacketsNeeded 48000 1024 - 1) * 48000 < 1024 * CYCLES_PER_SECOND <= getNominalPacketsNeeded 48000 1024 * 48000) /\
  getNominalPacketsNeeded 44100 4096 * 44100 < 4096 * CYCLES_PER_SECOND.
Proof. apply (getNominalPacketsNeeded_ceiling 48000 1024); [lia|reflexivity|lia]. Defined.

(** ** A stream processor to run

    An environment that counts the signals and always succeeds, and a subclass
    that takes every packet, or has no room for any. *)

Definition demo_env : SPEnv Z := {|
  signalActivity e := e + 1; signalActivityTransmit e := e + 1; signalActivityReceive e := e + 1;
  spm_getNominalRate _ := 48000; spm_getPeriodSize _ := 8; spm_getNbBuffers _ := 2;
  spm_syncSource_getTicksPerFrame _ := f32_of_Z 512;
  spm_registerProcessor e := (true, e); ihm_registerStream e := (true, e);
  ihm_startHandlerForStream _ e := (true, e); ihm_stopHandlerForStream e := (true, e);
  ihm_getPacketLatencyForStream _ := 4; service_getCycleTimerTicks e := (0, e); service_getLocalNodeId _ := 0xffc1;
  ports_setBufferSize _ e := (true, e); ports_initPorts e := (true, e); ports_preparePorts e := (true, e);
  ports_provideSilenceBlock _ _ e := Some (true, e) |}.

Definition demo_child (overrun : bool) : SPChild Z := {|
  getEventsPerFrame _ := 2; getEventSize _ := 4; getNominalFramesPerPacket _ := 8;
  prepareChild s := Some (true, s);
  processPacketHeader _ _ _ _ ctr s := Some (eCRV_OK, sh_with_timestamp (CYCLE_TIMER_TO_TICKS ctr) (sh_correct_last_timestamp s) s);
  processPacketData _ _ s := Some (if overrun then eCRV_XRun else eCRV_OK, s);
  generatePacketHeader p _ s := Some (eCRV_Packet, p, s); generatePacketData p s := Some (eCRV_OK, p, s);
  generateEmptyPacketHeader p _ s := Some (eCRV_OK, p, s); generateEmptyPacketData p s := Some (eCRV_OK, p, s);
  generateSilentPacketHeader p _ s := Some (eCRV_Packet, p, s); generateSilentPacketData p s := Some (eCRV_OK, p, s);
  processReadBlock _ _ _ e := Some (true, e); processWriteBlock region _ _ e := Some (true, region, e);
  transmitSilenceBlock data _ _ e := Some (true, data, e) |}.

Definition zeros (k : Z) : list Z := replicate (Z.to_nat k) 0.

Definition demo_initialised (type : eProcessorType) : StreamProcessor Z :=
  mkSP (mkCore type ePS_Created ePS_Created 0 0 false) (sp_protected (StreamProcessor_new type 0)).

(** initialised and prepared *)
Definition demo_prepared (type : eProcessorType) : StreamProcessor Z :=
  let sp := StreamProcessor_new type 0 in
  match (_ ← @init Z demo_env; @prepare Z demo_env (demo_child false) zeros) sp with
  | Some (_, sp1) => sp1
  | None => sp
  end.

(** a packet of the cycle [c] of the first second *)
Definition demo_ctr (c : Z) : Z := c * 4096.

Definition demo_running (type : eProcessorType) (rb : ringbuffer Z) (fc : Z) : StreamProcessor Z :=
  mkSP (mkCore type ePS_Running ePS_Running 0 0 false)
    (mkShared 0 false (tb_with_framecounter fc (tb_with_event_buffer rb small_buffer)) None (f32_of_Z 512)
       (f32_of_Z 1) 0 50 0 0).

Definition demo_waiting : StreamProcessor Z :=
  mkSP (mkCore ePT_Receive ePS_WaitingForStreamDisable ePS_WaitingForStreamDisable 8000 0 true)
    (sp_protected (demo_running ePT_Receive small_buffer_ring 0)).

Lemma updateState_transitions_witness :
  exists sp1, @updateState Z demo_env (demo_child false) zeros (demo_running ePT_Receive small_buffer_ring 0) = Some (true, sp1) /\
    sp_state (sp_private sp1) = ePS_Running.
Proof.
  eexists. split; [reflexivity|].
  refine (proj2 (proj2 (proj2 (@updateState_transitions Z demo_env (demo_child false) zeros
    (demo_running ePT_Receive small_buffer_ring 0) true _ _))) eq_refl). reflexivity.
Defined.

Lemma demo_child_laws o : @SPChildLaws Z (demo_child o).
Proof. split; intros; intros s x s1 [= _ <-] || intros s x s1; cbn; try (by intros [= _ <-]); done. Qed.

(** the calls that start a receive stream, from the constructor on *)
Definition demo_start : list sp_event :=
  let put c := EvPutPacket [] 8 1 0 (demo_ctr c) 0 in
  [EvInit; EvPrepare; EvScheduleStartDryRunning (150 * TICKS_PER_CYCLE); put 100; put 150;
   EvScheduleStartRunning (300 * TICKS_PER_CYCLE); put 200; put 301].

Definition demo_handle_all (evs : list sp_event) (sp : StreamProcessor Z) : option (StreamProcessor Z) :=
  foldl (fun r ev => sp1 ← r; '(_, sp2) ← @handle Z demo_env (demo_child false) false zeros ev sp1; Some sp2) (Some sp) evs.

Lemma demo_reachable evs : forall sp sp1, @reachable Z demo_env (demo_child false) false zeros true sp ->
  Forall (fun ev => match ev with EvPacketsStopped | EvHandlerDied => False | _ => True end) evs -> demo_handle_all evs sp = Some sp1 ->
  @reachable Z demo_env (demo_child false) false zeros true sp1.
Proof.
  induction evs as [|ev evs IH]; intros sp sp1 Hr Hev Hall; [by injection Hall as <-|]. apply Forall_cons in Hev as [He Hev].
  unfold demo_handle_all in Hall. cbn [foldl mbind option_bind] in Hall.
  destruct (@handle Z demo_env (demo_child false) false zeros ev sp) as [[x sp2]|] eqn:Hh.
  - cbn [mbind option_bind] in Hall. apply (IH sp2); [|done..]. eapply reachable_step; [exact Hr| |exact Hh]. intros _. by destruct ev.
  - cbn [mbind option_bind] in Hall. exfalso. clear -Hall. induction evs; [done|by apply IHevs].
Qed.

(** a stream that runs, and one that has got no further than dry running *)
Lemma reachable_buffer_mode_witness :
  (exists sp, demo_handle_all demo_start (StreamProcessor_new ePT_Receive 0) = Some sp /\ sp_state (sp_private sp) = ePS_Running /\
     isTransparent (sh_data_buffer (sp_protected sp)) = false) /\
  (exists sp, demo_handle_all (take 5 demo_start) (StreamProcessor_new ePT_Receive 0) = Some sp /\ sp_state (sp_private sp) = ePS_DryRunning /\
     isTransparent (sh_data_buffer (sp_protected sp)) <> false).
Proof.
  split; (eexists; split; [vm_compute; reflexivity|]; split; [reflexivity|]).
  - match goal with |- isTransparent (sh_data_buffer (sp_protected ?sp)) = _ =>
      destruct (@reachable_buffer_mode Z demo_env (demo_child false) false zeros (demo_child_laws false) true sp) as (_ & Hopaque & _) end;
      [apply (demo_reachable demo_start (StreamProcessor_new ePT_Receive 0)); [apply reachable_new|repeat constructor|vm_compute; reflexivity]|].
    apply Hopaque. left. reflexivity.
  - match goal with |- isTransparent (sh_data_buffer (sp_protected ?sp)) <> _ =>
      destruct (@reachable_buffer_mode Z demo_env (demo_child false) false zeros (demo_child_laws false) true sp) as (_ & _ & Honly) end;
      [apply (demo_reachable (take 5 demo_start) (StreamProcessor_new ePT_Receive 0)); [apply reachable_new|repeat constructor|vm_compute; reflexivity]|].
    intros Ht. destruct (Honly eq_refl ltac:(discriminate) Ht) as [H|H]; discriminate H.
Defined.

Lemma synchronized_switching_witness :
  waiting_in ePS_WaitingForStreamDisable demo_waiting /\
  exists x sp1, @putPacket Z demo_env (demo_child false) false zeros [] 8 1 0 (demo_ctr 0) 0 demo_waiting = Some (x, sp1) /\
    sp_state (sp_private sp1) = ePS_DryRunning.
Proof.
  assert (Hw : waiting_in ePS_WaitingForStreamDisable demo_waiting) by (split; [right; right; reflexivity|split; reflexivity]).
  split; [exact Hw|]. eexists _, _. split; [vm_compute; reflexivity|].
  refine (proj2 (proj2 (proj2 (@synchronized_switching Z demo_env (demo_child false) false zeros [] 8 1 0 (demo_ctr 0) 0
    ePS_WaitingForStreamDisable demo_waiting Hw) _ _ _)) eq_refl). vm_compute. reflexivity.
Defined.

(** two dropped cycles; data that do not fit *)
Lemma xrun_stops_stream_witness :
  (exists x sp1, @putPacket Z demo_env (demo_child false) false zeros [] 8 1 0 (demo_ctr 7999) 2
      (demo_running ePT_Receive small_buffer_ring 0) = Some (x, sp1) /\ xrun_stopped (demo_ctr 7999) sp1) /\
  (exists x sp1, @putPacket Z demo_env (demo_child true) false zeros [] 8 1 0 (demo_ctr 7999) 0
      (demo_running ePT_Receive small_buffer_ring 0) = Some (x, sp1) /\ xrun_stopped (demo_ctr 7999) sp1).
Proof.
  split; eexists _, _; (split; [vm_compute; reflexivity|]).
  - refine (proj1 (@xrun_stops_stream Z demo_env (demo_child false) false zeros [] 8 1 0 (demo_ctr 7999) 2
      (demo_running ePT_Receive small_buffer_ring 0) RAW1394_ISO_OK _ eq_refl eq_refl _) _ _);
      [discriminate|vm_compute; reflexivity|discriminate].
  - refine (proj1 (proj2 (@xrun_stops_stream Z demo_env (demo_child true) false zeros [] 8 1 0 (demo_ctr 7999) 0
      (demo_running ePT_Receive small_buffer_ring 0) RAW1394_ISO_DEFER _ eq_refl eq_refl _)) _ _ _);
      [discriminate|vm_compute; reflexivity|vm_compute; reflexivity].
Defined.

Lemma client_transfer_witness :
  exists sp2 rb1 data e1,
    @getFrames Z demo_env (demo_child false) true 8 0 (demo_running ePT_Receive wrapped_ring 9) = Some (true, sp2) /\
    tb_wf (sh_data_buffer (sp_protected sp2)) rb1 /\ rb_content wrapped_ring = data ++ rb_content rb1 /\
    read_calls (@processReadBlock Z (demo_child false)) 4 0 0 data 8 e1 /\
    tb_framecounter (sh_data_buffer (sp_protected sp2)) = 9 - 8.
Proof.
  refine (proj1 (@client_transfer Z demo_env (demo_child false) true ePT_Receive 8 0 wrapped_ring
    (demo_running ePT_Receive wrapped_ring 9) (demo_running ePT_Receive wrapped_ring 9) _ _ _) eq_refl _ _ _).
  - split; [reflexivity|]. do 3 (split; [reflexivity|]).
    split; [split; try (vm_compute; reflexivity)|split; [cbn; lia|reflexivity]].
    + split; [by exists 6|]. cbn. lia.
    + by exists (replicate 32 0).
  - lia.
  - reflexivity.
  - reflexivity.
  - intros data k off e. exists true, e. reflexivity.
  - vm_compute. reflexivity.
Defined.

Lemma packetsStopped_keeps_opaque_witness :
  exists sp1, @packetsStopped Z (demo_running ePT_Receive wrapped_ring 9) = Some ((), sp1) /\
    sp_state (sp_private sp1) = ePS_Stopped /\ rb_content wrapped_ring <> [] /\
    sh_data_buffer (sp_protected sp1) = sh_data_buffer (sp_protected (demo_running ePT_Receive wrapped_ring 9)).
Proof.
  eexists. split; [reflexivity|].
  destruct (@packetsStopped_keeps_opaque Z demo_env (demo_child false) zeros false
    (demo_running ePT_Receive wrapped_ring 9) () _ eq_refl eq_refl eq_refl) as (Hs & Hb & _).
  split; [exact Hs|]. split; [vm_compute; discriminate|exact Hb].
Defined.
