(* ===== verification/StreamWorld.v ===== *)
(** * StreamWorld: the world of a stream processor with ports

    A subclass of the stream processor works on its own fields, on its ports,
    on the buffers that the client hands to them, and on what is outside: the
    managers and the service. *)
From stdpp Require Import gmap strings.
From S2P Require Import Prelude Serialize Memory Ports MachineFloat TimestampedBuffer StreamProcessor.

Inductive eADT_AudioDataType := eADT_Int24 | eADT_Float.

(** the packet on the bus: the first [pkt_length] bytes *)
Definition on_bus (p : iso_packet) : list Z := take (Z.to_nat (pkt_length p)) (pkt_data p).

(** [W]: what is outside of the stream processor; [C]: the fields of the
    subclass; [I]: what the subclass adds to a port *)
Record port_world (I C W : Type) := mkWorld {
  w_child : C; w_ports : list (Port I); w_memory : memory; w_outside : W }.
#[global] Arguments mkWorld {I C W}.
#[global] Arguments w_child {I C W}.
#[global] Arguments w_ports {I C W}.
#[global] Arguments w_memory {I C W}.
#[global] Arguments w_outside {I C W}.

Section world.
Context {I C W : Type}.
Implicit Types w : port_world I C W.

Definition w_with_child (c : C) w : port_world I C W := mkWorld c (w_ports w) (w_memory w) (w_outside w).
Definition w_with_ports (l : list (Port I)) w : port_world I C W := mkWorld (w_child w) l (w_memory w) (w_outside w).
Definition w_with_memory (m : memory) w : port_world I C W := mkWorld (w_child w) (w_ports w) m (w_outside w).
Definition w_with_outside (o : W) w : port_world I C W := mkWorld (w_child w) (w_ports w) (w_memory w) o.

(** an operation of the outside *)
Definition w_lift {A} (f : W -> A * W) w : A * port_world I C W :=
  let '(x, o) := f (w_outside w) in (x, w_with_outside o w).

Definition w_lift_ports (f : list (Port I) -> bool * list (Port I)) w : bool * port_world I C W :=
  let '(ok, l) := f (w_ports w) in (ok, w_with_ports l w).

(** The environment of a stream processor with real ports: the managers and
    the service of the outside; its ports are replaced. *)
#[export] Instance world_SPEnv `{SPEnv W} : SPEnv (port_world I C W) := {|
  signalActivity w := w_with_outside (signalActivity (w_outside w)) w;
  signalActivityTransmit w := w_with_outside (signalActivityTransmit (w_outside w)) w;
  signalActivityReceive w := w_with_outside (signalActivityReceive (w_outside w)) w;
  spm_getNominalRate w := spm_getNominalRate (w_outside w);
  spm_getPeriodSize w := spm_getPeriodSize (w_outside w);
  spm_getNbBuffers w := spm_getNbBuffers (w_outside w);
  spm_syncSource_getTicksPerFrame w := spm_syncSource_getTicksPerFrame (w_outside w);
  spm_registerProcessor := w_lift spm_registerProcessor;
  ihm_registerStream := w_lift ihm_registerStream;
  ihm_startHandlerForStream cycle := w_lift (ihm_startHandlerForStream cycle);
  ihm_stopHandlerForStream := w_lift ihm_stopHandlerForStream;
  ihm_getPacketLatencyForStream w := ihm_getPacketLatencyForStream (w_outside w);
  service_getCycleTimerTicks := w_lift service_getCycleTimerTicks;
  service_getLocalNodeId w := service_getLocalNodeId (w_outside w);
  ports_setBufferSize size := w_lift_ports (setBufferSizes size);
  ports_initPorts := w_lift_ports initPorts;
  ports_preparePorts := w_lift_ports preparePorts;
  ports_provideSilenceBlock nevents offset w :=
    '(ok, m) ← provideSilenceBlock nevents offset (w_ports w) (w_memory w); Some (ok, w_with_memory m w) |}.
End world.
