(* ===== verification/Motu.v ===== *)
(** * Motu: what the MOTU stream processors share

    The packets of the MOTU devices have a CIP-like header of two quadlets and
    then a fixed number of events.  An event is one frame: a quadlet with the
    time of the frame (the "SPH", the cycle and offset fields of a cycle timer
    value), six bytes of control and MIDI data, and three bytes for every
    channel. *)
From stdpp Require Import gmap strings.
From S2P Require Import Prelude Serialize Memory Ports CycleTimer MachineFloat StreamProcessor StreamWorld.

(** MotuPortInfo.h *)
Record MotuPortInfo := mkMotuPortInfo { motu_position : Z; motu_size : Z }.

Abbreviation MotuPort := (Port MotuPortInfo).

Definition motu_getPosition (p : MotuPort) : Z := motu_position (pt_info p).

Definition MOTU_MODEL_828MkI : Z := 0x0005.

(** What the MOTU stream processors ask of the outside: the cycle timer of the
    service, and the sample format of the client. *)
Class MotuEnv (W : Type) := {
  service_getCycleTimer : W -> Z * W;
  motu_getAudioDataType : W -> eADT_AudioDataType }.

Definition get_bits (d start len : Z) : Z := Z.land (Z.shiftr d (start - len + 1)) (Z.shiftl 1 len - 1).

(** a quadlet at any byte address *)
Definition load32 (data : list Z) (i : Z) : option Z :=
  b0 ← load data i; b1 ← load data (i + 1); b2 ← load data (i + 2); b3 ← load data (i + 3); Some (word_of b0 b1 b2 b3).

(** three consecutive bytes *)
Definition load24 (data : list Z) (i : Z) : option (Z * Z * Z) :=
  b0 ← load data i; b1 ← load data (i + 1); b2 ← load data (i + 2); Some (b0, b1, b2).

Definition store24 (i : Z) (b0 b1 b2 : Z) (data : list Z) : option (list Z) :=
  data1 ← store data i b0; data2 ← store data1 (i + 1) b1; store data2 (i + 2) b2.

(** [for (it ...)] over the ports; a port that reports a problem does not end
    the loop *)
Fixpoint over_ports {I S : Type} (f : Port I -> S -> option (bool * S)) (l : list (Port I)) (s : S) : option (bool * S) :=
  match l with
  | [] => Some (true, s)
  | p :: l' => '(ok, s1) ← f p s; '(rest, s2) ← over_ports f l' s1; Some (ok && rest, s2)
  end.

(** *** Rates *)

Definition motu_frames_per_packet (rate : Z) : Z :=
  let framerate := s32 rate in if framerate <=? 48000 then 8 else if framerate <=? 96000 then 16 else 32.

Definition motu_max_packet_size (rate : Z) : Z :=
  let framerate := s32 rate in if framerate <=? 48000 then 904 else if framerate <=? 96000 then 1416 else 1672.

(** *** Times *)

Definition sphRecvToFullTicks (sph ct_now : Z) : Z :=
  let timestamp := u32 (CYCLE_TIMER_TO_TICKS (Z.land sph 0x1ffffff)) in
  let now_cycles := CYCLE_TIMER_GET_CYCLES ct_now in
  let ts_sec := CYCLE_TIMER_GET_SECS ct_now in
  let ts_sec :=
    if now_cycles + 1000 <? CYCLE_TIMER_GET_CYCLES sph then if ts_sec =? 0 then 127 else ts_sec - 1
    else if CYCLE_TIMER_GET_CYCLES sph + 1000 <? now_cycles then if ts_sec =? 127 then 0 else ts_sec + 1
    else ts_sec in
  u32 (timestamp + ts_sec * TICKS_PER_SECOND).

Definition fullTicksToSph (timestamp : Z) : Z := Z.land (TICKS_TO_CYCLE_TIMER timestamp) 0x1ffffff.

(** An outside for examples: it is the cycle timer. *)
Definition motu_demo_env : MotuEnv Z := {| service_getCycleTimer ct := (ct, ct); motu_getAudioDataType _ := eADT_Int24 |}.
