(* ===== verification/MotuControls.v ===== *)
(** * MotuControls: the state of the device's controls

    decodeMotuCtrlEvents of libstreaming/motu/MotuReceiveStreamProcessor.cpp:
    every event of a packet from the device has a control byte and an argument,
    from which the receiver builds a picture of the mixer of the device. *)
From stdpp Require Import gmap.
From S2P Require Import Prelude Serialize Memory.

(** ** The controls of the device *)

Definition MOTUFW_MAX_MIXBUSES : Z := 4.
Definition MOTUFW_MAX_MIXBUS_CHANNELS : Z := 20.

Inductive EMotuDevCtrlStatus := MOTU_DEVCTRL_INVALID | MOTU_DEVCTRL_SYNCING | MOTU_DEVCTRL_INIT | MOTU_DEVCTRL_VALID.

#[export] Instance EMotuDevCtrlStatus_dec : EqDecision EMotuDevCtrlStatus.
Proof. solve_decision. Defined.

(** one of the three rows of a mix bus: the values and the index of the next *)
Record motu_row := mkRow { row_values : list Z; row_index : Z }.

Record MixBus := mkMixBus {
  mix_gain : motu_row; mix_pan : motu_row; mix_control : motu_row; mix_bus_gain : Z; mix_bus_dest : Z }.

(** [input_20dB_pad] and the gain trims are never used *)
Record MotuDevControls := mkDevControls {
  dc_status : EMotuDevCtrlStatus;
  dc_input_6dB_boost : Z;
  dc_input_ref_level : Z;
  dc_mixbus : list MixBus;
  dc_mixbus_index : Z;
  dc_main_out_volume : Z;
  dc_phones_volume : Z;
  dc_phones_assign : Z;
  dc_n_mixbuses : Z;
  dc_n_channels : Z }.

Definition empty_row : motu_row := mkRow (replicate (Z.to_nat MOTUFW_MAX_MIXBUS_CHANNELS) 0) 0.

Definition MotuDevControls_zero : MotuDevControls :=
  mkDevControls MOTU_DEVCTRL_INVALID 0 0
    (replicate (Z.to_nat MOTUFW_MAX_MIXBUSES) (mkMixBus empty_row empty_row empty_row 0 0)) 0 0 0 0 0 0.

Definition dc_with_status (x : EMotuDevCtrlStatus) (c : MotuDevControls) : MotuDevControls :=
  mkDevControls x (dc_input_6dB_boost c) (dc_input_ref_level c) (dc_mixbus c) (dc_mixbus_index c) (dc_main_out_volume c)
    (dc_phones_volume c) (dc_phones_assign c) (dc_n_mixbuses c) (dc_n_channels c).
Definition dc_with_index (x : Z) (c : MotuDevControls) : MotuDevControls :=
  mkDevControls (dc_status c) (dc_input_6dB_boost c) (dc_input_ref_level c) (dc_mixbus c) x (dc_main_out_volume c)
    (dc_phones_volume c) (dc_phones_assign c) (dc_n_mixbuses c) (dc_n_channels c).
Definition dc_with_mixbus (x : list MixBus) (c : MotuDevControls) : MotuDevControls :=
  mkDevControls (dc_status c) (dc_input_6dB_boost c) (dc_input_ref_level c) x (dc_mixbus_index c) (dc_main_out_volume c)
    (dc_phones_volume c) (dc_phones_assign c) (dc_n_mixbuses c) (dc_n_channels c).
Definition dc_with_counts (buses channels : Z) (c : MotuDevControls) : MotuDevControls :=
  mkDevControls (dc_status c) (dc_input_6dB_boost c) (dc_input_ref_level c) (dc_mixbus c) (dc_mixbus_index c)
    (dc_main_out_volume c) (dc_phones_volume c) (dc_phones_assign c) buses channels.
Definition dc_with_outputs (main phones assign : Z) (c : MotuDevControls) : MotuDevControls :=
  mkDevControls (dc_status c) (dc_input_6dB_boost c) (dc_input_ref_level c) (dc_mixbus c) (dc_mixbus_index c) main phones assign
    (dc_n_mixbuses c) (dc_n_channels c).
Definition dc_with_inputs (boost level : Z) (c : MotuDevControls) : MotuDevControls :=
  mkDevControls (dc_status c) boost level (dc_mixbus c) (dc_mixbus_index c) (dc_main_out_volume c) (dc_phones_volume c)
    (dc_phones_assign c) (dc_n_mixbuses c) (dc_n_channels c).

Definition MOTU_KEY_SEQ_SYNC : Z := 0x0c.
Definition MOTU_KEY_CHANNEL_GAIN : Z := 0x14.
Definition MOTU_KEY_CHANNEL_PAN : Z := 0x1c.
Definition MOTU_KEY_CHANNEL_CTRL : Z := 0x24.
Definition MOTU_KEY_MIXBUS_GAIN : Z := 0x2c.
Definition MOTU_KEY_MIXBUS_DEST : Z := 0x34.
Definition MOTU_KEY_MAINOUT_VOL : Z := 0x3c.
Definition MOTU_KEY_PHONES_VOL : Z := 0x44.
Definition MOTU_KEY_PHONES_DEST : Z := 0x4c.
Definition MOTU_KEY_INPUT_6dB_BOOST : Z := 0x6c.
Definition MOTU_KEY_INPUT_REF_LEVEL : Z := 0x74.
Definition MOTU_KEY_MASK_MIDI : Z := 0x01.
Definition MOTU_KEY_SEQ_SYNC_MIXBUS1 : Z := 0x00.

(** *** The parser

    [None] is an access to a mix bus behind the array. *)

(** [m_devctrls.mixbus[m_devctrls.mixbus_index]] is changed *)
Definition on_mixbus (f : MixBus -> MixBus) (c : MotuDevControls) : option MotuDevControls :=
  let i := Z.to_nat (dc_mixbus_index c) in
  b ← dc_mixbus c !! i; Some (dc_with_mixbus (<[i := f b]> (dc_mixbus c)) c).

(** a value for the next channel: the index, an [unsigned char], always
    advances, and the value is stored if there is such a channel *)
Definition row_put (arg : Z) (r : motu_row) : motu_row :=
  mkRow (if row_index r <? MOTUFW_MAX_MIXBUS_CHANNELS then <[Z.to_nat (row_index r) := arg]> (row_values r) else row_values r)
    (u8 (row_index r + 1)).

Definition row_reset (r : motu_row) : motu_row := mkRow (row_values r) 0.

(** the control sequence starts with the mix bus in the upper bits of [arg] *)
Definition ctrl_seq_sync (arg : Z) (c : MotuDevControls) : option MotuDevControls :=
  c1 ← (if dc_mixbus_index c <? MOTUFW_MAX_MIXBUSES then
          b ← dc_mixbus c !! Z.to_nat (dc_mixbus_index c);
          let n := row_index (mix_gain b) in
          Some (if (dc_n_channels c =? 0) && negb (n =? 0) then dc_with_counts (dc_n_mixbuses c) n c else c)
        else Some c);
  let index := Z.shiftr arg 5 in
  let c2 := dc_with_index index c1 in
  if MOTUFW_MAX_MIXBUSES <=? index then Some c2
  else
    on_mixbus (fun b => mkMixBus (row_reset (mix_gain b)) (row_reset (mix_pan b)) (row_reset (mix_control b)) (mix_bus_gain b) (mix_bus_dest b))
      (if dc_n_mixbuses c2 <? index + 1 then dc_with_counts (u8 (index + 1)) (dc_n_channels c2) c2 else c2).

(** the state of the parser advances before the key is acted on *)
Definition ctrl_status (key arg : Z) (c : MotuDevControls) : MotuDevControls :=
  match dc_status c with
  | MOTU_DEVCTRL_INVALID =>
      if (key =? MOTU_KEY_SEQ_SYNC) && (arg =? MOTU_KEY_SEQ_SYNC_MIXBUS1) then dc_with_status MOTU_DEVCTRL_SYNCING c else c
  | MOTU_DEVCTRL_SYNCING =>
      if key =? MOTU_KEY_SEQ_SYNC then dc_with_index arg c
      else if (key =? MOTU_KEY_CHANNEL_GAIN) && (dc_mixbus_index c =? 0) then dc_with_status MOTU_DEVCTRL_INIT c
      else c
  | MOTU_DEVCTRL_INIT =>
      if (key =? MOTU_KEY_SEQ_SYNC) && (arg =? MOTU_KEY_SEQ_SYNC_MIXBUS1) && (0 <? dc_mixbus_index c)
      then dc_with_status MOTU_DEVCTRL_VALID c else c
  | MOTU_DEVCTRL_VALID => c
  end.

Definition ctrl_action (key arg : Z) (c : MotuDevControls) : option MotuDevControls :=
  if key =? MOTU_KEY_SEQ_SYNC then ctrl_seq_sync arg c
  else if key =? MOTU_KEY_CHANNEL_GAIN then
    on_mixbus (fun b => mkMixBus (row_put arg (mix_gain b)) (mix_pan b) (mix_control b) (mix_bus_gain b) (mix_bus_dest b)) c
  else if key =? MOTU_KEY_CHANNEL_PAN then
    on_mixbus (fun b => mkMixBus (mix_gain b) (row_put arg (mix_pan b)) (mix_control b) (mix_bus_gain b) (mix_bus_dest b)) c
  else if key =? MOTU_KEY_CHANNEL_CTRL then
    on_mixbus (fun b => mkMixBus (mix_gain b) (mix_pan b) (row_put arg (mix_control b)) (mix_bus_gain b) (mix_bus_dest b)) c
  else if key =? MOTU_KEY_MIXBUS_GAIN then
    if dc_mixbus_index c <? MOTUFW_MAX_MIXBUSES then
      on_mixbus (fun b => mkMixBus (mix_gain b) (mix_pan b) (mix_control b) arg (mix_bus_dest b)) c
    else Some c
  else if key =? MOTU_KEY_MIXBUS_DEST then
    if dc_mixbus_index c <? MOTUFW_MAX_MIXBUSES then
      on_mixbus (fun b => mkMixBus (mix_gain b) (mix_pan b) (mix_control b) (mix_bus_gain b) arg) c
    else Some c
  else if key =? MOTU_KEY_MAINOUT_VOL then Some (dc_with_outputs arg (dc_phones_volume c) (dc_phones_assign c) c)
  else if key =? MOTU_KEY_PHONES_VOL then Some (dc_with_outputs (dc_main_out_volume c) arg (dc_phones_assign c) c)
  else if key =? MOTU_KEY_PHONES_DEST then Some (dc_with_outputs (dc_main_out_volume c) (dc_phones_volume c) arg c)
  else if key =? MOTU_KEY_INPUT_6dB_BOOST then Some (dc_with_inputs arg (dc_input_ref_level c) c)
  else if key =? MOTU_KEY_INPUT_REF_LEVEL then Some (dc_with_inputs (dc_input_6dB_boost c) arg c)
  else Some c.

(** one event, which has more than five bytes: the key without its MIDI flag,
    and the argument *)
Definition ctrl_event (key arg : Z) (c : MotuDevControls) : option MotuDevControls :=
  let c1 := ctrl_status key arg c in
  if bool_decide (dc_status c1 = MOTU_DEVCTRL_INIT) || bool_decide (dc_status c1 = MOTU_DEVCTRL_VALID)
  then ctrl_action key arg c1 else Some c1.

Definition decodeMotuCtrlEvents (event_size : Z) (data : list Z) (nevents : Z) (c : MotuDevControls) : option MotuDevControls :=
  for_loop nevents (fun j c =>
    src ← load data (4 + j * event_size); arg ← load data (5 + j * event_size);
    ctrl_event (Z.ldiff src MOTU_KEY_MASK_MIDI) arg c) c.

(** ** What the parser does to memory *)

Definition row_ok (r : motu_row) : Prop := length (row_values r) = 20%nat /\ is_u8 (row_index r).

Definition mixbus_ok (b : MixBus) : Prop := row_ok (mix_gain b) /\ row_ok (mix_pan b) /\ row_ok (mix_control b).

(** the state of the parser while it acts on the events *)
Definition ctrl_active (c : MotuDevControls) : Prop := dc_status c = MOTU_DEVCTRL_INIT \/ dc_status c = MOTU_DEVCTRL_VALID.

#[export] Instance ctrl_active_dec c : Decision (ctrl_active c).
Proof. unfold ctrl_active. solve_decision. Defined.

Record ctrl_ok (c : MotuDevControls) : Prop := {
  ck_buses : length (dc_mixbus c) = 4%nat;
  ck_rows : Forall mixbus_ok (dc_mixbus c);
  ck_index : 0 <= dc_mixbus_index c < 256;
  ck_active : ctrl_active c -> dc_mixbus_index c < 8;
  ck_counts : 0 <= dc_n_mixbuses c <= 4 }.

(** the three keys that give the next value of a row *)
Definition row_key (key : Z) : bool :=
  (key =? MOTU_KEY_CHANNEL_GAIN) || (key =? MOTU_KEY_CHANNEL_PAN) || (key =? MOTU_KEY_CHANNEL_CTRL).

Lemma row_put_ok arg r : row_ok r -> row_ok (row_put arg r).
Proof.
  intros [Hl Hi]. split; [|apply wrapU_uint; lia]. unfold row_put. cbn. case_match; [by rewrite length_insert|done].
Qed.

Lemma row_reset_ok r : row_ok r -> row_ok (row_reset r).
Proof. intros [Hl _]. split; [done|cbn; width_lia]. Qed.

Lemma on_mixbus_some f c : ctrl_ok c -> dc_mixbus_index c < 4 -> exists c1, on_mixbus f c = Some c1.
Proof.
  intros [Hl _ Hi _ _] Hlt. unfold on_mixbus. destruct (lookup_lt_is_Some_2 (dc_mixbus c) (Z.to_nat (dc_mixbus_index c))) as [b ->]; [lia|].
  by eexists.
Qed.

Lemma on_mixbus_none f c : ctrl_ok c -> on_mixbus f c = None <-> 4 <= dc_mixbus_index c.
Proof.
  intros Hok. pose proof Hok as [Hl _ Hi _ _]. split.
  - intros Hn. destruct (Z.le_gt_cases 4 (dc_mixbus_index c)) as [|Hlt]; [done|]. destruct (on_mixbus_some f c Hok Hlt) as [c1 Hc]. congruence.
  - intros Hge. unfold on_mixbus. by rewrite lookup_ge_None_2 by lia.
Qed.

Lemma on_mixbus_ok f c c1 : (forall b, mixbus_ok b -> mixbus_ok (f b)) -> ctrl_ok c -> on_mixbus f c = Some c1 -> ctrl_ok c1.
Proof.
  intros Hf [Hl Hr Hi Ha Hc]. unfold on_mixbus. intros (b & Hb & [= <-])%bind_Some. split; cbn; try done.
  - by rewrite length_insert.
  - apply Forall_insert; [done|]. apply Hf. by apply (Forall_lookup_1 _ _ _ _ Hr Hb).
Qed.

Lemma ctrl_status_ok key arg c : is_u8 arg -> ctrl_ok c -> ctrl_ok (ctrl_status key arg c).
Proof.
  intros Ha [Hl Hr Hi Hact Hc]. unfold ctrl_status. destruct (dc_status c) eqn:Hs.
  - case_match; [|by split; rewrite ?Hs]. split; try done. intros [[=]|[=]].
  - destruct (key =? MOTU_KEY_SEQ_SYNC); [split; try done|].
    + unfold ctrl_active. cbn. rewrite Hs. intros [[=]|[=]].
    + destruct (_ && (dc_mixbus_index c =? 0)) eqn:Hk; [|by split; rewrite ?Hs]. apply andb_true_iff in Hk as [_ Hk%Z.eqb_eq].
      split; try done. cbn. lia.
  - assert (Hlt : dc_mixbus_index c < 8) by (apply Hact; left; done). case_match; split; try done.
  - by split; rewrite ?Hs.
Qed.

(** the index of a mix bus is three bits *)
Lemma seq_sync_index arg : is_u8 arg -> 0 <= Z.shiftr arg 5 < 8.
Proof. intros Ha. rewrite Z.shiftr_div_pow2 by lia. change (2 ^ 5) with 32. div_lia. Qed.

Lemma ctrl_ok_counts n k c : 0 <= n <= 4 -> ctrl_ok c -> ctrl_ok (dc_with_counts n k c).
Proof. intros Hn [Hl Hr Hi Hact Hc]. by split. Qed.

Lemma ctrl_ok_index i c : 0 <= i < 8 -> ctrl_ok c -> ctrl_ok (dc_with_index i c).
Proof. intros Hn [Hl Hr Hi Hact Hc]. split; try done; cbn; lia. Qed.

Lemma ctrl_seq_sync_ok arg c : is_u8 arg -> ctrl_ok c -> exists c1, ctrl_seq_sync arg c = Some c1 /\ ctrl_ok c1.
Proof.
  intros Ha Hok. unfold ctrl_seq_sync. pose proof (seq_sync_index arg Ha) as Hi.
  match goal with |- context [?x ≫= _] => assert (H1 : exists c1, x = Some c1 /\ ctrl_ok c1) end.
  { destruct (Z.ltb_spec (dc_mixbus_index c) MOTUFW_MAX_MIXBUSES) as [Hlt|]; [|by exists c]. pose proof Hok as [Hl _ Hb _ Hc].
    destruct (lookup_lt_is_Some_2 (dc_mixbus c) (Z.to_nat (dc_mixbus_index c))) as [b ->]; [unfold MOTUFW_MAX_MIXBUSES in Hlt; lia|].
    eexists. split; [done|]. case_match; [by apply ctrl_ok_counts|done]. }
  destruct H1 as (c1 & -> & Hok1). cbn [mbind option_bind]. pose proof (ctrl_ok_index _ _ Hi Hok1) as Hok2.
  destruct (Z.leb_spec MOTUFW_MAX_MIXBUSES (Z.shiftr arg 5)) as [|Hlt]; [by eexists|]. unfold MOTUFW_MAX_MIXBUSES in Hlt.
  set (c3 := if dc_n_mixbuses _ <? _ then _ else _).
  assert (Hok3 : ctrl_ok c3).
  { unfold c3. case_match; [|done]. apply ctrl_ok_counts; [|done]. rewrite wrapU_small by width_lia. lia. }
  assert (Hi3 : dc_mixbus_index c3 = Z.shiftr arg 5) by (unfold c3; by case_match).
  match goal with |- context [on_mixbus ?f c3] => destruct (on_mixbus_some f c3 Hok3) as [c4 Hc4]; [by rewrite Hi3|] end.
  exists c4. split; [done|]. eapply on_mixbus_ok; [|exact Hok3|exact Hc4].
  intros b (H1 & H2 & H3). split_and!; by apply row_reset_ok.
Qed.

Lemma ctrl_ok_outputs a b d c : ctrl_ok c -> ctrl_ok (dc_with_outputs a b d c).
Proof. by intros [Hl Hr Hi Hact Hc]. Qed.

Lemma ctrl_ok_inputs a b c : ctrl_ok c -> ctrl_ok (dc_with_inputs a b c).
Proof. by intros [Hl Hr Hi Hact Hc]. Qed.

Lemma ctrl_action_ok key arg c : is_u8 arg -> ctrl_ok c ->
  (ctrl_action key arg c = None <-> row_key key = true /\ 4 <= dc_mixbus_index c) /\
  (forall c1, ctrl_action key arg c = Some c1 -> ctrl_ok c1).
Proof.
  intros Ha Hok. unfold ctrl_action, row_key. destruct (Z.eqb_spec key MOTU_KEY_SEQ_SYNC) as [->|_].
  { destruct (ctrl_seq_sync_ok arg c Ha Hok) as (c1 & -> & Hok1). split; [|by intros c2 [= <-]]. split; [done|]. by intros [[=] _]. }
  assert (Hrow : forall f, (forall b, mixbus_ok b -> mixbus_ok (f b)) ->
    (on_mixbus f c = None <-> true = true /\ 4 <= dc_mixbus_index c) /\ (forall c1, on_mixbus f c = Some c1 -> ctrl_ok c1)).
  { intros f Hf. split; [rewrite on_mixbus_none by done; tauto|]. intros c1. by apply on_mixbus_ok. }
  destruct (key =? MOTU_KEY_CHANNEL_GAIN).
  { apply Hrow. intros b (H1 & H2 & H3). split_and!; try done. by apply row_put_ok. }
  destruct (key =? MOTU_KEY_CHANNEL_PAN).
  { apply Hrow. intros b (H1 & H2 & H3). split_and!; try done. by apply row_put_ok. }
  destruct (key =? MOTU_KEY_CHANNEL_CTRL).
  { apply Hrow. intros b (H1 & H2 & H3). split_and!; try done. by apply row_put_ok. }
  cbn [orb]. assert (Hsome : forall x : option MotuDevControls, (exists c1, x = Some c1 /\ ctrl_ok c1) ->
    (x = None <-> false = true /\ 4 <= dc_mixbus_index c) /\ (forall c1, x = Some c1 -> ctrl_ok c1)).
  { intros x (c1 & -> & Hok1). split; [split; [done|by intros [[=] _]]|]. by intros c2 [= <-]. }
  apply Hsome. assert (Hbus : forall f, (forall b, mixbus_ok b -> mixbus_ok (f b)) ->
    exists c1, (if dc_mixbus_index c <? MOTUFW_MAX_MIXBUSES then on_mixbus f c else Some c) = Some c1 /\ ctrl_ok c1).
  { intros f Hf. destruct (Z.ltb_spec (dc_mixbus_index c) MOTUFW_MAX_MIXBUSES) as [Hlt|]; [|by exists c].
    destruct (on_mixbus_some f c Hok Hlt) as [c1 Hc1]. exists c1. split; [done|]. by eapply on_mixbus_ok. }
  destruct (key =? MOTU_KEY_MIXBUS_GAIN); [by apply Hbus|].
  destruct (key =? MOTU_KEY_MIXBUS_DEST); [by apply Hbus|].
  repeat case_match; (eexists; split; [done|]); by first [apply ctrl_ok_outputs|apply ctrl_ok_inputs|idtac].
Qed.

(** a device that names mix bus 8 while the parser is active *)
Definition ctrl_overrun_events : list (Z * Z) :=
  [(MOTU_KEY_SEQ_SYNC, 0); (MOTU_KEY_CHANNEL_GAIN, 100); (MOTU_KEY_SEQ_SYNC, 0xe0); (MOTU_KEY_CHANNEL_GAIN, 100)].

(** C11: the picture of the controls keeps its shape, and an event from the
    device is an access behind the array of mix buses exactly when the parser
    is active, the event brings the next value of a row, and the current mix
    bus, which the device has chosen by three bits, is not one of the four:
    the index of the row is read and incremented there before the bound is
    tested.  Four events are enough to get there from the start. *)
Theorem motu_ctrl_overrun :
  ctrl_ok MotuDevControls_zero /\
  (forall key arg c, is_u8 arg -> ctrl_ok c ->
    let c1 := ctrl_status key arg c in
    (ctrl_event key arg c = None <-> ctrl_active c1 /\ row_key key = true /\ 4 <= dc_mixbus_index c1) /\
    (forall c2, ctrl_event key arg c = Some c2 -> ctrl_ok c2)) /\
  foldl (fun c '(key, arg) => c ≫= ctrl_event key arg) (Some MotuDevControls_zero) ctrl_overrun_events = None.
Proof.
  split; [|split; [|reflexivity]].
  - split; try done.
    + repeat constructor; cbn; width_lia.
  - intros key arg c Ha Hok c1. pose proof (ctrl_status_ok key arg c Ha Hok) as Hok1. fold c1 in Hok1.
    destruct (ctrl_action_ok key arg c1 Ha Hok1) as [Hn Hs]. unfold ctrl_event. fold c1.
    assert (Hb : bool_decide (dc_status c1 = MOTU_DEVCTRL_INIT) || bool_decide (dc_status c1 = MOTU_DEVCTRL_VALID) = true <-> ctrl_active c1)
      by (rewrite orb_true_iff, !bool_decide_eq_true; done).
    destruct (_ || _).
    + split; [|done]. rewrite Hn. split; [intros [H1 H2]; split_and!; by try apply Hb|intros (_ & H1 & H2); by split].
    + split; [|by intros c2 [= <-]]. split; [done|]. intros (Hact & _). by apply Hb in Hact.
Qed.
