(* ===== verification/MotuReceive.v ===== *)
(** * MotuReceive: libstreaming/motu/MotuReceiveStreamProcessor.cpp

    The receiver takes the time of a packet from its last frame, stores the
    events, and on the client's side takes the samples, the MIDI bytes and the
    state of the device's controls out of them.  Debug output is not modelled. *)
From stdpp Require Import gmap.
From S2P Require Import Prelude Serialize Memory MidiQueue Ports CycleTimer MachineFloat RingBuffer TimestampedBuffer StreamProcessor StreamWorld Motu MotuControls.

(** ** The stream processor *)

Record MotuReceiveStreamProcessor := mkMotuReceive {
  mr_event_size : Z;
  mr_motu_model : Z;
  mr_devctrls : MotuDevControls;
  mr_midibuffer : list Z;
  mr_mb_head : Z;
  mr_mb_tail : Z }.

(** [midibuffer] is not initialised *)
Definition MotuReceiveStreamProcessor_new (motu_model event_size : Z) (midibuffer : list Z) : MotuReceiveStreamProcessor :=
  mkMotuReceive event_size motu_model MotuDevControls_zero midibuffer 0 0.

Section MotuReceive.
Context {W : Type} {EV : SPEnv W} {ME : MotuEnv W}.

Abbreviation E := (port_world MotuPortInfo MotuReceiveStreamProcessor W).
Abbreviation S := (sp_shared E).

(** ** Packets *)

(** the number of events of a packet; [m_event_size] is an [unsigned int] *)
Definition motu_n_events (event_size length : Z) : option Z :=
  if event_size =? 0 then None else Some (u32 (length - 8) / event_size).

Definition mr_processPacketHeader (data : list Z) (length tag sy pkt_ctr : Z) (s : S) : option (eChildReturnValue * S) :=
  if 8 <? length then
    q0 ← load_quadlet data 0; q1 ← load_quadlet data 1;
    let dbs := get_bits (CondSwapFromBus32 q0) 23 8 in
    let fdf_size := if get_bits (CondSwapFromBus32 q1) 23 8 =? 0x22 then 32 else 0 in
    if negb (tag =? 1) || (negb (fdf_size =? 32) && negb (fdf_size =? 0)) || (dbs =? 0) then Some (eCRV_Invalid, s)
    else
      let event_size := mr_event_size (w_child (sh_env s)) in
      n_events ← motu_n_events event_size length;
      last_sph ← load32 data (8 + u32 (u32 (n_events - 1) * event_size));
      let '(ct, o) := service_getCycleTimer (w_outside (sh_env s)) in
      Some (eCRV_OK, sh_with_timestamp (sphRecvToFullTicks (CondSwapFromBus32 last_sph) ct) (sh_correct_last_timestamp s)
                       (sh_with_env (w_with_outside o (sh_env s)) s))
  else Some (eCRV_Invalid, s).

Definition mr_processPacketData (data : list Z) (length : Z) (s : S) : option (eChildReturnValue * S) :=
  n_events ← motu_n_events (mr_event_size (w_child (sh_env s))) length;
  '(ok, b) ← writeFrames n_events (drop 8 data) (f64_of_Z (sh_last_timestamp s)) (sh_data_buffer s);
  Some (if ok : bool then eCRV_OK else eCRV_XRun, sh_with_data_buffer b s).

(** ** Demultiplexing *)

(** [assert(nevents + offset <= p->getBufferSize())] *)
Definition motu_port_ok (p : MotuPort) (nevents offset : Z) : bool := u32 (nevents + offset) <=? pt_buffersize p.

(** the sign of the 24 bit integer is extended *)
Definition motu_int24 (b0 b1 b2 : Z) : Z :=
  let v := u32 (Z.shiftl b0 16 + Z.shiftl b1 8 + b2) in
  if negb (Z.land b0 0x80 =? 0) then Z.lor v 0xff000000 else v.

(** the word of the [float] *)
Definition motu_float (b0 b1 b2 : Z) : Z :=
  bits_of_f32 (f32_mul (f32_of_Z (s32 (motu_int24 b0 b1 b2))) (f32_div (f32_of_Z 1) (f32_of_Z 0x7FFFFF))).

Definition decode_motu_audio (sample : Z -> Z -> Z -> Z) (event_size : Z) (data : list Z) (offset nevents : Z) (p : MotuPort) (m : memory)
  : option memory :=
  if negb (motu_port_ok p nevents offset) then None
  else for_loop nevents (fun j m =>
    '(b0, b1, b2) ← load24 data (motu_getPosition p + j * event_size);
    mem_store (pt_buffer p) (offset + j) (sample b0 b1 b2) m) m.

Definition decodeMotuEventsToPort (t : eADT_AudioDataType) : Z -> list Z -> Z -> Z -> MotuPort -> memory -> option memory :=
  decode_motu_audio (match t with eADT_Int24 => motu_int24 | eADT_Float => motu_float end).

(** one event of a MIDI port: the byte is the third of its bytes *)
Definition decode_motu_midi_event (event_size : Z) (data : list Z) (p : MotuPort) (j : Z) (t : midi_state) : option midi_state :=
  let src := motu_getPosition p + j * event_size in
  b0 ← load data src;
  t1 ← (if Z.land b0 MOTU_KEY_MASK_MIDI =? MOTU_KEY_MASK_MIDI then b2 ← load data (src + 2); midi_put (Z.lor 0x01000000 b2) t else Some t);
  midi_get j (pt_buffer p) t1.

Definition decodeMotuMidiEventsToPort (event_size : Z) (data : list Z) (offset nevents : Z) (p : MotuPort) (t : midi_state)
  : option midi_state :=
  if negb (motu_port_ok p nevents offset) then None
  else
    m ← mem_clear (pt_buffer p) offset nevents (md_mem t);
    for_loop nevents (decode_motu_midi_event event_size data p) (mkMidi (md_buf t) (md_head t) (md_tail t) offset m).

Definition with_midi (t : midi_state) (r : MotuReceiveStreamProcessor) : MotuReceiveStreamProcessor :=
  mkMotuReceive (mr_event_size r) (mr_motu_model r) (mr_devctrls r) (md_buf t) (md_head t) (md_tail t).

(** one port; the decoders have no problem to report *)
Definition decode_motu_port (data : list Z) (nevents offset : Z) (p : MotuPort) (e : E) : option (bool * E) :=
  let r := w_child e in
  if Port_isDisabled p then Some (true, e)
  else
    match pt_PortType p with
    | E_Audio =>
        m ← decodeMotuEventsToPort (motu_getAudioDataType (w_outside e)) (mr_event_size r) data offset nevents p (w_memory e);
        Some (true, w_with_memory m e)
    | E_Midi =>
        t ← decodeMotuMidiEventsToPort (mr_event_size r) data offset nevents p
              (mkMidi (mr_midibuffer r) (mr_mb_head r) (mr_mb_tail r) offset (w_memory e));
        Some (true, w_with_memory (md_mem t) (w_with_child (with_midi t r) e))
    | E_Control => Some (true, e)
    end.

Definition with_devctrls (c : MotuDevControls) (r : MotuReceiveStreamProcessor) : MotuReceiveStreamProcessor :=
  mkMotuReceive (mr_event_size r) (mr_motu_model r) c (mr_midibuffer r) (mr_mb_head r) (mr_mb_tail r).

Definition mr_processReadBlock (data : list Z) (nevents offset : Z) (e : E) : option (bool * E) :=
  let r := w_child e in
  c ← (if negb (mr_motu_model r =? MOTU_MODEL_828MkI) then decodeMotuCtrlEvents (mr_event_size r) data nevents (mr_devctrls r)
       else Some (mr_devctrls r));
  let e1 := w_with_child (with_devctrls c r) e in
  over_ports (decode_motu_port data nevents offset) (w_ports e1) e1.

(** ** The subclass *)

(** The functions of a transmitter are those of the base class: a warning and
    an error. *)
#[export] Instance MotuReceive_SPChild : SPChild E := {|
  getEventsPerFrame _ := 1;
  getEventSize e := mr_event_size (w_child e);
  getNominalFramesPerPacket e := motu_frames_per_packet (spm_getNominalRate e);
  prepareChild s := Some (true, s);
  processPacketHeader := mr_processPacketHeader;
  processPacketData := mr_processPacketData;
  generatePacketHeader p _ s := Some (eCRV_Invalid, p, s);
  generatePacketData p s := Some (eCRV_Invalid, p, s);
  generateEmptyPacketHeader p _ s := Some (eCRV_Invalid, p, s);
  generateEmptyPacketData p s := Some (eCRV_Invalid, p, s);
  generateSilentPacketHeader p _ s := Some (eCRV_Invalid, p, s);
  generateSilentPacketData p s := Some (eCRV_Invalid, p, s);
  processReadBlock := mr_processReadBlock;
  processWriteBlock data _ _ e := Some (false, data, e);
  transmitSilenceBlock data _ _ e := Some (false, data, e) |}.

Definition mr_getMaxPacketSize (e : E) : Z := motu_max_packet_size (spm_getNominalRate e).

(** The subclass keeps the promise that the state machine relies on. *)
#[export] Instance MotuReceive_SPChildLaws : SPChildLaws.
Proof.
  split; intros; intros s x s1; cbn; try (by intros [= <- <-]).
  - unfold mr_processPacketHeader. case_match; [|by intros [= <- <-]].
    intros (q0 & _ & (q1 & _ & Hr)%bind_Some)%bind_Some. case_match; [by injection Hr as <- <-|].
    apply bind_Some in Hr as (n0 & _ & (sph & _ & Hr)%bind_Some). destruct (service_getCycleTimer _) as [ct o].
    by injection Hr as <- <-.
  - unfold mr_processPacketData. intros (n0 & _ & ([ok b] & Hw & [= <- <-])%bind_Some)%bind_Some.
    cbn. by apply writeFrames_transparent in Hw.
Qed.
End MotuReceive.
