(* ===== verification/MotuTransmit.v ===== *)
(** * MotuTransmit: libstreaming/motu/MotuTransmitStreamProcessor.cpp

    The transmitter sends the frames of its buffer with a time for each, and on
    the client's side packs the samples and the MIDI bytes of the ports into
    events, the MIDI bytes no faster than the wire of the device can take
    them.  The debug level is 0: the test tone and the debug output are not
    modelled. *)
From stdpp Require Import gmap.
From S2P Require Import Prelude Serialize Memory Ports CycleTimer MachineFloat RingBuffer TimestampedBuffer StreamProcessor StreamWorld Motu.

(** config.h *)
Definition MOTU_TRANSMIT_TRANSFER_DELAY : Z := 0.
Definition MOTU_MIN_CYCLES_BEFORE_PRESENTATION : Z := 0.
Definition MOTU_MAX_CYCLES_TO_TRANSMIT_EARLY : Z := 2.
Definition MIDIBUFFER_SIZE : Z := 1024.

(** The queue of MIDI bytes, and the events to wait before the next one. *)
Record midi_out := mkMidiOut { mo_buf : list Z; mo_head : Z; mo_tail : Z; mo_lock : Z }.

Record MotuTransmitStreamProcessor := mkMotuTransmit {
  mt_event_size : Z;
  mt_event_pad_bytes : Z;
  mt_tx_dbc : Z;
  mt_midi : midi_out;
  mt_midi_tx_period : Z }.

(** [lrintf(ceil((float)srate / 3125))]: the frames between two MIDI bytes *)
Definition motu_midi_period (srate : Z) : option Z :=
  c ← ceil_Z (f32_div (f32_of_Z (s32 srate)) (f32_of_Z 3125)); k ← lrintf (f32_of_Z c); Some (u32 k).

(** [midibuffer] is not initialised *)
Definition MotuTransmitStreamProcessor_new (srate event_size : Z) (midibuffer : list Z) : option MotuTransmitStreamProcessor :=
  period ← motu_midi_period srate;
  Some (mkMotuTransmit event_size (u32 (event_size - 4) mod 3) 0 (mkMidiOut midibuffer 0 0 0) period).

Definition mt_with_dbc (dbc : Z) (t : MotuTransmitStreamProcessor) : MotuTransmitStreamProcessor :=
  mkMotuTransmit (mt_event_size t) (mt_event_pad_bytes t) dbc (mt_midi t) (mt_midi_tx_period t).
Definition mt_with_midi (o : midi_out) (t : MotuTransmitStreamProcessor) : MotuTransmitStreamProcessor :=
  mkMotuTransmit (mt_event_size t) (mt_event_pad_bytes t) (mt_tx_dbc t) o (mt_midi_tx_period t).

Section MotuTransmit.
Context {W : Type} {EV : SPEnv W} {ME : MotuEnv W}.

Abbreviation E := (port_world MotuPortInfo MotuTransmitStreamProcessor W).
Abbreviation S := (sp_shared E).

Definition mt_child (s : S) : MotuTransmitStreamProcessor := w_child (sh_env s).

Definition mt_frames (e : E) : Z := motu_frames_per_packet (spm_getNominalRate e).

(** ** Packets *)

(** the two quadlets of the header; [dbs] is the size of an event in quadlets *)
Definition motu_write_header (node_id dbs dbc : Z) (data : list Z) : option (list Z) :=
  let q0 := Z.lor (Z.lor (Z.lor 0x00000400 (Z.shiftl (Z.land node_id 0x3f) 24)) dbc) (u32 (Z.shiftl dbs 16)) in
  data1 ← store_quadlet 0 (CondSwapToBus32 q0) data; store_quadlet 1 (CondSwapToBus32 0x8222ffff) data1.

(** the counter of a data packet is incremented before it is stored *)
Definition motu_next_dbc (dbc n_events : Z) : Z :=
  let d := u32 (dbc + n_events) in if 0xff <? d then u32 (d - 0x100) else d.

Definition motu_fillDataPacketHeader (p : iso_packet) (s : S) : option (iso_packet * S) :=
  let t := mt_child s in
  let dbc := motu_next_dbc (mt_tx_dbc t) (mt_frames (sh_env s)) in
  data ← motu_write_header (service_getLocalNodeId (sh_env s)) (mt_event_size t / 4) dbc (pkt_data p);
  Some (mkPacket data (pkt_length p) (pkt_tag p) (pkt_sy p), sh_with_env (w_with_child (mt_with_dbc dbc t) (sh_env s)) s).

Definition motu_fillNoDataPacketHeader (p : iso_packet) (s : S) : option iso_packet :=
  let t := mt_child s in
  data ← motu_write_header (service_getLocalNodeId (sh_env s)) (mt_event_size t / 4) (mt_tx_dbc t) (pkt_data p);
  Some (mkPacket data 8 (pkt_tag p) (pkt_sy p)).

(** the data packet of the presentation time *)
Definition motu_send (presentation_time : Z) (p : iso_packet) (s : S) : option (eChildReturnValue * iso_packet * S) :=
  '(p1, s1) ← motu_fillDataPacketHeader p s;
  Some (eCRV_Packet, p1, sh_with_timestamp presentation_time (sh_correct_last_timestamp s1) s1).

(** the cycles until the times of transmission and of presentation *)
Definition cycles_until_transmit (presentation_time pkt_ctr : Z) : Z :=
  diffCycles (u32 (TICKS_TO_CYCLES (substractTicks presentation_time MOTU_TRANSMIT_TRANSFER_DELAY))) (CYCLE_TIMER_GET_CYCLES pkt_ctr).
Definition cycles_until_presentation (presentation_time pkt_ctr : Z) : Z :=
  diffCycles (u32 (TICKS_TO_CYCLES presentation_time)) (CYCLE_TIMER_GET_CYCLES pkt_ctr).

(** whether the present cycle is the one to send the packet *)
Definition motu_try_send (presentation_time pkt_ctr : Z) (p : iso_packet) (s : S) : option (eChildReturnValue * iso_packet * S) :=
  if cycles_until_transmit presentation_time pkt_ctr <? 0 then
    if MOTU_MIN_CYCLES_BEFORE_PRESENTATION <=? cycles_until_presentation presentation_time pkt_ctr then motu_send presentation_time p s
    else Some (eCRV_XRun, p, s)
  else if cycles_until_transmit presentation_time pkt_ctr <=? MOTU_MAX_CYCLES_TO_TRANSMIT_EARLY then motu_send presentation_time p s
  else Some (eCRV_EmptyPacket, p, s).

(** [*sy], [*tag] and [*length] of a packet with data *)
Definition motu_data_packet (p : iso_packet) (s : S) : iso_packet :=
  mkPacket (pkt_data p) (u32 (mt_frames (sh_env s) * mt_event_size (mt_child s) + 8)) 1 0.

Definition mt_generatePacketHeader (p : iso_packet) (pkt_ctr : Z) (s : S) : option (eChildReturnValue * iso_packet * S) :=
  let p0 := motu_data_packet p s in
  let '(ts_head_tmp, fc) := getBufferHeadTimestamp (sh_data_buffer s) in
  presentation_time ← to_uint 64 ts_head_tmp;
  if fc <? mt_frames (sh_env s) then
    if cycles_until_presentation presentation_time pkt_ctr <=? MOTU_MIN_CYCLES_BEFORE_PRESENTATION then Some (eCRV_XRun, p0, s)
    else Some (eCRV_Again, p0, s)
  else motu_try_send presentation_time pkt_ctr p0 s.

(** the time of frame [i] *)
Definition motu_frame_time (tpf : float) (last_timestamp i : Z) : option Z :=
  k ← lrintf (f32_mul (f32_of_Z i) tpf); Some (addTicks last_timestamp (u32 k)).

(** the times of the frames; [dbs] quadlets are between two of them *)
Definition motu_write_times (n_events dbs : Z) (tpf : float) (last_timestamp : Z) (data : list Z) : option (list Z) :=
  for_loop n_events (fun i data =>
    ts ← motu_frame_time tpf last_timestamp i; store_quadlet (2 + i * dbs) (CondSwapToBus32 (fullTicksToSph ts)) data) data.

(** two bytes are cleared at the end of every event that has pad bytes *)
Definition motu_clear_pads (n_events event_size pad_bytes : Z) (data : list Z) : option (list Z) :=
  if negb (pad_bytes =? 0) then
    for_loop n_events (fun i data =>
      let a := 8 + event_size - pad_bytes + i * event_size in
      data1 ← store data (a + 1) 0; store data1 a 0) data
  else Some data.

Definition mt_generatePacketData (p : iso_packet) (s : S) : option (eChildReturnValue * iso_packet * S) :=
  let t := mt_child s in
  let n_events := mt_frames (sh_env s) in
  '(ok, frames, b) ← readFrames n_events (sh_data_buffer s);
  payload ← memcpy_to (pkt_data p) 8 frames;
  let s1 := sh_with_data_buffer b s in
  if ok : bool then
    let tpf := spm_syncSource_getTicksPerFrame (sh_env s) in
    data1 ← motu_write_times n_events (mt_event_size t / 4) tpf (sh_last_timestamp s) payload;
    data2 ← motu_clear_pads n_events (mt_event_size t) (mt_event_pad_bytes t) data1;
    Some (eCRV_OK, mkPacket data2 (pkt_length p) (pkt_tag p) (pkt_sy p), s1)
  else Some (eCRV_XRun, mkPacket payload (pkt_length p) (pkt_tag p) (pkt_sy p), s1).

Definition mt_generateEmptyPacketHeader (p : iso_packet) (pkt_ctr : Z) (s : S) : option (eChildReturnValue * iso_packet * S) :=
  p1 ← motu_fillNoDataPacketHeader (mkPacket (pkt_data p) 8 1 0) s; Some (eCRV_OK, p1, s).

(** a silent packet follows the last one in time, the buffer need not run *)
Definition mt_generateSilentPacketHeader (p : iso_packet) (pkt_ctr : Z) (s : S) : option (eChildReturnValue * iso_packet * S) :=
  presentation_time ← motu_frame_time (spm_syncSource_getTicksPerFrame (sh_env s)) (sh_last_timestamp s) (mt_frames (sh_env s));
  motu_try_send presentation_time pkt_ctr (motu_data_packet p s) s.

Definition mt_generateSilentPacketData (p : iso_packet) (s : S) : option (eChildReturnValue * iso_packet * S) :=
  let t := mt_child s in
  let n_events := mt_frames (sh_env s) in
  payload ← memcpy_to (pkt_data p) 8 (replicate (Z.to_nat (u32 (n_events * mt_event_size t))) 0);
  data1 ← motu_write_times n_events (mt_event_size t / 4) (spm_syncSource_getTicksPerFrame (sh_env s)) (sh_last_timestamp s) payload;
  Some (eCRV_OK, mkPacket data1 (pkt_length p) (pkt_tag p) (pkt_sy p), s).

(** ** Multiplexing *)

Definition motu_tx_port_ok (p : MotuPort) (nevents offset : Z) : bool := u32 (nevents + offset) <=? pt_buffersize p.

(** the three bytes of a sample, the most significant one first *)
Definition motu_bytes (v : Z) : Z * Z * Z := (Z.land (Z.shiftr v 16) 0xff, Z.land (Z.shiftr v 8) 0xff, Z.land v 0xff).

(** the sample of a [float], clipped *)
Definition motu_clip (w : Z) : option Z :=
  let x := f32_of_bits w in
  let x := if SFltb (f32_of_Z 1) x then f32_of_Z 1 else x in
  let x := if SFltb x (f32_of_Z (-1)) then f32_of_Z (-1) else x in
  k ← lrintf (f32_mul x (f32_of_Z 0x7FFFFF)); Some (u32 k).

Definition encode_motu_audio (sample : Z -> option Z) (event_size : Z) (m : memory) (offset nevents : Z) (p : MotuPort) (data : list Z)
  : option (list Z) :=
  if negb (motu_tx_port_ok p nevents offset) then None
  else for_loop nevents (fun j data =>
    w ← mem_load m (pt_buffer p) (offset + j);
    v ← sample w;
    let '(b0, b1, b2) := motu_bytes v in
    store24 (motu_getPosition p + j * event_size) b0 b1 b2 data) data.

Definition encodePortToMotuEvents (t : eADT_AudioDataType) : Z -> memory -> Z -> Z -> MotuPort -> list Z -> option (list Z) :=
  encode_motu_audio (match t with eADT_Int24 => Some | eADT_Float => motu_clip end).

Definition encodeSilencePortToMotuEvents (event_size nevents : Z) (p : MotuPort) (data : list Z) : option (list Z) :=
  for_loop nevents (fun j data => store24 (motu_getPosition p + j * event_size) 0 0 0 data) data.

Definition encodeSilencePortToMotuMidiEvents : Z -> Z -> MotuPort -> list Z -> option (list Z) := encodeSilencePortToMotuEvents.

(** a byte is queued; when the queue is full the oldest byte is dropped *)
Definition midi_out_put (w : Z) (o : midi_out) : option midi_out :=
  buf ← store (mo_buf o) (mo_head o) w;
  let head := Z.land (u32 (mo_head o + 1)) (MIDIBUFFER_SIZE - 1) in
  let tail := if head =? mo_tail o then Z.land (u32 (mo_tail o + 1)) (MIDIBUFFER_SIZE - 1) else mo_tail o in
  Some (mkMidiOut buf head tail (mo_lock o)).

(** the oldest byte, if there is one and it may be sent, which starts the wait
    anew *)
Definition midi_out_get (period : Z) (o : midi_out) : option (option Z * midi_out) :=
  if negb (mo_head o =? mo_tail o) && (mo_lock o =? 0) then
    v ← load (mo_buf o) (mo_tail o);
    Some (Some (Z.land v 0xff), mkMidiOut (mo_buf o) (mo_head o) (Z.land (u32 (mo_tail o + 1)) (MIDIBUFFER_SIZE - 1)) period)
  else Some (None, o).

(** one event: what goes to the device, if anything *)
Definition midi_out_event (period w : Z) (o : midi_out) : option (option Z * midi_out) :=
  let o1 := mkMidiOut (mo_buf o) (mo_head o) (mo_tail o) (if mo_lock o =? 0 then 0 else mo_lock o - 1) in
  o2 ← (if negb (Z.land w 0xff000000 =? 0) then midi_out_put w o1 else Some o1);
  midi_out_get period o2.

Definition encodePortToMotuMidiEvents (event_size period : Z) (m : memory) (offset nevents : Z) (p : MotuPort) (st : list Z * midi_out)
  : option (list Z * midi_out) :=
  for_loop nevents (fun j '(data, o) =>
    w ← mem_load m (pt_buffer p) (offset + j);
    '(out, o1) ← midi_out_event period w o;
    match out with
    | Some v => data1 ← store24 (motu_getPosition p + j * event_size) 0x01 0x00 v data; Some (data1, o1)
    | None => Some (data, o1)
    end) st.

(** one port; a disabled one of any type is sent silence *)
Definition encode_motu_port (nevents offset : Z) (p : MotuPort) (st : list Z * E) : option (bool * (list Z * E)) :=
  let '(data, e) := st in
  let t := w_child e in
  if Port_isDisabled p then data1 ← encodeSilencePortToMotuEvents (mt_event_size t) nevents p data; Some (true, (data1, e))
  else
    match pt_PortType p with
    | E_Audio =>
        data1 ← encodePortToMotuEvents (motu_getAudioDataType (w_outside e)) (mt_event_size t) (w_memory e) offset nevents p data;
        Some (true, (data1, e))
    | E_Midi =>
        '(data1, o) ← encodePortToMotuMidiEvents (mt_event_size t) (mt_midi_tx_period t) (w_memory e) offset nevents p (data, mt_midi t);
        Some (true, (data1, w_with_child (mt_with_midi o t) e))
    | E_Control => Some (true, (data, e))
    end.

(** [memset(data + 4 + i * m_event_size, 0x00, 6)] *)
Definition motu_clear_control (event_size nevents : Z) (data : list Z) : option (list Z) :=
  for_loop nevents (fun i data =>
    let a := 4 + u32 (i * event_size) in data1 ← store24 a 0 0 0 data; store24 (a + 3) 0 0 0 data1) data.

Definition mt_processWriteBlock (data : list Z) (nevents offset : Z) (e : E) : option (bool * list Z * E) :=
  data0 ← motu_clear_control (mt_event_size (w_child e)) nevents data;
  '(ok, (data1, e1)) ← over_ports (encode_motu_port nevents offset) (w_ports e) (data0, e);
  Some (ok, data1, e1).

Definition silence_motu_port (event_size nevents : Z) (p : MotuPort) (data : list Z) : option (bool * list Z) :=
  match pt_PortType p with
  | E_Audio => data1 ← encodeSilencePortToMotuEvents event_size nevents p data; Some (true, data1)
  | E_Midi => data1 ← encodeSilencePortToMotuMidiEvents event_size nevents p data; Some (true, data1)
  | E_Control => Some (true, data)
  end.

Definition mt_transmitSilenceBlock (data : list Z) (nevents offset : Z) (e : E) : option (bool * list Z * E) :=
  '(ok, data1) ← over_ports (silence_motu_port (mt_event_size (w_child e)) nevents) (w_ports e) data; Some (ok, data1, e).

(** ** The subclass *)

#[export] Instance MotuTransmit_SPChild : SPChild E := {|
  getEventsPerFrame _ := 1;
  getEventSize e := mt_event_size (w_child e);
  getNominalFramesPerPacket := mt_frames;
  prepareChild s := Some (true, s);
  processPacketHeader _ _ _ _ _ s := Some (eCRV_Invalid, s);
  processPacketData _ _ s := Some (eCRV_Invalid, s);
  generatePacketHeader := mt_generatePacketHeader;
  generatePacketData := mt_generatePacketData;
  generateEmptyPacketHeader := mt_generateEmptyPacketHeader;
  generateEmptyPacketData p s := Some (eCRV_OK, p, s);
  generateSilentPacketHeader := mt_generateSilentPacketHeader;
  generateSilentPacketData := mt_generateSilentPacketData;
  processReadBlock _ _ _ e := Some (false, e);
  processWriteBlock := mt_processWriteBlock;
  transmitSilenceBlock := mt_transmitSilenceBlock |}.

Definition mt_getMaxPacketSize (e : E) : Z := motu_max_packet_size (spm_getNominalRate e).

(** ** The promise of the subclass *)

Lemma motu_send_buffer ts p s r p1 s1 : motu_send ts p s = Some (r, p1, s1) -> sh_data_buffer s1 = sh_data_buffer s.
Proof.
  unfold motu_send, motu_fillDataPacketHeader.
  destruct (motu_write_header _ _ _ _) as [data|]; [|done]. by intros [= _ _ <-].
Qed.

Lemma motu_try_send_buffer ts ctr p s r p1 s1 :
  motu_try_send ts ctr p s = Some (r, p1, s1) -> sh_data_buffer s1 = sh_data_buffer s.
Proof. unfold motu_try_send. repeat case_match; first [by intros [= _ _ <-]|apply motu_send_buffer]. Qed.

Lemma mt_generatePacketHeader_buffer p ctr s r p1 s1 :
  mt_generatePacketHeader p ctr s = Some (r, p1, s1) -> sh_data_buffer s1 = sh_data_buffer s.
Proof.
  unfold mt_generatePacketHeader. destruct (getBufferHeadTimestamp _) as [ts fc].
  destruct (to_uint 64 ts) as [pt|]; [|done]. cbn [mbind option_bind].
  repeat case_match; first [by intros [= _ _ <-]|apply motu_try_send_buffer].
Qed.

#[export] Instance MotuTransmit_SPChildLaws : SPChildLaws.
Proof.
  split; intros; intros s x s1; cbn; try (by intros [= <- <-]).
  - destruct x as [r p1]. intros Hr. apply (f_equal isTransparent). exact (mt_generatePacketHeader_buffer p ctr s r p1 s1 Hr).
  - unfold mt_generatePacketData. intros ([[ok frames] b] & Hr & (payload & _ & H)%bind_Some)%bind_Some.
    apply readFrames_transparent in Hr. destruct ok; [|by injection H as _ <-].
    apply bind_Some in H as (d1 & _ & (d2 & _ & H)%bind_Some). by injection H as _ <-.
  - unfold mt_generateEmptyPacketHeader. intros (p1 & _ & H)%bind_Some. by injection H as _ <-.
  - unfold mt_generateSilentPacketHeader. intros (pt & _ & Hr)%bind_Some. destruct x as [r p1].
    apply (f_equal isTransparent). by eapply motu_try_send_buffer.
  - unfold mt_generateSilentPacketData. intros (payload & _ & (d1 & _ & H)%bind_Some)%bind_Some. by injection H as _ <-.
Qed.
End MotuTransmit.
