(* ===== verification/MotuMidi.v ===== *)
(** * MotuMidi: the MIDI bytes that a MOTU transmitter sends

    The queue of a transmitter and its wait are a queue and a wire that takes a
    byte every so many events; what the events of a packet carry is what the
    wire takes. *)
From stdpp Require Import gmap strings.
From S2P Require Import Prelude Serialize Memory MidiQueue Ports MachineFloat StreamProcessor StreamWorld Motu MotuTransmit.

(** the word of an event brings a byte *)
Definition brings_byte (w : Z) : bool := negb (Z.land w 0xff000000 =? 0).

(** the events of a block, one after the other *)
Fixpoint midi_out_run (period : Z) (ws : list Z) (o : midi_out) : option (list (option Z) * midi_out) :=
  match ws with
  | [] => Some ([], o)
  | w :: ws' => '(out, o1) ← midi_out_event period w o; '(outs, o2) ← midi_out_run period ws' o1; Some (out :: outs, o2)
  end.

Section queue.
Implicit Types o : midi_out.

Definition midi_out_ok o : Prop :=
  Z.of_nat (length (mo_buf o)) = MIDIBUFFER_SIZE /\ 0 <= mo_head o < MIDIBUFFER_SIZE /\ 0 <= mo_tail o < MIDIBUFFER_SIZE /\ 0 <= mo_lock o.

Definition midi_out_queue o : list Z := ring_queue MIDIBUFFER_SIZE (mo_buf o) (mo_head o) (mo_tail o).

Lemma mask_1024 x : 0 <= x < 2 ^ 32 - 1 -> Z.land (u32 (x + 1)) (MIDIBUFFER_SIZE - 1) = (x + 1) mod MIDIBUFFER_SIZE.
Proof.
  intros Hx. change (MIDIBUFFER_SIZE - 1) with (2 ^ 10 - 1). rewrite land_mod by lia. change (2 ^ 10) with MIDIBUFFER_SIZE.
  by rewrite wrapU_small by width_lia.
Qed.

Lemma midi_out_put_spec w o :
  midi_out_ok o -> exists o1, midi_out_put w o = Some o1 /\ midi_out_ok o1 /\ mo_lock o1 = mo_lock o /\
    midi_out_queue o1 = bounded_put 1023 w (midi_out_queue o).
Proof.
  intros (Hl & Hh & Ht & Hk). unfold midi_out_put, MIDIBUFFER_SIZE in *. destruct (store_some (mo_buf o) (mo_head o) w) as [buf Hs]; [lia|].
  rewrite Hs. cbn [mbind option_bind]. fold MIDIBUFFER_SIZE. rewrite !mask_1024 by lia.
  unfold store in Hs. rewrite decide_True in Hs by lia. apply (inj Some) in Hs as <-.
  eexists. split; [done|]. unfold midi_out_ok. cbn [mo_buf mo_head mo_tail mo_lock]. rewrite length_insert. unfold MIDIBUFFER_SIZE.
  split; [split; [done|]; split; [div_lia|split; [case_match; div_lia|done]]|]. split; [done|]. apply (ring_queue_put 1024); lia.
Qed.

Lemma midi_out_get_spec period o :
  midi_out_ok o -> 0 <= period ->
  exists out o1, midi_out_get period o = Some (out, o1) /\ midi_out_ok o1 /\
    ((exists v, midi_out_queue o = v :: midi_out_queue o1 /\ mo_lock o = 0 /\ out = Some (Z.land v 0xff) /\ mo_lock o1 = period) \/
     ((midi_out_queue o = [] \/ 0 < mo_lock o) /\ out = None /\ o1 = o)).
Proof.
  intros Hok Hp. pose proof Hok as (Hl & Hh & Ht & Hk). unfold midi_out_get. fold (midi_out_queue o).
  destruct (Z.eqb_spec (mo_head o) (mo_tail o)) as [He|He]; cbn [negb andb].
  - eexists _, _. split; [done|]. split; [done|]. right. split; [left; unfold midi_out_queue; rewrite He; apply ring_queue_nil|done].
  - destruct (Z.eqb_spec (mo_lock o) 0) as [H0|H0].
    + destruct (ring_queue_get MIDIBUFFER_SIZE (mo_buf o) (mo_head o) (mo_tail o) Hl Hh Ht He) as (v & -> & Hq). cbn [mbind option_bind].
      rewrite mask_1024 by (unfold MIDIBUFFER_SIZE in *; lia). eexists _, _. split; [done|].
      split; [split; [done|]; split; [done|]; split; [by apply Z.mod_pos_bound|done]|]. left. exists v. by unfold midi_out_queue; rewrite Hq.
    + eexists _, _. split; [done|]. split; [done|]. right. split; [right; lia|done].
Qed.

(** one event *)
Lemma midi_out_event_spec period w o :
  midi_out_ok o -> 0 <= period ->
  let q := if brings_byte w then bounded_put 1023 w (midi_out_queue o) else midi_out_queue o in
  let lock := Z.max 0 (mo_lock o - 1) in
  exists out o1, midi_out_event period w o = Some (out, o1) /\ midi_out_ok o1 /\
    ((exists v, q = v :: midi_out_queue o1 /\ lock = 0 /\ out = Some (Z.land v 0xff) /\ mo_lock o1 = period) \/
     ((q = [] \/ 0 < lock) /\ out = None /\ midi_out_queue o1 = q /\ mo_lock o1 = lock)).
Proof.
  intros (Hl & Hh & Ht & Hk) Hp q lock. unfold midi_out_event. set (o1 := mkMidiOut _ _ _ _).
  assert (Hlock : mo_lock o1 = lock) by (cbn; destruct (Z.eqb_spec (mo_lock o) 0); lia).
  assert (Hok1 : midi_out_ok o1) by (split; [done|]; split; [done|]; split; [done|rewrite Hlock; lia]).
  assert (H2 : exists o2, (if negb (Z.land w 0xff000000 =? 0) then midi_out_put w o1 else Some o1) = Some o2 /\ midi_out_ok o2 /\
    mo_lock o2 = lock /\ midi_out_queue o2 = q).
  { unfold q, brings_byte. case_match; [|by exists o1].
    destruct (midi_out_put_spec w o1 Hok1) as (o2 & -> & Hok2 & Hl2 & Hq2). exists o2. by rewrite Hl2, Hq2. }
  destruct H2 as (o2 & -> & Hok2 & Hl2 & Hq2). cbn [mbind option_bind].
  destruct (midi_out_get_spec period o2 Hok2 Hp) as (out & o3 & -> & Hok3 & Hc). exists out, o3. split; [done|]. split; [done|].
  rewrite Hq2, Hl2 in Hc. destruct Hc as [Hc|(Hc & -> & ->)]; [by left|]. right. by rewrite Hq2, Hl2.
Qed.
End queue.

(** ** Blocks of events *)
Section run.
Context (period : Z) (Hp : 0 <= period).
Implicit Types (o : midi_out) (ws : list Z) (outs : list (option Z)).

Lemma midi_out_run_app ws1 ws2 o :
  midi_out_run period (ws1 ++ ws2) o =
    ('(outs1, o1) ← midi_out_run period ws1 o; '(outs2, o2) ← midi_out_run period ws2 o1; Some (outs1 ++ outs2, o2)).
Proof.
  revert o. induction ws1 as [|w ws1 IH]; intros o; cbn [midi_out_run app].
  - cbn. by destruct (midi_out_run period ws2 o) as [[outs2 o2]|].
  - destruct (midi_out_event period w o) as [[out o1]|]; [|done]. cbn [mbind option_bind]. rewrite IH.
    destruct (midi_out_run period ws1 o1) as [[outs1 o2]|]; [|done]. cbn [mbind option_bind].
    by destruct (midi_out_run period ws2 o2) as [[outs2 o3]|].
Qed.

Definition sent outs (i : nat) : Prop := exists v, outs !! i = Some (Some v).

Lemma sent_lt outs i : sent outs i -> (i < length outs)%nat.
Proof. intros [v Hv]. by eapply lookup_lt_Some. Qed.

Lemma sent_snoc_lt outs out i : (i < length outs)%nat -> sent (outs ++ [out]) i <-> sent outs i.
Proof. intros Hi. unfold sent. by rewrite lookup_app_l. Qed.

Lemma sent_snoc_eq outs out : sent (outs ++ [out]) (length outs) <-> is_Some out.
Proof.
  unfold sent, is_Some. rewrite lookup_app_r by done. rewrite Nat.sub_diag. cbn. destruct out as [v|]; [by split; intros [x [= ->]]; exists x|].
  split; intros [v [=]].
Qed.

Lemma sent_snoc_cases outs out i : sent (outs ++ [out]) i -> sent outs i \/ (i = length outs /\ is_Some out).
Proof.
  intros Hs. pose proof (sent_lt _ _ Hs) as Hl. rewrite length_app in Hl. cbn in Hl.
  destruct (decide (i < length outs)%nat); [left; by apply sent_snoc_lt in Hs|right]. assert (i = length outs) as -> by lia.
  by apply sent_snoc_eq in Hs.
Qed.

(** how long the wire has been free: the wait of the queue is what is left of
    the time after the last byte *)
Definition lock_after o outs (o1 : midi_out) : Prop :=
  (mo_lock o1 = Z.max 0 (mo_lock o - Z.of_nat (length outs)) /\ forall i, ~ sent outs i) \/
  (exists i, sent outs i /\ (forall k, (i < k)%nat -> ~ sent outs k) /\
    mo_lock o1 = Z.max 0 (period - (Z.of_nat (length outs) - 1 - Z.of_nat i))).

Record midi_paced o ws outs (o1 : midi_out) : Prop := {
  pc_ok : midi_out_ok o1;
  pc_length : length outs = length ws;
  pc_order : (length (midi_out_queue o ++ filter brings_byte ws) <= 1023)%nat ->
    omap id outs ++ ((fun w => Z.land w 0xff) <$> midi_out_queue o1)
    = (fun w => Z.land w 0xff) <$> (midi_out_queue o ++ filter brings_byte ws);
  pc_spacing i j : sent outs i -> sent outs j -> (i < j)%nat -> period <= Z.of_nat j - Z.of_nat i;
  pc_lock : lock_after o outs o1 }.

Lemma midi_paced_order_step o ws w outs out o1 o2 :
  (omap id outs ++ ((fun w => Z.land w 0xff) <$> midi_out_queue o1)
    = (fun w => Z.land w 0xff) <$> (midi_out_queue o ++ filter brings_byte ws)) ->
  (length (midi_out_queue o ++ filter brings_byte (ws ++ [w])) <= 1023)%nat ->
  let q := if brings_byte w then bounded_put 1023 w (midi_out_queue o1) else midi_out_queue o1 in
  match out with Some x => exists v, x = Z.land v 0xff /\ q = v :: midi_out_queue o2 | None => midi_out_queue o2 = q end ->
  omap id (outs ++ [out]) ++ ((fun w => Z.land w 0xff) <$> midi_out_queue o2)
    = (fun w => Z.land w 0xff) <$> (midi_out_queue o ++ filter brings_byte (ws ++ [w])).
Proof.
  intros IH Hfit q Hq. rewrite filter_app, (assoc_L (++)), length_app in Hfit.
  assert (Hlen : (length (midi_out_queue o1) <= length (midi_out_queue o ++ filter brings_byte ws))%nat).
  { apply (f_equal length) in IH. rewrite length_app, !length_fmap in IH. lia. }
  assert (Hq2 : q = midi_out_queue o1 ++ filter brings_byte [w]).
  { subst q. destruct (brings_byte w) eqn:Hb.
    - rewrite filter_cons_True in Hfit |- * by (rewrite Hb; done). cbn in Hfit. unfold bounded_put. by rewrite decide_False by lia.
    - rewrite filter_cons_False, filter_nil, app_nil_r by (rewrite Hb; by intros []). done. }
  rewrite omap_app, filter_app, (assoc_L (++) (midi_out_queue o)), (fmap_app _ (midi_out_queue o ++ _)), <- IH.
  rewrite <- !(assoc_L (++)). f_equal. rewrite <- fmap_app, <- Hq2. destruct out as [x|]; cbn; [|by rewrite Hq].
  destruct Hq as (v & -> & ->). done.
Qed.

(** one more event *)
Lemma midi_paced_step o ws w outs o1 :
  midi_paced o ws outs o1 ->
  exists out o2, midi_out_event period w o1 = Some (out, o2) /\ midi_paced o (ws ++ [w]) (outs ++ [out]) o2 /\
    (out = None -> midi_out_queue o2 = [] \/ Z.of_nat (length outs) + 1 < mo_lock o \/
      exists i, sent outs i /\ Z.of_nat (length outs) - Z.of_nat i < period).
Proof.
  intros [Hok Hl Hord Hsp Hlock]. destruct (midi_out_event_spec period w o1 Hok Hp) as (out & o2 & Hev & Hok2 & Hc).
  exists out, o2. split; [done|]. set (n := Z.of_nat (length outs)) in *.
  assert (Hfr : forall i, sent outs i -> Z.max 0 (mo_lock o1 - 1) = 0 -> period <= n - Z.of_nat i).
  { intros i Hi H0. destruct Hlock as [[_ Hno]|(k & Hk & Hlast & Hlk)]; [by apply Hno in Hi|].
    destruct (decide (k < i)%nat) as [Hki|]; [by apply (Hlast i) in Hki|]. pose proof (sent_lt _ _ Hk). fold n in Hlk. lia. }
  assert (Hlen : Z.of_nat (length (outs ++ [out])) = n + 1) by (rewrite length_app; cbn; lia). split.
  - split; [done|rewrite !length_app, Hl; done| | |].
    + intros Hfit. apply (midi_paced_order_step o ws w outs out o1 o2); [|done|].
      * apply Hord. rewrite filter_app, (assoc_L (++)), length_app in Hfit. lia.
      * destruct Hc as [(v & Hq & _ & -> & _)|(_ & -> & -> & _)]; [by exists v|done].
    + intros i j Hi Hj Hij. destruct (sent_snoc_cases _ _ _ Hj) as [Hj1|[-> Hout]].
      * apply (Hsp i j); [|done..]. apply sent_snoc_cases in Hi as [Hi|[-> _]]; [done|]. apply sent_lt in Hj1. lia.
      * apply sent_snoc_cases in Hi as [Hi|[-> _]]; [|lia].
        destruct Hc as [(v & _ & H0 & _)|(_ & -> & _)]; [by apply Hfr|by apply is_Some_None in Hout].
    + destruct Hc as [(v & _ & _ & -> & Hlk)|(_ & -> & _ & Hlk)].
      * right. exists (length outs). split; [by apply sent_snoc_eq|]. split; [|rewrite Hlen, Hlk; lia].
        intros k Hk Hs. apply sent_lt in Hs. rewrite length_app in Hs. cbn in Hs. lia.
      * assert (Hno : forall i, sent (outs ++ [None]) i -> sent outs i).
        { intros i Hi. apply sent_snoc_cases in Hi as [Hi|[_ Ho]]; [done|by apply is_Some_None in Ho]. }
        destruct Hlock as [[Hlk1 Hn]|(i & Hi & Hlast & Hlk1)].
        -- left. split; [rewrite Hlen, Hlk; fold n in Hlk1; lia|]. intros i Hi. by apply (Hn i), Hno.
        -- right. exists i. split; [apply sent_snoc_lt; [by apply sent_lt|done]|].
           split; [intros k Hk Hs; by apply (Hlast k Hk), Hno|]. rewrite Hlen, Hlk. fold n in Hlk1. lia.
  - intros ->. destruct Hc as [(v & _ & _ & [=] & _)|([Hq|Hw] & _ & Hq2 & _)]; [left; by rewrite Hq2|right].
    destruct Hlock as [[Hlk _]|(i & Hi & _ & Hlk)]; fold n in Hlk; [left; lia|right]. exists i. split; [done|lia].
Qed.

Lemma midi_paced_start o : midi_out_ok o -> midi_paced o [] [] o.
Proof.
  intros Hok. split; [done|done| | |].
  - intros _. by rewrite filter_nil, app_nil_r.
  - intros i j Hi. apply sent_lt in Hi. cbn in Hi. lia.
  - left. pose proof Hok as (_ & _ & _ & Hlk). split; [cbn; lia|]. intros i Hi. apply sent_lt in Hi. cbn in Hi. lia.
Qed.

Lemma midi_out_run_paced o ws :
  midi_out_ok o -> exists outs o1, midi_out_run period ws o = Some (outs, o1) /\ midi_paced o ws outs o1.
Proof.
  intros Hok. induction ws as [|w ws IH] using rev_ind; [exists [], o; split; [done|by apply midi_paced_start]|].
  destruct IH as (outs & o1 & Hr & Hpc). destruct (midi_paced_step o ws w outs o1 Hpc) as (out & o2 & Hev & Hpc2 & _).
  exists (outs ++ [out]), o2. split; [|done]. rewrite midi_out_run_app, Hr. cbn. by rewrite Hev.
Qed.

(** ** The events of a port *)

Lemma store24_spec data x b0 b1 b2 :
  0 <= x -> x + 3 <= Z.of_nat (length data) ->
  exists data1, store24 x b0 b1 b2 data = Some data1 /\ length data1 = length data /\
    (forall r, 0 <= r < 3 -> load data1 (x + r) = load [b0; b1; b2] r) /\ (forall y, ~ (x <= y < x + 3) -> load data1 y = load data y).
Proof.
  intros Hx Hl. unfold store24. destruct (store_some data x b0) as [d1 H1]; [lia|]. rewrite H1. cbn [mbind option_bind].
  destruct (store_inv _ _ _ _ H1) as (Hl1 & Hv1 & Ho1). destruct (store_some d1 (x + 1) b1) as [d2 H2]; [lia|]. rewrite H2. cbn [mbind option_bind].
  destruct (store_inv _ _ _ _ H2) as (Hl2 & Hv2 & Ho2). destruct (store_some d2 (x + 2) b2) as [d3 H3]; [lia|].
  destruct (store_inv _ _ _ _ H3) as (Hl3 & Hv3 & Ho3). exists d3. split; [done|]. split; [congruence|]. split.
  - intros r Hr. assert (r = 0 \/ r = 1 \/ r = 2) as [->|[->| ->]] by lia.
    + rewrite Ho3, Ho2 by lia. by rewrite Z.add_0_r.
    + rewrite Ho3 by lia. exact Hv2.
    + exact Hv3.
  - intros y Hy. by rewrite Ho3, Ho2, Ho1 by lia.
Qed.

(** the bytes of the port after the events of [outs] *)
Definition midi_cells (es pos : Z) (outs : list (option Z)) (data data1 : list Z) : Prop :=
  length data1 = length data /\
  (forall j v, outs !! j = Some (Some v) -> forall r, 0 <= r < 3 -> load data1 (pos + Z.of_nat j * es + r) = load [0x01; 0x00; v] r) /\
  (forall x, (forall j, sent outs j -> ~ (pos + Z.of_nat j * es <= x < pos + Z.of_nat j * es + 3)) -> load data1 x = load data x).

Lemma midi_cells_none es pos outs data data1 : midi_cells es pos outs data data1 -> midi_cells es pos (outs ++ [None]) data data1.
Proof.
  intros (Hl & Hin & Hout). split; [done|]. split.
  - intros j v Hj. apply Hin. destruct (decide (j < length outs)%nat); [by rewrite lookup_app_l in Hj|].
    rewrite lookup_app_r in Hj by lia. by destruct (j - length outs)%nat; cbn in Hj; [|destruct n0].
  - intros x Hx. apply Hout. intros j Hj. apply Hx, sent_snoc_lt; [by apply sent_lt|done].
Qed.

Lemma midi_cells_some es pos outs v data data1 data2 :
  3 <= es -> midi_cells es pos outs data data1 ->
  length data2 = length data1 ->
  (forall r, 0 <= r < 3 -> load data2 (pos + Z.of_nat (length outs) * es + r) = load [0x01; 0x00; v] r) ->
  (forall y, ~ (pos + Z.of_nat (length outs) * es <= y < pos + Z.of_nat (length outs) * es + 3) -> load data2 y = load data1 y) ->
  midi_cells es pos (outs ++ [Some v]) data data2.
Proof.
  intros Hes (Hl & Hin & Hout) Hl2 Hin2 Hout2. split; [congruence|]. split.
  - intros j u Hj r Hr. destruct (decide (j < length outs)%nat).
    + rewrite lookup_app_l in Hj by done. rewrite Hout2 by nia. by apply Hin.
    + rewrite lookup_app_r in Hj by lia. destruct (j - length outs)%nat as [|k] eqn:Hk; [|done].
      assert (j = length outs) as -> by lia. injection Hj as <-. by apply Hin2.
  - intros x Hx. rewrite Hout2; [apply Hout|].
    + intros j Hj. apply Hx, sent_snoc_lt; [by apply sent_lt|done].
    + apply Hx, sent_snoc_eq. by exists v.
Qed.

Lemma encode_midi_spec es m offset nevents p ws data o :
  Z.of_nat (length ws) = nevents ->
  (forall j w, ws !! j = Some w -> mem_load m (pt_buffer p) (offset + Z.of_nat j) = Some w) ->
  0 <= motu_getPosition p -> motu_getPosition p + 3 <= es -> nevents * es <= Z.of_nat (length data) -> midi_out_ok o ->
  exists outs data1 o1,
    encodePortToMotuMidiEvents es period m offset nevents p (data, o) = Some (data1, o1) /\
    midi_out_run period ws o = Some (outs, o1) /\ midi_paced o ws outs o1 /\ midi_cells es (motu_getPosition p) outs data data1.
Proof.
  intros Hl Hws Hpos Hes Hd Hok. unfold encodePortToMotuMidiEvents.
  match goal with |- context [for_loop nevents ?body _] => destruct (for_loop_rule (fun k '(d, o1) => exists outs,
    midi_out_run period (take (Z.to_nat k) ws) o = Some (outs, o1) /\ midi_paced o (take (Z.to_nat k) ws) outs o1 /\
    midi_cells es (motu_getPosition p) outs data d) body nevents (data, o)) as ([data1 o1] & -> & outs & Hr & Hpc & Hcells) end.
  - lia.
  - exists []. split; [done|]. split; [by apply midi_paced_start|]. split; [done|]. split; [by intros [|j] v|done].
  - intros k [d o1] Hk (outs & Hr & Hpc & Hcells). destruct (lookup_lt_is_Some_2 ws (Z.to_nat k)) as [w Hw]; [lia|].
    assert (Ht : take (Z.to_nat (k + 1)) ws = take (Z.to_nat k) ws ++ [w]).
    { replace (Z.to_nat (k + 1)) with (S (Z.to_nat k)) by lia. by apply take_S_r. }
    pose proof (Hws _ _ Hw) as Hm. rewrite Z2Nat.id in Hm by lia. rewrite Hm. cbn [mbind option_bind].
    destruct (midi_paced_step _ _ w _ _ Hpc) as (out & o2 & Hev & Hpc2 & _). rewrite Hev. cbn [mbind option_bind].
    assert (Hlo : Z.of_nat (length outs) = k) by (rewrite (pc_length _ _ _ _ Hpc), length_take; lia).
    assert (Hr2 : midi_out_run period (take (Z.to_nat (k + 1)) ws) o = Some (outs ++ [out], o2)).
    { rewrite Ht, midi_out_run_app, Hr. cbn. by rewrite Hev. }
    destruct out as [v|].
    + pose proof Hcells as (Hld & _ & _).
      destruct (store24_spec d (motu_getPosition p + k * es) 0x01 0x00 v) as (d1 & -> & Hl1 & Hin & Hout); [nia|rewrite Hld; nia|].
      eexists. split; [done|]. cbn. exists (outs ++ [Some v]). split; [done|]. rewrite Ht. split; [done|].
      apply (midi_cells_some _ _ _ _ _ d); rewrite ?Hlo; first [done|lia].
    + eexists. split; [done|]. cbn. exists (outs ++ [None]). split; [done|]. rewrite Ht. split; [done|]. by apply midi_cells_none.
  - rewrite take_ge in Hr, Hpc by lia. by exists outs, data1, o1.
Qed.

(** C10: the MIDI bytes of a port go out in their order, none is lost while the
    queue of 1024 cells has room, no two are sent in less than the period that
    the wire of the device needs for one, and an event that sends nothing either
    finds the queue empty or comes less than a period after the last byte (or
    in the wait that an earlier block has left).  The byte goes to the third
    byte of the port in its event, after the marks 1 and 0; the other bytes of
    the block are as they were. *)
Theorem motu_midi_out es m offset nevents p ws data o :
  Z.of_nat (length ws) = nevents ->
  (forall j w, ws !! j = Some w -> mem_load m (pt_buffer p) (offset + Z.of_nat j) = Some w) ->
  0 <= motu_getPosition p -> motu_getPosition p + 3 <= es -> nevents * es <= Z.of_nat (length data) -> midi_out_ok o ->
  exists outs data1 o1,
    encodePortToMotuMidiEvents es period m offset nevents p (data, o) = Some (data1, o1) /\
    midi_out_run period ws o = Some (outs, o1) /\ midi_out_ok o1 /\ length outs = length ws /\
    midi_cells es (motu_getPosition p) outs data data1 /\
    ((length (midi_out_queue o ++ filter brings_byte ws) <= 1023)%nat ->
      omap id outs ++ ((fun w => Z.land w 0xff) <$> midi_out_queue o1)
      = (fun w => Z.land w 0xff) <$> (midi_out_queue o ++ filter brings_byte ws)) /\
    (forall i j, sent outs i -> sent outs j -> (i < j)%nat -> period <= Z.of_nat j - Z.of_nat i) /\
    (forall j, outs !! j = Some None -> exists o2, midi_out_run period (take (S j) ws) o = Some (take (S j) outs, o2) /\
      (midi_out_queue o2 = [] \/ Z.of_nat j + 1 < mo_lock o \/ exists i, sent outs i /\ (i < j)%nat /\ Z.of_nat j - Z.of_nat i < period)).
Proof.
  intros Hl Hws Hpos Hes Hd Hok.
  destruct (encode_midi_spec es m offset nevents p ws data o Hl Hws Hpos Hes Hd Hok) as (outs & data1 & o1 & He & Hr & Hpc & Hcells).
  exists outs, data1, o1. pose proof Hpc as [Hok1 Hlen Hord Hsp _]. do 7 (split; [done|]).
  intros j Hj. pose proof (lookup_lt_Some _ _ _ Hj) as Hjl. rewrite Hlen in Hjl.
  destruct (lookup_lt_is_Some_2 ws j Hjl) as [w Hw]. destruct (midi_out_run_paced o (take j ws) Hok) as (outs1 & o2 & Hr1 & Hpc1).
  destruct (midi_paced_step _ _ w _ _ Hpc1) as (out & o3 & Hev & Hpc3 & Hidle). pose proof (pc_length _ _ _ _ Hpc1) as Hl1.
  rewrite length_take in Hl1. assert (Ht : take (S j) ws = take j ws ++ [w]) by by apply take_S_r.
  assert (Hr3 : midi_out_run period (take (S j) ws) o = Some (outs1 ++ [out], o3)) by (rewrite Ht, midi_out_run_app, Hr1; cbn; by rewrite Hev).
  assert (Hpre : outs1 ++ [out] = take (S j) outs).
  { rewrite <- (take_drop (S j) ws), midi_out_run_app, Hr3 in Hr. cbn [mbind option_bind] in Hr.
    destruct (midi_out_run period (drop (S j) ws) o3) as [[outs2 o4]|]; [|done]. injection Hr as <- _.
    rewrite take_app_length'; [done|]. rewrite length_app. cbn. lia. }
  exists o3. split; [by rewrite <- Hpre|].
  assert (Hout : out = None).
  { assert (Ho : take (S j) outs !! j = Some None) by (rewrite lookup_take_lt by lia; done).
    rewrite <- Hpre, lookup_app_r in Ho by lia. replace (j - length outs1)%nat with 0%nat in Ho by lia. by injection Ho. }
  destruct (Hidle Hout) as [Hq|[Hlk|(i & Hi & Hd2)]]; [by left|right; left; lia|right; right].
  exists i. pose proof (sent_lt _ _ Hi). split; [|lia]. destruct Hi as [v Hv]. exists v.
  rewrite <- (take_drop (S j) outs), <- Hpre. rewrite lookup_app_l by (rewrite length_app; lia). by rewrite lookup_app_l by lia.
Qed.
End run.

(** ** Three bytes at once on a wire that takes one every second event *)

Definition midi_demo_out : midi_out := mkMidiOut (replicate 1024 0) 1022 1022 0.
Definition midi_demo_port : MotuPort := mkPort 7 "midi"%string false 8 E_Midi E_Playback (Some 7) E_Created (mkMotuPortInfo 4 0).
Definition midi_demo_words : list Z := [0x01000090; 0x01000040; 0; 0x0100007f; 0].

Lemma motu_midi_out_witness :
  exists data1 o1,
    encodePortToMotuMidiEvents 12 2 {[7 := 0 :: midi_demo_words]} 1 5 midi_demo_port (replicate 64 0xee, midi_demo_out) = Some (data1, o1) /\
    midi_out_run 2 midi_demo_words midi_demo_out = Some ([Some 0x90; None; Some 0x40; None; Some 0x7f], o1) /\
    load data1 (4 + 24 + 2) = Some 0x40.
Proof.
  destruct (motu_midi_out 2 ltac:(lia) 12 {[7 := 0 :: midi_demo_words]} 1 5 midi_demo_port midi_demo_words (replicate 64 0xee) midi_demo_out)
    as (outs & data1 & o1 & He & Hr & _ & _ & (_ & Hin & _) & _).
  - reflexivity.
  - intros [|[|[|[|[|j]]]]] w [= <-]; reflexivity.
  - done.
  - done.
  - done.
  - split_and!; done.
  - exists data1, o1. split; [exact He|].
    assert (Ho : outs = [Some 0x90; None; Some 0x40; None; Some 0x7f]).
    { apply (f_equal (fmap fst)) in Hr. vm_compute in Hr. by injection Hr as <-. }
    subst outs. split; [exact Hr|]. refine (eq_trans (Hin 2%nat 0x40 eq_refl 2 _) _); [lia|reflexivity].
Defined.
