(* ===== verification/MotuBlocks.v ===== *)
(** * MotuBlocks: blocks of events between a client and the bus

    What a transmitter packs into the events of a block a receiver takes out of
    it: the samples of the audio ports keep their 24 bits, and the control
    bytes that a transmitter sends say nothing to the parser of the controls. *)
From stdpp Require Import gmap strings.
From S2P Require Import Prelude Serialize Memory MidiQueue Ports MachineFloat StreamProcessor StreamWorld.
From S2P Require Import Motu MotuControls MotuReceive MotuTransmit MotuMidi.

(** ** Samples *)

(** the 24 bit integer with its sign, as a word *)
Definition sign_extend24 (w : Z) : Z := let v := w mod 2 ^ 24 in if v <? 2 ^ 23 then v else v + 0xff000000.

Lemma motu_int24_bytes w : let '(b0, b1, b2) := motu_bytes w in motu_int24 b0 b1 b2 = sign_extend24 w.
Proof.
  unfold motu_bytes, motu_int24, sign_extend24. rewrite !land_0xff, !Z.shiftr_div_pow2, !Z.shiftl_mul_pow2 by lia.
  change (2 ^ 24) with 16777216. change (2 ^ 23) with 8388608. change (2 ^ 16) with 65536. change (2 ^ 8) with 256.
  set (b0 := w / 65536 mod 256). set (b1 := w / 256 mod 256). set (b2 := w mod 256).
  assert (Hv : w mod 16777216 = b0 * 65536 + b1 * 256 + b2) by (unfold b0, b1, b2; clear; Z.to_euclidean_division_equations; lia).
  assert (H0 : 0 <= b0 < 256) by (apply Z.mod_pos_bound; lia). assert (H1 : 0 <= b1 < 256) by (apply Z.mod_pos_bound; lia).
  assert (H2 : 0 <= b2 < 256) by (apply Z.mod_pos_bound; lia). rewrite Hv. clearbody b0 b1 b2. clear Hv.
  rewrite (wrapU_small 32) by width_lia.
  assert (Hb : Z.land b0 0x80 = if b0 <? 128 then 0 else 0x80).
  { pose proof (land_shiftl b0 1 7 ltac:(lia)) as Hs. change (Z.shiftl 1 7) with 128 in Hs. rewrite Hs.
    pose proof (land_mod (Z.shiftr b0 7) 1 ltac:(lia)) as Hm. change (2 ^ 1 - 1) with 1 in Hm. change (2 ^ 1) with 2 in Hm. rewrite Hm.
    rewrite Z.shiftr_div_pow2, Z.shiftl_mul_pow2 by lia. change (2 ^ 7) with 128.
    destruct (Z.ltb_spec b0 128) as [Hl|Hl]; clear -H0 Hl; Z.to_euclidean_division_equations; lia. }
  rewrite Hb. destruct (Z.ltb_spec b0 128), (Z.ltb_spec (b0 * 65536 + b1 * 256 + b2) 8388608); try lia; [done|].
  cbn [negb Z.eqb]. change 0xff000000 with (Z.shiftl 0xff 24). rewrite Z.lor_comm, lor_add; [|lia|change (2 ^ 24) with 16777216; lia].
  rewrite Z.shiftl_mul_pow2 by lia. change (2 ^ 24) with 16777216. lia.
Qed.

Section blocks.
Context (es n : Z) (Hes : 10 <= es) (Hn : 0 <= n).

(** the bytes of a port in the events *)
Definition port_cell (pos x : Z) : Prop := exists j, 0 <= j < n /\ pos + j * es <= x < pos + j * es + 3.

(** audio data is behind the control and MIDI bytes *)
Definition port_placed (p : MotuPort) : Prop :=
  match pt_PortType p with E_Midi => 4 <= motu_getPosition p <= 7 | _ => 10 <= motu_getPosition p /\ motu_getPosition p + 3 <= es end.

Definition apart (p q : MotuPort) : Prop := motu_getPosition p + 3 <= motu_getPosition q \/ motu_getPosition q + 3 <= motu_getPosition p.

Lemma placed_range p : port_placed p -> 0 <= motu_getPosition p /\ motu_getPosition p + 3 <= es.
Proof. unfold port_placed. destruct (pt_PortType p); lia. Qed.

Lemma apart_cells p q x : port_placed p -> port_placed q -> apart p q -> port_cell (motu_getPosition p) x -> ~ port_cell (motu_getPosition q) x.
Proof.
  intros Hp%placed_range Hq%placed_range Ha (j & Hj & Hx) (k & Hk & Hy). unfold apart in Ha. assert (j = k) by nia. subst k. lia.
Qed.

(** ** Transmission *)

Lemma store_events (v : Z -> Z * Z * Z) (body : Z -> list Z -> option (list Z)) pos data :
  0 <= pos -> pos + 3 <= es -> n * es <= Z.of_nat (length data) ->
  (forall j d, 0 <= j < n -> body j d = let '(b0, b1, b2) := v j in store24 (pos + j * es) b0 b1 b2 d) ->
  exists data1, for_loop n body data = Some data1 /\ length data1 = length data /\
    (forall j, 0 <= j < n -> load24 data1 (pos + j * es) = Some (v j)) /\ (forall x, ~ port_cell pos x -> load data1 x = load data x).
Proof.
  intros Hpos Hp3 Hl Hbody.
  destruct (for_loop_rule (fun k d => length d = length data /\ (forall j, 0 <= j < k -> load24 d (pos + j * es) = Some (v j)) /\
    (forall x, ~ port_cell pos x -> load d x = load data x)) body n data) as (data1 & -> & H1); [done| | |by exists data1].
  - split; [done|]. split; [intros; lia|done].
  - intros k d Hk (Hd & Hin & Hout). rewrite Hbody by done. destruct (v k) as [[b0 b1] b2] eqn:Hv.
    destruct (store24_spec d (pos + k * es) b0 b1 b2) as (d1 & -> & Hl1 & Hin1 & Hout1); [nia|rewrite Hd; nia|].
    exists d1. split; [done|]. split; [congruence|]. split.
    + intros j Hj. destruct (Z.eq_dec j k) as [->|Hne].
      * unfold load24. rewrite <- (Z.add_0_r (pos + k * es)) at 1. by rewrite !Hin1, Hv by lia.
      * rewrite <- Hin by lia. unfold load24. by rewrite !Hout1 by nia.
    + intros x Hx. rewrite Hout1; [by apply Hout|]. intros Hc. apply Hx. by exists k.
Qed.

(** the word that a port sends in an event *)
Definition tx_word (m : memory) (offset j : Z) (p : MotuPort) : option Z :=
  if Port_isDisabled p then Some 0 else mem_load m (pt_buffer p) (offset + j).

(** a port that can be sent *)
Record tx_ready (m : memory) (offset : Z) (p : MotuPort) : Prop := {
  tr_placed : port_placed p;
  tr_words j : 0 <= j < n -> is_Some (tx_word m offset j p);
  tr_size : pt_PortType p = E_Audio -> motu_tx_port_ok p n offset = true }.

(** the first control byte is empty, or marks a MIDI byte *)
Definition keys_empty (data : list Z) : Prop := forall j, 0 <= j < n -> load data (4 + j * es) = Some 0 \/ load data (4 + j * es) = Some 1.

Lemma keys_empty_kept pos data data1 :
  10 <= pos -> pos + 3 <= es -> keys_empty data -> (forall x, ~ port_cell pos x -> load data1 x = load data x) -> keys_empty data1.
Proof. intros Hp Hp3 Hk Hout j Hj. rewrite Hout; [by apply Hk|]. intros (k & Hk2 & Hx). destruct (Z.lt_trichotomy j k) as [Hlt|[->|Hlt]]; nia. Qed.

Lemma words_list m offset p : Port_isDisabled p = false -> (forall j, 0 <= j < n -> is_Some (tx_word m offset j p)) ->
  exists ws, Z.of_nat (length ws) = n /\ forall j w, ws !! j = Some w -> mem_load m (pt_buffer p) (offset + Z.of_nat j) = Some w.
Proof.
  intros Hen Hw. exists ((fun k => default 0 (mem_load m (pt_buffer p) (offset + Z.of_nat k))) <$> seq 0 (Z.to_nat n)).
  split; [rewrite length_fmap, length_seq; lia|]. intros j w. rewrite list_lookup_fmap. intros (k & Hk & ->)%fmap_Some.
  apply lookup_seq in Hk as [-> Hk]. cbn. destruct (Hw (Z.of_nat j)) as [w Hjw]; [lia|]. unfold tx_word in Hjw. rewrite Hen in Hjw. by rewrite Hjw.
Qed.

(** one port, which leaves the cells of the others alone *)
Record port_sent {W} (offset : Z) (p : MotuPort) (data : list Z) (e : port_world MotuPortInfo MotuTransmitStreamProcessor W)
  (data1 : list Z) (e1 : port_world MotuPortInfo MotuTransmitStreamProcessor W) : Prop := {
  ps_memory : w_memory e1 = w_memory e;
  ps_outside : w_outside e1 = w_outside e;
  ps_size : mt_event_size (w_child e1) = mt_event_size (w_child e);
  ps_period : mt_midi_tx_period (w_child e1) = mt_midi_tx_period (w_child e);
  ps_midi : midi_out_ok (mt_midi (w_child e1));
  ps_length : length data1 = length data;
  ps_keys : keys_empty data -> keys_empty data1;
  ps_words j w : pt_PortType p = E_Audio -> 0 <= j < n -> tx_word (w_memory e) offset j p = Some w ->
    load24 data1 (motu_getPosition p + j * es) = Some (motu_bytes w);
  ps_frame x : ~ port_cell (motu_getPosition p) x -> load data1 x = load data x }.

Context {W : Type} {ME : MotuEnv W}.
Implicit Types e : port_world MotuPortInfo MotuTransmitStreamProcessor W.

Lemma silence_sent offset p data e :
  port_placed p -> n * es <= Z.of_nat (length data) -> midi_out_ok (mt_midi (w_child e)) -> Port_isDisabled p = true ->
  exists data1, encodeSilencePortToMotuEvents es n p data = Some data1 /\ port_sent offset p data e data1 e.
Proof.
  intros Hpl Hl Hok Hdis. pose proof (placed_range p Hpl) as [Hp0 Hp3]. unfold encodeSilencePortToMotuEvents.
  destruct (store_events (fun _ => (0, 0, 0)) (fun j data => store24 (motu_getPosition p + j * es) 0 0 0 data) (motu_getPosition p) data)
    as (data1 & -> & Hl1 & Hv & Hf); [done..|]. exists data1. split; [done|]. split; try done.
  - intros Hk j Hj. unfold port_placed in Hpl. destruct (Z.eq_dec (motu_getPosition p) 4) as [H4|H4].
    + left. specialize (Hv j Hj). rewrite H4 in Hv. unfold load24 in Hv. apply bind_Some in Hv as (b0 & -> & (b1 & _ & (b2 & _ & [= -> _ _])%bind_Some)%bind_Some). done.
    + rewrite Hf; [by apply Hk|]. intros (k & Hk2 & Hx). assert (4 <= motu_getPosition p) by (destruct (pt_PortType p); lia).
      destruct (Z.lt_trichotomy j k) as [Hlt|[->|Hlt]]; nia.
  - intros j w _ Hj. unfold tx_word. rewrite Hdis. intros [= <-]. by rewrite Hv.
Qed.

Lemma encode_motu_port_sent offset p data e :
  motu_getAudioDataType (w_outside e) = eADT_Int24 -> mt_event_size (w_child e) = es -> 0 <= mt_midi_tx_period (w_child e) ->
  midi_out_ok (mt_midi (w_child e)) -> n * es <= Z.of_nat (length data) -> tx_ready (w_memory e) offset p ->
  exists data1 e1, encode_motu_port n offset p (data, e) = Some (true, (data1, e1)) /\ port_sent offset p data e data1 e1.
Proof.
  intros Ht Hsz Hper Hok Hl [Hpl Hw Hs]. pose proof (placed_range p Hpl) as [Hp0 Hp3]. unfold encode_motu_port. rewrite Hsz, Ht.
  destruct (Port_isDisabled p) eqn:Hdis.
  { destruct (silence_sent offset p data e Hpl Hl Hok Hdis) as (data1 & -> & Hps). by exists data1, e. }
  unfold port_placed in Hpl. destruct (pt_PortType p) eqn:Hty.
  - unfold encodePortToMotuEvents, encode_motu_audio. rewrite (Hs eq_refl). cbn [negb].
    set (word j := default 0 (mem_load (w_memory e) (pt_buffer p) (offset + j))).
    assert (Hld : forall j, 0 <= j < n -> mem_load (w_memory e) (pt_buffer p) (offset + j) = Some (word j)).
    { intros j Hj. destruct (Hw j Hj) as [w Hjw]. unfold tx_word in Hjw. rewrite Hdis in Hjw. unfold word. by rewrite Hjw. }
    match goal with |- context [for_loop n ?body data] => destruct (store_events (fun j => motu_bytes (word j)) body (motu_getPosition p) data)
      as (data1 & -> & Hl1 & Hv & Hf); [done..| |] end.
    { intros j d Hj. rewrite Hld by done. reflexivity. }
    eexists _, e. split; [done|]. split; try done; [intros Hk; apply (keys_empty_kept (motu_getPosition p) data); [lia|lia|exact Hk|exact Hf]|].
    intros j w _ Hj. unfold tx_word. rewrite Hdis, Hld by done. intros [= <-]. by apply Hv.
  - destruct (words_list (w_memory e) offset p Hdis Hw) as (ws & Hlw & Hws).
    destruct (encode_midi_spec (mt_midi_tx_period (w_child e)) Hper es (w_memory e) offset n p ws data (mt_midi (w_child e)))
      as (outs & data1 & o1 & -> & Hr & Hpc & Hld & Hin & Hout); [done..|].
    eexists _, _. split; [done|]. pose proof (pc_length _ _ _ _ _ Hpc) as Hlo.
    split; cbn; try done; [by apply (pc_ok _ _ _ _ _ Hpc)| | |].
    + intros Hk j Hj. destruct (outs !! Z.to_nat j) as [[v|]|] eqn:Ho.
      * destruct (Z.eq_dec (motu_getPosition p) 4) as [H4|H4].
        -- right. pose proof (Hin _ _ Ho 0 ltac:(lia)) as H0. rewrite H4, Z2Nat.id, Z.add_0_r in H0 by lia. exact H0.
        -- rewrite Hout; [by apply Hk|]. intros k _ Hx. destruct (Z.lt_trichotomy j (Z.of_nat k)) as [Hlt|[->|Hlt]]; nia.
      * rewrite Hout; [by apply Hk|]. intros k [v Hkv] Hx.
        destruct (Z.lt_trichotomy j (Z.of_nat k)) as [Hlt|[->|Hlt]]; [nia| |nia]. rewrite Nat2Z.id in Ho. congruence.
      * apply lookup_ge_None in Ho. lia.
    + congruence.
    + intros x Hx. apply Hout. intros j Hj Hc. apply Hx. exists (Z.of_nat j). apply sent_lt in Hj. split; [lia|done].
  - eexists _, _. split; [done|]. split; try done. by rewrite Hty.
Qed.

(** the ports of a device: each in its place, none over another *)
Inductive ports_placed : list MotuPort -> Prop :=
| placed_nil : ports_placed []
| placed_cons p l : port_placed p -> Forall (apart p) l -> ports_placed l -> ports_placed (p :: l).

Lemma ports_placed_at l i p : ports_placed l -> l !! i = Some p -> port_placed p.
Proof. intros Hl. revert i. induction Hl as [|q l Hq Ha Hl IH]; [done|]. intros [|i]; [by intros [= <-]|apply IH]. Qed.

(** all ports, one after the other *)
Lemma encode_ports_sent offset l data e :
  motu_getAudioDataType (w_outside e) = eADT_Int24 -> mt_event_size (w_child e) = es -> 0 <= mt_midi_tx_period (w_child e) ->
  midi_out_ok (mt_midi (w_child e)) -> n * es <= Z.of_nat (length data) -> ports_placed l -> Forall (tx_ready (w_memory e) offset) l ->
  exists data1 e1, over_ports (encode_motu_port n offset) l (data, e) = Some (true, (data1, e1)) /\
    w_memory e1 = w_memory e /\ midi_out_ok (mt_midi (w_child e1)) /\ length data1 = length data /\
    (keys_empty data -> keys_empty data1) /\
    (forall i p j w, l !! i = Some p -> pt_PortType p = E_Audio -> 0 <= j < n -> tx_word (w_memory e) offset j p = Some w ->
      load24 data1 (motu_getPosition p + j * es) = Some (motu_bytes w)) /\
    (forall x, Forall (fun p => ~ port_cell (motu_getPosition p) x) l -> load data1 x = load data x).
Proof.
  intros Ht Hsz Hper Hok Hl Hpl. revert data e Ht Hsz Hper Hok Hl. induction Hpl as [|p l Hp Hap Hpl IH]; intros data e Ht Hsz Hper Hok Hl Hr.
  - exists data, e. do 5 (split; [done|]). split; [by intros i p j w Hi|done].
  - apply Forall_cons in Hr as [Hr1 Hr]. destruct (encode_motu_port_sent offset p data e Ht Hsz Hper Hok Hl Hr1) as (d1 & e1 & He & Hs).
    cbn [over_ports]. rewrite He. cbn [mbind option_bind]. destruct Hs as [Hm Ho Hs1 Hp1 Hmi Hl1 Hk1 Hw1 Hf1].
    destruct (IH d1 e1) as (d2 & e2 & -> & Hm2 & Hmi2 & Hl2 & Hk2 & Hw2 & Hf2); rewrite ?Ho, ?Hs1, ?Hp1, ?Hl1, ?Hm; try done.
    exists d2, e2. split; [done|]. split; [congruence|]. split; [done|]. split; [congruence|]. split; [tauto|]. split.
    + intros [|i] q j w Hi Hty Hj Hw; [|rewrite <- Hm in Hw; by eapply Hw2].
      injection Hi as <-. rewrite <- (Hw1 j w Hty Hj Hw). unfold load24.
      assert (Hcell : forall r, 0 <= r < 3 -> load d2 (motu_getPosition p + j * es + r) = load d1 (motu_getPosition p + j * es + r)).
      { intros r Hr3. apply Hf2. rewrite Forall_forall in Hap |- *. intros q Hq. apply (apart_cells p); [done| |by apply Hap|].
        - apply list_elem_of_lookup in Hq as [k Hk]. by eapply ports_placed_at.
        - exists j. split; [done|lia]. }
      pose proof (Hcell 0 ltac:(lia)) as H0. rewrite !Z.add_0_r in H0. by rewrite H0, !Hcell by lia.
    + intros x [Hx1 Hx2]%Forall_cons. rewrite Hf2 by done. by apply Hf1.
Qed.

(** ** Reception *)
Context {W' : Type} {ME' : MotuEnv W'}.
Implicit Types r : port_world MotuPortInfo MotuReceiveStreamProcessor W'.

(** a port whose buffer is written *)
Definition rx_writes (q : MotuPort) : Prop := Port_isDisabled q = false /\ pt_PortType q <> E_Control.

Record rx_ready (m : memory) (offset : Z) (q : MotuPort) : Prop := {
  rr_placed : port_placed q;
  rr_size : rx_writes q -> motu_port_ok q n offset = true;
  rr_has : rx_writes q -> mem_has m (pt_buffer q) (offset + n) }.

Definition in_port (offset : Z) (q : MotuPort) (b : option Z) (k : Z) : Prop := b = pt_buffer q /\ offset <= k < offset + n.

Definition rx_midi_ok r : Prop := midi_ok (mkMidi (mr_midibuffer (w_child r)) (mr_mb_head (w_child r)) (mr_mb_tail (w_child r)) 0 ∅).

(** one port *)
Record port_received (offset : Z) (q : MotuPort) (data : list Z) r r1 : Prop := {
  pr_outside : w_outside r1 = w_outside r;
  pr_size : mr_event_size (w_child r1) = mr_event_size (w_child r);
  pr_controls : mr_devctrls (w_child r1) = mr_devctrls (w_child r);
  pr_midi : rx_midi_ok r1;
  pr_has b l : mem_has (w_memory r) b l -> mem_has (w_memory r1) b l;
  pr_words j b0 b1 b2 : pt_PortType q = E_Audio -> Port_isDisabled q = false -> 0 <= j < n ->
    load24 data (motu_getPosition q + j * es) = Some (b0, b1, b2) ->
    mem_load (w_memory r1) (pt_buffer q) (offset + j) = Some (motu_int24 b0 b1 b2);
  pr_frame b k : ~ (rx_writes q /\ in_port offset q b k) -> mem_load (w_memory r1) b k = mem_load (w_memory r) b k }.

Lemma load24_some data x : 0 <= x -> x + 3 <= Z.of_nat (length data) -> exists b0 b1 b2, load24 data x = Some (b0, b1, b2).
Proof.
  intros Hx Hl. unfold load24. destruct (load_some data x) as [b0 ->]; [lia|]. destruct (load_some data (x + 1)) as [b1 ->]; [lia|].
  destruct (load_some data (x + 2)) as [b2 ->]; [lia|]. by exists b0, b1, b2.
Qed.

Lemma decode_audio_received (sample : Z -> Z -> Z -> Z) offset q data m :
  0 <= offset -> n * es <= Z.of_nat (length data) -> port_placed q -> motu_port_ok q n offset = true -> mem_has m (pt_buffer q) (offset + n) ->
  exists m1, decode_motu_audio sample es data offset n q m = Some m1 /\
    (forall b l, mem_has m b l -> mem_has m1 b l) /\
    (forall j b0 b1 b2, 0 <= j < n -> load24 data (motu_getPosition q + j * es) = Some (b0, b1, b2) ->
      mem_load m1 (pt_buffer q) (offset + j) = Some (sample b0 b1 b2)) /\
    (forall b k, ~ in_port offset q b k -> mem_load m1 b k = mem_load m b k).
Proof.
  intros Ho Hl Hpl Hok Hm. pose proof (placed_range q Hpl) as [Hp0 Hp3]. unfold decode_motu_audio. rewrite Hok. cbn [negb].
  match goal with |- context [for_loop n ?body m] => destruct (for_loop_rule (fun k m1 => (forall b l, mem_has m b l -> mem_has m1 b l) /\
    (forall j b0 b1 b2, 0 <= j < k -> load24 data (motu_getPosition q + j * es) = Some (b0, b1, b2) ->
      mem_load m1 (pt_buffer q) (offset + j) = Some (sample b0 b1 b2)) /\
    (forall b k, ~ in_port offset q b k -> mem_load m1 b k = mem_load m b k)) body n m) as (m1 & -> & H1); [done| | |by exists m1] end.
  - split; [done|]. split; [intros; lia|done].
  - intros k m1 Hk (Hh & Hv & Hf). destruct (load24_some data (motu_getPosition q + k * es)) as (b0 & b1 & b2 & Hb); [nia|nia|].
    rewrite Hb. cbn [mbind option_bind].
    destruct (mem_store_some (pt_buffer q) (offset + k) (sample b0 b1 b2) m1 (offset + n)) as [m2 Hs]; [by apply Hh|lia|].
    exists m2. split; [exact Hs|]. destruct (mem_store_inv _ _ _ _ _ Hs) as (Hv2 & Ho2 & Hh2). split; [intros b l Hb2; by apply Hh2, Hh|]. split.
    + intros j c0 c1 c2 Hj Hc. destruct (Z.eq_dec j k) as [->|Hne]; [rewrite Hc in Hb; by injection Hb as -> -> ->|].
      rewrite Ho2 by (right; lia). apply Hv; [lia|done].
    + intros b j Hnot. rewrite Ho2; [by apply Hf|]. destruct (decide (b = pt_buffer q)) as [->|]; [right|by left].
      intros ->. apply Hnot. split; [done|lia].
Qed.

Lemma decode_midi_received offset q data (t : midi_state) :
  0 <= offset -> n * es <= Z.of_nat (length data) -> port_placed q -> motu_port_ok q n offset = true -> midi_ok t ->
  mem_has (md_mem t) (pt_buffer q) (offset + n) ->
  exists t1, decodeMotuMidiEventsToPort es data offset n q t = Some t1 /\ midi_ok t1 /\
    (forall b l, mem_has (md_mem t) b l -> mem_has (md_mem t1) b l) /\
    (forall b k, ~ in_port offset q b k -> mem_load (md_mem t1) b k = mem_load (md_mem t) b k).
Proof.
  intros Ho Hl Hpl Hok Ht Hm. pose proof (placed_range q Hpl) as [Hp0 Hp3]. unfold decodeMotuMidiEventsToPort. rewrite Hok. cbn [negb].
  set (ev k := '(b0, _, b2) ← load24 data (motu_getPosition q + k * es);
    if Z.land b0 MOTU_KEY_MASK_MIDI =? MOTU_KEY_MASK_MIDI then Some (Z.lor 0x01000000 b2) else None).
  pose proof (midi_block_refines (decode_motu_midi_event es data q) (pt_buffer q) offset n ((fun k => ev (Z.of_nat k)) <$> seq 0 (Z.to_nat n)) t Ho)
    as Hb. destruct (midi_reference _ _) as [outs q1]. destruct Hb as (t1 & -> & Hok1 & _ & _ & Hf & Hh).
  - rewrite length_fmap, length_seq. lia.
  - done.
  - done.
  - intros k e u Hk. rewrite list_lookup_fmap in Hk. apply fmap_Some in Hk as (k1 & Hk1 & ->). apply lookup_seq in Hk1 as [-> Hk1].
    rewrite Nat.add_0_l. unfold decode_motu_midi_event, midi_event, ev, load24.
    destruct (load_some data (motu_getPosition q + Z.of_nat k * es)) as [b0 ->]; [nia|].
    destruct (load_some data (motu_getPosition q + Z.of_nat k * es + 1)) as [b1 ->]; [nia|].
    destruct (load_some data (motu_getPosition q + Z.of_nat k * es + 2)) as [b2 ->]; [nia|]. cbn [mbind option_bind]. by case_match.
  - by exists t1.
Qed.

Lemma decode_motu_port_received offset q data r :
  0 <= offset -> motu_getAudioDataType (w_outside r) = eADT_Int24 -> mr_event_size (w_child r) = es -> rx_midi_ok r ->
  n * es <= Z.of_nat (length data) -> rx_ready (w_memory r) offset q ->
  exists r1, decode_motu_port data n offset q r = Some (true, r1) /\ port_received offset q data r r1.
Proof.
  intros Ho Ht Hsz Hok Hl [Hpl Hs Hh]. unfold decode_motu_port. rewrite Hsz, Ht.
  destruct (Port_isDisabled q) eqn:Hdis; [exists r; split; [done|]; split; try done; congruence|].
  destruct (pt_PortType q) eqn:Hty.
  - assert (Hw : rx_writes q) by (split; [done|by rewrite Hty]).
    change (decodeMotuEventsToPort eADT_Int24) with (decode_motu_audio motu_int24).
    destruct (decode_audio_received motu_int24 offset q data (w_memory r) Ho Hl Hpl (Hs Hw) (Hh Hw)) as (m1 & -> & Hh1 & Hv & Hf).
    eexists. split; [done|]. split; try done; [by intros j b0 b1 b2 _ _; apply Hv|]. intros b k Hnot. apply Hf. tauto.
  - assert (Hw : rx_writes q) by (split; [done|by rewrite Hty]).
    destruct (decode_midi_received offset q data (mkMidi (mr_midibuffer (w_child r)) (mr_mb_head (w_child r)) (mr_mb_tail (w_child r)) offset (w_memory r))
      Ho Hl Hpl (Hs Hw) Hok (Hh Hw)) as (t1 & -> & Hok1 & Hh1 & Hf).
    eexists. split; [done|]. split; try done; [by rewrite Hty|]. intros b k Hnot. apply Hf. tauto.
  - exists r. split; [done|]. split; try done. by rewrite Hty.
Qed.

(** no two ports write to one buffer *)
Inductive buffers_apart : list MotuPort -> Prop :=
| buffers_nil : buffers_apart []
| buffers_cons q l : Forall (fun p => rx_writes q -> rx_writes p -> pt_buffer q <> pt_buffer p) l -> buffers_apart l -> buffers_apart (q :: l).

Lemma decode_ports_received offset l data r :
  0 <= offset -> motu_getAudioDataType (w_outside r) = eADT_Int24 -> mr_event_size (w_child r) = es -> rx_midi_ok r ->
  n * es <= Z.of_nat (length data) -> buffers_apart l -> Forall (rx_ready (w_memory r) offset) l ->
  exists r1, over_ports (decode_motu_port data n offset) l r = Some (true, r1) /\
    mr_devctrls (w_child r1) = mr_devctrls (w_child r) /\ rx_midi_ok r1 /\
    (forall i q j b0 b1 b2, l !! i = Some q -> pt_PortType q = E_Audio -> Port_isDisabled q = false -> 0 <= j < n ->
      load24 data (motu_getPosition q + j * es) = Some (b0, b1, b2) ->
      mem_load (w_memory r1) (pt_buffer q) (offset + j) = Some (motu_int24 b0 b1 b2)) /\
    (forall b k, Forall (fun q => ~ (rx_writes q /\ in_port offset q b k)) l -> mem_load (w_memory r1) b k = mem_load (w_memory r) b k).
Proof.
  intros Ho Ht Hsz Hok Hl Hb. revert r Ht Hsz Hok. induction Hb as [|q l Hap Hb IH]; intros r Ht Hsz Hok Hr.
  - exists r. do 3 (split; [done|]). split; [by intros i q j b0 b1 b2 Hi|done].
  - apply Forall_cons in Hr as [Hr1 Hr]. destruct (decode_motu_port_received offset q data r Ho Ht Hsz Hok Hl Hr1) as (r1 & Hd & Hs).
    cbn [over_ports]. rewrite Hd. cbn [mbind option_bind]. destruct Hs as [Ho1 Hs1 Hc1 Hmi1 Hh1 Hw1 Hf1].
    destruct (IH r1) as (r2 & -> & Hc2 & Hmi2 & Hw2 & Hf2); rewrite ?Ho1, ?Hs1; try done.
    { eapply Forall_impl; [exact Hr|]. intros p [H1 H2 H3]. split; [done|done|]. intros Hw. by apply Hh1, H3. }
    exists r2. split; [done|]. split; [congruence|]. split; [done|]. split.
    + intros [|i] p j b0 b1 b2 Hi Hty Hdis Hj Hld; [|by eapply Hw2]. injection Hi as <-.
      rewrite Hf2; [by apply Hw1|]. rewrite Forall_forall in Hap |- *. intros p Hp [Hwp [Hbp _]].
      apply (Hap p Hp); [|done..]. split; [done|by rewrite Hty].
    + intros b k [Hx1 Hx2]%Forall_cons. rewrite Hf2 by done. by apply Hf1.
Qed.

(** ** A block *)

(** the control bytes of an event are cleared *)
Lemma motu_clear_control_spec data :
  n * es <= Z.of_nat (length data) -> n * es < 2 ^ 32 ->
  exists data1, motu_clear_control es n data = Some data1 /\ length data1 = length data /\ keys_empty data1.
Proof.
  intros Hl Hs. unfold motu_clear_control.
  match goal with |- context [for_loop n ?body data] => destruct (for_loop_rule (fun k d => length d = length data /\
    forall j, 0 <= j < k -> load d (4 + j * es) = Some 0) body n data) as (d1 & -> & Hd1 & Hk1) end.
  - done.
  - split; [done|intros; lia].
  - intros k d Hk (Hd & Hz). rewrite wrapU_small by (unfold uint; nia).
    destruct (store24_spec d (4 + k * es) 0 0 0) as (d1 & -> & Hl1 & Hin1 & Hout1); [nia|rewrite Hd; nia|]. cbn [mbind option_bind].
    destruct (store24_spec d1 (4 + k * es + 3) 0 0 0) as (d2 & -> & Hl2 & Hin2 & Hout2); [nia|rewrite Hl1, Hd; nia|].
    exists d2. split; [done|]. split; [congruence|]. intros j Hj. rewrite Hout2 by (destruct (Z.eq_dec j k) as [->|]; nia).
    destruct (Z.eq_dec j k) as [->|Hne]; [|rewrite Hout1 by nia; apply Hz; lia].
    pose proof (Hin1 0 ltac:(lia)) as H0. by rewrite Z.add_0_r in H0.
  - exists d1. split; [done|]. split; [done|]. intros j Hj. left. by apply Hk1.
Qed.

(** an empty key is not for the parser *)
Lemma ctrl_event_empty arg c : ctrl_event 0 arg c = Some c.
Proof.
  unfold ctrl_event. assert (Hs : ctrl_status 0 arg c = c) by (unfold ctrl_status; by destruct (dc_status c)).
  rewrite Hs. case_match; [reflexivity|done].
Qed.

Lemma decodeMotuCtrlEvents_empty data c :
  n * es <= Z.of_nat (length data) -> keys_empty data -> decodeMotuCtrlEvents es data n c = Some c.
Proof.
  intros Hl Hk. unfold decodeMotuCtrlEvents.
  match goal with |- for_loop n ?body c = _ => destruct (for_loop_rule (fun _ d => d = c) body n c) as (d1 & -> & ->); [done|done| |done] end.
  intros j d Hj ->. destruct (load_some data (5 + j * es)) as [arg ->]; [nia|]. exists c.
  destruct (Hk j Hj) as [-> | ->]; cbn [mbind option_bind]; (split; [|done]).
  - apply ctrl_event_empty.
  - apply ctrl_event_empty.
Qed.

(** C9: integer audio survives the events of a MOTU stream.  The block that a
    transmitter packs from the buffers of its ports is unpacked by a receiver
    with ports in the same places: for every pair of audio ports and every
    event the receiver gets the low 24 bits of the word that was sent, with
    their sign extended, and zero for a port that the transmitter has disabled,
    whatever other audio, MIDI and control ports there are on either side.  The
    control bytes that are sent leave the receiver's picture of the controls
    unchanged, and the receiver writes to the buffers of its ports only. *)
Theorem motu_block_roundtrip data offset offset' e r :
  n * es < 2 ^ 32 -> n * es <= Z.of_nat (length data) ->
  motu_getAudioDataType (w_outside e) = eADT_Int24 -> mt_event_size (w_child e) = es -> 0 <= mt_midi_tx_period (w_child e) ->
  midi_out_ok (mt_midi (w_child e)) -> ports_placed (w_ports e) -> Forall (tx_ready (w_memory e) offset) (w_ports e) ->
  motu_getAudioDataType (w_outside r) = eADT_Int24 -> mr_event_size (w_child r) = es -> rx_midi_ok r -> 0 <= offset' ->
  buffers_apart (w_ports r) -> Forall (rx_ready (w_memory r) offset') (w_ports r) ->
  exists data1 e1 r1, mt_processWriteBlock data n offset e = Some (true, data1, e1) /\ length data1 = length data /\
    mr_processReadBlock data1 n offset' r = Some (true, r1) /\ mr_devctrls (w_child r1) = mr_devctrls (w_child r) /\
    (forall i p k q j w, w_ports e !! i = Some p -> w_ports r !! k = Some q -> motu_getPosition p = motu_getPosition q ->
      pt_PortType p = E_Audio -> pt_PortType q = E_Audio -> Port_isDisabled q = false -> 0 <= j < n ->
      tx_word (w_memory e) offset j p = Some w -> mem_load (w_memory r1) (pt_buffer q) (offset' + j) = Some (sign_extend24 w)) /\
    (forall b k, Forall (fun q => ~ (rx_writes q /\ in_port offset' q b k)) (w_ports r) -> mem_load (w_memory r1) b k = mem_load (w_memory r) b k).
Proof.
  intros Hsm Hl Ht Hsz Hper Hok Hpl Hr Ht' Hsz' Hok' Ho' Hb' Hr'. unfold mt_processWriteBlock. rewrite Hsz.
  destruct (motu_clear_control_spec data Hl Hsm) as (d0 & -> & Hl0 & Hk0). cbn [mbind option_bind].
  destruct (encode_ports_sent offset (w_ports e) d0 e Ht Hsz Hper Hok) as (d1 & e1 & -> & _ & _ & Hl1 & Hk1 & Hw & _); [lia|done..|].
  exists d1, e1. unfold mr_processReadBlock. rewrite Hsz'.
  assert (Hc : (if negb (mr_motu_model (w_child r) =? MOTU_MODEL_828MkI) then decodeMotuCtrlEvents es d1 n (mr_devctrls (w_child r))
    else Some (mr_devctrls (w_child r))) = Some (mr_devctrls (w_child r))).
  { case_match; [|done]. apply decodeMotuCtrlEvents_empty; [lia|by apply Hk1]. }
  rewrite Hc. cbn [mbind option_bind]. set (r0 := w_with_child _ r).
  destruct (decode_ports_received offset' (w_ports r) d1 r0 Ho' Ht' Hsz' Hok') as (r1 & Hd & Hc1 & _ & Hv & Hf); [lia|done..|].
  exists r1. split; [done|]. split; [lia|]. split; [exact Hd|]. split; [done|]. split; [|exact Hf].
  intros i p k q j w Hp Hq Hpos Htp Htq Hdis Hj Hjw. pose proof (Hw i p j w Hp Htp Hj Hjw) as Hld. rewrite Hpos in Hld.
  pose proof (motu_int24_bytes w) as Hby. destruct (motu_bytes w) as [[b0 b1] b2]. rewrite <- Hby. by eapply Hv.
Qed.
End blocks.

(** ** Two events of a device with an audio channel and a MIDI port *)

Definition block_port (type : E_PortType) (direction : E_Direction) (buffer pos : Z) : MotuPort :=
  mkPort buffer "port"%string false 8 type direction (Some buffer) E_Created (mkMotuPortInfo pos 3).

Definition block_tx : port_world MotuPortInfo MotuTransmitStreamProcessor Z :=
  mkWorld (mkMotuTransmit 16 0 0 midi_demo_out 16) [block_port E_Midi E_Playback 7 4; block_port E_Audio E_Playback 8 13]
    {[7 := [0x01000090; 0]; 8 := [0xffffff85; 0x123456]]} 0.

Definition block_rx : port_world MotuPortInfo MotuReceiveStreamProcessor Z :=
  mkWorld (MotuReceiveStreamProcessor_new 2 16 (replicate 64 0)) [block_port E_Audio E_Capture 9 13; block_port E_Midi E_Capture 10 4]
    {[9 := [5; 5; 5]; 10 := [5; 5; 5]]} 0.

Lemma motu_block_roundtrip_witness :
  exists data1 e1 r1, mt_processWriteBlock (ME := motu_demo_env) (replicate 32 0xcc) 2 0 block_tx = Some (true, data1, e1) /\
    mr_processReadBlock (ME := motu_demo_env) data1 2 1 block_rx = Some (true, r1) /\
    mem_load (w_memory r1) (Some 9) 1 = Some 0xffffff85 /\ mem_load (w_memory r1) (Some 9) 2 = Some 0x123456 /\
    mem_load (w_memory r1) (Some 9) 0 = Some 5.
Proof.
  assert (Hj2 : forall j, 0 <= j < 2 -> j = 0 \/ j = 1) by lia.
  destruct (@motu_block_roundtrip 16 2 ltac:(lia) ltac:(lia) Z motu_demo_env Z motu_demo_env (replicate 32 0xcc) 0 1 block_tx block_rx)
    as (data1 & e1 & r1 & Hw & _ & Hr & _ & Hv & Hf).
  - done.
  - done.
  - reflexivity.
  - reflexivity.
  - cbn. lia.
  - split_and!; done.
  - apply placed_cons; [cbn; lia| |].
    + constructor; [left; cbn; lia|constructor].
    + apply placed_cons; [cbn; lia|constructor|constructor].
  - constructor; [|constructor; [|constructor]]; (split; [cbn; lia| |reflexivity]);
      intros j Hj; destruct (Hj2 j Hj) as [-> | ->]; eexists; reflexivity.
  - reflexivity.
  - reflexivity.
  - split_and!; done.
  - lia.
  - constructor; [|constructor; [|constructor]]; repeat constructor. intros _ _. discriminate.
  - constructor; [|constructor; [|constructor]]; (split; [cbn; lia|reflexivity|]); intros _.
    + exists 9, [5; 5; 5]. split_and!; [done|done|cbn; lia].
    + exists 10, [5; 5; 5]. split_and!; [done|done|cbn; lia].
  - exists data1, e1, r1. split; [exact Hw|]. split; [exact Hr|].
    split; [|split].
    + exact (Hv 1%nat _ 0%nat _ 0 0xffffff85 eq_refl eq_refl eq_refl eq_refl eq_refl eq_refl ltac:(lia) eq_refl).
    + exact (Hv 1%nat _ 0%nat _ 1 0x123456 eq_refl eq_refl eq_refl eq_refl eq_refl eq_refl ltac:(lia) eq_refl).
    + refine (eq_trans (Hf (Some 9) 0 _) _); [|reflexivity].
      constructor; [|constructor; [|constructor]]; intros [_ [Hb Hk]]; [lia|discriminate Hb].
Defined.
