(* ===== verification/MotuLink.v ===== *)
(** * MotuLink: a MOTU transmitter and a MOTU receiver

    What the two ends of a stream do together: the time of a frame survives
    the SPH quadlet, and the frames of a packet arrive with their times. *)
From stdpp Require Import gmap.
From S2P Require Import Prelude Serialize Memory MidiQueue Ports CycleTimer MachineFloat RingBuffer TimestampedBuffer StreamProcessor StreamWorld.
From S2P Require Import Motu MotuReceive MotuTransmit.

(** ** Times *)

(** the time in ticks of the offset [o] in cycle [n] *)
Definition ticks_at (n o : Z) : Z := n mod 1024000 * TICKS_PER_CYCLE + o.

Lemma land_0x1ffffff x : Z.land x 0x1ffffff = x mod 2 ^ 25.
Proof. exact (land_mod x 25 ltac:(lia)). Qed.

Lemma ticks_at_ctr n o : 0 <= o < TICKS_PER_CYCLE -> TICKS_TO_CYCLE_TIMER (ticks_at n o) = ctr_at n o.
Proof.
  intros Ho. unfold ctr_at. rewrite <- TICKS_TO_CYCLE_TIMER_of by by apply ctr_at_fields. f_equal.
  unfold ticks_at, CYCLES_PER_SECOND, TICKS_PER_CYCLE. Z.to_euclidean_division_equations. lia.
Qed.

(** the SPH has the cycle in its second and the offset *)
Lemma sph_at n o : 0 <= o < TICKS_PER_CYCLE -> fullTicksToSph (ticks_at n o) = ctr_of 0 (n mod CYCLES_PER_SECOND) o.
Proof.
  intros Ho. unfold fullTicksToSph. rewrite ticks_at_ctr by done. rewrite land_0x1ffffff. unfold ctr_at, ctr_of.
  pose proof (ctr_at_fields n o Ho) as (H1 & H2 & H3). unfold CYCLES_PER_SECOND, TICKS_PER_CYCLE in *.
  change (2 ^ 25) with 33554432. change (2 ^ 12) with 4096. rewrite Z.mul_0_l, Z.add_0_l. rewrite <- Z.add_assoc, Z.add_comm, Z_mod_plus_full.
  apply Z.mod_small. lia.
Qed.

Lemma sph_recv n m o o2 :
  0 <= o < TICKS_PER_CYCLE -> 0 <= o2 < TICKS_PER_CYCLE -> - 1000 <= n - m <= 1000 ->
  sphRecvToFullTicks (ctr_of 0 (n mod CYCLES_PER_SECOND) o) (ctr_at m o2) = ticks_at n o.
Proof.
  intros Ho Ho2 Hd. unfold sphRecvToFullTicks. rewrite land_0x1ffffff.
  assert (Hf : ctr_fields 0 (n mod CYCLES_PER_SECOND) o) by (split; [lia|]; split; [by apply Z.mod_pos_bound|done]).
  assert (Hs : ctr_of 0 (n mod CYCLES_PER_SECOND) o mod 2 ^ 25 = ctr_of 0 (n mod CYCLES_PER_SECOND) o).
  { destruct Hf as (_ & Hn & _). unfold ctr_of, CYCLES_PER_SECOND, TICKS_PER_CYCLE in *. apply Z.mod_small.
    change (2 ^ 25) with 33554432. change (2 ^ 12) with 4096. lia. }
  rewrite Hs, CYCLE_TIMER_TO_TICKS_of by done. destruct (ctr_of_get _ _ _ Hf) as (_ & -> & _).
  destruct (ctr_of_get _ _ _ (ctr_at_fields m o2 Ho2)) as (Hs2 & Hc2 & _). fold (ctr_at m o2) in Hs2, Hc2. rewrite Hs2, Hc2.
  unfold ticks_at, CYCLES_PER_SECOND, TICKS_PER_CYCLE, TICKS_PER_SECOND in *.
  pose proof (Z.mod_pos_bound n 8000 ltac:(lia)) as Hcn. pose proof (Z.mod_pos_bound m 8000 ltac:(lia)) as Hcm.
  set (sec := if m mod 8000 + 1000 <? n mod 8000 then _ else _).
  assert (Hsec : sec = n / 8000 mod 128).
  { subst sec. pose proof (Z.div_mod n 8000 ltac:(lia)). pose proof (Z.div_mod m 8000 ltac:(lia)).
    pose proof (Z.mod_pos_bound (m / 8000) 128 ltac:(lia)).
    destruct (Z.ltb_spec (m mod 8000 + 1000) (n mod 8000)).
    - replace (n / 8000) with (m / 8000 - 1) by lia. destruct (Z.eqb_spec (m / 8000 mod 128) 0); Z.to_euclidean_division_equations; lia.
    - destruct (Z.ltb_spec (n mod 8000 + 1000) (m mod 8000)).
      + replace (n / 8000) with (m / 8000 + 1) by lia. destruct (Z.eqb_spec (m / 8000 mod 128) 127); Z.to_euclidean_division_equations; lia.
      + by replace (n / 8000) with (m / 8000) by lia. }
  rewrite Hsec. clear Hsec sec. pose proof (Z.mod_pos_bound (n / 8000) 128 ltac:(lia)).
  replace (n mod 1024000) with (n / 8000 mod 128 * 8000 + n mod 8000) by (clear; Z.to_euclidean_division_equations; lia).
  rewrite (u32_small (0 * 24576000 + _ + _)) by lia. rewrite u32_small by lia. lia.
Qed.

(** ** The bytes of a packet *)

(** a byte is in one event, at one place of it *)
Lemma cell_inj es i r j s : 0 <= r < es -> 0 <= s < es -> i * es + r = j * es + s -> i = j /\ r = s.
Proof. intros Hr Hs He. assert (i = j) by nia. subst j. split; [done|lia]. Qed.

(** byte [r] of event [i] of a packet whose frames have the bytes [frames] *)
Definition motu_sent_byte (event_size pad : Z) (sph : Z -> Z) (frames : list Z) (i r : Z) : option Z :=
  if negb (pad =? 0) && (event_size - pad <=? r) then Some 0
  else if (pad =? 1) && (r =? 0) && (0 <? i) then Some 0
  else if r <? 4 then load (quadlet_bytes (CondSwapToBus32 (sph i))) r
  else load frames (i * event_size + r).

Lemma memcpy_to_load (buf : list Z) i l :
  0 <= i -> i + Z.of_nat (length l) <= Z.of_nat (length buf) ->
  exists buf1, memcpy_to buf i l = Some buf1 /\ length buf1 = length buf /\
    (forall x, 0 <= x < Z.of_nat (length l) -> load buf1 (i + x) = load l x) /\
    (forall x, x < i -> load buf1 x = load buf x).
Proof.
  intros Hi Hl. unfold memcpy_to. rewrite decide_True by done. eexists. split; [done|].
  assert (He : length (take (Z.to_nat i) buf ++ l ++ drop (Z.to_nat i + length l) buf) = length buf)
    by (rewrite !length_app, length_take, length_drop; lia).
  split; [done|]. unfold load. rewrite He. split; intros x Hx.
  - rewrite !decide_True by lia. rewrite lookup_app_r; rewrite length_take; [|lia]. rewrite lookup_app_l by lia. f_equal. lia.
  - case_decide; [|done]. rewrite lookup_app_l by (rewrite length_take; lia). apply lookup_take_lt. lia.
Qed.

Section bytes.
Context (es : Z) (Hes : 8 <= es) (Hes4 : es mod 4 = 0).

Lemma motu_write_times_bytes n tpf t0 ts data :
  0 <= n -> 8 + n * es <= Z.of_nat (length data) -> (forall i, 0 <= i < n -> motu_frame_time tpf t0 i = Some (ts i)) ->
  exists data1, motu_write_times n (es / 4) tpf t0 data = Some data1 /\ length data1 = length data /\
    (forall x, x < 8 -> load data1 x = load data x) /\
    forall i r, 0 <= i -> 0 <= r < es ->
      load data1 (8 + (i * es + r)) =
        if (i <? n) && (r <? 4) then load (quadlet_bytes (CondSwapToBus32 (fullTicksToSph (ts i)))) r else load data (8 + (i * es + r)).
Proof.
  intros Hn Hl Hts. unfold motu_write_times.
  destruct (for_loop_rule (fun k data1 => length data1 = length data /\
    (forall x, x < 8 -> load data1 x = load data x) /\ forall i r, 0 <= i -> 0 <= r < es ->
      load data1 (8 + (i * es + r)) =
        if (i <? k) && (r <? 4) then load (quadlet_bytes (CondSwapToBus32 (fullTicksToSph (ts i)))) r else load data (8 + (i * es + r)))
    (fun i data => t ← motu_frame_time tpf t0 i; store_quadlet (2 + i * (es / 4)) (CondSwapToBus32 (fullTicksToSph t)) data) n data)
    as (data1 & -> & H1); [done| | |by exists data1].
  - do 2 (split; [done|]). intros i r Hi Hr. by rewrite (proj2 (Z.ltb_ge i 0)) by done.
  - intros k d Hk (Hd & Hx8 & Hb). rewrite Hts by done. cbn [mbind option_bind].
    assert (He4 : 4 * (es / 4) = es) by (clear -Hes4; Z.to_euclidean_division_equations; lia).
    assert (Hpos : 4 * (2 + k * (es / 4)) = 8 + (k * es + 0)) by nia.
    assert (Hke : 0 <= k * es /\ k * es + es <= n * es) by nia.
    destruct (store_quadlet_some (2 + k * (es / 4)) (CondSwapToBus32 (fullTicksToSph (ts k))) d) as [d1 Hs]; [nia|lia|].
    exists d1. split; [done|]. destruct (store_quadlet_load _ _ _ _ Hs) as (Hl1 & Hin & Hout). split; [congruence|].
    split; [intros x Hx; rewrite Hout by lia; by apply Hx8|].
    intros i r Hi Hr. destruct (Z.ltb_spec r 4) as [Hr4|Hr4]; rewrite ?andb_true_r, ?andb_false_r.
    + destruct (Z.eq_dec i k) as [->|Hne].
      * rewrite (proj2 (Z.ltb_lt k (k + 1))) by lia. replace (8 + (k * es + r)) with (4 * (2 + k * (es / 4)) + r) by lia. apply Hin. lia.
      * rewrite Hout, Hb by (try done; intros Hx; rewrite Hpos in Hx; destruct (cell_inj es i r k (i * es + r - k * es)); lia).
        rewrite (proj2 (Z.ltb_lt r 4)), andb_true_r by done. destruct (Z.ltb_spec i k), (Z.ltb_spec i (k + 1)); lia || done.
    + rewrite Hout, Hb by (try done; intros Hx; rewrite Hpos in Hx; destruct (cell_inj es i r k (i * es + r - k * es)); lia).
      by rewrite (proj2 (Z.ltb_ge r 4)), andb_false_r by done.
Qed.

(** two bytes are cleared per event, also where there is one pad byte *)
Lemma motu_clear_pads_bytes n pad data :
  0 <= n -> 1 <= pad <= 2 -> 8 + n * es + 1 <= Z.of_nat (length data) ->
  exists data1, motu_clear_pads n es pad data = Some data1 /\ length data1 = length data /\
    (forall x, x < 8 -> load data1 x = load data x) /\
    forall i r, 0 <= i -> 0 <= r < es ->
      load data1 (8 + (i * es + r)) =
        if (i <? n) && (es - pad <=? r) || (pad =? 1) && (r =? 0) && (0 <? i) && (i <=? n) then Some 0
        else load data (8 + (i * es + r)).
Proof.
  intros Hn Hpad Hl. unfold motu_clear_pads. rewrite (proj2 (Z.eqb_neq pad 0)) by lia. cbn [negb].
  match goal with |- context [for_loop n ?body data] => destruct (for_loop_rule (fun k data1 => length data1 = length data /\
    (forall x, x < 8 -> load data1 x = load data x) /\
    forall i r, 0 <= i -> 0 <= r < es ->
      load data1 (8 + (i * es + r)) =
        if (i <? k) && (es - pad <=? r) || (pad =? 1) && (r =? 0) && (0 <? i) && (i <=? k) then Some 0
        else load data (8 + (i * es + r))) body n data) as (data1 & -> & H1); [done| | |by exists data1] end.
  - do 2 (split; [done|]). intros i r Hi Hr. rewrite (proj2 (Z.ltb_ge i 0)) by done.
    destruct (Z.ltb_spec 0 i), (Z.leb_spec i 0); try lia; by rewrite ?andb_false_r.
  - intros k d Hk (Hd & Hx8 & Hb). assert (Hke : 0 <= k * es /\ k * es + es <= n * es) by nia.
    set (a := 8 + es - pad + k * es). destruct (store_some d (a + 1) 0) as [d1 H1]; [lia|]. rewrite H1. cbn [mbind option_bind].
    destruct (store_inv _ _ _ _ H1) as (Hl1 & Hv1 & Ho1). destruct (store_some d1 a 0) as [d2 H2]; [lia|].
    destruct (store_inv _ _ _ _ H2) as (Hl2 & Hv2 & Ho2). exists d2. split; [done|]. split; [congruence|].
    assert (Hall : forall x, load d2 x = if (x =? a) || (x =? a + 1) then Some 0 else load d x).
    { intros x. destruct (Z.eqb_spec x a) as [->|Ha]; [exact Hv2|]. rewrite Ho2 by done.
      destruct (Z.eqb_spec x (a + 1)) as [->|Ha1]; [exact Hv1|by apply Ho1]. }
    split; [intros x Hx; rewrite Ho2, Ho1 by lia; by apply Hx8|].
    intros i r Hi Hr. rewrite Hall, Hb by done.
    assert (Ha : (8 + (i * es + r) =? a) = (i =? k) && (r =? es - pad)).
    { apply eq_true_iff_eq. rewrite andb_true_iff, !Z.eqb_eq. split; [|lia]. intros Hx. apply (cell_inj es); lia. }
    assert (Ha1 : (8 + (i * es + r) =? a + 1) = if pad =? 1 then (i =? k + 1) && (r =? 0) else (i =? k) && (r =? es - 1)).
    { apply eq_true_iff_eq. destruct (Z.eqb_spec pad 1) as [->|]; rewrite andb_true_iff, !Z.eqb_eq; (split; [|lia]);
        intros Hx; apply (cell_inj es); lia. }
    rewrite Ha, Ha1. clear - Hpad Hi Hr Hk Hes.
    destruct (Z.lt_trichotomy i k) as [H|[->|H]].
    + rewrite (proj2 (Z.eqb_neq i k)), (proj2 (Z.eqb_neq i (k + 1))), (proj2 (Z.ltb_lt i k)), (proj2 (Z.ltb_lt i (k + 1))),
        (proj2 (Z.leb_le i k)), (proj2 (Z.leb_le i (k + 1))) by lia. cbn [andb orb]. by destruct (pad =? 1).
    + rewrite Z.eqb_refl, (proj2 (Z.eqb_neq k (k + 1))), Z.ltb_irrefl, (proj2 (Z.ltb_lt k (k + 1))), Z.leb_refl, (proj2 (Z.leb_le k (k + 1))) by lia.
      cbn [andb orb]. destruct (Z.eqb_spec pad 1), (Z.eqb_spec r (es - pad)), (Z.eqb_spec r (es - 1)), (Z.leb_spec (es - pad) r); try lia; done.
    + rewrite (proj2 (Z.eqb_neq i k)), (proj2 (Z.ltb_ge i k)), (proj2 (Z.ltb_ge i (k + 1))), (proj2 (Z.leb_gt i k)), andb_false_r by lia.
      cbn [andb orb]. destruct (Z.eqb_spec pad 1); [|done].
      destruct (Z.eqb_spec i (k + 1)), (Z.leb_spec i (k + 1)), (Z.ltb_spec 0 i), (Z.eqb_spec r 0); try lia; done.
Qed.

(** What the client's frames become on their way to the bus. *)
Lemma motu_packet_bytes n pad tpf t0 ts buf frames :
  0 <= n -> 0 <= pad <= 2 -> 8 + n * es + 1 <= Z.of_nat (length buf) -> Z.of_nat (length frames) = n * es ->
  (forall i, 0 <= i < n -> motu_frame_time tpf t0 i = Some (ts i)) ->
  exists payload data1 data2,
    memcpy_to buf 8 frames = Some payload /\ motu_write_times n (es / 4) tpf t0 payload = Some data1 /\
    motu_clear_pads n es pad data1 = Some data2 /\ length data2 = length buf /\
    (forall x, x < 8 -> load data2 x = load buf x) /\
    forall i r, 0 <= i < n -> 0 <= r < es ->
      load data2 (8 + (i * es + r)) = motu_sent_byte es pad (fun i => fullTicksToSph (ts i)) frames i r.
Proof.
  intros Hn Hpad Hl Hf Hts. destruct (memcpy_to_load buf 8 frames) as (payload & Hm & Hlp & Hin & Hout); [lia..|].
  destruct (motu_write_times_bytes n tpf t0 ts payload) as (d1 & H1 & Hl1 & Hx1 & Hb1); [lia|lia|done|].
  assert (H2 : exists d2, motu_clear_pads n es pad d1 = Some d2 /\ length d2 = length d1 /\
    (forall x, x < 8 -> load d2 x = load d1 x) /\ forall i r, 0 <= i < n -> 0 <= r < es ->
      load d2 (8 + (i * es + r)) =
        if negb (pad =? 0) && (es - pad <=? r) || (pad =? 1) && (r =? 0) && (0 <? i) then Some 0 else load d1 (8 + (i * es + r))).
  { destruct (Z.eq_dec pad 0) as [->|Hp]; [by exists d1|].
    destruct (motu_clear_pads_bytes n pad d1) as (d2 & H2 & Hl2 & Hx2 & Hb2); [lia..|]. exists d2. do 3 (split; [done|]).
    intros i r Hi Hr. rewrite Hb2 by lia. rewrite (proj2 (Z.ltb_lt i n)), (proj2 (Z.leb_le i n)), (proj2 (Z.eqb_neq pad 0)), andb_true_r by lia.
    done. }
  destruct H2 as (d2 & H2 & Hl2 & Hx2 & Hb2). exists payload, d1, d2. do 3 (split; [done|]). split; [congruence|].
  split; [intros x Hx; rewrite Hx2, Hx1 by done; apply Hout; lia|].
  intros i r Hi Hr. rewrite Hb2, Hb1 by lia. rewrite (proj2 (Z.ltb_lt i n)) by lia. rewrite Hin by nia. cbn [andb]. unfold motu_sent_byte.
  destruct (negb (pad =? 0) && (es - pad <=? r)), ((pad =? 1) && (r =? 0) && (0 <? i)); done.
Qed.
End bytes.

(** ** Reading a packet *)

Lemma load_lookup data x : 0 <= x -> load data x = data !! Z.to_nat x.
Proof. intros Hx. unfold load. case_decide; [done|]. symmetry. apply lookup_ge_None. lia. Qed.

Lemma load_take data n x : x < n -> load (take (Z.to_nat n) data) x = load data x.
Proof.
  intros Hx. destruct (decide (0 <= x)) as [H0|H0]; [|unfold load; by rewrite !decide_False by lia].
  rewrite !load_lookup by done. apply lookup_take_lt. lia.
Qed.

Lemma load_quadlet_load32 data k : 0 <= k -> load_quadlet data k = load32 data (4 * k).
Proof.
  intros Hk. unfold load_quadlet, load32. rewrite decide_True by done. rewrite !load_lookup by lia. cbv zeta.
  by rewrite !Z2Nat.inj_add by lia.
Qed.

Lemma load32_ext a b x y : (forall r, 0 <= r < 4 -> load a (x + r) = load b (y + r)) -> load32 a x = load32 b y.
Proof.
  intros H. unfold load32. pose proof (H 0 ltac:(lia)) as H0. rewrite !Z.add_0_r in H0. by rewrite H0, (H 1), (H 2), (H 3) by lia.
Qed.

Lemma load32_quadlet_bytes v : load32 (quadlet_bytes v) 0 = Some (u32 v).
Proof. change (load32 _ 0) with (Some (word_of (u8 v) (u8 (Z.shiftr v 8)) (u8 (Z.shiftr v 16)) (u8 (Z.shiftr v 24)))). by rewrite <- quadlet_bytes_word. Qed.

(** the field of the header that gives the size of the events *)
Lemma motu_header_dbs node dbs dbc :
  0 < dbs < 256 -> 0 <= dbc <= 0xff ->
  let q0 := Z.lor (Z.lor (Z.lor 0x00000400 (Z.shiftl (Z.land node 0x3f) 24)) dbc) (u32 (Z.shiftl dbs 16)) in
  is_u32 q0 /\ get_bits q0 23 8 = dbs.
Proof.
  intros Hd Hc q0. subst q0. rewrite land_0x3f. pose proof (Z.mod_pos_bound node 64 ltac:(lia)) as Hn.
  assert (Hs : u32 (Z.shiftl dbs 16) = Z.shiftl dbs 16) by (apply wrapU_small; rewrite Z.shiftl_mul_pow2 by lia; width_lia).
  rewrite Hs. split.
  - repeat apply lor_range; rewrite ?Z.shiftl_mul_pow2 by lia; width_lia.
  - unfold get_bits. change (23 - 8 + 1) with 16. rewrite !Z.shiftr_lor. change (Z.shiftr 0x00000400 16) with 0.
    rewrite (Z.shiftr_div_pow2 dbc), (Z.div_small dbc) by lia. rewrite Z.shiftr_shiftl_l, Z.shiftr_shiftl_l by lia.
    change (24 - 16) with 8. change (16 - 16) with 0. rewrite Z.shiftl_0_r, Z.lor_0_l, Z.lor_0_r.
    change (Z.shiftl 1 8 - 1) with 0xff. rewrite Z.land_lor_distr_l, !land_0xff, Z.shiftl_mul_pow2 by lia.
    change (2 ^ 8) with 256. by rewrite Z_mod_mult, Z.lor_0_l, Z.mod_small by lia.
Qed.

(** ** A packet from end to end *)
Section packet.
Context {W W' : Type} {EV : SPEnv W} {ME : MotuEnv W} {EV' : SPEnv W'} {ME' : MotuEnv W'}.
Implicit Types s : sp_shared (port_world MotuPortInfo MotuTransmitStreamProcessor W).
Implicit Types sr : sp_shared (port_world MotuPortInfo MotuReceiveStreamProcessor W').

(** only [motu_send] makes a packet *)
Lemma motu_try_send_packet ts ctr p s p1 s1 :
  motu_try_send ts ctr p s = Some (eCRV_Packet, p1, s1) -> motu_send ts p s = Some (eCRV_Packet, p1, s1).
Proof. unfold motu_try_send. by repeat case_match. Qed.

Lemma mt_generatePacketHeader_sends p ctr s p1 s1 :
  mt_generatePacketHeader p ctr s = Some (eCRV_Packet, p1, s1) ->
  exists ts, mt_frames (sh_env s) <= tb_framecounter (sh_data_buffer s) /\
    motu_send ts (motu_data_packet p s) s = Some (eCRV_Packet, p1, s1).
Proof.
  unfold mt_generatePacketHeader, getBufferHeadTimestamp. destruct (to_uint 64 _) as [ts|]; [|done]. cbn [mbind option_bind].
  destruct (Z.ltb_spec (tb_framecounter (sh_data_buffer s)) (mt_frames (sh_env s))); [by case_match|].
  intros H1. exists ts. split; [done|]. by apply motu_try_send_packet in H1.
Qed.

(** the two quadlets of the header, which the receiver accepts *)
Lemma motu_write_header_read node dbs dbc data data1 :
  0 < dbs < 256 -> 0 <= dbc <= 0xff -> motu_write_header node dbs dbc data = Some data1 ->
  length data1 = length data /\ exists q0 q1, load32 data1 0 = Some q0 /\ load32 data1 4 = Some q1 /\
    get_bits (CondSwapFromBus32 q0) 23 8 = dbs /\ get_bits (CondSwapFromBus32 q1) 23 8 = 0x22.
Proof.
  intros Hd Hc. unfold motu_write_header. destruct (motu_header_dbs node dbs dbc Hd Hc) as (Hu & Hg).
  set (q0 := Z.lor (Z.lor _ _) _) in *. intros (d0 & H0 & H1)%bind_Some.
  destruct (store_quadlet_inv _ _ _ _ H0) as (L0 & R0 & _). destruct (store_quadlet_inv _ _ _ _ H1) as (L1 & R1 & O1 & _).
  split; [congruence|]. exists (u32 (CondSwapToBus32 q0)), (u32 (CondSwapToBus32 0x8222ffff)).
  pose proof (load_quadlet_load32 data1 0 ltac:(lia)) as E0. pose proof (load_quadlet_load32 data1 1 ltac:(lia)) as E1.
  change (4 * 0) with 0 in E0. change (4 * 1) with 4 in E1. rewrite <- E0, <- E1, O1 by lia.
  do 2 (split; [done|]). unfold CondSwapToBus32, CondSwapFromBus32. rewrite (wrapU_small 32 (ByteSwap32 q0)) by by apply ByteSwap32_u32.
  rewrite ByteSwap32_involutive by done. split; [done|reflexivity].
Qed.

Lemma motu_next_dbc_range dbc n : 0 <= dbc <= 0xff -> 0 <= n <= 32 -> 0 <= motu_next_dbc dbc n <= 0xff.
Proof. intros Hd Hn. unfold motu_next_dbc. rewrite (wrapU_small 32 (dbc + n)) by width_lia. case_match; [rewrite wrapU_small by width_lia|]; lia. Qed.

Lemma motu_frames_range rate :
  motu_frames_per_packet rate = 8 \/ motu_frames_per_packet rate = 16 \/ motu_frames_per_packet rate = 32.
Proof. unfold motu_frames_per_packet. repeat case_match; lia. Qed.

(** the SPH of a frame, as the receiver reads it, where the top byte is kept *)
Lemma motu_read_sph es pad sph frames data i :
  8 <= es -> 0 <= pad <= 2 -> pad <> 1 -> is_u32 (sph i) ->
  (forall r, 0 <= r < es -> load data (8 + (i * es + r)) = motu_sent_byte es pad sph frames i r) ->
  exists q, load32 data (8 + i * es) = Some q /\ CondSwapFromBus32 q = sph i.
Proof.
  intros Hes Hpad Hp1 Hu Hb. exists (u32 (CondSwapToBus32 (sph i))). split.
  - rewrite <- load32_quadlet_bytes. apply load32_ext. intros r Hr. replace (8 + i * es + r) with (8 + (i * es + r)) by lia.
    rewrite Hb by lia. unfold motu_sent_byte. rewrite (proj2 (Z.leb_gt (es - pad) r)), (proj2 (Z.eqb_neq pad 1)) by lia.
    rewrite andb_false_r. cbn [andb]. by rewrite (proj2 (Z.ltb_lt r 4)) by lia.
  - unfold CondSwapFromBus32, CondSwapToBus32. rewrite wrapU_small by by apply ByteSwap32_u32. by apply ByteSwap32_involutive.
Qed.

Lemma motu_cleared_sph es sph frames data i :
  8 <= es -> 0 < i -> is_u32 (sph i) ->
  (forall r, 0 <= r < es -> load data (8 + (i * es + r)) = motu_sent_byte es 1 sph frames i r) ->
  exists q, load32 data (8 + i * es) = Some q /\ CondSwapFromBus32 q = sph i mod 2 ^ 24.
Proof.
  intros Hes Hi Hu Hb. set (v := sph i) in *.
  set (b0 := v mod 2 ^ 8). set (b1 := v / 2 ^ 8 mod 2 ^ 8). set (b2 := v / 2 ^ 16 mod 2 ^ 8). set (b3 := v / 2 ^ 24 mod 2 ^ 8).
  assert (H0 : is_u8 b0) by (apply wrapU_uint; lia). assert (H1 : is_u8 b1) by (apply wrapU_uint; lia).
  assert (H2 : is_u8 b2) by (apply wrapU_uint; lia). assert (H3 : is_u8 b3) by (apply wrapU_uint; lia).
  assert (Hv : v = word_of b0 b1 b2 b3) by (by apply word_of_bytes). assert (Hz : is_u8 0) by width_lia.
  assert (Hq : quadlet_bytes (CondSwapToBus32 v) = [b3; b2; b1; b0]).
  { unfold CondSwapToBus32, quadlet_bytes. rewrite Hv, ByteSwap32_word by done.
    destruct (word_of_byte b3 b2 b1 b0) as (E0 & E1 & E2 & E3); [done..|]. unfold wrapU. by rewrite !Z.shiftr_div_pow2, E0, E1, E2, E3 by lia. }
  assert (Hr : forall r, 0 <= r < 4 -> load data (8 + i * es + r) = load [0; b2; b1; b0] r).
  { intros r Hr. replace (8 + i * es + r) with (8 + (i * es + r)) by lia. rewrite Hb by lia. unfold motu_sent_byte. fold v. rewrite Hq.
    rewrite (proj2 (Z.leb_gt (es - 1) r)), (proj2 (Z.ltb_lt 0 i)), (proj2 (Z.ltb_lt r 4)) by lia.
    assert (r = 0 \/ r = 1 \/ r = 2 \/ r = 3) as [->|[->|[->| ->]]] by lia; reflexivity. }
  exists (word_of 0 b2 b1 b0). split; [by rewrite (load32_ext data [0; b2; b1; b0] (8 + i * es) 0)|].
  unfold CondSwapFromBus32. rewrite ByteSwap32_word, Hv by done. unfold word_of in *.
  change (2 ^ 8) with 256 in *; change (2 ^ 16) with 65536 in *; change (2 ^ 24) with 16777216 in *. div_lia.
Qed.

Lemma fullTicksToSph_u32 t : is_u32 (fullTicksToSph t).
Proof. unfold fullTicksToSph. rewrite land_0x1ffffff. change (2 ^ 25) with 33554432. div_lia. Qed.

(** The header is sent and read, whatever is put behind it. *)
Lemma motu_sent_header p ctr s p1 s1 :
  let es := mt_event_size (mt_child s) in
  let n := mt_frames (sh_env s) in
  es mod 4 = 0 -> 8 <= es < 1024 -> 0 <= mt_tx_dbc (mt_child s) <= 0xff ->
  mt_generatePacketHeader p ctr s = Some (eCRV_Packet, p1, s1) ->
  n <= tb_framecounter (sh_data_buffer s) /\ length (pkt_data p1) = length (pkt_data p) /\ pkt_length p1 = n * es + 8 /\
  sh_data_buffer s1 = sh_data_buffer s /\ mt_event_size (mt_child s1) = es /\
  mt_event_pad_bytes (mt_child s1) = mt_event_pad_bytes (mt_child s) /\ w_outside (sh_env s1) = w_outside (sh_env s) /\
  exists q0 q1, load32 (pkt_data p1) 0 = Some q0 /\ load32 (pkt_data p1) 4 = Some q1 /\
    get_bits (CondSwapFromBus32 q0) 23 8 = es / 4 /\ get_bits (CondSwapFromBus32 q1) 23 8 = 0x22.
Proof.
  intros es n He4 Hes Hd (ts & Hfc & Hs)%mt_generatePacketHeader_sends. split; [done|].
  pose proof (motu_frames_range (spm_getNominalRate (sh_env s))) as Hn. change (motu_frames_per_packet _) with n in Hn.
  revert Hs. unfold motu_send, motu_fillDataPacketHeader. cbn [pkt_data motu_data_packet]. fold n es.
  destruct (motu_write_header _ _ _ _) as [d|] eqn:Hw; [|done]. cbn [mbind option_bind]. intros [= <- <-]. cbn.
  apply motu_write_header_read in Hw; [|div_lia|apply motu_next_dbc_range; [exact Hd|lia]]. destruct Hw as (Hl & Hq).
  split; [done|]. split; [apply wrapU_small; width_lia|]. by do 4 (split; [done|]).
Qed.

(** The data part, and what it puts on the bus. *)
Lemma motu_sent_data p1 s1 rbt ts :
  let es := mt_event_size (mt_child s1) in
  let n := mt_frames (sh_env s1) in
  let pad := mt_event_pad_bytes (mt_child s1) in
  es mod 4 = 0 -> 8 <= es -> 0 <= pad <= 2 -> 8 + n * es < Z.of_nat (length (pkt_data p1)) ->
  (forall i, 0 <= i < n -> motu_frame_time (spm_syncSource_getTicksPerFrame (sh_env s1)) (sh_last_timestamp s1) i = Some (ts i)) ->
  tb_wf (sh_data_buffer s1) rbt -> tb_transparent (sh_data_buffer s1) = false -> tb_cluster (sh_data_buffer s1) = es ->
  n <= tb_framecounter (sh_data_buffer s1) ->
  exists p2 s2 frames rbt1, mt_generatePacketData p1 s1 = Some (eCRV_OK, p2, s2) /\
    rb_content rbt = frames ++ rb_content rbt1 /\ tb_wf (sh_data_buffer s2) rbt1 /\ Z.of_nat (length frames) = n * es /\
    pkt_length p2 = pkt_length p1 /\ length (pkt_data p2) = length (pkt_data p1) /\
    (forall x, x < 8 -> load (pkt_data p2) x = load (pkt_data p1) x) /\
    (forall i r, 0 <= i < n -> 0 <= r < es ->
      load (pkt_data p2) (8 + (i * es + r)) = motu_sent_byte es pad (fun i => fullTicksToSph (ts i)) frames i r).
Proof.
  intros es n pad He4 Hes Hpad Hl Hts Hw Ht Hc Hfc.
  pose proof (motu_frames_range (spm_getNominalRate (sh_env s1))) as Hn. change (motu_frames_per_packet _) with n in Hn.
  destruct (readFrames_opaque_spec _ rbt n Hw Ht) as (b1 & rb1 & frames & Hr & Hw1 & Hcont & Hlf & _); [lia|]. rewrite Hc in Hlf.
  destruct (motu_packet_bytes es Hes He4 n pad (spm_syncSource_getTicksPerFrame (sh_env s1)) (sh_last_timestamp s1) ts
    (pkt_data p1) frames) as (payload & d1 & d2 & Hm & H1 & H2 & Hl2 & Hx & Hb); [lia..|done|].
  exists (mkPacket d2 (pkt_length p1) (pkt_tag p1) (pkt_sy p1)), (sh_with_data_buffer b1 s1), frames, rb1.
  split; [|by do 6 (split; [done|])].
  unfold mt_generatePacketData. fold n. rewrite Hr. cbn [mbind option_bind]. rewrite Hm. cbn [mbind option_bind].
  fold es pad. rewrite H1. cbn [mbind option_bind]. by rewrite H2.
Qed.

(** The receiver takes any packet with such a header; its time is that of the
    SPH of the last event. *)
Lemma mr_header_accepts data n q0 q1 q sy ctr sr ct o :
  let es := mr_event_size (w_child (sh_env sr)) in
  0 < n <= 32 -> 8 <= es < 1024 ->
  load32 data 0 = Some q0 -> load32 data 4 = Some q1 -> get_bits (CondSwapFromBus32 q0) 23 8 <> 0 ->
  get_bits (CondSwapFromBus32 q1) 23 8 = 0x22 -> load32 data (8 + (n - 1) * es) = Some q ->
  service_getCycleTimer (w_outside (sh_env sr)) = (ct, o) ->
  exists sr1, mr_processPacketHeader data (n * es + 8) 1 sy ctr sr = Some (eCRV_OK, sr1) /\
    sh_last_timestamp sr1 = sphRecvToFullTicks (CondSwapFromBus32 q) ct /\ sh_data_buffer sr1 = sh_data_buffer sr /\
    w_child (sh_env sr1) = w_child (sh_env sr).
Proof.
  intros es Hn Hes H0 H1 Hd Hf Hq Hct. unfold mr_processPacketHeader. rewrite (proj2 (Z.ltb_lt 8 _)) by nia.
  rewrite !load_quadlet_load32 by lia. change (4 * 0) with 0. change (4 * 1) with 4. rewrite H0, H1. cbn [mbind option_bind].
  rewrite Hf, (proj2 (Z.eqb_neq _ 0) Hd). cbn [negb orb andb Z.eqb]. unfold motu_n_events. fold es.
  rewrite (proj2 (Z.eqb_neq es 0)) by lia. cbn [mbind option_bind].
  rewrite (wrapU_small 32 (n * es + 8 - 8)) by (unfold uint; change (2 ^ 32) with 4294967296; nia).
  replace ((n * es + 8 - 8) / es) with n by (replace (n * es + 8 - 8) with (n * es) by lia; symmetry; apply Z.div_mul; lia).
  rewrite (wrapU_small 32 (n - 1)) by width_lia. rewrite wrapU_small by (unfold uint; change (2 ^ 32) with 4294967296; nia).
  rewrite Hq. cbn [mbind option_bind]. rewrite Hct. cbn. eexists. split; [done|]. by do 2 (split; [done|]).
Qed.

(** The SPH of event [i] as it is in the packet: with one pad byte the clearing
    of the pad of the event before takes its top byte. *)
Definition sent_sph (pad i sph : Z) : Z := if (pad =? 1) && (0 <? i) then sph mod 2 ^ 24 else sph.

Lemma motu_received_sph es pad sph frames data i :
  8 <= es -> 0 <= pad <= 2 -> 0 <= i -> is_u32 (sph i) ->
  (forall r, 0 <= r < es -> load data (8 + (i * es + r)) = motu_sent_byte es pad sph frames i r) ->
  exists q, load32 data (8 + i * es) = Some q /\ CondSwapFromBus32 q = sent_sph pad i (sph i).
Proof.
  intros Hes Hpad Hi Hu Hb. unfold sent_sph. destruct (Z.eqb_spec pad 1) as [->|Hp]; [|by eapply motu_read_sph]. cbn [andb].
  destruct (Z.ltb_spec 0 i); [by eapply motu_cleared_sph|]. assert (i = 0) as -> by lia.
  exists (u32 (CondSwapToBus32 (sph 0))). split.
  - rewrite <- load32_quadlet_bytes. apply load32_ext. intros r Hr. rewrite <- Z.add_assoc, Hb by lia. unfold motu_sent_byte.
    rewrite (proj2 (Z.leb_gt (es - 1) r)) by lia. cbn [negb Z.eqb andb]. rewrite andb_false_r. by rewrite (proj2 (Z.ltb_lt r 4)) by lia.
  - unfold CondSwapFromBus32, CondSwapToBus32. rewrite wrapU_small by by apply ByteSwap32_u32. by apply ByteSwap32_involutive.
Qed.

(** C8: a packet that a MOTU transmitter sends carries its frames and their
    times across, for a receiver whose buffer has room for them and takes their
    time.  When the header is made and the times of the frames can be computed
    (they fit their integer type), the data part succeeds, and what is on the bus
    are the frames that left the transmitter's buffer, each with its
    time in the first four bytes and zeros in the pad bytes - except that with
    one pad byte the first byte of every frame but the first is cleared too.  A
    receiver with events of the same size accepts the packet, appends the events
    to its buffer, and takes the time of the last frame as its timestamp.  If
    the events do not have exactly one pad byte, and if that time is within 1000
    cycles of the receiver's clock in either direction (the window of
    [sphRecvToFullTicks]), this is the time that was sent, to the tick and over
    every wrap of the cycle timer; with one pad byte it is the time that the
    damaged SPH stands for. *)
Theorem motu_end_to_end p ctr s p1 s1 ts m off2 o sy sr rbt rbr :
  let es := mt_event_size (mt_child s) in
  let n := mt_frames (sh_env s) in
  let pad := mt_event_pad_bytes (mt_child s) in
  let seen := sphRecvToFullTicks (sent_sph pad (n - 1) (fullTicksToSph (ts (n - 1)))) (ctr_at m off2) in
  es mod 4 = 0 -> 8 <= es < 1024 -> 0 <= pad <= 2 -> 0 <= mt_tx_dbc (mt_child s) <= 0xff ->
  8 + n * es < Z.of_nat (length (pkt_data p)) ->
  mt_generatePacketHeader p ctr s = Some (eCRV_Packet, p1, s1) ->
  (forall i, 0 <= i < n -> motu_frame_time (spm_syncSource_getTicksPerFrame (sh_env s1)) (sh_last_timestamp s1) i = Some (ts i)) ->
  service_getCycleTimer (w_outside (sh_env sr)) = (ctr_at m off2, o) -> mr_event_size (w_child (sh_env sr)) = es ->
  tb_wf (sh_data_buffer s) rbt -> tb_transparent (sh_data_buffer s) = false -> tb_cluster (sh_data_buffer s) = es ->
  tb_wf (sh_data_buffer sr) rbr -> tb_transparent (sh_data_buffer sr) = false -> tb_cluster (sh_data_buffer sr) = es ->
  rb_fill rbr + n * es <= rb_capacity rbr -> increment_allowed n (f64_of_Z seen) (tb_clock (sh_data_buffer sr)) = true ->
  exists p2 s2 frames rbt1 sr1 sr2 rbr1 events,
    mt_generatePacketData p1 s1 = Some (eCRV_OK, p2, s2) /\ rb_content rbt = frames ++ rb_content rbt1 /\
    tb_wf (sh_data_buffer s2) rbt1 /\ Z.of_nat (length frames) = n * es /\
    mr_processPacketHeader (on_bus p2) (pkt_length p2) 1 sy ctr sr = Some (eCRV_OK, sr1) /\ sh_last_timestamp sr1 = seen /\
    (pad <> 1 -> forall k off, ts (n - 1) = ticks_at k off -> 0 <= off < TICKS_PER_CYCLE -> 0 <= off2 < TICKS_PER_CYCLE ->
       - 1000 <= k - m <= 1000 -> seen = ts (n - 1)) /\
    mr_processPacketData (on_bus p2) (pkt_length p2) sr1 = Some (eCRV_OK, sr2) /\
    tb_wf (sh_data_buffer sr2) rbr1 /\ rb_content rbr1 = rb_content rbr ++ events /\ Z.of_nat (length events) = n * es /\
    forall i r, 0 <= i < n -> 0 <= r < es -> load events (i * es + r) =
      if negb (pad =? 0) && (es - pad <=? r) then Some 0
      else if (pad =? 1) && (r =? 0) && (0 <? i) then Some 0
      else if r <? 4 then load (quadlet_bytes (CondSwapToBus32 (fullTicksToSph (ts i)))) r else load frames (i * es + r).
Proof.
  intros es n pad seen He4 Hes Hpad Hdbc Hlen Hgen Hts Hct Hesr Hwt Htt Hcl Hwr Htr Hcr Hfit Hinc.
  destruct (motu_sent_header _ _ _ _ _ He4 Hes Hdbc Hgen) as (Hfc & Hl1 & Hpl1 & Hb1 & Hes1 & Hpad1 & Ho1 & q0 & q1 & Hq0 & Hq1 & Hd & Hf).
  fold es n pad in Hfc, Hpl1, Hes1, Hpad1, Hd.
  assert (Hn1 : mt_frames (sh_env s1) = n) by (unfold n, mt_frames; cbn; by rewrite Ho1).
  destruct (motu_sent_data p1 s1 rbt ts) as (p2 & s2 & frames & rbt1 & Hgd & Hcont & Hwt1 & Hlf & Hpl2 & Hl2 & Hx & Hby);
    rewrite ?Hes1, ?Hn1, ?Hpad1, ?Hb1, ?Hl1; try done; [lia|]. rewrite Hes1, Hn1 in Hlf, Hby. rewrite Hpad1 in Hby.
  pose proof (motu_frames_range (spm_getNominalRate (sh_env s))) as Hn. change (motu_frames_per_packet _) with n in Hn.
  rewrite Hpl1 in Hpl2.
  assert (Hbus : forall x, x < n * es + 8 -> load (on_bus p2) x = load (pkt_data p2) x) by (intros x Hxl; unfold on_bus; rewrite Hpl2; by apply load_take).
  destruct (motu_received_sph es pad (fun i => fullTicksToSph (ts i)) frames (on_bus p2) (n - 1)) as (q & Hq & Hsph);
    [lia|lia|lia|apply fullTicksToSph_u32| |].
  { intros r Hr. rewrite Hbus by nia. apply Hby; lia. }
  destruct (mr_header_accepts (on_bus p2) n q0 q1 q sy ctr sr (ctr_at m off2) o) as (sr1 & Hh & Ht1 & Hbr & Hch);
    rewrite ?Hesr; [lia|done| | |rewrite Hd; div_lia|done|done|done|].
  { rewrite <- Hq0. apply load32_ext. intros r Hr. rewrite Hbus, Hx by nia. done. }
  { rewrite <- Hq1. apply load32_ext. intros r Hr. rewrite Hbus, Hx by nia. done. }
  rewrite Hesr in Hh. rewrite Hsph in Ht1. fold seen in Ht1.
  set (events := drop 8 (on_bus p2)).
  assert (Hle : Z.of_nat (length events) = n * es).
  { unfold events, on_bus. rewrite length_drop, length_take, Hpl2, Hl2, Hl1. nia. }
  destruct (writeFrames_opaque_spec (sh_data_buffer sr) rbr n events (f64_of_Z seen) Hwr Htr) as (b2 & rbr1 & Hw2 & Hwr1 & Hc2 & _);
    [lia|by rewrite Hcr|by rewrite Hcr|done|].
  exists p2, s2, frames, rbt1, sr1, (sh_with_data_buffer b2 sr1), rbr1, events. do 4 (split; [done|]). split; [by rewrite Hpl2|].
  split; [done|]. split.
  { intros Hp1 k off Htl Hoff Hoff2 Hnear. unfold seen, sent_sph. rewrite (proj2 (Z.eqb_neq pad 1)) by done. cbn [andb].
    by rewrite Htl, sph_at, sph_recv by done. }
  split; [|split; [done|]; split; [done|]; split; [done|]].
  - unfold mr_processPacketData, motu_n_events. rewrite Hch, Hesr, Hpl2, (proj2 (Z.eqb_neq es 0)) by lia. cbn [mbind option_bind].
    rewrite (wrapU_small 32) by (unfold uint; change (2 ^ 32) with 4294967296; nia).
    replace ((n * es + 8 - 8) / es) with n by (replace (n * es + 8 - 8) with (n * es) by lia; symmetry; apply Z.div_mul; lia).
    rewrite Hbr, Ht1. fold events. by rewrite Hw2.
  - intros i r Hi Hr. pose proof (Hby i r Hi Hr) as Hv. rewrite <- Hbus in Hv by nia.
    unfold motu_sent_byte in Hv. rewrite <- Hv.
    unfold events. rewrite !load_lookup by nia. rewrite lookup_drop. f_equal. nia.
Qed.

(** Where the events have one pad byte, that is in devices whose number of
    channels is 3 modulo 4, the clearing of the pad bytes writes two bytes and
    so clears the most significant byte of the time of the next frame: a
    frame after the first that is to be presented in the second half of a
    second has a time that is 4096 cycles, half a second, too early. *)
Lemma motu_pad_clears_time p1 s1 rbt ts i k off :
  let es := mt_event_size (mt_child s1) in
  let n := mt_frames (sh_env s1) in
  es mod 4 = 0 -> 8 <= es -> mt_event_pad_bytes (mt_child s1) = 1 -> 8 + n * es < Z.of_nat (length (pkt_data p1)) ->
  (forall i, 0 <= i < n -> motu_frame_time (spm_syncSource_getTicksPerFrame (sh_env s1)) (sh_last_timestamp s1) i = Some (ts i)) ->
  tb_wf (sh_data_buffer s1) rbt -> tb_transparent (sh_data_buffer s1) = false -> tb_cluster (sh_data_buffer s1) = es ->
  n <= tb_framecounter (sh_data_buffer s1) ->
  0 < i < n -> ts i = ticks_at k off -> 0 <= off < TICKS_PER_CYCLE ->
  exists p2 s2 q, mt_generatePacketData p1 s1 = Some (eCRV_OK, p2, s2) /\ load32 (pkt_data p2) (8 + i * es) = Some q /\
    CondSwapFromBus32 q = ctr_of 0 (k mod CYCLES_PER_SECOND mod 4096) off.
Proof.
  intros es n He4 Hes Hpad Hlen Hts Hw Ht Hc Hfc Hi Hti Hoff.
  destruct (motu_sent_data p1 s1 rbt ts) as (p2 & s2 & frames & rbt1 & Hgd & _ & _ & _ & _ & _ & _ & Hby); rewrite ?Hpad; try done.
  rewrite Hpad in Hby. fold es n in Hby. destruct (motu_cleared_sph es (fun i => fullTicksToSph (ts i)) frames (pkt_data p2) i) as (q & Hq & Hsph);
    [lia|lia|apply fullTicksToSph_u32|intros r Hr; apply Hby; lia|].
  exists p2, s2, q. do 2 (split; [done|]). rewrite Hsph, Hti, sph_at by done. unfold ctr_of, CYCLES_PER_SECOND, TICKS_PER_CYCLE in *.
  change (2 ^ 24) with 16777216. change (2 ^ 12) with 4096. div_lia.
Qed.
End packet.

(** ** A transmitter and a receiver with events of 12 bytes at 48 kHz *)

Definition motu_ring (content : list Z) : ringbuffer Z :=
  mkRingbuffer (content ++ replicate (128 - length content) 0) (Z.of_nat (length content)) 0 128 127 0.

Definition motu_buffer (es n : Z) (content : list Z) : TimestampedBuffer :=
  mkTimestampedBuffer (Some (motu_ring content)) (Some (replicate (Z.to_nat (8 * es)) 0)) (mkFormat es (8 * es) es 1 10 es 128) true false
    (tb_clock small_buffer) n 1536.

Definition motu_frames12 : list Z := Z.of_nat <$> seq 1 96.

Definition motu_demo_shared {C} (c : C) (b : TimestampedBuffer) (ct : Z) : sp_shared (port_world MotuPortInfo C Z) :=
  mkShared 0 false b None (f32_of_Z 512) (f32_of_Z 1) 0 50 1 (mkWorld c [] ∅ ct).

Definition motu_demo_tx (es n : Z) (content : list Z) : sp_shared (port_world MotuPortInfo MotuTransmitStreamProcessor Z) :=
  motu_demo_shared (mkMotuTransmit es ((es - 4) mod 3) 0xf8 (mkMidiOut [] 0 0 0) 16) (motu_buffer es n content) 0.

Definition motu_demo_rx (es : Z) : sp_shared (port_world MotuPortInfo MotuReceiveStreamProcessor Z) :=
  motu_demo_shared (MotuReceiveStreamProcessor_new 2 es []) (motu_buffer es 0 []) (ctr_at 0 77).

Definition motu_demo_header (es n : Z) (content : list Z) : iso_packet * sp_shared (port_world MotuPortInfo MotuTransmitStreamProcessor Z) :=
  match @mt_generatePacketHeader Z demo_env (mkPacket (replicate 120 0xcc) 0 0 0) (ctr_at 0 50) (motu_demo_tx es n content) with
  | Some (eCRV_Packet, p1, s1) => (p1, s1)
  | _ => (mkPacket [] 0 0 0, motu_demo_tx es n content)
  end.

Lemma motu_ring_content content : (length content < 128)%nat -> rb_content (motu_ring content) = content.
Proof. intros Hl. unfold rb_content. cbn. rewrite (proj2 (Z.leb_le 0 _)) by lia. rewrite drop_0, Nat.sub_0_r, Nat2Z.id. apply take_app_length. Qed.

Lemma motu_buffer_wf es n content :
  0 < es -> es < 2 ^ 24 -> 0 <= n < 2 ^ 31 -> Z.of_nat (length content) = n * es -> n * es < 128 ->
  tb_wf (motu_buffer es n content) (motu_ring content).
Proof.
  intros Hes He Hn Hc Hs. split; [split; try done|split; [done|]].
  - split; [by exists 7|]. cbn. rewrite length_app, length_replicate. repeat split; lia.
  - unfold tb_cluster. cbn. lia.
  - unfold tb_cluster. cbn. change (2 ^ 24) with 16777216 in He. change (2 ^ 31) with 2147483648. lia.
  - eexists. split; [done|]. unfold tb_cluster. cbn [motu_buffer tb_process_buffer tb_format bf_cluster_size]. rewrite length_replicate. lia.
  - unfold rb_fill. rewrite motu_ring_content by lia. exact Hc.
Qed.

Lemma motu_demo_times i : 0 <= i < 8 -> motu_frame_time (f32_of_Z 512) 5904 i = Some (5904 + 512 * i).
Proof.
  intros Hi. assert (i = 0 \/ i = 1 \/ i = 2 \/ i = 3 \/ i = 4 \/ i = 5 \/ i = 6 \/ i = 7) as
    [->|[->|[->|[->|[->|[->|[->| ->]]]]]]] by lia; vm_compute; reflexivity.
Qed.

Lemma motu_end_to_end_witness :
  let s := motu_demo_tx 12 8 motu_frames12 in
  let '(p1, s1) := motu_demo_header 12 8 motu_frames12 in
  exists p2 s2 sr1 sr2 (rbr1 : ringbuffer Z) events,
    @mt_generatePacketData Z demo_env p1 s1 = Some (eCRV_OK, p2, s2) /\
    @mr_processPacketHeader Z motu_demo_env (on_bus p2) (pkt_length p2) 1 0 (ctr_at 0 50) (motu_demo_rx 12) = Some (eCRV_OK, sr1) /\
    sh_last_timestamp sr1 = 9488 /\ mr_processPacketData (on_bus p2) (pkt_length p2) sr1 = Some (eCRV_OK, sr2) /\
    rb_content rbr1 = events /\ Z.of_nat (length events) = 96.
Proof.
  cbv zeta. rewrite (surjective_pairing (motu_demo_header _ _ _)).
  destruct (@motu_end_to_end Z Z demo_env motu_demo_env (mkPacket (replicate 120 0xcc) 0 0 0) (ctr_at 0 50) (motu_demo_tx 12 8 motu_frames12)
    (fst (motu_demo_header 12 8 motu_frames12)) (snd (motu_demo_header 12 8 motu_frames12)) (fun i => 5904 + 512 * i) 0 77 (ctr_at 0 77) 0
    (motu_demo_rx 12) (motu_ring motu_frames12) (motu_ring []))
    as (p2 & s2 & frames & rbt1 & sr1 & sr2 & rbr1 & events & H1 & _ & _ & _ & H5 & H6 & _ & H7 & _ & H9 & H10 & _).
  - reflexivity.
  - split; vm_compute; (reflexivity || discriminate).
  - split; vm_compute; (reflexivity || discriminate).
  - split; vm_compute; (reflexivity || discriminate).
  - reflexivity.
  - vm_compute. reflexivity.
  - exact motu_demo_times.
  - reflexivity.
  - reflexivity.
  - by apply motu_buffer_wf.
  - reflexivity.
  - reflexivity.
  - by apply motu_buffer_wf.
  - reflexivity.
  - reflexivity.
  - vm_compute. discriminate.
  - vm_compute. reflexivity.
  - exists p2, s2, sr1, sr2, rbr1, events. split; [exact H1|]. split; [exact H5|]. split.
    { rewrite H6. change (mt_frames _) with 8. change (mt_event_pad_bytes _) with 2. vm_compute. reflexivity. } split; [exact H7|].
    split; [rewrite H9; reflexivity|exact H10].
Defined.

(** the packet of a device with events of 8 bytes, in cycle 5000 *)
Lemma motu_pad_clears_time_witness :
  let s := sh_with_timestamp 15360000 true (motu_demo_tx 8 8 (Z.of_nat <$> seq 1 64)) in
  exists p2 s2 q,
    @mt_generatePacketData Z demo_env (mkPacket (replicate 120 0xcc) 0 0 0) s = Some (eCRV_OK, p2, s2) /\
    load32 (pkt_data p2) 16 = Some q /\ CondSwapFromBus32 q = ctr_of 0 904 512.
Proof.
  refine (@motu_pad_clears_time Z demo_env (mkPacket (replicate 120 0xcc) 0 0 0)
    (sh_with_timestamp 15360000 true (motu_demo_tx 8 8 (Z.of_nat <$> seq 1 64))) (motu_ring (Z.of_nat <$> seq 1 64))
    (fun i => 15360000 + 512 * i) 1 5000 512 eq_refl _ eq_refl eq_refl _ _ eq_refl eq_refl _ _ eq_refl _).
  - done.
  - intros i Hi. assert (i = 0 \/ i = 1 \/ i = 2 \/ i = 3 \/ i = 4 \/ i = 5 \/ i = 6 \/ i = 7) as
      [->|[->|[->|[->|[->|[->|[->| ->]]]]]]] by (change (mt_frames _) with 8 in Hi; lia); vm_compute; reflexivity.
  - by apply motu_buffer_wf.
  - done.
  - done.
  - done.
Defined.
