(* ===== verification/Amdtp.v ===== *)
(** * Amdtp: the ports of AMDTP streams

    What AmdtpReceiveStreamProcessor and AmdtpTransmitStreamProcessor share:
    the ports with their positions in the event cluster, the caches that the
    two build from them, and the sample rates. *)
From stdpp Require Import gmap strings.
From S2P Require Import Prelude Serialize Memory Ports MachineFloat CycleTimer RingBuffer TimestampedBuffer StreamProcessor StreamWorld.

(** AmdtpStreamProcessor-common.h *)
Definition IEC61883_AM824_LABEL_MIDI_NO_DATA : Z := 0x80.
Definition IEC61883_AM824_LABEL_MIDI_1X : Z := 0x81.
Definition IEC61883_AM824_LABEL_MIDI_2X : Z := 0x82.
Definition IEC61883_AM824_LABEL_MIDI_3X : Z := 0x83.
Definition IEC61883_AM824_SET_LABEL (x y : Z) : Z := Z.lor x (u32 (Z.shiftl y 24)).
Definition IEC61883_AM824_HAS_LABEL (x lbl : Z) : bool := Z.land x 0xFF000000 =? u32 (Z.shiftl lbl 24).

(** AmdtpPortInfo.h *)
Inductive E_Formats := E_MBLA | E_Midi | E_SPDIF.

#[export] Instance E_Formats_dec : EqDecision E_Formats.
Proof. solve_decision. Defined.

Record AmdtpPortInfo := mkAmdtpPortInfo { m_position : Z; m_location : Z; m_format : E_Formats }.

Abbreviation AmdtpPort := (Port AmdtpPortInfo).

(** [unsigned int getPosition()] of an [int] position *)
Definition getPosition (p : AmdtpPort) : Z := u32 (m_position (pt_info p)).
Definition getLocation (p : AmdtpPort) : Z := u32 (m_location (pt_info p)).
Definition getFormat (p : AmdtpPort) : E_Formats := m_format (pt_info p).

(** [dynamic_cast<AmdtpAudioPort *>] and [dynamic_cast<AmdtpMidiPort *>]: the
    constructors of the classes fix the port type. *)
Definition is_AmdtpAudioPort (p : AmdtpPort) : bool := bool_decide (pt_PortType p = E_Audio).
Definition is_AmdtpMidiPort (p : AmdtpPort) : bool := bool_decide (pt_PortType p = Ports.E_Midi).

(** *** The caches *)

(** [buffer_size] is there in a debug build only *)
Record MBLA_port_cache := mkMBLA { mc_port : Z; mc_buffer : option Z; mc_enabled : bool; mc_buffer_size : Z }.

Record MIDI_port_cache := mkMIDI {
  mm_port : Z; mm_buffer : option Z; mm_enabled : bool; mm_position : Z; mm_location : Z; mm_buffer_size : Z }.

Record port_caches := mkCaches {
  pc_audio_ports : list MBLA_port_cache; pc_nb_audio_ports : Z;
  pc_midi_ports : list MIDI_port_cache; pc_nb_midi_ports : Z }.

Definition count_format (f : E_Formats) (ports : list AmdtpPort) : Z :=
  Z.of_nat (length (filter (fun p => getFormat p = f) ports)).

(** the ports are searched for the position [idx] *)
Definition port_at (idx : Z) (ports : list AmdtpPort) : option AmdtpPort :=
  snd <$> list_find (fun p => getPosition p = idx) ports.

(** [enabled] is not initialised here; [updatePortCache] sets it before it is
    read *)
Definition new_MBLA (p : AmdtpPort) : MBLA_port_cache := mkMBLA (pt_address p) None false (pt_buffersize p).

Definition new_MIDI (p : AmdtpPort) : MIDI_port_cache :=
  mkMIDI (pt_address p) None false (getPosition p) (getLocation p) (pt_buffersize p).

(** the loop over the audio positions: the vector so far, and [false] when it
    returns with an error *)
Fixpoint cache_audio_ports (ports : list AmdtpPort) (idx : Z) (n : nat) : bool * list MBLA_port_cache :=
  match n with
  | O => (true, [])
  | S n' =>
      match port_at idx ports with
      | None => (false, [])
      | Some p =>
          if is_AmdtpAudioPort p then
            let '(ok, l) := cache_audio_ports ports (idx + 1) n' in (ok, new_MBLA p :: l)
          else (false, [])
      end
  end.

Definition initPortCache (ports : list AmdtpPort) : bool * port_caches :=
  let nb_audio_ports := count_format E_MBLA ports in
  let nb_midi_ports := count_format E_Midi ports in
  let '(ok, audio_ports) := cache_audio_ports ports 0 (Z.to_nat nb_audio_ports) in
  if ok then
    (true, mkCaches audio_ports nb_audio_ports (new_MIDI <$> filter (fun p => is_AmdtpMidiPort p = true) ports) nb_midi_ports)
  else (false, mkCaches audio_ports nb_audio_ports [] nb_midi_ports).

(** The port that a pointer in a cache leads to. *)
Definition find_port (address : Z) (ports : list AmdtpPort) : option AmdtpPort :=
  snd <$> list_find (fun p => pt_address p = address) ports.

Definition refresh_MBLA (ports : list AmdtpPort) (c : MBLA_port_cache) : option MBLA_port_cache :=
  port ← find_port (mc_port c) ports;
  Some (mkMBLA (mc_port c) (Port_getBufferAddress port) (negb (Port_isDisabled port)) (pt_buffersize port)).

Definition refresh_MIDI (ports : list AmdtpPort) (c : MIDI_port_cache) : option MIDI_port_cache :=
  port ← find_port (mm_port c) ports;
  Some (mkMIDI (mm_port c) (Port_getBufferAddress port) (negb (Port_isDisabled port)) (mm_position c) (mm_location c)
          (pt_buffersize port)).

(** [for (idx = 0; idx < nb; idx++)] over [at(idx)], which throws past the end *)
Definition update_cache {C} (refresh : C -> option C) (nb : Z) (l : list C) : option (list C) :=
  for_loop nb (fun idx l => c ← l !! Z.to_nat idx; c1 ← refresh c; Some (<[Z.to_nat idx := c1]> l)) l.

Definition updatePortCache (ports : list AmdtpPort) (pc : port_caches) : option port_caches :=
  audio ← update_cache (refresh_MBLA ports) (pc_nb_audio_ports pc) (pc_audio_ports pc);
  midi ← update_cache (refresh_MIDI ports) (pc_nb_midi_ports pc) (pc_midi_ports pc);
  Some (mkCaches audio (pc_nb_audio_ports pc) midi (pc_nb_midi_ports pc)).

(** *** Rates *)

(** 0 for an unsupported rate *)
Definition getSytInterval (rate : Z) : Z :=
  if (rate =? 32000) || (rate =? 44100) || (rate =? 48000) then 8
  else if (rate =? 88200) || (rate =? 96000) then 16
  else if (rate =? 176400) || (rate =? 192000) then 32
  else 0.

(** the world of an AMDTP stream processor with the subclass [C] *)
Abbreviation sp_world := (port_world AmdtpPortInfo).
