(* ===== verification/AmdtpReceive.v ===== *)
(** * AmdtpReceive: libstreaming/amdtp/AmdtpReceiveStreamProcessor.cpp

    The subclass of the stream processor that takes AMDTP packets apart: the
    header gives the presentation time, the payload goes to the ring buffer as
    it is, and the client's side demultiplexes the events to the buffers of
    its ports. *)
From stdpp Require Import gmap.
From S2P Require Import Prelude Serialize Memory Ports CycleTimer MachineFloat RingBuffer TimestampedBuffer StreamProcessor StreamWorld Cip Amdtp MidiQueue.

Record AmdtpReceiveStreamProcessor := mkAmdtpReceive {
  rx_dimension : Z;
  rx_syt_interval : Z;
  rx_caches : port_caches;
  rx_midibuffer : list Z;
  rx_mb_head : Z;
  rx_mb_tail : Z }.

(** [midibuffer] is not initialised: any 64 words *)
Definition AmdtpReceiveStreamProcessor_new (dimension : Z) (midibuffer : list Z) : AmdtpReceiveStreamProcessor :=
  mkAmdtpReceive dimension 0 (mkCaches [] 0 [] 0) midibuffer 0 0.

Definition rx_with_caches (n : Z) (pc : port_caches) (r : AmdtpReceiveStreamProcessor) : AmdtpReceiveStreamProcessor :=
  mkAmdtpReceive (rx_dimension r) n pc (rx_midibuffer r) (rx_mb_head r) (rx_mb_tail r).

Section AmdtpReceive.
Context {W : Type} `{SPEnv W}.
Variable DEBUG : bool.
Variable getAudioDataType : W -> eADT_AudioDataType.

Abbreviation E := (sp_world AmdtpReceiveStreamProcessor W).
Abbreviation S := (sp_shared E).

(** ** Packets *)

Definition rx_getSytInterval (e : E) : Z := getSytInterval (spm_getNominalRate e).

Definition rx_prepareChild (s : S) : option (bool * S) :=
  let e := sh_env s in
  let '(ok, pc) := initPortCache (w_ports e) in
  Some (ok, sh_with_env (w_with_child (rx_with_caches (rx_getSytInterval e) pc (w_child e)) e) s).

(** the fields are read before the length is checked *)
Definition rx_processPacketHeader (data : list Z) (length tag sy pkt_ctr : Z) (s : S) : option (eChildReturnValue * S) :=
  packet ← cip_of_bytes data;
  let ok := negb (pk_syt packet =? 0xFFFF) && negb (pk_fdf packet =? 0xFF) && (pk_fmt packet =? 0x10) &&
            (0 <? pk_dbs packet) && (2 * 4 <=? length) in
  if ok then
    let ts := sytRecvToFullTicks2 (CondSwapFromBus16 (pk_syt packet)) pkt_ctr in
    Some (eCRV_OK, sh_with_timestamp ts (sh_correct_last_timestamp s) s)
  else Some (eCRV_Invalid, s).

(** The number of events, from the rate code; a division by zero is undefined. *)
Definition rx_nevents (packet : iec61883_packet) (length : Z) : option Z :=
  let fdf := pk_fdf packet in
  if (fdf =? 0x00) || (fdf =? 0x01) || (fdf =? 0x02) then Some 8
  else if (fdf =? 0x03) || (fdf =? 0x04) then Some 16
  else if (fdf =? 0x05) || (fdf =? 0x06) then Some 32
  else if pk_dbs packet =? 0 then None
  else Some (u32 (u64 (length / 4 - 2) / pk_dbs packet)).

(** a debug build divides by the number of events to print the quotient *)
Definition rx_processPacketData (data : list Z) (length : Z) (s : S) : option (eChildReturnValue * S) :=
  packet ← cip_of_bytes data;
  nevents ← rx_nevents packet length;
  if DEBUG && (nevents =? 0) then None
  else
    '(ok, b) ← writeFrames nevents (drop 8 data) (f64_of_Z (sh_last_timestamp s)) (sh_data_buffer s);
    Some (if ok : bool then eCRV_OK else eCRV_XRun, sh_with_data_buffer b s).

(** ** Demultiplexing *)

Definition rx_port_ok (buffer_size nevents offset : Z) : bool := negb DEBUG || (u32 (nevents + offset) <=? buffer_size).

(** [if(p.buffer && p.enabled)] *)
Definition port_active (buffer : option Z) (enabled : bool) : bool := bool_decide (is_Some buffer) && enabled.

(** One audio port: event [j] is [m_dimension] quadlets after event [j - 1]. *)
Definition decode_audio_port (sample : Z -> Z) (dimension : Z) (data : list Z) (i offset nevents : Z)
  (p : MBLA_port_cache) (m : memory) : option memory :=
  for_loop nevents (fun j m =>
    q ← load_quadlet data (i + j * dimension);
    mem_store (mc_buffer p) (offset + j) (sample (CondSwapFromBus32 q)) m) m.

(** the loop over the ports, which the two decoders share *)
Definition decode_audio_ports (sample : Z -> Z) (dimension : Z) (pc : port_caches) (data : list Z) (offset nevents : Z)
  (m : memory) : option memory :=
  for_loop (pc_nb_audio_ports pc) (fun i m =>
    p ← pc_audio_ports pc !! Z.to_nat i;
    if negb (rx_port_ok (mc_buffer_size p) nevents offset) then None
    else if port_active (mc_buffer p) (mc_enabled p) then decode_audio_port sample dimension data i offset nevents p m
    else Some m) m.

(** an event as a 24 bit integer *)
Definition int24_sample (v : Z) : Z := Z.land v 0x00FFFFFF.

Definition rx_multiplier : float := f32_div (f32_of_Z 1) (f32_of_Z 0x7FFFFF).

(** an event as the word of a [float]: the sign of the 24 bit integer is
    extended by a shift and a division *)
Definition float_sample (v : Z) : Z :=
  let v := Z.land v 0x00FFFFFF in
  let tmp := s32 (u32 (Z.shiftl v 8)) `quot` 256 in
  bits_of_f32 (f32_mul (f32_of_Z tmp) rx_multiplier).

Definition decodeAudioPortsInt24 : Z -> port_caches -> list Z -> Z -> Z -> memory -> option memory :=
  decode_audio_ports int24_sample.

Definition decodeAudioPortsFloat : Z -> port_caches -> list Z -> Z -> Z -> memory -> option memory :=
  decode_audio_ports float_sample.

(** one event of a port *)
Definition decode_midi_event (dimension : Z) (data : list Z) (p : MIDI_port_cache) (j : Z) (t : midi_state)
  : option midi_state :=
  q ← load_quadlet data (j * dimension + mm_position p);
  let sample_int := CondSwapFromBus32 q in
  t1 ← (if IEC61883_AM824_HAS_LABEL sample_int IEC61883_AM824_LABEL_MIDI_1X then
          midi_put (Z.lor (Z.land (Z.shiftr sample_int 16) 0x000000FF) 0x01000000) t
        else Some t);
  midi_get j (mm_buffer p) t1.

Definition decode_midi_port (dimension : Z) (data : list Z) (offset nevents : Z) (p : MIDI_port_cache) (t : midi_state)
  : option midi_state :=
  m ← mem_clear (mm_buffer p) offset nevents (md_mem t);
  for_loop nevents (decode_midi_event dimension data p) (mkMidi (md_buf t) (md_head t) (md_tail t) offset m).

Definition decodeMidiPorts (dimension : Z) (pc : port_caches) (data : list Z) (offset nevents : Z) (t : midi_state)
  : option midi_state :=
  for_loop (pc_nb_midi_ports pc) (fun i t =>
    p ← pc_midi_ports pc !! Z.to_nat i;
    if port_active (mm_buffer p) (mm_enabled p) then decode_midi_port dimension data offset nevents p t else Some t) t.

Definition rx_processReadBlock (data : list Z) (nevents offset : Z) (e : E) : option (bool * E) :=
  let r := w_child e in
  pc ← updatePortCache (w_ports e) (rx_caches r);
  m ← (match getAudioDataType (w_outside e) with
       | eADT_Int24 => decodeAudioPortsInt24 (rx_dimension r) pc data offset nevents (w_memory e)
       | eADT_Float => decodeAudioPortsFloat (rx_dimension r) pc data offset nevents (w_memory e)
       end);
  t ← decodeMidiPorts (rx_dimension r) pc data offset nevents (mkMidi (rx_midibuffer r) (rx_mb_head r) (rx_mb_tail r) offset m);
  let r1 := mkAmdtpReceive (rx_dimension r) (rx_syt_interval r) pc (md_buf t) (md_head t) (md_tail t) in
  Some (true, w_with_memory (md_mem t) (w_with_child r1 e)).

(** ** The subclass *)

(** The functions of a transmitter are those of the base class: a warning and
    an error. *)
#[export] Instance AmdtpReceive_SPChild : SPChild E := {|
  getEventsPerFrame e := u32 (rx_dimension (w_child e));
  getEventSize _ := 4;
  getNominalFramesPerPacket := rx_getSytInterval;
  prepareChild := rx_prepareChild;
  processPacketHeader := rx_processPacketHeader;
  processPacketData := rx_processPacketData;
  generatePacketHeader p _ s := Some (eCRV_Invalid, p, s);
  generatePacketData p s := Some (eCRV_Invalid, p, s);
  generateEmptyPacketHeader p _ s := Some (eCRV_Invalid, p, s);
  generateEmptyPacketData p s := Some (eCRV_Invalid, p, s);
  generateSilentPacketHeader p _ s := Some (eCRV_Invalid, p, s);
  generateSilentPacketData p s := Some (eCRV_Invalid, p, s);
  processReadBlock := rx_processReadBlock;
  processWriteBlock data _ _ e := Some (false, data, e);
  transmitSilenceBlock data _ _ e := Some (false, data, e) |}.

Definition rx_getMaxPacketSize (e : E) : Z := u32 (4 * (2 + u32 (rx_getSytInterval e * rx_dimension (w_child e)))).

(** The subclass keeps the promise that the state machine relies on. *)
#[export] Instance AmdtpReceive_SPChildLaws : SPChildLaws.
Proof.
  split; intros; intros s x s1; cbn; try (by intros [= <- <-]).
  - unfold rx_prepareChild. destruct (initPortCache _). by intros [= <- <-].
  - unfold rx_processPacketHeader. intros (packet & _ & Hr)%bind_Some. case_match; by injection Hr as <- <-.
  - unfold rx_processPacketData. intros (packet & _ & (nevents & _ & Hr)%bind_Some)%bind_Some.
    case_match; [done|]. apply bind_Some in Hr as ([ok b] & Hw & Hr). injection Hr as <- <-. cbn.
    by apply writeFrames_transparent in Hw.
Qed.
End AmdtpReceive.

(** ** Demultiplexing is correct *)

Section demultiplexing.
Variable DEBUG : bool.

Definition audio_active (p : MBLA_port_cache) : bool := port_active (mc_buffer p) (mc_enabled p).

(** The ports of a cache and the memory fit a block of [nevents] events: the
    buffers of the active ports are large enough and different. *)
Record audio_fits (pc : port_caches) (dimension offset nevents : Z) (m : memory) : Prop := {
  af_nb : pc_nb_audio_ports pc = Z.of_nat (length (pc_audio_ports pc));
  af_dimension : pc_nb_audio_ports pc <= dimension;
  af_range : 0 <= offset /\ 0 <= nevents;
  af_debug i p : pc_audio_ports pc !! i = Some p -> rx_port_ok DEBUG (mc_buffer_size p) nevents offset = true;
  af_buffer i p : pc_audio_ports pc !! i = Some p -> audio_active p = true -> mem_has m (mc_buffer p) (offset + nevents);
  af_different i j p q : pc_audio_ports pc !! i = Some p -> pc_audio_ports pc !! j = Some q ->
    audio_active p = true -> audio_active q = true -> mc_buffer p = mc_buffer q -> i = j }.

(** the words [offset .. offset + nevents) of the buffer of a port *)
Definition in_buffer (p : MBLA_port_cache) (offset nevents : Z) (b : option Z) (k : Z) : Prop :=
  b = mc_buffer p /\ offset <= k < offset + nevents.

Lemma decode_audio_port_spec sample dimension data i offset nevents p m :
  0 <= i < dimension -> 0 <= offset -> 0 <= nevents -> 4 * (nevents * dimension) <= Z.of_nat (length data) ->
  mem_has m (mc_buffer p) (offset + nevents) ->
  exists m1, decode_audio_port sample dimension data i offset nevents p m = Some m1 /\
    (forall j, 0 <= j < nevents -> exists q, load_quadlet data (i + j * dimension) = Some q /\
       mem_load m1 (mc_buffer p) (offset + j) = Some (sample (CondSwapFromBus32 q))) /\
    (forall b k, ~ in_buffer p offset nevents b k -> mem_load m1 b k = mem_load m b k) /\
    (forall b n, mem_has m b n -> mem_has m1 b n).
Proof.
  intros Hi Ho Hn Hd Hm. unfold decode_audio_port.
  destruct (for_loop_rule (fun n m1 =>
    (forall j, 0 <= j < n -> exists q, load_quadlet data (i + j * dimension) = Some q /\
       mem_load m1 (mc_buffer p) (offset + j) = Some (sample (CondSwapFromBus32 q))) /\
    (forall b k, ~ in_buffer p offset n b k -> mem_load m1 b k = mem_load m b k) /\
    (forall b n, mem_has m b n -> mem_has m1 b n))
    (fun j m => q ← load_quadlet data (i + j * dimension); mem_store (mc_buffer p) (offset + j) (sample (CondSwapFromBus32 q)) m)
    nevents m) as (m1 & -> & H1); [done| | |by exists m1].
  - split; [intros; lia|]. by split.
  - intros j m1 Hj (Hdone & Hframe & Hhas).
    destruct (load_quadlet_some data (i + j * dimension)) as [q Hq]; [nia..|]. rewrite Hq. cbn [mbind option_bind].
    destruct (mem_store_some (mc_buffer p) (offset + j) (sample (CondSwapFromBus32 q)) m1 (offset + nevents)) as [m2 Hs];
      [by apply Hhas|lia|]. exists m2. split; [done|].
    destruct (mem_store_inv _ _ _ _ _ Hs) as (Hv & Hother & Hhas2). split; [|split].
    + intros k Hk. destruct (Z.eq_dec k j) as [->|Hne]; [by exists q|].
      destruct (Hdone k) as (qk & ? & ?); [lia|]. exists qk. split; [done|]. rewrite Hother; [done|right; lia].
    + intros b k Hnot. rewrite Hother.
      * apply Hframe. intros [Hb Hk]. apply Hnot. split; [done|lia].
      * destruct (decide (b = mc_buffer p)) as [->|]; [right|by left]. intros ->. apply Hnot. split; [done|lia].
    + intros b n Hb. by apply Hhas2, Hhas.
Qed.

(** The decoders, for any conversion of a sample. *)
Lemma decode_audio_ports_spec sample dimension pc data offset nevents m :
  audio_fits pc dimension offset nevents m -> 4 * (nevents * dimension) <= Z.of_nat (length data) ->
  exists m1, decode_audio_ports DEBUG sample dimension pc data offset nevents m = Some m1 /\
    (forall i p j, pc_audio_ports pc !! i = Some p -> audio_active p = true -> 0 <= j < nevents ->
       exists q, load_quadlet data (Z.of_nat i + j * dimension) = Some q /\
         mem_load m1 (mc_buffer p) (offset + j) = Some (sample (CondSwapFromBus32 q))) /\
    (forall b k, (forall i p, pc_audio_ports pc !! i = Some p -> audio_active p = true -> ~ in_buffer p offset nevents b k) ->
       mem_load m1 b k = mem_load m b k).
Proof.
  intros Hf Hd. pose proof (af_range _ _ _ _ _ Hf) as [Ho Hn]. unfold decode_audio_ports.
  destruct (for_loop_rule (fun n m1 =>
    (forall i p j, Z.of_nat i < n -> pc_audio_ports pc !! i = Some p -> audio_active p = true -> 0 <= j < nevents ->
       exists q, load_quadlet data (Z.of_nat i + j * dimension) = Some q /\
         mem_load m1 (mc_buffer p) (offset + j) = Some (sample (CondSwapFromBus32 q))) /\
    (forall b k, (forall i p, Z.of_nat i < n -> pc_audio_ports pc !! i = Some p -> audio_active p = true ->
       ~ in_buffer p offset nevents b k) -> mem_load m1 b k = mem_load m b k) /\
    (forall b n, mem_has m b n -> mem_has m1 b n))
    (fun i m => p ← pc_audio_ports pc !! Z.to_nat i;
       if negb (rx_port_ok DEBUG (mc_buffer_size p) nevents offset) then None
       else if port_active (mc_buffer p) (mc_enabled p) then decode_audio_port sample dimension data i offset nevents p m
       else Some m) (pc_nb_audio_ports pc) m) as (m1 & -> & Hdone & Hframe & _).
  - rewrite (af_nb _ _ _ _ _ Hf). lia.
  - split; [intros; lia|]. by split.
  - intros i m1 Hi (Hdone & Hframe & Hhas). pose proof (af_nb _ _ _ _ _ Hf) as Hnb.
    destruct (lookup_lt_is_Some_2 (pc_audio_ports pc) (Z.to_nat i)) as [p Hp]; [lia|]. rewrite Hp. cbn [mbind option_bind].
    rewrite (af_debug _ _ _ _ _ Hf _ _ Hp). cbn [negb]. fold (audio_active p). destruct (audio_active p) eqn:Ha.
    + pose proof (af_dimension _ _ _ _ _ Hf).
      destruct (decode_audio_port_spec sample dimension data i offset nevents p m1) as (m2 & -> & H1 & H2 & H3);
        [lia|done..|apply Hhas; by eapply (af_buffer _ _ _ _ _ Hf)|].
      exists m2. split; [done|]. split; [|split].
      * intros i' p' j Hi' Hp' Ha' Hj. destruct (Z.eq_dec (Z.of_nat i') i) as [Heq|Hne].
        { replace (Z.to_nat i) with i' in Hp by lia. rewrite Hp' in Hp. injection Hp as ->. rewrite Heq. by apply H1. }
        destruct (Hdone i' p' j) as (q & ? & Hq); [lia|done..|]. exists q. split; [done|]. rewrite H2; [done|].
        intros [Hb _]. assert (i' = Z.to_nat i) by (by eapply (af_different _ _ _ _ _ Hf)). lia.
      * intros b k Hnot. rewrite H2 by (apply (Hnot (Z.to_nat i) p); [lia|done..]).
        apply Hframe. intros i' p' Hi'. apply Hnot. lia.
      * intros b n Hb. by apply H3, Hhas.
    + exists m1. split; [done|]. split; [|split; [|done]].
      * intros i' p' j Hi' Hp' Ha'. apply Hdone; [|done..]. destruct (Z.eq_dec (Z.of_nat i') i); [|lia].
        replace (Z.to_nat i) with i' in Hp by lia. congruence.
      * intros b k Hnot. apply Hframe. intros i' p' Hi'. apply Hnot. lia.
  - exists m1. split; [done|]. split.
    + intros i p j Hp. apply Hdone; [|done]. apply lookup_lt_Some in Hp. rewrite (af_nb _ _ _ _ _ Hf). lia.
    + intros b k Hnot. apply Hframe. intros i p _. by apply Hnot.
Qed.
End demultiplexing.

(** ** The MIDI events of a block *)

Definition midi_byte (v : Z) : option Z :=
  if IEC61883_AM824_HAS_LABEL v IEC61883_AM824_LABEL_MIDI_1X
  then Some (Z.lor (Z.land (Z.shiftr v 16) 0x000000FF) 0x01000000) else None.

(** C34: decoding a block of MIDI events is the reference transducer: the words
    of the port's buffer become the output of the queue, one byte at most in
    every eighth slot and in the order of arrival, zero elsewhere; what is
    queued is what the reference keeps, so nothing is lost while at most 63
    bytes wait; and no other memory changes.  The loop ends. *)
Theorem decode_midi_port_refines dimension data offset nevents p (evs : list (option Z)) (t : midi_state) :
  0 <= offset -> Z.of_nat (length evs) = nevents -> midi_ok t -> mem_has (md_mem t) (mm_buffer p) (offset + nevents) ->
  (forall k ev, evs !! k = Some ev -> exists w, load_quadlet data (Z.of_nat k * dimension + mm_position p) = Some w /\
     ev = midi_byte (CondSwapFromBus32 w)) ->
  let '(outs, q) := midi_reference evs (midi_queue t) in
  exists t1, decode_midi_port dimension data offset nevents p t = Some t1 /\ midi_ok t1 /\ midi_queue t1 = q /\
    (forall k, 0 <= k < nevents -> mem_load (md_mem t1) (mm_buffer p) (offset + k) = outs !! Z.to_nat k) /\
    (forall b k, ~ (b = mm_buffer p /\ offset <= k < offset + nevents) -> mem_load (md_mem t1) b k = mem_load (md_mem t) b k).
Proof.
  intros Ho Hl Hok Hm Hev.
  pose proof (midi_block_refines (decode_midi_event dimension data p) (mm_buffer p) offset nevents evs t Ho Hl Hok Hm) as Hb.
  destruct (midi_reference evs (midi_queue t)) as [outs q]. destruct Hb as (t1 & Ht1 & H1 & H2 & H3 & H4 & _); [|by exists t1].
  intros k ev u (w & Hw & ->)%Hev. unfold decode_midi_event, midi_event, midi_byte. rewrite Hw. cbn [mbind option_bind]. by case_match.
Qed.

(** two events: the MIDI byte 0x90 in the first *)
Definition midi_frame : list Z := [0x40; 0; 0; 7; 0x81; 0x90; 0; 0; 0x40; 0; 0; 8; 0x80; 0; 0; 0].

Lemma decode_midi_port_refines_witness :
  let t := mkMidi (replicate 64 0) 0 0 0 {[9 := [5; 5; 5; 5]]} in
  exists t1, decode_midi_port 2 midi_frame 1 2 (mkMIDI 1 (Some 9) true 1 0 8) t = Some t1 /\
    midi_queue t1 = [] /\ mem_load (md_mem t1) (Some 9) 1 = Some 0x01000090 /\ mem_load (md_mem t1) (Some 9) 0 = Some 5.
Proof.
  intros t.
  pose proof (decode_midi_port_refines 2 midi_frame 1 2 (mkMIDI 1 (Some 9) true 1 0 8) [Some 0x01000090; None] t) as H.
  destruct H as (t1 & Hd & _ & Hq & Hv & Hf).
  - lia.
  - reflexivity.
  - split; [reflexivity|split; cbn; lia].
  - exists 9, [5; 5; 5; 5]. split; [reflexivity|]. split; [reflexivity|]. cbn. lia.
  - intros [|[|k]] ev Hk; [| |discriminate Hk]; injection Hk as <-; eexists; (split; [reflexivity|vm_compute; reflexivity]).
  - exists t1. split; [exact Hd|]. split; [exact Hq|]. split.
    + refine (eq_trans (Hv 0 _) _); [lia|reflexivity].
    + refine (eq_trans (Hf (Some 9) 0 _) _); [intros [_ Hk]; lia|reflexivity].
Defined.
