(* ===== verification/AmdtpTransmit.v ===== *)
(** * AmdtpTransmit: libstreaming/amdtp/AmdtpTransmitStreamProcessor.cpp

    The subclass of the stream processor that builds AMDTP packets: it decides
    from the presentation time of the next frames whether the present cycle is
    the one to send them, writes the header, and on the client's side
    multiplexes the buffers of the ports into events.  The encoders are those
    of a machine without SSE2; AmdtpSse.v has the others. *)
From stdpp Require Import gmap.
From S2P Require Import Prelude Serialize Memory Ports CycleTimer MachineFloat RingBuffer TimestampedBuffer StreamProcessor StreamWorld Cip Amdtp.

(** config.h *)
Definition AMDTP_TRANSMIT_TRANSFER_DELAY : Z := 8704.
Definition AMDTP_MIN_CYCLES_BEFORE_PRESENTATION : Z := 1.
Definition AMDTP_MAX_CYCLES_TO_TRANSMIT_EARLY : Z := 1.
Definition AMDTP_SEND_PAYLOAD_IN_NODATA_XMIT_BY_DEFAULT : bool := true.
Definition AMDTP_FLOAT_MULTIPLIER : float := f32_mul (f32_of_Z 1) (f32_of_Z (2 ^ 23 - 1)).

(** [m_max_cycles_to_transmit_early], [m_transmit_transfer_delay] and
    [m_min_cycles_before_presentation] *)
Record amdtp_timing := mkTiming { at_max_early : Z; at_transfer_delay : Z; at_min_before : Z }.

Record AmdtpTransmitStreamProcessor := mkAmdtpTransmit {
  tx_dimension : Z;
  tx_syt_interval : Z;
  tx_fdf : Z;
  tx_dbc : Z;
  tx_send_nodata_payload : bool;
  tx_timing : amdtp_timing;
  tx_cip_status : option iec61883_cip;
  tx_caches : port_caches }.

Definition AmdtpTransmitStreamProcessor_new (dimension : Z) : AmdtpTransmitStreamProcessor :=
  mkAmdtpTransmit dimension 0 0 0 AMDTP_SEND_PAYLOAD_IN_NODATA_XMIT_BY_DEFAULT
    (mkTiming AMDTP_MAX_CYCLES_TO_TRANSMIT_EARLY AMDTP_TRANSMIT_TRANSFER_DELAY AMDTP_MIN_CYCLES_BEFORE_PRESENTATION)
    None (mkCaches [] 0 [] 0).

Definition tx_with_dbc (dbc : Z) (t : AmdtpTransmitStreamProcessor) : AmdtpTransmitStreamProcessor :=
  mkAmdtpTransmit (tx_dimension t) (tx_syt_interval t) (tx_fdf t) dbc (tx_send_nodata_payload t) (tx_timing t)
    (tx_cip_status t) (tx_caches t).

Definition tx_with_caches (pc : port_caches) (t : AmdtpTransmitStreamProcessor) : AmdtpTransmitStreamProcessor :=
  mkAmdtpTransmit (tx_dimension t) (tx_syt_interval t) (tx_fdf t) (tx_dbc t) (tx_send_nodata_payload t) (tx_timing t)
    (tx_cip_status t) pc.

(** the rate codes of libiec61883 *)
Definition getFDF (rate : Z) : Z :=
  if rate =? 32000 then 0 else if rate =? 44100 then 1 else if rate =? 48000 then 2
  else if rate =? 88200 then 3 else if rate =? 96000 then 4 else if rate =? 176400 then 5
  else if rate =? 192000 then 6 else 0.

Section AmdtpTransmit.
Context {W : Type} `{SPEnv W}.
Variable DEBUG : bool.
Variable getAudioDataType : W -> eADT_AudioDataType.

Abbreviation E := (sp_world AmdtpTransmitStreamProcessor W).
Abbreviation S := (sp_shared E).

Definition tx_getSytInterval (e : E) : Z := getSytInterval (spm_getNominalRate e).

Definition tx_child (s : S) : AmdtpTransmitStreamProcessor := w_child (sh_env s).

Definition on_tx (f : AmdtpTransmitStreamProcessor -> AmdtpTransmitStreamProcessor) (s : S) : S :=
  sh_with_env (w_with_child (f (tx_child s)) (sh_env s)) s.

(** ** Packets *)

(** A data packet: the rate code, the SYT of the timestamp ([uint32_t]), the
    length and the number of events. *)
Definition fillDataPacketHeader (t : AmdtpTransmitStreamProcessor) (ts : Z) : Z * Z * Z * Z :=
  (tx_fdf t, CondSwapToBus16 (u16 (TICKS_TO_SYT (u32 ts))),
   u32 (u64 (u64 (tx_syt_interval t * 4) * tx_dimension t + 8)), tx_syt_interval t).

Definition fillNoDataPacketHeader (t : AmdtpTransmitStreamProcessor) : Z * Z * Z * Z :=
  if tx_send_nodata_payload t then
    (IEC61883_FDF_NODATA, 0xffff, u32 (u64 (2 * 4 + u64 (u32 (tx_syt_interval t * tx_dimension t) * 4))), tx_syt_interval t)
  else (IEC61883_FDF_NODATA, 0xffff, 2 * 4, 0).

(** The header fields that all packets share, and the four that are filled in. *)
Definition amdtp_header (s : S) (fdf syt : Z) : iec61883_packet :=
  mkCipPacket 0 (sh_local_node_id s) (tx_dimension (tx_child s)) 0 0 0 0 (tx_dbc (tx_child s)) 2 IEC61883_FMT_AMDTP fdf syt.

(** The header is written, and the data block counter advances by [events]. *)
Definition send_header (fill : Z * Z * Z * Z) (p : iso_packet) (s : S) : option (iso_packet * S) :=
  let '(fdf, syt, length, events) := fill in
  data ← write_cip (amdtp_header s fdf syt) (pkt_data p);
  Some (mkPacket data length IEC61883_TAG_WITH_CIP 0, on_tx (fun t => tx_with_dbc (u32 (tx_dbc t + events)) t) s).

(** A packet that only gets its constant fields: [fdf] and [syt] keep the
    bytes of the memory. *)
Definition start_header (p : iso_packet) (s : S) : option iso_packet :=
  old ← cip_of_bytes (pkt_data p);
  data ← write_cip (amdtp_header s (pk_fdf old) (pk_syt old)) (pkt_data p);
  Some (mkPacket data (pkt_length p) IEC61883_TAG_WITH_CIP 0).

(** the data packet of the presentation time *)
Definition send_data_packet (r : eChildReturnValue) (presentation_time : Z) (p : iso_packet) (s : S)
  : option (eChildReturnValue * iso_packet * S) :=
  '(p1, s1) ← send_header (fillDataPacketHeader (tx_child s) presentation_time) p s;
  Some (r, p1, sh_with_timestamp presentation_time (sh_correct_last_timestamp s1) s1).

Definition tx_generatePacketHeader (p : iso_packet) (pkt_ctr : Z) (s : S) : option (eChildReturnValue * iso_packet * S) :=
  p0 ← start_header p s;
  let t := tx_child s in
  let '(ts_head_tmp, fc) := getBufferHeadTimestamp (sh_data_buffer s) in
  presentation_time ← to_uint 64 ts_head_tmp;
  let transmit_at_time := substractTicks presentation_time (at_transfer_delay (tx_timing t)) in
  let presentation_cycle := u32 (TICKS_TO_CYCLES presentation_time) in
  let transmit_at_cycle := u32 (TICKS_TO_CYCLES transmit_at_time) in
  let cycles_until_presentation := diffCycles presentation_cycle (CYCLE_TIMER_GET_CYCLES pkt_ctr) in
  let cycles_until_transmit := diffCycles transmit_at_cycle (CYCLE_TIMER_GET_CYCLES pkt_ctr) in
  if fc <? s32 (tx_syt_interval t) then
    if cycles_until_presentation <=? at_min_before (tx_timing t) then Some (eCRV_XRun, p0, s)
    else Some (eCRV_Again, p0, s)
  else if cycles_until_transmit <? 0 then
    if at_min_before (tx_timing t) <=? cycles_until_presentation then
      send_data_packet (if fc <? s32 (u32 (2 * tx_syt_interval t)) then eCRV_Defer else eCRV_Packet) presentation_time p0 s
    else Some (eCRV_XRun, p0, s)
  else if cycles_until_transmit <=? at_max_early (tx_timing t) then
    send_data_packet (if fc <? s32 (tx_syt_interval t) then eCRV_Defer else eCRV_Packet) presentation_time p0 s
  else Some (eCRV_EmptyPacket, p0, s).

(** the frames are read to the payload; a transparent buffer leaves it *)
Definition tx_generatePacketData (p : iso_packet) (s : S) : option (eChildReturnValue * iso_packet * S) :=
  '(ok, data, b) ← readFrames (tx_syt_interval (tx_child s)) (sh_data_buffer s);
  payload ← memcpy_to (pkt_data p) 8 data;
  Some (if ok : bool then eCRV_OK else eCRV_XRun, mkPacket payload (pkt_length p) (pkt_tag p) (pkt_sy p),
        sh_with_data_buffer b s).

Definition tx_generateSilentPacketHeader (p : iso_packet) (pkt_ctr : Z) (s : S) : option (eChildReturnValue * iso_packet * S) :=
  '(p1, s1) ← send_header (fillNoDataPacketHeader (tx_child s)) p s; Some (eCRV_Packet, p1, s1).

Definition tx_generateSilentPacketData (p : iso_packet) (s : S) : option (eChildReturnValue * iso_packet * S) :=
  Some (eCRV_OK, p, s).

Definition tx_generateEmptyPacketHeader (p : iso_packet) (pkt_ctr : Z) (s : S) : option (eChildReturnValue * iso_packet * S) :=
  '(p1, s1) ← send_header (fillNoDataPacketHeader (tx_child s)) p s; Some (eCRV_OK, p1, s1).

Definition tx_generateEmptyPacketData (p : iso_packet) (s : S) : option (eChildReturnValue * iso_packet * S) :=
  Some (eCRV_OK, p, s).

Definition tx_prepareChild (s : S) : option (bool * S) :=
  let e := sh_env s in
  let t := w_child e in
  let rate := spm_getNominalRate e in
  let syt_interval := tx_getSytInterval e in
  let fdf := getFDF rate in
  let '(ok, pc) := initPortCache (w_ports e) in
  Some (ok, on_tx (fun t => mkAmdtpTransmit (tx_dimension t) syt_interval fdf (tx_dbc t) (tx_send_nodata_payload t)
    (tx_timing t) (Some (iec61883_cip_init IEC61883_FMT_AMDTP fdf rate (tx_dimension t) syt_interval)) pc) s).

(** ** Multiplexing *)

Definition tx_port_ok (buffer_size nevents offset : Z) : bool := negb DEBUG || (u32 (nevents + offset) <=? buffer_size).

Definition tx_active (buffer : option Z) (enabled : bool) : bool := bool_decide (is_Some buffer) && enabled.

(** the label of multi-bit linear audio *)
Definition label_MBLA (v : Z) : Z := CondSwapToBus32 (Z.lor (Z.land v 0x00FFFFFF) 0x40000000).

(** an event for a 24 bit integer *)
Definition encode_int24 (w : Z) : option Z := Some (label_MBLA w).

(** an event for a [float], clipped; the conversion to [int] of a value that
    is not a number is undefined *)
Definition encode_float (w : Z) : option Z :=
  let x := f32_of_bits w in
  if SFltb (f32_of_Z 1) x then Some (ByteSwap32 0x407FFFFF)
  else if SFltb x (f32_of_Z (-1)) then Some (ByteSwap32 0x40800001)
  else v ← to_int 32 (f32_mul x AMDTP_FLOAT_MULTIPLIER); Some (label_MBLA (u32 v)).

(** the events of one port are [m_dimension] quadlets apart *)
Definition encode_audio_port (encode : Z -> option Z) (dimension i offset nevents : Z) (p : MBLA_port_cache) (m : memory)
  (data : list Z) : option (list Z) :=
  for_loop nevents (fun j data =>
    w ← mem_load m (mc_buffer p) (offset + j);
    v ← encode w;
    store_quadlet (i + j * dimension) v data) data.

Definition encode_silent_port (dimension i nevents : Z) (data : list Z) : option (list Z) :=
  for_loop nevents (fun j data => store_quadlet (i + j * dimension) (ByteSwap32 0x40000000) data) data.

Definition encode_audio_ports (encode : Z -> option Z) (dimension : Z) (pc : port_caches) (m : memory) (offset nevents : Z)
  (data : list Z) : option (list Z) :=
  for_loop (pc_nb_audio_ports pc) (fun i data =>
    p ← pc_audio_ports pc !! Z.to_nat i;
    if negb (tx_port_ok (mc_buffer_size p) nevents offset) then None
    else if tx_active (mc_buffer p) (mc_enabled p) then encode_audio_port encode dimension i offset nevents p m data
    else encode_silent_port dimension i nevents data) data.

Definition encodeAudioPortsInt24 : Z -> port_caches -> memory -> Z -> Z -> list Z -> option (list Z) :=
  encode_audio_ports encode_int24.

Definition encodeAudioPortsFloat : Z -> port_caches -> memory -> Z -> Z -> list Z -> option (list Z) :=
  encode_audio_ports encode_float.

Definition encodeAudioPortsSilence (dimension : Z) (pc : port_caches) (nevents : Z) (data : list Z) : option (list Z) :=
  for_loop (pc_nb_audio_ports pc) (fun i data => encode_silent_port dimension i nevents data) data.

Definition midi_no_data : Z := CondSwapToBus32 (IEC61883_AM824_SET_LABEL 0 IEC61883_AM824_LABEL_MIDI_NO_DATA).

(** [for (j = location; j < nevents; j += 8)]: [k] counts the iterations *)
Definition midi_loop {A} (location nevents : Z) (body : Z -> Z -> A -> option A) (x : A) : option A :=
  if location <? nevents then for_loop ((nevents - location + 7) / 8) (fun k x => body k (location + 8 * k) x) x
  else Some x.

(** the word of the port for the event: a byte to send, flagged in the top byte *)
Definition encode_midi (w : Z) : Z :=
  if negb (Z.land w 0xFF000000 =? 0) then
    CondSwapToBus32 (IEC61883_AM824_SET_LABEL (Z.land (u32 (Z.shiftl w 16)) 0x00FF0000) IEC61883_AM824_LABEL_MIDI_1X)
  else midi_no_data.

Definition encode_midi_silence (dimension nevents : Z) (p : MIDI_port_cache) (data : list Z) : option (list Z) :=
  midi_loop (mm_location p) nevents (fun k j data => store_quadlet (j * dimension + mm_position p) midi_no_data data) data.

(** the pointer into the buffer of the port starts at the offset *)
Definition encode_midi_port (dimension : Z) (m : memory) (offset nevents : Z) (p : MIDI_port_cache) (data : list Z)
  : option (list Z) :=
  midi_loop (mm_location p) nevents (fun k j data =>
    w ← mem_load m (mm_buffer p) (offset + 8 * k);
    store_quadlet (j * dimension + mm_position p) (encode_midi w) data) data.

Definition encodeMidiPorts (dimension : Z) (pc : port_caches) (m : memory) (offset nevents : Z) (data : list Z)
  : option (list Z) :=
  for_loop (pc_nb_midi_ports pc) (fun i data =>
    p ← pc_midi_ports pc !! Z.to_nat i;
    if tx_active (mm_buffer p) (mm_enabled p) then encode_midi_port dimension m offset nevents p data
    else encode_midi_silence dimension nevents p data) data.

Definition encodeMidiPortsSilence (dimension : Z) (pc : port_caches) (nevents : Z) (data : list Z) : option (list Z) :=
  for_loop (pc_nb_midi_ports pc) (fun i data =>
    p ← pc_midi_ports pc !! Z.to_nat i; encode_midi_silence dimension nevents p data) data.

Definition tx_processWriteBlock (data : list Z) (nevents offset : Z) (e : E) : option (bool * list Z * E) :=
  let t := w_child e in
  pc ← updatePortCache (w_ports e) (tx_caches t);
  data1 ← (match getAudioDataType (w_outside e) with
           | eADT_Int24 => encodeAudioPortsInt24 (tx_dimension t) pc (w_memory e) offset nevents data
           | eADT_Float => encodeAudioPortsFloat (tx_dimension t) pc (w_memory e) offset nevents data
           end);
  data2 ← encodeMidiPorts (tx_dimension t) pc (w_memory e) offset nevents data1;
  Some (true, data2, w_with_child (tx_with_caches pc t) e).

Definition tx_transmitSilenceBlock (data : list Z) (nevents offset : Z) (e : E) : option (bool * list Z * E) :=
  let t := w_child e in
  data1 ← encodeAudioPortsSilence (tx_dimension t) (tx_caches t) nevents data;
  data2 ← encodeMidiPortsSilence (tx_dimension t) (tx_caches t) nevents data1;
  Some (true, data2, e).

(** ** The subclass *)

#[export] Instance AmdtpTransmit_SPChild : SPChild E := {|
  getEventsPerFrame e := u32 (tx_dimension (w_child e));
  getEventSize _ := 4;
  getNominalFramesPerPacket := tx_getSytInterval;
  prepareChild := tx_prepareChild;
  processPacketHeader _ _ _ _ _ s := Some (eCRV_Invalid, s);
  processPacketData _ _ s := Some (eCRV_Invalid, s);
  generatePacketHeader := tx_generatePacketHeader;
  generatePacketData := tx_generatePacketData;
  generateEmptyPacketHeader := tx_generateEmptyPacketHeader;
  generateEmptyPacketData := tx_generateEmptyPacketData;
  generateSilentPacketHeader := tx_generateSilentPacketHeader;
  generateSilentPacketData := tx_generateSilentPacketData;
  processReadBlock _ _ _ e := Some (false, e);
  processWriteBlock := tx_processWriteBlock;
  transmitSilenceBlock := tx_transmitSilenceBlock |}.

Definition tx_getMaxPacketSize (e : E) : Z := u32 (4 * (2 + u32 (tx_getSytInterval e * tx_dimension (w_child e)))).
End AmdtpTransmit.

(** ** The promise of the subclass *)

Section laws.
Context {W : Type} `{SPEnv W}.
Variable getAudioDataType : W -> eADT_AudioDataType.
Variable DEBUG : bool.

Lemma send_header_buffer fill p (s : sp_shared (sp_world AmdtpTransmitStreamProcessor W)) p1 s1 :
  send_header fill p s = Some (p1, s1) -> sh_data_buffer s1 = sh_data_buffer s.
Proof.
  unfold send_header. destruct fill as [[[fdf syt] len] events].
  destruct (write_cip _ _) as [data|]; [|done]. by intros [= _ <-].
Qed.

Lemma send_data_packet_buffer r ts p (s : sp_shared (sp_world AmdtpTransmitStreamProcessor W)) r1 p1 s1 :
  send_data_packet r ts p s = Some (r1, p1, s1) -> sh_data_buffer s1 = sh_data_buffer s.
Proof.
  unfold send_data_packet. destruct (send_header _ _ _) as [[p2 s2]|] eqn:Hs; [|done].
  intros [= _ _ <-]. by apply send_header_buffer in Hs.
Qed.

Lemma generatePacketHeader_buffer p ctr (s : sp_shared (sp_world AmdtpTransmitStreamProcessor W)) r p1 s1 :
  tx_generatePacketHeader p ctr s = Some (r, p1, s1) -> sh_data_buffer s1 = sh_data_buffer s.
Proof.
  unfold tx_generatePacketHeader. destruct (start_header p s) as [p0|]; [|done]. cbn [mbind option_bind].
  destruct (getBufferHeadTimestamp _) as [ts fc]. destruct (to_uint 64 ts) as [pt|]; [|done]. cbn [mbind option_bind].
  repeat case_match; first [by intros [= _ _ <-]|apply send_data_packet_buffer].
Qed.

#[export] Instance AmdtpTransmit_SPChildLaws : @SPChildLaws _ (AmdtpTransmit_SPChild DEBUG getAudioDataType).
Proof.
  split; intros; intros s x s1; cbn; try (by intros [= <- <-]).
  - unfold tx_prepareChild. destruct (initPortCache _). by intros [= <- <-].
  - destruct x as [r p1]. intros Hr. apply (f_equal isTransparent). by eapply generatePacketHeader_buffer.
  - unfold tx_generatePacketData. intros ([[ok data] b] & Hr & (payload & _ & [= <- <-])%bind_Some)%bind_Some.
    by apply readFrames_transparent in Hr.
  - unfold tx_generateEmptyPacketHeader. intros ([p1 s2] & Hs & [= <- <-])%bind_Some.
    by rewrite (send_header_buffer _ _ _ _ _ Hs).
  - unfold tx_generateSilentPacketHeader. intros ([p1 s2] & Hs & [= <- <-])%bind_Some.
    by rewrite (send_header_buffer _ _ _ _ _ Hs).
Qed.
End laws.

(** ** Multiplexing is correct *)

Section multiplexing.
Variable DEBUG : bool.

Definition tx_audio_active (p : MBLA_port_cache) : bool := tx_active (mc_buffer p) (mc_enabled p).

(** the quadlet of a port in an event: [event w] for a word [w] of its buffer *)
Definition event_of (encode : Z -> option Z) (m : memory) (offset j : Z) (p : MBLA_port_cache) : option Z :=
  if tx_audio_active p then w ← mem_load m (mc_buffer p) (offset + j); encode w else Some (ByteSwap32 0x40000000).

Lemma event_index dimension i j i1 j1 :
  0 <= i < dimension -> 0 <= i1 < dimension -> i + j * dimension = i1 + j1 * dimension -> i = i1 /\ j = j1.
Proof. intros Hi Hi1 He. assert (j = j1) by nia. subst. lia. Qed.

(** what the loop over the events of one port does *)
Lemma store_events_spec (body : Z -> list Z -> option (list Z)) (value : Z -> Z) dimension i nevents data :
  0 <= i < dimension -> 0 <= nevents -> 4 * (nevents * dimension) <= Z.of_nat (length data) ->
  (forall j d, 0 <= j < nevents -> body j d = store_quadlet (i + j * dimension) (value j) d) ->
  exists data1, for_loop nevents body data = Some data1 /\ length data1 = length data /\
    (forall j, 0 <= j < nevents -> load_quadlet data1 (i + j * dimension) = Some (u32 (value j))) /\
    (forall k, (forall j, 0 <= j < nevents -> k <> i + j * dimension) -> load_quadlet data1 k = load_quadlet data k) /\
    (bytes data -> bytes data1).
Proof.
  intros Hi Hn Hd Hbody.
  destruct (for_loop_rule (fun n data1 => length data1 = length data /\
    (forall j, 0 <= j < n -> load_quadlet data1 (i + j * dimension) = Some (u32 (value j))) /\
    (forall k, (forall j, 0 <= j < n -> k <> i + j * dimension) -> load_quadlet data1 k = load_quadlet data k) /\
    (bytes data -> bytes data1)) body nevents data) as (data1 & -> & H1); [done| | |by exists data1].
  - split; [done|]. split; [intros; lia|by split].
  - intros j d1 Hj (Hl & Hdone & Hframe & Hb). rewrite Hbody by done.
    destruct (store_quadlet_some (i + j * dimension) (value j) d1) as [d2 Hs]; [nia|nia|]. exists d2. split; [done|].
    destruct (store_quadlet_inv _ _ _ _ Hs) as (Hl2 & Hv & Ho & Hb2). split; [lia|]. split; [|split; [|auto]].
    + intros k Hk. destruct (Z.eq_dec k j) as [->|Hne]; [done|]. rewrite Ho by nia. apply Hdone. lia.
    + intros k Hk. rewrite Ho by (apply Hk; lia). apply Hframe. intros j1 Hj1. apply Hk. lia.
Qed.

(** The encoders, for any conversion of a word. *)
Lemma encode_audio_ports_spec encode dimension pc m offset nevents data :
  pc_nb_audio_ports pc = Z.of_nat (length (pc_audio_ports pc)) -> pc_nb_audio_ports pc <= dimension -> 0 <= nevents ->
  4 * (nevents * dimension) <= Z.of_nat (length data) ->
  (forall i p, pc_audio_ports pc !! i = Some p -> tx_port_ok DEBUG (mc_buffer_size p) nevents offset = true) ->
  (forall i p j, pc_audio_ports pc !! i = Some p -> 0 <= j < nevents -> is_Some (event_of encode m offset j p)) ->
  exists data1, encode_audio_ports DEBUG encode dimension pc m offset nevents data = Some data1 /\
    length data1 = length data /\
    (forall i p j, pc_audio_ports pc !! i = Some p -> 0 <= j < nevents ->
       load_quadlet data1 (Z.of_nat i + j * dimension) = u32 <$> event_of encode m offset j p) /\
    (forall k, (forall i j, Z.of_nat i < pc_nb_audio_ports pc -> 0 <= j < nevents -> k <> Z.of_nat i + j * dimension) ->
       load_quadlet data1 k = load_quadlet data k) /\
    (bytes data -> bytes data1).
Proof.
  intros Hnb Hdim Hn Hd Hdbg Hev. unfold encode_audio_ports.
  destruct (for_loop_rule (fun n data1 => length data1 = length data /\
    (forall i p j, Z.of_nat i < n -> pc_audio_ports pc !! i = Some p -> 0 <= j < nevents ->
       load_quadlet data1 (Z.of_nat i + j * dimension) = u32 <$> event_of encode m offset j p) /\
    (forall k, (forall i j, Z.of_nat i < n -> 0 <= j < nevents -> k <> Z.of_nat i + j * dimension) ->
       load_quadlet data1 k = load_quadlet data k) /\ (bytes data -> bytes data1))
    (fun i data => p ← pc_audio_ports pc !! Z.to_nat i;
       if negb (tx_port_ok DEBUG (mc_buffer_size p) nevents offset) then None
       else if tx_active (mc_buffer p) (mc_enabled p) then encode_audio_port encode dimension i offset nevents p m data
       else encode_silent_port dimension i nevents data) (pc_nb_audio_ports pc) data) as (data1 & -> & Hl & Hdone & Hframe & Hb).
  - lia.
  - split; [done|]. split; [intros; lia|by split].
  - intros i d1 Hi (Hl & Hdone & Hframe & Hb).
    destruct (lookup_lt_is_Some_2 (pc_audio_ports pc) (Z.to_nat i)) as [p Hp]; [lia|]. rewrite Hp. cbn [mbind option_bind].
    rewrite (Hdbg _ _ Hp). cbn [negb].
    destruct (store_events_spec
      (fun j d => v ← event_of encode m offset j p; store_quadlet (i + j * dimension) v d)
      (fun j => default 0 (event_of encode m offset j p)) dimension i nevents d1) as (d2 & Hs & Hl2 & Hv & Hf2 & Hb2);
      [lia|done|lia|intros j d Hj; destruct (Hev _ _ j Hp Hj) as [v ->]; done|].
    exists d2. split.
    { rewrite <- Hs. unfold encode_audio_port, encode_silent_port, for_loop, event_of. fold (tx_audio_active p).
      destruct (tx_audio_active p); [|done].
      apply loop_from_ext. intros j d _. by destruct (mem_load m (mc_buffer p) (offset + j)). }
    split; [lia|]. split; [|split; [|auto]].
    + intros i1 p1 j Hi1 Hp1 Hj. destruct (Z.eq_dec (Z.of_nat i1) i) as [Heq|Hne].
      * replace (Z.to_nat i) with i1 in Hp by lia. rewrite Hp1 in Hp. injection Hp as ->. rewrite Heq, Hv by done.
        by destruct (Hev _ _ j Hp1 Hj) as [v ->].
      * rewrite Hf2; [by apply Hdone; [lia|..]|]. intros j1 Hj1 He.
        apply event_index in He; [lia..|]. apply lookup_lt_Some in Hp1. lia.
    + intros k Hk. rewrite Hf2; [apply Hframe; intros i1 j Hi1; apply Hk; lia|].
      intros j Hj. rewrite <- (Z2Nat.id i) by lia. apply Hk; [lia|done].
  - exists data1. split; [done|]. split; [done|]. split; [|by split].
    intros i p j Hp. apply Hdone; [|done]. apply lookup_lt_Some in Hp. lia.
Qed.
End multiplexing.
