(* ===== verification/AmdtpLink.v ===== *)
(** * AmdtpLink: an AMDTP transmitter and a receiver on the same bus

    The two subclasses together: what the transmitter puts into a packet and
    what the receiver takes out of it. *)
From stdpp Require Import gmap.
From S2P Require Import Prelude Serialize Memory Ports CycleTimer MachineFloat RingBuffer TimestampedBuffer StreamProcessor StreamWorld Cip Amdtp.
From S2P Require Import AmdtpReceive AmdtpTransmit.

(** ** Samples *)

Lemma land_lor_absorb a b m : Z.land b m = 0 -> Z.land (Z.lor (Z.land a m) b) m = Z.land a m.
Proof. intros Hb. by rewrite Z.land_lor_distr_l, <- Z.land_assoc, Z.land_diag, Hb, Z.lor_0_r. Qed.

Lemma land_24_bound w : 0 <= Z.land w 0x00FFFFFF < 2 ^ 24.
Proof. change 0x00FFFFFF with (2 ^ 24 - 1). rewrite land_mod by lia. by apply Z.mod_pos_bound. Qed.

(** the quadlet of a sample on the bus *)
Lemma label_MBLA_swap w : ByteSwap32 (u32 (label_MBLA w)) = Z.lor (Z.land w 0x00FFFFFF) 0x40000000.
Proof.
  unfold label_MBLA, CondSwapToBus32. pose proof (land_24_bound w) as Hw.
  assert (Hv : is_u32 (Z.lor (Z.land w 0x00FFFFFF) 0x40000000)).
  { rewrite Z.lor_comm. change 0x40000000 with (Z.shiftl 0x40 24). rewrite lor_add by lia.
    change (0x40 * 2 ^ 24) with 1073741824. change (2 ^ 24) with 16777216 in Hw. width_lia. }
  rewrite wrapU_small by (by apply ByteSwap32_u32). by apply ByteSwap32_involutive.
Qed.

Lemma int24_roundtrip w : int24_sample (CondSwapFromBus32 (u32 (label_MBLA w))) = Z.land w 0x00FFFFFF.
Proof. unfold CondSwapFromBus32. rewrite label_MBLA_swap. by apply land_lor_absorb. Qed.

(** What a transmitting port sends in an event: the word of its buffer, or
    silence. *)
Definition port_word (m : memory) (offset j : Z) (p : MBLA_port_cache) : option Z :=
  if tx_audio_active p then mem_load m (mc_buffer p) (offset + j) else Some 0.

(** C35: integer audio survives the bus.  The events that a transmitter encodes
    from the buffers of its ports are decoded by a receiver with as many ports
    into its own buffers: port by port and event by event the receiver gets
    the low 24 bits of the word that was sent, zero for a disabled port, for
    any offset in the period on either side; and the receiver writes nowhere
    else.  Both loops end. *)
Theorem int24_audio_roundtrip DEBUG dimension (tx rx : port_caches) (mt mr : memory) ot or nevents data :
  pc_nb_audio_ports tx = Z.of_nat (length (pc_audio_ports tx)) ->
  length (pc_audio_ports rx) = length (pc_audio_ports tx) ->
  4 * (nevents * dimension) <= Z.of_nat (length data) ->
  (forall i p, pc_audio_ports tx !! i = Some p -> tx_port_ok DEBUG (mc_buffer_size p) nevents ot = true) ->
  (forall i p j, pc_audio_ports tx !! i = Some p -> 0 <= j < nevents -> is_Some (port_word mt ot j p)) ->
  audio_fits DEBUG rx dimension or nevents mr ->
  exists data1 m1,
    encodeAudioPortsInt24 DEBUG dimension tx mt ot nevents data = Some data1 /\
    decodeAudioPortsInt24 DEBUG dimension rx data1 or nevents mr = Some m1 /\
    (forall i p q j, pc_audio_ports tx !! i = Some p -> pc_audio_ports rx !! i = Some q -> audio_active q = true ->
       0 <= j < nevents -> mem_load m1 (mc_buffer q) (or + j) = (fun w => Z.land w 0x00FFFFFF) <$> port_word mt ot j p) /\
    (forall b k, (forall i q, pc_audio_ports rx !! i = Some q -> audio_active q = true -> ~ in_buffer q or nevents b k) ->
       mem_load m1 b k = mem_load mr b k).
Proof.
  intros Hnb Hlen Hd Hdbg Hw Hfit.
  pose proof (af_nb _ _ _ _ _ _ Hfit) as Hnbr. pose proof (af_dimension _ _ _ _ _ _ Hfit) as Hdim.
  pose proof (af_range _ _ _ _ _ _ Hfit) as [_ Hn].
  assert (Hev : forall i p j, pc_audio_ports tx !! i = Some p -> 0 <= j < nevents ->
    u32 <$> event_of encode_int24 mt ot j p = (fun w => u32 (label_MBLA w)) <$> port_word mt ot j p /\
    is_Some (event_of encode_int24 mt ot j p)).
  { intros i p j Hp Hj. destruct (Hw i p j Hp Hj) as [w Hpw]. unfold event_of, port_word in *.
    destruct (tx_audio_active p); [|injection Hpw as <-; by split]. rewrite Hpw. by split. }
  destruct (encode_audio_ports_spec DEBUG encode_int24 dimension tx mt ot nevents data) as (data1 & He & Hl & Hv & _ & _);
    [done|lia|done|done|done|intros; by eapply Hev|].
  destruct (decode_audio_ports_spec DEBUG int24_sample dimension rx data1 or nevents mr Hfit) as (m1 & Hdec & Hr & Hframe); [lia|].
  exists data1, m1. split; [exact He|]. split; [exact Hdec|]. split; [|done].
  intros i p q j Hp Hq Ha Hj. destruct (Hr i q j Hq Ha Hj) as (x & Hx & ->).
  rewrite (Hv i p j Hp Hj) in Hx. destruct (Hev i p j Hp Hj) as [He1 _]. rewrite He1 in Hx.
  destruct (port_word mt ot j p) as [w|]; [|done]. injection Hx as <-. cbn. f_equal. apply int24_roundtrip.
Qed.

(** ** Presentation times *)

(** Times are counted in ticks from the start of the cycle timer; the packet
    goes out in bus cycle [cyc] of second [secs]. *)
Section window.
Variables (secs cyc o pt : Z).
Hypothesis Hctr : ctr_fields secs cyc o.
Hypothesis Hpt : ticks_valid pt.

Let R := secs * 8000 + cyc.
Let P := pt / 3072.

(** the presentation time is less than half a second away *)
Definition near_cycle : Prop := - (4000 * 3072) <= diffTicks pt (R * 3072) < 4000 * 3072.

Lemma window_cycles :
  u32 (TICKS_TO_CYCLES pt) = P mod 8000 /\
  exists b, 2 <= b <= 3 /\ u32 (TICKS_TO_CYCLES (substractTicks pt AMDTP_TRANSMIT_TRANSFER_DELAY)) = (P - b) mod 8000.
Proof.
  unfold P, TICKS_TO_CYCLES, TICKS_PER_CYCLE, CYCLES_PER_SECOND, AMDTP_TRANSMIT_TRANSFER_DELAY.
  assert (Hp : 0 <= pt < 3145728000) by tick_lia. split; [apply u32_small; div_lia|].
  rewrite substractTicks_mod by tick_lia. change MAX_TICKS with 3145728000.
  exists (if 2560 <=? pt mod 3072 then 2 else 3). destruct (Z.leb_spec 2560 (pt mod 3072)).
  - split; [lia|]. rewrite u32_small by div_lia. div_lia.
  - split; [lia|]. rewrite u32_small by div_lia. div_lia.
Qed.

(** the distance in cycles is the real one when it is small *)
Lemma window_distance :
  near_cycle -> 1 <= diffCycles (P mod 8000) cyc <= 4 ->
  exists d off, 0 <= d < 16 /\ 0 <= off < TICKS_PER_CYCLE /\ pt = ((R + d) * TICKS_PER_CYCLE + off) mod MAX_TICKS /\
    P = (R + d) mod 1024000 /\ off = pt mod 3072.
Proof.
  unfold near_cycle. intros Hn Hd. destruct Hctr as (Hs & Hc & Ho).
  destruct (diffTicks_spec pt (R * 3072)) as (k & Hk & _); [done|unfold R; tick_lia|]. rewrite Hk in Hn.
  destruct (diffCycles_spec (P mod 8000) cyc) as (k2 & Hk2 & Hb); [apply Z.mod_pos_bound; done|done|].
  set (d := diffCycles (P mod 8000) cyc) in *.
  assert (HP : pt = P * 3072 + pt mod 3072 /\ 0 <= pt mod 3072 < 3072) by (unfold P; div_lia).
  change MAX_TICKS with (1024000 * 3072) in Hn. unfold R in *.
  assert (He : P - (secs * 8000 + cyc) + k * 1024000 = d).
  { assert (-4000 <= P - (secs * 8000 + cyc) + k * 1024000 < 4000) by lia.
    pose proof (Z.div_mod P 8000). clear Hk. lia. }
  exists d, (pt mod 3072). split; [lia|]. unfold TICKS_PER_CYCLE. split; [lia|].
  assert (HPb : 0 <= P < 1024000) by (unfold P; tick_lia || (assert (0 <= pt < 3145728000) by tick_lia; div_lia)).
  split; [|split; [|done]].
  - change MAX_TICKS with (1024000 * 3072).
    replace ((secs * 8000 + cyc + d) * 3072 + pt mod 3072) with (pt + k * (1024000 * 3072)) by lia.
    rewrite Z.mod_add by lia. rewrite Z.mod_small by lia. done.
  - replace (secs * 8000 + cyc + d) with (P + k * 1024000) by lia. rewrite Z.mod_add by lia. by rewrite Z.mod_small.
Qed.

(** the SYT of the time *)
Lemma window_syt d off :
  0 <= off < TICKS_PER_CYCLE -> P = (R + d) mod 1024000 -> off = pt mod 3072 ->
  u16 (TICKS_TO_SYT (u32 pt)) = syt_of (R + d) off.
Proof.
  intros Ho HP Hoff. assert (Hp : 0 <= pt < 3145728000) by tick_lia. rewrite u32_small by lia.
  unfold TICKS_TO_SYT, TICKS_TO_CYCLES, TICKS_TO_OFFSET, TICKS_PER_CYCLE, CYCLES_PER_SECOND, syt_of in *.
  fold P. rewrite land_0xf. change 0xFFF with (2 ^ 12 - 1). rewrite land_mod by lia.
  rewrite <- Hoff. rewrite (Z.mod_small off) by lia. rewrite lor_add by lia. rewrite wrapU_small by div_lia.
  change (2 ^ 12) with 4096. rewrite HP. div_lia.
Qed.
End window.

(** ** A packet on the bus *)

Section packet.
Context {WT WR : Type} `{SPEnv WT} `{SPEnv WR}.
Implicit Types (s : sp_shared (sp_world AmdtpTransmitStreamProcessor WT)) (sr : sp_shared (sp_world AmdtpReceiveStreamProcessor WR)).

(** A header that sends: the time of the next frames was converted, there are
    frames for a packet, and the cycle is in the window. *)
Lemma generatePacketHeader_sends p ctr s r p1 s1 :
  tx_generatePacketHeader p ctr s = Some (r, p1, s1) -> r = eCRV_Packet \/ r = eCRV_Defer ->
  let t := tx_child s in
  let pt := sh_last_timestamp s1 in
  let until time := diffCycles (u32 (TICKS_TO_CYCLES time)) (CYCLE_TIMER_GET_CYCLES ctr) in
  s32 (tx_syt_interval t) <= tb_framecounter (sh_data_buffer s) /\
  (until (substractTicks pt (at_transfer_delay (tx_timing t))) < 0 /\ at_min_before (tx_timing t) <= until pt \/
   0 <= until (substractTicks pt (at_transfer_delay (tx_timing t))) <= at_max_early (tx_timing t)) /\
  exists p0 s2, start_header p s = Some p0 /\ send_header (fillDataPacketHeader t pt) p0 s = Some (p1, s2) /\
    s1 = sh_with_timestamp pt (sh_correct_last_timestamp s2) s2.
Proof.
  unfold tx_generatePacketHeader. destruct (start_header p s) as [p0|] eqn:Hp0; [|done]. cbn [mbind option_bind].
  unfold getBufferHeadTimestamp. destruct (to_uint 64 _) as [pt|] eqn:Hpt; [|done]. cbn [mbind option_bind].
  set (t := tx_child s). set (u := diffCycles (u32 (TICKS_TO_CYCLES (substractTicks pt (at_transfer_delay (tx_timing t))))) _).
  set (d := diffCycles (u32 (TICKS_TO_CYCLES pt)) _).
  assert (Hsend : forall x, send_data_packet x pt p0 s = Some (r, p1, s1) ->
    sh_last_timestamp s1 = pt /\ exists s2, send_header (fillDataPacketHeader t pt) p0 s = Some (p1, s2) /\
      s1 = sh_with_timestamp pt (sh_correct_last_timestamp s2) s2).
  { unfold send_data_packet. intros x. fold t. destruct (send_header _ p0 s) as [[p2 s2]|]; [|done].
    cbn [mbind option_bind]. intros [= <- <- <-]. split; [done|]. by exists s2. }
  intros Hr Hor. destruct (Z.ltb_spec (tb_framecounter (sh_data_buffer s)) (s32 (tx_syt_interval t))) as [Hlt|Hge].
  { destruct (d <=? _); injection Hr as <- <- <-; by destruct Hor. }
  destruct (Z.ltb_spec u 0) as [Hu|Hu].
  - destruct (Z.leb_spec (at_min_before (tx_timing t)) d) as [Hd|Hd]; [|injection Hr as <- <- <-; by destruct Hor].
    apply Hsend in Hr as (Hts & s2 & Hs & Heq). cbv zeta. rewrite Hts. split; [done|]. split; [by left|]. by exists p0, s2.
  - destruct (Z.leb_spec u (at_max_early (tx_timing t))) as [He|He]; [|injection Hr as <- <- <-; by destruct Hor].
    apply Hsend in Hr as (Hts & s2 & Hs & Heq). cbv zeta. rewrite Hts. split; [done|]. split; [by right|]. by exists p0, s2.
Qed.

(** the header of a data packet, as a receiver reads it *)
Lemma data_header_read t pt p s p1 s2 payload p2 n :
  send_header (fillDataPacketHeader t pt) p s = Some (p1, s2) ->
  memcpy_to (pkt_data p1) 8 payload = Some p2 -> 8 <= n ->
  exists rest, p2 = cip_bytes (amdtp_header s (tx_fdf t) (CondSwapToBus16 (u16 (TICKS_TO_SYT (u32 pt))))) ++ payload ++ rest /\
  cip_of_bytes (take (Z.to_nat n) p2)
    = Some (cip_norm (amdtp_header s (tx_fdf t) (CondSwapToBus16 (u16 (TICKS_TO_SYT (u32 pt)))))).
Proof.
  unfold send_header, fillDataPacketHeader, write_cip. case_decide; [|done]. cbn [mbind option_bind].
  set (hd := cip_bytes _). assert (Hh : length hd = 8%nat) by done.
  assert (Hc : forall data, cip_of_bytes (hd ++ data) = Some (cip_norm
    (amdtp_header s (tx_fdf t) (CondSwapToBus16 (u16 (TICKS_TO_SYT (u32 pt))))))) by apply cip_of_cip_bytes.
  clearbody hd. intros [= <- <-]. cbn [pkt_data]. unfold memcpy_to. case_decide; [|done]. intros Heq Hn. apply (inj Some) in Heq as <-.
  rewrite (take_app_length' hd) by (by rewrite Hh).
  replace (Z.to_nat 8 + length payload)%nat with (length hd + length payload)%nat by lia. rewrite drop_app_add.
  eexists. split; [reflexivity|]. rewrite take_app_ge by (rewrite Hh; lia). apply Hc.
Qed.

(** The settings that [prepareChild] makes for a supported rate, with the
    timing of config.h. *)
Definition tx_configured (rate : Z) (t : AmdtpTransmitStreamProcessor) : Prop :=
  getSytInterval rate <> 0 /\ tx_syt_interval t = getSytInterval rate /\ tx_fdf t = getFDF rate /\
  0 < tx_dimension t < 256 /\
  tx_timing t = mkTiming AMDTP_MAX_CYCLES_TO_TRANSMIT_EARLY AMDTP_TRANSMIT_TRANSFER_DELAY AMDTP_MIN_CYCLES_BEFORE_PRESENTATION.

Lemma rate_cases rate :
  getSytInterval rate <> 0 ->
  (getSytInterval rate = 8 /\ 0 <= getFDF rate <= 2) \/ (getSytInterval rate = 16 /\ 3 <= getFDF rate <= 4) \/
  (getSytInterval rate = 32 /\ 5 <= getFDF rate <= 6).
Proof. unfold getSytInterval, getFDF. repeat case_match; lia. Qed.

(** the receiver finds the number of events from the rate code *)
Lemma rx_nevents_rate rate p len : getSytInterval rate <> 0 -> pk_fdf p = getFDF rate -> rx_nevents p len = Some (getSytInterval rate).
Proof.
  intros Hr Hf. unfold rx_nevents. rewrite Hf. destruct (rate_cases rate Hr) as [[-> Hb]|[[-> Hb]|[-> Hb]]].
  - assert (He : getFDF rate = 0 \/ getFDF rate = 1 \/ getFDF rate = 2) by lia. by destruct He as [->|[->| ->]].
  - assert (He : getFDF rate = 3 \/ getFDF rate = 4) by lia. by destruct He as [->| ->].
  - assert (He : getFDF rate = 5 \/ getFDF rate = 6) by lia. by destruct He as [->| ->].
Qed.

(** the length of a data packet *)
Lemma data_packet_length rate t pt :
  tx_configured rate t -> snd (fst (fillDataPacketHeader t pt)) = 4 * (getSytInterval rate * tx_dimension t) + 8.
Proof.
  intros (Hr & Hs & _ & Hd & _). unfold fillDataPacketHeader. cbn [fst snd]. rewrite Hs.
  assert (0 < getSytInterval rate <= 32) by (destruct (rate_cases rate Hr) as [[-> _]|[[-> _]|[-> _]]]; lia).
  assert (Hb : 0 <= getSytInterval rate * 4 * tx_dimension t <= 128 * 256) by nia.
  rewrite (wrapU_small 64 (_ * 4)) by width_lia. rewrite (wrapU_small 64 _) by width_lia.
  rewrite wrapU_small by width_lia. lia.
Qed.

Lemma syt_of_range x off : 0 <= off < TICKS_PER_CYCLE -> 0 <= syt_of x off < 0xFFFF.
Proof. unfold syt_of, TICKS_PER_CYCLE. intros Ho. div_lia. Qed.

(** the data part: the frames that leave the buffer of the transmitter are the
    payload of the packet *)
Lemma generatePacketData_sends p1 s1 p2 s2 rbt n :
  tx_generatePacketData p1 s1 = Some (eCRV_OK, p2, s2) -> tx_syt_interval (tx_child s1) = n -> 0 <= n ->
  tb_wf (sh_data_buffer s1) rbt -> tb_transparent (sh_data_buffer s1) = false -> n <= tb_framecounter (sh_data_buffer s1) ->
  exists frames rbt1, rb_content rbt = frames ++ rb_content rbt1 /\ tb_wf (sh_data_buffer s2) rbt1 /\
    Z.of_nat (length frames) = n * tb_cluster (sh_data_buffer s1) /\ pkt_length p2 = pkt_length p1 /\
    memcpy_to (pkt_data p1) 8 frames = Some (pkt_data p2).
Proof.
  intros Hg Hn Hn0 Hw Ht Hfc. unfold tx_generatePacketData in Hg. rewrite Hn in Hg.
  destruct (readFrames_opaque_spec (sh_data_buffer s1) rbt n Hw Ht) as (b1 & rb1 & frames & Hr & Hw1 & Hc & Hl & _); [lia|].
  rewrite Hr in Hg. cbn [mbind option_bind] in Hg.
  destruct (memcpy_to (pkt_data p1) 8 frames) as [payload|] eqn:Hm; [|done]. cbn [mbind option_bind] in Hg.
  injection Hg as <- <-. by exists frames, rb1.
Qed.

(** the receiver reads the header of the packet and finds its presentation time *)
Lemma rx_header_accepts rate (t : AmdtpTransmitStreamProcessor) s secs cyc o pt data len tag sy sr :
  tx_configured rate t -> tx_child s = t -> ctr_fields secs cyc o -> ticks_valid pt -> near_cycle secs cyc pt ->
  1 <= diffCycles (pt / 3072 mod 8000) cyc <= 4 -> 8 <= len ->
  cip_of_bytes data = Some (cip_norm (amdtp_header s (tx_fdf t) (CondSwapToBus16 (u16 (TICKS_TO_SYT (u32 pt)))))) ->
  rx_processPacketHeader data len tag sy (ctr_of secs cyc o) sr
    = Some (eCRV_OK, sh_with_timestamp pt (sh_correct_last_timestamp sr) sr).
Proof.
  intros Hcf Hts Hctr Hpt Hnear Hd Hlen Hdata. pose proof Hcf as (Hr & _ & Hfdf & Hdim & _).
  destruct (window_distance secs cyc o pt Hctr Hpt Hnear Hd) as (d & off & Hd16 & Hoff & Hpt2 & HP & Hoffm).
  pose proof (window_syt secs cyc pt Hpt d off Hoff HP Hoffm) as Hsyt.
  pose proof (syt_of_range (secs * 8000 + cyc + d) off Hoff) as Hrange.
  assert (H16 : is_u16 (syt_of (secs * 8000 + cyc + d) off)) by width_lia.
  assert (Hf : 0 <= getFDF rate <= 6) by (destruct (rate_cases rate Hr) as [[_ Hb]|[[_ Hb]|[_ Hb]]]; lia).
  unfold rx_processPacketHeader. rewrite Hdata. cbn [mbind option_bind]. unfold cip_norm, amdtp_header.
  cbn [pk_syt pk_fdf pk_fmt pk_dbs]. rewrite Hts, Hsyt, Hfdf. unfold CondSwapToBus16, CondSwapFromBus16.
  rewrite (wrapU_small 16 (ByteSwap16 _)) by (by apply ByteSwap16_u16).
  rewrite ByteSwap16_involutive by done. rewrite (wrapU_small 8 (getFDF rate)), (wrapU_small 8 (tx_dimension t)) by width_lia.
  assert (Hns : ByteSwap16 (syt_of (secs * 8000 + cyc + d) off) <> 0xFFFF).
  { intros He. apply (f_equal ByteSwap16) in He. rewrite ByteSwap16_involutive in He by done.
    change (ByteSwap16 0xFFFF) with 0xFFFF in He. lia. }
  rewrite (proj2 (Z.eqb_neq _ _) Hns), (proj2 (Z.eqb_neq (getFDF rate) 0xFF)) by lia.
  rewrite (proj2 (Z.ltb_lt 0 _)), (proj2 (Z.leb_le (2 * 4) len)) by lia. cbn [negb andb].
  change (wrapU 6 IEC61883_FMT_AMDTP =? 0x10) with true. cbn [andb]. do 3 f_equal.
  rewrite sytRecvToFullTicks2_eq by (try done; width_lia). destruct Hctr as (Hs & Hc & Ho).
  assert (Hsy : syt_of (secs * 8000 + cyc + d) off = syt_of (cyc + d) off) by (unfold syt_of; div_lia).
  rewrite Hsy, syt_to_ticks_spec by done. rewrite Hpt2 at 1. f_equal.
  unfold TICKS_PER_SECOND, TICKS_PER_CYCLE. lia.
Qed.

(** a packet that is sent is presented one to four cycles later *)
Lemma sent_in_window secs cyc o pt :
  ctr_fields secs cyc o -> ticks_valid pt ->
  let until time := diffCycles (u32 (TICKS_TO_CYCLES time)) (CYCLE_TIMER_GET_CYCLES (ctr_of secs cyc o)) in
  (until (substractTicks pt AMDTP_TRANSMIT_TRANSFER_DELAY) < 0 /\ 1 <= until pt \/
   0 <= until (substractTicks pt AMDTP_TRANSMIT_TRANSFER_DELAY) <= 1) ->
  1 <= diffCycles (pt / 3072 mod 8000) cyc <= 4.
Proof.
  intros Hctr Hpt until Hdec. unfold until in Hdec. destruct (ctr_of_get _ _ _ Hctr) as (_ & -> & _) in Hdec.
  destruct (window_cycles secs cyc pt Hpt) as (H1 & b & Hb & H2). rewrite H1, H2 in Hdec. destruct Hctr as (_ & Hc & _).
  destruct (diffCycles_spec (pt / 3072 mod 8000) cyc) as (k1 & Hk1 & Hb1); [by apply Z.mod_pos_bound|done|].
  destruct (diffCycles_spec ((pt / 3072 - b) mod 8000) cyc) as (k2 & Hk2 & Hb2); [by apply Z.mod_pos_bound|done|].
  set (d := diffCycles (pt / 3072 mod 8000) cyc) in *. set (u := diffCycles ((pt / 3072 - b) mod 8000) cyc) in *.
  assert (Hk : exists k, d - u = b + k * 8000).
  { exists ((pt / 3072 - b) / 8000 - pt / 3072 / 8000 + k1 - k2).
    pose proof (Z.div_mod (pt / 3072) 8000). pose proof (Z.div_mod (pt / 3072 - b) 8000). lia. }
  destruct Hk as [k Hk]. lia.
Qed.

(** C16: a packet that an AMDTP transmitter sends in a bus cycle, and that an
    AMDTP receiver of the same dimension takes in that cycle, carries the
    frames and their time across.  The receiver accepts the header, its
    timestamp is the presentation time of the transmitter, to the tick and
    over every wrap of the cycle timer, and the frames that left the
    transmitter's buffer are appended to the receiver's, for every supported
    rate, whether the packet is on time, early or late.  (The presentation
    time must be less than half a second away: only the cycle in its second
    is compared.) *)
Theorem amdtp_end_to_end DEBUG rate secs cyc o o' p s r p1 s1 p2 s2 rbt sr rbr tag sy :
  let n := getSytInterval rate in
  let dim := tx_dimension (tx_child s) in
  tx_configured rate (tx_child s) -> ctr_fields secs cyc o -> ctr_fields secs cyc o' ->
  tx_generatePacketHeader p (ctr_of secs cyc o) s = Some (r, p1, s1) -> r = eCRV_Packet \/ r = eCRV_Defer ->
  tx_generatePacketData p1 s1 = Some (eCRV_OK, p2, s2) ->
  ticks_valid (sh_last_timestamp s1) -> near_cycle secs cyc (sh_last_timestamp s1) ->
  tb_wf (sh_data_buffer s) rbt -> tb_transparent (sh_data_buffer s) = false -> tb_cluster (sh_data_buffer s) = 4 * dim ->
  tb_wf (sh_data_buffer sr) rbr -> tb_transparent (sh_data_buffer sr) = false -> tb_cluster (sh_data_buffer sr) = 4 * dim ->
  rb_fill rbr + n * (4 * dim) <= rb_capacity rbr ->
  increment_allowed n (f64_of_Z (sh_last_timestamp s1)) (tb_clock (sh_data_buffer sr)) = true ->
  exists frames rbt1 sr1 sr2 rbr1,
    rb_content rbt = frames ++ rb_content rbt1 /\ tb_wf (sh_data_buffer s2) rbt1 /\
    Z.of_nat (length frames) = n * (4 * dim) /\
    rx_processPacketHeader (on_bus p2) (pkt_length p2) tag sy (ctr_of secs cyc o') sr = Some (eCRV_OK, sr1) /\
    sh_last_timestamp sr1 = sh_last_timestamp s1 /\
    rx_processPacketData DEBUG (on_bus p2) (pkt_length p2) sr1 = Some (eCRV_OK, sr2) /\
    tb_wf (sh_data_buffer sr2) rbr1 /\ rb_content rbr1 = rb_content rbr ++ frames.
Proof.
  intros n dim Hcf Hctr Hctr' Hgen Hor Hdata Hpt Hnear Hwt Htt Hct Hwr Htr Hcr Hfit Hinc.
  destruct (generatePacketHeader_sends _ _ _ _ _ _ Hgen Hor) as (Hfc & Hdec & p0 & sx & Hp0 & Hsend & Hs1).
  pose proof Hcf as (Hr & Hsy & Hfdf & Hdim & Htm). rewrite Htm in Hdec. cbn [at_transfer_delay at_min_before at_max_early] in Hdec.
  pose proof (sent_in_window _ _ _ _ Hctr Hpt Hdec) as Hd. clear Hdec.
  assert (Hn : 0 < n <= 32) by (destruct (rate_cases rate Hr) as [[Hn _]|[[Hn _]|[Hn _]]]; fold n in Hn; lia).
  rewrite Hsy in Hfc. fold n in Hfc. rewrite s32_small in Hfc by lia.
  pose proof (generatePacketHeader_buffer _ _ _ _ _ _ Hgen) as Hb1.
  assert (Hlen : pkt_length p1 = 4 * (n * dim) + 8 /\ tx_syt_interval (tx_child s1) = n).
  { pose proof (data_packet_length rate (tx_child s) (sh_last_timestamp s1) Hcf) as Hl.
    revert Hl Hsend. unfold send_header. destruct (fillDataPacketHeader _ _) as [[[fdf syt] len] ev]. cbn [fst snd].
    intros ->. destruct (write_cip _ _); [|done]. intros [= <- <-]. split; [done|]. by rewrite Hs1. }
  destruct Hlen as [Hl1 Hsy1].
  destruct (generatePacketData_sends p1 s1 p2 s2 rbt n Hdata Hsy1) as (frames & rbt1 & Hc & Hwt1 & Hlf & Hl2 & Hm);
    rewrite ?Hb1; [lia|done..|].
  rewrite Hb1, Hct in Hlf.
  destruct (data_header_read _ _ _ _ _ _ frames _ (pkt_length p2) Hsend Hm) as (rest & Hp2 & Hhd); [rewrite Hl2, Hl1; nia|].
  pose proof (rx_header_accepts rate (tx_child s) s secs cyc o' _ (on_bus p2) (pkt_length p2) tag sy sr Hcf eq_refl Hctr' Hpt Hnear Hd
    ltac:(rewrite Hl2, Hl1; nia) Hhd) as Hrx.
  assert (Hdrop : drop 8 (on_bus p2) = frames).
  { unfold on_bus. rewrite Hp2, Hl2, Hl1. rewrite skipn_firstn_comm, drop_app_length' by done.
    apply take_app_length'. lia. }
  destruct (writeFrames_opaque_spec (sh_data_buffer sr) rbr n frames (f64_of_Z (sh_last_timestamp s1)) Hwr Htr)
    as (b2 & rbr1 & Hw2 & Hwr1 & Hc2 & _); [lia|rewrite Hcr; exact Hlf|rewrite Hcr; exact Hfit|exact Hinc|].
  set (sr1 := sh_with_timestamp (sh_last_timestamp s1) (sh_correct_last_timestamp sr) sr) in *.
  exists frames, rbt1, sr1, (sh_with_data_buffer b2 sr1), rbr1. do 3 (split; [done|]). split; [exact Hrx|]. split; [done|]. split; [|by split].
  unfold rx_processPacketData, on_bus. rewrite Hhd. cbn [mbind option_bind].
  rewrite (rx_nevents_rate rate); [|done|cbn; rewrite Hfdf; destruct (rate_cases rate Hr) as [[_ Hf]|[[_ Hf]|[_ Hf]]]; apply wrapU_small; width_lia].
  fold n. cbn [mbind option_bind]. rewrite (proj2 (Z.eqb_neq n 0)), andb_false_r by lia.
  change (take (Z.to_nat (pkt_length p2)) (pkt_data p2)) with (on_bus p2). rewrite Hdrop. cbn [sh_with_timestamp sh_last_timestamp sh_data_buffer].
  change (sh_data_buffer sr1) with (sh_data_buffer sr). change (sh_last_timestamp sr1) with (sh_last_timestamp s1).
  rewrite Hw2. reflexivity.
Qed.
End packet.

(** ** A transmitter and a receiver of one channel at 48 kHz *)

Definition demo_tx : AmdtpTransmitStreamProcessor :=
  mkAmdtpTransmit 1 8 2 40 true
    (mkTiming AMDTP_MAX_CYCLES_TO_TRANSMIT_EARLY AMDTP_TRANSMIT_TRANSFER_DELAY AMDTP_MIN_CYCLES_BEFORE_PRESENTATION)
    None (mkCaches [] 0 [] 0).

Definition demo_shared {C} (c : C) (b : TimestampedBuffer) : sp_shared (sp_world C Z) :=
  mkShared 0 false b None (f32_of_Z 512) (f32_of_Z 1) 0 50 1 (mkWorld c [] ∅ 0).

(** nine frames, to be presented from tick 5392 of the first second on *)
Definition demo_tx_shared : sp_shared (sp_world AmdtpTransmitStreamProcessor Z) := demo_shared demo_tx wrapped_buffer.

Definition demo_rx_shared : sp_shared (sp_world AmdtpReceiveStreamProcessor Z) :=
  demo_shared (AmdtpReceiveStreamProcessor_new 1 (replicate 64 0)) small_buffer.

Definition demo_frame : iso_packet := mkPacket (replicate 40 0) 0 0 0.

(** the last cycle but one of the cycle timer *)
Definition last_ctr : Z := ctr_of 127 7998 5.

(** what the transmitter does with the packet *)
Definition demo_header : iso_packet * sp_shared (sp_world AmdtpTransmitStreamProcessor Z) :=
  match @tx_generatePacketHeader Z demo_frame last_ctr demo_tx_shared with
  | Some (_, p1, s1) => (p1, s1)
  | None => (demo_frame, demo_tx_shared)
  end.

Definition demo_data : iso_packet * sp_shared (sp_world AmdtpTransmitStreamProcessor Z) :=
  match @tx_generatePacketData Z (fst demo_header) (snd demo_header) with
  | Some (_, p2, s2) => (p2, s2)
  | None => demo_header
  end.

Lemma wrapped_buffer_wf : tb_wf wrapped_buffer wrapped_ring.
Proof.
  split; [split; try (vm_compute; reflexivity)|split; [cbn; lia|reflexivity]].
  - split; [by exists 6|]. cbn. lia.
  - by exists (replicate 32 0).
Qed.

Lemma amdtp_end_to_end_witness :
  exists frames sr1 sr2 (rbr1 : ringbuffer Z), Z.of_nat (length frames) = 32 /\
    @rx_processPacketHeader Z (on_bus (fst demo_data)) (pkt_length (fst demo_data)) 1 0 (ctr_of 127 7998 9) demo_rx_shared
      = Some (eCRV_OK, sr1) /\
    sh_last_timestamp sr1 = sh_last_timestamp (snd demo_header) /\ sh_last_timestamp (snd demo_header) = 5392 /\
    @rx_processPacketData Z true (on_bus (fst demo_data)) (pkt_length (fst demo_data)) sr1 = Some (eCRV_OK, sr2) /\
    rb_content rbr1 = frames.
Proof.
  refine (let H := @amdtp_end_to_end Z Z true 48000 127 7998 5 9 demo_frame demo_tx_shared eCRV_Packet (fst demo_header)
    (snd demo_header) (fst demo_data) (snd demo_data) wrapped_ring demo_rx_shared small_buffer_ring 1 0
    _ _ _ _ (or_introl eq_refl) _ _ _ wrapped_buffer_wf eq_refl eq_refl small_buffer_wf eq_refl eq_refl _ _ in _).
  - destruct H as (frames & rbt1 & sr1 & sr2 & rbr1 & H1 & _ & H3 & H4 & H5 & H6 & _ & H8).
    exists frames, sr1, sr2, rbr1. split; [exact H3|]. split; [exact H4|]. split; [exact H5|].
    split; [vm_compute; reflexivity|]. split; [exact H6|exact H8].
  Unshelve.
  + split; [discriminate|]. split; [reflexivity|]. split; [reflexivity|]. split; [cbn; lia|reflexivity].
  + split_and!; vm_compute; congruence.
  + split_and!; vm_compute; congruence.
  + vm_compute. reflexivity.
  + vm_compute. reflexivity.
  + vm_compute. split; congruence.
  + vm_compute. split; congruence.
  + vm_compute. discriminate.
  + vm_compute. reflexivity.
Defined.

Definition one_port (a : Z) : port_caches := mkCaches [mkMBLA 1 (Some a) true 8; mkMBLA 2 None true 8] 2 [] 0.

Lemma int24_audio_roundtrip_witness :
  exists data1 m1,
    encodeAudioPortsInt24 true 2 (one_port 7) {[7 := [0xFF000001; 2; 3; 4]]} 1 2 (replicate 16 0) = Some data1 /\
    decodeAudioPortsInt24 true 2 (one_port 9) data1 0 2 {[9 := [5; 5; 5]]} = Some m1 /\
    mem_load m1 (Some 9) 0 = Some 2 /\ mem_load m1 (Some 9) 2 = Some 5.
Proof.
  destruct (int24_audio_roundtrip true 2 (one_port 7) (one_port 9) {[7 := [0xFF000001; 2; 3; 4]]} {[9 := [5; 5; 5]]} 1 0 2
    (replicate 16 0)) as (data1 & m1 & He & Hd & Hv & Hf).
  - reflexivity.
  - reflexivity.
  - vm_compute. discriminate.
  - intros [|[|i]] p Hp; [injection Hp as <-; reflexivity..|discriminate Hp].
  - intros [|[|i]] p j Hp Hj; [injection Hp as <-..|discriminate Hp]; [|eexists; reflexivity].
    assert (j = 0 \/ j = 1) as [->| ->] by lia; eexists; vm_compute; reflexivity.
  - split.
    + reflexivity.
    + cbn. lia.
    + lia.
    + intros [|[|i]] p Hp; [injection Hp as <-; reflexivity..|discriminate Hp].
    + intros [|[|i]] p Hp Ha; [injection Hp as <-|injection Hp as <-; discriminate Ha|discriminate Hp].
      exists 9, [5; 5; 5]. split; [reflexivity|]. split; [reflexivity|]. cbn. lia.
    + intros [|[|i]] [|[|j]] p q Hp Hq Ha Ha2; try reflexivity; try discriminate Hp; try discriminate Hq;
        injection Hp as <-; injection Hq as <-; discriminate.
  - exists data1, m1. split; [exact He|]. split; [exact Hd|]. split.
    + refine (eq_trans (Hv 0%nat _ (mkMBLA 1 (Some 9) true 8) 0 eq_refl eq_refl eq_refl _) _); [lia|reflexivity].
    + rewrite (Hf (Some 9) 2); [reflexivity|].
      intros [|[|i]] q Hq Ha; [injection Hq as <-|injection Hq as <-; discriminate Ha|discriminate Hq].
      intros [_ Hk]. lia.
Defined.
