(* ===== verification/AmdtpStart.v ===== *)
(** * AmdtpStart: an AMDTP receive stream starts

    The state machine of StreamProcessor.v with the packets of
    AmdtpReceive.v: what a packet has to have for the subclass to take it on
    the way from the stopped to the running state. *)
From stdpp Require Import gmap.
From S2P Require Import Prelude Serialize Memory Ports CycleTimer MachineFloat RingBuffer TimestampedBuffer StreamProcessor StreamWorld Cip Amdtp.
From S2P Require Import AmdtpReceive AmdtpTransmit AmdtpLink.

(** The time that a header gives is one of the buffer, whatever the SYT. *)
Lemma sytRecvToFullTicks2_valid syt ctr : ticks_valid (sytRecvToFullTicks2 syt ctr).
Proof.
  unfold sytRecvToFullTicks2. cbv zeta. rewrite GET_OFFSET_mod, !GET_CYCLES_mod, GET_SECS_mod, land_0xf.
  pose proof (Z.mod_pos_bound (ctr / 4096) 8192 ltac:(lia)). pose proof (Z.mod_pos_bound (syt / 4096) 8192 ltac:(lia)).
  pose proof (Z.mod_pos_bound (ctr / 33554432) 128 ltac:(lia)). pose proof (Z.mod_pos_bound syt 4096 ltac:(lia)).
  set (rc := (ctr / 4096) mod 8192) in *. set (sc := (syt / 4096) mod 8192) in *. pose proof (Z.mod_pos_bound rc 16 ltac:(lia)).
  set (secs := (ctr / 33554432) mod 128) in *. set (off := syt mod 4096) in *. rewrite (u32_small sc) by lia.
  set (d := u32 (_ - rc mod 16)). assert (Hd : 0 <= d < 8192).
  { subst d. destruct (Z.ltb_spec sc (rc mod 16)); rewrite ?(u32_small (sc + 16)), u32_small by lia; lia. }
  clearbody d. rewrite (u32_small (rc + d)) by lia.
  set (t := if _ <? 8000 then _ else _). assert (Ht : 0 <= t < 3 * TICKS_PER_SECOND).
  { subst t. unfold TICKS_PER_SECOND, TICKS_PER_CYCLE. destruct (Z.ltb_spec (rc + d) 8000); [rewrite u32_small; lia|].
    rewrite (u32_small (rc + d - 8000)), (u32_small ((rc + d - 8000) * 3072)) by lia. rewrite u64_small by (change (2 ^ 64) with 18446744073709551616; lia). lia. }
  clearbody t. unfold TICKS_PER_SECOND in *. rewrite (u64_small (t + off)) by (change (2 ^ 64) with 18446744073709551616; lia).
  rewrite (u64_small (secs * _)) by (change (2 ^ 64) with 18446744073709551616; lia).
  rewrite addTicks_mod by (unfold ticks_valid, MAX_TICKS, TICKS_PER_SECOND; lia).
  unfold ticks_valid. apply Z.mod_pos_bound. done.
Qed.

Section start.
Context {W : Type} `{SPEnv W}.
Variable getAudioDataType : W -> eADT_AudioDataType.
Variable block : Z -> list Z.
Variables dim period : Z.

Abbreviation E := (sp_world AmdtpReceiveStreamProcessor W).

(** the value at which the times of the buffer wrap *)
Definition wrap_value : float := f64_of_Z (128 * TICKS_PER_SECOND).

(** A packet with [period] frames of [dim] events: its header is one of AMDTP,
    with a time, and its payload is complete. *)
Definition amdtp_packet (data : list Z) (n tag sy ctr : Z) : Prop :=
  exists pk, cip_of_bytes data = Some pk /\ pk_syt pk <> 0xFFFF /\ pk_fdf pk <> 0xFF /\ pk_fmt pk = 0x10 /\ 0 < pk_dbs pk /\ 8 <= n /\
    rx_nevents pk n = Some period /\ Z.of_nat (length (drop 8 data)) = period * (4 * dim).

#[local] Existing Instance AmdtpReceive_SPChild.

Lemma time_valid_ok (s : sp_shared E) t c : ticks_valid t -> time_ok wrap_value (sh_with_timestamp t c s).
Proof.
  intros Ht. unfold time_ok, wrap_value. cbn [sh_with_timestamp sh_last_timestamp].
  unfold ticks_valid, MAX_TICKS in Ht. split; [apply f64_of_Z_ltb|apply f64_of_Z_nonneg]; unfold TICKS_PER_SECOND in *; lia.
Qed.

Lemma writeFrames_keeps n data ts b ok b1 : writeFrames n data ts b = Some (ok, b1) -> tb_keeps b b1.
Proof. unfold writeFrames, tb_write, incrementFrameCounter. intros Hw. repeat (case_match || simplify_option_eq); done. Qed.

(** the data go to the buffer, or, if it is transparent, their time does *)
Lemma fresh_write mode (s : sp_shared E) data :
  ready (4 * dim) period wrap_value mode true true s -> Z.of_nat (length data) = period * (4 * dim) ->
  exists b, writeFrames period data (f64_of_Z (sh_last_timestamp s)) (sh_data_buffer s) = Some (true, b) /\
    ready (4 * dim) period wrap_value mode mode false (sh_with_data_buffer b s).
Proof.
  intros [Hm (rb & Hok & Hf) Hc Hp Hw [Hsz Hbig] Hco Ht] Hlen. destruct (Hf eq_refl) as (Hfc & Hnil & Hcap). specialize (Ht eq_refl).
  pose proof (ok_cluster_pos _ _ Hok) as Hpos. rewrite Hc in Hpos.
  assert (Hwf : tb_wf (sh_data_buffer s) rb) by (split; [done|]; rewrite Hfc, (rb_fill_nil rb Hnil); lia).
  assert (Hinc : increment_allowed period (f64_of_Z (sh_last_timestamp s)) (tb_clock (sh_data_buffer s)) = true).
  { unfold increment_allowed. destruct Ht as [Ht1 Ht2]. by rewrite Hw, Ht1, Ht2, Hp, Z.eqb_refl. }
  assert (Hkeep : forall b rb1 fresh, writeFrames period data (f64_of_Z (sh_last_timestamp s)) (sh_data_buffer s) = Some (true, b) -> tb_ok b rb1 ->
    (fresh = true -> tb_framecounter b = 0 /\ rb_content rb1 = [] /\ nominal_size s * (4 * dim) - 1 <= rb_capacity rb1) ->
    ready (4 * dim) period wrap_value mode fresh false (sh_with_data_buffer b s)).
  { intros b rb1 fresh (K1 & K2 & K3 & K4)%writeFrames_keeps Hok1 Hf1.
    split; unfold tb_cluster in *; cbn [sh_with_data_buffer sh_data_buffer sh_correct_last_timestamp]; [congruence| |congruence..|done|done|done].
    exists rb1. by split. }
  destruct mode.
  - destruct (writeFrames_transparent_spec (sh_data_buffer s) rb period data (f64_of_Z (sh_last_timestamp s)) Hwf Hm) as (b1 & Hwr & Hwf1 & Hfc1 & _);
      [nia|done|]. exists b1. split; [done|]. apply (Hkeep b1 rb); [done|by destruct Hwf1|]. intros _. by rewrite Hfc1.
  - destruct (writeFrames_opaque_spec (sh_data_buffer s) rb period data (f64_of_Z (sh_last_timestamp s)) Hwf Hm) as (b1 & rb1 & Hwr & Hwf1 & _);
      [lia|by rewrite Hc|rewrite Hc, (rb_fill_nil rb Hnil); nia|done|]. exists b1. split; [done|]. apply (Hkeep b1 rb1); [done|by destruct Hwf1|done].
Qed.

#[export] Instance AmdtpReceive_PacketLaws :
  PacketLaws (H0 := AmdtpReceive_SPChild false getAudioDataType) (4 * dim) period wrap_value amdtp_packet.
Proof.
  split.
  - intros mode fresh timed data n tag sy ctr s (pk & Hpk & H1 & H2 & H3 & H4 & H5 & _) Hr.
    eexists. cbn [processPacketHeader AmdtpReceive_SPChild]. unfold rx_processPacketHeader. rewrite Hpk. cbn [mbind option_bind].
    rewrite (proj2 (Z.eqb_neq _ _) H1), (proj2 (Z.eqb_neq _ _) H2), (proj2 (Z.eqb_eq _ _) H3), (proj2 (Z.ltb_lt _ _) H4), (proj2 (Z.leb_le (2 * 4) _) H5).
    cbn [negb andb]. split; [reflexivity|]. destruct Hr. split; try done. intros _. apply time_valid_ok, sytRecvToFullTicks2_valid.
  - intros mode data n tag sy ctr s (pk & Hpk & _ & _ & _ & _ & _ & Hn & Hlen) Hr.
    destruct (fresh_write mode s (drop 8 data) Hr Hlen) as (b & Hw & Hr1). exists (sh_with_data_buffer b s). split; [|done].
    cbn [processPacketData AmdtpReceive_SPChild]. unfold rx_processPacketData. rewrite Hpk. cbn [mbind option_bind]. rewrite Hn. cbn [mbind option_bind andb].
    by rewrite Hw.
Qed.

(** A packet that does not fit the buffer of a running stream is an xrun: this
    is the case of [xrun_stops_stream] in which the subclass refuses the data. *)
Lemma full_buffer_xrun data n tag sy ctr rb (sp : StreamProcessor E) :
  amdtp_packet data n tag sy ctr -> tb_wf (sh_data_buffer (sp_protected sp)) rb ->
  tb_transparent (sh_data_buffer (sp_protected sp)) = false -> tb_cluster (sh_data_buffer (sp_protected sp)) = 4 * dim ->
  sh_correct_last_timestamp (sp_protected sp) = false -> 0 <= period * (4 * dim) < 2 ^ 31 ->
  rb_capacity rb < rb_fill rb + period * (4 * dim) ->
  exists sp2, packet_results (H0 := AmdtpReceive_SPChild false getAudioDataType) false data n tag sy ctr sp = Some ((eCRV_OK, Some eCRV_XRun), sp2).
Proof.
  intros (pk & Hpk & H1 & H2 & H3 & H4 & H5 & Hn & Hlen) Hwf Hm Hc Hco Hb Hfull. pose proof (ok_cluster_pos _ _ (proj1 Hwf)) as Hpos.
  destruct (writeFrames_overflow_spec (sh_data_buffer (sp_protected sp)) rb period (drop 8 data)
    (f64_of_Z (sytRecvToFullTicks2 (CondSwapFromBus16 (pk_syt pk)) ctr)) Hwf Hm) as (b1 & rb1 & Hw & _); rewrite ?Hc; [nia|lia|done|done|].
  eexists. unfold packet_results, header_then_data, debug_fix_timestamp, correct_tail_timestamp, gets, mod_core, on_child, mbind, SPM_bind.
  cbn [processPacketHeader processPacketData AmdtpReceive_SPChild sp_protected]. unfold rx_processPacketHeader. rewrite Hpk. cbn [mbind option_bind].
  rewrite (proj2 (Z.eqb_neq _ _) H1), (proj2 (Z.eqb_neq _ _) H2), (proj2 (Z.eqb_eq _ _) H3), (proj2 (Z.ltb_lt _ _) H4), (proj2 (Z.leb_le (2 * 4) _) H5).
  cbn [negb andb mret SPM_ret mbind option_bind sp_protected sp_private sh_with_timestamp sh_correct_last_timestamp]. unfold id. cbn [sp_protected sh_with_timestamp sh_correct_last_timestamp].
  rewrite Hco. cbn [negb mret SPM_ret].
  unfold rx_processPacketData. rewrite Hpk. cbn [mbind option_bind]. rewrite Hn. cbn [mbind option_bind andb sp_protected sh_with_timestamp sh_last_timestamp sh_data_buffer].
  by rewrite Hw.
Qed.

(** C31: an AMDTP receive stream starts.  In a release build, a stream in the
    stopped state with a prepared, transparent buffer ([ready]: frames of [dim]
    events, [period] frames to a packet, fewer than the buffer gets) that is asked
    to run dry and then to run, and gets two packets after each request, the
    second of them in a cycle that has reached the requested one, runs: no call
    aborts, and its buffer is opaque.  The packets need no more than an AMDTP
    header with a time, whatever it is, and a complete payload.  What is outside
    is assumed to keep its settings when it is signalled, the handler of the
    stream to start, and [malloc] to return memory. *)
Theorem start_reaches_running t0 t1 p c0 c1 c2 c3 (sp : StreamProcessor E) :
  (forall w, env_settings (signalActivity w) = env_settings w /\
     env_settings (signalActivityTransmit w) = env_settings w /\ env_settings (signalActivityReceive w) = env_settings w) ->
  (forall cycle w, fst (ihm_startHandlerForStream cycle w) = true /\
     env_settings (snd (ihm_startHandlerForStream cycle w)) = env_settings w) ->
  (forall k, 0 <= k -> Z.of_nat (length (block k)) = k) ->
  (forall c, c ∈ [c0; c1; c2; c3] -> let '(data, n, tag, sy) := p c in amdtp_packet data n tag sy c) ->
  sp_processor_type (sp_private sp) = ePT_Receive -> sp_state (sp_private sp) = ePS_Stopped ->
  ready (4 * dim) period wrap_value true false false (sp_protected sp) -> 0 <= t0 -> 0 <= t1 ->
  0 <= diffCycles (CYCLE_TIMER_GET_CYCLES c1) (u32 (TICKS_TO_CYCLES t0)) ->
  0 <= diffCycles (CYCLE_TIMER_GET_CYCLES c3) (u32 (TICKS_TO_CYCLES t1)) ->
  exists sp1,
    start_sequence (H0 := AmdtpReceive_SPChild false getAudioDataType) false block t0 t1 p c0 c1 c2 c3 sp = Some ((), sp1) /\
    sp_state (sp_private sp1) = ePS_Running /\ isTransparent (sh_data_buffer (sp_protected sp1)) = false /\
    ready (4 * dim) period wrap_value false false false (sp_protected sp1).
Proof.
  intros He1 He2 Hb Hp Hty Hs Hr Ht0 Ht1 Hc1 Hc3.
  destruct (packets_start_stream (H0 := AmdtpReceive_SPChild false getAudioDataType) false block (4 * dim) period wrap_value eq_refl)
    with (good := amdtp_packet) (t0 := t0) (t1 := t1) (p := p) (c0 := c0) (c1 := c1) (c2 := c2) (c3 := c3) (sp := sp)
    as (sp1 & H1 & H2 & H3); [..|done|done|done|done|done|done|done|done|].
  - intros e. apply (He1 (w_outside e)).
  - intros cycle e. pose proof (He2 cycle (w_outside e)) as Hw. cbn. unfold w_lift. by destruct (ihm_startHandlerForStream cycle (w_outside e)).
  - done.
  - apply _.
  - exists sp1. split; [done|]. split; [done|]. split; [apply (rd_mode _ _ _ _ _ _ _ H3)|done].
Qed.
End start.

(** ** A receiver at 48 kHz, from its constructor on

    It takes the packets of the transmitter of AmdtpLink.v. *)

Definition demo_receiver : StreamProcessor (sp_world AmdtpReceiveStreamProcessor Z) :=
  StreamProcessor_new ePT_Receive (mkWorld (AmdtpReceiveStreamProcessor_new 1 (replicate 64 0)) [] ∅ 0).

Definition demo_format (e : Z) : eADT_AudioDataType := eADT_Int24.

#[local] Instance demo_outside : SPEnv Z := demo_env.

Definition prepared_receiver : option (StreamProcessor (sp_world AmdtpReceiveStreamProcessor Z)) :=
  match (_ ← init; prepare (H0 := AmdtpReceive_SPChild false demo_format) zeros) demo_receiver with
  | Some (true, sp) => Some sp
  | _ => None
  end.

Definition link_packet (ctr : Z) : list Z * Z * Z * Z := (on_bus (fst demo_data), pkt_length (fst demo_data), 1, 0).

Lemma start_reaches_running_witness :
  exists sp sp1, prepared_receiver = Some sp /\
    start_sequence (H0 := AmdtpReceive_SPChild false demo_format) false zeros (150 * TICKS_PER_CYCLE) (300 * TICKS_PER_CYCLE) link_packet
      (demo_ctr 100) (demo_ctr 150) (demo_ctr 200) (demo_ctr 301) sp = Some ((), sp1) /\
    sp_state (sp_private sp1) = ePS_Running /\ isTransparent (sh_data_buffer (sp_protected sp1)) = false.
Proof.
  destruct prepared_receiver as [sp|] eqn:Hsp; [|vm_compute in Hsp; discriminate Hsp].
  assert (Hok : sp_processor_type (sp_private sp) = ePT_Receive /\ sp_state (sp_private sp) = ePS_Stopped /\
    ready (4 * 1) 8 wrap_value true false false (sp_protected sp)).
  { vm_compute in Hsp. injection Hsp as <-. split; [reflexivity|]. split; [reflexivity|].
    split; [reflexivity| |reflexivity..|split; [split; reflexivity|vm_compute; discriminate]|reflexivity|discriminate].
    eexists. split; [|discriminate]. split; [reflexivity| |reflexivity..|].
    - split; [exists 7; split; [lia|reflexivity]|]. cbn. lia.
    - eexists. split; reflexivity. }
  destruct Hok as (Hty & Hs & Hr).
  destruct (start_reaches_running demo_format zeros 1 8 (150 * TICKS_PER_CYCLE) (300 * TICKS_PER_CYCLE) link_packet
    (demo_ctr 100) (demo_ctr 150) (demo_ctr 200) (demo_ctr 301) sp) as (sp1 & H1 & H2 & H3 & _);
    [intros w; split; [reflexivity|split; reflexivity]|intros cycle w; split; reflexivity| | |exact Hty|exact Hs|exact Hr|vm_compute; discriminate..|].
  - intros k Hk. unfold zeros. rewrite length_replicate. lia.
  - intros c _. exists (match cip_of_bytes (on_bus (fst demo_data)) with Some pk => pk | None => mkCipPacket 0 0 0 0 0 0 0 0 0 0 0 0 end).
    vm_compute. split; [reflexivity|]. split; [discriminate|]. split; [discriminate|]. split; [reflexivity|]. split; [reflexivity|]. split; [discriminate|].
    split; reflexivity.
  - exists sp, sp1. split; [reflexivity|]. split; [exact H1|]. split; [exact H2|exact H3].
Defined.
