(* ===== verification/AmdtpSse.v ===== *)
(** * AmdtpSse: the SSE2 encoders of AmdtpTransmitStreamProcessor.cpp

    On a machine with SSE2 the transmitter encodes four samples at a time:
    groups of four ports with one vector per event, and the remaining ports
    with one vector per four events.  A vector is the list of its four 32-bit
    lanes, the first one at the lowest address. *)
From stdpp Require Import gmap.
From S2P Require Import Prelude Serialize Memory Ports CycleTimer MachineFloat RingBuffer TimestampedBuffer StreamProcessor StreamWorld Cip Amdtp.
From S2P Require Import AmdtpTransmit AmdtpLink.

(** ** Vector instructions *)

Definition mm_and (a b : list Z) : list Z := zip_with Z.land a b.
Definition mm_or (a b : list Z) : list Z := zip_with Z.lor a b.

(** each lane is two 16-bit integers *)
Definition slli_epi16 (n x : Z) : Z := 2 ^ 16 * u16 (Z.shiftl (x / 2 ^ 16) n) + u16 (Z.shiftl (x mod 2 ^ 16) n).
Definition srli_epi16 (n x : Z) : Z := 2 ^ 16 * Z.shiftr (x / 2 ^ 16) n + Z.shiftr (x mod 2 ^ 16) n.
Definition slli_epi32 (n x : Z) : Z := u32 (Z.shiftl x n).
Definition srli_epi32 (n x : Z) : Z := Z.shiftr x n.

Definition mm_slli_epi16 (a : list Z) (n : Z) : list Z := slli_epi16 n <$> a.
Definition mm_srli_epi16 (a : list Z) (n : Z) : list Z := srli_epi16 n <$> a.
Definition mm_slli_epi32 (a : list Z) (n : Z) : list Z := slli_epi32 n <$> a.
Definition mm_srli_epi32 (a : list Z) (n : Z) : list Z := srli_epi32 n <$> a.

(** the two-step byte swap, a swap in halves and a swap of halves *)
Definition mm_swap (v : list Z) : list Z :=
  let v := mm_or (mm_slli_epi16 v 8) (mm_srli_epi16 v 8) in
  mm_or (mm_slli_epi32 v 16) (mm_srli_epi32 v 16).

Definition v_mask : list Z := [0x00FFFFFF; 0x00FFFFFF; 0x00FFFFFF; 0x00FFFFFF].
Definition v_label : list Z := [0x40000000; 0x40000000; 0x40000000; 0x40000000].

(** mask, label and swap *)
Definition sse_label (v : list Z) : list Z := mm_swap (mm_or (mm_and v v_mask) v_label).

(** four integers *)
Definition sse_int24 (v : list Z) : list Z := sse_label v.

(** the second operand is the result unless the first one is greater (less) *)
Definition max_ps (a b : float) : float := if SFltb b a then a else b.
Definition min_ps (a b : float) : float := if SFltb a b then a else b.

(** truncation; everything that does not fit is the smallest integer *)
Definition cvttps (x : float) : Z := match to_int 32 x with Some z => u32 z | None => 0x80000000 end.

Definition sse_clip (x : float) : float := min_ps (max_ps x (f32_of_Z (-1))) (f32_of_Z 1).

(** four floating point numbers: clip, multiply, convert *)
Definition sse_float (v : list Z) : list Z :=
  sse_label ((fun w => cvttps (f32_mul (sse_clip (f32_of_bits w)) AMDTP_FLOAT_MULTIPLIER)) <$> v).

(** ** The encoders *)

Section sse.
Variable DEBUG : bool.
Variable convert : list Z -> list Z.

(** [client_buffers[j]]: the buffer of a port, or the scratch buffer, which has
    been cleared *)
Definition client_word (m : memory) (pc : port_caches) (i offset j : Z) : option Z :=
  p ← pc_audio_ports pc !! Z.to_nat i;
  if tx_active (mc_buffer p) (mc_enabled p) then mem_load m (mc_buffer p) (offset + j) else Some 0.

(** four quadlets, [step] quadlets apart *)
Definition store_lanes (k step : Z) (v : list Z) (data : list Z) : option (list Z) :=
  match v with
  | [a; b; c; d] =>
      data ← store_quadlet k a data;
      data ← store_quadlet (k + step) b data;
      data ← store_quadlet (k + 2 * step) c data;
      store_quadlet (k + 3 * step) d data
  | _ => None
  end.

(** an event of the ports [i .. i + 3]; their quadlets are adjacent *)
Definition sse_group_event (dimension : Z) (pc : port_caches) (m : memory) (i offset j : Z) (data : list Z)
  : option (list Z) :=
  a ← client_word m pc i offset j; b ← client_word m pc (i + 1) offset j;
  c ← client_word m pc (i + 2) offset j; d ← client_word m pc (i + 3) offset j;
  store_lanes (i + j * dimension) 1 (convert [a; b; c; d]) data.

(** [for (i = 0; i < nb_audio_ports - 4; i += 4)] *)
Definition sse_groups (nb : Z) : Z := if 0 <? nb - 4 then (nb - 4 + 3) / 4 else 0.

(** four events of a port *)
Definition sse_port_events (dimension : Z) (m : memory) (i offset k : Z) (p : MBLA_port_cache) (data : list Z)
  : option (list Z) :=
  let j := 4 * k in
  a ← mem_load m (mc_buffer p) (offset + j); b ← mem_load m (mc_buffer p) (offset + j + 1);
  c ← mem_load m (mc_buffer p) (offset + j + 2); d ← mem_load m (mc_buffer p) (offset + j + 3);
  store_lanes (i + j * dimension) dimension (convert [a; b; c; d]) data.

(** The loop over the events of a port takes steps of four also past
    [nevents]; nothing remains for the loop after it. *)
Definition sse_port (dimension : Z) (m : memory) (i offset nevents : Z) (p : MBLA_port_cache) (data : list Z)
  : option (list Z) :=
  if negb (tx_port_ok DEBUG (mc_buffer_size p) nevents offset) then None
  else if tx_active (mc_buffer p) (mc_enabled p) then
    for_loop ((nevents + 3) / 4) (fun k data => sse_port_events dimension m i offset k p data) data
  else for_loop nevents (fun j data => store_quadlet (i + j * dimension) 0x00000040 data) data.

Definition sse_encode_ports (scratch_size dimension : Z) (pc : port_caches) (m : memory) (offset nevents : Z) (data : list Z)
  : option (list Z) :=
  if scratch_size <=? u32 (nevents * 4) then None
  else
    let nb := pc_nb_audio_ports pc in
    let groups := sse_groups nb in
    data ← for_loop groups (fun g data =>
      for_loop nevents (fun j data => sse_group_event dimension pc m (4 * g) offset j data) data) data;
    for_loop (nb - 4 * groups) (fun r data =>
      p ← pc_audio_ports pc !! Z.to_nat (4 * groups + r);
      sse_port dimension m (4 * groups + r) offset nevents p data) data.
End sse.

Definition sse_encodeAudioPortsInt24 (DEBUG : bool) : Z -> Z -> port_caches -> memory -> Z -> Z -> list Z -> option (list Z) :=
  sse_encode_ports DEBUG sse_int24.

Definition sse_encodeAudioPortsFloat (DEBUG : bool) : Z -> Z -> port_caches -> memory -> Z -> Z -> list Z -> option (list Z) :=
  sse_encode_ports DEBUG sse_float.

(** ** The vector byte swap is [ByteSwap32] *)

Lemma lor_halves a b c d :
  is_u16 b -> is_u16 d -> Z.lor (2 ^ 16 * a + b) (2 ^ 16 * c + d) = 2 ^ 16 * Z.lor a c + Z.lor b d.
Proof.
  intros Hb Hd. assert (Hbd : is_u16 (Z.lor b d)) by (apply lor_range; [lia|done..]). unfold uint in *.
  rewrite !(Z.mul_comm (2 ^ 16)), <- !lor_add by (assumption || lia).
  rewrite Z.shiftl_lor, <- !Z.lor_assoc. f_equal. by rewrite Z.lor_assoc, (Z.lor_comm b), <- Z.lor_assoc.
Qed.

(** the bytes of a half are exchanged *)
Lemma swap_half h : is_u16 h -> Z.lor (u16 (Z.shiftl h 8)) (Z.shiftr h 8) = 2 ^ 8 * (h mod 256) + h / 256.
Proof.
  intros Hh. rewrite Z.shiftr_div_pow2, Z.shiftl_mul_pow2 by lia.
  replace (u16 (h * 2 ^ 8)) with (Z.shiftl (h mod 256) 8) by (rewrite Z.shiftl_mul_pow2 by lia; div_lia).
  rewrite lor_add by div_lia. change (2 ^ 8) with 256. lia.
Qed.

Lemma ByteSwap32_bytes x : is_u32 x ->
  ByteSwap32 x = word_of (x / 2 ^ 24 mod 2 ^ 8) (x / 2 ^ 16 mod 2 ^ 8) (x / 2 ^ 8 mod 2 ^ 8) (x mod 2 ^ 8).
Proof. intros Hx. rewrite (word_of_bytes x Hx) at 1. by rewrite ByteSwap32_word by (apply wrapU_uint; lia). Qed.

Lemma swap_lane x : is_u32 x ->
  let y := Z.lor (slli_epi16 8 x) (srli_epi16 8 x) in Z.lor (slli_epi32 16 y) (srli_epi32 16 y) = ByteSwap32 x.
Proof.
  intros Hx. cbv zeta. unfold slli_epi16, srli_epi16.
  assert (Hh : is_u16 (x / 2 ^ 16)) by div_lia. assert (Hl : is_u16 (x mod 2 ^ 16)) by div_lia.
  rewrite lor_halves by (rewrite ?Z.shiftr_div_pow2 by lia; div_lia). rewrite !swap_half by done.
  unfold slli_epi32, srli_epi32. rewrite Z.shiftr_div_pow2, Z.shiftl_mul_pow2 by lia.
  rewrite (ByteSwap32_bytes x Hx).
  set (h := x / 2 ^ 16) in *. set (l := x mod 2 ^ 16) in *.
  set (a := h mod 256). set (b := h / 256). set (c := l mod 256). set (d := l / 256).
  replace (u32 _) with (Z.shiftl (2 ^ 8 * c + d) 16) by (rewrite Z.shiftl_mul_pow2 by lia; subst a b c d; div_lia).
  replace (_ / 2 ^ 16) with (2 ^ 8 * a + b) by (subst a b c d; div_lia).
  rewrite lor_add by (subst a b; div_lia). unfold word_of. subst a b c d h l.
  change (2 ^ 24) with 16777216. div_lia.
Qed.

(** ** The conversions are those of the scalar encoders *)

Lemma sse_label_spec a b c d : sse_label [a; b; c; d] = label_MBLA <$> [a; b; c; d].
Proof.
  assert (Hw : forall w, is_u32 (Z.lor (Z.land w 0x00FFFFFF) 0x40000000)).
  { intros w. apply lor_range; [lia| |lia]. change 0x00FFFFFF with (2 ^ 24 - 1). rewrite land_mod by lia. div_lia. }
  unfold sse_label, mm_swap, mm_slli_epi16, mm_srli_epi16, mm_slli_epi32, mm_srli_epi32, mm_or, mm_and, v_mask, v_label.
  cbn [zip_with fmap list_fmap]. rewrite !swap_lane by apply Hw. done.
Qed.

Lemma f32_one : f32_of_Z 1 = S754_finite false 8388608 (-23).
Proof. vm_compute. reflexivity. Qed.

Lemma f32_minus_one : f32_of_Z (-1) = S754_finite true 8388608 (-23).
Proof. vm_compute. reflexivity. Qed.

Lemma SFltb_finite s m e s1 m1 e1 :
  SFltb (S754_finite s m e) (S754_finite s1 m1 e1) =
  match s, s1 with
  | true, false => true
  | false, true => false
  | false, false => match e ?= e1 with Lt => true | Gt => false | Eq => match (m ?= m1)%positive with Lt => true | _ => false end end
  | true, true => match e1 ?= e with Lt => true | Gt => false | Eq => match (m1 ?= m)%positive with Lt => true | _ => false end end
  end.
Proof.
  rewrite (Z.compare_antisym e e1), (Pos.compare_antisym m m1).
  unfold SFltb, SFcompare. destruct s, s1; [|done..|]; destruct (e ?= e1); try done.
  all: change (Pos.compare_cont Eq m m1) with (m ?= m1)%positive; by destruct (m ?= m1)%positive.
Qed.

(** minimum and maximum clip as the comparisons of the scalar encoder do, for
    the bounds [m * 2 ^ e] and its opposite *)
Lemma clip_spec m e x : x <> S754_nan ->
  let hi := S754_finite false m e in let lo := S754_finite true m e in
  min_ps (max_ps x lo) hi = if SFltb hi x then hi else if SFltb x lo then lo else x.
Proof.
  intros Hn. cbv zeta. unfold min_ps, max_ps.
  destruct x as [s|s| |[] m1 e1]; [by destruct s|by destruct s|done|..].
  - rewrite !SFltb_finite. rewrite (Z.compare_antisym e1 e), (Pos.compare_antisym m1 m).
    destruct (Z.compare_spec e1 e) as [->|He|He]; cbn [CompOpp]; rewrite ?SFltb_finite; [|done..].
    destruct (Pos.compare_spec m1 m) as [->|Hm|Hm]; cbn [CompOpp]; by rewrite ?SFltb_finite.
  - rewrite !SFltb_finite. rewrite (Z.compare_antisym e1 e), (Pos.compare_antisym m1 m).
    destruct (Z.compare_spec e1 e) as [->|He|He]; cbn [CompOpp]; rewrite ?SFltb_finite; [|done..].
    destruct (Pos.compare_spec m1 m) as [->|Hm|Hm]; cbn [CompOpp]; by rewrite ?SFltb_finite.
Qed.

Lemma sse_float_lane w v : encode_float w = Some v ->
  label_MBLA (cvttps (f32_mul (sse_clip (f32_of_bits w)) AMDTP_FLOAT_MULTIPLIER)) = v.
Proof.
  unfold encode_float. set (x := f32_of_bits w). clearbody x. intros H.
  assert (Hx : x <> S754_nan) by (intros ->; vm_compute in H; discriminate).
  unfold sse_clip. rewrite f32_one, f32_minus_one in *. rewrite (clip_spec 8388608 (-23) x Hx).
  destruct (SFltb (S754_finite false 8388608 (-23)) x); [apply (inj Some) in H as <-; vm_compute; reflexivity|].
  destruct (SFltb x (S754_finite true 8388608 (-23))); [apply (inj Some) in H as <-; vm_compute; reflexivity|].
  unfold cvttps. destruct (to_int 32 _) as [z|]; [|done]. by injection H as <-.
Qed.

(** ** The loops *)

(** the vector conversion agrees with a scalar one where the latter is defined *)
Definition converts (convert : list Z -> list Z) (encode : Z -> option Z) : Prop :=
  (forall a b c d va vb vc vd, encode a = Some va -> encode b = Some vb -> encode c = Some vc -> encode d = Some vd ->
     convert [a; b; c; d] = [va; vb; vc; vd]) /\
  encode 0 = Some (ByteSwap32 0x40000000).

Lemma sse_int24_converts : converts sse_int24 encode_int24.
Proof.
  split; [|reflexivity]. unfold encode_int24. intros a b c d va vb vc vd [= <-] [= <-] [= <-] [= <-]. apply sse_label_spec.
Qed.

Lemma sse_float_converts : converts sse_float encode_float.
Proof.
  split; [|vm_compute; reflexivity]. intros a b c d va vb vc vd Ha Hb Hc Hd. unfold sse_float.
  cbn [fmap list_fmap]. rewrite sse_label_spec. cbn [fmap list_fmap].
  by rewrite (sse_float_lane _ _ Ha), (sse_float_lane _ _ Hb), (sse_float_lane _ _ Hc), (sse_float_lane _ _ Hd).
Qed.

Section loops.
Variable DEBUG : bool.
Variable convert : list Z -> list Z.
Variable encode : Z -> option Z.
Hypothesis Hconv : converts convert encode.
Variables (dimension offset nevents : Z) (pc : port_caches) (m : memory) (data0 : list Z).
Hypothesis Hnb : pc_nb_audio_ports pc = Z.of_nat (length (pc_audio_ports pc)).
Hypothesis Hdim : pc_nb_audio_ports pc <= dimension.
Hypothesis Hn : 0 <= nevents.
Hypothesis Hdata : 4 * (nevents * dimension) <= Z.of_nat (length data0).
Hypothesis Hdbg : forall i p, pc_audio_ports pc !! i = Some p -> tx_port_ok DEBUG (mc_buffer_size p) nevents offset = true.
Hypothesis Hev : forall i p j, pc_audio_ports pc !! i = Some p -> 0 <= j < nevents -> is_Some (event_of encode m offset j p).

(** the quadlet of an event of a port *)
Definition quadlet_at (i j : Z) : option Z := p ← pc_audio_ports pc !! Z.to_nat i; event_of encode m offset j p.

(** exactly the quadlets of the pairs of a port and an event in [D] have been
    written *)
Definition encoded (D : Z -> Z -> Prop) (data : list Z) : Prop :=
  length data = length data0 /\
  (forall i j, D i j -> 0 <= i < pc_nb_audio_ports pc /\ 0 <= j < nevents /\
     load_quadlet data (i + j * dimension) = u32 <$> quadlet_at i j) /\
  (forall k, (forall i j, D i j -> k <> i + j * dimension) -> load_quadlet data k = load_quadlet data0 k) /\
  (bytes data0 -> bytes data).

Lemma encoded_iff D D1 data : (forall i j, D i j <-> D1 i j) -> encoded D data -> encoded D1 data.
Proof.
  intros HD (Hl & Hv & Hf & Hb). split; [done|]. split; [|split; [|done]].
  - intros i j Hij. apply Hv. by apply HD.
  - intros k Hk. apply Hf. intros i j Hij. apply Hk. by apply HD.
Qed.

Lemma quadlet_at_some i j : 0 <= i < pc_nb_audio_ports pc -> 0 <= j < nevents -> is_Some (quadlet_at i j).
Proof.
  intros Hi Hj. unfold quadlet_at. destruct (lookup_lt_is_Some_2 (pc_audio_ports pc) (Z.to_nat i)) as [p Hp]; [lia|].
  rewrite Hp. cbn [mbind option_bind]. by eapply Hev.
Qed.

Lemma encoded_store D data i j v :
  encoded D data -> 0 <= i < pc_nb_audio_ports pc -> 0 <= j < nevents -> quadlet_at i j = Some v ->
  exists data1, store_quadlet (i + j * dimension) v data = Some data1 /\
    encoded (fun i1 j1 => D i1 j1 \/ (i1 = i /\ j1 = j)) data1.
Proof.
  intros (Hl & Hv & Hf & Hb) Hi Hj Hq.
  destruct (store_quadlet_some (i + j * dimension) v data) as [d1 Hs]; [nia|nia|]. exists d1. split; [done|].
  destruct (store_quadlet_inv _ _ _ _ Hs) as (Hl1 & Hv1 & Ho & Hb1). split; [lia|]. split; [|split; [|auto]].
  - intros i1 j1 Hij. destruct (decide (i1 = i /\ j1 = j)) as [[-> ->]|Hne].
    + split; [done|]. split; [done|]. by rewrite Hv1, Hq.
    + destruct Hij as [Hij|Hij]; [|done]. destruct (Hv _ _ Hij) as (Hi1 & Hj1 & Hload). split; [done|]. split; [done|].
      rewrite Ho; [done|]. intros He. apply event_index in He; lia.
  - intros k Hk. rewrite Ho by (apply Hk; by right). apply Hf. intros i1 j1 Hij. apply Hk. by left.
Qed.

(** a vector of four quadlets *)
Lemma encoded_lanes D data k step (ii jj : Z -> Z) :
  encoded D data ->
  (forall l, 0 <= l < 4 -> 0 <= ii l < pc_nb_audio_ports pc /\ 0 <= jj l < nevents /\ k + l * step = ii l + jj l * dimension) ->
  forall a b c d, quadlet_at (ii 0) (jj 0) = Some a -> quadlet_at (ii 1) (jj 1) = Some b ->
    quadlet_at (ii 2) (jj 2) = Some c -> quadlet_at (ii 3) (jj 3) = Some d ->
  exists data1, store_lanes k step [a; b; c; d] data = Some data1 /\
    encoded (fun i j => D i j \/ exists l, 0 <= l < 4 /\ i = ii l /\ j = jj l) data1.
Proof.
  intros He Hl a b c d Ha Hb Hc Hd. unfold store_lanes.
  destruct (Hl 0 ltac:(lia)) as (I0 & J0 & E0), (Hl 1 ltac:(lia)) as (I1 & J1 & E1), (Hl 2 ltac:(lia)) as (I2 & J2 & E2),
    (Hl 3 ltac:(lia)) as (I3 & J3 & E3).
  destruct (encoded_store D data (ii 0) (jj 0) a) as (d1 & Hs1 & He1); [done..|].
  destruct (encoded_store _ d1 (ii 1) (jj 1) b He1) as (d2 & Hs2 & He2); [done..|].
  destruct (encoded_store _ d2 (ii 2) (jj 2) c He2) as (d3 & Hs3 & He3); [done..|].
  destruct (encoded_store _ d3 (ii 3) (jj 3) d He3) as (d4 & Hs4 & He4); [done..|]. exists d4. split.
  { replace (store_quadlet k a data) with (Some d1) by (rewrite <- Hs1; f_equal; lia). cbn [mbind option_bind].
    replace (store_quadlet (k + step) b d1) with (Some d2) by (rewrite <- Hs2; f_equal; lia). cbn [mbind option_bind].
    rewrite E2, Hs3. cbn [mbind option_bind]. by rewrite E3, Hs4. }
  eapply encoded_iff; [|exact He4]. intros i j. split.
  - intros [[[[HD|[-> ->]]|[-> ->]]|[-> ->]]|[-> ->]]; [by left|right; by exists 0|right; by exists 1|right; by exists 2|
      right; by exists 3].
  - intros [HD|(l & Hl4 & -> & ->)]; [by do 4 left|].
    assert (l = 0 \/ l = 1 \/ l = 2 \/ l = 3) as [->|[->|[->| ->]]] by lia; tauto.
Qed.

Lemma client_word_spec i j : 0 <= i < pc_nb_audio_ports pc -> 0 <= j < nevents ->
  exists w v, client_word m pc i offset j = Some w /\ encode w = Some v /\ quadlet_at i j = Some v.
Proof.
  intros Hi Hj. destruct (quadlet_at_some i j Hi Hj) as [v Hv]. unfold client_word. revert Hv. unfold quadlet_at.
  destruct (pc_audio_ports pc !! Z.to_nat i) as [p|]; [|done]. cbn [mbind option_bind].
  unfold event_of. fold (tx_audio_active p). destruct (tx_audio_active p).
  - intros (w & -> & Hw)%bind_Some. by exists w, v.
  - intros [= <-]. exists 0, (ByteSwap32 0x40000000). split; [done|]. split; [apply Hconv|done].
Qed.

Lemma group_event_spec D g j data :
  encoded D data -> 0 <= g -> 4 * g + 3 < pc_nb_audio_ports pc -> 0 <= j < nevents ->
  exists data1, sse_group_event convert dimension pc m (4 * g) offset j data = Some data1 /\
    encoded (fun i1 j1 => D i1 j1 \/ (4 * g <= i1 < 4 * g + 4 /\ j1 = j)) data1.
Proof.
  intros He Hg Hg3 Hj. unfold sse_group_event.
  destruct (client_word_spec (4 * g) j) as (a & va & -> & Ha & Hqa); [lia..|]. cbn [mbind option_bind].
  destruct (client_word_spec (4 * g + 1) j) as (b & vb & -> & Hb & Hqb); [lia..|]. cbn [mbind option_bind].
  destruct (client_word_spec (4 * g + 2) j) as (c & vc & -> & Hc & Hqc); [lia..|]. cbn [mbind option_bind].
  destruct (client_word_spec (4 * g + 3) j) as (d & vd & -> & Hd & Hqd); [lia..|]. cbn [mbind option_bind].
  rewrite (proj1 Hconv _ _ _ _ _ _ _ _ Ha Hb Hc Hd).
  destruct (encoded_lanes D data (4 * g + j * dimension) 1 (fun l => 4 * g + l) (fun _ => j) He) with va vb vc vd as (d1 & Hs & H1);
    [intros l Hl; lia|by rewrite Z.add_0_r|done..|].
  exists d1. split; [done|]. eapply encoded_iff; [|exact H1]. intros i1 j1. split.
  - intros [HD|(l & Hl & -> & ->)]; [by left|right; lia].
  - intros [HD|(Hi & ->)]; [by left|right]. exists (i1 - 4 * g). lia.
Qed.

Lemma port_events_spec D i k p data :
  encoded D data -> 0 <= i < pc_nb_audio_ports pc -> pc_audio_ports pc !! Z.to_nat i = Some p -> tx_audio_active p = true ->
  0 <= k -> 4 * k + 3 < nevents ->
  exists data1, sse_port_events convert dimension m i offset k p data = Some data1 /\
    encoded (fun i1 j1 => D i1 j1 \/ (i1 = i /\ 4 * k <= j1 < 4 * k + 4)) data1.
Proof.
  intros He Hi Hp Ha Hk Hk3. unfold sse_port_events. cbv zeta.
  assert (Hw : forall j, 0 <= j < nevents -> exists w v, mem_load m (mc_buffer p) (offset + j) = Some w /\ encode w = Some v /\
    quadlet_at i j = Some v).
  { intros j Hj. destruct (client_word_spec i j Hi Hj) as (w & v & Hw & Hv). exists w, v. split; [|done].
    revert Hw. unfold client_word. rewrite Hp. cbn [mbind option_bind]. fold (tx_audio_active p). by rewrite Ha. }
  destruct (Hw (4 * k)) as (a & va & -> & Hva & Hqa); [lia|]. cbn [mbind option_bind].
  rewrite <- !(Z.add_assoc offset).
  destruct (Hw (4 * k + 1)) as (b & vb & -> & Hvb & Hqb); [lia|]. cbn [mbind option_bind].
  destruct (Hw (4 * k + 2)) as (c & vc & -> & Hvc & Hqc); [lia|]. cbn [mbind option_bind].
  destruct (Hw (4 * k + 3)) as (d & vd & -> & Hvd & Hqd); [lia|]. cbn [mbind option_bind].
  rewrite (proj1 Hconv _ _ _ _ _ _ _ _ Hva Hvb Hvc Hvd).
  destruct (encoded_lanes D data (i + 4 * k * dimension) dimension (fun _ => i) (fun l => 4 * k + l) He) with va vb vc vd
    as (d1 & Hs & H1); [intros l Hl; lia|by rewrite Z.add_0_r|done..|].
  exists d1. split; [done|]. eapply encoded_iff; [|exact H1]. intros i1 j1. split.
  - intros [HD|(l & Hl & -> & ->)]; [by left|right; lia].
  - intros [HD|(-> & Hj)]; [by left|right]. exists (j1 - 4 * k). lia.
Qed.

(** ports [0 .. n - 1] are done *)
Definition ports_done (n i j : Z) : Prop := 0 <= i < n /\ 0 <= j < nevents.

Lemma groups_spec groups : 0 <= groups -> 4 * groups <= pc_nb_audio_ports pc ->
  exists data1, for_loop groups (fun g data =>
      for_loop nevents (fun j data => sse_group_event convert dimension pc m (4 * g) offset j data) data) data0 = Some data1 /\
    encoded (ports_done (4 * groups)) data1.
Proof.
  intros Hg Hnb4. apply (for_loop_rule (fun g => encoded (ports_done (4 * g)))); [done| |].
  - split; [done|]. split; [intros i j [Hi _]; lia|by split].
  - intros g d Hgr He.
    destruct (for_loop_rule (fun j => encoded (fun i1 j1 => ports_done (4 * g) i1 j1 \/ (4 * g <= i1 < 4 * g + 4 /\ 0 <= j1 < j)))
      (fun j data => sse_group_event convert dimension pc m (4 * g) offset j data) nevents d) as (d1 & Hd1 & He1).
    + done.
    + eapply encoded_iff; [|exact He]. intros i j. split; [by left|]. intros [H|H]; [done|lia].
    + intros j d1 Hj He1. destruct (group_event_spec _ g j d1 He1) as (d2 & Hd2 & He2); [lia..|]. exists d2. split; [done|].
      eapply encoded_iff; [|exact He2]. intros i1 j1. unfold ports_done. lia.
    + exists d1. split; [done|]. eapply encoded_iff; [|exact He1]. intros i1 j1. unfold ports_done. lia.
Qed.

Lemma sse_port_spec i p data :
  nevents mod 4 = 0 -> encoded (ports_done i) data -> 0 <= i < pc_nb_audio_ports pc ->
  pc_audio_ports pc !! Z.to_nat i = Some p ->
  exists data1, sse_port DEBUG convert dimension m i offset nevents p data = Some data1 /\ encoded (ports_done (i + 1)) data1.
Proof.
  intros H4 He Hi Hp. unfold sse_port. rewrite (Hdbg _ _ Hp). cbn [negb]. fold (tx_audio_active p).
  set (D n i1 j1 := ports_done i i1 j1 \/ (i1 = i /\ 0 <= j1 < n)).
  assert (H0 : encoded (D 0) data).
  { eapply encoded_iff; [|exact He]. intros i1 j1. subst D. unfold ports_done. lia. }
  assert (Hend : forall d, encoded (D nevents) d -> encoded (ports_done (i + 1)) d).
  { intros d. apply encoded_iff. intros i1 j1. subst D. unfold ports_done. lia. }
  destruct (tx_audio_active p) eqn:Ha.
  - assert (Hq : (nevents + 3) / 4 = nevents / 4) by (Z.to_euclidean_division_equations; lia). rewrite Hq.
    destruct (for_loop_rule (fun k => encoded (D (4 * k))) (fun k data => sse_port_events convert dimension m i offset k p data)
      (nevents / 4) data) as (d1 & Hd1 & He1); [Z.to_euclidean_division_equations; lia|done| |].
    + intros k d Hk Hd. destruct (port_events_spec _ i k p d Hd) as (d1 & Hd1 & He1); [done..|lia| |].
      { Z.to_euclidean_division_equations. lia. }
      exists d1. split; [done|]. eapply encoded_iff; [|exact He1]. intros i1 j1. subst D. unfold ports_done. lia.
    + exists d1. split; [done|]. apply Hend. replace nevents with (4 * (nevents / 4)) by (Z.to_euclidean_division_equations; lia).
      done.
  - destruct (for_loop_rule (fun j => encoded (D j)) (fun j data => store_quadlet (i + j * dimension) 0x00000040 data)
      nevents data) as (d1 & Hd1 & He1); [done..| |by exists d1; split; [|apply Hend]].
    intros j d Hj Hd. destruct (encoded_store _ d i j 0x40 Hd) as (d1 & Hd1 & He1); [done..| |].
    { unfold quadlet_at. rewrite Hp. cbn [mbind option_bind]. unfold event_of. by rewrite Ha. }
    exists d1. split; [done|]. eapply encoded_iff; [|exact He1]. intros i1 j1. subst D. unfold ports_done. lia.
Qed.

Lemma sse_encode_ports_spec scratch_size : nevents mod 4 = 0 -> u32 (nevents * 4) < scratch_size ->
  exists data1, sse_encode_ports DEBUG convert scratch_size dimension pc m offset nevents data0 = Some data1 /\
    encoded (ports_done (pc_nb_audio_ports pc)) data1.
Proof.
  intros H4 Hs. unfold sse_encode_ports. destruct (scratch_size <=? _) eqn:Hle; [lia|]. cbv zeta.
  set (groups := sse_groups (pc_nb_audio_ports pc)).
  assert (Hg : 0 <= groups /\ 4 * groups <= pc_nb_audio_ports pc).
  { subst groups. unfold sse_groups. destruct (0 <? _) eqn:Hlt; Z.to_euclidean_division_equations; lia. }
  destruct (groups_spec groups) as (d1 & -> & He1); [lia..|]. cbn [mbind option_bind].
  destruct (for_loop_rule (fun r => encoded (ports_done (4 * groups + r))) (fun r data =>
      p ← pc_audio_ports pc !! Z.to_nat (4 * groups + r); sse_port DEBUG convert dimension m (4 * groups + r) offset nevents p data)
    (pc_nb_audio_ports pc - 4 * groups) d1) as (d2 & Hd2 & He2).
  - lia.
  - by rewrite Z.add_0_r.
  - intros r d Hr He. destruct (lookup_lt_is_Some_2 (pc_audio_ports pc) (Z.to_nat (4 * groups + r))) as [p Hp]; [lia|].
    rewrite Hp. cbn [mbind option_bind]. rewrite Z.add_assoc. apply sse_port_spec; [done..|lia|done].
  - exists d2. split; [done|]. by replace (pc_nb_audio_ports pc) with (4 * groups + (pc_nb_audio_ports pc - 4 * groups)) by lia.
Qed.
End loops.

(** ** The encoders are equivalent *)

Lemma word_of_inj a b c d a1 b1 c1 d1 :
  bytes [a; b; c; d] -> bytes [a1; b1; c1; d1] -> word_of a b c d = word_of a1 b1 c1 d1 -> [a; b; c; d] = [a1; b1; c1; d1].
Proof.
  unfold bytes. rewrite !Forall_cons. unfold word_of.
  change (2 ^ 8) with 256; change (2 ^ 16) with 65536; change (2 ^ 24) with 16777216.
  intros (Ha & Hb & Hc & Hd & _) (Ha1 & Hb1 & Hc1 & Hd1 & _) He. unfold uint in *. change (2 ^ 8) with 256 in *.
  repeat f_equal; lia.
Qed.

(** a block of bytes is determined by its quadlets *)
Lemma quadlets_eq (n : nat) : forall d1 d2 : list Z,
  length d1 = (4 * n)%nat -> length d2 = (4 * n)%nat -> bytes d1 -> bytes d2 ->
  (forall k, load_quadlet d1 k = load_quadlet d2 k) -> d1 = d2.
Proof.
  intros d1 d2 Hl1 Hl2 Hb1 Hb2 Hq. apply list_eq. intros i.
  destruct (decide (i < 4 * n)%nat) as [Hi|Hi]; [|rewrite !lookup_ge_None_2 by lia; done].
  set (k := (i / 4)%nat). assert (Hk : (i = 4 * k + i mod 4 /\ k < n)%nat).
  { pose proof (Nat.div_mod_eq i 4). pose proof (Nat.mod_upper_bound i 4). subst k. lia. }
  specialize (Hq (Z.of_nat k)). revert Hq. unfold load_quadlet. rewrite !decide_True by lia. cbv zeta.
  replace (Z.to_nat (4 * Z.of_nat k)) with (4 * k)%nat by lia.
  unfold bytes in Hb1, Hb2. rewrite Forall_lookup in Hb1, Hb2.
  assert (H4 : (i mod 4 = 0 \/ i mod 4 = 1 \/ i mod 4 = 2 \/ i mod 4 = 3)%nat).
  { pose proof (Nat.mod_upper_bound i 4). lia. }
  destruct (lookup_lt_is_Some_2 d1 (4 * k)) as [a Ha], (lookup_lt_is_Some_2 d1 (4 * k + 1)) as [b Hb],
    (lookup_lt_is_Some_2 d1 (4 * k + 2)) as [c Hc], (lookup_lt_is_Some_2 d1 (4 * k + 3)) as [d Hd]; [lia..|].
  destruct (lookup_lt_is_Some_2 d2 (4 * k)) as [a' Ha'], (lookup_lt_is_Some_2 d2 (4 * k + 1)) as [b' Hb'],
    (lookup_lt_is_Some_2 d2 (4 * k + 2)) as [c' Hc'], (lookup_lt_is_Some_2 d2 (4 * k + 3)) as [d' Hd']; [lia..|].
  rewrite Ha, Hb, Hc, Hd, Ha', Hb', Hc', Hd'. cbn [mbind option_bind]. intros He. apply (inj Some) in He.
  apply word_of_inj in He; [|repeat (apply Forall_cons; split); first [by apply Forall_nil_2|by eapply Hb1|by eapply Hb2]..]. injection He as <- <- <- <-.
  destruct Hk as [-> _]. destruct H4 as [->|[->|[->| ->]]]; rewrite ?Nat.add_0_r; congruence.
Qed.

Lemma sse_equivalent DEBUG convert encode scratch_size dimension pc m offset nevents data :
  converts convert encode ->
  pc_nb_audio_ports pc = Z.of_nat (length (pc_audio_ports pc)) -> pc_nb_audio_ports pc <= dimension -> 0 <= nevents ->
  4 * (nevents * dimension) <= Z.of_nat (length data) -> (length data mod 4 = 0)%nat -> bytes data ->
  (forall i p, pc_audio_ports pc !! i = Some p -> tx_port_ok DEBUG (mc_buffer_size p) nevents offset = true) ->
  (forall i p j, pc_audio_ports pc !! i = Some p -> 0 <= j < nevents -> is_Some (event_of encode m offset j p)) ->
  nevents mod 4 = 0 -> u32 (nevents * 4) < scratch_size ->
  exists data1, sse_encode_ports DEBUG convert scratch_size dimension pc m offset nevents data = Some data1 /\
    encode_audio_ports DEBUG encode dimension pc m offset nevents data = Some data1.
Proof.
  intros Hc Hnb Hdim Hn Hd Hl4 Hb Hdbg Hev H4 Hs.
  destruct (sse_encode_ports_spec DEBUG convert encode Hc dimension offset nevents pc m data Hnb Hdim Hn Hd Hdbg Hev
    scratch_size H4 Hs) as (d1 & H1 & Hl1 & Hv1 & Hf1 & Hb1).
  destruct (encode_audio_ports_spec DEBUG encode dimension pc m offset nevents data Hnb Hdim Hn Hd Hdbg Hev)
    as (d2 & H2 & Hl2 & Hv2 & Hf2 & Hb2).
  exists d1. split; [done|]. rewrite H2. f_equal. symmetry.
  apply (quadlets_eq (length data / 4)); [pose proof (Nat.div_mod_eq (length data) 4); lia..|by apply Hb1|by apply Hb2|].
  intros k. assert (Hdec : (exists i j, ports_done nevents (pc_nb_audio_ports pc) i j /\ k = i + j * dimension) \/
    (forall i j, ports_done nevents (pc_nb_audio_ports pc) i j -> k <> i + j * dimension)).
  { destruct (decide (0 < dimension)); [|right; unfold ports_done; lia].
    destruct (decide (k mod dimension < pc_nb_audio_ports pc /\ 0 <= k / dimension < nevents)) as [Hk|Hk].
    - left. exists (k mod dimension), (k / dimension). unfold ports_done. pose proof (Z.mod_pos_bound k dimension).
      pose proof (Z.div_mod k dimension). lia.
    - right. intros i j [Hi Hj] ->. apply Hk. rewrite Z.mod_add, Z.div_add, Z.mod_small, Z.div_small by lia. lia. }
  destruct Hdec as [(i & j & Hij & ->)|Hout].
  - rewrite (proj2 (proj2 (Hv1 i j Hij))). destruct Hij as [Hi Hj]. unfold quadlet_at.
    destruct (lookup_lt_is_Some_2 (pc_audio_ports pc) (Z.to_nat i)) as [p Hp]; [lia|]. rewrite Hp. cbn [mbind option_bind].
    rewrite <- (Hv2 _ _ j Hp Hj). by rewrite Z2Nat.id by lia.
  - rewrite Hf1 by done. symmetry. apply Hf2. intros i j Hi Hj. apply Hout. split; [lia|done].
Qed.

(** C32: The SSE2 encoders of [AmdtpTransmitStreamProcessor] write the same
    bytes as the portable ones: for a number of events that is a multiple of
    four and fits the scratch buffer, port caches and client buffers that fit
    the block, and samples that the portable encoder converts without
    undefined behaviour, both versions of [encodeAudioPortsInt24] and both
    versions of [encodeAudioPortsFloat] (clipping included) return the same
    block, for any number of ports, enabled or not. *)
Theorem sse_encoders_equivalent DEBUG scratch_size dimension pc m offset nevents data :
  pc_nb_audio_ports pc = Z.of_nat (length (pc_audio_ports pc)) -> pc_nb_audio_ports pc <= dimension -> 0 <= nevents ->
  4 * (nevents * dimension) <= Z.of_nat (length data) -> (length data mod 4 = 0)%nat -> bytes data ->
  (forall i p, pc_audio_ports pc !! i = Some p -> tx_port_ok DEBUG (mc_buffer_size p) nevents offset = true) ->
  nevents mod 4 = 0 -> u32 (nevents * 4) < scratch_size ->
  ((forall i p j, pc_audio_ports pc !! i = Some p -> 0 <= j < nevents -> is_Some (event_of encode_int24 m offset j p)) ->
   exists data1, sse_encodeAudioPortsInt24 DEBUG scratch_size dimension pc m offset nevents data = Some data1 /\
     encodeAudioPortsInt24 DEBUG dimension pc m offset nevents data = Some data1) /\
  ((forall i p j, pc_audio_ports pc !! i = Some p -> 0 <= j < nevents -> is_Some (event_of encode_float m offset j p)) ->
   exists data1, sse_encodeAudioPortsFloat DEBUG scratch_size dimension pc m offset nevents data = Some data1 /\
     encodeAudioPortsFloat DEBUG dimension pc m offset nevents data = Some data1).
Proof.
  intros Hnb Hdim Hn Hd Hl4 Hb Hdbg H4 Hs. split; intros Hev; apply sse_equivalent; try done.
  - apply sse_int24_converts.
  - apply sse_float_converts.
Qed.

(** five ports (a group and one more), four events; the third port is disabled *)
Definition demo_caches : port_caches :=
  mkCaches [mkMBLA 0 (Some 1) true 4; mkMBLA 1 (Some 2) true 4; mkMBLA 2 (Some 2) false 4; mkMBLA 3 (Some 1) true 4;
            mkMBLA 4 (Some 2) true 4] 5 [] 0.

(** the words of 0.5, -2, 3 and -0.25 *)
Definition demo_floats : memory :=
  <[1 := [0x3F000000; 0xC0000000; 0x40400000; 0xBE800000]]> {[2 := [0xBE800000; 0x3F000000; 0xC0000000; 0x40400000]]}.

Lemma sse_encoders_equivalent_witness :
  exists data1, sse_encodeAudioPortsFloat true 64 5 demo_caches demo_floats 0 4 (replicate 80 0) = Some data1 /\
    encodeAudioPortsFloat true 5 demo_caches demo_floats 0 4 (replicate 80 0) = Some data1 /\
    load_quadlet data1 5 = Some (ByteSwap32 0x40800001).
Proof.
  destruct (sse_encoders_equivalent true 64 5 demo_caches demo_floats 0 4 (replicate 80 0)) as [_ H].
  - reflexivity.
  - vm_compute. discriminate.
  - lia.
  - vm_compute. discriminate.
  - reflexivity.
  - apply Forall_replicate. split; [lia|reflexivity].
  - do 5 (intros [|i]; [intros p Hp; injection Hp as <-; reflexivity|revert i]). intros i p Hp. discriminate Hp.
  - reflexivity.
  - reflexivity.
  - destruct H as (data1 & H1 & H2).
    + do 5 (intros [|i]; [intros p j Hp Hj; injection Hp as <-;
        assert (j = 0 \/ j = 1 \/ j = 2 \/ j = 3) as [->|[->|[->| ->]]] by lia; vm_compute; eexists; reflexivity|revert i]).
      intros i p j Hp. discriminate Hp.
    + exists data1. split; [exact H1|]. split; [exact H2|].
      assert (E : sse_encodeAudioPortsFloat true 64 5 demo_caches demo_floats 0 4 (replicate 80 0) = Some data1) by exact H1.
      clear H2. revert E. vm_compute. intros E. injection E as <-. reflexivity.
Defined.
