(* ===== verification/StreamManager.v ===== *)
(** * StreamManager: libstreaming/StreamProcessorManager.cpp

    The stream processor manager owns the receive and the transmit processors,
    starts and stops them together, waits for the next period and moves it
    between them and the client.

    The manager knows a processor through the interface [ManagedStream]; the
    processors are objects in a store, addressed by their pointers.  While the
    manager sleeps the threads of the iso handlers run: [elapse] is whatever
    they do to the processors and to the rest of the world.  [None] is
    undefined behaviour, an exception of the standard library, or a loop that
    has used up its fuel. *)
From stdpp Require Import gmap strings.
From S2P Require Import Prelude Memory Ports CycleTimer MachineFloat StreamProcessor StreamWorld StateMonad.

(** config.h *)
Definition STREAMPROCESSORMANAGER_SIGNAL_DELAY_TICKS : Z := 3072 * 0.
Definition STREAMPROCESSORMANAGER_XMIT_PREBUFFER_FRAMES : Z := 100.
Definition STREAMPROCESSORMANAGER_CYCLES_FOR_DRYRUN : Z := 40000.
Definition STREAMPROCESSORMANAGER_CYCLES_FOR_STARTUP : Z := 200.
Definition STREAMPROCESSORMANAGER_PRESTART_CYCLES_FOR_XMIT : Z := 20.
Definition STREAMPROCESSORMANAGER_PRESTART_CYCLES_FOR_RECV : Z := 0.
Definition STREAMPROCESSORMANAGER_SYNCSTART_TRIES : Z := 10.
Definition STREAMPROCESSORMANAGER_SYNC_WAIT_TIME_MSEC : Z := 200.
Definition STREAMPROCESSORMANAGER_NB_ALIGN_TRIES : Z := 40.
Definition STREAMPROCESSORMANAGER_ALIGN_AVERAGE_TIME_MSEC : Z := 400.

(** ** Interfaces *)

(** The fields of the manager that a processor reads through its reference. *)
Record spm_view := mkView { vw_rate : Z; vw_period : Z; vw_nb_buffers : Z; vw_sync_tpf : float }.

#[export] Instance E_Direction_dec : EqDecision E_Direction.
Proof. solve_decision. Defined.

(** a port as the manager sees it *)
Record managed_port := mkManagedPort { mp_address : Z; mp_type : E_PortType; mp_direction : E_Direction }.

(** What the manager calls on a processor. *)
Class ManagedStream (P : Type) := {
  ms_see : spm_view -> P -> P;
  ms_type : P -> eProcessorType;
  ms_state : P -> eProcessorState;
  ms_in_xrun : P -> bool;
  ms_ports : P -> list managed_port;
  ms_getTicksPerFrame : P -> float;
  ms_getExtraBufferFrames : P -> Z;
  ms_getNominalFramesPerPacket : P -> Z;
  ms_getMaxFrameLatency : P -> option (Z * P);
  ms_getTimeAtPeriod : P -> option (option Z * P);
  ms_setTicksPerFrame : float -> P -> option (() * P);
  ms_setExtraBufferFrames : Z -> P -> option (() * P);
  ms_setBufferHeadTimestamp : float -> P -> option (() * P);
  ms_setBufferTailTimestamp : float -> P -> option (() * P);
  ms_setOption_slaveMode : bool -> P -> option (bool * P);
  ms_prepare : P -> option (bool * P);
  ms_periodSizeChanged : Z -> P -> option (bool * P);
  ms_scheduleStartDryRunning : Z -> P -> option (bool * P);
  ms_scheduleStartRunning : Z -> P -> option (bool * P);
  ms_scheduleStopDryRunning : Z -> P -> option (bool * P);
  ms_scheduleStopRunning : Z -> P -> option (bool * P);
  ms_canConsumePeriod : P -> option (bool * P);
  ms_canProducePeriod : P -> option (bool * P);
  ms_getFrames : Z -> Z -> P -> option (bool * P);
  ms_putFrames : Z -> Z -> P -> option (bool * P);
  ms_dropFrames : Z -> Z -> P -> option (bool * P);
  ms_putSilenceFrames : Z -> Z -> P -> option (bool * P);
  ms_shiftStream : Z -> P -> option (bool * P) }.

Inductive sleep_request := SleepUsecAbsolute (usec : Z) | SleepUsecRelative (usec : Z).

(** The configuration, the clocks and the other threads. *)
Class SPMEnv (P W : Type) := {
  getValueForSetting : string -> W -> option Z;
  getOption_slaveMode : W -> option bool;
  getSystemTimeForCycleTimerTicks : Z -> Z -> W -> Z;
  getCurrentTime : W -> Z * W;
  elapse : sleep_request -> gmap Z P -> W -> gmap Z P * W }.

(** ** State *)

Record spm_config := mkSpmConfig {
  mg_nb_buffers : Z; mg_period : Z; mg_nominal_framerate : Z;
  mg_audio_datatype : eADT_AudioDataType; mg_activity_wait_timeout_nsec : Z; mg_is_slave : bool }.

Record spm_lists := mkSpmLists {
  mg_SyncSource : option Z; mg_ReceiveProcessors : list Z; mg_TransmitProcessors : list Z;
  mg_CapturePorts_shadow : list Z; mg_PlaybackPorts_shadow : list Z }.

Record spm_run := mkSpmRun {
  mg_time_of_transfer : Z; mg_sync_delay : Z; mg_shutdown_needed : bool; mg_nbperiods : Z; mg_delayed_usecs : Z }.

Record StreamProcessorManager := mkManager { mg_config : spm_config; mg_lists : spm_lists; mg_run : spm_run }.

(** [StreamProcessorManager( DeviceManager&, period, framerate, nb_buffers )];
    [m_delayed_usecs] is not initialised, any value *)
Definition StreamProcessorManager_new (period framerate nb_buffers delayed : Z) : StreamProcessorManager :=
  mkManager (mkSpmConfig nb_buffers period framerate eADT_Float 0 false) (mkSpmLists None [] [] [] [])
    (mkSpmRun 0 0 false 0 delayed).

(** The manager, its processors, the processors whose port manager holds the
    functor for [updateShadowLists], and the rest. *)
Record spm_system (P W : Type) := mkSystem {
  sy_manager : StreamProcessorManager; sy_sps : gmap Z P; sy_handlers : list Z; sy_world : W }.
#[global] Arguments mkSystem {P W}.
#[global] Arguments sy_manager {P W}.
#[global] Arguments sy_sps {P W}.
#[global] Arguments sy_handlers {P W}.
#[global] Arguments sy_world {P W}.

Section manager.
Context {P W : Type} {MS : ManagedStream P} {SE : SPMEnv P W}.

Abbreviation M := (StM (spm_system P W)).
Implicit Types s : spm_system P W.

Definition gets_config {A} (f : spm_config -> A) : M A := st_gets (fun s => f (mg_config (sy_manager s))).
Definition gets_lists {A} (f : spm_lists -> A) : M A := st_gets (fun s => f (mg_lists (sy_manager s))).
Definition gets_run {A} (f : spm_run -> A) : M A := st_gets (fun s => f (mg_run (sy_manager s))).

Definition with_manager (m : StreamProcessorManager) s : spm_system P W := mkSystem m (sy_sps s) (sy_handlers s) (sy_world s).
Definition mod_config (f : spm_config -> spm_config) : M () :=
  fun s => let m := sy_manager s in Some ((), with_manager (mkManager (f (mg_config m)) (mg_lists m) (mg_run m)) s).
Definition mod_lists (f : spm_lists -> spm_lists) : M () :=
  fun s => let m := sy_manager s in Some ((), with_manager (mkManager (mg_config m) (f (mg_lists m)) (mg_run m)) s).
Definition mod_run (f : spm_run -> spm_run) : M () :=
  fun s => let m := sy_manager s in Some ((), with_manager (mkManager (mg_config m) (mg_lists m) (f (mg_run m))) s).
Definition mod_handlers (f : list Z -> list Z) : M () :=
  fun s => Some ((), mkSystem (sy_manager s) (sy_sps s) (f (sy_handlers s)) (sy_world s)).

(** what the processors see of the manager *)
Definition view_of s : spm_view :=
  let c := mg_config (sy_manager s) in
  mkView (mg_nominal_framerate c) (mg_period c) (mg_nb_buffers c)
    match mg_SyncSource (mg_lists (sy_manager s)) ≫= (fun a => sy_sps s !! a) with
    | Some p => ms_getTicksPerFrame p
    | None => f32_of_Z 0
    end.

(** a call of a processor; a dangling pointer is undefined *)
Definition call {A} (a : Z) (f : P -> option (A * P)) : M A :=
  fun s => p ← sy_sps s !! a; '(x, p1) ← f (ms_see (view_of s) p);
           Some (x, mkSystem (sy_manager s) (<[a := p1]> (sy_sps s)) (sy_handlers s) (sy_world s)).

(** a getter of a processor *)
Definition ask {A} (a : Z) (f : P -> A) : M A := fun s => p ← sy_sps s !! a; Some (f (ms_see (view_of s) p), s).

Definition sleep (r : sleep_request) : M () :=
  fun s => let '(sps, w) := elapse r (sy_sps s) (sy_world s) in Some ((), mkSystem (sy_manager s) sps (sy_handlers s) w).

Definition in_states (l : list eProcessorState) (a : Z) : M bool := ask a (fun p => bool_decide (ms_state p ∈ l)).

(** a setting of the configuration file, or the default *)
Definition setting (name : string) (default_value : Z) : M Z := st_gets (fun s => default default_value (getValueForSetting name (sy_world s))).

(** ** Registration *)

(** the ports of the processors [l] with the direction, in order *)
Fixpoint shadow_ports (d : E_Direction) (l : list Z) : M (list Z) :=
  match l with
  | [] => mret []
  | a :: l' =>
      ports ← ask a ms_ports;
      rest ← shadow_ports d l';
      mret ((mp_address <$> filter (fun p => mp_direction p = d) ports) ++ rest)
  end.

Definition updateShadowLists : M () :=
  l ← gets_lists id;
  capture ← shadow_ports E_Capture (mg_ReceiveProcessors l);
  playback ← shadow_ports E_Playback (mg_TransmitProcessors l);
  mod_lists (fun l => mkSpmLists (mg_SyncSource l) (mg_ReceiveProcessors l) (mg_TransmitProcessors l) capture playback).

Definition registerProcessor (a : Z) : M bool :=
  type ← ask a ms_type;
  mod_lists (fun l => match type with
    | ePT_Receive => mkSpmLists (mg_SyncSource l) (mg_ReceiveProcessors l ++ [a]) (mg_TransmitProcessors l)
                       (mg_CapturePorts_shadow l) (mg_PlaybackPorts_shadow l)
    | ePT_Transmit => mkSpmLists (mg_SyncSource l) (mg_ReceiveProcessors l) (mg_TransmitProcessors l ++ [a])
                        (mg_CapturePorts_shadow l) (mg_PlaybackPorts_shadow l)
    end);;
  mod_handlers (fun hs => hs ++ [a]);;
  updateShadowLists;;
  mret true.

Definition unregisterProcessor (a : Z) : M bool :=
  type ← ask a ms_type;
  l ← gets_lists (fun l => match type with ePT_Receive => mg_ReceiveProcessors l | ePT_Transmit => mg_TransmitProcessors l end);
  if bool_decide (a ∈ l) then
    mod_lists (fun l =>
      let sync := if bool_decide (mg_SyncSource l = Some a) then None else mg_SyncSource l in
      match type with
      | ePT_Receive => mkSpmLists sync (remove_first a (mg_ReceiveProcessors l)) (mg_TransmitProcessors l)
                         (mg_CapturePorts_shadow l) (mg_PlaybackPorts_shadow l)
      | ePT_Transmit => mkSpmLists sync (mg_ReceiveProcessors l) (remove_first a (mg_TransmitProcessors l))
                          (mg_CapturePorts_shadow l) (mg_PlaybackPorts_shadow l)
      end);;
    mod_handlers (remove_first a);;
    updateShadowLists;;
    mret true
  else mret false.

(** A port manager whose ports have changed calls its handlers. *)
Definition portsChanged (a : Z) (p : P) : M () :=
  (fun s => Some ((), mkSystem (sy_manager s) (<[a := p]> (sy_sps s)) (sy_handlers s) (sy_world s)));;
  hs ← st_gets sy_handlers;
  each_do (fun _ => updateShadowLists) (filter (fun b => b = a) hs).

Definition getPortCount_direction (d : E_Direction) (count : P -> Z) : M Z :=
  l ← gets_lists (fun l => match d with E_Capture => mg_ReceiveProcessors l | E_Playback => mg_TransmitProcessors l end);
  (fix go (l : list Z) : M Z :=
     match l with [] => mret 0 | a :: l' => n ← ask a count; rest ← go l'; mret (n + rest) end) l.

(** [at] throws an exception; a debug build returns a null pointer past the end *)
Definition getPortByIndex (DEBUG : bool) (idx : Z) (d : E_Direction) : M (option Z) :=
  ports ← gets_lists (fun l => match d with E_Capture => mg_CapturePorts_shadow l | E_Playback => mg_PlaybackPorts_shadow l end);
  if DEBUG && (Z.of_nat (length ports) <=? idx) then mret None
  else if idx <? 0 then st_fail
  else p ← st_option (ports !! Z.to_nat idx); mret (Some p).

(** ** Parameters *)

Definition streamingParamsOk (period rate n_buffers : Z) : M bool :=
  c ← gets_config id;
  let period := if period <? 0 then s32 (mg_period c) else period in
  let rate := if rate <? 0 then s32 (mg_nominal_framerate c) else rate in
  let n_buffers := if n_buffers <? 0 then s32 (mg_nb_buffers c) else n_buffers in
  mret
    (if n_buffers <? 2 then false
     else
       let min_period := if rate <? 56000 then 8 else if rate <? 112000 then 16 else 32 in
       negb (period <? min_period)).

Definition setActivityWaitTimeoutUsec (usec : Z) : M () :=
  mod_config (fun c => mkSpmConfig (mg_nb_buffers c) (mg_period c) (mg_nominal_framerate c) (mg_audio_datatype c)
    (s64 (usec * 1000)) (mg_is_slave c)).

(** two periods, in microseconds *)
Definition activity_timeout (c : spm_config) : Z :=
  s32 (s64 (2 * 1000 * 1000 * mg_period c) `quot` mg_nominal_framerate c).

Definition setPeriodSize (period : Z) : M () :=
  old ← gets_config mg_period;
  if period =? old then mret ()
  else
    mod_config (fun c => mkSpmConfig (mg_nb_buffers c) period (mg_nominal_framerate c) (mg_audio_datatype c)
      (mg_activity_wait_timeout_nsec c) (mg_is_slave c));;
    l ← gets_lists id;
    each_do (fun a => _ ← call a (ms_periodSizeChanged period); mret ()) (mg_ReceiveProcessors l);;
    each_do (fun a => _ ← call a (ms_periodSizeChanged period); mret ()) (mg_TransmitProcessors l);;
    c ← gets_config id;
    if 0 <? mg_nominal_framerate c then setActivityWaitTimeoutUsec (activity_timeout c) else mret ().

Definition setNominalRate (r : Z) : M () :=
  mod_config (fun c => mkSpmConfig (mg_nb_buffers c) (mg_period c) r (mg_audio_datatype c) (mg_activity_wait_timeout_nsec c)
    (mg_is_slave c)).

Definition setNbBuffers (n : Z) : M () :=
  mod_config (fun c => mkSpmConfig n (mg_period c) (mg_nominal_framerate c) (mg_audio_datatype c)
    (mg_activity_wait_timeout_nsec c) (mg_is_slave c)).

Definition setAudioDataType (t : eADT_AudioDataType) : M bool :=
  mod_config (fun c => mkSpmConfig (mg_nb_buffers c) (mg_period c) (mg_nominal_framerate c) t
    (mg_activity_wait_timeout_nsec c) (mg_is_slave c));; mret true.

Definition with_sync (a : option Z) (l : spm_lists) : spm_lists :=
  mkSpmLists a (mg_ReceiveProcessors l) (mg_TransmitProcessors l) (mg_CapturePorts_shadow l) (mg_PlaybackPorts_shadow l).

Definition setSyncSource (a : option Z) : M bool := mod_lists (with_sync a);; mret true.

Definition set_shutdown_needed (b : bool) : M () :=
  mod_run (fun r => mkSpmRun (mg_time_of_transfer r) (mg_sync_delay r) b (mg_nbperiods r) (mg_delayed_usecs r)).
Definition set_sync_delay (d : Z) : M () :=
  mod_run (fun r => mkSpmRun (mg_time_of_transfer r) d (mg_shutdown_needed r) (mg_nbperiods r) (mg_delayed_usecs r)).
Definition set_time_of_transfer (t : Z) : M () :=
  mod_run (fun r => mkSpmRun t (mg_sync_delay r) (mg_shutdown_needed r) (mg_nbperiods r) (mg_delayed_usecs r)).

Definition prepare_processor (slave : bool) (a : Z) : M bool :=
  _ ← call a (ms_setOption_slaveMode slave); call a ms_prepare.

(** a division by a rate of zero is undefined *)
Definition prepare : M bool :=
  slave ← st_gets (fun s => default false (getOption_slaveMode (sy_world s)));
  mod_config (fun c => mkSpmConfig (mg_nb_buffers c) (mg_period c) (mg_nominal_framerate c) (mg_audio_datatype c)
    (mg_activity_wait_timeout_nsec c) slave);;
  set_shutdown_needed false;;
  mod_lists (fun l => match mg_SyncSource l with
    | None => with_sync (head (mg_ReceiveProcessors l ++ mg_TransmitProcessors l)) l
    | Some _ => l
    end);;
  l ← gets_lists id;
  ok ← each (prepare_processor slave) (mg_ReceiveProcessors l);
  if negb ok then mret false
  else
    ok ← each (prepare_processor slave) (mg_TransmitProcessors l);
    if negb ok then mret false
    else if bool_decide (mg_ReceiveProcessors l = []) && bool_decide (mg_TransmitProcessors l = []) then mret false
    else
      c ← gets_config id;
      if mg_nominal_framerate c =? 0 then st_fail
      else setActivityWaitTimeoutUsec (activity_timeout c);; updateShadowLists;; mret true.

(** ** Starting and stopping *)

(** [while (!ready && cnt) { ready = check; SleepRelativeUsec(125); cnt--; }]:
    the final count *)
Fixpoint poll (check : M bool) (cnt : nat) : M nat :=
  match cnt with
  | O => mret O
  | S cnt' =>
      ready ← check;
      sleep (SleepUsecRelative 125);;
      if ready : bool then mret cnt' else poll check cnt'
  end.

(** on every processor, the receive processors first *)
Definition all_processors (check : Z -> M bool) : M bool :=
  l ← gets_lists id;
  r ← all_of check (mg_ReceiveProcessors l);
  t ← all_of check (mg_TransmitProcessors l);
  mret (r && t).

Definition start_dry_running (a : Z) : M bool :=
  error ← in_states [ePS_Error] a;
  if error : bool then mret false
  else
    dry ← in_states [ePS_DryRunning] a;
    if dry : bool then mret true else call a (ms_scheduleStartDryRunning (-1)).

Definition startDryRunning : M bool :=
  l ← gets_lists id;
  ok ← each start_dry_running (mg_TransmitProcessors l);
  if negb ok then mret false
  else
    ok ← each start_dry_running (mg_ReceiveProcessors l);
    if negb ok then mret false
    else
      cnt ← poll (all_processors (in_states [ePS_DryRunning])) (Z.to_nat STREAMPROCESSORMANAGER_CYCLES_FOR_DRYRUN);
      mret (negb (cnt =? 0)%nat).

Definition stop_running (a : Z) : M bool :=
  running ← in_states [ePS_Running] a;
  if running : bool then call a (ms_scheduleStopRunning (-1)) else mret true.

Definition stop_dry_running (a : Z) : M bool :=
  error ← in_states [ePS_Error] a;
  if error : bool then mret true else call a (ms_scheduleStopDryRunning (-1)).

Definition on_all (f : Z -> M bool) : M bool :=
  l ← gets_lists id;
  ok ← each f (mg_ReceiveProcessors l);
  if negb ok then mret false else each f (mg_TransmitProcessors l).

Definition stop : M bool :=
  ok ← on_all stop_running;
  if negb ok then mret false
  else
    cnt ← poll (all_processors (in_states [ePS_DryRunning; ePS_Stopped; ePS_WaitingForStream; ePS_Error])) (Z.to_nat 8000);
    if (cnt =? 0)%nat then mret false
    else
      ok ← on_all stop_dry_running;
      if negb ok then mret false
      else
        cnt ← poll (all_processors (in_states [ePS_Stopped; ePS_Error])) (Z.to_nat 8000);
        mret (negb (cnt =? 0)%nat).

(** ** The period *)

Definition sync_source : M Z := a ← gets_lists mg_SyncSource; st_option a.

(** the time at the next period; the conversion of a timestamp that is out of
    range is undefined *)
Definition getTimeAtPeriod_of (a : Z) : M Z := t ← call a ms_getTimeAtPeriod; st_option t.

Definition system_time (a t : Z) : M Z := st_gets (fun s => getSystemTimeForCycleTimerTicks a t (sy_world s)).

(** every processor has room for, or holds, a period *)
Definition period_ready : M bool :=
  l ← gets_lists id;
  r ← all_of (fun a => call a ms_canConsumePeriod) (mg_ReceiveProcessors l);
  t ← all_of (fun a => call a ms_canProducePeriod) (mg_TransmitProcessors l);
  mret (r && t).

(** a flag of some processor *)
Definition any_processor (f : P -> bool) : M bool :=
  none ← all_processors (fun a => b ← ask a f; mret (negb b)); mret (negb none).

(** [while(period_not_ready)]; the results are the two flags *)
Fixpoint wait_until_ready (fuel : nat) (xrun_occurred in_error : bool) : M (bool * bool) :=
  match fuel with
  | O => st_fail
  | S fuel' =>
      is_ready ← period_ready;
      (if negb is_ready then sleep (SleepUsecRelative 125) else mret ());;
      x ← any_processor ms_in_xrun;
      e ← any_processor (fun p => bool_decide (ms_state p = ePS_Error));
      shutdown ← gets_run mg_shutdown_needed;
      let xrun_occurred := xrun_occurred || x in
      let in_error := in_error || e in
      if xrun_occurred || in_error || shutdown then mret (xrun_occurred, in_error)
      else if is_ready : bool then mret (xrun_occurred, in_error)
      else wait_until_ready fuel' xrun_occurred in_error
  end.

(** the period is counted, and the delay noted *)
Definition end_period (pred : Z) : M () := fun s =>
  let '(now, w) := getCurrentTime (sy_world s) in
  mod_run (fun r => mkSpmRun (mg_time_of_transfer r) (mg_sync_delay r) (mg_shutdown_needed r)
    (u32 (mg_nbperiods r + 1)) (s32 (u64 (now - pred)))) (mkSystem (sy_manager s) (sy_sps s) (sy_handlers s) w).

Definition waitForPeriod (fuel : nat) : M bool :=
  sync ← gets_lists mg_SyncSource;
  shutdown ← gets_run mg_shutdown_needed;
  match sync with
  | None => mret false
  | Some source =>
      if shutdown : bool then mret false
      else
        ticks_at_period ← getTimeAtPeriod_of source;
        delay ← gets_run mg_sync_delay;
        pred ← system_time source (u64 (ticks_at_period + delay));
        sleep (SleepUsecAbsolute pred);;
        '(xrun_occurred, in_error) ← wait_until_ready fuel false false;
        (if in_error : bool then set_shutdown_needed true else mret ());;
        t ← getTimeAtPeriod_of source;
        set_time_of_transfer t;;
        pred ← system_time source t;
        end_period pred;;
        mret (negb xrun_occurred)
  end.

(** the timestamp for what goes to a transmit processor: one ring buffer
    after the transfer *)
Definition transmit_time (c : spm_config) (time_of_transfer extra : Z) (rate : float) : option Z :=
  let one_ringbuffer_in_frames := u32 (u32 (mg_nb_buffers c * mg_period c) + extra) in
  ticks ← to_int 64 (f32_mul (f32_of_Z one_ringbuffer_in_frames) rate);
  Some (s64 (addTicks time_of_transfer (u64 ticks))).

Definition transmit_timestamp (a : Z) (rate : float) : M Z :=
  c ← gets_config id;
  extra ← ask a ms_getExtraBufferFrames;
  t ← gets_run mg_time_of_transfer;
  st_option (transmit_time c t extra rate).

Definition transfer_with (get : Z -> Z -> P -> option (bool * P)) (put : Z -> Z -> P -> option (bool * P))
  (type : eProcessorType) : M bool :=
  sync ← gets_lists mg_SyncSource;
  match sync with
  | None => mret false
  | Some source =>
      period ← gets_config mg_period;
      l ← gets_lists id;
      match type with
      | ePT_Receive =>
          all_of (fun a => t ← gets_run mg_time_of_transfer; call a (get period (s64 t))) (mg_ReceiveProcessors l)
      | ePT_Transmit =>
          rate ← ask source ms_getTicksPerFrame;
          all_of (fun a => ts ← transmit_timestamp a rate; call a (put period ts)) (mg_TransmitProcessors l)
      end
  end.

Definition transfer_type : eProcessorType -> M bool := transfer_with ms_getFrames ms_putFrames.

Definition transfer : M bool :=
  r ← transfer_type ePT_Receive; t ← transfer_type ePT_Transmit; mret (r && t).

Definition transferSilence_type : eProcessorType -> M bool := transfer_with ms_dropFrames ms_putSilenceFrames.

Definition transferSilence : M bool :=
  t ← transferSilence_type ePT_Transmit; r ← transferSilence_type ePT_Receive; mret (t && r).

(** ** Alignment of the received streams *)

(** [int / 1000 / period], with the arithmetic of [unsigned int] *)
Definition periods_in_msec (msec : Z) : M Z :=
  c ← gets_config id;
  if mg_period c =? 0 then st_fail else mret (u32 (s32 msec * mg_nominal_framerate c) / 1000 / mg_period c).

(** the differences to the sync source, one per receive processor *)
Fixpoint stream_offsets (source : Z) (l : list Z) : M (list Z) :=
  match l with
  | [] => mret []
  | a :: l' =>
      t0 ← getTimeAtPeriod_of source;
      t ← getTimeAtPeriod_of a;
      rest ← stream_offsets source l';
      mret (diffTicks t0 t :: rest)
  end.

(** the sums over [n] periods; [None] when a transfer fails *)
Fixpoint sum_offsets (fuel : nat) (n : nat) (sums : list Z) : M (option (list Z)) :=
  match n with
  | O => mret (Some sums)
  | S n' =>
      ok ← waitForPeriod fuel;
      if negb ok then mret None
      else
        ok ← transferSilence;
        if negb ok then mret None
        else
          l ← gets_lists mg_ReceiveProcessors;
          source ← sync_source;
          diffs ← stream_offsets source l;
          sum_offsets fuel n' (zip_with (fun x y => s64 (x + y)) sums diffs)
  end.

(** [roundf], half away from zero, and the conversion to [int] *)
Definition roundf_to_int (x : float) : option Z :=
  match x with
  | S754_zero _ => Some 0
  | S754_finite sign m e =>
      let q := if 0 <=? e then Zpos m * 2 ^ e else (Zpos m + 2 ^ (- e - 1)) / 2 ^ (- e) in
      let z := cond_Zopp sign q in
      if decide (sint 32 z) then Some z else None
  | _ => None
  end.

(** the averages, in frames of their streams *)
Fixpoint frame_offsets (l sums : list Z) (n : Z) : M (list Z) :=
  match l, sums with
  | a :: l', sum :: sums' =>
      tpf ← ask a ms_getTicksPerFrame;
      frames ← st_option (roundf_to_int (f32_div (f32_of_Z (sum `quot` n)) tpf));
      rest ← frame_offsets l' sums' n;
      mret (frames :: rest)
  | _, _ => mret []
  end.

Definition min_shift (frames : list Z) : Z := foldl (fun m x => if x <? m then x else m) 9999 frames.

Fixpoint shift_streams (l frames : list Z) (shift : Z) : M bool :=
  match l, frames with
  | a :: l', x :: frames' =>
      ok ← call a (ms_shiftStream (s32 (x - shift)));
      if ok : bool then shift_streams l' frames' shift else mret false
  | _, _ => mret true
  end.

(** One round: [None] is a failure, otherwise whether the streams were aligned.
    With no period to average over the division is undefined. *)
Definition align_round (fuel : nat) (periods : Z) : M (option bool) :=
  l ← gets_lists mg_ReceiveProcessors;
  sums ← sum_offsets fuel (Z.to_nat periods) (replicate (length l) 0);
  match sums with
  | None => mret None
  | Some sums =>
      if (periods =? 0) && negb (bool_decide (l = [])) then st_fail
      else
        frames ← frame_offsets l sums periods;
        if forallb (fun x => x =? 0) frames then mret (Some true)
        else
          ok ← shift_streams l frames (min_shift frames);
          mret (if ok : bool then Some false else None)
  end.

(** [while (!aligned && cnt--)], and the test of [cnt] behind the loop: [cnt]
    is -1 when the rounds are used up.  [n] bounds the rounds. *)
Fixpoint align_loop (n fuel : nat) (periods cnt : Z) : M bool :=
  match n with
  | O => st_fail
  | S n' =>
      if cnt =? 0 then mret (negb (cnt - 1 =? 0))
      else
        r ← align_round fuel periods;
        match r with
        | None => mret false
        | Some true => mret (negb (cnt - 1 =? 0))
        | Some false => align_loop n' fuel periods (cnt - 1)
        end
  end.

Definition alignReceivedStreams (fuel : nat) : M bool :=
  cnt ← setting "streaming.spm.align_tries" STREAMPROCESSORMANAGER_NB_ALIGN_TRIES;
  msec ← setting "streaming.spm.align_average_time_msec" STREAMPROCESSORMANAGER_ALIGN_AVERAGE_TIME_MSEC;
  periods ← periods_in_msec msec;
  align_loop (S (Z.to_nat cnt) + fuel) fuel periods cnt.

(** ** Synchronised start *)

(** the settings of the configuration *)
Record start_options := mkStartOptions {
  so_signal_delay_ticks : Z; so_xmit_prebuffer_frames : Z; so_sync_wait_time_msec : Z; so_cycles_for_startup : Z;
  so_prestart_cycles_for_xmit : Z; so_prestart_cycles_for_recv : Z }.

Definition get_start_options : M start_options :=
  a ← setting "streaming.spm.signal_delay_ticks" STREAMPROCESSORMANAGER_SIGNAL_DELAY_TICKS;
  b ← setting "streaming.spm.xmit_prebuffer_frames" STREAMPROCESSORMANAGER_XMIT_PREBUFFER_FRAMES;
  c ← setting "streaming.spm.sync_wait_time_msec" STREAMPROCESSORMANAGER_SYNC_WAIT_TIME_MSEC;
  d ← setting "streaming.spm.cycles_for_startup" STREAMPROCESSORMANAGER_CYCLES_FOR_STARTUP;
  e ← setting "streaming.spm.prestart_cycles_for_xmit" STREAMPROCESSORMANAGER_PRESTART_CYCLES_FOR_XMIT;
  f ← setting "streaming.spm.prestart_cycles_for_recv" STREAMPROCESSORMANAGER_PRESTART_CYCLES_FOR_RECV;
  mret (mkStartOptions a b c d e f).

(** [while(nb_sync_runs--)]: sleep until the next period *)
Fixpoint sync_runs (source : Z) (n : nat) : M () :=
  match n with
  | O => mret ()
  | S n' =>
      t ← getTimeAtPeriod_of source;
      delay ← gets_run mg_sync_delay;
      pred ← system_time source (u64 (t + delay));
      sleep (SleepUsecAbsolute pred);;
      sync_runs source n'
  end.

(** the time to start up, in frames: whole packets, one more than fit.  The
    division by a packet of no frames is undefined. *)
Definition startup_frames (cycles_for_startup : Z) (tpf : float) (max_packet_size_frames : Z) : option Z :=
  frames ← to_int 32 (f64_div (f64_of_Z (u32 (cycles_for_startup * TICKS_PER_CYCLE))) (f64_of_f32 tpf));
  if max_packet_size_frames =? 0 then None
  else Some (s32 (s32 (frames `quot` max_packet_size_frames + 1) * max_packet_size_frames)).

(** [while(tmp < xmit_prebuffer_frames) tmp += max_packet_size_frames;] *)
Fixpoint round_up_loop (fuel : nat) (tmp x step : Z) : option Z :=
  if tmp <? x then match fuel with O => None | S fuel' => round_up_loop fuel' (s32 (tmp + step)) x step end
  else Some tmp.

Definition round_up_frames (x step : Z) : option Z :=
  if step =? 0 then None
  else if negb (x `rem` step =? 0) then round_up_loop (Z.to_nat x) 0 x step
  else Some x.

(** the frames to hold back for a sync delay, in whole packets *)
Definition delay_frames (sync_delay_frames max_packet_size_frames : Z) : Z :=
  let n := s32 ((sync_delay_frames `quot` max_packet_size_frames + 1) * max_packet_size_frames) in
  if n <? 1024 then 1024 else n.

(** [for (it ...) if( *it != m_SyncSource) schedule] *)
Definition schedule_others (source t : Z) (l : list Z) : M bool :=
  each (fun a => if a =? source then mret true else call a (ms_scheduleStartRunning (s64 t))) l.

(** [while (!m_SyncSource->isRunning() && cnt)] *)
Fixpoint wait_running (source : Z) (cnt : nat) : M nat :=
  running ← in_states [ePS_Running] source;
  match cnt with
  | S cnt' => if running : bool then mret cnt else sleep (SleepUsecRelative 125);; wait_running source cnt'
  | O => mret O
  end.

(** the transmit buffers are given the time of the first sample *)
Definition preset_heads (prebuffer t : Z) (l : list Z) : M () :=
  each_do (fun a => call a (ms_setExtraBufferFrames (u32 prebuffer));; call a (ms_setBufferHeadTimestamp (f64_of_Z t))) l.

(** the rate, and the end of the transmit buffers *)
Definition preset_tails (rate : float) (t : Z) (l : list Z) : M () :=
  each_do (fun a => call a (ms_setTicksPerFrame rate);; call a (ms_setBufferTailTimestamp (f64_of_Z t))) l.

(** the instants at which the receive and the transmit processors start *)
Definition start_instants (o : start_options) (t tpf_frames : Z) : Z * Z * Z :=
  let first := addTicks t tpf_frames in
  (first, substractTicks first (u32 (so_prestart_cycles_for_recv o * TICKS_PER_CYCLE)),
   substractTicks first (u32 (so_prestart_cycles_for_xmit o * TICKS_PER_CYCLE))).

(** after the start of the sync source: the transmit buffers are aligned with
    it, then the receive processors with each other *)
Definition syncStartAll_running (fuel : nat) (source prebuffer : Z) : M bool :=
  t ← getTimeAtPeriod_of source;
  set_time_of_transfer t;;
  rate ← ask source ms_getTicksPerFrame;
  c ← gets_config id;
  let frames := u32 (u32 (u32 (mg_nb_buffers c - 1) * mg_period c) + prebuffer) in
  ticks ← st_option (to_int 64 (f32_mul (f32_of_Z frames) rate));
  l ← gets_lists id;
  preset_tails rate (s64 (addTicks t (u64 ticks))) (mg_TransmitProcessors l);;
  alignReceivedStreams fuel.

Definition syncStartAll_schedule (fuel : nat) (source prebuffer time_recv time_xmit : Z) : M bool :=
  type ← ask source ms_type;
  ok ← call source (ms_scheduleStartRunning (s64 match type with ePT_Receive => time_recv | ePT_Transmit => time_xmit end));
  if negb ok then mret false
  else
    l ← gets_lists id;
    ok ← schedule_others source time_recv (mg_ReceiveProcessors l);
    if negb ok then mret false
    else
      ok ← schedule_others source time_xmit (mg_TransmitProcessors l);
      if negb ok then mret false
      else
        cnt ← wait_running source (Z.to_nat 8000);
        if (cnt =? 0)%nat then mret false else syncStartAll_running fuel source prebuffer.

Definition syncStartAll (fuel : nat) : M bool :=
  sync ← gets_lists mg_SyncSource;
  match sync with
  | None => mret false
  | Some source =>
      o ← get_start_options;
      l ← gets_lists id;
      max_of_min_delay ← max_over (fun a => call a ms_getMaxFrameLatency) 0 (mg_ReceiveProcessors l);
      max_packet_r ← max_over (fun a => ask a (fun p => s32 (ms_getNominalFramesPerPacket p))) 0 (mg_ReceiveProcessors l);
      max_packet ← max_over (fun a => ask a (fun p => s32 (ms_getNominalFramesPerPacket p))) max_packet_r (mg_TransmitProcessors l);
      set_sync_delay (u32 (max_of_min_delay + so_signal_delay_ticks o));;
      n ← periods_in_msec (so_sync_wait_time_msec o);
      sync_runs source (Z.to_nat n);;
      tpf ← ask source ms_getTicksPerFrame;
      t ← getTimeAtPeriod_of source;
      frames ← st_option (startup_frames (so_cycles_for_startup o) tpf max_packet);
      ticks ← st_option (to_uint 64 (f32_mul (f32_of_Z frames) tpf));
      let '(first, time_recv, time_xmit) := start_instants o t ticks in
      delay ← gets_run mg_sync_delay;
      tpf ← ask source ms_getTicksPerFrame;
      sync_delay_frames ← st_option (to_int 32 (f32_div (f32_of_Z delay) tpf));
      prebuffer ← st_option (round_up_frames (so_xmit_prebuffer_frames o) max_packet);
      preset_heads prebuffer first (mg_TransmitProcessors l);;
      each_do (fun a => call a (ms_setExtraBufferFrames (delay_frames sync_delay_frames max_packet))) (mg_ReceiveProcessors l);;
      syncStartAll_schedule fuel source prebuffer time_recv time_xmit
  end.

(** the tries to start: [None] when all have failed.  [start] gives up when a
    shutdown is needed after a try, [handleXrun] succeeds when one is needed
    before a try. *)
Fixpoint start_tries (fuel : nat) (tries : nat) : M (option bool) :=
  match tries with
  | O => mret None
  | S tries' =>
      dry ← startDryRunning;
      if negb dry then start_tries fuel tries'
      else
        ok ← syncStartAll fuel;
        if ok : bool then mret (Some true)
        else shutdown ← gets_run mg_shutdown_needed; if shutdown : bool then mret (Some false) else start_tries fuel tries'
  end.

Definition start (fuel : nat) : M bool :=
  r ← start_tries fuel (Z.to_nat STREAMPROCESSORMANAGER_SYNCSTART_TRIES);
  match r with
  | Some ok => mret ok
  | None => _ ← stop; mret false
  end.

Fixpoint restart_tries (fuel : nat) (tries : nat) : M bool :=
  match tries with
  | O => mret false
  | S tries' =>
      shutdown ← gets_run mg_shutdown_needed;
      if shutdown : bool then mret true
      else
        dry ← startDryRunning;
        if negb dry then restart_tries fuel tries'
        else ok ← syncStartAll fuel; if ok : bool then mret true else restart_tries fuel tries'
  end.

Definition handleXrun (fuel : nat) : M bool := restart_tries fuel (Z.to_nat STREAMPROCESSORMANAGER_SYNCSTART_TRIES).

(** ** Reasoning about the monad *)

#[export] Instance keeps_ask {A} (R : spm_system P W -> spm_system P W -> Prop) `{!PreOrder R} a (f : P -> A) : StKeeps R (ask a f).
Proof. intros s y s1. unfold ask. destruct (sy_sps s !! a); [|done]. intros [= _ <-]. reflexivity. Qed.

(** calls and sleeps leave the manager *)
Definition same_manager s s1 : Prop := sy_manager s1 = sy_manager s.

#[export] Instance same_manager_preorder : PreOrder same_manager.
Proof. split; unfold same_manager; [done|]. intros s s1 s2. congruence. Qed.

#[export] Instance keeps_manager_call {A} a (f : P -> option (A * P)) : StKeeps same_manager (call a f).
Proof.
  intros s y s1. unfold call. destruct (sy_sps s !! a) as [p|]; [|done]. cbn [mbind option_bind].
  destruct (f _) as [[x p1]|]; [|done]. cbn [mbind option_bind]. by intros [= _ <-].
Qed.

#[export] Instance keeps_manager_sleep r : StKeeps same_manager (sleep r).
Proof. intros s y s1. unfold sleep. destruct (elapse _ _ _). by intros [= _ <-]. Qed.

#[export] Instance keeps_manager_poll check cnt : StKeeps same_manager check -> StKeeps same_manager (poll check cnt).
Proof. intros Hc. induction cnt; cbn; apply _. Qed.

(** *** Polling *)

(** a positive count: the last check succeeded, and one sleep has passed *)
Lemma poll_inv (check : M bool) cnt s n s1 :
  poll check cnt s = Some (n, s1) -> (n =? 0)%nat = false ->
  exists s0 s0', check s0 = Some (true, s0') /\ sleep (SleepUsecRelative 125) s0' = Some ((), s1).
Proof.
  revert s. induction cnt as [|cnt IH]; intros s; cbn [poll]; [by intros [= <- <-]|].
  intros ([] & s0 & Hc & ([] & s2 & Hsl & Hr)%st_bind_inv)%st_bind_inv Hn; [|by eapply IH].
  injection Hr as <- <-. by exists s, s0.
Qed.

Lemma in_states_inv l a s b s1 :
  in_states l a s = Some (b, s1) ->
  s1 = s /\ exists p, sy_sps s !! a = Some p /\ b = bool_decide (ms_state (ms_see (view_of s) p) ∈ l).
Proof. unfold in_states, ask. destruct (sy_sps s !! a) as [p|]; [|done]. intros [= <- <-]. eauto. Qed.

Lemma all_of_in_states l as_ s s1 :
  all_of (in_states l) as_ s = Some (true, s1) ->
  s1 = s /\ forall a, a ∈ as_ -> exists p, sy_sps s !! a = Some p /\ ms_state (ms_see (view_of s) p) ∈ l.
Proof.
  induction as_ as [|a as_ IH]; cbn [all_of]; [intros [= <-]; split; [done|]; by intros a ?%elem_of_nil|].
  intros (ok & s0 & (-> & p & Hp & ->)%in_states_inv & (rest & s2 & Hr & Heq)%st_bind_inv)%st_bind_inv.
  injection Heq as (Hb%bool_decide_eq_true & ->)%andb_true_iff <-.
  destruct (IH Hr) as [-> Hall]. split; [done|]. intros b [->|Hb1]%elem_of_cons; [by exists p|by apply Hall].
Qed.

(** the processors of the manager, receive processors first *)
Definition processors s : list Z :=
  mg_ReceiveProcessors (mg_lists (sy_manager s)) ++ mg_TransmitProcessors (mg_lists (sy_manager s)).

Lemma all_processors_in_states l s s1 :
  all_processors (in_states l) s = Some (true, s1) ->
  s1 = s /\ forall a, a ∈ processors s -> exists p, sy_sps s !! a = Some p /\ ms_state (ms_see (view_of s) p) ∈ l.
Proof.
  intros (li & s0 & [= <- <-] & (r & s2 & Hr & (t & s3 & Ht & Heq)%st_bind_inv)%st_bind_inv)%st_bind_inv.
  injection Heq as (-> & ->)%andb_true_iff <-. apply all_of_in_states in Hr as [-> Hr]. apply all_of_in_states in Ht as [-> Ht].
  split; [done|]. intros a [Ha|Ha]%elem_of_app; [by apply Hr|by apply Ht].
Qed.

Lemma poll_states l cnt s n s1 :
  poll (all_processors (in_states l)) cnt s = Some (n, s1) -> (n =? 0)%nat = false ->
  exists s0, sy_manager s0 = sy_manager s1 /\ sleep (SleepUsecRelative 125) s0 = Some ((), s1) /\
    forall a, a ∈ processors s1 -> exists p, sy_sps s0 !! a = Some p /\ ms_state (ms_see (view_of s0) p) ∈ l.
Proof.
  intros Hp Hn. destruct (poll_inv _ _ _ _ _ Hp Hn) as (s0 & s0' & Hc & Hs).
  apply all_processors_in_states in Hc as [-> Hall]. pose proof (st_keeps (R := same_manager) _ _ _ Hs) as Hm.
  exists s0. split; [by rewrite Hm|]. split; [done|]. intros a Ha. apply Hall. unfold processors in *. by rewrite <- Hm.
Qed.

#[export] Instance keeps_manager_start_dry a : StKeeps same_manager (start_dry_running a).
Proof. unfold start_dry_running, in_states. apply _. Qed.
#[export] Instance keeps_manager_stop_running a : StKeeps same_manager (stop_running a).
Proof. unfold stop_running, in_states. apply _. Qed.
#[export] Instance keeps_manager_stop_dry a : StKeeps same_manager (stop_dry_running a).
Proof. unfold stop_dry_running, in_states. apply _. Qed.
#[export] Instance keeps_manager_on_all f : (forall a, StKeeps same_manager (f a)) -> StKeeps same_manager (on_all f).
Proof. intros Hf. unfold on_all, gets_lists. apply _. Qed.
#[export] Instance keeps_manager_all_states l : StKeeps same_manager (all_processors (in_states l)).
Proof. unfold all_processors, gets_lists, in_states. apply _. Qed.

(** [ready_states l s s1]: before the last sleep every processor of the
    manager was in one of the states. *)
Definition ready_states (l : list eProcessorState) s s1 : Prop :=
  sy_manager s1 = sy_manager s /\
  exists s0, sleep (SleepUsecRelative 125) s0 = Some ((), s1) /\
    forall a, a ∈ processors s -> exists p, sy_sps s0 !! a = Some p /\ ms_state (ms_see (view_of s0) p) ∈ l.

Lemma ready_states_poll l cnt s n s0 s1 :
  same_manager s s0 -> poll (all_processors (in_states l)) cnt s0 = Some (n, s1) -> (n =? 0)%nat = false -> ready_states l s s1.
Proof.
  intros Hs Hp Hn. pose proof (st_keeps (R := same_manager) _ _ _ Hp) as Hm.
  destruct (poll_states _ _ _ _ _ Hp Hn) as (s2 & Hm2 & Hsl & Hall).
  assert (Heq : sy_manager s1 = sy_manager s) by (unfold same_manager in *; congruence).
  split; [done|]. exists s2. split; [done|]. intros a Ha. apply Hall. unfold processors in *. by rewrite Heq.
Qed.

(** Starting and stopping reach the states that they promise.
    [startDryRunning] returns [true] only if every processor of the manager,
    received or transmitted, was dry running at the same check, and [stop]
    only if every one was stopped or in error; one sleep of 125 microseconds
    has passed since, and the manager itself is unchanged. *)
Lemma start_stop_reach s s1 :
  (startDryRunning s = Some (true, s1) -> ready_states [ePS_DryRunning] s s1) /\
  (stop s = Some (true, s1) -> ready_states [ePS_Stopped; ePS_Error] s s1).
Proof.
  split.
  - intros (l & s0 & [= <- <-] & (ok1 & s2 & H1 & H2)%st_bind_inv)%st_bind_inv. destruct ok1; [|done]. cbn [negb] in H2.
    apply st_bind_inv in H2 as (ok2 & s3 & H2 & H3). destruct ok2; [|done]. cbn [negb] in H3.
    apply st_bind_inv in H3 as (n & s4 & H3 & Hn). injection Hn as Hn%negb_true_iff <-.
    eapply ready_states_poll; [|exact H3|done].
    transitivity s2; [by eapply st_keeps in H1|by eapply st_keeps in H2].
  - intros (ok1 & s2 & H1 & H2)%st_bind_inv. destruct ok1; [|done]. cbn [negb] in H2.
    apply st_bind_inv in H2 as (n & s3 & H2 & H3). destruct (n =? 0)%nat; [done|].
    apply st_bind_inv in H3 as (ok2 & s4 & H3 & H4). destruct ok2; [|done]. cbn [negb] in H4.
    apply st_bind_inv in H4 as (n2 & s5 & H4 & Hn). injection Hn as Hn%negb_true_iff <-.
    eapply ready_states_poll; [|exact H4|done].
    transitivity s2; [by eapply st_keeps in H1|]. transitivity s3; [by eapply st_keeps in H2|by eapply st_keeps in H3].
Qed.

(** *** Rounds of alignment *)

(** [rounds n s s1]: [n] rounds of alignment, none of which has found the
    streams aligned *)
Inductive rounds (fuel : nat) (periods : Z) : nat -> spm_system P W -> spm_system P W -> Prop :=
  | rounds_O s : rounds fuel periods O s s
  | rounds_S n s s1 s2 :
      align_round fuel periods s = Some (Some false, s1) -> rounds fuel periods n s1 s2 -> rounds fuel periods (S n) s s2.

Lemma align_loop_rounds k n fuel periods cnt s s1 :
  rounds fuel periods k s s1 -> Z.of_nat k <= cnt -> (k <= n)%nat ->
  align_loop n fuel periods cnt s = align_loop (n - k) fuel periods (cnt - Z.of_nat k) s1.
Proof.
  intros Hr. revert n cnt. induction Hr as [s|k s s1 s2 Hs Hr IH]; intros n cnt Hc Hn.
  - by rewrite Nat.sub_0_r, Z.sub_0_r.
  - destruct n as [|n]; [lia|]. cbn [align_loop]. destruct (cnt =? 0) eqn:Hc0; [lia|].
    rewrite (st_bind_eq _ _ _ _ _ Hs). rewrite IH by lia. f_equal; lia.
Qed.

(** C20: the result of [alignReceivedStreams], for a positive number of tries.
    If the [k]-th round finds the streams aligned, the result is [true] unless
    that was the last try, in which it is [false]; if no round does, the result
    is [true] although the streams are not aligned; a failing transfer or shift
    gives [false].  (The source tests the counter for 0 behind a loop that
    leaves it at -1.) *)
Theorem alignReceivedStreams_result fuel s tries periods :
  0 < tries ->
  default STREAMPROCESSORMANAGER_NB_ALIGN_TRIES (getValueForSetting "streaming.spm.align_tries" (sy_world s)) = tries ->
  periods_in_msec (default STREAMPROCESSORMANAGER_ALIGN_AVERAGE_TIME_MSEC
    (getValueForSetting "streaming.spm.align_average_time_msec" (sy_world s))) s = Some (periods, s) ->
  (forall s1, rounds fuel periods (Z.to_nat tries) s s1 -> alignReceivedStreams fuel s = Some (true, s1)) /\
  (forall k s1 s2, rounds fuel periods k s s1 -> Z.of_nat k < tries -> align_round fuel periods s1 = Some (Some true, s2) ->
     alignReceivedStreams fuel s = Some (bool_decide (Z.of_nat k + 1 <> tries), s2)) /\
  (forall k s1 s2, rounds fuel periods k s s1 -> Z.of_nat k < tries -> align_round fuel periods s1 = Some (None, s2) ->
     alignReceivedStreams fuel s = Some (false, s2)).
Proof.
  intros Ht Htries Hper.
  assert (Hal : alignReceivedStreams fuel s = align_loop (S (Z.to_nat tries) + fuel) fuel periods tries s).
  { unfold alignReceivedStreams. rewrite (st_bind_eq _ _ s tries s) by (unfold setting, st_gets; by rewrite Htries).
    rewrite (st_bind_eq _ _ s _ s) by reflexivity. by rewrite (st_bind_eq _ _ s periods s) by done. }
  rewrite Hal. split; [|split].
  - intros s1 Hr. rewrite (align_loop_rounds _ _ _ _ _ _ _ Hr) by lia.
    replace (S (Z.to_nat tries) + fuel - Z.to_nat tries)%nat with (S fuel) by lia. cbn [align_loop].
    by replace (tries - Z.of_nat (Z.to_nat tries)) with 0 by lia.
  - intros k s1 s2 Hr Hk Hs. rewrite (align_loop_rounds _ _ _ _ _ _ _ Hr) by lia.
    replace (S (Z.to_nat tries) + fuel - k)%nat with (S (Z.to_nat tries + fuel - k)) by lia. cbn [align_loop].
    destruct (tries - Z.of_nat k =? 0) eqn:Hc0; [lia|]. rewrite (st_bind_eq _ _ _ _ _ Hs). unfold mret, StM_ret. do 2 f_equal.
    destruct (tries - Z.of_nat k - 1 =? 0) eqn:Hc1; cbn [negb]; symmetry; [apply bool_decide_eq_false_2|apply bool_decide_eq_true_2]; lia.
  - intros k s1 s2 Hr Hk Hs. rewrite (align_loop_rounds _ _ _ _ _ _ _ Hr) by lia.
    replace (S (Z.to_nat tries) + fuel - k)%nat with (S (Z.to_nat tries + fuel - k)) by lia. cbn [align_loop].
    destruct (tries - Z.of_nat k =? 0) eqn:Hc0; [lia|]. by rewrite (st_bind_eq _ _ _ _ _ Hs).
Qed.
End manager.

(** ** What the manager relies on

    Reading the manager through the reference changes nothing of what a
    processor shows. *)
Class SeeLaws (P : Type) `{ManagedStream P} : Prop := {
  see_see v v1 p : ms_see v (ms_see v1 p) = ms_see v p;
  see_type v p : ms_type (ms_see v p) = ms_type p;
  see_state v p : ms_state (ms_see v p) = ms_state p;
  see_in_xrun v p : ms_in_xrun (ms_see v p) = ms_in_xrun p;
  see_ports v p : ms_ports (ms_see v p) = ms_ports p;
  see_extra v p : ms_getExtraBufferFrames (ms_see v p) = ms_getExtraBufferFrames p;
  see_rate v p : ms_getTicksPerFrame (ms_see v p) = ms_getTicksPerFrame p }.

(** ** The shadow lists *)

Section shadow.
Context {P W : Type} {MS : ManagedStream P} {SL : SeeLaws P} {SE : SPMEnv P W}.
Implicit Types s : spm_system P W.

(** the ports of a direction of a processor, and of a list of them *)
Definition ports_of (d : E_Direction) (p : P) : list Z := mp_address <$> filter (fun x => mp_direction x = d) (ms_ports p).

Definition ports_in (d : E_Direction) (sps : gmap Z P) (l : list Z) : list Z :=
  a ← l; match sps !! a with Some p => ports_of d p | None => [] end.

(** all pointers of the list lead to processors of the type *)
Definition typed (sps : gmap Z P) (type : eProcessorType) (l : list Z) : Prop :=
  Forall (fun a => exists p, sps !! a = Some p /\ ms_type p = type) l.

(** The shadow lists are the ports of the registered processors, and exactly
    those processors call the manager back when their ports change. *)
Definition shadow_ok s : Prop :=
  let l := mg_lists (sy_manager s) in
  mg_CapturePorts_shadow l = ports_in E_Capture (sy_sps s) (mg_ReceiveProcessors l) /\
  mg_PlaybackPorts_shadow l = ports_in E_Playback (sy_sps s) (mg_TransmitProcessors l) /\
  typed (sy_sps s) ePT_Receive (mg_ReceiveProcessors l) /\ typed (sy_sps s) ePT_Transmit (mg_TransmitProcessors l) /\
  sy_handlers s ≡ₚ mg_ReceiveProcessors l ++ mg_TransmitProcessors l.

Lemma shadow_ports_spec d type s l :
  typed (sy_sps s) type l -> shadow_ports (P := P) (W := W) d l s = Some (ports_in d (sy_sps s) l, s).
Proof.
  induction l as [|a l IH]; intros Hl; [done|]. apply Forall_cons in Hl as [(p & Hp & _) Hl]. cbn [shadow_ports].
  erewrite st_bind_eq by (unfold ask; rewrite Hp; reflexivity). erewrite st_bind_eq by (by apply IH).
  cbn. rewrite Hp, see_ports. done.
Qed.

(** [updateShadowLists] establishes the lists *)
Lemma updateShadowLists_spec s :
  let l := mg_lists (sy_manager s) in
  typed (sy_sps s) ePT_Receive (mg_ReceiveProcessors l) -> typed (sy_sps s) ePT_Transmit (mg_TransmitProcessors l) ->
  sy_handlers s ≡ₚ mg_ReceiveProcessors l ++ mg_TransmitProcessors l ->
  exists s1, updateShadowLists (P := P) s = Some ((), s1) /\ shadow_ok s1 /\ sy_sps s1 = sy_sps s /\ sy_handlers s1 = sy_handlers s /\
    mg_ReceiveProcessors (mg_lists (sy_manager s1)) = mg_ReceiveProcessors l /\
    mg_TransmitProcessors (mg_lists (sy_manager s1)) = mg_TransmitProcessors l.
Proof.
  intros l Hr Ht Hh. unfold updateShadowLists. erewrite st_bind_eq by reflexivity.
  erewrite st_bind_eq by (by eapply shadow_ports_spec). erewrite st_bind_eq by (by eapply shadow_ports_spec).
  eexists. split; [reflexivity|]. by split_and!.
Qed.

Lemma typed_app sps type l1 l2 : typed sps type (l1 ++ l2) <-> typed sps type l1 /\ typed sps type l2.
Proof. apply Forall_app. Qed.

Lemma typed_remove sps type a l : typed sps type l -> typed sps type (remove_first a l).
Proof. unfold typed. rewrite !Forall_forall. intros Hl b Hb. apply Hl. by eapply remove_first_elem. Qed.

(** a processor is in the list of its type only *)
Lemma typed_not sps type a p l : typed sps type l -> sps !! a = Some p -> ms_type p <> type -> a ∉ l.
Proof.
  unfold typed. rewrite Forall_forall. intros Hl Hp Hne Hin. destruct (Hl a Hin) as (q & Hq & Hty).
  rewrite Hp in Hq. by injection Hq as <-.
Qed.

Lemma registerProcessor_ok s a p :
  shadow_ok s -> sy_sps s !! a = Some p ->
  exists s1, registerProcessor (P := P) a s = Some (true, s1) /\ shadow_ok s1 /\ sy_sps s1 = sy_sps s /\
    mg_ReceiveProcessors (mg_lists (sy_manager s1)) =
      mg_ReceiveProcessors (mg_lists (sy_manager s)) ++ match ms_type p with ePT_Receive => [a] | ePT_Transmit => [] end /\
    mg_TransmitProcessors (mg_lists (sy_manager s1)) =
      mg_TransmitProcessors (mg_lists (sy_manager s)) ++ match ms_type p with ePT_Receive => [] | ePT_Transmit => [a] end.
Proof.
  intros (_ & _ & Hr & Ht & Hh) Hp. unfold registerProcessor.
  erewrite st_bind_eq by (unfold ask; rewrite Hp; reflexivity). rewrite see_type.
  erewrite st_bind_eq by reflexivity. erewrite st_bind_eq by reflexivity.
  assert (Hty : forall t, ms_type p = t -> typed (sy_sps s) t [a]).
  { intros t Ht1. apply Forall_singleton. by exists p. }
  destruct (ms_type p) eqn:Htp.
  - match goal with |- exists s1, (_ ≫= _) ?s2 = _ /\ _ => destruct (updateShadowLists_spec s2) as (s3 & H3 & Hok & Hs & _ & Hr3 & Ht3) end.
    + cbn. apply typed_app. split; [done|by apply Hty].
    + done.
    + cbn. rewrite Hh. by rewrite <- !app_assoc, (Permutation_app_comm [a]).
    + exists s3. rewrite (st_bind_eq _ _ _ _ _ H3). rewrite Hs, Hr3, Ht3. cbn. by rewrite app_nil_r.
  - match goal with |- exists s1, (_ ≫= _) ?s2 = _ /\ _ => destruct (updateShadowLists_spec s2) as (s3 & H3 & Hok & Hs & _ & Hr3 & Ht3) end.
    + done.
    + cbn. apply typed_app. split; [done|by apply Hty].
    + cbn. rewrite Hh. by rewrite <- !app_assoc.
    + exists s3. rewrite (st_bind_eq _ _ _ _ _ H3). rewrite Hs, Hr3, Ht3. cbn. by rewrite app_nil_r.
Qed.

Lemma unregisterProcessor_ok s a p :
  shadow_ok s -> sy_sps s !! a = Some p ->
  exists s1, unregisterProcessor (P := P) a s = Some (bool_decide (a ∈ processors s), s1) /\ shadow_ok s1 /\ sy_sps s1 = sy_sps s /\
    processors s1 = remove_first a (processors s).
Proof.
  intros Hok Hp. pose proof Hok as (_ & _ & Hr & Ht & Hh). unfold unregisterProcessor.
  erewrite st_bind_eq by (unfold ask; rewrite Hp; reflexivity). rewrite see_type.
  erewrite st_bind_eq by reflexivity. unfold processors.
  set (r := mg_ReceiveProcessors (mg_lists (sy_manager s))) in *. set (t := mg_TransmitProcessors (mg_lists (sy_manager s))) in *.
  destruct (ms_type p) eqn:Htp.
  - assert (Hnt : a ∉ t) by (eapply typed_not; [done|exact Hp|by rewrite Htp]). case_bool_decide as Hin.
    + erewrite st_bind_eq by reflexivity. erewrite st_bind_eq by reflexivity.
      match goal with |- exists s1, (_ ≫= _) ?s2 = _ /\ _ => destruct (updateShadowLists_spec s2) as (s3 & H3 & Hok3 & Hs & _ & Hr3 & Ht3) end.
      * by apply typed_remove.
      * done.
      * cbn. rewrite Hh. by rewrite remove_first_app_l.
      * exists s3. rewrite (st_bind_eq _ _ _ _ _ H3). rewrite Hs, Hr3, Ht3. cbn. rewrite bool_decide_true by (apply elem_of_app; tauto).
        by rewrite remove_first_app_l.
    + exists s. rewrite bool_decide_false by (rewrite elem_of_app; tauto). split_and!; try done. rewrite remove_first_not; [done|rewrite elem_of_app; tauto].
  - assert (Hnr : a ∉ r) by (eapply typed_not; [done|exact Hp|by rewrite Htp]). case_bool_decide as Hin.
    + erewrite st_bind_eq by reflexivity. erewrite st_bind_eq by reflexivity.
      match goal with |- exists s1, (_ ≫= _) ?s2 = _ /\ _ => destruct (updateShadowLists_spec s2) as (s3 & H3 & Hok3 & Hs & _ & Hr3 & Ht3) end.
      * done.
      * by apply typed_remove.
      * cbn. rewrite Hh. by rewrite remove_first_app_r.
      * exists s3. rewrite (st_bind_eq _ _ _ _ _ H3). rewrite Hs, Hr3, Ht3. cbn. rewrite bool_decide_true by (apply elem_of_app; tauto).
        by rewrite remove_first_app_r.
    + exists s. rewrite bool_decide_false by (rewrite elem_of_app; tauto). split_and!; try done. rewrite remove_first_not; [done|rewrite elem_of_app; tauto].
Qed.

Lemma ports_in_insert d sps a p l : a ∉ l -> ports_in d (<[a := p]> sps) l = ports_in d sps l.
Proof.
  induction l as [|b l IH]; [done|]. intros [Hne Hl]%not_elem_of_cons. unfold ports_in in *. cbn.
  rewrite lookup_insert_ne by done. f_equal. by apply IH.
Qed.

Lemma typed_insert sps a p q type l :
  sps !! a = Some q -> ms_type p = ms_type q -> typed sps type l -> typed (<[a := p]> sps) type l.
Proof.
  intros Hq Hpq. unfold typed. rewrite !Forall_forall. intros Hl b Hb. destruct (Hl b Hb) as (x & Hx & Hty).
  destruct (decide (b = a)) as [->|Hne].
  - rewrite lookup_insert_eq. exists p. split; [done|]. rewrite Hq in Hx. injection Hx as <-. congruence.
  - rewrite lookup_insert_ne by done. by exists x.
Qed.

(** one call of [updateShadowLists] or several make no difference *)
Lemma each_update_ok s (l : list Z) :
  shadow_ok s -> exists s1, each_do (fun _ => updateShadowLists) l s = Some ((), s1) /\ shadow_ok s1 /\ sy_sps s1 = sy_sps s /\
    processors s1 = processors s.
Proof.
  revert s. induction l as [|b l IH]; intros s Hok; [by exists s|]. cbn [each_do].
  destruct (updateShadowLists_spec s) as (s1 & H1 & Hok1 & Hs1 & _ & Hr1 & Ht1); [apply Hok..|].
  rewrite (st_bind_eq _ _ _ _ _ H1). destruct (IH s1 Hok1) as (s2 & H2 & Hok2 & Hs2 & Hp2). exists s2. split; [done|].
  split; [done|]. split; [congruence|]. rewrite Hp2. unfold processors. by rewrite Hr1, Ht1.
Qed.

Lemma portsChanged_ok s a p q :
  shadow_ok s -> sy_sps s !! a = Some q -> ms_type p = ms_type q ->
  exists s1, portsChanged a p s = Some ((), s1) /\ shadow_ok s1 /\ sy_sps s1 = <[a := p]> (sy_sps s) /\ processors s1 = processors s.
Proof.
  intros (Hc & Hpb & Hr & Ht & Hh) Hq Hpq. unfold portsChanged.
  erewrite st_bind_eq by reflexivity. erewrite st_bind_eq by reflexivity. cbn [sy_handlers].
  set (s0 := mkSystem _ _ _ _).
  assert (Hr0 : typed (sy_sps s0) ePT_Receive (mg_ReceiveProcessors (mg_lists (sy_manager s0)))) by (by eapply typed_insert).
  assert (Ht0 : typed (sy_sps s0) ePT_Transmit (mg_TransmitProcessors (mg_lists (sy_manager s0)))) by (by eapply typed_insert).
  destruct (decide (a ∈ sy_handlers s)) as [Hin|Hout].
  - destruct (filter (fun b => b = a) (sy_handlers s)) as [|b l] eqn:Hf.
    { exfalso. assert (Ha : a ∈ filter (fun b => b = a) (sy_handlers s)) by (by apply list_elem_of_filter). rewrite Hf in Ha.
      by apply elem_of_nil in Ha. }
    cbn [each_do]. destruct (updateShadowLists_spec s0) as (s1 & H1 & Hok1 & Hs1 & _ & Hr1 & Ht1); [done..|].
    rewrite (st_bind_eq _ _ _ _ _ H1). destruct (each_update_ok s1 l Hok1) as (s2 & H2 & Hok2 & Hs2 & Hp2). exists s2.
    split; [done|]. split; [done|]. split; [by rewrite Hs2, Hs1|]. rewrite Hp2. unfold processors. by rewrite Hr1, Ht1.
  - assert (Hnot : a ∉ processors s) by (unfold processors; by rewrite <- Hh).
    destruct (each_update_ok s0 (filter (fun b => b = a) (sy_handlers s))) as (s2 & H2 & Hok2 & Hs2 & Hp2).
    { unfold processors in Hnot. rewrite not_elem_of_app in Hnot. destruct Hnot.
      split_and!; [cbn; by rewrite ports_in_insert..|done|done|done]. }
    exists s2. split; [done|]. split; [done|]. split; [by rewrite Hs2|]. by rewrite Hp2.
Qed.

(** The life of the lists: processors come into being, are registered and
    unregistered, their ports change. *)
Inductive lists_reachable : spm_system P W -> Prop :=
  | lists_start period rate nb delayed sps w :
      lists_reachable (mkSystem (StreamProcessorManager_new period rate nb delayed) sps [] w)
  | lists_create s a p :
      lists_reachable s -> sy_sps s !! a = None ->
      lists_reachable (mkSystem (sy_manager s) (<[a := p]> (sy_sps s)) (sy_handlers s) (sy_world s))
  | lists_register s a r s1 : lists_reachable s -> registerProcessor a s = Some (r, s1) -> lists_reachable s1
  | lists_unregister s a r s1 : lists_reachable s -> unregisterProcessor a s = Some (r, s1) -> lists_reachable s1
  | lists_ports s a p q s1 :
      lists_reachable s -> sy_sps s !! a = Some q -> ms_type p = ms_type q -> portsChanged a p s = Some ((), s1) -> lists_reachable s1.

Lemma registerProcessor_some a s x : registerProcessor (P := P) (W := W) a s = Some x -> exists p, sy_sps s !! a = Some p.
Proof.
  unfold registerProcessor, ask, mbind, StM_bind. destruct (sy_sps s !! a) as [p|] eqn:Hp; [by exists p|].
  unfold mbind, option_bind. done.
Qed.

Lemma unregisterProcessor_some a s x : unregisterProcessor (P := P) (W := W) a s = Some x -> exists p, sy_sps s !! a = Some p.
Proof.
  unfold unregisterProcessor, ask, mbind, StM_bind. destruct (sy_sps s !! a) as [p|] eqn:Hp; [by exists p|].
  unfold mbind, option_bind. done.
Qed.

Lemma lists_reachable_ok s : lists_reachable s -> shadow_ok s.
Proof.
  induction 1 as [period rate nb delayed sps w|s a p _ Hok Ha|s a r s1 _ Hok H1|s a r s1 _ Hok H1|s a p q s1 _ Hok Hq Hty H1].
  - split_and!; cbn; try done; by apply Forall_nil_2.
  - destruct Hok as (Hc & Hp & Hr & Ht & Hh).
    assert (Hfresh : forall type l, typed (sy_sps s) type l -> a ∉ l).
    { intros type l Hl Hin. unfold typed in Hl. rewrite Forall_forall in Hl. destruct (Hl a Hin) as (q & Hq & _). congruence. }
    assert (Hty : forall type l, typed (sy_sps s) type l -> typed (<[a := p]> (sy_sps s)) type l).
    { intros type l Hl. pose proof (Hfresh _ _ Hl) as Hf. unfold typed in *. rewrite Forall_forall in *. intros b Hb.
      rewrite lookup_insert_ne by congruence. by apply Hl. }
    split_and!; cbn; [rewrite ports_in_insert; [done|by eapply Hfresh]..| | |done]; by apply Hty.
  - destruct (registerProcessor_some _ _ _ H1) as [p Hp]. destruct (registerProcessor_ok s a p Hok Hp) as (s2 & H2 & Hok2 & _).
    rewrite H1 in H2. by injection H2 as _ <-.
  - destruct (unregisterProcessor_some _ _ _ H1) as [p Hp]. destruct (unregisterProcessor_ok s a p Hok Hp) as (s2 & H2 & Hok2 & _).
    rewrite H1 in H2. by injection H2 as _ <-.
  - destruct (portsChanged_ok s a p q Hok Hq Hty) as (s2 & H2 & Hok2 & _). rewrite H1 in H2. by injection H2 as <-.
Qed.

(** C17: the index of the ports is up to date.  However processors have been
    created, registered and unregistered and their ports have changed,
    [getPortByIndex] gives the ports of the registered receive (transmit)
    processors that are capture (playback) ports, in the order of registration
    and in the order of their managers; past the end it throws, or gives a null
    pointer in a debug build. *)
Theorem getPortByIndex_current DEBUG idx d s :
  lists_reachable s ->
  let ports := match d with
    | E_Capture => ports_in E_Capture (sy_sps s) (mg_ReceiveProcessors (mg_lists (sy_manager s)))
    | E_Playback => ports_in E_Playback (sy_sps s) (mg_TransmitProcessors (mg_lists (sy_manager s)))
    end in
  getPortByIndex DEBUG idx d s =
    if decide (0 <= idx < Z.of_nat (length ports)) then
      p ← ports !! Z.to_nat idx; Some (Some p, s)
    else if DEBUG && (Z.of_nat (length ports) <=? idx) then Some (None, s) else None.
Proof.
  intros (Hc & Hp & _)%lists_reachable_ok ports. unfold getPortByIndex.
  erewrite st_bind_eq by (unfold gets_lists, st_gets; reflexivity).
  assert (Hl : match d with E_Capture => mg_CapturePorts_shadow (mg_lists (sy_manager s))
                          | E_Playback => mg_PlaybackPorts_shadow (mg_lists (sy_manager s)) end = ports).
  { subst ports. by destruct d. }
  rewrite Hl. clearbody ports. clear Hl Hc Hp. case_decide as Hi.
  - replace (DEBUG && (Z.of_nat (length ports) <=? idx)) with false
      by (symmetry; apply andb_false_iff; right; apply Z.leb_gt; lia).
    destruct (idx <? 0) eqn:Hneg; [lia|]. destruct (lookup_lt_is_Some_2 ports (Z.to_nat idx)) as [p Hp]; [lia|].
    rewrite Hp. done.
  - destruct (DEBUG && (Z.of_nat (length ports) <=? idx)) eqn:Hb; [done|]. destruct (idx <? 0) eqn:Hneg; [done|].
    rewrite lookup_ge_None_2 by lia. done.
Qed.
End shadow.

(** ** The prebuffer of the transmit streams *)

Lemma round_up_loop_spec step x : 0 < step -> x + step < 2 ^ 31 -> forall fuel tmp,
  0 <= tmp -> tmp < x + step -> tmp mod step = 0 -> x - tmp <= Z.of_nat fuel * step ->
  exists r, round_up_loop fuel tmp x step = Some r /\ r mod step = 0 /\ x <= r < x + step.
Proof.
  intros Hs Hx. induction fuel as [|fuel IH]; intros tmp H0 Hlt Hm Hf; cbn [round_up_loop].
  - destruct (tmp <? x) eqn:Hl; [lia|]. exists tmp. split; [done|]. split; [done|lia].
  - destruct (tmp <? x) eqn:Hl; [|exists tmp; split; [done|]; split; [done|lia]].
    rewrite wrapS_small by (unfold sint; change (2 ^ (32 - 1)) with 2147483648 in *; change (2 ^ 31) with 2147483648 in *; lia).
    apply IH; [lia..| |nia]. rewrite Z.add_mod, Hm, Z.mod_same by lia. done.
Qed.

(** The loop that rounds the number of prebuffered frames of the transmit
    streams ends, and its result is the next multiple of the largest packet: a
    number of frames below it is never lost, less than a packet is added, and
    the position of MIDI bytes in their blocks of 8 frames is kept.  (The loop
    does not end for a packet of no frames; the division before it is undefined
    then.) *)
Lemma round_up_frames_multiple x step :
  0 <= x -> 0 < step -> x + step < 2 ^ 31 ->
  exists r, round_up_frames x step = Some r /\ r mod step = 0 /\ x <= r < x + step.
Proof.
  intros Hx Hs Hb. unfold round_up_frames. destruct (step =? 0) eqn:H0; [lia|]. rewrite Z.rem_mod_nonneg by lia.
  destruct (x mod step =? 0) eqn:Hm; cbn [negb].
  - exists x. split; [done|]. split; [lia|lia].
  - apply round_up_loop_spec; [done|done|lia|lia|by apply Z.mod_0_l; lia|nia].
Qed.

Lemma round_up_frames_multiple_witness :
  0 <= 100 /\ exists r, round_up_frames 100 8 = Some r /\ r mod 8 = 0 /\ 100 <= r < 100 + 8.
Proof. split; [lia|]. apply (round_up_frames_multiple 100 8); lia. Defined.

(** ** A system to run

    Processors that change their state at once and are never aligned. *)
Record toy := mkToy { ty_type : eProcessorType; ty_state : eProcessorState; ty_time : Z; ty_ports : list managed_port }.

Definition toy_goes (st : eProcessorState) (p : toy) : option (bool * toy) :=
  Some (true, mkToy (ty_type p) st (ty_time p) (ty_ports p)).
Definition toy_keeps {A} (x : A) (p : toy) : option (A * toy) := Some (x, p).

#[export] Instance toy_stream : ManagedStream toy := {|
  ms_see _ p := p; ms_type := ty_type; ms_state := ty_state; ms_in_xrun _ := false; ms_ports := ty_ports;
  ms_getTicksPerFrame _ := f32_of_Z 512; ms_getExtraBufferFrames _ := 0; ms_getNominalFramesPerPacket _ := 8;
  ms_getMaxFrameLatency := toy_keeps 0; ms_getTimeAtPeriod p := Some (Some (ty_time p), p);
  ms_setTicksPerFrame _ := toy_keeps (); ms_setExtraBufferFrames _ := toy_keeps ();
  ms_setBufferHeadTimestamp _ := toy_keeps (); ms_setBufferTailTimestamp _ := toy_keeps ();
  ms_setOption_slaveMode _ := toy_keeps false; ms_prepare := toy_goes ePS_Stopped; ms_periodSizeChanged _ := toy_keeps true;
  ms_scheduleStartDryRunning _ := toy_goes ePS_DryRunning; ms_scheduleStartRunning _ := toy_goes ePS_Running;
  ms_scheduleStopDryRunning _ := toy_goes ePS_Stopped; ms_scheduleStopRunning _ := toy_goes ePS_DryRunning;
  ms_canConsumePeriod := toy_keeps true; ms_canProducePeriod := toy_keeps true;
  ms_getFrames _ _ := toy_keeps true; ms_putFrames _ _ := toy_keeps true;
  ms_dropFrames _ _ := toy_keeps true; ms_putSilenceFrames _ _ := toy_keeps true; ms_shiftStream _ := toy_keeps true |}.

#[export] Instance toy_see : SeeLaws toy.
Proof. by split. Qed.

#[export] Instance toy_env : SPMEnv toy Z := {|
  getValueForSetting name _ :=
    if String.eqb name "streaming.spm.align_tries" then Some 2
    else if String.eqb name "streaming.spm.align_average_time_msec" then Some 22 else None;
  getOption_slaveMode _ := None; getSystemTimeForCycleTimerTicks _ t _ := t; getCurrentTime w := (w, w + 1);
  elapse _ sps w := (sps, w + 125) |}.

Definition toy_recv (time : Z) : toy := mkToy ePT_Receive ePS_Stopped time [mkManagedPort 100 E_Audio E_Capture; mkManagedPort 101 Ports.E_Midi E_Playback].

(** two receive processors, 10 frames apart *)
Definition toy_system (state : eProcessorState) : spm_system toy Z :=
  mkSystem (mkManager (mkSpmConfig 2 1024 48000 eADT_Float 0 false) (mkSpmLists (Some 1) [1; 2] [] [] []) (mkSpmRun 0 0 false 0 0))
    (<[1 := mkToy ePT_Receive state 0 []]> {[2 := mkToy ePT_Receive state 5120 []]}) [1; 2] 0.

Definition after {A} (r : option (A * spm_system toy Z)) (s : spm_system toy Z) : spm_system toy Z :=
  match r with Some (_, s1) => s1 | None => s end.

Lemma start_stop_reach_witness :
  exists s1 s2, startDryRunning (toy_system ePS_Stopped) = Some (true, s1) /\ ready_states [ePS_DryRunning] (toy_system ePS_Stopped) s1 /\
    stop s1 = Some (true, s2) /\ ready_states [ePS_Stopped; ePS_Error] s1 s2.
Proof.
  set (s1 := after (startDryRunning (toy_system ePS_Stopped)) (toy_system ePS_Stopped)).
  set (s2 := after (stop s1) s1). exists s1, s2.
  assert (H1 : startDryRunning (toy_system ePS_Stopped) = Some (true, s1)) by (vm_compute; reflexivity).
  assert (H2 : stop s1 = Some (true, s2)) by (vm_compute; reflexivity).
  split; [exact H1|]. split; [exact (proj1 (start_stop_reach (toy_system ePS_Stopped) s1) H1)|]. split; [exact H2|].
  exact (proj2 (start_stop_reach s1 s2) H2).
Defined.

(** two rounds, after both of which the streams are 10 frames apart *)
Lemma alignReceivedStreams_result_witness :
  exists s1, rounds 5 1 2 (toy_system ePS_Running) s1 /\ alignReceivedStreams 5 (toy_system ePS_Running) = Some (true, s1).
Proof.
  set (s0 := after (align_round 5 1 (toy_system ePS_Running)) (toy_system ePS_Running)).
  set (s1 := after (align_round 5 1 s0) s0). exists s1.
  assert (Hr : rounds 5 1 2 (toy_system ePS_Running) s1).
  { apply (rounds_S _ _ _ _ s0); [vm_compute; reflexivity|]. apply (rounds_S _ _ _ _ s1); [vm_compute; reflexivity|]. constructor. }
  split; [exact Hr|].
  refine (proj1 (alignReceivedStreams_result 5 (toy_system ePS_Running) 2 1 _ _ _) s1 Hr).
  - reflexivity.
  - vm_compute. reflexivity.
  - vm_compute. reflexivity.
Defined.

(** a receive processor is registered; its playback port is left out *)
Lemma getPortByIndex_current_witness :
  exists s : spm_system toy Z, lists_reachable s /\ getPortByIndex true 0 E_Capture s = Some (Some 100, s) /\ getPortByIndex true 1 E_Capture s = Some (None, s).
Proof.
  set (s0 := mkSystem (StreamProcessorManager_new 1024 48000 2 0) {[7 := toy_recv 0]} [] 0 : spm_system toy Z).
  set (s1 := after (registerProcessor 7 s0) s0). exists s1.
  assert (Hr : lists_reachable s1).
  { apply (lists_register s0 7 true); [constructor|]. vm_compute. reflexivity. }
  split; [exact Hr|]. split.
  - refine (eq_trans (getPortByIndex_current true 0 E_Capture s1 Hr) _). vm_compute. reflexivity.
  - refine (eq_trans (getPortByIndex_current true 1 E_Capture s1 Hr) _). vm_compute. reflexivity.
Defined.
