(* ===== verification/StreamPeriod.v ===== *)
(** * StreamPeriod: a period of the stream processor manager

    What [waitForPeriod] promises to [transfer]: the manager is proved against
    what a running processor says of its buffer ([WaitLaws]), and the stream
    processor of StreamProcessor.v keeps these laws whatever its subclass is.
    That the transfer then succeeds takes more ([PeriodLaws]): it is a lemma
    for subclasses whose functions that move samples always return. *)
From stdpp Require Import gmap strings.
From S2P Require Import Prelude Memory Ports CycleTimer MachineFloat RingBuffer TimestampedBuffer StreamProcessor StreamWorld Amdtp AmdtpReceive StateMonad StreamManager.

(** ** The promises of a running processor

    [ms_fill] and [ms_space]: the frames in the buffer, and those that fit. *)
Class WaitLaws (P : Type) `{ManagedStream P} := {
  ms_running : P -> Prop;
  ms_fill : P -> Z;
  ms_space : P -> Z;
  running_see v p : ms_running (ms_see v p) <-> ms_running p;
  fill_see v p : ms_fill (ms_see v p) = ms_fill p;
  space_see v p : ms_space (ms_see v p) = ms_space p;
  time_same p t p1 : ms_getTimeAtPeriod p = Some (t, p1) -> p1 = p;
  consume_same p b p1 : ms_canConsumePeriod p = Some (b, p1) -> p1 = p;
  produce_same p b p1 : ms_canProducePeriod p = Some (b, p1) -> p1 = p;
  consume_fill v p p1 :
    ms_running p -> ms_type p = ePT_Receive -> ms_canConsumePeriod (ms_see v p) = Some (true, p1) -> vw_period v <= ms_fill p;
  produce_space v p p1 :
    ms_running p -> ms_type p = ePT_Transmit -> ms_canProducePeriod (ms_see v p) = Some (true, p1) -> vw_period v <= ms_space p }.

(** [ms_accepts n ts p]: the buffer takes [n] frames with the timestamp. *)
Class PeriodLaws (P : Type) `{WaitLaws P} := {
  ms_accepts : Z -> Z -> P -> Prop;
  accepts_see n ts v p : ms_accepts n ts (ms_see v p) <-> ms_accepts n ts p;
  get_law n ts p :
    ms_running p -> ms_type p = ePT_Receive -> 0 <= n <= ms_fill p -> n mod 8 = 0 ->
    exists p1, ms_getFrames n ts p = Some (true, p1) /\ ms_fill p1 = ms_fill p - n /\ ms_getTicksPerFrame p1 = ms_getTicksPerFrame p;
  put_law n ts p :
    ms_running p -> ms_type p = ePT_Transmit -> 0 <= n <= ms_space p -> n mod 8 = 0 -> ms_accepts n ts p ->
    exists p1, ms_putFrames n ts p = Some (true, p1) /\ ms_fill p1 = ms_fill p + n }.

Section period.
Context {P W : Type} {MS : ManagedStream P} {SL : SeeLaws P} {WL : WaitLaws P} {SE : SPMEnv P W}.
Implicit Types s : spm_system P W.

(** ** What only reads *)

(** the processors are those of [s], except that they have read the manager *)
Definition seen s s1 : Prop :=
  mg_config (sy_manager s1) = mg_config (sy_manager s) /\ mg_lists (sy_manager s1) = mg_lists (sy_manager s) /\
  forall a, sy_sps s1 !! a = sy_sps s !! a \/ exists p v, sy_sps s !! a = Some p /\ sy_sps s1 !! a = Some (ms_see v p).

#[export] Instance seen_preorder : PreOrder seen.
Proof.
  split; [intros s; split; [done|]; split; [done|]; by left|].
  intros s s1 s2 (Hc & Hl & H1) (Hc2 & Hl2 & H2). split; [congruence|]. split; [congruence|]. intros a.
  destruct (H2 a) as [->|(p & v & Hp & ->)]; [apply H1|]. right. destruct (H1 a) as [Heq|(q & v1 & Hq & Heq)]; rewrite Heq in Hp.
  - by exists p, v.
  - injection Hp as <-. exists q, v. by rewrite see_see.
Qed.

Lemma seen_call {A} a (f : P -> option (A * P)) :
  (forall p x p1, f p = Some (x, p1) -> p1 = p) -> StKeeps seen (call (W := W) a f).
Proof.
  intros Hf s x s1. unfold call. destruct (sy_sps s !! a) as [p|] eqn:Hp; [|done]. cbn [mbind option_bind].
  destruct (f _) as [[y p1]|] eqn:Hfp; [|done]. cbn [mbind option_bind]. intros [= _ <-]. apply Hf in Hfp as ->.
  split; [done|]. split; [done|]. intros b. cbn. destruct (decide (b = a)) as [->|Hne].
  - right. exists p, (view_of s). by rewrite lookup_insert_eq.
  - left. by rewrite lookup_insert_ne.
Qed.

#[export] Instance seen_consume a : StKeeps seen (call (W := W) a ms_canConsumePeriod).
Proof. apply seen_call, consume_same. Qed.
#[export] Instance seen_produce a : StKeeps seen (call (W := W) a ms_canProducePeriod).
Proof. apply seen_call, produce_same. Qed.
#[export] Instance seen_time a : StKeeps seen (getTimeAtPeriod_of (W := W) a).
Proof. unfold getTimeAtPeriod_of. apply st_keeps_bind; [apply _|apply seen_call, time_same|apply _]. Qed.

Lemma seen_mod_run f : StKeeps seen (mod_run (P := P) (W := W) f).
Proof. intros s x s1 [= _ <-]. split; [done|]. split; [done|]. by left. Qed.

Lemma seen_end_period pred : StKeeps seen (end_period pred).
Proof. intros s x s1. unfold end_period. destruct (getCurrentTime _). intros [= _ <-]. split; [done|]. split; [done|]. by left. Qed.

(** ** Ready for the transfer *)

(** [all_of_call] collects what a successful check says about the processors *)
Lemma all_of_call (f : P -> option (bool * P)) l s s1 :
  (forall p b p1, f p = Some (b, p1) -> p1 = p) ->
  all_of (fun a => call a f) l s = Some (true, s1) ->
  seen s s1 /\ forall a, a ∈ l -> exists p v p1, sy_sps s !! a = Some p /\ vw_period v = mg_period (mg_config (sy_manager s)) /\
    f (ms_see v p) = Some (true, p1).
Proof.
  intros Hf. revert s. induction l as [|a l IH]; intros s; cbn [all_of].
  - intros [= <-]. split; [reflexivity|]. by intros a ?%elem_of_nil.
  - intros (ok & s0 & Hc & (rest & s2 & Hr & Heq)%st_bind_inv)%st_bind_inv. injection Heq as (-> & ->)%andb_true_iff <-.
    destruct (IH _ Hr) as (Hs2 & Hall). pose proof (seen_call a f Hf _ _ _ Hc) as Hs0. split; [by transitivity s0|].
    unfold call in Hc. destruct (sy_sps s !! a) as [p|] eqn:Hp; [|done]. cbn [mbind option_bind] in Hc.
    destruct (f (ms_see (view_of s) p)) as [[y p1]|] eqn:Hfp; [|done]. injection Hc as -> _.
    intros b [->|Hb]%elem_of_cons; [by exists p, (view_of s), p1|].
    destruct (Hall b Hb) as (q & v & q1 & Hq & Hv & Hfq). destruct Hs0 as (Hc0 & _ & Hs0). rewrite Hc0 in Hv.
    destruct (Hs0 b) as [Heq|(q0 & v0 & Hq0 & Heq)]; rewrite Heq in Hq.
    + by exists q, v, q1.
    + injection Hq as <-. exists q0, v, q1. by rewrite see_see in Hfq.
Qed.

(** the processors are ready for a period *)
Definition ready_for_period s : Prop :=
  let m := sy_manager s in
  (forall a, a ∈ mg_ReceiveProcessors (mg_lists m) -> exists p, sy_sps s !! a = Some p /\
     (ms_running p -> ms_type p = ePT_Receive -> mg_period (mg_config m) <= ms_fill p)) /\
  (forall a, a ∈ mg_TransmitProcessors (mg_lists m) -> exists p, sy_sps s !! a = Some p /\
     (ms_running p -> ms_type p = ePT_Transmit -> mg_period (mg_config m) <= ms_space p)).

Lemma ready_seen s s1 : seen s s1 -> ready_for_period s -> ready_for_period s1.
Proof.
  intros (Hc & Hl & Hs) [Hr Ht]. unfold ready_for_period. rewrite Hc, Hl. split.
  - intros a Ha. destruct (Hr a Ha) as (p & Hp & Hfill). destruct (Hs a) as [->|(q & v & Hq & ->)]; [by exists p|].
    rewrite Hp in Hq. injection Hq as <-. exists (ms_see v p). split; [done|]. by rewrite running_see, see_type, fill_see.
  - intros a Ha. destruct (Ht a Ha) as (p & Hp & Hsp). destruct (Hs a) as [->|(q & v & Hq & ->)]; [by exists p|].
    rewrite Hp in Hq. injection Hq as <-. exists (ms_see v p). split; [done|]. by rewrite running_see, see_type, space_see.
Qed.

Lemma period_ready_spec s s1 : period_ready s = Some (true, s1) -> ready_for_period s1.
Proof.
  intros (l & s0 & [= <- <-] & (r & s2 & Hr & (t & s3 & Ht & Heq)%st_bind_inv)%st_bind_inv)%st_bind_inv.
  injection Heq as (-> & ->)%andb_true_iff <-.
  apply all_of_call in Hr as [H2 Hr]; [|apply consume_same]. apply all_of_call in Ht as [H3 Ht]; [|apply produce_same].
  eapply ready_seen; [exact H3|]. destruct H2 as (Hc & Hl & H2). split; rewrite Hc, Hl; cbn [id] in *.
  - intros a Ha. destruct (Hr a Ha) as (p & v & p1 & Hp & Hv & Hf).
    destruct (H2 a) as [->|(q & v1 & Hq & ->)].
    + exists p. split; [done|]. intros Hrun Hty. rewrite <- Hv. by eapply consume_fill.
    + rewrite Hp in Hq. injection Hq as <-. exists (ms_see v1 p). split; [done|].
      rewrite running_see, see_type, fill_see. intros Hrun Hty. rewrite <- Hv. by eapply consume_fill.
  - intros a Ha. destruct (Ht a Ha) as (p & v & p1 & Hp & Hv & Hf). rewrite Hc in Hv. exists p. split; [done|].
    intros Hrun Hty. rewrite <- Hv. by eapply produce_space.
Qed.

(** a flag that no processor has *)
Definition none_has (f : P -> bool) s : Prop := forall a, a ∈ processors s -> exists p, sy_sps s !! a = Some p /\ f (ms_see (view_of s) p) = false.

Lemma all_of_ask (f : P -> bool) l s b s1 :
  all_of (fun a => b ← ask a f; mret (negb b)) l s = Some (b, s1) ->
  s1 = s /\ (b = true -> forall a, a ∈ l -> exists p, sy_sps s !! a = Some p /\ f (ms_see (view_of s) p) = false).
Proof.
  revert b s1. induction l as [|a l IH]; intros b s1; cbn [all_of].
  - intros [= <- <-]. split; [done|]. by intros _ a ?%elem_of_nil.
  - intros (ok & s0 & (fb & s0' & Ha & Hn)%st_bind_inv & (rest & s2 & Hr & Heq)%st_bind_inv)%st_bind_inv.
    unfold ask in Ha. destruct (sy_sps s !! a) as [p|] eqn:Hp; [|done]. injection Ha as <- <-. injection Hn as <- <-.
    destruct (IH _ _ Hr) as [-> Hall]. injection Heq as <- <-. split; [done|].
    intros [Hb%negb_true_iff Hrest]%andb_true_iff c [->|Hc]%elem_of_cons; [by exists p|by apply Hall].
Qed.

Lemma any_processor_spec (f : P -> bool) s b s1 :
  any_processor f s = Some (b, s1) -> s1 = s /\ (b = false -> none_has f s).
Proof.
  intros (none & s0 & (l & s2 & [= <- <-] & (r & s3 & Hr & (t & s4 & Ht & Heq)%st_bind_inv)%st_bind_inv)%st_bind_inv & Hn)%st_bind_inv.
  injection Heq as <- <-. injection Hn as <- <-. apply all_of_ask in Hr as [-> Hr]. apply all_of_ask in Ht as [-> Ht].
  split; [done|]. intros [-> ->]%negb_false_iff%andb_true_iff a [Ha|Ha]%elem_of_app; [by apply Hr|by apply Ht].
Qed.

Lemma none_has_seen (f : P -> bool) s s1 :
  (forall v p, f (ms_see v p) = f p) -> seen s s1 -> none_has f s -> none_has f s1.
Proof.
  intros Hf (Hc & Hl & Hs) Hn a Ha. unfold processors in Ha. rewrite Hl in Ha. destruct (Hn a Ha) as (p & Hp & Hfp).
  rewrite Hf in Hfp. destruct (Hs a) as [->|(q & v & Hq & ->)]; [exists p; by rewrite Hf|].
  rewrite Hp in Hq. injection Hq as <-. exists (ms_see v p). by rewrite !Hf.
Qed.

Definition is_error (p : P) : bool := bool_decide (ms_state p = ePS_Error).

(** The wait ends well only when every processor is ready. *)
Lemma wait_until_ready_spec fuel x e s s1 :
  wait_until_ready fuel x e s = Some ((false, false), s1) -> mg_shutdown_needed (mg_run (sy_manager s)) = false ->
  ready_for_period s1 /\ none_has ms_in_xrun s1 /\ none_has is_error s1 /\ sy_manager s1 = sy_manager s.
Proof.
  revert x e s. induction fuel as [|fuel IH]; intros x e s; cbn [wait_until_ready]; [done|].
  intros (is_ready & s0 & Hready & (u & s2 & Hsl & (x1 & s3 & Hx & (e1 & s4 & He & (sh & s5 & Hsh & Hr)%st_bind_inv)%st_bind_inv)
    %st_bind_inv)%st_bind_inv)%st_bind_inv Hs.
  assert (Hm0 : sy_manager s0 = sy_manager s).
  { assert (Hk : StKeeps same_manager (period_ready (P := P) (W := W))) by (unfold period_ready, gets_lists; apply _).
    exact (Hk _ _ _ Hready). }
  assert (Hm2 : sy_manager s2 = sy_manager s0).
  { destruct is_ready; cbn [negb] in Hsl; [by injection Hsl as _ <-|]. exact (keeps_manager_sleep _ _ _ _ Hsl). }
  apply any_processor_spec in Hx as [-> Hx]. apply any_processor_spec in He as [-> He]. injection Hsh as <- <-.
  rewrite Hm2, Hm0, Hs in Hr. rewrite orb_false_r in Hr.
  destruct ((x || x1) || (e || e1)) eqn:Hflags.
  { injection Hr as Hxx Hee _. by rewrite Hxx, Hee in Hflags. }
  apply orb_false_iff in Hflags as [[-> ->]%orb_false_iff [-> ->]%orb_false_iff]. destruct is_ready.
  - injection Hr as <-. cbn [negb] in Hsl. injection Hsl as _ <-. split; [by eapply period_ready_spec|].
    split; [by apply Hx|]. split; [by apply He|done].
  - destruct (IH _ _ _ Hr) as (H1 & H2 & H3 & H4); [by rewrite Hm2, Hm0|]. split; [done|]. split; [done|]. split; [done|].
    by rewrite H4, Hm2.
Qed.

Lemma waitForPeriod_spec fuel s s1 :
  waitForPeriod fuel s = Some (true, s1) -> mg_shutdown_needed (mg_run (sy_manager s1)) = false ->
  ready_for_period s1 /\ none_has ms_in_xrun s1 /\ none_has is_error s1 /\
  exists source p, mg_SyncSource (mg_lists (sy_manager s1)) = Some source /\ sy_sps s1 !! source = Some p.
Proof.
  intros (sync & s0 & [= <- <-] & (sh & s2 & [= <- <-] & Hr)%st_bind_inv)%st_bind_inv Hs1.
  destruct (mg_SyncSource _) as [source|] eqn:Hsync; [|done]. destruct (mg_shutdown_needed (mg_run (sy_manager s))) eqn:Hsh; [done|].
  apply st_bind_inv in Hr as (t & s2 & Ht & Hr). apply st_bind_inv in Hr as (d & s3 & Hd & Hr). injection Hd as <- <-.
  apply st_bind_inv in Hr as (pred & s4 & Hp & Hr). injection Hp as <- <-. apply st_bind_inv in Hr as (u & s5 & Hsl & Hr).
  apply st_bind_inv in Hr as ([x e] & s6 & Hw & Hr). apply st_bind_inv in Hr as (u2 & s7 & He & Hr).
  apply st_bind_inv in Hr as (t2 & s8 & Ht2 & Hr). apply st_bind_inv in Hr as (u3 & s9 & Hst & Hr).
  apply st_bind_inv in Hr as (pred2 & s10 & Hp2 & Hr). injection Hp2 as _ <-. apply st_bind_inv in Hr as (u4 & s11 & Hend & Hr).
  injection Hr as Hx <-. apply negb_true_iff in Hx as ->.
  assert (Hrun : forall (u : ()) s0 s1, end_period pred2 s0 = Some (u, s1) ->
    mg_shutdown_needed (mg_run (sy_manager s1)) = mg_shutdown_needed (mg_run (sy_manager s0))).
  { intros u0 sa sb. unfold end_period. destruct (getCurrentTime _). by intros [= _ <-]. }
  assert (Hm2 : sy_manager s5 = sy_manager s).
  { rewrite (keeps_manager_sleep _ _ _ _ Hsl). unfold getTimeAtPeriod_of in Ht. apply st_bind_inv in Ht as (t0 & s20 & Hc & Ho).
    destruct t0; [|done]. injection Ho as _ <-. exact (keeps_manager_call _ _ _ _ _ Hc). }
  assert (Hm8 : sy_manager s8 = sy_manager s7).
  { unfold getTimeAtPeriod_of in Ht2. apply st_bind_inv in Ht2 as (t0 & s20 & Hc & Ho).
    destruct t0; [|done]. injection Ho as _ <-. exact (keeps_manager_call _ _ _ _ _ Hc). }
  destruct e.
  { exfalso. injection He as _ <-. rewrite (Hrun _ _ _ Hend) in Hs1. injection Hst as _ <-. cbn in Hs1. by rewrite Hm8 in Hs1. }
  injection He as _ <-. destruct (wait_until_ready_spec _ _ _ _ _ Hw) as (H1 & H2 & H3 & H4); [by rewrite Hm2|].
  assert (Hseen : seen s6 s11).
  { transitivity s8; [exact (seen_time _ _ _ _ Ht2)|]. transitivity s9; [exact (seen_mod_run _ _ _ _ Hst)|exact (seen_end_period _ _ _ _ Hend)]. }
  split; [by eapply ready_seen|]. split; [eapply none_has_seen; [apply see_in_xrun|done..]|].
  split; [eapply none_has_seen; [|done..]; intros v p; unfold is_error; by rewrite see_state|].
  destruct Hseen as (_ & Hl & Hs). rewrite Hl, H4, Hm2. exists source.
  unfold getTimeAtPeriod_of in Ht2. apply st_bind_inv in Ht2 as (t0 & s20 & Hc & _). unfold call in Hc.
  destruct (sy_sps s6 !! source) as [p|] eqn:Hp; [|done]. destruct (Hs source) as [Heq|(q & v & Hq & Heq)].
  - exists p. split; [done|]. by rewrite Heq.
  - by exists (ms_see v q).
Qed.

Section transfer.
Context {PL : PeriodLaws P}.

(** ** The transfer *)

(** the fill of the processors of [l] changes by [d], the others stay *)
Definition moved (l : list Z) (d : Z) (sps sps1 : gmap Z P) : Prop :=
  (forall a p, a ∈ l -> sps !! a = Some p -> exists p1, sps1 !! a = Some p1 /\ ms_fill p1 = ms_fill p + d) /\
  (forall a, a ∉ l -> sps1 !! a = sps !! a).

Lemma call_eq {A} a (f : P -> option (A * P)) s p x p1 :
  sy_sps s !! a = Some p -> f (ms_see (view_of s) p) = Some (x, p1) ->
  call (W := W) a f s = Some (x, mkSystem (sy_manager s) (<[a := p1]> (sy_sps s)) (sy_handlers s) (sy_world s)).
Proof. intros Hp Hf. unfold call. rewrite Hp. cbn [mbind option_bind]. by rewrite Hf. Qed.

Lemma moved_cons a l d sps p p1 sps1 :
  a ∉ l -> sps !! a = Some p -> ms_fill p1 = ms_fill p + d -> moved l d (<[a := p1]> sps) sps1 -> moved (a :: l) d sps sps1.
Proof.
  intros Ha Hp Hf [Hin Hout]. split.
  - intros b q [->|Hb]%elem_of_cons Hq.
    + rewrite Hp in Hq. injection Hq as <-. exists p1. by rewrite Hout, lookup_insert_eq.
    + apply Hin; [done|]. rewrite lookup_insert_ne; [done|]. by intros ->.
  - intros b [Hne Hb]%not_elem_of_cons. rewrite Hout by done. by rewrite lookup_insert_ne.
Qed.

(** the loop over the processors, for any operation that succeeds on each *)
Lemma all_of_moves (f : Z -> StM (spm_system P W) bool) d (m : StreamProcessorManager) l s :
  NoDup l -> sy_manager s = m ->
  (forall a s0, a ∈ l -> sy_manager s0 = m -> sy_sps s0 !! a = sy_sps s !! a -> exists p p1, sy_sps s !! a = Some p /\
     f a s0 = Some (true, mkSystem m (<[a := p1]> (sy_sps s0)) (sy_handlers s0) (sy_world s0)) /\ ms_fill p1 = ms_fill p + d) ->
  exists s1, all_of f l s = Some (true, s1) /\ sy_manager s1 = m /\ moved l d (sy_sps s) (sy_sps s1).
Proof.
  revert s. induction l as [|a l IH]; intros s Hnd Hm Hf; cbn [all_of].
  - exists s. split; [done|]. split; [done|]. split; [by intros a p ?%elem_of_nil|done].
  - apply NoDup_cons in Hnd as [Ha Hnd]. destruct (Hf a s) as (p & p1 & Hp & Hfa & Hfill); [by left|done|done|].
    rewrite (st_bind_eq _ _ _ _ _ Hfa).
    destruct (IH (mkSystem m (<[a := p1]> (sy_sps s)) (sy_handlers s) (sy_world s)) Hnd) as (s1 & H1 & Hm1 & Hmv); [done| |].
    + intros b s0 Hb Hm0 Hs0. assert (Hne : a <> b) by (intros ->; done). cbn [sy_sps] in Hs0.
      rewrite lookup_insert_ne in Hs0 by done. destruct (Hf b s0) as (q & q1 & Hq & Hfb & Hfillb); [by right|done|done|].
      exists q, q1. cbn [sy_sps]. by rewrite lookup_insert_ne.
    + exists s1. rewrite (st_bind_eq _ _ _ _ _ H1). split; [done|]. split; [done|]. by eapply moved_cons.
Qed.

(** what [transfer] needs of the processors of a system *)
Definition transferable s : Prop :=
  let m := sy_manager s in
  NoDup (processors s) /\ (0 <= mg_period (mg_config m) /\ mg_period (mg_config m) mod 8 = 0) /\
  (forall a p, a ∈ processors s -> sy_sps s !! a = Some p -> ms_running p) /\
  (forall a p, a ∈ mg_ReceiveProcessors (mg_lists m) -> sy_sps s !! a = Some p -> ms_type p = ePT_Receive) /\
  (forall a p, a ∈ mg_TransmitProcessors (mg_lists m) -> sy_sps s !! a = Some p -> ms_type p = ePT_Transmit) /\
  (forall source q a p, mg_SyncSource (mg_lists m) = Some source -> sy_sps s !! source = Some q ->
     a ∈ mg_TransmitProcessors (mg_lists m) -> sy_sps s !! a = Some p ->
     exists ts, transmit_time (mg_config m) (mg_time_of_transfer (mg_run m)) (ms_getExtraBufferFrames p) (ms_getTicksPerFrame q)
       = Some ts /\ ms_accepts (mg_period (mg_config m)) ts p).

Lemma transfer_receive s source q :
  transferable s -> ready_for_period s -> mg_SyncSource (mg_lists (sy_manager s)) = Some source -> sy_sps s !! source = Some q ->
  exists s1, transfer_type ePT_Receive s = Some (true, s1) /\ sy_manager s1 = sy_manager s /\
    moved (mg_ReceiveProcessors (mg_lists (sy_manager s))) (- mg_period (mg_config (sy_manager s))) (sy_sps s) (sy_sps s1).
Proof.
  intros (Hnd & [Hp0 Hp8] & Hrun & Hr & _) [Hready _] Hsync Hq. unfold transfer_type, transfer_with.
  erewrite st_bind_eq by reflexivity. rewrite Hsync. erewrite st_bind_eq by reflexivity. erewrite st_bind_eq by reflexivity.
  cbn [id]. apply NoDup_app in Hnd as (Hnd & _ & _).
  apply all_of_moves; [done|done|]. intros a s0 Ha Hm Hs0. destruct (Hready a Ha) as (p & Hp & Hfill).
  assert (Hpr : a ∈ processors s) by (apply elem_of_app; by left).
  destruct (get_law (mg_period (mg_config (sy_manager s))) (s64 (mg_time_of_transfer (mg_run (sy_manager s0)))) (ms_see (view_of s0) p))
    as (p1 & Hg & Hf1 & _); [apply running_see; by eapply Hrun|rewrite see_type; by eapply Hr| |done|].
  { rewrite fill_see. split; [done|]. apply Hfill; [by eapply Hrun|by eapply Hr]. }
  exists p, p1. split; [done|]. split; [|rewrite Hf1, fill_see; lia].
  erewrite st_bind_eq by reflexivity. rewrite <- Hs0 in Hp. rewrite (call_eq _ _ _ _ _ _ Hp Hg). by rewrite Hm.
Qed.

Lemma transfer_transmit s source q s0 q0 :
  transferable s -> ready_for_period s -> mg_SyncSource (mg_lists (sy_manager s)) = Some source -> sy_sps s !! source = Some q ->
  sy_manager s0 = sy_manager s -> (forall a, a ∈ mg_TransmitProcessors (mg_lists (sy_manager s)) -> sy_sps s0 !! a = sy_sps s !! a) ->
  sy_sps s0 !! source = Some q0 -> ms_getTicksPerFrame q0 = ms_getTicksPerFrame q ->
  exists s1, transfer_type ePT_Transmit s0 = Some (true, s1) /\ sy_manager s1 = sy_manager s /\
    moved (mg_TransmitProcessors (mg_lists (sy_manager s))) (mg_period (mg_config (sy_manager s))) (sy_sps s0) (sy_sps s1).
Proof.
  intros (Hnd & [Hp0 Hp8] & Hrun & _ & Ht & Hacc) [_ Hready] Hsync Hq Hm0 Hsame Hq0 Hrate.
  unfold transfer_type, transfer_with.
  erewrite st_bind_eq by reflexivity. rewrite Hm0, Hsync. erewrite st_bind_eq by reflexivity. erewrite st_bind_eq by reflexivity.
  cbn [id]. erewrite st_bind_eq by (unfold ask; rewrite Hq0; reflexivity). rewrite see_rate, Hrate, Hm0.
  apply NoDup_app in Hnd as (_ & _ & Hnd).
  apply all_of_moves; [done|done|]. intros a s1 Ha Hm Hs1. rewrite Hsame in Hs1 by done. destruct (Hready a Ha) as (p & Hp & Hsp).
  assert (Hpr : a ∈ processors s) by (apply elem_of_app; by right).
  destruct (Hacc source q a p Hsync Hq Ha Hp) as (ts & Hts & Hok).
  destruct (put_law (mg_period (mg_config (sy_manager s))) ts (ms_see (view_of s1) p))
    as (p1 & Hg & Hf1); [apply running_see; by eapply Hrun|rewrite see_type; by eapply Ht| |done|by apply accepts_see|].
  { rewrite space_see. split; [done|]. apply Hsp; [by eapply Hrun|by eapply Ht]. }
  exists p, p1. split; [by rewrite Hsame|]. split; [|by rewrite Hf1, fill_see].
  rewrite <- Hs1 in Hp. erewrite st_bind_eq.
  2:{ unfold transmit_timestamp. erewrite st_bind_eq by reflexivity. erewrite st_bind_eq by (unfold ask; rewrite Hp; reflexivity).
      erewrite st_bind_eq by reflexivity. rewrite see_extra. cbn [id]. rewrite Hm, Hts. reflexivity. }
  rewrite (call_eq _ _ _ _ _ _ Hp Hg). by rewrite Hm.
Qed.

(** The rate of the sync source survives the first half of the transfer. *)
Lemma transfer_receive_rate s source q s1 :
  transferable s -> ready_for_period s -> mg_SyncSource (mg_lists (sy_manager s)) = Some source -> sy_sps s !! source = Some q ->
  transfer_type ePT_Receive s = Some (true, s1) ->
  exists q1, sy_sps s1 !! source = Some q1 /\ ms_getTicksPerFrame q1 = ms_getTicksPerFrame q.
Proof.
  intros (Hnd & [Hp0 Hp8] & Hrun & Hr & _) [Hready _] Hsync Hq. unfold transfer_type, transfer_with.
  erewrite st_bind_eq by reflexivity. rewrite Hsync. erewrite st_bind_eq by reflexivity. erewrite st_bind_eq by reflexivity.
  cbn [id]. apply NoDup_app in Hnd as (Hnd & _ & _).
  set (m := sy_manager s) in *. assert (Hm : sy_manager s = m) by done.
  assert (Hall : forall a, a ∈ mg_ReceiveProcessors (mg_lists m) -> exists p, sy_sps s !! a = Some p /\ ms_running p /\
    ms_type p = ePT_Receive /\ mg_period (mg_config m) <= ms_fill p).
  { intros a Ha. destruct (Hready a Ha) as (p & Hp & Hfill). assert (Hpr : a ∈ processors s) by (apply elem_of_app; by left).
    exists p. split; [done|]. split; [by eapply Hrun|]. split; [by eapply Hr|]. apply Hfill; [by eapply Hrun|by eapply Hr]. }
  clearbody m. clear Hready Hrun Hr. revert s q Hq Hm Hall. generalize (mg_ReceiveProcessors (mg_lists m)) as l, Hnd. clear Hnd.
  intros l. induction l as [|a l IH]; intros Hnd s q Hq Hm Hall; cbn [all_of].
  { intros [= <-]. by exists q. }
  apply NoDup_cons in Hnd as [Ha Hnd]. destruct (Hall a) as (p & Hp & Hrun & Hty & Hfill); [by left|].
  destruct (get_law (mg_period (mg_config m)) (s64 (mg_time_of_transfer (mg_run (sy_manager s)))) (ms_see (view_of s) p))
    as (p1 & Hg & _ & Hrate); [by apply running_see|by rewrite see_type|rewrite fill_see; lia|done|].
  intros (ok & s2 & H2 & (rest & s3 & H3 & Heq)%st_bind_inv)%st_bind_inv. injection Heq as (_ & ->)%andb_true_iff <-.
  apply st_bind_inv in H2 as (t & s4 & Ht & H2). injection Ht as <- <-.
  rewrite (call_eq _ _ _ _ _ _ Hp Hg) in H2. injection H2 as _ <-.
  assert (Hq1 : exists q1, (<[a := p1]> (sy_sps s)) !! source = Some q1 /\ ms_getTicksPerFrame q1 = ms_getTicksPerFrame q).
  { destruct (decide (source = a)) as [->|Hne].
    - exists p1. rewrite lookup_insert_eq. split; [done|]. rewrite Hrate, see_rate. congruence.
    - exists q. by rewrite lookup_insert_ne. }
  destruct Hq1 as (q1 & Hq1 & Hr1).
  destruct (IH Hnd (mkSystem (sy_manager s) (<[a := p1]> (sy_sps s)) (sy_handlers s) (sy_world s)) q1 Hq1 Hm) as (q2 & Hq2 & Hr2); [|done|].
  - intros b Hb. cbn [sy_sps]. rewrite lookup_insert_ne by (intros ->; done). apply Hall. by right.
  - exists q2. split; [done|]. congruence.
Qed.

(** After such a wait - provided the processors run, are managed once, and the
    transmit buffers accept the timestamps that the manager computes from the
    time of the transfer - [transfer] succeeds: every receive processor gives up
    exactly one period of frames, every transmit processor gets one, and nothing
    else changes. *)
Lemma period_transfer fuel s s1 :
  waitForPeriod fuel s = Some (true, s1) -> mg_shutdown_needed (mg_run (sy_manager s1)) = false ->
  (none_has ms_in_xrun s1 /\ none_has is_error s1) /\
  (transferable s1 ->
   let m := sy_manager s1 in
   exists sps w, transfer s1 = Some (true, w) /\ sy_manager w = m /\
     moved (mg_ReceiveProcessors (mg_lists m)) (- mg_period (mg_config m)) (sy_sps s1) sps /\
     moved (mg_TransmitProcessors (mg_lists m)) (mg_period (mg_config m)) sps (sy_sps w)).
Proof.
  intros Hw Hsh. destruct (waitForPeriod_spec _ _ _ Hw Hsh) as (Hready & Hx & He & source & q & Hsync & Hq).
  split; [done|]. intros Htr m.
  destruct (transfer_receive s1 source q Htr Hready Hsync Hq) as (s2 & H2 & Hm2 & Hmv2).
  destruct (transfer_receive_rate s1 source q s2 Htr Hready Hsync Hq H2) as (q2 & Hq2 & Hrate).
  destruct (transfer_transmit s1 source q s2 q2 Htr Hready Hsync Hq Hm2) as (s3 & H3 & Hm3 & Hmv3); [|done..|].
  - intros a Ha. apply Hmv2. pose proof Htr as (Hnd & _). apply NoDup_app in Hnd as (_ & Hdis & _). intros Hin. by apply (Hdis a).
  - exists (sy_sps s2), s3. split; [|done]. unfold transfer. rewrite (st_bind_eq _ _ _ _ _ H2).
    by rewrite (st_bind_eq _ _ _ _ _ H3).
Qed.
End transfer.

(** C13: what [waitForPeriod] promises to the client.  If it returns [true] and
    no shutdown is requested then, in the state that it leaves, no processor has
    an xrun or is in error, every receive processor that runs ([ms_running]: for
    the stream processors, running without a pending change or an xrun, on a
    buffer that is well formed) has a period of frames in its buffer, every transmit processor that runs has room for one,
    and the sync source is one of the processors. *)
Theorem waitForPeriod_promises fuel s s1 :
  waitForPeriod fuel s = Some (true, s1) -> mg_shutdown_needed (mg_run (sy_manager s1)) = false ->
  let m := sy_manager s1 in
  none_has ms_in_xrun s1 /\ none_has is_error s1 /\
  (forall a, a ∈ mg_ReceiveProcessors (mg_lists m) -> exists p, sy_sps s1 !! a = Some p /\
     (ms_running p -> ms_type p = ePT_Receive -> mg_period (mg_config m) <= ms_fill p)) /\
  (forall a, a ∈ mg_TransmitProcessors (mg_lists m) -> exists p, sy_sps s1 !! a = Some p /\
     (ms_running p -> ms_type p = ePT_Transmit -> mg_period (mg_config m) <= ms_space p)) /\
  (exists source p, mg_SyncSource (mg_lists m) = Some source /\ sy_sps s1 !! source = Some p).
Proof. intros Hw Hsh m. by destruct (waitForPeriod_spec _ _ _ Hw Hsh) as ([Hr Ht] & Hx & He & Hq). Qed.

End period.

(** ** The stream processor keeps the promises *)

(** The environment of a stream processor that reads the fields of its
    manager through a reference, and its ports. *)
Class ManagerView (E : Type) `{SPEnv E} := {
  env_see : spm_view -> E -> E;
  env_ports : E -> list managed_port;
  env_see_see v v1 e : env_see v (env_see v1 e) = env_see v e;
  env_see_ports v e : env_ports (env_see v e) = env_ports e;
  env_see_period v e : spm_getPeriodSize (env_see v e) = vw_period v;
  env_see_rate v e : spm_getNominalRate (env_see v e) = vw_rate v;
  env_see_buffers v e : spm_getNbBuffers (env_see v e) = vw_nb_buffers v }.

(** the environment of a subclass, with its ports *)
Definition world_view {I C W : Type} `{HS : SPEnv W, HV : !ManagerView W} (ports : list (Port I) -> list managed_port) : ManagerView (port_world I C W).
Proof.
  refine {| env_see v w := w_with_outside (env_see v (w_outside w)) w; env_ports w := ports (w_ports w) |}; intros.
  - unfold w_with_outside. cbn. by rewrite env_see_see.
  - done.
  - cbn. by rewrite env_see_period.
  - cbn. by rewrite env_see_rate.
  - cbn. by rewrite env_see_buffers.
Defined.

(** the functions of the subclass that move samples always return *)
Class ClientTotal (E : Type) `{SPChild E} : Prop := {
  read_total data k off e : exists ok e1, processReadBlock data k off e = Some (ok, e1);
  write_total region k off e :
    exists ok data e1, processWriteBlock region k off e = Some (ok, data, e1) /\ length data = length region }.

Section processor.
Context {E : Type} `{HE : SPEnv E} `{HC : !SPChild E} `{HV : !ManagerView E}.
Variable block : Z -> list Z.

Abbreviation SP := (StreamProcessor E).

Definition sp_buffer (sp : SP) : TimestampedBuffer := sh_data_buffer (sp_protected sp).

Definition sp_see (v : spm_view) (sp : SP) : SP :=
  mkSP (sp_private sp) (sh_with_env (env_see v (sh_env (sp_protected sp))) (sp_protected sp)).

(** of a release build *)
#[export] Instance processor_stream : ManagedStream SP := {|
  ms_see := sp_see; ms_type sp := sp_processor_type (sp_private sp); ms_state sp := sp_state (sp_private sp);
  ms_in_xrun sp := sp_in_xrun (sp_private sp); ms_ports sp := env_ports (sh_env (sp_protected sp));
  ms_getTicksPerFrame sp := getTicksPerFrame (sp_protected sp);
  ms_getExtraBufferFrames sp := sh_extra_buffer_frames (sp_protected sp);
  ms_getNominalFramesPerPacket sp := getNominalFramesPerPacket (sh_env (sp_protected sp));
  ms_getMaxFrameLatency := getMaxFrameLatency; ms_getTimeAtPeriod := getTimeAtPeriod;
  ms_setTicksPerFrame := setTicksPerFrame; ms_setExtraBufferFrames := setExtraBufferFrames;
  ms_setBufferHeadTimestamp ts := mod_buffer (setBufferHeadTimestamp ts);
  ms_setBufferTailTimestamp ts := mod_buffer (setBufferTailTimestamp ts);
  ms_setOption_slaveMode _ sp := Some (false, sp);
  ms_prepare := StreamProcessor.prepare block; ms_periodSizeChanged := periodSizeChanged block;
  ms_scheduleStartDryRunning := scheduleStartDryRunning false; ms_scheduleStartRunning := scheduleStartRunning false;
  ms_scheduleStopDryRunning := scheduleStopDryRunning false; ms_scheduleStopRunning := scheduleStopRunning false;
  ms_canConsumePeriod := canConsumePeriod; ms_canProducePeriod := canProducePeriod;
  ms_getFrames := getFrames false; ms_putFrames := putFrames;
  ms_dropFrames := StreamProcessor.dropFrames; ms_putSilenceFrames := putSilenceFrames; ms_shiftStream := shiftStream |}.

#[export] Instance processor_see : SeeLaws SP.
Proof.
  split; intros; try done.
  - destruct p as [c sh]. unfold ms_see, processor_stream, sp_see, sh_with_env. cbn. by rewrite env_see_see.
  - cbn. by rewrite env_see_ports.
Qed.

(** a running processor whose ring buffer is as large as it should be *)
Definition processor_running (sp : SP) : Prop :=
  exists type rb, running_ok type rb sp /\ getBufferSize (sp_buffer sp) * tb_cluster (sp_buffer sp) <= rb_capacity rb /\
    tb_framecounter (sp_buffer sp) <= getBufferSize (sp_buffer sp) < 2 ^ 32.

Lemma canConsumePeriod_reads sp b sp1 : canConsumePeriod sp = Some (b, sp1) -> sp1 = sp.
Proof.
  unfold canConsumePeriod, canConsume, gets_env, gets, gets_core, mbind, SPM_bind, mret, SPM_ret. cbv beta iota.
  repeat case_match; intros Heq; first [by injection Heq as _ <-|discriminate Heq].
Qed.

Lemma canProducePeriod_reads sp b sp1 : canProducePeriod sp = Some (b, sp1) -> sp1 = sp.
Proof.
  unfold canProducePeriod, canProduce, gets_env, gets, gets_core, mbind, SPM_bind, mret, SPM_ret. cbv beta iota.
  repeat case_match; intros Heq; first [by injection Heq as _ <-|discriminate Heq].
Qed.

Lemma getTimeAtPeriod_reads sp t sp1 : getTimeAtPeriod sp = Some (t, sp1) -> sp1 = sp.
Proof. unfold getTimeAtPeriod, gets_env, gets, is_type, gets_core, mbind, SPM_bind. cbv beta iota. by intros [= _ <-]. Qed.

#[export] Instance processor_wait : WaitLaws SP.
Proof.
  refine {| ms_running := processor_running;
            ms_fill sp := tb_framecounter (sp_buffer sp);
            ms_space sp := getBufferSize (sp_buffer sp) - tb_framecounter (sp_buffer sp) |}; try done.
  - exact getTimeAtPeriod_reads.
  - exact canConsumePeriod_reads.
  - exact canProducePeriod_reads.
  - intros v sp sp1 (type & rb & (Hty & Hs & Hn & Hx & Hw) & _) _ Hc. cbn in Hc. unfold canConsumePeriod in Hc.
    unfold gets_env, gets, mbind, SPM_bind in Hc. cbv beta iota in Hc. apply canConsume_run in Hc as [_ Hc]; [|done..].
    cbn in Hc. rewrite env_see_period in Hc. destruct Hw as (_ & Hfc & _). unfold getBufferFill in Hc.
    rewrite wrapU_small in Hc by (unfold uint; lia). done.
  - intros v sp sp1 (type & rb & (Hty & Hs & Hn & Hx & Hw) & _ & Hsz) _ Hc. cbn in Hc. unfold canProducePeriod in Hc.
    unfold gets_env, gets, mbind, SPM_bind in Hc. cbv beta iota in Hc. apply canProduce_run in Hc as [_ Hc]; [|done..].
    cbn in Hc. rewrite env_see_period in Hc. destruct Hw as (_ & Hfc & _). unfold getBufferSpace in Hc. unfold sp_buffer in *.
    rewrite (wrapU_small 32 (tb_framecounter _)) in Hc by (unfold uint; lia). rewrite wrapU_small in Hc by (unfold uint; lia). done.
Defined.

#[export] Instance processor_period `{!ClientTotal E} : PeriodLaws SP.
Proof.
  refine {| ms_accepts n ts sp := increment_allowed n (f64_of_Z ts) (tb_clock (sp_buffer sp)) = true |}; try done.
  - intros n ts sp (type & rb & Hrun & _ & Hsz) Hty Hn Hm. cbn in Hty, Hn.
    assert (Hr : running_ok ePT_Receive rb sp) by (destruct Hrun as (Ht & Hrun); rewrite Hty in Ht; by split).
    assert (Hc : canConsume n sp = Some (true, sp)).
    { destruct Hr as (_ & Hs & Hn2 & Hx & (_ & Hfc & _)). unfold canConsume, gets_core, gets, mbind, SPM_bind, id. cbv beta iota.
      rewrite Hx, Hs, Hn2. rewrite bool_decide_true by done. cbn [andb]. do 2 f_equal. apply Z.leb_le. unfold getBufferFill.
      fold (sp_buffer sp). unfold sp_buffer in *. rewrite wrapU_small by (unfold uint; lia). lia. }
    destruct (getFrames_consumes false n ts sp sp rb Hr ltac:(lia) Hm read_total eq_refl Hc)
      as (sp2 & rb1 & data & e1 & H1 & _ & _ & _ & H5 & H6).
    exists sp2. split; [done|]. split; [done|]. cbn. unfold getTicksPerFrame, getRate. by rewrite H6.
  - intros n ts sp (type & rb & Hrun & Hcap & Hsz) Hty Hn Hm Hacc. cbn in Hty, Hn.
    assert (Hr : running_ok ePT_Transmit rb sp) by (destruct Hrun as (Ht & Hrun); rewrite Hty in Ht; by split).
    assert (Hc : canProduce n sp = Some (true, sp)).
    { destruct Hr as (_ & Hs & Hn2 & Hx & (_ & Hfc & _)). unfold canProduce, gets_core, gets, mbind, SPM_bind, id. cbv beta iota.
      rewrite Hx, Hs, Hn2. rewrite bool_decide_true by done. cbn [andb]. do 2 f_equal. apply Z.leb_le. unfold getBufferSpace.
      unfold sp_buffer in *. rewrite (wrapU_small 32 (tb_framecounter _)) by (unfold uint; lia).
      rewrite wrapU_small by (unfold uint; lia). lia. }
    destruct (putFrames_appends n ts sp sp rb Hr ltac:(lia) Hm write_total Hcap Hsz Hacc Hc)
      as (sp2 & rb1 & data & e1 & H1 & _ & _ & _ & H5).
    exists sp2. by split.
Defined.
End processor.

(** ** A receive and a transmit processor under a manager *)

(** the environment of the processors: what they see, and a counter *)
#[export] Instance seen_env : SPEnv (spm_view * Z) := {|
  signalActivity '(v, e) := (v, e + 1); signalActivityTransmit '(v, e) := (v, e + 1); signalActivityReceive '(v, e) := (v, e + 1);
  spm_getNominalRate '(v, _) := vw_rate v; spm_getPeriodSize '(v, _) := vw_period v; spm_getNbBuffers '(v, _) := vw_nb_buffers v;
  spm_syncSource_getTicksPerFrame '(v, _) := vw_sync_tpf v;
  spm_registerProcessor e := (true, e); ihm_registerStream e := (true, e);
  ihm_startHandlerForStream _ e := (true, e); ihm_stopHandlerForStream e := (true, e);
  ihm_getPacketLatencyForStream _ := 4; service_getCycleTimerTicks e := (0, e); service_getLocalNodeId _ := 0xffc1;
  ports_setBufferSize _ e := (true, e); ports_initPorts e := (true, e); ports_preparePorts e := (true, e);
  ports_provideSilenceBlock _ _ e := Some (true, e) |}.

#[export] Instance seen_child : SPChild (spm_view * Z) := {|
  getEventsPerFrame _ := 2; getEventSize _ := 4; getNominalFramesPerPacket _ := 8;
  prepareChild s := Some (true, s);
  processPacketHeader _ _ _ _ _ s := Some (eCRV_OK, s); processPacketData _ _ s := Some (eCRV_OK, s);
  generatePacketHeader p _ s := Some (eCRV_Packet, p, s); generatePacketData p s := Some (eCRV_OK, p, s);
  generateEmptyPacketHeader p _ s := Some (eCRV_OK, p, s); generateEmptyPacketData p s := Some (eCRV_OK, p, s);
  generateSilentPacketHeader p _ s := Some (eCRV_Packet, p, s); generateSilentPacketData p s := Some (eCRV_OK, p, s);
  processReadBlock _ _ _ e := Some (true, e); processWriteBlock region _ _ e := Some (true, region, e);
  transmitSilenceBlock data _ _ e := Some (true, data, e) |}.

#[export] Instance seen_view : ManagerView (spm_view * Z).
Proof.
  refine {| env_see v '(_, e) := (v, e); env_ports _ := [mkManagedPort 1 E_Audio E_Capture] |};
    intros; by repeat match goal with x : _ * _ |- _ => destruct x end.
Defined.

#[export] Instance seen_total : ClientTotal (spm_view * Z).
Proof. split; [intros data k off e; by exists true, e|intros region k off e; by exists true, region, e]. Qed.

(** room for 15 frames *)
Definition demo_buffer (rb : ringbuffer Z) (fc : Z) : TimestampedBuffer :=
  mkTimestampedBuffer (Some rb) (Some (replicate 32 0)) (mkFormat 4 32 2 2 15 4 64) true false (tb_clock small_buffer) fc 1536.

Definition demo_view : spm_view := mkView 48000 8 2 (f32_of_Z 512).

Definition demo_processor (type : eProcessorType) (rb : ringbuffer Z) (fc : Z) : StreamProcessor (spm_view * Z) :=
  mkSP (mkCore type ePS_Running ePS_Running 0 0 false)
    (mkShared 0 false (demo_buffer rb fc) None (f32_of_Z 512) (f32_of_Z 1) 0 50 0 (demo_view, 0)).

#[export] Instance demo_spm_env : SPMEnv (StreamProcessor (spm_view * Z)) Z := {|
  getValueForSetting _ _ := None; getOption_slaveMode _ := None; getSystemTimeForCycleTimerTicks _ t _ := t;
  getCurrentTime w := (w, w); elapse _ sps w := (sps, w + 125) |}.

Abbreviation demo_system_type := (spm_system (StreamProcessor (spm_view * Z)) Z).

Definition demo_system : demo_system_type :=
  mkSystem (mkManager (mkSpmConfig 2 8 48000 eADT_Float 0 false) (mkSpmLists (Some 1) [1] [2] [] []) (mkSpmRun 0 0 false 0 0))
    (<[1 := demo_processor ePT_Receive wrapped_ring 9]> {[2 := demo_processor ePT_Transmit small_buffer_ring 0]}) [1; 2] 0.

#[export] Instance demo_stream : ManagedStream (StreamProcessor (spm_view * Z)) := processor_stream zeros.
#[export] Instance demo_see : SeeLaws (StreamProcessor (spm_view * Z)) := processor_see zeros.
#[export] Instance demo_wait : WaitLaws (StreamProcessor (spm_view * Z)) := processor_wait zeros.
#[export] Instance demo_period : PeriodLaws (StreamProcessor (spm_view * Z)) := processor_period zeros.

(** after a wait, which finds the period ready at once *)
Definition demo_after : demo_system_type :=
  match waitForPeriod 1 demo_system with Some (_, s1) => s1 | None => demo_system end.

Lemma demo_sps : sy_sps demo_after = <[1 := demo_processor ePT_Receive wrapped_ring 9]> {[2 := demo_processor ePT_Transmit small_buffer_ring 0]}.
Proof. vm_compute. reflexivity. Qed.

Lemma demo_lists : mg_lists (sy_manager demo_after) = mkSpmLists (Some 1) [1] [2] [] [].
Proof. vm_compute. reflexivity. Qed.

Lemma demo_period_size : mg_period (mg_config (sy_manager demo_after)) = 8.
Proof. vm_compute. reflexivity. Qed.

Lemma demo_receive_running : ms_running (demo_processor ePT_Receive wrapped_ring 9).
Proof.
  change (processor_running (demo_processor ePT_Receive wrapped_ring 9)).
  exists ePT_Receive, wrapped_ring. split; [|split; [vm_compute; discriminate|split; [vm_compute; discriminate|reflexivity]]].
  split; [reflexivity|]. do 3 (split; [reflexivity|]).
  split; [split; try (vm_compute; reflexivity)|split; [cbn; lia|reflexivity]].
  - split; [by exists 6|]. cbn. lia.
  - by exists (replicate 32 0).
Qed.

Lemma demo_transmit_running : ms_running (demo_processor ePT_Transmit small_buffer_ring 0).
Proof.
  change (processor_running (demo_processor ePT_Transmit small_buffer_ring 0)).
  exists ePT_Transmit, small_buffer_ring. split; [|split; [vm_compute; discriminate|split; [vm_compute; discriminate|reflexivity]]].
  split; [reflexivity|]. do 3 (split; [reflexivity|]).
  split; [split; try (vm_compute; reflexivity)|split; [cbn; lia|reflexivity]].
  - split; [by exists 6|]. cbn. lia.
  - by exists (replicate 32 0).
Qed.

Lemma demo_transferable : transferable demo_after.
Proof.
  pose proof demo_lists as Hm.
  assert (H1 : forall p, sy_sps demo_after !! 1 = Some p -> p = demo_processor ePT_Receive wrapped_ring 9).
  { intros p. rewrite demo_sps, lookup_insert_eq. congruence. }
  assert (H2 : forall p, sy_sps demo_after !! 2 = Some p -> p = demo_processor ePT_Transmit small_buffer_ring 0).
  { intros p. rewrite demo_sps, lookup_insert_ne, lookup_singleton_eq by done. congruence. }
  unfold transferable, processors. rewrite Hm. cbn [mg_ReceiveProcessors mg_TransmitProcessors mg_SyncSource app].
  split_and!.
  - apply (bool_decide_unpack (NoDup [1; 2])). vm_compute. exact I.
  - vm_compute. discriminate.
  - vm_compute. reflexivity.
  - intros a p [->|[->|[]%elem_of_nil]%elem_of_cons]%elem_of_cons Hp;
      [rewrite (H1 _ Hp); apply demo_receive_running|rewrite (H2 _ Hp); apply demo_transmit_running].
  - intros a p Ha Hp. apply list_elem_of_singleton in Ha. subst a. pose proof (H1 _ Hp) as ->. vm_compute. reflexivity.
  - intros a p Ha Hp. apply list_elem_of_singleton in Ha. subst a. pose proof (H2 _ Hp) as ->. vm_compute. reflexivity.
  - intros source q a p Hs Hq Ha Hp. apply list_elem_of_singleton in Ha. subst a. apply (inj Some) in Hs as <-.
    pose proof (H1 _ Hq) as ->. pose proof (H2 _ Hp) as ->.
    exists 17680. split; [vm_compute; reflexivity|].
    change (increment_allowed (mg_period (mg_config (sy_manager demo_after))) (f64_of_Z 17680) (tb_clock small_buffer) = true).
    vm_compute. reflexivity.
Qed.

Example demo_transfer : exists s2 p, transfer demo_after = Some (true, s2) /\ sy_sps s2 !! 2 = Some p /\ tb_framecounter (sp_buffer p) = 8.
Proof.
  destruct (period_transfer 1 demo_system demo_after) as (_ & Ht).
  - vm_compute. reflexivity.
  - vm_compute. reflexivity.
  - destruct (Ht demo_transferable) as (sps & s2 & H1 & _ & [_ Hout] & [Hin _]).
    assert (H2 : sps !! 2 = Some (demo_processor ePT_Transmit small_buffer_ring 0)).
    { rewrite Hout; [by rewrite demo_sps, lookup_insert_ne, lookup_singleton_eq by done|].
      rewrite demo_lists. intros Hx%list_elem_of_singleton. discriminate Hx. }
    destruct (Hin 2 (demo_processor ePT_Transmit small_buffer_ring 0)) as (p & Hp & Hf);
      [rewrite demo_lists; by left|exact H2|].
    exists s2, p. split; [exact H1|]. split; [exact Hp|].
    rewrite demo_period_size in Hf. exact Hf.
Qed.

(** ** An AMDTP receiver under a manager *)

Abbreviation receiver_world := (sp_world AmdtpReceiveStreamProcessor (spm_view * Z)).

#[export] Instance receiver_view : ManagerView receiver_world := world_view (fun _ => [mkManagedPort 1 E_Audio E_Capture]).

#[export] Instance receiver_stream : ManagedStream (StreamProcessor receiver_world) :=
  processor_stream (HC := AmdtpReceive_SPChild false (fun _ => eADT_Int24)) zeros.
#[export] Instance receiver_see : SeeLaws (StreamProcessor receiver_world) := processor_see (HC := AmdtpReceive_SPChild false (fun _ => eADT_Int24)) zeros.
#[export] Instance receiver_wait : WaitLaws (StreamProcessor receiver_world) := processor_wait (HC := AmdtpReceive_SPChild false (fun _ => eADT_Int24)) zeros.

#[export] Instance receiver_spm_env : SPMEnv (StreamProcessor receiver_world) Z := {|
  getValueForSetting _ _ := None; getOption_slaveMode _ := None; getSystemTimeForCycleTimerTicks _ t _ := t;
  getCurrentTime w := (w, w); elapse _ sps w := (sps, w + 125) |}.

(** nine frames in the buffer *)
Definition demo_receiver : StreamProcessor receiver_world :=
  mkSP (mkCore ePT_Receive ePS_Running ePS_Running 0 0 false)
    (mkShared 0 false (demo_buffer wrapped_ring 9) None (f32_of_Z 512) (f32_of_Z 1) 0 50 0
       (mkWorld (AmdtpReceiveStreamProcessor_new 1 (replicate 64 0)) [] ∅ (demo_view, 0))).

Definition receiver_system : spm_system (StreamProcessor receiver_world) Z :=
  mkSystem (mkManager (mkSpmConfig 2 8 48000 eADT_Float 0 false) (mkSpmLists (Some 1) [1] [] [] []) (mkSpmRun 0 0 false 0 0))
    {[1 := demo_receiver]} [1] 0.

Lemma demo_receiver_running : processor_running demo_receiver.
Proof.
  exists ePT_Receive, wrapped_ring. split; [|split; [vm_compute; discriminate|split; [vm_compute; discriminate|reflexivity]]].
  split; [reflexivity|]. do 3 (split; [reflexivity|]).
  split; [split; try (vm_compute; reflexivity)|split; [cbn; lia|reflexivity]].
  - split; [by exists 6|]. cbn. lia.
  - by exists (replicate 32 0).
Qed.

(** the wait finds the period of the receiver ready *)
Lemma waitForPeriod_promises_witness :
  exists s1 p, waitForPeriod 1 receiver_system = Some (true, s1) /\ sy_sps s1 !! 1 = Some p /\
    sp_state (sp_private p) = ePS_Running /\ 8 <= tb_framecounter (sp_buffer p).
Proof.
  destruct (waitForPeriod 1 receiver_system) as [[ok s1]|] eqn:Hw; [|vm_compute in Hw; discriminate Hw].
  assert (Hok : ok = true /\ mg_shutdown_needed (mg_run (sy_manager s1)) = false /\ mg_lists (sy_manager s1) = mkSpmLists (Some 1) [1] [] [] [] /\
    mg_period (mg_config (sy_manager s1)) = 8 /\ sy_sps s1 !! 1 = Some demo_receiver)
    by (vm_compute in Hw; injection Hw as <- <-; split_and!; vm_compute; reflexivity).
  destruct Hok as (-> & Hsh & Hl & Hp & H1).
  destruct (waitForPeriod_promises 1 receiver_system s1 Hw Hsh) as (_ & _ & Hr & _). rewrite Hl, Hp in Hr.
  destruct (Hr 1) as (p & Hsp & Hfill); [by left|]. exists s1, p. split; [reflexivity|]. split; [exact Hsp|].
  rewrite Hsp in H1. injection H1 as ->. split; [reflexivity|]. apply Hfill; [exact demo_receiver_running|reflexivity].
Defined.
