(* ===== verification/IsoHandler.v ===== *)
(** * IsoHandler: the handlers and tasks of libieee1394/IsoHandlerManager.cpp

    An iso handler moves the packets of one isochronous channel between
    libraw1394 and its client, a stream processor: it finds out the bus time of
    every packet and how many cycles were missed.  A task is the loop of the
    thread that polls the handlers of one direction.

    Handlers are objects in a store, addressed by their pointers.  libraw1394,
    the operating system and the 1394 service are the interface [IsoEnv], the
    stream processors the interface [IsoClient]; a client may call the iso
    manager back, so its operations work on the whole system.  The code under
    DEBUG, and the check of the reconstructed times, only print. *)
From stdpp Require Import gmap strings.
From S2P Require Import Prelude Memory CycleTimer StreamProcessor StateMonad.

(** config.h *)
Definition ISOHANDLERMANAGER_MAX_ISO_HANDLERS_PER_PORT : Z := 16.
Definition ISOHANDLERMANAGER_ISO_TASK_WAIT_TIMEOUT_USECS : Z := 1000000.

(** ** Data *)

Inductive EHandlerType := eHT_Receive | eHT_Transmit.
Inductive EHandlerStates := eHS_Stopped | eHS_Running.

(** the modes of libraw1394 that are used *)
Inductive raw1394_iso_dma_recv_mode := RAW1394_DMA_BUFFERFILL | RAW1394_DMA_PACKET_PER_BUFFER.
Inductive raw1394_iso_speed := RAW1394_ISO_SPEED_400.

#[export] Instance EHandlerType_dec : EqDecision EHandlerType.
Proof. solve_decision. Defined.
#[export] Instance EHandlerStates_dec : EqDecision EHandlerStates.
Proof. solve_decision. Defined.
#[export] Instance raw1394_iso_dma_recv_mode_dec : EqDecision raw1394_iso_dma_recv_mode.
Proof. solve_decision. Defined.

(** [0xFFFFFFFF]: no time yet *)
Definition NO_TIME : Z := 0xFFFFFFFF.

(** what is fixed at construction, and the receive mode *)
Record ih_setup := mkIhSetup {
  ih_type : EHandlerType; ih_buf_packets : Z; ih_max_packet_size : Z; ih_irq_interval : Z;
  ih_receive_mode : raw1394_iso_dma_recv_mode; ih_speed : raw1394_iso_speed }.

(** the handle of libraw1394, the client, and the state machine *)
Record ih_control := mkIhControl {
  ih_handle : option Z; ih_client : option Z; ih_state : EHandlerStates; ih_next_state : EHandlerStates; ih_switch_on_cycle : Z }.

(** the times and counters; two of them have no initial value in a release
    build *)
Record ih_track := mkIhTrack {
  ih_last_cycle : Z; ih_last_now : Z; ih_last_packet_handled_at : Z; ih_packets : option Z; ih_deferred_cycles : option Z }.

Record IsoHandler := mkIsoHandler { ih_s : ih_setup; ih_c : ih_control; ih_t : ih_track }.

(** the three constructors; only the last one initialises
    [m_deferred_cycles] *)
Definition IsoHandler_new (t : EHandlerType) : IsoHandler :=
  mkIsoHandler (mkIhSetup t 400 1024 (-1) RAW1394_DMA_PACKET_PER_BUFFER RAW1394_ISO_SPEED_400)
    (mkIhControl None None eHS_Stopped eHS_Stopped 0) (mkIhTrack (-1) NO_TIME NO_TIME None None).

Definition IsoHandler_new_sized (t : EHandlerType) (buf_packets max_packet_size irq : Z) : IsoHandler :=
  mkIsoHandler (mkIhSetup t buf_packets max_packet_size irq RAW1394_DMA_PACKET_PER_BUFFER RAW1394_ISO_SPEED_400)
    (mkIhControl None None eHS_Stopped eHS_Stopped 0) (mkIhTrack (-1) NO_TIME NO_TIME None None).

Definition IsoHandler_new_speed (t : EHandlerType) (buf_packets max_packet_size irq : Z) (speed : raw1394_iso_speed) : IsoHandler :=
  mkIsoHandler (mkIhSetup t buf_packets max_packet_size irq RAW1394_DMA_PACKET_PER_BUFFER speed)
    (mkIhControl None None eHS_Stopped eHS_Stopped 0) (mkIhTrack (-1) NO_TIME NO_TIME None (Some 0)).

(** a [struct pollfd] *)
Record pollfd := mkPollfd { pfd_fd : Z; pfd_events : Z; pfd_revents : Z }.

Definition POLLIN : Z := 1.
Definition POLLPRI : Z := 2.

(** The shadow maps are arrays of a fixed size.  A pointer in an unused entry
    is null, a [pollfd] without value is not assigned yet. *)
Record IsoTask := mkIsoTask {
  tk_request_update : Z; tk_map : list (option Z); tk_fds : list (option pollfd); tk_nfds : Z; tk_sync : option Z;
  tk_running : bool; tk_in_busreset : bool; tk_wait_timeout_nsec : Z }.

Inductive ihm_state := E_Created | E_Running | E_Error.

#[export] Instance ihm_state_dec : EqDecision ihm_state.
Proof. solve_decision. Defined.

(** The manager; [m_MissedCyclesOK] has no initial value after the constructor
    with one argument. *)
Record IsoHandlerManager := mkIhm {
  im_state : ihm_state; im_handlers : list Z; im_streams : list Z; im_realtime : bool; im_priority : Z;
  im_transmit : option IsoTask; im_receive : option IsoTask; im_missed_cycles_ok : option bool }.

(** The manager, the handlers that exist, and everything else. *)
Record iso_system (W : Type) := mkIso { is_manager : IsoHandlerManager; is_handlers : gmap Z IsoHandler; is_world : W }.
#[global] Arguments mkIso {W}.
#[global] Arguments is_manager {W}.
#[global] Arguments is_handlers {W}.
#[global] Arguments is_world {W}.

(** ** Interfaces *)

(** the callbacks that [raw1394_loop_iterate] makes *)
Inductive iso_callback :=
| CB_receive (data : list Z) (length channel tag sy cycle dropped : Z)
| CB_transmit (data : list Z) (length : Z) (tag sy : Z) (cycle dropped : Z).

(** the results of [sem_timedwait] and [poll]: a success, or what [errno] says *)
Inductive wait_result := WaitOk | WaitTimedOut | WaitInterrupted | WaitFailed.
Inductive poll_result := PollOk (revents : list Z) | PollInterrupted | PollFailed.

(** libraw1394, the operating system, the configuration and the service.  The
    functions of libraw1394 return 0 for success; the integers are handles. *)
Class IsoEnv (W : Type) := {
  raw1394_new_handle_on_port : W -> option Z * W;
  raw1394_iso_recv_init : Z -> Z -> Z -> Z -> raw1394_iso_dma_recv_mode -> Z -> W -> Z * W;
  raw1394_iso_recv_start : Z -> Z -> W -> Z * W;
  raw1394_iso_xmit_init : Z -> Z -> Z -> Z -> raw1394_iso_speed -> Z -> W -> Z * W;
  raw1394_iso_xmit_start : Z -> Z -> W -> Z * W;
  raw1394_wake_up : Z -> W -> W;
  raw1394_iso_stop : Z -> W -> W;
  raw1394_iso_shutdown : Z -> W -> W;
  raw1394_destroy_handle : Z -> W -> W;
  raw1394_get_fd : Z -> W -> Z;
  raw1394_read_cycle_time : option Z -> W -> W;
  raw1394_next_callback : Z -> W -> option iso_callback * W;
  raw1394_callback_done : Z -> raw1394_iso_disposition -> iso_packet -> W -> W;
  raw1394_iterate_result : Z -> W -> Z;
  getCycleTimer : W -> Z * W;
  getpagesize : W -> Z;
  getIsoSetting : string -> W -> option Z;
  usleep : Z -> W -> W;
  thread_start : EHandlerType -> bool -> Z -> W -> Z * W;
  thread_realtime : EHandlerType -> option Z -> W -> W;
  watchdog_registerThread : EHandlerType -> W -> W;
  poll : list (Z * Z) -> Z -> W -> poll_result * W;
  clock_gettime : W -> option (Z * Z) * W;
  sem_post : EHandlerType -> W -> W;
  sem_timedwait : EHandlerType -> Z * Z -> W -> wait_result * W }.

(** What a handler calls on its client. *)
Class IsoClient (W : Type) := {
  client_getType : Z -> W -> option eProcessorType;
  client_getChannel : Z -> W -> option Z;
  client_getMaxPacketSize : Z -> W -> option Z;
  client_getPacketsPerPeriod : Z -> W -> option Z;
  client_canProducePacket : Z -> StM (iso_system W) bool;
  client_canConsumePacket : Z -> StM (iso_system W) bool;
  client_putPacket : Z -> list Z -> Z -> Z -> Z -> Z -> Z -> Z -> StM (iso_system W) raw1394_iso_disposition;
  client_getPacket : Z -> iso_packet -> Z -> Z -> Z -> Z -> StM (iso_system W) (raw1394_iso_disposition * iso_packet);
  client_handleBusReset : Z -> StM (iso_system W) bool;
  client_handlerDied : Z -> StM (iso_system W) ();
  client_packetsStopped : Z -> StM (iso_system W) () }.

(** ** Access to the system *)

Definition ih_with_control (f : ih_control -> ih_control) (x : IsoHandler) : IsoHandler := mkIsoHandler (ih_s x) (f (ih_c x)) (ih_t x).
Definition ih_with_track (f : ih_track -> ih_track) (x : IsoHandler) : IsoHandler := mkIsoHandler (ih_s x) (ih_c x) (f (ih_t x)).

Definition ctl_with_handle (v : option Z) (c : ih_control) : ih_control :=
  mkIhControl v (ih_client c) (ih_state c) (ih_next_state c) (ih_switch_on_cycle c).
Definition ctl_with_client (v : option Z) (c : ih_control) : ih_control :=
  mkIhControl (ih_handle c) v (ih_state c) (ih_next_state c) (ih_switch_on_cycle c).
Definition ctl_with_states (st next : EHandlerStates) (c : ih_control) : ih_control :=
  mkIhControl (ih_handle c) (ih_client c) st next (ih_switch_on_cycle c).
Definition ctl_with_next (next : EHandlerStates) (c : ih_control) : ih_control :=
  mkIhControl (ih_handle c) (ih_client c) (ih_state c) next (ih_switch_on_cycle c).
Definition trk_with_last_cycle (v : Z) (t : ih_track) : ih_track :=
  mkIhTrack v (ih_last_now t) (ih_last_packet_handled_at t) (ih_packets t) (ih_deferred_cycles t).
Definition trk_with_last_now (v : Z) (t : ih_track) : ih_track :=
  mkIhTrack (ih_last_cycle t) v (ih_last_packet_handled_at t) (ih_packets t) (ih_deferred_cycles t).
Definition trk_with_packet (at_ : Z) (packets : Z) (t : ih_track) : ih_track :=
  mkIhTrack (ih_last_cycle t) (ih_last_now t) at_ (Some packets) (ih_deferred_cycles t).
Definition trk_with_deferred (v : Z) (t : ih_track) : ih_track :=
  mkIhTrack (ih_last_cycle t) (ih_last_now t) (ih_last_packet_handled_at t) (ih_packets t) (Some v).

Section iso.
Context {W : Type} {IE : IsoEnv W} {IC : IsoClient W}.

Abbreviation M := (StM (iso_system W)).
Implicit Types s : iso_system W.

Definition gets_world {A} (f : W -> A) : M A := st_gets (fun s => f (is_world s)).
Definition run_world {A} (f : W -> A * W) : M A :=
  fun s => let '(x, w) := f (is_world s) in Some (x, mkIso (is_manager s) (is_handlers s) w).
Definition mod_world (f : W -> W) : M () := run_world (fun w => ((), f w)).
Definition gets_ihm {A} (f : IsoHandlerManager -> A) : M A := st_gets (fun s => f (is_manager s)).
Definition mod_ihm (f : IsoHandlerManager -> IsoHandlerManager) : M () :=
  st_mod (fun s => mkIso (f (is_manager s)) (is_handlers s) (is_world s)).

(** a field of a handler; a dangling pointer is undefined *)
Definition ih_get {A} (h : Z) (f : IsoHandler -> A) : M A := fun s => x ← is_handlers s !! h; Some (f x, s).
Definition ih_mod (h : Z) (f : IsoHandler -> IsoHandler) : M () :=
  fun s => x ← is_handlers s !! h; Some ((), mkIso (is_manager s) (<[h := f x]> (is_handlers s)) (is_world s)).

(** [m_Client->...]; a null client is undefined *)
Definition the_client (h : Z) : M Z := c ← ih_get h (fun x => ih_client (ih_c x)); st_option c.

(** [m_handle] where it is used as a handle *)
Definition the_handle (h : Z) : M Z := hd ← ih_get h (fun x => ih_handle (ih_c x)); st_option hd.

(** ** IsoHandler *)

Definition IsoHandler_isEnabled (h : Z) : M bool := ih_get h (fun x => bool_decide (ih_state (ih_c x) = eHS_Running)).

Definition IsoHandler_inUse (h : Z) : M bool := ih_get h (fun x => bool_decide (ih_client (ih_c x) <> None)).

Definition IsoHandler_isStreamRegistered (a h : Z) : M bool := ih_get h (fun x => bool_decide (ih_client (ih_c x) = Some a)).

Definition IsoHandler_registerStream (a h : Z) : M bool :=
  used ← IsoHandler_inUse h;
  if used : bool then mret false else ih_mod h (ih_with_control (ctl_with_client (Some a)));; mret true.

Definition IsoHandler_unregisterStream (a h : Z) : M bool :=
  registered ← IsoHandler_isStreamRegistered a h;
  if negb registered then mret false else ih_mod h (ih_with_control (ctl_with_client None));; mret true.

Definition IsoHandler_canIterateClient (h : Z) : M bool :=
  enabled ← IsoHandler_isEnabled h;
  if negb enabled then mret false
  else
    client ← ih_get h (fun x => ih_client (ih_c x));
    type ← ih_get h (fun x => ih_type (ih_s x));
    match client with
    | None => mret false
    | Some a => match type with eHT_Receive => client_canProducePacket a | eHT_Transmit => client_canConsumePacket a end
    end.

Definition IsoHandler_requestEnable (cycle h : Z) : M bool :=
  st ← ih_get h (fun x => ih_state (ih_c x));
  if bool_decide (st = eHS_Running) then mret false
  else if bool_decide (st <> eHS_Stopped) then mret false
  else ih_mod h (ih_with_control (ctl_with_next eHS_Running));; mret true.

Definition IsoHandler_requestDisable (h : Z) : M bool :=
  st ← ih_get h (fun x => ih_state (ih_c x));
  if bool_decide (st = eHS_Stopped) then mret true
  else if bool_decide (st <> eHS_Running) then mret false
  else ih_mod h (ih_with_control (ctl_with_next eHS_Stopped));; mret true.

Definition IsoHandler_setIsoStartCycle (cycle h : Z) : M () :=
  ih_mod h (ih_with_control (fun c => mkIhControl (ih_handle c) (ih_client c) (ih_state c) (ih_next_state c) cycle)).

Definition IsoHandler_setReceiveMode (m : raw1394_iso_dma_recv_mode) (h : Z) : M () :=
  ih_mod h (fun x => let p := ih_s x in
    mkIsoHandler (mkIhSetup (ih_type p) (ih_buf_packets p) (ih_max_packet_size p) (ih_irq_interval p) m (ih_speed p)) (ih_c x) (ih_t x)).

(** the resources for the traffic of a direction, and its start *)
Definition iso_recv_start (h hd cycle : Z) : M bool :=
  p ← ih_get h ih_s;
  a ← the_client h;
  channel ← gets_world (client_getChannel a);
  channel ← st_option channel;
  r ← run_world (raw1394_iso_recv_init hd (ih_buf_packets p) (ih_max_packet_size p) channel (ih_receive_mode p) (ih_irq_interval p));
  if negb (r =? 0) then mret false
  else r ← run_world (raw1394_iso_recv_start hd cycle); mret (r =? 0).

Definition iso_xmit_start (h hd cycle : Z) : M bool :=
  p ← ih_get h ih_s;
  a ← the_client h;
  channel ← gets_world (client_getChannel a);
  channel ← st_option channel;
  r ← run_world (raw1394_iso_xmit_init hd (ih_buf_packets p) (ih_max_packet_size p) channel (ih_speed p) (ih_irq_interval p));
  if negb (r =? 0) then mret false
  else r ← run_world (raw1394_iso_xmit_start hd cycle); mret (r =? 0).

(** A failure behind the creation of the handle leaves the handle in place. *)
Definition IsoHandler_enable (cycle h : Z) : M bool :=
  st ← ih_get h (fun x => ih_state (ih_c x));
  if bool_decide (st <> eHS_Stopped) then mret false
  else
    old ← ih_get h (fun x => ih_handle (ih_c x));
    st_assert (bool_decide (old = None));;
    hd ← run_world raw1394_new_handle_on_port;
    ih_mod h (ih_with_control (ctl_with_handle hd));;
    match hd with
    | None => mret false
    | Some hd =>
        ih_mod h (ih_with_track (fun t => mkIhTrack (-1) NO_TIME NO_TIME (Some 0) (ih_deferred_cycles t)));;
        type ← ih_get h (fun x => ih_type (ih_s x));
        ok ← match type with eHT_Receive => iso_recv_start h hd cycle | eHT_Transmit => iso_xmit_start h hd cycle end;
        if negb ok then mret false
        else ih_mod h (ih_with_control (ctl_with_states eHS_Running eHS_Running));; mret true
    end.

(** The lock keeps two threads from disabling a handler at once. *)
Definition IsoHandler_disable (h : Z) : M bool :=
  st ← ih_get h (fun x => ih_state (ih_c x));
  if bool_decide (st <> eHS_Running) then mret false
  else
    hd ← the_handle h;
    mod_world (raw1394_wake_up hd);;
    mod_world (raw1394_iso_stop hd);;
    mod_world (raw1394_iso_shutdown hd);;
    mod_world (raw1394_destroy_handle hd);;
    ih_mod h (ih_with_control (fun c => ctl_with_states eHS_Stopped eHS_Stopped (ctl_with_handle None c)));;
    a ← the_client h;
    client_packetsStopped a;;
    mret true.

Definition IsoHandler_updateState (h : Z) : M () :=
  c ← ih_get h ih_c;
  match ih_state c, ih_next_state c with
  | eHS_Stopped, eHS_Running => _ ← IsoHandler_enable (ih_switch_on_cycle c) h; mret ()
  | eHS_Running, eHS_Stopped => _ ← IsoHandler_disable h; mret ()
  | _, _ => mret ()
  end.

(** the destructor and the release of the memory *)
Definition IsoHandler_delete (h : Z) : M () :=
  c ← ih_get h ih_c;
  (if bool_decide (ih_handle c <> None) && bool_decide (ih_state c = eHS_Running) then _ ← IsoHandler_disable h; mret () else mret ());;
  st_mod (fun s => mkIso (is_manager s) (delete h (is_handlers s)) (is_world s)).

Definition IsoHandler_handleBusReset (h : Z) : M bool :=
  ih_mod h (ih_with_track (fun t => mkIhTrack (ih_last_cycle t) (ih_last_now t) NO_TIME (ih_packets t) (ih_deferred_cycles t)));;
  hd ← ih_get h (fun x => ih_handle (ih_c x));
  mod_world (raw1394_read_cycle_time hd);;
  a ← the_client h;
  client_handleBusReset a.

Definition IsoHandler_notifyOfDeath (h : Z) : M () :=
  hd ← ih_get h (fun x => ih_handle (ih_c x));
  (if bool_decide (hd <> None) then _ ← IsoHandler_disable h; mret () else mret ());;
  a ← the_client h;
  client_handlerDied a;;
  hd ← ih_get h (fun x => ih_handle (ih_c x));
  match hd with Some hd => mod_world (raw1394_wake_up hd) | None => mret () end.

(** *** Packets *)

(** the bus time of a packet: the cycle of the packet that is nearest to the
    time of [iterate] *)
Definition packet_ctr (last_now cycle : Z) : Z :=
  let diff_cycles := diffCycles cycle (CYCLE_TIMER_GET_CYCLES last_now) in
  let tmp := s64 (s64 (CYCLE_TIMER_TO_TICKS last_now) + diff_cycles * TICKS_PER_CYCLE) in
  u32 (TICKS_TO_CYCLE_TIMER (u64 (wrapAtMinMaxTicks tmp))).

(** [++] on a counter; one without value is undefined *)
Definition increment (n : option Z) : M Z := n ← st_option n; mret (u32 (n + 1)).

Definition IsoHandler_putPacket (h : Z) (data : list Z) (length channel tag sy cycle dropped : Z) : M raw1394_iso_disposition :=
  t ← ih_get h ih_t;
  missed_ok ← gets_ihm im_missed_cycles_ok;
  let last := ih_last_cycle t in
  dropped_cycles ←
    (if bool_decide (last = s32 cycle) || bool_decide (last = -1) then mret 0
     else missed_ok ← st_option missed_ok; mret (if missed_ok : bool then 0 else s32 (diffCycles cycle last - 1)));
  let pkt_ctr := packet_ctr (ih_last_now t) cycle in
  n ← increment (ih_packets t);
  ih_mod h (ih_with_track (fun t => trk_with_packet pkt_ctr n (trk_with_last_cycle (s32 cycle) t)));;
  client ← ih_get h (fun x => ih_client (ih_c x));
  match client with
  | Some a => client_putPacket a data length channel tag sy pkt_ctr (u32 dropped_cycles)
  | None => mret RAW1394_ISO_OK
  end.

(** [int -= unsigned int] *)
Definition minus_unsigned (x y : Z) : Z := s32 (u32 (x - y)).

(** the cycles that were missed: those behind the last one, without the ones
    that were skipped or deferred *)
Definition xmit_dropped_cycles (h last cycle skipped : Z) : M Z :=
  if bool_decide (last = cycle) || bool_decide (last = -1) then mret 0
  else
    let dropped_cycles := minus_unsigned (s32 (diffCycles cycle last - 1)) skipped in
    if dropped_cycles =? 0 then ih_mod h (ih_with_track (trk_with_deferred 0));; mret dropped_cycles
    else
      deferred ← ih_get h (fun x => ih_deferred_cycles (ih_t x));
      deferred ← st_option deferred;
      mret (minus_unsigned dropped_cycles deferred).

(** after the client: its cycle is the last one, unless the client defers *)
Definition xmit_done (h cycle : Z) (retval : raw1394_iso_disposition) : M () :=
  if 0 <=? cycle then
    if bool_decide (retval <> RAW1394_ISO_DEFER) && bool_decide (retval <> RAW1394_ISO_AGAIN) then
      ih_mod h (ih_with_track (trk_with_last_cycle cycle))
    else
      deferred ← ih_get h (fun x => ih_deferred_cycles (ih_t x));
      n ← increment deferred;
      ih_mod h (ih_with_track (trk_with_deferred n))
  else mret ().

Definition IsoHandler_getPacket (h : Z) (p : iso_packet) (cycle dropped skipped : Z) : M (raw1394_iso_disposition * iso_packet) :=
  x ← ih_get h id;
  let t := ih_t x in
  let pkt_ctr := if cycle <? 0 then NO_TIME else packet_ctr (ih_last_now t) cycle in
  packets ← st_option (ih_packets t);
  n ← increment (ih_packets t);
  ih_mod h (ih_with_track (trk_with_packet (if packets <? ih_buf_packets (ih_s x) then NO_TIME else pkt_ctr) n));;
  (if bool_decide (ih_last_cycle t = -1) then ih_mod h (ih_with_track (trk_with_deferred 0)) else mret ());;
  dropped_cycles ← xmit_dropped_cycles h (ih_last_cycle t) cycle skipped;
  match ih_client (ih_c x) with
  | Some a =>
      '(retval, p1) ← client_getPacket a p pkt_ctr (u32 dropped_cycles) skipped (ih_max_packet_size (ih_s x));
      xmit_done h cycle retval;;
      mret (retval, p1)
  | None =>
      (if 0 <=? cycle then ih_mod h (ih_with_track (trk_with_last_cycle cycle)) else mret ());;
      mret (RAW1394_ISO_OK, mkPacket (pkt_data p) 0 0 0)
  end.

(** the C callbacks; the upper half of the dropped cycles of a transmitter are
    those that were skipped *)
Definition iso_receive_handler (h : Z) (data : list Z) (length channel tag sy cycle dropped : Z) : M raw1394_iso_disposition :=
  IsoHandler_putPacket h data length channel tag sy cycle dropped.

Definition iso_transmit_handler (h : Z) (p : iso_packet) (cycle dropped1 : Z) : M (raw1394_iso_disposition * iso_packet) :=
  IsoHandler_getPacket h p cycle (Z.land dropped1 0xFFFF) (Z.shiftr (Z.land dropped1 0xFFFF0000) 16).

(** [raw1394_loop_iterate]: the library makes its callbacks; the result of
    each decides what it does next *)
Fixpoint loop_iterate (fuel : nat) (h hd : Z) : M Z :=
  match fuel with
  | O => st_fail
  | S fuel' =>
      cb ← run_world (raw1394_next_callback hd);
      match cb with
      | None => gets_world (raw1394_iterate_result hd)
      | Some (CB_receive data length channel tag sy cycle dropped) =>
          r ← iso_receive_handler h data length channel tag sy cycle dropped;
          mod_world (raw1394_callback_done hd r (mkPacket data length tag sy));;
          loop_iterate fuel' h hd
      | Some (CB_transmit data length tag sy cycle dropped) =>
          '(r, p) ← iso_transmit_handler h (mkPacket data length tag sy) cycle dropped;
          mod_world (raw1394_callback_done hd r p);;
          loop_iterate fuel' h hd
      end
  end.

Definition IsoHandler_iterate (fuel : nat) (cycle_timer_now h : Z) : M bool :=
  ih_mod h (ih_with_track (trk_with_last_now cycle_timer_now));;
  running ← IsoHandler_isEnabled h;
  if running : bool then hd ← the_handle h; r ← loop_iterate fuel h hd; mret (r =? 0)
  else mret false.

(** ** IsoTask *)

Definition IsoTask_new : IsoTask :=
  mkIsoTask 0 [] [] 0 None false false (ISOHANDLERMANAGER_ISO_TASK_WAIT_TIMEOUT_USECS * 1000).

(** the task of a direction; a null task is undefined *)
Definition the_task (t : EHandlerType) : M IsoTask :=
  k ← gets_ihm (match t with eHT_Transmit => im_transmit | eHT_Receive => im_receive end); st_option k.

Definition ihm_with_task (t : EHandlerType) (k : option IsoTask) (m : IsoHandlerManager) : IsoHandlerManager :=
  mkIhm (im_state m) (im_handlers m) (im_streams m) (im_realtime m) (im_priority m)
    match t with eHT_Transmit => k | eHT_Receive => im_transmit m end
    match t with eHT_Receive => k | eHT_Transmit => im_receive m end (im_missed_cycles_ok m).

Definition task_mod (t : EHandlerType) (f : IsoTask -> IsoTask) : M () := k ← the_task t; mod_ihm (ihm_with_task t (Some (f k))).

Definition tk_with_request (v : Z) (k : IsoTask) : IsoTask :=
  mkIsoTask v (tk_map k) (tk_fds k) (tk_nfds k) (tk_sync k) (tk_running k) (tk_in_busreset k) (tk_wait_timeout_nsec k).
Definition tk_with_running (v : bool) (k : IsoTask) : IsoTask :=
  mkIsoTask (tk_request_update k) (tk_map k) (tk_fds k) (tk_nfds k) (tk_sync k) v (tk_in_busreset k) (tk_wait_timeout_nsec k).
Definition tk_with_busreset (v : bool) (k : IsoTask) : IsoTask :=
  mkIsoTask (tk_request_update k) (tk_map k) (tk_fds k) (tk_nfds k) (tk_sync k) (tk_running k) v (tk_wait_timeout_nsec k).
Definition tk_with_sync (v : option Z) (k : IsoTask) : IsoTask :=
  mkIsoTask (tk_request_update k) (tk_map k) (tk_fds k) (tk_nfds k) v (tk_running k) (tk_in_busreset k) (tk_wait_timeout_nsec k).
Definition tk_with_nfds (v : Z) (k : IsoTask) : IsoTask :=
  mkIsoTask (tk_request_update k) (tk_map k) (tk_fds k) v (tk_sync k) (tk_running k) (tk_in_busreset k) (tk_wait_timeout_nsec k).
Definition tk_with_maps (m : list (option Z)) (fds : list (option pollfd)) (k : IsoTask) : IsoTask :=
  mkIsoTask (tk_request_update k) m fds (tk_nfds k) (tk_sync k) (tk_running k) (tk_in_busreset k) (tk_wait_timeout_nsec k).

Definition map_size : nat := Z.to_nat ISOHANDLERMANAGER_MAX_ISO_HANDLERS_PER_PORT.

Definition IsoTask_Init (t : EHandlerType) : M bool :=
  task_mod t (fun k => mkIsoTask 0 (replicate map_size None) (replicate map_size None) 0 (tk_sync k) true (tk_in_busreset k)
                         (tk_wait_timeout_nsec k));;
  mret true.

Definition IsoTask_signalActivity (t : EHandlerType) : M () := mod_world (sem_post t).

Definition IsoTask_requestShadowMapUpdate (t : EHandlerType) : M () :=
  task_mod t (fun k => tk_with_request (s32 (tk_request_update k + 1)) k);; IsoTask_signalActivity t.

(** one handler enters the maps; an entry outside of them is undefined *)
Definition shadow_add (t : EHandlerType) (h : Z) (cnt : nat) : M () :=
  fd ← (hd ← the_handle h; gets_world (raw1394_get_fd hd));
  st_assert (bool_decide (cnt < map_size)%nat);;
  type ← ih_get h (fun x => ih_type (ih_s x));
  task_mod t (fun k =>
    let k := tk_with_maps (<[cnt := Some h]> (tk_map k)) (<[cnt := Some (mkPollfd fd POLLIN 0)]> (tk_fds k)) k in
    if bool_decide (tk_sync k = None) && bool_decide (type = eHT_Transmit) then tk_with_sync (Some h) k else k).

(** The loop over the handlers: [i] is the index, [n] the number of those that
    are left, and the result is [cnt].  The list is read again for every
    index. *)
Fixpoint shadow_loop (t : EHandlerType) (n i cnt : nat) : M nat :=
  match n with
  | O => mret cnt
  | S n' =>
      l ← gets_ihm im_handlers;
      match l !! i with
      | None => shadow_loop t n' (i + 1) cnt
      | Some h =>
          type ← ih_get h (fun x => ih_type (ih_s x));
          if bool_decide (type <> t) then shadow_loop t n' (i + 1) cnt
          else
            IsoHandler_updateState h;;
            enabled ← IsoHandler_isEnabled h;
            cnt ← (if enabled : bool then shadow_add t h cnt;; mret (cnt + 1)%nat else mret cnt);
            if bool_decide (map_size < cnt)%nat then mret cnt else shadow_loop t n' (i + 1) cnt
      end
  end.

(** Without a transmit handler the first entry of the map is the sync handler,
    if the map was not empty before the update. *)
Definition IsoTask_updateShadowMapHelper (t : EHandlerType) : M () :=
  k ← the_task t;
  if tk_in_busreset k then task_mod t (tk_with_nfds 0)
  else
    l ← gets_ihm im_handlers;
    task_mod t (tk_with_sync None);;
    cnt ← shadow_loop t (length l) 0 0;
    task_mod t (fun k =>
      let k1 := if bool_decide (tk_sync k = None) && negb (tk_nfds k =? 0) then tk_with_sync (mjoin (head (tk_map k))) k else k in
      tk_with_nfds (Z.of_nat cnt) k1).

Definition IsoTask_handleBusReset (t : EHandlerType) : M bool :=
  k ← the_task t;
  if negb (tk_running k) then mret true
  else
    task_mod t (tk_with_busreset true);;
    IsoTask_requestShadowMapUpdate t;;
    l ← gets_ihm im_handlers;
    retval ← all_of (fun h =>
      type ← ih_get h (fun x => ih_type (ih_s x));
      if bool_decide (type <> t) then mret true else IsoHandler_handleBusReset h) l;
    task_mod t (tk_with_busreset false);;
    IsoTask_requestShadowMapUpdate t;;
    mret retval.

Inductive eActivityResult := eAR_Activity | eAR_Timeout | eAR_Interrupted | eAR_Error.

(** [while(ts.tv_nsec >= 1000000000LL)] *)
Fixpoint normalize_timespec (fuel : nat) (sec nsec : Z) : option (Z * Z) :=
  if 1000000000 <=? nsec then
    match fuel with O => None | S fuel' => normalize_timespec fuel' (s64 (sec + 1)) (s64 (nsec - 1000000000)) end
  else Some (sec, nsec).

Definition IsoTask_waitForActivity (t : EHandlerType) : M eActivityResult :=
  now ← run_world clock_gettime;
  match now with
  | None => mret eAR_Error
  | Some (sec, nsec) =>
      k ← the_task t;
      let nsec := s64 (nsec + tk_wait_timeout_nsec k) in
      ts ← st_option (normalize_timespec (Z.to_nat (nsec / 1000000000)) sec nsec);
      result ← run_world (sem_timedwait t ts);
      mret match result with
           | WaitOk => eAR_Activity | WaitTimedOut => eAR_Timeout | WaitInterrupted => eAR_Interrupted | WaitFailed => eAR_Error
           end
  end.

(** the first [nfds] entries of the map *)
Definition shadow_handlers (t : EHandlerType) : M (list Z) :=
  k ← the_task t; st_option (mapM id (take (Z.to_nat (tk_nfds k)) (tk_map k))).

(** the events to poll a handler for *)
Definition select_events (t : EHandlerType) (i : nat) (h : Z) : M bool :=
  ready ← IsoHandler_canIterateClient h;
  let events := if ready : bool then Z.lor POLLIN POLLPRI else 0 in
  task_mod t (fun k => tk_with_maps (tk_map k)
    (alter (fmap (fun p : pollfd => mkPollfd (pfd_fd p) events (pfd_revents p))) i (tk_fds k)) k);;
  mret ready.

Fixpoint select_all (t : EHandlerType) (i : nat) (l : list Z) : M bool :=
  match l with
  | [] => mret false
  | h :: l' => ready ← select_events t i h; rest ← select_all t (i + 1) l'; mret (ready || rest)
  end.

(** [while(no_one_to_poll)]: [false] is the error that ends the task *)
Fixpoint wait_for_clients (fuel : nat) (t : EHandlerType) : M bool :=
  match fuel with
  | O => st_fail
  | S fuel' =>
      l ← shadow_handlers t;
      ready ← select_all t 0 l;
      if ready : bool then mret true
      else
        r ← IsoTask_waitForActivity t;
        match r with
        | eAR_Error => mret false
        | eAR_Timeout => mret true
        | eAR_Interrupted | eAR_Activity => wait_for_clients fuel' t
        end
  end.

(** [poll]: the entries of the map get the events of the result *)
Definition task_poll (t : EHandlerType) (timeout : Z) : M poll_result :=
  k ← the_task t;
  fds ← st_option (mapM id (take (Z.to_nat (tk_nfds k)) (tk_fds k)));
  r ← run_world (poll ((fun p => (pfd_fd p, pfd_events p)) <$> fds) timeout);
  match r with
  | PollOk revents =>
      task_mod t (fun k => tk_with_maps (tk_map k)
        (zip_with (fun p r => Some (mkPollfd (pfd_fd p) (pfd_events p) r)) fds revents ++ drop (length fds) (tk_fds k)) k);;
      mret r
  | _ => mret r
  end.

(** whether a handler has died: it is disabled, or its last packet is more
    than two seconds old *)
Definition check_death (now h : Z) : M bool :=
  enabled ← IsoHandler_isEnabled h;
  if negb enabled then mret true
  else
    last_packet_seen ← ih_get h (fun x => ih_last_packet_handled_at (ih_t x));
    if last_packet_seen =? NO_TIME then mret false
    else if TICKS_PER_SECOND * 2 <? diffTicks (CYCLE_TIMER_TO_TICKS now) (CYCLE_TIMER_TO_TICKS last_packet_seen) then
      IsoHandler_notifyOfDeath h;; mret true
    else mret false.

(** on every handler; whether it holds for one *)
Fixpoint any_of (f : Z -> M bool) (l : list Z) : M bool :=
  match l with
  | [] => mret false
  | h :: l' => x ← f h; rest ← any_of f l'; mret (x || rest)
  end.

Definition iterate_polled (fuel : nat) (t : EHandlerType) (now : Z) (i : nat) (h : Z) : M () :=
  k ← the_task t;
  p ← st_option (mjoin (tk_fds k !! i));
  if negb (Z.land (pfd_revents p) POLLIN =? 0) then _ ← IsoHandler_iterate fuel now h; mret () else mret ().

Fixpoint iterate_all (fuel : nat) (t : EHandlerType) (now : Z) (i : nat) (l : list Z) : M () :=
  match l with
  | [] => mret ()
  | h :: l' => iterate_polled fuel t now i h;; iterate_all fuel t now (i + 1) l'
  end.

(** after a successful poll *)
Definition task_iterate (fuel : nat) (t : EHandlerType) (now : Z) : M bool :=
  l ← shadow_handlers t;
  died ← any_of (check_death now) l;
  if died : bool then task_mod t (tk_with_running false);; mret true
  else iterate_all fuel t now 0 l;; mret true.

Definition acknowledge_update (t : EHandlerType) : M () :=
  k ← the_task t;
  if tk_request_update k =? 0 then mret ()
  else
    IsoTask_updateShadowMapHelper t;;
    task_mod t (fun k => tk_with_request (s32 (tk_request_update k - 1)) k);;
    k ← the_task t;
    st_assert (0 <=? tk_request_update k).

Definition poll_timeout : Z := 10.

Definition IsoTask_Execute (fuel : nat) (t : EHandlerType) : M bool :=
  acknowledge_update t;;
  k ← the_task t;
  if tk_nfds k =? 0 then mod_world (usleep (poll_timeout * 1000));; mret true
  else
    ok ← wait_for_clients fuel t;
    if negb ok then mret false
    else
      r ← task_poll t poll_timeout;
      now ← run_world getCycleTimer;
      match r with
      | PollInterrupted => mret true
      | PollFailed => task_mod t (tk_with_running false);; mret false
      | PollOk _ => task_iterate fuel t now
      end.
End iso.

(** ** The time of a packet *)

Lemma packet_ctr_near n m o :
  0 <= o < TICKS_PER_CYCLE -> - 4000 < n - m < 4000 -> packet_ctr (ctr_at m o) (n mod CYCLES_PER_SECOND) = ctr_at n o.
Proof.
  intros Ho Hd. unfold packet_ctr. rewrite ctr_at_ticks by done.
  assert (Hc : CYCLE_TIMER_GET_CYCLES (ctr_at m o) = m mod CYCLES_PER_SECOND) by (apply ctr_of_get; by apply ctr_at_fields).
  rewrite Hc, diffCycles_near by done.
  set (A := m mod 1024000) in *. set (B := n mod 1024000) in *.
  assert (HA : 0 <= A < 1024000) by (apply Z.mod_pos_bound; lia). assert (HB : 0 <= B < 1024000) by (apply Z.mod_pos_bound; lia).
  assert (Hw : exists k, A + (n - m) = B + k * 1024000 /\ -1 <= k <= 1).
  { exists (n / 1024000 - m / 1024000). pose proof (Z.div_mod n 1024000 ltac:(done)). pose proof (Z.div_mod m 1024000 ltac:(done)).
    subst A B. split; lia. }
  destruct Hw as (k & Hk & Hk1).
  assert (Ht : wrapAtMinMaxTicks (A * TICKS_PER_CYCLE + o + (n - m) * TICKS_PER_CYCLE) = B * TICKS_PER_CYCLE + o).
  { replace (A * TICKS_PER_CYCLE + o + (n - m) * TICKS_PER_CYCLE) with ((B + k * 1024000) * TICKS_PER_CYCLE + o) by (rewrite <- Hk; ring).
    unfold wrapAtMinMaxTicks, MAX_TICKS, TICKS_PER_SECOND, TICKS_PER_CYCLE in *.
    destruct (Z.ltb_spec ((B + k * 1024000) * 3072 + o) 0); [rewrite s64_small by lia; lia|].
    destruct (Z.leb_spec (24576000 * 128) ((B + k * 1024000) * 3072 + o)); [rewrite s64_small by lia|]; lia. }
  rewrite (s64_small (A * _ + o)) by (unfold TICKS_PER_CYCLE in *; lia).
  rewrite s64_small by (unfold TICKS_PER_CYCLE in *; lia). rewrite Ht, u64_small by (unfold TICKS_PER_CYCLE in *; lia).
  replace (B * TICKS_PER_CYCLE + o) with (n / CYCLES_PER_SECOND mod 128 * 24576000 + n mod CYCLES_PER_SECOND * 3072 + o).
  2:{ subst B. unfold CYCLES_PER_SECOND, TICKS_PER_CYCLE. clear. Z.to_euclidean_division_equations. lia. }
  rewrite TICKS_TO_CYCLE_TIMER_of by by apply ctr_at_fields.
  unfold ctr_at, ctr_of. pose proof (ctr_at_fields n o Ho) as (Hs & Hc1 & _).
  unfold CYCLES_PER_SECOND, TICKS_PER_CYCLE in *. apply u32_small. lia.
Qed.

Section handlers.
Context {W : Type} {IE : IsoEnv W} {IC : IsoClient W}.

Abbreviation M := (StM (iso_system W)).
Implicit Types s : iso_system W.

Lemma ih_get_bind {A B} h (f : IsoHandler -> A) (g : A -> M B) s x :
  is_handlers s !! h = Some x -> (y ← ih_get h f; g y) s = g (f x) s.
Proof. intros Hx. unfold ih_get, mbind, StM_bind. by rewrite Hx. Qed.

Lemma ih_mod_bind {B} h f (g : () -> M B) s x :
  is_handlers s !! h = Some x ->
  (y ← ih_mod h f; g y) s = g () (mkIso (is_manager s) (<[h := f x]> (is_handlers s)) (is_world s)).
Proof. intros Hx. unfold ih_mod, mbind, StM_bind. by rewrite Hx. Qed.

(** the state after the handler has taken a note of a packet *)
Definition noted (h : Z) (t : ih_track) (x : IsoHandler) s : iso_system W :=
  mkIso (is_manager s) (<[h := mkIsoHandler (ih_s x) (ih_c x) t]> (is_handlers s)) (is_world s).

(** What a receive handler reports to its client: the handler was iterated
    at the offset [o] in cycle [m], its last packet was the one of cycle [l],
    and libraw1394 delivers one of cycle [n], of which it knows the number in
    its second only. *)
Lemma recv_packet_reports s h x a missed_ok pk data length channel tag sy dropped l n m o :
  is_handlers s !! h = Some x -> ih_client (ih_c x) = Some a -> ih_packets (ih_t x) = Some pk ->
  im_missed_cycles_ok (is_manager s) = Some missed_ok ->
  ih_last_cycle (ih_t x) = l mod CYCLES_PER_SECOND -> ih_last_now (ih_t x) = ctr_at m o -> 0 <= o < TICKS_PER_CYCLE ->
  - 4000 < n - m < 4000 -> l < n < l + 4000 ->
  IsoHandler_putPacket h data length channel tag sy (n mod CYCLES_PER_SECOND) dropped s
  = client_putPacket a data length channel tag sy (ctr_at n o) (if missed_ok : bool then 0 else n - l - 1)
      (noted h (mkIhTrack (n mod CYCLES_PER_SECOND) (ctr_at m o) (ctr_at n o) (Some (u32 (pk + 1))) (ih_deferred_cycles (ih_t x))) x s).
Proof.
  intros Hx Ha Hpk Hok Hl Hm Ho Hnm Hln. unfold IsoHandler_putPacket.
  rewrite (ih_get_bind _ _ _ _ _ Hx). unfold gets_ihm. erewrite st_bind_eq by reflexivity. cbv beta iota zeta.
  pose proof (Z.mod_pos_bound n CYCLES_PER_SECOND ltac:(done)) as Hn. pose proof (Z.mod_pos_bound l CYCLES_PER_SECOND ltac:(done)) as Hlb.
  assert (Hs : s32 (n mod CYCLES_PER_SECOND) = n mod CYCLES_PER_SECOND) by (apply s32_small; unfold CYCLES_PER_SECOND in *; lia).
  rewrite Hs, Hl, Hm, packet_ctr_near, Hok, Hpk by done.
  assert (Hne : l mod CYCLES_PER_SECOND <> n mod CYCLES_PER_SECOND).
  { intros He. unfold CYCLES_PER_SECOND in *. revert He Hln. clear. Z.to_euclidean_division_equations. lia. }
  rewrite !bool_decide_false by lia. cbn [orb st_option increment]. rewrite diffCycles_near by lia.
  erewrite st_bind_eq by reflexivity. erewrite st_bind_eq by reflexivity.
  rewrite (ih_mod_bind _ _ _ _ _ Hx). erewrite ih_get_bind by (cbn [is_handlers]; apply lookup_insert_eq). cbn [ih_with_track ih_c].
  rewrite Ha. unfold noted, ih_with_track, trk_with_packet, trk_with_last_cycle. cbn [ih_last_cycle ih_last_now ih_deferred_cycles].
  rewrite Hm. destruct missed_ok; [done|]. rewrite s32_small, u32_small by lia. done.
Qed.

Lemma minus_unsigned_small x y : - 2 ^ 31 <= x - y < 2 ^ 31 -> minus_unsigned x y = x - y.
Proof.
  intros H. unfold minus_unsigned, wrapU, wrapS.
  change (2 ^ (32 - 1)) with 2147483648. change (2 ^ 31) with 2147483648 in H. change (2 ^ 32) with 4294967296.
  rewrite Zplus_mod_idemp_l. rewrite Z.mod_small by lia. lia.
Qed.

(** What a transmit handler reports in the same situation, where [skipped]
    cycles were only delayed and the client has deferred [d] times since the
    counter was cleared. *)
Lemma xmit_packet_reports s h x a pk d p dropped skipped l n m o :
  is_handlers s !! h = Some x -> ih_client (ih_c x) = Some a -> ih_packets (ih_t x) = Some pk ->
  ih_deferred_cycles (ih_t x) = Some d -> 0 <= d < 2 ^ 30 -> 0 <= skipped < 2 ^ 30 ->
  ih_last_cycle (ih_t x) = l mod CYCLES_PER_SECOND -> ih_last_now (ih_t x) = ctr_at m o -> 0 <= o < TICKS_PER_CYCLE ->
  - 4000 < n - m < 4000 -> l < n < l + 4000 ->
  let missing := n - l - 1 - skipped in
  let counted := if missing =? 0 then 0 else d in
  let at_ := if pk <? ih_buf_packets (ih_s x) then NO_TIME else ctr_at n o in
  IsoHandler_getPacket h p (n mod CYCLES_PER_SECOND) dropped skipped s
  = ('(r, p1) ← client_getPacket a p (ctr_at n o) (u32 (missing - counted)) skipped (ih_max_packet_size (ih_s x));
     xmit_done h (n mod CYCLES_PER_SECOND) r;; mret (r, p1))
      (noted h (mkIhTrack (l mod CYCLES_PER_SECOND) (ctr_at m o) at_ (Some (u32 (pk + 1))) (Some counted)) x s).
Proof.
  intros Hx Ha Hpk Hd Hdb Hsk Hl Hm Ho Hnm Hln missing counted at_. unfold IsoHandler_getPacket.
  pose proof (Z.mod_pos_bound n CYCLES_PER_SECOND ltac:(done)) as Hn. pose proof (Z.mod_pos_bound l CYCLES_PER_SECOND ltac:(done)) as Hlb.
  assert (Hne : l mod CYCLES_PER_SECOND <> n mod CYCLES_PER_SECOND).
  { intros He. unfold CYCLES_PER_SECOND in *. revert He Hln. clear. Z.to_euclidean_division_equations. lia. }
  rewrite (ih_get_bind _ _ _ _ _ Hx). cbv beta iota zeta. unfold id.
  rewrite Hpk, Hl, Hm, packet_ctr_near by done. destruct (Z.ltb_spec (n mod CYCLES_PER_SECOND) 0); [lia|].
  cbn [st_option increment]. erewrite st_bind_eq by reflexivity. erewrite st_bind_eq by reflexivity.
  rewrite (ih_mod_bind _ _ _ _ _ Hx). rewrite (bool_decide_false (l mod _ = -1)) by lia.
  erewrite st_bind_eq by reflexivity. unfold xmit_dropped_cycles.
  rewrite !bool_decide_false by lia. cbn [orb]. rewrite diffCycles_near by lia.
  rewrite (s32_small (n - l - 1)), minus_unsigned_small by lia. fold missing. subst counted.
  destruct (Z.eqb_spec missing 0) as [->|Hmi].
  - erewrite (st_bind_eq (ih_mod _ _;; _)) by (erewrite ih_mod_bind by (cbn [is_handlers]; apply lookup_insert_eq); reflexivity).
    rewrite Ha. unfold noted, ih_with_track, trk_with_packet, trk_with_deferred.
    cbn [ih_last_cycle ih_last_now ih_deferred_cycles ih_t ih_s ih_c is_manager is_handlers is_world ih_packets ih_last_packet_handled_at].
    by rewrite insert_insert_eq, Hl, Hm.
  - erewrite (st_bind_eq (ih_get _ _ ≫= _)).
    2:{ erewrite ih_get_bind by (cbn [is_handlers]; apply lookup_insert_eq). unfold ih_with_track, trk_with_packet.
        cbn [ih_t ih_deferred_cycles]. rewrite Hd. cbn [st_option]. erewrite st_bind_eq by reflexivity. reflexivity. }
    rewrite Ha, minus_unsigned_small by lia. unfold noted, ih_with_track, trk_with_packet.
    cbn [ih_last_cycle ih_last_now ih_deferred_cycles ih_t ih_s ih_c]. by rewrite ?Hl, ?Hm, ?Hd.
Qed.

(** C18: what a handler reports to its client.  The handler was iterated at the
    offset [o] in cycle [m], its last packet was the one of cycle [l], and
    libraw1394 delivers or asks for one of cycle [n], of which it tells the
    number in its second only.  Then the client gets the exact bus time of that
    cycle.  A receiver is told the number of the cycles without a packet since
    the last one - 0 if the manager has been told that missed cycles are all
    right; a transmitter the missing cycles less those that were skipped and
    those that it deferred itself.  The deferred cycles are cleared only by a
    packet that follows the last one directly, not by a successful one: with
    [d] left over, [d] dropped cycles go unnoticed. *)
Theorem packets_reported s h x a pk l n m o :
  is_handlers s !! h = Some x -> ih_client (ih_c x) = Some a -> ih_packets (ih_t x) = Some pk ->
  ih_last_cycle (ih_t x) = l mod CYCLES_PER_SECOND -> ih_last_now (ih_t x) = ctr_at m o -> 0 <= o < TICKS_PER_CYCLE ->
  - 4000 < n - m < 4000 -> l < n < l + 4000 ->
  (forall missed_ok data length channel tag sy dropped,
     im_missed_cycles_ok (is_manager s) = Some missed_ok ->
     IsoHandler_putPacket h data length channel tag sy (n mod CYCLES_PER_SECOND) dropped s
     = client_putPacket a data length channel tag sy (ctr_at n o) (if missed_ok : bool then 0 else n - l - 1)
         (noted h (mkIhTrack (n mod CYCLES_PER_SECOND) (ctr_at m o) (ctr_at n o) (Some (u32 (pk + 1))) (ih_deferred_cycles (ih_t x))) x s)) /\
  (forall d p dropped skipped,
     ih_deferred_cycles (ih_t x) = Some d -> 0 <= d < 2 ^ 30 -> 0 <= skipped < 2 ^ 30 ->
     let missing := n - l - 1 - skipped in
     let counted := if missing =? 0 then 0 else d in
     let at_ := if pk <? ih_buf_packets (ih_s x) then NO_TIME else ctr_at n o in
     IsoHandler_getPacket h p (n mod CYCLES_PER_SECOND) dropped skipped s
     = ('(r, p1) ← client_getPacket a p (ctr_at n o) (u32 (missing - counted)) skipped (ih_max_packet_size (ih_s x));
        xmit_done h (n mod CYCLES_PER_SECOND) r;; mret (r, p1))
         (noted h (mkIhTrack (l mod CYCLES_PER_SECOND) (ctr_at m o) at_ (Some (u32 (pk + 1))) (Some counted)) x s)).
Proof.
  intros Hx Ha Hpk Hl Hm Ho Hnm Hln. split.
  - intros. by eapply recv_packet_reports.
  - intros. by eapply xmit_packet_reports.
Qed.

(** ** Enabling a handler *)

(** only the world has changed *)
Definition same_objects s s1 : Prop := is_manager s1 = is_manager s /\ is_handlers s1 = is_handlers s.

#[export] Instance same_objects_preorder : PreOrder same_objects.
Proof. split; [by split|]. intros s1 s2 s3 [H1 H2] [H3 H4]. split; congruence. Qed.

#[export] Instance keeps_objects_run_world {A} (f : W -> A * W) : StKeeps same_objects (run_world f).
Proof. intros s x s1. unfold run_world. destruct (f (is_world s)) as [y w]. by intros [= _ <-]. Qed.

#[export] Instance keeps_objects_mod_world (f : W -> W) : StKeeps same_objects (mod_world f).
Proof. unfold mod_world. apply _. Qed.

#[export] Instance keeps_ih_get (R : iso_system W -> iso_system W -> Prop) `{!PreOrder R} {A} h (f : IsoHandler -> A) : StKeeps R (ih_get h f).
Proof. intros s y s1. unfold ih_get. destruct (is_handlers s !! h); [|done]. by intros [= _ <-]. Qed.

#[export] Instance keeps_gets_world (R : iso_system W -> iso_system W -> Prop) `{!PreOrder R} {A} (f : W -> A) : StKeeps R (gets_world f).
Proof. unfold gets_world. apply _. Qed.

#[export] Instance keeps_gets_ihm (R : iso_system W -> iso_system W -> Prop) `{!PreOrder R} {A} (f : IsoHandlerManager -> A) : StKeeps R (gets_ihm f).
Proof. unfold gets_ihm. apply _. Qed.

#[export] Instance keeps_the_client (R : iso_system W -> iso_system W -> Prop) `{!PreOrder R} h : StKeeps R (the_client h).
Proof. unfold the_client. apply _. Qed.

#[export] Instance keeps_the_handle (R : iso_system W -> iso_system W -> Prop) `{!PreOrder R} h : StKeeps R (the_handle h).
Proof. unfold the_handle. apply _. Qed.

#[export] Instance keeps_objects_iso_recv_start h hd cycle : StKeeps same_objects (iso_recv_start h hd cycle).
Proof. unfold iso_recv_start. apply _. Qed.

#[export] Instance keeps_objects_iso_xmit_start h hd cycle : StKeeps same_objects (iso_xmit_start h hd cycle).
Proof. unfold iso_xmit_start. apply _. Qed.

(** what [enable] leaves *)
Lemma enable_outcome s h x cycle ok s1 :
  is_handlers s !! h = Some x -> ih_state (ih_c x) = eHS_Stopped -> IsoHandler_enable cycle h s = Some (ok, s1) ->
  exists x1, is_handlers s1 !! h = Some x1 /\ ih_client (ih_c x1) = ih_client (ih_c x) /\
    (ok = true -> ih_state (ih_c x1) = eHS_Running /\ ih_next_state (ih_c x1) = eHS_Running /\ ih_handle (ih_c x1) <> None) /\
    (ok = false -> ih_state (ih_c x1) = eHS_Stopped /\ ih_next_state (ih_c x1) = ih_next_state (ih_c x)).
Proof.
  intros Hx Hst. unfold IsoHandler_enable. rewrite (ih_get_bind _ _ _ _ _ Hx), Hst. rewrite bool_decide_false by tauto.
  rewrite (ih_get_bind _ _ _ _ _ Hx). intros (? & s2 & Has & H)%st_bind_inv.
  assert (s2 = s) as -> by (revert Has; unfold st_assert; case_bool_decide; [by intros [= _ <-]|done]). clear Has.
  apply st_bind_inv in H as (hd & s2 & Hw & H). pose proof (st_keeps (R := same_objects) _ _ _ Hw) as [_ Hh2].
  rewrite <- Hh2 in Hx. rewrite (ih_mod_bind _ _ _ _ _ Hx) in H. destruct hd as [hd|].
  2:{ injection H as <- <-. cbn [is_handlers]. eexists. split; [apply lookup_insert_eq|]. by cbn. }
  erewrite ih_mod_bind in H by (cbn [is_handlers]; apply lookup_insert_eq).
  erewrite ih_get_bind in H by (cbn [is_handlers]; apply lookup_insert_eq).
  apply st_bind_inv in H as (ok2 & s3 & H3 & H).
  assert (Hs3 : is_handlers s3 !! h = Some (ih_with_track (fun t => mkIhTrack (-1) NO_TIME NO_TIME (Some 0) (ih_deferred_cycles t))
    (ih_with_control (ctl_with_handle (Some hd)) x))).
  { match type of H3 with ?m ?s = _ => assert (Hk : same_objects s s3) by (revert H3; destruct (ih_type _); intros H3; exact (st_keeps _ _ _ H3)) end.
    destruct Hk as [_ ->]. cbn [is_handlers]. apply lookup_insert_eq. }
  destruct ok2; cbn [negb] in H.
  - rewrite (ih_mod_bind _ _ _ _ _ Hs3) in H. injection H as <- <-. cbn [is_handlers]. eexists. split; [apply lookup_insert_eq|].
    by cbn.
  - injection H as <- <-. eexists. split; [exact Hs3|]. by cbn.
Qed.

(** What becomes of a request to enable a handler.  When the task executes
    it, then either the handler runs; or libraw1394 gave no handle, and the
    request is tried again at the next update; or the handle was made but the
    start failed, and then the next update fails on the assertion that there
    is no handle yet. *)
Lemma enable_request_outcomes s h x s1 :
  is_handlers s !! h = Some x -> ih_state (ih_c x) = eHS_Stopped -> ih_next_state (ih_c x) = eHS_Running ->
  IsoHandler_updateState h s = Some ((), s1) ->
  exists x1, is_handlers s1 !! h = Some x1 /\
    ((ih_state (ih_c x1) = eHS_Running /\ ih_handle (ih_c x1) <> None) \/
     (ih_state (ih_c x1) = eHS_Stopped /\ ih_next_state (ih_c x1) = eHS_Running /\ ih_handle (ih_c x1) = None) \/
     (ih_handle (ih_c x1) <> None /\ IsoHandler_updateState h s1 = None)).
Proof.
  intros Hx Hst Hnx. unfold IsoHandler_updateState at 1. rewrite (ih_get_bind _ _ _ _ _ Hx), Hst, Hnx.
  intros (ok & s2 & H & Hret)%st_bind_inv. injection Hret as <-.
  destruct (enable_outcome _ _ _ _ _ _ Hx Hst H) as (x1 & Hx1 & _ & Htrue & Hfalse). exists x1. split; [done|].
  destruct ok; [left; by destruct (Htrue eq_refl) as (? & _ & ?)|right]. destruct (Hfalse eq_refl) as (Hst1 & Hnx1). rewrite Hnx in Hnx1.
  destruct (ih_handle (ih_c x1)) as [hd|] eqn:Hhd; [right|by left]. split; [done|].
  unfold IsoHandler_updateState. rewrite (ih_get_bind _ _ _ _ _ Hx1), Hst1, Hnx1. unfold IsoHandler_enable.
  unfold mbind at 1, StM_bind at 1. rewrite (ih_get_bind _ _ _ _ _ Hx1), Hst1, bool_decide_false by tauto.
  rewrite (ih_get_bind _ _ _ _ _ Hx1), Hhd. by rewrite bool_decide_false.
Qed.
End handlers.

(** ** A small bus for examples

    The world is a number; a negative one lets every start fail.  A client with
    an even address receives. *)
#[export] Instance small_bus : IsoEnv Z := {|
  raw1394_new_handle_on_port w := (Some 7, w);
  raw1394_iso_recv_init _ _ _ _ _ _ w := (0, w);
  raw1394_iso_recv_start _ _ w := (if w <? 0 then -1 else 0, w);
  raw1394_iso_xmit_init _ _ _ _ _ _ w := (0, w);
  raw1394_iso_xmit_start _ _ w := (if w <? 0 then -1 else 0, w);
  raw1394_wake_up _ w := w; raw1394_iso_stop _ w := w; raw1394_iso_shutdown _ w := w; raw1394_destroy_handle _ w := w;
  raw1394_get_fd hd _ := hd; raw1394_read_cycle_time _ w := w;
  raw1394_next_callback _ w := (None, w); raw1394_callback_done _ _ _ w := w; raw1394_iterate_result _ _ := 0;
  getCycleTimer w := (ctr_at w 0, w + 1); getpagesize _ := 4096; getIsoSetting _ _ := None; usleep _ w := w + 1;
  thread_start _ _ _ w := (0, w); thread_realtime _ _ w := w; watchdog_registerThread _ w := w;
  poll l _ w := (PollOk ((fun _ => POLLIN) <$> l), w); clock_gettime w := (Some (w, 0), w);
  sem_post _ w := w; sem_timedwait _ _ w := (WaitOk, w) |}.

#[export] Instance small_client : IsoClient Z := {|
  client_getType a _ := Some (if Z.even a then ePT_Receive else ePT_Transmit);
  client_getChannel a _ := Some a; client_getMaxPacketSize _ _ := Some 136; client_getPacketsPerPeriod _ _ := Some 64;
  client_canProducePacket _ := mret true; client_canConsumePacket _ := mret true;
  client_putPacket _ _ _ _ _ _ _ _ := mret RAW1394_ISO_OK;
  client_getPacket _ p _ _ _ _ := mret (RAW1394_ISO_OK, p);
  client_handleBusReset _ := mret true; client_handlerDied _ := mret (); client_packetsStopped _ := mret () |}.

Definition small_handler (st next : EHandlerStates) (hd : option Z) (deferred : option Z) : IsoHandler :=
  mkIsoHandler (mkIhSetup eHT_Receive 128 200 31 RAW1394_DMA_PACKET_PER_BUFFER RAW1394_ISO_SPEED_400)
    (mkIhControl hd (Some 2) st next 0) (mkIhTrack 7998 (ctr_at 8003 5) NO_TIME (Some 200) deferred).

Definition small_system (x : IsoHandler) (w : Z) : iso_system Z :=
  mkIso (mkIhm E_Running [1] [2] false 0 (Some IsoTask_new) (Some IsoTask_new) (Some false)) {[1 := x]} w.

(** the first packet behind a gap of three cycles, in which a second has
    begun; and a cycle that is missing but not reported, since one was deferred
    earlier *)
Lemma packets_reported_witness :
  (exists s1, IsoHandler_putPacket 1 [] 0 0 0 0 (8002 mod 8000) 0 (small_system (small_handler eHS_Running eHS_Running (Some 7) None) 0)
              = client_putPacket 2 [] 0 0 0 0 (ctr_at 8002 5) 3 s1) /\
  exists s1 (k : raw1394_iso_disposition * iso_packet -> StM (iso_system Z) (raw1394_iso_disposition * iso_packet)),
    IsoHandler_getPacket 1 (mkPacket [] 0 0 0) (8000 mod 8000) 0 0 (small_system (small_handler eHS_Running eHS_Running (Some 7) (Some 1)) 0)
    = (r ← client_getPacket 2 (mkPacket [] 0 0 0) (ctr_at 8000 5) 0 0 200; k r) s1.
Proof.
  split.
  - eexists. apply (proj1 (packets_reported (small_system (small_handler eHS_Running eHS_Running (Some 7) None) 0) 1 (small_handler eHS_Running eHS_Running (Some 7) None) 2 200 7998 8002 8003 5
      eq_refl eq_refl eq_refl eq_refl eq_refl ltac:(unfold TICKS_PER_CYCLE; lia) ltac:(lia) ltac:(lia)) false); reflexivity.
  - do 2 eexists. etransitivity.
    + apply (proj2 (packets_reported (small_system (small_handler eHS_Running eHS_Running (Some 7) (Some 1)) 0) 1 (small_handler eHS_Running eHS_Running (Some 7) (Some 1)) 2 200 7998 8000 8003 5
        eq_refl eq_refl eq_refl eq_refl eq_refl ltac:(unfold TICKS_PER_CYCLE; lia) ltac:(lia) ltac:(lia)) 1); first [reflexivity|lia].
    + cbn [ih_buf_packets ih_s small_handler Z.ltb]. reflexivity.
Defined.

Lemma enable_request_outcomes_witness :
  exists s1, IsoHandler_updateState 1 (small_system (small_handler eHS_Stopped eHS_Running None None) (-1)) = Some ((), s1) /\
    IsoHandler_updateState 1 s1 = None.
Proof.
  set (s := small_system (small_handler eHS_Stopped eHS_Running None None) (-1)).
  destruct (IsoHandler_updateState 1 s) as [[u s1]|] eqn:Hs; [|vm_compute in Hs; discriminate].
  exists s1. destruct u. split; [reflexivity|].
  destruct (enable_request_outcomes s 1 (small_handler eHS_Stopped eHS_Running None None) s1) as (x1 & Hx1 & Hcase);
    [reflexivity..|exact Hs|].
  vm_compute in Hs. injection Hs as <-. injection Hx1 as <-. destruct Hcase as [[H _]|[(_ & _ & H)|[_ H]]]; [discriminate H|discriminate H|exact H].
Defined.
