(* ===== verification/IsoTask.v ===== *)
(** * IsoTask: the shadow map of an iso task

    The thread of a task polls the handlers in its shadow map; the map follows
    the handlers of the manager when an update is requested.  An update first
    carries out the pending request of each handler of the direction, which may
    call the client: [StopLaws] is what is asked of the client, and IsoStream.v
    shows it of the stream processors. *)
From stdpp Require Import gmap.
From S2P Require Import Prelude StateMonad StreamProcessor IsoHandler.

Section tasks.
Context {W : Type} {IE : IsoEnv W} {IC : IsoClient W}.

Abbreviation M := (StM (iso_system W)).
Implicit Types s : iso_system W.

Definition task_of (t : EHandlerType) (m : IsoHandlerManager) : option IsoTask :=
  match t with eHT_Transmit => im_transmit m | eHT_Receive => im_receive m end.

Definition with_task (t : EHandlerType) (k : IsoTask) s : iso_system W :=
  mkIso (ihm_with_task t (Some k) (is_manager s)) (is_handlers s) (is_world s).

Lemma task_of_with t k m : task_of t (ihm_with_task t (Some k) m) = Some k.
Proof. by destruct t. Qed.

Lemma with_task_twice t k1 k2 s : with_task t k2 (with_task t k1 s) = with_task t k2 s.
Proof. unfold with_task, ihm_with_task. by destruct t. Qed.

Lemma the_task_bind {A} t (g : IsoTask -> M A) s k : task_of t (is_manager s) = Some k -> (y ← the_task t; g y) s = g k s.
Proof. intros Hk. unfold the_task, gets_ihm, st_gets, st_option, mbind, mret, StM_bind, StM_ret. unfold task_of in Hk. destruct t; by rewrite Hk. Qed.

Lemma task_mod_eq t f s k : task_of t (is_manager s) = Some k -> task_mod t f s = Some ((), with_task t (f k) s).
Proof. intros Hk. unfold task_mod. by rewrite (the_task_bind _ _ _ _ Hk). Qed.

Lemma task_mod_bind {A} t f (g : () -> M A) s k :
  task_of t (is_manager s) = Some k -> (y ← task_mod t f; g y) s = g () (with_task t (f k) s).
Proof. intros Hk. rewrite (st_bind_eq _ _ s () (with_task t (f k) s)); [done|]. by apply task_mod_eq. Qed.

(** a handler without a pending request, which has a handle if it runs *)
Definition settled s (h : Z) : Prop :=
  exists x, is_handlers s !! h = Some x /\ ih_next_state (ih_c x) = ih_state (ih_c x) /\
    (ih_state (ih_c x) = eHS_Running -> ih_handle (ih_c x) <> None).

(** the handlers of the direction that run *)
Definition runs_for (t : EHandlerType) s (h : Z) : bool :=
  match is_handlers s !! h with
  | Some x => bool_decide (ih_type (ih_s x) = t) && bool_decide (ih_state (ih_c x) = eHS_Running)
  | None => false
  end.

Definition to_poll (t : EHandlerType) s (l : list Z) : list Z := filter (fun h => Is_true (runs_for t s h)) l.

Lemma to_poll_cons t s h l : to_poll t s (h :: l) = if runs_for t s h then h :: to_poll t s l else to_poll t s l.
Proof. unfold to_poll. rewrite filter_cons. by destruct (runs_for t s h). Qed.

Lemma update_settled {A} s h (g : () -> M A) : settled s h -> (y ← IsoHandler_updateState h; g y) s = g () s.
Proof.
  intros (x & Hx & Hn & _). rewrite (st_bind_eq _ _ s () s); [done|]. unfold IsoHandler_updateState.
  rewrite (ih_get_bind _ _ _ _ _ Hx), Hn. by destruct (ih_state (ih_c x)).
Qed.

(** one entry *)
Lemma shadow_add_spec {A} t s h k cnt (g : () -> M A) x :
  task_of t (is_manager s) = Some k -> is_handlers s !! h = Some x -> ih_handle (ih_c x) <> None ->
  (y ← shadow_add t h cnt; g y) s =
    if bool_decide (cnt < map_size)%nat then
      g () (with_task t (let k1 := tk_with_maps (<[cnt := Some h]> (tk_map k))
                           (<[cnt := Some (mkPollfd (raw1394_get_fd (default 0 (ih_handle (ih_c x))) (is_world s)) POLLIN 0)]> (tk_fds k)) k in
                         if bool_decide (tk_sync k = None) && bool_decide (ih_type (ih_s x) = eHT_Transmit) then tk_with_sync (Some h) k1 else k1) s)
    else None.
Proof.
  intros Hk Hx Hhd. destruct (ih_handle (ih_c x)) as [hd|] eqn:Hh; [|done]. unfold shadow_add.
  assert (Hfd : (hd ← the_handle h; gets_world (raw1394_get_fd hd)) s = Some (raw1394_get_fd hd (is_world s), s)).
  { unfold the_handle. rewrite (st_bind_eq _ _ s hd s); [done|]. rewrite (ih_get_bind _ _ _ _ _ Hx). by rewrite Hh. }
  destruct (bool_decide (cnt < map_size)%nat) eqn:Hc.
  - rewrite (st_bind_eq _ _ s () (with_task t (let k1 := tk_with_maps (<[cnt := Some h]> (tk_map k))
                           (<[cnt := Some (mkPollfd (raw1394_get_fd (default 0 (Some hd)) (is_world s)) POLLIN 0)]> (tk_fds k)) k in
                         if bool_decide (tk_sync k = None) && bool_decide (ih_type (ih_s x) = eHT_Transmit) then tk_with_sync (Some h) k1 else k1) s)); [done|].
    rewrite (st_bind_eq _ _ _ _ _ Hfd). cbn [st_assert]. erewrite st_bind_eq by reflexivity.
    rewrite (ih_get_bind _ _ _ _ _ Hx). unfold task_mod. by rewrite (the_task_bind _ _ _ _ Hk).
  - unfold mbind at 1, StM_bind at 1. rewrite (st_bind_eq _ _ _ _ _ Hfd). reflexivity.
Qed.

Lemma with_task_same t k s : task_of t (is_manager s) = Some k -> with_task t k s = s.
Proof. destruct s as [[] hs w]. unfold with_task, ihm_with_task. destruct t; cbn; intros Hk; by rewrite <- Hk. Qed.

(** what the loop does to the task *)
Definition extends (cnt : nat) (l : list Z) (k k1 : IsoTask) : Prop :=
  tk_map k1 = take cnt (tk_map k) ++ (Some <$> l) ++ drop (cnt + length l) (tk_map k) /\ length (tk_fds k1) = length (tk_fds k) /\
  tk_nfds k1 = tk_nfds k /\ tk_request_update k1 = tk_request_update k /\ tk_running k1 = tk_running k.

Lemma extends_nil cnt k : extends cnt [] k k.
Proof. split; [|done]. cbn. by rewrite Nat.add_0_r, take_drop. Qed.

Lemma extends_cons cnt h l k k1 k2 :
  (cnt < length (tk_map k))%nat -> tk_map k1 = <[cnt := Some h]> (tk_map k) -> length (tk_fds k1) = length (tk_fds k) ->
  tk_nfds k1 = tk_nfds k -> tk_request_update k1 = tk_request_update k -> tk_running k1 = tk_running k ->
  extends (cnt + 1) l k1 k2 -> extends cnt (h :: l) k k2.
Proof.
  intros Hc Hm Hf Hn Hr Hu (H1 & H2 & H3 & H4 & H5). split; [|split_and!; congruence]. rewrite H1, Hm.
  rewrite insert_take_drop by done. rewrite take_app, length_take, Nat.min_l by lia.
  rewrite take_take, Nat.min_r by lia. replace (cnt + 1 - cnt)%nat with 1%nat by lia. cbn [take fmap list_fmap length].
  rewrite <- app_assoc. cbn [app]. do 2 f_equal. rewrite drop_app, length_take, Nat.min_l by lia.
  rewrite (drop_ge (take _ _)) by (rewrite length_take; lia). cbn [app].
  replace (cnt + 1 + length l - cnt)%nat with (S (length l)) by lia. cbn [drop]. rewrite drop_drop, take_0. cbn [app]. do 2 f_equal. lia.
Qed.

Lemma settled_with t k s h : settled s h -> settled (with_task t k s) h.
Proof. done. Qed.

Lemma runs_handle t s h : settled s h -> runs_for t s h = true -> exists x, is_handlers s !! h = Some x /\ ih_handle (ih_c x) <> None.
Proof.
  intros (x & Hx & _ & Hh). unfold runs_for. rewrite Hx, andb_true_iff, !bool_decide_eq_true. intros [_ Hr]. exists x. auto.
Qed.

Lemma shadow_loop_spec t L n : forall i cnt s k,
  task_of t (is_manager s) = Some k -> im_handlers (is_manager s) = L -> (i + n = length L)%nat ->
  length (tk_map k) = map_size -> Forall (settled s) (drop i L) -> (cnt <= map_size)%nat ->
  let l := to_poll t s (drop i L) in
  if bool_decide (cnt + length l <= map_size)%nat
  then exists k1, shadow_loop t n i cnt s = Some ((cnt + length l)%nat, with_task t k1 s) /\ extends cnt l k k1
  else shadow_loop t n i cnt s = None.
Proof.
  induction n as [|n IH]; intros i cnt s k Hk HL Hi Hm Hs Hcnt l.
  { subst l. rewrite drop_ge by lia. cbn. rewrite Nat.add_0_r, bool_decide_true by done. exists k.
    rewrite with_task_same by done. split; [done|apply extends_nil]. }
  destruct (lookup_lt_is_Some_2 L i ltac:(lia)) as [h Hh]. assert (Hd : drop i L = h :: drop (i + 1) L).
  { rewrite (drop_S _ _ _ Hh). do 2 f_equal. lia. }
  subst l. rewrite Hd in Hs |- *. apply Forall_cons in Hs as [Hsh Hs]. rewrite to_poll_cons. cbn [shadow_loop].
  unfold gets_ihm. erewrite st_bind_eq by reflexivity. rewrite HL, Hh. pose proof Hsh as (x & Hx & Hnx & Hrun).
  rewrite (ih_get_bind _ _ _ _ _ Hx). unfold runs_for. rewrite Hx.
  destruct (decide (ih_type (ih_s x) = t)) as [Ht|Ht].
  2:{ rewrite (bool_decide_true (ih_type (ih_s x) <> t)) by done. rewrite (bool_decide_false (ih_type _ = t)) by done. cbn [andb]. apply IH; auto; lia. }
  rewrite (bool_decide_false (ih_type _ <> t)) by tauto. rewrite (bool_decide_true (ih_type _ = t)) by done. cbn [andb].
  rewrite update_settled by done. unfold IsoHandler_isEnabled. rewrite (ih_get_bind _ _ _ _ _ Hx).
  destruct (bool_decide (ih_state (ih_c x) = eHS_Running)) eqn:Hst.
  2:{ erewrite st_bind_eq by reflexivity. rewrite (bool_decide_false (map_size < cnt)%nat) by lia. apply IH; auto; lia. }
  apply bool_decide_eq_true in Hst. specialize (Hrun Hst).
  set (k1 := let k1 := tk_with_maps (<[cnt := Some h]> (tk_map k))
               (<[cnt := Some (mkPollfd (raw1394_get_fd (default 0 (ih_handle (ih_c x))) (is_world s)) POLLIN 0)]> (tk_fds k)) k in
             if bool_decide (tk_sync k = None) && bool_decide (ih_type (ih_s x) = eHT_Transmit) then tk_with_sync (Some h) k1 else k1).
  pose proof (shadow_add_spec t s h k cnt (fun _ => mret (cnt + 1)%nat) x Hk Hx Hrun) as Hadd. cbv zeta in Hadd. fold k1 in Hadd.
  cbn [length]. destruct (decide (cnt < map_size)%nat) as [Hlt|Hge].
  2:{ rewrite (bool_decide_false (cnt < _)%nat) in Hadd by done. rewrite bool_decide_false by lia.
      unfold mbind at 1, StM_bind at 1. by rewrite Hadd. }
  rewrite bool_decide_true in Hadd by done. rewrite (st_bind_eq _ _ s (cnt + 1)%nat (with_task t k1 s)) by exact Hadd.
  rewrite (bool_decide_false (map_size < cnt + 1)%nat) by lia.
  assert (Hk1 : tk_map k1 = <[cnt := Some h]> (tk_map k) /\ length (tk_fds k1) = length (tk_fds k) /\ tk_nfds k1 = tk_nfds k /\
    tk_request_update k1 = tk_request_update k /\ tk_running k1 = tk_running k).
  { subst k1. cbv zeta. case_match; cbn; by rewrite length_insert. }
  destruct Hk1 as (Hm1 & Hf1 & Hn1 & Hr1 & Hu1).
  specialize (IH (i + 1)%nat (cnt + 1)%nat (with_task t k1 s) k1). cbv zeta in IH.
  replace (cnt + S (length (to_poll t s (drop (i + 1) L))))%nat with (cnt + 1 + length (to_poll t s (drop (i + 1) L)))%nat by lia.
  assert (IH' := IH (task_of_with _ _ _) ltac:(by destruct t) ltac:(lia) ltac:(by rewrite Hm1, length_insert) Hs ltac:(lia)).
  change (to_poll t (with_task t k1 s)) with (to_poll t s) in IH'. case_bool_decide; [|done].
  destruct IH' as (k2 & H2 & Hext). exists k2. rewrite with_task_twice in H2. split; [done|].
  eapply extends_cons; [lia|done..].
Qed.

(** ** Updates that do something *)

(** What is asked of the client of a handler: [packetsStopped] leaves the
    manager and the handlers alone. *)
Class StopLaws : Prop := stop_keeps a :: StKeeps same_objects (client_packetsStopped a).

(** only the handler [h] has changed, but not its setup *)
Definition only_handler (h : Z) s s1 : Prop :=
  is_manager s1 = is_manager s /\ (forall g, g <> h -> is_handlers s1 !! g = is_handlers s !! g) /\
  (forall x, is_handlers s !! h = Some x -> exists x1, is_handlers s1 !! h = Some x1 /\ ih_s x1 = ih_s x).

#[local] Instance only_handler_preorder h : PreOrder (only_handler h).
Proof.
  split; [split; [done|]; split; [done|eauto]|]. intros s1 s2 s3 (A1 & A2 & A3) (B1 & B2 & B3). split; [congruence|]. split.
  - intros g Hg. by rewrite B2, A2.
  - intros x (x1 & Hx1 & He)%A3. destruct (B3 x1 Hx1) as (x2 & ? & ?). exists x2. split; [done|congruence].
Qed.

Lemma only_of_objects {A} h (m : M A) : StKeeps same_objects m -> StKeeps (only_handler h) m.
Proof. intros Hm s x s1 [H1 H2]%Hm. split; [done|]. rewrite H2. split; [done|eauto]. Qed.

Lemma only_ih_mod h f : (forall x, ih_s (f x) = ih_s x) -> StKeeps (only_handler h) (ih_mod h f).
Proof.
  intros Hf s u s1. unfold ih_mod. destruct (is_handlers s !! h) as [x|] eqn:Hx; [|done]. intros [= _ <-]. split; [done|]. cbn [is_handlers].
  split; [intros g Hg; by rewrite lookup_insert_ne|]. intros x0 Hx0. rewrite Hx in Hx0. injection Hx0 as <-. exists (f x). by rewrite lookup_insert_eq.
Qed.

Lemma only_updateState `{!StopLaws} h : StKeeps (only_handler h) (IsoHandler_updateState h).
Proof.
  assert (Ha : forall b, StKeeps (only_handler h) (st_assert b)) by (intros b; unfold st_assert; apply _).
  unfold IsoHandler_updateState, IsoHandler_enable, IsoHandler_disable.
  repeat first [ apply st_keeps_bind; [apply _| |intros] | apply only_ih_mod; intros; reflexivity
               | apply only_of_objects; apply _ | apply _ | case_match ].
Qed.

(** [h] was updated on the way from [s] to [s1] *)
Definition updated (h : Z) s s1 : Prop :=
  exists sa sb, is_handlers sa !! h = is_handlers s !! h /\ IsoHandler_updateState h sa = Some ((), sb) /\
    is_handlers s1 !! h = is_handlers sb !! h.

(** whether [h] is for the direction [t] *)
Definition directed (t : EHandlerType) s (h : Z) : Prop := exists x, is_handlers s !! h = Some x /\ ih_type (ih_s x) = t.

(** what the loop does to the handlers of [l] *)
Definition all_updated (t : EHandlerType) (l : list Z) s s1 : Prop :=
  (forall h, h ∈ l -> directed t s h -> updated h s s1) /\
  (forall h, ~ (h ∈ l /\ directed t s h) -> is_handlers s1 !! h = is_handlers s !! h).

Lemma all_updated_skip t h l s s1 : ~ directed t s h -> all_updated t l s s1 -> all_updated t (h :: l) s s1.
Proof.
  intros Hh [H1 H2]. split.
  - intros g [->|Hg]%elem_of_cons Hd; [done|by apply H1].
  - intros g Hg. apply H2. intros [Hin Hd]. apply Hg. split; [by right|done].
Qed.

Lemma all_updated_step t h l s s2 s1 :
  h ∉ l -> directed t s h -> IsoHandler_updateState h s = Some ((), s2) -> (forall g, g <> h -> is_handlers s2 !! g = is_handlers s !! g) ->
  all_updated t l s2 s1 -> all_updated t (h :: l) s s1.
Proof.
  intros Hh Hd Hu Ho [H1 H2]. assert (Hin : is_handlers s1 !! h = is_handlers s2 !! h) by (apply H2; by intros [? _]). split.
  - intros g Hg Hgd. apply elem_of_cons in Hg. destruct (decide (g = h)) as [->|Hne]; [by exists s, s2|]. destruct Hg as [?|Hg]; [done|].
    destruct (H1 g Hg) as (sa & sb & A1 & A2 & A3); [unfold directed; by rewrite Ho|]. exists sa, sb. by rewrite <- (Ho g Hne).
  - intros g Hg. destruct (decide (g = h)) as [->|Hne]; [destruct Hg; split; [by left|done]|]. rewrite H2; [by apply Ho|].
    intros [Hgl Hgd]. apply Hg. split; [by right|]. unfold directed in *. by rewrite <- (Ho g Hne).
Qed.

Lemma runs_same t s s1 h : is_handlers s1 !! h = is_handlers s !! h -> runs_for t s1 h = runs_for t s h.
Proof. intros He. unfold runs_for. by rewrite He. Qed.

(** a handler that was added *)
Lemma shadow_add_inv t s h k cnt u s1 x :
  task_of t (is_manager s) = Some k -> is_handlers s !! h = Some x -> shadow_add t h cnt s = Some (u, s1) ->
  (cnt < map_size)%nat /\ exists k1, s1 = with_task t k1 s /\ tk_map k1 = <[cnt := Some h]> (tk_map k) /\ length (tk_fds k1) = length (tk_fds k) /\
    tk_nfds k1 = tk_nfds k /\ tk_request_update k1 = tk_request_update k /\ tk_running k1 = tk_running k.
Proof.
  intros Hk Hx Ha. destruct (ih_handle (ih_c x)) as [hd|] eqn:Hh.
  2:{ exfalso. unfold shadow_add, the_handle in Ha. apply st_bind_inv in Ha as (fd & s2 & Hf & _). apply st_bind_inv in Hf as (hd & s3 & Hf & _).
      rewrite (ih_get_bind _ _ _ _ _ Hx), Hh in Hf. done. }
  pose proof (shadow_add_spec t s h k cnt (fun _ => mret ()) x Hk Hx ltac:(by rewrite Hh)) as Hs. rewrite (st_bind_eq _ _ _ _ _ Ha) in Hs.
  case_bool_decide as Hc; [|done]. split; [done|]. injection Hs as ->. eexists. split; [reflexivity|]. case_match; cbn; by rewrite length_insert.
Qed.

Lemma shadow_loop_updates `{!StopLaws} t L n : forall i cnt s k c s1,
  shadow_loop t n i cnt s = Some (c, s1) -> task_of t (is_manager s) = Some k -> im_handlers (is_manager s) = L -> NoDup L ->
  (i + n = length L)%nat -> length (tk_map k) = map_size -> (cnt <= map_size)%nat ->
  exists k1, task_of t (is_manager s1) = Some k1 /\ im_handlers (is_manager s1) = L /\ all_updated t (drop i L) s s1 /\
    let l := to_poll t s1 (drop i L) in c = (cnt + length l)%nat /\ (c <= map_size)%nat /\ extends cnt l k k1.
Proof.
  induction n as [|n IH]; intros i cnt s k c s1 Hrun Hk HL Hnd Hi Hm Hcnt.
  { injection Hrun as <- <-. exists k. rewrite drop_ge by lia. split; [done|]. split; [done|]. split; [split; [intros h Hh; by apply not_elem_of_nil in Hh|done]|].
    cbn. rewrite Nat.add_0_r. split; [done|]. split; [done|apply extends_nil]. }
  destruct (lookup_lt_is_Some_2 L i ltac:(lia)) as [h Hh]. assert (Hd : drop i L = h :: drop (i + 1) L).
  { rewrite (drop_S _ _ _ Hh). do 2 f_equal. lia. }
  assert (Hhl : h ∉ drop (i + 1) L).
  { rewrite <- (take_drop i L), Hd in Hnd. apply NoDup_app in Hnd as (_ & _ & Hnd). by apply NoDup_cons in Hnd as [? _]. }
  rewrite Hd. cbv zeta. rewrite to_poll_cons. cbn [shadow_loop] in Hrun.
  unfold gets_ihm in Hrun. erewrite st_bind_eq in Hrun by reflexivity. rewrite HL, Hh in Hrun.
  destruct (is_handlers s !! h) as [x|] eqn:Hx; [|unfold ih_get, mbind, StM_bind in Hrun; by rewrite Hx in Hrun].
  rewrite (ih_get_bind _ _ _ _ _ Hx) in Hrun. case_bool_decide as Ht.
  { assert (Hnot : ~ directed t s h) by (intros (x0 & Hx0 & Ht0); congruence).
    destruct (IH _ _ _ _ _ _ Hrun Hk HL Hnd) as (k1 & H1 & H2 & H3 & H4); [lia|done|done|]. exists k1. split; [done|]. split; [done|].
    split; [by apply all_updated_skip|]. destruct H3 as [_ H3].
    rewrite (runs_same t s s1) by (apply H3; by intros [? _]). unfold runs_for. rewrite Hx, bool_decide_false by done. exact H4. }
  apply st_bind_inv in Hrun as ([] & s2 & Hu & Hrun). pose proof (only_updateState h _ _ _ Hu) as (Hm2 & Ho2 & Hx2).
  destruct (Hx2 x Hx) as (x2 & Hx2' & Hset). assert (Hdir : directed t s h) by by exists x.
  unfold IsoHandler_isEnabled in Hrun. rewrite (ih_get_bind _ _ _ _ _ Hx2') in Hrun.
  assert (Hst : forall s3 k3 cnt3, (cnt3 <= map_size)%nat -> shadow_loop t n (i + 1) cnt3 s3 = Some (c, s1) -> task_of t (is_manager s3) = Some k3 ->
    is_handlers s3 = is_handlers s2 -> im_handlers (is_manager s3) = L -> length (tk_map k3) = map_size ->
    exists k1, task_of t (is_manager s1) = Some k1 /\ im_handlers (is_manager s1) = L /\ all_updated t (h :: drop (i + 1) L) s s1 /\
      runs_for t s1 h = runs_for t s2 h /\
      let l := to_poll t s1 (drop (i + 1) L) in c = (cnt3 + length l)%nat /\ (c <= map_size)%nat /\ extends cnt3 l k3 k1).
  { intros s3 k3 cnt3 Hc3 Hr3 Hk3 Hh3 HL3 Hm3. destruct (IH _ _ _ _ _ _ Hr3 Hk3 HL3 Hnd) as (k1 & H1 & H2 & H3 & H4); [lia|done|done|].
    assert (H3' : all_updated t (drop (i + 1) L) s2 s1).
    { destruct H3 as [A1 A2]. unfold all_updated, updated, directed in *. rewrite Hh3 in A1, A2. by split. }
    exists k1. split; [done|]. split; [done|]. split; [by eapply all_updated_step|].
    split; [|exact H4]. apply runs_same. destruct H3' as [_ A2]. apply A2. by intros [? _]. }
  case_bool_decide as Hrs.
  - apply st_bind_inv in Hrun as (cnt1 & s3 & Ha & Hrun). apply st_bind_inv in Ha as (u & s4 & Ha & Hret). injection Hret as <- <-.
    destruct (shadow_add_inv t s2 h k cnt _ _ x2 ltac:(by rewrite Hm2) Hx2' Ha) as (Hlt & k3 & -> & E1 & E2 & E3 & E4 & E5).
    rewrite bool_decide_false in Hrun by lia.
    destruct (Hst _ k3 (cnt + 1)%nat ltac:(lia) Hrun) as (k1 & H1 & H2 & H3 & H4 & H5 & H6 & H7);
      [by apply task_of_with|done|by destruct t; cbn; rewrite Hm2|by rewrite E1, length_insert|].
    exists k1. split; [done|]. split; [done|]. split; [done|].
    rewrite H4. unfold runs_for. rewrite Hx2'. rewrite (bool_decide_true (ih_type _ = t)) by (by rewrite Hset). rewrite bool_decide_true by done. cbn [andb length].
    split; [lia|]. split; [done|]. eapply extends_cons; [lia|done..].
  - rewrite (st_bind_eq _ _ s2 cnt s2) in Hrun by done. rewrite bool_decide_false in Hrun by lia.
    destruct (Hst _ k cnt Hcnt Hrun) as (k1 & H1 & H2 & H3 & H4 & H5); [by rewrite Hm2|done|by rewrite Hm2|done|].
    exists k1. split; [done|]. split; [done|]. split; [done|].
    rewrite H4. unfold runs_for. rewrite Hx2', (bool_decide_false (ih_state _ = _)), andb_false_r by done. exact H5.
Qed.

(** the map a task polls, after the loop *)
Lemma polled_handlers t s k1 l f :
  extends 0 l (tk_with_sync None k1) f -> let g := fun k => let k0 := if bool_decide (tk_sync k = None) && negb (tk_nfds k =? 0) then tk_with_sync (mjoin (head (tk_map k))) k else k in
    tk_with_nfds (Z.of_nat (length l)) k0 in
  shadow_handlers t (with_task t (g f) s) = Some (l, with_task t (g f) s).
Proof.
  intros (Hext & _) g. unfold shadow_handlers. rewrite (the_task_bind t _ (with_task t (g f) s) (g f) (task_of_with _ _ _)).
  assert (Hg : tk_nfds (g f) = Z.of_nat (length l) /\ tk_map (g f) = tk_map f) by (subst g; cbv beta zeta; by case_match).
  destruct Hg as [-> ->]. rewrite Nat2Z.id, Hext, take_0. cbn [app].
  rewrite (take_app_length' (Some <$> l)) by (by rewrite length_fmap).
  replace (mapM id (Some <$> l)) with (Some l); [done|]. clear. induction l as [|h l IH]; [done|]. cbn. by rewrite <- IH.
Qed.

(** C19: the shadow map of a task.  During a bus reset an update empties it and
    touches no handler.  Otherwise an update that returns has run
    [IsoHandler_updateState] on every handler of the direction of the task, and
    on no other: each such handler is as that call leaves it, each other one is
    unchanged; afterwards the task polls exactly the handlers of its direction
    that now run, in the order of the manager, and they are at most
    [ISOHANDLERMANAGER_MAX_ISO_HANDLERS_PER_PORT].  If no handler has a pending
    request, and each that runs has its handle, the update returns with all
    handlers unchanged, unless more than that number run: then the loop writes behind the end of the map before it
    tests the number.  The manager lists each handler once, and the client's
    [packetsStopped] is assumed to leave the manager and the handlers alone. *)
Theorem shadow_map_current `{!StopLaws} t s k :
  task_of t (is_manager s) = Some k -> length (tk_map k) = map_size -> NoDup (im_handlers (is_manager s)) ->
  let handlers := im_handlers (is_manager s) in
  if tk_in_busreset k
  then exists s1, IsoTask_updateShadowMapHelper t s = Some ((), s1) /\ is_handlers s1 = is_handlers s /\ shadow_handlers t s1 = Some ([], s1)
  else
    (forall s1, IsoTask_updateShadowMapHelper t s = Some ((), s1) ->
       let l := to_poll t s1 handlers in
       all_updated t handlers s s1 /\ im_handlers (is_manager s1) = handlers /\
       shadow_handlers t s1 = Some (l, s1) /\ Z.of_nat (length l) <= ISOHANDLERMANAGER_MAX_ISO_HANDLERS_PER_PORT) /\
    (Forall (settled s) handlers ->
       if bool_decide (Z.of_nat (length (to_poll t s handlers)) <= ISOHANDLERMANAGER_MAX_ISO_HANDLERS_PER_PORT)
       then exists s1, IsoTask_updateShadowMapHelper t s = Some ((), s1) /\ is_handlers s1 = is_handlers s
       else IsoTask_updateShadowMapHelper t s = None).
Proof.
  intros Hk Hm Hnd. cbv zeta. unfold IsoTask_updateShadowMapHelper. rewrite (the_task_bind _ _ _ _ Hk).
  destruct (tk_in_busreset k) eqn:Hb.
  { exists (with_task t (tk_with_nfds 0 k) s). split; [by apply task_mod_eq|]. split; [done|].
    unfold shadow_handlers. by rewrite (the_task_bind t _ (with_task t (tk_with_nfds 0 k) s) (tk_with_nfds 0 k) (task_of_with _ _ _)). }
  unfold gets_ihm. erewrite st_bind_eq by reflexivity. rewrite (task_mod_bind _ _ _ _ _ Hk).
  set (L := im_handlers (is_manager s)) in *. set (s0 := with_task t (tk_with_sync None k) s). assert (HL : im_handlers (is_manager s0) = L) by by destruct t.
  split.
  - intros s2 (c & s1 & Hl & Hf)%st_bind_inv.
    destruct (shadow_loop_updates t L (length L) 0 0 s0 (tk_with_sync None k) c s1 Hl (task_of_with _ _ _) HL Hnd eq_refl Hm ltac:(lia))
      as (k1 & H1 & H2 & H3 & H4 & H5 & H6). rewrite drop_0 in *. cbn [Nat.add] in H4. subst c.
    rewrite (task_mod_eq t _ s1 k1 H1) in Hf. injection Hf as <-. split; [exact H3|]. split; [by destruct t|]. split.
    + by apply (polled_handlers t s1 k).
    + change (to_poll t (with_task t _ s1)) with (to_poll t s1). unfold map_size in H5. unfold ISOHANDLERMANAGER_MAX_ISO_HANDLERS_PER_PORT in *. lia.
  - intros Hs.
    pose proof (shadow_loop_spec t L (length L) 0 0 s0 (tk_with_sync None k) (task_of_with _ _ _) HL eq_refl Hm Hs ltac:(lia)) as Hloop.
    change (to_poll t s0) with (to_poll t s) in Hloop. rewrite drop_0 in Hloop. cbv zeta in Hloop. cbn [Nat.add] in Hloop.
    unfold map_size in Hloop. unfold ISOHANDLERMANAGER_MAX_ISO_HANDLERS_PER_PORT in *.
    destruct (decide (Z.of_nat (length (to_poll t s L)) <= 16)) as [Hl|Hl].
    2:{ rewrite bool_decide_false in Hloop by lia. rewrite bool_decide_false by done. unfold mbind at 1, StM_bind at 1. by rewrite Hloop. }
    rewrite bool_decide_true in Hloop by lia. rewrite bool_decide_true by done. destruct Hloop as (k1 & H1 & _).
    rewrite (st_bind_eq _ _ _ _ _ H1). eexists. split; [apply task_mod_eq; apply task_of_with|]. done.
Qed.
End tasks.

#[export] Instance small_stop_laws : StopLaws (W := Z).
Proof. intros a. apply _. Qed.

(** the task of [three_handlers] *)
Definition three_task : IsoTask := tk_with_maps (replicate map_size None) (replicate map_size None) IsoTask_new.

(** one receive handler runs, one is to be stopped, one transmits *)
Definition three_handlers : iso_system Z :=
  let x := small_handler eHS_Running eHS_Running (Some 7) None in
  mkIso (mkIhm E_Running [1; 2; 3] [2; 4; 5] false 0 None (Some three_task) (Some false))
    {[1 := x; 2 := small_handler eHS_Running eHS_Stopped (Some 8) None; 3 := mkIsoHandler (mkIhSetup eHT_Transmit 128 200 31 RAW1394_DMA_PACKET_PER_BUFFER RAW1394_ISO_SPEED_400) (ih_c x) (ih_t x)]} 0.

Lemma shadow_map_current_witness :
  exists s1, IsoTask_updateShadowMapHelper eHT_Receive three_handlers = Some ((), s1) /\ shadow_handlers eHT_Receive s1 = Some ([1], s1) /\
    (ih_state ∘ ih_c <$> is_handlers three_handlers !! 2) = Some eHS_Running /\ (ih_state ∘ ih_c <$> is_handlers s1 !! 2) = Some eHS_Stopped /\
    updated 2 three_handlers s1 /\ is_handlers s1 !! 3 = is_handlers three_handlers !! 3.
Proof.
  destruct (IsoTask_updateShadowMapHelper eHT_Receive three_handlers) as [[[] s1]|] eqn:Hr; [|vm_compute in Hr; discriminate Hr].
  assert (Hn : NoDup (im_handlers (is_manager three_handlers))) by (apply (bool_decide_unpack _); vm_compute; exact I).
  destruct (shadow_map_current eHT_Receive three_handlers three_task eq_refl eq_refl Hn) as [H _].
  destruct (H s1 Hr) as ((Hu & Ho) & _ & Hp & _). exists s1. split; [reflexivity|].
  assert (Hs : is_handlers s1 = is_handlers s1) by reflexivity.
  split; [|split; [reflexivity|]].
  - rewrite Hp. vm_compute in Hr. injection Hr as <-. vm_compute. reflexivity.
  - split; [vm_compute in Hr; injection Hr as <-; vm_compute; reflexivity|]. split.
    + apply Hu; [apply (bool_decide_unpack _); vm_compute; exact I|]. eexists. split; [reflexivity|reflexivity].
    + apply Ho. intros [_ (x & Hx & Ht)]. vm_compute in Hx. injection Hx as <-. discriminate Ht.
Defined.
