(* ===== verification/IsoManager.v ===== *)
(** * IsoManager: the manager of libieee1394/IsoHandlerManager.cpp

    The iso handler manager gives every registered stream a handler of its
    own, sized for the stream, and starts and stops the handlers through the
    tasks of IsoHandler.v. *)
From stdpp Require Import gmap strings.
From S2P Require Import Prelude Memory CycleTimer StreamProcessor StateMonad IsoHandler.

(** config.h *)
Definition MINIMUM_INTERRUPTS_PER_PERIOD : Z := 2.
Definition MAX_XMIT_PACKET_SIZE : Z := 2048 - 16.
Definition MIN_XMIT_PACKET_SIZE : Z := 72.
Definition MAX_XMIT_NB_BUFFERS : Z := 128.
Definition MAX_RECV_NB_BUFFERS : Z := 128.
Definition MIN_RECV_PACKET_SIZE : Z := 72.
Definition DEFAULT_ISO_RECEIVE_MODE : Z := 0.
Definition BUFFERFILL_MODE_THRESHOLD : Z := 64.
Definition ISOHANDLERMANAGER_ISO_PRIO_INCREASE : Z := 0.
Definition ISOHANDLERMANAGER_ISO_PRIO_INCREASE_RECV : Z := -1.
Definition ISOHANDLERMANAGER_ISO_PRIO_INCREASE_XMIT : Z := 1.
Definition THREAD_MAX_RTPRIO : Z := 98.
Definition THREAD_MIN_RTPRIO : Z := 1.

Definition IsoHandlerManager_new : IsoHandlerManager := mkIhm E_Created [] [] false 0 None None None.

Definition IsoHandlerManager_new_rt (run_rt : bool) (rt_prio : Z) : IsoHandlerManager :=
  mkIhm E_Created [] [] run_rt rt_prio None None (Some false).

(** ** Sizes *)

(** the settings for a receive handler *)
Record recv_settings := mkRecvSettings {
  rs_iso_receive_mode : Z; rs_bufferfill_mode_threshold : Z; rs_min_interrupts_per_period : Z; rs_max_nb_buffers : Z;
  rs_min_packetsize : Z }.

Record xmit_settings := mkXmitSettings {
  xs_min_interrupts_per_period : Z; xs_max_nb_buffers : Z; xs_max_packetsize : Z; xs_min_packetsize : Z }.

(** automatic, or what the setting says; a bogus setting leaves the default *)
Definition choose_receive_mode (c : recv_settings) (packets_per_period : Z) : raw1394_iso_dma_recv_mode :=
  if rs_iso_receive_mode c =? 0 then
    if packets_per_period <? u32 (rs_bufferfill_mode_threshold c) then RAW1394_DMA_PACKET_PER_BUFFER else RAW1394_DMA_BUFFERFILL
  else if rs_iso_receive_mode c =? 1 then RAW1394_DMA_PACKET_PER_BUFFER
  else if rs_iso_receive_mode c =? 2 then RAW1394_DMA_BUFFERFILL
  else RAW1394_DMA_PACKET_PER_BUFFER.

(** The interval of the interrupts: at least two per period and two per
    buffer.  The division is one of [unsigned int]; by 0 it is undefined. *)
Definition choose_irq_interval (packets_per_period min_interrupts buffers : Z) : option Z :=
  if u32 min_interrupts =? 0 then None
  else
    let irq := s32 (u32 (packets_per_period - 1) / u32 min_interrupts) in
    let irq := if irq <=? 0 then 1 else irq in
    Some (if buffers `quot` 2 <? irq then buffers `quot` 2 else irq).

(** the size of the packets, and [None] for a stream whose packets are too
    large *)
Definition recv_packet_size (c : recv_settings) (page_size stream_max : Z) : option Z :=
  let size := u32 (stream_max + 8) in
  if page_size <? size then None
  else
    let size := if size <? u32 (rs_min_packetsize c) then u32 (rs_min_packetsize c) else size in
    Some (if size <? 200 then 200 else size).

Definition xmit_packet_size (c : xmit_settings) (stream_max : Z) : option Z :=
  let size := u32 (stream_max + 8) in
  if u32 (xs_max_packetsize c) <? size then None
  else Some (if size <? u32 (xs_min_packetsize c) then u32 (xs_min_packetsize c) else size).

Section manager.
Context {W : Type} {IE : IsoEnv W} {IC : IsoClient W}.

Abbreviation M := (StM (iso_system W)).
Implicit Types s : iso_system W.

(** a setting of the configuration file, or the default *)
Definition iso_setting (name : string) (default_value : Z) : M Z :=
  gets_world (fun w => default default_value (getIsoSetting name w)).

Definition get_recv_settings : M recv_settings :=
  a ← iso_setting "ieee1394.isomanager.iso_receive_mode" DEFAULT_ISO_RECEIVE_MODE;
  b ← iso_setting "ieee1394.isomanager.bufferfill_mode_threshold" BUFFERFILL_MODE_THRESHOLD;
  c ← iso_setting "ieee1394.isomanager.min_interrupts_per_period" MINIMUM_INTERRUPTS_PER_PERIOD;
  d ← iso_setting "ieee1394.isomanager.max_nb_buffers_recv" MAX_RECV_NB_BUFFERS;
  e ← iso_setting "ieee1394.isomanager.min_packetsize_recv" MIN_RECV_PACKET_SIZE;
  mret (mkRecvSettings a b c d e).

Definition get_xmit_settings : M xmit_settings :=
  a ← iso_setting "ieee1394.isomanager.min_interrupts_per_period" MINIMUM_INTERRUPTS_PER_PERIOD;
  b ← iso_setting "ieee1394.isomanager.max_nb_buffers_xmit" MAX_XMIT_NB_BUFFERS;
  c ← iso_setting "ieee1394.isomanager.max_packetsize_xmit" MAX_XMIT_PACKET_SIZE;
  d ← iso_setting "ieee1394.isomanager.min_packetsize_xmit" MIN_XMIT_PACKET_SIZE;
  mret (mkXmitSettings a b c d).

(** ** Handlers *)

Definition requestShadowMapUpdate : M () :=
  x ← gets_ihm im_transmit;
  (if bool_decide (x = None) then mret () else IsoTask_requestShadowMapUpdate eHT_Transmit);;
  r ← gets_ihm im_receive;
  (if bool_decide (r = None) then mret () else IsoTask_requestShadowMapUpdate eHT_Receive).

Definition registerHandler (h : Z) : M bool :=
  mod_ihm (fun m => mkIhm (im_state m) (im_handlers m ++ [h]) (im_streams m) (im_realtime m) (im_priority m)
    (im_transmit m) (im_receive m) (im_missed_cycles_ok m));;
  requestShadowMapUpdate;;
  mret true.

Definition ihm_with_handlers (l : list Z) (m : IsoHandlerManager) : IsoHandlerManager :=
  mkIhm (im_state m) l (im_streams m) (im_realtime m) (im_priority m) (im_transmit m) (im_receive m) (im_missed_cycles_ok m).

Definition ihm_with_streams (l : list Z) (m : IsoHandlerManager) : IsoHandlerManager :=
  mkIhm (im_state m) (im_handlers m) l (im_realtime m) (im_priority m) (im_transmit m) (im_receive m) (im_missed_cycles_ok m).

Definition ihm_with_state (st : ihm_state) (m : IsoHandlerManager) : IsoHandlerManager :=
  mkIhm st (im_handlers m) (im_streams m) (im_realtime m) (im_priority m) (im_transmit m) (im_receive m) (im_missed_cycles_ok m).

Definition unregisterHandler (h : Z) : M bool :=
  l ← gets_ihm im_handlers;
  if bool_decide (h ∈ l) then
    mod_ihm (ihm_with_handlers (remove_first h l));; requestShadowMapUpdate;; mret true
  else mret false.

(** the elements for which the test fails *)
Fixpoint not_used (l : list Z) : M (list Z) :=
  match l with
  | [] => mret []
  | h :: l' => used ← IsoHandler_inUse h; rest ← not_used l'; mret (if used : bool then rest else h :: rest)
  end.

Definition pruneHandlers : M () :=
  l ← gets_ihm im_handlers;
  toUnregister ← not_used l;
  each_do (fun h => _ ← unregisterHandler h; IsoHandler_delete h) toUnregister.

(** the first handler of a stream *)
Definition getHandlerForStream (a : Z) : M (option Z) :=
  l ← gets_ihm im_handlers; find_first (IsoHandler_isStreamRegistered a) l.

Definition getPacketLatencyForStream (a : Z) : M Z :=
  h ← getHandlerForStream a;
  match h with Some h => ih_get h (fun x => ih_irq_interval (ih_s x)) | None => mret 0 end.

(** a null handler is undefined *)
Definition setIsoStartCycleForStream (a cycle : Z) : M () :=
  h ← getHandlerForStream a; h ← st_option h; IsoHandler_setIsoStartCycle cycle h.

(** [new IsoHandler(...)]: an object at an address that is not in use *)
Definition new_handler (x : IsoHandler) : M Z := fun s =>
  let h := fresh (dom (is_handlers s) : gset Z) in Some (h, mkIso (is_manager s) (<[h := x]> (is_handlers s)) (is_world s)).

(** the handler for a receive stream; [None] when its packets are too large *)
Definition create_recv_handler (a : Z) : M (option Z) :=
  c ← get_recv_settings;
  packets ← gets_world (client_getPacketsPerPeriod a); packets_per_period ← st_option packets;
  size ← gets_world (client_getMaxPacketSize a); stream_max ← st_option size;
  page_size ← gets_world getpagesize;
  match recv_packet_size c (u32 page_size) stream_max with
  | None => mret None
  | Some max_packet_size =>
      irq ← st_option (choose_irq_interval packets_per_period (rs_min_interrupts_per_period c) (rs_max_nb_buffers c));
      h ← new_handler (IsoHandler_new_sized eHT_Receive (u32 (rs_max_nb_buffers c)) max_packet_size irq);
      IsoHandler_setReceiveMode (choose_receive_mode c packets_per_period) h;;
      mret (Some h)
  end.

Definition create_xmit_handler (a : Z) : M (option Z) :=
  c ← get_xmit_settings;
  size ← gets_world (client_getMaxPacketSize a); stream_max ← st_option size;
  match xmit_packet_size c stream_max with
  | None => mret None
  | Some max_packet_size =>
      packets ← gets_world (client_getPacketsPerPeriod a); packets_per_period ← st_option packets;
      irq ← st_option (choose_irq_interval packets_per_period (xs_min_interrupts_per_period c) (xs_max_nb_buffers c));
      h ← new_handler (IsoHandler_new_sized eHT_Transmit (u32 (xs_max_nb_buffers c)) max_packet_size irq);
      mret (Some h)
  end.

Definition registerStream (a : Z) : M bool :=
  attached ← getHandlerForStream a;
  if bool_decide (attached <> None) then mret false
  else
    pruneHandlers;;
    type ← gets_world (client_getType a); type ← st_option type;
    h ← match type with ePT_Receive => create_recv_handler a | ePT_Transmit => create_xmit_handler a end;
    match h with
    | None => mret false
    | Some h =>
        ok ← IsoHandler_registerStream a h;
        if negb ok then mret false
        else
          ok ← registerHandler h;
          if negb ok then mret false
          else l ← gets_ihm im_streams; mod_ihm (ihm_with_streams (l ++ [a]));; mret true
    end.

Definition unregisterStream (a : Z) : M bool :=
  l ← gets_ihm im_handlers;
  ok ← each (fun h => registered ← IsoHandler_isStreamRegistered a h;
                      if registered : bool then IsoHandler_unregisterStream a h else mret true) l;
  if negb ok then mret false
  else
    pruneHandlers;;
    l ← gets_ihm im_streams;
    if bool_decide (a ∈ l) then mod_ihm (ihm_with_streams (remove_first a l));; mret true
    else mret false.

(** ** Starting and stopping *)

Definition startHandlerForStream (a cycle : Z) : M bool :=
  st ← gets_ihm im_state;
  if bool_decide (st <> E_Running) then mret false
  else
    h ← getHandlerForStream a;
    match h with
    | None => mret false
    | Some h =>
        ok ← IsoHandler_requestEnable cycle h;
        if negb ok then mret false
        else type ← ih_get h (fun x => ih_type (ih_s x)); IsoTask_requestShadowMapUpdate type;; mret true
    end.

(** a request to disable a handler, and to look at it *)
Definition request_stop (h : Z) : M bool :=
  ok ← IsoHandler_requestDisable h;
  if negb ok then mret false
  else type ← ih_get h (fun x => ih_type (ih_s x)); IsoTask_requestShadowMapUpdate type;; mret true.

Definition stopHandlerForStream (a : Z) : M bool :=
  st ← gets_ihm im_state;
  if bool_decide (st <> E_Running) then mret false
  else
    h ← getHandlerForStream a;
    match h with
    | None => mret false
    | Some h => request_stop h
    end.

Definition stopHandlers : M bool :=
  st ← gets_ihm im_state;
  if bool_decide (st <> E_Running) then mret false
  else l ← gets_ihm im_handlers; each request_stop l.

Definition ihm_reset : M bool :=
  st ← gets_ihm im_state;
  if bool_decide (st = E_Error) then mret false else stopHandlers.

Definition ihm_handleBusReset : M bool :=
  x ← gets_ihm im_transmit;
  r ← gets_ihm im_receive;
  if bool_decide (x = None) then mret false
  else if bool_decide (r = None) then mret false
  else _ ← IsoTask_handleBusReset eHT_Transmit; _ ← IsoTask_handleBusReset eHT_Receive; mret true.

Definition signalActivityTransmit : M () := _ ← the_task eHT_Transmit; IsoTask_signalActivity eHT_Transmit.
Definition signalActivityReceive : M () := _ ← the_task eHT_Receive; IsoTask_signalActivity eHT_Receive.

Definition setMissedCyclesOK (ok : bool) : M () :=
  mod_ihm (fun m => mkIhm (im_state m) (im_handlers m) (im_streams m) (im_realtime m) (im_priority m)
    (im_transmit m) (im_receive m) (Some ok)).

(** the increases of the priority: of both threads, and of each *)
Definition get_prio_settings : M (Z * Z * Z) :=
  a ← iso_setting "ieee1394.isomanager.prio_increase" ISOHANDLERMANAGER_ISO_PRIO_INCREASE;
  b ← iso_setting "ieee1394.isomanager.prio_increase_xmit" ISOHANDLERMANAGER_ISO_PRIO_INCREASE_XMIT;
  c ← iso_setting "ieee1394.isomanager.prio_increase_recv" ISOHANDLERMANAGER_ISO_PRIO_INCREASE_RECV;
  mret (a, b, c).

Definition cap_priority (priority : Z) : Z :=
  let priority := if THREAD_MAX_RTPRIO <? priority then THREAD_MAX_RTPRIO else priority in
  if priority <? THREAD_MIN_RTPRIO then THREAD_MIN_RTPRIO else priority.

(** A thread exists when its task does. *)
Definition setThreadParameters (rt : bool) (priority : Z) : M bool :=
  let priority := cap_priority priority in
  mod_ihm (fun m => mkIhm (im_state m) (im_handlers m) (im_streams m) rt priority (im_transmit m) (im_receive m) (im_missed_cycles_ok m));;
  '(inc, inc_xmit, inc_recv) ← get_prio_settings;
  x ← gets_ihm im_transmit;
  (if bool_decide (x = None) then mret ()
   else mod_world (thread_realtime eHT_Transmit (if rt then Some (priority + inc + inc_xmit) else None)));;
  r ← gets_ihm im_receive;
  (if bool_decide (r = None) then mret ()
   else mod_world (thread_realtime eHT_Receive (if rt then Some (priority + inc + inc_recv) else None)));;
  mret true.

(** Only the transmit task gets the configured timeout.  A thread that starts
    initialises its task. *)
Definition ihm_init : M bool :=
  st ← gets_ihm im_state;
  if bool_decide (st <> E_Created) then mret false
  else
    '(inc, inc_xmit, inc_recv) ← get_prio_settings;
    timeout ← iso_setting "ieee1394.isomanager.isotask_activity_timeout_usecs" ISOHANDLERMANAGER_ISO_TASK_WAIT_TIMEOUT_USECS;
    mod_ihm (ihm_with_task eHT_Transmit (Some (mkIsoTask 0 [] [] 0 None false false (s64 (timeout * 1000)))));;
    mod_ihm (ihm_with_task eHT_Receive (Some IsoTask_new));;
    mod_world (watchdog_registerThread eHT_Transmit);;
    mod_world (watchdog_registerThread eHT_Receive);;
    m ← gets_ihm id;
    r ← run_world (thread_start eHT_Transmit (im_realtime m) (im_priority m + inc + inc_xmit));
    if negb (r =? 0) then mret false
    else
      _ ← IsoTask_Init eHT_Transmit;
      r ← run_world (thread_start eHT_Receive (im_realtime m) (im_priority m + inc + inc_recv));
      if negb (r =? 0) then mret false
      else _ ← IsoTask_Init eHT_Receive; mod_ihm (ihm_with_state E_Running);; mret true.
End manager.

(** ** What the operations keep: the registry *)

Section registry.
Context {W : Type} {IE : IsoEnv W} {IC : IsoClient W}.

Abbreviation M := (StM (iso_system W)).
Implicit Types s : iso_system W.

(** the client of a handler *)
Definition client_of s (h : Z) : option (option Z) := (fun x => ih_client (ih_c x)) <$> is_handlers s !! h.

(** the handlers, the streams and who is whose client *)
Definition same_registry s s1 : Prop :=
  im_handlers (is_manager s1) = im_handlers (is_manager s) /\ im_streams (is_manager s1) = im_streams (is_manager s) /\
  forall h, client_of s1 h = client_of s h.

#[export] Instance same_registry_preorder : PreOrder same_registry.
Proof.
  split; [by split|]. intros s1 s2 s3 (H1 & H2 & H3) (H4 & H5 & H6). split; [congruence|]. split; [congruence|].
  intros h. by rewrite H6.
Qed.

Lemma keeps_registry_world {A} (m : M A) : StKeeps same_objects m -> StKeeps same_registry m.
Proof. intros Hm s x s1 H. apply Hm in H as [H1 H2]. unfold same_registry, client_of. by rewrite H1, H2. Qed.

#[export] Instance keeps_registry_run_world {A} (f : W -> A * W) : StKeeps same_registry (run_world f).
Proof. apply keeps_registry_world. apply _. Qed.

#[export] Instance keeps_registry_mod_world (f : W -> W) : StKeeps same_registry (mod_world f).
Proof. apply keeps_registry_world. apply _. Qed.

Lemma keeps_registry_ih_mod h f : (forall x, ih_client (ih_c (f x)) = ih_client (ih_c x)) -> StKeeps same_registry (ih_mod h f).
Proof.
  intros Hf s u s1. unfold ih_mod. destruct (is_handlers s !! h) as [x|] eqn:Hx; [|done]. intros [= _ <-].
  split; [done|]. split; [done|]. intros h1. unfold client_of. cbn [is_handlers]. destruct (decide (h1 = h)) as [->|Hne].
  - rewrite lookup_insert_eq, Hx. cbn. by rewrite Hf.
  - by rewrite lookup_insert_ne.
Qed.

Lemma keeps_registry_mod_ihm f :
  (forall m, im_handlers (f m) = im_handlers m /\ im_streams (f m) = im_streams m) -> StKeeps same_registry (mod_ihm f).
Proof. intros Hf s u s1 H. injection H as _ <-. destruct (Hf (is_manager s)). by split. Qed.

Lemma keeps_registry_task_mod t f : StKeeps same_registry (task_mod t f).
Proof.
  unfold task_mod, the_task. apply st_keeps_bind; [apply _|apply _|]. intros k.
  apply keeps_registry_mod_ihm. intros m. by destruct t.
Qed.
End registry.

#[export] Hint Extern 1 (StKeeps same_registry (ih_mod _ _)) => apply keeps_registry_ih_mod; intros; reflexivity : typeclass_instances.
#[export] Hint Extern 1 (StKeeps same_registry (mod_ihm _)) => apply keeps_registry_mod_ihm; intros; split; reflexivity : typeclass_instances.
#[export] Hint Resolve keeps_registry_task_mod : typeclass_instances.

(** What the clients promise: they may call the iso manager, but never
    register or unregister a stream from a callback. *)
Class IsoClientLaws (W : Type) {IC : IsoClient W} : Prop := {
  law_canProducePacket a :: StKeeps same_registry (client_canProducePacket a);
  law_canConsumePacket a :: StKeeps same_registry (client_canConsumePacket a);
  law_putPacket a data n c t y ctr d :: StKeeps same_registry (client_putPacket a data n c t y ctr d);
  law_getPacket a p ctr d k m :: StKeeps same_registry (client_getPacket a p ctr d k m);
  law_handleBusReset a :: StKeeps same_registry (client_handleBusReset a);
  law_handlerDied a :: StKeeps same_registry (client_handlerDied a);
  law_packetsStopped a :: StKeeps same_registry (client_packetsStopped a) }.

Section keeps.
Context {W : Type} {IE : IsoEnv W} {IC : IsoClient W} {CL : IsoClientLaws W}.

Abbreviation Keep m := (StKeeps (same_registry (W := W)) m).

Ltac keeps_tac := intros; repeat first [apply _ | apply st_keeps_bind; [apply _| |intros] | case_match].

#[export] Instance kr_isEnabled h : Keep (IsoHandler_isEnabled h).
Proof. unfold IsoHandler_isEnabled. keeps_tac. Qed.
#[export] Instance kr_canIterateClient h : Keep (IsoHandler_canIterateClient h).
Proof. unfold IsoHandler_canIterateClient. keeps_tac. Qed.
#[export] Instance kr_requestEnable c h : Keep (IsoHandler_requestEnable c h).
Proof. unfold IsoHandler_requestEnable. keeps_tac. Qed.
#[export] Instance kr_requestDisable h : Keep (IsoHandler_requestDisable h).
Proof. unfold IsoHandler_requestDisable. keeps_tac. Qed.
#[export] Instance kr_recv_start h hd c : Keep (iso_recv_start h hd c).
Proof. apply keeps_registry_world. apply _. Qed.
#[export] Instance kr_xmit_start h hd c : Keep (iso_xmit_start h hd c).
Proof. apply keeps_registry_world. apply _. Qed.
#[export] Instance kr_assert b : Keep (st_assert b).
Proof. unfold st_assert. apply _. Qed.
#[export] Instance kr_enable c h : Keep (IsoHandler_enable c h).
Proof. unfold IsoHandler_enable. keeps_tac. Qed.
#[export] Instance kr_disable h : Keep (IsoHandler_disable h).
Proof. unfold IsoHandler_disable. keeps_tac. Qed.
#[export] Instance kr_updateState h : Keep (IsoHandler_updateState h).
Proof. unfold IsoHandler_updateState. keeps_tac. Qed.
#[export] Instance kr_ih_handleBusReset h : Keep (IsoHandler_handleBusReset h).
Proof. unfold IsoHandler_handleBusReset. keeps_tac. Qed.
#[export] Instance kr_notifyOfDeath h : Keep (IsoHandler_notifyOfDeath h).
Proof. unfold IsoHandler_notifyOfDeath. keeps_tac. Qed.
#[export] Instance kr_increment n : Keep (increment n).
Proof. unfold increment. keeps_tac. Qed.
#[export] Instance kr_dropped h l c k : Keep (xmit_dropped_cycles h l c k).
Proof. unfold xmit_dropped_cycles. keeps_tac. Qed.
#[export] Instance kr_xmit_done h c r : Keep (xmit_done h c r).
Proof. unfold xmit_done. keeps_tac. Qed.
#[export] Instance kr_putPacket h d n c t y cy k : Keep (IsoHandler_putPacket h d n c t y cy k).
Proof. unfold IsoHandler_putPacket. keeps_tac. Qed.
#[export] Instance kr_getPacket h p c d k : Keep (IsoHandler_getPacket h p c d k).
Proof. unfold IsoHandler_getPacket. keeps_tac. Qed.
#[export] Instance kr_loop fuel h hd : Keep (loop_iterate fuel h hd).
Proof. induction fuel as [|fuel IH]; cbn [loop_iterate]; unfold iso_receive_handler, iso_transmit_handler; keeps_tac. Qed.
#[export] Instance kr_iterate fuel c h : Keep (IsoHandler_iterate fuel c h).
Proof. unfold IsoHandler_iterate. keeps_tac. Qed.
#[export] Instance kr_the_task t : Keep (the_task t).
Proof. unfold the_task. keeps_tac. Qed.
#[export] Instance kr_signal t : Keep (IsoTask_signalActivity t).
Proof. unfold IsoTask_signalActivity. keeps_tac. Qed.
#[export] Instance kr_requestShadow t : Keep (IsoTask_requestShadowMapUpdate t).
Proof. unfold IsoTask_requestShadowMapUpdate. keeps_tac. Qed.
#[export] Instance kr_shadow_add t h n : Keep (shadow_add t h n).
Proof. unfold shadow_add. keeps_tac. Qed.
#[export] Instance kr_shadow_loop t n i c : Keep (shadow_loop t n i c).
Proof. revert i c. induction n as [|n IH]; intros i c; cbn [shadow_loop]; keeps_tac. Qed.
#[export] Instance kr_shadow_helper t : Keep (IsoTask_updateShadowMapHelper t).
Proof. unfold IsoTask_updateShadowMapHelper. keeps_tac. Qed.
#[export] Instance kr_tk_busreset t : Keep (IsoTask_handleBusReset t).
Proof. unfold IsoTask_handleBusReset. keeps_tac. Qed.
#[export] Instance kr_waitForActivity t : Keep (IsoTask_waitForActivity t).
Proof. unfold IsoTask_waitForActivity. keeps_tac. Qed.
#[export] Instance kr_shadow_handlers t : Keep (shadow_handlers t).
Proof. unfold shadow_handlers. keeps_tac. Qed.
#[export] Instance kr_select_events t i h : Keep (select_events t i h).
Proof. unfold select_events. keeps_tac. Qed.
#[export] Instance kr_select_all t i l : Keep (select_all t i l).
Proof. revert i. induction l as [|h l IH]; intros i; cbn [select_all]; keeps_tac. Qed.
#[export] Instance kr_wait fuel t : Keep (wait_for_clients fuel t).
Proof. induction fuel as [|fuel IH]; cbn [wait_for_clients]; keeps_tac. Qed.
#[export] Instance kr_task_poll t n : Keep (task_poll t n).
Proof. unfold task_poll. keeps_tac. Qed.
#[export] Instance kr_check_death n h : Keep (check_death n h).
Proof. unfold check_death. keeps_tac. Qed.
#[export] Instance kr_any_of f l : (forall h, Keep (f h)) -> Keep (any_of f l).
Proof. intros Hf. induction l as [|h l IH]; cbn [any_of]; keeps_tac. Qed.
#[export] Instance kr_iterate_polled f t n i h : Keep (iterate_polled f t n i h).
Proof. unfold iterate_polled. keeps_tac. Qed.
#[export] Instance kr_iterate_all f t n i l : Keep (iterate_all f t n i l).
Proof. revert i. induction l as [|h l IH]; intros i; cbn [iterate_all]; keeps_tac. Qed.
#[export] Instance kr_task_iterate f t n : Keep (task_iterate f t n).
Proof. unfold task_iterate. keeps_tac. Qed.
#[export] Instance kr_acknowledge t : Keep (acknowledge_update t).
Proof. unfold acknowledge_update. keeps_tac. Qed.
#[export] Instance kr_Execute f t : Keep (IsoTask_Execute f t).
Proof. unfold IsoTask_Execute. keeps_tac. Qed.
#[export] Instance kr_Init t : Keep (IsoTask_Init t).
Proof. unfold IsoTask_Init. keeps_tac. Qed.
#[export] Instance kr_requestShadowMapUpdate : Keep requestShadowMapUpdate.
Proof. unfold requestShadowMapUpdate. keeps_tac. Qed.
#[export] Instance kr_isStreamRegistered a h : Keep (IsoHandler_isStreamRegistered a h).
Proof. unfold IsoHandler_isStreamRegistered. keeps_tac. Qed.
#[export] Instance kr_getHandlerForStream a : Keep (getHandlerForStream a).
Proof. unfold getHandlerForStream. keeps_tac. Qed.
#[export] Instance kr_setIsoStartCycle c h : Keep (IsoHandler_setIsoStartCycle c h).
Proof. unfold IsoHandler_setIsoStartCycle. keeps_tac. Qed.
#[export] Instance kr_startCycle a c : Keep (setIsoStartCycleForStream a c).
Proof. unfold setIsoStartCycleForStream. keeps_tac. Qed.
#[export] Instance kr_request_stop h : Keep (request_stop h).
Proof. unfold request_stop. keeps_tac. Qed.
#[export] Instance kr_startHandler a c : Keep (startHandlerForStream a c).
Proof. unfold startHandlerForStream. keeps_tac. Qed.
#[export] Instance kr_stopHandler a : Keep (stopHandlerForStream a).
Proof. unfold stopHandlerForStream. keeps_tac. Qed.
#[export] Instance kr_stopHandlers : Keep stopHandlers.
Proof. unfold stopHandlers. keeps_tac. Qed.
#[export] Instance kr_reset : Keep (ihm_reset).
Proof. unfold ihm_reset. keeps_tac. Qed.
#[export] Instance kr_busReset : Keep (ihm_handleBusReset).
Proof. unfold ihm_handleBusReset. keeps_tac. Qed.
#[export] Instance kr_missed b : Keep (setMissedCyclesOK b).
Proof. unfold setMissedCyclesOK. keeps_tac. Qed.
#[export] Instance kr_setting n d : Keep (iso_setting n d).
Proof. unfold iso_setting. keeps_tac. Qed.
#[export] Instance kr_prio : Keep (get_prio_settings).
Proof. unfold get_prio_settings. keeps_tac. Qed.
#[export] Instance kr_threads rt p : Keep (setThreadParameters rt p).
Proof. unfold setThreadParameters. keeps_tac. Qed.
#[export] Instance kr_init : Keep (ihm_init).
Proof. unfold ihm_init. keeps_tac. Qed.
End keeps.

(** ** The registry *)

Section streams.
Context {W : Type} {IE : IsoEnv W} {IC : IsoClient W}.

Abbreviation M := (StM (iso_system W)).
Implicit Types s : iso_system W.

Definition attached s (h a : Z) : Prop := client_of s h = Some (Some a).

(** Every stream has a handler of its own, in the order of registration. *)
Definition registry_ok s : Prop :=
  NoDup (im_handlers (is_manager s)) /\ NoDup (im_streams (is_manager s)) /\
  Forall2 (attached s) (im_handlers (is_manager s)) (im_streams (is_manager s)).

Lemma registry_same s s1 : same_registry s s1 -> registry_ok s -> registry_ok s1.
Proof.
  intros (H1 & H2 & H3) (Hh & Hst & Ha). unfold registry_ok. rewrite H1, H2. split; [done|]. split; [done|].
  eapply Forall2_impl; [exact Ha|]. intros h a. unfold attached. by rewrite H3.
Qed.

Lemma client_of_get {A} s h c (f : option Z -> A) :
  client_of s h = Some c -> ih_get h (fun x => f (ih_client (ih_c x))) s = Some (f c, s).
Proof. unfold client_of, ih_get. destruct (is_handlers s !! h) as [x|]; [|done]. by intros [= <-]. Qed.

Lemma find_first_cons {X} (test : X -> M bool) a l s b :
  test a s = Some (b, s) -> find_first test (a :: l) s = if b then Some (Some a, s) else find_first test l s.
Proof. intros H. cbn [find_first]. rewrite (st_bind_eq _ _ _ _ _ H). by destruct b. Qed.

Lemma registered_at s h a c : attached s h c -> IsoHandler_isStreamRegistered a h s = Some (bool_decide (c = a), s).
Proof.
  intros H. unfold IsoHandler_isStreamRegistered. etransitivity; [exact (client_of_get _ _ _ (fun c => bool_decide (c = Some a)) H)|].
  do 2 f_equal. apply bool_decide_ext. naive_solver.
Qed.

Lemma find_attached s a l k :
  Forall2 (attached s) l k ->
  exists r, find_first (IsoHandler_isStreamRegistered a) l s = Some (r, s) /\
    match r with
    | Some h => exists l1 l2 k1 k2, l = l1 ++ h :: l2 /\ k = k1 ++ a :: k2 /\ Forall2 (attached s) l1 k1 /\ Forall2 (attached s) l2 k2 /\ attached s h a
    | None => a ∉ k
    end.
Proof.
  induction 1 as [|h c l k Hh Hl (r & IH & Hr)]; [exists None; split; [done|apply not_elem_of_nil]|].
  rewrite (find_first_cons _ _ _ _ _ (registered_at _ _ a _ Hh)). case_bool_decide as Hc; [subst c|].
  - exists (Some h). split; [done|]. by exists [], l, [], k.
  - exists r. split; [done|]. destruct r as [h1|].
    + destruct Hr as (l1 & l2 & k1 & k2 & -> & -> & H1 & H2 & H3). exists (h :: l1), l2, (c :: k1), k2.
      split; [done|]. split; [done|]. split; [by constructor|done].
    + apply not_elem_of_cons. by split.
Qed.

(** ** Cleaning up *)

Lemma filter_none {A} (P : A -> Prop) `{forall x, Decision (P x)} (l : list A) : (forall x, x ∈ l -> ~ P x) -> filter P l = [].
Proof.
  induction l as [|x l IH]; intros Hl; [done|]. rewrite filter_cons, decide_False by (apply Hl; by left).
  apply IH. intros y Hy. apply Hl. by right.
Qed.

Lemma in_use_at s h c : client_of s h = Some c -> IsoHandler_inUse h s = Some (bool_decide (c <> None), s).
Proof. intros H. exact (client_of_get _ _ _ (fun c => bool_decide (c <> None)) H). Qed.

Lemma not_used_spec s l :
  (forall h, h ∈ l -> is_Some (client_of s h)) ->
  not_used l s = Some (filter (fun h => client_of s h = Some None) l, s).
Proof.
  induction l as [|h l IH]; intros Hl; [done|]. cbn [not_used]. destruct (Hl h) as [c Hc]; [by left|].
  rewrite (st_bind_eq _ _ _ _ _ (in_use_at _ _ _ Hc)).
  rewrite (st_bind_eq _ _ _ _ _ (IH ltac:(intros; apply Hl; by right))). rewrite filter_cons, Hc. destruct c as [a|].
  - rewrite bool_decide_true by done. by rewrite decide_False by congruence.
  - rewrite bool_decide_false by tauto. by rewrite decide_True.
Qed.

Lemma attached_client s l k h : Forall2 (attached s) l k -> h ∈ l -> exists a, a ∈ k /\ client_of s h = Some (Some a).
Proof. intros Ha (i & Hi)%list_elem_of_lookup. destruct (Forall2_lookup_l _ _ _ _ _ Ha Hi) as (a & Hk & Hc). exists a. split; [by eapply list_elem_of_lookup_2|done]. Qed.

Lemma prune_nothing s l k : im_handlers (is_manager s) = l -> Forall2 (attached s) l k -> pruneHandlers s = Some ((), s).
Proof.
  intros Hl Ha. unfold pruneHandlers, gets_ihm. erewrite st_bind_eq by reflexivity. rewrite Hl.
  rewrite (st_bind_eq _ _ _ _ _ (not_used_spec s l ltac:(intros h Hh; destruct (attached_client _ _ _ _ Ha Hh) as (a & _ & ->); by eexists))).
  replace (filter _ l) with (@nil Z); [done|]. symmetry. apply filter_none. intros h Hh.
  by destruct (attached_client _ _ _ _ Ha Hh) as (a & _ & ->).
Qed.

Lemma mod_world_bind {B} f (g : () -> M B) s :
  (y ← mod_world f; g y) s = g () (mkIso (is_manager s) (is_handlers s) (f (is_world s))).
Proof. done. Qed.

(** the destruction of a handler that nobody uses: one that runs would notify
    a client that is not there *)
Lemma delete_unused s h u s1 :
  client_of s h = Some None -> IsoHandler_delete h s = Some (u, s1) ->
  s1 = mkIso (is_manager s) (delete h (is_handlers s)) (is_world s) /\
  exists x, is_handlers s !! h = Some x /\ (ih_handle (ih_c x) = None \/ ih_state (ih_c x) = eHS_Stopped).
Proof.
  unfold client_of. destruct (is_handlers s !! h) as [x|] eqn:Hx; [|done]. intros [= Hc].
  unfold IsoHandler_delete. rewrite (ih_get_bind _ _ _ _ _ Hx).
  destruct (ih_handle (ih_c x)) as [hd|] eqn:Hhd.
  2:{ rewrite bool_decide_false by tauto. cbn [andb]. erewrite st_bind_eq by reflexivity. intros [= _ <-]. split; [done|]. exists x. auto. }
  destruct (ih_state (ih_c x)) eqn:Hst.
  { rewrite (bool_decide_false (eHS_Stopped = _)) by done. rewrite andb_false_r. erewrite st_bind_eq by reflexivity.
    intros [= _ <-]. split; [done|]. exists x. auto. }
  rewrite !bool_decide_true by done. cbn [andb]. intros (u2 & s2 & (b & s3 & Hd & _)%st_bind_inv & _)%st_bind_inv. exfalso.
  revert Hd. unfold IsoHandler_disable. rewrite (ih_get_bind _ _ _ _ _ Hx), Hst, bool_decide_false by tauto. unfold the_handle.
  intros (hd1 & s4 & H4 & Hd)%st_bind_inv. rewrite (ih_get_bind _ _ _ _ _ Hx), Hhd in H4. injection H4 as <- <-.
  rewrite !mod_world_bind in Hd. cbn [is_manager is_handlers is_world] in Hd.
  erewrite ih_mod_bind in Hd by (cbn [is_handlers]; exact Hx). unfold the_client in Hd.
  apply st_bind_inv in Hd as (a & s5 & Ha & _). erewrite ih_get_bind in Ha by (cbn [is_handlers]; apply lookup_insert_eq).
  cbn [ih_with_control ih_c ih_client ctl_with_states ctl_with_handle] in Ha. by rewrite Hc in Ha.
Qed.

(** ** Registration *)

Lemma getHandler_spec s a :
  registry_ok s ->
  exists r, getHandlerForStream a s = Some (r, s) /\
    match r with
    | Some h => exists l1 l2 k1 k2, im_handlers (is_manager s) = l1 ++ h :: l2 /\ im_streams (is_manager s) = k1 ++ a :: k2 /\
                  Forall2 (attached s) l1 k1 /\ Forall2 (attached s) l2 k2 /\ attached s h a
    | None => a ∉ im_streams (is_manager s)
    end.
Proof.
  intros (_ & _ & Ha). destruct (find_attached s a _ _ Ha) as (r & Hr & Hspec). exists r. split; [|exact Hspec].
  unfold getHandlerForStream, gets_ihm. by erewrite st_bind_eq by reflexivity.
Qed.

(** the state with a new object *)
Definition allocated s (h : Z) (x : IsoHandler) : iso_system W := mkIso (is_manager s) (<[h := x]> (is_handlers s)) (is_world s).

Definition creates s (r : option Z) s1 : Prop :=
  match r with
  | None => s1 = s
  | Some h => exists x, is_handlers s !! h = None /\ ih_client (ih_c x) = None /\ s1 = allocated s h x
  end.

Lemma read_only_bind {A B} (m : M A) (f : A -> M B) s y s1 :
  StKeeps eq m -> (m ≫= f) s = Some (y, s1) -> exists x, f x s = Some (y, s1).
Proof. intros Hm (x & s2 & H1 & H2)%st_bind_inv. apply Hm in H1 as <-. by exists x. Qed.

Ltac reads H := apply read_only_bind in H as [? H]; [|apply _].

Lemma new_handler_bind {B} x (g : Z -> M B) s :
  exists h, is_handlers s !! h = None /\ (h ← new_handler x; g h) s = g h (allocated s h x).
Proof.
  exists (fresh (dom (is_handlers s) : gset Z)). split; [|done]. apply not_elem_of_dom. apply is_fresh.
Qed.

Lemma create_recv_spec a s r s1 : create_recv_handler a s = Some (r, s1) -> creates s r s1.
Proof.
  unfold create_recv_handler, get_recv_settings, iso_setting, gets_world.
  intros H. apply read_only_bind in H as [c H]; [|apply _]. reads H. apply read_only_bind in H as [pp H]; [|apply _]. reads H.
  apply read_only_bind in H as [mx H]; [|apply _]. apply read_only_bind in H as [page H]; [|apply _].
  destruct (recv_packet_size c (u32 page) mx) as [ps|]; [|by injection H as <- <-].
  apply read_only_bind in H as [irq H]; [|apply _]. destruct (new_handler_bind (IsoHandler_new_sized eHT_Receive (u32 (rs_max_nb_buffers c)) ps irq)
    (fun h => IsoHandler_setReceiveMode (choose_receive_mode c pp) h;; mret (Some h)) s) as (h & Hh & Heq).
  rewrite Heq in H. unfold IsoHandler_setReceiveMode in H.
  erewrite ih_mod_bind in H by (cbn [allocated is_handlers]; apply lookup_insert_eq). injection H as <- <-.
  eexists. split; [done|]. split; [|cbn [allocated is_handlers is_manager is_world]; rewrite insert_insert_eq; reflexivity]. done.
Qed.

Lemma create_xmit_spec a s r s1 : create_xmit_handler a s = Some (r, s1) -> creates s r s1.
Proof.
  unfold create_xmit_handler, get_xmit_settings, iso_setting, gets_world.
  intros H. apply read_only_bind in H as [c H]; [|apply _]. reads H. apply read_only_bind in H as [mx H]; [|apply _].
  destruct (xmit_packet_size c mx) as [ps|]; [|by injection H as <- <-].
  reads H. apply read_only_bind in H as [pp H]; [|apply _]. apply read_only_bind in H as [irq H]; [|apply _].
  destruct (new_handler_bind (IsoHandler_new_sized eHT_Transmit (u32 (xs_max_nb_buffers c)) ps irq) (fun h => mret (Some h)) s)
    as (h & Hh & Heq).
  rewrite Heq in H. injection H as <- <-. by exists (IsoHandler_new_sized eHT_Transmit (u32 (xs_max_nb_buffers c)) ps irq).
Qed.

Lemma client_of_allocated s h x h1 : is_handlers s !! h = None -> client_of s h1 <> None -> client_of (allocated s h x) h1 = client_of s h1.
Proof.
  intros Hh Hc. unfold client_of, allocated in *. cbn [is_handlers]. rewrite lookup_insert_ne; [done|]. intros ->. by rewrite Hh in Hc.
Qed.

Lemma attached_weaken s s1 l k :
  (forall h, client_of s h <> None -> client_of s1 h = client_of s h) -> Forall2 (attached s) l k -> Forall2 (attached s1) l k.
Proof. intros Hc Ha. eapply Forall2_impl; [exact Ha|]. intros h a. unfold attached. intros H. rewrite Hc; [done|congruence]. Qed.

(** the state after a new handler with a client has entered the lists *)
Definition enlisted s (h : Z) (x : IsoHandler) : iso_system W :=
  mkIso (ihm_with_handlers (im_handlers (is_manager s) ++ [h]) (is_manager s)) (<[h := x]> (is_handlers s)) (is_world s).

Lemma enlisted_ok s s1 h x a m :
  registry_ok s -> a ∉ im_streams (is_manager s) -> is_handlers s !! h = None -> ih_client (ih_c x) = Some a ->
  same_registry (enlisted s h x) s1 -> m = ihm_with_streams (im_streams (is_manager s1) ++ [a]) (is_manager s1) ->
  registry_ok (mkIso m (is_handlers s1) (is_world s1)) /\ im_streams m = im_streams (is_manager s) ++ [a].
Proof.
  intros (Hndh & Hnds & Ha) Hout Hh Hx (H1 & H2 & H3) ->. cbn [enlisted is_manager ihm_with_handlers im_handlers im_streams] in H1, H2.
  assert (Hnew : h ∉ im_handlers (is_manager s)).
  { intros Hin. destruct (attached_client _ _ _ _ Ha Hin) as (b & _ & Hb). unfold client_of in Hb. by rewrite Hh in Hb. }
  split; [|cbn; by rewrite H2]. unfold registry_ok. cbn [is_manager ihm_with_streams im_handlers im_streams]. rewrite H1, H2.
  split; [|split].
  - apply NoDup_app. split; [done|]. split; [|apply NoDup_singleton]. intros y Hy Hys%list_elem_of_singleton. congruence.
  - apply NoDup_app. split; [done|]. split; [|apply NoDup_singleton]. intros y Hy Hys%list_elem_of_singleton. congruence.
  - apply Forall2_app.
    + eapply attached_weaken; [|exact Ha]. intros y Hy. transitivity (client_of (enlisted s h x) y); [by rewrite <- H3|].
      by apply (client_of_allocated s h x y).
    + constructor; [|constructor]. unfold attached. transitivity (client_of (enlisted s h x) h); [by rewrite <- H3|].
      unfold client_of, enlisted. cbn [is_handlers]. rewrite lookup_insert_eq. cbn. by rewrite Hx.
Qed.

Lemma registerStream_ok a s ok s1 :
  registry_ok s -> registerStream a s = Some (ok, s1) ->
  registry_ok s1 /\
  im_streams (is_manager s1) = (if ok : bool then im_streams (is_manager s) ++ [a] else im_streams (is_manager s)).
Proof.
  intros Hreg. unfold registerStream. destruct (getHandler_spec s a Hreg) as (r & Hr & Hspec).
  rewrite (st_bind_eq _ _ _ _ _ Hr). destruct r as [h|]; [rewrite bool_decide_true by done; by intros [= <- <-]|].
  rewrite bool_decide_false by tauto. pose proof Hreg as (_ & _ & Ha).
  rewrite (st_bind_eq _ _ _ _ _ (prune_nothing _ _ _ eq_refl Ha)). intros H.
  apply read_only_bind in H as [ty H]; [|unfold gets_world; apply _]. apply read_only_bind in H as [type H]; [|apply _].
  apply st_bind_inv in H as (r & s2 & Hcr & H).
  assert (Hc : creates s r s2) by (destruct type; [by eapply create_recv_spec|by eapply create_xmit_spec]).
  destruct r as [h|]; cbn [creates] in Hc; [|subst s2; by injection H as <- <-].
  destruct Hc as (x & Hh & Hx & ->).
  assert (Hcl : client_of (allocated s h x) h = Some None) by (unfold client_of, allocated; cbn [is_handlers]; rewrite lookup_insert_eq; cbn; by rewrite Hx).
  apply st_bind_inv in H as (ok1 & s3 & H3 & H). unfold IsoHandler_registerStream in H3.
  rewrite (st_bind_eq _ _ _ _ _ (in_use_at _ _ _ Hcl)), bool_decide_false in H3 by tauto.
  erewrite ih_mod_bind in H3 by (cbn [allocated is_handlers]; apply lookup_insert_eq). injection H3 as <- <-. cbn [negb] in H.
  apply st_bind_inv in H as (ok2 & s4 & H4 & H). unfold registerHandler in H4. apply st_bind_inv in H4 as (u & s5 & H5 & H4).
  injection H5 as _ <-. apply st_bind_inv in H4 as (u2 & s6 & H6 & H4). injection H4 as <- <-. cbn [negb] in H.
  apply st_bind_inv in H as (l & s7 & H7 & H). injection H7 as <- <-. injection H as <- <-.
  apply (st_keeps (R := same_registry)) in H6. rewrite insert_insert_eq in H6.
  exact (enlisted_ok s s6 h (ih_with_control (ctl_with_client (Some a)) x) a _ Hreg Hspec Hh eq_refl H6 eq_refl).
Qed.

(** the loop of [unregisterStream] *)
Definition unregister_from (a h : Z) : M bool :=
  registered ← IsoHandler_isStreamRegistered a h;
  if registered : bool then IsoHandler_unregisterStream a h else mret true.

Lemma unregister_others s a l k : Forall2 (attached s) l k -> a ∉ k -> each (unregister_from a) l s = Some (true, s).
Proof.
  induction 1 as [|h c l k Hh Hl IH]; [done|]. intros [Hne Hk]%not_elem_of_cons. cbn [each].
  rewrite (st_bind_eq _ _ s true s); [by apply IH|]. unfold unregister_from.
  rewrite (st_bind_eq _ _ _ _ _ (registered_at _ _ a _ Hh)). by rewrite bool_decide_false.
Qed.

Definition detached s (h : Z) (x : IsoHandler) : iso_system W :=
  mkIso (is_manager s) (<[h := ih_with_control (ctl_with_client None) x]> (is_handlers s)) (is_world s).

Lemma attached_elsewhere s s1 h l k :
  (forall g, g <> h -> client_of s1 g = client_of s g) -> h ∉ l -> Forall2 (attached s) l k -> Forall2 (attached s1) l k.
Proof.
  intros Hs Hh Ha. induction Ha as [|g c l k Hg Ha IH]; [constructor|]. apply not_elem_of_cons in Hh as [Hne Hh].
  constructor; [|by apply IH]. unfold attached. by rewrite Hs.
Qed.

Lemma client_of_detached s h x g : g <> h -> client_of (detached s h x) g = client_of s g.
Proof. intros Hne. unfold client_of, detached. cbn [is_handlers]. by rewrite lookup_insert_ne. Qed.

Lemma each_app {X} (f : X -> M bool) l1 l2 s s1 : each f l1 s = Some (true, s1) -> each f (l1 ++ l2) s = each f l2 s1.
Proof.
  revert s. induction l1 as [|x l1 IH]; intros s; cbn [each app]; [by intros [= <-]|].
  intros (ok & s2 & H1 & H2)%st_bind_inv. rewrite (st_bind_eq _ _ _ _ _ H1). destruct ok; [by apply IH|done].
Qed.

Lemma unregister_at s a h l1 l2 k1 k2 :
  Forall2 (attached s) l1 k1 -> attached s h a -> Forall2 (attached s) l2 k2 -> h ∉ l2 -> a ∉ k1 -> a ∉ k2 ->
  exists x, is_handlers s !! h = Some x /\ each (unregister_from a) (l1 ++ h :: l2) s = Some (true, detached s h x).
Proof.
  intros H1 Hh H2 Hl2 Hk1 Hk2. pose proof Hh as Hc. unfold attached, client_of in Hc. destruct (is_handlers s !! h) as [x|] eqn:Hx; [|done].
  exists x. split; [done|]. rewrite (each_app _ _ _ _ _ (unregister_others _ _ _ _ H1 Hk1)). cbn [each].
  rewrite (st_bind_eq _ _ s true (detached s h x)).
  - apply (unregister_others (detached s h x) a l2 k2); [|done]. eapply attached_elsewhere; [apply client_of_detached|done..].
  - unfold unregister_from. rewrite (st_bind_eq _ _ _ _ _ (registered_at _ _ a _ Hh)), bool_decide_true by done.
    unfold IsoHandler_unregisterStream. rewrite (st_bind_eq _ _ _ _ _ (registered_at _ _ a _ Hh)), bool_decide_true by done. cbn [negb].
    by rewrite (ih_mod_bind _ _ _ _ _ Hx).
Qed.

Lemma remove_middle (a : Z) l1 l2 : a ∉ l1 -> remove_first a (l1 ++ a :: l2) = l1 ++ l2.
Proof. intros H. rewrite remove_first_app_r by done. cbn. by rewrite Z.eqb_refl. Qed.

(** an update request leaves the handlers *)
Definition same_store s s1 : Prop := is_handlers s1 = is_handlers s.

#[local] Instance same_store_preorder : PreOrder same_store.
Proof. split; [done|]. intros s1 s2 s3 H1 H2. unfold same_store in *. congruence. Qed.

Lemma request_keeps_store : StKeeps same_store requestShadowMapUpdate.
Proof.
  assert (Ht : forall t, StKeeps same_store (IsoTask_requestShadowMapUpdate t)).
  { intros t s u s1. unfold IsoTask_requestShadowMapUpdate, task_mod, the_task.
    intros (u1 & s2 & (k & s3 & (k1 & s4 & H4 & H5)%st_bind_inv & H3)%st_bind_inv & H2)%st_bind_inv.
    injection H4 as <- <-. injection H2 as _ <-. injection H3 as _ <-.
    destruct (match t with eHT_Transmit => _ | _ => _ end); [|done]. by injection H5 as _ <-. }
  unfold requestShadowMapUpdate, gets_ihm.
  repeat first [apply _ | apply Ht | apply st_keeps_bind; [apply _| |intros] | case_match].
Qed.

(** one handler has lost its client: it is destroyed *)
Lemma prune_one s h x l1 l2 k1 k2 u s1 :
  im_handlers (is_manager s) = l1 ++ h :: l2 -> Forall2 (attached s) l1 k1 -> Forall2 (attached s) l2 k2 -> h ∉ l1 -> h ∉ l2 ->
  is_handlers s !! h = Some x -> ih_client (ih_c x) = None -> pruneHandlers s = Some (u, s1) ->
  im_handlers (is_manager s1) = l1 ++ l2 /\ im_streams (is_manager s1) = im_streams (is_manager s) /\
  (forall g, g <> h -> client_of s1 g = client_of s g) /\ (ih_handle (ih_c x) = None \/ ih_state (ih_c x) = eHS_Stopped).
Proof.
  intros Hl H1 H2 Hh1 Hh2 Hx Hc. unfold pruneHandlers, gets_ihm. erewrite st_bind_eq by reflexivity. rewrite Hl.
  assert (Hcl : client_of s h = Some None) by (unfold client_of; rewrite Hx; cbn; by rewrite Hc).
  assert (Hu1 : forall g, g ∈ l1 -> exists c, client_of s g = Some (Some c)) by (intros g Hg; destruct (attached_client _ _ _ _ H1 Hg) as (c & _ & ?); by exists c).
  assert (Hu2 : forall g, g ∈ l2 -> exists c, client_of s g = Some (Some c)) by (intros g Hg; destruct (attached_client _ _ _ _ H2 Hg) as (c & _ & ?); by exists c).
  rewrite (st_bind_eq _ _ s [h] s).
  2:{ rewrite not_used_spec.
      - rewrite filter_app, filter_cons, decide_True by done. rewrite !filter_none; [done| |].
        + intros g Hg. destruct (Hu2 g Hg) as [c ->]. congruence.
        + intros g Hg. destruct (Hu1 g Hg) as [c ->]. congruence.
      - intros g [Hg|[->|Hg]%elem_of_cons]%elem_of_app; [destruct (Hu1 g Hg) as [c ->]|rewrite Hcl|destruct (Hu2 g Hg) as [c ->]]; by eexists. }
  cbn [each_do]. intros (u1 & s2 & (ok & s3 & Hun & Hdel)%st_bind_inv & Hret)%st_bind_inv. injection Hret as _ <-.
  unfold unregisterHandler, gets_ihm in Hun. erewrite st_bind_eq in Hun by reflexivity.
  rewrite bool_decide_true in Hun by (rewrite Hl; apply elem_of_app; right; by left). apply st_bind_inv in Hun as (u3 & s4 & H4 & Hun). injection H4 as _ <-.
  apply st_bind_inv in Hun as (u4 & s5 & H5 & Hun). injection Hun as _ <-. pose proof H5 as (Hm1 & Hm2 & Hm3)%(st_keeps (R := same_registry)).
  cbn [is_manager ihm_with_handlers im_handlers im_streams] in Hm1, Hm2. rewrite Hl, remove_middle in Hm1 by done.
  pose proof (request_keeps_store _ _ _ H5) as Hst. unfold same_store in Hst. cbn [is_handlers] in Hst.
  apply delete_unused in Hdel as (-> & x5 & Hx5 & Hstop).
  2:{ rewrite Hm3. unfold client_of in *. cbn [is_handlers]. exact Hcl. }
  cbn [is_manager is_handlers]. split; [done|]. split; [done|]. rewrite Hst, Hx in Hx5. injection Hx5 as <-. split; [|done].
  intros g Hg. unfold client_of. cbn [is_handlers]. by rewrite lookup_delete_ne, Hst by done.
Qed.

(** the outcome of [unregisterStream] on a registered stream *)
Lemma unregisterStream_ok a s ok s1 :
  registry_ok s -> unregisterStream a s = Some (ok, s1) ->
  registry_ok s1 /\ im_streams (is_manager s1) = remove_first a (im_streams (is_manager s)) /\
  (ok = true <-> a ∈ im_streams (is_manager s)) /\
  (forall h x, h ∈ im_handlers (is_manager s) -> attached s h a -> is_handlers s !! h = Some x -> ih_handle (ih_c x) = None \/ ih_state (ih_c x) = eHS_Stopped).
Proof.
  intros Hreg. pose proof Hreg as (Hndh & Hnds & Ha). unfold unregisterStream, gets_ihm.
  erewrite st_bind_eq by reflexivity. fold (unregister_from a).
  destruct (getHandler_spec s a Hreg) as ([h|] & _ & Hspec).
  - destruct Hspec as (l1 & l2 & k1 & k2 & Hl & Hk & H1 & H2 & Hh). rewrite Hl, Hk in *.
    apply NoDup_app in Hndh as (Hnd1 & Hd1 & [Hh2 Hnd2]%NoDup_cons). apply NoDup_app in Hnds as (Hns1 & Hs1 & [Hk2 Hns2]%NoDup_cons).
    assert (Hh1 : h ∉ l1) by (intros Hin; apply (Hd1 h Hin); by left). assert (Hk1 : a ∉ k1) by (intros Hin; apply (Hs1 a Hin); by left).
    destruct (unregister_at s a h l1 l2 k1 k2) as (x & Hx & Heach); [done..|]. rewrite (st_bind_eq _ _ _ _ _ Heach). cbn [negb].
    intros (u & s2 & Hpr & H)%st_bind_inv.
    destruct (prune_one (detached s h x) h (ih_with_control (ctl_with_client None) x) l1 l2 k1 k2 u s2) as (Hm1 & Hm2 & Hm3 & Hstop);
      [exact Hl|eapply attached_elsewhere; [apply client_of_detached|done..]|eapply attached_elsewhere; [apply client_of_detached|done..]
      |done|done|apply lookup_insert_eq|done|done|].
    cbn [detached is_manager] in Hm2. rewrite Hk in Hm2. erewrite st_bind_eq in H by reflexivity. rewrite Hm2 in H.
    rewrite bool_decide_true in H by (apply elem_of_app; right; by left). injection H as <- <-. rewrite remove_middle by done.
    assert (Hsame : forall g, g <> h -> client_of s2 g = client_of s g) by (intros g Hg; rewrite Hm3, client_of_detached by done; done).
    split; [|split; [done|split; [split; [intros _; apply elem_of_app; right; by left|done]|]]].
    + unfold registry_ok. cbn [is_manager ihm_with_streams im_handlers im_streams]. rewrite Hm1.
      split; [apply NoDup_app; split; [done|]; split; [intros g Hg Hg2; apply (Hd1 g Hg); by right|done]|].
      split; [apply NoDup_app; split; [done|]; split; [intros g Hg Hg2; apply (Hs1 g Hg); by right|done]|].
      apply Forall2_app; eapply attached_elsewhere; try done; exact Hsame.
    + intros g y Hg Hga Hy. assert (g = h) as ->; [|rewrite Hx in Hy; injection Hy as <-; exact Hstop].
      apply elem_of_app in Hg as [Hg|[->|Hg]%elem_of_cons]; [|done|].
      * destruct (attached_client _ _ _ _ H1 Hg) as (c & Hc & Hcl). unfold attached in Hga. congruence.
      * destruct (attached_client _ _ _ _ H2 Hg) as (c & Hc & Hcl). unfold attached in Hga. congruence.
  - rewrite (st_bind_eq _ _ _ _ _ (unregister_others _ _ _ _ Ha Hspec)). cbn [negb].
    rewrite (st_bind_eq _ _ _ _ _ (prune_nothing _ _ _ eq_refl Ha)). erewrite st_bind_eq by reflexivity.
    rewrite bool_decide_false by done. intros [= <- <-]. split; [done|]. split; [by rewrite remove_first_not|].
    split; [split; [done|intros Hin; by destruct Hspec]|]. intros h x Hh Hha _.
    destruct (attached_client _ _ _ _ Ha Hh) as (c & Hc & Hcl). unfold attached in Hha. congruence.
Qed.
End streams.

(** ** The manager in use *)

Section use.
Context {W : Type} {IE : IsoEnv W} {IC : IsoClient W} {CL : IsoClientLaws W}.

Abbreviation M := (StM (iso_system W)).
Implicit Types s : iso_system W.

(** what the rest of the program and the two threads call *)
Inductive ihm_call :=
| CallInit
| CallRegister (a : Z)
| CallUnregister (a : Z)
| CallStart (a cycle : Z)
| CallStop (a : Z)
| CallReset
| CallBusReset
| CallStartCycle (a cycle : Z)
| CallMissedCycles (ok : bool)
| CallThreadParameters (rt : bool) (priority : Z)
| CallExecute (fuel : nat) (t : EHandlerType).

Definition ihm_run (c : ihm_call) : M () :=
  match c with
  | CallInit => _ ← ihm_init; mret ()
  | CallRegister a => _ ← registerStream a; mret ()
  | CallUnregister a => _ ← unregisterStream a; mret ()
  | CallStart a cycle => _ ← startHandlerForStream a cycle; mret ()
  | CallStop a => _ ← stopHandlerForStream a; mret ()
  | CallReset => _ ← ihm_reset; mret ()
  | CallBusReset => _ ← ihm_handleBusReset; mret ()
  | CallStartCycle a cycle => setIsoStartCycleForStream a cycle
  | CallMissedCycles ok => setMissedCyclesOK ok
  | CallThreadParameters rt priority => _ ← setThreadParameters rt priority; mret ()
  | CallExecute fuel t => _ ← IsoTask_Execute fuel t; mret ()
  end.

Inductive ihm_reachable : iso_system W -> Prop :=
| ihm_new w : ihm_reachable (mkIso IsoHandlerManager_new ∅ w)
| ihm_new_rt rt prio w : ihm_reachable (mkIso (IsoHandlerManager_new_rt rt prio) ∅ w)
| ihm_step s c s1 : ihm_reachable s -> ihm_run c s = Some ((), s1) -> ihm_reachable s1.

Lemma ihm_run_keeps c :
  (forall a, c <> CallRegister a) -> (forall a, c <> CallUnregister a) -> StKeeps same_registry (ihm_run c).
Proof. intros H1 H2. destruct c; try solve [by destruct (H1 a)|by destruct (H2 a)]; cbn [ihm_run]; apply _. Qed.

Lemma reachable_registry s : ihm_reachable s -> registry_ok s.
Proof.
  assert (Hnew : forall m (w : W), im_handlers m = [] -> im_streams m = [] -> registry_ok (mkIso m ∅ w)).
  { intros m w H1 H2. unfold registry_ok. cbn [is_manager]. rewrite H1, H2. by repeat constructor. }
  induction 1 as [w|rt prio w|s c s1 _ IH Hrun]; [by apply Hnew|by apply Hnew|].
  destruct c; try solve [eapply registry_same; [|exact IH]; refine (st_keeps (StKeeps := ihm_run_keeps _ _ _) _ _ _ Hrun); done].
  - cbn [ihm_run] in Hrun. apply st_bind_inv in Hrun as (ok & s2 & H & Hret). injection Hret as <-. by eapply registerStream_ok in H as [? _].
  - cbn [ihm_run] in Hrun. apply st_bind_inv in Hrun as (ok & s2 & H & Hret). injection Hret as <-. by eapply unregisterStream_ok in H as [? _].
Qed.

(** C12: the registry of the iso manager.  Whatever the program and the two
    threads have called: the handlers and the streams are lists without
    repetition, every stream has exactly one handler, in the order of their
    registration, and every handler has a client; so the lookups by stream
    always find the handler of a registered stream, and nothing else. *)
Theorem registry_reachable s :
  ihm_reachable s ->
  NoDup (im_handlers (is_manager s)) /\ NoDup (im_streams (is_manager s)) /\
  Forall2 (attached s) (im_handlers (is_manager s)) (im_streams (is_manager s)) /\
  forall a, exists r, getHandlerForStream a s = Some (r, s) /\ (r <> None <-> a ∈ im_streams (is_manager s)) /\
    forall h, r = Some h -> attached s h a.
Proof.
  intros Hr%reachable_registry. pose proof Hr as (H1 & H2 & H3). split; [done|]. split; [done|]. split; [done|]. intros a.
  destruct (getHandler_spec s a Hr) as (r & Hg & Hspec). exists r. split; [done|]. destruct r as [h|].
  - destruct Hspec as (l1 & l2 & k1 & k2 & _ & Hk & _ & _ & Hh). split; [|by intros g [= <-]]. split; [|done].
    intros _. rewrite Hk. apply elem_of_app. right. by left.
  - split; [|done]. split; [done|intros Hin; by destruct Hspec].
Qed.

(** C40: a stream must be stopped before it is unregistered.  If its handler
    still runs, [unregisterStream] clears the client, and the destructor of
    the handler, which disables it, calls the client that is no longer there. *)
Theorem unregister_running_undefined s a h x :
  ihm_reachable s -> h ∈ im_handlers (is_manager s) -> is_handlers s !! h = Some x -> ih_client (ih_c x) = Some a ->
  ih_state (ih_c x) = eHS_Running -> ih_handle (ih_c x) <> None -> unregisterStream a s = None.
Proof.
  intros Hr%reachable_registry Hh Hx Ha Hst Hhd. destruct (unregisterStream a s) as [[ok s1]|] eqn:Hu; [exfalso|done].
  destruct (unregisterStream_ok _ _ _ _ Hr Hu) as (_ & _ & _ & Hstop).
  destruct (Hstop h x Hh) as [H|H]; [|done|congruence..]. unfold attached, client_of. by rewrite Hx, <- Ha.
Qed.
End use.

(** ** Sizes *)

(** The sizes of a new handler.  With at least two buffers there are at
    least two interrupts per round of the buffers, and at least the configured
    number per period unless every packet interrupts; a packet of the stream
    fits with its header of 8 bytes, within a page for a receive handler whose
    minima fit into one, and within the limit for a transmit handler; a stream
    is refused only if its packets are too large. *)
Lemma handler_sizes (packets min_interrupts buffers page mx : Z) (rc : recv_settings) (xc : xmit_settings) :
  0 < packets < 2 ^ 31 -> 0 < min_interrupts < 2 ^ 31 -> 2 <= buffers < 2 ^ 31 -> 200 <= page < 2 ^ 32 -> 0 <= mx < 2 ^ 32 - 8 ->
  0 <= rs_min_packetsize rc <= page -> 0 <= xs_min_packetsize xc <= xs_max_packetsize xc -> xs_max_packetsize xc < 2 ^ 31 ->
  (exists irq, choose_irq_interval packets min_interrupts buffers = Some irq /\
     1 <= irq /\ 2 * irq <= buffers /\ (irq = 1 \/ irq * min_interrupts <= packets - 1)) /\
  match recv_packet_size rc page mx with
  | Some size => mx + 8 <= size /\ rs_min_packetsize rc <= size /\ 200 <= size <= page
  | None => page < mx + 8
  end /\
  match xmit_packet_size xc mx with
  | Some size => mx + 8 <= size /\ xs_min_packetsize xc <= size <= xs_max_packetsize xc
  | None => xs_max_packetsize xc < mx + 8
  end.
Proof.
  intros Hp Hm Hb Hpg Hmx Hr Hx Hx2. split; [|split].
  - unfold choose_irq_interval. rewrite (u32_small min_interrupts), (u32_small (packets - 1)) by lia.
    destruct (Z.eqb_spec min_interrupts 0); [lia|]. pose proof (Z.div_pos (packets - 1) min_interrupts ltac:(lia) ltac:(lia)) as Hd0.
    pose proof (Z.mul_div_le (packets - 1) min_interrupts ltac:(lia)) as Hd1.
    assert (Hd2 : (packets - 1) / min_interrupts <= packets - 1) by (apply Z.div_le_upper_bound; nia).
    rewrite s32_small by lia. rewrite Z.quot_div_nonneg by lia. set (q := (packets - 1) / min_interrupts) in *.
    pose proof (Z.mul_div_le buffers 2 ltac:(lia)). assert (1 <= buffers / 2) by (apply Z.div_le_lower_bound; lia).
    eexists. split; [reflexivity|]. destruct (Z.leb_spec q 0), (Z.ltb_spec (buffers / 2) q), (Z.ltb_spec (buffers / 2) 1); nia.
  - unfold recv_packet_size. rewrite (u32_small (mx + 8)), (u32_small (rs_min_packetsize rc)) by lia.
    destruct (Z.ltb_spec page (mx + 8)); [done|].
    destruct (Z.ltb_spec (mx + 8) (rs_min_packetsize rc)); case_match; lia.
  - unfold xmit_packet_size. rewrite (u32_small (mx + 8)), (u32_small (xs_min_packetsize xc)), (u32_small (xs_max_packetsize xc)) by lia.
    destruct (Z.ltb_spec (xs_max_packetsize xc) (mx + 8)); [done|]. destruct (Z.ltb_spec (mx + 8) (xs_min_packetsize xc)); lia.
Qed.

(** with the default settings: a period of 64 packets of 136 bytes *)
Lemma handler_sizes_witness :
  choose_irq_interval 64 MINIMUM_INTERRUPTS_PER_PERIOD MAX_RECV_NB_BUFFERS = Some 31 /\
  recv_packet_size (mkRecvSettings 0 64 2 128 MIN_RECV_PACKET_SIZE) 4096 136 = Some 200 /\
  exists irq, choose_irq_interval 64 2 128 = Some irq /\ 2 * irq <= 128.
Proof.
  split; [reflexivity|]. split; [reflexivity|].
  destruct (handler_sizes 64 2 128 4096 136 (mkRecvSettings 0 64 2 128 72) (mkXmitSettings 2 128 2032 72)) as ((irq & H1 & _ & H2 & _) & _);
    try (cbn; lia). by exists irq.
Defined.

(** ** Examples *)

#[export] Instance small_client_laws : IsoClientLaws Z.
Proof. split; intros; cbn [small_client client_canProducePacket client_canConsumePacket client_putPacket client_getPacket client_handleBusReset client_handlerDied client_packetsStopped]; apply _. Qed.

Fixpoint run_calls (l : list ihm_call) (s : iso_system Z) : option (iso_system Z) :=
  match l with
  | [] => Some s
  | c :: l' => match ihm_run c s with Some (_, s1) => run_calls l' s1 | None => None end
  end.

Lemma run_calls_reachable l s s1 : ihm_reachable s -> run_calls l s = Some s1 -> ihm_reachable s1.
Proof.
  revert s. induction l as [|c l IH]; intros s Hs; cbn [run_calls]; [by intros [= <-]|].
  destruct (ihm_run c s) as [[[] s2]|] eqn:Hc; [|done]. apply IH. by eapply ihm_step.
Qed.

(** three streams are registered, one leaves again; the other two have been
    started *)
Definition some_calls : list ihm_call :=
  [CallInit; CallRegister 2; CallRegister 4; CallRegister 3; CallStart 2 (-1); CallStart 3 (-1);
   CallExecute 1 eHT_Receive; CallExecute 1 eHT_Transmit; CallUnregister 4].

Definition small_run (l : list ihm_call) : iso_system Z :=
  default (mkIso IsoHandlerManager_new ∅ 0) (run_calls l (mkIso (IsoHandlerManager_new_rt true 5) ∅ 0)).

Lemma small_run_reachable l : ihm_reachable (small_run l).
Proof.
  unfold small_run. destruct (run_calls l _) as [s|] eqn:Hs; [|apply ihm_new]. eapply run_calls_reachable; [apply ihm_new_rt|exact Hs].
Qed.

Lemma registry_reachable_witness :
  exists h, getHandlerForStream 3 (small_run some_calls) = Some (Some h, small_run some_calls) /\
    im_streams (is_manager (small_run some_calls)) = [2; 3].
Proof.
  destruct (registry_reachable (small_run some_calls) (small_run_reachable _)) as (_ & _ & _ & Hall).
  destruct (Hall 3) as (r & Hr & [_ Hin] & _).
  assert (Hst : im_streams (is_manager (small_run some_calls)) = [2; 3]) by (vm_compute; reflexivity).
  destruct r as [h|]; [exists h; exact (conj Hr Hst)|]. exfalso. refine (Hin _ eq_refl). rewrite Hst. right. left.
Defined.

Lemma unregister_running_undefined_witness : unregisterStream 2 (small_run some_calls) = None.
Proof.
  destruct (im_handlers (is_manager (small_run some_calls))) as [|h l] eqn:Hl; [vm_compute in Hl; discriminate|].
  apply (fun x Hx => unregister_running_undefined (small_run some_calls) 2 h x (small_run_reachable _)
    ltac:(rewrite Hl; left) Hx) with (x := default (IsoHandler_new eHT_Receive) (is_handlers (small_run some_calls) !! h));
    vm_compute in Hl; injection Hl as <- <-; vm_compute; [reflexivity|reflexivity|reflexivity|discriminate].
Defined.
