(* ===== verification/IsoStream.v ===== *)
(** * IsoStream: the stream processors as the clients of the iso handlers

    IsoHandler.v talks to its clients through the interface [IsoClient]; here
    the stream processors of StreamProcessor.v implement it, so that a packet
    that the bus delivers runs through the handler into the state machine of
    the stream.  The processors are objects in a store, by address, and share
    the bus: while a method of a processor runs, its environment is its own
    part (the subclass and the ports) and the bus. *)
From stdpp Require Import gmap.
From S2P Require Import Prelude Memory CycleTimer TimestampedBuffer StreamProcessor StateMonad IsoHandler IsoTask IsoManager.

(** The object of a stream: the processor and the field of its channel. *)
Record iso_stream (C : Type) := mkStream { st_processor : StreamProcessor C; st_channel : Z }.
#[global] Arguments mkStream {C}.
#[global] Arguments st_processor {C}.
#[global] Arguments st_channel {C}.

Record stream_world (C X : Type) := mkWorld { sw_streams : gmap Z (iso_stream C); sw_bus : X }.
#[global] Arguments mkWorld {C X}.
#[global] Arguments sw_streams {C X}.
#[global] Arguments sw_bus {C X}.

(** the virtual function of the subclasses that only the iso manager calls *)
Class PacketSize (E : Type) := { child_getMaxPacketSize : E -> Z }.

Definition with_env {E1 E2 : Type} (e : E2) (sp : StreamProcessor E1) : StreamProcessor E2 :=
  let p := sp_protected sp in
  mkSP (sp_private sp) (mkShared (sh_last_timestamp p) (sh_correct_last_timestamp p) (sh_data_buffer p) (sh_scratch_buffer p)
    (sh_ticks_per_frame p) (sh_dll_bandwidth_hz p) (sh_extra_buffer_frames p) (sh_max_diff_ticks p) (sh_local_node_id p) e).

Definition env_of {E : Type} (sp : StreamProcessor E) : E := sh_env (sp_protected sp).

Section streams.
Context {C X : Type} {EV : SPEnv (C * X)} {CH : SPChild (C * X)} {PS : PacketSize (C * X)}.
Variable DEBUG : bool.
Variable block : Z -> list Z.

Abbreviation World := (stream_world C X).
Implicit Types s : iso_system World.
Implicit Types w : World.

(** the processor with the bus in view *)
Definition entered_stream (a : Z) w : option (StreamProcessor (C * X)) :=
  (fun o => with_env (env_of (st_processor o), sw_bus w) (st_processor o)) <$> sw_streams w !! a.

(** a question to the stream [a] *)
Definition stream_ask {A} (m : SPM (C * X) A) (a : Z) w : option A := sp ← entered_stream a w; fst <$> m sp.

(** a method of the stream [a] *)
Definition run_stream {A} (m : SPM (C * X) A) (a : Z) : StM (iso_system World) A := fun s =>
  o ← sw_streams (is_world s) !! a;
  '(x, sp1) ← m (with_env (env_of (st_processor o), sw_bus (is_world s)) (st_processor o));
  let '(c1, b1) := env_of sp1 in
  Some (x, mkIso (is_manager s) (is_handlers s)
             (mkWorld (<[a := mkStream (with_env c1 sp1) (st_channel o)]> (sw_streams (is_world s))) b1)).

#[export] Instance stream_client : IsoClient World := {|
  client_getType a w := (fun sp => sp_processor_type (sp_private sp)) <$> entered_stream a w;
  client_getChannel a w := st_channel <$> sw_streams w !! a;
  client_getMaxPacketSize a w := (fun sp => child_getMaxPacketSize (env_of sp)) <$> entered_stream a w;
  client_getPacketsPerPeriod a w := stream_ask getPacketsPerPeriod a w;
  client_canProducePacket a := run_stream canProducePacket a;
  client_canConsumePacket a := run_stream canConsumePacket a;
  client_putPacket a data length channel tag sy ctr dropped := run_stream (putPacket DEBUG block data length tag sy ctr (u32 dropped)) a;
  client_getPacket a p ctr dropped skipped max_length :=
    run_stream (getPacket DEBUG block (pkt_data p) (pkt_length p) (pkt_tag p) (pkt_sy p) ctr dropped) a;
  client_handleBusReset a := run_stream handleBusResetDo a;
  client_handlerDied a := run_stream handlerDied a;
  client_packetsStopped a := run_stream packetsStopped a |}.

(** the handlers see libraw1394, and everything else outside, through the bus *)
Definition on_the_bus {A} (f : X -> A * X) w : A * World := let '(x, b) := f (sw_bus w) in (x, mkWorld (sw_streams w) b).
Definition bus_step (f : X -> X) w : World := mkWorld (sw_streams w) (f (sw_bus w)).

#[export] Instance stream_env {IE : IsoEnv X} : IsoEnv World := {|
  raw1394_new_handle_on_port := on_the_bus raw1394_new_handle_on_port;
  raw1394_iso_recv_init hd b p c m i := on_the_bus (raw1394_iso_recv_init hd b p c m i);
  raw1394_iso_recv_start hd c := on_the_bus (raw1394_iso_recv_start hd c);
  raw1394_iso_xmit_init hd b p c m i := on_the_bus (raw1394_iso_xmit_init hd b p c m i);
  raw1394_iso_xmit_start hd c := on_the_bus (raw1394_iso_xmit_start hd c);
  raw1394_wake_up hd := bus_step (raw1394_wake_up hd);
  raw1394_iso_stop hd := bus_step (raw1394_iso_stop hd);
  raw1394_iso_shutdown hd := bus_step (raw1394_iso_shutdown hd);
  raw1394_destroy_handle hd := bus_step (raw1394_destroy_handle hd);
  raw1394_get_fd hd w := raw1394_get_fd hd (sw_bus w);
  raw1394_read_cycle_time hd := bus_step (raw1394_read_cycle_time hd);
  raw1394_next_callback hd := on_the_bus (raw1394_next_callback hd);
  raw1394_callback_done hd r p := bus_step (raw1394_callback_done hd r p);
  raw1394_iterate_result hd w := raw1394_iterate_result hd (sw_bus w);
  getCycleTimer := on_the_bus getCycleTimer;
  getpagesize w := getpagesize (sw_bus w);
  getIsoSetting n w := getIsoSetting n (sw_bus w);
  usleep n := bus_step (usleep n);
  thread_start t rt prio := on_the_bus (thread_start t rt prio);
  thread_realtime t prio := bus_step (thread_realtime t prio);
  watchdog_registerThread t := bus_step (watchdog_registerThread t);
  poll l n := on_the_bus (poll l n);
  clock_gettime := on_the_bus clock_gettime;
  sem_post t := bus_step (sem_post t);
  sem_timedwait t ts := on_the_bus (sem_timedwait t ts) |}.

(** ** What a call of a stream does to the system *)

(** nothing but the stream and the bus *)
Definition other_streams (a : Z) s s1 : Prop :=
  same_objects s s1 /\ forall b, b <> a -> sw_streams (is_world s1) !! b = sw_streams (is_world s) !! b.

Lemma run_stream_inv {A} (m : SPM (C * X) A) a s x s1 :
  run_stream m a s = Some (x, s1) ->
  exists o sp1, sw_streams (is_world s) !! a = Some o /\
    m (with_env (env_of (st_processor o), sw_bus (is_world s)) (st_processor o)) = Some (x, sp1) /\
    sw_streams (is_world s1) !! a = Some (mkStream (with_env (fst (env_of sp1)) sp1) (st_channel o)) /\
    sw_bus (is_world s1) = snd (env_of sp1) /\ other_streams a s s1.
Proof.
  unfold run_stream. destruct (sw_streams (is_world s) !! a) as [o|] eqn:Ho; [|done]. cbn [mbind option_bind].
  destruct (m _) as [[y sp1]|] eqn:Hm; [|done]. cbn. destruct (env_of sp1) as [c1 b1] eqn:He. intros [= <- <-]. exists o, sp1.
  cbn [is_world is_manager is_handlers sw_streams sw_bus]. rewrite He. split; [done|]. split; [done|].
  split; [apply lookup_insert_eq|]. split; [done|]. split; [split; done|]. intros b Hb. by apply lookup_insert_ne.
Qed.

#[export] Instance run_stream_keeps {A} (m : SPM (C * X) A) a : StKeeps same_registry (run_stream m a).
Proof.
  apply keeps_registry_world. intros s x s1 (o & sp1 & _ & _ & _ & _ & H & _)%run_stream_inv. exact H.
Qed.

(** the streams satisfy what the shadow map of a task asks of its clients *)
#[export] Instance stream_stop_laws : StopLaws (W := World).
Proof. intros a s x s1 (o & sp1 & _ & _ & _ & _ & H & _)%run_stream_inv. exact H. Qed.

#[export] Instance stream_client_laws : IsoClientLaws World.
Proof. split; intros; cbn [stream_client client_canProducePacket client_canConsumePacket client_putPacket client_getPacket client_handleBusReset client_handlerDied client_packetsStopped]; apply _. Qed.

(** ** Missed cycles *)

(** the stream [a] runs *)
Definition stream_runs (a : Z) s : Prop :=
  exists o, sw_streams (is_world s) !! a = Some o /\
    sp_state (sp_private (st_processor o)) = ePS_Running /\ sp_next_state (sp_private (st_processor o)) = ePS_Running.

(** it has been stopped by an xrun in the cycle of [ctr] *)
Definition stream_stopped (ctr a : Z) s : Prop :=
  exists o, sw_streams (is_world s) !! a = Some o /\ xrun_stopped ctr (st_processor o).

Lemma ctr_at_range n o : 0 <= o < TICKS_PER_CYCLE -> 0 <= ctr_at n o < NO_TIME.
Proof.
  intros Ho. pose proof (ctr_at_fields n o Ho) as (H1 & H2 & _). unfold ctr_at, ctr_of, NO_TIME, CYCLES_PER_SECOND, TICKS_PER_CYCLE in *. lia.
Qed.

Lemma put_with_gap a data length channel tag sy ctr dropped s r s1 :
  stream_runs a s -> 0 <= ctr -> 0 < dropped < 2 ^ 32 ->
  client_putPacket a data length channel tag sy ctr dropped s = Some (r, s1) -> stream_stopped ctr a s1.
Proof.
  intros (o & Ho & Hst & Hnx) Hctr Hd (o1 & sp1 & Ho1 & Hr & Ho2 & _)%run_stream_inv. rewrite Ho in Ho1. injection Ho1 as <-.
  rewrite u32_small in Hr by lia. eexists. split; [exact Ho2|].
  apply putPacket_running in Hr as (sp0 & Hr & _ & Hp0); [|done].
  apply putPacket_header_running in Hr as [[_ Hz]|Hr]; [lia| |by rewrite Hp0..].
  by eapply xrun_stop_stopped.
Qed.

Lemma get_with_gap a p ctr dropped skipped max_length s r s1 :
  stream_runs a s -> 0 <= ctr < NO_TIME -> 0 < dropped ->
  client_getPacket a p ctr dropped skipped max_length s = Some (r, s1) -> stream_stopped ctr a s1.
Proof.
  intros (o & Ho & Hst & Hnx) Hctr Hd (o1 & sp1 & Ho1 & Hr & Ho2 & _)%run_stream_inv. rewrite Ho in Ho1. injection Ho1 as <-.
  eexists. split; [exact Ho2|]. apply getPacket_dropped in Hr; [|done|unfold NO_TIME in *; lia|done].
  eapply xrun_stop_stopped; [lia|exact Hr].
Qed.

Lemma xmit_done_world h cycle r s u s1 : xmit_done h cycle r s = Some (u, s1) -> is_world s1 = is_world s.
Proof.
  unfold xmit_done. assert (Hmod : forall f s0 u0 s2, ih_mod h f s0 = Some (u0, s2) -> is_world s2 = is_world s0).
  { intros f s0 u0 s2. unfold ih_mod. destruct (is_handlers s0 !! h); [|done]. by intros [= _ <-]. }
  destruct (0 <=? cycle); [|by intros [= _ <-]]. destruct (_ && _); [apply Hmod|].
  unfold ih_get. intros (d & s2 & H2 & (n & s3 & H3 & H%Hmod)%st_bind_inv)%st_bind_inv. rewrite H. clear H.
  destruct (is_handlers s !! h); [|done]. injection H2 as <- <-. unfold increment in H3.
  destruct (ih_deferred_cycles _); [|done]. by injection H3 as _ <-.
Qed.

(** C7: missed cycles stop a stream.  A running stream whose receive handler
    sees a gap in the cycles (and is not told to ignore them), or whose transmit
    handler missed cycles that were neither skipped nor counted before, is
    stopped by the packet that follows the gap: the xrun flag is set and the
    stream waits for the cycle after the one of the packet - whatever the
    subclass does, unless the call aborts. *)
Theorem missed_cycles_stop_stream s h x a pk l n m o :
  is_handlers s !! h = Some x -> ih_client (ih_c x) = Some a -> ih_packets (ih_t x) = Some pk ->
  ih_last_cycle (ih_t x) = l mod CYCLES_PER_SECOND -> ih_last_now (ih_t x) = ctr_at m o -> 0 <= o < TICKS_PER_CYCLE ->
  - 4000 < n - m < 4000 -> l < n < l + 4000 -> stream_runs a s ->
  (forall data length channel tag sy dropped r s1,
     im_missed_cycles_ok (is_manager s) = Some false -> l + 1 < n ->
     IsoHandler_putPacket h data length channel tag sy (n mod CYCLES_PER_SECOND) dropped s = Some (r, s1) ->
     stream_stopped (ctr_at n o) a s1) /\
  (forall d p dropped skipped r s1,
     ih_deferred_cycles (ih_t x) = Some d -> 0 <= d < 2 ^ 30 -> 0 <= skipped < 2 ^ 30 ->
     n - l - 1 - skipped <> 0 -> n - l - 1 - skipped <> d ->
     IsoHandler_getPacket h p (n mod CYCLES_PER_SECOND) dropped skipped s = Some (r, s1) ->
     stream_stopped (ctr_at n o) a s1).
Proof.
  intros Hx Ha Hpk Hl Hm Ho Hnm Hln Hrun. split.
  - intros data length channel tag sy dropped r s1 Hok Hgap.
    erewrite recv_packet_reports by done. apply put_with_gap; [exact Hrun|by apply ctr_at_range|lia].
  - intros d p dropped skipped r s1 Hd Hdb Hsk Hmiss Hnd.
    rewrite (xmit_packet_reports s h x a pk d p dropped skipped l n m o) by done. rewrite (proj2 (Z.eqb_neq _ _)) by done.
    intros ([r1 p1] & s2 & Hget & (u & s3 & Hdone & Hret)%st_bind_inv)%st_bind_inv. injection Hret as <- <-.
    apply get_with_gap in Hget; [|exact Hrun|by apply ctr_at_range|].
    + destruct Hget as (o2 & Ho2 & Hs2). exists o2. by rewrite (xmit_done_world _ _ _ _ _ _ Hdone).
    + pose proof (Z.mod_pos_bound (n - l - 1 - skipped - d) (2 ^ 32) ltac:(done)). unfold u32, wrapU.
      assert ((n - l - 1 - skipped - d) mod 2 ^ 32 <> 0); [|lia].
      intros Hz%Z.mod_divide; [|done]. destruct Hz as [k Hk]. lia.
Qed.
End streams.

(** ** Example: one receive stream on a small bus *)

Definition joined_env : SPEnv (unit * Z) := {|
  signalActivity e := e; StreamProcessor.signalActivityTransmit e := e; StreamProcessor.signalActivityReceive e := e;
  spm_getNominalRate _ := 48000; spm_getPeriodSize _ := 8; spm_getNbBuffers _ := 2;
  spm_syncSource_getTicksPerFrame _ := MachineFloat.f32_of_Z 512;
  spm_registerProcessor e := (true, e); ihm_registerStream e := (true, e);
  ihm_startHandlerForStream _ e := (true, e); ihm_stopHandlerForStream e := (true, e);
  ihm_getPacketLatencyForStream _ := 4; service_getCycleTimerTicks e := (0, e); service_getLocalNodeId _ := 0xffc1;
  ports_setBufferSize _ e := (true, e); ports_initPorts e := (true, e); ports_preparePorts e := (true, e);
  ports_provideSilenceBlock _ _ e := Some (true, e) |}.

Definition joined_child : SPChild (unit * Z) := {|
  getEventsPerFrame _ := 2; getEventSize _ := 4; getNominalFramesPerPacket _ := 8;
  prepareChild s := Some (true, s);
  processPacketHeader _ _ _ _ ctr s := Some (eCRV_OK, sh_with_timestamp (CYCLE_TIMER_TO_TICKS ctr) (sh_correct_last_timestamp s) s);
  processPacketData _ _ s := Some (eCRV_OK, s);
  generatePacketHeader p _ s := Some (eCRV_Packet, p, s); generatePacketData p s := Some (eCRV_OK, p, s);
  generateEmptyPacketHeader p _ s := Some (eCRV_OK, p, s); generateEmptyPacketData p s := Some (eCRV_OK, p, s);
  generateSilentPacketHeader p _ s := Some (eCRV_Packet, p, s); generateSilentPacketData p s := Some (eCRV_OK, p, s);
  processReadBlock _ _ _ e := Some (true, e); processWriteBlock region _ _ e := Some (true, region, e);
  transmitSilenceBlock data _ _ e := Some (true, data, e) |}.

Definition joined_size : PacketSize (unit * Z) := {| child_getMaxPacketSize _ := 136 |}.

(** the handler 1 of the stream 2 *)
Definition joined_system : iso_system (stream_world unit Z) :=
  mkIso (is_manager (small_system (small_handler eHS_Running eHS_Running (Some 7) None) 0))
    {[1 := small_handler eHS_Running eHS_Running (Some 7) None]}
    (mkWorld {[2 := mkStream (with_env () (demo_running ePT_Receive small_buffer_ring 0)) 0]} 0).

Lemma joined_runs : stream_runs 2 joined_system.
Proof. eexists. split; [reflexivity|]. split; reflexivity. Qed.

(** the cycles 7999, 0 and 1 are missing *)
Lemma missed_cycles_stop_stream_witness :
  exists r s1, @IsoHandler_putPacket _ (@stream_client unit Z joined_env joined_child joined_size false zeros)
      1 [] 8 0 1 0 (8002 mod 8000) 0 joined_system = Some (r, s1) /\
    stream_stopped (ctr_at 8002 5) 2 s1.
Proof.
  destruct (@IsoHandler_putPacket _ (@stream_client unit Z joined_env joined_child joined_size false zeros)
      1 [] 8 0 1 0 (8002 mod 8000) 0 joined_system) as [[r s1]|] eqn:Hr; [|exfalso; vm_compute in Hr; discriminate Hr].
  exists r, s1. split; [reflexivity|].
  refine (proj1 (@missed_cycles_stop_stream unit Z joined_env joined_child joined_size false zeros joined_system 1
    (small_handler eHS_Running eHS_Running (Some 7) None) 2 200 7998 8002 8003 5 eq_refl eq_refl eq_refl eq_refl eq_refl _ _ _ joined_runs)
    [] 8 0 1 0 0 r s1 eq_refl _ Hr); unfold TICKS_PER_CYCLE; lia.
Defined.
