(* ===== verification/Ieee1394Service.v ===== *)
(** * Ieee1394Service: the bus service of libieee1394/ieee1394service.cpp

    The object through which every other part reaches the bus: its state, the
    lock of its handle, the callback for FCP responses, the asynchronous
    requests, the split timeout, the bus reset and address range handlers.
    libraw1394, the clock and the clients' callbacks are the class [Raw1394];
    a call on the handle may run the FCP callback before it returns, so each
    one gives the messages it delivered.  The model is the build without
    DEBUG: locking the lock twice, or unlocking it when it is not held, is
    undefined ([None]).  FcpTransaction.v and IsoChannels.v continue it. *)
From stdpp Require Import gmap.
From S2P Require Import Prelude Serialize Memory CycleTimer StateMonad.

(** ffadotypes.h, ieee1394service.h *)
Definition INVALID_NODE_ID : Z := 0xFF.
Definition MAX_FCP_BLOCK_SIZE_BYTES : Z := 512.
Definition MAX_FCP_BLOCK_SIZE_QUADS : Z := MAX_FCP_BLOCK_SIZE_BYTES / 4.

(** cycletimer.h *)
Definition CSR_CYCLE_TIME : Z := 0x200.
Definition CSR_REGISTER_BASE : Z := 0xfffff0000000.

(** bswap_64 of the C library *)
Definition ByteSwap64 (d : Z) : Z :=
  Z.lor (Z.shiftl (ByteSwap32 (u32 d)) 32) (ByteSwap32 (u32 (Z.shiftr d 32))).

Definition CondSwapToBus64 (d : Z) : Z := ByteSwap64 d.
Definition CondSwapFromBus64 (d : Z) : Z := ByteSwap64 d.

(** ** libraw1394 *)

(** a message on the FCP registers: the node, whether it is a response, the data *)
Record fcp_message := mkFcpMessage { fm_nodeid : Z; fm_response : Z; fm_data : list Z }.

#[export] Instance fcp_message_dec : EqDecision fcp_message.
Proof. solve_decision. Defined.

(** a call on the handle: its result and the FCP messages it delivers *)
Abbreviation raw_call W A := (W -> A * list fcp_message * W).

(** the requests that reach an address range of ours *)
Inductive arm_request_type := RAW1394_ARM_READ | RAW1394_ARM_WRITE | RAW1394_ARM_LOCK | RAW1394_ARM_OTHER (type : Z).

Class Raw1394 (W : Type) := {
  (* asynchronous requests: the return value, and the buffer afterwards *)
  raw1394_read : Z -> Z -> Z -> list Z -> raw_call W (Z * list Z);
  raw1394_write : Z -> Z -> list Z -> raw_call W Z;
  raw1394_lock64_compare_swap : Z -> Z -> Z -> Z -> raw_call W (Z * Z);
  (* FCP *)
  raw1394_start_fcp_listen : raw_call W Z;
  raw1394_stop_fcp_listen : raw_call W Z;
  poll_handle : Z -> W -> (Z * bool) * W;
  raw1394_loop_iterate : raw_call W Z;
  (* the node and the bus *)
  raw1394_get_local_id : W -> Z;
  raw1394_get_generation : W -> Z;
  raw1394_update_generation : Z -> W -> W;
  raw1394_get_irm_id : W -> Z;
  CSR_SPLIT_TIMEOUT_HI : Z;
  CSR_SPLIT_TIMEOUT_LO : Z;
  CSR_BANDWIDTH_AVAILABLE : Z;
  (* isochronous resources; [true] allocates and [false] frees *)
  raw1394_channel_modify : Z -> bool -> raw_call W Z;
  raw1394_bandwidth_modify : Z -> bool -> raw_call W Z;
  iec61883_cmp_connect : Z -> Z -> Z -> Z -> Z -> raw_call W (Z * Z * Z * Z);
  iec61883_cmp_disconnect : Z -> Z -> Z -> Z -> Z -> Z -> raw_call W Z;
  (* address ranges, on the service's handle and on that of the ARM thread *)
  raw1394_arm_probe : Z -> Z -> raw_call W Z;
  raw1394_arm_unprobe : Z -> raw_call W Z;
  raw1394_arm_register : Z -> W -> Z * W;
  raw1394_arm_unregister : Z -> W -> Z * W;
  arm_handle : Z -> arm_request_type -> W -> W;
  arm_respond : Z -> W -> W;
  default_arm_handler : Z -> arm_request_type -> W -> W;
  (* the clock, the sleep, the functors for bus resets *)
  currentTimeAsUsecs : W -> Z * W;
  SleepUsecRelative : Z -> W -> W;
  call_functor : Z -> W -> W }.

(** ** The state *)

Inductive eFcpStatus := eFS_Empty | eFS_Waiting | eFS_Responded | eFS_Error.

#[export] Instance eFcpStatus_dec : EqDecision eFcpStatus.
Proof. solve_decision. Defined.

(** the blocks as the bytes of their quadlets *)
Record sFcpBlock := mkFcpBlock {
  fcp_status : eFcpStatus; target_nodeid : Z; request_length : Z; request : list Z; response_length : Z; response : list Z }.

(** [memset( &m_fcp_block, 0, ...)] *)
Definition sFcpBlock_zero : sFcpBlock :=
  mkFcpBlock eFS_Empty 0 0 (replicate (Z.to_nat MAX_FCP_BLOCK_SIZE_BYTES) 0) 0 (replicate (Z.to_nat MAX_FCP_BLOCK_SIZE_BYTES) 0).

(** [fcp_last] are the response bytes of the static [fcp_block_last]; the
    callback is installed by the first transaction *)
Record fcp_state := mkFcpState {
  fcp_handler : bool; m_fcp_block : sFcpBlock; fcp_last : list Z; m_filterFCPResponse : bool }.

Inductive EAllocType := AllocFree | AllocGeneric | AllocCMP.

#[export] Instance EAllocType_dec : EqDecision EAllocType.
Proof. solve_decision. Defined.

Record ChannelInfo := mkChannelInfo {
  ci_channel : Z; ci_bandwidth : Z; ci_alloctype : EAllocType; ci_xmit_node : Z; ci_xmit_plug : Z; ci_recv_node : Z; ci_recv_plug : Z }.

Definition ChannelInfo_free : ChannelInfo := mkChannelInfo (-1) (-1) AllocFree 0xFFFF (-1) 0xFFFF (-1).

(** the part of the object that these files model; the lock is a flag *)
Record Ieee1394Service := mkService {
  m_handle_lock : bool; sv_fcp : fcp_state; m_channels : list ChannelInfo; m_armHandlers : list Z; m_busResetHandlers : list Z }.

Definition Ieee1394Service_new : Ieee1394Service :=
  mkService false (mkFcpState false sFcpBlock_zero (replicate (Z.to_nat MAX_FCP_BLOCK_SIZE_BYTES) 0) false)
    (replicate 64 ChannelInfo_free) [] [].

Definition sv_with_lock (b : bool) (s : Ieee1394Service) : Ieee1394Service :=
  mkService b (sv_fcp s) (m_channels s) (m_armHandlers s) (m_busResetHandlers s).
Definition sv_with_fcp (f : fcp_state) (s : Ieee1394Service) : Ieee1394Service :=
  mkService (m_handle_lock s) f (m_channels s) (m_armHandlers s) (m_busResetHandlers s).
Definition sv_with_channels (l : list ChannelInfo) (s : Ieee1394Service) : Ieee1394Service :=
  mkService (m_handle_lock s) (sv_fcp s) l (m_armHandlers s) (m_busResetHandlers s).
Definition sv_with_arm (l : list Z) (s : Ieee1394Service) : Ieee1394Service :=
  mkService (m_handle_lock s) (sv_fcp s) (m_channels s) l (m_busResetHandlers s).
Definition sv_with_resets (l : list Z) (s : Ieee1394Service) : Ieee1394Service :=
  mkService (m_handle_lock s) (sv_fcp s) (m_channels s) (m_armHandlers s) l.

Definition fs_with_handler (b : bool) (f : fcp_state) : fcp_state :=
  mkFcpState b (m_fcp_block f) (fcp_last f) (m_filterFCPResponse f).
Definition fs_with_block (b : sFcpBlock) (f : fcp_state) : fcp_state :=
  mkFcpState (fcp_handler f) b (fcp_last f) (m_filterFCPResponse f).
Definition fb_with_status (st : eFcpStatus) (b : sFcpBlock) : sFcpBlock :=
  mkFcpBlock st (target_nodeid b) (request_length b) (request b) (response_length b) (response b).

(** ** The callback for FCP messages *)

Definition FCP_RESPONSE_INTERIM : Z := 0x0F000000.
Definition FCP_MASK_RESPONSE (x : Z) : Z := Z.land x 0x0F000000.
Definition FCP_MASK_SUBUNIT_AND_OPCODE (x : Z) : Z := Z.land x 0x00FFFF00.

(** [memcpy( dst, src, length )] *)
Definition copy_bytes (src dst : list Z) : list Z := src ++ drop (length src) dst.

(** the tests on a message that is long enough *)
Definition fcp_accepts (f : fcp_state) (nodeid first_quadlet : Z) (data : list Z) : option bool :=
  request0 ← load_quadlet (request (m_fcp_block f)) 0;
  Some (negb (FCP_MASK_RESPONSE first_quadlet =? FCP_RESPONSE_INTERIM)
        && (nodeid =? target_nodeid (m_fcp_block f))
        && negb (first_quadlet =? 0)
        && (FCP_MASK_SUBUNIT_AND_OPCODE first_quadlet =? FCP_MASK_SUBUNIT_AND_OPCODE (CondSwapFromBus32 request0))
        && negb (m_filterFCPResponse f && bool_decide (take (length data) (fcp_last f) = data))).

Definition handleFcpResponse (m : fcp_message) (f : fcp_state) : option fcp_state :=
  if negb (fm_response m =? 0) && (3 <? Z.of_nat (length (fm_data m))) then
    let data := take (Z.to_nat MAX_FCP_BLOCK_SIZE_BYTES) (fm_data m) in
    first ← load_quadlet data 0;
    ok ← fcp_accepts f (fm_nodeid m) (CondSwapFromBus32 first) data;
    let b := m_fcp_block f in
    Some (if ok : bool then
      mkFcpState (fcp_handler f)
        (mkFcpBlock eFS_Responded (target_nodeid b) (request_length b) (request b)
           ((Z.of_nat (length data) + 4 - 1) / 4) (copy_bytes data (response b)))
        (if m_filterFCPResponse f then copy_bytes data (fcp_last f) else fcp_last f)
        (m_filterFCPResponse f)
      else f)
  else Some f.

(** the messages that a call delivers; before the callback is installed
    libraw1394 drops them *)
Fixpoint deliver (ms : list fcp_message) (f : fcp_state) : option fcp_state :=
  match ms with
  | [] => Some f
  | m :: ms' => f1 ← (if fcp_handler f then handleFcpResponse m f else Some f); deliver ms' f1
  end.

(** ** Calls *)

(** the service and what it runs on *)
Record service (W : Type) := mkSystem { sv : Ieee1394Service; sw : W }.
Arguments mkSystem {W} _ _.
Arguments sv {W} _.
Arguments sw {W} _.

Section service.
Context {W : Type} {RB : Raw1394 W}.

Abbreviation M := (StM (service W)).

Definition sv_gets {A} (f : Ieee1394Service -> A) : M A := st_gets (fun s => f (sv s)).
Definition sv_mod (f : Ieee1394Service -> Ieee1394Service) : M () := st_mod (fun s => mkSystem (f (sv s)) (sw s)).
Definition world_gets {A} (f : W -> A) : M A := st_gets (fun s => f (sw s)).
Definition world_mod (f : W -> W) : M () := st_mod (fun s => mkSystem (sv s) (f (sw s))).
Definition world_run {A} (f : W -> A * W) : M A := st_run (fun s => let '(x, w) := f (sw s) in (x, mkSystem (sv s) w)).

(** a call on the handle *)
Definition raw {A} (c : raw_call W A) : M A := fun s =>
  let '(x, ms, w) := c (sw s) in
  f ← deliver ms (sv_fcp (sv s)); Some (x, mkSystem (sv_with_fcp f (sv s)) w).

Definition lock : M () := fun s =>
  if m_handle_lock (sv s) then None else Some ((), mkSystem (sv_with_lock true (sv s)) (sw s)).
Definition unlock : M () := fun s =>
  if m_handle_lock (sv s) then Some ((), mkSystem (sv_with_lock false (sv s)) (sw s)) else None.

(** [Util::MutexLockHelper lock( *m_handle_lock );] *)
Definition locked {A} (m : M A) : M A := lock;; x ← m; unlock;; mret x.

(** ** The node and the bus *)

Definition getLocalNodeId : M Z := locked (world_gets (fun w => Z.land (raw1394_get_local_id w) 0x3F)).
Definition getGeneration : M Z := locked (world_gets raw1394_get_generation).
Definition updateGeneration : M () := locked (g ← getGeneration; world_mod (raw1394_update_generation g)).

(** [do { ... } while (gen_current != getGeneration() && --nb_tries);] *)
Fixpoint storm_loop (fuel : nat) (nb_tries sleep_time_ms : Z) : M Z :=
  match fuel with
  | O => st_fail
  | Datatypes.S fuel' =>
    gen_current ← getGeneration;
    world_mod (SleepUsecRelative (sleep_time_ms * 1000));;
    gen ← getGeneration;
    if gen_current =? gen then mret nb_tries
    else if nb_tries - 1 =? 0 then mret 0
    else storm_loop fuel' (nb_tries - 1) sleep_time_ms
  end.

Definition waitForBusResetStormToEnd (fuel : nat) (nb_tries sleep_time_ms : Z) : M bool :=
  n ← storm_loop fuel nb_tries sleep_time_ms; mret (negb (n =? 0)).

(** ** Asynchronous requests *)

(** the buffer is given and returned as its bytes; [length] counts quadlets *)
Definition readNoLock (nodeId addr length : Z) (buffer : list Z) : M (bool * list Z) :=
  if nodeId =? INVALID_NODE_ID then mret (false, buffer)
  else '(err, buffer1) ← raw (raw1394_read nodeId addr (length * 4) buffer); mret (err =? 0, buffer1).

Definition read (nodeId addr length : Z) (buffer : list Z) : M (bool * list Z) :=
  locked (readNoLock nodeId addr length buffer).

Definition read_quadlet (nodeId addr : Z) (buffer : list Z) : M (bool * list Z) := read nodeId addr 1 buffer.
Definition read_octlet (nodeId addr : Z) (buffer : list Z) : M (bool * list Z) := read nodeId addr 2 buffer.

Definition writeNoLock (nodeId addr : Z) (data : list Z) : M bool :=
  if nodeId =? INVALID_NODE_ID then mret false
  else err ← raw (raw1394_write nodeId addr data); mret (err =? 0).

Definition write (nodeId addr : Z) (data : list Z) : M bool := locked (writeNoLock nodeId addr data).

Definition octlet_bytes (v : Z) : list Z := quadlet_bytes (u32 v) ++ quadlet_bytes (u32 (Z.shiftr v 32)).

Definition write_quadlet (nodeId addr data : Z) : M bool := write nodeId addr (quadlet_bytes data).
Definition write_octlet (nodeId addr data : Z) : M bool := write nodeId addr (octlet_bytes data).

Definition lockCompareSwap64 (nodeId addr compare_value swap_value result : Z) : M (bool * Z) :=
  if nodeId =? INVALID_NODE_ID then mret (false, result)
  else
    '(retval, result1) ← locked (raw (raw1394_lock64_compare_swap nodeId addr (CondSwapToBus64 swap_value) (CondSwapToBus64 compare_value)));
    mret (retval =? 0, CondSwapFromBus64 result1).

(** the signed result of [raw1394_read] or the value of the register *)
Definition getAvailableBandwidth : M Z :=
  locked (
    irm ← world_gets raw1394_get_irm_id;
    '(result, buffer) ← raw (raw1394_read irm (CSR_REGISTER_BASE + CSR_BANDWIDTH_AVAILABLE) 4 (replicate 4 0));
    if result <? 0 then mret (-1)
    else v ← st_option (load_quadlet buffer 0); mret (s32 (CondSwapFromBus32 v))).

(** ** The split timeout *)

Definition setSplitTimeoutUsecs (nodeId timeout : Z) : M bool :=
  locked (
    let secs := timeout / 1000000 in
    let usecs := timeout mod 1000000 in
    let split_timeout_hi := CondSwapToBus32 (Z.land secs 7) in
    let split_timeout_low := CondSwapToBus32 (u32 (Z.shiftl (Z.land (usecs / 125) 0x1FFF) 19)) in
    ok ← writeNoLock (Z.lor 0xffc0 nodeId) (CSR_REGISTER_BASE + CSR_SPLIT_TIMEOUT_HI) (quadlet_bytes split_timeout_hi);
    if negb ok then mret false
    else writeNoLock (Z.lor 0xffc0 nodeId) (CSR_REGISTER_BASE + CSR_SPLIT_TIMEOUT_LO) (quadlet_bytes split_timeout_low)).

Definition getSplitTimeoutUsecs (nodeId : Z) : M Z :=
  locked (
    '(ok, hi) ← readNoLock (Z.lor 0xffc0 nodeId) (CSR_REGISTER_BASE + CSR_SPLIT_TIMEOUT_HI) 1 (replicate 4 0);
    if negb ok then mret 0
    else
      '(ok1, low) ← readNoLock (Z.lor 0xffc0 nodeId) (CSR_REGISTER_BASE + CSR_SPLIT_TIMEOUT_LO) 1 (replicate 4 0);
      if negb ok1 then mret 0
      else
        split_timeout_hi ← st_option (load_quadlet hi 0);
        split_timeout_low ← st_option (load_quadlet low 0);
        mret (s32 (u32 (Z.land (CondSwapFromBus32 split_timeout_hi) 7 * 1000000
                        + Z.shiftr (CondSwapFromBus32 split_timeout_low) 19 * 125)))).

(** the part of [initialize] that makes the timeout at least [split_timeout] *)
Definition raise_split_timeout (split_timeout : Z) : M Z :=
  node ← getLocalNodeId;
  timeout ← getSplitTimeoutUsecs node;
  if timeout <? split_timeout then
    node1 ← getLocalNodeId;
    _ ← setSplitTimeoutUsecs node1 (u32 (split_timeout + 124));
    node2 ← getLocalNodeId;
    getSplitTimeoutUsecs node2
  else mret timeout.

(** ** Bus resets *)

Definition addBusResetHandler (functor : Z) : M bool :=
  sv_mod (fun s => sv_with_resets (m_busResetHandlers s ++ [functor]) s);; mret true.

Definition remBusResetHandler (functor : Z) : M bool :=
  l ← sv_gets m_busResetHandlers;
  if bool_decide (functor ∈ l) then sv_mod (sv_with_resets (remove_first functor l));; mret true
  else mret false.

Definition resetHandler (generation : Z) : M bool :=
  locked (world_mod (raw1394_update_generation generation));;
  node ← getLocalNodeId;
  _ ← read_quadlet (Z.lor node 0xFFC0) (Z.lor CSR_REGISTER_BASE CSR_CYCLE_TIME) (replicate 4 0);
  l ← sv_gets m_busResetHandlers;
  each_do (fun h => world_mod (call_functor h)) l;;
  mret true.

(** ** Address ranges *)

Definition registerARMHandler (h : Z) : M bool :=
  err ← world_run (raw1394_arm_register h);
  if negb (err =? 0) then mret false
  else sv_mod (fun s => sv_with_arm (m_armHandlers s ++ [h]) s);; mret true.

(** Every occurrence is tried until one can be unregistered. *)
Fixpoint unregister_arm (h : Z) (before l : list Z) : M bool :=
  match l with
  | [] => mret false
  | a :: l' =>
    if a =? h then
      err ← world_run (raw1394_arm_unregister h);
      if negb (err =? 0) then unregister_arm h (before ++ [a]) l'
      else sv_mod (sv_with_arm (before ++ l'));; mret true
    else unregister_arm h (before ++ [a]) l'
  end.

Definition unregisterARMHandler (h : Z) : M bool := l ← sv_gets m_armHandlers; unregister_arm h [] l.

Definition NO_ARM_BLOCK : Z := 0xFFFFFFFFFFFFFFFF.

Fixpoint find_arm_block (tries : nat) (start length step : Z) : M Z :=
  match tries with
  | O => mret NO_ARM_BLOCK
  | Datatypes.S tries' =>
    err ← raw (raw1394_arm_probe start length);
    if negb (err =? 0) then find_arm_block tries' (u64 (start + step)) length step
    else
      err1 ← raw (raw1394_arm_unprobe start);
      mret (if negb (err1 =? 0) then NO_ARM_BLOCK else start)
  end.

Definition findFreeARMBlock (start length step : Z) : M Z := locked (find_arm_block 10 start length step).

(** the handler whose address the tag is, or the one of libraw1394 *)
Definition armHandler (arm_tag : Z) (request_type : arm_request_type) : M bool :=
  l ← sv_gets m_armHandlers;
  if bool_decide (arm_tag ∈ l) then
    match request_type with
    | RAW1394_ARM_OTHER _ => mret true
    | _ => world_mod (arm_handle arm_tag request_type);; world_mod (arm_respond arm_tag);; mret true
    end
  else world_mod (default_arm_handler arm_tag request_type);; mret true.

Definition setFCPResponseFiltering (enable : bool) : M () :=
  sv_mod (fun s => let f := sv_fcp s in sv_with_fcp (mkFcpState (fcp_handler f) (m_fcp_block f) (fcp_last f) enable) s).
End service.

(** ** A bus to run the model on

    One node besides ours: a queue of the messages that the next iterations
    deliver, a memory of registers, and a resource manager. *)
Record desk_bus := mkDesk {
  dk_time : N; dk_inbox : list (list fcp_message); dk_memory : gmap (Z * Z) (list Z); dk_taken : list Z; dk_bandwidth : Z }.

Definition dk_tick (w : desk_bus) : desk_bus :=
  mkDesk (N.succ (dk_time w)) (dk_inbox w) (dk_memory w) (dk_taken w) (dk_bandwidth w).

Definition dk_with_resources (l : list Z) (b : Z) (w : desk_bus) : desk_bus :=
  mkDesk (dk_time w) (dk_inbox w) (dk_memory w) l b.

Definition dk_channel (c : Z) (alloc : bool) (w : desk_bus) : Z * list fcp_message * desk_bus :=
  if alloc then
    if bool_decide (0 <= c < 64 /\ c ∉ dk_taken w) then (0, [], dk_with_resources (c :: dk_taken w) (dk_bandwidth w) w) else (-1, [], w)
  else if bool_decide (c ∈ dk_taken w) then (0, [], dk_with_resources (filter (fun x => x <> c) (dk_taken w)) (dk_bandwidth w) w) else (-1, [], w).

Definition dk_bandwidth_modify (b : Z) (alloc : bool) (w : desk_bus) : Z * list fcp_message * desk_bus :=
  if alloc then
    if b <=? dk_bandwidth w then (0, [], dk_with_resources (dk_taken w) (dk_bandwidth w - b) w) else (-1, [], w)
  else (0, [], dk_with_resources (dk_taken w) (dk_bandwidth w + b) w).

#[export] Instance desk_Raw1394 : Raw1394 desk_bus := {
  raw1394_read n a len buf w := ((0, default (replicate 4 0) (dk_memory w !! (n, a))), [], w);
  raw1394_write n a d w := (0, [], mkDesk (dk_time w) (dk_inbox w) (<[(n, a) := d]> (dk_memory w)) (dk_taken w) (dk_bandwidth w));
  raw1394_lock64_compare_swap n a swap compare w := (0, compare, [], w);
  raw1394_start_fcp_listen w := (0, [], w);
  raw1394_stop_fcp_listen w := (0, [], w);
  poll_handle n w := ((1, true), dk_tick w);
  raw1394_loop_iterate w :=
    match dk_inbox w with
    | [] => (0, [], w)
    | ms :: rest => (0, ms, mkDesk (dk_time w) rest (dk_memory w) (dk_taken w) (dk_bandwidth w))
    end;
  raw1394_get_local_id w := 0xffc0;
  raw1394_get_generation w := 1;
  raw1394_update_generation g w := w;
  raw1394_get_irm_id w := 0xffc1;
  CSR_SPLIT_TIMEOUT_HI := 0x18;
  CSR_SPLIT_TIMEOUT_LO := 0x1c;
  CSR_BANDWIDTH_AVAILABLE := 0x220;
  raw1394_channel_modify := dk_channel;
  raw1394_bandwidth_modify := dk_bandwidth_modify;
  iec61883_cmp_connect xn xp rn rp b w := ((fresh (dk_taken w), xp, rp, b), [], w);
  iec61883_cmp_disconnect xn xp rn rp c b w := (0, [], w);
  raw1394_arm_probe a len w := (0, [], w);
  raw1394_arm_unprobe a w := (0, [], w);
  raw1394_arm_register h w := (0, w);
  raw1394_arm_unregister h w := (0, w);
  arm_handle h r w := w;
  arm_respond h w := w;
  default_arm_handler h r w := w;
  currentTimeAsUsecs w := (Z.of_N (dk_time w), w);
  SleepUsecRelative n w := w;
  call_functor h w := w }.
