(* ===== verification/FcpTransaction.v ===== *)
(** * FcpTransaction: AV/C transactions of libieee1394/ieee1394service.cpp

    [transactionBlock] writes a request to the FCP command register of a node
    and waits for the response that the callback of Ieee1394Service.v accepts;
    [AVCCommand::fire] of AvcCommand.v calls it.  A response that is returned
    answers the request; the wait ends when the clock advances; and a node that
    answers in time has its answer returned, through interim responses and
    messages of other nodes, up to the parsed command. *)
From stdpp Require Import gmap list.
From S2P Require Import Prelude Serialize BusData AvcCommand AvcCommands Memory StateMonad Ieee1394Service.

(** config.h *)
Definition IEEE1394SERVICE_FCP_MAX_TRIES : nat := 2.
Definition IEEE1394SERVICE_FCP_SLEEP_BETWEEN_FAILURES_USECS : Z := 1000.
Definition IEEE1394SERVICE_FCP_POLL_TIMEOUT_MSEC : Z := 200.
Definition IEEE1394SERVICE_FCP_RESPONSE_TIMEOUT_USEC : Z := 200000.

Definition FCP_COMMAND_ADDR : Z := 0xFFFFF0000B00.

Section transaction.
Context {W : Type} {RB : Raw1394 W}.

Abbreviation M := (StM (service W)).

Definition fcp_gets {A} (f : sFcpBlock -> A) : M A := sv_gets (fun s => f (m_fcp_block (sv_fcp s))).
Definition fcp_mod (f : fcp_state -> fcp_state) : M () := sv_mod (fun s => sv_with_fcp (f (sv_fcp s)) s).
Definition set_status (st : eFcpStatus) : M () :=
  fcp_mod (fun f => fs_with_block (fb_with_status st (m_fcp_block f)) f).

(** [if (...) raw1394_loop_iterate( m_handle );] *)
Definition iterate_if (b : bool) : M () := if b then _ ← raw raw1394_loop_iterate; mret () else mret ().

(** The loop that waits; the clock is read only while there is no response. *)
Fixpoint wait_response (fuel : nat) (timeout : Z) : M () :=
  match fuel with
  | O => st_fail
  | Datatypes.S fuel' =>
    st ← fcp_gets fcp_status;
    if bool_decide (st = eFS_Waiting) then
      now ← world_run currentTimeAsUsecs;
      if now <? timeout then
        '(r, pollin) ← world_run (poll_handle IEEE1394SERVICE_FCP_POLL_TIMEOUT_MSEC);
        iterate_if ((0 <? r) && pollin);;
        wait_response fuel' timeout
      else mret ()
    else mret ()
  end.

(** the part of [doFcpTransactionTry] before the label [out] *)
Definition fcp_exchange (fuel : nat) : M bool :=
  err ← raw raw1394_start_fcp_listen;
  if negb (err =? 0) then mret false
  else
    set_status eFS_Waiting;;
    b ← fcp_gets id;
    ok ← writeNoLock (target_nodeid b) FCP_COMMAND_ADDR (take (Z.to_nat (4 * request_length b)) (request b));
    if negb ok then mret false
    else
      now ← world_run currentTimeAsUsecs;
      wait_response fuel (u64 (now + IEEE1394SERVICE_FCP_RESPONSE_TIMEOUT_USEC));;
      st ← fcp_gets fcp_status;
      mret (negb (bool_decide (st = eFS_Waiting)) && negb (bool_decide (st = eFS_Error))).

Definition doFcpTransactionTry (fuel : nat) : M bool :=
  fcp_mod (fs_with_handler true);;
  retval ← fcp_exchange fuel;
  err ← raw raw1394_stop_fcp_listen;
  set_status eFS_Empty;;
  mret (retval && (err =? 0)).

Fixpoint fcp_tries (n fuel : nat) : M bool :=
  match n with
  | O => mret false
  | Datatypes.S n' =>
    ok ← doFcpTransactionTry fuel;
    if ok : bool then mret true
    else world_mod (SleepUsecRelative IEEE1394SERVICE_FCP_SLEEP_BETWEEN_FAILURES_USECS);; fcp_tries n' fuel
  end.

Definition doFcpTransaction (fuel : nat) : M bool := fcp_tries IEEE1394SERVICE_FCP_MAX_TRIES fuel.

(** the request that is copied; [memcpy] from a buffer that is too short is
    undefined *)
Definition fcp_block_for (nodeId : Z) (buf : list Z) (n : Z) : sFcpBlock :=
  mkFcpBlock eFS_Empty (Z.lor 0xffc0 nodeId) n
    (copy_bytes (take (Z.to_nat (4 * n)) buf) (request sFcpBlock_zero)) 0 (response sFcpBlock_zero).

(** the response block and [*resp_len], or the null pointer *)
Definition transactionBlock (fuel : nat) (nodeId : Z) (buf : list Z) (len : Z) : M (option (list Z * Z)) :=
  if nodeId =? INVALID_NODE_ID then mret None
  else
    lock;;
    let n := if len <? MAX_FCP_BLOCK_SIZE_QUADS then len else MAX_FCP_BLOCK_SIZE_QUADS in
    st_assert ((0 <=? n) && (4 * n <=? Z.of_nat (length buf)));;
    fcp_mod (fs_with_block (fcp_block_for nodeId buf n));;
    success ← doFcpTransaction fuel;
    if success : bool then b ← fcp_gets id; mret (Some (response b, response_length b))
    else mret None.

Definition transactionBlockClose : M bool := unlock;; mret true.

(** How [AVCCommand::fire] uses the pair: the bytes it parses are those of
    [resp_len] quadlets, and the block is closed in either case. *)
Definition fcp_request (fuel : nat) (nodeId : Z) (frame : list Z) : M (option (list Z)) :=
  r ← transactionBlock fuel nodeId frame (Z.of_nat (length frame) `quot` 4);
  _ ← transactionBlockClose;
  mret ((fun '(resp, resp_len) => take (Z.to_nat (4 * resp_len)) resp) <$> r).

(** the bus as [fire] sees it from a state of the service *)
Definition bus_transaction (fuel : nat) (s : service W) (nodeId : Z) (frame : list Z) : option (list Z) :=
  '(r, _) ← fcp_request fuel nodeId frame s; r.

End transaction.

(** ** One message *)

Lemma copy_bytes_length src dst : (length src <= length dst)%nat -> length (copy_bytes src dst) = length dst.
Proof. intros H. unfold copy_bytes. rewrite length_app, length_drop. lia. Qed.

Lemma copy_bytes_take src dst : take (length src) (copy_bytes src dst) = src.
Proof. unfold copy_bytes. by rewrite take_app_le, take_ge by lia. Qed.

Lemma mask_response b0 b1 b2 b3 : is_u8 b0 -> is_u8 b1 -> is_u8 b2 -> is_u8 b3 ->
  FCP_MASK_RESPONSE (word_of b3 b2 b1 b0) = 2 ^ 24 * Z.land b0 0xf.
Proof.
  intros. unfold FCP_MASK_RESPONSE. change 0x0F000000 with (Z.shiftl 0xf 24). rewrite land_shiftl by lia.
  rewrite Z.shiftl_mul_pow2, Z.shiftr_div_pow2 by lia.
  replace (word_of b3 b2 b1 b0 / 2 ^ 24) with b0 by (unfold word_of; change (2 ^ 16) with 65536; change (2 ^ 24) with 16777216; div_lia). lia.
Qed.

Lemma mask_opcode b0 b1 b2 b3 : is_u8 b0 -> is_u8 b1 -> is_u8 b2 -> is_u8 b3 ->
  FCP_MASK_SUBUNIT_AND_OPCODE (word_of b3 b2 b1 b0) = 2 ^ 8 * (b2 + 2 ^ 8 * b1).
Proof.
  intros. unfold FCP_MASK_SUBUNIT_AND_OPCODE. change 0x00FFFF00 with (Z.shiftl (2 ^ 16 - 1) 8). rewrite land_shiftl, land_mod by lia.
  rewrite Z.shiftl_mul_pow2, Z.shiftr_div_pow2 by lia.
  replace (word_of b3 b2 b1 b0 / 2 ^ 8 mod 2 ^ 16) with (b2 + 2 ^ 8 * b1)
    by (unfold word_of; change (2 ^ 16) with 65536; change (2 ^ 24) with 16777216; div_lia). lia.
Qed.

(** [fcp_answers node frame m]: the message is a response of the node to the
    frame: not an interim one, and for the same subunit and opcode. *)
Record fcp_answers (node : Z) (frame : list Z) (m : fcp_message) : Prop := {
  fa_response : fm_response m <> 0;
  fa_length : (3 < length (fm_data m))%nat;
  fa_node : fm_nodeid m = Z.lor 0xffc0 node;
  fa_not_interim : forall c, fm_data m !! 0%nat = Some c -> Z.land c 0xf <> eR_Interim;
  fa_subunit : fm_data m !! 1%nat = frame !! 1%nat;
  fa_opcode : fm_data m !! 2%nat = frame !! 2%nat }.

(** the data that are kept of a message *)
Definition fcp_data (m : fcp_message) : list Z := take (Z.to_nat MAX_FCP_BLOCK_SIZE_BYTES) (fm_data m).

(** the block belongs to this request *)
Definition block_of (node : Z) (frame : list Z) (f : fcp_state) : Prop :=
  let b := m_fcp_block f in
  target_nodeid b = Z.lor 0xffc0 node /\ (exists pad, request b = frame ++ pad) /\
  length (request b) = 512%nat /\ length (response b) = 512%nat.

(** the response of the block is that of a message *)
Definition holds_response (P : fcp_message -> Prop) (node : Z) (frame : list Z) (f : fcp_state) : Prop :=
  exists m, P m /\ fcp_answers node frame m /\
    response_length (m_fcp_block f) = (Z.of_nat (length (fcp_data m)) + 3) / 4 /\
    take (length (fcp_data m)) (response (m_fcp_block f)) = fcp_data m.


(** What the callback does with a message. *)
Lemma handleFcpResponse_cases P node frame m f f1 :
  block_of node frame f -> (3 < length frame)%nat -> bytes frame -> P m -> bytes (fm_data m) ->
  handleFcpResponse m f = Some f1 ->
  f1 = f \/
  fcp_handler f1 = fcp_handler f /\ block_of node frame f1 /\ fcp_status (m_fcp_block f1) = eFS_Responded /\
  holds_response P node frame f1.
Proof.
  intros Hb Hfr Hfb HP Hmb. destruct Hb as (Htgt & (pad & Hreq) & Hlq & Hlr). unfold handleFcpResponse.
  destruct (negb (fm_response m =? 0) && (3 <? Z.of_nat (length (fm_data m)))) eqn:Hg; [|intros [= <-]; by left].
  apply andb_true_iff in Hg as [Hresp%negb_true_iff%Z.eqb_neq Hlen%Z.ltb_lt]. fold (fcp_data m).
  intros (first & Hfirst & (ok & Hok & Hf1)%bind_Some)%bind_Some. destruct ok; [|injection Hf1 as <-; by left]. right.
  unfold fcp_accepts in Hok. apply bind_Some in Hok as (q0 & Hq0 & Hok). injection Hok as Hok.
  apply andb_true_iff in Hok as [Hok _]. apply andb_true_iff in Hok as [Hok Hop%Z.eqb_eq].
  apply andb_true_iff in Hok as [Hok _]. apply andb_true_iff in Hok as [Hint%negb_true_iff%Z.eqb_neq Hnode%Z.eqb_eq].
  injection Hf1 as <-.
  destruct (fm_data m) as [|d0 [|d1 [|d2 [|d3 drest]]]] eqn:Hd; [cbn in Hlen; lia..|].
  destruct frame as [|r0 [|r1 [|r2 [|r3 rrest]]]]; [cbn in Hfr; lia..|].
  assert (Hdata : fcp_data m = d0 :: d1 :: d2 :: d3 :: take 508 drest) by (unfold fcp_data; rewrite Hd; done).
  rewrite Hdata in Hfirst. injection Hfirst as <-. rewrite Hreq in Hq0. injection Hq0 as <-.
  unfold bytes in Hfb, Hmb. rewrite !Forall_cons in Hfb, Hmb.
  destruct Hfb as (Hr0 & Hr1 & Hr2 & Hr3 & _). destruct Hmb as (Hd0 & Hd1 & Hd2 & Hd3 & _).
  unfold CondSwapFromBus32 in *. rewrite !ByteSwap32_word in * by done. rewrite mask_response in Hint by done. rewrite !mask_opcode in Hop by done.
  split; [done|]. assert (Hl512 : (length (fcp_data m) <= 512)%nat) by (unfold fcp_data; rewrite length_take; change (Z.to_nat MAX_FCP_BLOCK_SIZE_BYTES) with 512%nat; lia).
  split; [|split; [done|]].
  - split; [done|]. split; [by exists pad|]. split; [done|]. cbn [m_fcp_block response]. by rewrite copy_bytes_length by lia.
  - exists m. split; [done|]. split; [|split; [cbn [m_fcp_block response_length]; f_equal; lia|apply copy_bytes_take]].
    split; [done|rewrite Hd; cbn [length]; lia|congruence| | |]; rewrite Hd; cbn.
    + intros c [= <-]. intros Hc. apply Hint. rewrite Hc. done.
    + f_equal. div_lia.
    + f_equal. div_lia.
Qed.

(** ** Safety: a response answers the request *)

(** [I] holds of the bus, and with it every message that the calls of a
    transaction deliver satisfies [P] *)
Class FcpDelivers {W} `{!Raw1394 W} (I : W -> Prop) (P : fcp_message -> Prop) : Prop := {
  start_delivers : forall w, I w -> Forall P (raw1394_start_fcp_listen w).1.2 /\ I (raw1394_start_fcp_listen w).2;
  stop_delivers : forall w, I w -> Forall P (raw1394_stop_fcp_listen w).1.2 /\ I (raw1394_stop_fcp_listen w).2;
  write_delivers : forall n a d w, I w -> Forall P (raw1394_write n a d w).1.2 /\ I (raw1394_write n a d w).2;
  iterate_delivers : forall w, I w -> Forall P (raw1394_loop_iterate w).1.2 /\ I (raw1394_loop_iterate w).2;
  clock_delivers : forall w, I w -> I (currentTimeAsUsecs w).2;
  poll_delivers : forall n w, I w -> I (poll_handle n w).2;
  sleep_delivers : forall n w, I w -> I (SleepUsecRelative n w) }.

Section safety.
Context {W : Type} {RB : Raw1394 W}.
Context (I : W -> Prop) (P : fcp_message -> Prop) {FD : FcpDelivers I P}.
Hypothesis P_bytes : forall m, P m -> bytes (fm_data m).
Variables (node : Z) (frame : list Z).
Hypothesis frame_length : (3 < length frame)%nat.
Hypothesis frame_bytes : bytes frame.

Abbreviation M := (StM (service W)).
Abbreviation fcp s := (sv_fcp (sv s)).

(** [entails Q m R]: if [m] returns from a state with [Q], then [R] holds *)
Definition entails {A} (Q : fcp_state -> Prop) (m : M A) (R : A -> fcp_state -> Prop) : Prop :=
  forall s x s1, m s = Some (x, s1) -> I (sw s) -> Q (fcp s) -> I (sw s1) /\ R x (fcp s1).

Lemma entails_bind {A B} Q (m : M A) R (k : A -> M B) T :
  entails Q m R -> (forall x, entails (R x) (k x) T) -> entails Q (m ≫= k) T.
Proof. intros Hm Hk s x s1 (y & s0 & H1 & H2)%st_bind_inv HI HQ. destruct (Hm _ _ _ H1 HI HQ). by eapply Hk. Qed.

Lemma entails_ret {A} (Q : fcp_state -> Prop) (x : A) (R : A -> fcp_state -> Prop) :
  (forall f, Q f -> R x f) -> entails Q (mret x : M A) R.
Proof. intros H s y s1 [= <- <-]. auto. Qed.

(** a call that has nothing to do with FCP *)
Lemma entails_world {A} (Q : fcp_state -> Prop) (c : W -> A * W) :
  (forall w, I w -> I (c w).2) -> entails Q (world_run c) (fun _ => Q).
Proof. intros Hc s x s1. unfold world_run, st_run. specialize (Hc (sw s)). destruct (c (sw s)). intros [= <- <-]. auto. Qed.

Lemma entails_gets {A} Q (g : sFcpBlock -> A) (R : A -> fcp_state -> Prop) :
  (forall f, Q f -> R (g (m_fcp_block f)) f) -> entails Q (fcp_gets g : M A) R.
Proof. intros H s x s1 [= <- <-] HI HQ. split; [exact HI|by apply H]. Qed.

Lemma entails_mod Q (g : fcp_state -> fcp_state) (R : () -> fcp_state -> Prop) :
  (forall f, Q f -> R () (g f)) -> entails Q (fcp_mod g : M ()) R.
Proof. intros H s x s1 [= <- <-] HI HQ. split; [exact HI|by apply H]. Qed.

(** A property that survives one message survives a call. *)
Lemma entails_raw {A} (Q : fcp_state -> Prop) (c : raw_call W A) :
  (forall w, I w -> Forall P (c w).1.2 /\ I (c w).2) ->
  (forall m f f1, P m -> Q f -> handleFcpResponse m f = Some f1 -> Q f1) ->
  entails Q (raw c) (fun _ => Q).
Proof.
  intros Hc Hm s x s1. unfold raw. specialize (Hc (sw s)). destruct (c (sw s)) as [[y ms] w] eqn:Hcw.
  intros (f1 & Hd & [= <- <-])%bind_Some HI HQ. destruct (Hc HI) as [Hms HI1]. split; [done|].
  cbn [fst snd] in *. cbn [sv sw sv_fcp sv_with_fcp]. clear Hc Hcw. revert Hd HQ. generalize (fcp s).
  induction Hms as [|m ms HPm _ IH]; intros f; cbn [deliver]; [intros Hd HQ; by injection Hd as <-|].
  intros (f2 & H2 & Hd)%bind_Some HQ. apply (IH f2 Hd). destruct (fcp_handler f); [by eapply Hm|by injection H2 as <-].
Qed.

(** the three stages: the block is ours, we wait, we have a response *)
Definition block_ours : fcp_state -> Prop := block_of node frame.
Definition has_response (f : fcp_state) : Prop := block_ours f /\ holds_response P node frame f.
Definition waits (f : fcp_state) : Prop :=
  block_ours f /\ (fcp_status (m_fcp_block f) = eFS_Waiting \/ fcp_status (m_fcp_block f) = eFS_Responded /\ holds_response P node frame f).

Lemma message_keeps m f f1 :
  P m -> handleFcpResponse m f = Some f1 ->
  (block_ours f -> block_ours f1) /\ (has_response f -> has_response f1) /\ (waits f -> waits f1).
Proof.
  intros HP Hh. split_and!.
  - intros Hb. destruct (handleFcpResponse_cases P node frame m f f1) as [->|(_ & ? & _)]; eauto.
  - intros [Hb Hr]. destruct (handleFcpResponse_cases P node frame m f f1) as [->|(_ & ? & _ & ?)]; eauto; by split.
  - intros [Hb Hr]. destruct (handleFcpResponse_cases P node frame m f f1) as [->|(_ & ? & ? & ?)]; eauto; split; auto.
Qed.

Lemma wait_response_entails fuel timeout : entails waits (wait_response fuel timeout) (fun _ => waits).
Proof.
  induction fuel as [|fuel IH]; [by intros s x s1|]. cbn [wait_response]. eapply entails_bind; [by apply (entails_gets _ _ (fun _ => waits))|].
  intros st. case_bool_decide; [|by apply entails_ret]. eapply entails_bind; [apply entails_world, clock_delivers|].
  intros now. destruct (now <? timeout); [|by apply entails_ret]. eapply entails_bind; [apply entails_world, poll_delivers|].
  intros [r pollin]. eapply (entails_bind _ _ (fun _ => waits)); [|intros []; apply IH].
  unfold iterate_if. destruct ((0 <? r) && pollin); [|by apply entails_ret].
  eapply entails_bind; [apply entails_raw; [apply iterate_delivers|intros m f f1 HP HQ Hh; pose proof (message_keeps _ _ _ HP Hh); tauto]|]. intros ?. by apply entails_ret.
Qed.

Lemma fcp_exchange_entails fuel : entails block_ours (fcp_exchange fuel) (fun ok f => if ok then has_response f else block_ours f).
Proof.
  unfold fcp_exchange. eapply entails_bind; [apply entails_raw; [apply start_delivers|intros m f f1 HP HQ Hh; pose proof (message_keeps _ _ _ HP Hh); tauto]|].
  intros err. destruct (negb (err =? 0)); [by apply entails_ret|].
  eapply (entails_bind _ _ (fun _ => waits)); [apply entails_mod; intros f Hf; split; [exact Hf|by left]|]. intros [].
  eapply entails_bind; [by apply (entails_gets _ _ (fun _ => waits))|]. intros b.
  eapply (entails_bind _ _ (fun _ => waits)).
  { unfold writeNoLock. destruct (_ =? INVALID_NODE_ID); [by apply entails_ret|].
    eapply entails_bind; [apply entails_raw; [intros w; apply write_delivers|intros m f f1 HP HQ Hh; pose proof (message_keeps _ _ _ HP Hh); tauto]|]. intros ?. by apply entails_ret. }
  intros ok. destruct (negb ok); [apply entails_ret; by intros f []|].
  eapply entails_bind; [apply entails_world, clock_delivers|]. intros now.
  eapply entails_bind; [apply wait_response_entails|]. intros [].
  eapply (entails_bind _ _ (fun st f => waits f /\ fcp_status (m_fcp_block f) = st)); [by apply entails_gets|].
  intros st. apply entails_ret. intros f [[Hb Hr] Hst]. destruct Hr as [Hr|[Hr Hh]]; rewrite Hr in Hst; subst st; cbn; [done|by split].
Qed.

Lemma doFcpTransactionTry_entails fuel : entails block_ours (doFcpTransactionTry fuel) (fun ok f => if ok then has_response f else block_ours f).
Proof.
  unfold doFcpTransactionTry. eapply (entails_bind _ _ (fun _ => block_ours)); [by apply entails_mod|]. intros [].
  eapply entails_bind; [apply fcp_exchange_entails|]. intros ok.
  eapply (entails_bind _ _ (fun _ f => if ok then has_response f else block_ours f)).
  { apply entails_raw; [apply stop_delivers|]. intros m f f1 HP HQ Hh. pose proof (message_keeps _ _ _ HP Hh). destruct ok; tauto. }
  intros err. eapply (entails_bind _ _ (fun _ f => if ok then has_response f else block_ours f)); [apply entails_mod; by destruct ok|].
  intros []. apply entails_ret. intros f. destruct ok, (err =? 0); cbn; [done|by intros []|done..].
Qed.

Lemma fcp_tries_entails n fuel : entails block_ours (fcp_tries n fuel) (fun ok f => if ok then has_response f else block_ours f).
Proof.
  induction n as [|n IH]; cbn [fcp_tries]; [by apply entails_ret|].
  eapply entails_bind; [apply doFcpTransactionTry_entails|]. intros [|]; [by apply entails_ret|].
  eapply (entails_bind _ _ (fun _ => block_ours)); [|intros []; apply IH].
  intros s x s1 [= _ <-] HI Hb. split; [by apply sleep_delivers|done].
Qed.
End safety.

(** A block that fits is copied whole. *)
Lemma block_for_request node frame f :
  (length frame <= 512)%nat -> Z.of_nat (length frame) mod 4 = 0 ->
  block_of node frame (fs_with_block (fcp_block_for node frame (Z.of_nat (length frame) `quot` 4)) f).
Proof.
  intros Hl Hm. rewrite Z.quot_div_nonneg by lia.
  assert (Ht : take (Z.to_nat (4 * (Z.of_nat (length frame) / 4))) frame = frame) by (apply take_ge; div_lia).
  unfold block_of, fcp_block_for. cbn [m_fcp_block fs_with_block target_nodeid request response]. rewrite Ht. split; [done|].
  change (request sFcpBlock_zero) with (replicate 512 0). split; [by eexists|].
  rewrite copy_bytes_length by (rewrite length_replicate; lia). by rewrite length_replicate.
Qed.

(** The transaction proper starts with the lock held and the request copied. *)
Definition fcp_start {W} (node : Z) (frame : list Z) (s : service W) : service W :=
  let n := Z.of_nat (length frame) `quot` 4 in
  let n1 := if n <? MAX_FCP_BLOCK_SIZE_QUADS then n else MAX_FCP_BLOCK_SIZE_QUADS in
  mkSystem (sv_with_fcp (fs_with_block (fcp_block_for node frame n1) (sv_fcp (sv s))) (sv_with_lock true (sv s))) (sw s).

Lemma quads_bound (frame : list Z) :
  let n := Z.of_nat (length frame) `quot` 4 in
  let n1 := if n <? MAX_FCP_BLOCK_SIZE_QUADS then n else MAX_FCP_BLOCK_SIZE_QUADS in
  0 <= n1 <= 128 /\ 4 * n1 <= Z.of_nat (length frame).
Proof.
  cbv zeta. rewrite Z.quot_div_nonneg by lia. change MAX_FCP_BLOCK_SIZE_QUADS with 128.
  destruct (Z.ltb_spec (Z.of_nat (length frame) / 4) 128); div_lia.
Qed.

Lemma fcp_request_eq {W} {RB : Raw1394 W} fuel node frame (s : service W) :
  node <> INVALID_NODE_ID -> m_handle_lock (sv s) = false ->
  fcp_request fuel node frame s =
  match doFcpTransaction fuel (fcp_start node frame s) with
  | Some (ok, s1) =>
    let b := m_fcp_block (sv_fcp (sv s1)) in
    if m_handle_lock (sv s1) then
      Some (if ok then Some (take (Z.to_nat (4 * response_length b)) (response b)) else None,
        mkSystem (sv_with_lock false (sv s1)) (sw s1))
    else None
  | None => None
  end.
Proof.
  intros Hn Hl. unfold fcp_request, transactionBlock. apply Z.eqb_neq in Hn as ->.
  pose proof (quads_bound frame) as [Hq1 Hq2]. cbv zeta in Hq1, Hq2. unfold fcp_start. cbv zeta.
  set (n := if Z.of_nat (length frame) `quot` 4 <? MAX_FCP_BLOCK_SIZE_QUADS then Z.of_nat (length frame) `quot` 4 else MAX_FCP_BLOCK_SIZE_QUADS) in *.
  unfold st_assert. replace ((0 <=? n) && (4 * n <=? Z.of_nat (length frame))) with true by lia.
  unfold lock, transactionBlockClose, unlock, fcp_mod, sv_mod, st_mod, fcp_gets, sv_gets, st_gets, mbind, StM_bind, mret, StM_ret.
  rewrite Hl. cbn [sv sw sv_fcp]. destruct (doFcpTransaction fuel _) as [[[|] s1]|]; [by destruct (m_handle_lock (sv s1))..|done].
Qed.

Lemma fcp_request_some {W} {RB : Raw1394 W} fuel node frame (s : service W) r s1 :
  fcp_request fuel node frame s = Some (Some r, s1) -> node <> INVALID_NODE_ID /\ m_handle_lock (sv s) = false.
Proof.
  unfold fcp_request, transactionBlock, transactionBlockClose, lock, unlock, mbind, StM_bind, mret, StM_ret.
  destruct (Z.eqb_spec node INVALID_NODE_ID); [by destruct (m_handle_lock (sv s))|]. by destruct (m_handle_lock (sv s)).
Qed.

(** C3: An AV/C transaction never returns a message that is not a response to
    the request: whatever arrives on the FCP registers meanwhile, the bytes
    returned are the data of a message, up to the size of the block and
    filled up to whole quadlets, that was delivered, comes from the node, is
    not an interim response, and has the subunit and opcode of the request. *)
Theorem fcp_response_answers {W} {RB : Raw1394 W} (I : W -> Prop) (P : fcp_message -> Prop) {FD : FcpDelivers I P}
    (HP : forall m, P m -> bytes (fm_data m)) fuel node frame (s : service W) resp s1 :
  I (sw s) -> bytes frame -> (3 < length frame <= 512)%nat -> Z.of_nat (length frame) mod 4 = 0 ->
  fcp_request fuel node frame s = Some (Some resp, s1) ->
  exists m, P m /\ fcp_answers node frame m /\
    Z.of_nat (length resp) = 4 * ((Z.of_nat (length (fcp_data m)) + 3) / 4) /\
    take (length (fcp_data m)) resp = fcp_data m.
Proof.
  intros HI Hb [Hl3 Hl] Hm4 Hreq. destruct (fcp_request_some _ _ _ _ _ _ Hreq) as [Hn Hlk]. revert Hreq. rewrite fcp_request_eq by done.
  destruct (doFcpTransaction fuel (fcp_start node frame s)) as [[ok s2]|] eqn:Hd; [|done].
  cbv zeta. destruct (m_handle_lock (sv s2)); [|done]. destruct ok; [|done]. intros [= <- _].
  assert (Hours : block_of node frame (sv_fcp (sv (fcp_start node frame s)))).
  { cbn. destruct (Z.ltb_spec (Z.of_nat (length frame) `quot` 4) MAX_FCP_BLOCK_SIZE_QUADS) as [_|Hge]; [by apply block_for_request|].
    replace MAX_FCP_BLOCK_SIZE_QUADS with (Z.of_nat (length frame) `quot` 4); [by apply block_for_request|].
    rewrite Z.quot_div_nonneg in * by lia. change MAX_FCP_BLOCK_SIZE_QUADS with 128 in *. div_lia. }
  destruct (fcp_tries_entails I P HP node frame Hl3 Hb _ fuel _ true s2 Hd HI Hours) as (_ & (_ & _ & _ & Hlr) & (m & HPm & Ha & Hrl & Ht)).
  assert (Hdl : Z.of_nat (length (fcp_data m)) <= 512) by (unfold fcp_data; rewrite length_take; change (Z.to_nat MAX_FCP_BLOCK_SIZE_BYTES) with 512%nat; lia).
  exists m. split; [done|]. split; [done|]. rewrite Hrl. split.
  - rewrite length_take, Hlr. div_lia.
  - rewrite take_take. etransitivity; [|exact Ht]. f_equal. apply Nat.min_l. div_lia.
Qed.

(** ** Termination: a node that stays silent *)

(** What a turn of the loop that waits does to the world: it reads the clock,
    polls, and fetches the messages that have arrived. *)
Definition wait_turn {W} {RB : Raw1394 W} (w : W) : W :=
  let '((r, pollin), w1) := poll_handle IEEE1394SERVICE_FCP_POLL_TIMEOUT_MSEC (currentTimeAsUsecs w).2 in
  if (0 <? r) && pollin then (raw1394_loop_iterate w1).2 else w1.

(** The clock goes on: the turns carry it past every time, sooner or later.
    Single turns may take no time. *)
Class FcpClock {W} (RB : Raw1394 W) : Prop := {
  clock_passes : forall w t, exists n, t <= (currentTimeAsUsecs (Nat.iter n wait_turn w)).1 }.

Section total.
Context {W : Type} {RB : Raw1394 W} {CL : FcpClock RB}.
Abbreviation M := (StM (service W)).

(** what the calls need and keep: a block whose request can be read, and the lock *)
Definition fcp_ready (l : bool) (s : service W) : Prop :=
  m_handle_lock (sv s) = l /\ (4 <= length (request (m_fcp_block (sv_fcp (sv s)))))%nat.

Definition returns {A} (m : M A) : Prop :=
  forall l s, fcp_ready l s -> exists x s1, m s = Some (x, s1) /\ fcp_ready l s1.

Lemma returns_bind {A B} (m : M A) (f : A -> M B) : returns m -> (forall x, returns (f x)) -> returns (m ≫= f).
Proof.
  intros Hm Hf l s Hs. destruct (Hm l s Hs) as (x & s1 & H1 & Hs1). destruct (Hf x l s1 Hs1) as (y & s2 & H2 & Hs2).
  exists y, s2. split; [|done]. by rewrite (st_bind_eq m f s x s1 H1).
Qed.

Lemma returns_ret {A} (x : A) : returns (mret x).
Proof. intros l s Hs. by exists x, s. Qed.

Lemma returns_gets {A} (f : Ieee1394Service -> A) : returns (sv_gets f).
Proof. intros l s Hs. by eexists _, s. Qed.

Lemma returns_mod (f : fcp_state -> fcp_state) :
  (forall st, request (m_fcp_block (f st)) = request (m_fcp_block st)) -> returns (fcp_mod f).
Proof. intros Hf l s [Hl Hr]. eexists (), _. split; [done|]. split; [done|]. cbn. by rewrite Hf. Qed.

Lemma returns_world {A} (f : W -> A * W) : returns (world_run f).
Proof. intros l s Hs. unfold world_run, st_run. destruct (f (sw s)) as [x w]. by eexists x, _. Qed.

Lemma handle_total m f : (4 <= length (request (m_fcp_block f)))%nat ->
  exists f1, handleFcpResponse m f = Some f1 /\ request (m_fcp_block f1) = request (m_fcp_block f).
Proof.
  intros Hl. unfold handleFcpResponse. destruct (_ && (3 <? Z.of_nat (length (fm_data m)))) eqn:Hg; [|by exists f].
  apply andb_true_iff in Hg as [_ Hlen%Z.ltb_lt].
  destruct (load_quadlet_some (take (Z.to_nat MAX_FCP_BLOCK_SIZE_BYTES) (fm_data m)) 0) as [v ->];
    [lia|rewrite length_take; change (Z.to_nat MAX_FCP_BLOCK_SIZE_BYTES) with 512%nat; lia|]. cbn [mbind option_bind].
  unfold fcp_accepts. destruct (load_quadlet_some (request (m_fcp_block f)) 0) as [q ->]; [lia..|]. cbn [mbind option_bind].
  eexists. split; [done|]. by destruct (_ && _).
Qed.

Lemma deliver_total ms f : (4 <= length (request (m_fcp_block f)))%nat ->
  exists f1, deliver ms f = Some f1 /\ request (m_fcp_block f1) = request (m_fcp_block f).
Proof.
  revert f. induction ms as [|m ms IH]; intros f Hl; cbn [deliver]; [by exists f|].
  destruct (fcp_handler f); cbn [mbind option_bind].
  - destruct (handle_total m f Hl) as (f1 & -> & H1). cbn [mbind option_bind]. destruct (IH f1) as (f2 & Hd & H2); [by rewrite H1|].
    exists f2. split; [done|]. congruence.
  - by apply IH.
Qed.

Lemma raw_runs {A} (c : raw_call W A) l s : fcp_ready l s ->
  exists x ms s1, raw c s = Some (x, s1) /\ fcp_ready l s1 /\ c (sw s) = (x, ms, sw s1) /\ m_channels (sv s1) = m_channels (sv s).
Proof.
  intros [Hl Hr]. unfold raw. destruct (c (sw s)) as [[x ms] w]. destruct (deliver_total ms _ Hr) as (f1 & -> & H1). cbn [mbind option_bind].
  eexists x, ms, _. split; [done|]. split; [|done]. split; [done|]. cbn. by rewrite H1.
Qed.

(** A call under [MutexLockHelper], from a state in which the lock is free. *)
Lemma locked_intro {A} (m : M A) s x s1 :
  m_handle_lock (sv s) = false -> m (mkSystem (sv_with_lock true (sv s)) (sw s)) = Some (x, s1) -> fcp_ready true s1 ->
  exists s2, locked m s = Some (x, s2) /\ fcp_ready false s2 /\ sw s2 = sw s1 /\ m_channels (sv s2) = m_channels (sv s1).
Proof.
  intros Hl Hm [Hl1 Hr1]. exists (mkSystem (sv_with_lock false (sv s1)) (sw s1)). split; [|by split]. unfold locked.
  erewrite (st_bind_eq lock); [|unfold lock; by rewrite Hl]. rewrite (st_bind_eq _ _ _ _ _ Hm). erewrite (st_bind_eq unlock); [done|].
  unfold unlock. by rewrite Hl1.
Qed.

Lemma raw_total {A} (c : raw_call W A) l s : fcp_ready l s ->
  exists x s1, raw c s = Some (x, s1) /\ fcp_ready l s1 /\ sw s1 = (c (sw s)).2.
Proof. intros Hs. destruct (raw_runs c l s Hs) as (x & ms & s1 & H1 & H2 & H3 & _). exists x, s1. by rewrite H3. Qed.

Lemma returns_raw {A} (c : raw_call W A) : returns (raw c).
Proof. intros l s Hs. destruct (raw_total c l s Hs) as (x & s1 & H1 & H2 & _). by exists x, s1. Qed.

(** [m] returns the same with every fuel that is large enough. *)
Definition settles {A} (m : nat -> M A) : Prop :=
  forall l s, fcp_ready l s -> exists f0 x s1, fcp_ready l s1 /\ forall fuel, (f0 <= fuel)%nat -> m fuel s = Some (x, s1).

Lemma settles_returns {A} (m : M A) : returns m -> settles (fun _ => m).
Proof. intros Hm l s Hs. destruct (Hm l s Hs) as (x & s1 & H1 & Hs1). by exists 0%nat, x, s1. Qed.

Lemma settles_bind {A B} (m : nat -> M A) (f : nat -> A -> M B) :
  settles m -> (forall x, settles (fun fuel => f fuel x)) -> settles (fun fuel => m fuel ≫= f fuel).
Proof.
  intros Hm Hf l s Hs. destruct (Hm l s Hs) as (f1 & x & s1 & Hs1 & H1). destruct (Hf x l s1 Hs1) as (f2 & y & s2 & Hs2 & H2).
  exists (max f1 f2), y, s2. split; [done|]. intros fuel Hfuel. rewrite (st_bind_eq _ (f fuel) s x s1 (H1 fuel ltac:(lia))). apply H2. lia.
Qed.

Lemma poll_step_returns b l s : fcp_ready l s ->
  exists s1, iterate_if b s = Some ((), s1) /\ fcp_ready l s1 /\ sw s1 = if b then (raw1394_loop_iterate (sw s)).2 else sw s.
Proof.
  intros Hs. unfold iterate_if. destruct b; [|by eexists].
  destruct (raw_total raw1394_loop_iterate l s Hs) as (x & s1 & H1 & Hr1 & Hw1).
  exists s1. split; [by rewrite (st_bind_eq _ _ _ _ _ H1)|]. done.
Qed.

(** The wait ends: after [n] turns the clock has passed the timeout. *)
Lemma wait_response_returns n timeout l : forall s,
  fcp_ready l s -> timeout <= (currentTimeAsUsecs (Nat.iter n wait_turn (sw s))).1 ->
  exists s1, fcp_ready l s1 /\ forall fuel, (n < fuel)%nat -> wait_response fuel timeout s = Some ((), s1).
Proof.
  induction n as [|n IH]; intros s Hs Hn.
  - cbn in Hn. destruct (fcp_status (m_fcp_block (sv_fcp (sv s)))) eqn:Hst;
      try (exists s; split; [done|]; intros [|fuel] Hf; [lia|]; cbn [wait_response]; unfold fcp_gets, sv_gets, st_gets;
           rewrite (st_bind_eq _ _ s (fcp_status (m_fcp_block (sv_fcp (sv s)))) s) by done; by rewrite Hst, bool_decide_false).
    destruct (currentTimeAsUsecs (sw s)) as [now w1] eqn:Hclk. exists (mkSystem (sv s) w1). split; [done|]. intros [|fuel] Hf; [lia|]. cbn [wait_response].
    unfold fcp_gets, sv_gets, st_gets. rewrite (st_bind_eq _ _ s (fcp_status (m_fcp_block (sv_fcp (sv s)))) s) by done.
    rewrite Hst, bool_decide_true by done. rewrite (st_bind_eq _ _ s now (mkSystem (sv s) w1)) by (unfold world_run, st_run; by rewrite Hclk).
    cbn [fst] in Hn. by destruct (Z.ltb_spec now timeout); [lia|].
  - rewrite Nat.iter_succ_r in Hn. unfold wait_turn at 2 in Hn. destruct (currentTimeAsUsecs (sw s)) as [now w1] eqn:Hclk. cbn [snd] in Hn.
    destruct (poll_handle IEEE1394SERVICE_FCP_POLL_TIMEOUT_MSEC w1) as [[r pollin] w2] eqn:Hpoll.
    destruct (poll_step_returns ((0 <? r) && pollin) l (mkSystem (sv s) w2) Hs) as (s2 & H2 & Hr2 & Hw2). cbn [sw] in Hw2. rewrite <- Hw2 in Hn.
    destruct (IH s2 Hr2 Hn) as (s3 & Hr3 & H3).
    assert (Hgo : forall (P : service W -> Prop), P s -> P (mkSystem (sv s) w1) -> P s3 ->
      exists s1, P s1 /\ forall fuel, (Datatypes.S n < fuel)%nat -> wait_response fuel timeout s = Some ((), s1)).
    { intros P P1 P2 P3. destruct (decide (fcp_status (m_fcp_block (sv_fcp (sv s))) = eFS_Waiting)) as [Hst|Hst];
        [destruct (Z.ltb_spec now timeout) as [Hlt|Hge]; [exists s3|exists (mkSystem (sv s) w1)]|exists s]; (split; [done|]); intros [|fuel] Hf; try lia;
        cbn [wait_response]; unfold fcp_gets, sv_gets, st_gets; rewrite (st_bind_eq _ _ s (fcp_status (m_fcp_block (sv_fcp (sv s)))) s) by done.
      - rewrite bool_decide_true by done. rewrite (st_bind_eq _ _ s now (mkSystem (sv s) w1)) by (unfold world_run, st_run; by rewrite Hclk).
        rewrite (proj2 (Z.ltb_lt now timeout)) by done.
        rewrite (st_bind_eq _ _ (mkSystem (sv s) w1) (r, pollin) (mkSystem (sv s) w2)) by (unfold world_run, st_run; cbn [sw]; by rewrite Hpoll).
        rewrite (st_bind_eq _ _ _ _ _ H2). apply H3. lia.
      - rewrite bool_decide_true by done. rewrite (st_bind_eq _ _ s now (mkSystem (sv s) w1)) by (unfold world_run, st_run; by rewrite Hclk).
        by rewrite (proj2 (Z.ltb_ge now timeout)) by done.
      - by rewrite bool_decide_false by done. }
    by apply (Hgo (fcp_ready l)).
Qed.

Lemma fcp_exchange_settles : settles fcp_exchange.
Proof.
  unfold fcp_exchange. apply (settles_bind (fun _ => _)); [apply settles_returns, returns_raw|]. intros err.
  destruct (negb (err =? 0)); [apply settles_returns, returns_ret|].
  apply (settles_bind (fun _ => _)); [by apply settles_returns, returns_mod|]. intros [].
  apply (settles_bind (fun _ => _)); [apply settles_returns, returns_gets|]. intros b.
  apply (settles_bind (fun _ => _)).
  { apply settles_returns. unfold writeNoLock. destruct (_ =? INVALID_NODE_ID); [apply returns_ret|]. apply returns_bind; [apply returns_raw|]. intros ?. apply returns_ret. }
  intros ok. destruct (negb ok); [apply settles_returns, returns_ret|].
  apply (settles_bind (fun _ => _)); [apply settles_returns, returns_world|]. intros now.
  apply settles_bind; [|intros []; apply settles_returns, returns_bind; [apply returns_gets|intros ?; apply returns_ret]].
  intros l s Hs. set (timeout := u64 (now + IEEE1394SERVICE_FCP_RESPONSE_TIMEOUT_USEC)). destruct (clock_passes (sw s) timeout) as [n Hn].
  destruct (wait_response_returns n timeout l s Hs Hn) as (s1 & Hs1 & H1). by exists (Datatypes.S n), (), s1.
Qed.

Lemma doFcpTransaction_settles : settles doFcpTransaction.
Proof.
  unfold doFcpTransaction. induction IEEE1394SERVICE_FCP_MAX_TRIES as [|n IH]; cbn [fcp_tries]; [apply settles_returns, returns_ret|].
  apply settles_bind.
  - unfold doFcpTransactionTry. apply (settles_bind (fun _ => _)); [by apply settles_returns, returns_mod|]. intros [].
    apply settles_bind; [apply fcp_exchange_settles|]. intros ok. apply settles_returns.
    apply returns_bind; [apply returns_raw|]. intros err. apply returns_bind; [by apply returns_mod|]. intros []. apply returns_ret.
  - intros [|]; [apply settles_returns, returns_ret|].
    apply (settles_bind (fun _ => world_mod (SleepUsecRelative IEEE1394SERVICE_FCP_SLEEP_BETWEEN_FAILURES_USECS)) (fun fuel _ => fcp_tries n fuel));
      [|intros []; exact IH]. apply settles_returns. intros l s Hs. by eexists (), _.
Qed.
End total.

(** C6: A transaction with a valid node ends whatever the bus does - also when
    no response ever comes - provided that the system clock goes on, that is,
    that the turns of the waiting loop carry it past every given time sooner or
    later ([FcpClock]; single calls of poll may take no time).  With enough fuel
    the result does not depend on it, and the handle's lock is free again: the
    lock taken by [transactionBlock] is the one [transactionBlockClose] gives
    back, for a request of any length. *)
Theorem fcp_request_terminates {W} {RB : Raw1394 W} {CL : FcpClock RB} node frame (s : service W) :
  node <> INVALID_NODE_ID -> m_handle_lock (sv s) = false ->
  exists turns r s1, m_handle_lock (sv s1) = false /\
    forall fuel, (turns <= fuel)%nat -> fcp_request fuel node frame s = Some (r, s1).
Proof.
  intros Hn Hl. pose proof (quads_bound frame) as Hq. cbv zeta in Hq.
  destruct (doFcpTransaction_settles true (fcp_start node frame s)) as (f0 & ok & s1 & [Hl1 _] & H1).
  { split; [done|]. cbn. rewrite copy_bytes_length; rewrite ?length_take, length_replicate; change (Z.to_nat MAX_FCP_BLOCK_SIZE_BYTES) with 512%nat; lia. }
  eexists f0, _, _. split; [|intros fuel Hf; rewrite fcp_request_eq by done; rewrite (H1 fuel Hf); cbv zeta; rewrite Hl1; reflexivity]. done.
Qed.

(** ** Liveness: a node that answers in time *)

(** a message that is no response to the frame *)
Definition unrelated (node : Z) (frame : list Z) (m : fcp_message) : Prop :=
  fm_response m = 0 \/ (length (fm_data m) <= 3)%nat \/ fm_nodeid m <> Z.lor 0xffc0 node \/
  (exists c, fm_data m !! 0%nat = Some c /\ Z.land c 0xf = eR_Interim) \/
  fm_data m !! 1%nat <> frame !! 1%nat \/ fm_data m !! 2%nat <> frame !! 2%nat.

(** the first four bytes of a message of whole bytes *)
Lemma first_quadlet data : (3 < length data)%nat -> bytes data ->
  exists b0 b1 b2 b3 rest, data = b0 :: b1 :: b2 :: b3 :: rest /\ is_u8 b0 /\ is_u8 b1 /\ is_u8 b2 /\ is_u8 b3.
Proof.
  intros Hl Hb. destruct data as [|b0 [|b1 [|b2 [|b3 rest]]]]; [cbn in Hl; lia..|]. unfold bytes in Hb. rewrite !Forall_cons in Hb.
  exists b0, b1, b2, b3, rest. tauto.
Qed.

(** The test of the callback on a message that is long enough, by its bytes. *)
Lemma handleFcpResponse_bytes node frame f n r b0 b1 b2 b3 rest :
  block_of node frame f -> (3 < length frame)%nat -> bytes frame -> r <> 0 -> bytes (b0 :: b1 :: b2 :: b3 :: rest) ->
  m_filterFCPResponse f = false ->
  let m := mkFcpMessage n r (b0 :: b1 :: b2 :: b3 :: rest) in
  handleFcpResponse m f =
  Some (if negb (Z.land b0 0xf =? eR_Interim) && (n =? Z.lor 0xffc0 node) && negb (word_of b3 b2 b1 b0 =? 0)
           && bool_decide (frame !! 1%nat = Some b1 /\ frame !! 2%nat = Some b2)
    then mkFcpState (fcp_handler f) (mkFcpBlock eFS_Responded (target_nodeid (m_fcp_block f)) (request_length (m_fcp_block f))
      (request (m_fcp_block f)) ((Z.of_nat (length (fcp_data m)) + 3) / 4) (copy_bytes (fcp_data m) (response (m_fcp_block f))))
      (fcp_last f) false
    else f).
Proof.
  intros (Htgt & (pad & Hreq) & _ & _) Hl Hfb Hr Hmb Hfi m. destruct (first_quadlet frame Hl Hfb) as (r0 & r1 & r2 & r3 & rr & -> & Hr0 & Hr1 & Hr2 & Hr3).
  unfold bytes in Hmb. rewrite !Forall_cons in Hmb. destruct Hmb as (Hb0 & Hb1 & Hb2 & Hb3 & _).
  unfold handleFcpResponse, m. cbn [fm_response fm_data fm_nodeid].
  rewrite (proj2 (Z.eqb_neq r 0) Hr), (proj2 (Z.ltb_lt 3 _)) by (cbn [length]; lia). cbn [negb andb].
  change (take (Z.to_nat MAX_FCP_BLOCK_SIZE_BYTES) (b0 :: b1 :: b2 :: b3 :: rest)) with (b0 :: b1 :: b2 :: b3 :: take 508 rest).
  change (load_quadlet (b0 :: b1 :: b2 :: b3 :: take 508 rest) 0) with (Some (word_of b0 b1 b2 b3)). cbn [mbind option_bind].
  unfold fcp_accepts. rewrite Hreq. cbn [app]. change (load_quadlet (r0 :: r1 :: r2 :: r3 :: rr ++ pad) 0) with (Some (word_of r0 r1 r2 r3)).
  cbn [mbind option_bind]. unfold CondSwapFromBus32. rewrite !ByteSwap32_word, mask_response, !mask_opcode, Hfi, Htgt by done. cbn [andb negb]. rewrite andb_true_r.
  replace (2 ^ 24 * Z.land b0 15 =? FCP_RESPONSE_INTERIM) with (Z.land b0 15 =? eR_Interim) by (unfold FCP_RESPONSE_INTERIM, eR_Interim; lia).
  replace (2 ^ 8 * (b2 + 2 ^ 8 * b1) =? 2 ^ 8 * (r2 + 2 ^ 8 * r1)) with (bool_decide ((r0 :: r1 :: r2 :: r3 :: rr) !! 1%nat = Some b1 /\ (r0 :: r1 :: r2 :: r3 :: rr) !! 2%nat = Some b2)).
  2:{ apply eq_true_iff_eq. rewrite bool_decide_eq_true, Z.eqb_eq. cbn. split; [intros [[= ->] [= ->]]; done|]. intros He. split; f_equal; div_lia. }
  replace (_ + 4 - 1) with (Z.of_nat (length (fcp_data m)) + 3) by (change (fcp_data m) with (b0 :: b1 :: b2 :: b3 :: take 508 rest); lia). done.
Qed.

Lemma unrelated_ignored node frame m f :
  block_of node frame f -> (3 < length frame)%nat -> bytes frame -> bytes (fm_data m) -> m_filterFCPResponse f = false ->
  unrelated node frame m -> handleFcpResponse m f = Some f.
Proof.
  intros Hb Hl Hfb Hmb Hfi Hu. destruct (decide (fm_response m = 0 \/ (length (fm_data m) <= 3)%nat)) as [Hshort|Hlong].
  - unfold handleFcpResponse. destruct (Z.eqb_spec (fm_response m) 0) as [_|?]; [done|]. destruct (Z.ltb_spec 3 (Z.of_nat (length (fm_data m)))); [lia|done].
  - destruct m as [n r data]. cbn [fm_data fm_response] in *.
    destruct (first_quadlet data) as (b0 & b1 & b2 & b3 & rest & -> & _); [lia|done|].
    rewrite (handleFcpResponse_bytes node frame) by (done || lia). f_equal.
    destruct (negb (Z.land b0 0xf =? eR_Interim) && (n =? Z.lor 0xffc0 node) && negb (word_of b3 b2 b1 b0 =? 0) && bool_decide _) eqn:Hc; [exfalso|done].
    apply andb_true_iff in Hc as [Hc [H1 H2]%bool_decide_eq_true]. apply andb_true_iff in Hc as [Hc _].
    apply andb_true_iff in Hc as [Hi%negb_true_iff%Z.eqb_neq Hn%Z.eqb_eq].
    destruct Hu as [?|[?|[?|[(c & [= <-] & ?)|[?|?]]]]]; cbn in *; try congruence; lia.
Qed.

(** A response to the frame is stored. *)
Lemma answer_stored node frame m f :
  block_of node frame f -> (3 < length frame)%nat -> bytes frame -> bytes (fm_data m) -> m_filterFCPResponse f = false ->
  fcp_answers node frame m -> (exists c, fm_data m !! 0%nat = Some c /\ c <> 0) ->
  exists f1, handleFcpResponse m f = Some f1 /\ block_of node frame f1 /\ m_filterFCPResponse f1 = false /\
    fcp_handler f1 = fcp_handler f /\ fcp_status (m_fcp_block f1) = eFS_Responded /\
    response_length (m_fcp_block f1) = (Z.of_nat (length (fcp_data m)) + 3) / 4 /\
    response (m_fcp_block f1) = copy_bytes (fcp_data m) (response (m_fcp_block f)).
Proof.
  intros Hb Hl Hfb Hmb Hfi [Hr Hlen Hn Hi H1 H2] (c & Hc & Hc0). destruct m as [n r data]. cbn [fm_data fm_response fm_nodeid] in *. subst n.
  destruct (first_quadlet data) as (b0 & b1 & b2 & b3 & rest & -> & Hb0 & Hb1 & Hb2 & Hb3); [lia|done|]. injection Hc as ->.
  eexists. split; [by apply (handleFcpResponse_bytes node frame)|].
  rewrite (proj2 (Z.eqb_neq (Z.land c 0xf) eR_Interim)) by (by apply Hi). rewrite Z.eqb_refl.
  rewrite (proj2 (Z.eqb_neq (word_of b3 b2 b1 c) 0)) by (unfold word_of; change (2 ^ 16) with 65536; change (2 ^ 24) with 16777216; width_lia).
  rewrite bool_decide_eq_true_2 by (by rewrite <- H1, <- H2). cbn [negb andb].
  destruct Hb as (Ht & Hq & Hlq & Hlr). split; [|done]. split; [done|]. split; [done|]. split; [done|]. cbn [m_fcp_block response].
  rewrite copy_bytes_length; [done|]. unfold fcp_data. rewrite length_take. change (Z.to_nat MAX_FCP_BLOCK_SIZE_BYTES) with 512%nat. lia.
Qed.

Section answered.
Context {W : Type} {RB : Raw1394 W}.
Variables (node : Z) (frame : list Z) (m : fcp_message).

Definition quiet (x : fcp_message) : Prop := bytes (fm_data x) /\ unrelated node frame x.

(** [answers_after timeout n w w1]: in the [n]-th round of the wait, before
    the timeout, an iteration delivers the message [m] *)
Inductive answers_after (timeout : Z) : nat -> W -> W -> Prop :=
| answers_later n w t w1 r pollin w2 w3 w4 :
    currentTimeAsUsecs w = (t, w1) -> t < timeout -> poll_handle IEEE1394SERVICE_FCP_POLL_TIMEOUT_MSEC w1 = ((r, pollin), w2) ->
    (if (0 <? r) && pollin then exists x ms, raw1394_loop_iterate w2 = (x, ms, w3) /\ Forall quiet ms else w3 = w2) ->
    answers_after timeout n w3 w4 -> answers_after timeout (Datatypes.S n) w w4
| answers_now w t w1 r pollin w2 x ms w3 :
    currentTimeAsUsecs w = (t, w1) -> t < timeout -> poll_handle IEEE1394SERVICE_FCP_POLL_TIMEOUT_MSEC w1 = ((r, pollin), w2) ->
    (0 <? r) && pollin = true -> raw1394_loop_iterate w2 = (x, ms ++ [m], w3) -> Forall quiet ms ->
    answers_after timeout 1 w w3.

(** The whole exchange, seen from the bus: the frame is written to the
    command register and answered; nothing else concerns the request. *)
Record bus_answers (n : nat) (w w' : W) : Prop := mkBusAnswers {
  ba_exchange : exists ms1 w1 ms2 w2 t w3 w4 ms5,
    raw1394_start_fcp_listen w = (0, ms1, w1) /\ Forall quiet ms1 /\
    raw1394_write (Z.lor 0xffc0 node) FCP_COMMAND_ADDR frame w1 = (0, ms2, w2) /\ Forall quiet ms2 /\
    currentTimeAsUsecs w2 = (t, w3) /\ answers_after (u64 (t + IEEE1394SERVICE_FCP_RESPONSE_TIMEOUT_USEC)) n w3 w4 /\
    raw1394_stop_fcp_listen w4 = (0, ms5, w') /\ Forall quiet ms5;
  ba_answer : fcp_answers node frame m;
  ba_bytes : bytes (fm_data m) /\ (exists c, fm_data m !! 0%nat = Some c /\ c <> 0) }.

Hypothesis frame_length : (3 < length frame <= 512)%nat.
Hypothesis frame_quads : Z.of_nat (length frame) mod 4 = 0.
Hypothesis frame_bytes : bytes frame.

Definition listens (f : fcp_state) : Prop := block_of node frame f /\ m_filterFCPResponse f = false.

Lemma deliver_quiet ms f : listens f -> Forall quiet ms -> deliver ms f = Some f.
Proof.
  intros [Hb Hfi]. induction 1 as [|x ms [Hxb Hx] _ IH]; cbn [deliver]; [done|].
  destruct (fcp_handler f); cbn [mbind option_bind]; [|done]. rewrite (unrelated_ignored node frame x f) by (done || lia). done.
Qed.

Lemma deliver_app ms ms' f : deliver (ms ++ ms') f = f1 ← deliver ms f; deliver ms' f1.
Proof.
  revert f. induction ms as [|x ms IH]; intros f; cbn [deliver app]; [done|].
  destruct (if fcp_handler f then handleFcpResponse x f else Some f) as [f1|]; cbn [mbind option_bind]; [apply IH|done].
Qed.

Lemma raw_quiet {A} (c : raw_call W A) x ms v f w w1 :
  c w = (x, ms, w1) -> listens f -> Forall quiet ms ->
  raw c (mkSystem (sv_with_fcp f v) w) = Some (x, mkSystem (sv_with_fcp f v) w1).
Proof. intros Hc Hf Hms. unfold raw. cbn [sw sv sv_with_fcp sv_fcp]. rewrite Hc, (deliver_quiet ms f Hf Hms). done. Qed.

(** the wait, from a state that waits *)
Lemma wait_response_answered timeout n fuel v f w w1 :
  answers_after timeout n w w1 -> (n < fuel)%nat -> listens f -> fcp_handler f = true -> fcp_status (m_fcp_block f) = eFS_Waiting ->
  fcp_answers node frame m -> bytes (fm_data m) -> (exists c, fm_data m !! 0%nat = Some c /\ c <> 0) ->
  exists f1, wait_response fuel timeout (mkSystem (sv_with_fcp f v) w) = Some ((), mkSystem (sv_with_fcp f1 v) w1) /\
    handleFcpResponse m f = Some f1.
Proof.
  intros Ha Hfuel Hf Hh Hst Hm Hmb Hc. revert fuel Hfuel.
  induction Ha as [n w t w2 r pollin w3 w4 w5 Hclk Ht Hp Hi _ IH|w t w2 r pollin w3 x ms w4 Hclk Ht Hp Hr Hi Hms]; intros fuel Hfuel.
  - destruct fuel as [|fuel]; [lia|]. destruct (IH fuel) as (f1 & Hw & Hh1); [lia|]. exists f1. split; [|done]. cbn [wait_response].
    unfold fcp_gets, sv_gets, st_gets. erewrite st_bind_eq by done. cbn [sv sv_with_fcp sv_fcp]. rewrite bool_decide_eq_true_2 by done.
    erewrite st_bind_eq; [|by unfold world_run, st_run; cbn [sw]; rewrite Hclk]. rewrite (proj2 (Z.ltb_lt _ _) Ht). cbn [sv].
    erewrite st_bind_eq; [|by unfold world_run, st_run; cbn [sw]; rewrite Hp]. cbn [sv].
    erewrite st_bind_eq; [exact Hw|]. unfold iterate_if. destruct ((0 <? r) && pollin); [|by subst w4].
    destruct Hi as (x & ms & Hi & Hms). erewrite st_bind_eq; [done|]. by eapply raw_quiet.
  - destruct fuel as [|[|fuel]]; [lia..|]. destruct (answer_stored node frame m f) as (f1 & Hh1 & Hb1 & Hfi1 & Hfh1 & Hst1 & _); [apply Hf|lia|done|done|apply Hf|done|done|].
    exists f1. split; [|done]. set (fuel1 := Datatypes.S fuel). cbn [wait_response].
    unfold fcp_gets, sv_gets, st_gets. erewrite st_bind_eq by done. cbn [sv sv_with_fcp sv_fcp]. rewrite bool_decide_eq_true_2 by done.
    erewrite st_bind_eq; [|by unfold world_run, st_run; cbn [sw]; rewrite Hclk]. rewrite (proj2 (Z.ltb_lt _ _) Ht). cbn [sv].
    erewrite st_bind_eq; [|by unfold world_run, st_run; cbn [sw]; rewrite Hp]. cbn [sv].
    rewrite (st_bind_eq _ _ _ () (mkSystem (sv_with_fcp f1 v) w4)).
    + subst fuel1. cbn [wait_response]. unfold fcp_gets, sv_gets, st_gets. erewrite st_bind_eq by done. cbn [sv sv_with_fcp sv_fcp].
      by rewrite Hst1.
    + unfold iterate_if. rewrite Hr. erewrite st_bind_eq; [done|]. unfold raw. cbn [sw sv sv_with_fcp sv_fcp]. rewrite Hi, deliver_app.
      rewrite (deliver_quiet ms f Hf Hms). cbn [mbind option_bind deliver]. rewrite Hh, Hh1. done.
Qed.

(** One try, from a state whose block holds the request. *)
Lemma doFcpTransactionTry_answered n fuel v f w w1 :
  bus_answers n w w1 -> (n < fuel)%nat -> listens f ->
  take (Z.to_nat (4 * request_length (m_fcp_block f))) (request (m_fcp_block f)) = frame ->
  exists f1, doFcpTransactionTry fuel (mkSystem (sv_with_fcp f v) w) = Some (true, mkSystem (sv_with_fcp f1 v) w1) /\
    response_length (m_fcp_block f1) = (Z.of_nat (length (fcp_data m)) + 3) / 4 /\
    response (m_fcp_block f1) = copy_bytes (fcp_data m) (response (m_fcp_block f)).
Proof.
  intros [(ms1 & w2 & ms2 & w3 & t & w4 & w5 & ms5 & Hst & Hq1 & Hwr & Hq2 & Hclk & Haft & Hsp & Hq5) Hm [Hmb Hc]] Hfuel Hf Hreq.
  set (f1 := fs_with_handler true f). assert (Hf1 : listens f1) by exact Hf.
  set (f2 := fs_with_block (fb_with_status eFS_Waiting (m_fcp_block f1)) f1). assert (Hf2 : listens f2) by exact Hf.
  destruct (answer_stored node frame m f2) as (f3 & Hh & Hb3 & Hfi3 & _ & Hs3 & Hrl & Hrs); [apply Hf2|lia|done|done|apply Hf2|done|done|].
  assert (Hf3 : listens f3) by done.
  destruct (wait_response_answered _ n fuel v f2 w4 w5 Haft Hfuel Hf2 eq_refl eq_refl Hm Hmb Hc) as (f3' & Hwait & Hh').
  rewrite Hh in Hh'. injection Hh' as <-.
  assert (Htgt : target_nodeid (m_fcp_block f2) = Z.lor 0xffc0 node) by apply Hf.
  assert (Hex : fcp_exchange fuel (mkSystem (sv_with_fcp f1 v) w) = Some (true, mkSystem (sv_with_fcp f3 v) w5)).
  { unfold fcp_exchange. rewrite (st_bind_eq _ _ _ _ _ (raw_quiet _ _ _ v f1 _ _ Hst Hf1 Hq1)). cbn [negb Z.eqb].
    rewrite (st_bind_eq _ _ _ () (mkSystem (sv_with_fcp f2 v) w2)) by done. erewrite st_bind_eq by done. cbn [sv sv_with_fcp sv_fcp id].
    rewrite (st_bind_eq _ _ _ true (mkSystem (sv_with_fcp f2 v) w3)).
    - cbn [negb]. erewrite st_bind_eq; [|by unfold world_run, st_run; cbn [sw]; rewrite Hclk]. cbn [sv].
      rewrite (st_bind_eq _ _ _ _ _ Hwait). erewrite st_bind_eq by done. cbn [sv sv_with_fcp sv_fcp]. by rewrite Hs3.
    - unfold writeNoLock. rewrite Htgt. rewrite (proj2 (Z.eqb_neq _ INVALID_NODE_ID)).
      2:{ intros He. apply (f_equal (fun z => Z.testbit z 8)) in He. by rewrite Z.lor_spec in He. }
      change (request (m_fcp_block f2)) with (request (m_fcp_block f)). change (request_length (m_fcp_block f2)) with (request_length (m_fcp_block f)).
      rewrite Hreq. rewrite (st_bind_eq _ _ _ _ _ (raw_quiet _ _ _ v f2 _ _ Hwr Hf2 Hq2)). done. }
  exists (fs_with_block (fb_with_status eFS_Empty (m_fcp_block f3)) f3). split; [|done].
  unfold doFcpTransactionTry. rewrite (st_bind_eq _ _ _ () (mkSystem (sv_with_fcp f1 v) w)) by done.
  rewrite (st_bind_eq _ _ _ _ _ Hex). rewrite (st_bind_eq _ _ _ _ _ (raw_quiet _ _ _ v f3 _ _ Hsp Hf3 Hq5)).
  rewrite (st_bind_eq _ _ _ () (mkSystem (sv_with_fcp (fs_with_block (fb_with_status eFS_Empty (m_fcp_block f3)) f3) v) w1)) by done. done.
Qed.

(** The request as [fire] makes it. *)
Lemma fcp_request_answered n fuel s w1 :
  bus_answers n (sw s) w1 -> (n < fuel)%nat -> node <> INVALID_NODE_ID -> m_handle_lock (sv s) = false ->
  m_filterFCPResponse (sv_fcp (sv s)) = false -> (length (fm_data m) <= 512)%nat ->
  exists s1, fcp_request fuel node frame s = Some (Some (quadlet_padded (fm_data m)), s1) /\ sw s1 = w1 /\ m_handle_lock (sv s1) = false.
Proof.
  intros Hb Hfuel Hn Hl Hfi Hdl. rewrite fcp_request_eq by done. unfold fcp_start. cbv zeta.
  assert (Hq : Z.of_nat (length frame) `quot` 4 = Z.of_nat (length frame) / 4) by (apply Z.quot_div_nonneg; lia).
  replace (if Z.of_nat (length frame) `quot` 4 <? MAX_FCP_BLOCK_SIZE_QUADS then _ else _) with (Z.of_nat (length frame) `quot` 4).
  2:{ rewrite Hq. change MAX_FCP_BLOCK_SIZE_QUADS with 128. destruct (Z.ltb_spec (Z.of_nat (length frame) / 4) 128); [done|]. div_lia. }
  set (f := fs_with_block (fcp_block_for node frame (Z.of_nat (length frame) `quot` 4)) (sv_fcp (sv s))).
  assert (Htake : take (Z.to_nat (4 * (Z.of_nat (length frame) `quot` 4))) frame = frame) by (apply take_ge; rewrite Hq; div_lia).
  destruct (doFcpTransactionTry_answered n fuel (sv_with_lock true (sv s)) f (sw s) w1 Hb Hfuel) as (f1 & Htry & Hrl & Hrs).
  - split; [apply block_for_request; [lia|done]|done].
  - cbn [f fs_with_block m_fcp_block fcp_block_for request_length request]. rewrite Htake. etransitivity; [|apply copy_bytes_take].
    f_equal. rewrite Hq. div_lia.
  - unfold doFcpTransaction. cbn [fcp_tries IEEE1394SERVICE_FCP_MAX_TRIES]. rewrite (st_bind_eq _ _ _ _ _ Htry). cbn [mret StM_ret].
    exists (mkSystem (sv_with_lock false (sv_with_fcp f1 (sv_with_lock true (sv s)))) w1). split; [|done].
    cbn [sv sw sv_with_fcp m_handle_lock sv_with_lock sv_fcp]. do 3 f_equal. rewrite Hrl, Hrs.
    assert (Hd : fcp_data m = fm_data m) by (unfold fcp_data; apply take_ge; change (Z.to_nat MAX_FCP_BLOCK_SIZE_BYTES) with 512%nat; lia).
    rewrite Hd. unfold copy_bytes, quadlet_padded. cbn [f fs_with_block m_fcp_block fcp_block_for response sFcpBlock_zero].
    change (Z.to_nat MAX_FCP_BLOCK_SIZE_BYTES) with 512%nat. rewrite drop_replicate.
    pose proof (Nat2Z.inj_div (length (fm_data m) + 3) 4) as E. rewrite Nat2Z.inj_add in E.
    rewrite take_app_ge by div_lia. f_equal. rewrite take_replicate. f_equal. div_lia.
Qed.
End answered.

(** C1: A whole AV/C transaction over the bus: when the node answers the frame
    of a command before the timeout with the frame of a command [r] that the
    object can parse - after interim responses, other nodes' messages and
    spurious wakeups, in any number - then [fire] returns [true] exactly for
    the response codes accepted, implemented, rejected and not implemented,
    and the object becomes what it parsed. *)
Theorem avc_command_over_bus {W} {RB : Raw1394 W} {C} `{AVCCommandClass C} (n fuel : nat) (s : service W) (w1 : W)
    (c c1 r r' : C) bs rbs answer :
  emit (cmd_serialize c) = Some ((true, c1), bs) -> (0 < length bs < 512)%nat -> bytes bs ->
  let c2 := framed c1 bs in
  cmd_answers (cmd_set_base (AVCCommand_with_response (m_ctype (cmd_base r)) (cmd_base c2)) c2) r r' ->
  emit (cmd_serialize r) = Some ((true, r), rbs) ->
  m_nodeId (cmd_base c2) <> INVALID_NODE_ID -> m_handle_lock (sv s) = false -> m_filterFCPResponse (sv_fcp (sv s)) = false ->
  fm_data answer = rbs -> bus_answers (m_nodeId (cmd_base c2)) (quadlet_padded bs) answer n (sw s) w1 -> (n < fuel)%nat ->
  fire (bus_transaction fuel s) c
  = if bool_decide (m_ctype (cmd_base r) ∈ [eR_Accepted; eR_Implemented; eR_Rejected; eR_NotImplemented]) then
      '((_, r2), _) ← emit (cmd_serialize r'); Some (true, r2)
    else Some (false, r').
Proof.
  intros He [Hpos Hl] Hbs c2 Ha Hr Hn Hlk Hfi Hd Hbus Hfuel. rewrite <- fire_expected_elem.
  apply (fire_answered _ c c1 r r' bs He Hl Ha). fold c2. intros rbs' Hr'. assert (rbs' = rbs) as -> by congruence.
  destruct Ha as (bs2 & Hb2 & _ & Hl2 & _). assert (bs2 = rbs) as -> by congruence.
  pose proof (quadlet_padded_length bs) as Hpl. rewrite Z.quot_div_nonneg in Hpl by lia.
  destruct (fcp_request_answered (m_nodeId (cmd_base c2)) (quadlet_padded bs) answer) with (n := n) (fuel := fuel) (s := s) (w1 := w1) as (s1 & Hreq & _).
  - pose proof (quadlet_padded_bound bs Hl) as Hb. unfold fcpFrameMaxLength in Hb. div_lia.
  - rewrite Hpl. div_lia.
  - unfold bytes, quadlet_padded. apply Forall_app. split; [done|]. apply Forall_replicate. done.
  - done.
  - done.
  - done.
  - done.
  - done.
  - rewrite Hd. lia.
  - unfold bus_transaction. rewrite Hreq. cbn [mbind option_bind]. by rewrite Hd.
Qed.

(** After a bus reset that lost the node, its id is [INVALID_NODE_ID].
    Then [transactionBlock] returns without taking the lock, but [fire] closes
    the block all the same: it unlocks a mutex that nobody holds, which is
    undefined. *)
Lemma fcp_invalid_node {W} {RB : Raw1394 W} fuel frame (s : service W) :
  (exists s1, transactionBlock fuel INVALID_NODE_ID frame (Z.of_nat (length frame) `quot` 4) s = Some (None, s1) /\ s1 = s) /\
  (m_handle_lock (sv s) = false -> fcp_request fuel INVALID_NODE_ID frame s = None).
Proof.
  split; [by exists s|]. intros Hl. unfold fcp_request, transactionBlock, transactionBlockClose, unlock, mbind, StM_bind, mret, StM_ret.
  rewrite Z.eqb_refl. by rewrite Hl.
Qed.

(** ** The demonstration bus *)

Definition unit_info_frame : list Z := [0x01; 0xff; 0x30; 0xff; 0xff; 0xff; 0xff; 0xff].

Definition unit_info_response : fcp_message := mkFcpMessage 0xffc0 1 [0x0C; 0xff; 0x30; 0x07; 0x61; 0x00; 0x0a; 0x92].

(** an interim response and a message of another node, then the answer *)
Definition answering_desk : desk_bus :=
  mkDesk 1000 [[mkFcpMessage 0xffc0 1 [0x0F; 0xff; 0x30; 0xff]; mkFcpMessage 0xffc2 1 [0x0C; 0xff; 0x30; 0xff]]; [unit_info_response]] ∅ [] 4915.

Definition desk_service (w : desk_bus) : service desk_bus := mkSystem Ieee1394Service_new w.

Lemma fcp_invalid_node_witness : fcp_request 10 INVALID_NODE_ID unit_info_frame (desk_service answering_desk) = None.
Proof. apply (fcp_invalid_node 10 unit_info_frame (desk_service answering_desk)). reflexivity. Defined.

(** Whatever the inbox of a desk holds, the messages it delivers are from it. *)
Definition desk_message (x : fcp_message) : Prop := x ∈ mjoin (dk_inbox answering_desk).

Definition desk_holds (w : desk_bus) : Prop := Forall (Forall desk_message) (dk_inbox w).

#[export] Instance desk_delivers : FcpDelivers desk_holds desk_message.
Proof.
  split; try (intros; split; [constructor|assumption]); try (intros; assumption).
  intros w Hw. unfold desk_holds in *. cbn. destruct (dk_inbox w) as [|ms rest] eqn:Hi; [split; [constructor|]; cbn; by rewrite Hi|].
  apply Forall_cons in Hw as [? ?]. by split.
Qed.

#[export] Instance desk_clock : FcpClock desk_Raw1394.
Proof.
  split. intros w t. exists (Z.to_nat t).
  assert (H : forall n, dk_time (Nat.iter n wait_turn w) = (N.of_nat n + dk_time w)%N).
  { induction n as [|n IH]; [done|]. rewrite Nat.iter_succ. unfold wait_turn at 1. generalize dependent (Nat.iter n wait_turn w). intros w1 IH. cbn.
    destruct (dk_inbox _); cbn; rewrite IH; lia. }
  cbn. rewrite H. lia.
Qed.

Lemma desk_request : exists s1, fcp_request 10 0 unit_info_frame (desk_service answering_desk) = Some (Some (fm_data unit_info_response), s1).
Proof.
  assert (H : fst <$> fcp_request 10 0 unit_info_frame (desk_service answering_desk) = Some (Some (fm_data unit_info_response))) by (vm_compute; reflexivity).
  revert H. destruct (fcp_request 10 0 unit_info_frame (desk_service answering_desk)) as [[r s1]|]; intros [= ->]. by exists s1.
Qed.

Lemma fcp_response_answers_witness :
  exists m, desk_message m /\ fcp_answers 0 unit_info_frame m /\ take (length (fcp_data m)) [0x0C; 0xff; 0x30; 0x07; 0x61; 0x00; 0x0a; 0x92] = fcp_data m.
Proof.
  destruct desk_request as [s1 Hr].
  destruct (fcp_response_answers desk_holds desk_message) with (fuel := 10%nat) (node := 0) (frame := unit_info_frame)
    (s := desk_service answering_desk) (resp := fm_data unit_info_response) (s1 := s1) as (m & H1 & H2 & _ & H3).
  - intros m Hm. apply (Forall_forall (fun m => Forall is_u8 (fm_data m)) (mjoin (dk_inbox answering_desk))); [|exact Hm].
    apply (bool_decide_unpack _). vm_compute. exact I.
  - unfold desk_holds, desk_message. apply (bool_decide_unpack _). vm_compute. exact I.
  - unfold bytes. apply (bool_decide_unpack _). vm_compute. exact I.
  - cbn. lia.
  - reflexivity.
  - exact Hr.
  - exists m. exact (conj H1 (conj H2 H3)).
Defined.

(** nobody answers *)
Lemma fcp_request_terminates_witness :
  exists turns r s1, m_handle_lock (sv s1) = false /\
    forall fuel, (turns <= fuel)%nat -> fcp_request fuel 0 unit_info_frame (desk_service (mkDesk 0 [] ∅ [] 4915)) = Some (r, s1).
Proof.
  apply (fcp_request_terminates (CL := desk_clock) 0 unit_info_frame (desk_service (mkDesk 0 [] ∅ [] 4915))).
  - done.
  - reflexivity.
Defined.

(** The desk on the bus: a round with messages of no concern, then the answer. *)
Lemma desk_answers : bus_answers 0 unit_info_frame unit_info_response 2 answering_desk
  (mkDesk 1002 [] (<[(0xffc0, FCP_COMMAND_ADDR) := unit_info_frame]> ∅) [] 4915).
Proof.
  assert (Hb : forall l, bool_decide (Forall is_u8 l) = true -> bytes l) by (intros l; apply bool_decide_eq_true_1).
  split; [|split; try done; cbn; [lia|intros c [= <-]; done]|split; [by apply Hb|by eexists]].
  eexists [], answering_desk, [], _, _, _, _, []. split; [reflexivity|]. split; [done|]. split; [reflexivity|]. split; [done|]. split; [reflexivity|].
  split; [|by split]. eapply answers_later; [reflexivity|by vm_compute|reflexivity| |].
  - cbn [Z.ltb andb Z.compare]. eexists _, _. split; [reflexivity|]. apply Forall_cons; split; [|apply Forall_cons; split; [|constructor]].
    + split; [by apply Hb|]. right; right; right; left. by eexists.
    + split; [by apply Hb|]. right; right; left. done.
  - eapply answers_now with (ms := []); [reflexivity|by vm_compute|reflexivity|reflexivity|reflexivity|done].
Qed.

Lemma avc_command_over_bus_witness :
  exists o, fire (bus_transaction 10 (desk_service answering_desk)) unit_info_request = Some (true, o) /\
    ui_unit_type o = 0x0C /\ ui_unit o = 1 /\ ui_company_id o = 0x000a92 /\ m_eResponse (ui_base o) = eR_Implemented.
Proof.
  eexists. split; [etransitivity|].
  - eapply (avc_command_over_bus 2 10 (desk_service answering_desk) _ unit_info_request unit_info_request unit_info_answer _
      unit_info_frame (fm_data unit_info_response) unit_info_response); [vm_compute; reflexivity|cbn; lia| | |vm_compute; reflexivity|done..| |lia].
    + apply (bool_decide_eq_true_1 (Forall is_u8 unit_info_frame)). reflexivity.
    + apply roundtrips_answers.
      * apply UnitInfoCmd_rt; [apply (bool_decide_eq_true_1 (ctype_named (ui_base unit_info_answer))); vm_compute; reflexivity|].
        split_and!; cbn; lia.
      * intros bs [= <-]. split; [reflexivity|cbn; lia].
    + exact desk_answers.
  - vm_compute. reflexivity.
  - vm_compute. done.
Defined.
