(* ===== verification/IsoChannels.v ===== *)
(** * IsoChannels: isochronous channels of libieee1394/ieee1394service.cpp

    The service allocates channels and bandwidth at the isochronous resource
    manager of the bus, keeps a record of what it holds, and gives it back.
    The record agrees with the resource manager after every sequence of calls:
    what is recorded is taken, and nothing else is, unless the manager refused
    to take something back. *)
From stdpp Require Import gmap.
From S2P Require Import Prelude Serialize Memory StateMonad Ieee1394Service FcpTransaction.

Definition IEEE1394SERVICE_SKIP_IEC61883_BANDWIDTH_ALLOCATION : bool := true.

Section channels.
Context {W : Type} {RB : Raw1394 W}.
Abbreviation M := (StM (service W)).

(** The table has 64 entries; the guard excludes the last one. *)
Definition registerIsoChannel (c : Z) (cinfo : ChannelInfo) : M bool :=
  if c <? 63 then
    sv_mod (fun s => sv_with_channels (<[Z.to_nat c := cinfo]> (m_channels s)) s);; mret true
  else mret false.

Definition channel_info (c : Z) : M ChannelInfo := l ← sv_gets m_channels; st_option (l !! Z.to_nat c).

Definition unregisterIsoChannel (c : Z) : M bool :=
  if c <? 63 then
    ci ← channel_info c;
    if bool_decide (ci_alloctype ci = AllocFree) then mret false
    else sv_mod (fun s => sv_with_channels (<[Z.to_nat c := ChannelInfo_free]> (m_channels s)) s);; mret true
  else mret false.

(** [for (c = 0; c < 63; c++) if (raw1394_channel_modify(...) == 0) break;] *)
Fixpoint find_free_channel (n : nat) (c : Z) : M Z :=
  match n with
  | O => mret c
  | Datatypes.S n' =>
    err ← raw (raw1394_channel_modify c true);
    if err =? 0 then mret c else find_free_channel n' (c + 1)
  end.

(** what follows the allocation of the channel, in both functions *)
Definition allocate_bandwidth (c bandwidth : Z) : M Z :=
  err ← raw (raw1394_bandwidth_modify bandwidth true);
  if err <? 0 then _ ← raw (raw1394_channel_modify c false); mret (-1)
  else
    ok ← registerIsoChannel c (mkChannelInfo (s32 c) (s32 bandwidth) AllocGeneric 0xFFFF (-1) 0xFFFF (-1));
    if ok : bool then mret (s32 c)
    else
      _ ← raw (raw1394_bandwidth_modify bandwidth false);
      _ ← raw (raw1394_channel_modify c false);
      mret (-1).

Definition allocateIsoChannelGeneric (bandwidth : Z) : M Z :=
  locked (c ← find_free_channel 63 0; if c <? 63 then allocate_bandwidth c bandwidth else mret (-1)).

Definition allocateFixedIsoChannelGeneric (chan bandwidth : Z) : M Z :=
  locked (err ← raw (raw1394_channel_modify chan true); if err =? 0 then allocate_bandwidth chan bandwidth else mret (-1)).

Definition allocateIsoChannelCMP (xmit_node xmit_plug recv_node recv_plug : Z) : M Z :=
  if xmit_node =? INVALID_NODE_ID then mret (-1)
  else if recv_node =? INVALID_NODE_ID then mret (-1)
  else locked (
    let bandwidth := if IEEE1394SERVICE_SKIP_IEC61883_BANDWIDTH_ALLOCATION then 0 else 1 in
    '(c, xmit_plug1, recv_plug1, bandwidth1) ←
      raw (iec61883_cmp_connect (Z.lor xmit_node 0xffc0) xmit_plug (Z.lor recv_node 0xffc0) recv_plug bandwidth);
    if (c <? 0) || (63 <? c) then mret (-1)
    else
      ok ← registerIsoChannel c (mkChannelInfo c bandwidth1 AllocCMP xmit_node xmit_plug1 recv_node recv_plug1);
      mret (if ok : bool then c else -1)).

Definition freeIsoChannel (c : Z) : M bool :=
  locked (
    if (c <? 0) || (63 <? c) then mret false
    else
      ci ← channel_info c;
      match ci_alloctype ci with
      | AllocFree => mret false
      | AllocGeneric =>
        _ ← raw (raw1394_bandwidth_modify (u32 (ci_bandwidth ci)) false);
        _ ← raw (raw1394_channel_modify (u32 (ci_channel ci)) false);
        unregisterIsoChannel c
      | AllocCMP =>
        _ ← raw (iec61883_cmp_disconnect (Z.lor (ci_xmit_node ci) 0xffc0) (ci_xmit_plug ci) (Z.lor (ci_recv_node ci) 0xffc0)
          (ci_recv_plug ci) (ci_channel ci) (ci_bandwidth ci));
        unregisterIsoChannel c
      end).
End channels.

(** ** The resource manager

    [irm_channels] and [irm_units] are what was taken with the two modify
    calls and not given back.  A channel is granted to one holder; giving back
    what we hold succeeds or changes nothing; channels of CMP connections are
    not among those taken with [raw1394_channel_modify]. *)
Class IrmLaws {W} (RB : Raw1394 W) := {
  irm_channels : W -> gset Z;
  irm_units : W -> Z;
  channel_alloc : forall c w, let '(err, _, w1) := raw1394_channel_modify c true w in
    irm_units w1 = irm_units w /\
    ((err = 0 /\ 0 <= c < 64 /\ (c ∉ irm_channels w) /\ (irm_channels w1 = {[c]} ∪ irm_channels w)) \/
     (err <> 0 /\ irm_channels w1 = irm_channels w));
  channel_free : forall c w, c ∈ irm_channels w ->
    let '(err, _, w1) := raw1394_channel_modify c false w in irm_units w1 = irm_units w /\
    ((err = 0 /\ irm_channels w1 = (irm_channels w ∖ {[c]})) \/ (err <> 0 /\ irm_channels w1 = irm_channels w));
  bandwidth_alloc : forall b w, let '(err, _, w1) := raw1394_bandwidth_modify b true w in
    irm_channels w1 = irm_channels w /\ ((0 <= err /\ irm_units w1 = irm_units w + b) \/ (err < 0 /\ irm_units w1 = irm_units w));
  bandwidth_free : forall b w, b <= irm_units w ->
    let '(err, _, w1) := raw1394_bandwidth_modify b false w in irm_channels w1 = irm_channels w /\
    ((err = 0 /\ irm_units w1 = irm_units w - b) \/ (err <> 0 /\ irm_units w1 = irm_units w));
  connect_other : forall xn xp rn rp b w, let '(c, _, _, _, _, w1) := iec61883_cmp_connect xn xp rn rp b w in
    irm_channels w1 = irm_channels w /\ irm_units w1 = irm_units w /\ c ∉ irm_channels w;
  disconnect_other : forall xn xp rn rp c b w, let '(_, _, w1) := iec61883_cmp_disconnect xn xp rn rp c b w in
    irm_channels w1 = irm_channels w /\ irm_units w1 = irm_units w }.

(** a manager that takes back what we hold *)
Definition frees_work {W} {RB : Raw1394 W} {IRM : IrmLaws RB} : Prop :=
  (forall c w, c ∈ irm_channels w -> let '(err, _, _) := raw1394_channel_modify c false w in err = 0) /\
  (forall b w, b <= irm_units w -> let '(err, _, _) := raw1394_bandwidth_modify b false w in err = 0).

(** ** The record *)

Definition held_units (ci : ChannelInfo) : Z := if bool_decide (ci_alloctype ci = AllocGeneric) then u32 (ci_bandwidth ci) else 0.

Fixpoint total_units (l : list ChannelInfo) : Z :=
  match l with [] => 0 | ci :: l' => held_units ci + total_units l' end.

Lemma total_units_insert l i ci x :
  l !! i = Some ci -> total_units (<[i := x]> l) = total_units l - held_units ci + held_units x.
Proof.
  revert i. induction l as [|y l IH]; intros [|i]; [done..| |].
  - intros [= ->]. change (<[0%nat := x]> (ci :: l)) with (x :: l). cbn [total_units]. lia.
  - intros Hi. change (<[Datatypes.S i := x]> (y :: l)) with (y :: <[i := x]> l). cbn [total_units]. rewrite (IH i Hi). lia.
Qed.

(** [c] is recorded as allocated with the generic calls *)
Definition held (l : list ChannelInfo) (c : Z) : Prop :=
  0 <= c /\ exists ci, l !! Z.to_nat c = Some ci /\ ci_alloctype ci = AllocGeneric.

(** an entry that is in use is that of its channel, and never the last one *)
Definition entries_ok (l : list ChannelInfo) : Prop :=
  length l = 64%nat /\
  forall i ci, l !! i = Some ci -> ci_alloctype ci <> AllocFree -> (i < 63)%nat /\ ci_channel ci = Z.of_nat i.

Lemma held_insert_other l c ci x :
  entries_ok l -> l !! Z.to_nat c = Some ci -> 0 <= c -> ci_alloctype ci <> AllocGeneric -> ci_alloctype x <> AllocGeneric ->
  forall c1, held (<[Z.to_nat c := x]> l) c1 <-> held l c1.
Proof.
  intros [Hlen _] Hc H0 Hci Hx c1. unfold held. destruct (decide (c1 = c)) as [->|Hne].
  - rewrite list_lookup_insert_eq by (apply lookup_lt_Some in Hc; lia). rewrite Hc. split; [intros (_ & ci1 & Hl & ?)|intros (_ & ci1 & Hl & ?)]; congruence.
  - split; intros (H1 & ci1 & Hl & ?); (split; [done|]); exists ci1; (split; [|done]).
    + by rewrite list_lookup_insert_ne in Hl by lia.
    + by rewrite list_lookup_insert_ne by lia.
Qed.

Lemma held_insert_generic l c x :
  entries_ok l -> 0 <= c < 63 -> ci_alloctype x = AllocGeneric ->
  forall c1, held (<[Z.to_nat c := x]> l) c1 <-> c1 = c \/ held l c1.
Proof.
  intros [Hlen _] Hc Hx c1. unfold held. destruct (decide (c1 = c)) as [->|Hne].
  - rewrite list_lookup_insert_eq by lia. split; [auto|]. intros _. split; [lia|]. by exists x.
  - split.
    + intros (H1 & ci1 & Hl & ?). right. split; [done|]. exists ci1. by rewrite list_lookup_insert_ne in Hl by lia.
    + intros [?|(H1 & ci1 & Hl & ?)]; [done|]. split; [done|]. exists ci1. by rewrite list_lookup_insert_ne by lia.
Qed.

Lemma held_insert_free l c x :
  entries_ok l -> 0 <= c < 63 -> ci_alloctype x <> AllocGeneric ->
  forall c1, held (<[Z.to_nat c := x]> l) c1 <-> held l c1 /\ c1 <> c.
Proof.
  intros [Hlen _] Hc Hx c1. unfold held. destruct (decide (c1 = c)) as [->|Hne].
  - rewrite list_lookup_insert_eq by lia. split; [intros (_ & ci & [= <-] & ?); done|by intros []].
  - split.
    + intros (H1 & ci1 & Hl & ?). split; [|done]. split; [done|]. exists ci1. by rewrite list_lookup_insert_ne in Hl by lia.
    + intros [(H1 & ci1 & Hl & ?) _]. split; [done|]. exists ci1. by rewrite list_lookup_insert_ne by lia.
Qed.

Lemma entries_ok_insert l c x :
  entries_ok l -> 0 <= c < 63 -> ci_alloctype x = AllocFree \/ ci_channel x = c -> entries_ok (<[Z.to_nat c := x]> l).
Proof.
  intros [Hlen Hl] Hc Hx. split; [by rewrite length_insert|]. intros i ci Hi Ht. destruct (decide (i = Z.to_nat c)) as [->|Hne].
  - rewrite list_lookup_insert_eq in Hi by lia. injection Hi as <-. destruct Hx as [?|Hx]; [done|]. lia.
  - rewrite list_lookup_insert_ne in Hi by done. by apply Hl.
Qed.

Lemma total_units_nonneg l : 0 <= total_units l.
Proof.
  induction l as [|ci l IH]; cbn [total_units]; [lia|]. unfold held_units. case_bool_decide; [|lia]. pose proof (wrapU_uint 32 (ci_bandwidth ci)). width_lia.
Qed.

Lemma total_units_lookup l i ci : l !! i = Some ci -> held_units ci <= total_units l.
Proof.
  revert i. induction l as [|x l IH]; intros [|i] Hi; [done..| |]; cbn [total_units].
  - injection Hi as ->. pose proof (total_units_nonneg l). lia.
  - specialize (IH i Hi). unfold held_units at 2. case_bool_decide; [|lia]. pose proof (wrapU_uint 32 (ci_bandwidth x)). width_lia.
Qed.

(** ** The invariant *)
Section ledger.
Context {W : Type} {RB : Raw1394 W} {IRM : IrmLaws RB}.
Abbreviation M := (StM (service W)).
Implicit Types s : service W.

(** What is recorded is taken at the resource manager, and [extra] and [b] that
    are not recorded yet; nothing else, if the manager takes things back. *)
Definition ledger_but (extra : gset Z) (b : Z) (s : service W) : Prop :=
  let l := m_channels (sv s) in
  entries_ok l /\
  (forall c, c ∈ extra \/ held l c -> c ∈ irm_channels (sw s)) /\
  (forall c, c ∈ extra -> ~ held l c) /\
  total_units l + b <= irm_units (sw s) /\
  (frees_work -> (forall c, c ∈ irm_channels (sw s) -> c ∈ extra \/ held l c) /\ irm_units (sw s) = total_units l + b).

Definition ledger : service W -> Prop := ledger_but ∅ 0.

(** [triple Q m R]: from [Q], with the lock held, [m] returns and [R] holds *)
Definition triple {A} (Q : service W -> Prop) (m : M A) (R : A -> service W -> Prop) : Prop :=
  forall s, fcp_ready true s -> Q s -> exists x s1, m s = Some (x, s1) /\ fcp_ready true s1 /\ R x s1.

Lemma triple_bind {A B} Q (m : M A) R (k : A -> M B) T :
  triple Q m R -> (forall x, triple (R x) (k x) T) -> triple Q (m ≫= k) T.
Proof.
  intros Hm Hk s Hs HQ. destruct (Hm s Hs HQ) as (x & s1 & H1 & Hs1 & HR). destruct (Hk x s1 Hs1 HR) as (y & s2 & H2 & ? & ?).
  exists y, s2. by rewrite (st_bind_eq _ _ _ _ _ H1).
Qed.

Lemma triple_ret {A} (Q : service W -> Prop) (x : A) (R : A -> service W -> Prop) : (forall s, Q s -> R x s) -> triple Q (mret x) R.
Proof. intros H s Hs HQ. exists x, s. auto. Qed.

Lemma triple_weaken {A} (Q Q1 : service W -> Prop) (m : M A) (R R1 : A -> service W -> Prop) :
  (forall s, Q s -> Q1 s) -> (forall x s, R1 x s -> R x s) -> triple Q1 m R1 -> triple Q m R.
Proof. intros HQ HR Hm s Hs Hq. destruct (Hm s Hs (HQ s Hq)) as (x & s1 & ? & ? & ?). exists x, s1. auto. Qed.

(** a call on the bus changes the bus only *)
Lemma triple_raw {A} (Q : service W -> Prop) (c : raw_call W A) (R : A -> service W -> Prop) :
  (forall s s1 x ms, Q s -> c (sw s) = (x, ms, sw s1) -> m_channels (sv s1) = m_channels (sv s) -> R x s1) -> triple Q (raw c) R.
Proof. intros H s Hs HQ. destruct (raw_runs c true s Hs) as (x & ms & s1 & H1 & H2 & H3 & H4). exists x, s1. split; [done|]. split; [done|]. by eapply H. Qed.

Lemma triple_channels (Q : service W -> Prop) (f : list ChannelInfo -> list ChannelInfo) (R : () -> service W -> Prop) :
  (forall s, Q s -> R () (mkSystem (sv_with_channels (f (m_channels (sv s))) (sv s)) (sw s))) ->
  triple Q (sv_mod (fun v => sv_with_channels (f (m_channels v)) v)) R.
Proof. intros H s Hs HQ. eexists (), _. split; [done|]. split; [exact Hs|by apply H]. Qed.

(** the fields that count *)
Lemma ledger_but_eq e b s s1 :
  ledger_but e b s -> m_channels (sv s1) = m_channels (sv s) -> irm_channels (sw s1) = irm_channels (sw s) ->
  irm_units (sw s1) = irm_units (sw s) -> ledger_but e b s1.
Proof. intros Hl Hc Hi Hu. unfold ledger_but. rewrite Hc, Hi, Hu. exact Hl. Qed.

(** ** The calls *)

Lemma held_channel c s : ledger s -> held (m_channels (sv s)) c -> 0 <= c < 63.
Proof. intros ([_ He] & _) (H0 & ci & Hci & Ht). destruct (He _ ci Hci) as [? _]; [by rewrite Ht|lia]. Qed.

(** The search takes the first channel that the manager grants. *)
Lemma channel_alloc_triple c :
  triple ledger (raw (raw1394_channel_modify c true)) (fun err s => if err =? 0 then 0 <= c < 64 /\ ledger_but {[c]} 0 s else ledger s).
Proof.
  apply triple_raw. intros s s1 err ms Hl Hc Hch. pose proof (channel_alloc c (sw s)) as H. rewrite Hc in H.
  destruct H as [Hu1 [(-> & Hr & Hn & Hi1)|(Hne & Hi1)]].
  - cbn [Z.eqb]. split; [done|]. destruct Hl as (He & Hi & _ & Hu & Hex). unfold ledger_but. cbv zeta. rewrite Hch, Hi1, Hu1.
    split; [done|]. split; [|split; [|split; [done|]]].
    + intros x. rewrite elem_of_union. specialize (Hi x). set_solver.
    + intros x ->%elem_of_singleton Hx. apply Hn, Hi. by right.
    + intros Hf. destruct (Hex Hf) as [Hx ->]. split; [|done]. intros x. rewrite elem_of_union. specialize (Hx x). set_solver.
  - rewrite (proj2 (Z.eqb_neq err 0) Hne). by apply (ledger_but_eq _ _ s).
Qed.

Lemma find_free_channel_triple n c :
  triple ledger (find_free_channel n c) (fun c1 s => if c1 <? c + Z.of_nat n then 0 <= c1 < 64 /\ ledger_but {[c1]} 0 s else ledger s).
Proof.
  revert c. induction n as [|n IH]; intros c; cbn [find_free_channel].
  - apply triple_ret. intros s Hs. by rewrite (proj2 (Z.ltb_ge _ _)) by lia.
  - eapply triple_bind; [apply channel_alloc_triple|]. intros err. cbn beta. destruct (err =? 0).
    + apply triple_ret. intros s Hs. by rewrite (proj2 (Z.ltb_lt _ _)) by lia.
    + eapply triple_weaken; [by intros s Hs|intros c1 s Hs; exact Hs|].
      replace (c + Z.of_nat (Datatypes.S n)) with (c + 1 + Z.of_nat n) by lia. apply IH.
Qed.

(** A channel that is given back again. *)
Lemma channel_free_triple c :
  triple (ledger_but {[c]} 0) (raw (raw1394_channel_modify c false)) (fun _ => ledger).
Proof.
  apply triple_raw. intros s s1 err ms (He & Hi & Hx & Hu & Hex) Hc Hch. assert (Hin : c ∈ irm_channels (sw s)) by (apply Hi; set_solver).
  pose proof (channel_free c (sw s) Hin) as H. rewrite Hc in H. destruct H as [Hu1 H].
  unfold ledger, ledger_but. cbv zeta. rewrite Hch, Hu1. split; [done|]. split; [|split; [set_solver|split; [done|]]].
  - intros x [?|Hh]; [set_solver|]. assert (x <> c) by (intros ->; apply (Hx c); [set_solver|done]).
    destruct H as [[_ ->]|[_ ->]]; [|apply Hi; by right]. apply elem_of_difference. split; [apply Hi; by right|set_solver].
  - intros Hf. destruct (Hex Hf) as [Hxi ->]. split; [|done]. pose proof (proj1 Hf c (sw s) Hin) as Herr. rewrite Hc in Herr.
    destruct H as [[_ ->]|[? _]]; [|done]. intros x [Hxin Hne]%elem_of_difference. specialize (Hxi x Hxin). set_solver.
Qed.

Lemma bandwidth_alloc_triple e b :
  triple (ledger_but e 0) (raw (raw1394_bandwidth_modify b true)) (fun err s => ledger_but e (if err <? 0 then 0 else b) s).
Proof.
  apply triple_raw. intros s s1 err ms (He & Hi & Hx & Hu & Hex) Hc Hch. pose proof (bandwidth_alloc b (sw s)) as H. rewrite Hc in H.
  destruct H as [Hi1 H]. unfold ledger_but. cbv zeta. rewrite Hch, Hi1. split; [done|]. split; [done|]. split; [done|].
  split; [destruct (Z.ltb_spec err 0); lia|]. intros Hf. destruct (Hex Hf) as [Hxi ?]. split; [done|]. destruct (Z.ltb_spec err 0); lia.
Qed.

Lemma bandwidth_free_triple e b :
  0 <= b -> triple (ledger_but e b) (raw (raw1394_bandwidth_modify b false)) (fun _ => ledger_but e 0).
Proof.
  intros Hb. apply triple_raw. intros s s1 err ms (He & Hi & Hx & Hu & Hex) Hc Hch. pose proof (total_units_nonneg (m_channels (sv s))).
  pose proof (bandwidth_free b (sw s)) as H1. rewrite Hc in H1. destruct H1 as [Hi1 H1]; [lia|].
  unfold ledger_but. cbv zeta. rewrite Hch, Hi1. split; [done|]. split; [done|]. split; [done|]. split; [lia|].
  intros Hf. destruct (Hex Hf) as [Hxi ?]. split; [done|]. pose proof (proj2 Hf b (sw s) ltac:(lia)) as Herr. rewrite Hc in Herr. lia.
Qed.

(** The entry that is written for a generic channel. *)
Lemma register_generic_triple c b :
  0 <= c < 64 -> is_u32 b ->
  triple (ledger_but {[c]} b) (registerIsoChannel c (mkChannelInfo (s32 c) (s32 b) AllocGeneric 0xFFFF (-1) 0xFFFF (-1)))
    (fun ok s => if ok : bool then ledger s else ledger_but {[c]} b s).
Proof.
  intros Hc Hb. unfold registerIsoChannel. destruct (Z.ltb_spec c 63) as [Hlt|Hge]; [|by apply triple_ret].
  set (ci := mkChannelInfo (s32 c) (s32 b) AllocGeneric 0xFFFF (-1) 0xFFFF (-1)).
  assert (Hcc : ci_channel ci = c) by (apply wrapS_small; width_lia).
  assert (Hcu : held_units ci = b) by (change (u32 (s32 b) = b); clear - Hb; div_lia).
  eapply (triple_bind _ _ (fun _ => ledger)); [|intros []; by apply triple_ret].
  apply (triple_channels _ (fun l => <[Z.to_nat c := ci]> l)). intros s (He & Hi & Hx & Hu & Hex). unfold ledger, ledger_but. cbv zeta. cbn [sv sw m_channels sv_with_channels].
  destruct (lookup_lt_is_Some_2 (m_channels (sv s)) (Z.to_nat c)) as [old Hold]; [rewrite (proj1 He); lia|].
  assert (Hnh : ~ held (m_channels (sv s)) c) by (apply Hx; set_solver).
  assert (Hou : held_units old = 0) by (unfold held_units; case_bool_decide as Ht; [exfalso; apply Hnh; split; [lia|by exists old]|done]).
  pose proof (held_insert_generic _ c ci He (conj (proj1 Hc) Hlt) eq_refl) as Hins. rewrite (total_units_insert _ _ old ci Hold).
  split; [apply entries_ok_insert; [done|lia|by right]|]. split; [|split; [set_solver|split; [lia|]]].
  - intros x [?|Hh%Hins]; [set_solver|]. apply Hi. destruct Hh as [->|?]; [left; set_solver|by right].
  - intros Hf. destruct (Hex Hf) as [Hxi ?]. split; [|lia]. intros x Hin. right. apply Hins. destruct (Hxi x Hin) as [?%elem_of_singleton|?]; [by left|by right].
Qed.

Lemma allocate_bandwidth_triple c b : 0 <= c < 64 -> is_u32 b -> triple (ledger_but {[c]} 0) (allocate_bandwidth c b) (fun _ => ledger).
Proof.
  intros Hc Hb. unfold allocate_bandwidth. eapply triple_bind; [apply bandwidth_alloc_triple|]. intros err. cbn beta. destruct (err <? 0).
  - eapply triple_bind; [apply channel_free_triple|]. intros ?. by apply triple_ret.
  - eapply triple_bind; [by apply register_generic_triple|]. intros [|]; cbn beta iota; [by apply triple_ret|].
    eapply triple_bind; [apply bandwidth_free_triple; apply Hb|]. intros ?. eapply triple_bind; [apply channel_free_triple|]. intros ?. by apply triple_ret.
Qed.

(** Between the two calls that give a generic channel back, and after them:
    the record still has the entry. *)
Definition giving_back (c : Z) (ci : ChannelInfo) (freed : bool) (s : service W) : Prop :=
  let l := m_channels (sv s) in
  let back := fun x => held l x /\ (freed = true -> x <> c) in
  entries_ok l /\ l !! Z.to_nat c = Some ci /\ total_units l - held_units ci <= irm_units (sw s) /\
  (forall x, back x -> x ∈ irm_channels (sw s)) /\
  (frees_work -> irm_units (sw s) = total_units l - held_units ci /\ forall x, x ∈ irm_channels (sw s) -> back x).

Lemma give_bandwidth_back c ci :
  triple (fun s => ledger s /\ m_channels (sv s) !! Z.to_nat c = Some ci /\ ci_alloctype ci = AllocGeneric)
    (raw (raw1394_bandwidth_modify (u32 (ci_bandwidth ci)) false)) (fun _ => giving_back c ci false).
Proof.
  apply triple_raw. intros s s1 err ms ((He & Hi & _ & Hu & Hex) & Hci & Ht) Hc Hch.
  pose proof (total_units_lookup _ _ _ Hci) as Hle. pose proof (wrapU_uint 32 (ci_bandwidth ci) ltac:(lia)) as Hb.
  assert (Hh : held_units ci = u32 (ci_bandwidth ci)) by (unfold held_units; by rewrite bool_decide_eq_true_2 by done). rewrite Hh in Hle.
  pose proof (bandwidth_free (u32 (ci_bandwidth ci)) (sw s)) as H. rewrite Hc in H. destruct H as [Hi1 H]; [lia|].
  unfold giving_back. cbv zeta. rewrite Hch, Hi1, Hh. split; [done|]. split; [done|]. split; [unfold uint in Hb; lia|]. split.
  - intros x [Hx _]. apply Hi. by right.
  - intros Hf. destruct (Hex Hf) as [Hxi ?]. pose proof (proj2 Hf (u32 (ci_bandwidth ci)) (sw s) ltac:(lia)) as Herr. rewrite Hc in Herr.
    split; [lia|]. intros x Hin. destruct (Hxi x Hin) as [?|?]; [set_solver|done].
Qed.

Lemma give_channel_back c ci :
  0 <= c -> ci_alloctype ci = AllocGeneric ->
  triple (giving_back c ci false) (raw (raw1394_channel_modify (u32 (ci_channel ci)) false)) (fun _ => giving_back c ci true).
Proof.
  intros H0 Ht. apply triple_raw. intros s s1 err ms (He & Hci & Hu & Hi & Hex) Hc Hch.
  destruct (proj2 He _ _ Hci) as [Hlt Hcc]; [by rewrite Ht|]. replace (u32 (ci_channel ci)) with c in Hc by (rewrite Hcc, wrapU_small by width_lia; lia).
  assert (Hin : c ∈ irm_channels (sw s)) by (apply Hi; split; [split; [done|by exists ci]|done]).
  pose proof (channel_free c (sw s) Hin) as H. rewrite Hc in H. destruct H as [Hu1 H].
  unfold giving_back. cbv zeta. rewrite Hch, Hu1. split; [done|]. split; [done|]. split; [done|]. split.
  - intros x [Hx Hne]. specialize (Hne eq_refl). assert (x ∈ irm_channels (sw s)) by (by apply Hi). destruct H as [[_ ->]|[_ ->]]; set_solver.
  - intros Hf. destruct (Hex Hf) as [? Hxi]. split; [done|]. pose proof (proj1 Hf c (sw s) Hin) as Herr. rewrite Hc in Herr.
    destruct H as [[_ ->]|[? _]]; [|done]. intros x [Hx Hne]%elem_of_difference. destruct (Hxi x Hx) as [? _]. split; [done|set_solver].
Qed.

(** The entry is cleared: the guard admits every entry that is in use. *)
Lemma unregister_triple c ci freed :
  0 <= c -> ci_alloctype ci <> AllocFree -> (ci_alloctype ci = AllocGeneric -> freed = true) ->
  triple (giving_back c ci freed) (unregisterIsoChannel c) (fun ok s => ok = true /\ ledger s).
Proof.
  intros H0 Ht Hfr s Hs (He & Hci & Hu & Hi & Hex). destruct (proj2 He _ _ Hci Ht) as [Hlt Hcc]. unfold unregisterIsoChannel.
  rewrite (proj2 (Z.ltb_lt c 63)) by lia. unfold channel_info, sv_gets, st_gets.
  erewrite st_bind_eq; [|erewrite st_bind_eq by done; by rewrite Hci].
  rewrite bool_decide_eq_false_2 by done. eexists true, _. split; [done|]. split; [exact Hs|]. split; [done|].
  unfold ledger, ledger_but. cbv zeta. cbn [sv sw m_channels sv_with_channels]. assert (Hc63 : 0 <= c < 63) by lia.
  pose proof (held_insert_free _ c ChannelInfo_free He Hc63 ltac:(done)) as Hins.
  rewrite (total_units_insert _ _ ci ChannelInfo_free Hci). change (held_units ChannelInfo_free) with 0.
  split; [apply entries_ok_insert; [done..|by left]|]. split; [|split; [set_solver|split; [lia|]]].
  - intros x [?|[Hx Hne]%Hins]; [set_solver|]. apply Hi. split; [done|]. by intros _.
  - intros Hf. destruct (Hex Hf) as [? Hxi]. split; [|lia]. intros x Hin. right. apply Hins. destruct (Hxi x Hin) as [Hx Hne].
    split; [done|]. intros ->. destruct Hx as (_ & ci1 & Hc1 & Ht1). assert (ci1 = ci) as -> by congruence. by apply Hne; [apply Hfr|].
Qed.

Lemma disconnect_triple c ci xn xp rn rp ch b :
  triple (fun s => ledger s /\ m_channels (sv s) !! Z.to_nat c = Some ci /\ ci_alloctype ci = AllocCMP)
    (raw (iec61883_cmp_disconnect xn xp rn rp ch b)) (fun _ => giving_back c ci false).
Proof.
  apply triple_raw. intros s s1 err ms ((He & Hi & _ & Hu & Hex) & Hci & Ht) Hc Hch.
  pose proof (disconnect_other xn xp rn rp ch b (sw s)) as H. rewrite Hc in H. destruct H as [Hi1 Hu1].
  assert (Hh : held_units ci = 0) by (unfold held_units; by rewrite bool_decide_eq_false_2 by congruence).
  unfold giving_back. cbv zeta. rewrite Hch, Hi1, Hu1, Hh. split; [done|]. split; [done|]. split; [lia|]. split.
  - intros x [Hx _]. apply Hi. by right.
  - intros Hf. destruct (Hex Hf) as [Hxi ?]. split; [lia|]. intros x Hin. destruct (Hxi x Hin) as [?|?]; [set_solver|done].
Qed.

(** [freeIsoChannel] without the lock *)
Definition free_channel (c : Z) : M bool :=
  if (c <? 0) || (63 <? c) then mret false
  else
    ci ← channel_info c;
    match ci_alloctype ci with
    | AllocFree => mret false
    | AllocGeneric =>
      _ ← raw (raw1394_bandwidth_modify (u32 (ci_bandwidth ci)) false);
      _ ← raw (raw1394_channel_modify (u32 (ci_channel ci)) false);
      unregisterIsoChannel c
    | AllocCMP =>
      _ ← raw (iec61883_cmp_disconnect (Z.lor (ci_xmit_node ci) 0xffc0) (ci_xmit_plug ci) (Z.lor (ci_recv_node ci) 0xffc0)
        (ci_recv_plug ci) (ci_channel ci) (ci_bandwidth ci));
      unregisterIsoChannel c
    end.

Lemma free_channel_triple c : triple ledger (free_channel c) (fun _ => ledger).
Proof.
  unfold free_channel. destruct ((c <? 0) || (63 <? c)) eqn:Hr; [by apply triple_ret|]. apply orb_false_iff in Hr as [H0%Z.ltb_ge H63%Z.ltb_ge].
  intros s Hs Hl. destruct (lookup_lt_is_Some_2 (m_channels (sv s)) (Z.to_nat c)) as [ci Hci]; [rewrite (proj1 (proj1 Hl)); lia|].
  erewrite st_bind_eq; [|unfold channel_info, sv_gets, st_gets; erewrite st_bind_eq by done; by rewrite Hci].
  destruct (ci_alloctype ci) eqn:Ht.
  - by eexists _, s.
  - assert (T : triple (fun s => ledger s /\ m_channels (sv s) !! Z.to_nat c = Some ci /\ ci_alloctype ci = AllocGeneric)
      (_ ← raw (raw1394_bandwidth_modify (u32 (ci_bandwidth ci)) false); _ ← raw (raw1394_channel_modify (u32 (ci_channel ci)) false);
       unregisterIsoChannel c) (fun ok s => ok = true /\ ledger s)).
    { eapply triple_bind; [apply give_bandwidth_back|]. intros ?. eapply triple_bind; [by apply give_channel_back|]. intros ?. apply (unregister_triple c ci true); [done|by rewrite Ht|done]. }
    destruct (T s Hs) as (x & s1 & H1 & ? & ? & ?); [done|]. by exists x, s1.
  - assert (T : triple (fun s => ledger s /\ m_channels (sv s) !! Z.to_nat c = Some ci /\ ci_alloctype ci = AllocCMP)
      (_ ← raw (iec61883_cmp_disconnect (Z.lor (ci_xmit_node ci) 0xffc0) (ci_xmit_plug ci) (Z.lor (ci_recv_node ci) 0xffc0)
        (ci_recv_plug ci) (ci_channel ci) (ci_bandwidth ci)); unregisterIsoChannel c) (fun ok s => ok = true /\ ledger s)).
    { eapply triple_bind; [apply disconnect_triple|]. intros ?. apply (unregister_triple c ci false); [done|by rewrite Ht|by rewrite Ht]. }
    destruct (T s Hs) as (x & s1 & H1 & ? & ? & ?); [done|]. by exists x, s1.
Qed.

(** A CMP connection is recorded, but for channel 63. *)
Lemma connect_triple xn xp rn rp b : triple ledger
  ('(c, xmit_plug1, recv_plug1, bandwidth1) ← raw (iec61883_cmp_connect (Z.lor xn 0xffc0) xp (Z.lor rn 0xffc0) rp b);
   if (c <? 0) || (63 <? c) then mret (-1)
   else
     ok ← registerIsoChannel c (mkChannelInfo c bandwidth1 AllocCMP xn xmit_plug1 rn recv_plug1);
     mret (if ok : bool then c else -1)) (fun _ => ledger).
Proof.
  eapply (triple_bind _ _ (fun '(c, _, _, _) s => ledger s /\ ~ held (m_channels (sv s)) c)).
  - apply triple_raw. intros s s1 [[[c p1] p2] b1] ms Hl Hc Hch. pose proof (connect_other (Z.lor xn 0xffc0) xp (Z.lor rn 0xffc0) rp b (sw s)) as H.
    rewrite Hc in H. destruct H as (Hi1 & Hu1 & Hn). split; [by apply (ledger_but_eq _ _ s)|]. rewrite Hch. intros Hh. apply Hn, (proj1 (proj2 Hl)). by right.
  - intros [[[c p1] p2] b1]. destruct ((c <? 0) || (63 <? c)) eqn:Hr; [apply triple_ret; by intros s []|]. apply orb_false_iff in Hr as [H0%Z.ltb_ge H63%Z.ltb_ge].
    unfold registerIsoChannel. destruct (Z.ltb_spec c 63) as [Hlt|Hge].
    2:{ eapply (triple_bind _ _ (fun _ => ledger)); [apply triple_ret; by intros s []|]. intros ?. by apply triple_ret. }
    eapply (triple_bind _ _ (fun _ => ledger)); [|intros ?; by apply triple_ret]. set (x := mkChannelInfo c b1 AllocCMP xn p1 rn p2).
    eapply (triple_bind _ _ (fun _ => ledger)); [|intros []; by apply triple_ret].
    apply (triple_channels _ (fun l => <[Z.to_nat c := x]> l)). intros s ((He & Hi & _ & Hu & Hex) & Hn). unfold ledger, ledger_but. cbv zeta. cbn [sv sw m_channels sv_with_channels].
    destruct (lookup_lt_is_Some_2 (m_channels (sv s)) (Z.to_nat c)) as [old Hold]; [rewrite (proj1 He); lia|].
    assert (Hog : ci_alloctype old <> AllocGeneric) by (intros Ht; apply Hn; split; [done|by exists old]).
    pose proof (held_insert_other _ c old x He Hold H0 Hog ltac:(done)) as Hins. rewrite (total_units_insert _ _ old x Hold).
    assert (Hou : held_units old = 0) by (unfold held_units; by rewrite bool_decide_eq_false_2 by done). rewrite Hou. change (held_units x) with 0.
    split; [apply entries_ok_insert; [done|lia|by right]|]. split; [|split; [set_solver|split; [lia|]]].
    + intros y [?|Hy%Hins]; [set_solver|]. apply Hi. by right.
    + intros Hf. destruct (Hex Hf) as [Hxi ?]. split; [|lia]. intros y Hin. right. apply Hins. destruct (Hxi y Hin) as [?|?]; [set_solver|done].
Qed.

Lemma locked_runs {A} (m : M A) s :
  triple ledger m (fun _ => ledger) -> fcp_ready false s -> ledger s ->
  exists x s1, locked m s = Some (x, s1) /\ fcp_ready false s1 /\ ledger s1.
Proof.
  intros Hm [Hl Hr] Hs. destruct (Hm (mkSystem (sv_with_lock true (sv s)) (sw s))) as (x & s1 & H1 & Hr1 & Hs1); [by split|done|].
  destruct (locked_intro m s x s1 Hl H1 Hr1) as (s2 & H2 & Hr2 & Hw2 & Hc2). exists x, s2. split; [done|]. split; [done|].
  apply (ledger_but_eq _ _ s1); [done..| |]; by rewrite Hw2.
Qed.

(** ** Sequences of calls *)
Inductive iso_call :=
| IcGeneric (bandwidth : Z)
| IcFixed (chan bandwidth : Z)
| IcCMP (xmit_node xmit_plug recv_node recv_plug : Z)
| IcFree (c : Z).

(** the arguments are those of the C types *)
Definition iso_call_ok (a : iso_call) : Prop :=
  match a with IcGeneric b => is_u32 b | IcFixed c b => is_u32 c /\ is_u32 b | IcCMP _ _ _ _ => True | IcFree _ => True end.

(** the result of the call: a channel, or 1 and 0 for [true] and [false] *)
Definition run_iso_call (a : iso_call) : M Z :=
  match a with
  | IcGeneric b => allocateIsoChannelGeneric b
  | IcFixed c b => allocateFixedIsoChannelGeneric c b
  | IcCMP xn xp rn rp => allocateIsoChannelCMP xn xp rn rp
  | IcFree c => ok ← freeIsoChannel c; mret (Z.b2z ok)
  end.

Fixpoint run_iso_calls (l : list iso_call) : M (list Z) :=
  match l with
  | [] => mret []
  | a :: l' => r ← run_iso_call a; rs ← run_iso_calls l'; mret (r :: rs)
  end.

Lemma run_iso_call_keeps a s : iso_call_ok a -> fcp_ready false s -> ledger s ->
  exists r s1, run_iso_call a s = Some (r, s1) /\ fcp_ready false s1 /\ ledger s1.
Proof.
  intros Ha Hs Hl. destruct a as [b|c b|xn xp rn rp|c]; cbn [run_iso_call].
  - apply locked_runs; [|done..]. eapply triple_bind; [apply find_free_channel_triple|]. intros c. cbn beta. change (0 + Z.of_nat 63) with 63.
    destruct (c <? 63); [|by apply triple_ret]. intros s1 Hs1 [Hr Hl1]. by apply allocate_bandwidth_triple.
  - apply locked_runs; [|done..]. eapply triple_bind; [apply channel_alloc_triple|]. intros err. cbn beta.
    destruct (err =? 0); [|by apply triple_ret]. intros s1 Hs1 [Hr Hl1]. apply allocate_bandwidth_triple; [done|apply Ha|done|done].
  - unfold allocateIsoChannelCMP. destruct (xn =? INVALID_NODE_ID); [by eexists _, s|]. destruct (rn =? INVALID_NODE_ID); [by eexists _, s|].
    apply locked_runs; [apply connect_triple|done..].
  - destruct (locked_runs (free_channel c) s (free_channel_triple c) Hs Hl) as (ok & s1 & H1 & Hs1 & Hl1).
    exists (Z.b2z ok), s1. split; [|by split]. by rewrite (st_bind_eq (freeIsoChannel c) _ s ok s1 H1).
Qed.
End ledger.

(** C5: Whatever channels are allocated - generically, at a fixed number or by
    CMP - and freed, in any order and with any failures of the resource manager,
    every call returns, the handle's lock is free again, and the record of
    generic channels and their bandwidth is sound: every channel that is recorded
    is taken at the resource manager, and at least the bandwidth that is
    recorded.  If the resource manager takes back what we hold whenever it is
    asked to, the record is exact, so that an allocation that fails leaves
    nothing behind; otherwise what it refused stays taken, because the code
    clears the record all the same.  (Channels of CMP connections are not part
    of this account; the record of CMP connections leaves out channel 63, see
    [cmp_channel_63_kept].) *)
Theorem iso_channel_ledger {W} {RB : Raw1394 W} {IRM : IrmLaws RB} (calls : list iso_call) (s : service W) :
  Forall iso_call_ok calls -> fcp_ready false s -> ledger s ->
  exists rs s1, run_iso_calls calls s = Some (rs, s1) /\ m_handle_lock (sv s1) = false /\
    (forall c, held (m_channels (sv s1)) c -> c ∈ irm_channels (sw s1)) /\ total_units (m_channels (sv s1)) <= irm_units (sw s1) /\
    (frees_work -> (forall c, c ∈ irm_channels (sw s1) <-> held (m_channels (sv s1)) c) /\ irm_units (sw s1) = total_units (m_channels (sv s1))).
Proof.
  intros Hc Hs Hl. revert s Hs Hl. induction Hc as [|a calls Ha _ IH]; intros s Hs Hl; cbn [run_iso_calls].
  - exists [], s. split; [done|]. split; [apply Hs|]. destruct Hl as (_ & Hi & _ & Hu & Hex). split; [intros c Hh; apply Hi; by right|].
    split; [lia|]. intros Hf. destruct (Hex Hf) as [Hx ->]. split; [|lia]. intros c. split; [intros Hin; specialize (Hx c Hin); set_solver|intros Hh; apply Hi; by right].
  - destruct (run_iso_call_keeps a s Ha Hs Hl) as (r & s1 & H1 & Hs1 & Hl1). destruct (IH s1 Hs1 Hl1) as (rs & s2 & H2 & Hrest).
    exists (r :: rs), s2. split; [|done]. rewrite (st_bind_eq _ _ _ _ _ H1), (st_bind_eq _ _ _ _ _ H2). done.
Qed.

(** ** The desk as resource manager *)
#[export] Instance desk_irm : IrmLaws desk_Raw1394.
Proof.
  refine {| irm_channels := fun w : desk_bus => list_to_set (dk_taken w); irm_units := fun w : desk_bus => 4915 - dk_bandwidth w |}.
  - intros c w. cbn. unfold dk_channel. case_bool_decide as Hc; cbn; (split; [done|]).
    + left. destruct Hc as [? ?]. rewrite elem_of_list_to_set. set_solver.
    + right. split; [lia|done].
  - intros c w Hc%elem_of_list_to_set. cbn. unfold dk_channel. rewrite bool_decide_eq_true_2 by done. cbn. split; [done|]. left. split; [done|].
    apply set_eq. intros x. rewrite elem_of_difference, !elem_of_list_to_set, list_elem_of_filter. set_solver.
  - intros b w. cbn. unfold dk_bandwidth_modify. destruct (Z.leb_spec b (dk_bandwidth w)); cbn; (split; [done|]); lia.
  - intros b w _. cbn. split; [done|]. left. lia.
  - intros xn xp rn rp b w. cbn. split; [done|]. split; [done|]. rewrite elem_of_list_to_set. apply infinite_is_fresh.
  - intros xn xp rn rp c b w. by cbn.
Defined.

Definition busy_desk : service desk_bus := desk_service (mkDesk 0 [] ∅ [] 4915).

(** two generic allocations, a third that finds no bandwidth, a fixed channel
    that is taken, channel 63, a free, and a channel that is not recorded *)
Definition desk_calls : list iso_call :=
  [IcGeneric 2000; IcGeneric 2500; IcGeneric 1000; IcFixed 1 100; IcFixed 63 100; IcFixed 7 300; IcFree 0; IcFree 9; IcCMP 1 (-1) 2 (-1)].

Example desk_calls_run : (fun '(rs, s1) => (rs, dk_taken (sw s1), dk_bandwidth (sw s1))) <$> run_iso_calls desk_calls busy_desk
  = Some ([0; 1; -1; -1; -1; 7; 1; 0; 8], [7; 1], 2115).
Proof. vm_compute. reflexivity. Qed.

(** the desk takes back what it has given *)
Lemma desk_frees_work : frees_work (IRM := desk_irm).
Proof.
  split.
  - intros c w Hc. cbn in *. apply elem_of_list_to_set in Hc. unfold dk_channel. by rewrite bool_decide_eq_true_2.
  - intros b w _. reflexivity.
Qed.

Lemma iso_channel_ledger_witness :
  exists rs s1, run_iso_calls desk_calls busy_desk = Some (rs, s1) /\ m_handle_lock (sv s1) = false /\
    (forall c, c ∈ irm_channels (sw s1) <-> held (m_channels (sv s1)) c) /\ irm_units (sw s1) = total_units (m_channels (sv s1)).
Proof.
  destruct (iso_channel_ledger (IRM := desk_irm) desk_calls busy_desk) as (rs & s1 & H1 & H2 & _ & _ & H3);
    [| | |exists rs, s1; split; [exact H1|]; split; [exact H2|]; exact (H3 desk_frees_work)].
  - repeat constructor; cbn; unfold uint; lia.
  - split; [reflexivity|vm_compute; lia].
  - assert (Hfree : forall i ci, m_channels (sv busy_desk) !! i = Some ci -> ci_alloctype ci = AllocFree)
      by (intros i ci [-> _]%lookup_replicate; reflexivity).
    assert (Hnone : forall c, ~ held (m_channels (sv busy_desk)) c) by (intros c (_ & ci & Hci & Ht); by rewrite (Hfree _ ci Hci) in Ht).
    split; [split; [reflexivity|intros i ci Hi Ht; by rewrite (Hfree i ci Hi) in Ht]|].
    split; [intros c [?|?%Hnone]; [set_solver|done]|]. split; [set_solver|]. split; [vm_compute; discriminate|].
    intros _. split; [by intros c ?%elem_of_list_to_set%elem_of_nil|reflexivity].
Defined.

(** ** Results *)

(** A call of the bus leaves the record alone. *)
Lemma raw_channels {W A} (c : raw_call W A) (s s1 : service W) x : raw c s = Some (x, s1) -> m_channels (sv s1) = m_channels (sv s).
Proof. unfold raw. destruct (c (sw s)) as [[y ms] w]. by intros (f & _ & [= _ <-])%bind_Some. Qed.

(** channel 63: a connection that was made is neither recorded nor undone *)
Lemma cmp_channel_63_kept {W} {RB : Raw1394 W} xn xp rn rp (s : service W) p1 p2 b1 w1 :
  xn <> INVALID_NODE_ID -> rn <> INVALID_NODE_ID -> m_handle_lock (sv s) = false ->
  iec61883_cmp_connect (Z.lor xn 0xffc0) xp (Z.lor rn 0xffc0) rp 0 (sw s) = ((63, p1, p2, b1), [], w1) ->
  allocateIsoChannelCMP xn xp rn rp s = Some (-1, mkSystem (sv s) w1).
Proof.
  intros Hx Hr Hl Hc. unfold allocateIsoChannelCMP. rewrite (proj2 (Z.eqb_neq xn _) Hx), (proj2 (Z.eqb_neq rn _) Hr).
  unfold locked, lock, unlock, raw, mbind, StM_bind, mret, StM_ret. rewrite Hl. cbn [sv sw IEEE1394SERVICE_SKIP_IEC61883_BANDWIDTH_ALLOCATION].
  rewrite Hc. destruct s as [[? ? ? ? ?] w]. cbn in *. by subst.
Qed.
