(* ===== verification/BusRequests.v ===== *)
(** * BusRequests: the split timeout and the waits of ieee1394service.cpp

    Two registers of the local node hold the time that a split transaction
    may take, in seconds and in units of 125 microseconds; [initialize] raises
    it to a minimum.  What is written is what is read back, rounded down and
    modulo eight seconds.  The wait for the end of a series of bus resets
    gives up after the number of tries it was given. *)
From stdpp Require Import gmap.
From S2P Require Import Prelude Serialize Memory StateMonad Ieee1394Service FcpTransaction.

(** ** Registers *)

(** The registers of a node keep what is written, and requests to our own
    node succeed. *)
Class CsrLaws {W} (RB : Raw1394 W) := {
  csr : W -> Z -> list Z;
  csr_distinct : CSR_SPLIT_TIMEOUT_HI <> CSR_SPLIT_TIMEOUT_LO;
  csr_write : forall a d w, let n := Z.lor 0xffc0 (Z.land (raw1394_get_local_id w) 0x3F) in
    let '(err, _, w1) := raw1394_write n a d w in
    err = 0 /\ csr w1 a = d /\ (forall a1, a1 <> a -> csr w1 a1 = csr w a1) /\ raw1394_get_local_id w1 = raw1394_get_local_id w;
  csr_read : forall a len buf w, let n := Z.lor 0xffc0 (Z.land (raw1394_get_local_id w) 0x3F) in
    let '(err, buf1, _, w1) := raw1394_read n a len buf w in
    err = 0 /\ buf1 = csr w a /\ (forall a1, csr w1 a1 = csr w a1) /\ raw1394_get_local_id w1 = raw1394_get_local_id w }.

(** the value of the timeout that two registers hold *)
Definition split_value (hi low : list Z) : option Z :=
  h ← load_quadlet hi 0; l ← load_quadlet low 0;
  Some (s32 (u32 (Z.land (CondSwapFromBus32 h) 7 * 1000000 + Z.shiftr (CondSwapFromBus32 l) 19 * 125))).

Lemma load_quadlet_bytes v : is_u32 v -> load_quadlet (quadlet_bytes v) 0 = Some v.
Proof. intros Hv. transitivity (Some (word_of (u8 v) (u8 (Z.shiftr v 8)) (u8 (Z.shiftr v 16)) (u8 (Z.shiftr v 24)))); [done|]. by rewrite <- (quadlet_bytes_word v), wrapU_small. Qed.

(** The value that a timeout has once it is in the registers. *)
Lemma split_value_written t : is_u32 t ->
  split_value (quadlet_bytes (CondSwapToBus32 (Z.land (t / 1000000) 7)))
    (quadlet_bytes (CondSwapToBus32 (u32 (Z.shiftl (Z.land (t mod 1000000 / 125) 0x1FFF) 19))))
  = Some (t / 1000000 mod 8 * 1000000 + t mod 1000000 / 125 * 125).
Proof.
  intros Ht. unfold split_value, CondSwapToBus32, CondSwapFromBus32. rewrite land_0x7. change 0x1FFF with (2 ^ 13 - 1). rewrite land_mod by lia.
  rewrite Z.shiftl_mul_pow2 by lia. change (2 ^ 13) with 8192. change (2 ^ 19) with 524288.
  set (a := t / 1000000 mod 8). set (b := t mod 1000000 / 125).
  assert (Ha : 0 <= a < 8) by (apply Z.mod_pos_bound; lia). assert (Hb : 0 <= b < 8000) by (subst b; clear Ha a; div_lia). clearbody a b.
  rewrite (Z.mod_small b 8192) by lia. rewrite (wrapU_small 32 (b * 524288)) by width_lia.
  rewrite !load_quadlet_bytes by (apply ByteSwap32_u32; width_lia). cbn [mbind option_bind]. rewrite !ByteSwap32_involutive by width_lia.
  rewrite land_0x7, (Z.mod_small a 8), Z.shiftr_div_pow2 by lia. change (2 ^ 19) with 524288. rewrite Z.div_mul by lia.
  rewrite wrapU_small, wrapS_small by width_lia. done.
Qed.

Section split_timeout.
Context {W : Type} {RB : Raw1394 W} {CS : CsrLaws RB}.
Implicit Types s : service W.

(** the local node as the functions address it *)
Abbreviation own w := (Z.land (raw1394_get_local_id w) 0x3F).
Abbreviation HI := (CSR_REGISTER_BASE + CSR_SPLIT_TIMEOUT_HI).
Abbreviation LO := (CSR_REGISTER_BASE + CSR_SPLIT_TIMEOUT_LO).

Lemma own_valid w : (Z.lor 0xffc0 (own w) =? INVALID_NODE_ID) = false.
Proof. apply Z.eqb_neq. intros He. apply (f_equal (fun z => Z.testbit z 8)) in He. by rewrite Z.lor_spec in He. Qed.

Lemma write_register a d s : fcp_ready true s ->
  exists s1, writeNoLock (Z.lor 0xffc0 (own (sw s))) a d s = Some (true, s1) /\ fcp_ready true s1 /\
    csr (sw s1) a = d /\ (forall a1, a1 <> a -> csr (sw s1) a1 = csr (sw s) a1) /\ raw1394_get_local_id (sw s1) = raw1394_get_local_id (sw s).
Proof.
  intros Hs. unfold writeNoLock. rewrite own_valid. destruct (raw_runs (raw1394_write (Z.lor 0xffc0 (own (sw s))) a d) true s Hs) as (x & ms & s1 & H1 & Hr & Hw & _).
  pose proof (csr_write a d (sw s)) as H. cbv zeta in H. rewrite Hw in H. destruct H as (-> & ?). exists s1. split; [|done]. by rewrite (st_bind_eq _ _ _ _ _ H1).
Qed.

Lemma read_register a buf s : fcp_ready true s ->
  exists s1, readNoLock (Z.lor 0xffc0 (own (sw s))) a 1 buf s = Some ((true, csr (sw s) a), s1) /\ fcp_ready true s1 /\
    (forall a1, csr (sw s1) a1 = csr (sw s) a1) /\ raw1394_get_local_id (sw s1) = raw1394_get_local_id (sw s).
Proof.
  intros Hs. unfold readNoLock. rewrite own_valid. destruct (raw_runs (raw1394_read (Z.lor 0xffc0 (own (sw s))) a (1 * 4) buf) true s Hs) as ([err x] & ms & s1 & H1 & Hr & Hw & _).
  pose proof (csr_read a (1 * 4) buf (sw s)) as H. cbv zeta in H. rewrite Hw in H. destruct H as (-> & -> & ?). exists s1. split; [|done].
  by rewrite (st_bind_eq _ _ _ _ _ H1).
Qed.

Lemma getLocalNodeId_runs s : fcp_ready false s ->
  exists s1, getLocalNodeId s = Some (own (sw s), s1) /\ fcp_ready false s1 /\ sw s1 = sw s.
Proof.
  intros [Hl Hr]. destruct (locked_intro (world_gets (fun w => own w)) s (own (sw s)) (mkSystem (sv_with_lock true (sv s)) (sw s))) as (s2 & H2 & ? & ? & _);
    [done|done|by split|]. by exists s2.
Qed.

Lemma setSplitTimeoutUsecs_runs t s : fcp_ready false s ->
  exists s1, setSplitTimeoutUsecs (own (sw s)) t s = Some (true, s1) /\ fcp_ready false s1 /\
    csr (sw s1) HI = quadlet_bytes (CondSwapToBus32 (Z.land (t / 1000000) 7)) /\
    csr (sw s1) LO = quadlet_bytes (CondSwapToBus32 (u32 (Z.shiftl (Z.land (t mod 1000000 / 125) 0x1FFF) 19))) /\
    raw1394_get_local_id (sw s1) = raw1394_get_local_id (sw s).
Proof.
  intros [Hl Hr]. set (s0 := mkSystem (sv_with_lock true (sv s)) (sw s)). assert (Hs0 : fcp_ready true s0) by (by split).
  destruct (write_register HI (quadlet_bytes (CondSwapToBus32 (Z.land (t / 1000000) 7))) s0 Hs0) as (s1 & H1 & Hr1 & Hh1 & _ & Hid1).
  destruct (write_register LO (quadlet_bytes (CondSwapToBus32 (u32 (Z.shiftl (Z.land (t mod 1000000 / 125) 0x1FFF) 19)))) s1 Hr1) as (s2 & H2 & Hr2 & Hl2 & Ho2 & Hid2).
  rewrite Hid1 in H2. unfold setSplitTimeoutUsecs. eapply locked_intro in Hl as (s3 & H3 & ? & Hw & _); [| |exact Hr2].
  - exists s3. split; [exact H3|]. split; [done|]. rewrite Hw. split; [rewrite Ho2; [done|pose proof csr_distinct; lia]|]. split; [done|]. by rewrite Hid2, Hid1.
  - cbv zeta. rewrite (st_bind_eq _ _ _ _ _ H1). exact H2.
Qed.

Lemma getSplitTimeoutUsecs_runs s v : fcp_ready false s -> split_value (csr (sw s) HI) (csr (sw s) LO) = Some v ->
  exists s1, getSplitTimeoutUsecs (own (sw s)) s = Some (v, s1) /\ fcp_ready false s1 /\
    (forall a, csr (sw s1) a = csr (sw s) a) /\ raw1394_get_local_id (sw s1) = raw1394_get_local_id (sw s).
Proof.
  intros [Hl Hr] Hv. set (s0 := mkSystem (sv_with_lock true (sv s)) (sw s)). assert (Hs0 : fcp_ready true s0) by (by split).
  destruct (read_register HI (replicate 4 0) s0 Hs0) as (s1 & H1 & Hr1 & Hc1 & Hid1).
  destruct (read_register LO (replicate 4 0) s1 Hr1) as (s2 & H2 & Hr2 & Hc2 & Hid2). rewrite Hid1, Hc1 in H2.
  unfold split_value in Hv. apply bind_Some in Hv as (h & Hh & (l & Hlo & [= <-])%bind_Some).
  unfold getSplitTimeoutUsecs. eapply locked_intro in Hl as (s3 & H3 & ? & Hw & _); [| |exact Hr2].
  - exists s3. split; [exact H3|]. split; [done|]. rewrite Hw. split; [intros a; by rewrite Hc2, Hc1|]. by rewrite Hid2, Hid1.
  - rewrite (st_bind_eq _ _ _ _ _ H1). cbn [negb]. rewrite (st_bind_eq _ _ _ _ _ H2). cbn [negb].
    change (csr (sw s0)) with (csr (sw s)). rewrite Hh, Hlo. done.
Qed.
End split_timeout.

(** C40: [initialize] makes the split timeout at least what is asked for, for
    every minimum below eight seconds: the registers hold whole units of 125
    microseconds, and the 124 that are added before rounding down make up for
    it; a timeout that is long enough already is left alone. *)
Lemma split_timeout_raised {W} {RB : Raw1394 W} {CS : CsrLaws RB} min old (s : service W) :
  fcp_ready false s -> 0 <= min <= 7999875 ->
  split_value (csr (sw s) (CSR_REGISTER_BASE + CSR_SPLIT_TIMEOUT_HI)) (csr (sw s) (CSR_REGISTER_BASE + CSR_SPLIT_TIMEOUT_LO)) = Some old ->
  exists t s1, raise_split_timeout min s = Some (t, s1) /\ m_handle_lock (sv s1) = false /\ min <= t /\ (min <= old -> t = old) /\
    split_value (csr (sw s1) (CSR_REGISTER_BASE + CSR_SPLIT_TIMEOUT_HI)) (csr (sw s1) (CSR_REGISTER_BASE + CSR_SPLIT_TIMEOUT_LO)) = Some t.
Proof.
  intros Hs Hmin Hold. destruct (getLocalNodeId_runs s Hs) as (s1 & H1 & Hs1 & Hw1). rewrite <- Hw1 in Hold.
  destruct (getSplitTimeoutUsecs_runs s1 old Hs1 Hold) as (s2 & H2 & Hs2 & Hc2 & Hid2). rewrite Hw1 in H2.
  unfold raise_split_timeout. rewrite (st_bind_eq _ _ _ _ _ H1), (st_bind_eq _ _ _ _ _ H2).
  destruct (Z.ltb_spec old min) as [Hlt|Hge].
  - destruct (getLocalNodeId_runs s2 Hs2) as (s3 & H3 & Hs3 & Hw3). rewrite (st_bind_eq _ _ _ _ _ H3).
    rewrite wrapU_small by width_lia. set (t := min + 124).
    destruct (setSplitTimeoutUsecs_runs t s3 Hs3) as (s4 & H4 & Hs4 & Hh4 & Hl4 & Hid4). rewrite Hw3 in H4. rewrite (st_bind_eq _ _ _ _ _ H4).
    destruct (getLocalNodeId_runs s4 Hs4) as (s5 & H5 & Hs5 & Hw5). rewrite (st_bind_eq _ _ _ _ _ H5).
    assert (Hv : split_value (csr (sw s5) (CSR_REGISTER_BASE + CSR_SPLIT_TIMEOUT_HI)) (csr (sw s5) (CSR_REGISTER_BASE + CSR_SPLIT_TIMEOUT_LO))
      = Some (t / 1000000 mod 8 * 1000000 + t mod 1000000 / 125 * 125)).
    { rewrite Hw5, Hh4, Hl4. apply split_value_written. subst t. width_lia. }
    destruct (getSplitTimeoutUsecs_runs s5 _ Hs5 Hv) as (s6 & H6 & Hs6 & Hc6 & _). rewrite Hw5 in H6.
    eexists _, s6. split; [exact H6|]. split; [apply Hs6|]. rewrite !Hc6. split; [|split; [lia|done]]. subst t. clear - Hmin. Z.to_euclidean_division_equations. lia.
  - exists old, s2. split; [done|]. split; [apply Hs2|]. split; [done|]. split; [done|]. by rewrite !Hc2.
Qed.

#[export] Instance desk_csr : CsrLaws desk_Raw1394.
Proof.
  refine {| csr := fun (w : desk_bus) a => default (replicate 4 0) (dk_memory w !! (0xffc0, a)) |}.
  - done.
  - intros a d w. cbn. split; [done|]. split; [by rewrite lookup_insert_eq|]. split; [|done].
    intros a1 Ha. rewrite lookup_insert_ne; [done|]. by intros [= ->].
  - intros a len buf w. cbn. done.
Defined.

Lemma split_timeout_raised_witness :
  exists t s1, raise_split_timeout 1000000 (desk_service (mkDesk 0 [] ∅ [] 4915)) = Some (t, s1) /\ 1000000 <= t.
Proof.
  destruct (split_timeout_raised (CS := desk_csr) 1000000 0 (desk_service (mkDesk 0 [] ∅ [] 4915))) as (t & s1 & H1 & _ & H2 & _).
  - split; [reflexivity|vm_compute; lia].
  - lia.
  - vm_compute. reflexivity.
  - exact (ex_intro _ t (ex_intro _ s1 (conj H1 H2))).
Defined.

(** at eight seconds the register wraps, and the timeout is lower than before *)
Example split_timeout_wraps :
  fst <$> raise_split_timeout 8000000 (desk_service (mkDesk 0 [] ∅ [] 4915)) = Some 0.
Proof. vm_compute. reflexivity. Qed.

(** ** Waits and handlers *)
Section waits.
Context {W : Type} {RB : Raw1394 W}.
Implicit Types s : service W.

(** [getGeneration] takes the lock that [updateGeneration] holds. *)
Lemma updateGeneration_deadlocks s : updateGeneration s = None.
Proof. unfold updateGeneration, getGeneration, locked, lock, mbind, StM_bind. by destruct (m_handle_lock (sv s)). Qed.

Lemma getGeneration_runs v w : m_handle_lock v = false -> getGeneration (mkSystem v w) = Some (raw1394_get_generation w, mkSystem v w).
Proof. intros Hl. unfold getGeneration, locked, lock, unlock, mbind, StM_bind, mret, StM_ret. cbn. rewrite Hl. cbn. destruct v. cbn in *. by subst. Qed.

(** the bus after the sleeps of [n] rounds *)
Definition after_sleeps (ms : Z) (n : nat) (w : W) : W := Nat.iter n (SleepUsecRelative (ms * 1000)) w.

(** whether no reset happened in round [k] *)
Definition calm (ms : Z) (k : nat) (w : W) : Prop :=
  raw1394_get_generation (after_sleeps ms k w) = raw1394_get_generation (after_sleeps ms (Datatypes.S k) w).

Lemma after_sleeps_S ms n w : after_sleeps ms n (SleepUsecRelative (ms * 1000) w) = after_sleeps ms (Datatypes.S n) w.
Proof. unfold after_sleeps. by rewrite Nat.iter_succ_r. Qed.

Lemma calm_S ms k w : calm ms k (SleepUsecRelative (ms * 1000) w) = calm ms (Datatypes.S k) w.
Proof. unfold calm. by rewrite !after_sleeps_S. Qed.

(** The loop ends within [nb_tries] rounds, with success exactly if one of
    them saw no bus reset. *)
Lemma waitForBusResetStormToEnd_spec n ms v w : m_handle_lock v = false -> (0 < n)%nat ->
  exists b k, waitForBusResetStormToEnd n (Z.of_nat n) ms (mkSystem v w) = Some (b, mkSystem v (after_sleeps ms (Datatypes.S k) w)) /\
    (k < n)%nat /\ (forall j, (j < k)%nat -> ~ calm ms j w) /\ (if b then calm ms k w else k = (n - 1)%nat /\ ~ calm ms k w).
Proof.
  intros Hl Hn. unfold waitForBusResetStormToEnd.
  assert (H : exists r k, storm_loop n (Z.of_nat n) ms (mkSystem v w) = Some (r, mkSystem v (after_sleeps ms (Datatypes.S k) w)) /\
    (k < n)%nat /\ (forall j, (j < k)%nat -> ~ calm ms j w) /\ (if negb (r =? 0) then calm ms k w else k = (n - 1)%nat /\ ~ calm ms k w)).
  { revert w Hn. induction n as [|n IH]; intros w Hn; [lia|]. cbn [storm_loop]. rewrite (st_bind_eq _ _ _ _ _ (getGeneration_runs v w Hl)).
    rewrite (st_bind_eq _ _ _ () (mkSystem v (SleepUsecRelative (ms * 1000) w))) by done.
    rewrite (st_bind_eq _ _ _ _ _ (getGeneration_runs v _ Hl)). destruct (Z.eqb_spec (raw1394_get_generation w) (raw1394_get_generation (SleepUsecRelative (ms * 1000) w))) as [He|He].
    - exists (Z.of_nat (Datatypes.S n)), 0%nat. split; [done|]. split; [lia|]. split; [lia|]. rewrite (proj2 (Z.eqb_neq _ 0)) by lia. exact He.
    - destruct (Z.eqb_spec (Z.of_nat (Datatypes.S n) - 1) 0) as [Hz|Hz].
      + exists 0, 0%nat. split; [done|]. split; [lia|]. split; [lia|]. split; [lia|exact He].
      + destruct (IH (SleepUsecRelative (ms * 1000) w)) as (r & k & Hr & Hk & Hj & Hc); [lia|]. replace (Z.of_nat (Datatypes.S n) - 1) with (Z.of_nat n) by lia.
        exists r, (Datatypes.S k). split; [by rewrite after_sleeps_S in Hr|]. split; [lia|]. split.
        * intros [|j] Hlt; [exact He|]. rewrite <- calm_S. apply Hj. lia.
        * rewrite <- calm_S. destruct (negb (r =? 0)); [done|]. destruct Hc. split; [lia|done]. }
  destruct H as (r & k & Hr & ?). exists (negb (r =? 0)), k. split; [|done]. by rewrite (st_bind_eq _ _ _ _ _ Hr).
Qed.

(** A handler that the kernel lets go of is taken out of the list, once. *)
Lemma unregisterARMHandler_spec h v w w1 :
  h ∈ m_armHandlers v -> raw1394_arm_unregister h w = (0, w1) ->
  unregisterARMHandler h (mkSystem v w) = Some (true, mkSystem (sv_with_arm (remove_first h (m_armHandlers v)) v) w1).
Proof.
  intros Hin Hw. unfold unregisterARMHandler, sv_gets, st_gets. erewrite st_bind_eq by done. cbn [sv].
  assert (H : forall l before, h ∈ l -> unregister_arm h before l (mkSystem v w) = Some (true, mkSystem (sv_with_arm (before ++ remove_first h l) v) w1)).
  { induction l as [|a l IH]; intros before Hl; [by apply elem_of_nil in Hl|]. cbn [unregister_arm remove_first]. destruct (Z.eqb_spec a h) as [->|Hne].
    - erewrite st_bind_eq; [|by unfold world_run, st_run; cbn [sw]; rewrite Hw]. done.
    - apply elem_of_cons in Hl as [?|Hl]; [done|]. rewrite IH by done. by rewrite <- (assoc_L (++)). }
  apply (H _ []). done.
Qed.
End waits.
