(* ===== verification/Efc.v ===== *)
(** * Efc: fireworks/efc

    The EFC commands of the FireWorks devices: the header with its sequence
    number ([efc_cmd.cpp]), the transport in a vendor dependent AV/C command
    ([efc_avc_cmd.cpp]) and the commands for the hardware information, the
    clock, the flags, the flash memory, the mixers and the channel maps.

    An EFC message is a sequence of quadlets in network byte order: its length,
    the header, the operands.  A member that the constructor leaves
    uninitialised is [None]. *)
From stdpp Require Import list.
From S2P Require Import Prelude Serialize BusData AvcCommand AvcCommands Memory.

Definition EFC_CAT_INVALID : Z := 0xFFFFFFFF.
Definition EFC_CMD_INVALID : Z := 0xFFFFFFFF.

Definition EFC_CAT_HARDWARE_INFO : Z := 0.
Definition EFC_CAT_FLASH : Z := 1.
Definition EFC_CAT_HARDWARE_CONTROL : Z := 3.
Definition EFC_CAT_PHYSICAL_OUTPUT_MIX : Z := 4.
Definition EFC_CAT_PHYSICAL_INPUT_MIX : Z := 5.
Definition EFC_CAT_PLAYBACK_MIX : Z := 6.
Definition EFC_CAT_RECORD_MIX : Z := 7.
Definition EFC_CAT_MONITOR_MIX : Z := 8.
Definition EFC_CAT_IO_CONFIG : Z := 9.

Definition EFC_CMD_HW_HWINFO_GET_CAPS : Z := 0.
Definition EFC_CMD_HW_GET_POLLED : Z := 1.

Definition EFC_CMD_FLASH_ERASE : Z := 0.
Definition EFC_CMD_FLASH_READ : Z := 1.
Definition EFC_CMD_FLASH_WRITE : Z := 2.
Definition EFC_CMD_FLASH_GET_STATUS : Z := 3.
Definition EFC_CMD_FLASH_GET_SESSION_BASE : Z := 4.
Definition EFC_CMD_FLASH_LOCK : Z := 5.

Definition EFC_CMD_HWCTRL_SET_CLOCK : Z := 0.
Definition EFC_CMD_HWCTRL_GET_CLOCK : Z := 1.
Definition EFC_CMD_HWCTRL_CHANGE_FLAGS : Z := 3.
Definition EFC_CMD_HWCTRL_GET_FLAGS : Z := 4.
Definition EFC_CMD_HWCTRL_IDENTIFY : Z := 5.
Definition EFC_CMD_HWCTRL_RECONNECT_PHY : Z := 6.

Definition EFC_CMD_MIXER_SET_GAIN : Z := 0.
Definition EFC_CMD_MIXER_GET_GAIN : Z := 1.
Definition EFC_CMD_MIXER_SET_MUTE : Z := 2.
Definition EFC_CMD_MIXER_GET_MUTE : Z := 3.
Definition EFC_CMD_MIXER_SET_SOLO : Z := 4.
Definition EFC_CMD_MIXER_GET_SOLO : Z := 5.
Definition EFC_CMD_MIXER_SET_PAN : Z := 6.
Definition EFC_CMD_MIXER_GET_PAN : Z := 7.
Definition EFC_CMD_MIXER_SET_NOMINAL : Z := 8.
Definition EFC_CMD_MIXER_GET_NOMINAL : Z := 9.

Definition EFC_CMD_IO_CONFIG_SET_MIRROR : Z := 0.
Definition EFC_CMD_IO_CONFIG_GET_MIRROR : Z := 1.
Definition EFC_CMD_IO_CONFIG_SET_DIGITAL_MODE : Z := 2.
Definition EFC_CMD_IO_CONFIG_GET_DIGITAL_MODE : Z := 3.
Definition EFC_CMD_IO_CONFIG_SET_PHANTOM : Z := 4.
Definition EFC_CMD_IO_CONFIG_GET_PHANTOM : Z := 5.
Definition EFC_CMD_IO_CONFIG_SET_ISOC_MAP : Z := 6.
Definition EFC_CMD_IO_CONFIG_GET_ISOC_MAP : Z := 7.

(** EfcReturnValue (the values the code tests) *)
Definition eERV_Ok : Z := 0.
Definition eERV_FlashBusy : Z := 12.

Definition EFC_CMD_HW_CLOCK_INTERNAL : Z := 0.
Definition EFC_CMD_HW_CLOCK_SYTMATCH : Z := 1.
Definition EFC_CMD_HW_CLOCK_WORDCLOCK : Z := 2.
Definition EFC_CMD_HW_CLOCK_SPDIF : Z := 3.
Definition EFC_CMD_HW_CLOCK_ADAT_1 : Z := 4.
Definition EFC_CMD_HW_CLOCK_ADAT_2 : Z := 5.
Definition EFC_CMD_HW_CLOCK_COUNT : Z := 6.
Definition EFC_CMD_HW_CLOCK_UNSPECIFIED : Z := 0xFFFFFFFF.

Definition EFC_CMD_HW_DYNADDR_SUPPORTED : Z := 0.
Definition EFC_CMD_HW_MIRRORING_SUPPORTED : Z := 1.
Definition EFC_CMD_HW_OPTICAL_INTERFACE_SUPPORTED : Z := 2.
Definition EFC_CMD_HW_SPDIF_AESEBUXLR_SUPPORTED : Z := 3.
Definition EFC_CMD_HW_HAS_DSP : Z := 4.
Definition EFC_CMD_HW_HAS_FPGA : Z := 5.
Definition EFC_CMD_HW_HAS_PHANTOM : Z := 6.
Definition EFC_CMD_HW_HAS_PLAYBACK_ROUTING : Z := 7.

Definition EFC_CMD_HW_CHECK_FLAG (val flag : Z) : bool := negb (Z.land val (Z.shiftl 1 flag) =? 0).

(** the size of the length field and the header *)
Definition EFC_HEADER_LENGTH_QUADLETS : Z := (4 + 20) / 4.

(** ** The parts every command uses *)

Record efc_header := mk_efc_header {
  eh_version : Z;
  eh_seqnum : Z;
  eh_category : Z;
  eh_command : Z;
  eh_retval : Z }.

Record EfcCmd := mkEfcCmd {
  efc_length : Z;
  efc_hdr : efc_header;
  efc_category_id : Z;
  efc_command_id : Z }.

Definition EfcCmd_new (cat cmd : Z) : EfcCmd := mkEfcCmd 0 (mk_efc_header 0 0 0 0 0) cat cmd.
Definition EfcCmd_new_default : EfcCmd := EfcCmd_new EFC_CAT_INVALID EFC_CMD_INVALID.

Definition EfcCmd_with_length (n : Z) (o : EfcCmd) : EfcCmd := mkEfcCmd n (efc_hdr o) (efc_category_id o) (efc_command_id o).
Definition EfcCmd_with_category (n : Z) (o : EfcCmd) : EfcCmd := mkEfcCmd (efc_length o) (efc_hdr o) n (efc_command_id o).
Definition EfcCmd_with_command (n : Z) (o : EfcCmd) : EfcCmd := mkEfcCmd (efc_length o) (efc_hdr o) (efc_category_id o) n.

(** [result &= se.write(CondSwapToBus32(x), ...)], for some values in a row *)
Fixpoint write_swapped (l : list Z) : writer bool :=
  match l with
  | [] => mret true
  | v :: l' => r ← write_quadlet (CondSwapToBus32 v); rs ← write_swapped l'; mret (r && rs)
  end.

(** the same for the elements of an array, which may be uninitialised *)
Fixpoint write_array (l : list (option Z)) : writer bool :=
  match l with
  | [] => mret true
  | None :: _ => w_undef
  | Some v :: l' => r ← write_quadlet (CondSwapToBus32 v); rs ← write_array l'; mret (r && rs)
  end.

(** [EFC_DESERIALIZE_AND_SWAP]: the value is swapped also when the read has
    failed and has left the old one. *)
Definition deserialize_and_swap (value : Z) (result : bool) : reader (bool * Z) :=
  '(r, v) ← read_quadlet value; mret (result && r, CondSwapFromBus32 v).

(** for a variable that may be uninitialised *)
Definition swapped_or_old (value : option Z) (result : bool) (o : option Z) : reader (bool * option Z) :=
  match o, value with
  | Some v, _ => r_ret (result, Some (CondSwapFromBus32 v))
  | None, Some v => r_ret (false, Some (CondSwapFromBus32 v))
  | None, None => r_undef
  end.

Definition deserialize_and_swap_opt (value : option Z) (result : bool) : reader (bool * option Z) :=
  r_quadlet (swapped_or_old value result).

(** [for (i = 0; i < n; i++) EFC_DESERIALIZE_AND_SWAP(de, &a[i], result);] *)
Fixpoint read_array_from (n i : nat) (a : list (option Z)) (result : bool) : reader (bool * list (option Z)) :=
  match n with
  | O => mret (result, a)
  | S n' =>
    match a !! i with
    | None => r_undef
    | Some old =>
      '(result, v) ← deserialize_and_swap_opt old result;
      read_array_from n' (S i) (<[i := v]> a) result
    end
  end.

Definition read_array (n : Z) (a : list (option Z)) (result : bool) : reader (bool * list (option Z)) :=
  read_array_from (Z.to_nat n) 0 a result.

(** ** EfcCmd

    [seqnum] is the static member [m_seqnum], shared by all commands. *)
Definition EfcCmd_serialize (o : EfcCmd) (seqnum : Z) : writer (bool * EfcCmd * Z) :=
  r0 ← write_quadlet (CondSwapToBus32 (efc_length o));
  let h := mk_efc_header (eh_version (efc_hdr o)) seqnum (efc_category_id o) (efc_command_id o) (eh_retval (efc_hdr o)) in
  r1 ← write_swapped [eh_version h; eh_seqnum h; eh_category h; eh_command h; eh_retval h];
  mret (r0 && r1, mkEfcCmd (efc_length o) h (efc_category_id o) (efc_command_id o), u32 (seqnum + 1)).

Definition EfcCmd_deserialize (o : EfcCmd) : reader (bool * EfcCmd) :=
  '(result, length) ← deserialize_and_swap (efc_length o) true;
  '(result, version) ← deserialize_and_swap (eh_version (efc_hdr o)) result;
  '(result, seqnum) ← deserialize_and_swap (eh_seqnum (efc_hdr o)) result;
  '(result, category) ← deserialize_and_swap (eh_category (efc_hdr o)) result;
  '(result, command) ← deserialize_and_swap (eh_command (efc_hdr o)) result;
  '(result, retval) ← deserialize_and_swap (eh_retval (efc_hdr o)) result;
  let o1 := mkEfcCmd length (mk_efc_header version seqnum category command retval) (efc_category_id o) (efc_command_id o) in
  if 1 <? version then mret (false, o1)
  else if negb (category =? efc_category_id o) then mret (false, o1)
  else if negb (command =? efc_command_id o) then mret (false, o1)
  else mret (result, o1).

(** The derived classes: the overridden virtual methods, and the part that
    callers read. *)
Class EfcCmdClass (E : Type) := {
  efc_base : E -> EfcCmd;
  efc_serialize : E -> Z -> writer (bool * E * Z);
  efc_deserialize : E -> reader (bool * E) }.

(** [m_length=n; result &= EfcCmd::serialize ( se );] and the operands *)
Definition serialize_operands (n : Z) (base : EfcCmd) (operands : writer bool) (seqnum : Z) : writer (bool * EfcCmd * Z) :=
  '(r0, base1, seqnum1) ← EfcCmd_serialize (EfcCmd_with_length n base) seqnum;
  r1 ← operands;
  mret (r0 && r1, base1, seqnum1).

(** ** The transport over AV/C

    The static sequence number is a field here, so that it lives as long as
    the command that carries it. *)
Record EfcOverAVCCmd (E : Type) := mkEfcOverAVCCmd {
  ea_vendor : VendorDependentCmd;
  ea_dummy_1 : Z;
  ea_dummy_2 : Z;
  ea_cmd : option E;
  ea_seqnum : Z }.
Arguments mkEfcOverAVCCmd {E} _ _ _ _ _.
Arguments ea_vendor {E} _.
Arguments ea_dummy_1 {E} _.
Arguments ea_dummy_2 {E} _.
Arguments ea_cmd {E} _.
Arguments ea_seqnum {E} _.

Definition EfcOverAVCCmd_new {E} (seqnum : Z) : EfcOverAVCCmd E :=
  mkEfcOverAVCCmd (mkVendorDependentCmd (vd_base VendorDependentCmd_new) (Some 0x0)) 0 0 None seqnum.

Section over_avc.
Context {E : Type} `{EfcCmdClass E}.

Definition EfcOverAVCCmd_serialize (o : EfcOverAVCCmd E) : writer (bool * EfcOverAVCCmd E) :=
  match ea_cmd o with
  | None => mret (false, o)
  | Some cmd =>
    r0 ← VendorDependentCmd_serialize (ea_vendor o);
    r1 ← write_byte (ea_dummy_1 o);
    r2 ← write_byte (ea_dummy_2 o);
    '(r3, cmd1, seqnum) ← efc_serialize cmd (ea_seqnum o);
    mret (r0 && r1 && r2 && r3, mkEfcOverAVCCmd (ea_vendor o) (ea_dummy_1 o) (ea_dummy_2 o) (Some cmd1) seqnum)
  end.

Definition EfcOverAVCCmd_deserialize (o : EfcOverAVCCmd E) : reader (bool * EfcOverAVCCmd E) :=
  match ea_cmd o with
  | None => mret (false, o)
  | Some cmd =>
    '(r0, vendor) ← VendorDependentCmd_deserialize (ea_vendor o);
    '(r1, dummy_1) ← read_byte (ea_dummy_1 o);
    '(r2, dummy_2) ← read_byte (ea_dummy_2 o);
    if negb (r0 && r1 && r2) then mret (false, mkEfcOverAVCCmd vendor dummy_1 dummy_2 (Some cmd) (ea_seqnum o))
    else
      '(r3, cmd1) ← efc_deserialize cmd;
      mret (r3, mkEfcOverAVCCmd vendor dummy_1 dummy_2 (Some cmd1) (ea_seqnum o))
  end.

#[export] Instance EfcOverAVCCmd_AVCCommandClass : AVCCommandClass (EfcOverAVCCmd E) := {
  cmd_base o := vd_base (ea_vendor o);
  cmd_set_base b o :=
    mkEfcOverAVCCmd (mkVendorDependentCmd b (vd_companyId (ea_vendor o))) (ea_dummy_1 o) (ea_dummy_2 o) (ea_cmd o) (ea_seqnum o);
  cmd_serialize := EfcOverAVCCmd_serialize;
  cmd_deserialize := EfcOverAVCCmd_deserialize }.
End over_avc.

(** ** Messages *)

(** a quadlet in network byte order *)
Definition be_bytes (v : Z) : list Z := [u8 (Z.shiftr v 24); u8 (Z.shiftr v 16); u8 (Z.shiftr v 8); u8 v].
Definition be_quads (l : list Z) : list Z := l ≫= be_bytes.

Definition header_quads (h : efc_header) : list Z := [eh_version h; eh_seqnum h; eh_category h; eh_command h; eh_retval h].

(** the header as it is sent *)
Definition sent_header (o : EfcCmd) (seqnum : Z) : efc_header :=
  mk_efc_header (eh_version (efc_hdr o)) seqnum (efc_category_id o) (efc_command_id o) (eh_retval (efc_hdr o)).

Definition sent_base (o : EfcCmd) (n seqnum : Z) : EfcCmd := mkEfcCmd n (sent_header o seqnum) (efc_category_id o) (efc_command_id o).

Definition header_u32 (h : efc_header) : Prop := Forall is_u32 (header_quads h).

Lemma be_quads_cons v l : be_quads (v :: l) = be_bytes v ++ be_quads l.
Proof. done. Qed.

Lemma be_quads_app l1 l2 : be_quads (l1 ++ l2) = be_quads l1 ++ be_quads l2.
Proof. apply bind_app. Qed.

Lemma be_quads_length l : length (be_quads l) = (4 * length l)%nat.
Proof. induction l as [|v l IH]; [done|]. rewrite be_quads_cons, length_app, IH. cbn [length be_bytes]. lia. Qed.

Lemma be_bytes_swap v : is_u32 v -> quadlet_bytes (CondSwapToBus32 v) = be_bytes v.
Proof.
  intros Hv. rewrite (word_of_bytes v Hv). unfold CondSwapToBus32.
  set (b0 := v mod 2 ^ 8). set (b1 := (v / 2 ^ 8) mod 2 ^ 8). set (b2 := (v / 2 ^ 16) mod 2 ^ 8). set (b3 := (v / 2 ^ 24) mod 2 ^ 8).
  assert (is_u8 b0 /\ is_u8 b1 /\ is_u8 b2 /\ is_u8 b3) as (H0 & H1 & H2 & H3) by (split_and!; apply wrapU_uint; lia).
  rewrite ByteSwap32_word by done. unfold quadlet_bytes, be_bytes. rewrite !Z.shiftr_div_pow2 by lia. unfold wrapU.
  destruct (word_of_byte b0 b1 b2 b3 H0 H1 H2 H3) as (E0 & E1 & E2 & E3).
  destruct (word_of_byte b3 b2 b1 b0 H3 H2 H1 H0) as (F0 & F1 & F2 & F3). by rewrite E0, E1, E2, E3, F0, F1, F2, F3.
Qed.

Lemma quadlet_of_bytes_word b0 b1 b2 b3 :
  is_u8 b0 -> is_u8 b1 -> is_u8 b2 -> is_u8 b3 -> quadlet_of_bytes b0 b1 b2 b3 = word_of b0 b1 b2 b3.
Proof.
  intros H0 H1 H2 H3. unfold quadlet_of_bytes, word_of.
  rewrite (Z.lor_comm (Z.shiftl b2 16)), (lor_add b3 (Z.shiftl b2 16) 24) by (rewrite ?Z.shiftl_mul_pow2 by lia; width_lia).
  replace (b3 * 2 ^ 24 + Z.shiftl b2 16) with (Z.shiftl (b3 * 2 ^ 8 + b2) 16) by (rewrite !Z.shiftl_mul_pow2 by lia; lia).
  rewrite (Z.lor_comm (Z.shiftl b1 8)), (lor_add _ (Z.shiftl b1 8) 16) by (rewrite ?Z.shiftl_mul_pow2 by lia; width_lia).
  rewrite (Z.shiftl_mul_pow2 b1) by lia.
  replace ((b3 * 2 ^ 8 + b2) * 2 ^ 16 + b1 * 2 ^ 8) with (Z.shiftl (b3 * 2 ^ 16 + b2 * 2 ^ 8 + b1) 8) by (rewrite !Z.shiftl_mul_pow2 by lia; lia).
  rewrite Z.lor_comm, (lor_add _ b0 8) by width_lia. lia.
Qed.

Lemma be_bytes_parse v :
  is_u32 v -> CondSwapFromBus32 (quadlet_of_bytes (u8 (Z.shiftr v 24)) (u8 (Z.shiftr v 16)) (u8 (Z.shiftr v 8)) (u8 v)) = v.
Proof.
  intros Hv. rewrite quadlet_of_bytes_word by (apply wrapU_uint; lia). unfold CondSwapFromBus32.
  rewrite ByteSwap32_word by (apply wrapU_uint; lia). rewrite <- quadlet_bytes_word. by apply wrapU_small.
Qed.

Lemma emit_swapped {B} (f : bool -> writer B) v b l :
  is_u32 v -> emit (f true) = Some (b, l) -> emit (write_quadlet (CondSwapToBus32 v) ≫= f) = Some (b, be_bytes v ++ l).
Proof.
  intros Hv Hf. rewrite emit_bind. cbn [write_quadlet emit mbind option_bind]. rewrite app_nil_r, Hf. cbn [mbind option_bind].
  by rewrite be_bytes_swap.
Qed.

Lemma emit_write_swapped l : Forall is_u32 l -> emit (write_swapped l) = Some (true, be_quads l).
Proof.
  induction 1 as [|v l Hv _ IH]; [done|]. cbn [write_swapped].
  apply emit_swapped; [done|]. rewrite emit_bind, IH. cbn. by rewrite app_nil_r.
Qed.

Lemma emit_write_array l : Forall is_u32 l -> emit (write_array (Some <$> l)) = Some (true, be_quads l).
Proof.
  induction 1 as [|v l Hv _ IH]; [done|]. rewrite fmap_cons. cbn [write_array].
  apply emit_swapped; [done|]. rewrite emit_bind, IH. cbn. by rewrite app_nil_r.
Qed.

Lemma emit_EfcCmd_serialize o seqnum :
  is_u32 (efc_length o) -> header_u32 (sent_header o seqnum) ->
  emit (EfcCmd_serialize o seqnum)
  = Some ((true, sent_base o (efc_length o) seqnum, u32 (seqnum + 1)),
          be_quads (efc_length o :: header_quads (sent_header o seqnum))).
Proof.
  intros Hn Hh. unfold EfcCmd_serialize.
  rewrite be_quads_cons. apply emit_swapped; [done|]. cbv zeta.
  eapply emit_bind_eq; [exact (emit_write_swapped (header_quads (sent_header o seqnum)) Hh)|reflexivity|by rewrite app_nil_r].
Qed.

(** a command with operands *)
Lemma emit_serialize_operands n base m l seqnum :
  is_u32 n -> header_u32 (sent_header base seqnum) -> emit m = Some (true, be_quads l) ->
  emit (serialize_operands n base m seqnum)
  = Some ((true, sent_base base n seqnum, u32 (seqnum + 1)), be_quads (n :: header_quads (sent_header base seqnum) ++ l)).
Proof.
  intros Hn Hh Hm. unfold serialize_operands.
  eapply emit_bind_eq; [by apply emit_EfcCmd_serialize| |].
  - cbv beta iota. rewrite emit_bind, Hm. reflexivity.
  - by rewrite app_nil_r, app_comm_cons, be_quads_app.
Qed.

(** ** Parsing *)

Lemma reads_swap {B} (f : bool * Z -> reader B) value result v l a :
  is_u32 v -> reads (f (result, v)) l a -> reads (deserialize_and_swap value result ≫= f) (be_bytes v ++ l) a.
Proof.
  intros Hv Hf. unfold deserialize_and_swap. apply reads_assoc, reads_read_quadlet. cbn [mbind].
  change (reads (f (result && true, CondSwapFromBus32 (quadlet_of_bytes (u8 (Z.shiftr v 24)) (u8 (Z.shiftr v 16)) (u8 (Z.shiftr v 8)) (u8 v)))) l a).
  by rewrite be_bytes_parse, andb_true_r.
Qed.

Lemma reads_swap_opt {B} (f : bool * option Z -> reader B) value result v l a :
  is_u32 v -> reads (f (result, Some v)) l a -> reads (deserialize_and_swap_opt value result ≫= f) (be_bytes v ++ l) a.
Proof.
  intros Hv Hf. refine (reads_r_quadlet (fun o => reader_bind _ _ f (swapped_or_old value result o)) _ _ _ _ l a _).
  cbn [swapped_or_old]. by rewrite be_bytes_parse.
Qed.

(** the operands that were read are in front, the rest of the array is kept *)
Lemma reads_array_from vs : forall pre old rest result,
  Forall is_u32 vs -> length old = length vs ->
  reads (read_array_from (length vs) (length pre) (pre ++ old ++ rest) result) (be_quads vs) (result, pre ++ (Some <$> vs) ++ rest).
Proof.
  induction vs as [|v vs IH]; intros pre old rest result Hvs Hold; cbn [read_array_from length].
  { destruct old; [|done]. apply reads_mret. }
  destruct old as [|o old]; [done|]. apply Forall_cons in Hvs as [Hv Hvs].
  rewrite <- app_comm_cons, list_lookup_middle by done. rewrite be_quads_cons. apply reads_swap_opt; [done|].
  rewrite insert_app_r_alt, Nat.sub_diag by lia. cbn [list_insert insert].
  change (Some <$> v :: vs) with (Some v :: (Some <$> vs)). cbn [length] in Hold.
  rewrite <- app_comm_cons, !(cons_middle (Some v)), !(assoc_L (++)), <- !(assoc_L (++) (pre ++ [Some v])).
  replace (S (length pre)) with (length (pre ++ [Some v])) by (rewrite length_app; cbn; lia).
  apply IH; [done|lia].
Qed.

Lemma reads_array {B} (f : bool * list (option Z) -> reader B) vs old result l a :
  Forall is_u32 vs -> (length vs <= length old)%nat ->
  reads (f (result, (Some <$> vs) ++ drop (length vs) old)) l a ->
  reads (read_array (Z.of_nat (length vs)) old result ≫= f) (be_quads vs ++ l) a.
Proof.
  intros Hvs Hold Hf. eapply reads_bind; [|exact Hf]. unfold read_array. rewrite Nat2Z.id.
  rewrite <- (take_drop (length vs) old) at 1.
  apply (reads_array_from vs [] (take (length vs) old)); [done|]. rewrite length_take. lia.
Qed.

(** The header of a response is taken over; it is accepted if the version is
    known and the command is the one that was sent. *)
Definition parsed_base (o : EfcCmd) (n : Z) (h : efc_header) : EfcCmd := mkEfcCmd n h (efc_category_id o) (efc_command_id o).

Definition header_accepted (o : EfcCmd) (h : efc_header) : Prop :=
  eh_version h <= 1 /\ eh_category h = efc_category_id o /\ eh_command h = efc_command_id o.

#[export] Instance header_accepted_dec o h : Decision (header_accepted o h).
Proof. unfold header_accepted. apply _. Defined.

Lemma reads_header_fields o n h :
  is_u32 n -> header_u32 h ->
  reads (EfcCmd_deserialize o) (be_quads (n :: header_quads h)) (bool_decide (header_accepted o h), parsed_base o n h).
Proof.
  intros Hn Hh. destruct h as [v s c m r]. unfold header_u32, header_quads in Hh. cbn [eh_version eh_seqnum eh_category eh_command eh_retval] in Hh.
  rewrite !Forall_cons in Hh. destruct Hh as (Hv & Hs & Hc & Hm & Hr & _). unfold EfcCmd_deserialize, header_quads.
  cbn [eh_version eh_seqnum eh_category eh_command eh_retval]. rewrite !be_quads_cons.
  do 6 (apply reads_swap; [done|]). cbv zeta. unfold header_accepted. cbn [eh_version eh_category eh_command].
  destruct (Z.ltb_spec 1 v); [rewrite bool_decide_false by lia; apply reads_mret|].
  destruct (Z.eqb_spec c (efc_category_id o)) as [Ec|]; cbn [negb]; [|rewrite bool_decide_false by tauto; apply reads_mret].
  destruct (Z.eqb_spec m (efc_command_id o)) as [Em|]; cbn [negb]; [|rewrite bool_decide_false by tauto; apply reads_mret].
  rewrite bool_decide_true by done. apply reads_mret.
Qed.

Lemma reads_efc_header {B} (f : bool * EfcCmd -> reader B) o n h l a :
  is_u32 n -> header_u32 h -> header_accepted o h ->
  reads (f (true, parsed_base o n h)) l a ->
  reads (EfcCmd_deserialize o ≫= f) (be_quads (n :: header_quads h) ++ l) a.
Proof.
  intros Hn Hh Ha Hf. pose proof (reads_header_fields o n h Hn Hh) as Hr. rewrite bool_decide_true in Hr by done.
  eapply reads_bind; [exact Hr|exact Hf].
Qed.
