(* ===== verification/EfcCommands.v ===== *)
(** * EfcCommands: fireworks/efc, the commands

    Every EFC command of the library with its constructor, [serialize] and
    [deserialize]: hardware information and polled values, flash memory, clock
    and flags, channel maps and I/O configuration, mixers and monitors.

    [EfcSetClockCmd::deserialize] also sleeps for 150 ms; time is not a part of
    the commands.  [EfcHardwareInfoCmd::m_reserved] is never accessed. *)
From stdpp Require Import list.
From S2P Require Import Prelude Serialize BusData AvcCommand AvcCommands Memory Efc.

(** ** Hardware information *)

Definition HWINFO_NAME_SIZE_BYTES : nat := 32.
Definition HWINFO_MAX_CAPS_GROUPS : nat := 8.
Definition POLLED_MAX_NB_METERS : Z := 100.

Record caps_phys_group := mk_caps_phys_group {
  cg_type : option Z;
  cg_count : option Z }.

Record EfcHardwareInfoCmd := mkEfcHardwareInfoCmd {
  hi_base : EfcCmd;
  hi_flags : option Z;
  hi_guid : option Z;
  hi_type : option Z;
  hi_version : option Z;
  hi_vendor_name : list (option Z);
  hi_model_name : list (option Z);
  hi_supported_clocks : option Z;
  hi_nb_1394_playback_channels : option Z;
  hi_nb_1394_record_channels : option Z;
  hi_nb_phys_audio_out : option Z;
  hi_nb_phys_audio_in : option Z;
  hi_nb_out_groups : Z;
  hi_out_groups : list caps_phys_group;
  hi_nb_in_groups : Z;
  hi_in_groups : list caps_phys_group;
  hi_nb_midi_out : option Z;
  hi_nb_midi_in : option Z;
  hi_max_sample_rate : option Z;
  hi_min_sample_rate : option Z;
  hi_dsp_version : option Z;
  hi_arm_version : option Z;
  hi_num_mix_play_chan : option Z;
  hi_num_mix_rec_chan : option Z;
  hi_fpga_version : option Z;
  hi_nb_1394_play_chan_2x : option Z;
  hi_nb_1394_rec_chan_2x : option Z;
  hi_nb_1394_play_chan_4x : option Z;
  hi_nb_1394_rec_chan_4x : option Z }.

Definition EfcHardwareInfoCmd_new : EfcHardwareInfoCmd :=
  mkEfcHardwareInfoCmd (EfcCmd_new EFC_CAT_HARDWARE_INFO EFC_CMD_HW_HWINFO_GET_CAPS)
    None None None None (replicate HWINFO_NAME_SIZE_BYTES None) (replicate HWINFO_NAME_SIZE_BYTES None)
    None None None None None
    0 (replicate HWINFO_MAX_CAPS_GROUPS (mk_caps_phys_group None None))
    0 (replicate HWINFO_MAX_CAPS_GROUPS (mk_caps_phys_group None None))
    None None None None None None None None None None None None None.

Definition hi_with_base (b : EfcCmd) (o : EfcHardwareInfoCmd) : EfcHardwareInfoCmd :=
  mkEfcHardwareInfoCmd b (hi_flags o) (hi_guid o) (hi_type o) (hi_version o) (hi_vendor_name o) (hi_model_name o)
    (hi_supported_clocks o) (hi_nb_1394_playback_channels o) (hi_nb_1394_record_channels o) (hi_nb_phys_audio_out o)
    (hi_nb_phys_audio_in o) (hi_nb_out_groups o) (hi_out_groups o) (hi_nb_in_groups o) (hi_in_groups o)
    (hi_nb_midi_out o) (hi_nb_midi_in o) (hi_max_sample_rate o) (hi_min_sample_rate o) (hi_dsp_version o)
    (hi_arm_version o) (hi_num_mix_play_chan o) (hi_num_mix_rec_chan o) (hi_fpga_version o)
    (hi_nb_1394_play_chan_2x o) (hi_nb_1394_rec_chan_2x o) (hi_nb_1394_play_chan_4x o) (hi_nb_1394_rec_chan_4x o).

Definition EfcHardwareInfoCmd_serialize (o : EfcHardwareInfoCmd) (seqnum : Z) : writer (bool * EfcHardwareInfoCmd * Z) :=
  '(result, base, seqnum) ← EfcCmd_serialize (EfcCmd_with_length EFC_HEADER_LENGTH_QUADLETS (hi_base o)) seqnum;
  mret (result, hi_with_base base o, seqnum).

(** [result &= de.read(&x);] for a byte *)
Definition deserialize_byte (value : option Z) (result : bool) : reader (bool * option Z) :=
  r_byte (fun o => r_ret (match o with Some v => (result, Some v) | None => (false, value) end)).

Fixpoint deserialize_name (name : list (option Z)) (result : bool) : reader (bool * list (option Z)) :=
  match name with
  | [] => mret (result, [])
  | c :: name' =>
    '(result, c) ← deserialize_byte c result;
    '(result, name') ← deserialize_name name' result;
    mret (result, c :: name')
  end.

Fixpoint deserialize_groups (groups : list caps_phys_group) (result : bool) : reader (bool * list caps_phys_group) :=
  match groups with
  | [] => mret (result, [])
  | g :: groups' =>
    '(result, type) ← deserialize_byte (cg_type g) result;
    '(result, count) ← deserialize_byte (cg_count g) result;
    '(result, groups') ← deserialize_groups groups' result;
    mret (result, mk_caps_phys_group type count :: groups')
  end.

(** [m_guid] from the two halves; [tmp] is a local without an initialiser *)
Definition deserialize_guid (result : bool) : reader (bool * option Z) :=
  '(result, hi) ← deserialize_and_swap_opt None result;
  '(result, lo) ← deserialize_and_swap_opt hi result;
  hi ← used hi;
  lo ← used lo;
  mret (result, Some (Z.lor (u64 (Z.shiftl hi 32)) lo)).

Definition EfcHardwareInfoCmd_deserialize (o : EfcHardwareInfoCmd) : reader (bool * EfcHardwareInfoCmd) :=
  '(result, base) ← EfcCmd_deserialize (hi_base o);
  '(result, flags) ← deserialize_and_swap_opt (hi_flags o) result;
  '(result, guid) ← deserialize_guid result;
  '(result, type) ← deserialize_and_swap_opt (hi_type o) result;
  '(result, version) ← deserialize_and_swap_opt (hi_version o) result;
  '(result, vendor_name) ← deserialize_name (hi_vendor_name o) result;
  '(result, model_name) ← deserialize_name (hi_model_name o) result;
  '(result, supported_clocks) ← deserialize_and_swap_opt (hi_supported_clocks o) result;
  '(result, nb_1394_playback_channels) ← deserialize_and_swap_opt (hi_nb_1394_playback_channels o) result;
  '(result, nb_1394_record_channels) ← deserialize_and_swap_opt (hi_nb_1394_record_channels o) result;
  '(result, nb_phys_audio_out) ← deserialize_and_swap_opt (hi_nb_phys_audio_out o) result;
  '(result, nb_phys_audio_in) ← deserialize_and_swap_opt (hi_nb_phys_audio_in o) result;
  '(result, nb_out_groups) ← deserialize_and_swap (hi_nb_out_groups o) result;
  '(result, out_groups) ← deserialize_groups (hi_out_groups o) result;
  '(result, nb_in_groups) ← deserialize_and_swap (hi_nb_in_groups o) result;
  '(result, in_groups) ← deserialize_groups (hi_in_groups o) result;
  '(result, nb_midi_out) ← deserialize_and_swap_opt (hi_nb_midi_out o) result;
  '(result, nb_midi_in) ← deserialize_and_swap_opt (hi_nb_midi_in o) result;
  '(result, max_sample_rate) ← deserialize_and_swap_opt (hi_max_sample_rate o) result;
  '(result, min_sample_rate) ← deserialize_and_swap_opt (hi_min_sample_rate o) result;
  '(result, dsp_version) ← deserialize_and_swap_opt (hi_dsp_version o) result;
  '(result, arm_version) ← deserialize_and_swap_opt (hi_arm_version o) result;
  '(result, num_mix_play_chan) ← deserialize_and_swap_opt (hi_num_mix_play_chan o) result;
  '(result, num_mix_rec_chan) ← deserialize_and_swap_opt (hi_num_mix_rec_chan o) result;
  let finish result fpga play2 rec2 play4 rec4 :=
    mret (result, mkEfcHardwareInfoCmd base flags guid type version vendor_name model_name supported_clocks
      nb_1394_playback_channels nb_1394_record_channels nb_phys_audio_out nb_phys_audio_in nb_out_groups out_groups
      nb_in_groups in_groups nb_midi_out nb_midi_in max_sample_rate min_sample_rate dsp_version arm_version
      num_mix_play_chan num_mix_rec_chan fpga play2 rec2 play4 rec4) in
  if 1 <=? eh_version (efc_hdr base) then
    '(result, fpga_version) ← deserialize_and_swap_opt (hi_fpga_version o) result;
    '(result, play2) ← deserialize_and_swap_opt (hi_nb_1394_play_chan_2x o) result;
    '(result, rec2) ← deserialize_and_swap_opt (hi_nb_1394_rec_chan_2x o) result;
    '(result, play4) ← deserialize_and_swap_opt (hi_nb_1394_play_chan_4x o) result;
    '(result, rec4) ← deserialize_and_swap_opt (hi_nb_1394_rec_chan_4x o) result;
    finish result fpga_version play2 rec2 play4 rec4
  else finish result (hi_fpga_version o) (hi_nb_1394_play_chan_2x o) (hi_nb_1394_rec_chan_2x o)
         (hi_nb_1394_play_chan_4x o) (hi_nb_1394_rec_chan_4x o).

#[export] Instance EfcHardwareInfoCmd_EfcCmdClass : EfcCmdClass EfcHardwareInfoCmd := {
  efc_base := hi_base;
  efc_serialize := EfcHardwareInfoCmd_serialize;
  efc_deserialize := EfcHardwareInfoCmd_deserialize }.

(** ** The feature flags *)

Definition hi_flag (flag : Z) (o : EfcHardwareInfoCmd) : option bool :=
  flags ← hi_flags o; Some (EFC_CMD_HW_CHECK_FLAG flags flag).

Definition hasPlaybackRouting : EfcHardwareInfoCmd -> option bool := hi_flag EFC_CMD_HW_HAS_PLAYBACK_ROUTING.
Definition hasSoftwarePhantom : EfcHardwareInfoCmd -> option bool := hi_flag EFC_CMD_HW_HAS_PHANTOM.
Definition hasDSP : EfcHardwareInfoCmd -> option bool := hi_flag EFC_CMD_HW_HAS_DSP.
Definition hasFPGA : EfcHardwareInfoCmd -> option bool := hi_flag EFC_CMD_HW_HAS_FPGA.
Definition hasOpticalInterface : EfcHardwareInfoCmd -> option bool := hi_flag EFC_CMD_HW_OPTICAL_INTERFACE_SUPPORTED.
Definition hasSpdifAESEBUXLR : EfcHardwareInfoCmd -> option bool := hi_flag EFC_CMD_HW_SPDIF_AESEBUXLR_SUPPORTED.
Definition hasMirroring : EfcHardwareInfoCmd -> option bool := hi_flag EFC_CMD_HW_MIRRORING_SUPPORTED.
Definition hasDynAddr : EfcHardwareInfoCmd -> option bool := hi_flag EFC_CMD_HW_DYNADDR_SUPPORTED.

(** ** Polled values

    [m_meters] holds the quadlets; the code looks at them as [int32_t]. *)
Record EfcPolledValuesCmd := mkEfcPolledValuesCmd {
  pv_base : EfcCmd;
  pv_status : option Z;
  pv_detect_spdif : option Z;
  pv_detect_adat : option Z;
  pv_reserved3 : option Z;
  pv_reserved4 : option Z;
  pv_nb_output_meters : Z;
  pv_nb_input_meters : Z;
  pv_reserved5 : option Z;
  pv_reserved6 : option Z;
  pv_meters : list (option Z) }.

Definition EfcPolledValuesCmd_new : EfcPolledValuesCmd :=
  mkEfcPolledValuesCmd (EfcCmd_new EFC_CAT_HARDWARE_INFO EFC_CMD_HW_GET_POLLED) None None None None None 0 0 None None
    (replicate (Z.to_nat POLLED_MAX_NB_METERS) None).

Definition EfcPolledValuesCmd_serialize (o : EfcPolledValuesCmd) (seqnum : Z) : writer (bool * EfcPolledValuesCmd * Z) :=
  '(result, base, seqnum) ← EfcCmd_serialize (EfcCmd_with_length EFC_HEADER_LENGTH_QUADLETS (pv_base o)) seqnum;
  mret (result, mkEfcPolledValuesCmd base (pv_status o) (pv_detect_spdif o) (pv_detect_adat o) (pv_reserved3 o) (pv_reserved4 o)
    (pv_nb_output_meters o) (pv_nb_input_meters o) (pv_reserved5 o) (pv_reserved6 o) (pv_meters o), seqnum).

(** the sum of two [uint32_t] in an [int] *)
Definition polled_nb_meters (outputs inputs : Z) : Z := s32 (u32 (outputs + inputs)).

Definition EfcPolledValuesCmd_deserialize (o : EfcPolledValuesCmd) : reader (bool * EfcPolledValuesCmd) :=
  '(ok, base) ← EfcCmd_deserialize (pv_base o);
  if negb ok then
    mret (false, mkEfcPolledValuesCmd base (pv_status o) (pv_detect_spdif o) (pv_detect_adat o) (pv_reserved3 o) (pv_reserved4 o)
      (pv_nb_output_meters o) (pv_nb_input_meters o) (pv_reserved5 o) (pv_reserved6 o) (pv_meters o))
  else
    '(result, status) ← deserialize_and_swap_opt (pv_status o) true;
    '(result, detect_spdif) ← deserialize_and_swap_opt (pv_detect_spdif o) result;
    '(result, detect_adat) ← deserialize_and_swap_opt (pv_detect_adat o) result;
    '(result, reserved3) ← deserialize_and_swap_opt (pv_reserved3 o) result;
    '(result, reserved4) ← deserialize_and_swap_opt (pv_reserved4 o) result;
    '(result, outputs) ← deserialize_and_swap (pv_nb_output_meters o) result;
    '(result, inputs) ← deserialize_and_swap (pv_nb_input_meters o) result;
    '(result, reserved5) ← deserialize_and_swap_opt (pv_reserved5 o) result;
    '(result, reserved6) ← deserialize_and_swap_opt (pv_reserved6 o) result;
    let polled outputs inputs := mkEfcPolledValuesCmd base status detect_spdif detect_adat reserved3 reserved4
      outputs inputs reserved5 reserved6 in
    if negb result then mret (result, polled outputs inputs (pv_meters o))
    else
      let nb_meters := polled_nb_meters outputs inputs in
      if POLLED_MAX_NB_METERS <? nb_meters then mret (result, polled 0 0 (pv_meters o))
      else
        '(result, meters) ← read_array nb_meters (pv_meters o) result;
        mret (result, polled outputs inputs meters).

#[export] Instance EfcPolledValuesCmd_EfcCmdClass : EfcCmdClass EfcPolledValuesCmd := {
  efc_base := pv_base;
  efc_serialize := EfcPolledValuesCmd_serialize;
  efc_deserialize := EfcPolledValuesCmd_deserialize }.

(** ** Flash memory *)

Definition EFC_FLASH_SIZE_BYTES : Z := 256.
Definition EFC_FLASH_SIZE_QUADS : Z := EFC_FLASH_SIZE_BYTES / 4.

Record EfcFlashEraseCmd := mkEfcFlashEraseCmd { fe_base : EfcCmd; fe_address : Z }.

Definition EfcFlashEraseCmd_new : EfcFlashEraseCmd := mkEfcFlashEraseCmd (EfcCmd_new EFC_CAT_FLASH EFC_CMD_FLASH_ERASE) 0xFFFFFFFF.

Definition EfcFlashEraseCmd_serialize (o : EfcFlashEraseCmd) (seqnum : Z) : writer (bool * EfcFlashEraseCmd * Z) :=
  '(result, base, seqnum) ← serialize_operands (EFC_HEADER_LENGTH_QUADLETS + 1) (fe_base o) (write_swapped [fe_address o]) seqnum;
  mret (result, mkEfcFlashEraseCmd base (fe_address o), seqnum).

Definition EfcFlashEraseCmd_deserialize (o : EfcFlashEraseCmd) : reader (bool * EfcFlashEraseCmd) :=
  '(result, base) ← EfcCmd_deserialize (fe_base o);
  mret (result, mkEfcFlashEraseCmd base (fe_address o)).

#[export] Instance EfcFlashEraseCmd_EfcCmdClass : EfcCmdClass EfcFlashEraseCmd := {
  efc_base := fe_base;
  efc_serialize := EfcFlashEraseCmd_serialize;
  efc_deserialize := EfcFlashEraseCmd_deserialize }.

Record EfcFlashReadCmd := mkEfcFlashReadCmd {
  fr_base : EfcCmd;
  fr_address : Z;
  fr_nb_quadlets : Z;
  fr_data : list (option Z) }.

Definition EfcFlashReadCmd_new : EfcFlashReadCmd :=
  mkEfcFlashReadCmd (EfcCmd_new EFC_CAT_FLASH EFC_CMD_FLASH_READ) 0xFFFFFFFF 0 (replicate (Z.to_nat EFC_FLASH_SIZE_QUADS) None).

Definition EfcFlashReadCmd_serialize (o : EfcFlashReadCmd) (seqnum : Z) : writer (bool * EfcFlashReadCmd * Z) :=
  '(result, base, seqnum) ← serialize_operands (EFC_HEADER_LENGTH_QUADLETS + 2) (fr_base o)
                              (write_swapped [fr_address o; fr_nb_quadlets o]) seqnum;
  mret (result, mkEfcFlashReadCmd base (fr_address o) (fr_nb_quadlets o) (fr_data o), seqnum).

Definition EfcFlashReadCmd_deserialize (o : EfcFlashReadCmd) : reader (bool * EfcFlashReadCmd) :=
  '(result, base) ← EfcCmd_deserialize (fr_base o);
  '(result, address) ← deserialize_and_swap (fr_address o) result;
  '(result, nb_quadlets) ← deserialize_and_swap (fr_nb_quadlets o) result;
  if EFC_FLASH_SIZE_QUADS <? nb_quadlets then mret (false, mkEfcFlashReadCmd base address nb_quadlets (fr_data o))
  else
    '(result, data) ← read_array nb_quadlets (fr_data o) result;
    mret (result, mkEfcFlashReadCmd base address nb_quadlets data).

#[export] Instance EfcFlashReadCmd_EfcCmdClass : EfcCmdClass EfcFlashReadCmd := {
  efc_base := fr_base;
  efc_serialize := EfcFlashReadCmd_serialize;
  efc_deserialize := EfcFlashReadCmd_deserialize }.

Record EfcFlashWriteCmd := mkEfcFlashWriteCmd {
  fw_base : EfcCmd;
  fw_address : Z;
  fw_nb_quadlets : Z;
  fw_data : list (option Z) }.

Definition EfcFlashWriteCmd_new : EfcFlashWriteCmd :=
  mkEfcFlashWriteCmd (EfcCmd_new EFC_CAT_FLASH EFC_CMD_FLASH_WRITE) 0xFFFFFFFF 0 (replicate (Z.to_nat EFC_FLASH_SIZE_QUADS) None).

Definition EfcFlashWriteCmd_serialize (o : EfcFlashWriteCmd) (seqnum : Z) : writer (bool * EfcFlashWriteCmd * Z) :=
  if EFC_FLASH_SIZE_QUADS <? fw_nb_quadlets o then mret (false, o, seqnum)
  else
    '(result, base, seqnum) ← serialize_operands (EFC_HEADER_LENGTH_QUADLETS + 2 + fw_nb_quadlets o) (fw_base o)
      (r1 ← write_swapped [fw_address o; fw_nb_quadlets o];
       r2 ← write_array (take (Z.to_nat (fw_nb_quadlets o)) (fw_data o));
       mret (r1 && r2)) seqnum;
    mret (result, mkEfcFlashWriteCmd base (fw_address o) (fw_nb_quadlets o) (fw_data o), seqnum).

Definition EfcFlashWriteCmd_deserialize (o : EfcFlashWriteCmd) : reader (bool * EfcFlashWriteCmd) :=
  '(result, base) ← EfcCmd_deserialize (fw_base o);
  mret (result, mkEfcFlashWriteCmd base (fw_address o) (fw_nb_quadlets o) (fw_data o)).

#[export] Instance EfcFlashWriteCmd_EfcCmdClass : EfcCmdClass EfcFlashWriteCmd := {
  efc_base := fw_base;
  efc_serialize := EfcFlashWriteCmd_serialize;
  efc_deserialize := EfcFlashWriteCmd_deserialize }.

Record EfcFlashLockCmd := mkEfcFlashLockCmd { fl_base : EfcCmd; fl_lock : bool }.

Definition EfcFlashLockCmd_new : EfcFlashLockCmd := mkEfcFlashLockCmd (EfcCmd_new EFC_CAT_FLASH EFC_CMD_FLASH_LOCK) false.

Definition EfcFlashLockCmd_serialize (o : EfcFlashLockCmd) (seqnum : Z) : writer (bool * EfcFlashLockCmd * Z) :=
  '(result, base, seqnum) ← serialize_operands (EFC_HEADER_LENGTH_QUADLETS + 1) (fl_base o)
                              (write_swapped [if fl_lock o then 1 else 0]) seqnum;
  mret (result, mkEfcFlashLockCmd base (fl_lock o), seqnum).

Definition EfcFlashLockCmd_deserialize (o : EfcFlashLockCmd) : reader (bool * EfcFlashLockCmd) :=
  '(result, base) ← EfcCmd_deserialize (fl_base o);
  mret (result, mkEfcFlashLockCmd base (fl_lock o)).

#[export] Instance EfcFlashLockCmd_EfcCmdClass : EfcCmdClass EfcFlashLockCmd := {
  efc_base := fl_base;
  efc_serialize := EfcFlashLockCmd_serialize;
  efc_deserialize := EfcFlashLockCmd_deserialize }.

Record EfcFlashGetStatusCmd := mkEfcFlashGetStatusCmd { fg_base : EfcCmd; fg_ready : bool }.

Definition EfcFlashGetStatusCmd_new : EfcFlashGetStatusCmd :=
  mkEfcFlashGetStatusCmd (EfcCmd_new EFC_CAT_FLASH EFC_CMD_FLASH_GET_STATUS) false.

Definition EfcFlashGetStatusCmd_serialize (o : EfcFlashGetStatusCmd) (seqnum : Z) : writer (bool * EfcFlashGetStatusCmd * Z) :=
  '(result, base, seqnum) ← EfcCmd_serialize (EfcCmd_with_length EFC_HEADER_LENGTH_QUADLETS (fg_base o)) seqnum;
  mret (result, mkEfcFlashGetStatusCmd base (fg_ready o), seqnum).

Definition EfcFlashGetStatusCmd_deserialize (o : EfcFlashGetStatusCmd) : reader (bool * EfcFlashGetStatusCmd) :=
  '(result, base) ← EfcCmd_deserialize (fg_base o);
  mret (result, mkEfcFlashGetStatusCmd base (negb (eh_retval (efc_hdr base) =? eERV_FlashBusy))).

#[export] Instance EfcFlashGetStatusCmd_EfcCmdClass : EfcCmdClass EfcFlashGetStatusCmd := {
  efc_base := fg_base;
  efc_serialize := EfcFlashGetStatusCmd_serialize;
  efc_deserialize := EfcFlashGetStatusCmd_deserialize }.

Record EfcFlashGetSessionBaseCmd := mkEfcFlashGetSessionBaseCmd { fs_base : EfcCmd; fs_address : Z }.

Definition EfcFlashGetSessionBaseCmd_new : EfcFlashGetSessionBaseCmd :=
  mkEfcFlashGetSessionBaseCmd (EfcCmd_new EFC_CAT_FLASH EFC_CMD_FLASH_GET_SESSION_BASE) 0.

Definition EfcFlashGetSessionBaseCmd_serialize (o : EfcFlashGetSessionBaseCmd) (seqnum : Z)
  : writer (bool * EfcFlashGetSessionBaseCmd * Z) :=
  '(result, base, seqnum) ← EfcCmd_serialize (EfcCmd_with_length EFC_HEADER_LENGTH_QUADLETS (fs_base o)) seqnum;
  mret (result, mkEfcFlashGetSessionBaseCmd base (fs_address o), seqnum).

Definition EfcFlashGetSessionBaseCmd_deserialize (o : EfcFlashGetSessionBaseCmd) : reader (bool * EfcFlashGetSessionBaseCmd) :=
  '(result, base) ← EfcCmd_deserialize (fs_base o);
  '(result, address) ← deserialize_and_swap (fs_address o) result;
  mret (result, mkEfcFlashGetSessionBaseCmd base address).

#[export] Instance EfcFlashGetSessionBaseCmd_EfcCmdClass : EfcCmdClass EfcFlashGetSessionBaseCmd := {
  efc_base := fs_base;
  efc_serialize := EfcFlashGetSessionBaseCmd_serialize;
  efc_deserialize := EfcFlashGetSessionBaseCmd_deserialize }.

(** ** Clock, flags and identification *)

Record EfcGetClockCmd := mkEfcGetClockCmd { gc_base : EfcCmd; gc_clock : Z; gc_samplerate : Z; gc_index : Z }.

Definition EfcGetClockCmd_new : EfcGetClockCmd :=
  mkEfcGetClockCmd (EfcCmd_new EFC_CAT_HARDWARE_CONTROL EFC_CMD_HWCTRL_GET_CLOCK)
    EFC_CMD_HW_CLOCK_UNSPECIFIED EFC_CMD_HW_CLOCK_UNSPECIFIED 0.

Definition EfcGetClockCmd_serialize (o : EfcGetClockCmd) (seqnum : Z) : writer (bool * EfcGetClockCmd * Z) :=
  '(result, base, seqnum) ← EfcCmd_serialize (EfcCmd_with_length EFC_HEADER_LENGTH_QUADLETS (gc_base o)) seqnum;
  mret (result, mkEfcGetClockCmd base (gc_clock o) (gc_samplerate o) (gc_index o), seqnum).

Definition EfcGetClockCmd_deserialize (o : EfcGetClockCmd) : reader (bool * EfcGetClockCmd) :=
  '(result, base) ← EfcCmd_deserialize (gc_base o);
  '(result, clock) ← deserialize_and_swap (gc_clock o) result;
  '(result, samplerate) ← deserialize_and_swap (gc_samplerate o) result;
  '(result, index) ← deserialize_and_swap (gc_index o) result;
  mret (result, mkEfcGetClockCmd base clock samplerate index).

#[export] Instance EfcGetClockCmd_EfcCmdClass : EfcCmdClass EfcGetClockCmd := {
  efc_base := gc_base;
  efc_serialize := EfcGetClockCmd_serialize;
  efc_deserialize := EfcGetClockCmd_deserialize }.

Record EfcSetClockCmd := mkEfcSetClockCmd { sc_base : EfcCmd; sc_clock : Z; sc_samplerate : Z; sc_index : Z }.

Definition EfcSetClockCmd_new : EfcSetClockCmd :=
  mkEfcSetClockCmd (EfcCmd_new EFC_CAT_HARDWARE_CONTROL EFC_CMD_HWCTRL_SET_CLOCK)
    EFC_CMD_HW_CLOCK_UNSPECIFIED EFC_CMD_HW_CLOCK_UNSPECIFIED 0.

Definition EfcSetClockCmd_serialize (o : EfcSetClockCmd) (seqnum : Z) : writer (bool * EfcSetClockCmd * Z) :=
  '(result, base, seqnum) ← serialize_operands (EFC_HEADER_LENGTH_QUADLETS + 3) (sc_base o)
                              (write_swapped [sc_clock o; sc_samplerate o; sc_index o]) seqnum;
  mret (result, mkEfcSetClockCmd base (sc_clock o) (sc_samplerate o) (sc_index o), seqnum).

Definition EfcSetClockCmd_deserialize (o : EfcSetClockCmd) : reader (bool * EfcSetClockCmd) :=
  '(result, base) ← EfcCmd_deserialize (sc_base o);
  '(result, clock) ← deserialize_and_swap (sc_clock o) result;
  '(result, samplerate) ← deserialize_and_swap (sc_samplerate o) result;
  '(result, index) ← deserialize_and_swap (sc_index o) result;
  mret (result, mkEfcSetClockCmd base clock samplerate index).

#[export] Instance EfcSetClockCmd_EfcCmdClass : EfcCmdClass EfcSetClockCmd := {
  efc_base := sc_base;
  efc_serialize := EfcSetClockCmd_serialize;
  efc_deserialize := EfcSetClockCmd_deserialize }.

Record EfcPhyReconnectCmd := mkEfcPhyReconnectCmd { pr_base : EfcCmd }.

Definition EfcPhyReconnectCmd_new : EfcPhyReconnectCmd :=
  mkEfcPhyReconnectCmd (EfcCmd_new EFC_CAT_HARDWARE_CONTROL EFC_CMD_HWCTRL_RECONNECT_PHY).

Definition EfcPhyReconnectCmd_serialize (o : EfcPhyReconnectCmd) (seqnum : Z) : writer (bool * EfcPhyReconnectCmd * Z) :=
  '(result, base, seqnum) ← EfcCmd_serialize (EfcCmd_with_length EFC_HEADER_LENGTH_QUADLETS (pr_base o)) seqnum;
  mret (result, mkEfcPhyReconnectCmd base, seqnum).

Definition EfcPhyReconnectCmd_deserialize (o : EfcPhyReconnectCmd) : reader (bool * EfcPhyReconnectCmd) :=
  '(result, base) ← EfcCmd_deserialize (pr_base o);
  mret (result, mkEfcPhyReconnectCmd base).

#[export] Instance EfcPhyReconnectCmd_EfcCmdClass : EfcCmdClass EfcPhyReconnectCmd := {
  efc_base := pr_base;
  efc_serialize := EfcPhyReconnectCmd_serialize;
  efc_deserialize := EfcPhyReconnectCmd_deserialize }.

Record EfcGetFlagsCmd := mkEfcGetFlagsCmd { gf_base : EfcCmd; gf_flags : Z }.

Definition EfcGetFlagsCmd_new : EfcGetFlagsCmd := mkEfcGetFlagsCmd (EfcCmd_new EFC_CAT_HARDWARE_CONTROL EFC_CMD_HWCTRL_GET_FLAGS) 0.

Definition EfcGetFlagsCmd_serialize (o : EfcGetFlagsCmd) (seqnum : Z) : writer (bool * EfcGetFlagsCmd * Z) :=
  '(result, base, seqnum) ← EfcCmd_serialize (EfcCmd_with_length EFC_HEADER_LENGTH_QUADLETS (gf_base o)) seqnum;
  mret (result, mkEfcGetFlagsCmd base (gf_flags o), seqnum).

Definition EfcGetFlagsCmd_deserialize (o : EfcGetFlagsCmd) : reader (bool * EfcGetFlagsCmd) :=
  '(result, base) ← EfcCmd_deserialize (gf_base o);
  '(result, flags) ← deserialize_and_swap (gf_flags o) result;
  mret (result, mkEfcGetFlagsCmd base flags).

#[export] Instance EfcGetFlagsCmd_EfcCmdClass : EfcCmdClass EfcGetFlagsCmd := {
  efc_base := gf_base;
  efc_serialize := EfcGetFlagsCmd_serialize;
  efc_deserialize := EfcGetFlagsCmd_deserialize }.

Record EfcChangeFlagsCmd := mkEfcChangeFlagsCmd { cf_base : EfcCmd; cf_setmask : Z; cf_clearmask : Z }.

Definition EfcChangeFlagsCmd_new : EfcChangeFlagsCmd :=
  mkEfcChangeFlagsCmd (EfcCmd_new EFC_CAT_HARDWARE_CONTROL EFC_CMD_HWCTRL_CHANGE_FLAGS) 0 0.

Definition EfcChangeFlagsCmd_serialize (o : EfcChangeFlagsCmd) (seqnum : Z) : writer (bool * EfcChangeFlagsCmd * Z) :=
  '(result, base, seqnum) ← serialize_operands (EFC_HEADER_LENGTH_QUADLETS + 2) (cf_base o)
                              (write_swapped [cf_setmask o; cf_clearmask o]) seqnum;
  mret (result, mkEfcChangeFlagsCmd base (cf_setmask o) (cf_clearmask o), seqnum).

Definition EfcChangeFlagsCmd_deserialize (o : EfcChangeFlagsCmd) : reader (bool * EfcChangeFlagsCmd) :=
  '(result, base) ← EfcCmd_deserialize (cf_base o);
  mret (result, mkEfcChangeFlagsCmd base (cf_setmask o) (cf_clearmask o)).

#[export] Instance EfcChangeFlagsCmd_EfcCmdClass : EfcCmdClass EfcChangeFlagsCmd := {
  efc_base := cf_base;
  efc_serialize := EfcChangeFlagsCmd_serialize;
  efc_deserialize := EfcChangeFlagsCmd_deserialize }.

Record EfcIdentifyCmd := mkEfcIdentifyCmd { id_base : EfcCmd }.

Definition EfcIdentifyCmd_new : EfcIdentifyCmd := mkEfcIdentifyCmd (EfcCmd_new EFC_CAT_HARDWARE_CONTROL EFC_CMD_HWCTRL_IDENTIFY).

Definition EfcIdentifyCmd_serialize (o : EfcIdentifyCmd) (seqnum : Z) : writer (bool * EfcIdentifyCmd * Z) :=
  '(result, base, seqnum) ← EfcCmd_serialize (EfcCmd_with_length EFC_HEADER_LENGTH_QUADLETS (id_base o)) seqnum;
  mret (result, mkEfcIdentifyCmd base, seqnum).

Definition EfcIdentifyCmd_deserialize (o : EfcIdentifyCmd) : reader (bool * EfcIdentifyCmd) :=
  '(result, base) ← EfcCmd_deserialize (id_base o);
  mret (result, mkEfcIdentifyCmd base).

#[export] Instance EfcIdentifyCmd_EfcCmdClass : EfcCmdClass EfcIdentifyCmd := {
  efc_base := id_base;
  efc_serialize := EfcIdentifyCmd_serialize;
  efc_deserialize := EfcIdentifyCmd_deserialize }.

(** ** I/O configuration *)

Inductive eCmdType := eCT_Get | eCT_Set.
Inductive eIOConfigRegister := eCR_Mirror | eCR_DigitalInterface | eCR_Phantom | eCR_IsocMap.

Record EfcGenericIOConfigCmd := mkEfcGenericIOConfigCmd {
  io_base : EfcCmd;
  io_value : Z;
  io_type : eCmdType;
  io_reg : eIOConfigRegister }.

(** the two nested switches of [setType] and [setRegister]; [None] is their
    default branch *)
Definition io_command_id (type : eCmdType) (reg : eIOConfigRegister) : option Z :=
  match type, reg with
  | eCT_Get, eCR_Mirror => Some EFC_CMD_IO_CONFIG_GET_MIRROR
  | eCT_Get, eCR_DigitalInterface => Some EFC_CMD_IO_CONFIG_GET_DIGITAL_MODE
  | eCT_Get, eCR_Phantom => Some EFC_CMD_IO_CONFIG_GET_PHANTOM
  | eCT_Get, eCR_IsocMap => None
  | eCT_Set, eCR_Mirror => Some EFC_CMD_IO_CONFIG_SET_MIRROR
  | eCT_Set, eCR_DigitalInterface => Some EFC_CMD_IO_CONFIG_SET_DIGITAL_MODE
  | eCT_Set, eCR_Phantom => Some EFC_CMD_IO_CONFIG_SET_PHANTOM
  | eCT_Set, eCR_IsocMap => None
  end.

(** [m_command_id=...; return true;] or [return false;] *)
Definition select_command (id : option Z) (base : EfcCmd) : bool * EfcCmd :=
  match id with Some n => (true, EfcCmd_with_command n base) | None => (false, base) end.

Definition EfcGenericIOConfigCmd_setType (type : eCmdType) (o : EfcGenericIOConfigCmd) : bool * EfcGenericIOConfigCmd :=
  let '(ok, base) := select_command (io_command_id type (io_reg o)) (io_base o) in
  (ok, mkEfcGenericIOConfigCmd base (io_value o) type (io_reg o)).

Definition EfcGenericIOConfigCmd_setRegister (r : eIOConfigRegister) (o : EfcGenericIOConfigCmd) : bool * EfcGenericIOConfigCmd :=
  let '(ok, base) := select_command (io_command_id (io_type o) r) (io_base o) in
  (ok, mkEfcGenericIOConfigCmd base (io_value o) (io_type o) r).

Definition EfcGenericIOConfigCmd_new (r : eIOConfigRegister) : EfcGenericIOConfigCmd :=
  snd (EfcGenericIOConfigCmd_setRegister r
         (mkEfcGenericIOConfigCmd (EfcCmd_with_category EFC_CAT_IO_CONFIG EfcCmd_new_default) 0 eCT_Get r)).

Definition EfcGenericIOConfigCmd_serialize (o : EfcGenericIOConfigCmd) (seqnum : Z) : writer (bool * EfcGenericIOConfigCmd * Z) :=
  '(result, base, seqnum) ←
    (match io_type o with
     | eCT_Get => EfcCmd_serialize (EfcCmd_with_length EFC_HEADER_LENGTH_QUADLETS (io_base o)) seqnum
     | eCT_Set => serialize_operands (EFC_HEADER_LENGTH_QUADLETS + 1) (io_base o) (write_swapped [io_value o]) seqnum
     end);
  mret (result, mkEfcGenericIOConfigCmd base (io_value o) (io_type o) (io_reg o), seqnum).

Definition EfcGenericIOConfigCmd_deserialize (o : EfcGenericIOConfigCmd) : reader (bool * EfcGenericIOConfigCmd) :=
  '(result, base) ← EfcCmd_deserialize (io_base o);
  match io_type o with
  | eCT_Get =>
    '(result, value) ← deserialize_and_swap (io_value o) result;
    mret (result, mkEfcGenericIOConfigCmd base value (io_type o) (io_reg o))
  | eCT_Set => mret (result, mkEfcGenericIOConfigCmd base (io_value o) (io_type o) (io_reg o))
  end.

#[export] Instance EfcGenericIOConfigCmd_EfcCmdClass : EfcCmdClass EfcGenericIOConfigCmd := {
  efc_base := io_base;
  efc_serialize := EfcGenericIOConfigCmd_serialize;
  efc_deserialize := EfcGenericIOConfigCmd_deserialize }.

Definition EFC_MAX_ISOC_MAP_ENTRIES : Z := 32.
(** [sizeof(IsoChannelMap)], in bytes *)
Definition sizeof_IsoChannelMap : Z := 4 * (2 + 2 + EFC_MAX_ISOC_MAP_ENTRIES + 2 + EFC_MAX_ISOC_MAP_ENTRIES).

Record EfcIsocMapIOConfigCmd := mkEfcIsocMapIOConfigCmd {
  im_base : EfcCmd;
  im_samplerate : Z;
  im_flags : Z;
  im_num_playmap_entries : Z;
  im_num_phys_out : Z;
  im_playmap : list (option Z);
  im_num_recmap_entries : Z;
  im_num_phys_in : Z;
  im_recmap : list (option Z);
  im_type : eCmdType;
  im_reg : eIOConfigRegister }.

Definition EfcIsocMapIOConfigCmd_new : EfcIsocMapIOConfigCmd :=
  mkEfcIsocMapIOConfigCmd (EfcCmd_with_category EFC_CAT_IO_CONFIG EfcCmd_new_default) 0 0
    0 0 (replicate (Z.to_nat EFC_MAX_ISOC_MAP_ENTRIES) (Some 0))
    0 0 (replicate (Z.to_nat EFC_MAX_ISOC_MAP_ENTRIES) (Some 0)) eCT_Get eCR_IsocMap.

Definition im_with_base (b : EfcCmd) (o : EfcIsocMapIOConfigCmd) : EfcIsocMapIOConfigCmd :=
  mkEfcIsocMapIOConfigCmd b (im_samplerate o) (im_flags o) (im_num_playmap_entries o) (im_num_phys_out o) (im_playmap o)
    (im_num_recmap_entries o) (im_num_phys_in o) (im_recmap o) (im_type o) (im_reg o).

Definition EfcIsocMapIOConfigCmd_setType (type : eCmdType) (o : EfcIsocMapIOConfigCmd) : bool * EfcIsocMapIOConfigCmd :=
  let id := match type with eCT_Get => EFC_CMD_IO_CONFIG_GET_ISOC_MAP | eCT_Set => EFC_CMD_IO_CONFIG_SET_ISOC_MAP end in
  (true, mkEfcIsocMapIOConfigCmd (EfcCmd_with_command id (im_base o)) (im_samplerate o) (im_flags o) (im_num_playmap_entries o)
           (im_num_phys_out o) (im_playmap o) (im_num_recmap_entries o) (im_num_phys_in o) (im_recmap o) type (im_reg o)).

(** the [assert] holds unless both counts are too large *)
Definition EfcIsocMapIOConfigCmd_serialize (o : EfcIsocMapIOConfigCmd) (seqnum : Z) : writer (bool * EfcIsocMapIOConfigCmd * Z) :=
  if (im_num_playmap_entries o <=? EFC_MAX_ISOC_MAP_ENTRIES) || (im_num_recmap_entries o <=? EFC_MAX_ISOC_MAP_ENTRIES) then
    '(result, base, seqnum) ←
      (match im_type o with
       | eCT_Get => EfcCmd_serialize (EfcCmd_with_length EFC_HEADER_LENGTH_QUADLETS (im_base o)) seqnum
       | eCT_Set =>
         serialize_operands (EFC_HEADER_LENGTH_QUADLETS + sizeof_IsoChannelMap) (im_base o)
           (r1 ← write_swapped [im_samplerate o; im_flags o; im_num_playmap_entries o; im_num_phys_out o];
            r2 ← write_array (im_playmap o);
            r3 ← write_swapped [im_num_recmap_entries o; im_num_phys_in o];
            r4 ← write_array (im_recmap o);
            mret (r1 && r2 && r3 && r4)) seqnum
       end);
    mret (result, im_with_base base o, seqnum)
  else w_undef.

Definition EfcIsocMapIOConfigCmd_deserialize (o : EfcIsocMapIOConfigCmd) : reader (bool * EfcIsocMapIOConfigCmd) :=
  '(result, base) ← EfcCmd_deserialize (im_base o);
  match im_type o with
  | eCT_Get =>
    '(result, samplerate) ← deserialize_and_swap (im_samplerate o) result;
    '(result, flags) ← deserialize_and_swap (im_flags o) result;
    '(result, num_playmap_entries) ← deserialize_and_swap (im_num_playmap_entries o) result;
    '(result, num_phys_out) ← deserialize_and_swap (im_num_phys_out o) result;
    '(result, playmap) ← read_array EFC_MAX_ISOC_MAP_ENTRIES (im_playmap o) result;
    '(result, num_recmap_entries) ← deserialize_and_swap (im_num_recmap_entries o) result;
    '(result, num_phys_in) ← deserialize_and_swap (im_num_phys_in o) result;
    '(result, recmap) ← read_array EFC_MAX_ISOC_MAP_ENTRIES (im_recmap o) result;
    mret (result, mkEfcIsocMapIOConfigCmd base samplerate flags num_playmap_entries num_phys_out playmap
                    num_recmap_entries num_phys_in recmap (im_type o) (im_reg o))
  | eCT_Set => mret (result, im_with_base base o)
  end.

#[export] Instance EfcIsocMapIOConfigCmd_EfcCmdClass : EfcCmdClass EfcIsocMapIOConfigCmd := {
  efc_base := im_base;
  efc_serialize := EfcIsocMapIOConfigCmd_serialize;
  efc_deserialize := EfcIsocMapIOConfigCmd_deserialize }.

(** ** Mixers *)

Inductive eMixerTarget := eMT_PhysicalOutputMix | eMT_PhysicalInputMix | eMT_PlaybackMix | eMT_RecordMix.
Inductive eMixerCommand := eMC_Gain | eMC_Solo | eMC_Mute | eMC_Pan | eMC_Nominal.

Record EfcGenericMixerCmd := mkEfcGenericMixerCmd {
  mx_base : EfcCmd;
  mx_channel : Z;
  mx_value : Z;
  mx_type : eCmdType;
  mx_target : eMixerTarget;
  mx_command : eMixerCommand }.

Definition mixer_command_id (type : eCmdType) (command : eMixerCommand) : Z :=
  match type, command with
  | eCT_Get, eMC_Gain => EFC_CMD_MIXER_GET_GAIN
  | eCT_Get, eMC_Solo => EFC_CMD_MIXER_GET_SOLO
  | eCT_Get, eMC_Mute => EFC_CMD_MIXER_GET_MUTE
  | eCT_Get, eMC_Pan => EFC_CMD_MIXER_GET_PAN
  | eCT_Get, eMC_Nominal => EFC_CMD_MIXER_GET_NOMINAL
  | eCT_Set, eMC_Gain => EFC_CMD_MIXER_SET_GAIN
  | eCT_Set, eMC_Solo => EFC_CMD_MIXER_SET_SOLO
  | eCT_Set, eMC_Mute => EFC_CMD_MIXER_SET_MUTE
  | eCT_Set, eMC_Pan => EFC_CMD_MIXER_SET_PAN
  | eCT_Set, eMC_Nominal => EFC_CMD_MIXER_SET_NOMINAL
  end.

Definition EfcGenericMixerCmd_setType (type : eCmdType) (o : EfcGenericMixerCmd) : bool * EfcGenericMixerCmd :=
  (true, mkEfcGenericMixerCmd (EfcCmd_with_command (mixer_command_id type (mx_command o)) (mx_base o))
           (mx_channel o) (mx_value o) type (mx_target o) (mx_command o)).

Definition EfcGenericMixerCmd_setTarget (target : eMixerTarget) (o : EfcGenericMixerCmd) : bool * EfcGenericMixerCmd :=
  let category :=
    match target with
    | eMT_PhysicalOutputMix => EFC_CAT_PHYSICAL_OUTPUT_MIX
    | eMT_PhysicalInputMix => EFC_CAT_PHYSICAL_INPUT_MIX
    | eMT_PlaybackMix => EFC_CAT_PLAYBACK_MIX
    | eMT_RecordMix => EFC_CAT_RECORD_MIX
    end in
  (true, mkEfcGenericMixerCmd (EfcCmd_with_category category (mx_base o))
           (mx_channel o) (mx_value o) (mx_type o) target (mx_command o)).

Definition EfcGenericMixerCmd_setCommand (command : eMixerCommand) (o : EfcGenericMixerCmd) : bool * EfcGenericMixerCmd :=
  (true, mkEfcGenericMixerCmd (EfcCmd_with_command (mixer_command_id (mx_type o) command) (mx_base o))
           (mx_channel o) (mx_value o) (mx_type o) (mx_target o) command).

Definition EfcGenericMixerCmd_new_channel (target : eMixerTarget) (command : eMixerCommand) (channel : Z) : EfcGenericMixerCmd :=
  snd (EfcGenericMixerCmd_setType eCT_Get (snd (EfcGenericMixerCmd_setCommand command
    (snd (EfcGenericMixerCmd_setTarget target (mkEfcGenericMixerCmd EfcCmd_new_default channel 0 eCT_Get target command)))))).

Definition EfcGenericMixerCmd_new (target : eMixerTarget) (command : eMixerCommand) : EfcGenericMixerCmd :=
  snd (EfcGenericMixerCmd_setType eCT_Get (snd (EfcGenericMixerCmd_setCommand command
    (snd (EfcGenericMixerCmd_setTarget target (mkEfcGenericMixerCmd EfcCmd_new_default (- 1) 0 eCT_Get target command)))))).

Definition EfcGenericMixerCmd_serialize (o : EfcGenericMixerCmd) (seqnum : Z) : writer (bool * EfcGenericMixerCmd * Z) :=
  '(result, base, seqnum) ←
    (match mx_type o with
     | eCT_Get => serialize_operands (EFC_HEADER_LENGTH_QUADLETS + 1) (mx_base o) (write_swapped [u32 (mx_channel o)]) seqnum
     | eCT_Set =>
       serialize_operands (EFC_HEADER_LENGTH_QUADLETS + 2) (mx_base o) (write_swapped [u32 (mx_channel o); mx_value o]) seqnum
     end);
  mret (result, mkEfcGenericMixerCmd base (mx_channel o) (mx_value o) (mx_type o) (mx_target o) (mx_command o), seqnum).

Definition EfcGenericMixerCmd_deserialize (o : EfcGenericMixerCmd) : reader (bool * EfcGenericMixerCmd) :=
  '(result, base) ← EfcCmd_deserialize (mx_base o);
  match mx_type o with
  | eCT_Get =>
    '(result, channel) ← deserialize_and_swap (u32 (mx_channel o)) result;
    '(result, value) ← deserialize_and_swap (mx_value o) result;
    mret (result, mkEfcGenericMixerCmd base (s32 channel) value (mx_type o) (mx_target o) (mx_command o))
  | eCT_Set => mret (result, mkEfcGenericMixerCmd base (mx_channel o) (mx_value o) (mx_type o) (mx_target o) (mx_command o))
  end.

#[export] Instance EfcGenericMixerCmd_EfcCmdClass : EfcCmdClass EfcGenericMixerCmd := {
  efc_base := mx_base;
  efc_serialize := EfcGenericMixerCmd_serialize;
  efc_deserialize := EfcGenericMixerCmd_deserialize }.

(** ** Monitors *)

Inductive eMonitorCommand := eMoC_Gain | eMoC_Solo | eMoC_Mute | eMoC_Pan.

Record EfcGenericMonitorCmd := mkEfcGenericMonitorCmd {
  mo_base : EfcCmd;
  mo_input : Z;
  mo_output : Z;
  mo_value : Z;
  mo_type : eCmdType;
  mo_command : eMonitorCommand }.

Definition EfcGenericMonitorCmd_new (type : eCmdType) (command : eMonitorCommand) : EfcGenericMonitorCmd :=
  let id :=
    match type, command with
    | eCT_Get, eMoC_Gain => EFC_CMD_MIXER_GET_GAIN
    | eCT_Get, eMoC_Solo => EFC_CMD_MIXER_GET_SOLO
    | eCT_Get, eMoC_Mute => EFC_CMD_MIXER_GET_MUTE
    | eCT_Get, eMoC_Pan => EFC_CMD_MIXER_GET_PAN
    | eCT_Set, eMoC_Gain => EFC_CMD_MIXER_SET_GAIN
    | eCT_Set, eMoC_Solo => EFC_CMD_MIXER_SET_SOLO
    | eCT_Set, eMoC_Mute => EFC_CMD_MIXER_SET_MUTE
    | eCT_Set, eMoC_Pan => EFC_CMD_MIXER_SET_PAN
    end in
  mkEfcGenericMonitorCmd (EfcCmd_with_command id (EfcCmd_with_category EFC_CAT_MONITOR_MIX EfcCmd_new_default))
    (- 1) (- 1) 0 type command.

Definition EfcGenericMonitorCmd_serialize (o : EfcGenericMonitorCmd) (seqnum : Z) : writer (bool * EfcGenericMonitorCmd * Z) :=
  '(result, base, seqnum) ←
    (match mo_type o with
     | eCT_Get =>
       serialize_operands (EFC_HEADER_LENGTH_QUADLETS + 2) (mo_base o) (write_swapped [u32 (mo_input o); u32 (mo_output o)]) seqnum
     | eCT_Set =>
       serialize_operands (EFC_HEADER_LENGTH_QUADLETS + 3) (mo_base o)
         (write_swapped [u32 (mo_input o); u32 (mo_output o); mo_value o]) seqnum
     end);
  mret (result, mkEfcGenericMonitorCmd base (mo_input o) (mo_output o) (mo_value o) (mo_type o) (mo_command o), seqnum).

Definition EfcGenericMonitorCmd_deserialize (o : EfcGenericMonitorCmd) : reader (bool * EfcGenericMonitorCmd) :=
  '(result, base) ← EfcCmd_deserialize (mo_base o);
  match mo_type o with
  | eCT_Get =>
    '(result, input) ← deserialize_and_swap (u32 (mo_input o)) result;
    '(result, output) ← deserialize_and_swap (u32 (mo_output o)) result;
    '(result, value) ← deserialize_and_swap (mo_value o) result;
    mret (result, mkEfcGenericMonitorCmd base (s32 input) (s32 output) value (mo_type o) (mo_command o))
  | eCT_Set => mret (result, mkEfcGenericMonitorCmd base (mo_input o) (mo_output o) (mo_value o) (mo_type o) (mo_command o))
  end.

#[export] Instance EfcGenericMonitorCmd_EfcCmdClass : EfcCmdClass EfcGenericMonitorCmd := {
  efc_base := mo_base;
  efc_serialize := EfcGenericMonitorCmd_serialize;
  efc_deserialize := EfcGenericMonitorCmd_deserialize }.
