(* ===== verification/EfcSafety.v ===== *)
(** * EfcSafety: responses to EFC commands

    [BufferDeserialize] tests the position before a quadlet, not its end, so
    that a misaligned quadlet at the end of a response would be read past it.
    EFC messages keep the alignment: this file shows that parsing a response
    never leaves the buffer, whatever the device has put into it. *)
From stdpp Require Import list.
From S2P Require Import Prelude Serialize BusData AvcCommand AvcCommands Memory Efc EfcCommands.

(** the position is in the buffer *)
Definition inside (buf : list Z) (d : BufferDeserialize) : Prop :=
  (de_buffer d = buf /\ Z.of_nat (length buf) = de_length d) /\ de_length d < 2 ^ 32 /\ 0 <= de_curPos d <= de_length d.

Definition quad_aligned (buf : list Z) (d : BufferDeserialize) : Prop :=
  inside buf d /\ de_length d mod 4 = 0 /\ de_curPos d mod 4 = 0.

(** [quad_safe m Q]: from a multiple of four [m] reads inside the buffer and
    ends at a multiple of four with a result in [Q]. *)
Definition quad_safe {A} (m : reader A) (Q : A -> Prop) : Prop :=
  forall buf d, quad_aligned buf d -> exists a d1, run_reader m d = Some (a, d1) /\ quad_aligned buf d1 /\ Q a.

(** [byte_safe n m Q]: [m] reads [n] bytes, or up to the end *)
Definition byte_safe {A} (n : Z) (m : reader A) (Q : A -> Prop) : Prop :=
  forall buf d, inside buf d -> exists a d1, run_reader m d = Some (a, d1) /\ inside buf d1 /\ Q a /\
    de_length d1 = de_length d /\ de_curPos d1 = Z.min (de_length d) (de_curPos d + n).

Lemma quad_safe_ret {A} (a : A) (Q : A -> Prop) : Q a -> quad_safe (mret a) Q.
Proof. intros HQ buf d Hd. by exists a, d. Qed.

Lemma quad_safe_bind {A B} (m : reader A) (f : A -> reader B) P Q :
  quad_safe m P -> (forall a, P a -> quad_safe (f a) Q) -> quad_safe (m ≫= f) Q.
Proof.
  intros Hm Hf buf d Hd. destruct (Hm buf d Hd) as (a & d1 & Hr & Hd1 & Ha). destruct (Hf a Ha buf d1 Hd1) as (b & d2 & Hr2 & Hd2 & Hb).
  exists b, d2. rewrite run_reader_bind, Hr. by cbn.
Qed.

Lemma quad_safe_mono {A} (m : reader A) (P Q : A -> Prop) : quad_safe m P -> (forall a, P a -> Q a) -> quad_safe m Q.
Proof. intros Hm HPQ buf d Hd. destruct (Hm buf d Hd) as (a & d1 & Hr & Hd1 & Ha). exists a, d1. auto. Qed.

Lemma byte_safe_ret {A} (a : A) (Q : A -> Prop) : Q a -> byte_safe 0 (mret a) Q.
Proof. intros HQ buf d Hd. exists a, d. split_and!; [done..|]. destruct Hd as (_ & _ & Hd). lia. Qed.

Lemma byte_safe_bind {A B} n1 n2 (m : reader A) (f : A -> reader B) P Q :
  0 <= n1 -> 0 <= n2 -> byte_safe n1 m P -> (forall a, P a -> byte_safe n2 (f a) Q) -> byte_safe (n1 + n2) (m ≫= f) Q.
Proof.
  intros H1 H2 Hm Hf buf d Hd. destruct (Hm buf d Hd) as (a & d1 & Hr & Hd1 & Ha & Hl1 & Hc1).
  destruct (Hf a Ha buf d1 Hd1) as (b & d2 & Hr2 & Hd2 & Hb & Hl2 & Hc2). exists b, d2. rewrite run_reader_bind, Hr. cbn.
  split_and!; [done..|congruence|]. rewrite Hc2, Hc1, Hl1. lia.
Qed.

(** a block of quadlets that is read byte by byte *)
Lemma byte_quad_safe {A} n (m : reader A) Q : n mod 4 = 0 -> byte_safe n m Q -> quad_safe m Q.
Proof.
  intros Hn Hm buf d (Hd & Hl & Hc). destruct (Hm buf d Hd) as (a & d1 & Hr & Hd1 & Ha & Hl1 & Hc1). exists a, d1.
  split; [done|]. split; [|done]. split; [done|]. rewrite Hl1. split; [done|]. rewrite Hc1.
  destruct (Z.min_spec (de_length d) (de_curPos d + n)) as [[_ ->]|[_ ->]]; [done|]. div_lia.
Qed.

Lemma inside_valid buf d : inside buf d -> BufferDeserialize_isCurPosValid d = (de_curPos d <? de_length d).
Proof.
  intros (_ & Hl & Hc). unfold BufferDeserialize_isCurPosValid. rewrite wrapU_small by width_lia. by rewrite Z.leb_antisym, negb_involutive.
Qed.

Lemma load_inside buf d k : inside buf d -> 0 <= k -> de_curPos d + k < de_length d -> exists v, load (de_buffer d) (de_curPos d + k) = Some v.
Proof. intros ((-> & Hb) & _ & Hc) Hk Hlt. apply load_some. lia. Qed.

Lemma inside_advance n buf d :
  inside buf d -> 0 <= n -> de_curPos d + n <= de_length d ->
  inside buf (BufferDeserialize_advance n d) /\ de_length (BufferDeserialize_advance n d) = de_length d /\
  de_curPos (BufferDeserialize_advance n d) = de_curPos d + n.
Proof.
  intros (Hb & Hl & Hc) Hn Hle. unfold BufferDeserialize_advance, ptr_add, inside. cbn [de_buffer de_curPos de_length].
  rewrite wrapU_small by width_lia. split_and!; solve [apply Hb | done | lia].
Qed.

Lemma read_quadlet_safe {A} (k : option Z -> reader A) Q :
  (forall o, quad_safe (k o) Q) -> quad_safe (r_quadlet k) Q.
Proof.
  intros Hk buf d (Hd & Hl & Hc). cbn [run_reader de_read_quadlet BufferDeserialize_IISDeserialize].
  unfold BufferDeserialize_read_quadlet. rewrite (inside_valid buf) by done. destruct (Z.ltb_spec (de_curPos d) (de_length d)) as [Hlt|].
  - assert (Hle : de_curPos d + 4 <= de_length d) by div_lia.
    assert (exists v, BufferDeserialize_cur d = Some v) as [b0 H0].
    { unfold BufferDeserialize_cur. rewrite <- (Z.add_0_r (de_curPos d)). apply (load_inside buf); [done|lia..]. }
    destruct (load_inside buf d 1 Hd) as [b1 H1]; [lia..|]. destruct (load_inside buf d 2 Hd) as [b2 H2]; [lia..|].
    destruct (load_inside buf d 3 Hd) as [b3 H3]; [lia..|]. rewrite H0, H1, H2, H3. cbn [mbind option_bind].
    destruct (inside_advance 4 buf d Hd) as (Ha & Hal & Hac); [lia..|].
    apply Hk. split; [done|]. rewrite Hal, Hac. split; [done|]. div_lia.
  - cbn [mbind option_bind]. apply Hk. by split.
Qed.

Lemma read_byte_safe {A} (f : option Z -> A) (Q : A -> Prop) : (forall o, Q (f o)) -> byte_safe 1 (r_byte (fun o => r_ret (f o))) Q.
Proof.
  intros HQ buf d Hd. cbn [run_reader de_read_byte BufferDeserialize_IISDeserialize]. unfold BufferDeserialize_read_byte.
  rewrite (inside_valid buf) by done. destruct (Z.ltb_spec (de_curPos d) (de_length d)) as [Hlt|Hge].
  - assert (exists v, BufferDeserialize_cur d = Some v) as [v Hv].
    { unfold BufferDeserialize_cur. rewrite <- (Z.add_0_r (de_curPos d)). apply (load_inside buf); [done|lia..]. }
    rewrite Hv. cbn [mbind option_bind]. destruct (inside_advance 1 buf d Hd) as (Ha & Hal & Hac); [lia..|].
    eexists _, _. split_and!; [done..|]. rewrite Hac. lia.
  - cbn [mbind option_bind]. eexists _, d. split_and!; [done..|]. destruct Hd as (_ & _ & Hc). lia.
Qed.

(** ** The reads of the EFC commands *)

Lemma swap_safe value result : quad_safe (deserialize_and_swap value result) (fun _ => True).
Proof.
  unfold deserialize_and_swap. eapply quad_safe_bind.
  - apply read_quadlet_safe. intros o. by apply (quad_safe_ret _ (fun _ => True)).
  - intros [r v] _. by apply quad_safe_ret.
Qed.

Lemma swap_opt_safe value result :
  is_Some value -> quad_safe (deserialize_and_swap_opt value result) (fun r => is_Some (snd r)).
Proof.
  intros [v ->]. apply read_quadlet_safe. intros [w|]; by apply quad_safe_ret; eexists.
Qed.

Definition assigned (l : list (option Z)) : Prop := Forall is_Some l.

Lemma read_array_from_safe n : forall i a result,
  assigned a -> (i + n <= length a)%nat ->
  quad_safe (read_array_from n i a result) (fun r => assigned (snd r) /\ length (snd r) = length a).
Proof.
  induction n as [|n IH]; intros i a result Ha Hi; cbn [read_array_from]; [by apply quad_safe_ret|].
  destruct (lookup_lt_is_Some_2 a i) as [old Hold]; [lia|]. rewrite Hold.
  eapply quad_safe_bind; [apply swap_opt_safe; exact (Forall_lookup_1 _ _ _ _ Ha Hold)|].
  intros [r v] Hv. eapply quad_safe_mono; [apply IH|].
  - by apply Forall_insert.
  - rewrite length_insert. lia.
  - intros x. by rewrite length_insert.
Qed.

Lemma read_array_safe n a result :
  assigned a -> (Z.to_nat n <= length a)%nat ->
  quad_safe (read_array n a result) (fun r => assigned (snd r) /\ length (snd r) = length a).
Proof. intros Ha Hn. by apply read_array_from_safe. Qed.

Lemma EfcCmd_safe o : quad_safe (EfcCmd_deserialize o) (fun _ => True).
Proof.
  unfold EfcCmd_deserialize. do 6 (eapply quad_safe_bind; [apply swap_safe|intros [? ?] _]). cbv zeta.
  repeat case_match; by apply quad_safe_ret.
Qed.

Lemma deserialize_byte_safe value result : byte_safe 1 (deserialize_byte value result) (fun _ => True).
Proof. by apply read_byte_safe. Qed.

Lemma deserialize_name_safe name : forall result, byte_safe (Z.of_nat (length name)) (deserialize_name name result) (fun r => length (snd r) = length name).
Proof.
  induction name as [|c name IH]; intros result; cbn [deserialize_name]; [by apply byte_safe_ret|].
  replace (Z.of_nat (length (c :: name))) with (1 + (Z.of_nat (length name) + 0)) by (cbn [length]; lia).
  eapply byte_safe_bind; [lia..|apply deserialize_byte_safe|]. intros [r1 c1] _.
  eapply byte_safe_bind; [lia..|apply IH|]. intros [r2 n2] Hn. apply byte_safe_ret. cbn in *. by rewrite Hn.
Qed.

Lemma deserialize_groups_safe groups : forall result,
  byte_safe (2 * Z.of_nat (length groups)) (deserialize_groups groups result) (fun r => length (snd r) = length groups).
Proof.
  induction groups as [|g groups IH]; intros result; cbn [deserialize_groups]; [by apply byte_safe_ret|].
  replace (2 * Z.of_nat (length (g :: groups))) with (1 + (1 + (2 * Z.of_nat (length groups) + 0))) by (cbn [length]; lia).
  do 2 (eapply byte_safe_bind; [lia..|apply deserialize_byte_safe|intros [? ?] _]).
  eapply byte_safe_bind; [lia..|apply IH|]. intros [r2 n2] Hn. apply byte_safe_ret. cbn in *. by rewrite Hn.
Qed.

(** ** The commands

    A constructor leaves some members without a value, and a read that fails
    leaves them alone, but swaps their bytes.  [efc_settle memory] gives these
    members the values that the memory happens to hold.  [efc_sized]: the arrays
    have their size, which the constructors see to; [efc_ready]: besides, every
    such member has a value. *)
Class EfcSafe (E : Type) `{EfcCmdClass E} := {
  efc_sized : E -> Prop;
  efc_ready : E -> Prop;
  efc_settle : (nat -> Z) -> E -> E;
  efc_settle_ready : forall memory o, efc_sized o -> efc_ready (efc_settle memory o);
  efc_settle_id : forall memory o, efc_ready o -> efc_sized o /\ efc_settle memory o = o;
  efc_deserialize_safe : forall o, efc_ready o -> quad_safe (efc_deserialize o) (fun r => efc_ready (snd r)) }.

(** members without a value, in the order of the list *)
Definition settle_list (memory : nat -> Z) (l : list (option Z)) : list (option Z) := imap (fun i v => Some (default (memory i) v)) l.

#[local] Arguments settle_list : simpl never.

Lemma settle_list_assigned memory l : assigned (settle_list memory l) /\ length (settle_list memory l) = length l.
Proof.
  split; [|apply length_imap]. apply Forall_lookup_2. intros i v Hv. unfold settle_list in Hv. rewrite list_lookup_imap in Hv.
  destruct (l !! i); [|done]. injection Hv as <-. by eexists.
Qed.

Lemma settle_list_id memory l : assigned l -> settle_list memory l = l.
Proof.
  intros Hl. unfold settle_list. revert memory. induction Hl as [|v l [x ->] _ IH]; intros memory; [done|]. cbn [imap default]. f_equal.
  exact (IH (fun i => memory (S i))).
Qed.

Ltac safe_steps :=
  repeat first
    [ eapply quad_safe_bind; [apply EfcCmd_safe|intros [? ?] _]
    | eapply quad_safe_bind; [apply swap_safe|intros [? ?] _]
    | by apply quad_safe_ret ].

#[export] Instance EfcFlashEraseCmd_EfcSafe : EfcSafe EfcFlashEraseCmd.
Proof. refine {| efc_sized _ := True; efc_ready _ := True; efc_settle _ o := o |}; [done|done|]. intros o _. unfold efc_deserialize, EfcFlashEraseCmd_EfcCmdClass, EfcFlashEraseCmd_deserialize. safe_steps. Defined.

#[export] Instance EfcFlashWriteCmd_EfcSafe : EfcSafe EfcFlashWriteCmd.
Proof. refine {| efc_sized _ := True; efc_ready _ := True; efc_settle _ o := o |}; [done|done|]. intros o _. unfold efc_deserialize, EfcFlashWriteCmd_EfcCmdClass, EfcFlashWriteCmd_deserialize. safe_steps. Defined.

#[export] Instance EfcFlashLockCmd_EfcSafe : EfcSafe EfcFlashLockCmd.
Proof. refine {| efc_sized _ := True; efc_ready _ := True; efc_settle _ o := o |}; [done|done|]. intros o _. unfold efc_deserialize, EfcFlashLockCmd_EfcCmdClass, EfcFlashLockCmd_deserialize. safe_steps. Defined.

#[export] Instance EfcFlashGetStatusCmd_EfcSafe : EfcSafe EfcFlashGetStatusCmd.
Proof. refine {| efc_sized _ := True; efc_ready _ := True; efc_settle _ o := o |}; [done|done|]. intros o _. unfold efc_deserialize, EfcFlashGetStatusCmd_EfcCmdClass, EfcFlashGetStatusCmd_deserialize. safe_steps. Defined.

#[export] Instance EfcFlashGetSessionBaseCmd_EfcSafe : EfcSafe EfcFlashGetSessionBaseCmd.
Proof. refine {| efc_sized _ := True; efc_ready _ := True; efc_settle _ o := o |}; [done|done|]. intros o _. unfold efc_deserialize, EfcFlashGetSessionBaseCmd_EfcCmdClass, EfcFlashGetSessionBaseCmd_deserialize. safe_steps. Defined.

#[export] Instance EfcGetClockCmd_EfcSafe : EfcSafe EfcGetClockCmd.
Proof. refine {| efc_sized _ := True; efc_ready _ := True; efc_settle _ o := o |}; [done|done|]. intros o _. unfold efc_deserialize, EfcGetClockCmd_EfcCmdClass, EfcGetClockCmd_deserialize. safe_steps. Defined.

#[export] Instance EfcSetClockCmd_EfcSafe : EfcSafe EfcSetClockCmd.
Proof. refine {| efc_sized _ := True; efc_ready _ := True; efc_settle _ o := o |}; [done|done|]. intros o _. unfold efc_deserialize, EfcSetClockCmd_EfcCmdClass, EfcSetClockCmd_deserialize. safe_steps. Defined.

#[export] Instance EfcPhyReconnectCmd_EfcSafe : EfcSafe EfcPhyReconnectCmd.
Proof. refine {| efc_sized _ := True; efc_ready _ := True; efc_settle _ o := o |}; [done|done|]. intros o _. unfold efc_deserialize, EfcPhyReconnectCmd_EfcCmdClass, EfcPhyReconnectCmd_deserialize. safe_steps. Defined.

#[export] Instance EfcGetFlagsCmd_EfcSafe : EfcSafe EfcGetFlagsCmd.
Proof. refine {| efc_sized _ := True; efc_ready _ := True; efc_settle _ o := o |}; [done|done|]. intros o _. unfold efc_deserialize, EfcGetFlagsCmd_EfcCmdClass, EfcGetFlagsCmd_deserialize. safe_steps. Defined.

#[export] Instance EfcChangeFlagsCmd_EfcSafe : EfcSafe EfcChangeFlagsCmd.
Proof. refine {| efc_sized _ := True; efc_ready _ := True; efc_settle _ o := o |}; [done|done|]. intros o _. unfold efc_deserialize, EfcChangeFlagsCmd_EfcCmdClass, EfcChangeFlagsCmd_deserialize. safe_steps. Defined.

#[export] Instance EfcIdentifyCmd_EfcSafe : EfcSafe EfcIdentifyCmd.
Proof. refine {| efc_sized _ := True; efc_ready _ := True; efc_settle _ o := o |}; [done|done|]. intros o _. unfold efc_deserialize, EfcIdentifyCmd_EfcCmdClass, EfcIdentifyCmd_deserialize. safe_steps. Defined.

#[export] Instance EfcGenericIOConfigCmd_EfcSafe : EfcSafe EfcGenericIOConfigCmd.
Proof. refine {| efc_sized _ := True; efc_ready _ := True; efc_settle _ o := o |}; [done|done|]. intros o _. unfold efc_deserialize, EfcGenericIOConfigCmd_EfcCmdClass, EfcGenericIOConfigCmd_deserialize. destruct (io_type o); safe_steps. Defined.

#[export] Instance EfcGenericMixerCmd_EfcSafe : EfcSafe EfcGenericMixerCmd.
Proof. refine {| efc_sized _ := True; efc_ready _ := True; efc_settle _ o := o |}; [done|done|]. intros o _. unfold efc_deserialize, EfcGenericMixerCmd_EfcCmdClass, EfcGenericMixerCmd_deserialize. destruct (mx_type o); safe_steps. Defined.

#[export] Instance EfcGenericMonitorCmd_EfcSafe : EfcSafe EfcGenericMonitorCmd.
Proof. refine {| efc_sized _ := True; efc_ready _ := True; efc_settle _ o := o |}; [done|done|]. intros o _. unfold efc_deserialize, EfcGenericMonitorCmd_EfcCmdClass, EfcGenericMonitorCmd_deserialize. destruct (mo_type o); safe_steps. Defined.

#[export] Instance EfcFlashReadCmd_EfcSafe : EfcSafe EfcFlashReadCmd.
Proof.
  refine {| efc_sized o := Z.of_nat (length (fr_data o)) = EFC_FLASH_SIZE_QUADS;
            efc_ready o := assigned (fr_data o) /\ Z.of_nat (length (fr_data o)) = EFC_FLASH_SIZE_QUADS;
            efc_settle memory o := mkEfcFlashReadCmd (fr_base o) (fr_address o) (fr_nb_quadlets o) (settle_list memory (fr_data o)) |}.
  { intros memory o Hl. cbn. destruct (settle_list_assigned memory (fr_data o)) as [Ha Hn]. by rewrite Hn. }
  { intros memory [] [Ha Hl]. cbn in *. by rewrite settle_list_id. }
  intros o [Ha Hl]. unfold efc_deserialize, EfcFlashReadCmd_EfcCmdClass, EfcFlashReadCmd_deserialize. safe_steps.
  destruct (Z.ltb_spec EFC_FLASH_SIZE_QUADS z0); [by apply quad_safe_ret|].
  eapply quad_safe_bind; [apply read_array_safe; [done|lia]|]. intros [r data] [Hd Hdl]. apply quad_safe_ret. cbn in *. by rewrite Hdl.
Defined.

#[export] Instance EfcIsocMapIOConfigCmd_EfcSafe : EfcSafe EfcIsocMapIOConfigCmd.
Proof.
  refine {| efc_sized o := Z.of_nat (length (im_playmap o)) = EFC_MAX_ISOC_MAP_ENTRIES /\ Z.of_nat (length (im_recmap o)) = EFC_MAX_ISOC_MAP_ENTRIES;
            efc_ready o := (assigned (im_playmap o) /\ Z.of_nat (length (im_playmap o)) = EFC_MAX_ISOC_MAP_ENTRIES) /\
                           (assigned (im_recmap o) /\ Z.of_nat (length (im_recmap o)) = EFC_MAX_ISOC_MAP_ENTRIES);
            efc_settle memory o := mkEfcIsocMapIOConfigCmd (im_base o) (im_samplerate o) (im_flags o) (im_num_playmap_entries o)
              (im_num_phys_out o) (settle_list memory (im_playmap o)) (im_num_recmap_entries o) (im_num_phys_in o)
              (settle_list (fun i => memory (length (im_playmap o) + i)%nat) (im_recmap o)) (im_type o) (im_reg o) |}.
  { intros memory o [Hl1 Hl2]. cbn. destruct (settle_list_assigned memory (im_playmap o)) as [Ha1 ->].
    destruct (settle_list_assigned (fun i => memory (length (im_playmap o) + i)%nat) (im_recmap o)) as [Ha2 ->]. done. }
  { intros memory [] [[Ha1 Hl1] [Ha2 Hl2]]. cbn in *. by rewrite !settle_list_id. }
  intros o [[Ha Hal] [Hb Hbl]]. unfold efc_deserialize, EfcIsocMapIOConfigCmd_EfcCmdClass, EfcIsocMapIOConfigCmd_deserialize. safe_steps.
  destruct (im_type o); [|by apply quad_safe_ret]. safe_steps.
  eapply quad_safe_bind; [apply read_array_safe; [done|lia]|]. intros [r1 d1] [Hd1 Hdl1]. safe_steps.
  eapply quad_safe_bind; [apply read_array_safe; [done|lia]|]. intros [r2 d2] [Hd2 Hdl2]. apply quad_safe_ret.
  cbn in *. rewrite Hdl1, Hdl2. tauto.
Defined.

(** The members that the constructor leaves out, once they have been read. *)
Definition polled_members (o : EfcPolledValuesCmd) : list (option Z) :=
  [pv_status o; pv_detect_spdif o; pv_detect_adat o; pv_reserved3 o; pv_reserved4 o; pv_reserved5 o; pv_reserved6 o].

#[export] Instance EfcPolledValuesCmd_EfcSafe : EfcSafe EfcPolledValuesCmd.
Proof.
  refine {| efc_sized o := Z.of_nat (length (pv_meters o)) = POLLED_MAX_NB_METERS;
            efc_ready o := assigned (polled_members o) /\
                           (assigned (pv_meters o) /\ Z.of_nat (length (pv_meters o)) = POLLED_MAX_NB_METERS);
            efc_settle memory o := let set n v := Some (default (memory n) v) in
              mkEfcPolledValuesCmd (pv_base o) (set 0%nat (pv_status o)) (set 1%nat (pv_detect_spdif o)) (set 2%nat (pv_detect_adat o))
                (set 3%nat (pv_reserved3 o)) (set 4%nat (pv_reserved4 o)) (pv_nb_output_meters o) (pv_nb_input_meters o)
                (set 5%nat (pv_reserved5 o)) (set 6%nat (pv_reserved6 o)) (settle_list (fun i => memory (7 + i)%nat) (pv_meters o)) |}.
  { intros memory o Hl. destruct (settle_list_assigned (fun i => memory (7 + i)%nat) (pv_meters o)) as [Ha Hn].
    split; [|cbn [pv_meters]; by rewrite Hn]. by repeat (constructor; [by eexists|]). }
  { intros memory [] [Hm [Ha Hl]]. unfold polled_members, assigned in Hm. cbn in *. rewrite !Forall_cons in Hm.
    destruct Hm as ([? ->] & [? ->] & [? ->] & [? ->] & [? ->] & [? ->] & [? ->] & _). cbn. by rewrite settle_list_id. }
  intros o [Hm [Ha Hl]]. unfold efc_deserialize, EfcPolledValuesCmd_EfcCmdClass, EfcPolledValuesCmd_deserialize.
  eapply quad_safe_bind; [apply EfcCmd_safe|]. intros [ok base] _. destruct ok; [|by apply quad_safe_ret].
  unfold polled_members, assigned in Hm. rewrite !Forall_cons in Hm. destruct Hm as (H1 & H2 & H3 & H4 & H5 & H6 & H7 & _).
  cbn [negb]. do 5 (eapply quad_safe_bind; [by apply swap_opt_safe|intros [? ?] ?]).
  do 2 (eapply quad_safe_bind; [apply swap_safe|intros [? ?] _]).
  do 2 (eapply quad_safe_bind; [by apply swap_opt_safe|intros [? ?] ?]). cbn [snd] in *.
  assert (Hp : assigned [o0; o1; o2; o3; o4; o5; o6]) by (unfold assigned; rewrite !Forall_cons; by split_and!).
  destruct b7; cbn [negb]; [|by apply quad_safe_ret].
  destruct (Z.ltb_spec POLLED_MAX_NB_METERS (polled_nb_meters z z0)); [by apply quad_safe_ret|].
  eapply quad_safe_bind; [apply read_array_safe; [done|lia]|]. intros [r d] [Hd Hdl]. apply quad_safe_ret. cbn in *. rewrite Hdl. by split.
Defined.

(** ** Responses *)

(** [from k m Q]: [m] is safe from byte [k] of a response of whole quadlets
    that has the eight bytes before the EFC message. *)
Definition from {A} (k : Z) (m : reader A) (Q : A -> Prop) : Prop :=
  forall buf d, inside buf d -> de_length d mod 4 = 0 -> 8 <= de_length d -> de_curPos d = k ->
    exists a d1, run_reader m d = Some (a, d1) /\ quad_aligned buf d1 /\ Q a.

Lemma from_byte {A} k (f : option Z -> reader A) Q :
  0 <= k < 8 -> (forall v, from (k + 1) (f (Some v)) Q) -> from k (r_byte f) Q.
Proof.
  intros Hk Hf buf d Hd Hm Hl Hc. cbn [run_reader de_read_byte BufferDeserialize_IISDeserialize]. unfold BufferDeserialize_read_byte.
  rewrite (inside_valid buf), (proj2 (Z.ltb_lt _ _)) by (done || lia).
  destruct (load_inside buf d 0 Hd) as [v Hv]; [lia..|]. rewrite Z.add_0_r in Hv. unfold BufferDeserialize_cur. rewrite Hv.
  cbn [mbind option_bind]. destruct (inside_advance 1 buf d Hd) as (Ha & Hal & Hac); [lia..|]. apply Hf; [done|congruence|lia|lia].
Qed.

Lemma from_quad {A} (m : reader A) Q : quad_safe m Q -> from 8 m Q.
Proof. intros Hm buf d Hd Hl _ Hc. apply Hm. split; [done|]. split; [done|]. by rewrite Hc. Qed.

Section response.
Context {E : Type} `{!EfcCmdClass E} `{!EfcSafe E}.

(** the command behind the pointer is ready *)
Definition carries_ready (o : EfcOverAVCCmd E) : Prop := exists cmd, ea_cmd o = Some cmd /\ efc_ready cmd.

Lemma EfcOverAVCCmd_from o : carries_ready o -> from 0 (EfcOverAVCCmd_deserialize o) (fun r => carries_ready (snd r)).
Proof.
  intros (cmd & Hc & Hr). unfold EfcOverAVCCmd_deserialize. rewrite Hc.
  do 8 (lazymatch goal with |- from _ ?m _ => let m' := eval hnf in m in change m with m' end;
        apply from_byte; [lia|intros ?v]).
  cbn -[efc_deserialize]. apply from_quad.
  eapply (quad_safe_bind (efc_deserialize cmd)); [by apply efc_deserialize_safe|].
  intros [r c] Hcr. apply quad_safe_ret. by exists c.
Qed.

(** the object behind the pointer has arrays of the right size; what its
    members hold that have no value yet *)
Definition carries_sized (o : EfcOverAVCCmd E) : Prop := exists cmd, ea_cmd o = Some cmd /\ efc_sized cmd.

Definition settle (memory : nat -> Z) (o : EfcOverAVCCmd E) : EfcOverAVCCmd E :=
  mkEfcOverAVCCmd (ea_vendor o) (ea_dummy_1 o) (ea_dummy_2 o) (efc_settle memory <$> ea_cmd o) (ea_seqnum o).

(** A response without the bytes of the AV/C header: the three bytes of the
    company are not all there, and are used all the same. *)
Lemma short_response (o : EfcOverAVCCmd E) cmd buf :
  ea_cmd o = Some cmd -> Z.of_nat (length buf) mod 4 = 0 -> Z.of_nat (length buf) < 8 ->
  run_reader (cmd_deserialize o) (BufferDeserialize_create buf (Z.of_nat (length buf))) = None.
Proof.
  intros Hc Hm Hl. assert (Hn : length buf = 0%nat \/ length buf = 4%nat) by div_lia. unfold cmd_deserialize. cbn.
  unfold EfcOverAVCCmd_deserialize. rewrite Hc. destruct Hn as [Hn|Hn].
  - by destruct buf.
  - destruct buf as [|b0 [|b1 [|b2 [|b3 [|]]]]]; done.
Qed.

(** C4: A device cannot make the parser of an EFC command leave the response,
    or the command's arrays.  For every response of whole quadlets, and for
    every object as its constructor or an earlier response has left it, with any
    values in the members that were never assigned: if the response has the
    eight bytes before the EFC message, parsing ends, has read inside of the
    response only, and leaves the object in such a state again - whatever
    lengths, counts and return values the response claims.  A shorter one ends
    in the use of a byte that was never read (the company identifier).  This
    holds for every command with the interface [EfcSafe], that is, for all of
    them but the hardware information, whose local variable for the GUID is used
    uninitialised when the response ends before it. *)
Theorem efc_response_inside memory (o : EfcOverAVCCmd E) buf :
  carries_sized o -> Z.of_nat (length buf) mod 4 = 0 -> Z.of_nat (length buf) < 2 ^ 32 ->
  let parse := run_reader (cmd_deserialize (settle memory o)) (BufferDeserialize_create buf (Z.of_nat (length buf))) in
  if 8 <=? Z.of_nat (length buf) then
    exists ok o1 d, parse = Some ((ok, o1), d) /\ carries_sized o1 /\ settle memory o1 = o1 /\ 0 <= de_curPos d <= Z.of_nat (length buf)
  else parse = None.
Proof.
  intros (cmd & Hc & Hs) Hm Hl parse.
  assert (Ho : ea_cmd (settle memory o) = Some (efc_settle memory cmd)) by (cbn; by rewrite Hc).
  destruct (Z.leb_spec 8 (Z.of_nat (length buf))) as [H8|H8]; [|by eapply short_response].
  assert (Hr : carries_ready (settle memory o)) by (exists (efc_settle memory cmd); split; [done|by apply efc_settle_ready]).
  set (d0 := BufferDeserialize_create buf (Z.of_nat (length buf))).
  assert (Hd0 : inside buf d0) by (split; [done|cbn; lia]).
  destruct (EfcOverAVCCmd_from _ Hr buf d0 Hd0 Hm ltac:(cbn; lia) eq_refl) as ([ok o1] & d & Hrun & (((_ & Hb) & _ & Hd) & _) & cmd1 & Hc1 & Hr1).
  destruct (efc_settle_id memory cmd1 Hr1) as [Hs1 Hid1]. exists ok, o1, d. split; [exact Hrun|]. split; [by exists cmd1|]. split; [|by rewrite Hb].
  destruct o1. unfold settle. cbn in *. rewrite Hc1. cbn. by rewrite Hid1.
Qed.
End response.

(** ** Witness *)

(** A new command that reads the flash memory; the response claims a return
    value of 0 and 64 quadlets but ends after the first of them. *)
Definition flash_question : EfcOverAVCCmd EfcFlashReadCmd :=
  mkEfcOverAVCCmd VendorDependentCmd_new 0 0 (Some EfcFlashReadCmd_new) 0.

Definition short_flash_answer : list Z :=
  [9; 0; 0; 0x12; 0x14; 0; 0; 0] ++ concat (quadlet_bytes <$> (CondSwapToBus32 <$> [72; 1; 0; EFC_CAT_FLASH; EFC_CMD_FLASH_READ; 0; 0; 64; 7])).

Lemma efc_response_inside_witness :
  let memory i := Z.of_nat i in
  exists ok o1 d, run_reader (cmd_deserialize (settle memory flash_question))
      (BufferDeserialize_create short_flash_answer (Z.of_nat (length short_flash_answer))) = Some ((ok, o1), d) /\
    carries_sized o1 /\ settle memory o1 = o1 /\ 0 <= de_curPos d <= Z.of_nat (length short_flash_answer).
Proof.
  intros memory. apply (efc_response_inside memory flash_question short_flash_answer).
  - exists EfcFlashReadCmd_new. by split.
  - reflexivity.
  - reflexivity.
Defined.
