(* ===== verification/EfcDevice.v ===== *)
(** * EfcDevice: fireworks/fireworks_device.cpp

    The FireWorks device on top of the EFC commands: one EFC transaction, the
    clock source and the sampling frequency with their fallbacks, and the flash
    memory - reading, writing, erasing with verification, waiting.  The bus and
    the AV/C fallback for the sampling frequency are arguments ([EfcBus]). *)
From stdpp Require Import list.
From S2P Require Import Prelude StateMonad Serialize BusData AvcCommand AvcCommands Memory Efc EfcCommands.

(** What the device calls: [Ieee1394Service::transactionBlock], [usleep] and
    [GenericAVC::Device::getSamplingFrequency]. *)
Class EfcBus (W : Type) := {
  efc_transaction : Z -> list Z -> W -> option (list Z) * W;
  usleep : Z -> W -> W;
  plug_sampling_frequency : W -> Z * W }.

(** [m_current_clock] has no initialiser; [m_seqnum] is [EfcCmd::m_seqnum]. *)
Record EfcDevice (W : Type) := mkEfcDevice {
  m_nodeId_ : Z;
  m_HwInfo : EfcHardwareInfoCmd;
  m_Polled : EfcPolledValuesCmd;
  m_current_clock : option Z;
  m_efc_discovery_done : bool;
  m_seqnum : Z;
  m_world : W }.
Arguments mkEfcDevice {W} _ _ _ _ _ _ _.
Arguments m_nodeId_ {W} _.
Arguments m_HwInfo {W} _.
Arguments m_Polled {W} _.
Arguments m_current_clock {W} _.
Arguments m_efc_discovery_done {W} _.
Arguments m_seqnum {W} _.
Arguments m_world {W} _.

Definition FIREWORKS_MIN_FIRMWARE_VERSION : Z := 0x04080000.
Definition ECHO_FLASH_ERASE_TIMEOUT_MILLISECS : Z := 2000.
Definition PROGRAMBLOCK_SIZE_BYTES : Z := 8192.
Definition MAINBLOCK_SIZE_BYTES : Z := 32768.
Definition MAINBLOCKS_BASE_OFFSET_BYTES : Z := 0x10000.

(** the command that carries [c] *)
Definition efc_carrier {E} (nodeId seqnum : Z) (c : E) : EfcOverAVCCmd E :=
  let cmd : EfcOverAVCCmd E := EfcOverAVCCmd_new seqnum in
  let base := AVCCommand_setSubunitId 0xff (AVCCommand_setSubunitType eST_Unit
                (AVCCommand_setNodeId nodeId (AVCCommand_setCommandType eCT_Control (vd_base (ea_vendor cmd))))) in
  mkEfcOverAVCCmd (mkVendorDependentCmd base (vd_companyId (ea_vendor cmd))) (ea_dummy_1 cmd) (ea_dummy_2 cmd)
    (Some c) (ea_seqnum cmd).

Section device.
Context {W : Type} `{!EfcBus W}.

Abbreviation Dev := (EfcDevice W).
Abbreviation M := (StM Dev).

Definition dev_with_bus (seqnum : Z) (w : W) (d : Dev) : Dev :=
  mkEfcDevice (m_nodeId_ d) (m_HwInfo d) (m_Polled d) (m_current_clock d) (m_efc_discovery_done d) seqnum w.
Definition dev_with_HwInfo (h : EfcHardwareInfoCmd) (d : Dev) : Dev :=
  mkEfcDevice (m_nodeId_ d) h (m_Polled d) (m_current_clock d) (m_efc_discovery_done d) (m_seqnum d) (m_world d).
Definition dev_with_Polled (p : EfcPolledValuesCmd) (d : Dev) : Dev :=
  mkEfcDevice (m_nodeId_ d) (m_HwInfo d) p (m_current_clock d) (m_efc_discovery_done d) (m_seqnum d) (m_world d).
Definition dev_with_clock (c : Z) (d : Dev) : Dev :=
  mkEfcDevice (m_nodeId_ d) (m_HwInfo d) (m_Polled d) (Some c) (m_efc_discovery_done d) (m_seqnum d) (m_world d).
Definition dev_with_discovery (b : bool) (d : Dev) : Dev :=
  mkEfcDevice (m_nodeId_ d) (m_HwInfo d) (m_Polled d) (m_current_clock d) b (m_seqnum d) (m_world d).

(** a call of the environment *)
Definition dev_world {A} (f : W -> A * W) : M A :=
  st_run (fun d => let '(a, w) := f (m_world d) in (a, dev_with_bus (m_seqnum d) w d)).

(** ** Transactions *)

Section transaction.
Context {E : Type} `{!EfcCmdClass E}.

(** the result, and the command object as the transaction leaves it *)
Definition doEfcOverAVC (c : E) : M (bool * E) := fun d =>
  '((fired, cmd), w) ← fire_on efc_transaction (efc_carrier (m_nodeId_ d) (m_seqnum d) c) (m_world d);
  c1 ← ea_cmd cmd;
  let d1 := dev_with_bus (ea_seqnum cmd) w d in
  let retval := eh_retval (efc_hdr (efc_base c1)) in
  if negb fired then Some ((false, c1), d1)
  else if negb (AVCCommand_getResponse (cmd_base cmd) =? eR_Accepted) then Some ((false, c1), d1)
  else if negb (retval =? eERV_Ok) && negb (retval =? eERV_FlashBusy) then Some ((false, c1), d1)
  else Some ((true, c1), d1).
End transaction.

Definition discoverUsingEFC : M bool :=
  st_mod (dev_with_discovery false);;
  h ← st_gets m_HwInfo;
  '(ok, h1) ← doEfcOverAVC h;
  st_mod (dev_with_HwInfo h1);;
  if negb ok then mret false
  else
    arm_version ← st_option (hi_arm_version h1);
    if arm_version <? FIREWORKS_MIN_FIRMWARE_VERSION then mret false
    else st_mod (dev_with_clock (- 1));; st_mod (dev_with_discovery true);; mret true.

Definition updatePolledValues : M bool :=
  p ← st_gets m_Polled;
  '(ok, p1) ← doEfcOverAVC p;
  st_mod (dev_with_Polled p1);;
  mret ok.

(** ** The clock *)

Definition isClockValid (id : Z) : M bool :=
  if id =? EFC_CMD_HW_CLOCK_INTERNAL then mret true
  else
    ok ← updatePolledValues;
    if negb ok then mret false
    else
      p ← st_gets m_Polled;
      status ← st_option (pv_status p);
      mret (EFC_CMD_HW_CHECK_FLAG status id).

Definition gc_with (clock samplerate : Z) (c : EfcGetClockCmd) : EfcGetClockCmd := mkEfcGetClockCmd (gc_base c) clock samplerate (gc_index c).

Definition set_clock_command (clock samplerate index : Z) : EfcSetClockCmd :=
  mkEfcSetClockCmd (sc_base EfcSetClockCmd_new) clock samplerate index.

(** the sampling frequency of a device that answers nonsense *)
Definition getClock_samplerate (c : EfcGetClockCmd) : M (bool * EfcGetClockCmd) :=
  if 192000 <? gc_samplerate c then
    sampling_rate ← dev_world plug_sampling_frequency;
    if sampling_rate =? 0 then mret (false, c) else mret (true, gc_with (gc_clock c) (u32 sampling_rate) c)
  else mret (true, c).

Definition getClock_source (c : EfcGetClockCmd) : M (bool * EfcGetClockCmd) :=
  if EFC_CMD_HW_CLOCK_COUNT <? gc_clock c then
    current ← st_gets m_current_clock;
    current ← st_option current;
    ok ←
      (if current <? 0 then
         '(ok, sc) ← doEfcOverAVC (set_clock_command EFC_CMD_HW_CLOCK_INTERNAL (gc_samplerate c) 0);
         if negb ok then mret false else st_mod (dev_with_clock (s32 (sc_clock sc)));; mret true
       else mret true);
    if negb ok then mret (false, c)
    else
      current ← st_gets m_current_clock;
      current ← st_option current;
      mret (true, gc_with (u32 current) (gc_samplerate c) c)
  else mret (true, c).

Definition getClock (gccmd : EfcGetClockCmd) : M (bool * EfcGetClockCmd) :=
  '(ok, c) ← doEfcOverAVC gccmd;
  if negb ok then mret (false, c)
  else
    '(ok, c) ← getClock_samplerate c;
    if negb ok then mret (false, c) else getClock_source c.

Definition getClockSrc : M Z :=
  '(ok, c) ← getClock EfcGetClockCmd_new;
  mret (if ok : bool then gc_clock c else EFC_CMD_HW_CLOCK_UNSPECIFIED).

(** an [uint32_t] returned as an [int] *)
Definition getSamplingFrequency : M Z :=
  '(ok, c) ← getClock EfcGetClockCmd_new;
  mret (if ok : bool then s32 (gc_samplerate c) else 0).

Definition setClock (sccmd : EfcSetClockCmd) : M bool :=
  '(ok, sc) ← doEfcOverAVC sccmd;
  if negb ok then mret false else st_mod (dev_with_clock (s32 (sc_clock sc)));; mret true.

Definition setClockSrc (id : Z) : M bool :=
  '(ok, c) ← getClock EfcGetClockCmd_new;
  if negb ok then mret ok else setClock (set_clock_command id (gc_samplerate c) 0).

Definition setSamplingFrequency (samplerate : Z) : M bool :=
  '(ok, c) ← getClock EfcGetClockCmd_new;
  if negb ok then mret ok else setClock (set_clock_command (gc_clock c) (u32 samplerate) 0).

Definition setActiveClockSource (id : Z) : M bool :=
  ok ← isClockValid id;
  if negb ok then mret false else setClockSrc id.

(** ** The flash memory *)

Definition lockFlash (lock : bool) : M bool :=
  h ← st_gets m_HwInfo;
  dsp ← st_option (hasDSP h);
  if dsp : bool then mret true
  else
    '(ok, _) ← doEfcOverAVC (mkEfcFlashLockCmd (fl_base EfcFlashLockCmd_new) lock);
    mret ok.

Definition bogus_range (start len : Z) : bool := (len <=? 0) || (u32 (0xFFFFFFFF - u32 (len * 4)) <? start).
Definition unaligned (addr : Z) : bool := negb (Z.land addr 0x03 =? 0).

(** [for(i=0; i<n; i++) { cmd.m_data[i] = *target_buffer; target_buffer++; }] *)
Definition fill_data (n pos : Z) (buffer : list Z) (data : list (option Z)) : option (list (option Z)) :=
  for_loop n (fun i data =>
    v ← load buffer (pos + i);
    if decide (0 <= i < Z.of_nat (length data)) then Some (<[Z.to_nat i := Some v]> data) else None) data.

Fixpoint write_blocks (fuel : nat) (start_addr stop_addr pos : Z) (buffer : list Z) (cmd : EfcFlashWriteCmd) : M bool :=
  match fuel with
  | O => st_fail
  | S fuel' =>
    if start_addr <? stop_addr then
      let quads := u32 (stop_addr - start_addr) / 4 in
      let quads_to_write := if EFC_FLASH_SIZE_QUADS <? quads then EFC_FLASH_SIZE_QUADS else quads in
      data ← st_option (fill_data quads_to_write pos buffer (fw_data cmd));
      '(ok, cmd1) ← doEfcOverAVC (mkEfcFlashWriteCmd (fw_base cmd) start_addr quads_to_write data);
      if negb ok then mret false
      else write_blocks fuel' (u32 (start_addr + EFC_FLASH_SIZE_BYTES)) stop_addr (pos + quads_to_write) buffer cmd1
    else mret true
  end.

Definition writeFlash (fuel : nat) (start len : Z) (buffer : list Z) : M bool :=
  if bogus_range start len then mret false
  else if unaligned start then mret false
  else write_blocks fuel start (u32 (start + u32 (len * 4))) 0 buffer EfcFlashWriteCmd_new.

(** the array that [readFlash] fills; a store behind its end is undefined *)
Abbreviation array := (list (option Z)).

(** [for(i=0; i<n; i++) { *target_buffer = cmd.m_data[i]; target_buffer++; }] *)
Definition copy_data (n pos : Z) (data : array) (buffer : array) : option array :=
  for_loop n (fun i buffer =>
    v ← (if decide (0 <= i) then data !! Z.to_nat i else None);
    if decide (0 <= pos + i < Z.of_nat (length buffer)) then Some (<[Z.to_nat (pos + i) := v]> buffer) else None) buffer.

(** The inner loop with [n] for [ntries]; the result is whether all commands
    succeeded, the [ntries] that is left, the command, the position in the
    buffer and the buffer. *)
Fixpoint read_tries (n : nat) (start_addr quads_to_read quadlets_read pos : Z) (buffer : array) (cmd : EfcFlashReadCmd)
  : M (bool * Z * EfcFlashReadCmd * Z * array) :=
  let new_to_read := u32 (quads_to_read - quadlets_read) in
  '(ok, cmd1) ← doEfcOverAVC (mkEfcFlashReadCmd (fr_base cmd) (u32 (start_addr + u32 (quadlets_read * 4))) new_to_read (fr_data cmd));
  if negb ok then mret (false, Z.of_nat n, cmd1, pos, buffer)
  else
    let quadlets_read1 := u32 (quadlets_read + fr_nb_quadlets cmd1) in
    buffer1 ← st_option (copy_data (fr_nb_quadlets cmd1) pos (fr_data cmd1) buffer);
    let pos1 := pos + fr_nb_quadlets cmd1 in
    if quadlets_read1 <? quads_to_read then
      match n with
      | O => mret (true, - 1, cmd1, pos1, buffer1)
      | S n' => read_tries n' start_addr quads_to_read quadlets_read1 pos1 buffer1 cmd1
      end
    else mret (true, Z.of_nat n, cmd1, pos1, buffer1).

Fixpoint read_blocks (fuel : nat) (start_addr stop_addr pos : Z) (buffer : array) (cmd : EfcFlashReadCmd) : M (bool * array) :=
  match fuel with
  | O => st_fail
  | S fuel' =>
    if start_addr <? stop_addr then
      let quads := u32 (stop_addr - start_addr) / 4 in
      let quads_to_read := if EFC_FLASH_SIZE_QUADS <? quads then EFC_FLASH_SIZE_QUADS else quads in
      '(ok, ntries, cmd1, pos1, buffer1) ← read_tries (Z.to_nat 10000) start_addr quads_to_read 0 pos buffer cmd;
      if negb ok then mret (false, buffer1)
      else if ntries =? 0 then mret (false, buffer1)
      else read_blocks fuel' (u32 (start_addr + EFC_FLASH_SIZE_BYTES)) stop_addr pos1 buffer1 cmd1
    else mret (true, buffer)
  end.

Definition readFlash (fuel : nat) (start len : Z) (buffer : array) : M (bool * array) :=
  if bogus_range start len then mret (false, buffer)
  else if unaligned start then mret (false, buffer)
  else read_blocks fuel start (u32 (start + u32 (len * 4))) 0 buffer EfcFlashReadCmd_new.

Definition eraseFlash (addr : Z) : M bool :=
  if unaligned addr then mret false
  else
    '(ok, cmd) ← doEfcOverAVC (mkEfcFlashEraseCmd (fe_base EfcFlashEraseCmd_new) addr);
    if negb ok then mret (eh_retval (efc_hdr (fe_base cmd)) =? eERV_FlashBusy) else mret true.

(** The loop of [waitForFlash] with [n] for [wait_cycles]: its last value and [ready]. *)
Fixpoint wait_tries (n : nat) (cmd : EfcFlashGetStatusCmd) : M (option (Z * bool)) :=
  '(ok, cmd1) ← doEfcOverAVC cmd;
  if negb ok then mret None
  else
    let ready := if eh_retval (efc_hdr (fg_base cmd1)) =? eERV_FlashBusy then false else fg_ready cmd1 in
    dev_world (fun w => ((), usleep 10000 w));;
    if negb ready then
      match n with
      | O => mret (Some (- 1, ready))
      | S n' => wait_tries n' cmd1
      end
    else mret (Some (Z.of_nat n, ready)).

Definition waitForFlash (msecs : Z) : M bool :=
  let wait_cycles := u32 (msecs * 1000) / 10000 in
  r ← wait_tries (Z.to_nat wait_cycles) EfcFlashGetStatusCmd_new;
  match r with
  | None => mret false
  | Some (wait_cycles, ready) => if wait_cycles =? 0 then mret false else mret ready
  end.

Definition blocksize_bytes (addr : Z) : Z :=
  if addr <? MAINBLOCKS_BASE_OFFSET_BYTES then PROGRAMBLOCK_SIZE_BYTES else MAINBLOCK_SIZE_BYTES.

(** [for (i < n) if (0xFFFFFFFF != verify[i]) { success = false; break; }];
    an element that was not read is used uninitialised *)
Fixpoint all_erased (l : array) : option bool :=
  match l with
  | [] => Some true
  | None :: _ => None
  | Some v :: l' => if 0xFFFFFFFF =? v then all_erased l' else Some false
  end.

Definition max_nb_tries : Z := 10.

(** One block: [None] is a return of [false] from the function, otherwise
    [success] after the block. *)
Definition erase_block (fuel : nat) (addr blocksize_quads full : Z) (success : bool) : M (option bool) :=
  ok ← eraseFlash addr;
  if negb ok then mret (Some false)
  else
    ready ← waitForFlash ECHO_FLASH_ERASE_TIMEOUT_MILLISECS;
    if negb ready then mret None
    else
      '(ok, verify) ← readFlash fuel addr blocksize_quads (replicate (Z.to_nat full) None);
      if negb ok then mret None
      else
        erased ← st_option (all_erased (take (Z.to_nat blocksize_quads) verify));
        mret (Some (if erased : bool then success else false)).

(** [fuel] bounds the blocks and the tries, [rfuel] the reads of one block *)
Fixpoint erase_loop (fuel rfuel : nat) (start_address quads_left : Z) (success : bool) (nb_tries : Z) : M bool :=
  match fuel with
  | O => st_fail
  | S fuel' =>
    let bytes := blocksize_bytes start_address in
    let addr := Z.land start_address (Z.lnot (bytes - 1)) in
    let full := bytes / 4 in
    let blocksize_quads := if quads_left <? full then quads_left else full in
    r ← erase_block rfuel addr blocksize_quads full success;
    match r with
    | None => mret false
    | Some success =>
      let '(addr, quads_left, nb_tries) :=
        if success : bool then (u32 (addr + bytes), u32 (quads_left - blocksize_quads), 0) else (addr, quads_left, u32 (nb_tries + 1)) in
      if max_nb_tries <? nb_tries then mret false
      else if 0 <? quads_left then erase_loop fuel' rfuel addr quads_left success nb_tries
      else mret true
    end
  end.

Definition eraseFlashBlocks (fuel rfuel : nat) (start_address nb_quads : Z) : M bool :=
  erase_loop fuel rfuel start_address nb_quads true 0.

Definition getSessionBase : M Z :=
  '(ok, cmd) ← doEfcOverAVC EfcFlashGetSessionBaseCmd_new;
  mret (if ok : bool then fs_address cmd else 0).
End device.
