(* ===== verification/EfcFlash.v ===== *)
(** * EfcFlash: the flash memory of a FireWorks device

    What one EFC transaction returns when the device answers it, the interface
    [FlashDevice] of a device with a flash memory, and what [readFlash],
    [writeFlash] and [eraseFlashBlocks] of EfcDevice do to it. *)
From stdpp Require Import list.
From S2P Require Import Prelude StateMonad Serialize BusData AvcCommand AvcCommands Memory Efc EfcCommands EfcDevice.

(** ** Frames *)

(** the FCP frame of an EFC message with [n] in its length field *)
Definition avc_frame (ctype n : Z) (h : efc_header) (ops : list Z) : list Z :=
  [ctype; 0xff; AVC1394_CMD_VENDOR_DEPENDENT; 0; 0; 0; 0; 0] ++ be_quads (n :: header_quads h ++ ops).

Lemma avc_frame_length ctype n h ops : length (avc_frame ctype n h ops) = (4 * (8 + length ops))%nat.
Proof. unfold avc_frame. rewrite length_app, be_quads_length. cbn [length header_quads app]. lia. Qed.

Lemma quadlet_padded_whole (bs : list Z) k : length bs = (4 * k)%nat -> quadlet_padded bs = bs.
Proof.
  intros Hk. unfold quadlet_padded. rewrite Hk.
  replace ((4 * k + 3) / 4)%nat with k by (pose proof (Nat.div_unique (4 * k + 3) 4 k 3); lia).
  by rewrite Nat.sub_diag, app_nil_r.
Qed.

(** the carrier with another command and sequence number *)
Definition carrier_as {E} (o : EfcOverAVCCmd E) (b : AVCCommand) (c : E) (seqnum : Z) : EfcOverAVCCmd E :=
  mkEfcOverAVCCmd (mkVendorDependentCmd b (Some 0)) 0 0 (Some c) seqnum.

Lemma carrier_header {E} nodeId seqnum (c : E) :
  exists b, efc_carrier nodeId seqnum c = mkEfcOverAVCCmd (mkVendorDependentCmd b (Some 0)) 0 0 (Some c) seqnum /\
    m_ctype b = eCT_Control /\ m_subunit b = 0xff /\ m_opcode b = AVC1394_CMD_VENDOR_DEPENDENT /\ m_nodeId b = nodeId.
Proof. by eexists. Qed.

Section carrier.
Context {E : Type} `{!EfcCmdClass E}.
Implicit Types c : E.

Lemma emit_vendor b :
  ctype_named b -> emit (VendorDependentCmd_serialize (mkVendorDependentCmd b (Some 0))) = Some (true, AVCCommand_header b ++ [0; 0; 0]).
Proof. intros Hb. by apply emit_header. Qed.

Lemma emit_carrier b c c1 seqnum seqnum1 ok bs :
  ctype_named b -> emit (efc_serialize c seqnum) = Some ((ok, c1, seqnum1), bs) ->
  emit (cmd_serialize (mkEfcOverAVCCmd (mkVendorDependentCmd b (Some 0)) 0 0 (Some c) seqnum))
  = Some ((ok, mkEfcOverAVCCmd (mkVendorDependentCmd b (Some 0)) 0 0 (Some c1) seqnum1),
          AVCCommand_header b ++ [0; 0; 0; 0; 0] ++ bs).
Proof.
  intros Hb He. unfold cmd_serialize, EfcOverAVCCmd_AVCCommandClass, EfcOverAVCCmd_serialize. cbn [ea_cmd ea_vendor ea_dummy_1 ea_dummy_2 ea_seqnum].
  eapply emit_bind_eq; [by apply emit_vendor| |].
  - eapply emit_bind_eq; [reflexivity| |reflexivity]. eapply emit_bind_eq; [reflexivity| |reflexivity].
    eapply emit_bind_eq; [exact He|reflexivity|reflexivity].
  - rewrite app_nil_r. reflexivity.
Qed.

Lemma reads_carrier b c c1 seqnum ctype ok bs :
  reads (efc_deserialize c) bs (ok, c1) ->
  reads (cmd_deserialize (mkEfcOverAVCCmd (mkVendorDependentCmd b (Some 0)) 0 0 (Some c) seqnum))
    ([ctype; 0xff; AVC1394_CMD_VENDOR_DEPENDENT; 0; 0; 0; 0; 0] ++ bs)
    (ok, mkEfcOverAVCCmd (mkVendorDependentCmd (AVCCommand_with_header ctype 0xff AVC1394_CMD_VENDOR_DEPENDENT b) (Some 0)) 0 0 (Some c1) seqnum).
Proof.
  intros Hr. unfold cmd_deserialize, EfcOverAVCCmd_AVCCommandClass, EfcOverAVCCmd_deserialize. cbn [ea_cmd ea_vendor ea_dummy_1 ea_dummy_2 ea_seqnum app].
  do 8 (lazymatch goal with |- reads ?m _ _ => let m' := eval hnf in m in change m with m' end; apply reads_r_byte).
  cbn -[efc_deserialize]. rewrite <- (app_nil_r bs). eapply (reads_bind (efc_deserialize c)); [exact Hr|]. apply reads_mret.
Qed.
End carrier.

Section answered.
Context {W : Type} `{!EfcBus W} {E : Type} `{!EfcCmdClass E}.

(** the return values that are no failure *)
Definition retval_ok (retval : Z) : bool := (retval =? eERV_Ok) || (retval =? eERV_FlashBusy).

(** A device that answers the message of [c] with one that [c1] parses to
    [c2]; operands that the command does not read are ignored. The debug output serialises the command once more. *)
Lemma doEfcOverAVC_answered (c c1 c2 c3 : E) (d : EfcDevice W) w1 n h ops n' h' ops' rest ok ok3 seq1 seq3 bs3 :
  emit (efc_serialize c (m_seqnum d)) = Some ((true, c1, seq1), be_quads (n :: header_quads h ++ ops)) ->
  (length ops <= 100)%nat -> (length (ops' ++ rest) <= 100)%nat ->
  efc_transaction (m_nodeId_ d) (avc_frame eCT_Control n h ops) (m_world d) = (Some (avc_frame eR_Accepted n' h' (ops' ++ rest)), w1) ->
  reads (efc_deserialize c1) (be_quads (n' :: header_quads h' ++ ops')) (ok, c2) ->
  emit (efc_serialize c2 seq1) = Some ((ok3, c3, seq3), bs3) ->
  doEfcOverAVC c d = Some ((ok && retval_ok (eh_retval (efc_hdr (efc_base c3))), c3), dev_with_bus seq3 w1 d).
Proof.
  intros He Hops Hops' Ht Hr He3. unfold doEfcOverAVC.
  destruct (carrier_header (m_nodeId_ d) (m_seqnum d) c) as (b & -> & Hct & Hsu & Hop & Hn).
  assert (Hec := emit_carrier b c c1 (m_seqnum d) seq1 true _ ltac:(by unfold ctype_named; rewrite Hct) He).
  pose proof (avc_frame_length eCT_Control n h ops) as Hfl. pose proof (avc_frame_length eR_Accepted n' h' (ops' ++ rest)) as Hfl'.
  assert (Happ : avc_frame eR_Accepted n' h' (ops' ++ rest) = avc_frame eR_Accepted n' h' ops' ++ be_quads rest)
    by (unfold avc_frame; by rewrite (assoc_L (++) (header_quads h')), app_comm_cons, be_quads_app, (assoc_L (++))).
  rewrite Happ in Ht, Hfl'.
  unfold AVCCommand_header in Hec. rewrite Hct, Hsu, Hop in Hec. change (_ ++ _ ++ be_quads _) with (avc_frame eCT_Control n h ops) in Hec.
  rewrite (fire_on_serialized efc_transaction _ _ _ (m_world d) Hec) by lia. rewrite (quadlet_padded_whole _ _ Hfl).
  set (c2' := framed _ _). change (m_nodeId (cmd_base c2')) with (m_nodeId b). rewrite Hn, Ht.
  rewrite (fire_response_reads c2' (mkEfcOverAVCCmd (mkVendorDependentCmd (AVCCommand_with_header eR_Accepted 0xff AVC1394_CMD_VENDOR_DEPENDENT
      (AVCCommand_with_response eR_Accepted (cmd_base c2'))) (Some 0)) 0 0 (Some c2) seq1) eR_Accepted (avc_frame eR_Accepted n' h' ops') (be_quads rest) ok).
  - 
    rewrite (emit_carrier _ c2 c3 seq1 seq3 ok3 bs3); [|by eexists|exact He3]. cbn [mbind option_bind ea_cmd].
    destruct ok; cbn [negb andb]; [|done].
    change (AVCCommand_getResponse _ =? eR_Accepted) with true. cbn [negb]. unfold retval_ok.
    by destruct (_ =? eERV_Ok), (_ =? eERV_FlashBusy).
  - done.
  - done.
  - rewrite Hfl'. lia.
  - exact (reads_carrier _ c1 c2 seq1 eR_Accepted ok _ Hr).
Qed.
End answered.

(** ** Devices that answer *)

(** the base of a command of this category and command, with valid numbers *)
Definition base_ok (cat cmd : Z) (b : EfcCmd) : Prop :=
  efc_category_id b = cat /\ efc_command_id b = cmd /\ header_u32 (efc_hdr b) /\ is_u32 cat /\ is_u32 cmd.

Lemma base_ok_new cat cmd : is_u32 cat -> is_u32 cmd -> base_ok cat cmd (EfcCmd_new cat cmd).
Proof. intros Hc Hm. split_and!; try done. unfold header_u32, header_quads. cbn. by rewrite !Forall_cons. Qed.

Lemma base_ok_sent cat cmd b n seqnum :
  base_ok cat cmd b -> is_u32 seqnum ->
  header_u32 (sent_header b seqnum) /\ eh_category (sent_header b seqnum) = cat /\ eh_command (sent_header b seqnum) = cmd /\
  base_ok cat cmd (sent_base b n seqnum).
Proof.
  intros (<- & <- & Hh & Hc & Hm) Hs. unfold header_u32, header_quads in *. rewrite !Forall_cons in Hh. destruct Hh as (Hv & _ & _ & _ & Hr & _).
  assert (H : header_u32 (sent_header b seqnum)) by (unfold header_u32, header_quads, sent_header; cbn; rewrite !Forall_cons; by split_and!).
  split_and!; [done..|]. by split_and!.
Qed.

Lemma base_ok_parsed cat cmd b n h : base_ok cat cmd b -> header_u32 h -> base_ok cat cmd (parsed_base b n h).
Proof. intros (H1 & H2 & _ & H3 & H4) Hh. by split_and!. Qed.

Section target.
Context {W : Type} `{!EfcBus W}.

(** [answers node n cat cmd ops w Q]: the node answers the message of this
    command with these operands, and [Q] holds of the return value, the
    operands of the answer and the world afterwards. *)
Definition answers (node n cat cmd : Z) (ops : list Z) (w : W) (Q : Z -> list Z -> W -> Prop) : Prop :=
  forall h, header_u32 h -> eh_category h = cat -> eh_command h = cmd ->
    exists n' h' ops' w1,
      efc_transaction node (avc_frame eCT_Control n h ops) w = (Some (avc_frame eR_Accepted n' h' ops'), w1) /\
      is_u32 n' /\ header_u32 h' /\ eh_version h' <= 1 /\ eh_category h' = cat /\ eh_command h' = cmd /\
      Forall is_u32 ops' /\ (length ops' <= 100)%nat /\ Q (eh_retval h') ops' w1.

Section exchange.
Context {E : Type} `{!EfcCmdClass E}.

(** [takes c cat cmd n ops c1]: how [c] is sent with every sequence number *)
Definition takes (c : E) (cat cmd n : Z) (ops : list Z) (c1 : Z -> E) : Prop :=
  forall seqnum, is_u32 seqnum -> exists h,
    emit (efc_serialize c seqnum) = Some ((true, c1 seqnum, u32 (seqnum + 1)), be_quads (n :: header_quads h ++ ops)) /\
    header_u32 h /\ eh_category h = cat /\ eh_command h = cmd.

Lemma exchange (c : E) (d : EfcDevice W) n cat cmd ops c1 (Q : Z -> list Z -> W -> Prop) (R : Z -> list Z -> E -> Prop) :
  takes c cat cmd n ops c1 -> (length ops <= 100)%nat -> is_u32 (m_seqnum d) ->
  answers (m_nodeId_ d) n cat cmd ops (m_world d) Q ->
  (forall n' h' ops' w1, is_u32 n' -> header_u32 h' -> eh_version h' <= 1 -> eh_category h' = cat -> eh_command h' = cmd ->
     Forall is_u32 ops' -> Q (eh_retval h') ops' w1 ->
     exists pre rest c2, ops' = pre ++ rest /\ reads (efc_deserialize (c1 (m_seqnum d))) (be_quads (n' :: header_quads h' ++ pre)) (true, c2) /\
       forall seqnum, is_u32 seqnum -> exists ok c3 seqnum1 bs, emit (efc_serialize c2 seqnum) = Some ((ok, c3, seqnum1), bs) /\
         is_u32 seqnum1 /\ eh_retval (efc_hdr (efc_base c3)) = eh_retval h' /\ R (eh_retval h') ops' c3) ->
  exists retval ops' w1 c3 seqnum, doEfcOverAVC c d = Some ((retval_ok retval, c3), dev_with_bus seqnum w1 d) /\
    is_u32 seqnum /\ Q retval ops' w1 /\ R retval ops' c3.
Proof.
  intros Hc Hl Hs Ha Hp. destruct (Hc _ Hs) as (h & He & Hh & Hcat & Hcmd).
  destruct (Ha h Hh Hcat Hcmd) as (n' & h' & ops' & w1 & Ht & Hn' & Hh' & Hv & Hc' & Hm' & Hops' & Hl' & HQ).
  destruct (Hp n' h' ops' w1 Hn' Hh' Hv Hc' Hm' Hops' HQ) as (pre & rest & c2 & -> & Hr & Hd).
  destruct (Hd (u32 (m_seqnum d + 1)) (wrapU_uint 32 _ ltac:(lia))) as (ok & c3 & seq1 & bs & He3 & Hs1 & Hrv & HR).
  exists (eh_retval h'), (pre ++ rest), w1, c3, seq1.
  split; [|done]. rewrite (doEfcOverAVC_answered c _ c2 c3 d w1 n h ops n' h' pre rest true ok _ seq1 bs He Hl Hl' Ht Hr He3).
  by rewrite Hrv.
Qed.
End exchange.
End target.

(** *** How the flash commands are sent and parsed *)

Lemma header_accepted_ok cat cmd b h :
  base_ok cat cmd b -> eh_version h <= 1 -> eh_category h = cat -> eh_command h = cmd -> header_accepted b h.
Proof. intros (H1 & H2 & _) ? ? ?. split_and!; [done|congruence..]. Qed.

Lemma takes_operands cat cmd b n ops m (seqnum : Z) :
  base_ok cat cmd b -> is_u32 n -> is_u32 seqnum -> emit m = Some (true, be_quads ops) ->
  emit (serialize_operands n b m seqnum)
  = Some ((true, sent_base b n seqnum, u32 (seqnum + 1)), be_quads (n :: header_quads (sent_header b seqnum) ++ ops)) /\
  header_u32 (sent_header b seqnum) /\ eh_category (sent_header b seqnum) = cat /\ eh_command (sent_header b seqnum) = cmd.
Proof.
  intros Hb Hn Hs Hm. destruct (base_ok_sent cat cmd b n seqnum Hb Hs) as (Hh & Hc & Hcm & _).
  split; [by apply emit_serialize_operands|done].
Qed.

Lemma takes_header cat cmd b n (seqnum : Z) :
  base_ok cat cmd b -> is_u32 n -> is_u32 seqnum ->
  emit (EfcCmd_serialize (EfcCmd_with_length n b) seqnum)
  = Some ((true, sent_base b n seqnum, u32 (seqnum + 1)), be_quads (n :: header_quads (sent_header b seqnum))) /\
  header_u32 (sent_header b seqnum) /\ eh_category (sent_header b seqnum) = cat /\ eh_command (sent_header b seqnum) = cmd.
Proof.
  intros Hb Hn Hs. destruct (base_ok_sent cat cmd b n seqnum Hb Hs) as (Hh & Hc & Hcm & _).
  split; [by apply (emit_EfcCmd_serialize (EfcCmd_with_length n b))|done].
Qed.

Lemma emit_finish {A B} (m : writer A) (f : A -> B) a bs : emit m = Some (a, bs) -> emit (x ← m; mret (f x)) = Some (f a, bs).
Proof. intros Hm. rewrite emit_bind, Hm. cbn. by rewrite app_nil_r. Qed.

Lemma reads_header_prefix {B} cat cmd b n h l (f : bool * EfcCmd -> reader B) a :
  base_ok cat cmd b -> is_u32 n -> header_u32 h -> eh_version h <= 1 -> eh_category h = cat -> eh_command h = cmd ->
  reads (f (true, parsed_base b n h)) (be_quads l) a ->
  reads (EfcCmd_deserialize b ≫= f) (be_quads (n :: header_quads h ++ l)) a.
Proof.
  intros Hb Hn Hh Hv Hc Hm Hf. rewrite app_comm_cons, be_quads_app.
  apply reads_efc_header; [done..| |done]. by eapply header_accepted_ok.
Qed.

(** a list of valid quadlets that is written out *)
Ltac all_u32 := rewrite ?Forall_cons, ?Forall_nil; split_and!; done.

(** what [EfcFlashReadCmd] has become after a transaction *)
Definition read_answered (a : Z) (vs : list Z) (c : EfcFlashReadCmd) : Prop :=
  base_ok EFC_CAT_FLASH EFC_CMD_FLASH_READ (fr_base c) /\ fr_address c = a /\ fr_nb_quadlets c = Z.of_nat (length vs) /\
  Z.of_nat (length (fr_data c)) = EFC_FLASH_SIZE_QUADS /\ take (length vs) (fr_data c) = Some <$> vs.

Definition read_ready (c : EfcFlashReadCmd) : Prop :=
  base_ok EFC_CAT_FLASH EFC_CMD_FLASH_READ (fr_base c) /\ Z.of_nat (length (fr_data c)) = EFC_FLASH_SIZE_QUADS.

Lemma read_takes b a n data :
  base_ok EFC_CAT_FLASH EFC_CMD_FLASH_READ b -> is_u32 a -> is_u32 n ->
  takes (mkEfcFlashReadCmd b a n data) EFC_CAT_FLASH EFC_CMD_FLASH_READ 8 [a; n]
    (fun seqnum => mkEfcFlashReadCmd (sent_base b 8 seqnum) a n data).
Proof.
  intros Hb Ha Hn seqnum Hs.
  destruct (takes_operands _ _ b 8 [a; n] (write_swapped [a; n]) seqnum Hb) as (He & Hh); [done|done|by apply emit_write_swapped; all_u32|].
  exists (sent_header b seqnum). split; [|done]. eapply emit_bind_eq; [exact He|reflexivity|by rewrite app_nil_r].
Qed.

Section commands.
Context {W : Type} `{!EfcBus W}.
Implicit Types d : EfcDevice W.

Lemma exchange_read d c a n (P : list Z -> W -> Prop) :
  read_ready c -> is_u32 a -> is_u32 n -> is_u32 (m_seqnum d) ->
  answers (m_nodeId_ d) 8 EFC_CAT_FLASH EFC_CMD_FLASH_READ [a; n] (m_world d)
    (fun retval ops w1 => retval = eERV_Ok /\ exists vs, Z.of_nat (length vs) <= EFC_FLASH_SIZE_QUADS /\
       ops = a :: Z.of_nat (length vs) :: vs /\ P vs w1) ->
  exists vs w1 c1 seqnum, doEfcOverAVC (mkEfcFlashReadCmd (fr_base c) a n (fr_data c)) d = Some ((true, c1), dev_with_bus seqnum w1 d) /\
    is_u32 seqnum /\ read_answered a vs c1 /\ P vs w1.
Proof.
  intros [Hb Hl] Ha Hn Hs Hans.
  destruct (exchange (mkEfcFlashReadCmd (fr_base c) a n (fr_data c)) d 8 _ _ [a; n]
    (fun seqnum => mkEfcFlashReadCmd (sent_base (fr_base c) 8 seqnum) a n (fr_data c)) _
    (fun _ ops c3 => exists vs, ops = a :: Z.of_nat (length vs) :: vs /\ read_answered a vs c3)
    ltac:(by apply read_takes) ltac:(cbn; lia) Hs Hans) as (rv & ops & w1 & c3 & seqnum & Hdo & Hsq & (-> & vs & Hvl & -> & HP) & (vs' & Hvs & Hc3)).
  - intros n' h' ops' w1 Hn' Hh' Hv Hc Hm Hops (_ & vs & Hvl & -> & _).
    rewrite !Forall_cons in Hops. destruct Hops as (_ & Hk & Hvs).
    destruct (base_ok_sent _ _ (fr_base c) 8 (m_seqnum d) Hb Hs) as (_ & _ & _ & Hb1).
    set (b2 := parsed_base (sent_base (fr_base c) 8 (m_seqnum d)) n' h').
    assert (Hb2 : base_ok EFC_CAT_FLASH EFC_CMD_FLASH_READ b2) by by apply base_ok_parsed.
    set (data2 := (Some <$> vs) ++ drop (length vs) (fr_data c)).
    exists (a :: Z.of_nat (length vs) :: vs), [], (mkEfcFlashReadCmd b2 a (Z.of_nat (length vs)) data2).
    rewrite app_nil_r. split; [done|]. split.
    { eapply reads_header_prefix; [done..|]. rewrite !be_quads_cons.
      apply reads_swap; [done|]. apply reads_swap; [done|]. destruct (Z.ltb_spec EFC_FLASH_SIZE_QUADS (Z.of_nat (length vs))); [lia|].
      rewrite <- (app_nil_r (be_quads vs)). apply reads_array; [done|cbn [fr_data]; lia|]. apply reads_mret. }
    intros seq1 Hseq1. destruct (read_takes b2 a (Z.of_nat (length vs)) data2 Hb2 Ha Hk seq1 Hseq1) as (h3 & He3 & _).
    eexists true, _, _, _. split; [exact He3|]. split; [by apply wrapU_uint|]. split; [done|]. exists vs. split; [done|].
    split_and!; [by apply base_ok_sent|done|done| |].
    + cbn [fr_data]. unfold data2. rewrite length_app, length_fmap, length_drop. lia.
    + cbn [fr_data]. unfold data2. by rewrite take_app_length' by by rewrite length_fmap.
  - exists vs, w1, c3, seqnum. injection Hvs as _ Hvs. subst vs'. exact (conj Hdo (conj Hsq (conj Hc3 HP))).
Qed.

(** The commands whose response has no operands that are read. *)
Lemma exchange_header {E X} `{!EfcCmdClass E} (mk : EfcCmd -> X -> E) (P : Z -> X -> Prop) cat cmd n ops b ready d (Q : Z -> list Z -> W -> Prop) :
  (forall b ready, base_ok cat cmd b -> takes (mk b ready) cat cmd n ops (fun seqnum => mk (sent_base b n seqnum) ready)) ->
  (forall b ready seqnum n' h', base_ok cat cmd b -> is_u32 n' -> header_u32 h' -> eh_version h' <= 1 -> eh_category h' = cat -> eh_command h' = cmd ->
     exists ready', reads (efc_deserialize (mk (sent_base b n seqnum) ready)) (be_quads (n' :: header_quads h'))
       (true, mk (parsed_base (sent_base b n seqnum) n' h') ready') /\ P (eh_retval h') ready') ->
  (forall b ready, efc_base (mk b ready) = b) ->
  base_ok cat cmd b -> (length ops <= 100)%nat -> is_u32 (m_seqnum d) ->
  answers (m_nodeId_ d) n cat cmd ops (m_world d) Q ->
  exists retval ops' w1 b1 ready1 seqnum, doEfcOverAVC (mk b ready) d = Some ((retval_ok retval, mk b1 ready1), dev_with_bus seqnum w1 d) /\
    is_u32 seqnum /\ Q retval ops' w1 /\ base_ok cat cmd b1 /\ eh_retval (efc_hdr b1) = retval /\ P retval ready1.
Proof.
  intros Ht Hp Hbase Hb Hl Hs Hans.
  destruct (exchange (mk b ready) d n cat cmd ops _ _ (fun retval _ c3 => exists b1 ready1, c3 = mk b1 ready1 /\ base_ok cat cmd b1 /\
    eh_retval (efc_hdr b1) = retval /\ P retval ready1) (Ht b ready Hb) Hl Hs Hans) as (rv & ops' & w1 & c3 & seqnum & Hdo & Hsq & HQ & (b1 & ready1 & -> & Hb1 & Hrv & HPr)).
  - intros n' h' ops' w1 Hn' Hh' Hv Hc Hm _ _. destruct (Hp b ready (m_seqnum d) n' h' Hb Hn' Hh' Hv Hc Hm) as (ready' & Hr & HPr).
    eexists [], ops', _. split; [done|]. rewrite app_nil_r. split; [exact Hr|].
    assert (Hb2 : base_ok cat cmd (parsed_base (sent_base b n (m_seqnum d)) n' h')) by (apply base_ok_parsed; [by apply base_ok_sent|done]).
    intros seq1 Hs1. destruct (Ht _ ready' Hb2 seq1 Hs1) as (h3 & He3 & _). eexists true, _, _, _. split; [exact He3|].
    split; [by apply wrapU_uint|]. rewrite Hbase. split; [done|]. eexists _, _. split; [done|]. split_and!; [by apply base_ok_sent|done|done].
  - exists rv, ops', w1, b1, ready1, seqnum. by split_and!.
Qed.

(** [exchange_header] for the commands of the flash *)
Lemma header_parse {B} cat cmd b n seqnum n' h' (f : bool * EfcCmd -> reader B) a :
  base_ok cat cmd b -> is_u32 n' -> header_u32 h' -> eh_version h' <= 1 -> eh_category h' = cat -> eh_command h' = cmd ->
  reads (f (true, parsed_base (sent_base b n seqnum) n' h')) [] a ->
  reads (EfcCmd_deserialize (sent_base b n seqnum) ≫= f) (be_quads (n' :: header_quads h')) a.
Proof.
  intros (H1 & H2 & _) Hn Hh Hv Hc Hm Hf. rewrite <- (app_nil_r (be_quads _)).
  apply reads_efc_header; [done..| |done]. split_and!; [done|by rewrite Hc, <- H1|by rewrite Hm, <- H2].
Qed.

Lemma exchange_erase d a (Q : Z -> W -> Prop) :
  is_u32 a -> is_u32 (m_seqnum d) ->
  answers (m_nodeId_ d) 7 EFC_CAT_FLASH EFC_CMD_FLASH_ERASE [a] (m_world d) (fun retval _ w1 => Q retval w1) ->
  exists retval w1 c1 seqnum, doEfcOverAVC (mkEfcFlashEraseCmd (fe_base EfcFlashEraseCmd_new) a) d = Some ((retval_ok retval, c1), dev_with_bus seqnum w1 d) /\
    is_u32 seqnum /\ Q retval w1.
Proof.
  intros Ha Hs Hans.
  destruct (exchange_header (fun b (_ : ()) => mkEfcFlashEraseCmd b a) (fun _ _ => True) EFC_CAT_FLASH EFC_CMD_FLASH_ERASE 7 [a]
    (fe_base EfcFlashEraseCmd_new) () d (fun rv _ w1 => Q rv w1)) as (rv & ops & w1 & b1 & r1 & seqnum & Hdo & Hsq & HQ & _).
  - intros b _ Hb seqnum Hsq.
    destruct (takes_operands _ _ b 7 [a] (write_swapped [a]) seqnum Hb) as (He & Hh); [done|done|by apply emit_write_swapped; all_u32|].
    exists (sent_header b seqnum). split; [|done]. eapply emit_bind_eq; [exact He|reflexivity|by rewrite app_nil_r].
  - intros b _ seqnum n' h' Hb Hn' Hh' Hv Hc Hm. exists (). split; [|done]. eapply header_parse; [done..|]. apply reads_mret.
  - done.
  - by apply base_ok_new.
  - cbn; lia.
  - done.
  - exact Hans.
  - eexists rv, w1, _, seqnum. exact (conj Hdo (conj Hsq HQ)).
Qed.

(** the array of a write command holds [vs] at its start *)
Definition write_holds (vs : list Z) (data : list (option Z)) : Prop := take (length vs) data = Some <$> vs.

Lemma emit_write_operands a vs data :
  is_u32 a -> is_u32 (Z.of_nat (length vs)) -> Forall is_u32 vs -> write_holds vs data ->
  emit (r1 ← write_swapped [a; Z.of_nat (length vs)]; r2 ← write_array (take (Z.to_nat (Z.of_nat (length vs))) data); mret (r1 && r2))
  = Some (true, be_quads (a :: Z.of_nat (length vs) :: vs)).
Proof.
  intros Ha Hn Hvs Hd. rewrite Nat2Z.id, Hd.
  eapply emit_bind_eq; [apply emit_write_swapped; all_u32| |].
  - eapply emit_bind_eq; [by apply emit_write_array|reflexivity|reflexivity].
  - by rewrite app_nil_r, <- be_quads_app.
Qed.

Lemma exchange_write d b a vs data (Q : Z -> W -> Prop) :
  base_ok EFC_CAT_FLASH EFC_CMD_FLASH_WRITE b -> is_u32 a -> Z.of_nat (length vs) <= EFC_FLASH_SIZE_QUADS -> Forall is_u32 vs ->
  write_holds vs data -> is_u32 (m_seqnum d) ->
  answers (m_nodeId_ d) (8 + Z.of_nat (length vs)) EFC_CAT_FLASH EFC_CMD_FLASH_WRITE (a :: Z.of_nat (length vs) :: vs) (m_world d)
    (fun retval _ w1 => Q retval w1) ->
  exists retval w1 b1 seqnum, doEfcOverAVC (mkEfcFlashWriteCmd b a (Z.of_nat (length vs)) data) d
      = Some ((retval_ok retval, mkEfcFlashWriteCmd b1 a (Z.of_nat (length vs)) data), dev_with_bus seqnum w1 d) /\
    is_u32 seqnum /\ Q retval w1 /\ base_ok EFC_CAT_FLASH EFC_CMD_FLASH_WRITE b1.
Proof.
  intros Hb Ha Hl Hvs Hd Hs Hans.
  assert (Hk : is_u32 (Z.of_nat (length vs))) by (split; [lia|]; unfold EFC_FLASH_SIZE_QUADS, EFC_FLASH_SIZE_BYTES in Hl; change (256 / 4) with 64 in Hl; lia).
  destruct (exchange_header (fun b (_ : ()) => mkEfcFlashWriteCmd b a (Z.of_nat (length vs)) data) (fun _ _ => True)
    EFC_CAT_FLASH EFC_CMD_FLASH_WRITE (8 + Z.of_nat (length vs)) (a :: Z.of_nat (length vs) :: vs)
    b () d (fun rv _ w1 => Q rv w1)) as (rv & ops & w1 & b1 & r1 & seqnum & Hdo & Hsq & HQ & Hb1 & _).
  - intros b' _ Hb' seqnum Hsq.
    destruct (takes_operands _ _ b' (8 + Z.of_nat (length vs)) _ _ seqnum Hb' ltac:(unfold EFC_FLASH_SIZE_QUADS, EFC_FLASH_SIZE_BYTES in Hl; change (256 / 4) with 64 in Hl; width_lia) Hsq
      (emit_write_operands a vs data Ha Hk Hvs Hd)) as (He & Hh).
    exists (sent_header b' seqnum). split; [|done].
    unfold efc_serialize, EfcFlashWriteCmd_EfcCmdClass, EfcFlashWriteCmd_serialize. cbn [fw_nb_quadlets fw_base fw_address fw_data].
    destruct (Z.ltb_spec EFC_FLASH_SIZE_QUADS (Z.of_nat (length vs))); [lia|].
    eapply emit_bind_eq; [exact He|reflexivity|by rewrite app_nil_r].
  - intros b' _ seqnum n' h' Hb' Hn' Hh' Hv Hc Hm. exists (). split; [|done]. eapply header_parse; [done..|]. apply reads_mret.
  - done.
  - done.
  - cbn. unfold EFC_FLASH_SIZE_QUADS, EFC_FLASH_SIZE_BYTES in Hl; change (256 / 4) with 64 in Hl. lia.
  - done.
  - exact Hans.
  - eexists rv, w1, b1, seqnum. exact (conj Hdo (conj Hsq (conj HQ Hb1))).
Qed.

Lemma exchange_lock d (lock : bool) (Q : Z -> W -> Prop) :
  is_u32 (m_seqnum d) ->
  answers (m_nodeId_ d) 7 EFC_CAT_FLASH EFC_CMD_FLASH_LOCK [if lock then 1 else 0] (m_world d) (fun retval _ w1 => Q retval w1) ->
  exists retval w1 c1 seqnum, doEfcOverAVC (mkEfcFlashLockCmd (fl_base EfcFlashLockCmd_new) lock) d = Some ((retval_ok retval, c1), dev_with_bus seqnum w1 d) /\
    is_u32 seqnum /\ Q retval w1.
Proof.
  intros Hs Hans.
  destruct (exchange_header (fun b (_ : ()) => mkEfcFlashLockCmd b lock) (fun _ _ => True) EFC_CAT_FLASH EFC_CMD_FLASH_LOCK 7 [if lock then 1 else 0]
    (fl_base EfcFlashLockCmd_new) () d (fun rv _ w1 => Q rv w1)) as (rv & ops & w1 & b1 & r1 & seqnum & Hdo & Hsq & HQ & _).
  - intros b _ Hb seqnum Hsq.
    destruct (takes_operands _ _ b 7 [if lock then 1 else 0] (write_swapped [if lock then 1 else 0]) seqnum Hb) as (He & Hh);
      [done|done|apply emit_write_swapped; by destruct lock; all_u32|].
    exists (sent_header b seqnum). split; [|done]. eapply emit_bind_eq; [exact He|reflexivity|by rewrite app_nil_r].
  - intros b _ seqnum n' h' Hb Hn' Hh' Hv Hc Hm. exists (). split; [|done]. eapply header_parse; [done..|]. apply reads_mret.
  - done.
  - by apply base_ok_new.
  - cbn; lia.
  - done.
  - exact Hans.
  - eexists rv, w1, _, seqnum. exact (conj Hdo (conj Hsq HQ)).
Qed.

Lemma exchange_status d b ready (Q : Z -> W -> Prop) :
  base_ok EFC_CAT_FLASH EFC_CMD_FLASH_GET_STATUS b -> is_u32 (m_seqnum d) ->
  answers (m_nodeId_ d) 6 EFC_CAT_FLASH EFC_CMD_FLASH_GET_STATUS [] (m_world d) (fun retval _ w1 => Q retval w1) ->
  exists retval w1 b1 seqnum, doEfcOverAVC (mkEfcFlashGetStatusCmd b ready) d
      = Some ((retval_ok retval, mkEfcFlashGetStatusCmd b1 (negb (retval =? eERV_FlashBusy))), dev_with_bus seqnum w1 d) /\
    is_u32 seqnum /\ Q retval w1 /\ base_ok EFC_CAT_FLASH EFC_CMD_FLASH_GET_STATUS b1 /\ eh_retval (efc_hdr b1) = retval.
Proof.
  intros Hb Hs Hans.
  destruct (exchange_header mkEfcFlashGetStatusCmd (fun retval r => r = negb (retval =? eERV_FlashBusy)) EFC_CAT_FLASH EFC_CMD_FLASH_GET_STATUS 6 []
    b ready d (fun rv _ w1 => Q rv w1)) as (rv & ops & w1 & b1 & r1 & seqnum & Hdo & Hsq & HQ & Hb1 & Hrv & ->).
  - intros b' r' Hb' seqnum Hsq. destruct (takes_header _ _ b' 6 seqnum Hb') as (He & Hh); [done|done|].
    exists (sent_header b' seqnum). split; [|done]. eapply emit_bind_eq; [exact He|reflexivity|by rewrite !app_nil_r].
  - intros b' r' seqnum n' h' Hb' Hn' Hh' Hv Hc Hm. eexists. split; [|reflexivity]. eapply header_parse; [done..|]. apply reads_mret.
  - done.
  - done.
  - cbn; lia.
  - done.
  - exact Hans.
  - eexists rv, w1, b1, seqnum. exact (conj Hdo (conj Hsq (conj HQ (conj Hb1 Hrv)))).
Qed.

Lemma session_base_takes b a :
  base_ok EFC_CAT_FLASH EFC_CMD_FLASH_GET_SESSION_BASE b ->
  takes (mkEfcFlashGetSessionBaseCmd b a) EFC_CAT_FLASH EFC_CMD_FLASH_GET_SESSION_BASE 6 []
    (fun seqnum => mkEfcFlashGetSessionBaseCmd (sent_base b 6 seqnum) a).
Proof.
  intros Hb seqnum Hs. destruct (takes_header _ _ b 6 seqnum Hb) as (He & Hh); [done|done|].
  exists (sent_header b seqnum). split; [|done]. eapply emit_bind_eq; [exact He|reflexivity|by rewrite !app_nil_r].
Qed.

Lemma getSessionBase_answered d a (P : W -> Prop) :
  is_u32 (m_seqnum d) ->
  answers (m_nodeId_ d) 6 EFC_CAT_FLASH EFC_CMD_FLASH_GET_SESSION_BASE [] (m_world d)
    (fun retval ops w1 => retval = eERV_Ok /\ ops = [a] /\ P w1) ->
  exists w1 seqnum, getSessionBase d = Some (a, dev_with_bus seqnum w1 d) /\ is_u32 seqnum /\ P w1.
Proof.
  intros Hs Hans. set (c := EfcFlashGetSessionBaseCmd_new).
  assert (Hb : base_ok EFC_CAT_FLASH EFC_CMD_FLASH_GET_SESSION_BASE (fs_base c)) by by apply base_ok_new.
  destruct (exchange c d 6 _ _ [] _ _ (fun _ ops c3 => exists x, ops = [x] /\ fs_address c3 = x)
    (session_base_takes _ _ Hb) ltac:(cbn; lia) Hs Hans) as (rv & ops & w1 & c3 & seqnum & Hdo & Hsq & (-> & -> & HP) & (x & [= <-] & Hx)).
  - intros n' h' ops' w1 Hn' Hh' Hv Hc Hm Hops (_ & -> & _). apply Forall_cons in Hops as [Ha _].
    eexists [a], [], _. split; [done|]. split.
    { destruct (base_ok_sent _ _ (fs_base c) 6 (m_seqnum d) Hb Hs) as (_ & _ & _ & Hb1).
      eapply reads_header_prefix; [done..|]. rewrite be_quads_cons. apply reads_swap; [done|]. apply reads_mret. }
    intros seq1 Hs1. assert (Hb2 : base_ok EFC_CAT_FLASH EFC_CMD_FLASH_GET_SESSION_BASE (parsed_base (sent_base (fs_base c) 6 (m_seqnum d)) n' h'))
      by (apply base_ok_parsed; [by apply base_ok_sent|done]).
    destruct (session_base_takes _ a Hb2 seq1 Hs1) as (h3 & He3 & _). eexists true, _, _, _. split; [exact He3|].
    split; [by apply wrapU_uint|]. split; [done|]. by exists a.
  - exists w1, seqnum. split; [|exact (conj Hsq HP)]. unfold getSessionBase. fold c. rewrite (st_bind_eq _ _ _ _ _ Hdo).
    cbv beta iota. change (retval_ok eERV_Ok) with true. cbv iota. rewrite Hx. reflexivity.
Qed.
End commands.
