(* ===== verification/FlashDevice.v ===== *)
(** * FlashDevice: what a FireWorks device promises of its flash memory

    The interface [FlashDevice]: the flash is erased in blocks to ones,
    programming clears bits, reads may be short, and after an erase the device
    reports that it is busy for a while.  [Chip] is an executable device with a
    flash memory that keeps these promises. *)
From stdpp Require Import list.
From S2P Require Import Prelude StateMonad Serialize BusData AvcCommand AvcCommands Memory Efc EfcCommands EfcDevice EfcFlash.

Definition FLASH_SIZE_BYTES : Z := 0x200000.
Definition erased_word : Z := 0xFFFFFFFF.

(** [fd_flash w q]: the quadlet with index [q] *)
Class FlashDevice (W : Type) `{!EfcBus W} := {
  fd_node : Z;
  fd_base : Z;
  fd_flash : W -> Z -> Z;
  fd_busy : W -> nat;
  fd_ok : W -> Prop;
  fd_word : forall w q, fd_ok w -> is_u32 (fd_flash w q);
  fd_read : forall w a n,
    fd_ok w -> fd_busy w = O -> 0 <= a -> a mod 4 = 0 -> 0 < n <= EFC_FLASH_SIZE_QUADS -> a + 4 * n <= FLASH_SIZE_BYTES ->
    answers fd_node 8 EFC_CAT_FLASH EFC_CMD_FLASH_READ [a; n] w (fun retval ops w1 =>
      retval = eERV_Ok /\ fd_ok w1 /\ fd_busy w1 = O /\ (forall q, fd_flash w1 q = fd_flash w q) /\
      exists k, 1 <= k <= n /\ ops = a :: k :: ((fun i => fd_flash w (a / 4 + i)) <$> seqZ 0 k));
  fd_write : forall w a vs,
    fd_ok w -> fd_busy w = O -> 0 <= a -> a mod 4 = 0 -> 0 < Z.of_nat (length vs) <= EFC_FLASH_SIZE_QUADS ->
    a + 4 * Z.of_nat (length vs) <= FLASH_SIZE_BYTES -> Forall is_u32 vs ->
    answers fd_node (8 + Z.of_nat (length vs)) EFC_CAT_FLASH EFC_CMD_FLASH_WRITE (a :: Z.of_nat (length vs) :: vs) w
      (fun retval ops w1 => retval = eERV_Ok /\ fd_ok w1 /\ fd_busy w1 = O /\
        forall q, fd_flash w1 q = match load vs (q - a / 4) with Some v => Z.land (fd_flash w q) v | None => fd_flash w q end);
  fd_erase : forall w a,
    fd_ok w -> fd_busy w = O -> 0 <= a -> a mod blocksize_bytes a = 0 -> a + blocksize_bytes a <= FLASH_SIZE_BYTES ->
    answers fd_node 7 EFC_CAT_FLASH EFC_CMD_FLASH_ERASE [a] w (fun retval ops w1 =>
      (retval = eERV_Ok \/ retval = eERV_FlashBusy) /\ fd_ok w1 /\ (fd_busy w1 < 200)%nat /\
      forall q, fd_flash w1 q = if decide (a / 4 <= q < (a + blocksize_bytes a) / 4) then erased_word else fd_flash w q);
  fd_status : forall w, fd_ok w ->
    answers fd_node 6 EFC_CAT_FLASH EFC_CMD_FLASH_GET_STATUS [] w (fun retval ops w1 =>
      fd_ok w1 /\ fd_busy w1 = pred (fd_busy w) /\ (forall q, fd_flash w1 q = fd_flash w q) /\
      retval = (if decide (fd_busy w = O) then eERV_Ok else eERV_FlashBusy));
  fd_lock : forall w (lock : bool), fd_ok w ->
    answers fd_node 7 EFC_CAT_FLASH EFC_CMD_FLASH_LOCK [if lock then 1 else 0] w (fun retval ops w1 =>
      retval = eERV_Ok /\ fd_ok w1 /\ fd_busy w1 = fd_busy w /\ forall q, fd_flash w1 q = fd_flash w q);
  fd_session_base : forall w, fd_ok w ->
    answers fd_node 6 EFC_CAT_FLASH EFC_CMD_FLASH_GET_SESSION_BASE [] w (fun retval ops w1 =>
      retval = eERV_Ok /\ ops = [fd_base] /\ fd_ok w1 /\ fd_busy w1 = fd_busy w /\ forall q, fd_flash w1 q = fd_flash w q);
  fd_sleep : forall t w, fd_ok w ->
    fd_ok (usleep t w) /\ fd_busy (usleep t w) = fd_busy w /\ forall q, fd_flash (usleep t w) q = fd_flash w q }.

(** ** An executable device *)

Lemma load_index (l : list Z) i : load l i = if decide (0 <= i) then l !! Z.to_nat i else None.
Proof.
  unfold load. repeat case_decide; [done|lia|symmetry; apply lookup_ge_None_2; lia|done].
Qed.

(** the quadlets of a block of bytes in network order *)
Fixpoint be_words (l : list Z) : list Z :=
  match l with
  | b3 :: b2 :: b1 :: b0 :: l' => word_of b0 b1 b2 b3 :: be_words l'
  | _ => []
  end.

Lemma be_words_quads l : Forall is_u32 l -> be_words (be_quads l) = l.
Proof.
  induction 1 as [|v l Hv _ IH]; [done|]. rewrite be_quads_cons. cbn [be_bytes app be_words]. rewrite IH.
  by rewrite <- quadlet_bytes_word, wrapU_small.
Qed.

(** [ch_refuse]: erases that are refused; [ch_empty]: reads return no data;
    [ch_step]: the most quadlets that one read returns *)
Record Chip := mkChip {
  ch_words : Z -> Z;
  ch_busy : nat;
  ch_refuse : nat;
  ch_empty : bool;
  ch_step : Z }.

Definition chip_with (f : Z -> Z) (busy : nat) (c : Chip) : Chip := mkChip f busy (ch_refuse c) (ch_empty c) (ch_step c).

Definition chip_base : Z := 0x1F0000.

Definition chip_read (a n : Z) (c : Chip) : list Z :=
  let k := if ch_empty c then 0 else Z.min n (ch_step c) in
  a :: k :: ((fun i => u32 (ch_words c (a / 4 + i))) <$> seqZ 0 k).

Definition chip_write (a : Z) (vs : list Z) (c : Chip) : Chip :=
  chip_with (fun q => match load vs (q - a / 4) with Some v => Z.land (u32 (ch_words c q)) v | None => ch_words c q end) (ch_busy c) c.

Definition chip_erase (a : Z) (c : Chip) : Z * Chip :=
  match ch_refuse c with
  | S r => (eERV_FlashBusy + 1, mkChip (ch_words c) (ch_busy c) r (ch_empty c) (ch_step c))
  | O => (eERV_Ok, chip_with (fun q => if decide (a / 4 <= q < (a + blocksize_bytes a) / 4) then erased_word else ch_words c q) 3 c)
  end.

(** the return value, the operands of the answer, and the device afterwards *)
Definition chip_command (category command : Z) (ops : list Z) (c : Chip) : Z * list Z * Chip :=
  if negb (category =? EFC_CAT_FLASH) then (eERV_Ok, [], c)
  else if command =? EFC_CMD_FLASH_READ then
    match ops with a :: n :: _ => (eERV_Ok, chip_read a n c, c) | _ => (eERV_Ok, [], c) end
  else if command =? EFC_CMD_FLASH_WRITE then
    match ops with a :: _ :: vs => (eERV_Ok, [], chip_write a vs c) | _ => (eERV_Ok, [], c) end
  else if command =? EFC_CMD_FLASH_ERASE then
    match ops with a :: _ => let '(rv, c1) := chip_erase a c in (rv, [], c1) | _ => (eERV_Ok, [], c) end
  else if command =? EFC_CMD_FLASH_GET_STATUS then
    (if decide (ch_busy c = O) then eERV_Ok else eERV_FlashBusy, [], chip_with (ch_words c) (pred (ch_busy c)) c)
  else if command =? EFC_CMD_FLASH_GET_SESSION_BASE then (eERV_Ok, [chip_base], c)
  else (eERV_Ok, [], c).

Definition chip_node : Z := 2.

Definition chip_transaction (node : Z) (frame : list Z) (c : Chip) : option (list Z) * Chip :=
  match be_words (drop 8 frame) with
  | _ :: _ :: seqnum :: category :: command :: _ :: ops =>
    let '(retval, ops', c1) := chip_command category command ops c in
    (Some (avc_frame eR_Accepted (6 + Z.of_nat (length ops')) (mk_efc_header 1 seqnum category command retval) ops'), c1)
  | _ => (None, c)
  end.

#[export] Instance Chip_EfcBus : EfcBus Chip := {
  efc_transaction := chip_transaction;
  usleep _ c := c;
  plug_sampling_frequency c := (48000, c) }.

Lemma chip_answers node n category command ops c Q :
  is_u32 n -> is_u32 category -> is_u32 command -> Forall is_u32 ops ->
  (let '(retval, ops', c1) := chip_command category command ops c in
   is_u32 retval /\ Forall is_u32 ops' /\ (length ops' <= 100)%nat /\ Q retval ops' c1) ->
  answers node n category command ops c Q.
Proof.
  intros Hn Hcat Hcmd Hops HQ h Hh <- <-. destruct (chip_command _ _ ops c) as [[retval ops'] c1] eqn:Hstep.
  destruct HQ as (Hrv & Hops' & Hl & HQ).
  exists (6 + Z.of_nat (length ops')), (mk_efc_header 1 (eh_seqnum h) (eh_category h) (eh_command h) retval), ops', c1.
  split.
  - unfold efc_transaction, Chip_EfcBus, chip_transaction, avc_frame.
    set (msg := be_quads (n :: header_quads h ++ ops)). change (drop 8 (_ ++ msg)) with msg. unfold msg. rewrite be_words_quads.
    + unfold header_quads. cbn [app]. by rewrite Hstep.
    + constructor; [done|]. by apply Forall_app.
  - unfold header_u32, header_quads in *. cbn [eh_version eh_seqnum eh_category eh_command eh_retval].
    rewrite !Forall_cons in Hh |- *. destruct Hh as (_ & Hs & _). split_and!; try done; width_lia.
Qed.

Definition chip_flash (c : Chip) (q : Z) : Z := u32 (ch_words c q).
Definition chip_ok (c : Chip) : Prop := ch_refuse c = O /\ ch_empty c = false /\ 1 <= ch_step c.

Lemma seqZ_words_u32 (f : Z -> Z) k : Forall is_u32 ((fun i => u32 (f i)) <$> seqZ 0 k).
Proof. apply Forall_fmap, Forall_forall. intros i _. by apply wrapU_uint. Qed.

Lemma land_u32 x y : is_u32 x -> is_u32 y -> is_u32 (Z.land x y).
Proof.
  intros Hx Hy. rewrite <- (Z.mod_small x (2 ^ 32)) by exact Hx. rewrite <- Z.land_ones, <- Z.land_assoc, (Z.land_comm (Z.ones 32)), Z.land_assoc, Z.land_ones by lia.
  apply wrapU_uint. lia.
Qed.

Lemma chip_read_answers node a n c :
  chip_ok c -> 0 <= a -> a + 4 * n <= FLASH_SIZE_BYTES -> 0 < n <= EFC_FLASH_SIZE_QUADS ->
  answers node 8 EFC_CAT_FLASH EFC_CMD_FLASH_READ [a; n] c (fun retval ops w1 =>
    retval = eERV_Ok /\ chip_ok w1 /\ ch_busy w1 = ch_busy c /\ (forall q, chip_flash w1 q = chip_flash c q) /\
    exists k, 1 <= k <= n /\ ops = a :: k :: ((fun i => chip_flash c (a / 4 + i)) <$> seqZ 0 k)).
Proof.
  intros Hok Ha He Hn. change EFC_FLASH_SIZE_QUADS with 64 in Hn. unfold FLASH_SIZE_BYTES in He. pose proof Hok as (Hrf & Hem & Hst).
  apply chip_answers; [done..|rewrite !Forall_cons; split_and!; [width_lia|width_lia|done]|].
  unfold chip_command. cbn. unfold chip_read. rewrite Hem. set (k := Z.min n (ch_step c)).
  split_and!; try done.
  - rewrite !Forall_cons. split_and!; [width_lia|width_lia|apply seqZ_words_u32].
  - cbn. rewrite length_fmap, length_seqZ. lia.
  - exists k. split; [lia|done].
Qed.

#[export] Instance Chip_FlashDevice : FlashDevice Chip.
Proof.
  refine {| fd_node := chip_node; fd_base := chip_base; fd_flash := chip_flash; fd_busy := ch_busy; fd_ok := chip_ok |}.
  - intros c q _. by apply wrapU_uint.
  - intros c a n Hok Hb Ha Ham Hn He. pose proof (chip_read_answers chip_node a n c Hok Ha He Hn) as H. by rewrite Hb in H.
  - intros c a vs Hok Hb Ha Ham Hn He Hvs. change EFC_FLASH_SIZE_QUADS with 64 in Hn. unfold FLASH_SIZE_BYTES in He.
    apply chip_answers; [width_lia|done|done|rewrite !Forall_cons; split_and!; [width_lia|width_lia|done]|].
    unfold chip_command. cbn. split_and!; try done; [cbn; lia|]. intros q. unfold chip_flash, chip_write, chip_with. cbn.
    destruct (load vs (q - a / 4)) as [v|] eqn:Hv; [|done]. apply wrapU_small, land_u32; [by apply wrapU_uint|].
    rewrite load_index in Hv. case_decide; [|done]. by eapply Forall_lookup_1.
  - intros c a (Hrf & Hem & Hst) Hb Ha Ham He. unfold FLASH_SIZE_BYTES in He.
    assert (0 < blocksize_bytes a) by (unfold blocksize_bytes, PROGRAMBLOCK_SIZE_BYTES, MAINBLOCK_SIZE_BYTES; by destruct (a <? _)).
    apply chip_answers; [done..|rewrite !Forall_cons; split_and!; [width_lia|done]|].
    unfold chip_command. cbn. unfold chip_erase. rewrite Hrf. split_and!; try done; [cbn; lia|by left|cbn; lia|].
    intros q. unfold chip_flash, chip_with. cbn. by case_decide.
  - intros c Hok. apply chip_answers; [done..|]. unfold chip_command. cbn.
    split_and!; try done; try (cbn; lia). by destruct (decide _).
  - intros c lock Hok. apply chip_answers; [done..|by destruct lock; rewrite !Forall_cons|].
    unfold chip_command. cbn. destruct lock; cbn; split_and!; try done; cbn; lia.
  - intros c Hok. apply chip_answers; [done..|]. unfold chip_command. cbn. split_and!; try done; [by rewrite !Forall_cons|cbn; lia].
  - by intros t c Hok.
Defined.

(** a device with an erased flash, and the driver's object for it *)
Definition chip_new (refuse : nat) (empty : bool) (step : Z) : Chip := mkChip (fun _ => erased_word) 0 refuse empty step.

Definition chip_info : EfcHardwareInfoCmd :=
  mkEfcHardwareInfoCmd (hi_base EfcHardwareInfoCmd_new) (Some 0) None None None [] [] None None None None None 0 [] 0 []
    None None None None None None None None None None None None None.

Definition chip_device (c : Chip) : EfcDevice Chip := mkEfcDevice chip_node chip_info EfcPolledValuesCmd_new (Some (- 1)) true 1 c.
