(* ===== verification/FlashMemory.v ===== *)
(** * FlashMemory: reading, writing and erasing the flash of a FireWorks device

    Against the interface [FlashDevice] the functions of EfcDevice read what is
    stored, store what they are given and erase what they are told to; other
    devices show where their retry loops go wrong. *)
From stdpp Require Import list.
From S2P Require Import Prelude StateMonad Serialize BusData AvcCommand AvcCommands Memory Efc EfcCommands EfcDevice EfcFlash FlashDevice.

Lemma flash_quads : EFC_FLASH_SIZE_QUADS = 64.
Proof. done. Qed.

(** linear arithmetic with the sizes of the flash *)
Ltac flash_lia := rewrite ?flash_quads in *; unfold FLASH_SIZE_BYTES, uint in *; width_lia.

(** ** Arrays *)

(** the copy of the first [n] elements of [data] to position [pos] *)
Lemma copy_data_inserts n pos (data buffer : list (option Z)) :
  0 <= n <= Z.of_nat (length data) -> 0 <= pos -> pos + n <= Z.of_nat (length buffer) ->
  copy_data n pos data buffer = Some (list_inserts (Z.to_nat pos) (take (Z.to_nat n) data) buffer).
Proof.
  intros Hn Hpos Hl. unfold copy_data.
  destruct (for_loop_rule (fun i b => b = list_inserts (Z.to_nat pos) (take (Z.to_nat i) data) buffer)
    (fun i b => v ← (if decide (0 <= i) then data !! Z.to_nat i else None);
       if decide (0 <= pos + i < Z.of_nat (length b)) then Some (<[Z.to_nat (pos + i) := v]> b) else None) n buffer) as (b & Hb & ->); [lia|done| |done].
  intros k b Hk ->. rewrite decide_True by lia. destruct (lookup_lt_is_Some_2 data (Z.to_nat k)) as [v Hv]; [lia|]. rewrite Hv. cbn [mbind option_bind].
  rewrite decide_True by (rewrite length_inserts; lia). eexists. split; [done|].
  replace (Z.to_nat (k + 1)) with (S (Z.to_nat k)) by lia. rewrite (take_S_r _ _ v) by done. rewrite list_inserts_app_l. cbn [list_inserts].
  f_equal. rewrite length_take. lia.
Qed.

Lemma list_inserts_front {A} (k l : list A) : (length k <= length l)%nat -> list_inserts 0 k l = k ++ drop (length k) l.
Proof.
  intros Hl. apply list_eq. intros i. destruct (decide (i < length k)%nat) as [Hi|Hi].
  - rewrite list_lookup_inserts, lookup_app_l by lia. f_equal. lia.
  - rewrite list_lookup_inserts_ge, lookup_app_r, lookup_drop by lia. f_equal. lia.
Qed.

Lemma fill_data_holds n pos buffer (data : list (option Z)) :
  0 <= n <= Z.of_nat (length data) -> 0 <= pos -> pos + n <= Z.of_nat (length buffer) ->
  exists data1, fill_data n pos buffer data = Some data1 /\ length data1 = length data /\
    take (Z.to_nat n) data1 = Some <$> take (Z.to_nat n) (drop (Z.to_nat pos) buffer).
Proof.
  intros Hn Hpos Hl. unfold fill_data.
  destruct (for_loop_rule (fun i (d : list (option Z)) => length d = length data /\ take (Z.to_nat i) d = Some <$> take (Z.to_nat i) (drop (Z.to_nat pos) buffer))
    (fun i d => v ← load buffer (pos + i); if decide (0 <= i < Z.of_nat (length d)) then Some (<[Z.to_nat i := Some v]> d) else None) n data)
    as (d & Hd & Hdl & Hdt); [lia|done| |by exists d].
  intros k d Hk [Hdl Hdt]. destruct (load_some buffer (pos + k)) as [v Hv]; [lia|]. rewrite Hv. cbn [mbind option_bind].
  rewrite decide_True by lia. eexists. split; [done|]. rewrite length_insert. split; [done|].
  replace (Z.to_nat (k + 1)) with (S (Z.to_nat k)) by lia.
  rewrite load_index, decide_True in Hv by lia. replace (Z.to_nat (pos + k)) with (Z.to_nat pos + Z.to_nat k)%nat in Hv by lia.
  rewrite <- lookup_drop in Hv. rewrite (take_S_r (drop _ _) _ v) by done. rewrite fmap_app, <- Hdt.
  rewrite (take_S_r _ _ (Some v)) by (apply list_lookup_insert_eq; lia). by rewrite take_insert_ge by lia.
Qed.

Section flash.
Context {W : Type} `{!EfcBus W} `{!FlashDevice W}.
Implicit Types d : EfcDevice W.

Definition flash_ready d : Prop := m_nodeId_ d = fd_node /\ is_u32 (m_seqnum d) /\ fd_ok (m_world d).

(** only the bus and the sequence number have moved *)
Definition moved d d1 : Prop := d1 = dev_with_bus (m_seqnum d1) (m_world d1) d.

Definition same_flash d d1 : Prop := forall q, fd_flash (m_world d1) q = fd_flash (m_world d) q.

#[export] Instance moved_preorder : PreOrder moved.
Proof. split; [by intros []|]. intros d1 d2 d3 H1 H2. unfold moved in *. rewrite H2. rewrite H1. by destruct d1. Qed.

#[export] Instance same_flash_preorder : PreOrder same_flash.
Proof. split; [by intros d q|]. intros d1 d2 d3 H1 H2 q. by rewrite H2. Qed.

Lemma moved_bus d seqnum w : moved d (dev_with_bus seqnum w d).
Proof. done. Qed.

(** [n] quadlets from byte address [a] *)
Definition flash_words d (a n : Z) : list Z := (fun i => fd_flash (m_world d) (a / 4 + i)) <$> seqZ 0 n.

Lemma flash_words_length d a n : 0 <= n -> Z.of_nat (length (flash_words d a n)) = n.
Proof. intros Hn. unfold flash_words. rewrite length_fmap, length_seqZ. lia. Qed.

Lemma flash_words_same d d1 a n : same_flash d d1 -> flash_words d1 a n = flash_words d a n.
Proof. intros H. apply list_fmap_ext. intros i x _. apply H. Qed.

Lemma flash_words_app d a n1 n2 : 0 <= n1 -> 0 <= n2 -> flash_words d a (n1 + n2) = flash_words d a n1 ++ flash_words d (a + 4 * n1) n2.
Proof.
  intros H1 H2. unfold flash_words. rewrite seqZ_app, fmap_app by done. f_equal.
  rewrite <- (Z.add_0_r (0 + n1)) at 1. rewrite <- fmap_add_seqZ, <- list_fmap_compose. apply list_fmap_ext.
  intros i x _. cbn. f_equal. replace (a + 4 * n1) with (a + n1 * 4) by lia. rewrite Z.div_add by lia. lia.
Qed.

Lemma answers_mono node n cat cmd ops (w : W) (Q1 Q2 : Z -> list Z -> W -> Prop) :
  (forall retval ops w1, Q1 retval ops w1 -> Q2 retval ops w1) -> answers node n cat cmd ops w Q1 -> answers node n cat cmd ops w Q2.
Proof.
  intros HQ Ha h H1 H2 H3. destruct (Ha h H1 H2 H3) as (n' & h' & ops' & w1 & ? & ? & ? & ? & ? & ? & ? & ? & ?).
  exists n', h', ops', w1. split_and!; try done. by apply HQ.
Qed.

(** what an operation on an idle flash that it does not change keeps *)
Definition kept d d1 : Prop :=
  flash_ready d1 /\ fd_busy (m_world d1) = O /\ moved d d1 /\ same_flash d d1.

Lemma kept_trans d1 d2 d3 : kept d1 d2 -> kept d2 d3 -> kept d1 d3.
Proof. intros (_ & _ & Hm & Hf) (Hr & Hb & Hm2 & Hf2). split_and!; [done|done|by etransitivity|by etransitivity]. Qed.

(** one read of the flash returns a part of what was asked for, from its start *)
Lemma read_once d cmd a n :
  flash_ready d -> fd_busy (m_world d) = O -> read_ready cmd ->
  0 <= a -> a mod 4 = 0 -> 0 < n <= EFC_FLASH_SIZE_QUADS -> a + 4 * n <= FLASH_SIZE_BYTES ->
  exists k cmd1 d1, doEfcOverAVC (mkEfcFlashReadCmd (fr_base cmd) a n (fr_data cmd)) d = Some ((true, cmd1), d1) /\
    1 <= k <= n /\ fr_nb_quadlets cmd1 = k /\ take (Z.to_nat k) (fr_data cmd1) = Some <$> flash_words d a k /\ read_ready cmd1 /\ kept d d1.
Proof.
  intros (Hnode & Hs & Hok) Hbusy Hc Ha Ham Hn Hle. 
  destruct (exchange_read d cmd a n (fun vs w1 => (fd_ok w1 /\ fd_busy w1 = O /\ forall q, fd_flash w1 q = fd_flash (m_world d) q) /\
    exists k, 1 <= k <= n /\ vs = flash_words d a k)) as (vs & w1 & cmd1 & seqnum & Hdo & Hsq & (Hb & _ & Hk & Hl & Ht) & (Hw & k & Hkn & ->)).
  - done.
  - flash_lia.
  - flash_lia.
  - done.
  - rewrite Hnode. eapply answers_mono; [|apply (fd_read (m_world d) a n Hok Hbusy Ha Ham); [exact Hn|exact Hle]].
    intros rv ops w1 (-> & Hw1 & Hb1 & Hf1 & k & Hk & ->). split; [done|]. exists (flash_words d a k).
    rewrite flash_words_length by lia. split; [lia|].
    split; [done|]. split; [done|]. by exists k.
  - rewrite flash_words_length in Hk by lia. rewrite <- (Nat2Z.id (length (flash_words d a k))), flash_words_length in Ht by lia.
    exists k, cmd1, (dev_with_bus seqnum w1 d). destruct Hw as (Hw1 & Hw2 & Hw3).
    refine (conj Hdo (conj Hkn (conj Hk (conj Ht (conj (conj Hb Hl) _))))).
    exact (conj (conj Hnode (conj Hsq Hw1)) (conj Hw2 (conj (moved_bus d seqnum w1) Hw3))).
Qed.

Lemma read_tries_reads n : forall start quads done_ pos buffer cmd d,
  flash_ready d -> fd_busy (m_world d) = O -> read_ready cmd ->
  0 <= start -> start mod 4 = 0 -> quads <= EFC_FLASH_SIZE_QUADS -> start + 4 * quads <= FLASH_SIZE_BYTES -> 0 <= done_ < quads -> quads - done_ <= Z.of_nat n ->
  0 <= pos -> pos + (quads - done_) <= Z.of_nat (length buffer) ->
  exists left cmd1 d1,
    read_tries n start quads done_ pos buffer cmd d
    = Some ((true, left, cmd1, pos + (quads - done_), list_inserts (Z.to_nat pos) (Some <$> flash_words d (start + 4 * done_) (quads - done_)) buffer), d1) /\
    1 <= left /\ read_ready cmd1 /\ kept d d1.
Proof.
  rewrite flash_quads. unfold FLASH_SIZE_BYTES.
  induction n as [|n IH]; intros start quads dn pos buffer cmd d Hr Hb Hc Hs Hsm Hq Hle Hd Hn Hpos Hl; [lia|].
  cbn [read_tries]. rewrite (wrapU_small 32 (quads - dn)), (wrapU_small 32 (dn * 4)), (wrapU_small 32 (start + dn * 4)) by width_lia.
  destruct (read_once d cmd (start + dn * 4) (quads - dn) Hr Hb Hc) as (k & cmd1 & d1 & Hdo & Hk & Hnb & Ht & Hc1 & Hk1); [lia|div_lia|flash_lia|flash_lia|].
  rewrite (st_bind_eq _ _ _ _ _ Hdo). cbv beta iota. cbn [negb]. rewrite Hnb. rewrite (wrapU_small 32 (dn + k)) by width_lia.
  assert (Hdl : Z.of_nat (length (fr_data cmd1)) = 64) by exact (proj2 Hc1).
  rewrite copy_data_inserts, Ht by lia. rewrite (st_bind_eq _ _ d1 _ d1) by reflexivity. cbv zeta.
  replace (start + dn * 4) with (start + 4 * dn) in * by lia.
  set (buffer1 := list_inserts _ _ buffer).
  destruct (Z.ltb_spec (dn + k) quads) as [Hlt|Hge].
  - assert (Hl1 : length buffer1 = length buffer) by apply length_inserts. pose proof Hk1 as (Hr1 & Hb1 & Hm1 & Hf1).
    destruct (IH start quads (dn + k) (pos + k) buffer1 cmd1 d1) as (left & cmd2 & d2 & Hgo & Hleft & Hc2 & Hk2); [done|done|done|lia|done|lia|lia|lia|lia|lia|lia|].
    exists left, cmd2, d2. refine (conj _ (conj Hleft (conj Hc2 (kept_trans _ _ _ Hk1 Hk2)))). rewrite Hgo. do 2 f_equal. f_equal; [f_equal; lia|].
    rewrite (flash_words_same d d1) by done. unfold buffer1.
    replace (quads - dn) with (k + (quads - (dn + k))) by lia. rewrite flash_words_app by lia. rewrite fmap_app, list_inserts_app_l.
    rewrite length_fmap. pose proof (flash_words_length d (start + 4 * dn) k ltac:(lia)).
    replace (start + 4 * (dn + k)) with (start + 4 * dn + 4 * k) by lia. f_equal; lia.
  - assert (k = quads - dn) as -> by lia. exists (Z.of_nat (S n)), cmd1, d1. refine (conj eq_refl (conj _ (conj Hc1 Hk1))). lia.
Qed.

Lemma flash_words_nil d a n : n <= 0 -> flash_words d a n = [].
Proof. intros Hn. unfold flash_words. by rewrite seqZ_nil. Qed.

Lemma read_blocks_reads fuel : forall start stop pos buffer cmd d,
  flash_ready d -> fd_busy (m_world d) = O -> read_ready cmd ->
  0 <= start -> start mod 4 = 0 -> stop mod 4 = 0 -> stop <= FLASH_SIZE_BYTES -> start < stop + 256 ->
  0 <= pos -> pos + (stop - start) / 4 <= Z.of_nat (length buffer) -> (stop - start) / 256 < Z.of_nat fuel - 1 ->
  exists d1, read_blocks fuel start stop pos buffer cmd d
      = Some ((true, list_inserts (Z.to_nat pos) (Some <$> flash_words d start ((stop - start) / 4)) buffer), d1) /\ kept d d1.
Proof.
  unfold FLASH_SIZE_BYTES.
  induction fuel as [|fuel IH]; intros start stop pos buffer cmd d Hr Hb Hc Hs Hsm Hem He Hs2 Hpos Hl Hf; [div_lia|].
  cbn [read_blocks]. destruct (Z.ltb_spec start stop) as [Hlt|Hge].
  - rewrite (wrapU_small 32 (stop - start)), (wrapU_small 32 (start + _)) by (unfold EFC_FLASH_SIZE_BYTES; width_lia). rewrite flash_quads. cbv zeta.
    set (m := (stop - start) / 4) in *. set (k := if 64 <? m then 64 else m).
    assert (Hk : k = Z.min 64 m) by (unfold k; destruct (Z.ltb_spec 64 m); lia).
    assert (Hm : stop - start = 4 * m) by (unfold m; div_lia).
    destruct (read_tries_reads (Z.to_nat 10000) start k 0 pos buffer cmd d Hr Hb Hc Hs Hsm) as (left & cmd1 & d1 & Hgo & Hleft & Hc1 & Hk1);
      [flash_lia|flash_lia|lia|lia|lia|lia|].
    rewrite (st_bind_eq _ _ _ _ _ Hgo). cbv beta iota. cbn [negb]. rewrite (proj2 (Z.eqb_neq left 0)) by lia. rewrite !Z.mul_0_r, Z.add_0_r, Z.sub_0_r.
    set (buffer1 := list_inserts _ _ buffer). assert (Hl1 : length buffer1 = length buffer) by apply length_inserts.
    pose proof Hk1 as (Hr1 & Hb1 & Hm1 & Hf1).
    assert (Hm2 : (stop - (start + EFC_FLASH_SIZE_BYTES)) / 4 = m - 64) by (unfold EFC_FLASH_SIZE_BYTES; div_lia).
    destruct (IH (start + EFC_FLASH_SIZE_BYTES) stop (pos + k) buffer1 cmd1 d1) as (d2 & Hgo2 & Hk2).
    { done. } { done. } { done. } { unfold EFC_FLASH_SIZE_BYTES. lia. } { unfold EFC_FLASH_SIZE_BYTES. div_lia. } { done. } { done. }
    { unfold EFC_FLASH_SIZE_BYTES. lia. } { lia. } { rewrite Hm2. lia. } { unfold EFC_FLASH_SIZE_BYTES. div_lia. }
    exists d2. refine (conj _ (kept_trans _ _ _ Hk1 Hk2)). rewrite Hgo2, Hm2. do 2 f_equal. f_equal.
    rewrite (flash_words_same d d1) by done. unfold buffer1.
    destruct (Z.ltb_spec 64 m) as [Hbig|Hsmall].
    + replace m with (64 + (m - 64)) at 2 by lia. rewrite flash_words_app by lia. rewrite fmap_app, list_inserts_app_l, length_fmap.
      pose proof (flash_words_length d start 64 ltac:(lia)). unfold EFC_FLASH_SIZE_BYTES. rewrite Hk, Z.min_l by lia.
      replace (start + 4 * 64) with (start + 256) by lia. f_equal. lia.
    + rewrite (flash_words_nil d (start + _)) by lia. cbn [fmap list_fmap list_inserts]. by rewrite Hk, Z.min_r by lia.
  - rewrite flash_words_nil by div_lia. exists d. refine (conj eq_refl (conj Hr (conj Hb (conj _ _)))); reflexivity.
Qed.

(** [readFlash] fills the array with what is stored *)
Lemma readFlash_reads fuel start len buffer d :
  flash_ready d -> fd_busy (m_world d) = O ->
  0 <= start -> start mod 4 = 0 -> 0 < len -> start + 4 * len <= FLASH_SIZE_BYTES -> len <= Z.of_nat (length buffer) -> len / 64 + 1 < Z.of_nat fuel ->
  exists d1, readFlash fuel start len buffer d = Some ((true, list_inserts 0 (Some <$> flash_words d start len) buffer), d1) /\ kept d d1.
Proof.
  intros Hr Hb Hs Hsm Hlen He Hl Hf. unfold readFlash, bogus_range, unaligned. unfold FLASH_SIZE_BYTES in He.
  rewrite (wrapU_small 32 (len * 4)), (wrapU_small 32 (0xFFFFFFFF - _)), (wrapU_small 32 (start + _)) by width_lia.
  destruct (Z.leb_spec len 0); [lia|]. destruct (Z.ltb_spec (0xFFFFFFFF - len * 4) start); [lia|]. cbn [orb].
  rewrite (land_mod start 2 ltac:(lia) : Z.land start 0x03 = start mod 4), Hsm. cbn [Z.eqb negb].
  destruct (read_blocks_reads fuel start (start + len * 4) 0 buffer EfcFlashReadCmd_new d) as (d1 & Hgo & Hk1);
    [done|done|split; [by apply base_ok_new|done]|lia|done|div_lia|flash_lia|lia|lia|div_lia|div_lia|].
  exists d1. refine (conj _ Hk1). rewrite Hgo. by replace ((start + len * 4 - start) / 4) with len by div_lia.
Qed.

(** ** Writing *)

(** [vs] has been programmed at byte address [a] *)
Definition programmed d d1 (a : Z) (vs : list Z) : Prop :=
  forall q, fd_flash (m_world d1) q
    = match load vs (q - a / 4) with Some v => Z.land (fd_flash (m_world d) q) v | None => fd_flash (m_world d) q end.

Lemma load_app (l1 l2 : list Z) i : load (l1 ++ l2) i = match load l1 i with Some v => Some v | None => load l2 (i - Z.of_nat (length l1)) end.
Proof.
  rewrite !load_index. case_decide as Hi; [|by rewrite decide_False by lia]. rewrite lookup_app.
  destruct (l1 !! Z.to_nat i) eqn:H1; [done|]. apply lookup_ge_None_1 in H1. rewrite decide_True by lia. f_equal. lia.
Qed.

Lemma load_nil i : load [] i = None.
Proof. unfold load. by case_decide. Qed.

Lemma load_range (l : list Z) i v : load l i = Some v -> 0 <= i < Z.of_nat (length l).
Proof. unfold load. by case_decide. Qed.

Lemma programmed_app d1 d2 d3 a vs1 vs2 :
  programmed d1 d2 a vs1 -> programmed d2 d3 (a + 4 * Z.of_nat (length vs1)) vs2 -> programmed d1 d3 a (vs1 ++ vs2).
Proof.
  intros H1 H2 q. rewrite H2, H1, load_app.
  replace (q - (a + 4 * Z.of_nat (length vs1)) / 4) with (q - a / 4 - Z.of_nat (length vs1))
    by (rewrite (Z.mul_comm 4), Z.div_add by lia; lia).
  destruct (load vs1 (q - a / 4)) as [v|] eqn:Hv; [|done]. apply load_range in Hv.
  destruct (load vs2 _) as [v2|] eqn:Hv2; [|done]. apply load_range in Hv2. lia.
Qed.

(** the state of a device with an idle flash *)
Definition idle d d1 : Prop := flash_ready d1 /\ fd_busy (m_world d1) = O /\ moved d d1.

Lemma kept_idle d d1 : kept d d1 -> idle d d1.
Proof. intros (H1 & H2 & H3 & _). exact (conj H1 (conj H2 H3)). Qed.

Lemma idle_trans d1 d2 d3 : idle d1 d2 -> idle d2 d3 -> idle d1 d3.
Proof. intros (_ & _ & H1) (H2 & H3 & H4). refine (conj H2 (conj H3 _)). by etransitivity. Qed.

Lemma write_once d b a vs data :
  flash_ready d -> fd_busy (m_world d) = O -> base_ok EFC_CAT_FLASH EFC_CMD_FLASH_WRITE b ->
  0 <= a -> a mod 4 = 0 -> 0 < Z.of_nat (length vs) <= EFC_FLASH_SIZE_QUADS -> a + 4 * Z.of_nat (length vs) <= FLASH_SIZE_BYTES ->
  Forall is_u32 vs -> write_holds vs data ->
  exists b1 d1, doEfcOverAVC (mkEfcFlashWriteCmd b a (Z.of_nat (length vs)) data) d
      = Some ((true, mkEfcFlashWriteCmd b1 a (Z.of_nat (length vs)) data), d1) /\
    base_ok EFC_CAT_FLASH EFC_CMD_FLASH_WRITE b1 /\ idle d d1 /\ programmed d d1 a vs.
Proof.
  intros (Hnode & Hs & Hok) Hbusy Hb Ha Ham Hn Hle Hvs Hd.
  destruct (exchange_write d b a vs data (fun retval w1 => retval = eERV_Ok /\ fd_ok w1 /\ fd_busy w1 = O /\
    forall q, fd_flash w1 q = match load vs (q - a / 4) with Some v => Z.land (fd_flash (m_world d) q) v | None => fd_flash (m_world d) q end))
    as (rv & w1 & b1 & seqnum & Hdo & Hsq & (-> & Hw1 & Hw2 & Hw3) & Hb1).
  - done.
  - flash_lia.
  - lia.
  - done.
  - done.
  - done.
  - rewrite Hnode. by apply fd_write.
  - exists b1, (dev_with_bus seqnum w1 d).
    exact (conj Hdo (conj Hb1 (conj (conj (conj Hnode (conj Hsq Hw1)) (conj Hw2 (moved_bus d seqnum w1))) Hw3))).
Qed.

Lemma write_blocks_writes fuel : forall start stop pos buffer cmd d,
  flash_ready d -> fd_busy (m_world d) = O -> base_ok EFC_CAT_FLASH EFC_CMD_FLASH_WRITE (fw_base cmd) ->
  Z.of_nat (length (fw_data cmd)) = EFC_FLASH_SIZE_QUADS -> Forall is_u32 buffer ->
  0 <= start -> start mod 4 = 0 -> stop mod 4 = 0 -> stop <= FLASH_SIZE_BYTES -> start < stop + 256 ->
  0 <= pos -> pos + (stop - start) / 4 <= Z.of_nat (length buffer) -> (stop - start) / 256 < Z.of_nat fuel - 1 ->
  exists d1, write_blocks fuel start stop pos buffer cmd d = Some (true, d1) /\ idle d d1 /\
    programmed d d1 start (take (Z.to_nat ((stop - start) / 4)) (drop (Z.to_nat pos) buffer)).
Proof.
  unfold FLASH_SIZE_BYTES. rewrite flash_quads.
  induction fuel as [|fuel IH]; intros start stop pos buffer cmd d Hr Hb Hc Hdl Hbuf Hs Hsm Hem He Hs2 Hpos Hl Hf; [div_lia|].
  cbn [write_blocks]. destruct (Z.ltb_spec start stop) as [Hlt|Hge].
  - rewrite (wrapU_small 32 (stop - start)), (wrapU_small 32 (start + _)) by (unfold EFC_FLASH_SIZE_BYTES; width_lia). rewrite flash_quads. cbv zeta.
    set (m := (stop - start) / 4) in *. set (k := if 64 <? m then 64 else m).
    assert (Hk : k = Z.min 64 m) by (unfold k; destruct (Z.ltb_spec 64 m); lia).
    assert (Hm : stop - start = 4 * m) by (unfold m; div_lia).
    destruct (fill_data_holds k pos buffer (fw_data cmd)) as (data & Hfill & Hdl1 & Hhold); [lia|lia|lia|].
    rewrite Hfill. rewrite (st_bind_eq _ _ d data d) by reflexivity.
    set (vs := take (Z.to_nat k) (drop (Z.to_nat pos) buffer)) in *.
    assert (Hvl : Z.of_nat (length vs) = k) by (unfold vs; rewrite length_take, length_drop; lia).
    rewrite <- Hvl in Hhold at 1. rewrite Nat2Z.id in Hhold.
    destruct (write_once d (fw_base cmd) start vs data Hr Hb Hc Hs Hsm) as (b1 & d1 & Hdo & Hb1 & Hi1 & Hp1);
      [flash_lia|flash_lia|by apply Forall_take, Forall_drop|exact Hhold|]. rewrite Hvl in Hdo.
    rewrite (st_bind_eq _ _ _ _ _ Hdo). cbv beta iota. cbn [negb]. pose proof Hi1 as (Hr1 & Hbs1 & Hm1).
    assert (Hm2 : (stop - (start + EFC_FLASH_SIZE_BYTES)) / 4 = m - 64) by (unfold EFC_FLASH_SIZE_BYTES; div_lia).
    destruct (IH (start + EFC_FLASH_SIZE_BYTES) stop (pos + k) buffer (mkEfcFlashWriteCmd b1 start k data) d1) as (d2 & Hgo2 & Hi2 & Hp2).
    { done. } { done. } { done. } { cbn [fw_data]. lia. } { done. } { unfold EFC_FLASH_SIZE_BYTES. lia. } { unfold EFC_FLASH_SIZE_BYTES. div_lia. } { done. } { done. }
    { unfold EFC_FLASH_SIZE_BYTES. lia. } { lia. } { rewrite Hm2. lia. } { unfold EFC_FLASH_SIZE_BYTES. div_lia. }
    exists d2. refine (conj Hgo2 (conj (idle_trans _ _ _ Hi1 Hi2) _)). rewrite Hm2 in Hp2.
    destruct (Z.ltb_spec 64 m) as [Hbig|Hsmall].
    + assert (k = 64) as Hk64 by lia.
      replace (take (Z.to_nat m) (drop (Z.to_nat pos) buffer)) with (vs ++ take (Z.to_nat (m - 64)) (drop (Z.to_nat (pos + k)) buffer)).
      * eapply programmed_app; [exact Hp1|]. rewrite Hvl, Hk64. exact Hp2.
      * unfold vs. replace (Z.to_nat (pos + k)) with (Z.to_nat pos + Z.to_nat k)%nat by lia.
        rewrite <- drop_drop, take_take_drop. f_equal. lia.
    + replace (Z.to_nat (m - 64)) with O in Hp2 by lia. replace (Z.to_nat m) with (Z.to_nat k) by lia. fold vs.
      intros q. rewrite Hp2, <- Hp1. by rewrite load_nil.
  - exists d. refine (conj eq_refl (conj (conj Hr (conj Hb _)) _)); [reflexivity|].
    assert (Hz : (stop - start) / 4 <= 0) by div_lia. replace (Z.to_nat ((stop - start) / 4)) with O by lia.
    intros q. by rewrite load_nil.
Qed.

Lemma writeFlash_writes fuel start buffer d :
  flash_ready d -> fd_busy (m_world d) = O -> Forall is_u32 buffer ->
  0 <= start -> start mod 4 = 0 -> 0 < Z.of_nat (length buffer) -> start + 4 * Z.of_nat (length buffer) <= FLASH_SIZE_BYTES ->
  Z.of_nat (length buffer) / 64 + 1 < Z.of_nat fuel ->
  exists d1, writeFlash fuel start (Z.of_nat (length buffer)) buffer d = Some (true, d1) /\ idle d d1 /\ programmed d d1 start buffer.
Proof.
  intros Hr Hb Hbuf Hs Hsm Hlen He Hf. set (len := Z.of_nat (length buffer)) in *. unfold writeFlash, bogus_range, unaligned. unfold FLASH_SIZE_BYTES in He.
  rewrite (wrapU_small 32 (len * 4)), (wrapU_small 32 (0xFFFFFFFF - _)), (wrapU_small 32 (start + _)) by width_lia.
  destruct (Z.leb_spec len 0); [lia|]. destruct (Z.ltb_spec (0xFFFFFFFF - len * 4) start); [lia|]. cbn [orb].
  rewrite (land_mod start 2 ltac:(lia) : Z.land start 0x03 = start mod 4), Hsm. cbn [Z.eqb negb].
  destruct (write_blocks_writes fuel start (start + len * 4) 0 buffer EfcFlashWriteCmd_new d) as (d1 & Hgo & Hi & Hp);
    [done|done|by apply base_ok_new|done|done|lia|done|div_lia|flash_lia|lia|lia|fold len; div_lia|div_lia|].
  exists d1. refine (conj Hgo (conj Hi _)). replace ((start + len * 4 - start) / 4) with len in Hp by div_lia.
  unfold len in Hp. rewrite Nat2Z.id in Hp. cbn [drop] in Hp. by rewrite firstn_all in Hp.
Qed.

(** ** Erasing *)

Definition erased_range d d1 (lo hi : Z) : Prop :=
  forall q, fd_flash (m_world d1) q = if decide (lo <= q < hi) then erased_word else fd_flash (m_world d) q.

(** The wait ends before its cycles are used up. *)
Lemma wait_tries_ready n : forall b ready d,
  flash_ready d -> base_ok EFC_CAT_FLASH EFC_CMD_FLASH_GET_STATUS b -> (fd_busy (m_world d) < n)%nat ->
  exists left d1, wait_tries n (mkEfcFlashGetStatusCmd b ready) d = Some (Some (left, true), d1) /\ 1 <= left /\ kept d d1.
Proof.
  induction n as [|n IH]; intros b ready d (Hnode & Hs & Hok) Hb Hbusy; [lia|]. cbn [wait_tries].
  destruct (exchange_status d b ready (fun retval w1 => fd_ok w1 /\ fd_busy w1 = pred (fd_busy (m_world d)) /\
    (forall q, fd_flash w1 q = fd_flash (m_world d) q) /\ retval = (if decide (fd_busy (m_world d) = O) then eERV_Ok else eERV_FlashBusy)))
    as (rv & w1 & b1 & seqnum & Hdo & Hsq & (Hw1 & Hw2 & Hw3 & ->) & Hb1 & Hrv); [done|done|rewrite Hnode; by apply fd_status|].
  rewrite (st_bind_eq _ _ _ _ _ Hdo). cbv beta iota.
  destruct (fd_sleep 10000 w1 Hw1) as (Hu1 & Hu2 & Hu3).
  set (d1 := dev_with_bus seqnum (usleep 10000 w1) d).
  assert (Hr1 : flash_ready d1) by exact (conj Hnode (conj Hsq Hu1)).
  assert (Hm1 : moved d d1) by apply moved_bus.
  assert (Hf1 : same_flash d d1) by (intros q; unfold d1; cbn [m_world dev_with_bus]; by rewrite Hu3, Hw3).
  assert (Hsleep : dev_world (fun w => ((), usleep 10000 w)) (dev_with_bus seqnum w1 d) = Some ((), d1)) by reflexivity.
  cbn [fg_base fg_ready]. rewrite Hrv. destruct (decide (fd_busy (m_world d) = O)) as [E|E].
  - change (retval_ok eERV_Ok) with true. change (eERV_Ok =? eERV_FlashBusy) with false. cbn [negb].
    rewrite (st_bind_eq _ _ _ _ _ Hsleep). exists (Z.of_nat (S n)), d1. refine (conj eq_refl (conj _ (conj Hr1 (conj _ (conj Hm1 Hf1))))); [lia|].
    unfold d1. cbn [m_world dev_with_bus]. rewrite Hu2, Hw2, E. reflexivity.
  - change (retval_ok eERV_FlashBusy) with true. change (eERV_FlashBusy =? eERV_FlashBusy) with true. cbn [negb].
    rewrite (st_bind_eq _ _ _ _ _ Hsleep).
    destruct (IH b1 false d1 Hr1 Hb1) as (left & d2 & Hgo & Hleft & Hk2).
    { unfold d1. cbn [m_world dev_with_bus]. rewrite Hu2, Hw2. lia. }
    exists left, d2. refine (conj Hgo (conj Hleft _)). destruct Hk2 as (H1 & H2 & H3 & H4).
    refine (conj H1 (conj H2 (conj _ _))); [by etransitivity|]. by etransitivity.
Qed.

Lemma waitForFlash_ready d :
  flash_ready d -> (fd_busy (m_world d) < 200)%nat ->
  exists d1, waitForFlash ECHO_FLASH_ERASE_TIMEOUT_MILLISECS d = Some (true, d1) /\ kept d d1.
Proof.
  intros Hr Hb. unfold waitForFlash. change (Z.to_nat (u32 (ECHO_FLASH_ERASE_TIMEOUT_MILLISECS * 1000) / 10000)) with 200%nat.
  destruct (wait_tries_ready 200 (fg_base EfcFlashGetStatusCmd_new) false d Hr ltac:(by apply base_ok_new) Hb) as (left & d1 & Hgo & Hl & Hk).
  exists d1. refine (conj _ Hk). unfold EfcFlashGetStatusCmd_new in *. rewrite (st_bind_eq _ _ _ _ _ Hgo).
  by rewrite (proj2 (Z.eqb_neq left 0)) by lia.
Qed.

Lemma eraseFlash_erases a d :
  flash_ready d -> fd_busy (m_world d) = O -> 0 <= a -> a mod blocksize_bytes a = 0 -> a + blocksize_bytes a <= FLASH_SIZE_BYTES ->
  exists d1, eraseFlash a d = Some (true, d1) /\ flash_ready d1 /\ (fd_busy (m_world d1) < 200)%nat /\ moved d d1 /\
    erased_range d d1 (a / 4) ((a + blocksize_bytes a) / 4).
Proof.
  intros (Hnode & Hs & Hok) Hb Ha Ham He.
  assert (Hm4 : a mod 4 = 0).
  { revert Ham. unfold blocksize_bytes, PROGRAMBLOCK_SIZE_BYTES, MAINBLOCK_SIZE_BYTES. destruct (a <? _); div_lia. }
  assert (Hau : is_u32 a).
  { revert He. unfold blocksize_bytes, PROGRAMBLOCK_SIZE_BYTES, MAINBLOCK_SIZE_BYTES. destruct (a <? _); flash_lia. }
  unfold eraseFlash, unaligned. rewrite (land_mod a 2 ltac:(lia) : Z.land a 0x03 = a mod 4), Hm4. cbn [Z.eqb negb].
  destruct (exchange_erase d a (fun retval w1 => (retval = eERV_Ok \/ retval = eERV_FlashBusy) /\ fd_ok w1 /\ (fd_busy w1 < 200)%nat /\
    forall q, fd_flash w1 q = if decide (a / 4 <= q < (a + blocksize_bytes a) / 4) then erased_word else fd_flash (m_world d) q))
    as (rv & w1 & c1 & seqnum & Hdo & Hsq & (Hrv & Hw1 & Hw2 & Hw3)); [done|done|rewrite Hnode; by apply fd_erase|].
  exists (dev_with_bus seqnum w1 d). rewrite (st_bind_eq _ _ _ _ _ Hdo). cbv beta iota.
  split; [by destruct Hrv as [-> | ->]|]. exact (conj (conj Hnode (conj Hsq Hw1)) (conj Hw2 (conj (moved_bus d seqnum w1) Hw3))).
Qed.

Lemma all_erased_words l : Forall (fun v => v = erased_word) l -> all_erased (Some <$> l) = Some true.
Proof. induction 1 as [|v l -> _ IH]; [done|]. rewrite fmap_cons. cbn [all_erased]. by change (0xFFFFFFFF =? erased_word) with true. Qed.

Lemma flash_words_erased d a n lo hi d0 :
  erased_range d0 d lo hi -> lo <= a / 4 -> a / 4 + n <= hi -> Forall (fun v => v = erased_word) (flash_words d a n).
Proof.
  intros He Hlo Hhi. unfold flash_words. rewrite Forall_fmap, Forall_forall. intros i Hi%elem_of_seqZ. cbn. rewrite He.
  by rewrite decide_True by lia.
Qed.

Lemma blocksize_range a : 8192 <= blocksize_bytes a <= 32768 /\ blocksize_bytes a mod 8192 = 0.
Proof. unfold blocksize_bytes, PROGRAMBLOCK_SIZE_BYTES, MAINBLOCK_SIZE_BYTES. by destruct (a <? _). Qed.

(** the address of the next block is the start of a block *)
Lemma blocksize_next a :
  0 <= a -> a mod blocksize_bytes a = 0 -> (a + blocksize_bytes a) mod blocksize_bytes (a + blocksize_bytes a) = 0.
Proof.
  unfold blocksize_bytes, PROGRAMBLOCK_SIZE_BYTES, MAINBLOCK_SIZE_BYTES, MAINBLOCKS_BASE_OFFSET_BYTES.
  intros Ha. destruct (Z.ltb_spec a 0x10000); intros Hm; case_match eqn:Hb; div_lia.
Qed.

Lemma blocksize_fits a :
  0 <= a < FLASH_SIZE_BYTES -> a mod blocksize_bytes a = 0 -> a + blocksize_bytes a <= FLASH_SIZE_BYTES.
Proof.
  unfold FLASH_SIZE_BYTES, blocksize_bytes, PROGRAMBLOCK_SIZE_BYTES, MAINBLOCK_SIZE_BYTES, MAINBLOCKS_BASE_OFFSET_BYTES.
  intros Ha. destruct (Z.ltb_spec a 0x10000); intros Hm; div_lia.
Qed.

Lemma land_block a n : 0 <= n -> a mod 2 ^ n = 0 -> Z.land a (Z.lnot (2 ^ n - 1)) = a.
Proof.
  intros Hn Hm. rewrite Z.sub_1_r, <- Z.ones_equiv. rewrite <- Z.ldiff_land, Z.ldiff_ones_r by done.
  rewrite Z.shiftl_mul_pow2, Z.shiftr_div_pow2 by done. pose proof (Z.div_mod a (2 ^ n) ltac:(lia)). lia.
Qed.

Lemma block_start a : a mod blocksize_bytes a = 0 -> Z.land a (Z.lnot (blocksize_bytes a - 1)) = a.
Proof.
  unfold blocksize_bytes, PROGRAMBLOCK_SIZE_BYTES, MAINBLOCK_SIZE_BYTES. destruct (a <? _); intros Hm.
  - by apply (land_block a 13).
  - by apply (land_block a 15).
Qed.

Lemma erase_block_erases rfuel a bq d :
  flash_ready d -> fd_busy (m_world d) = O -> 0 <= a < FLASH_SIZE_BYTES -> a mod blocksize_bytes a = 0 ->
  0 < bq <= blocksize_bytes a / 4 -> 130 <= Z.of_nat rfuel ->
  exists d1, erase_block rfuel a bq (blocksize_bytes a / 4) true d = Some (Some true, d1) /\ idle d d1 /\
    erased_range d d1 (a / 4) ((a + blocksize_bytes a) / 4).
Proof.
  intros Hr Hb Ha Ham Hq Hf. pose proof (blocksize_fits a Ha Ham) as Hfit. destruct (blocksize_range a) as [Hbs Hbm].
  assert (Hm4 : a mod 4 = 0).
  { revert Ham. unfold blocksize_bytes, PROGRAMBLOCK_SIZE_BYTES, MAINBLOCK_SIZE_BYTES. destruct (a <? _); div_lia. }
  unfold erase_block.
  destruct (eraseFlash_erases a d Hr Hb ltac:(lia) Ham Hfit) as (d1 & Hgo1 & Hr1 & Hb1 & Hm1 & He1).
  rewrite (st_bind_eq _ _ _ _ _ Hgo1). cbn [negb].
  destruct (waitForFlash_ready d1 Hr1 Hb1) as (d2 & Hgo2 & Hk2). rewrite (st_bind_eq _ _ _ _ _ Hgo2). cbn [negb].
  pose proof Hk2 as (Hr2 & Hb2 & Hm2 & Hf2).
  set (arr := replicate (Z.to_nat (blocksize_bytes a / 4)) None).
  assert (Hal : Z.of_nat (length arr) = blocksize_bytes a / 4) by (unfold arr; rewrite length_replicate; div_lia).
  destruct (readFlash_reads rfuel a bq arr d2 Hr2 Hb2 ltac:(lia) Hm4 ltac:(lia)) as (d3 & Hgo3 & Hk3); [div_lia|lia|div_lia|].
  rewrite (st_bind_eq _ _ _ _ _ Hgo3). cbv beta iota. cbn [negb]. pose proof Hk3 as (Hr3 & Hb3 & Hm3 & Hf3).
  assert (Hwl : Z.of_nat (length (flash_words d2 a bq)) = bq) by (apply flash_words_length; lia).
  assert (Htake : take (Z.to_nat bq) (list_inserts 0 (Some <$> flash_words d2 a bq) arr) = Some <$> flash_words d2 a bq).
  { rewrite list_inserts_front by (rewrite length_fmap; lia). apply take_app_length'. rewrite length_fmap. lia. }
  rewrite Htake, all_erased_words.
  - exists d3. split; [done|]. split.
    + refine (conj Hr3 (conj Hb3 _)). etransitivity; [exact Hm1|]. by etransitivity.
    + intros q. rewrite Hf3, Hf2. apply He1.
  - apply (flash_words_erased d2 a bq (a / 4) ((a + blocksize_bytes a) / 4) d); [intros q; rewrite Hf2; apply He1|lia|div_lia].
Qed.

Lemma erase_loop_erases fuel rfuel : forall a quads d,
  flash_ready d -> fd_busy (m_world d) = O -> 0 <= a -> a mod blocksize_bytes a = 0 -> 0 < quads -> a + 4 * quads <= FLASH_SIZE_BYTES ->
  quads / 2048 + 1 < Z.of_nat fuel -> 130 <= Z.of_nat rfuel ->
  exists d1 stop, erase_loop fuel rfuel a quads true 0 d = Some (true, d1) /\ idle d d1 /\
    a + 4 * quads <= stop <= FLASH_SIZE_BYTES /\ erased_range d d1 (a / 4) (stop / 4).
Proof.
  induction fuel as [|fuel IH]; intros a quads d Hr Hb Ha Ham Hq He Hf Hrf; [div_lia|].
  assert (Ha2 : a < FLASH_SIZE_BYTES) by (unfold FLASH_SIZE_BYTES in *; lia).
  pose proof (blocksize_fits a (conj Ha Ha2) Ham) as Hfit. destruct (blocksize_range a) as [Hbs Hbm].
  cbn [erase_loop]. rewrite (block_start a Ham). cbv zeta.
  set (bytes := blocksize_bytes a) in *. set (bq := if quads <? bytes / 4 then quads else bytes / 4).
  assert (Hbq : bq = Z.min quads (bytes / 4)) by (unfold bq; destruct (Z.ltb_spec quads (bytes / 4)); lia).
  destruct (erase_block_erases rfuel a bq d Hr Hb (conj Ha Ha2) Ham ltac:(fold bytes; div_lia) Hrf) as (d1 & Hgo & Hi1 & He1).
  fold bytes in Hgo, He1. rewrite (st_bind_eq _ _ _ _ _ Hgo). cbv beta iota. pose proof Hi1 as (Hr1 & Hb1 & Hm1).
  unfold FLASH_SIZE_BYTES in *. rewrite (wrapU_small 32 (a + bytes)), (wrapU_small 32 (quads - bq)) by (unfold uint; div_lia).
  change (max_nb_tries <? 0) with false. cbv iota.
  destruct (Z.ltb_spec 0 (quads - bq)) as [Hmore|Hdone].
  - destruct (IH (a + bytes) (quads - bq) d1) as (d2 & stop & Hgo2 & Hi2 & Hst & He2);
      [done|done|lia|by apply blocksize_next|lia|div_lia|div_lia|done|].
    exists d2, stop. refine (conj Hgo2 (conj (idle_trans _ _ _ Hi1 Hi2) (conj _ _))); [div_lia|].
    intros q. rewrite He2, He1. repeat case_decide; try done; div_lia.
  - exists d1, (a + bytes). refine (conj eq_refl (conj Hi1 (conj _ He1))). div_lia.
Qed.
End flash.

(** ** Devices that do not behave *)

Section failures.
Context {W : Type} `{!EfcBus W}.
Implicit Types d : EfcDevice W.

(** Every read is answered, with no data. *)
Definition answers_no_data (node : Z) (alive : W -> Prop) : Prop :=
  forall w a n, alive w -> is_u32 a -> is_u32 n ->
    answers node 8 EFC_CAT_FLASH EFC_CMD_FLASH_READ [a; n] w (fun retval ops w1 => retval = eERV_Ok /\ ops = [a; 0] /\ alive w1).

Definition lives (node : Z) (alive : W -> Prop) d : Prop := m_nodeId_ d = node /\ is_u32 (m_seqnum d) /\ alive (m_world d).

Lemma read_once_no_data node alive d cmd a n :
  answers_no_data node alive -> lives node alive d -> read_ready cmd -> is_u32 a -> is_u32 n ->
  exists cmd1 d1, doEfcOverAVC (mkEfcFlashReadCmd (fr_base cmd) a n (fr_data cmd)) d = Some ((true, cmd1), d1) /\
    fr_nb_quadlets cmd1 = 0 /\ read_ready cmd1 /\ lives node alive d1.
Proof.
  intros Hdev (Hn & Hs & Hal) Hc Ha Hnn.
  destruct (exchange_read d cmd a n (fun vs w1 => vs = [] /\ alive w1) Hc Ha Hnn Hs)
    as (vs & w1 & cmd1 & seqnum & Hdo & Hsq & (Hb & _ & Hk & Hl & _) & (-> & Hw)).
  - rewrite Hn. eapply answers_mono; [|by apply Hdev]. intros rv ops w1 (-> & -> & Hw1). split; [done|]. by exists [].
  - exists cmd1, (dev_with_bus seqnum w1 d). exact (conj Hdo (conj Hk (conj (conj Hb Hl) (conj Hn (conj Hsq Hw))))).
Qed.

(** the tries are used up, and [ntries] has passed zero *)
Lemma read_tries_no_data node alive n : answers_no_data node alive -> forall start quads pos buffer cmd d,
  lives node alive d -> read_ready cmd -> is_u32 start -> is_u32 quads -> 0 < quads ->
  (forall cmd, copy_data 0 pos (fr_data cmd) buffer = Some buffer) ->
  exists cmd1 d1, read_tries n start quads 0 pos buffer cmd d = Some ((true, - 1, cmd1, pos, buffer), d1) /\ read_ready cmd1 /\ lives node alive d1.
Proof.
  intros Hdev. induction n as [|n IH]; intros start quads pos buffer cmd d Hlv Hc Hst Hq Hpos Hcopy;
    destruct (read_once_no_data node alive d cmd start quads Hdev Hlv Hc Hst Hq) as (cmd1 & d1 & Hdo & Hk & Hc1 & Hlv1); cbn [read_tries];
    rewrite Z.sub_0_r, Z.mul_0_l, Z.add_0_r, (wrapU_small 32 quads), (wrapU_small 32 start) by done;
    rewrite (st_bind_eq _ _ _ _ _ Hdo); cbv beta iota; cbn [negb]; rewrite Hk, Hcopy;
    rewrite (st_bind_eq _ _ d1 buffer d1) by reflexivity;
    change (u32 (0 + 0)) with 0; rewrite (proj2 (Z.ltb_lt 0 quads)), Z.add_0_r by done.
  - exists cmd1, d1. exact (conj eq_refl (conj Hc1 Hlv1)).
  - exact (IH start quads pos buffer cmd1 d1 Hlv1 Hc1 Hst Hq Hpos Hcopy).
Qed.

Lemma read_blocks_no_data node alive fuel : answers_no_data node alive -> forall start stop pos buffer cmd d,
  lives node alive d -> read_ready cmd -> 0 <= start -> start mod 4 = 0 -> stop mod 4 = 0 -> stop <= FLASH_SIZE_BYTES -> start < stop + 256 ->
  (stop - start) / 256 < Z.of_nat fuel - 1 -> (forall cmd, copy_data 0 pos (fr_data cmd) buffer = Some buffer) ->
  exists d1, read_blocks fuel start stop pos buffer cmd d = Some ((true, buffer), d1).
Proof.
  intros Hdev. unfold FLASH_SIZE_BYTES. induction fuel as [|fuel IH]; intros start stop pos buffer cmd d Hlv Hc Hs Hsm Hem He Hs2 Hf Hcopy; [div_lia|].
  cbn [read_blocks]. destruct (Z.ltb_spec start stop) as [Hlt|Hge]; [|by exists d].
  rewrite (wrapU_small 32 (stop - start)), (wrapU_small 32 (start + _)) by (unfold EFC_FLASH_SIZE_BYTES; width_lia). rewrite flash_quads. cbv zeta.
  set (k := if 64 <? (stop - start) / 4 then 64 else (stop - start) / 4).
  assert (Hk : 0 < k <= 64) by (unfold k; destruct (Z.ltb_spec 64 ((stop - start) / 4)); div_lia).
  destruct (read_tries_no_data node alive (Z.to_nat 10000) Hdev start k pos buffer cmd d Hlv Hc) as (cmd1 & d1 & Hgo & Hc1 & Hlv1);
    [width_lia|width_lia|lia|exact Hcopy|].
  rewrite (st_bind_eq _ _ _ _ _ Hgo). cbv beta iota. cbn [negb Z.eqb].
  apply IH; [exact Hlv1|exact Hc1|unfold EFC_FLASH_SIZE_BYTES; lia|unfold EFC_FLASH_SIZE_BYTES; div_lia|done|done|unfold EFC_FLASH_SIZE_BYTES; lia|unfold EFC_FLASH_SIZE_BYTES; div_lia|exact Hcopy].
Qed.

(** A device that answers every read of its flash with no data makes
    [readFlash] return [true] and leave the array as it was: the loop gives up
    after 10001 tries with [ntries] at -1, and the test for a deadlock compares
    it with 0.  The caller goes on with an array that was never written. *)
Lemma readFlash_no_data node alive fuel start len buffer d :
  answers_no_data node alive -> lives node alive d ->
  0 <= start -> start mod 4 = 0 -> 0 < len -> start + 4 * len <= FLASH_SIZE_BYTES -> len / 64 + 1 < Z.of_nat fuel ->
  exists d1, readFlash fuel start len buffer d = Some ((true, buffer), d1).
Proof.
  intros Hdev Hlv Hs Hsm Hlen He Hf. unfold readFlash, bogus_range, unaligned. unfold FLASH_SIZE_BYTES in He.
  rewrite (wrapU_small 32 (len * 4)), (wrapU_small 32 (0xFFFFFFFF - _)), (wrapU_small 32 (start + _)) by width_lia.
  destruct (Z.leb_spec len 0); [lia|]. destruct (Z.ltb_spec (0xFFFFFFFF - len * 4) start); [lia|]. cbn [orb].
  rewrite (land_mod start 2 ltac:(lia) : Z.land start 0x03 = start mod 4), Hsm. cbn [Z.eqb negb].
  apply (read_blocks_no_data node alive); [done|done|split; [by apply base_ok_new|done]|lia|done|div_lia|flash_lia|lia|div_lia|done].
Qed.

(** A block never turns a failure into a success. *)
Lemma erase_block_failed rfuel a bq full d r d1 : erase_block rfuel a bq full false d = Some (r, d1) -> r <> Some true.
Proof.
  unfold erase_block. intros (ok & d2 & _ & H)%st_bind_inv. destruct ok; cbn [negb] in H; [|by injection H as <- _].
  apply st_bind_inv in H as (ready & d3 & _ & H). destruct ready; cbn [negb] in H; [|by injection H as <- _].
  apply st_bind_inv in H as ([ok verify] & d4 & _ & H). destruct ok; cbn [negb] in H; [|by injection H as <- _].
  apply st_bind_inv in H as (erased & d5 & _ & H). injection H as <- _. by destruct erased.
Qed.

(** the start of the block that holds [start] *)
Definition block_of (start : Z) : Z := Z.land start (Z.lnot (blocksize_bytes start - 1)).

Lemma block_of_spec start :
  0 <= start -> block_of start mod blocksize_bytes start = 0 /\ blocksize_bytes (block_of start) = blocksize_bytes start.
Proof.
  intros Hs. assert (Hland : forall n, 0 <= n -> Z.land start (Z.lnot (2 ^ n - 1)) = start / 2 ^ n * 2 ^ n).
  { intros n Hn. rewrite Z.sub_1_r, <- Z.ones_equiv, <- Z.ldiff_land, Z.ldiff_ones_r by done. by rewrite Z.shiftl_mul_pow2, Z.shiftr_div_pow2. }
  unfold block_of, blocksize_bytes, PROGRAMBLOCK_SIZE_BYTES, MAINBLOCK_SIZE_BYTES, MAINBLOCKS_BASE_OFFSET_BYTES.
  destruct (Z.ltb_spec start 0x10000).
  - change (Z.lnot (8192 - 1)) with (Z.lnot (2 ^ 13 - 1)). rewrite (Hland 13) by done. change (2 ^ 13) with 8192. case_match eqn:Hb; div_lia.
  - change (Z.lnot (32768 - 1)) with (Z.lnot (2 ^ 15 - 1)). rewrite (Hland 15) by done. change (2 ^ 15) with 32768. case_match eqn:Hb; div_lia.
Qed.

(** one more try at a block after a failure *)
Definition retry (rfuel : nat) (a bq full : Z) : EfcDevice W -> option (option bool * EfcDevice W) := erase_block rfuel a bq full false.

(** each of the next [n] tries has a result, as far as they go *)
Fixpoint retries_defined (rfuel : nat) (a bq full : Z) (n : nat) (d : EfcDevice W) : bool :=
  match n with
  | O => true
  | S n' =>
      match retry rfuel a bq full d with
      | None => false
      | Some (Some false, d1) => retries_defined rfuel a bq full n' d1
      | Some _ => true
      end
  end.

Lemma erase_loop_failed fuel rfuel a quads : forall tries d,
  let full := blocksize_bytes a / 4 in
  let bq := if quads <? full then quads else full in
  a mod blocksize_bytes a = 0 -> 0 < quads -> 0 <= tries <= 10 ->
  (forall r d2, erase_loop fuel rfuel a quads false tries d = Some (r, d2) -> r = false) /\
  (10 - tries < Z.of_nat fuel -> retries_defined rfuel a bq full (Z.to_nat (11 - tries)) d = true ->
   exists d2, erase_loop fuel rfuel a quads false tries d = Some (false, d2)).
Proof.
  induction fuel as [|fuel IH]; intros tries d full bq Ha Hq Ht; [split; [done|lia]|]. cbn [erase_loop]. rewrite (block_start a Ha). cbv zeta.
  fold full bq. replace (Z.to_nat (11 - tries)) with (S (Z.to_nat (11 - (tries + 1)))) by lia. cbn [retries_defined].
  change (erase_block rfuel a bq full false) with (retry rfuel a bq full). destruct (retry rfuel a bq full d) as [[r d1]|] eqn:Hr.
  2:{ unfold mbind, StM_bind. by rewrite Hr. }
  pose proof (erase_block_failed _ _ _ _ _ _ _ Hr) as Hrt. rewrite (st_bind_eq _ _ _ _ _ Hr). cbv beta iota.
  destruct r as [[|]|]; [done| |split; [by intros r d2 [= <- _]|by eexists]]. rewrite (wrapU_small 32 (tries + 1)) by width_lia. unfold max_nb_tries.
  destruct (Z.ltb_spec 10 (tries + 1)); [split; [by intros r d2 [= <- _]|by eexists]|]. rewrite (proj2 (Z.ltb_lt 0 quads)) by done.
  destruct (IH (tries + 1) d1 Ha Hq ltac:(lia)) as [H1 H2]. split; [exact H1|]. intros Hf Hd. apply H2; [lia|exact Hd].
Qed.

(** C30: the retries of [eraseFlashBlocks] cannot help.  At any block - the loop
    of the function starts at its first one, and is at the start of the loop
    again after each block that it has erased - once the erase of the block has
    been refused or its verification has failed, a result of the function is
    [false], whatever the device does to the further tries: [success] is never
    set again.  It does return [false] if each of the at most ten further tries
    has a result.  (A try has none if it looks at what was never read, or reads
    the block in more than [rfuel] commands.) *)
Theorem eraseFlashBlocks_no_retry fuel rfuel start nb_quads d d1 :
  let full := blocksize_bytes start / 4 in
  let bq := if nb_quads <? full then nb_quads else full in
  0 <= start -> 0 < nb_quads ->
  erase_block rfuel (block_of start) bq full true d = Some (Some false, d1) ->
  (forall r d2, erase_loop fuel rfuel start nb_quads true 0 d = Some (r, d2) -> r = false) /\
  (11 <= Z.of_nat fuel -> retries_defined rfuel (block_of start) bq full 10 d1 = true ->
   exists d2, erase_loop fuel rfuel start nb_quads true 0 d = Some (false, d2)) /\
  eraseFlashBlocks fuel rfuel start nb_quads d = erase_loop fuel rfuel start nb_quads true 0 d.
Proof.
  intros full bq Hs Hq Hfirst. destruct (block_of_spec start Hs) as [Hm Hbs].
  enough ((forall r d2, erase_loop fuel rfuel start nb_quads true 0 d = Some (r, d2) -> r = false) /\
    (11 <= Z.of_nat fuel -> retries_defined rfuel (block_of start) bq full 10 d1 = true ->
     exists d2, erase_loop fuel rfuel start nb_quads true 0 d = Some (false, d2))) as [? ?] by done.
  destruct fuel as [|fuel]; [split; [done|lia]|]. cbn [erase_loop]. cbv zeta. fold full. fold bq. fold (block_of start).
  rewrite (st_bind_eq _ _ _ _ _ Hfirst). cbv beta iota. change (max_nb_tries <? u32 (0 + 1)) with false. cbv iota.
  rewrite (proj2 (Z.ltb_lt 0 nb_quads)) by done. rewrite <- Hbs in Hm.
  destruct (erase_loop_failed fuel rfuel (block_of start) nb_quads 1 d1 Hm Hq ltac:(lia)) as [H1 H2]. rewrite Hbs in H2.
  split; [exact H1|]. intros Hf Hd. apply H2; [lia|exact Hd].
Qed.
End failures.

Lemma chip_no_data : answers_no_data chip_node (fun c => ch_empty c = true).
Proof.
  intros c a n Hem Ha Hn. apply chip_answers; [done..|rewrite !Forall_cons; by split_and!|].
  unfold chip_command. cbn. unfold chip_read. rewrite Hem.
  rewrite seqZ_nil by lia. split_and!; try done; [by rewrite !Forall_cons|cbn; lia].
Qed.

Lemma readFlash_no_data_witness :
  answers_no_data chip_node (fun c => ch_empty c = true) /\
  exists d1, readFlash 10 chip_base 16 (replicate 16 None) (chip_device (chip_new 0 true 64)) = Some ((true, replicate 16 None), d1).
Proof.
  split; [exact chip_no_data|].
  apply (readFlash_no_data chip_node (fun c => ch_empty c = true) 10 chip_base 16 (replicate 16 None) (chip_device (chip_new 0 true 64))).
  - exact chip_no_data.
  - split_and!; done.
  - done.
  - done.
  - done.
  - vm_compute. discriminate.
  - vm_compute. reflexivity.
Defined.

(** a chip that refuses the first erase only: the tries that follow succeed *)
Lemma eraseFlashBlocks_no_retry_witness :
  exists d2, eraseFlashBlocks 20 200 chip_base 1 (chip_device (chip_new 1 false 64)) = Some (false, d2).
Proof.
  set (d := chip_device (chip_new 1 false 64)).
  assert (H1 : fst <$> erase_block 200 chip_base 1 8192 true d = Some (Some false)) by (vm_compute; reflexivity).
  apply fmap_Some in H1 as ([r d1] & H1 & Hr). cbn [fst] in Hr. subst r.
  destruct (eraseFlashBlocks_no_retry 20 200 chip_base 1 d d1) as (_ & Hret & He).
  - vm_compute. discriminate.
  - reflexivity.
  - exact H1.
  - rewrite He. apply Hret; [vm_compute; discriminate|].
    assert (Hd : (match erase_block 200 chip_base 1 8192 true d with Some (_, d2) => retries_defined 200 chip_base 1 8192 10 d2 | None => false end) = true)
      by (vm_compute; reflexivity).
    rewrite H1 in Hd. exact Hd.
Defined.
