(* ===== verification/SessionCrc.v ===== *)
(** * SessionCrc: the checksum of a FireWorks session block

    [Session::calculateCRC] of fireworks/fireworks_session_block.cpp on a little
    endian host: a table of 256 words and a loop over the bytes.  The reference
    is the polynomial division bit by bit. *)
From stdpp Require Import list.
From S2P Require Import Prelude Serialize Memory.

Definition ECHO_SESSION_CRC_START_OFFSET_BYTES : Z := 4 * 2.
Definition ECHO_SESSION_CRC_INITIAL_REMAINDER : Z := 0xFFFFFFFF.
Definition ECHO_SESSION_CRC_FINAL_XOR_VALUE : Z := 0xFFFFFFFF.

(** [sizeof(SessionHeader)] and [sizeof(SubSession)] *)
Definition sizeof_SessionHeader : Z := 7312.
Definition sizeof_SubSession : Z := 6080.
Definition session_size : Z := sizeof_SessionHeader + sizeof_SubSession.

Definition ECHO_SESSION_CRC_TABLE : list Z :=
  [
   0x00000000; 0x77073096; 0xEE0E612C; 0x990951BA; 0x076DC419; 0x706AF48F; 0xE963A535; 0x9E6495A3;
   0x0EDB8832; 0x79DCB8A4; 0xE0D5E91E; 0x97D2D988; 0x09B64C2B; 0x7EB17CBD; 0xE7B82D07; 0x90BF1D91;
   0x1DB71064; 0x6AB020F2; 0xF3B97148; 0x84BE41DE; 0x1ADAD47D; 0x6DDDE4EB; 0xF4D4B551; 0x83D385C7;
   0x136C9856; 0x646BA8C0; 0xFD62F97A; 0x8A65C9EC; 0x14015C4F; 0x63066CD9; 0xFA0F3D63; 0x8D080DF5;
   0x3B6E20C8; 0x4C69105E; 0xD56041E4; 0xA2677172; 0x3C03E4D1; 0x4B04D447; 0xD20D85FD; 0xA50AB56B;
   0x35B5A8FA; 0x42B2986C; 0xDBBBC9D6; 0xACBCF940; 0x32D86CE3; 0x45DF5C75; 0xDCD60DCF; 0xABD13D59;
   0x26D930AC; 0x51DE003A; 0xC8D75180; 0xBFD06116; 0x21B4F4B5; 0x56B3C423; 0xCFBA9599; 0xB8BDA50F;
   0x2802B89E; 0x5F058808; 0xC60CD9B2; 0xB10BE924; 0x2F6F7C87; 0x58684C11; 0xC1611DAB; 0xB6662D3D;
   0x76DC4190; 0x01DB7106; 0x98D220BC; 0xEFD5102A; 0x71B18589; 0x06B6B51F; 0x9FBFE4A5; 0xE8B8D433;
   0x7807C9A2; 0x0F00F934; 0x9609A88E; 0xE10E9818; 0x7F6A0DBB; 0x086D3D2D; 0x91646C97; 0xE6635C01;
   0x6B6B51F4; 0x1C6C6162; 0x856530D8; 0xF262004E; 0x6C0695ED; 0x1B01A57B; 0x8208F4C1; 0xF50FC457;
   0x65B0D9C6; 0x12B7E950; 0x8BBEB8EA; 0xFCB9887C; 0x62DD1DDF; 0x15DA2D49; 0x8CD37CF3; 0xFBD44C65;
   0x4DB26158; 0x3AB551CE; 0xA3BC0074; 0xD4BB30E2; 0x4ADFA541; 0x3DD895D7; 0xA4D1C46D; 0xD3D6F4FB;
   0x4369E96A; 0x346ED9FC; 0xAD678846; 0xDA60B8D0; 0x44042D73; 0x33031DE5; 0xAA0A4C5F; 0xDD0D7CC9;
   0x5005713C; 0x270241AA; 0xBE0B1010; 0xC90C2086; 0x5768B525; 0x206F85B3; 0xB966D409; 0xCE61E49F;
   0x5EDEF90E; 0x29D9C998; 0xB0D09822; 0xC7D7A8B4; 0x59B33D17; 0x2EB40D81; 0xB7BD5C3B; 0xC0BA6CAD;
   0xEDB88320; 0x9ABFB3B6; 0x03B6E20C; 0x74B1D29A; 0xEAD54739; 0x9DD277AF; 0x04DB2615; 0x73DC1683;
   0xE3630B12; 0x94643B84; 0x0D6D6A3E; 0x7A6A5AA8; 0xE40ECF0B; 0x9309FF9D; 0x0A00AE27; 0x7D079EB1;
   0xF00F9344; 0x8708A3D2; 0x1E01F268; 0x6906C2FE; 0xF762575D; 0x806567CB; 0x196C3671; 0x6E6B06E7;
   0xFED41B76; 0x89D32BE0; 0x10DA7A5A; 0x67DD4ACC; 0xF9B9DF6F; 0x8EBEEFF9; 0x17B7BE43; 0x60B08ED5;
   0xD6D6A3E8; 0xA1D1937E; 0x38D8C2C4; 0x4FDFF252; 0xD1BB67F1; 0xA6BC5767; 0x3FB506DD; 0x48B2364B;
   0xD80D2BDA; 0xAF0A1B4C; 0x36034AF6; 0x41047A60; 0xDF60EFC3; 0xA867DF55; 0x316E8EEF; 0x4669BE79;
   0xCB61B38C; 0xBC66831A; 0x256FD2A0; 0x5268E236; 0xCC0C7795; 0xBB0B4703; 0x220216B9; 0x5505262F;
   0xC5BA3BBE; 0xB2BD0B28; 0x2BB45A92; 0x5CB36A04; 0xC2D7FFA7; 0xB5D0CF31; 0x2CD99E8B; 0x5BDEAE1D;
   0x9B64C2B0; 0xEC63F226; 0x756AA39C; 0x026D930A; 0x9C0906A9; 0xEB0E363F; 0x72076785; 0x05005713;
   0x95BF4A82; 0xE2B87A14; 0x7BB12BAE; 0x0CB61B38; 0x92D28E9B; 0xE5D5BE0D; 0x7CDCEFB7; 0x0BDBDF21;
   0x86D3D2D4; 0xF1D4E242; 0x68DDB3F8; 0x1FDA836E; 0x81BE16CD; 0xF6B9265B; 0x6FB077E1; 0x18B74777;
   0x88085AE6; 0xFF0F6A70; 0x66063BCA; 0x11010B5C; 0x8F659EFF; 0xF862AE69; 0x616BFFD3; 0x166CCF45;
   0xA00AE278; 0xD70DD2EE; 0x4E048354; 0x3903B3C2; 0xA7672661; 0xD06016F7; 0x4969474D; 0x3E6E77DB;
   0xAED16A4A; 0xD9D65ADC; 0x40DF0B66; 0x37D83BF0; 0xA9BCAE53; 0xDEBB9EC5; 0x47B2CF7F; 0x30B5FFE9;
   0xBDBDF21C; 0xCABAC28A; 0x53B39330; 0x24B4A3A6; 0xBAD03605; 0xCDD70693; 0x54DE5729; 0x23D967BF;
   0xB3667A2E; 0xC4614AB8; 0x5D681B02; 0x2A6F2B94; 0xB40BBE37; 0xC30C8EA1; 0x5A05DF1B; 0x2D02EF8D].

(** an index past the table is undefined; the mask keeps it inside *)
Definition crc_table (b : Z) : Z := match ECHO_SESSION_CRC_TABLE !! Z.to_nat b with Some v => v | None => 0 end.

(** the body of the loop *)
Definition crc_step (remainder byte : Z) : Z :=
  let b := Z.land (Z.lxor remainder byte) 0xFF in
  Z.lxor (crc_table b) (Z.shiftr remainder 8).

(** [while (bytecount > 0)], with the bytes that are left *)
Definition crc_loop (bytes : list Z) (remainder : Z) : Z := foldl crc_step remainder bytes.

(** [None]: the loop reads past the block *)
Definition calculateCRC (memblock : list Z) (max_len : Z) : option Z :=
  if max_len <? session_size then Some 0
  else
    let bytecount := session_size - ECHO_SESSION_CRC_START_OFFSET_BYTES in
    if decide (session_size <= Z.of_nat (length memblock)) then
      let data := take (Z.to_nat bytecount) (drop (Z.to_nat ECHO_SESSION_CRC_START_OFFSET_BYTES) memblock) in
      Some (Z.lxor (crc_loop data ECHO_SESSION_CRC_INITIAL_REMAINDER) ECHO_SESSION_CRC_FINAL_XOR_VALUE)
    else None.

(** ** The polynomial *)

Definition crc_polynomial : Z := 0xEDB88320.

(** one bit, the lowest first *)
Definition crc_bit (r : Z) : Z := if Z.odd r then Z.lxor (Z.shiftr r 1) crc_polynomial else Z.shiftr r 1.

Definition crc_bits (n : nat) (r : Z) : Z := Nat.iter n crc_bit r.

(** the division of the message by the polynomial, a byte at a time *)
Definition crc_reference (bytes : list Z) (remainder : Z) : Z :=
  foldl (fun r byte => crc_bits 8 (Z.lxor r byte)) remainder bytes.

Lemma crc_bit_lxor x y : crc_bit (Z.lxor x y) = Z.lxor (crc_bit x) (crc_bit y).
Proof.
  unfold crc_bit. rewrite <- !Z.bit0_odd, Z.lxor_spec, Z.shiftr_lxor.
  destruct (Z.testbit x 0), (Z.testbit y 0); cbn [xorb].
  - rewrite Z.lxor_assoc, (Z.lxor_comm crc_polynomial), Z.lxor_assoc, Z.lxor_nilpotent, Z.lxor_0_r. done.
  - by rewrite !Z.lxor_assoc, (Z.lxor_comm crc_polynomial).
  - by rewrite Z.lxor_assoc.
  - done.
Qed.

Lemma crc_bits_lxor n x y : crc_bits n (Z.lxor x y) = Z.lxor (crc_bits n x) (crc_bits n y).
Proof.
  induction n as [|n IH]; [done|].
  assert (Hs : forall z, crc_bits (S n) z = crc_bit (crc_bits n z)) by done. by rewrite !Hs, IH, crc_bit_lxor.
Qed.

(** bits above the ones that are consumed only move down *)
Lemma crc_bits_high n x : crc_bits n (Z.shiftl x (Z.of_nat n)) = x.
Proof.
  induction n as [|n IH]; [apply Z.shiftl_0_r|]. unfold crc_bits. rewrite Nat.iter_succ_r. fold (crc_bits n).
  replace (crc_bit (Z.shiftl x (Z.of_nat (S n)))) with (Z.shiftl x (Z.of_nat n)); [done|].
  unfold crc_bit. rewrite <- Z.bit0_odd, Z.shiftl_spec_low by lia. rewrite Z.shiftr_shiftl_l by lia. f_equal. lia.
Qed.

Lemma crc_table_bits b : 0 <= b < 256 -> crc_table b = crc_bits 8 b.
Proof.
  intros Hb. assert (H : for_range 0 256 (fun b => crc_table b =? crc_bits 8 b) = true) by (vm_compute; reflexivity).
  by apply Z.eqb_eq, (for_u8 _ H).
Qed.

(** the low byte and the rest *)
Lemma split_byte x : x = Z.lxor (Z.land x 0xFF) (Z.shiftl (Z.shiftr x 8) 8).
Proof.
  apply Z.bits_inj'. intros n Hn. rewrite Z.lxor_spec, Z.land_spec, Z.shiftl_spec by done.
  change 0xFF with (Z.ones 8). destruct (decide (n < 8)).
  - rewrite Z.ones_spec_low, andb_true_r by lia. rewrite (Z.testbit_neg_r _ (n - 8)) by lia. by rewrite xorb_false_r.
  - rewrite Z.ones_spec_high, andb_false_r by lia. rewrite Z.shiftr_spec by lia. cbn. f_equal. lia.
Qed.

Lemma crc_step_reference r byte : is_u8 byte -> crc_step r byte = crc_bits 8 (Z.lxor r byte).
Proof.
  intros Hb. unfold crc_step. cbv zeta. rewrite (split_byte (Z.lxor r byte)) at 2. rewrite crc_bits_lxor.
  rewrite crc_table_bits by (rewrite land_0xff; apply Z.mod_pos_bound; lia).
  f_equal. rewrite (crc_bits_high 8). rewrite Z.shiftr_lxor. rewrite (Z.shiftr_div_pow2 byte) by lia.
  by rewrite Z.div_small, Z.lxor_0_r.
Qed.

Lemma crc_loop_reference bytes_ r : bytes bytes_ -> crc_loop bytes_ r = crc_reference bytes_ r.
Proof.
  unfold crc_loop, crc_reference. intros Hb. revert r. induction Hb as [|b l Hb _ IH]; intros r; [done|]. cbn [foldl].
  by rewrite crc_step_reference, IH.
Qed.

(** C33: The checksum of a session block is the CRC-32 of its bytes after the
    size and the checksum itself: the table of the source is the table of the
    reversed polynomial 0xEDB88320, and the loop with one lookup per byte
    computes what the division bit by bit does, for every block of bytes. *)
Theorem calculateCRC_reference (memblock : list Z) :
  bytes memblock -> session_size <= Z.of_nat (length memblock) ->
  calculateCRC memblock (Z.of_nat (length memblock))
  = Some (Z.lxor (crc_reference (take (Z.to_nat (session_size - 8)) (drop 8 memblock)) 0xFFFFFFFF) 0xFFFFFFFF).
Proof.
  intros Hb Hl. unfold calculateCRC. destruct (Z.ltb_spec (Z.of_nat (length memblock)) session_size); [lia|].
  rewrite decide_True by done. cbv zeta. rewrite crc_loop_reference; [reflexivity|]. by apply Forall_take, Forall_drop.
Qed.

(** ** Detection *)

Lemma lxor_small x y n : 0 <= n -> 0 <= x < 2 ^ n -> 0 <= y < 2 ^ n -> 0 <= Z.lxor x y < 2 ^ n.
Proof.
  intros Hn Hx Hy. replace (Z.lxor x y) with (Z.land (Z.lxor x y) (Z.ones n)).
  { rewrite Z.land_ones by done. apply Z.mod_pos_bound. lia. }
  rewrite <- (Z.mod_small x (2 ^ n)), <- (Z.mod_small y (2 ^ n)) by done. rewrite <- !Z.land_ones by done.
  apply Z.bits_inj'. intros k Hk. rewrite !Z.land_spec, !Z.lxor_spec, !Z.land_spec.
  by destruct (Z.testbit x k), (Z.testbit y k), (Z.testbit (Z.ones n) k).
Qed.

(** the top bytes of the table are different: the table is linear, and only
    the entry for 0 has a top byte of 0 *)
Lemma crc_table_top i j : 0 <= i < 256 -> 0 <= j < 256 -> Z.shiftr (crc_table i) 24 = Z.shiftr (crc_table j) 24 -> i = j.
Proof.
  intros Hi Hj He.
  assert (H : for_range 0 256 (fun k => negb (Z.shiftr (crc_table k) 24 =? 0) || (k =? 0)) = true) by (vm_compute; reflexivity).
  assert (Hk : is_u8 (Z.lxor i j)) by (by apply lxor_small).
  pose proof (for_u8 _ H _ Hk) as Hij. cbv beta in Hij. rewrite crc_table_bits, crc_bits_lxor, <- !crc_table_bits in Hij by done.
  rewrite Z.shiftr_lxor, He, Z.lxor_nilpotent in Hij. cbn [Z.eqb negb orb] in Hij. by apply Z.eqb_eq, Z.lxor_eq in Hij.
Qed.

Lemma crc_table_u32 i : 0 <= i < 256 -> is_u32 (crc_table i).
Proof.
  intros Hi. assert (H : for_range 0 256 (fun i => (0 <=? crc_table i) && (crc_table i <? 2 ^ 32)) = true) by (vm_compute; reflexivity).
  apply (for_u8 _ H) in Hi. unfold uint. lia.
Qed.

Definition crc_index (r byte : Z) : Z := Z.land (Z.lxor r byte) 0xFF.

Lemma crc_index_range r byte : 0 <= crc_index r byte < 256.
Proof. unfold crc_index. rewrite land_0xff. apply Z.mod_pos_bound. lia. Qed.

Lemma crc_step_u32 r byte : is_u32 r -> is_u32 (crc_step r byte).
Proof.
  intros Hr. apply lxor_small; [lia|apply crc_table_u32, crc_index_range|].
  rewrite Z.shiftr_div_pow2 by lia. change (2 ^ 8) with 256. unfold uint in Hr. div_lia.
Qed.

(** the state after a byte determines the index and the upper three bytes *)
Lemma crc_step_inj r1 b1 r2 b2 :
  is_u32 r1 -> is_u32 r2 -> crc_step r1 b1 = crc_step r2 b2 ->
  crc_index r1 b1 = crc_index r2 b2 /\ Z.shiftr r1 8 = Z.shiftr r2 8.
Proof.
  intros H1 H2 He. unfold crc_step in He. fold (crc_index r1 b1) in He. fold (crc_index r2 b2) in He.
  assert (Hi : crc_index r1 b1 = crc_index r2 b2).
  { apply crc_table_top; [apply crc_index_range..|]. apply (f_equal (fun x => Z.shiftr x 24)) in He. rewrite !Z.shiftr_lxor, !Z.shiftr_shiftr in He by lia.
    rewrite (Z.shiftr_div_pow2 r1), (Z.shiftr_div_pow2 r2) in He by lia. change (8 + 24) with 32 in He.
    rewrite (Z.div_small r1), (Z.div_small r2), !Z.lxor_0_r in He by done. exact He. }
  split; [done|]. rewrite Hi in He. apply (f_equal (Z.lxor (crc_table (crc_index r2 b2)))) in He.
  by rewrite <- !Z.lxor_assoc, Z.lxor_nilpotent, !Z.lxor_0_l in He.
Qed.

Lemma crc_index_lxor r b : crc_index r b = Z.lxor (Z.land r 0xFF) (Z.land b 0xFF).
Proof.
  unfold crc_index. apply Z.bits_inj'. intros k Hk. rewrite !Z.land_spec, !Z.lxor_spec, !Z.land_spec.
  by destruct (Z.testbit r k), (Z.testbit b k), (Z.testbit 0xFF k).
Qed.

Lemma lxor_cancel_l a x y : Z.lxor a x = Z.lxor a y -> x = y.
Proof. intros H. apply (f_equal (Z.lxor a)) in H. by rewrite <- !Z.lxor_assoc, Z.lxor_nilpotent, !Z.lxor_0_l in H. Qed.

Lemma crc_step_byte r b1 b2 : is_u32 r -> is_u8 b1 -> is_u8 b2 -> crc_step r b1 = crc_step r b2 -> b1 = b2.
Proof.
  intros Hr H1 H2 [He _]%crc_step_inj; [|done..]. rewrite !crc_index_lxor in He. apply lxor_cancel_l in He.
  rewrite !land_0xff in He. by rewrite !Z.mod_small in He.
Qed.

Lemma crc_step_remainder r1 r2 b : is_u32 r1 -> is_u32 r2 -> crc_step r1 b = crc_step r2 b -> r1 = r2.
Proof.
  intros H1 H2 [He Hs]%crc_step_inj; [|done..]. rewrite !crc_index_lxor, !(Z.lxor_comm _ (Z.land b _)) in He. apply lxor_cancel_l in He.
  rewrite (split_byte r1), (split_byte r2). by rewrite He, Hs.
Qed.

Lemma crc_loop_inj l : forall r1 r2, is_u32 r1 -> is_u32 r2 -> crc_loop l r1 = crc_loop l r2 -> r1 = r2.
Proof.
  induction l as [|b l IH]; intros r1 r2 H1 H2 He; [done|]. cbn in He.
  apply (crc_step_remainder r1 r2 b H1 H2). apply IH; [by apply crc_step_u32..|exact He].
Qed.

Lemma crc_loop_u32 l : forall r, is_u32 r -> is_u32 (crc_loop l r).
Proof. induction l as [|b l IH]; intros r Hr; [done|]. cbn. by apply IH, crc_step_u32. Qed.

Lemma crc_loop_detects l1 b b' l2 r :
  is_u32 r -> is_u8 b -> is_u8 b' -> crc_loop (l1 ++ b :: l2) r = crc_loop (l1 ++ b' :: l2) r -> b = b'.
Proof.
  intros Hr Hb Hb' He. unfold crc_loop in He. rewrite !foldl_app in He. cbn [foldl] in He.
  fold (crc_loop l1 r) in He. pose proof (crc_loop_u32 l1 r Hr) as Hr1.
  apply crc_loop_inj in He; [|by apply crc_step_u32..]. by eapply crc_step_byte.
Qed.

(** ** Witness *)

Definition blank_block : list Z := replicate (Z.to_nat session_size) 0.

Lemma blank_block_bytes : bytes blank_block /\ Z.of_nat (length blank_block) = session_size.
Proof.
  unfold blank_block. split; [by apply Forall_replicate; split|]. rewrite length_replicate. apply Z2Nat.id. by vm_compute.
Qed.

Lemma calculateCRC_reference_witness :
  Z.of_nat (length blank_block) = session_size /\
  calculateCRC blank_block (Z.of_nat (length blank_block))
  = Some (Z.lxor (crc_reference (take (Z.to_nat (session_size - 8)) (drop 8 blank_block)) 0xFFFFFFFF) 0xFFFFFFFF).
Proof.
  destruct blank_block_bytes as [Hb Hl]. refine (conj Hl _).
  apply (calculateCRC_reference blank_block); [exact Hb|]. rewrite Hl. apply Z.le_refl.
Defined.
