(* ===== verification/FireworksSession.v ===== *)
(** * FireworksSession: fireworks/fireworks_session_block

    The session block of a FireWorks device: its two structures with their
    layout in memory, the checksum, loading and saving from and to memory and
    the flash of the device.  Saving what was loaded and loading what was saved
    are exact.  Files are not modelled. *)
From stdpp Require Import list.
From S2P Require Import Prelude StateMonad Serialize Memory Efc EfcCommands EfcDevice EfcFlash FlashDevice FlashMemory SessionCrc.

(** ** Layouts

    How a value lies in memory, with the laws of a layout; the layouts of the
    structures are put together from those of their members. *)
Record layout (T : Type) := mkLayout {
  l_size : nat;
  l_bytes : T -> list Z;
  l_parse : list Z -> T;
  l_valid : T -> Prop;
  l_length : forall t, l_valid t -> length (l_bytes t) = l_size;
  l_u8 : forall t, bytes (l_bytes t);
  l_parse_bytes : forall t, l_valid t -> l_parse (l_bytes t) = t;
  l_bytes_parse : forall l, length l = l_size -> bytes l -> l_bytes (l_parse l) = l /\ l_valid (l_parse l) }.
Arguments l_size {T} _.
Arguments l_bytes {T} _ _.
Arguments l_parse {T} _ _.
Arguments l_valid {T} _ _.
Arguments l_length {T} _ _ _.
Arguments l_u8 {T} _ _.
Arguments l_parse_bytes {T} _ _ _.
Arguments l_bytes_parse {T} _ _ _ _.

(** a [uint32_t] on a little endian host *)
Definition word_parse (l : list Z) : Z := match l with b0 :: b1 :: b2 :: b3 :: _ => word_of b0 b1 b2 b3 | _ => 0 end.

Lemma quadlet_bytes_u8 v : bytes (quadlet_bytes v).
Proof. repeat constructor; apply wrapU_uint; lia. Qed.

Lemma quadlet_bytes_parse b0 b1 b2 b3 :
  is_u8 b0 -> is_u8 b1 -> is_u8 b2 -> is_u8 b3 -> quadlet_bytes (word_of b0 b1 b2 b3) = [b0; b1; b2; b3].
Proof.
  intros H0 H1 H2 H3. destruct (word_of_byte b0 b1 b2 b3 H0 H1 H2 H3) as (E0 & E1 & E2 & E3).
  unfold quadlet_bytes, wrapU. rewrite !Z.shiftr_div_pow2 by lia. by rewrite E0, E1, E2, E3.
Qed.

Lemma four_bytes (l : list Z) : length l = 4%nat -> bytes l -> exists b0 b1 b2 b3, l = [b0; b1; b2; b3] /\ is_u8 b0 /\ is_u8 b1 /\ is_u8 b2 /\ is_u8 b3.
Proof.
  intros Hl Hb. destruct l as [|b0 [|b1 [|b2 [|b3 [|? ?]]]]]; try done. unfold bytes in Hb. rewrite !Forall_cons in Hb.
  exists b0, b1, b2, b3. tauto.
Qed.

Definition uint32_layout : layout Z.
Proof.
  refine (mkLayout Z 4 quadlet_bytes word_parse is_u32 _ quadlet_bytes_u8 _ _).
  - done.
  - intros v Hv. unfold quadlet_bytes, word_parse. rewrite <- quadlet_bytes_word. by apply wrapU_small.
  - intros l Hl Hb. destruct (four_bytes l Hl Hb) as (b0 & b1 & b2 & b3 & -> & H0 & H1 & H2 & H3). cbn [word_parse].
    split; [by apply quadlet_bytes_parse|by apply word_of_u32].
Defined.

Lemma quadlet_bytes_u32 v : quadlet_bytes (u32 v) = quadlet_bytes v.
Proof.
  unfold quadlet_bytes, wrapU. rewrite !Z.shiftr_div_pow2 by lia.
  change (2 ^ 32) with 4294967296; change (2 ^ 24) with 16777216; change (2 ^ 16) with 65536; change (2 ^ 8) with 256.
  f_equal; [div_lia|f_equal; [div_lia|f_equal; [div_lia|f_equal; div_lia]]].
Qed.

Definition int32_layout : layout Z.
Proof.
  refine (mkLayout Z 4 quadlet_bytes (fun l => s32 (word_parse l)) (sint 32) _ quadlet_bytes_u8 _ _).
  - done.
  - intros v Hv. unfold quadlet_bytes, word_parse. rewrite <- quadlet_bytes_word. unfold wrapS, wrapU, sint in *.
    change (32 - 1) with 31 in *. change (2 ^ 31) with 2147483648 in *. change (2 ^ 32) with 4294967296 in *. div_lia.
  - intros l Hl Hb. destruct (four_bytes l Hl Hb) as (b0 & b1 & b2 & b3 & -> & H0 & H1 & H2 & H3). cbn [word_parse].
    split; [|by apply wrapS_sint]. rewrite <- quadlet_bytes_u32.
    replace (u32 (s32 (word_of b0 b1 b2 b3))) with (word_of b0 b1 b2 b3); [by apply quadlet_bytes_parse|].
    pose proof (word_of_u32 b0 b1 b2 b3 H0 H1 H2 H3) as Hw. unfold wrapS, wrapU, uint in *.
    change (32 - 1) with 31 in *. change (2 ^ 31) with 2147483648 in *. change (2 ^ 32) with 4294967296 in *. div_lia.
Defined.

(** the representation of a byte that is not one is cut off *)
Definition byte_layout : layout Z.
Proof.
  refine (mkLayout Z 1 (fun v => [u8 v]) (fun l => match l with b :: _ => b | [] => 0 end) is_u8 _ _ _ _).
  - done.
  - intros v. constructor; [by apply wrapU_uint|done].
  - intros v Hv. by apply wrapU_small.
  - intros l Hl Hb. destruct l as [|b [|? ?]]; try done. apply Forall_cons in Hb as [Hb _]. by rewrite wrapU_small.
Defined.

Definition pair_layout {A B} (la : layout A) (lb : layout B) : layout (A * B).
Proof.
  refine (mkLayout (A * B) (l_size la + l_size lb) (fun t => l_bytes la t.1 ++ l_bytes lb t.2)
    (fun l => (l_parse la (take (l_size la) l), l_parse lb (drop (l_size la) l))) (fun t => l_valid la t.1 /\ l_valid lb t.2) _ _ _ _).
  - intros t [Ha Hb]. by rewrite length_app, (l_length la), (l_length lb).
  - intros t. apply Forall_app. split; apply l_u8.
  - intros [a b] [Ha Hb]. cbn [fst snd] in *. rewrite take_app_length', drop_app_length' by (symmetry; by apply l_length). by rewrite !l_parse_bytes.
  - intros l Hl Hu. cbn [fst snd].
    destruct (l_bytes_parse la (take (l_size la) l)) as [-> Ha]; [rewrite length_take; lia|by apply Forall_take|].
    destruct (l_bytes_parse lb (drop (l_size la) l)) as [-> Hb]; [rewrite length_drop; lia|by apply Forall_drop|].
    by rewrite take_drop.
Defined.

Section array.
Context {T : Type} (lt : layout T).

Fixpoint array_parse (n : nat) (l : list Z) : list T :=
  match n with O => [] | S n' => l_parse lt (take (l_size lt) l) :: array_parse n' (drop (l_size lt) l) end.

Lemma array_parse_bytes ts : Forall (l_valid lt) ts -> array_parse (length ts) (ts ≫= l_bytes lt) = ts.
Proof.
  induction 1 as [|t ts Ht _ IH]; [done|]. cbn [length array_parse]. rewrite bind_cons.
  rewrite take_app_length', drop_app_length' by (symmetry; by apply l_length). by rewrite l_parse_bytes, IH.
Qed.

Lemma array_bytes_parse n : forall l, length l = (n * l_size lt)%nat -> bytes l ->
  array_parse n l ≫= l_bytes lt = l /\ length (array_parse n l) = n /\ Forall (l_valid lt) (array_parse n l).
Proof.
  induction n as [|n IH]; intros l Hl Hb; cbn [array_parse]; [by destruct l|].
  destruct (l_bytes_parse lt (take (l_size lt) l)) as [H1 H2]; [rewrite length_take; lia|by apply Forall_take|].
  destruct (IH (drop (l_size lt) l)) as (H3 & H4 & H5); [rewrite length_drop; lia|by apply Forall_drop|].
  rewrite bind_cons, H1, H3, take_drop. cbn [length]. rewrite H4. split; [done|]. split; [done|]. by constructor.
Qed.

Definition array_layout (n : nat) : layout (list T).
Proof.
  refine (mkLayout (list T) (n * l_size lt) (fun ts => ts ≫= l_bytes lt) (array_parse n)
    (fun ts => length ts = n /\ Forall (l_valid lt) ts) _ _ _ _).
  - intros ts [<- Hv]. induction Hv as [|t ts Ht _ IH]; [done|]. rewrite bind_cons, length_app, IH, (l_length lt) by done. cbn. lia.
  - intros ts. induction ts as [|t ts IH]; [constructor|]. rewrite bind_cons. apply Forall_app. split; [apply l_u8|done].
  - intros ts [<- Hv]. by apply array_parse_bytes.
  - intros l Hl Hb. destruct (array_bytes_parse n l Hl Hb) as (H1 & H2 & H3). by split_and!.
Defined.
End array.

(** a structure is laid out as the tuple of its members *)
Definition struct_layout {A B} (la : layout A) (f : A -> B) (g : B -> A) (gf : forall a, g (f a) = a) (fg : forall b, f (g b) = b) : layout B.
Proof.
  refine (mkLayout B (l_size la) (fun b => l_bytes la (g b)) (fun l => f (l_parse la l)) (fun b => l_valid la (g b)) _ _ _ _).
  - intros b Hb. by apply l_length.
  - intros b. apply l_u8.
  - intros b Hb. by rewrite l_parse_bytes, fg.
  - intros l Hl Hb. rewrite gf. by apply l_bytes_parse.
Defined.

(** ** The session block *)

Definition ECHO_SESSION_MAX_PHY_AUDIO_IN : nat := 40.
Definition ECHO_SESSION_MAX_PHY_AUDIO_OUT : nat := 40.
Definition ECHO_SESSION_MAX_LABEL_SIZE : nat := 22.

Record InputSettings := mkInputSettings { in_shift : Z; in_pad : Z; in_label : list Z }.
Record PlaybackSettings := mkPlaybackSettings { pb_mute : Z; pb_solo : Z; pb_label : list Z }.
Record OutputSettings := mkOutputSettings { out_mute : Z; out_shift : Z; out_label : list Z }.

(** [monitorpans] and [monitorflags] are arrays of [OUT] columns in a row *)
Record SubSession := mkSubSession {
  ss_inputs : list InputSettings;
  ss_monitorpans : list Z;
  ss_monitorflags : list Z;
  ss_playbacks : list PlaybackSettings;
  ss_outputs : list OutputSettings }.

Record IsoChannelMap := mkIsoChannelMap {
  cm_samplerate : Z;
  cm_flags : Z;
  cm_num_playmap_entries : Z;
  cm_num_phys_out : Z;
  cm_playmap : list Z;
  cm_num_recmap_entries : Z;
  cm_num_phys_in : Z;
  cm_recmap : list Z }.

Record SessionHeader := mkSessionHeader {
  sh_size_quads : Z;
  sh_crc : Z;
  sh_version : Z;
  sh_flags : Z;
  sh_mirror_channel : Z;
  sh_digital_mode : Z;
  sh_clock : Z;
  sh_rate : Z;
  sh_monitorgains : list Z;
  sh_playbackgains : list Z;
  sh_outputgains : list Z;
  sh_ChannelMap2X : IsoChannelMap;
  sh_ChannelMap4X : IsoChannelMap }.

Record Session := mkSession { sn_h : SessionHeader; sn_s : SubSession }.

Local Infix "⊗" := pair_layout (at level 60, right associativity).

Definition label_layout : layout (list Z) := array_layout byte_layout ECHO_SESSION_MAX_LABEL_SIZE.

Definition InputSettings_layout : layout InputSettings.
Proof.
  refine (struct_layout (byte_layout ⊗ byte_layout ⊗ label_layout)
    (fun '(a, (b, c)) => mkInputSettings a b c) (fun t => (in_shift t, (in_pad t, in_label t))) _ _); [by intros (? & ? & ?)|by intros []].
Defined.

Definition PlaybackSettings_layout : layout PlaybackSettings.
Proof.
  refine (struct_layout (byte_layout ⊗ byte_layout ⊗ label_layout)
    (fun '(a, (b, c)) => mkPlaybackSettings a b c) (fun t => (pb_mute t, (pb_solo t, pb_label t))) _ _); [by intros (? & ? & ?)|by intros []].
Defined.

Definition OutputSettings_layout : layout OutputSettings.
Proof.
  refine (struct_layout (byte_layout ⊗ byte_layout ⊗ label_layout)
    (fun '(a, (b, c)) => mkOutputSettings a b c) (fun t => (out_mute t, (out_shift t, out_label t))) _ _); [by intros (? & ? & ?)|by intros []].
Defined.

Definition monitor_cells : nat := ECHO_SESSION_MAX_PHY_AUDIO_IN * ECHO_SESSION_MAX_PHY_AUDIO_OUT.

Definition SubSession_layout : layout SubSession.
Proof.
  refine (struct_layout
    (array_layout InputSettings_layout ECHO_SESSION_MAX_PHY_AUDIO_IN ⊗ array_layout byte_layout monitor_cells
     ⊗ array_layout byte_layout monitor_cells ⊗ array_layout PlaybackSettings_layout ECHO_SESSION_MAX_PHY_AUDIO_OUT
     ⊗ array_layout OutputSettings_layout ECHO_SESSION_MAX_PHY_AUDIO_OUT)
    (fun '(a, (b, (c, (d, e)))) => mkSubSession a b c d e)
    (fun t => (ss_inputs t, (ss_monitorpans t, (ss_monitorflags t, (ss_playbacks t, ss_outputs t))))) _ _);
    [by intros (? & ? & ? & ? & ?)|by intros []].
Defined.

Definition map_layout : layout (list Z) := array_layout uint32_layout (Z.to_nat EFC_MAX_ISOC_MAP_ENTRIES).

Definition IsoChannelMap_layout : layout IsoChannelMap.
Proof.
  refine (struct_layout
    (uint32_layout ⊗ uint32_layout ⊗ uint32_layout ⊗ uint32_layout ⊗ map_layout ⊗ uint32_layout ⊗ uint32_layout ⊗ map_layout)
    (fun '(a, (b, (c, (d, (e, (f, (g, h))))))) => mkIsoChannelMap a b c d e f g h)
    (fun t => (cm_samplerate t, (cm_flags t, (cm_num_playmap_entries t, (cm_num_phys_out t, (cm_playmap t,
       (cm_num_recmap_entries t, (cm_num_phys_in t, cm_recmap t)))))))) _ _);
    [by intros (? & ? & ? & ? & ? & ? & ? & ?)|by intros []].
Defined.

Definition SessionHeader_layout : layout SessionHeader.
Proof.
  refine (struct_layout
    (uint32_layout ⊗ uint32_layout ⊗ uint32_layout ⊗ uint32_layout ⊗ int32_layout ⊗ int32_layout ⊗ int32_layout ⊗ int32_layout
     ⊗ array_layout uint32_layout monitor_cells ⊗ array_layout uint32_layout ECHO_SESSION_MAX_PHY_AUDIO_OUT
     ⊗ array_layout uint32_layout ECHO_SESSION_MAX_PHY_AUDIO_OUT ⊗ IsoChannelMap_layout ⊗ IsoChannelMap_layout)
    (fun '(a, (b, (c, (d, (e, (f, (g, (h, (i, (j, (k, (l, m)))))))))))) => mkSessionHeader a b c d e f g h i j k l m)
    (fun t => (sh_size_quads t, (sh_crc t, (sh_version t, (sh_flags t, (sh_mirror_channel t, (sh_digital_mode t, (sh_clock t,
       (sh_rate t, (sh_monitorgains t, (sh_playbackgains t, (sh_outputgains t, (sh_ChannelMap2X t, sh_ChannelMap4X t))))))))))))) _ _);
    [by intros (? & ? & ? & ? & ? & ? & ? & ? & ? & ? & ? & ? & ?)|by intros []].
Defined.

(** the sizes that the checksum is computed with are those of the structures *)
Lemma sizeof_session : Z.of_nat (l_size SessionHeader_layout) = sizeof_SessionHeader /\ Z.of_nat (l_size SubSession_layout) = sizeof_SubSession.
Proof. split; vm_compute; reflexivity. Qed.

(** The object before the first load is [None]: the constructor leaves [h]
    and [s] uninitialised. *)
Definition loadFromMemory (buff : list Z) (len : Z) (o : option Session) : option (bool * option Session) :=
  if negb (len =? session_size) then Some (false, o)
  else if decide (session_size <= Z.of_nat (length buff)) then
    let raw := take (Z.to_nat sizeof_SessionHeader) buff in
    let sub := take (Z.to_nat sizeof_SubSession) (drop (Z.to_nat sizeof_SessionHeader) buff) in
    Some (true, Some (mkSession (l_parse SessionHeader_layout raw) (l_parse SubSession_layout sub)))
  else None.

Definition session_bytes (o : Session) : list Z := l_bytes SessionHeader_layout (sn_h o) ++ l_bytes SubSession_layout (sn_s o).

(** the result and the block *)
Definition saveToMemory (buff : list Z) (max_len : Z) (o : Session) : option (bool * list Z) :=
  if max_len <? session_size then Some (false, buff)
  else if decide (session_size <= Z.of_nat (length buff)) then Some (true, session_bytes o ++ drop (Z.to_nat session_size) buff)
  else None.

(** [calculateCRC()] of the object itself *)
Definition Session_calculateCRC (o : Session) : option Z := SessionCrc.calculateCRC (session_bytes o) session_size.

Definition sh_with_crc (crc : Z) (h : SessionHeader) : SessionHeader :=
  mkSessionHeader (sh_size_quads h) crc (sh_version h) (sh_flags h) (sh_mirror_channel h) (sh_digital_mode h) (sh_clock h) (sh_rate h)
    (sh_monitorgains h) (sh_playbackgains h) (sh_outputgains h) (sh_ChannelMap2X h) (sh_ChannelMap4X h).

Definition with_crc (crc : Z) (o : Session) : Session := mkSession (sh_with_crc crc (sn_h o)) (sn_s o).

(** [uint32_t data[len/4]] as bytes, and the other way round *)
Definition words_bytes (l : list Z) : list Z := l ≫= quadlet_bytes.
Definition bytes_words (l : list Z) : list Z := array_parse uint32_layout (Nat.div (length l) 4) l.

(** The loops of the flash end within this: 53 reads, one write command for
    each of them, two blocks with up to ten more tries. *)
Definition flash_fuel : nat := 64.
Definition erase_read_fuel : nat := 130.

Section device.
Context {W : Type} `{!EfcBus W}.
Abbreviation M := (StM (EfcDevice W)).

Definition loadFromDevice (o : option Session) : M (bool * option Session) :=
  let len := session_size in
  start ← getSessionBase;
  if start =? 0 then mret (false, o)
  else
    '(ok, data) ← readFlash flash_fuel start (len / 4) (replicate (Z.to_nat (len / 4)) None);
    if negb ok then mret (false, o)
    else
      words ← st_option (mapM (fun w => w) data);
      st_option (loadFromMemory (words_bytes words) len o).

Definition saveToDevice (o : Session) : M (bool * Session) :=
  let len := session_size in
  start ← getSessionBase;
  if start =? 0 then mret (false, o)
  else
    crc ← st_option (Session_calculateCRC o);
    let o := with_crc crc o in
    '(ok, data) ← st_option (saveToMemory (replicate (Z.to_nat len) 0) len o);
    if negb ok then mret (false, o)
    else
      ok ← lockFlash true;
      if negb ok then mret (false, o)
      else
        ok ← eraseFlashBlocks flash_fuel erase_read_fuel start (len / 4);
        if negb ok then mret (false, o)
        else
          ok ← writeFlash flash_fuel start (len / 4) (bytes_words data);
          if negb ok then mret (false, o)
          else
            ok ← lockFlash false;
            mret (ok, o).

(** [Device::saveSession] and [Device::loadSession] *)
Definition saveSession (o : Session) : M (bool * Session) :=
  '(_, o) ← saveToDevice o; mret (true, o).

Definition loadSession (o : option Session) : M (bool * option Session) := loadFromDevice o.
End device.

(** ** Memory *)

Definition session_valid (o : Session) : Prop := l_valid SessionHeader_layout (sn_h o) /\ l_valid SubSession_layout (sn_s o).

Lemma session_bytes_length o : session_valid o -> Z.of_nat (length (session_bytes o)) = session_size.
Proof.
  intros [Hh Hs]. unfold session_bytes. rewrite length_app, (l_length _ _ Hh), (l_length _ _ Hs), Nat2Z.inj_add.
  destruct sizeof_session as [-> ->]. done.
Qed.

Lemma session_bytes_u8 o : bytes (session_bytes o).
Proof. apply Forall_app. split; apply l_u8. Qed.

Lemma loadFromMemory_saved o old : session_valid o -> loadFromMemory (session_bytes o) session_size old = Some (true, Some o).
Proof.
  intros Hv. pose proof (session_bytes_length o Hv) as Hl. destruct Hv as [Hh Hs]. destruct sizeof_session as [E1 E2].
  unfold loadFromMemory. rewrite Z.eqb_refl, decide_True by lia. cbn [negb]. cbv zeta. rewrite <- E1, <- E2, !Nat2Z.id.
  unfold session_bytes. rewrite take_app_length', drop_app_length' by (symmetry; by apply l_length).
  rewrite (firstn_all2 (l_bytes SubSession_layout _)) by (rewrite (l_length _ _ Hs); lia).
  rewrite !l_parse_bytes by done. by destruct o.
Qed.

(** a block of memory that was loaded is saved as it was *)
Lemma saveToMemory_loaded buff old target :
  Z.of_nat (length buff) = session_size -> bytes buff -> Z.of_nat (length target) = session_size ->
  exists o, loadFromMemory buff session_size old = Some (true, Some o) /\ session_valid o /\
    saveToMemory target session_size o = Some (true, buff).
Proof.
  intros Hl Hb Ht. destruct sizeof_session as [E1 E2]. unfold session_size in Hl. rewrite <- E1, <- E2 in Hl.
  set (nh := l_size SessionHeader_layout) in *. set (ns := l_size SubSession_layout) in *.
  destruct (l_bytes_parse SessionHeader_layout (take nh buff)) as [Hh1 Hh2]; [fold nh; rewrite length_take; lia|by apply Forall_take|].
  destruct (l_bytes_parse SubSession_layout (take ns (drop nh buff))) as [Hs1 Hs2];
    [fold ns; rewrite length_take, length_drop; lia|by apply Forall_take, Forall_drop|].
  eexists. split; [|split].
  - unfold loadFromMemory. rewrite Z.eqb_refl, decide_True by (unfold session_size; lia). cbn [negb]. cbv zeta.
    rewrite <- E1, <- E2, !Nat2Z.id. reflexivity.
  - by split.
  - unfold saveToMemory. destruct (Z.ltb_spec session_size session_size); [lia|]. rewrite decide_True by lia.
    unfold session_bytes. cbn [sn_h sn_s]. fold nh ns. rewrite Hh1, Hs1. rewrite (drop_ge target) by lia. rewrite app_nil_r.
    rewrite (firstn_all2 (drop nh buff)) by (rewrite length_drop; lia). by rewrite take_drop.
Qed.

(** the checksum covers neither itself nor the size *)
Lemma session_bytes_crc crc o : drop 8 (session_bytes (with_crc crc o)) = drop 8 (session_bytes o).
Proof. reflexivity. Qed.

Lemma calculateCRC_drop (l1 l2 : list Z) :
  length l1 = length l2 -> drop 8 l1 = drop 8 l2 -> SessionCrc.calculateCRC l1 session_size = SessionCrc.calculateCRC l2 session_size.
Proof.
  intros Hl Hd. unfold SessionCrc.calculateCRC. rewrite Hl. change (Z.to_nat ECHO_SESSION_CRC_START_OFFSET_BYTES) with 8%nat. by rewrite Hd.
Qed.

Lemma with_crc_valid crc o : is_u32 crc -> session_valid o -> session_valid (with_crc crc o).
Proof. intros Hc [(H1 & H2 & H3) Hs]. exact (conj (conj H1 (conj Hc H3)) Hs). Qed.

Lemma Session_calculateCRC_some o : session_valid o -> exists crc, Session_calculateCRC o = Some crc /\ is_u32 crc.
Proof.
  intros Hv. pose proof (session_bytes_length o Hv) as Hl. unfold Session_calculateCRC, SessionCrc.calculateCRC.
  destruct (Z.ltb_spec session_size session_size); [lia|]. rewrite decide_True by lia. eexists. split; [reflexivity|].
  apply lxor_small; [lia|by apply crc_loop_u32|done].
Qed.

Lemma Session_calculateCRC_with crc o : session_valid o -> is_u32 crc -> Session_calculateCRC (with_crc crc o) = Session_calculateCRC o.
Proof.
  intros Hv Hc. pose proof (session_bytes_length _ Hv) as H1. pose proof (session_bytes_length _ (with_crc_valid crc o Hc Hv)) as H2.
  apply calculateCRC_drop; [lia|]. apply session_bytes_crc.
Qed.

(** ** Words *)

Lemma words_bytes_words l n : length l = (4 * n)%nat -> bytes l ->
  words_bytes (bytes_words l) = l /\ length (bytes_words l) = n /\ Forall is_u32 (bytes_words l).
Proof.
  intros Hl Hb. unfold bytes_words. rewrite Hl, (Nat.mul_comm 4), Nat.div_mul by done.
  apply (array_bytes_parse uint32_layout n l); [cbn; lia|done].
Qed.

Lemma mapM_Some (l : list Z) : mapM (fun w : option Z => w) (Some <$> l) = Some l.
Proof. induction l as [|v l IH]; [done|]. rewrite fmap_cons. cbn [mapM]. by rewrite IH. Qed.

Lemma programmed_erased (f g : Z -> Z) a vs :
  (forall q, f q = match load vs (q - a) with Some v => Z.land (g q) v | None => g q end) ->
  (forall q, a <= q < a + Z.of_nat (length vs) -> g q = erased_word) -> Forall is_u32 vs ->
  (fun i => f (a + i)) <$> seqZ 0 (Z.of_nat (length vs)) = vs.
Proof.
  intros Hf Hg Hvs. apply list_eq. intros i. rewrite list_lookup_fmap. destruct (decide (i < length vs)%nat) as [Hi|Hi].
  - rewrite lookup_seqZ_lt by lia. cbn [fmap option_fmap option_map]. rewrite Hf.
    destruct (lookup_lt_is_Some_2 vs i Hi) as [v Hv].
    assert (Hld : load vs (a + (0 + Z.of_nat i) - a) = Some v).
    { rewrite load_index, decide_True by lia. replace (Z.to_nat (a + (0 + Z.of_nat i) - a)) with i by lia. done. }
    rewrite Hld, Hg, Hv by lia. f_equal. change erased_word with (Z.ones 32). rewrite Z.land_comm, Z.land_ones by lia.
    apply Z.mod_small. exact (Forall_lookup_1 _ _ _ _ Hvs Hv).
  - rewrite lookup_seqZ_ge by lia. symmetry. apply lookup_ge_None_2. lia.
Qed.

Section roundtrip.
Context {W : Type} `{!EfcBus W} `{!FlashDevice W}.
Implicit Types d : EfcDevice W.

(** the driver knows the flags of the hardware *)
Definition flags_known d : Prop := is_Some (hi_flags (m_HwInfo d)).

Lemma moved_flags d d1 : moved d d1 -> flags_known d -> flags_known d1.
Proof. intros -> Hf. exact Hf. Qed.

Lemma lockFlash_locks d lock :
  flash_ready d -> fd_busy (m_world d) = O -> flags_known d ->
  exists d1, lockFlash lock d = Some (true, d1) /\ kept d d1.
Proof.
  intros Hr Hb [flags Hfl]. pose proof Hr as (Hnode & Hs & Hok). unfold lockFlash.
  rewrite (st_bind_eq _ _ d (m_HwInfo d) d) by reflexivity.
  rewrite (st_bind_eq _ _ d (EFC_CMD_HW_CHECK_FLAG flags EFC_CMD_HW_HAS_DSP) d) by (unfold hasDSP, hi_flag; by rewrite Hfl).
  destruct (EFC_CMD_HW_CHECK_FLAG flags EFC_CMD_HW_HAS_DSP).
  - exists d. refine (conj eq_refl (conj Hr (conj Hb (conj _ _)))); reflexivity.
  - destruct (exchange_lock d lock (fun retval w1 => retval = eERV_Ok /\ fd_ok w1 /\ fd_busy w1 = fd_busy (m_world d) /\
      forall q, fd_flash w1 q = fd_flash (m_world d) q)) as (rv & w1 & c1 & seqnum & Hdo & Hsq & (-> & Hw1 & Hw2 & Hw3));
      [done|rewrite Hnode; by apply fd_lock|].
    exists (dev_with_bus seqnum w1 d). rewrite (st_bind_eq _ _ _ _ _ Hdo). rewrite Hb in Hw2.
    exact (conj eq_refl (conj (conj Hnode (conj Hsq Hw1)) (conj Hw2 (conj (moved_bus d seqnum w1) Hw3)))).
Qed.

Lemma getSessionBase_base d :
  flash_ready d -> fd_busy (m_world d) = O -> exists d1, getSessionBase d = Some (fd_base, d1) /\ kept d d1.
Proof.
  intros (Hnode & Hs & Hok) Hb.
  destruct (getSessionBase_answered d fd_base (fun w1 => fd_ok w1 /\ fd_busy w1 = fd_busy (m_world d) /\
    forall q, fd_flash w1 q = fd_flash (m_world d) q) Hs) as (w1 & seqnum & Hgo & Hsq & (Hw1 & Hw2 & Hw3)).
  { rewrite Hnode. by apply fd_session_base. }
  exists (dev_with_bus seqnum w1 d). rewrite Hb in Hw2.
  exact (conj Hgo (conj (conj Hnode (conj Hsq Hw1)) (conj Hw2 (conj (moved_bus d seqnum w1) Hw3)))).
Qed.

(** the device keeps its session block at the start of an erase block *)
Definition base_fits : Prop :=
  0 < fd_base /\ fd_base mod blocksize_bytes fd_base = 0 /\ fd_base + session_size <= FLASH_SIZE_BYTES.

Definition session_words : Z := session_size / 4.

(** the words of the session block are in the flash *)
Definition stores d (o : Session) : Prop := flash_words d fd_base session_words = bytes_words (session_bytes o).

Lemma session_words_spec o : session_valid o ->
  words_bytes (bytes_words (session_bytes o)) = session_bytes o /\ Z.of_nat (length (bytes_words (session_bytes o))) = session_words /\
  Forall is_u32 (bytes_words (session_bytes o)).
Proof.
  intros Hv. destruct (words_bytes_words (session_bytes o) (Z.to_nat session_words)) as (H1 & H2 & H3).
  - pose proof (session_bytes_length o Hv) as Hl. change session_size with 13392 in Hl. change (Z.to_nat session_words) with (Z.to_nat 3348). lia.
  - apply session_bytes_u8.
  - split; [exact H1|]. split; [|exact H3]. rewrite H2. apply Z2Nat.id. unfold session_words. by vm_compute.
Qed.

Lemma loadFromDevice_loads d o old :
  flash_ready d -> fd_busy (m_world d) = O -> base_fits -> session_valid o -> stores d o ->
  exists d1, loadFromDevice old d = Some ((true, Some o), d1) /\ kept d d1.
Proof.
  intros Hr Hb (Hb0 & Hbm & Hbl) Hv Hst. unfold loadFromDevice. change (session_size / 4) with session_words.
  destruct (getSessionBase_base d Hr Hb) as (d1 & Hgo1 & Hk1). rewrite (st_bind_eq _ _ _ _ _ Hgo1).
  rewrite (proj2 (Z.eqb_neq fd_base 0)) by lia. pose proof Hk1 as (Hr1 & Hb1 & Hm1 & Hf1).
  assert (Hm4 : fd_base mod 4 = 0).
  { revert Hbm. unfold blocksize_bytes, PROGRAMBLOCK_SIZE_BYTES, MAINBLOCK_SIZE_BYTES. destruct (fd_base <? _); div_lia. }
  set (arr := replicate (Z.to_nat session_words) None).
  assert (Hal : Z.of_nat (length arr) = session_words) by (unfold arr; rewrite length_replicate; apply Z2Nat.id; by vm_compute).
  destruct (readFlash_reads flash_fuel fd_base session_words arr d1 Hr1 Hb1) as (d2 & Hgo2 & Hk2);
    [lia|exact Hm4|by vm_compute|change session_words with 3348; change session_size with 13392 in Hbl; lia|lia|by vm_compute|].
  rewrite (st_bind_eq _ _ _ _ _ Hgo2). cbv beta iota. cbn [negb].
  rewrite (flash_words_same d d1), Hst by done. destruct (session_words_spec o Hv) as (Hw1 & Hw2 & _).
  rewrite list_inserts_front by (rewrite length_fmap; lia). rewrite (drop_ge arr) by (rewrite length_fmap; lia). rewrite app_nil_r, mapM_Some.
  rewrite (st_bind_eq _ _ d2 (bytes_words (session_bytes o)) d2) by reflexivity. rewrite Hw1, (loadFromMemory_saved o old Hv).
  exists d2. exact (conj eq_refl (kept_trans _ _ _ Hk1 Hk2)).
Qed.

(** [saveToDevice] sets the checksum and leaves the block in the flash *)
Lemma saveToDevice_stores d o :
  flash_ready d -> fd_busy (m_world d) = O -> flags_known d -> base_fits -> session_valid o ->
  exists crc d1, Session_calculateCRC o = Some crc /\ is_u32 crc /\ saveToDevice o d = Some ((true, with_crc crc o), d1) /\
    idle d d1 /\ stores d1 (with_crc crc o).
Proof.
  intros Hr Hb Hfk (Hb0 & Hbm & Hbl) Hv. destruct (Session_calculateCRC_some o Hv) as (crc & Hcrc & Hcu).
  exists crc. set (o1 := with_crc crc o). assert (Hv1 : session_valid o1) by by apply with_crc_valid.
  destruct (session_words_spec o1 Hv1) as (Hw1 & Hw2 & Hw3). set (words := bytes_words (session_bytes o1)) in *.
  change session_words with 3348 in Hw2. change session_size with 13392 in Hbl. unfold FLASH_SIZE_BYTES in Hbl.
  assert (Hm4 : fd_base mod 4 = 0).
  { revert Hbm. unfold blocksize_bytes, PROGRAMBLOCK_SIZE_BYTES, MAINBLOCK_SIZE_BYTES. destruct (fd_base <? _); div_lia. }
  unfold saveToDevice. destruct (getSessionBase_base d Hr Hb) as (d1 & Hgo1 & Hk1). rewrite (st_bind_eq _ _ _ _ _ Hgo1).
  rewrite (proj2 (Z.eqb_neq fd_base 0)) by lia. pose proof Hk1 as (Hr1 & Hb1 & Hm1 & Hf1).
  rewrite Hcrc, (st_bind_eq _ _ d1 crc d1) by reflexivity. cbv zeta. fold o1.
  assert (Hsave : saveToMemory (replicate (Z.to_nat session_size) 0) session_size o1 = Some (true, session_bytes o1)).
  { unfold saveToMemory. destruct (Z.ltb_spec session_size session_size); [lia|].
    rewrite decide_True by (rewrite length_replicate, Z2Nat.id; [lia|by vm_compute]).
    rewrite drop_ge by (rewrite length_replicate; lia). by rewrite app_nil_r. }
  rewrite Hsave, (st_bind_eq _ _ d1 (true, session_bytes o1) d1) by reflexivity. cbv beta iota. cbn [negb].
  destruct (lockFlash_locks d1 true Hr1 Hb1 (moved_flags _ _ Hm1 Hfk)) as (d2 & Hgo2 & Hk2).
  rewrite (st_bind_eq _ _ _ _ _ Hgo2). cbn [negb]. pose proof Hk2 as (Hr2 & Hb2 & Hm2 & Hf2).
  change (session_size / 4) with 3348.
  destruct (erase_loop_erases flash_fuel erase_read_fuel fd_base 3348 d2 Hr2 Hb2) as (d3 & stop & Hgo3 & Hi3 & Hst & He3);
    [lia|exact Hbm|lia|unfold FLASH_SIZE_BYTES; lia|by vm_compute|by vm_compute|].
  unfold eraseFlashBlocks. rewrite (st_bind_eq _ _ _ _ _ Hgo3). cbn [negb]. pose proof Hi3 as (Hr3 & Hb3 & Hm3).
  destruct (writeFlash_writes flash_fuel fd_base words d3 Hr3 Hb3 Hw3) as (d4 & Hgo4 & Hi4 & Hp4);
    [lia|exact Hm4|lia|unfold FLASH_SIZE_BYTES; lia|rewrite Hw2; by vm_compute|].
  rewrite Hw2 in Hgo4. fold words. rewrite (st_bind_eq _ _ _ _ _ Hgo4). cbn [negb]. pose proof Hi4 as (Hr4 & Hb4 & Hm4').
  destruct (lockFlash_locks d4 false Hr4 Hb4) as (d5 & Hgo5 & Hk5).
  { apply (moved_flags d3); [exact Hm4'|]. apply (moved_flags d2); [exact Hm3|]. apply (moved_flags d1); [exact Hm2|]. by apply (moved_flags d). }
  rewrite (st_bind_eq _ _ _ _ _ Hgo5). pose proof Hk5 as (_ & _ & _ & Hf5).
  exists d5. refine (conj eq_refl (conj Hcu (conj eq_refl (conj _ _)))).
  - exact (idle_trans _ _ _ (kept_idle _ _ Hk1) (idle_trans _ _ _ (kept_idle _ _ Hk2) (idle_trans _ _ _ Hi3 (idle_trans _ _ _ Hi4 (kept_idle _ _ Hk5))))).
  - unfold stores. rewrite (flash_words_same d4 d5) by exact Hf5. fold words. unfold flash_words, session_words. change (session_size / 4) with 3348. rewrite <- Hw2.
    apply (programmed_erased (fd_flash (m_world d4)) (fd_flash (m_world d3))); [exact Hp4| |exact Hw3].
    intros q Hq. rewrite He3, decide_True; [done|]. rewrite Hw2 in Hq. div_lia.
Qed.

(** C2: A session that is saved to a device is the session that is loaded from
    it: over every device that keeps the promises of [FlashDevice] - short
    reads, a flash that is busy after an erase, bits that programming can only
    clear - with its session block at the start of an erase block,
    [saveToDevice] succeeds, and [loadFromDevice] gives back the block field by
    field, with a checksum that is the one of the block, whatever object it is
    loaded into. *)
Theorem session_flash_roundtrip d (o : Session) :
  flash_ready d -> fd_busy (m_world d) = O -> flags_known d -> base_fits -> session_valid o ->
  exists crc d1, saveToDevice o d = Some ((true, with_crc crc o), d1) /\ Session_calculateCRC (with_crc crc o) = Some crc /\
    forall old, exists d2, loadFromDevice old d1 = Some ((true, Some (with_crc crc o)), d2).
Proof.
  intros Hr Hb Hfk Hbase Hv. destruct (saveToDevice_stores d o Hr Hb Hfk Hbase Hv) as (crc & d1 & Hcrc & Hcu & Hsave & (Hr1 & Hb1 & _) & Hst).
  exists crc, d1. split; [exact Hsave|]. split; [by rewrite Session_calculateCRC_with|].
  intros old. destruct (loadFromDevice_loads d1 (with_crc crc o) old Hr1 Hb1 Hbase (with_crc_valid crc o Hcu Hv) Hst) as (d2 & Hgo & _).
  exists d2. exact Hgo.
Qed.
End roundtrip.

(** ** Witness *)

Definition blank_session : Session :=
  mkSession (l_parse SessionHeader_layout (replicate (l_size SessionHeader_layout) 0))
            (l_parse SubSession_layout (replicate (l_size SubSession_layout) 0)).

Lemma parsed_blank {T} (la : layout T) : l_valid la (l_parse la (replicate (l_size la) 0)).
Proof. apply l_bytes_parse; [apply length_replicate|]. by apply Forall_replicate; split. Qed.

Lemma blank_session_valid : session_valid blank_session.
Proof. split; [exact (parsed_blank SessionHeader_layout)|exact (parsed_blank SubSession_layout)]. Qed.

Lemma session_flash_roundtrip_witness :
  exists crc d1, saveToDevice blank_session (chip_device (chip_new 0 false 64)) = Some ((true, with_crc crc blank_session), d1) /\
    Session_calculateCRC (with_crc crc blank_session) = Some crc /\
    forall old, exists d2, loadFromDevice old d1 = Some ((true, Some (with_crc crc blank_session)), d2).
Proof.
  apply (session_flash_roundtrip (chip_device (chip_new 0 false 64)) blank_session).
  - split; [reflexivity|]. split; [vm_compute; split; [discriminate|reflexivity]|]. split; [reflexivity|]. split; [reflexivity|]. vm_compute. discriminate.
  - reflexivity.
  - eexists. reflexivity.
  - split; [reflexivity|]. split; [reflexivity|]. vm_compute. discriminate.
  - exact blank_session_valid.
Defined.
