(* ===== verification/MessageQueue.v ===== *)
(** * MessageQueue: libutil/PosixMessageQueue, libutil/PosixSharedMemory

    The wrappers of the message queues and of the shared memory of the
    operating system, which are the class [PosixMq]; what POSIX promises about a
    queue is [PosixMqLaws], and [ListMq] is a queue that keeps it.  The time
    that a blocking call may take is part of the calls. *)
From stdpp Require Import list.
From S2P Require Import Prelude StateMonad.

Inductive eMqDirection := eD_None | eD_ReadOnly | eD_WriteOnly | eD_ReadWrite.
Inductive eMqResult := eMR_OK | eMR_Again | eMR_Error | eMR_Timeout.
Inductive eBlocking := eB_Blocking | eB_NonBlocking.

#[export] Instance eMqDirection_dec : EqDecision eMqDirection.
Proof. solve_decision. Defined.
#[export] Instance eBlocking_dec : EqDecision eBlocking.
Proof. solve_decision. Defined.

(** the values of [errno] that the code distinguishes *)
Inductive mq_errno := mq_EAGAIN | mq_ETIMEDOUT | mq_other.

(** A byte that was never written is [None].  A message in a queue has its
    bytes and its priority. *)
Abbreviation octets := (list (option Z)).
Abbreviation mq_message := (octets * Z)%type.

(** [mq_attr]: the maximal number and size of messages and the current number. *)
Record mq_attributes := mk_mq_attr { mq_maxmsg : Z; mq_msgsize : Z; mq_curmsgs : Z }.

Class PosixMq (Q : Type) := {
  mq_open : bool -> eMqDirection -> eBlocking -> Q -> bool * Q;
  mq_close : Q -> bool * Q;
  mq_getattr : Q -> option mq_attributes;
  mq_timedsend : eBlocking -> mq_message -> Q -> option mq_errno * Q;
  mq_timedreceive : eBlocking -> Q -> (mq_errno + mq_message) * Q;
  mq_notify : Q -> bool * Q }.

(** The contents of messages, [PosixMessageQueue::Message]. *)
Class MqMessage (T : Type) := {
  msg_getPriority : T -> Z;
  msg_getLength : T -> Z;
  (* the bytes from the start of the buffer *)
  msg_serialize : T -> option (bool * octets);
  msg_deserialize : octets -> Z -> T -> option (bool * T) }.

Record PosixMessageQueue := mkPosixMessageQueue {
  pq_blocking : eBlocking;
  pq_direction : eMqDirection;
  pq_owner : bool;
  pq_handle : bool;
  pq_maxmsg : Z;
  pq_msgsize : Z;
  pq_tmp_buffer : octets }.

Definition POSIX_MESSAGEQUEUE_MAX_MESSAGE_SIZE : Z := 1024.
Definition POSIX_MESSAGEQUEUE_MAX_NB_MESSAGES : Z := 10.

Definition PosixMessageQueue_new : PosixMessageQueue :=
  mkPosixMessageQueue eB_Blocking eD_None false false POSIX_MESSAGEQUEUE_MAX_NB_MESSAGES POSIX_MESSAGEQUEUE_MAX_MESSAGE_SIZE
    (replicate (Z.to_nat POSIX_MESSAGEQUEUE_MAX_MESSAGE_SIZE) None).

Definition pq_with_handle (h : bool) (o : PosixMessageQueue) : PosixMessageQueue :=
  mkPosixMessageQueue (pq_blocking o) (pq_direction o) (pq_owner o) h (pq_maxmsg o) (pq_msgsize o) (pq_tmp_buffer o).
Definition pq_with_owner (b : bool) (o : PosixMessageQueue) : PosixMessageQueue :=
  mkPosixMessageQueue (pq_blocking o) (pq_direction o) b (pq_handle o) (pq_maxmsg o) (pq_msgsize o) (pq_tmp_buffer o).
Definition pq_with_attr (a : mq_attributes) (o : PosixMessageQueue) : PosixMessageQueue :=
  mkPosixMessageQueue (pq_blocking o) (pq_direction o) (pq_owner o) (pq_handle o) (mq_maxmsg a) (mq_msgsize a) (pq_tmp_buffer o).
Definition pq_with_blocking (b : eBlocking) (o : PosixMessageQueue) : PosixMessageQueue :=
  mkPosixMessageQueue b (pq_direction o) (pq_owner o) (pq_handle o) (pq_maxmsg o) (pq_msgsize o) (pq_tmp_buffer o).
Definition pq_with_buffer (l : octets) (o : PosixMessageQueue) : PosixMessageQueue :=
  mkPosixMessageQueue (pq_blocking o) (pq_direction o) (pq_owner o) (pq_handle o) (pq_maxmsg o) (pq_msgsize o) l.

Section queue.
Context {Q : Type} `{!PosixMq Q}.

(** the object and the queue behind its handle *)
Abbreviation M := (StM (PosixMessageQueue * Q)).

Definition pq_gets {A} (f : PosixMessageQueue -> A) : M A := st_gets (fun s => f s.1).
Definition pq_mod (f : PosixMessageQueue -> PosixMessageQueue) : M () := st_mod (fun s => (f s.1, s.2)).
Definition pq_call {A} (f : Q -> A * Q) : M A := st_run (fun s => let '(a, q) := f s.2 in (a, (s.1, q))).

(** [flags & O_CREAT] is [create]; the flag [O_EXCL] belongs to it. *)
Definition PosixMessageQueue_doOpen (t : eMqDirection) (create : bool) (b : eBlocking) : M bool :=
  opened ← pq_gets pq_handle;
  if opened : bool then mret false
  else if decide (t = eD_None) then mret false
  else
    ok ← pq_call (mq_open create t b);
    if negb ok then mret false
    else
      pq_mod (pq_with_handle true);;
      (if create then pq_mod (pq_with_owner true) else mret ());;
      attr ← st_gets (fun s => mq_getattr s.2);
      match attr with
      | None => mret false
      | Some a => pq_mod (pq_with_attr a);; pq_mod (pq_with_blocking b);; mret true
      end.

Definition PosixMessageQueue_Open (t : eMqDirection) (b : eBlocking) : M bool :=
  opened ← pq_gets pq_handle;
  if opened : bool then mret false else PosixMessageQueue_doOpen t false b.

Definition PosixMessageQueue_Create (t : eMqDirection) (b : eBlocking) : M bool :=
  opened ← pq_gets pq_handle;
  if opened : bool then mret false else PosixMessageQueue_doOpen t true b.

Definition PosixMessageQueue_Close : M bool :=
  opened ← pq_gets pq_handle;
  if negb opened then mret true
  else
    ok ← pq_call mq_close;
    if negb ok then mret false else pq_mod (pq_with_handle false);; mret true.

Definition PosixMessageQueue_countMessages : M Z :=
  opened ← pq_gets pq_handle;
  if negb opened then mret (- 1)
  else
    attr ← st_gets (fun s => mq_getattr s.2);
    mret (match attr with Some a => s32 (mq_curmsgs a) | None => - 1 end).

Definition PosixMessageQueue_canSend : M bool :=
  n ← PosixMessageQueue_countMessages;
  max ← pq_gets pq_maxmsg;
  mret (n <? max).

Definition PosixMessageQueue_canReceive : M bool :=
  n ← PosixMessageQueue_countMessages;
  mret (0 <? n).

(** [while(countMessages())]: also a count of -1 goes on.  The bytes that are
    received only overwrite the buffer of the object. *)
Fixpoint clear_loop (fuel : nat) : M eMqResult :=
  match fuel with
  | O => st_fail
  | S fuel' =>
    n ← PosixMessageQueue_countMessages;
    if n =? 0 then mret eMR_OK
    else
      b ← pq_gets pq_blocking;
      r ← pq_call (mq_timedreceive b);
      match r with
      | inl mq_EAGAIN => mret eMR_OK
      | inl mq_ETIMEDOUT => mret eMR_Timeout
      | inl mq_other => mret eMR_Error
      | inr _ => clear_loop fuel'
      end
  end.

Definition PosixMessageQueue_Clear (fuel : nat) : M eMqResult :=
  d ← pq_gets pq_direction;
  if decide (d = eD_WriteOnly) then mret eMR_Error else clear_loop fuel.

Section message.
Context {T : Type} `{!MqMessage T}.

Definition PosixMessageQueue_Send (m : T) : M eMqResult :=
  d ← pq_gets pq_direction;
  if decide (d = eD_ReadOnly) then mret eMR_Error
  else
    let len := msg_getLength m in
    size ← pq_gets pq_msgsize;
    if size <? len then mret eMR_Error
    else
      '(ok, written) ← st_option (msg_serialize m);
      buffer ← pq_gets pq_tmp_buffer;
      st_assert (bool_decide (Z.of_nat (length written) <= Z.of_nat (length buffer)));;
      let buffer := written ++ drop (length written) buffer in
      pq_mod (pq_with_buffer buffer);;
      if negb ok then mret eMR_Error
      else
        st_assert (bool_decide (0 <= len <= Z.of_nat (length buffer)));;
        b ← pq_gets pq_blocking;
        err ← pq_call (mq_timedsend b (take (Z.to_nat len) buffer, msg_getPriority m));
        mret (match err with
              | None => eMR_OK
              | Some mq_EAGAIN => eMR_Again
              | Some mq_ETIMEDOUT => eMR_Timeout
              | Some mq_other => eMR_Error
              end).

(** the result and the message as it was parsed *)
Definition PosixMessageQueue_Receive (m : T) : M (eMqResult * T) :=
  d ← pq_gets pq_direction;
  if decide (d = eD_WriteOnly) then mret (eMR_Error, m)
  else
    b ← pq_gets pq_blocking;
    r ← pq_call (mq_timedreceive b);
    match r with
    | inl mq_EAGAIN => mret (eMR_Again, m)
    | inl mq_ETIMEDOUT => mret (eMR_Timeout, m)
    | inl mq_other => mret (eMR_Error, m)
    | inr (l, prio) =>
      buffer ← pq_gets pq_tmp_buffer;
      (* the kernel copies the message into the buffer *)
      st_assert (bool_decide (Z.of_nat (length l) <= Z.of_nat (length buffer)));;
      pq_mod (pq_with_buffer (l ++ drop (length l) buffer));;
      '(ok, m) ← st_option (msg_deserialize l prio m);
      mret (if ok : bool then eMR_OK else eMR_Error, m)
    end.
End message.

Definition PosixMessageQueue_enableNotification : M bool := pq_call mq_notify.
End queue.

(** ** Shared memory

    The object without the bytes; [ps_access] is null before a mapping. *)
Record PosixSharedMemory := mkPosixSharedMemory { ps_size : Z; ps_owner : bool; ps_access : bool }.

Definition PosixSharedMemory_new (size : Z) : PosixSharedMemory := mkPosixSharedMemory size false false.

(** the offset of the block from the start of the mapping *)
Definition PosixSharedMemory_requestBlock (offset len : Z) (o : PosixSharedMemory) : option (option Z) :=
  if u32 (offset + len) <=? ps_size o then if ps_access o then Some (Some offset) else None else Some None.

Definition PosixSharedMemory_Write (offset len : Z) (buff mem : list Z) (o : PosixSharedMemory) : option (bool * list Z) :=
  if u32 (offset + len) <=? ps_size o then
    if ps_access o then
      if decide (0 <= offset /\ 0 <= len <= Z.of_nat (length buff) /\ offset + len <= Z.of_nat (length mem)) then
        Some (true, take (Z.to_nat offset) mem ++ take (Z.to_nat len) buff ++ drop (Z.to_nat (offset + len)) mem)
      else None
    else None
  else Some (false, mem).

Definition PosixSharedMemory_Read (offset len : Z) (buff mem : list Z) (o : PosixSharedMemory) : option (bool * list Z) :=
  if u32 (offset + len) <=? ps_size o then
    if ps_access o then
      if decide (0 <= offset /\ 0 <= len <= Z.of_nat (length buff) /\ offset + len <= Z.of_nat (length mem)) then
        Some (true, take (Z.to_nat len) (drop (Z.to_nat offset) mem) ++ drop (Z.to_nat len) buff)
      else None
    else None
  else Some (false, buff).

(** ** What POSIX promises

    An open queue [mq_ok] holds its messages in the order of sending, as long
    as all of them have the lowest priority; a call that fails changes nothing,
    there is room below the capacity, and a message that is there is received;
    opening a queue that is open elsewhere changes nothing.
    Signals that interrupt the calls are left out. *)
Class PosixMqLaws (Q : Type) `{!PosixMq Q} := {
  mq_ok : Q -> Prop;
  mq_messages : Q -> list octets;
  mq_capacity : Q -> Z;
  mq_size : Q -> Z;
  mq_kept q q1 := mq_ok q1 /\ mq_capacity q1 = mq_capacity q /\ mq_size q1 = mq_size q;
  mq_attr_law : forall q, mq_ok q ->
    mq_getattr q = Some (mk_mq_attr (mq_capacity q) (mq_size q) (Z.of_nat (length (mq_messages q))));
  mq_bounded : forall q, mq_ok q -> Z.of_nat (length (mq_messages q)) <= mq_capacity q < 2 ^ 31;
  mq_send_law : forall b l q, mq_ok q -> Z.of_nat (length l) <= mq_size q ->
    exists err q1, mq_timedsend b (l, 0) q = (err, q1) /\ mq_kept q q1 /\
      mq_messages q1 = (if err is None then mq_messages q ++ [l] else mq_messages q) /\
      (Z.of_nat (length (mq_messages q)) < mq_capacity q -> err = None);
  mq_receive_law : forall b q, mq_ok q ->
    exists r q1, mq_timedreceive b q = (r, q1) /\ mq_kept q q1 /\
      match mq_messages q with
      | [] => (exists e, r = inl e) /\ mq_messages q1 = []
      | l :: ls => r = inr (l, 0) /\ mq_messages q1 = ls
      end;
  mq_open_law : forall create t b q q1, mq_open create t b q = (true, q1) ->
    mq_ok q1 /\ (mq_ok q -> mq_kept q q1 /\ mq_messages q1 = mq_messages q);
  mq_notify_law : forall q, mq_ok q ->
    exists r q1, mq_notify q = (r, q1) /\ mq_kept q q1 /\ mq_messages q1 = mq_messages q }.

(** ** A queue

    Messages of a higher priority overtake the others. *)
Record ListMq := mkListMq { lq_capacity : Z; lq_size : Z; lq_messages : list mq_message }.

Fixpoint lq_insert (m : mq_message) (l : list mq_message) : list mq_message :=
  match l with
  | [] => [m]
  | m' :: l' => if snd m' <? snd m then m :: l else m' :: lq_insert m l'
  end.

Definition lq_full (q : ListMq) : bool := lq_capacity q <=? Z.of_nat (length (lq_messages q)).

Definition lq_with (l : list mq_message) (q : ListMq) : ListMq := mkListMq (lq_capacity q) (lq_size q) l.

Definition lq_wait (b : eBlocking) : mq_errno := match b with eB_Blocking => mq_ETIMEDOUT | eB_NonBlocking => mq_EAGAIN end.

Definition lq_ok (q : ListMq) : Prop :=
  Forall (fun m => snd m = 0) (lq_messages q) /\ Z.of_nat (length (lq_messages q)) <= lq_capacity q < 2 ^ 31.

#[export] Instance lq_ok_dec q : Decision (lq_ok q).
Proof. unfold lq_ok. apply _. Defined.

#[export] Instance ListMq_PosixMq : PosixMq ListMq := {
  mq_open _ _ _ q := (bool_decide (lq_ok q), q);
  mq_close q := (true, q);
  mq_getattr q := Some (mk_mq_attr (lq_capacity q) (lq_size q) (Z.of_nat (length (lq_messages q))));
  mq_timedsend b m q :=
    if lq_size q <? Z.of_nat (length (fst m)) then (Some mq_other, q)
    else if lq_full q then (Some (lq_wait b), q) else (None, lq_with (lq_insert m (lq_messages q)) q);
  mq_timedreceive b q := match lq_messages q with [] => (inl (lq_wait b), q) | m :: l => (inr m, lq_with l q) end;
  mq_notify q := (true, q) }.

Lemma lq_insert_last l ms : Forall (fun m : mq_message => snd m = 0) ms -> lq_insert (l, 0) ms = ms ++ [(l, 0)].
Proof. induction 1 as [|m ms Hm _ IH]; [done|]. cbn [lq_insert app]. cbn [snd]. rewrite Hm. cbn. by rewrite IH. Qed.

#[export] Instance ListMq_PosixMqLaws : PosixMqLaws ListMq.
Proof.
  refine {| mq_ok := lq_ok; mq_messages q := fst <$> lq_messages q; mq_capacity := lq_capacity; mq_size := lq_size |}.
  - intros q _. by rewrite length_fmap.
  - intros q [_ Hq]. by rewrite length_fmap.
  - intros b l q [Hp Hq] Hl. rewrite length_fmap. cbn [mq_timedsend ListMq_PosixMq fst]. destruct (Z.ltb_spec (lq_size q) (Z.of_nat (length l))); [lia|].
    unfold lq_full. destruct (Z.leb_spec (lq_capacity q) (Z.of_nat (length (lq_messages q)))); eexists _, _; (split; [reflexivity|]).
    + split; [done|]. split; [done|]. intros ?. lia.
    + cbn [lq_with lq_messages lq_capacity lq_size]. rewrite lq_insert_last, fmap_app by done. repeat split; cbn [lq_messages lq_capacity].
      * apply Forall_app. split; [done|]. by constructor.
      * cbn. rewrite length_app. cbn. lia.
      * cbn. lia.
  - intros b q [Hp Hq]. cbn [mq_timedreceive ListMq_PosixMq]. destruct (lq_messages q) as [|[l prio] ms] eqn:Hms; eexists _, _; (split; [reflexivity|]); cbn.
    + split; [split; [by split; rewrite Hms|done]|]. split; [by eexists|by rewrite Hms].
    + apply Forall_cons in Hp as [Hp1 Hp]. cbn in Hp1. subst prio. cbn in Hq. repeat split; cbn; try done; lia.
  - intros create t b q q1 [= Hq <-]. apply bool_decide_eq_true in Hq. done.
  - intros q Hq. by eexists _, _.
Defined.
