(* ===== verification/IpcRing.v ===== *)
(** * IpcRing: libutil/IpcRingBuffer

    A ring of blocks in shared memory between two processes.  The sender writes
    a block and tells its number in a message on the ping queue; the receiver
    reads the block and acknowledges it on the pong queue.  One object per
    process; the queues and the memory are shared. *)
From stdpp Require Import list.
From S2P Require Import Prelude StateMonad Serialize Memory MessageQueue.

Definition FFADO_IPC_RINGBUFFER_MAGIC : Z := 0x57439812.
Definition FFADO_IPC_RINGBUFFER_VERSION : Z := 0.
Definition FFADO_IPC_MAX_MESSAGE_SIZE : Z := 16.

(** [IpcMessage::eMessageType]: a received header may hold any value *)
Definition eMT_Unknown : Z := 0.
Definition eMT_DataWritten : Z := 1.
Definition eMT_DataAck : Z := 2.

Record IpcMessage := mkIpcMessage {
  im_priority : Z;
  im_magic : Z;
  im_version : Z;
  im_msgtype : Z;
  im_data_len : Z;
  im_data : octets }.

Definition IpcMessage_new : IpcMessage :=
  mkIpcMessage 0 FFADO_IPC_RINGBUFFER_MAGIC FFADO_IPC_RINGBUFFER_VERSION eMT_Unknown 0
    (replicate (Z.to_nat FFADO_IPC_MAX_MESSAGE_SIZE) None).

Definition IpcMessage_setType (t : Z) (m : IpcMessage) : IpcMessage :=
  mkIpcMessage (im_priority m) (im_magic m) (im_version m) t (im_data_len m) (im_data m).

Definition IpcMessage_setDataSize (i : Z) (m : IpcMessage) : option IpcMessage :=
  if i <? FFADO_IPC_MAX_MESSAGE_SIZE then
    Some (mkIpcMessage (im_priority m) (im_magic m) (im_version m) (im_msgtype m) i (im_data m))
  else None.

Definition sizeof_header : Z := 12.

(** the bytes of an [unsigned int] on a little endian host *)
Definition uint_octets (v : Z) : octets := Some <$> quadlet_bytes v.

(** an [unsigned int] at [at_]; using bytes that were never written is undefined *)
Definition uint_at (at_ : nat) (l : octets) : option Z :=
  b0 ← l !! at_; b1 ← l !! (at_ + 1)%nat; b2 ← l !! (at_ + 2)%nat; b3 ← l !! (at_ + 3)%nat;
  v0 ← b0; v1 ← b1; v2 ← b2; v3 ← b3;
  Some (word_of v0 v1 v2 v3).

Definition put_uint (at_ : nat) (v : Z) (l : octets) : octets := list_inserts at_ (uint_octets v) l.

(** [struct DataWrittenMessage] is [idx] and [id] *)
Definition data_idx (m : IpcMessage) : option Z := uint_at 0 (im_data m).
Definition data_id (m : IpcMessage) : option Z := uint_at 4 (im_data m).

Definition im_with_data (l : octets) (m : IpcMessage) : IpcMessage :=
  mkIpcMessage (im_priority m) (im_magic m) (im_version m) (im_msgtype m) (im_data_len m) l.

(** [data->id = id; data->idx = idx;] *)
Definition data_written (id idx : Z) (m : IpcMessage) : IpcMessage :=
  im_with_data (put_uint 0 idx (put_uint 4 id (im_data m))) m.

Definition IpcMessage_serialize (m : IpcMessage) : option (bool * octets) :=
  if decide (0 <= im_data_len m <= Z.of_nat (length (im_data m))) then
    Some (true, uint_octets (im_magic m) ++ uint_octets (im_version m) ++ uint_octets (im_msgtype m)
                ++ take (Z.to_nat (im_data_len m)) (im_data m))
  else None.

Definition IpcMessage_deserialize (buff : octets) (prio : Z) (m : IpcMessage) : option (bool * IpcMessage) :=
  let length_ := Z.of_nat (length buff) in
  if length_ <? sizeof_header then None
  else
    magic ← uint_at 0 buff;
    version ← uint_at 4 buff;
    type ← uint_at 8 buff;
    let m1 := mkIpcMessage (im_priority m) magic version type (im_data_len m) (im_data m) in
    if negb (magic =? FFADO_IPC_RINGBUFFER_MAGIC) then Some (false, m1)
    else if negb (version =? FFADO_IPC_RINGBUFFER_VERSION) then Some (false, m1)
    else
      let data_len := length_ - sizeof_header in
      if FFADO_IPC_MAX_MESSAGE_SIZE <? data_len then None
      else Some (true, mkIpcMessage prio magic version type data_len (drop 12 buff ++ drop (Z.to_nat data_len) (im_data m))).

#[export] Instance IpcMessage_MqMessage : MqMessage IpcMessage := {
  msg_getPriority := im_priority;
  msg_getLength _ := sizeof_header + FFADO_IPC_MAX_MESSAGE_SIZE;
  msg_serialize := IpcMessage_serialize;
  msg_deserialize := IpcMessage_deserialize }.

(** ** The object *)

Inductive eBufferType := eBT_Master | eBT_Slave.
Inductive eIpcDirection := eD_Outward | eD_Inward.
Inductive eIpcResult := eR_OK | eR_Again | eR_Error | eR_Timeout.

#[export] Instance eIpcDirection_dec : EqDecision eIpcDirection.
Proof. solve_decision. Defined.
#[export] Instance eIpcResult_dec : EqDecision eIpcResult.
Proof. solve_decision. Defined.

(** A mutex is whether it is locked; [rb_activity] is the value of the semaphore. *)
Record IpcRingBuffer := mkIpcRingBuffer {
  ip_blocks : Z;
  ip_blocksize : Z;
  ip_type : eBufferType;
  ip_direction : eIpcDirection;
  ip_blocking : eBlocking;
  ip_initialized : bool;
  ip_next_block : Z;
  ip_last_block_ack : Z;
  ip_idx : Z;
  ip_last_idx_ack : Z;
  ip_ping_queue : PosixMessageQueue;
  ip_pong_queue : PosixMessageQueue;
  ip_memblock : PosixSharedMemory;
  ip_activity : Z;
  ip_LastDataMessageReceived : IpcMessage;
  ip_block_requested_for_read : bool;
  ip_LastDataMessageSent : IpcMessage;
  ip_block_requested_for_write : bool }.

Definition IpcRingBuffer_new (type : eBufferType) (dir : eIpcDirection) (blocking : eBlocking) (blocks block_size : Z) : IpcRingBuffer :=
  mkIpcRingBuffer blocks block_size type dir blocking false 1 0 1 0 PosixMessageQueue_new PosixMessageQueue_new
    (PosixSharedMemory_new (u32 (blocks * block_size))) 0 IpcMessage_new false IpcMessage_new false.

Definition ip_with_counters (next last idx last_idx : Z) (o : IpcRingBuffer) : IpcRingBuffer :=
  mkIpcRingBuffer (ip_blocks o) (ip_blocksize o) (ip_type o) (ip_direction o) (ip_blocking o) (ip_initialized o)
    next last idx last_idx (ip_ping_queue o) (ip_pong_queue o) (ip_memblock o) (ip_activity o)
    (ip_LastDataMessageReceived o) (ip_block_requested_for_read o) (ip_LastDataMessageSent o) (ip_block_requested_for_write o).

Definition ip_with_next (next idx : Z) (o : IpcRingBuffer) : IpcRingBuffer :=
  ip_with_counters next (ip_last_block_ack o) idx (ip_last_idx_ack o) o.
Definition ip_with_ack (last last_idx : Z) (o : IpcRingBuffer) : IpcRingBuffer :=
  ip_with_counters (ip_next_block o) last (ip_idx o) last_idx o.

Definition ip_with_parts (initialized : bool) (ping pong : PosixMessageQueue) (mem : PosixSharedMemory) (o : IpcRingBuffer) : IpcRingBuffer :=
  mkIpcRingBuffer (ip_blocks o) (ip_blocksize o) (ip_type o) (ip_direction o) (ip_blocking o) initialized
    (ip_next_block o) (ip_last_block_ack o) (ip_idx o) (ip_last_idx_ack o) ping pong mem (ip_activity o)
    (ip_LastDataMessageReceived o) (ip_block_requested_for_read o) (ip_LastDataMessageSent o) (ip_block_requested_for_write o).

Definition ip_with_ping (q : PosixMessageQueue) (o : IpcRingBuffer) : IpcRingBuffer :=
  ip_with_parts (ip_initialized o) q (ip_pong_queue o) (ip_memblock o) o.
Definition ip_with_pong (q : PosixMessageQueue) (o : IpcRingBuffer) : IpcRingBuffer :=
  ip_with_parts (ip_initialized o) (ip_ping_queue o) q (ip_memblock o) o.
Definition ip_with_memblock (m : PosixSharedMemory) (o : IpcRingBuffer) : IpcRingBuffer :=
  ip_with_parts (ip_initialized o) (ip_ping_queue o) (ip_pong_queue o) m o.
Definition ip_with_initialized (b : bool) (o : IpcRingBuffer) : IpcRingBuffer :=
  ip_with_parts b (ip_ping_queue o) (ip_pong_queue o) (ip_memblock o) o.

Definition ip_with_activity (n : Z) (o : IpcRingBuffer) : IpcRingBuffer :=
  mkIpcRingBuffer (ip_blocks o) (ip_blocksize o) (ip_type o) (ip_direction o) (ip_blocking o) (ip_initialized o)
    (ip_next_block o) (ip_last_block_ack o) (ip_idx o) (ip_last_idx_ack o) (ip_ping_queue o) (ip_pong_queue o) (ip_memblock o) n
    (ip_LastDataMessageReceived o) (ip_block_requested_for_read o) (ip_LastDataMessageSent o) (ip_block_requested_for_write o).

Definition ip_with_read (m : IpcMessage) (locked : bool) (o : IpcRingBuffer) : IpcRingBuffer :=
  mkIpcRingBuffer (ip_blocks o) (ip_blocksize o) (ip_type o) (ip_direction o) (ip_blocking o) (ip_initialized o)
    (ip_next_block o) (ip_last_block_ack o) (ip_idx o) (ip_last_idx_ack o) (ip_ping_queue o) (ip_pong_queue o) (ip_memblock o) (ip_activity o)
    m locked (ip_LastDataMessageSent o) (ip_block_requested_for_write o).

Definition ip_with_write (m : IpcMessage) (locked : bool) (o : IpcRingBuffer) : IpcRingBuffer :=
  mkIpcRingBuffer (ip_blocks o) (ip_blocksize o) (ip_type o) (ip_direction o) (ip_blocking o) (ip_initialized o)
    (ip_next_block o) (ip_last_block_ack o) (ip_idx o) (ip_last_idx_ack o) (ip_ping_queue o) (ip_pong_queue o) (ip_memblock o) (ip_activity o)
    (ip_LastDataMessageReceived o) (ip_block_requested_for_read o) m locked.

Definition ip_lock_read (b : bool) (o : IpcRingBuffer) : IpcRingBuffer := ip_with_read (ip_LastDataMessageReceived o) b o.
Definition ip_lock_write (b : bool) (o : IpcRingBuffer) : IpcRingBuffer := ip_with_write (ip_LastDataMessageSent o) b o.

(** What one process sees: its object, the two queues and the shared bytes. *)
Record IpcView (Q : Type) := mkIpcView { iv_obj : IpcRingBuffer; iv_ping : Q; iv_pong : Q; iv_mem : list Z }.
Arguments mkIpcView {Q} _ _ _ _.
Arguments iv_obj {Q} _.
Arguments iv_ping {Q} _.
Arguments iv_pong {Q} _.
Arguments iv_mem {Q} _.

(** The rest of the system: creating or opening the shared memory, and what the
    other threads and processes do while this one sleeps on its semaphore or
    polls the ping queue; [None] when it sleeps forever. *)
Class IpcEnv (Q : Type) := {
  shm_map : bool -> bool -> bool;
  ipc_sleep : IpcView Q -> option (IpcView Q);
  ipc_poll : IpcView Q -> option (IpcView Q) }.

Section ring.
Context {Q : Type} `{!PosixMq Q} `{!IpcEnv Q}.

Abbreviation V := (IpcView Q).
Abbreviation M := (StM V).

Definition ipc_gets {A} (f : IpcRingBuffer -> A) : M A := st_gets (fun v => f (iv_obj v)).
Definition ipc_mod (f : IpcRingBuffer -> IpcRingBuffer) : M () :=
  st_mod (fun v => mkIpcView (f (iv_obj v)) (iv_ping v) (iv_pong v) (iv_mem v)).

Definition on_ping {A} (m : StM (PosixMessageQueue * Q) A) : M A := fun v =>
  '(a, (o, q)) ← m (ip_ping_queue (iv_obj v), iv_ping v);
  Some (a, mkIpcView (ip_with_ping o (iv_obj v)) q (iv_pong v) (iv_mem v)).

Definition on_pong {A} (m : StM (PosixMessageQueue * Q) A) : M A := fun v =>
  '(a, (o, q)) ← m (ip_pong_queue (iv_obj v), iv_pong v);
  Some (a, mkIpcView (ip_with_pong o (iv_obj v)) (iv_ping v) q (iv_mem v)).

(** [PosixSharedMemory::Create] and [Open] without their error paths; a
    process maps a segment only once. *)
Definition map_memory (create writable : bool) : M bool :=
  let ok := shm_map create writable in
  m ← ipc_gets ip_memblock;
  if ok : bool then ipc_mod (ip_with_memblock (mkPosixSharedMemory (ps_size m) (create || ps_owner m) true));; mret true
  else mret false.

Definition queue_mode (outward_writes : bool) (dir : eIpcDirection) : eMqDirection :=
  match dir, outward_writes with
  | eD_Outward, true | eD_Inward, false => eD_ReadWrite
  | _, _ => eD_ReadOnly
  end.

Definition IpcRingBuffer_init (fuel : nat) : M bool :=
  done ← ipc_gets ip_initialized;
  if done : bool then mret false
  else
    type ← ipc_gets ip_type;
    dir ← ipc_gets ip_direction;
    b ← ipc_gets ip_blocking;
    ok ← (match type with
          | eBT_Master => map_memory true true
          | eBT_Slave => map_memory false (bool_decide (dir = eD_Outward))
          end);
    if negb ok then mret false
    else
      let open_queue t := match type with eBT_Master => PosixMessageQueue_Create t b | eBT_Slave => PosixMessageQueue_Open t b end in
      ok ← on_ping (open_queue (queue_mode true dir));
      if negb ok then mret false
      else
        ok ← on_pong (open_queue (queue_mode false dir));
        if negb ok then mret false
        else
          (if decide (dir = eD_Outward) then
             _ ← on_pong PosixMessageQueue_enableNotification;
             _ ← on_pong (PosixMessageQueue_Clear fuel);
             mret ()
           else _ ← on_ping (PosixMessageQueue_Clear fuel); mret ());;
          ipc_mod (ip_with_initialized true);;
          mret true.

(** ** Acknowledgements *)

(** the body of the loop of [notificationHandler] *)
Definition handle_ack : M () :=
  '(_, m_ack) ← on_pong (PosixMessageQueue_Receive IpcMessage_new);
  if im_msgtype m_ack =? eMT_DataAck then
    id ← st_option (data_id m_ack);
    idx ← st_option (data_idx m_ack);
    ipc_mod (ip_with_ack id idx);;
    b ← ipc_gets ip_blocking;
    if decide (b = eB_Blocking) then ipc_mod (fun o => ip_with_activity (ip_activity o + 1) o) else mret ()
  else mret ().

(** a turn of the loop: whether there was a message *)
Definition ack_turn : M bool :=
  more ← on_pong PosixMessageQueue_canReceive;
  if more : bool then handle_ack;; mret true else mret false.

Fixpoint ack_loop (fuel : nat) : M () :=
  match fuel with
  | O => st_fail
  | S fuel' => more ← ack_turn; if more : bool then ack_loop fuel' else mret ()
  end.

Definition notificationHandler (fuel : nat) : M () :=
  _ ← on_pong PosixMessageQueue_enableNotification;
  ack_loop fuel.

(** the counters are unsigned, the difference is an [int] *)
Definition buffer_fill (o : IpcRingBuffer) : option Z :=
  let bufferfill := s32 (u32 (ip_next_block o - ip_last_block_ack o - 1)) in
  let bufferfill := if ip_next_block o <=? ip_last_block_ack o then s32 (u32 (bufferfill + ip_blocks o)) else bufferfill in
  if 0 <=? bufferfill then Some bufferfill else None.

Definition getBufferFill : M Z := o ← ipc_gets id; st_option (buffer_fill o).

Definition sem_wait : M () := fun v =>
  if 0 <? ip_activity (iv_obj v) then ipc_mod (fun o => ip_with_activity (ip_activity o - 1) o) v
  else v1 ← ipc_sleep v; Some ((), v1).

(** ** Writing *)

(** whether the request is refused with [eR_Again] *)
Definition refuse_write : M bool :=
  b ← ipc_gets ip_blocking;
  fill ← getBufferFill;
  blocks ← ipc_gets ip_blocks;
  match b with
  | eB_Blocking => (if blocks <=? fill then sem_wait else mret ());; mret false
  | eB_NonBlocking =>
    if blocks <=? fill then mret true
    else can ← on_ping PosixMessageQueue_canSend; mret (negb can)
  end.

Definition next_of (blocks n : Z) : Z := if u32 (n + 1) =? blocks then 0 else u32 (n + 1).

(** the result and the offset of the block *)
Definition requestBlockForWrite : M (eIpcResult * option Z) :=
  locked ← ipc_gets ip_block_requested_for_write;
  if locked : bool then mret (eR_Error, None)
  else
    ipc_mod (ip_lock_write true);;
    refused ← refuse_write;
    if refused : bool then ipc_mod (ip_lock_write false);; mret (eR_Again, None)
    else
      ipc_mod (fun o => if ip_next_block o =? ip_last_block_ack o
                        then ip_with_ack (next_of (ip_blocks o) (ip_last_block_ack o)) (ip_last_idx_ack o) o else o);;
      o ← ipc_gets id;
      let offset := s32 (u32 (ip_next_block o * ip_blocksize o)) in
      block ← st_option (PosixSharedMemory_requestBlock (u32 offset) (ip_blocksize o) (ip_memblock o));
      match block with
      | Some p => mret (eR_OK, Some p)
      | None => ipc_mod (ip_lock_write false);; mret (eR_Error, None)
      end.

(** *** The request in steps

    The notification thread may handle an acknowledgement between any two
    accesses of the request to the counters, which it makes without
    [m_access_lock]. *)

(** Where a request is: it has taken the first difference of [getBufferFill]; it
    has its result; it sleeps on the semaphore; it is before the check for an
    overflow, before the increment, before the offset. *)
Inductive request_pc := At_fill (bufferfill : Z) | At_asked (fill : Z) | At_sleep | At_overflow | At_bump | At_offset.

(** It goes on, or it has returned, or an [assert] has ended the process. *)
Inductive request_next := RN_at (pc : request_pc) | RN_done (r : eIpcResult * option Z) | RN_abort.

Definition request_begin : M request_next :=
  locked ← ipc_gets ip_block_requested_for_write;
  if locked : bool then mret (RN_done (eR_Error, None))
  else
    ipc_mod (ip_lock_write true);;
    o ← ipc_gets id;
    mret (RN_at (At_fill (s32 (u32 (ip_next_block o - ip_last_block_ack o - 1))))).

Definition request_again : M request_next := ipc_mod (ip_lock_write false);; mret (RN_done (eR_Again, None)).

Definition request_step (pc : request_pc) : M request_next :=
  o ← ipc_gets id;
  match pc with
  | At_fill bufferfill =>
    let bufferfill := if ip_next_block o <=? ip_last_block_ack o then s32 (u32 (bufferfill + ip_blocks o)) else bufferfill in
    mret (if 0 <=? bufferfill then RN_at (At_asked bufferfill) else RN_abort)
  | At_asked fill =>
    match ip_blocking o with
    | eB_Blocking => mret (RN_at (if ip_blocks o <=? fill then At_sleep else At_overflow))
    | eB_NonBlocking =>
      if ip_blocks o <=? fill then request_again
      else can ← on_ping PosixMessageQueue_canSend; if can : bool then mret (RN_at At_overflow) else request_again
    end
  | At_sleep =>
    if 0 <? ip_activity o then ipc_mod (ip_with_activity (ip_activity o - 1));; mret (RN_at At_overflow)
    else mret (RN_at At_sleep)
  | At_overflow => mret (RN_at (if ip_next_block o =? ip_last_block_ack o then At_bump else At_offset))
  | At_bump => ipc_mod (ip_with_ack (next_of (ip_blocks o) (ip_last_block_ack o)) (ip_last_idx_ack o));; mret (RN_at At_offset)
  | At_offset =>
    let offset := s32 (u32 (ip_next_block o * ip_blocksize o)) in
    block ← st_option (PosixSharedMemory_requestBlock (u32 offset) (ip_blocksize o) (ip_memblock o));
    match block with
    | Some p => mret (RN_done (eR_OK, Some p))
    | None => ipc_mod (ip_lock_write false);; mret (RN_done (eR_Error, None))
    end
  end.

(** the steps of a request that nobody interrupts *)
Fixpoint request_steps (n : nat) (x : request_next) : M request_next :=
  match n, x with
  | S n', RN_at pc => y ← request_step pc; request_steps n' y
  | _, _ => mret x
  end.

Definition result_of_send (r : eMqResult) (again : eIpcResult) : eIpcResult :=
  match r with eMR_OK => eR_OK | eMR_Again => again | eMR_Timeout => eR_Timeout | eMR_Error => eR_Error end.

Definition releaseBlockForWrite : M eIpcResult :=
  locked ← ipc_gets ip_block_requested_for_write;
  if negb locked then mret eR_Error
  else
    o ← ipc_gets id;
    m ← st_option (IpcMessage_setDataSize 8 (IpcMessage_setType eMT_DataWritten (ip_LastDataMessageSent o)));
    let m := data_written (ip_next_block o) (ip_idx o) m in
    ipc_mod (ip_with_write m true);;
    msg_res ← on_ping (PosixMessageQueue_Send m);
    match msg_res with
    | eMR_OK =>
      ipc_mod (fun o => ip_with_next (next_of (ip_blocks o) (ip_next_block o)) (u32 (ip_idx o + 1)) o);;
      ipc_mod (ip_lock_write false);;
      mret eR_OK
    | _ => ipc_mod (ip_lock_write false);; mret (result_of_send msg_res eR_Error)
    end.

(** [memcpy] of a block to and from the shared memory *)
Definition copy_to_memory (p n : Z) (block mem : list Z) : option (list Z) :=
  if decide (0 <= p /\ 0 <= n <= Z.of_nat (length block) /\ p + n <= Z.of_nat (length mem)) then
    Some (take (Z.to_nat p) mem ++ take (Z.to_nat n) block ++ drop (Z.to_nat (p + n)) mem)
  else None.

Definition copy_from_memory (p n : Z) (mem : list Z) : option (list Z) :=
  if decide (0 <= p /\ 0 <= n /\ p + n <= Z.of_nat (length mem)) then Some (take (Z.to_nat n) (drop (Z.to_nat p) mem)) else None.

Definition IpcRingBuffer_Write (block : list Z) : M eIpcResult :=
  d ← ipc_gets ip_direction;
  if decide (d = eD_Inward) then mret eR_Error
  else
    '(msg_res, p) ← requestBlockForWrite;
    if decide (msg_res = eR_OK) then
      p ← st_option p;
      n ← ipc_gets ip_blocksize;
      mem ← st_gets iv_mem;
      mem ← st_option (copy_to_memory p n block mem);
      st_mod (fun v => mkIpcView (iv_obj v) (iv_ping v) (iv_pong v) mem);;
      _ ← releaseBlockForWrite;
      mret msg_res
    else mret msg_res.

Fixpoint waitForWrite (fuel : nat) : M eIpcResult :=
  match fuel with
  | O => st_fail
  | S fuel' =>
    fill ← getBufferFill;
    blocks ← ipc_gets ip_blocks;
    if u32 (blocks - 1) <=? fill then sem_wait;; waitForWrite fuel' else mret eR_OK
  end.

(** ** Reading *)

Definition requestBlockForRead : M (eIpcResult * option Z) :=
  locked ← ipc_gets ip_block_requested_for_read;
  if locked : bool then mret (eR_Error, None)
  else
    ipc_mod (ip_lock_read true);;
    m ← ipc_gets ip_LastDataMessageReceived;
    '(msg_res, m) ← on_ping (PosixMessageQueue_Receive m);
    ipc_mod (ip_with_read m true);;
    match msg_res with
    | eMR_OK =>
      if im_msgtype m =? eMT_DataWritten then
        id ← st_option (data_id m);
        idx ← st_option (data_idx m);
        o ← ipc_gets (fun o => o);
        let offset := s32 (u32 (id * ip_blocksize o)) in
        block ← st_option (PosixSharedMemory_requestBlock (u32 offset) (ip_blocksize o) (ip_memblock o));
        match block with
        | Some p => mret (eR_OK, Some p)
        | None => ipc_mod (ip_lock_read false);; mret (eR_Error, None)
        end
      else ipc_mod (ip_lock_read false);; mret (eR_Error, None)
    | _ => ipc_mod (ip_lock_read false);; mret (result_of_send msg_res eR_Again, None)
    end.

Definition releaseBlockForRead : M eIpcResult :=
  locked ← ipc_gets ip_block_requested_for_read;
  if negb locked then mret eR_Error
  else
    m ← ipc_gets ip_LastDataMessageReceived;
    let m := IpcMessage_setType eMT_DataAck m in
    ipc_mod (ip_with_read m true);;
    msg_res ← on_pong (PosixMessageQueue_Send m);
    match msg_res with
    | eMR_OK =>
      id ← st_option (data_id m);
      idx ← st_option (data_idx m);
      ipc_mod (fun o => ip_with_next (next_of (ip_blocks o) id) (u32 (idx + 1)) o);;
      ipc_mod (ip_lock_read false);;
      mret eR_OK
    | _ => ipc_mod (ip_lock_read false);; mret (result_of_send msg_res eR_Again)
    end.

(** the result and the block that was copied *)
Definition IpcRingBuffer_Read : M (eIpcResult * option (list Z)) :=
  d ← ipc_gets ip_direction;
  if decide (d = eD_Outward) then mret (eR_Error, None)
  else
    '(msg_res, p) ← requestBlockForRead;
    if decide (msg_res = eR_OK) then
      p ← st_option p;
      n ← ipc_gets ip_blocksize;
      mem ← st_gets iv_mem;
      block ← st_option (copy_from_memory p n mem);
      _ ← releaseBlockForRead;
      mret (msg_res, Some block)
    else mret (msg_res, None).

(** [m_ping_queue.Wait()] *)
Definition ping_wait : M () := fun v => v1 ← ipc_poll v; Some ((), v1).

(** one turn of the loop: its result, or another turn *)
Definition waitForRead_turn : M (option eIpcResult) :=
  fill ← getBufferFill;
  if fill =? 0 then
    ping_wait;;
    mret None
  else mret (Some eR_OK).

(** [n] turns, unless the loop ends before *)
Fixpoint waitForRead_turns (n : nat) : M (option eIpcResult) :=
  match n with
  | O => mret None
  | S n' =>
    r ← waitForRead_turn;
    match r with Some _ => mret r | None => waitForRead_turns n' end
  end.

Definition waitForRead (fuel : nat) : M eIpcResult :=
  r ← waitForRead_turns fuel;
  st_option r.
End ring.
