(* ===== verification/IpcCalls.v ===== *)
(** * IpcThreads: the operations of IpcRingBuffer

    What the calls of libutil/IpcRingBuffer do when the queues work as POSIX
    promises: the messages as bytes, sending and receiving them, requesting and
    releasing a block on either side, handling acknowledgements.  IpcFifo lets
    two processes interleave them. *)
From stdpp Require Import list.
From S2P Require Import Prelude StateMonad Serialize Memory MessageQueue IpcRing.

(** ** Unsigned ints in bytes *)

Lemma uint_at_ext (l1 l2 : octets) k1 k2 :
  (forall i, (i < 4)%nat -> l1 !! (k1 + i)%nat = l2 !! (k2 + i)%nat) -> uint_at k1 l1 = uint_at k2 l2.
Proof.
  intros H. unfold uint_at. pose proof (H 0%nat ltac:(lia)) as H0. rewrite !Nat.add_0_r in H0.
  by rewrite H0, (H 1%nat), (H 2%nat), (H 3%nat) by lia.
Qed.

Lemma uint_at_put k v (l : octets) : (k + 4 <= length l)%nat -> is_u32 v -> uint_at k (put_uint k v l) = Some v.
Proof.
  intros Hl Hv. unfold uint_at, put_uint.
  assert (Hi : forall i x, uint_octets v !! i = Some x -> list_inserts k (uint_octets v) l !! (k + i)%nat = Some x).
  { intros i x Hx. pose proof (lookup_lt_Some _ _ _ Hx) as Hlt. cbn in Hlt.
    rewrite list_lookup_inserts by (cbn; lia). by replace (k + i - k)%nat with i by lia. }
  pose proof (Hi 0%nat _ eq_refl) as H0. rewrite Nat.add_0_r in H0. rewrite H0, (Hi 1%nat _ eq_refl), (Hi 2%nat _ eq_refl), (Hi 3%nat _ eq_refl).
  cbn [mbind option_bind]. f_equal. rewrite <- (wrapU_small 32 v Hv) at 5. symmetry. exact (quadlet_bytes_word v).
Qed.

Lemma uint_at_put_other k j v (l : octets) : (j + 4 <= k \/ k + 4 <= j)%nat -> uint_at j (put_uint k v l) = uint_at j l.
Proof.
  intros Hd. apply uint_at_ext. intros i Hi. destruct Hd.
  - apply list_lookup_inserts_lt. lia.
  - apply list_lookup_inserts_ge. cbn. lia.
Qed.

Lemma uint_at_octets v (l : octets) : is_u32 v -> uint_at 0 (uint_octets v ++ l) = Some v.
Proof. intros Hv. cbn. f_equal. rewrite <- (wrapU_small 32 v Hv) at 5. symmetry. exact (quadlet_bytes_word v). Qed.

Lemma uint_at_skip v k (l : octets) : uint_at (4 + k) (uint_octets v ++ l) = uint_at k l.
Proof. apply uint_at_ext. intros i Hi. done. Qed.

Lemma uint_at_drop n k (l : octets) : uint_at k (drop n l) = uint_at (n + k) l.
Proof. apply uint_at_ext. intros i Hi. rewrite lookup_drop. f_equal. lia. Qed.

Lemma uint_at_app k (l r : octets) : (k + 4 <= length l)%nat -> uint_at k (l ++ r) = uint_at k l.
Proof. intros Hk. apply uint_at_ext. intros i Hi. apply lookup_app_l. lia. Qed.

Lemma uint_at_take n k (l : octets) : (k + 4 <= n)%nat -> uint_at k (take n l) = uint_at k l.
Proof. intros Hk. apply uint_at_ext. intros i Hi. apply lookup_take_lt. lia. Qed.

(** ** Messages *)

(** the bytes of a message of type [t] about block [id] with the number [idx] *)
Definition is_message (t idx id : Z) (l : octets) : Prop :=
  length l = 28%nat /\ uint_at 0 l = Some FFADO_IPC_RINGBUFFER_MAGIC /\ uint_at 4 l = Some FFADO_IPC_RINGBUFFER_VERSION /\
  uint_at 8 l = Some t /\ uint_at 12 l = Some idx /\ uint_at 16 l = Some id.

(** the constant parts of a message object *)
Definition msg_ready (m : IpcMessage) : Prop :=
  im_priority m = 0 /\ im_magic m = FFADO_IPC_RINGBUFFER_MAGIC /\ im_version m = FFADO_IPC_RINGBUFFER_VERSION /\ length (im_data m) = 16%nat.

Lemma serialize_message m t idx id :
  msg_ready m -> im_msgtype m = t -> is_u32 t -> 8 <= im_data_len m <= 16 -> data_idx m = Some idx -> data_id m = Some id ->
  exists l, IpcMessage_serialize m = Some (true, l) /\ (length l <= 28)%nat /\
    forall buf : octets, (28 <= length buf)%nat -> is_message t idx id (take 28 (l ++ drop (length l) buf)).
Proof.
  intros (Hp & Hm & Hv & Hl) Ht Htu Hn Hidx Hid. unfold IpcMessage_serialize. rewrite decide_True by lia. rewrite Hm, Hv, Ht.
  set (body := take (Z.to_nat (im_data_len m)) (im_data m)).
  assert (Hbl : length body = Z.to_nat (im_data_len m)) by (unfold body; rewrite length_take; lia).
  set (s := uint_octets _ ++ _). assert (Hsl : length s = (12 + length body)%nat) by done.
  exists s. split; [done|]. split; [lia|]. intros buf Hbuf. split; [rewrite length_take, length_app, length_drop; lia|].
  rewrite !uint_at_take, !uint_at_app by lia. unfold s.
  assert (Hbody : forall k x, (k + 4 <= 8)%nat -> uint_at k (im_data m) = Some x -> uint_at k body = Some x).
  { intros k x Hk Hx. unfold body. by rewrite uint_at_take by lia. }
  split; [by apply uint_at_octets|]. rewrite (uint_at_skip _ 0). split; [by apply uint_at_octets|].
  rewrite (uint_at_skip _ 4), (uint_at_skip _ 0). split; [by apply uint_at_octets|].
  rewrite (uint_at_skip _ 8), (uint_at_skip _ 4), (uint_at_skip _ 0). split; [by apply Hbody; [lia|]|].
  rewrite (uint_at_skip _ 12), (uint_at_skip _ 8), (uint_at_skip _ 4). by apply Hbody; [lia|].
Qed.

Lemma deserialize_message t idx id l m :
  is_message t idx id l -> length (im_data m) = 16%nat ->
  exists m1, IpcMessage_deserialize l 0 m = Some (true, m1) /\ msg_ready m1 /\ im_msgtype m1 = t /\ im_data_len m1 = 16 /\
    data_idx m1 = Some idx /\ data_id m1 = Some id.
Proof.
  intros (Hl & H0 & H4 & H8 & H12 & H16) Hm. unfold IpcMessage_deserialize. rewrite Hl, H0, H4, H8. cbn.
  eexists. split; [reflexivity|]. unfold msg_ready, data_idx, data_id. cbn [im_priority im_magic im_version im_msgtype im_data_len im_data].
  rewrite (drop_ge (im_data m)), app_nil_r by (rewrite Hm; done). rewrite length_drop, Hl. rewrite !uint_at_drop. done.
Qed.

(** ** Calls of an open queue *)

Section calls.
Context {Q : Type} `{!PosixMq Q} `{!PosixMqLaws Q}.

(** an open handle on a queue that takes the messages of the ring *)
Definition handle_ready (o : PosixMessageQueue) (q : Q) : Prop :=
  pq_handle o = true /\ pq_direction o = eD_None /\ pq_maxmsg o = mq_capacity q /\ pq_msgsize o = mq_size q /\
  28 <= mq_size q /\ length (pq_tmp_buffer o) = 1024%nat /\ mq_ok q.

Lemma handle_kept o q q1 : handle_ready o q -> mq_kept q q1 -> handle_ready o q1.
Proof. intros (H1 & H2 & H3 & H4 & H5 & H6 & H7) (K1 & K2 & K3). unfold handle_ready. rewrite K2, K3. tauto. Qed.

Lemma kept_refl o q : handle_ready o q -> mq_kept q q.
Proof. intros (H1 & H2 & H3 & H4 & H5 & H6 & H7). done. Qed.

Lemma handle_buffer o q l : handle_ready o q -> length l = 1024%nat -> handle_ready (pq_with_buffer l o) q.
Proof. intros (H1 & H2 & H3 & H4 & H5 & H6 & H7) Hl. repeat split; done. Qed.

Lemma count_runs o q : pq_handle o = true -> mq_ok q -> PosixMessageQueue_countMessages (o, q) = Some (Z.of_nat (length (mq_messages q)), (o, q)).
Proof.
  intros H1 Hok. pose proof (mq_bounded q Hok) as Hb. unfold PosixMessageQueue_countMessages.
  rewrite (st_bind_eq _ _ (o, q) true (o, q)) by (unfold pq_gets, st_gets; cbn [fst]; by rewrite H1). cbn [negb].
  rewrite (st_bind_eq _ _ (o, q) (mq_getattr q) (o, q)) by done. rewrite mq_attr_law by done. cbn [mq_curmsgs].
  rewrite wrapS_small; [done|lia|]. change (2 ^ 31) with 2147483648 in Hb. width_lia.
Qed.

Lemma canSend_runs o q : handle_ready o q ->
  PosixMessageQueue_canSend (o, q) = Some (Z.of_nat (length (mq_messages q)) <? mq_capacity q, (o, q)).
Proof.
  intros (H1 & _ & <- & _ & _ & _ & Hok). unfold PosixMessageQueue_canSend. by rewrite (st_bind_eq _ _ _ _ _ (count_runs o q H1 Hok)).
Qed.

Lemma canReceive_runs o q : handle_ready o q ->
  PosixMessageQueue_canReceive (o, q) = Some (0 <? Z.of_nat (length (mq_messages q)), (o, q)).
Proof. intros (H1 & _ & _ & _ & _ & _ & Hok). unfold PosixMessageQueue_canReceive. by rewrite (st_bind_eq _ _ _ _ _ (count_runs o q H1 Hok)). Qed.

(** a message is sent, or nothing changes but the buffer of the object *)
Lemma Send_runs o q m t idx id :
  handle_ready o q -> msg_ready m -> im_msgtype m = t -> is_u32 t -> 8 <= im_data_len m <= 16 -> data_idx m = Some idx -> data_id m = Some id ->
  exists r o1 q1, PosixMessageQueue_Send m (o, q) = Some (r, (o1, q1)) /\ handle_ready o1 q1 /\ mq_kept q q1 /\
    (Z.of_nat (length (mq_messages q)) < mq_capacity q -> r = eMR_OK) /\
    (if r is eMR_OK then exists l, is_message t idx id l /\ mq_messages q1 = mq_messages q ++ [l] else mq_messages q1 = mq_messages q).
Proof.
  intros Hr Hm Ht Htu Hn Hidx Hid. destruct (serialize_message m t idx id Hm Ht Htu Hn Hidx Hid) as (s & Hs & Hsl & Hmsg).
  pose proof Hr as (H1 & H2 & H3 & H4 & H5 & H6 & Hok).
  set (buf := s ++ drop (length s) (pq_tmp_buffer o)). assert (Hbl : length buf = 1024%nat) by (unfold buf; rewrite length_app, length_drop; lia).
  destruct (mq_send_law (pq_blocking o) (take 28 buf) q Hok) as (err & q1 & Hgo & Hk & Hms & Hroom); [rewrite length_take; lia|].
  assert (Hrun : PosixMessageQueue_Send m (o, q) =
    Some (match err with None => eMR_OK | Some mq_EAGAIN => eMR_Again | Some mq_ETIMEDOUT => eMR_Timeout | Some mq_other => eMR_Error end,
      (pq_with_buffer buf o, q1))).
  { unfold PosixMessageQueue_Send. rewrite (st_bind_eq _ _ (o, q) eD_None (o, q)) by (unfold pq_gets, st_gets; cbn [fst]; by rewrite H2).
    rewrite decide_False by done. change (msg_getLength m) with 28. cbv zeta.
    rewrite (st_bind_eq _ _ (o, q) (mq_size q) (o, q)) by (unfold pq_gets, st_gets; cbn [fst]; by rewrite H4).
    destruct (Z.ltb_spec (mq_size q) 28); [lia|]. change (msg_serialize m) with (IpcMessage_serialize m). rewrite Hs.
    rewrite (st_bind_eq _ _ (o, q) (true, s) (o, q)) by done. cbv beta iota.
    rewrite (st_bind_eq _ _ (o, q) (pq_tmp_buffer o) (o, q)) by done. fold buf.
    rewrite (st_bind_eq _ _ (o, q) () (o, q)) by (rewrite bool_decide_eq_true_2 by lia; done).
    rewrite (st_bind_eq _ _ (o, q) () (pq_with_buffer buf o, q)) by done. cbn [negb].
    rewrite (st_bind_eq _ _ (pq_with_buffer buf o, q) () (pq_with_buffer buf o, q)) by (rewrite bool_decide_eq_true_2 by lia; done).
    rewrite (st_bind_eq _ _ (pq_with_buffer buf o, q) (pq_blocking o) (pq_with_buffer buf o, q)) by done.
    rewrite (st_bind_eq _ _ (pq_with_buffer buf o, q) err (pq_with_buffer buf o, q1)); [done|].
    unfold pq_call, st_run. cbn [snd fst]. destruct Hm as (Hp & _). change (msg_getPriority m) with (im_priority m). rewrite Hp. change (Z.to_nat 28) with 28%nat. by rewrite Hgo. }
  eexists _, _, q1. split; [exact Hrun|]. split; [by eapply handle_kept; [apply handle_buffer|]|]. split; [done|].
  split; [intros Hlt; by rewrite (Hroom Hlt)|]. destruct err as [[]|]; try done. exists (take 28 buf). split; [|done]. apply Hmsg. lia.
Qed.

Lemma Receive_runs o q m :
  handle_ready o q -> length (im_data m) = 16%nat -> Forall (fun l => exists t idx id, is_message t idx id l) (mq_messages q) ->
  exists r m1 o1 q1, PosixMessageQueue_Receive m (o, q) = Some ((r, m1), (o1, q1)) /\ handle_ready o1 q1 /\ mq_kept q q1 /\ length (im_data m1) = 16%nat /\
    match mq_messages q with
    | [] => r <> eMR_OK /\ mq_messages q1 = []
    | l :: ls => r = eMR_OK /\ mq_messages q1 = ls /\ forall t idx id, is_message t idx id l ->
        msg_ready m1 /\ im_msgtype m1 = t /\ im_data_len m1 = 16 /\ data_idx m1 = Some idx /\ data_id m1 = Some id
    end.
Proof.
  intros Hr Hm Hall. pose proof Hr as (H1 & H2 & H3 & H4 & H5 & H6 & Hok).
  destruct (mq_receive_law (pq_blocking o) q Hok) as (r & q1 & Hgo & Hk & Hms).
  assert (Hrun : PosixMessageQueue_Receive m (o, q) =
    (match r with
     | inl mq_EAGAIN => mret (eMR_Again, m)
     | inl mq_ETIMEDOUT => mret (eMR_Timeout, m)
     | inl mq_other => mret (eMR_Error, m)
     | inr (l, prio) =>
       buffer ← pq_gets pq_tmp_buffer;
       st_assert (bool_decide (Z.of_nat (length l) <= Z.of_nat (length buffer)));;
       pq_mod (pq_with_buffer (l ++ drop (length l) buffer));;
       '(ok, m) ← st_option (msg_deserialize l prio m);
       mret (if ok : bool then eMR_OK else eMR_Error, m)
     end : StM (PosixMessageQueue * Q) (eMqResult * IpcMessage)) (o, q1)).
  { unfold PosixMessageQueue_Receive. rewrite (st_bind_eq _ _ (o, q) eD_None (o, q)) by (unfold pq_gets, st_gets; cbn [fst]; by rewrite H2).
    rewrite decide_False by done. rewrite (st_bind_eq _ _ (o, q) (pq_blocking o) (o, q)) by done.
    rewrite (st_bind_eq _ _ (o, q) r (o, q1)); [done|]. unfold pq_call, st_run. cbn [snd fst]. by rewrite Hgo. }
  rewrite Hrun. destruct (mq_messages q) as [|l ls].
  - destruct Hms as ((e & ->) & Hms). assert (Hh : handle_ready o q1) by by eapply handle_kept.
    destruct e; eexists _, m, o, q1; split; [reflexivity|done|reflexivity|done|reflexivity|done].
  - destruct Hms as (-> & Hms). apply Forall_cons in Hall as ((t & idx & id & Hl) & _).
    destruct (deserialize_message t idx id l m Hl Hm) as (m1 & Hdes & Hm1 & Ht1 & Hn1 & Hx1 & Hd1). destruct Hl as (Hl & Hl').
    set (buf := l ++ drop (length l) (pq_tmp_buffer o)).
    exists eMR_OK, m1, (pq_with_buffer buf o), q1. split; [|split; [|split; [done|split; [by destruct Hm1 as (_ & _ & _ & ?)|]]]].
    + rewrite (st_bind_eq _ _ (o, q1) (pq_tmp_buffer o) (o, q1)) by done.
      rewrite (st_bind_eq _ _ (o, q1) () (o, q1)) by (rewrite bool_decide_eq_true_2 by lia; done).
      rewrite (st_bind_eq _ _ (o, q1) () (pq_with_buffer buf o, q1)) by done.
      change (msg_deserialize l 0 m) with (IpcMessage_deserialize l 0 m). rewrite Hdes. done.
    + apply handle_buffer; [by eapply handle_kept|]. unfold buf. rewrite length_app, length_drop. lia.
    + split; [done|]. split; [done|]. intros t' idx' id' (_ & _ & _ & E8 & E12 & E16). destruct Hl' as (_ & _ & F8 & F12 & F16).
      rewrite F8 in E8. rewrite F12 in E12. rewrite F16 in E16. injection E8 as <-. injection E12 as <-. injection E16 as <-. done.
Qed.
End calls.

(** ** Operations of the ring *)

Section ring.
Context {Q : Type} `{!PosixMq Q} `{!PosixMqLaws Q} `{!IpcEnv Q}.
Context (N B : Z) (mode : eBlocking).
Hypothesis N_range : 2 <= N.
Hypothesis B_range : 0 < B.
Hypothesis size_range : N * B < 2 ^ 31.

Implicit Types v : IpcView Q.

Definition ring_ready (dir : eIpcDirection) (v : IpcView Q) : Prop :=
  let o := iv_obj v in
  ip_blocks o = N /\ ip_blocksize o = B /\ ip_direction o = dir /\ ip_blocking o = mode /\
  handle_ready (ip_ping_queue o) (iv_ping v) /\ handle_ready (ip_pong_queue o) (iv_pong v) /\
  ps_size (ip_memblock o) = N * B /\ ps_access (ip_memblock o) = true.

Lemma N_bound : N < 2 ^ 31.
Proof using B_range N_range size_range. nia. Qed.

Lemma buffer_fill_runs o :
  ip_blocks o = N -> 0 <= ip_next_block o < N -> 0 <= ip_last_block_ack o < N -> exists f, buffer_fill o = Some f /\ 0 <= f < N.
Proof using B_range N_range size_range.
  intros HN Hn Ha. pose proof N_bound as Hb. change (2 ^ 31) with 2147483648 in Hb. unfold buffer_fill. rewrite HN.
  set (d := ip_next_block o - ip_last_block_ack o - 1).
  destruct (Z.leb_spec (ip_next_block o) (ip_last_block_ack o)) as [Hle|Hlt].
  - assert (Hs : s32 (u32 d) = d) by (unfold d; div_lia). rewrite Hs.
    assert (Hs2 : s32 (u32 (d + N)) = d + N) by (unfold d; div_lia). rewrite Hs2.
    destruct (Z.leb_spec 0 (d + N)); [|unfold d in *; lia]. exists (d + N). split; [done|unfold d in *; lia].
  - assert (Hs : s32 (u32 d) = d) by (unfold d; div_lia). rewrite Hs. destruct (Z.leb_spec 0 d); [|unfold d in *; lia].
    exists d. split; [done|unfold d in *; lia].
Qed.

Lemma ipc_gets_bind {A C} (f : IpcRingBuffer -> A) (k : A -> StM (IpcView Q) C) v : (ipc_gets f ≫= k) v = k (f (iv_obj v)) v.
Proof. done. Qed.

Lemma ipc_mod_bind {C} (f : IpcRingBuffer -> IpcRingBuffer) (k : () -> StM (IpcView Q) C) v :
  (ipc_mod f ≫= k) v = k () (mkIpcView (f (iv_obj v)) (iv_ping v) (iv_pong v) (iv_mem v)).
Proof. done. Qed.

Lemma on_ping_runs {A} (m : StM (PosixMessageQueue * Q) A) v a o q :
  m (ip_ping_queue (iv_obj v), iv_ping v) = Some (a, (o, q)) ->
  on_ping m v = Some (a, mkIpcView (ip_with_ping o (iv_obj v)) q (iv_pong v) (iv_mem v)).
Proof. intros Hm. unfold on_ping. by rewrite Hm. Qed.

Lemma on_pong_runs {A} (m : StM (PosixMessageQueue * Q) A) v a o q :
  m (ip_pong_queue (iv_obj v), iv_pong v) = Some (a, (o, q)) ->
  on_pong m v = Some (a, mkIpcView (ip_with_pong o (iv_obj v)) (iv_ping v) q (iv_mem v)).
Proof. intros Hm. unfold on_pong. by rewrite Hm. Qed.

Lemma ip_with_ping_same o : ip_with_ping (ip_ping_queue o) o = o.
Proof. by destruct o. Qed.

(** the messages in the ping queue and its room *)
Definition pings v : list octets := mq_messages (iv_ping v).
Definition pongs v : list octets := mq_messages (iv_pong v).
Definition room v : Prop := Z.of_nat (length (pings v)) < mq_capacity (iv_ping v).

Lemma refuse_write_runs dir v :
  ring_ready dir v -> 0 <= ip_next_block (iv_obj v) < N -> 0 <= ip_last_block_ack (iv_obj v) < N ->
  exists b, refuse_write v = Some (b, v) /\ (b = false -> mode = eB_NonBlocking -> room v) /\ (mode = eB_Blocking \/ room v -> b = false).
Proof using B_range N_range size_range.
  intros (HN & HB & Hd & Hm & Hping & Hpong & Hmem) Hn Ha.
  destruct (buffer_fill_runs (iv_obj v) HN Hn Ha) as (f & Hf & Hfr). unfold refuse_write. rewrite ipc_gets_bind, Hm.
  rewrite (st_bind_eq _ _ v f v) by (unfold getBufferFill; rewrite ipc_gets_bind; unfold id; by rewrite Hf).
  rewrite ipc_gets_bind, HN. destruct mode.
  - destruct (Z.leb_spec N f); [lia|]. exists false. by split.
  - destruct (Z.leb_spec N f); [lia|].
    rewrite (st_bind_eq _ _ v (Z.of_nat (length (pings v)) <? mq_capacity (iv_ping v)) v).
    + eexists. split; [reflexivity|]. unfold room. split; [|intros [?|Hr]; [done|]].
      * intros Hb _. apply negb_false_iff, Z.ltb_lt in Hb. done.
      * apply negb_false_iff, Z.ltb_lt. done.
    + rewrite (on_ping_runs _ v _ _ _ (canSend_runs _ _ Hping)). rewrite ip_with_ping_same. by destruct v.
Qed.

(** the offset of a block *)
Lemma block_offset id : 0 <= id < N ->
  PosixSharedMemory_requestBlock (u32 (s32 (u32 (id * B)))) B (mkPosixSharedMemory (N * B) false true) = Some (Some (id * B)).
Proof using B_range N_range size_range.
  intros Hid. change (2 ^ 31) with 2147483648 in size_range. assert (0 <= id * B /\ id * B + B <= N * B) by nia.
  assert (Hs : u32 (s32 (u32 (id * B))) = id * B) by div_lia. rewrite Hs. unfold PosixSharedMemory_requestBlock. cbn [ps_size ps_access].
  rewrite wrapU_small by width_lia. destruct (Z.leb_spec (id * B + B) (N * B)); [done|lia].
Qed.

Lemma request_block dir v id : ring_ready dir v -> 0 <= id < N ->
  PosixSharedMemory_requestBlock (u32 (s32 (u32 (id * B)))) B (ip_memblock (iv_obj v)) = Some (Some (id * B)).
Proof using B_range N_range size_range.
  intros (_ & _ & _ & _ & _ & _ & Hs & Ha) Hid. rewrite <- (block_offset id Hid). unfold PosixSharedMemory_requestBlock. by rewrite Hs, Ha.
Qed.

Lemma next_of_range id : 0 <= id < N -> 0 <= next_of N id < N /\ next_of N id = (id + 1) mod N.
Proof using B_range N_range size_range.
  intros Hid. pose proof N_bound as Hb. change (2 ^ 31) with 2147483648 in Hb. unfold next_of. rewrite wrapU_small by width_lia.
  destruct (Z.eqb_spec (id + 1) N) as [->|Hne]; [by rewrite Z.mod_same by lia; lia|]. rewrite Z.mod_small by lia. lia.
Qed.

(** a request leaves the lock set and gives the next block, or is refused *)
Lemma request_write_runs v :
  ring_ready eD_Outward v -> 0 <= ip_next_block (iv_obj v) < N -> 0 <= ip_last_block_ack (iv_obj v) < N ->
  ip_block_requested_for_write (iv_obj v) = false ->
  exists r locked ack, requestBlockForWrite v = Some (r, mkIpcView (ip_lock_write locked (ip_with_ack ack (ip_last_idx_ack (iv_obj v)) (iv_obj v)))
                                             (iv_ping v) (iv_pong v) (iv_mem v)) /\
    0 <= ack < N /\
    ((r = (eR_OK, Some (ip_next_block (iv_obj v) * B)) /\ locked = true /\ (mode = eB_NonBlocking -> room v)) \/
     (r = (eR_Again, None) /\ locked = false /\ ~ (mode = eB_Blocking \/ room v))).
Proof using B_range N_range size_range.
  intros Hr Hn Ha Hl. unfold requestBlockForWrite. rewrite ipc_gets_bind, Hl, ipc_mod_bind.
  set (v1 := mkIpcView _ _ _ _). assert (Hr1 : ring_ready eD_Outward v1) by exact Hr.
  destruct (refuse_write_runs eD_Outward v1 Hr1 Hn Ha) as (b & Hgo & Hroom & Hfree). rewrite (st_bind_eq _ _ _ _ _ Hgo). destruct b.
  - exists (eR_Again, None), false, (ip_last_block_ack (iv_obj v)). split; [|split; [done|right; split; [done|split; [done|intros Hr'; by discriminate Hfree]]]].
    rewrite ipc_mod_bind. unfold v1. cbn [iv_obj iv_ping iv_pong iv_mem]. by destruct v as [[] ? ? ?].
  - rewrite ipc_mod_bind, ipc_gets_bind. cbn [iv_obj]. unfold id.
    set (ack := if ip_next_block (iv_obj v) =? ip_last_block_ack (iv_obj v) then next_of (ip_blocks (iv_obj v)) (ip_last_block_ack (iv_obj v)) else ip_last_block_ack (iv_obj v)).
    set (v2 := mkIpcView _ _ _ _).
    assert (Hv2 : v2 = mkIpcView (ip_lock_write true (ip_with_ack ack (ip_last_idx_ack (iv_obj v)) (iv_obj v))) (iv_ping v) (iv_pong v) (iv_mem v)).
    { unfold v2, v1, ack. cbn [iv_obj iv_ping iv_pong iv_mem]. destruct v as [[] ? ? ?]. cbn. by case_match. }
    assert (Hr2 : ring_ready eD_Outward v2) by (rewrite Hv2; exact Hr).
    set (o2 := if ip_next_block (iv_obj v1) =? _ then _ else _). assert (Ho2 : o2 = iv_obj v2) by done. rewrite Ho2.
    destruct Hr as (HN & HB & _). replace (ip_next_block (iv_obj v2)) with (ip_next_block (iv_obj v)) by (by rewrite Hv2).
    replace (ip_blocksize (iv_obj v2)) with B by (by rewrite Hv2). cbv zeta. rewrite (request_block eD_Outward v2 _ Hr2 Hn).
    rewrite (st_bind_eq _ _ v2 (Some (ip_next_block (iv_obj v) * B)) v2) by done.
    exists (eR_OK, Some (ip_next_block (iv_obj v) * B)), true, ack. split; [by rewrite <- Hv2|]. split.
    + unfold ack. rewrite HN. case_match; [apply next_of_range|]; done.
    + left. split; [done|]. split; [done|]. intros Hmode. by apply Hroom.
Qed.

(** *** A request in steps *)

(** past the test for room there is room, in the non-blocking mode *)
Definition admitted (pc : request_pc) v : Prop :=
  match pc with At_fill _ | At_asked _ => True | _ => mode = eB_NonBlocking -> room v end.

(** what a step of a request leaves alone *)
Definition asked v v1 : Prop :=
  ring_ready eD_Outward v1 /\ 0 <= ip_last_block_ack (iv_obj v1) < N /\
  iv_ping v1 = iv_ping v /\ iv_pong v1 = iv_pong v /\ iv_mem v1 = iv_mem v /\
  ip_next_block (iv_obj v1) = ip_next_block (iv_obj v) /\ ip_idx (iv_obj v1) = ip_idx (iv_obj v) /\
  ip_LastDataMessageSent (iv_obj v1) = ip_LastDataMessageSent (iv_obj v).

(** the difference that [getBufferFill] takes first *)
Definition fill_difference (o : IpcRingBuffer) : Z := s32 (u32 (ip_next_block o - ip_last_block_ack o - 1)).

Lemma request_begin_runs v :
  ring_ready eD_Outward v -> 0 <= ip_last_block_ack (iv_obj v) < N -> ip_block_requested_for_write (iv_obj v) = false ->
  exists v1, request_begin v = Some (RN_at (At_fill (fill_difference (iv_obj v))), v1) /\ asked v v1 /\
    ip_block_requested_for_write (iv_obj v1) = true /\ ip_last_block_ack (iv_obj v1) = ip_last_block_ack (iv_obj v).
Proof. intros Hr Ha Hl. unfold request_begin. rewrite ipc_gets_bind, Hl, ipc_mod_bind, ipc_gets_bind. eexists. split; [reflexivity|]. by repeat (split; [done|]). Qed.

Lemma request_step_runs v pc :
  ring_ready eD_Outward v -> 0 <= ip_next_block (iv_obj v) < N -> 0 <= ip_last_block_ack (iv_obj v) < N ->
  ip_block_requested_for_write (iv_obj v) = true -> admitted pc v ->
  exists x v1, request_step pc v = Some (x, v1) /\ asked v v1 /\
    match x with
    | RN_at pc1 => ip_block_requested_for_write (iv_obj v1) = true /\ admitted pc1 v1 /\ (if pc1 is At_fill _ then False else True)
    | RN_done r => (r = (eR_OK, Some (ip_next_block (iv_obj v) * B)) /\ ip_block_requested_for_write (iv_obj v1) = true /\ (mode = eB_NonBlocking -> room v1)) \/
                   (r = (eR_Again, None) /\ ip_block_requested_for_write (iv_obj v1) = false)
    | RN_abort => ip_block_requested_for_write (iv_obj v1) = true /\ pc <> At_fill (fill_difference (iv_obj v)) /\ (if pc is At_fill _ then True else False)
    end.
Proof using B_range N_range size_range.
  intros Hr Hn Ha Hl Hp. pose proof Hr as (HN & HB & Hd & Hm & Hping & Hpong & Hs & Hacc).
  assert (Hsame : asked v v) by by repeat (split; [done|]).
  unfold request_step. rewrite ipc_gets_bind. unfold id. destruct pc as [d|f| | | |].
  - set (d1 := if _ <=? _ then _ else d). eexists _, v. split; [reflexivity|]. split; [done|].
    destruct (Z.leb_spec 0 d1) as [Hd1|Hd1]; [done|]. split; [done|]. split; [|done]. intros [= ->].
    destruct (buffer_fill_runs (iv_obj v) HN Hn Ha) as (f & Hf & Hfr). unfold buffer_fill in Hf. fold (fill_difference (iv_obj v)) in Hf. fold d1 in Hf.
    destruct (Z.leb_spec 0 d1); [lia|done].
  - rewrite HN, Hm. assert (Hno : exists v1, request_again v = Some (RN_done (eR_Again, None), v1) /\ asked v v1 /\ ip_block_requested_for_write (iv_obj v1) = false).
    { unfold request_again. rewrite ipc_mod_bind. eexists. split; [reflexivity|]. by repeat (split; [done|]). }
    destruct mode eqn:Hmode.
    + eexists _, v. split; [reflexivity|]. split; [done|]. cbv iota. split; [done|].
      destruct (N <=? f); (split; [|done]); intros Hnb; by rewrite Hmode in Hnb.
    + destruct (N <=? f); [|].
      * destruct Hno as (v1 & Hgo & Hv1 & Hl1). exists (RN_done (eR_Again, None)), v1. split; [done|]. split; [done|]. by right.
      * rewrite (st_bind_eq _ _ v (Z.of_nat (length (pings v)) <? mq_capacity (iv_ping v)) v)
          by (rewrite (on_ping_runs _ v _ _ _ (canSend_runs _ _ Hping)), ip_with_ping_same; by destruct v).
        destruct (Z.ltb_spec (Z.of_nat (length (pings v))) (mq_capacity (iv_ping v))) as [Hroom|_].
        -- eexists _, v. split; [reflexivity|]. split; [done|]. split; [done|]. split; [intros _; exact Hroom|done].
        -- destruct Hno as (v1 & Hgo & Hv1 & Hl1). exists (RN_done (eR_Again, None)), v1. split; [done|]. split; [done|]. by right.
  - destruct (0 <? _); [rewrite ipc_mod_bind|]; (eexists _, _; split; [reflexivity|]); by repeat (split; [done|]).
  - eexists _, v. split; [reflexivity|]. split; [done|]. by destruct (_ =? _).
  - rewrite ipc_mod_bind. eexists _, _. split; [reflexivity|]. split; [|by repeat (split; [done|])].
    split; [done|]. split; [|by repeat (split; [done|])]. cbn [iv_obj]. rewrite HN. by apply next_of_range.
  - rewrite HB. cbv zeta. rewrite (request_block eD_Outward v _ Hr Hn). rewrite (st_bind_eq _ _ v (Some (ip_next_block (iv_obj v) * B)) v) by done.
    eexists _, v. split; [reflexivity|]. split; [done|]. by left.
Qed.

(** A request that nobody interrupts is [requestBlockForWrite]. *)
Lemma request_alone v :
  ring_ready eD_Outward v -> 0 <= ip_next_block (iv_obj v) < N -> 0 <= ip_last_block_ack (iv_obj v) < N ->
  ip_block_requested_for_write (iv_obj v) = false ->
  exists r v1, requestBlockForWrite v = Some (r, v1) /\ (request_begin ≫= request_steps 5) v = Some (RN_done r, v1).
Proof using B_range N_range size_range.
  intros Hr Hn Ha Hl. pose proof Hr as (HN & HB & Hd & Hm & Hping & Hpong & Hs & Hacc).
  unfold requestBlockForWrite, request_begin. rewrite ipc_gets_bind, Hl, ipc_mod_bind.
  rewrite (st_bind_eq _ _ v (RN_at (At_fill (fill_difference (iv_obj v)))) (mkIpcView (ip_lock_write true (iv_obj v)) (iv_ping v) (iv_pong v) (iv_mem v)))
    by (by rewrite ipc_gets_bind, Hl, ipc_mod_bind).
  set (v1 := mkIpcView _ _ _ _).
  assert (Hr1 : ring_ready eD_Outward v1) by exact Hr. assert (Hn1 : 0 <= ip_next_block (iv_obj v1) < N) by exact Hn.
  destruct (buffer_fill_runs (iv_obj v1) HN Hn Ha) as (f & Hf & Hfr).
  assert (Hfill : request_step (At_fill (fill_difference (iv_obj v))) v1 = Some (RN_at (At_asked f), v1)).
  { change (fill_difference (iv_obj v)) with (fill_difference (iv_obj v1)). unfold request_step. rewrite ipc_gets_bind. unfold id, mret, StM_ret.
    unfold buffer_fill in Hf. fold (fill_difference (iv_obj v1)) in Hf. set (d1 := if ip_next_block _ <=? ip_last_block_ack _ then _ else _) in Hf |- *. clearbody d1.
    destruct (0 <=? d1); [by injection Hf as ->|done]. }
  assert (Hget : getBufferFill v1 = Some (f, v1)) by (unfold getBufferFill; rewrite ipc_gets_bind; unfold id; by rewrite Hf).
  cbn [request_steps]. rewrite (st_bind_eq _ _ _ _ _ Hfill).
  assert (Hgo : exists b, refuse_write v1 = Some (b, v1) /\
    request_step (At_asked f) v1 = if b : bool then request_again v1 else Some (RN_at At_overflow, v1)).
  { unfold refuse_write, request_step. rewrite !ipc_gets_bind, (st_bind_eq _ _ _ _ _ Hget), ipc_gets_bind. unfold id.
    change (ip_blocks (iv_obj v1)) with (ip_blocks (iv_obj v)). change (ip_blocking (iv_obj v1)) with (ip_blocking (iv_obj v)). rewrite HN.
    destruct (Z.leb_spec N f); [lia|]. destruct (ip_blocking (iv_obj v)); [by exists false|].
    rewrite !(st_bind_eq _ _ v1 (Z.of_nat (length (pings v)) <? mq_capacity (iv_ping v)) v1)
      by (by rewrite (on_ping_runs _ v1 _ _ _ (canSend_runs _ _ Hping))).
    eexists. split; [reflexivity|]. by destruct (_ <? _). }
  destruct Hgo as (b & Hrefuse & Hasked). rewrite (st_bind_eq _ _ _ _ _ Hrefuse). cbn [request_steps]. destruct b.
  - rewrite (st_bind_eq _ _ _ _ _ Hasked). unfold request_again. rewrite !ipc_mod_bind. by eexists _, _.
  - rewrite (st_bind_eq _ _ _ _ _ Hasked).
    clear Hfill Hget Hrefuse Hasked Hf Hfr. clearbody v1. rewrite ipc_mod_bind, ipc_gets_bind.
    rewrite (st_bind_eq _ _ v1 (RN_at (if ip_next_block (iv_obj v1) =? ip_last_block_ack (iv_obj v1) then At_bump else At_offset)) v1) by done.
    assert (Hoff : forall w, ring_ready eD_Outward w -> 0 <= ip_next_block (iv_obj w) < N ->
      st_option (PosixSharedMemory_requestBlock (u32 (s32 (u32 (ip_next_block (iv_obj w) * ip_blocksize (iv_obj w))))) (ip_blocksize (iv_obj w)) (ip_memblock (iv_obj w))) w =
        Some (Some (ip_next_block (iv_obj w) * B), w) /\
      request_step At_offset w = Some (RN_done (eR_OK, Some (ip_next_block (iv_obj w) * B)), w)).
    { intros w Hw Hnw. pose proof Hw as (_ & HBw & _). unfold request_step. rewrite ipc_gets_bind. unfold id. rewrite HBw. cbv zeta.
      rewrite (request_block eD_Outward w _ Hw Hnw). split; [done|]. by rewrite (st_bind_eq _ _ w (Some (ip_next_block (iv_obj w) * B)) w). }
    destruct (Z.eqb_spec (ip_next_block (iv_obj v1)) (ip_last_block_ack (iv_obj v1))) as [He|He].
    + set (w := mkIpcView _ _ _ _). destruct (Hoff w Hr1 Hn1) as [Ho1 Ho2].
      unfold id. change (ip_with_ack _ _ _) with (iv_obj w). rewrite (st_bind_eq _ _ _ _ _ Ho1). eexists _, w. split; [reflexivity|].
      rewrite (st_bind_eq _ _ v1 (RN_at At_offset) w) by (by unfold request_step; rewrite ipc_gets_bind, ipc_mod_bind).
      by rewrite (st_bind_eq _ _ _ _ _ Ho2).
    + destruct (Hoff v1 Hr1 Hn1) as [Ho1 Ho2]. replace (mkIpcView (iv_obj v1) (iv_ping v1) (iv_pong v1) (iv_mem v1)) with v1 by (by destruct v1).
      unfold id. rewrite (st_bind_eq _ _ _ _ _ Ho1). eexists _, v1. split; [reflexivity|]. by rewrite (st_bind_eq _ _ _ _ _ Ho2).
Qed.

Lemma data_written_ready id idx m :
  msg_ready m -> is_u32 id -> is_u32 idx ->
  msg_ready (data_written id idx m) /\ data_idx (data_written id idx m) = Some idx /\ data_id (data_written id idx m) = Some id.
Proof.
  intros (H1 & H2 & H3 & H4) Hid Hidx. unfold data_written, data_idx, data_id. cbn [im_data im_with_data].
  assert (Hl : length (put_uint 4 id (im_data m)) = 16%nat) by (unfold put_uint; by rewrite length_inserts).
  split; [|split].
  - split; [done|]. split; [done|]. split; [done|]. cbn [im_data im_with_data]. unfold put_uint at 1. by rewrite length_inserts.
  - apply uint_at_put; [lia|done].
  - rewrite uint_at_put_other by lia. apply uint_at_put; [lia|done].
Qed.

(** a release sends the message and moves on, or fails and stays *)
Lemma release_write_runs v :
  ring_ready eD_Outward v -> 0 <= ip_next_block (iv_obj v) < N -> is_u32 (ip_idx (iv_obj v)) ->
  ip_block_requested_for_write (iv_obj v) = true -> msg_ready (ip_LastDataMessageSent (iv_obj v)) ->
  exists r v1, releaseBlockForWrite v = Some (r, v1) /\ ring_ready eD_Outward v1 /\ mq_kept (iv_ping v) (iv_ping v1) /\
    iv_pong v1 = iv_pong v /\ iv_mem v1 = iv_mem v /\ ip_block_requested_for_write (iv_obj v1) = false /\
    ip_last_block_ack (iv_obj v1) = ip_last_block_ack (iv_obj v) /\ msg_ready (ip_LastDataMessageSent (iv_obj v1)) /\ (room v -> r = eR_OK) /\
    (if decide (r = eR_OK) then
       ip_next_block (iv_obj v1) = next_of N (ip_next_block (iv_obj v)) /\ ip_idx (iv_obj v1) = u32 (ip_idx (iv_obj v) + 1) /\
       exists l, is_message eMT_DataWritten (ip_idx (iv_obj v)) (ip_next_block (iv_obj v)) l /\ pings v1 = pings v ++ [l]
     else ip_next_block (iv_obj v1) = ip_next_block (iv_obj v) /\ ip_idx (iv_obj v1) = ip_idx (iv_obj v) /\ pings v1 = pings v).
Proof using B_range N_range size_range.
  intros Hr Hn Hi Hl Hm. pose proof N_bound as Hb. change (2 ^ 31) with 2147483648 in Hb.
  unfold releaseBlockForWrite. rewrite ipc_gets_bind, Hl. cbn [negb]. rewrite ipc_gets_bind. unfold id.
  set (m0 := mkIpcMessage 0 FFADO_IPC_RINGBUFFER_MAGIC FFADO_IPC_RINGBUFFER_VERSION eMT_DataWritten 8 (im_data (ip_LastDataMessageSent (iv_obj v)))).
  pose proof Hm as (Hm1 & Hm2 & Hm3 & Hm4).
  rewrite (st_bind_eq _ _ v m0 v) by (unfold IpcMessage_setDataSize, IpcMessage_setType, m0; cbn; by rewrite Hm1, Hm2, Hm3). cbv zeta.
  set (m := data_written _ _ m0). rewrite ipc_mod_bind. set (v1 := mkIpcView _ _ _ _).
  destruct (data_written_ready (ip_next_block (iv_obj v)) (ip_idx (iv_obj v)) m0) as (Hmr & Hmi & Hmd); [done|width_lia|done|].
  pose proof Hr as (HN & HB & Hd & Hmo & Hping & Hpong & Hs & Hacc).
  destruct (Send_runs (ip_ping_queue (iv_obj v)) (iv_ping v) m eMT_DataWritten (ip_idx (iv_obj v)) (ip_next_block (iv_obj v)) Hping Hmr) as (r & o1 & q1 & Hgo & Hh & Hk & Hroom & Hms);
    [done|done|done|exact Hmi|exact Hmd|].
  rewrite (st_bind_eq _ _ _ _ _ (on_ping_runs _ v1 _ _ _ Hgo)). set (v2 := mkIpcView _ _ _ _).
  assert (Hr2 : ring_ready eD_Outward v2) by (repeat (split; [done|]); done).
  destruct r.
  2-4: eexists _, _; split; [reflexivity|]; split; [exact Hr2|]; split; [done|]; split; [done|]; split; [done|]; split; [done|]; split; [done|];
    split; [done|]; split; [intros Hlt; by specialize (Hroom Hlt)|]; by repeat (split; [done|]).
  rewrite ipc_mod_bind, ipc_mod_bind. eexists _, _. split; [reflexivity|]. split; [exact Hr2|]. do 7 (split; [done|]). rewrite decide_True by done.
  split; [cbn; by rewrite HN|]. split; [done|]. destruct Hms as (l & Hl1 & Hl2). by exists l.
Qed.

(** the fields of a message about a block *)
Definition about (t : Z) (l : octets) : Prop := exists idx id, is_message t idx id l /\ is_u32 idx /\ 0 <= id < N.

Lemma about_message t ls : Forall (about t) ls -> Forall (fun l => exists t idx id, is_message t idx id l) ls.
Proof. intros Hls. apply (Forall_impl _ _ _ Hls). intros l (idx & id & Hl & _). eauto. Qed.

(** what the handler of acknowledgements may change in the object *)
Definition acked v v1 : Prop :=
  ring_ready eD_Outward v1 /\ 0 <= ip_last_block_ack (iv_obj v1) < N /\ iv_ping v1 = iv_ping v /\ iv_mem v1 = iv_mem v /\
  mq_kept (iv_pong v) (iv_pong v1) /\
  ip_next_block (iv_obj v1) = ip_next_block (iv_obj v) /\ ip_idx (iv_obj v1) = ip_idx (iv_obj v) /\
  ip_block_requested_for_write (iv_obj v1) = ip_block_requested_for_write (iv_obj v) /\
  ip_LastDataMessageSent (iv_obj v1) = ip_LastDataMessageSent (iv_obj v).

Lemma acked_trans v1 v2 v3 : acked v1 v2 -> acked v2 v3 -> acked v1 v3.
Proof.
  intros (A1 & A2 & A3 & A4 & (A5 & A5' & A5'') & A6 & A7 & A8 & A9) (B1 & B2 & B3 & B4 & (B5 & B5' & B5'') & B6 & B7 & B8 & B9).
  unfold acked, mq_kept. by rewrite B3, B4, B5', B5'', B6, B7, B8, B9.
Qed.

Lemma handle_ack_runs v l ls :
  ring_ready eD_Outward v -> 0 <= ip_last_block_ack (iv_obj v) < N -> pongs v = l :: ls -> Forall (about eMT_DataAck) (l :: ls) ->
  exists v1, handle_ack v = Some ((), v1) /\ acked v v1 /\ pongs v1 = ls.
Proof.
  intros Hr Ha Hls Hall. pose proof Hr as (HN & HB & Hd & Hmo & Hping & Hpong & Hs & Hacc).
  destruct (Receive_runs (ip_pong_queue (iv_obj v)) (iv_pong v) IpcMessage_new Hpong) as (r & m1 & o1 & q1 & Hgo & Hh & Hk & _ & Hms); [done| |].
  { fold (pongs v). rewrite Hls. by eapply about_message. }
  fold (pongs v) in Hms. rewrite Hls in Hms. destruct Hms as (-> & Hq1 & Hmsg).
  apply Forall_cons in Hall as ((idx & id & Hl & Hidx & Hid) & _). destruct (Hmsg _ _ _ Hl) as (_ & Ht & _ & Hx & Hi).
  unfold handle_ack. rewrite (st_bind_eq _ _ _ _ _ (on_pong_runs _ v _ _ _ Hgo)). set (v1 := mkIpcView _ _ _ _). cbv beta iota.
  rewrite Ht, Z.eqb_refl, Hx, Hi. rewrite (st_bind_eq _ _ v1 id v1), (st_bind_eq _ _ v1 idx v1) by done. rewrite ipc_mod_bind, ipc_gets_bind.
  case_decide; eexists; (split; [reflexivity|]); by repeat (split; [done|]).
Qed.

Lemma acked_same v : ring_ready eD_Outward v -> 0 <= ip_last_block_ack (iv_obj v) < N -> acked v v.
Proof. intros Hr Ha. pose proof Hr as (_ & _ & _ & _ & _ & Hpong & _). repeat (split; [done|]). split; [by eapply kept_refl|done]. Qed.

(** the handler is enabled again *)
Lemma enable_runs v :
  ring_ready eD_Outward v -> 0 <= ip_last_block_ack (iv_obj v) < N ->
  exists r v1, on_pong PosixMessageQueue_enableNotification v = Some (r, v1) /\ acked v v1 /\ pongs v1 = pongs v /\
    ip_last_block_ack (iv_obj v1) = ip_last_block_ack (iv_obj v).
Proof.
  intros Hr Ha. pose proof Hr as (HN & HB & Hd & Hmo & Hping & Hpong & Hs & Hacc). pose proof Hpong as (_ & _ & _ & _ & _ & _ & Hok).
  destruct (mq_notify_law (iv_pong v) Hok) as (r & q1 & Hn & Hk & Hm). eexists r, _. split.
  { apply on_pong_runs. unfold PosixMessageQueue_enableNotification, pq_call, st_run. cbn [fst snd]. by rewrite Hn. }
  split; [|by unfold pongs; cbn [iv_pong]; rewrite Hm].
  assert (Hr1 : ring_ready eD_Outward (mkIpcView (ip_with_pong (ip_pong_queue (iv_obj v)) (iv_obj v)) (iv_ping v) q1 (iv_mem v)))
    by (repeat (split; [done|]); split; [by eapply handle_kept|done]).
  by repeat (split; [done|]).
Qed.

(** a turn handles the oldest acknowledgement *)
Lemma ack_turn_runs v :
  ring_ready eD_Outward v -> 0 <= ip_last_block_ack (iv_obj v) < N -> Forall (about eMT_DataAck) (pongs v) ->
  exists v1, ack_turn v = Some (bool_decide (pongs v <> []), v1) /\ acked v v1 /\ pongs v1 = tail (pongs v).
Proof.
  intros Hr Ha Hall. unfold ack_turn. pose proof Hr as (HN & HB & Hd & Hmo & Hping & Hpong & Hs & Hacc).
  assert (Hcan : on_pong PosixMessageQueue_canReceive v = Some (0 <? Z.of_nat (length (pongs v)), v)).
  { rewrite (on_pong_runs _ v _ _ _ (canReceive_runs _ _ Hpong)). unfold pongs. by destruct v as [[] ? ? ?]. }
  rewrite (st_bind_eq _ _ _ _ _ Hcan). destruct (pongs v) as [|l ls] eqn:Hls; cbn [length Z.of_nat].
  - exists v. split; [done|]. split; [by apply acked_same|done].
  - destruct (Z.ltb_spec 0 (Z.of_nat (S (length ls)))); [|lia].
    destruct (handle_ack_runs v l ls Hr Ha Hls Hall) as (v1 & Hgo & Hak & Hls1). rewrite (st_bind_eq _ _ _ _ _ Hgo). by exists v1.
Qed.

Lemma ack_loop_runs fuel : forall v,
  ring_ready eD_Outward v -> 0 <= ip_last_block_ack (iv_obj v) < N -> Forall (about eMT_DataAck) (pongs v) -> (length (pongs v) < fuel)%nat ->
  exists v1, ack_loop fuel v = Some ((), v1) /\ acked v v1 /\ pongs v1 = [].
Proof.
  induction fuel as [|fuel IH]; intros v Hr Ha Hall Hf; [lia|]. cbn [ack_loop].
  destruct (ack_turn_runs v Hr Ha Hall) as (v1 & Hgo & Hak & Hls1). rewrite (st_bind_eq _ _ _ _ _ Hgo).
  case_bool_decide as Hls; [|exists v1; by rewrite Hls1, Hls].
  destruct (pongs v) as [|l ls]; [done|]. cbn [length tail] in *. apply Forall_cons in Hall as [_ Hall]. pose proof Hak as (Hr1 & Ha1 & _).
  destruct (IH v1 Hr1 Ha1) as (v2 & Hgo2 & Hak2 & Hls2); [by rewrite Hls1|rewrite Hls1; lia|].
  exists v2. split; [done|]. split; [by eapply acked_trans|done].
Qed.

Lemma notification_runs fuel v :
  ring_ready eD_Outward v -> 0 <= ip_last_block_ack (iv_obj v) < N -> Forall (about eMT_DataAck) (pongs v) -> (length (pongs v) < fuel)%nat ->
  exists v1, notificationHandler fuel v = Some ((), v1) /\ acked v v1 /\ pongs v1 = [].
Proof.
  intros Hr Ha Hall Hf. unfold notificationHandler. destruct (enable_runs v Hr Ha) as (r & v1 & Hen & Hak & Hp & _).
  rewrite (st_bind_eq _ _ _ _ _ Hen). pose proof Hak as (Hr1 & Ha1 & _).
  destruct (ack_loop_runs fuel v1 Hr1 Ha1) as (v2 & Hgo & Hak2 & Hls); [by rewrite Hp..|].
  exists v2. split; [exact Hgo|]. split; [by eapply acked_trans|done].
Qed.

(** ** The receiver *)

(** the part of the object that a request and a release leave alone *)
Lemma request_read_runs v :
  ring_ready eD_Inward v -> ip_block_requested_for_read (iv_obj v) = false -> length (im_data (ip_LastDataMessageReceived (iv_obj v))) = 16%nat ->
  Forall (about eMT_DataWritten) (pings v) ->
  exists r v1, requestBlockForRead v = Some (r, v1) /\ ring_ready eD_Inward v1 /\ mq_kept (iv_ping v) (iv_ping v1) /\
    iv_pong v1 = iv_pong v /\ iv_mem v1 = iv_mem v /\ length (im_data (ip_LastDataMessageReceived (iv_obj v1))) = 16%nat /\
    ip_last_block_ack (iv_obj v1) = ip_last_block_ack (iv_obj v) /\ ip_next_block (iv_obj v1) = ip_next_block (iv_obj v) /\
    match pings v with
    | [] => fst r <> eR_OK /\ pings v1 = [] /\ ip_block_requested_for_read (iv_obj v1) = false
    | l :: ls => pings v1 = ls /\ ip_block_requested_for_read (iv_obj v1) = true /\
        forall idx id, is_message eMT_DataWritten idx id l -> r = (eR_OK, Some (id * B)) /\
          msg_ready (ip_LastDataMessageReceived (iv_obj v1)) /\ im_data_len (ip_LastDataMessageReceived (iv_obj v1)) = 16 /\
          data_idx (ip_LastDataMessageReceived (iv_obj v1)) = Some idx /\ data_id (ip_LastDataMessageReceived (iv_obj v1)) = Some id
    end.
Proof using B_range N_range size_range.
  intros Hr Hl Hm Hall. pose proof Hr as (HN & HB & Hd & Hmo & Hping & Hpong & Hs & Hacc).
  unfold requestBlockForRead. rewrite ipc_gets_bind, Hl, ipc_mod_bind, ipc_gets_bind. cbn [iv_obj]. set (v0 := mkIpcView _ _ _ _).
  destruct (Receive_runs (ip_ping_queue (iv_obj v)) (iv_ping v) (ip_LastDataMessageReceived (iv_obj v)) Hping Hm) as (r & m1 & o1 & q1 & Hgo & Hh & Hk & Hm1 & Hms);
    [by eapply about_message|]. fold (pings v) in Hms.
  change (ip_LastDataMessageReceived (ip_lock_read true (iv_obj v))) with (ip_LastDataMessageReceived (iv_obj v)).
  rewrite (st_bind_eq _ _ _ _ _ (on_ping_runs _ v0 _ _ _ Hgo)). cbv beta iota. rewrite ipc_mod_bind. set (v1 := mkIpcView _ _ _ _).
  assert (Hr1 : ring_ready eD_Inward v1) by (repeat (split; [done|]); done).
  destruct (pings v) as [|l ls].
  - destruct Hms as (Hne & Hq1). destruct r; [done|..]; eexists _, _; (split; [reflexivity|]); by repeat (split; [done|]).
  - destruct Hms as (-> & Hq1 & Hmsg). apply Forall_cons in Hall as ((idx & id & Hl0 & Hidx & Hid) & _).
    destruct (Hmsg _ _ _ Hl0) as (Hmr & Ht & Hn16 & Hx & Hi). rewrite Ht, Z.eqb_refl, Hx, Hi.
    rewrite (st_bind_eq _ _ v1 id v1), (st_bind_eq _ _ v1 idx v1) by done. rewrite ipc_gets_bind. cbv zeta.
    replace (ip_blocksize (iv_obj v1)) with B by done. rewrite (request_block eD_Inward v1 id Hr1 Hid).
    rewrite (st_bind_eq _ _ v1 (Some (id * B)) v1) by done. eexists _, _. split; [reflexivity|].
    do 8 (split; [done|]). split; [done|]. intros idx' id' Hl'. destruct (Hmsg _ _ _ Hl') as (_ & _ & _ & Hx' & Hi').
    rewrite Hx in Hx'. rewrite Hi in Hi'. injection Hx' as <-. injection Hi' as <-. by repeat (split; [done|]).
Qed.

Lemma release_read_runs v idx id :
  ring_ready eD_Inward v -> ip_block_requested_for_read (iv_obj v) = true -> msg_ready (ip_LastDataMessageReceived (iv_obj v)) ->
  im_data_len (ip_LastDataMessageReceived (iv_obj v)) = 16 ->
  data_idx (ip_LastDataMessageReceived (iv_obj v)) = Some idx -> data_id (ip_LastDataMessageReceived (iv_obj v)) = Some id ->
  exists r v1, releaseBlockForRead v = Some (r, v1) /\ ring_ready eD_Inward v1 /\ mq_kept (iv_pong v) (iv_pong v1) /\
    iv_ping v1 = iv_ping v /\ iv_mem v1 = iv_mem v /\ length (im_data (ip_LastDataMessageReceived (iv_obj v1))) = 16%nat /\
    ip_block_requested_for_read (iv_obj v1) = false /\
    ip_last_block_ack (iv_obj v1) = ip_last_block_ack (iv_obj v) /\
    (ip_next_block (iv_obj v1) = ip_next_block (iv_obj v) \/ ip_next_block (iv_obj v1) = next_of N id) /\
    (pongs v1 = pongs v \/ exists l, is_message eMT_DataAck idx id l /\ pongs v1 = pongs v ++ [l]).
Proof.
  intros Hr Hl Hm Hn Hx Hi. pose proof Hr as (HN & HB & Hd & Hmo & Hping & Hpong & Hs & Hacc). pose proof Hm as (_ & _ & _ & Hm4).
  unfold releaseBlockForRead. rewrite ipc_gets_bind, Hl. cbn [negb]. rewrite ipc_gets_bind. cbv zeta.
  set (m := IpcMessage_setType _ _). rewrite ipc_mod_bind. set (v0 := mkIpcView _ _ _ _).
  destruct (Send_runs (ip_pong_queue (iv_obj v)) (iv_pong v) m eMT_DataAck idx id Hpong) as (r & o1 & q1 & Hgo & Hh & Hk & _ & Hms);
    [exact Hm|done|done|unfold m; cbn; lia|exact Hx|exact Hi|].
  rewrite (st_bind_eq _ _ _ _ _ (on_pong_runs _ v0 _ _ _ Hgo)). set (v1 := mkIpcView _ _ _ _).
  assert (Hr1 : ring_ready eD_Inward v1) by (repeat (split; [done|]); done).
  destruct r.
  2-4: eexists _, _; split; [reflexivity|]; split; [exact Hr1|]; do 6 (split; [done|]); (split; [by left|]); by left.
  change (data_id m) with (data_id (ip_LastDataMessageReceived (iv_obj v))). change (data_idx m) with (data_idx (ip_LastDataMessageReceived (iv_obj v))).
  rewrite Hx, Hi. rewrite (st_bind_eq _ _ v1 id v1), (st_bind_eq _ _ v1 idx v1) by done. rewrite ipc_mod_bind, ipc_mod_bind.
  eexists _, _. split; [reflexivity|]. split; [exact Hr1|]. do 6 (split; [done|]).
  split; [right; by rewrite <- HN|]. right. destruct Hms as (l & Hl1 & Hl2). by exists l.
Qed.
End ring.
