(* ===== verification/IpcFifo.v ===== *)
(** * IpcFifo: a sender and a receiver on an IpcRingBuffer

    The two processes of libutil/IpcRingBuffer interleave, and the notification
    thread of the sender with the sender itself: the accesses of a request to
    the counters, which it makes without [m_access_lock], copying one byte of a
    block, releasing it, and handling one acknowledgement are the steps.  With
    more blocks than the ping queue holds messages (two more in the blocking
    mode) the ring is a queue under every interleaving, although the test for a
    full ring never succeeds; with fewer blocks it is not.  [getBufferFill] reads
    [m_last_block_ack] twice; [torn_fill_aborts] is a run in which its [assert]
    fails. *)
From stdpp Require Import list.
From S2P Require Import Prelude StateMonad Serialize MessageQueue IpcRing IpcCalls.

(** [IpcRingBuffer::Write]: where its request is, or, between the request and
    the release, the block, the offset in the memory, and how many bytes are
    copied; or an [assert] has failed.  The same for [Read], with the bytes that
    were read. *)
Inductive ipc_sender :=
| IS_idle
| IS_request (block : list Z) (pc : request_pc)
| IS_copy (block : list Z) (p : Z) (k : nat)
| IS_aborted.
Inductive ipc_receiver := IR_idle | IR_copy (p : Z) (got : list Z).

(** [sy_notifying]: whether the notification thread of the sender is in the loop
    of [notificationHandler].  [sy_written]: the blocks that were released, [sy_lost]: how many writes
    reported success although the release failed, [sy_read]: the blocks that
    were read, all from the beginning. *)
Record ipc_system (Q : Type) := mkIpcSystem {
  sy_tx : IpcRingBuffer;
  sy_rx : IpcRingBuffer;
  sy_ping : Q;
  sy_pong : Q;
  sy_mem : list Z;
  sy_sender : ipc_sender;
  sy_notifying : bool;
  sy_receiver : ipc_receiver;
  sy_written : list (list Z);
  sy_lost : nat;
  sy_read : list (list Z) }.
Arguments mkIpcSystem {Q} _ _ _ _ _ _ _ _ _ _ _.
Arguments sy_tx {Q} _.
Arguments sy_rx {Q} _.
Arguments sy_ping {Q} _.
Arguments sy_pong {Q} _.
Arguments sy_mem {Q} _.
Arguments sy_sender {Q} _.
Arguments sy_notifying {Q} _.
Arguments sy_receiver {Q} _.
Arguments sy_written {Q} _.
Arguments sy_lost {Q} _.
Arguments sy_read {Q} _.

(** A step of the sender (a call of [Write] with its block, the next access of
    its request, a byte of the copy, the release), of its notification thread
    (the begin of the handler, a turn of its loop), or of the receiver. *)
Inductive ipc_event :=
| Ev_write (block : list Z)
| Ev_request
| Ev_write_byte
| Ev_write_done
| Ev_notify
| Ev_ack
| Ev_read
| Ev_read_byte
| Ev_read_done.

Section system.
Context {Q : Type} `{!PosixMq Q} `{!IpcEnv Q}.
Implicit Types s : ipc_system Q.

Definition tx_view s : IpcView Q := mkIpcView (sy_tx s) (sy_ping s) (sy_pong s) (sy_mem s).
Definition rx_view s : IpcView Q := mkIpcView (sy_rx s) (sy_ping s) (sy_pong s) (sy_mem s).

Definition with_tx (v : IpcView Q) (c : ipc_sender) (written : list (list Z)) (lost : nat) s : ipc_system Q :=
  mkIpcSystem (iv_obj v) (sy_rx s) (iv_ping v) (iv_pong v) (iv_mem v) c (sy_notifying s) (sy_receiver s) written lost (sy_read s).
Definition with_notifier (v : IpcView Q) (b : bool) s : ipc_system Q :=
  mkIpcSystem (iv_obj v) (sy_rx s) (iv_ping v) (iv_pong v) (iv_mem v) (sy_sender s) b (sy_receiver s) (sy_written s) (sy_lost s) (sy_read s).
Definition with_rx (v : IpcView Q) (c : ipc_receiver) (read : list (list Z)) s : ipc_system Q :=
  mkIpcSystem (sy_tx s) (iv_obj v) (iv_ping v) (iv_pong v) (iv_mem v) (sy_sender s) (sy_notifying s) c (sy_written s) (sy_lost s) read.

(** what [Write] does after an access of its request *)
Definition request_goes_on (block : list Z) (x : request_next) : ipc_sender :=
  match x with
  | RN_at pc => IS_request block pc
  | RN_done (eR_OK, Some p) => IS_copy block p 0
  | RN_done _ => IS_idle
  | RN_abort => IS_aborted
  end.

(** An event that cannot happen in the state does nothing; [None] is undefined
    behaviour. *)
Definition ipc_step (e : ipc_event) s : option (ipc_system Q) :=
  match e, sy_sender s, sy_receiver s with
  | Ev_write block, IS_idle, _ =>
    '(x, v) ← request_begin (tx_view s);
    Some (with_tx v (request_goes_on block x) (sy_written s) (sy_lost s) s)
  | Ev_request, IS_request block pc, _ =>
    '(x, v) ← request_step pc (tx_view s);
    Some (with_tx v (request_goes_on block x) (sy_written s) (sy_lost s) s)
  | Ev_write_byte, IS_copy block p k, _ =>
    if Z.of_nat k <? ip_blocksize (sy_tx s) then
      b ← block !! k;
      mem ← store (sy_mem s) (p + Z.of_nat k) b;
      Some (with_tx (mkIpcView (sy_tx s) (sy_ping s) (sy_pong s) mem) (IS_copy block p (S k)) (sy_written s) (sy_lost s) s)
    else Some s
  | Ev_write_done, IS_copy block p k, _ =>
    if Z.of_nat k <? ip_blocksize (sy_tx s) then Some s
    else
      '(r, v) ← releaseBlockForWrite (tx_view s);
      Some (if decide (r = eR_OK) then with_tx v IS_idle (sy_written s ++ [take k block]) (sy_lost s) s
            else with_tx v IS_idle (sy_written s) (S (sy_lost s)) s)
  | Ev_notify, (IS_idle | IS_request _ _ | IS_copy _ _ _), _ =>
    if sy_notifying s then Some s
    else
      '(_, v) ← on_pong PosixMessageQueue_enableNotification (tx_view s);
      Some (with_notifier v true s)
  | Ev_ack, (IS_idle | IS_request _ _ | IS_copy _ _ _), _ =>
    if sy_notifying s then
      '(more, v) ← ack_turn (tx_view s);
      Some (with_notifier v more s)
    else Some s
  | Ev_read, _, IR_idle =>
    '(r, v) ← requestBlockForRead (rx_view s);
    Some (with_rx v (match r with (eR_OK, Some p) => IR_copy p [] | _ => IR_idle end) (sy_read s) s)
  | Ev_read_byte, _, IR_copy p got =>
    if Z.of_nat (length got) <? ip_blocksize (sy_rx s) then
      b ← load (sy_mem s) (p + Z.of_nat (length got));
      Some (with_rx (rx_view s) (IR_copy p (got ++ [b])) (sy_read s) s)
    else Some s
  | Ev_read_done, _, IR_copy p got =>
    if Z.of_nat (length got) <? ip_blocksize (sy_rx s) then Some s
    else
      '(_, v) ← releaseBlockForRead (rx_view s);
      Some (with_rx v IR_idle (sy_read s ++ [got]) s)
  | _, _, _ => Some s
  end.

Fixpoint ipc_run (es : list ipc_event) s : option (ipc_system Q) :=
  match es with
  | [] => Some s
  | e :: es' => s1 ← ipc_step e s; ipc_run es' s1
  end.

(** Two new objects are initialised one after the other, the master first. *)
Definition ipc_start (fuel : nat) (tx_master : bool) (blocking : eBlocking) (blocks block_size : Z) (ping pong : Q) (mem : list Z)
  : option (ipc_system Q) :=
  let tx := IpcRingBuffer_new (if tx_master then eBT_Master else eBT_Slave) eD_Outward blocking blocks block_size in
  let rx := IpcRingBuffer_new (if tx_master then eBT_Slave else eBT_Master) eD_Inward blocking blocks block_size in
  '(ok1, v1) ← IpcRingBuffer_init fuel (mkIpcView (if tx_master then tx else rx) ping pong mem);
  '(ok2, v2) ← IpcRingBuffer_init fuel (mkIpcView (if tx_master then rx else tx) (iv_ping v1) (iv_pong v1) (iv_mem v1));
  if (ok1 : bool) && (ok2 : bool) then
    Some (mkIpcSystem (if tx_master then iv_obj v1 else iv_obj v2) (if tx_master then iv_obj v2 else iv_obj v1)
            (iv_ping v2) (iv_pong v2) (iv_mem v2) IS_idle false IR_idle [] 0 [])
  else None.
End system.

(** ** The invariant *)

Section fifo.
Context {Q : Type} `{!PosixMq Q} `{!PosixMqLaws Q} `{!IpcEnv Q}.
Context (N B : Z) (mode : eBlocking) (capacity pong_capacity : Z).
Hypothesis N_range : 2 <= N.
Hypothesis B_range : 0 < B.
Hypothesis size_range : N * B < 2 ^ 31.

(** A request is refused while the ping queue is full; in the blocking mode it
    is the release that waits, when the block has been overwritten already. *)
Hypothesis large : (if mode is eB_Blocking then capacity + 1 else capacity) < N.

Implicit Types s : ipc_system Q.

(** the place of the block with the number [i], from 0 *)
Definition slot (i : nat) : Z := (1 + Z.of_nat i) mod N.

Definition bytes_at (mem : list Z) (p : Z) (k : nat) : list Z := take k (drop (Z.to_nat p) mem).

Definition held s : nat := if sy_receiver s is IR_copy _ _ then 1 else 0.
Definition sending s : bool := if sy_sender s is IS_idle then false else true.
Definition receiving s : bool := if sy_receiver s is IR_copy _ _ then true else false.

Definition tx_inv s : Prop :=
  let o := sy_tx s in let n := length (sy_written s) in
  ring_ready N B mode eD_Outward (tx_view s) /\ ip_next_block o = slot n /\ ip_idx o = u32 (1 + Z.of_nat n) /\
  0 <= ip_last_block_ack o < N /\ msg_ready (ip_LastDataMessageSent o) /\ ip_block_requested_for_write o = sending s.

Definition rx_inv s : Prop :=
  let o := sy_rx s in
  ring_ready N B mode eD_Inward (rx_view s) /\ length (im_data (ip_LastDataMessageReceived o)) = 16%nat /\
  ip_block_requested_for_read o = receiving s /\ ip_last_block_ack o = 0 /\ 0 <= ip_next_block o < N.

(** the messages in the queues *)
Definition queue_inv s : Prop :=
  Forall2 (fun i l => is_message eMT_DataWritten (u32 (1 + Z.of_nat i)) (slot i) l)
    (seq (length (sy_read s) + held s) (length (sy_written s) - length (sy_read s) - held s)) (mq_messages (sy_ping s)) /\
  Forall (about N eMT_DataAck) (mq_messages (sy_pong s)) /\
  mq_capacity (sy_ping s) = capacity /\ mq_capacity (sy_pong s) = pong_capacity /\ (mode = eB_NonBlocking -> sy_lost s = 0%nat).

(** the blocks that were not read yet are in the memory *)
Definition mem_inv s : Prop :=
  Z.of_nat (length (sy_mem s)) = N * B /\ sy_read s = take (length (sy_read s)) (sy_written s) /\
  (length (sy_read s) + held s <= length (sy_written s))%nat /\
  forall i b, (length (sy_read s) <= i)%nat -> sy_written s !! i = Some b -> length b = Z.to_nat B /\ bytes_at (sy_mem s) (slot i * B) (Z.to_nat B) = b.

(** the block that is being written has a place of its own *)
Definition sender_inv s : Prop :=
  match sy_sender s with
  | IS_idle | IS_aborted => True
  | IS_request block pc => B <= Z.of_nat (length block) /\ admitted mode pc (tx_view s)
  | IS_copy block p k =>
    p = slot (length (sy_written s)) * B /\ (k <= Z.to_nat B <= length block)%nat /\ bytes_at (sy_mem s) p k = take k block /\
    Z.of_nat (length (sy_written s)) - Z.of_nat (length (sy_read s)) < N /\
    (mode = eB_NonBlocking -> Z.of_nat (length (mq_messages (sy_ping s))) < capacity)
  end.

Definition receiver_inv s : Prop :=
  match sy_receiver s with
  | IR_idle => True
  | IR_copy p got =>
    let h := length (sy_read s) in let m := ip_LastDataMessageReceived (sy_rx s) in
    p = slot h * B /\ (length got <= Z.to_nat B)%nat /\ got = bytes_at (sy_mem s) p (length got) /\
    msg_ready m /\ im_data_len m = 16 /\ data_idx m = Some (u32 (1 + Z.of_nat h)) /\ data_id m = Some (slot h)
  end.

Definition ipc_inv s : Prop := tx_inv s /\ rx_inv s /\ queue_inv s /\ mem_inv s /\ sender_inv s /\ receiver_inv s.

(** ** Places *)

Lemma slot_range i : 0 <= slot i < N.
Proof using N_range. apply Z.mod_pos_bound. lia. Qed.

Lemma slot_inj i j : slot i = slot j -> Z.abs (Z.of_nat i - Z.of_nat j) < N -> i = j.
Proof using N_range.
  unfold slot. intros He Hd. pose proof (Z.div_mod (1 + Z.of_nat i) N ltac:(lia)). pose proof (Z.div_mod (1 + Z.of_nat j) N ltac:(lia)).
  assert (Z.of_nat i - Z.of_nat j = N * ((1 + Z.of_nat i) / N - (1 + Z.of_nat j) / N)) by lia.
  assert ((1 + Z.of_nat i) / N - (1 + Z.of_nat j) / N = 0) by nia. lia.
Qed.

Lemma slot_next i : next_of N (slot i) = slot (S i).
Proof using N_range B_range size_range.
  destruct (next_of_range N B N_range B_range size_range (slot i) (slot_range i)) as [_ ->]. unfold slot.
  rewrite Zplus_mod_idemp_l. f_equal. lia.
Qed.

Lemma bytes_at_insert_own mem p k b :
  0 <= p -> p + Z.of_nat k < Z.of_nat (length mem) ->
  bytes_at (<[Z.to_nat (p + Z.of_nat k) := b]> mem) p (S k) = bytes_at mem p k ++ [b].
Proof.
  intros Hp Hk. unfold bytes_at. replace (Z.to_nat (p + Z.of_nat k)) with (Z.to_nat p + k)%nat by lia.
  rewrite drop_insert_ge by lia. replace (Z.to_nat p + k - Z.to_nat p)%nat with k by lia.
  erewrite take_S_r; [|apply list_lookup_insert_eq; rewrite length_drop; lia]. by rewrite take_insert_ge by lia.
Qed.

Lemma bytes_at_insert_other mem p q k b :
  0 <= p -> 0 <= q -> (q + Z.of_nat k <= p \/ p < q) -> bytes_at (<[Z.to_nat p := b]> mem) q k = bytes_at mem q k.
Proof.
  intros Hp Hq [Hd|Hd]; unfold bytes_at.
  - destruct (decide (length mem <= Z.to_nat p)%nat); [by rewrite list_insert_ge by lia|].
    rewrite drop_insert_ge by lia. by rewrite take_insert_ge by lia.
  - by rewrite drop_insert_lt by lia.
Qed.

Lemma slots_apart i j k : slot i <> slot j -> 0 <= k < B -> slot j * B + Z.of_nat (Z.to_nat B) <= slot i * B + k \/ slot i * B + k < slot j * B.
Proof using B_range N_range. pose proof (slot_range i). pose proof (slot_range j). intros Hne Hk. rewrite Z2Nat.id by lia. destruct (Z.lt_ge_cases (slot i) (slot j)); [right|left]; nia. Qed.

(** an object does not notice calls of the other process on the queues *)
Lemma ring_ready_kept dir o p1 q1 m1 p2 q2 m2 :
  ring_ready N B mode dir (mkIpcView o p1 q1 m1) -> mq_kept p1 p2 -> mq_kept q1 q2 -> ring_ready N B mode dir (mkIpcView o p2 q2 m2).
Proof.
  intros (HN & HB & Hd & Hmo & Hping & Hpong & Hs & Hacc) Hp Hq. unfold ring_ready. cbn [iv_obj iv_ping iv_pong] in *.
  do 4 (split; [done|]). split; [by eapply handle_kept|]. split; [by eapply handle_kept|]. done.
Qed.

Lemma ring_ready_oks dir v : ring_ready N B mode dir v -> mq_kept (iv_ping v) (iv_ping v) /\ mq_kept (iv_pong v) (iv_pong v).
Proof. intros (_ & _ & _ & _ & Hping & Hpong & _). split; by eapply kept_refl. Qed.

Lemma large_cases : capacity + 1 < N \/ (mode = eB_NonBlocking /\ capacity < N).
Proof using large. generalize large. destruct mode; [by left|by right]. Qed.

(** ** Steps *)

(** an access of a request *)
Lemma asked_keeps s v c :
  ipc_inv s -> asked N B mode (tx_view s) v -> ip_block_requested_for_write (iv_obj v) = (if c is IS_idle then false else true) ->
  sender_inv (with_tx v c (sy_written s) (sy_lost s) s) -> ipc_inv (with_tx v c (sy_written s) (sy_lost s) s).
Proof.
  intros (Htx & Hrx & Hq & Hmem & _ & Hrecv) (Hr & Ha & Hping & Hpong & Hm & Hn & Hi & Hs) Hl Hc.
  destruct v as [o p q m]. cbn [tx_view iv_obj iv_ping iv_pong iv_mem] in *. subst p q m. destruct Htx as (_ & Hn0 & Hi0 & _ & Hs0 & _).
  refine (conj _ (conj Hrx (conj Hq (conj Hmem (conj Hc Hrecv))))).
  split; [exact Hr|]. unfold sending. cbn [with_tx sy_tx sy_written sy_sender iv_obj]. rewrite Hn, Hi, Hs. by repeat (split; [done|]).
Qed.

Lemma write_keeps s block :
  ipc_inv s -> B <= Z.of_nat (length block) -> sy_sender s = IS_idle ->
  exists v, request_begin (tx_view s) = Some (RN_at (At_fill (fill_difference (sy_tx s))), v) /\
    ip_next_block (iv_obj v) = ip_next_block (sy_tx s) /\ ip_last_block_ack (iv_obj v) = ip_last_block_ack (sy_tx s) /\
    ipc_inv (with_tx v (IS_request block (At_fill (fill_difference (sy_tx s)))) (sy_written s) (sy_lost s) s).
Proof.
  intros Hs Hb Hidle. pose proof Hs as (Htx & _). destruct Htx as (Hr & _ & _ & Hack & _ & Hlock). unfold sending in Hlock. rewrite Hidle in Hlock.
  destruct (request_begin_runs N B mode (tx_view s) Hr Hack Hlock) as (v & Hgo & Hv & Hl & Ha). exists v. split; [exact Hgo|].
  split; [by destruct Hv as (_ & _ & _ & _ & _ & Hn & _)|]. split; [exact Ha|]. by apply asked_keeps; [| |rewrite Hl|].
Qed.

Lemma request_keeps s block pc :
  ipc_inv s -> sy_sender s = IS_request block pc ->
  exists x v, request_step pc (tx_view s) = Some (x, v) /\ (if x is RN_at (At_fill _) then False else True) /\
    (x = RN_abort -> exists d, pc = At_fill d /\ d <> fill_difference (sy_tx s)) /\
    ipc_inv (with_tx v (request_goes_on block x) (sy_written s) (sy_lost s) s).
Proof using N_range B_range size_range large.
  intros Hs Hreq. pose proof Hs as (Htx & Hrx & Hq & Hmem & Hsend & Hrecv). destruct Htx as (Hr & Hnext & Hidx & Hack & Hsent & Hlock).
  unfold sending in Hlock. unfold sender_inv in Hsend. rewrite Hreq in *. destruct Hsend as [Hb Hadm].
  destruct (request_step_runs N B mode N_range B_range size_range (tx_view s) pc Hr) as (x & v & Hgo & Hv & Hcase);
    [cbn [tx_view iv_obj]; rewrite Hnext; apply slot_range|exact Hack|exact Hlock|exact Hadm|].
  exists x, v. split; [exact Hgo|]. destruct x as [pc1|r|].
  - destruct Hcase as (Hl & Hadm1 & Hpc). split; [by destruct pc1|]. split; [done|]. apply asked_keeps; [done|done|done|]. by split.
  - split; [done|]. split; [done|]. destruct Hcase as [(-> & Hl & Hroom)|(-> & Hl)]; (apply asked_keeps; [done|done|done|]); [|done].
    destruct Hv as (_ & _ & Hping & _ & Hm & _). unfold sender_inv, room, pings in *.
    cbn [request_goes_on with_tx sy_sender sy_written sy_read sy_mem sy_ping tx_view iv_obj] in *. rewrite Hping in *. cbn [tx_view iv_ping] in *. rewrite Hnext.
    split; [done|]. split; [lia|]. split; [done|].
    destruct Hq as (Hp2 & _ & Hcap & _). pose proof (Forall2_length _ _ _ Hp2) as Hlen. rewrite length_seq in Hlen.
    destruct Hmem as (_ & _ & Hle & _). destruct (ring_ready_oks _ _ Hr) as [(Hok & _) _]. pose proof (mq_bounded _ Hok) as Hbd. cbn [tx_view iv_ping] in Hbd.
    rewrite Hcap in *. assert (Hh : (held s <= 1)%nat) by (unfold held; destruct (sy_receiver s); lia).
    split; [|exact Hroom]. destruct large_cases as [Hlg|[Hmode Hlg]]; [lia|]. specialize (Hroom Hmode). lia.
  - split; [done|]. destruct Hcase as (Hl & Hd & Hpc). split; [intros _; destruct pc; try done; eexists; split; [done|]; by intros ->|].
    by apply asked_keeps.
Qed.

Lemma write_byte_keeps s block p k :
  ipc_inv s -> sy_sender s = IS_copy block p k -> Z.of_nat k < B ->
  exists b, block !! k = Some b /\ exists mem, store (sy_mem s) (p + Z.of_nat k) b = Some mem /\
    ipc_inv (with_tx (mkIpcView (sy_tx s) (sy_ping s) (sy_pong s) mem) (IS_copy block p (S k)) (sy_written s) (sy_lost s) s).
Proof using N_range B_range size_range large.
  intros (Htx & Hrx & Hq & Hmem & Hsend & Hrecv) Hs Hk. unfold sender_inv in Hsend. rewrite Hs in Hsend.
  destruct Hsend as (-> & Hkb & Hcopied & Hroom & Hcap). destruct (lookup_lt_is_Some_2 block k) as [b Hb]; [lia|]. exists b. split; [done|].
  destruct Hmem as (Hml & Hread & Hle & Hblocks). pose proof (slot_range (length (sy_written s))) as Hsl.
  set (q := slot (length (sy_written s)) * B) in *. assert (Hq0 : 0 <= q /\ q + Z.of_nat k < N * B) by (unfold q; nia).
  unfold store. rewrite decide_True by lia. eexists. split; [reflexivity|]. set (mem := <[_ := b]> _).
  assert (Hother : forall i n, (length (sy_read s) <= i < length (sy_written s))%nat -> (n <= Z.to_nat B)%nat -> bytes_at mem (slot i * B) n = bytes_at (sy_mem s) (slot i * B) n).
  { intros i n Hi Hn. unfold mem. pose proof (slot_range i). apply bytes_at_insert_other; [lia|nia|].
    assert (Hne : slot (length (sy_written s)) <> slot i) by (intros He; apply slot_inj in He; lia).
    destruct (slots_apart _ i (Z.of_nat k) Hne ltac:(lia)); [left; unfold q; lia|right; unfold q; lia]. }
  refine (conj _ (conj Hrx (conj Hq (conj _ (conj _ _))))).
  - destruct Htx as (Hr & Hnext & Hidx & Hack & Hsent & Hlock). unfold sending in Hlock. rewrite Hs in Hlock. by repeat (split; [done|]).
  - unfold mem_inv. cbn [with_tx sy_mem sy_read sy_written iv_mem]. split; [unfold mem; by rewrite length_insert|]. split; [done|]. split; [exact Hle|].
    intros i b' Hi Hb'. destruct (Hblocks i b' Hi Hb') as [Hl Hbytes]. split; [done|]. rewrite Hother; [done| |done].
    pose proof (lookup_lt_Some _ _ _ Hb'). lia.
  - unfold sender_inv. cbn [with_tx sy_sender sy_written sy_read sy_mem sy_ping iv_ping iv_mem]. fold q. split; [done|]. split; [lia|].
    split; [|done]. unfold mem. rewrite bytes_at_insert_own by lia. rewrite Hcopied. symmetry. by apply take_S_r.
  - unfold receiver_inv in *. cbn [with_tx sy_receiver sy_read sy_mem sy_rx iv_mem]. unfold held in Hle. destruct (sy_receiver s) as [|p got]; [done|].
    destruct Hrecv as (-> & Hgl & Hgot & Hm). split; [done|]. split; [done|]. split; [|exact Hm]. rewrite Hother by lia. exact Hgot.
Qed.

Lemma write_done_keeps s block p k :
  ipc_inv s -> sy_sender s = IS_copy block p k -> B <= Z.of_nat k ->
  exists r v, releaseBlockForWrite (tx_view s) = Some (r, v) /\
    ipc_inv (if decide (r = eR_OK) then with_tx v IS_idle (sy_written s ++ [take k block]) (sy_lost s) s
             else with_tx v IS_idle (sy_written s) (S (sy_lost s)) s).
Proof using N_range B_range size_range large.
  intros (Htx & Hrx & Hq & Hmem & Hsend & Hrecv) Hs Hk. unfold sender_inv in Hsend. rewrite Hs in Hsend.
  destruct Hsend as (-> & Hkb & Hcopied & Hroom & Hcap). assert (Hke : k = Z.to_nat B) by lia. subst k.
  destruct Htx as (Hr & Hnext & Hidx & Hack & Hsent & Hlock). unfold sending in Hlock. rewrite Hs in Hlock.
  set (n := length (sy_written s)) in *.
  destruct (release_write_runs N B mode N_range B_range size_range (tx_view s) Hr) as (r & v & Hgo & Hr1 & Hk1 & Hpong & Hm1 & Hl1 & Ha1 & Hs1 & Hrm & Hcase);
    [cbn [tx_view iv_obj]; rewrite Hnext; apply slot_range|cbn [tx_view iv_obj]; rewrite Hidx; apply wrapU_uint; lia|exact Hlock|exact Hsent|].
  eexists r, v. split; [exact Hgo|]. cbn [tx_view iv_obj iv_ping iv_pong iv_mem] in *. destruct (ring_ready_oks _ _ Hr1) as [_ Hkq].
  assert (Hrx1 : forall c w l, rx_inv (with_tx v c w l s)).
  { intros c w l. destruct Hrx as (Hrr & Hrl & Hrlock). split; [|done]. cbn [rx_view with_tx sy_rx sy_ping sy_pong sy_mem iv_mem].
    eapply ring_ready_kept; [exact Hrr|exact Hk1|]. cbn [with_tx sy_pong]. rewrite Hpong. by rewrite Hpong in Hkq. }
  destruct Hq as (Hp2 & Hpo & Hcp & Hcq & Hlost). destruct Hk1 as (Hok1 & Hcap1 & Hsz1). destruct Hmem as (Hml & Hread & Hle & Hblocks). fold n in Hle, Hp2.
  assert (Hrecv1 : forall c w l, receiver_inv (with_tx v c w l s)).
  { intros c w l. unfold receiver_inv in *. cbn [with_tx sy_receiver sy_read sy_mem sy_rx]. rewrite Hm1. exact Hrecv. }
  case_decide as Hok.
  - destruct Hcase as (Hn1 & Hi1 & msg & Hmsg & Hpings).
    assert (Hlen : length (sy_written s ++ [take (Z.to_nat B) block]) = S n) by (rewrite length_app; cbn; unfold n; lia).
    refine (conj _ (conj (Hrx1 _ _ _) (conj _ (conj _ (conj I (Hrecv1 _ _ _)))))).
    + unfold tx_inv. cbn [with_tx sy_tx sy_written]. rewrite Hlen, Hn1, Hi1, Hnext, Hidx, slot_next, Ha1. split; [exact Hr1|]. split; [done|].
      split; [div_lia|]. exact (conj Hack (conj Hs1 Hl1)).
    + unfold queue_inv. cbn [with_tx sy_read sy_written sy_ping sy_pong sy_lost]. unfold held in *. cbn [with_tx sy_receiver].
      rewrite Hlen, Hcap1, Hpong. split; [|done]. unfold pings in Hpings. cbn [iv_ping] in Hpings. rewrite Hpings.
      set (h := length (sy_read s)) in *. set (g := if sy_receiver s is IR_copy _ _ then 1%nat else 0%nat) in *.
      replace (S n - h - g)%nat with (S (n - h - g))%nat by lia. rewrite seq_S. apply Forall2_app; [exact Hp2|]. constructor; [|constructor].
      replace (h + g + (n - h - g))%nat with n by lia. by rewrite <- Hidx, <- Hnext.
    + unfold mem_inv. cbn [with_tx sy_mem sy_read sy_written]. unfold held in *. cbn [with_tx sy_receiver]. rewrite Hm1, Hlen. split; [done|].
      split; [rewrite take_app_le by lia; exact Hread|]. split; [lia|]. intros i b Hi Hb. destruct (decide (i = n)) as [->|Hne].
      * rewrite lookup_app_r in Hb by lia. fold n in Hb. rewrite Nat.sub_diag in Hb. injection Hb as <-.
        split; [rewrite length_take; lia|exact Hcopied].
      * pose proof (lookup_lt_Some _ _ _ Hb). rewrite lookup_app_l in Hb by lia. by apply Hblocks.
  - destruct Hcase as (Hn1 & Hi1 & Hpings). unfold pings in Hpings. cbn [iv_ping] in Hpings.
    refine (conj _ (conj (Hrx1 _ _ _) (conj _ (conj _ (conj I (Hrecv1 _ _ _)))))).
    + unfold tx_inv. cbn [with_tx sy_tx sy_written]. rewrite Hn1, Hi1, Ha1. exact (conj Hr1 (conj Hnext (conj Hidx (conj Hack (conj Hs1 Hl1))))).
    + unfold queue_inv. cbn [with_tx sy_read sy_written sy_ping sy_pong sy_lost]. rewrite Hcap1, Hpong, Hpings. fold n. do 4 (split; [done|]).
      intros Hmode. destruct Hok. apply Hrm. unfold room, pings. cbn [iv_ping tx_view]. rewrite Hcp. by apply Hcap.
    + unfold mem_inv. cbn [with_tx sy_mem sy_read sy_written]. by rewrite Hm1.
Qed.

(** the notification thread *)
Lemma acked_keeps s v b :
  ipc_inv s -> acked N B mode (tx_view s) v -> Forall (about N eMT_DataAck) (pongs v) -> ipc_inv (with_notifier v b s).
Proof.
  intros (Htx & Hrx & Hq & Hmem & Hsend & Hrecv) (Hr1 & Ha1 & Hping & Hm1 & Hkq & Hn1 & Hi1 & Hl1 & Hs1) Hpongs.
  destruct Htx as (Hr & Hnext & Hidx & Hack & Hsent & Hlock). destruct Hq as (Hp2 & Hpo & Hcp & Hcq & Hlost).
  destruct (ring_ready_oks _ _ Hr1) as [Hkp _]. destruct v as [o p q m]. cbn [tx_view iv_obj iv_ping iv_pong iv_mem] in *. subst p m.
  refine (conj _ (conj _ (conj _ (conj Hmem (conj _ Hrecv))))).
  - unfold tx_inv. cbn [with_notifier sy_tx sy_written iv_obj]. rewrite Hn1, Hi1, Hl1, Hs1. by repeat (split; [done|]).
  - destruct Hrx as (Hrr & Hrest). split; [|exact Hrest]. by eapply ring_ready_kept; [exact Hrr|exact Hkp|exact Hkq].
  - unfold queue_inv. cbn [with_notifier sy_read sy_written sy_ping sy_pong sy_lost iv_ping iv_pong]. destruct Hkq as (_ & -> & _). by repeat (split; [done|]).
  - unfold sender_inv in *. cbn [with_notifier sy_sender sy_written sy_read sy_mem sy_ping iv_ping iv_mem]. by destruct (sy_sender s) as [|? []| |].
Qed.

Lemma notify_keeps s :
  ipc_inv s -> exists r v, on_pong PosixMessageQueue_enableNotification (tx_view s) = Some (r, v) /\
    ip_next_block (iv_obj v) = ip_next_block (sy_tx s) /\ ip_last_block_ack (iv_obj v) = ip_last_block_ack (sy_tx s) /\ ipc_inv (with_notifier v true s).
Proof.
  intros Hs. pose proof Hs as ((Hr & _ & _ & Hack & _) & _ & (_ & Hpo & _) & _).
  destruct (enable_runs N B mode (tx_view s) Hr Hack) as (r & v & Hgo & Hv & Hp & Ha). exists r, v. split; [exact Hgo|].
  split; [by destruct Hv as (_ & _ & _ & _ & _ & Hn & _)|]. split; [exact Ha|]. apply acked_keeps; [done|done|]. by rewrite Hp.
Qed.

Lemma ack_keeps s :
  ipc_inv s -> exists more v, ack_turn (tx_view s) = Some (more, v) /\ ipc_inv (with_notifier v more s).
Proof.
  intros Hs. pose proof Hs as ((Hr & _ & _ & Hack & _) & _ & (_ & Hpo & _) & _).
  destruct (ack_turn_runs N B mode (tx_view s) Hr Hack Hpo) as (v & Hgo & Hv & Hp). eexists _, v. split; [exact Hgo|].
  apply acked_keeps; [done|done|]. rewrite Hp. unfold pongs. cbn [tx_view iv_pong]. by destruct Hpo.
Qed.

Lemma pings_about s : queue_inv s -> Forall (about N eMT_DataWritten) (mq_messages (sy_ping s)).
Proof using N_range.
  intros (Hp2 & _). apply Forall_lookup. intros j l Hl. destruct (Forall2_lookup_r _ _ _ _ _ Hp2 Hl) as (i & _ & Hi).
  exists (u32 (1 + Z.of_nat i)), (slot i). split; [done|]. split; [apply wrapU_uint; lia|apply slot_range].
Qed.

(** more room does not undo the admission of a request *)
Lemma admitted_less pc (v v1 : IpcView Q) :
  admitted mode pc v -> (length (pings v1) <= length (pings v))%nat -> mq_capacity (iv_ping v1) = mq_capacity (iv_ping v) -> admitted mode pc v1.
Proof. unfold admitted, room. intros Ha Hl Hc. destruct pc; [done|done|..]; intros Hm; specialize (Ha Hm); rewrite Hc; lia. Qed.

Lemma read_keeps s :
  ipc_inv s -> sy_receiver s = IR_idle ->
  exists r v, requestBlockForRead (rx_view s) = Some (r, v) /\
    ((length (sy_read s) < length (sy_written s))%nat -> r = (eR_OK, Some (slot (length (sy_read s)) * B))) /\
    ipc_inv (with_rx v (match r with (eR_OK, Some p) => IR_copy p [] | _ => IR_idle end) (sy_read s) s).
Proof using N_range B_range size_range.
  intros (Htx & Hrx & Hq & Hmem & Hsend & Hrecv) Hidle. pose proof (pings_about s Hq) as Hab.
  destruct Hrx as (Hr & Hrl & Hlock & Hzero & Hnb). unfold receiving in Hlock. rewrite Hidle in Hlock.
  destruct Hq as (Hp2 & Hpo & Hcp & Hcq & Hlost). destruct Hmem as (Hml & Hread & Hle & Hblocks). unfold held in *. rewrite Hidle in *. rewrite Nat.add_0_r, Nat.sub_0_r in *.
  destruct (request_read_runs N B mode N_range B_range size_range (rx_view s) Hr Hlock Hrl Hab) as (r & v & Hgo & Hr1 & Hkp & Hpong & Hm1 & Hl1 & Ha1 & Hn1 & Hcase).
  cbn [rx_view iv_obj iv_ping iv_pong iv_mem] in *. rewrite <- Ha1 in Hzero. rewrite <- Hn1 in Hnb.
  exists r, v. split; [exact Hgo|]. destruct (ring_ready_oks _ _ Hr1) as [_ Hkq].
  assert (Htx1 : forall c, tx_inv (with_rx v c (sy_read s) s)).
  { intros c. destruct Htx as (Htr & Htx). split; [|exact Htx]. cbn [tx_view with_rx sy_tx sy_ping sy_pong sy_mem].
    eapply ring_ready_kept; [exact Htr|exact Hkp|]. cbn [with_rx sy_pong]. rewrite Hpong. by rewrite Hpong in Hkq. }
  assert (Hsend1 : (length (mq_messages (iv_ping v)) <= length (mq_messages (sy_ping s)))%nat -> forall c, sender_inv (with_rx v c (sy_read s) s)).
  { intros Hlen c. unfold sender_inv in *. cbn [with_rx sy_sender sy_written sy_read sy_mem sy_ping]. rewrite Hm1.
    destruct (sy_sender s) as [|block pc|block p k|]; [done| | |done].
    { destruct Hsend as [Hb Hadm]. split; [done|]. destruct Hkp as (_ & Hcap1 & _). by eapply admitted_less; [exact Hadm|exact Hlen|exact Hcap1]. }
    destruct Hsend as (H1 & H2 & H3 & H4 & H5). refine (conj H1 (conj H2 (conj H3 (conj H4 _)))). intros Hmode. specialize (H5 Hmode). lia. }
  pose proof (Forall2_length _ _ _ Hp2) as Hlen. rewrite length_seq in Hlen. unfold pings in Hcase. cbn [rx_view iv_ping] in Hcase.
  destruct Hkp as (Hok1 & Hcap1 & Hsz1). destruct (mq_messages (sy_ping s)) as [|l ls] eqn:Hls; cbn [length] in Hlen.
  - destruct Hcase as (Hne & Hp1 & Hlk1). assert (Hc : (match r with (eR_OK, Some p) => IR_copy p [] | _ => IR_idle end) = IR_idle) by (by destruct r as [[] []]).
    rewrite Hc. split; [lia|]. refine (conj (Htx1 _) (conj (conj Hr1 (conj Hl1 (conj Hlk1 (conj Hzero Hnb)))) (conj _ (conj _ (conj (Hsend1 _ _) I))))).
    + unfold queue_inv, held. cbn [with_rx sy_read sy_written sy_ping sy_pong sy_lost sy_receiver]. rewrite Hp1, Hpong, Hcap1, Nat.add_0_r, Nat.sub_0_r. done.
    + unfold mem_inv, held. cbn [with_rx sy_mem sy_read sy_written sy_receiver]. rewrite Hm1, Nat.add_0_r. done.
    + by rewrite Hp1.
  - destruct Hcase as (Hp1 & Hlk1 & Hmsg). set (h := length (sy_read s)) in *. set (n := length (sy_written s)) in *.
    destruct (n - h)%nat as [|d] eqn:Hd; [lia|]. cbn [seq] in Hp2. apply Forall2_cons in Hp2 as [Hl Hp2].
    destruct (Hmsg _ _ Hl) as (-> & Hmr & Hdl & Hdi & Hdd). split; [done|]. cbv iota.
    refine (conj (Htx1 _) (conj (conj Hr1 (conj Hl1 (conj Hlk1 (conj Hzero Hnb)))) (conj _ (conj _ (conj (Hsend1 _ _) _))))).
    + unfold queue_inv, held. cbn [with_rx sy_read sy_written sy_ping sy_pong sy_lost sy_receiver]. fold h n. rewrite Hp1, Hpong, Hcap1.
      split; [|done]. replace (h + 1)%nat with (S h) by lia. replace (n - h - 1)%nat with d by lia. exact Hp2.
    + unfold mem_inv, held. cbn [with_rx sy_mem sy_read sy_written sy_receiver]. fold h n. rewrite Hm1. split; [done|]. split; [done|]. split; [lia|done].
    + rewrite Hp1. cbn [length]. lia.
    + unfold receiver_inv. cbn [with_rx sy_receiver sy_read sy_mem sy_rx length]. fold h. do 3 (split; [by (done || lia)|]). exact (conj Hmr (conj Hdl (conj Hdi Hdd))).
Qed.

Lemma read_byte_keeps s p got :
  ipc_inv s -> sy_receiver s = IR_copy p got -> Z.of_nat (length got) < B ->
  exists b, load (sy_mem s) (p + Z.of_nat (length got)) = Some b /\ ipc_inv (with_rx (rx_view s) (IR_copy p (got ++ [b])) (sy_read s) s).
Proof using N_range B_range.
  intros (Htx & Hrx & Hq & Hmem & Hsend & Hrecv) Hs Hk. unfold receiver_inv in Hrecv. rewrite Hs in Hrecv.
  destruct Hrecv as (-> & Hgl & Hgot & Hm). pose proof Hmem as (Hml & _). pose proof (slot_range (length (sy_read s))) as Hsl.
  set (q := slot (length (sy_read s)) * B) in *. assert (Hq0 : 0 <= q /\ q + Z.of_nat (length got) < N * B) by (unfold q; nia).
  unfold load. rewrite decide_True by lia. destruct (lookup_lt_is_Some_2 (sy_mem s) (Z.to_nat (q + Z.of_nat (length got)))) as [b Hb]; [lia|].
  exists b. split; [done|]. destruct Hrx as (Hr & Hrl & Hlock & Hack). unfold receiving in Hlock. rewrite Hs in Hlock.
  refine (conj Htx (conj (conj Hr (conj Hrl (conj Hlock Hack))) (conj _ (conj _ (conj Hsend _))))).
  - unfold queue_inv, held in *. rewrite Hs in Hq. exact Hq.
  - unfold mem_inv, held in *. rewrite Hs in Hmem. exact Hmem.
  - unfold receiver_inv. cbn [with_rx sy_receiver sy_read sy_mem sy_rx rx_view iv_obj iv_mem]. fold q. split; [done|]. rewrite length_app. cbn [length].
    split; [lia|]. split; [|exact Hm]. rewrite Nat.add_1_r. unfold bytes_at in *. rewrite (take_S_r _ _ b); [by rewrite <- Hgot|].
    rewrite lookup_drop. by replace (Z.to_nat q + length got)%nat with (Z.to_nat (q + Z.of_nat (length got))) by lia.
Qed.

Lemma read_done_keeps s p got :
  ipc_inv s -> sy_receiver s = IR_copy p got -> B <= Z.of_nat (length got) ->
  exists r v, releaseBlockForRead (rx_view s) = Some (r, v) /\ ipc_inv (with_rx v IR_idle (sy_read s ++ [got]) s).
Proof using N_range B_range size_range.
  intros (Htx & Hrx & Hq & Hmem & Hsend & Hrecv) Hs Hk. unfold receiver_inv in Hrecv. rewrite Hs in Hrecv.
  destruct Hrecv as (-> & Hgl & Hgot & Hmr & Hdl & Hdi & Hdd). assert (Hge : length got = Z.to_nat B) by lia.
  destruct Hrx as (Hr & Hrl & Hlock & Hzero & Hnb). unfold receiving in Hlock. rewrite Hs in Hlock.
  destruct (release_read_runs N B mode (rx_view s) _ _ Hr Hlock Hmr Hdl Hdi Hdd) as (r & v & Hgo & Hr1 & Hkq & Hping & Hm1 & Hl1 & Hlk1 & Ha1 & Hn1 & Hpongs).
  cbn [rx_view iv_obj iv_ping iv_pong iv_mem] in *. rewrite <- Ha1 in Hzero.
  assert (Hnb1 : 0 <= ip_next_block (iv_obj v) < N).
  { destruct Hn1 as [-> | ->]; [done|]. apply (next_of_range N B N_range B_range size_range), slot_range. }
  exists r, v. split; [exact Hgo|]. destruct (ring_ready_oks _ _ Hr1) as [Hkp _].
  destruct Hq as (Hp2 & Hpo & Hcp & Hcq & Hlost). destruct Hmem as (Hml & Hread & Hle & Hblocks). unfold held in *. rewrite Hs in *.
  set (h := length (sy_read s)) in *. set (n := length (sy_written s)) in *. destruct (lookup_lt_is_Some_2 (sy_written s) h) as [b Hb]; [lia|].
  assert (Hgb : got = b) by (destruct (Hblocks h b ltac:(lia) Hb) as [_ <-]; by rewrite Hgot, Hge at 1).
  assert (Hrl1 : length (sy_read s ++ [got]) = S h) by (rewrite length_app; cbn; unfold h; lia).
  refine (conj _ (conj (conj Hr1 (conj Hl1 (conj Hlk1 (conj Hzero Hnb1)))) (conj _ (conj _ (conj _ I))))).
  - destruct Htx as (Htr & Htx). split; [|exact Htx]. cbn [tx_view with_rx sy_tx sy_ping sy_pong sy_mem].
    eapply ring_ready_kept; [exact Htr| |exact Hkq]. cbn [with_rx sy_ping]. rewrite Hping. by rewrite Hping in Hkp.
  - unfold queue_inv, held. cbn [with_rx sy_read sy_written sy_ping sy_pong sy_lost sy_receiver]. rewrite Hrl1, Hping. fold n.
    destruct Hkq as (_ & -> & _). split; [|split; [|done]].
    + replace (S h + 0)%nat with (h + 1)%nat by lia. replace (n - S h - 0)%nat with (n - h - 1)%nat by lia. exact Hp2.
    + unfold pongs in Hpongs. cbn [rx_view iv_pong] in Hpongs. destruct Hpongs as [-> |(l & Hl & ->)]; [done|]. apply Forall_app. split; [done|]. constructor; [|done].
      eexists _, _. split; [exact Hl|]. split; [apply wrapU_uint; lia|apply slot_range].
  - unfold mem_inv, held. cbn [with_rx sy_mem sy_read sy_written sy_receiver]. rewrite Hrl1, Hm1. fold n. split; [done|]. split; [|split; [lia|]].
    + rewrite (take_S_r _ _ b Hb). by rewrite <- Hread, Hgb.
    + intros i b' Hi. apply Hblocks. lia.
  - unfold sender_inv in *. cbn [with_rx sy_sender sy_written sy_read sy_mem sy_ping]. rewrite Hm1, Hping, Hrl1.
    destruct (sy_sender s); [done| | |done]. { destruct Hsend as [Hbl Hadm]. split; [done|]. by eapply admitted_less; [exact Hadm|unfold pings; cbn [tx_view with_rx sy_ping iv_ping]; by rewrite Hping..]. }
    destruct Hsend as (H1 & H2 & H3 & H4 & H5). refine (conj H1 (conj H2 (conj H3 (conj _ H5)))). fold n h in H4. fold n. lia.
Qed.

(** a block has its size *)
Definition event_ok (e : ipc_event) : Prop := if e is Ev_write block then B <= Z.of_nat (length block) else True.

(** [getBufferFill] is between its two readings of [m_last_block_ack] *)
Definition reading_fill s : Prop := exists block d, sy_sender s = IS_request block (At_fill d).

(** Its first reading still holds. *)
Definition fill_fresh s : Prop :=
  match sy_sender s with IS_request _ (At_fill d) => d = fill_difference (sy_tx s) | IS_aborted => False | _ => True end.

Lemma ipc_step_keeps e s :
  ipc_inv s -> event_ok e ->
  exists s1, ipc_step e s = Some s1 /\ ipc_inv s1 /\ (fill_fresh s -> (e = Ev_ack -> ~ reading_fill s) -> fill_fresh s1).
Proof using N_range B_range size_range large.
  intros Hinv He. pose proof Hinv as ((Hr & _) & (Hr' & _) & _).
  assert (Hbt : ip_blocksize (sy_tx s) = B) by by destruct Hr as (_ & ? & _).
  assert (Hbr : ip_blocksize (sy_rx s) = B) by by destruct Hr' as (_ & ? & _).
  destruct e as [block| | | | | | | |]; unfold ipc_step.
  - destruct (sy_sender s) eqn:Hs; try by exists s. destruct (write_keeps s block Hinv He Hs) as (v & -> & Hn & Ha & Hv). cbn [mbind option_bind].
    eexists. split; [reflexivity|]. split; [exact Hv|]. intros _ _. unfold fill_fresh, fill_difference. cbn [with_tx request_goes_on sy_sender sy_tx]. by rewrite Hn, Ha.
  - destruct (sy_sender s) as [|block pc| |] eqn:Hs; try by exists s. destruct (request_keeps s block pc Hinv Hs) as (x & v & -> & Hx & Hab & Hv). cbn [mbind option_bind].
    eexists. split; [reflexivity|]. split; [exact Hv|]. unfold fill_fresh. rewrite Hs. cbn [with_tx sy_sender]. intros Hf _.
    destruct x as [[]|[[] []]|]; try done. cbn. destruct (Hab eq_refl) as (d & -> & Hd). done.
  - destruct (sy_sender s) as [| |block p k|] eqn:Hs; try by exists s. rewrite Hbt. destruct (Z.ltb_spec (Z.of_nat k) B); [|by exists s].
    destruct (write_byte_keeps s block p k Hinv Hs) as (b & -> & mem & Hst & Hv); [done|]. cbn [mbind option_bind]. rewrite Hst. cbn [mbind option_bind]. eauto.
  - destruct (sy_sender s) as [| |block p k|] eqn:Hs; try by exists s. rewrite Hbt. destruct (Z.ltb_spec (Z.of_nat k) B); [by exists s|].
    destruct (write_done_keeps s block p k Hinv Hs) as (r & v & -> & Hv); [done|]. cbn [mbind option_bind]. eexists. split; [reflexivity|]. split; [exact Hv|]. by case_decide.
  - destruct (notify_keeps s Hinv) as (r & v & Hgo & Hn & Ha & Hv).
    destruct (sy_sender s) eqn:Hs; [| | |by exists s]; (destruct (sy_notifying s); [by exists s|]; rewrite Hgo; cbn [mbind option_bind];
      eexists; split; [reflexivity|]; split; [exact Hv|]; unfold fill_fresh, fill_difference; cbn [with_notifier sy_sender sy_tx]; by rewrite Hs, ?Hn, ?Ha).
  - destruct (ack_keeps s Hinv) as (more & v & Hgo & Hv).
    destruct (sy_sender s) eqn:Hs; [| | |by exists s]; (destruct (sy_notifying s); [|by exists s]; rewrite Hgo; cbn [mbind option_bind];
      eexists; split; [reflexivity|]; split; [exact Hv|]; unfold fill_fresh, reading_fill; cbn [with_notifier sy_sender sy_tx]; rewrite Hs; try done).
    destruct pc; try done. intros _ Hne. destruct Hne; eauto.
  - destruct (sy_receiver s) eqn:Hs; [|destruct (sy_sender s); by exists s].
    destruct (read_keeps s Hinv Hs) as (r & v & -> & _ & Hv). cbn [mbind option_bind]. destruct (sy_sender s) eqn:Hss; (eexists; split; [reflexivity|]; split; [exact Hv|by unfold fill_fresh]).
  - destruct (sy_receiver s) as [|p got] eqn:Hs; [destruct (sy_sender s); by exists s|]. rewrite Hbr.
    destruct (Z.ltb_spec (Z.of_nat (length got)) B); [|destruct (sy_sender s); by exists s].
    destruct (read_byte_keeps s p got Hinv Hs) as (b & -> & Hv); [done|]. cbn [mbind option_bind]. destruct (sy_sender s); (eexists; split; [reflexivity|]; split; [exact Hv|by unfold fill_fresh]).
  - destruct (sy_receiver s) as [|p got] eqn:Hs; [destruct (sy_sender s); by exists s|]. rewrite Hbr.
    destruct (Z.ltb_spec (Z.of_nat (length got)) B); [destruct (sy_sender s); by exists s|].
    destruct (read_done_keeps s p got Hinv Hs) as (r & v & -> & Hv); [done|]. cbn [mbind option_bind]. destruct (sy_sender s); (eexists; split; [reflexivity|]; split; [exact Hv|by unfold fill_fresh]).
Qed.

(** A run from a state where the first reading holds ends in one, or an
    acknowledgement was handled between the two readings. *)
Lemma ipc_run_keeps es : forall s, ipc_inv s -> Forall event_ok es -> exists s1, ipc_run es s = Some s1 /\ ipc_inv s1 /\
  (fill_fresh s -> fill_fresh s1 \/ exists es1 es2 s2, es = es1 ++ Ev_ack :: es2 /\ ipc_run es1 s = Some s2 /\ reading_fill s2).
Proof using N_range B_range size_range large.
  induction es as [|e es IH]; intros s Hs Hes; [exists s; by eauto|]. apply Forall_cons in Hes as [He Hes].
  destruct (ipc_step_keeps e s Hs He) as (s1 & H1 & Hs1 & Hf1). cbn [ipc_run]. rewrite H1. cbn [mbind option_bind].
  destruct (IH s1 Hs1 Hes) as (s2 & H2 & Hs2 & Hf2). exists s2. split; [done|]. split; [done|]. intros Hf.
  assert (Hd : (e = Ev_ack /\ reading_fill s) \/ (e = Ev_ack -> ~ reading_fill s)).
  { destruct e; try (by right). destruct (sy_sender s) as [|block [d| | | | |]| |] eqn:Hss;
      try (right; intros _ (? & ? & Hr); by rewrite Hss in Hr). left. split; [done|]. by exists block, d. }
  destruct Hd as [[-> Hrd]|Hd]; [right; by exists [], es, s|].
  destruct (Hf2 (Hf1 Hf Hd)) as [?|(es1 & es2 & s3 & -> & Hrun & Hrd)]; [by left|right].
  exists (e :: es1), es2, s3. split; [done|]. split; [|done]. cbn [ipc_run]. by rewrite H1.
Qed.
End fifo.

(** ** Initialisation *)

Section start.
Context {Q : Type} `{!PosixMq Q} `{!PosixMqLaws Q} `{!IpcEnv Q}.

(** [clear_loop] leaves an empty queue *)
Lemma clear_empties fuel : forall o (q : Q) r s1,
  pq_handle o = true -> mq_ok q -> clear_loop fuel (o, q) = Some (r, s1) -> exists q1, s1 = (o, q1) /\ mq_kept q q1 /\ mq_messages q1 = [].
Proof.
  induction fuel as [|fuel IH]; intros o q r s1 Ho Hok H; [done|]. cbn [clear_loop] in H.
  rewrite (st_bind_eq _ _ _ _ _ (count_runs o q Ho Hok)) in H. destruct (mq_messages q) as [|l ls] eqn:Hls; cbn [length Z.of_nat] in H.
  - cbn in H. injection H as _ <-. by exists q.
  - destruct (Z.eqb_spec (Z.of_nat (S (length ls))) 0); [lia|].
    rewrite (st_bind_eq _ _ (o, q) (pq_blocking o) (o, q)) in H by done.
    destruct (mq_receive_law (pq_blocking o) q Hok) as (r1 & q1 & Hgo & (Hok1 & Hc1 & Hs1) & Hm). rewrite Hls in Hm. destruct Hm as (-> & Hm).
    rewrite (st_bind_eq _ _ (o, q) (inr (l, 0)) (o, q1)) in H by (unfold pq_call, st_run; cbn [fst snd]; by rewrite Hgo).
    destruct (IH o q1 r s1 Ho Hok1 H) as (q2 & -> & (Hok2 & Hc2 & Hs2) & Hm2). exists q2. split; [done|]. split; [|done].
    unfold mq_kept. by rewrite Hc2, Hs2.
Qed.

(** a handle that was opened *)
Definition opened (o : PosixMessageQueue) (q : Q) : Prop :=
  pq_handle o = true /\ pq_direction o = eD_None /\ pq_maxmsg o = mq_capacity q /\ pq_msgsize o = mq_size q /\
  length (pq_tmp_buffer o) = 1024%nat /\ mq_ok q.

Lemma opened_ready o q q1 : opened o q -> mq_kept q q1 -> 28 <= mq_size q1 -> handle_ready o q1.
Proof. intros (H1 & H2 & H3 & H4 & H5 & H6) (K1 & K2 & K3) Hs. unfold handle_ready. rewrite K2. rewrite K3 in Hs |- *. tauto. Qed.

Lemma doOpen_opens t create b (q : Q) o1 q1 :
  PosixMessageQueue_doOpen t create b (PosixMessageQueue_new, q) = Some (true, (o1, q1)) ->
  opened o1 q1 /\ (mq_ok q -> mq_kept q q1 /\ mq_messages q1 = mq_messages q).
Proof.
  unfold PosixMessageQueue_doOpen. rewrite (st_bind_eq _ _ (PosixMessageQueue_new, q) false (PosixMessageQueue_new, q)) by done.
  case_decide as Hnone; [done|]. intros (ok & s1 & H1 & H)%st_bind_inv. unfold pq_call, st_run in H1. cbn [fst snd] in H1.
  destruct (mq_open create t b q) as [ok' q2] eqn:Ho. injection H1 as -> <-. destruct ok; cbn [negb] in H; [|done].
  destruct (mq_open_law create t b q q2 Ho) as [Hok Hkept].
  assert (Hf : exists owner, (attr ← st_gets (fun s => mq_getattr (snd s));
      match attr with
      | None => mret false
      | Some a => pq_mod (pq_with_attr a);; pq_mod (pq_with_blocking b);; mret true
      end : StM (PosixMessageQueue * Q) bool) (pq_with_owner owner (pq_with_handle true PosixMessageQueue_new), q2) = Some (true, (o1, q1))).
  { destruct create; [exists true|exists false]; exact H. }
  destruct Hf as (owner & Hf). clear H. rewrite (st_bind_eq _ _ _ (mq_getattr q2) (pq_with_owner owner (pq_with_handle true PosixMessageQueue_new), q2)) in Hf by done.
  rewrite mq_attr_law in Hf by done. injection Hf as <- <-. split; [|exact Hkept]. by repeat (split; [done|]).
Qed.

Lemma open_queue_opens (type : eBufferType) t b (q : Q) o1 q1 :
  (match type with eBT_Master => PosixMessageQueue_Create t b | eBT_Slave => PosixMessageQueue_Open t b end) (PosixMessageQueue_new, q) = Some (true, (o1, q1)) ->
  opened o1 q1 /\ (mq_ok q -> mq_kept q q1 /\ mq_messages q1 = mq_messages q).
Proof. destruct type; intros H; eapply doOpen_opens; exact H. Qed.

(** what an initialised object looks like *)
Definition fresh_object (N B : Z) (mode : eBlocking) (dir : eIpcDirection) (o : IpcRingBuffer) : Prop :=
  ip_blocks o = N /\ ip_blocksize o = B /\ ip_direction o = dir /\ ip_blocking o = mode /\
  ps_size (ip_memblock o) = u32 (N * B) /\ ps_access (ip_memblock o) = true /\
  ip_next_block o = 1 /\ ip_last_block_ack o = 0 /\ ip_idx o = 1 /\ ip_LastDataMessageReceived o = IpcMessage_new /\
  ip_block_requested_for_read o = false /\ ip_LastDataMessageSent o = IpcMessage_new /\ ip_block_requested_for_write o = false.

Lemma on_ping_inv {A} (m : StM (PosixMessageQueue * Q) A) v a v1 :
  on_ping m v = Some (a, v1) -> exists o q, m (ip_ping_queue (iv_obj v), iv_ping v) = Some (a, (o, q)) /\
    v1 = mkIpcView (ip_with_ping o (iv_obj v)) q (iv_pong v) (iv_mem v).
Proof. unfold on_ping. destruct (m _) as [[a' [o q]]|]; [|done]. intros [= <- <-]. eauto. Qed.

Lemma on_pong_inv {A} (m : StM (PosixMessageQueue * Q) A) v a v1 :
  on_pong m v = Some (a, v1) -> exists o q, m (ip_pong_queue (iv_obj v), iv_pong v) = Some (a, (o, q)) /\
    v1 = mkIpcView (ip_with_pong o (iv_obj v)) (iv_ping v) q (iv_mem v).
Proof. unfold on_pong. destruct (m _) as [[a' [o q]]|]; [|done]. intros [= <- <-]. eauto. Qed.

Lemma map_memory_inv create writable (v : IpcView Q) ok v1 :
  map_memory create writable v = Some (ok, v1) ->
  if ok : bool then exists owner, v1 = mkIpcView (ip_with_memblock (mkPosixSharedMemory (ps_size (ip_memblock (iv_obj v))) owner true) (iv_obj v)) (iv_ping v) (iv_pong v) (iv_mem v)
  else v1 = v.
Proof.
  unfold map_memory. rewrite ipc_gets_bind. destruct (shm_map create writable); [rewrite ipc_mod_bind|]; intros [= <- <-]; [by eexists|done].
Qed.

(** A successful initialisation opens the queues, and the sender has emptied
    the pong queue, the receiver the ping queue. *)
Lemma init_runs fuel type dir mode N B (ping pong : Q) mem v1 :
  IpcRingBuffer_init fuel (mkIpcView (IpcRingBuffer_new type dir mode N B) ping pong mem) = Some (true, v1) ->
  fresh_object N B mode dir (iv_obj v1) /\ opened (ip_ping_queue (iv_obj v1)) (iv_ping v1) /\ opened (ip_pong_queue (iv_obj v1)) (iv_pong v1) /\
  iv_mem v1 = mem /\ (mq_ok ping -> mq_kept ping (iv_ping v1)) /\ (mq_ok pong -> mq_kept pong (iv_pong v1)) /\
  match dir with
  | eD_Outward => mq_messages (iv_pong v1) = [] /\ (mq_ok ping -> mq_messages (iv_ping v1) = mq_messages ping)
  | eD_Inward => mq_messages (iv_ping v1) = [] /\ (mq_ok pong -> mq_messages (iv_pong v1) = mq_messages pong)
  end.
Proof.
  unfold IpcRingBuffer_init. rewrite ipc_gets_bind. cbn [iv_obj IpcRingBuffer_new ip_initialized]. do 3 rewrite ipc_gets_bind. cbn [iv_obj IpcRingBuffer_new ip_type ip_direction ip_blocking].
  intros (ok & s1 & H1 & H)%st_bind_inv. destruct ok; cbn [negb] in H; [|done].
  assert (Hmap : exists owner, s1 = mkIpcView (ip_with_memblock (mkPosixSharedMemory (u32 (N * B)) owner true) (IpcRingBuffer_new type dir mode N B)) ping pong mem)
    by (destruct type; exact (map_memory_inv _ _ _ _ _ H1)).
  destruct Hmap as (owner & ->). clear H1. cbv zeta in H.
  apply st_bind_inv in H as (ok & s2 & H2 & H). destruct ok; cbn [negb] in H; [|done].
  apply on_ping_inv in H2 as (po & pq & Hopen & ->). apply open_queue_opens in Hopen as [Hpo Hpk]. cbn [iv_ping iv_pong iv_obj iv_mem] in *.
  apply st_bind_inv in H as (ok & s3 & H3 & H). destruct ok; cbn [negb] in H; [|done].
  apply on_pong_inv in H3 as (qo & qq & Hopen & ->). apply open_queue_opens in Hopen as [Hqo Hqk]. cbn [iv_ping iv_pong iv_obj iv_mem] in *.
  apply st_bind_inv in H as ([] & s4 & H4 & H). rewrite ipc_mod_bind in H. injection H as <-.
  pose proof Hpo as (_ & _ & _ & _ & _ & Hpok). pose proof Hqo as (_ & _ & _ & _ & _ & Hqok).
  destruct dir; cbn in H4.
  - apply st_bind_inv in H4 as (ok1 & s5 & H5 & H4). apply on_pong_inv in H5 as (o5 & q5 & H5 & ->).
    destruct (mq_notify_law qq Hqok) as (r5 & q5' & Hn & Hk5 & _).
    unfold PosixMessageQueue_enableNotification, pq_call, st_run in H5. cbn [fst snd iv_pong iv_obj] in H5. rewrite Hn in H5. injection H5 as _ <- <-.
    apply st_bind_inv in H4 as (r6 & s6 & H6 & H4). injection H4 as <-. apply on_pong_inv in H6 as (o6 & q6 & H6 & ->).
    cbn [iv_pong iv_obj] in H6. unfold PosixMessageQueue_Clear in H6. change (ip_pong_queue (ip_with_pong _ _)) with qo in H6.
    destruct Hqo as (Q1 & Q2 & Q3 & Q4 & Q5 & Q6). rewrite (st_bind_eq _ _ (qo, q5') eD_None (qo, q5')) in H6 by (unfold pq_gets, st_gets; cbn [fst]; by rewrite Q2).
    destruct Hk5 as (Hok5 & Hc5 & Hs5). rewrite decide_False in H6 by done. apply clear_empties in H6 as (q7 & [= -> ->] & (Hok7 & Hc7 & Hs7) & Hm7); [|done..].
    split; [by repeat (split; [done|])|]. split; [exact Hpo|]. cbn [iv_obj iv_ping iv_pong iv_mem].
    split; [unfold opened; cbn; rewrite Hc7, Hs7, Hc5, Hs5; by repeat (split; [done|])|]. split; [done|]. split; [intros Hok; by apply Hpk|].
    split; [|split; [done|intros Hok; by apply Hpk]]. intros Hok. destruct (Hqk Hok) as [(_ & K1 & K2) _]. unfold mq_kept. by rewrite Hc7, Hs7, Hc5, Hs5.
  - apply st_bind_inv in H4 as (r6 & s6 & H6 & H4). injection H4 as <-. apply on_ping_inv in H6 as (o6 & q6 & H6 & ->).
    cbn [iv_ping iv_obj] in H6. unfold PosixMessageQueue_Clear in H6. change (ip_ping_queue (ip_with_pong _ _)) with po in H6.
    destruct Hpo as (Q1 & Q2 & Q3 & Q4 & Q5 & Q6). rewrite (st_bind_eq _ _ (po, pq) eD_None (po, pq)) in H6 by (unfold pq_gets, st_gets; cbn [fst]; by rewrite Q2).
    rewrite decide_False in H6 by done. apply clear_empties in H6 as (q7 & [= -> ->] & (Hok7 & Hc7 & Hs7) & Hm7); [|done..].
    split; [by repeat (split; [done|])|]. cbn [iv_obj iv_ping iv_pong iv_mem].
    split; [unfold opened; cbn; rewrite Hc7, Hs7; by repeat (split; [done|])|]. split; [exact Hqo|]. split; [done|].
    split; [|split; [intros Hok; by apply Hqk|split; [done|intros Hok; by apply Hqk]]].
    intros Hok. destruct (Hpk Hok) as [(_ & K1 & K2) _]. unfold mq_kept. by rewrite Hc7, Hs7.
Qed.

Lemma fresh_ready N B mode dir (v : IpcView Q) :
  0 <= N * B < 2 ^ 31 -> fresh_object N B mode dir (iv_obj v) -> handle_ready (ip_ping_queue (iv_obj v)) (iv_ping v) ->
  handle_ready (ip_pong_queue (iv_obj v)) (iv_pong v) -> ring_ready N B mode dir v.
Proof.
  intros Hs (H1 & H2 & H3 & H4 & H5 & H6 & _) Hping Hpong. unfold ring_ready. repeat (split; [done|]).
  rewrite H5. split; [|done]. apply wrapU_small. unfold uint. lia.
Qed.

Lemma start_inv fuel tx_master mode N B (ping pong : Q) mem s :
  2 <= N -> 0 < B -> N * B < 2 ^ 31 -> Z.of_nat (length mem) = N * B ->
  ipc_start fuel tx_master mode N B ping pong mem = Some s -> 28 <= mq_size (sy_ping s) -> 28 <= mq_size (sy_pong s) ->
  ipc_inv N B mode (mq_capacity (sy_ping s)) (mq_capacity (sy_pong s)) s.
Proof.
  intros HN HB Hsize Hmem Hstart Hping Hpong.
  assert (Hfresh : exists tx rx, fresh_object N B mode eD_Outward tx /\ fresh_object N B mode eD_Inward rx /\ handle_ready (ip_ping_queue tx) (sy_ping s) /\ handle_ready (ip_pong_queue tx) (sy_pong s) /\ handle_ready (ip_ping_queue rx) (sy_ping s) /\ handle_ready (ip_pong_queue rx) (sy_pong s) /\ mq_messages (sy_ping s) = [] /\ mq_messages (sy_pong s) = [] /\
    s = mkIpcSystem tx rx (sy_ping s) (sy_pong s) mem IS_idle false IR_idle [] 0 []).
  { unfold ipc_start in Hstart. destruct (IpcRingBuffer_init fuel (mkIpcView _ ping pong mem)) as [[ok1 v1]|] eqn:H1 in Hstart; [|done].
    cbn [mbind option_bind] in Hstart. destruct (IpcRingBuffer_init fuel _) as [[ok2 v2]|] eqn:H2 in Hstart; [|done]. cbn [mbind option_bind] in Hstart.
    destruct ok1, ok2; try done. injection Hstart as <-. cbn [sy_ping sy_pong] in *.
    destruct tx_master; apply init_runs in H1 as (Hf1 & Hp1 & Hq1 & Hm1 & _ & _ & Hmsg1); apply init_runs in H2 as (Hf2 & Hp2 & Hq2 & Hm2 & Hkp & Hkq & Hmsg2);
      pose proof Hp1 as (_ & _ & _ & _ & _ & Hok1); pose proof Hq1 as (_ & _ & _ & _ & _ & Hok1');
      pose proof Hp2 as (_ & _ & _ & _ & _ & Hok2); pose proof Hq2 as (_ & _ & _ & _ & _ & Hok2');
      destruct Hmsg1 as [Ha Hb]; destruct Hmsg2 as [Hc Hd]; specialize (Hkp Hok1); specialize (Hkq Hok1'); rewrite Hm2, Hm1.
    - exists (iv_obj v1), (iv_obj v2). rewrite (Hd Hok1'), Ha.
      repeat (split; [first [done|by eapply opened_ready]|]). done.
    - exists (iv_obj v2), (iv_obj v1). rewrite (Hd Hok1), Ha.
      repeat (split; [first [done|by eapply opened_ready]|]). done. }
  destruct Hfresh as (tx & rx & Htx & Hrx & T1 & T2 & R1 & R2 & Mp & Mq & ->). cbn [sy_ping sy_pong] in *.
  assert (Hr : 0 <= N * B < 2 ^ 31) by nia.
  pose proof (fresh_ready N B mode eD_Outward (mkIpcView tx (sy_ping s) (sy_pong s) mem) Hr Htx T1 T2) as Hrt.
  pose proof (fresh_ready N B mode eD_Inward (mkIpcView rx (sy_ping s) (sy_pong s) mem) Hr Hrx R1 R2) as Hrr.
  destruct Htx as (_ & _ & _ & _ & _ & _ & X1 & X2 & X3 & X4 & X5 & X6 & X7). destruct Hrx as (_ & _ & _ & _ & _ & _ & Y1 & Y2 & Y3 & Y4 & Y5 & Y6 & Y7).
  refine (conj _ (conj _ (conj _ (conj _ (conj I I))))).
  - refine (conj Hrt _). cbn [sy_tx sy_written length]. rewrite X1, X2, X3, X6, X7.
    split; [unfold slot; by rewrite Z.mod_small by lia|]. split; [done|]. split; [lia|]. done.
  - refine (conj Hrr _). cbn [sy_rx]. rewrite Y1, Y2, Y4, Y5. split; [done|]. split; [done|]. split; [done|lia].
  - unfold queue_inv. cbn [sy_ping sy_pong sy_read sy_written length held sy_receiver]. rewrite Mp, Mq. repeat (split; [try constructor|]); done.
  - unfold mem_inv. cbn. done.
Qed.
Lemma start_idle fuel tx_master mode N B (ping pong : Q) mem s :
  ipc_start fuel tx_master mode N B ping pong mem = Some s ->
  sy_written s = [] /\ sy_read s = [] /\ sy_sender s = IS_idle /\ sy_receiver s = IR_idle.
Proof.
  unfold ipc_start. destruct (IpcRingBuffer_init _ _) as [[ok1 v1]|]; [|done].
  cbn [mbind option_bind]. destruct (IpcRingBuffer_init _ _) as [[ok2 v2]|]; [|done]. cbn [mbind option_bind].
  destruct ok1, ok2; try done. by intros [= <-].
Qed.
End start.

(** ** What is read *)

Section contents.
Context {Q : Type} `{!PosixMq Q} `{!PosixMqLaws Q} `{!IpcEnv Q}.
Context (N B : Z) (mode : eBlocking) (capacity pong_capacity : Z).
Implicit Types s : ipc_system Q.

(** the blocks that the events of a run ask to write *)
Definition to_write (e : ipc_event) : list (list Z) := if e is Ev_write block then [take (Z.to_nat B) block] else [].

Definition pending s : list (list Z) :=
  match sy_sender s with IS_request block _ | IS_copy block _ _ => [take (Z.to_nat B) block] | _ => [] end.

Lemma step_writes e s s1 :
  ipc_inv N B mode capacity pong_capacity s -> ipc_step e s = Some s1 ->
  sublist (sy_written s1 ++ pending s1) ((sy_written s ++ pending s) ++ to_write e).
Proof.
  intros ((Hr & _) & _ & _ & _ & Hsend & _) He. assert (HB : ip_blocksize (sy_tx s) = B) by by destruct Hr as (_ & ? & _).
  unfold ipc_step, sender_inv, pending in *.
  assert (Hsame : forall l : list (list Z), sublist l (l ++ to_write e)) by (intros l; by apply sublist_inserts_r).
  assert (Hreq : forall block v x, sublist (sy_written s ++ pending (with_tx v (request_goes_on block x) (sy_written s) (sy_lost s) s))
      (sy_written s ++ [take (Z.to_nat B) block])).
  { intros block v x. apply sublist_app; [done|]. unfold pending. cbn [with_tx sy_sender].
    destruct x as [|[[] []]|]; cbn; first [done|apply sublist_nil_l]. }
  destruct e; destruct (sy_sender s) as [|blk pc|blk p k|] eqn:Hs; cbn [to_write] in *.
  all: try (injection He as <-; unfold pending; by rewrite ?Hs).
  1: { destruct (request_begin _) as [[x v]|]; [|done]. injection He as <-. rewrite app_nil_r. apply Hreq. }
  1: { destruct (request_step _ _) as [[x v]|]; [|done]. injection He as <-. rewrite app_nil_r. apply Hreq. }
  1: { destruct (_ <? _); [|injection He as <-; unfold pending; by rewrite Hs]. destruct (_ !! _); [|done]. cbn [mbind option_bind] in He.
    destruct (store _ _ _); [|done]. by injection He as <-. }
  1: { rewrite HB in He. destruct (Z.ltb_spec (Z.of_nat k) B); [injection He as <-; unfold pending; by rewrite Hs|].
    destruct (releaseBlockForWrite _) as [[r v]|]; [|done]. destruct Hsend as (_ & Hk & _). cbn [mbind option_bind] in He.
    replace k with (Z.to_nat B) in He by lia. case_decide; injection He as <-; unfold pending; cbn [with_tx sy_written sy_sender]; rewrite !app_nil_r; [done|].
    by apply sublist_inserts_r. }
  all: rewrite app_nil_r; unfold pending.
  all: destruct (sy_receiver s); repeat match type of He with
    | Some _ = Some _ => injection He as <-; cbn; by rewrite ?Hs
    | (if ?b then _ else _) = _ => destruct b
    | (?m ≫= _) = _ => destruct m as [x|]; [|done]; try destruct x; cbn [mbind option_bind] in He
    end.
Qed.

Lemma run_writes es : 2 <= N -> 0 < B -> N * B < 2 ^ 31 -> (if mode is eB_Blocking then capacity + 1 else capacity) < N ->
  forall s s1, ipc_inv N B mode capacity pong_capacity s -> Forall (event_ok B) es -> ipc_run es s = Some s1 ->
  sublist (sy_written s1 ++ pending s1) ((sy_written s ++ pending s) ++ (es ≫= to_write)).
Proof.
  intros HN HB Hsize Hlarge. induction es as [|e es IH]; intros s s1 Hs Hes Hrun; cbn [ipc_run] in Hrun.
  - injection Hrun as <-. cbn. by rewrite app_nil_r.
  - apply Forall_cons in Hes as [He Hes]. destruct (ipc_step_keeps N B mode capacity pong_capacity HN HB Hsize Hlarge e s Hs He) as (s2 & H2 & Hs2 & _).
    rewrite H2 in Hrun. cbn [mbind option_bind] in Hrun. etrans; [by eapply (IH s2 s1)|]. cbn [mbind list_bind]. rewrite app_assoc.
    apply sublist_app; [by apply step_writes|done].
Qed.

End contents.


(** C25: on a ping queue that takes fewer messages than the ring has blocks (in
    the blocking mode at least two fewer: capacity + 1 < blocks; in the
    non-blocking mode capacity < blocks) the ring buffer is a queue between its
    two processes.  Whatever the interleaving of the accesses of a request, of
    copied bytes, of releases, and of acknowledgements, that fail or not, and
    that the notification thread handles at any time, also within a request: no
    step is undefined; the blocks that [Read] returns are the first of the blocks
    whose release succeeded, in order and intact; these are among the blocks that
    [Write] was given; none is lost in the non-blocking mode; and a receiver that
    is behind gets its next block.  The [assert] of [getBufferFill] can end the
    sender, but only when an acknowledgement was handled between its two readings
    of [m_last_block_ack]. *)
Theorem ipc_ring_fifo {Q} `{!PosixMq Q} `{!PosixMqLaws Q} `{!IpcEnv Q} fuel tx_master mode N B (ping pong : Q) mem s0 es :
  2 <= N -> 0 < B -> N * B < 2 ^ 31 -> Z.of_nat (length mem) = N * B ->
  ipc_start fuel tx_master mode N B ping pong mem = Some s0 ->
  28 <= mq_size (sy_ping s0) -> 28 <= mq_size (sy_pong s0) ->
  (if mode is eB_Blocking then mq_capacity (sy_ping s0) + 1 else mq_capacity (sy_ping s0)) < N ->
  Forall (event_ok B) es ->
  exists s1, ipc_run es s0 = Some s1 /\
    sy_read s1 = take (length (sy_read s1)) (sy_written s1) /\
    sublist (sy_written s1) (es ≫= to_write B) /\
    (mode = eB_NonBlocking -> sy_lost s1 = 0%nat) /\
    (sy_receiver s1 = IR_idle -> (length (sy_read s1) < length (sy_written s1))%nat ->
     exists p v, requestBlockForRead (rx_view s1) = Some ((eR_OK, Some p), v)) /\
    (sy_sender s1 = IS_aborted -> exists es1 es2 s2, es = es1 ++ Ev_ack :: es2 /\ ipc_run es1 s0 = Some s2 /\ reading_fill s2).
Proof.
  intros HN HB Hsize Hmem Hstart Hping Hpong Hlarge Hes.
  pose proof (start_inv fuel tx_master mode N B ping pong mem s0 HN HB Hsize Hmem Hstart Hping Hpong) as Hinv.
  destruct (start_idle _ _ _ _ _ _ _ _ _ Hstart) as (Hw0 & _ & Hi & _).
  destruct (ipc_run_keeps N B mode _ _ HN HB Hsize Hlarge es s0 Hinv Hes) as (s1 & Hrun & Hs1 & Hfresh). exists s1. split; [done|].
  pose proof Hs1 as (_ & _ & (_ & _ & _ & _ & Hlost) & (_ & Hread & _) & _).
  split; [done|]. split; [|split; [done|split]].
  - pose proof (run_writes N B mode _ _ es HN HB Hsize Hlarge s0 s1 Hinv Hes Hrun) as Hw. unfold pending at 2 in Hw. rewrite Hw0, Hi in Hw.
    etrans; [|exact Hw]. by apply sublist_inserts_r.
  - intros Hidle Hlt. destruct (read_keeps N B mode _ _ HN HB Hsize s1 Hs1 Hidle) as (r & v & Hgo & Hr & _). rewrite (Hr Hlt) in Hgo. eauto.
  - intros Hab. destruct Hfresh as [Hf|?]; [unfold fill_fresh; by rewrite Hi| |done]. unfold fill_fresh in Hf. by rewrite Hab in Hf.
Qed.

(** a request that nobody interrupts *)
Definition whole_request (block : list Z) : list ipc_event := Ev_write block :: replicate 4 Ev_request.

(** two messages in the queue, three blocks of two bytes, one block read while
    another is written, and its acknowledgement handled within a request *)
Lemma ipc_ring_fifo_witness :
  let env := Build_IpcEnv ListMq (fun _ _ => true) (fun _ => None) Some in
  let q := mkListMq 2 64 [] in
  let es := whole_request [1; 2] ++ [Ev_write_byte; Ev_write_byte; Ev_write_done] ++ whole_request [3; 4] ++ [Ev_write_byte; Ev_read; Ev_read_byte;
             Ev_write_byte; Ev_read_byte; Ev_write_done; Ev_read_done; Ev_write [5; 6]; Ev_notify; Ev_request; Ev_ack; Ev_request] in
  exists s0, ipc_start 5 true eB_NonBlocking 3 2 q q (replicate 6 0) = Some s0 /\
    exists s1, ipc_run es s0 = Some s1 /\ sy_read s1 = [[1; 2]] /\ sy_written s1 = [[1; 2]; [3; 4]] /\
      ip_last_block_ack (sy_tx s1) = 1 /\ sublist (sy_written s1) (es ≫= to_write 2).
Proof.
  cbv zeta. set (env := Build_IpcEnv _ _ _ _). eexists. split; [vm_compute; reflexivity|].
  match goal with |- exists s1, ipc_run ?es ?s0 = Some s1 /\ _ =>
    destruct (@ipc_ring_fifo ListMq _ _ env 5 true eB_NonBlocking 3 2 (mkListMq 2 64 []) (mkListMq 2 64 []) (replicate 6 0) s0 es)
      as (s1 & Hrun & _ & Hsub & _); [lia|lia|lia|reflexivity|vm_compute; reflexivity|cbn; lia|cbn; lia|cbn; lia| |]
  end; [cbn; repeat (constructor; [cbn; first [lia|exact I]|]); constructor|].
  exists s1. split; [exact Hrun|]. vm_compute in Hrun. injection Hrun as <-. split; [reflexivity|]. split; [reflexivity|]. split; [reflexivity|exact Hsub].
Defined.

(** a write and a read of a block of one byte, without its acknowledgement *)
Definition pass_block (b : Z) : list ipc_event :=
  whole_request [b] ++ [Ev_write_byte; Ev_write_done; Ev_read; Ev_read_byte; Ev_read_done].

(** The two readings of [m_last_block_ack] do differ: the first sees block 2
    acknowledged, the second block 0, so that the difference is negative and is
    not brought back into the ring. *)
Example torn_fill_aborts :
  let env := Build_IpcEnv ListMq (fun _ _ => true) (fun _ => None) Some in
  let q := mkListMq 2 64 [] in
  (s ← ipc_start 5 true eB_NonBlocking 3 1 q q [0; 0; 0];
   s ← ipc_run (pass_block 7 ++ pass_block 8 ++ [Ev_notify; Ev_ack; Ev_ack] ++ pass_block 9 ++ [Ev_write [10]; Ev_ack; Ev_request]) s;
   Some (sy_read s, sy_sender s)) = Some ([[7]; [8]; [9]], IS_aborted).
Proof. vm_compute. reflexivity. Qed.
