(* ===== verification/IpcWrites.v ===== *)
(** * IpcWrites: what the whole calls of an IpcRingBuffer do

    [Write] and [Read] as single calls, without the other process in between. *)
From stdpp Require Import list.
From S2P Require Import Prelude StateMonad Serialize MessageQueue IpcRing IpcCalls IpcFifo.

Lemma copy_back p n (block mem mem1 : list Z) :
  copy_to_memory p n block mem = Some mem1 -> length mem1 = length mem /\ copy_from_memory p n mem1 = Some (take (Z.to_nat n) block).
Proof.
  unfold copy_to_memory, copy_from_memory. case_decide as Hd; [|done]. intros [= <-].
  assert (Hl : length (take (Z.to_nat p) mem ++ take (Z.to_nat n) block ++ drop (Z.to_nat (p + n)) mem) = length mem)
    by (rewrite !length_app, !length_take, length_drop; lia).
  split; [exact Hl|]. rewrite Hl, decide_True by lia. f_equal. rewrite drop_app_length' by (rewrite length_take; lia).
  rewrite take_app_length' by (rewrite length_take; lia). done.
Qed.

Lemma mapM_then {S A C} (f : A -> StM S C) l1 : forall l2 s r1 s1 r2 s2,
  mapM f l1 s = Some (r1, s1) -> mapM f l2 s1 = Some (r2, s2) -> mapM f (l1 ++ l2) s = Some (r1 ++ r2, s2).
Proof.
  induction l1 as [|a l1 IH]; intros l2 s r1 s1 r2 s2 H1 H2; cbn [mapM app] in *; [by injection H1 as <- <-|].
  apply st_bind_inv in H1 as (c & s3 & Hc & H1). apply st_bind_inv in H1 as (cs & s4 & Hcs & H1). injection H1 as <- <-.
  by rewrite (st_bind_eq _ _ _ _ _ Hc), (st_bind_eq _ _ _ _ _ (IH _ _ _ _ _ _ Hcs H2)).
Qed.

Section calls.
Context {Q : Type} `{!PosixMq Q} `{!PosixMqLaws Q} `{!IpcEnv Q}.
Context (N B : Z) (mode : eBlocking).
Hypothesis N_range : 2 <= N.
Hypothesis B_range : 0 < B.
Hypothesis size_range : N * B < 2 ^ 31.
Implicit Types v : IpcView Q.

(** a sender between two writes *)
Definition tx_ready v : Prop :=
  let o := iv_obj v in
  ring_ready N B mode eD_Outward v /\ 0 <= ip_next_block o < N /\ 0 <= ip_last_block_ack o < N /\ is_u32 (ip_idx o) /\
  ip_block_requested_for_write o = false /\ msg_ready (ip_LastDataMessageSent o) /\ Z.of_nat (length (iv_mem v)) = N * B.

(** A write while the ping queue has room succeeds, whatever is in the block
    that it takes. *)
Lemma write_runs v block :
  tx_ready v -> room v -> B <= Z.of_nat (length block) ->
  exists v1, IpcRingBuffer_Write block v = Some (eR_OK, v1) /\ tx_ready v1 /\ mq_kept (iv_ping v) (iv_ping v1) /\ iv_pong v1 = iv_pong v /\
    ip_next_block (iv_obj v1) = next_of N (ip_next_block (iv_obj v)) /\
    (exists l, is_message eMT_DataWritten (ip_idx (iv_obj v)) (ip_next_block (iv_obj v)) l /\ pings v1 = pings v ++ [l]) /\
    copy_to_memory (ip_next_block (iv_obj v) * B) B block (iv_mem v) = Some (iv_mem v1).
Proof using N_range B_range size_range.
  intros (Hr & Hn & Ha & Hi & Hl & Hm & Hmem) Hroom Hb. unfold IpcRingBuffer_Write. rewrite ipc_gets_bind.
  pose proof Hr as (_ & HB & Hd & _). rewrite Hd, decide_False by done.
  destruct (request_write_runs N B mode N_range B_range size_range v Hr Hn Ha Hl) as (r & locked & ack & Hgo & Ha1 & Hcase).
  destruct Hcase as [(-> & -> & _)|(_ & _ & Hno)]; [|exfalso; apply Hno; by right].
  rewrite (st_bind_eq _ _ _ _ _ Hgo). rewrite decide_True by done. set (v1 := mkIpcView _ _ _ _).
  rewrite (st_bind_eq _ _ v1 (ip_next_block (iv_obj v) * B) v1) by done.
  rewrite ipc_gets_bind. replace (ip_blocksize (iv_obj v1)) with B by (by rewrite <- HB).
  rewrite (st_bind_eq _ _ v1 (iv_mem v) v1) by done.
  destruct (copy_to_memory (ip_next_block (iv_obj v) * B) B block (iv_mem v)) as [mem1|] eqn:Hcopy.
  2: { unfold copy_to_memory in Hcopy. rewrite decide_True in Hcopy by nia. done. }
  rewrite (st_bind_eq _ _ v1 mem1 v1) by done.
  set (v2 := mkIpcView (iv_obj v1) (iv_ping v1) (iv_pong v1) mem1). rewrite (st_bind_eq _ _ v1 () v2) by done.
  destruct (release_write_runs N B mode N_range B_range size_range v2) as (r & v3 & Hgo3 & Hr3 & Hk3 & Hpong3 & Hm3 & Hl3 & Ha3 & Hs3 & Hrm3 & Hcase3);
    [exact Hr|exact Hn|exact Hi|done|exact Hm|]. specialize (Hrm3 Hroom). subst r. rewrite (st_bind_eq _ _ _ _ _ Hgo3).
  rewrite decide_True in Hcase3 by done. destruct Hcase3 as (Hn3 & Hi3 & Hmsg). exists v3. split; [done|].
  split; [|split; [exact Hk3|split; [exact Hpong3|split; [exact Hn3|split; [exact Hmsg|by rewrite Hm3]]]]].
  refine (conj Hr3 (conj _ (conj _ (conj _ (conj Hl3 (conj Hs3 _)))))).
  - rewrite Hn3. by apply (next_of_range N B N_range B_range size_range).
  - rewrite Ha3. exact Ha1.
  - rewrite Hi3. apply wrapU_uint. lia.
  - rewrite Hm3. cbn [v2 iv_mem]. apply copy_back in Hcopy as [-> _]. exact Hmem.
Qed.

(** so do many writes, as many as the queue takes *)
Lemma writes_run blocks : forall v n,
  tx_ready v -> ip_next_block (iv_obj v) = slot N n -> Z.of_nat (length (pings v) + length blocks) <= mq_capacity (iv_ping v) ->
  Forall (fun b => B <= Z.of_nat (length b)) blocks ->
  exists v1 ls, mapM IpcRingBuffer_Write blocks v = Some (replicate (length blocks) eR_OK, v1) /\ tx_ready v1 /\
    ip_next_block (iv_obj v1) = slot N (n + length blocks) /\ mq_kept (iv_ping v) (iv_ping v1) /\ iv_pong v1 = iv_pong v /\
    pings v1 = pings v ++ ls /\ length ls = length blocks /\ Forall (about N eMT_DataWritten) ls.
Proof using N_range B_range size_range.
  induction blocks as [|b blocks IH]; intros v n Hv Hn Hcap Hbs.
  - exists v, []. rewrite app_nil_r, Nat.add_0_r. pose proof Hv as ((_ & _ & _ & _ & Hping & _) & _). by repeat (split; [first [done|by eapply kept_refl]|]).
  - apply Forall_cons in Hbs as [Hb Hbs]. cbn [length] in Hcap.
    destruct (write_runs v b Hv) as (v1 & Hgo & Hv1 & Hk1 & Hpo1 & Hn1 & (l & Hl & Hp1) & _); [unfold room; lia|done|].
    assert (Hlen : length (pings v1) = S (length (pings v))) by (rewrite Hp1, length_app; cbn; lia).
    destruct (IH v1 (S n) Hv1) as (v2 & ls & Hgo2 & Hv2 & Hn2 & Hk2 & Hpo2 & Hp2 & Hls & Hab);
      [rewrite Hn1, Hn; by apply (slot_next N B)|destruct Hk1 as (_ & -> & _); lia|done|].
    exists v2, (l :: ls). cbn [mapM length replicate]. rewrite (st_bind_eq _ _ _ _ _ Hgo), (st_bind_eq _ _ _ _ _ Hgo2).
    split; [done|]. split; [done|]. split; [rewrite Hn2; f_equal; lia|].
    split; [destruct Hk1 as (_ & K1 & K2), Hk2 as (K3 & K4 & K5); unfold mq_kept; by rewrite K4, K5|]. split; [by rewrite Hpo2|].
    split; [rewrite Hp2, Hp1, <- app_assoc; done|]. split; [by rewrite <- Hls|]. constructor; [|done].
    destruct Hv as (_ & Hr & _ & Hi & _). by exists (ip_idx (iv_obj v)), (ip_next_block (iv_obj v)).
Qed.
End calls.

(** a receiver between two reads, with the messages [ls] in the queue *)
Lemma read_runs {Q} `{!PosixMq Q} `{!PosixMqLaws Q} `{!IpcEnv Q} N B mode (v : IpcView Q) l ls idx id :
  2 <= N -> 0 < B -> N * B < 2 ^ 31 -> ring_ready N B mode eD_Inward v -> ip_block_requested_for_read (iv_obj v) = false ->
  length (im_data (ip_LastDataMessageReceived (iv_obj v))) = 16%nat -> Z.of_nat (length (iv_mem v)) = N * B ->
  pings v = l :: ls -> is_message eMT_DataWritten idx id l -> Forall (about N eMT_DataWritten) (l :: ls) -> 0 <= id < N ->
  exists block v1, copy_from_memory (id * B) B (iv_mem v) = Some block /\ IpcRingBuffer_Read v = Some ((eR_OK, Some block), v1).
Proof.
  intros HN HB Hsize Hr Hl Hm Hmem Hp Hmsg Hab Hid. unfold IpcRingBuffer_Read. pose proof Hr as (_ & _ & Hd & _). rewrite ipc_gets_bind, Hd, decide_False by done.
  destruct (request_read_runs N B mode HN HB Hsize v Hr Hl Hm) as (r & v1 & Hgo & Hr1 & Hk & Hpo & Hm1 & Hl1 & Hcase); [by rewrite Hp|].
  rewrite Hp in Hcase. destruct Hcase as (_ & _ & _ & Hlock & Hcase). destruct (Hcase idx id Hmsg) as (-> & Hmr & Hlen & Hidx & Hidv).
  rewrite (st_bind_eq _ _ _ _ _ Hgo), decide_True by done. rewrite (st_bind_eq _ _ v1 (id * B) v1) by done.
  rewrite ipc_gets_bind. pose proof Hr1 as (_ & -> & _). rewrite (st_bind_eq _ _ v1 (iv_mem v1) v1) by done. rewrite Hm1.
  destruct (copy_from_memory (id * B) B (iv_mem v)) as [block|] eqn:Hcopy.
  2: { unfold copy_from_memory in Hcopy. rewrite decide_True in Hcopy by nia. done. }
  rewrite (st_bind_eq _ _ v1 block v1) by done.
  destruct (release_read_runs N B mode v1 idx id Hr1 Hlock Hmr Hlen Hidx Hidv) as (r2 & v2 & Hgo2 & _). rewrite (st_bind_eq _ _ _ _ _ Hgo2).
  by exists block, v2.
Qed.

(** C26: the test for a full ring never holds: after a write of every block and
    one more, all reported as successful and none read, [Read] returns the
    newest block in the place of the oldest.  This is what happens whenever the
    ping queue takes more messages than the ring has blocks. *)
Theorem ipc_ring_overwrites {Q} `{!PosixMq Q} `{!PosixMqLaws Q} `{!IpcEnv Q} fuel tx_master mode N B (ping pong : Q) mem s0 oldest blocks newest :
  2 <= N -> 0 < B -> N * B < 2 ^ 31 -> Z.of_nat (length mem) = N * B ->
  ipc_start fuel tx_master mode N B ping pong mem = Some s0 ->
  28 <= mq_size (sy_ping s0) -> 28 <= mq_size (sy_pong s0) -> N < mq_capacity (sy_ping s0) ->
  Z.of_nat (length (oldest :: blocks)) = N -> Forall (fun b => B <= Z.of_nat (length b)) (oldest :: blocks ++ [newest]) ->
  exists v1 v2,
    mapM IpcRingBuffer_Write (oldest :: blocks ++ [newest]) (tx_view s0) = Some (replicate (length (oldest :: blocks ++ [newest])) eR_OK, v1) /\
    IpcRingBuffer_Read (mkIpcView (sy_rx s0) (iv_ping v1) (iv_pong v1) (iv_mem v1)) = Some ((eR_OK, Some (take (Z.to_nat B) newest)), v2).
Proof.
  intros HN HB Hsize Hmem Hstart Hping Hpong Hfew Hlen Hbs.
  destruct (start_inv fuel tx_master mode N B ping pong mem s0 HN HB Hsize Hmem Hstart Hping Hpong) as (Htx & Hrx & Hq & Hm & _).
  destruct (start_idle _ _ _ _ _ _ _ _ _ Hstart) as (Hw & Hrd & Hsend & Hrecv).
  destruct Htx as (Hr & Hn & Hi & Ha & Hs & Hl). unfold sending in Hl. rewrite Hsend in Hl. rewrite Hw in Hn, Hi. destruct Hm as (Hml & _).
  assert (Hready : tx_ready N B mode (tx_view s0)).
  { refine (conj Hr (conj _ (conj Ha (conj _ (conj Hl (conj Hs Hml)))))); [cbn [tx_view iv_obj]; rewrite Hn; by apply slot_range|].
    cbn [tx_view iv_obj]. rewrite Hi. apply wrapU_uint. lia. }
  destruct Hq as (Hpings & _). unfold held in Hpings. rewrite Hw, Hrd, Hrecv in Hpings. apply Forall2_nil_inv_l in Hpings.
  cbn [length] in Hlen.
  destruct (write_runs N B mode HN HB Hsize (tx_view s0) oldest Hready) as (v1 & Hgo1 & Hv1 & Hk1 & Hpo1 & Hn1 & (l & Hl1 & Hp1) & _);
    [unfold room, pings; cbn [tx_view iv_ping]; rewrite Hpings; cbn; lia|by apply Forall_cons in Hbs as [? _]|].
  apply Forall_cons in Hbs as [_ Hbs]. apply Forall_app in Hbs as [Hbs Hnewest]. apply Forall_cons in Hnewest as [Hnewest _].
  assert (Hp0 : pings (tx_view s0) = []) by exact Hpings. rewrite Hp0 in Hp1. cbn [app] in Hp1.
  assert (Hcap1 : mq_capacity (iv_ping v1) = mq_capacity (sy_ping s0)) by (by destruct Hk1 as (_ & -> & _)).
  destruct (writes_run N B mode HN HB Hsize blocks v1 1 Hv1) as (v2 & ls & Hgo2 & Hv2 & Hn2 & Hk2 & Hpo2 & Hp2 & Hls & Hab);
    [rewrite Hn1; cbn [tx_view iv_obj]; rewrite Hn; by apply (slot_next N B)|rewrite Hp1; cbn [length]; lia|done|].
  assert (Hcap2 : mq_capacity (iv_ping v2) = mq_capacity (sy_ping s0)) by (destruct Hk2 as (_ & K & _); etrans; [exact K|exact Hcap1]).
  rewrite Hp1 in Hp2. cbn [app] in Hp2.
  destruct (write_runs N B mode HN HB Hsize v2 newest Hv2) as (v3 & Hgo3 & Hv3 & Hk3 & Hpo3 & _ & (l3 & Hl3 & Hp3) & Hcopy);
    [unfold room; rewrite Hp2, Hcap2; cbn [length]; lia|exact Hnewest|].
  assert (Hslot : slot N (1 + length blocks) = slot N 0) by (unfold slot; replace (1 + Z.of_nat (1 + length blocks)) with (1 + Z.of_nat 0 + 1 * N) by lia; by apply Z.mod_add; lia).
  rewrite Hn2, Hslot in Hcopy. cbn [tx_view iv_obj] in Hl1. rewrite Hn in Hl1.
  rewrite Hn2, Hslot in Hl3. pose proof (slot_range N HN 0) as Hsr. apply copy_back in Hcopy as [Hl2 Hback].
  assert (Hku : is_u32 (ip_idx (sy_tx s0))) by (rewrite Hi; apply wrapU_uint; lia).
  set (rv := mkIpcView (sy_rx s0) (iv_ping v3) (iv_pong v3) (iv_mem v3)).
  assert (Hkept : mq_kept (sy_ping s0) (iv_ping v3)).
  { destruct Hk1 as (_ & K1 & K2), Hk2 as (_ & K3 & K4), Hk3 as (K5 & K6 & K7). cbn [tx_view iv_ping] in *. unfold mq_kept. by rewrite K6, K7, K3, K4. }
  destruct (read_runs N B mode rv l (ls ++ [l3]) (ip_idx (sy_tx s0)) (slot N 0)) as (block & v4 & Hb & Hgo4); try done.
  - eapply ring_ready_kept; [exact (proj1 Hrx)|exact Hkept|]. rewrite Hpo3, Hpo2, Hpo1. by destruct (ring_ready_oks _ _ _ _ _ Hr) as [_ ?].
  - destruct Hrx as (_ & _ & Hlk & _). unfold receiving in Hlk. by rewrite Hrecv in Hlk.
  - by destruct Hrx as (_ & ? & _).
  - cbn [rv iv_mem]. by destruct Hv3 as (_ & _ & _ & _ & _ & _ & ?).
  - unfold rv, pings. cbn [iv_ping]. fold (pings v3). by rewrite Hp3, Hp2.
  - constructor; [by exists (ip_idx (sy_tx s0)), (slot N 0)|]. apply Forall_app. split; [exact Hab|]. constructor; [|constructor].
    destruct Hv2 as (_ & _ & _ & Hiu & _). by exists (ip_idx (iv_obj v2)), (slot N 0).
  - exists v3, v4. split.
    + change (oldest :: blocks ++ [newest]) with ([oldest] ++ blocks ++ [newest]). rewrite !length_app, !replicate_add.
      eapply mapM_then; [cbn [mapM]; rewrite (st_bind_eq _ _ _ _ _ Hgo1); reflexivity|].
      eapply mapM_then; [exact Hgo2|]. cbn [mapM]. by rewrite (st_bind_eq _ _ _ _ _ Hgo3).
    + cbn [rv iv_mem] in Hb. rewrite Hback in Hb. injection Hb as <-. exact Hgo4.
Qed.

(** a ping queue of ten messages, two blocks of one byte *)
Lemma ipc_ring_overwrites_witness :
  let env := Build_IpcEnv ListMq (fun _ _ => true) (fun _ => None) Some in
  exists s0, ipc_start 5 true eB_NonBlocking 2 1 (mkListMq 10 64 []) (mkListMq 10 64 []) [0; 0] = Some s0 /\
    exists v1 v2, mapM IpcRingBuffer_Write [[7]; [8]; [9]] (tx_view s0) = Some ([eR_OK; eR_OK; eR_OK], v1) /\
      IpcRingBuffer_Read (mkIpcView (sy_rx s0) (iv_ping v1) (iv_pong v1) (iv_mem v1)) = Some ((eR_OK, Some [9]), v2).
Proof.
  cbv zeta. set (env := Build_IpcEnv _ _ _ _). set (q := mkListMq 10 64 []).
  assert (Hq : (fun s => (sy_ping s, sy_pong s)) <$> ipc_start 5 true eB_NonBlocking 2 1 q q [0; 0] = Some (q, q)) by (vm_compute; reflexivity).
  destruct (ipc_start 5 true eB_NonBlocking 2 1 q q [0; 0]) as [s0|] eqn:Hs0; [|done]. injection Hq as Hping Hpong. exists s0. split; [reflexivity|].
  apply (@ipc_ring_overwrites ListMq _ _ env 5 true eB_NonBlocking 2 1 q q [0; 0] s0 [7] [[8]] [9]);
    [lia|lia|lia|reflexivity|exact Hs0|rewrite Hping; cbn; lia|rewrite Hpong; cbn; lia|rewrite Hping; cbn; lia|reflexivity|].
  repeat (constructor; [cbn; lia|]). constructor.
Defined.

Section waiting.
Context {Q : Type} `{!PosixMq Q} `{!IpcEnv Q}.
Implicit Types v : IpcView Q.

(** what [getBufferFill] gives where nothing was acknowledged *)
Lemma fill_of_receiver v :
  2 <= ip_blocks (iv_obj v) < 2 ^ 31 -> 0 <= ip_next_block (iv_obj v) < ip_blocks (iv_obj v) -> ip_last_block_ack (iv_obj v) = 0 ->
  getBufferFill v = Some (if ip_next_block (iv_obj v) =? 0 then ip_blocks (iv_obj v) - 1 else ip_next_block (iv_obj v) - 1, v).
Proof.
  intros HN Hn Ha. unfold getBufferFill. rewrite ipc_gets_bind. unfold id, buffer_fill. rewrite Ha. change (2 ^ 31) with 2147483648 in HN.
  set (n := ip_next_block (iv_obj v)) in *. set (m := ip_blocks (iv_obj v)) in *. destruct (Z.eqb_spec n 0) as [->|Hne].
  - change (s32 (u32 (0 - 0 - 1))) with (- 1). cbn [Z.leb Z.compare]. assert (Hs : s32 (u32 (- 1 + m)) = m - 1) by div_lia. rewrite Hs. by destruct (Z.leb_spec 0 (m - 1)); [|lia].
  - destruct (Z.leb_spec n 0); [lia|]. assert (Hs : s32 (u32 (n - 0 - 1)) = n - 1) by div_lia. rewrite Hs. by destruct (Z.leb_spec 0 (n - 1)); [|lia].
Qed.

(** [Wait] returns and leaves the object alone, as long as it is asked *)
Definition polls_go_on : Prop := forall v : IpcView Q, exists v1, ipc_poll v = Some v1 /\ iv_obj v1 = iv_obj v.

Lemma waits_on n : forall v, polls_go_on -> getBufferFill v = Some (0, v) -> (forall w : IpcView Q, iv_obj w = iv_obj v -> getBufferFill w = Some (0, w)) ->
  exists w, waitForRead_turns n v = Some (None, w) /\ iv_obj w = iv_obj v.
Proof.
  induction n as [|n IH]; intros v Hpoll Hv Hall; [by exists v|]. destruct (Hpoll v) as (v1 & Hp & Ho).
  destruct (IH v1 Hpoll (Hall v1 Ho)) as (w & Hw & How); [intros w Hw; apply Hall; congruence|].
  exists w. split; [|congruence]. cbn [waitForRead_turns].
  rewrite (st_bind_eq _ _ v None v1); [exact Hw|]. unfold waitForRead_turn. rewrite (st_bind_eq _ _ _ _ _ Hv). cbn [Z.eqb].
  rewrite (st_bind_eq _ _ v () v1); [done|]. unfold ping_wait. by rewrite Hp.
Qed.
End waiting.

(** C27: [waitForRead] does not look at the queue.  In whatever state the two
    processes have reached, in the regime where the ring is a queue (in the
    non-blocking mode more blocks than the ping queue takes messages, in the
    blocking mode capacity + 1 < blocks), the receiver has never moved its
    [m_last_block_ack] from 0.  So when its next block is block 1, as at the
    beginning and at every wrap to it, every number of turns of the loop ends in
    another turn, however many blocks have been written, as long as [Wait]
    returns; and when it is another block the first turn reports a block, even
    when there is none. *)
Theorem waitForRead_ignores_queue {Q} `{!PosixMq Q} `{!PosixMqLaws Q} `{!IpcEnv Q} fuel tx_master mode N B (ping pong : Q) mem s0 es s1 :
  2 <= N -> 0 < B -> N * B < 2 ^ 31 -> Z.of_nat (length mem) = N * B ->
  ipc_start fuel tx_master mode N B ping pong mem = Some s0 ->
  28 <= mq_size (sy_ping s0) -> 28 <= mq_size (sy_pong s0) ->
  (if mode is eB_Blocking then mq_capacity (sy_ping s0) + 1 else mq_capacity (sy_ping s0)) < N ->
  Forall (event_ok B) es -> ipc_run es s0 = Some s1 -> polls_go_on ->
  ip_last_block_ack (sy_rx s1) = 0 /\
  if ip_next_block (sy_rx s1) =? 1 then forall n, exists w, waitForRead_turns n (rx_view s1) = Some (None, w) /\ iv_obj w = sy_rx s1
  else waitForRead_turns 1 (rx_view s1) = Some (Some eR_OK, rx_view s1).
Proof.
  intros HN HB Hsize Hmem Hstart Hping Hpong Hlarge Hes Hrun Hpoll.
  pose proof (start_inv fuel tx_master mode N B ping pong mem s0 HN HB Hsize Hmem Hstart Hping Hpong) as Hinv.
  destruct (ipc_run_keeps N B mode _ _ HN HB Hsize Hlarge es s0 Hinv Hes) as (s2 & Hrun2 & Hs1 & _). rewrite Hrun in Hrun2. injection Hrun2 as <-.
  destruct Hs1 as (_ & ((HNb & _) & _ & _ & Ha & Hn) & _). split; [done|]. cbn [rx_view iv_obj] in HNb.
  assert (Hf : forall w : IpcView Q, iv_obj w = sy_rx s1 -> getBufferFill w = Some (if ip_next_block (sy_rx s1) =? 0 then N - 1 else ip_next_block (sy_rx s1) - 1, w)).
  { intros w Hw. rewrite fill_of_receiver; rewrite ?Hw, ?HNb; [done|nia|done|done]. }
  pose proof (Hf (rx_view s1) eq_refl) as Hv. destruct (Z.eqb_spec (ip_next_block (sy_rx s1)) 1) as [Hone|Hone].
  - rewrite Hone in Hf, Hv. intros n. by apply waits_on.
  - cbn [waitForRead_turns]. set (f := if _ =? 0 then _ else _) in Hv. assert (Hf0 : f <> 0) by (unfold f; destruct (Z.eqb_spec (ip_next_block (sy_rx s1)) 0); lia).
    unfold waitForRead_turn. rewrite (st_bind_eq _ _ (rx_view s1) (Some eR_OK) (rx_view s1)); [done|]. rewrite (st_bind_eq _ _ _ _ _ Hv). by destruct (Z.eqb_spec f 0).
Qed.

(** one block in the queue and none read, and the receiver waits *)
Lemma waitForRead_ignores_queue_witness :
  let env := Build_IpcEnv ListMq (fun _ _ => true) (fun _ => None) Some in
  let q := mkListMq 2 64 [] in
  exists s0, ipc_start 5 true eB_NonBlocking 3 2 q q (replicate 6 0) = Some s0 /\
    exists s1, ipc_run (whole_request [1; 2] ++ [Ev_write_byte; Ev_write_byte; Ev_write_done]) s0 = Some s1 /\ sy_written s1 = [[1; 2]] /\
      exists w, waitForRead_turns 1000 (rx_view s1) = Some (None, w) /\ iv_obj w = sy_rx s1.
Proof.
  cbv zeta. set (env := Build_IpcEnv _ _ _ _). eexists. split; [vm_compute; reflexivity|]. eexists. split; [vm_compute; reflexivity|]. split; [reflexivity|].
  match goal with |- exists w, waitForRead_turns _ (rx_view ?s1) = _ /\ _ =>
    refine (proj2 (@waitForRead_ignores_queue ListMq _ _ env 5 true eB_NonBlocking 3 2 (mkListMq 2 64 []) (mkListMq 2 64 []) (replicate 6 0) _
      (whole_request [1; 2] ++ [Ev_write_byte; Ev_write_byte; Ev_write_done]) s1 _ _ _ _ _ _ _ _ _ _ _) 1000%nat) end;
    [lia|lia|lia|reflexivity|vm_compute; reflexivity|cbn; lia|cbn; lia|cbn; lia| |vm_compute; reflexivity|].
  - cbn; repeat (constructor; [cbn; first [lia|exact I]|]); constructor.
  - intros v. exists v. split; reflexivity.
Defined.
